(* ===== verification/_CoqProject ===== *)
-Q . S2P
Prelude.v
Ring.v
Semaphore.v
MsgQueue.v
ByteSource.v
SpiRamFifo.v
DataBuffer.v
PaRingBuffer.v
I2s.v
AudioRender.v
AudioPlayer.v
TcpPerf.v
PaConverters.v
PaFloat.v
PaProcess.v
PaProcessFrames.v
PaProcessInput.v
PaProcessDuplex.v
PaOpen.v
PaHeap.v
PaSender.v
PaDuplexSession.v
FreeRtosList.v
FreeRtosTasks.v
FreeRtosSwitch.v
FreeRtosTime.v
FreeRtosControl.v
FreeRtosLife.v
FreeRtosQueue.v
FreeRtosWaiting.v
FreeRtosEvents.v
FreeRtosEventsWaiting.v
KernelQueues.v
StartUp.v
