(* ===== verification/Prelude.v ===== *)
(** * The WiFi speaker: a verification of its firmware and its sender

    The program.  A Windows program records sound and sends it over TCP; the
    speaker, an ESP32 running FreeRTOS, receives the packets, buffers them,
    parses the byte stream and pushes the samples into the I2S peripheral.  The
    parts under src/, and how they interact:

    - sender (WIN32/build/TestPA/TestPA.cpp): an audio callback fills one packet,
      a thread sends it;
    - PortAudio (WIN32/src/), between the sound card and that callback: the WASAPI
      binding (hostapi/wasapi/pa_win_wasapi.c) passes the card's packets to the
      buffer processor (common/pa_process.c), which converts the samples
      (common/pa_converters.c, pa_dither.c) and cuts them into the blocks the
      callback asks for; its lock-free ring (common/pa_ringbuffer.c);
    - network tasks (ESP32/main/tcp_perf.c): WiFi events, a server that starts one
      receive task per connection, and a player task that parses packets;
    - start-up (ESP32/main/master.c): WiFi station, renderer, buffer, server task;
    - audio buffer ring (ESP32/main/data_buffer.c) between those two tasks, and
      the byte FIFO (ESP32/components/fifo/spiram_fifo.c) that plays the same part
      in the other configuration of the firmware, filled by the stream consumer
      (ESP32/components/audio_player/audio_player.c) that starts the player;
    - renderer (ESP32/components/audio_render/audio_render.c): packs samples and
      pushes them to the I2S driver;
    - I2S driver (ESP32/components/driver/i2s.c): registers, clock, DMA queues,
      interrupt handler;
    - FreeRTOS (ESP32/components/freertos/): lists (list.c), the scheduler's
      blocking and waking (tasks.c), queues, semaphores and mutexes (queue.c),
      event groups (event_groups.c).

    Conventions (this file).  C code that can fail is a computation in [res], and
    stateful code one in [st S], the state monad over [res].  A [Fault] is an
    undefined or fatal behaviour (an access outside an object, a null pointer, a
    division by zero, a failed assertion, ...), so "the run returns" is the
    statement of memory safety and totality.  Machine integers are [Z] with their
    wrap-around written as [wrap_u w] and [wrap_s w]; bytes are [Z] below 256;
    memory objects are lists, read and written by [memcpy_from] and [memcpy_to],
    which fault outside the object.  Definitions carry the names of the source.

    * Files, parts and theorems

    - Ring: the arithmetic of circular storage, shared by the FIFOs.
    - ByteSource, MsgQueue, Semaphore: interfaces (type classes with laws) between
      components.  The packet parser is verified against [ByteSourceLaws], which
      the buffer ring's reader discharges (DataBuffer); the I2S driver against
      [MsgQueueLaws]; the byte FIFO against [BinarySemaphoreLaws].
    - DataBuffer (data_buffer.c): [buffer_write_data] and [buffer_read_data] as the
      iterations of their loops, which the two tasks interleave.  Theorems: FIFO
      refinement of orderly runs, the behaviour of whole calls, the fill level,
      and what goes wrong when one side overtakes the other.
    - SpiRamFifo (spiram_fifo.c): the critical sections of reader and writer;
      FIFO refinement over all interleavings, progress (no lost wake-up), the
      whole calls, and the deadlock of the reset.
    - PaRingBuffer (pa_ringbuffer.c): index arithmetic modulo twice the size;
      FIFO refinement over all interleavings of one reader and one writer, with
      the regions the two sides touch kept disjoint; termination of the calls.
    - I2s (i2s.c): the register file is a map from port and field to a word, the
      heap an allocator that may fail at any call.  Theorems: transfers (also with
      interrupts during their waits), the interrupt handler, creating and destroying DMA queues (also when memory runs
      out), the clock, installation and removal without leaks.
    - AudioRender (audio_render.c, wav.h): configuration, start, [render_samples]
      with the interrupts that arrive while it waits for room.
    - AudioPlayer (audio_player.c): the stream consumer, the player's commands and
      the task render_audio as a step relation; the bytes rendered are a prefix of
      the bytes consumed, and each stream starts the task once.
    - TcpPerf (tcp_perf.c, TestPA.cpp): the parser on any byte source, the round
      trip from recorded frames to rendered samples, the receive task, the server
      and the WiFi events, and the missing checks on packet lengths.
    - PaConverters (pa_converters.c, pa_dither.c): memory with pointers, the formats,
      the converters between integer formats and their selection.  A converter is
      used through the law [converts] (strided samples in, strided samples out,
      nothing else touched).  Theorem: widening and back is the identity.
    - PaFloat: the converters from and to float, over IEEE values as SpecFloat
      computes them; every selection of the tables yields a converter that keeps
      the law, five unimplemented ones apart.
    - PaProcess (pa_process.c, two functions of pa_win_wasapi.c): the buffer
      processor as a state monad over [processor]; one definition for each
      function, and one for the body of each of its loops.  Theorem: what
      CalculateFrameShift's search computes.
    - PaProcessFrames: samples and frames as bytes in the host's and the user's
      layouts; what one conversion step does to them.  PaProcessInput: block
      adaption of an input stream refines pushing its frames one by one
      ([pushes]).  PaProcessDuplex: one full-duplex call, against a callback known
      by the law [DuplexCallback].  PaOpen: what initialization leaves.
      PaHeap: what it leaves behind when an allocation fails, and after termination.
    - PaSender: from opening the sender's stream and the card's packets to the
      bytes on the wire, with the callback of TcpPerf.  PaDuplexSession: a
      full-duplex stream over its whole life; the latency suffices, no host buffer
      is left short.
    - FreeRtosList (list.c): lists as fields indexed by the address of an item;
      refinement to sequences for every legal sequence of operations, the order of
      vListInsert, fairness of the round-robin walk.
    - FreeRtosSwitch (vTaskSwitchContext of tasks.c) on those lists with their walk
      index: what the two cores may and may not pick, and how a task can starve.
    - FreeRtosTasks (tasks.c): one [kernel] state for tasks, lists, ticks, queues
      and event groups.  A list is here the sequence FreeRtosList proves it to be;
      the walk index of a ready list is FreeRtosSwitch's matter.
      Its lemmas carry the invariant [kwf] (containers and lists agree) through
      every move of a task.
    - FreeRtosQueue (queue.c): a blocking call is the sequence of its critical
      sections ([call_step]); between two of them anything may run.  Theorems:
      refinement to a bounded list, mutexes with priority inheritance, creation.
    - FreeRtosTime (tasks.c): inversion of runs, [calm] (what a tick or a resume
      may change), the tick across the wrap of its count, time-outs.  A task that
      waits n ticks is woken by the n-th tick and by none before.
    - FreeRtosControl (tasks.c): delays, suspending and resuming, priorities, the
      reported state of a task.  Theorems: vTaskDelayUntil keeps its period across
      every wrap, a suspended task stays so, what a new priority changes.
    - FreeRtosLife (tasks.c): creation, start of the scheduler, deletion, the idle
      task's collection, with the memory they use.  Theorems: the scheduler starts
      in the state every other theorem of the kernel assumes, every call keeps it,
      a task's life leaves nothing behind, and the race of a task that deletes
      itself with the other core's idle task.
    - FreeRtosWaiting: a step relation in which the sections of the calls on
      queues, the calls from interrupts, the tick, the switch and suspensions of
      the scheduler interleave on two cores; no wake-up is lost.  A reset of a
      queue is not among its steps (it wakes one sender only).
    - FreeRtosEvents (event_groups.c): a call that waits is its section up to the
      switch and its section after it.  Theorems: setting bits wakes exactly the
      waiters whose request is met, waiting on every branch, the rendezvous.
    - FreeRtosEventsWaiting: the interleaving of those sections; no event is
      missed.
    - KernelQueues: the kernel's queues discharge [MsgQueueLaws], and its binary
      semaphores [BinarySemaphoreLaws], so that the driver's and the FIFO's theorems
      hold on the modelled kernel.
    - StartUp (master.c, the WiFi part of tcp_perf.c): [app_main], the WiFi event
      handler on the kernel's event groups, the sockets; from power-on, what the
      sender sends is what is rendered, as far as complete buffers make it readable.
    In both interleavings of the kernel a critical section is one step.  That is
    what its mutexes give for queues.  For event groups it holds while a walk over
    the waiters has the lists to itself ([walks_alone]): on core 1 the tick of
    core 0 takes another mutex, and a walk begun while a waiter there can time out
    is the fault [DataRace].

    Where the code leaves an object.  Five accesses of the code go beyond the
    object they are made through; each is a fault of the model unless a parameter
    of the memory says that it does no harm, and the theorems that need it say so:
    - [stray_read] (FreeRtosTasks): taskYIELD_OTHER_CORE reads pxCurrentTCB at the
      affinity of a task before testing it; for a task without affinity that is
      the index INT_MAX;
    - [marker_word] (FreeRtosSwitch): vTaskSwitchContext reads the owner of the end
      marker of a ready list, a structure without that field;
    - [dummy_room] (I2s): the interrupt handler receives events of eight bytes into
      an int; as nobody reads the firmware's event queue, of one entry, the second
      interrupt does so;
    - the room of the caller's buffer (SpiRamFifo, AudioPlayer): spiRamFifoRead
      looks at the fill level twice, and a store in between can make it read more
      than it was asked for; the theorems name this as their only fault;
    - the macros of list.h that read an owner fault on the marker, that is on an
      empty list ([get_owner] in FreeRtosList).
    Tasks that an interrupt readies while the scheduler is suspended are parked in a
    pending list; that xTaskResumeAll drains it only up to the first task that makes
    it yield is in FreeRtosWaiting ([parked], [drained]).

    Bounds and fuel.  Loops that are not structural take fuel, and each theorem
    about them says how much is enough: the loops of DataBuffer, SpiRamFifo and
    I2s one unit per buffer or chunk of the request; the parser one per packet;
    [find_position] the length of the list; the loops of the buffer processor the
    frames of the call (each round takes one, and the last one none), GCD its
    second argument, CalculateFrameShift the least common multiple; the scheduler's loops the length of
    the list or the number of pended ticks they empty.  Waiting without end is not
    hidden in fuel: it is a constructor of the result ([WSpin], [RWait],
    [WaitsForData], [NotYet], [Blocked]).  A transfer of bytes (I2s) takes the
    interrupts of its waits as an argument; how many there are stands for the time
    the call allows them.

    Interfaces to code not under src/.  The allocator of queues is a parameter;
    sockets deliver an arbitrary list of results; interrupts arrive according to a
    schedule; the WiFi driver is a sequence of events, and the results of the calls
    to the SDK and to the sockets are arguments of StartUp's definitions.  The
    capture and render clients of WASAPI are lists of packets and buffers of any
    sizes; the format float expressions are evaluated in, and what a conversion out
    of the range of its type delivers, belong to the compiler ([Evaluation]).

    * Not modelled

    The ESP-IDF libraries the firmware links (TCP/IP, TLS, Bluetooth, HTTP/2,
    FAT, XML, ...), PortAudio's front end and its host bindings but for the path of
    the audio data through WASAPI (devices, formats, COM and the threads' waiting
    are left out; so are the mono mixers): third-party code this program only
    calls.  Of FreeRTOS: task notifications (every call of them aborts in the
    configuration built), co-routines, timers and trace facilities; the context
    switch and the initial stack frame are assembly and port code.  Of the program:
    printing. *)

From stdpp Require Export base tactics list relations gmap functions.
From Stdlib Require Export ZArith Lia.

#[global] Open Scope Z_scope.

(** ** Faults and the result monad

    The C program is modelled as functions that either return or run into an
    undefined or fatal behaviour.  [Fault] makes these visible, so that memory
    safety and totality are theorems and not conventions. *)

Inductive fault :=
  | OutOfBounds      (* an access outside an object *)
  | NullPointer      (* a null pointer is dereferenced *)
  | DivideByZero     (* integer division by zero *)
  | AssertFailed     (* configASSERT / assert *)
  | SignedOverflow   (* a signed operation leaves its type *)
  | UninitRead       (* memory is used before it is written *)
  | BadFree          (* free of a block that is not allocated *)
  | DataRace         (* two cores access an object without a common lock *)
  | Deadlock         (* the call waits for something nobody can do *)
  | OutOfFuel.       (* the bound of an executable loop was too small *)

#[export] Instance fault_eq_dec : EqDecision fault.
Proof. solve_decision. Defined.

Inductive res (A : Type) :=
  | Ret (a : A)
  | Fault (f : fault).
Arguments Ret {A} a.
Arguments Fault {A} f.

#[export] Instance res_ret : MRet res := fun A a => Ret a.
#[export] Instance res_bind : MBind res := fun A B f m =>
  match m with Ret a => f a | Fault e => Fault e end.
#[export] Instance res_fmap : FMap res := fun A B f m =>
  match m with Ret a => Ret (f a) | Fault e => Fault e end.

Definition res_ok {A} (m : res A) : bool := match m with Ret _ => true | Fault _ => false end.

(** An option that must be present. *)
Definition of_option {A} (e : fault) (o : option A) : res A :=
  match o with Some a => Ret a | None => Fault e end.

Lemma bind_Ret_inv {A B} (m : res A) (f : A -> res B) b :
  m ≫= f = Ret b -> exists a, m = Ret a /\ f a = Ret b.
Proof. destruct m; cbn; [eauto | discriminate]. Qed.

Lemma of_option_Ret_inv {A} e (o : option A) a : of_option e o = Ret a -> o = Some a.
Proof. destruct o; cbn; congruence. Qed.

(** [res_inv] opens every successful bind of the context. *)
Ltac res_inv :=
  repeat match goal with
  | H : _ ≫= _ = Ret _ |- _ =>
      let a := fresh "v" in let H1 := fresh "Hv" in
      apply bind_Ret_inv in H as (a & H1 & H)
  | H : of_option _ _ = Ret _ |- _ => apply of_option_Ret_inv in H
  | H : Ret _ = Ret _ |- _ => injection H as H; try subst
  | H : Fault _ = Ret _ |- _ => discriminate H
  | H : mret _ = Ret _ |- _ => cbn in H
  end.

(** ** Stateful code *)

(** [st S A]: a computation on the state [S] that may fault. *)
Definition st (S A : Type) : Type := S -> res (A * S).
#[export] Instance st_ret {S} : MRet (st S) := fun A a s => Ret (a, s).
#[export] Instance st_bind {S} : MBind (st S) := fun A B f m s =>
  match m s with Ret (a, s') => f a s' | Fault e => Fault e end.

Definition get {S} : st S S := fun s => Ret (s, s).
Definition gets {S A} (f : S -> A) : st S A := fun s => Ret (f s, s).
Definition modify {S} (f : S -> S) : st S unit := fun s => Ret (tt, f s).
Definition throw {S A} (e : fault) : st S A := fun _ => Fault e.
Definition need {S A} (e : fault) (o : option A) : st S A :=
  match o with Some a => mret a | None => throw e end.
Definition when {S} (b : bool) (m : st S unit) : st S unit := if b then m else mret tt.

(** A loop over the elements of a list. *)
Fixpoint for_each {S A} (l : list A) (body : A -> st S unit) : st S unit :=
  match l with
  | [] => mret tt
  | x :: l => body x;; for_each l body
  end.

(** [wp m Q s]: from [s], [m] returns, with [Q] of its result and final state. *)
Definition wp {S A} (m : st S A) (Q : A -> S -> Prop) (s : S) : Prop :=
  match m s with Ret (a, s') => Q a s' | Fault _ => False end.

Section wp_rules.
Context {S A B : Type}.
Implicit Types (s : S).

Lemma wp_ret (a : A) Q s : Q a s -> wp (mret a) Q s.
Proof. done. Qed.

Lemma wp_bind (m : st S A) (f : A -> st S B) Q s :
  wp m (fun a => wp (f a) Q) s -> wp (m ≫= f) Q s.
Proof. unfold wp, mbind, st_bind. by destruct (m s) as [[a s'] |]. Qed.

Lemma wp_mono (m : st S A) (P Q : A -> S -> Prop) s :
  wp m P s -> (forall a s', P a s' -> Q a s') -> wp m Q s.
Proof. unfold wp. destruct (m s) as [[a s'] |]; auto. Qed.

Lemma wp_run (m : st S A) Q s : wp m Q s -> exists a s', m s = Ret (a, s') /\ Q a s'.
Proof. unfold wp. destruct (m s) as [[a s'] |]; [eauto | done]. Qed.

Lemma wp_of_run (m : st S A) (Q : A -> S -> Prop) s a s' : m s = Ret (a, s') -> Q a s' -> wp m Q s.
Proof. unfold wp. by intros ->. Qed.

Lemma wp_get Q s : Q s s -> wp get Q s.
Proof. done. Qed.

Lemma wp_gets (f : S -> A) Q s : Q (f s) s -> wp (gets f) Q s.
Proof. done. Qed.

Lemma wp_modify (f : S -> S) Q s : Q tt (f s) -> wp (modify f) Q s.
Proof. done. Qed.

Lemma wp_need e (o : option A) a Q s : o = Some a -> Q a s -> wp (need e o) Q s.
Proof. by intros ->. Qed.

Lemma wp_when b (m : st S unit) Q s :
  (b = true -> wp m Q s) -> (b = false -> Q tt s) -> wp (when b m) Q s.
Proof. destruct b; cbn; auto. Qed.

End wp_rules.

(** Running a sequence. *)
Lemma run_bind {S A B} (m : st S A) (f : A -> st S B) s a s' :
  m s = Ret (a, s') -> (m ≫= f) s = f a s'.
Proof. unfold mbind, st_bind. by intros ->. Qed.

Lemma run_bind_fault {S A B} (m : st S A) (f : A -> st S B) s e :
  m s = Fault e -> (m ≫= f) s = Fault e.
Proof. unfold mbind, st_bind. by intros ->. Qed.

Lemma run_assoc {S A B C} (m : st S A) (f : A -> st S B) (g : B -> st S C) s :
  ((m ≫= f) ≫= g) s = (m ≫= fun a => f a ≫= g) s.
Proof. unfold mbind, st_bind. by destruct (m s) as [[a s'] |]. Qed.

(** A loop with an invariant over the elements done. *)
Lemma wp_for_each {S A} (l : list A) (body : A -> st S unit) (I : list A -> S -> Prop) Q (s : S) :
  I [] s ->
  (forall done x todo (s : S), l = done ++ x :: todo -> I done s ->
     wp (body x) (fun _ => I (done ++ [x])) s) ->
  (forall s, I l s -> Q tt s) -> wp (for_each l body) Q s.
Proof.
  intros H0 Hs HQ.
  assert (forall done todo s, l = done ++ todo -> I done s -> wp (for_each todo body) Q s) as Hg.
  { intros dn todo. revert dn. induction todo as [| x todo IH]; intros dn s0 El Hi; cbn.
    - apply HQ. by rewrite El, app_nil_r.
    - apply wp_bind. eapply wp_mono; [by apply (Hs dn x todo) |]. intros [] s1 H1.
      apply (IH (dn ++ [x])); [by rewrite <- app_assoc | done]. }
  by apply (Hg [] l).
Qed.

(** One rule of the calculus at the head of the program. *)
Ltac wp_step :=
  cbv beta iota;
  lazymatch goal with
  | |- wp (_ ≫= _) _ _ => apply wp_bind
  | |- wp (mret _) _ _ => apply wp_ret
  | |- wp get _ _ => apply wp_get
  | |- wp (gets _) _ _ => apply wp_gets
  | |- wp (modify _) _ _ => apply wp_modify
  | |- wp (when _ _) _ _ => apply wp_when; intros ?
  | |- wp (need _ (Some _)) _ _ => eapply wp_need; [reflexivity |]
  end.

(** ** Machine integers *)

(** [wrap_u w z] and [wrap_s w z] are the conversions of [z] to an unsigned and
    to a signed [w]-bit integer type. *)
Definition wrap_u (w z : Z) : Z := z mod 2 ^ w.
Definition wrap_s (w z : Z) : Z := (z + 2 ^ (w - 1)) mod 2 ^ w - 2 ^ (w - 1).

Lemma wrap_u_range w z : 0 <= w -> 0 <= wrap_u w z < 2 ^ w.
Proof. intros. apply Z.mod_pos_bound, Z.pow_pos_nonneg; lia. Qed.

Lemma wrap_u_small w z : 0 <= z < 2 ^ w -> wrap_u w z = z.
Proof. apply Z.mod_small. Qed.

Lemma wrap_s_range w z : 0 < w -> - 2 ^ (w - 1) <= wrap_s w z < 2 ^ (w - 1).
Proof.
  intros Hw. unfold wrap_s.
  assert (2 ^ w = 2 * 2 ^ (w - 1)) as E.
  { replace w with (Z.succ (w - 1)) at 1 by lia. rewrite Z.pow_succ_r; lia. }
  pose proof (Z.pow_pos_nonneg 2 (w - 1)).
  pose proof (Z.mod_pos_bound (z + 2 ^ (w - 1)) (2 ^ w)). lia.
Qed.

Lemma wrap_s_small w z : 0 < w -> - 2 ^ (w - 1) <= z < 2 ^ (w - 1) -> wrap_s w z = z.
Proof.
  intros Hw Hz. unfold wrap_s.
  assert (2 ^ w = 2 * 2 ^ (w - 1)) as E.
  { replace w with (Z.succ (w - 1)) at 1 by lia. rewrite Z.pow_succ_r; lia. }
  rewrite Z.mod_small; lia.
Qed.

(** Signed arithmetic in [w] bits: the result must be representable. *)
Definition chk_s (w z : Z) : res Z :=
  if (- 2 ^ (w - 1) <=? z) && (z <? 2 ^ (w - 1)) then Ret z else Fault SignedOverflow.

Lemma chk_s_Ret w z : - 2 ^ (w - 1) <= z < 2 ^ (w - 1) -> chk_s w z = Ret z.
Proof.
  intros. unfold chk_s. destruct (Z.leb_spec (- 2 ^ (w - 1)) z), (Z.ltb_spec z (2 ^ (w - 1))); done || lia.
Qed.

(** ** Ranges of lists *)

Section ranges.
Context {A : Type}.
Implicit Types (l src dst : list A) (off n : Z).

(** [slice off n l] is the [n] elements of [l] from [off]. *)
Definition slice (off n : Z) (l : list A) : list A :=
  take (Z.to_nat n) (drop (Z.to_nat off) l).

(** [blit off src dst] stores [src] into [dst] from [off]. *)
Definition blit (off : Z) (src dst : list A) : list A :=
  take (Z.to_nat off) dst ++ src ++ drop (Z.to_nat off + length src) dst.

Definition zlen (l : list A) : Z := Z.of_nat (length l).

Definition in_range (off n len : Z) : bool :=
  (0 <=? off) && (0 <=? n) && (off + n <=? len).

(** [memcpy (dst + off, src, n)] and [memcpy (_, src + off, n)]: the accessed
    range must lie inside the object. *)
Definition memcpy_to (dst : list A) (off : Z) (src : list A) : res (list A) :=
  if in_range off (zlen src) (zlen dst) then Ret (blit off src dst) else Fault OutOfBounds.
Definition memcpy_from (src : list A) (off n : Z) : res (list A) :=
  if in_range off n (zlen src) then Ret (slice off n src) else Fault OutOfBounds.

Lemma in_range_true off n len :
  in_range off n len = true <-> 0 <= off /\ 0 <= n /\ off + n <= len.
Proof. unfold in_range. rewrite !andb_true_iff, !Z.leb_le. tauto. Qed.

Lemma zlen_app l1 l2 : zlen (l1 ++ l2) = zlen l1 + zlen l2.
Proof. unfold zlen. rewrite length_app. lia. Qed.

Lemma zlen_nonneg l : 0 <= zlen l.
Proof. unfold zlen. lia. Qed.

Lemma zlen_nil : zlen [] = 0.
Proof. reflexivity. Qed.

Lemma zlen_cons x l : zlen (x :: l) = 1 + zlen l.
Proof. unfold zlen. cbn [length]. lia. Qed.

Lemma zlen_0_nil l : zlen l = 0 -> l = [].
Proof. destruct l; [done |]. unfold zlen. cbn [length]. lia. Qed.

Lemma zlen_slice off n l :
  0 <= off -> 0 <= n -> off + n <= zlen l -> zlen (slice off n l) = n.
Proof. unfold zlen, slice. rewrite length_take, length_drop. lia. Qed.

Lemma zlen_blit off src dst :
  0 <= off -> off + zlen src <= zlen dst -> zlen (blit off src dst) = zlen dst.
Proof.
  unfold zlen, blit. rewrite !length_app, length_take, length_drop. lia.
Qed.

Lemma blit_prefix off src dst :
  0 <= off -> off + zlen src <= zlen dst ->
  take (Z.to_nat (off + zlen src)) (blit off src dst) = take (Z.to_nat off) dst ++ src.
Proof.
  unfold zlen, blit. intros.
  rewrite app_assoc, take_app_length'; [done |].
  rewrite length_app, length_take. lia.
Qed.

Lemma blit_full off src dst :
  0 <= off -> off + zlen src = zlen dst ->
  blit off src dst = take (Z.to_nat off) dst ++ src.
Proof.
  unfold zlen, blit. intros. rewrite (drop_ge dst), app_nil_r; [done | lia].
Qed.

Lemma slice_app_drop off n l :
  0 <= off -> 0 <= n ->
  slice off n l ++ drop (Z.to_nat (off + n)) l = drop (Z.to_nat off) l.
Proof.
  intros. unfold slice. rewrite Z2Nat.inj_add by lia.
  rewrite <- drop_drop. apply take_drop.
Qed.

Lemma slice_0_take n l : slice 0 n l = take (Z.to_nat n) l.
Proof. reflexivity. Qed.

Lemma memcpy_to_Ret dst off src :
  0 <= off -> off + zlen src <= zlen dst -> memcpy_to dst off src = Ret (blit off src dst).
Proof.
  intros. unfold memcpy_to. rewrite (proj2 (in_range_true _ _ _)); [done |].
  pose proof (zlen_nonneg src). lia.
Qed.

Lemma memcpy_to_inv dst off src r :
  memcpy_to dst off src = Ret r ->
  0 <= off /\ off + zlen src <= zlen dst /\ r = blit off src dst.
Proof.
  unfold memcpy_to. destruct (in_range _ _ _) eqn:E; [| discriminate].
  apply in_range_true in E. intros [= <-]. repeat split; lia.
Qed.

Lemma memcpy_from_Ret src off n :
  0 <= off -> 0 <= n -> off + n <= zlen src -> memcpy_from src off n = Ret (slice off n src).
Proof.
  intros. unfold memcpy_from. rewrite (proj2 (in_range_true _ _ _)); [done | lia].
Qed.

Lemma memcpy_from_inv src off n r :
  memcpy_from src off n = Ret r ->
  0 <= off /\ 0 <= n /\ off + n <= zlen src /\ r = slice off n src.
Proof.
  unfold memcpy_from. destruct (in_range _ _ _) eqn:E; [| discriminate].
  apply in_range_true in E. intros [= <-]. repeat split; lia.
Qed.
End ranges.
Arguments slice : simpl never.
Arguments blit : simpl never.
Arguments zlen : simpl never.

(** Multiples of [c] that differ do so by at least [c]. *)
Lemma divide_step a b c : 0 < c -> (c | a) -> (c | b) -> a < b -> a + c <= b.
Proof. intros Hc [x ->] [y ->] Hlt. assert (x < y) by nia. nia. Qed.

(** Arithmetic with division and remainder by constants. *)
Ltac zdiv := Z.to_euclidean_division_equations; lia.

(** Case analysis on the boolean comparisons of the goal and the context. *)
Ltac case_cmp :=
  repeat match goal with
  | |- context [?a <=? ?b] => destruct (Z.leb_spec a b)
  | |- context [?a <? ?b] => destruct (Z.ltb_spec a b)
  | |- context [?a =? ?b] => destruct (Z.eqb_spec a b)
  | H : context [?a <=? ?b] |- _ => destruct (Z.leb_spec a b)
  | H : context [?a <? ?b] |- _ => destruct (Z.ltb_spec a b)
  | H : context [?a =? ?b] |- _ => destruct (Z.eqb_spec a b)
  end; try lia.

Create HintDb wifi.
Create Rewrite HintDb wifi_len.
#[export] Hint Rewrite @zlen_app @zlen_nil @zlen_cons : wifi_len.
#[export] Hint Resolve zlen_nonneg wrap_u_range : wifi.
