(* ===== verification/Ring.v ===== *)
(** Circular storage: the elements found by counting round a store of [N]
    elements, and how contiguous reads and writes of the store act on them.
    Shared by the components that keep a FIFO in a fixed array. *)

From S2P Require Import Prelude.

Section ring.
Context {A : Type} `{!Inhabited A}.
Context (N : Z) (HN : 0 < N).
Implicit Types (ram src : list A) (pos off n m : Z).

(** The [n] elements from position [pos] on, wrapping at [N]. *)
Definition ring_at (ram : list A) (p : Z) : A := ram !!! Z.to_nat (p mod N).
Definition contents (ram : list A) (pos n : Z) : list A :=
  (fun i => ring_at ram (pos + i)) <$> seqZ 0 n.

Lemma zlen_contents ram pos n : 0 <= n -> zlen (contents ram pos n) = n.
Proof. intros. unfold contents, zlen. rewrite length_fmap, length_seqZ. lia. Qed.

Lemma contents_ext ram ram' pos pos' n :
  (forall i, 0 <= i < n -> ring_at ram (pos + i) = ring_at ram' (pos' + i)) ->
  contents ram pos n = contents ram' pos' n.
Proof.
  intros E. unfold contents. apply list_fmap_ext. intros k i Hk.
  apply lookup_seqZ in Hk as [-> Hk]. apply E. lia.
Qed.

Lemma contents_mod ram pos n : contents ram (pos mod N) n = contents ram pos n.
Proof.
  apply contents_ext. intros i _. unfold ring_at. do 2 f_equal.
  rewrite Z.add_mod_idemp_l by lia. done.
Qed.

Lemma contents_app ram pos n m :
  0 <= n -> 0 <= m ->
  contents ram pos (n + m) = contents ram pos n ++ contents ram (pos + n) m.
Proof.
  intros. unfold contents. rewrite seqZ_app, fmap_app by lia. f_equal.
  replace (seqZ (0 + n) m) with (Z.add n <$> seqZ 0 m)
    by (rewrite fmap_add_seqZ; f_equal; lia).
  rewrite <- list_fmap_compose. apply list_fmap_ext.
  intros k i _. cbn. f_equal. lia.
Qed.

Lemma contents_0 ram pos : contents ram pos 0 = [].
Proof. done. Qed.

Lemma contents_slice ram pos n :
  zlen ram = N -> 0 <= pos -> 0 <= n -> pos + n <= N -> contents ram pos n = slice pos n ram.
Proof.
  intros Hl Hp Hn Hpn. apply list_eq. intros k. unfold contents, slice.
  destruct (decide (k < Z.to_nat n)%nat) as [Hk | Hk].
  - rewrite lookup_take_lt, lookup_drop by done.
    rewrite list_lookup_fmap, lookup_seqZ_lt by lia. cbn [fmap option_fmap option_map].
    unfold ring_at. rewrite Z.mod_small by lia. unfold zlen in Hl.
    rewrite list_lookup_total_alt.
    destruct (lookup_lt_is_Some_2 ram (Z.to_nat pos + k)) as [x Hx]; [lia |].
    replace (Z.to_nat (pos + (0 + Z.of_nat k))) with (Z.to_nat pos + k)%nat by lia. by rewrite Hx.
  - rewrite !lookup_ge_None_2; [done | |].
    + rewrite length_take. lia.
    + rewrite length_fmap, length_seqZ. lia.
Qed.

(** Element [j] after a write of [src] at [off]. *)
Lemma blit_lookup_total off src ram j :
  0 <= off -> off + zlen src <= zlen ram -> 0 <= j < zlen ram ->
  blit off src ram !!! Z.to_nat j
  = if (off <=? j) && (j <? off + zlen src) then src !!! Z.to_nat (j - off)
    else ram !!! Z.to_nat j.
Proof.
  unfold zlen. intros Ho Hs Hj. rewrite !list_lookup_total_alt. unfold blit.
  destruct (Z.leb_spec off j); cbn [andb].
  - rewrite lookup_app_r by (rewrite length_take; lia). rewrite length_take.
    destruct (Z.ltb_spec j (off + Z.of_nat (length src))).
    + rewrite lookup_app_l by lia. do 2 f_equal. lia.
    + rewrite lookup_app_r, lookup_drop by lia. do 2 f_equal. lia.
  - rewrite lookup_app_l by (rewrite length_take; lia).
    rewrite lookup_take_lt by lia. done.
Qed.

(** A write just behind the [n] elements from [pos] leaves them unchanged when
    there is room, and appends to them. *)
Lemma contents_blit_before ram pos n off src :
  zlen ram = N -> 0 <= n -> 0 <= off -> off + zlen src <= N ->
  (pos + n) mod N = off mod N -> n + zlen src <= N ->
  contents (blit off src ram) pos n = contents ram pos n.
Proof.
  intros Hl Hn Ho Hs He Hr. apply contents_ext. intros i Hi. unfold ring_at.
  pose proof (Z.mod_pos_bound (pos + i) N HN).
  rewrite blit_lookup_total by lia.
  destruct (Z.leb_spec off ((pos + i) mod N)); [| done].
  destruct (Z.ltb_spec ((pos + i) mod N) (off + zlen src)); [| done].
  exfalso. revert He. rewrite (Z.mod_small off) by lia.
  pose proof (Z.div_mod (pos + i) N ltac:(lia)). pose proof (Z.div_mod (pos + n) N ltac:(lia)).
  intros He. rewrite He in *.
  assert (N * ((pos + n) / N) + off - (N * ((pos + i) / N) + (pos + i) mod N) = n - i) by lia.
  assert ((pos + n) / N - (pos + i) / N = 0 \/ 1 <= (pos + n) / N - (pos + i) / N
          \/ (pos + n) / N - (pos + i) / N <= -1) as [E | [E | E]] by lia; nia.
Qed.

Lemma contents_blit_prefix ram pos n j off src :
  zlen ram = N -> 0 <= j <= n -> 0 <= off -> off + zlen src <= N ->
  (pos + n) mod N = off mod N -> n + zlen src <= N ->
  contents (blit off src ram) pos j = contents ram pos j.
Proof.
  intros Hl Hj Ho Hs He Hr.
  pose proof (contents_blit_before ram pos n off src Hl ltac:(lia) Ho Hs He Hr) as Hb.
  replace n with (j + (n - j)) in Hb by lia. rewrite !contents_app in Hb by lia.
  apply app_inj_1 in Hb as [Hb _]; [done |].
  unfold contents. by rewrite !length_fmap.
Qed.

Lemma contents_blit_at ram off src :
  zlen ram = N -> 0 <= off -> off + zlen src <= N ->
  contents (blit off src ram) off (zlen src) = src.
Proof.
  intros Hl Ho Hs.
  rewrite contents_slice by (rewrite ?zlen_blit; auto with wifi; lia).
  unfold slice, blit, zlen in *. rewrite drop_app_length' by (rewrite length_take; lia).
  apply take_app_length'. lia.
Qed.

Lemma contents_append ram pos n off src :
  zlen ram = N -> 0 <= n -> 0 <= off -> off + zlen src <= N ->
  (pos + n) mod N = off mod N -> n + zlen src <= N ->
  contents (blit off src ram) pos (n + zlen src) = contents ram pos n ++ src.
Proof.
  intros Hl Hn Ho Hs He Hr. rewrite contents_app by auto with wifi.
  rewrite contents_blit_before by done. f_equal.
  rewrite <- contents_mod, He, contents_mod. by apply contents_blit_at.
Qed.
End ring.
