(* ===== verification/Semaphore.v ===== *)
(** The interface of a FreeRTOS binary semaphore, as the components that block
    on one use it: what [xSemaphoreGive] and [xSemaphoreTake] promise.  A client
    is verified against [BinarySemaphoreLaws]; KernelQueues discharges them for
    the kernel queue of length one that implements a semaphore. *)

From S2P Require Import Prelude.

Class BinarySemaphore (S : Type) := {
  sem_available : S -> bool;
  (* vSemaphoreCreateBinary: created, then given *)
  sem_create : S;
  (* xSemaphoreGive *)
  sem_give : S -> S;
  (* xSemaphoreTake: [None] when the caller has to block *)
  sem_take : S -> option S }.

Class BinarySemaphoreLaws (S : Type) `{BinarySemaphore S} := {
  sem_ok : S -> Prop;
  sem_create_ok : sem_ok sem_create /\ sem_available sem_create = true;
  sem_give_ok s : sem_ok s -> sem_ok (sem_give s) /\ sem_available (sem_give s) = true;
  sem_take_available s :
    sem_ok s -> sem_available s = true ->
    exists s', sem_take s = Some s' /\ sem_ok s' /\ sem_available s' = false;
  sem_take_empty s : sem_ok s -> sem_available s = false -> sem_take s = None }.

(** The specification itself is an instance. *)
#[export] Instance bool_semaphore : BinarySemaphore bool := {
  sem_available := id;
  sem_create := true;
  sem_give := fun _ => true;
  sem_take := fun s => if s then Some false else None }.

#[export] Instance bool_semaphore_laws : BinarySemaphoreLaws bool.
Proof. exists (fun _ => True); [done | done | intros [] _; [by exists false | done] | by intros []]. Defined.

Lemma sem_take_inv {S} `{BinarySemaphoreLaws S} s s' :
  sem_ok s -> sem_take s = Some s' -> sem_available s = true /\ sem_ok s' /\ sem_available s' = false.
Proof.
  intros Hok Ht. destruct (sem_available s) eqn:E.
  - destruct (sem_take_available s Hok E) as (s1 & H1 & ? & ?). simplify_eq. done.
  - rewrite (sem_take_empty s Hok E) in Ht. discriminate.
Qed.
