(* ===== verification/MsgQueue.v ===== *)
(** The interface of a FreeRTOS message queue whose items are machine words, as
    the drivers use it.  A driver is verified against [MsgQueueLaws]; a queue
    is abstractly the list of its items, bounded by its length.  KernelQueues
    discharges the laws; they ask for the size of the storage, four bytes for
    each item, to fit in 32 bits. *)

From S2P Require Import Prelude.

Class MsgQueue (Q : Type) := {
  (* xQueueCreate (length, _) *)
  q_create : Z -> Q;
  (* xQueueIsQueueFullFromISR *)
  q_isfull : Q -> bool;
  (* xQueueSend and xQueueSendFromISR: [None] when the queue is full *)
  q_send : Z -> Q -> option Q;
  (* xQueueReceive and xQueueReceiveFromISR: [None] when the queue is empty *)
  q_receive : Q -> option (Z * Q) }.

Class MsgQueueLaws (Q : Type) `{MsgQueue Q} := {
  q_ok : Q -> Prop;
  q_items : Q -> list Z;
  q_length : Q -> Z;
  q_create_ok n : 0 < n < 2 ^ 30 -> q_ok (q_create n) /\ q_items (q_create n) = [] /\ q_length (q_create n) = n;
  q_bounded q : q_ok q -> zlen (q_items q) <= q_length q;
  q_isfull_ok q : q_ok q -> q_isfull q = (zlen (q_items q) =? q_length q);
  q_send_full q x : q_ok q -> zlen (q_items q) = q_length q -> q_send x q = None;
  q_send_ok q x :
    q_ok q -> zlen (q_items q) < q_length q -> 0 <= x < 2 ^ 32 ->
    exists q', q_send x q = Some q' /\ q_ok q' /\
      q_items q' = q_items q ++ [x] /\ q_length q' = q_length q;
  q_receive_empty q : q_ok q -> q_items q = [] -> q_receive q = None;
  q_receive_ok q x l :
    q_ok q -> q_items q = x :: l ->
    exists q', q_receive q = Some (x, q') /\ q_ok q' /\ q_items q' = l /\ q_length q' = q_length q }.

(** The specification itself: a bounded list. *)
Record bounded := mkBounded { b_length : Z; b_items : list Z }.

#[export] Instance bounded_queue : MsgQueue bounded := {
  q_create n := mkBounded n [];
  q_isfull q := zlen (b_items q) =? b_length q;
  q_send x q := if zlen (b_items q) <? b_length q
                then Some (mkBounded (b_length q) (b_items q ++ [x])) else None;
  q_receive q := match b_items q with [] => None | x :: l => Some (x, mkBounded (b_length q) l) end }.

#[export] Instance bounded_queue_laws : MsgQueueLaws bounded.
Proof.
  refine {| q_ok q := zlen (b_items q) <= b_length q; q_items := b_items; q_length := b_length |}; cbn.
  - intros n Hn. change (zlen []) with 0. repeat split; lia.
  - done.
  - done.
  - intros q x _ E. by rewrite E, Z.ltb_irrefl.
  - intros q x Hq Hl _. rewrite (proj2 (Z.ltb_lt _ _) Hl). eexists. split; [done |]. cbn.
    rewrite zlen_app, zlen_cons, zlen_nil. repeat split; lia.
  - intros q _ ->. done.
  - intros q x l Hq E. rewrite E in *. eexists. split; [done |]. cbn.
    rewrite zlen_cons in Hq. repeat split; lia.
Defined.
