(* ===== verification/ByteSource.v ===== *)
(** The interface between the packet parser and the store it reads its bytes
    from: a read of [n] bytes that are ready delivers them in order.  The value
    a read returns is not part of the promise: the store is free to return 0. *)

From S2P Require Import Prelude.

Class ByteSource (B : Type) := {
  (* the bytes delivered, the call's value and the source; [None] when it waits *)
  src_read : Z -> B -> res (option (list Z * Z * B)) }.

Class ByteSourceLaws (B : Type) `{ByteSource B} := {
  src_ok : B -> Prop;
  (* the bytes that can be read without waiting *)
  src_ready : B -> list Z;
  src_read_ready b n :
    src_ok b -> 0 <= n <= zlen (src_ready b) ->
    exists v b', src_read n b = Ret (Some (take (Z.to_nat n) (src_ready b), v, b')) /\
      src_ok b' /\ src_ready b' = drop (Z.to_nat n) (src_ready b);
  src_read_wait b n : src_ok b -> zlen (src_ready b) < n -> src_read n b = Ret None;
  (* a request that is not positive delivers nothing *)
  src_read_nonpos b n :
    src_ok b -> n <= 0 -> exists v, src_read n b = Ret (Some ([], v, b)) }.

(** The specification itself: a list of bytes. *)
#[export] Instance list_source : ByteSource (list Z) := {
  src_read n l :=
    if n <=? zlen l then Ret (Some (take (Z.to_nat n) l, n, drop (Z.to_nat n) l)) else Ret None }.

#[export] Instance list_source_laws : ByteSourceLaws (list Z).
Proof.
  refine {| src_ok _ := True; src_ready l := l |}.
  - intros l n _ Hn. cbn. rewrite (proj2 (Z.leb_le _ _)) by lia. eauto 10.
  - intros l n _ Hn. cbn. by rewrite (proj2 (Z.leb_gt _ _)) by lia.
  - intros l n _ Hn. cbn. pose proof (zlen_nonneg l). rewrite (proj2 (Z.leb_le _ _)) by lia.
    replace (Z.to_nat n) with 0%nat by lia. eauto.
Defined.
