(* ===== verification/SpiRamFifo.v ===== *)
(** The byte FIFO between the stream consumer and the render task
    (src/ESP32/components/fifo/spiram_fifo.c, with the in-memory buffer that
    FAKE_SPI_BUFF selects): the critical sections, the two tasks that run them,
    the FIFO refinement over all interleavings, and the blocking behaviour. *)

From S2P Require Import Prelude Ring Semaphore.

Section spiram_fifo.
Context {S : Type} `{!BinarySemaphore S}.

(** * The code *)

Definition SPIREADSIZE : Z := 64.
Definition SPIRAMSIZE : Z := 128000.
(* Low watermark where the reader thread is restarted. *)
Definition FIFO_LOWMARK : Z := 112 * 1024.

(** [mux] records that a task holds the mutex while it blocks. *)
Record fifo := mkFifo {
  fifoRpos : Z;
  fifoWpos : Z;
  fifoFill : Z;
  semCanRead : S;
  semCanWrite : S;
  mux : bool;
  fifoOvfCnt : Z;
  fifoUdrCnt : Z;
  fakespiram : list Z }.

(** The FIFO after [spiRamFifoInit], and what it returns ([spiRamTest()]). *)
Definition spiRamFifoInit (ram : list Z) : fifo * Z :=
  (mkFifo 0 0 0 sem_create sem_create false 0 0 ram, 1).

Inductive reset_result :=
  | ResetDone (f : fifo)
  | ResetBlocked (f : fifo).

(** The reset takes [semCanRead] with the mutex held. *)
Definition spiRamFifoReset (f : fifo) : reset_result :=
  if mux f then ResetBlocked f else
  let f1 := mkFifo 0 0 0 (semCanRead f) (sem_give (semCanWrite f)) true 0 0 (fakespiram f) in
  match sem_take (semCanRead f1) with
  | Some s => ResetDone (mkFifo 0 0 0 s (semCanWrite f1) false 0 0 (fakespiram f1))
  | None => ResetBlocked f1
  end.

(** The length of the next chunk: at most [SPIREADSIZE], and not past the end. *)
Definition chunk_len (pos len : Z) : Z :=
  let n := len in
  let n := if SPIREADSIZE <? n then SPIREADSIZE else n in
  if SPIRAMSIZE - pos <? n then SPIRAMSIZE - pos else n.

(** Where a task stands inside its call: the writer with the bytes it still
    holds, the reader with the length still to read and the room left in the
    caller's buffer; at [RClamp] it has found less in the store than it was asked
    for, and will read the fill level a second time. *)
Inductive wpc := WIdle | WLoop (buff : list Z) | WWait (buff : list Z).
Inductive rpc := RIdle | RClamp (room : Z) | RLoop (len room : Z) | RWait (len room : Z).

(** The loop body of [spiRamFifoWrite], from taking to giving the mutex; the
    bytes are those stored.  The counters are of type [long]. *)
Definition write_section (f : fifo) (buff : list Z) : res (fifo * wpc * list Z) :=
  let n := chunk_len (fifoWpos f) (zlen buff) in
  if SPIRAMSIZE - fifoFill f <? n then
    Ret (mkFifo (fifoRpos f) (fifoWpos f) (fifoFill f) (semCanRead f) (semCanWrite f) false
           (wrap_s 32 (fifoOvfCnt f + 1)) (fifoUdrCnt f) (fakespiram f), WWait buff, [])
  else
    chunk ← memcpy_from buff 0 n;
    ram ← memcpy_to (fakespiram f) (fifoWpos f) chunk;
    let wpos := fifoWpos f + n in
    Ret (mkFifo (fifoRpos f) (if SPIRAMSIZE <=? wpos then 0 else wpos) (fifoFill f + n)
           (sem_give (semCanRead f)) (semCanWrite f) false
           (fifoOvfCnt f) (fifoUdrCnt f) ram, WLoop (drop (Z.to_nat n) buff), chunk).

(** The loop body of [spiRamFifoRead]; the bytes are those returned.  The test
    against the low watermark, behind the mutex, is only come to on an underrun,
    which a single reader never meets. *)
Definition read_section (f : fifo) (len room : Z) : res (fifo * rpc * list Z) :=
  let n := chunk_len (fifoRpos f) len in
  if fifoFill f <? n then
    Ret (mkFifo (fifoRpos f) (fifoWpos f) (fifoFill f) (semCanRead f) (semCanWrite f) false
           (fifoOvfCnt f) (wrap_s 32 (fifoUdrCnt f + 1)) (fakespiram f),
         if fifoFill f <? FIFO_LOWMARK then RWait len room else RLoop len room, [])
  else if room <? n then Fault OutOfBounds
  else
    chunk ← memcpy_from (fakespiram f) (fifoRpos f) n;
    let rpos := fifoRpos f + n in
    Ret (mkFifo (if SPIRAMSIZE <=? rpos then 0 else rpos) (fifoWpos f) (fifoFill f - n)
           (semCanRead f) (sem_give (semCanWrite f)) false
           (fifoOvfCnt f) (fifoUdrCnt f) (fakespiram f), RLoop (len - n) (room - n), chunk).

Definition set_semCanRead (f : fifo) (s : S) : fifo :=
  mkFifo (fifoRpos f) (fifoWpos f) (fifoFill f) s (semCanWrite f) (mux f)
    (fifoOvfCnt f) (fifoUdrCnt f) (fakespiram f).
Definition set_semCanWrite (f : fifo) (s : S) : fifo :=
  mkFifo (fifoRpos f) (fifoWpos f) (fifoFill f) (semCanRead f) s (mux f)
    (fifoOvfCnt f) (fifoUdrCnt f) (fakespiram f).

(** One atomic move of the writer and of the reader inside a call; [None] when
    the task has nothing to do or is blocked. *)
Definition writer_move (f : fifo) (pc : wpc) : res (option (fifo * wpc * list Z)) :=
  match pc with
  | WIdle => Ret None
  | WLoop buff =>
      if 0 <? zlen buff
      then if mux f then Ret None else r ← write_section f buff; Ret (Some r)
      else Ret (Some (f, WIdle, []))
  | WWait buff =>
      match sem_take (semCanWrite f) with
      | Some s => Ret (Some (set_semCanWrite f s, WLoop buff, []))
      | None => Ret None
      end
  end.

Definition reader_move (f : fifo) (pc : rpc) : res (option (fifo * rpc * list Z)) :=
  match pc with
  | RIdle => Ret None
  | RClamp room => Ret (Some (f, RLoop (fifoFill f) room, []))
  | RLoop len room =>
      if 0 <? len
      then if mux f then Ret None else r ← read_section f len room; Ret (Some r)
      else Ret (Some (f, RIdle, []))
  | RWait len room =>
      match sem_take (semCanRead f) with
      | Some s => Ret (Some (set_semCanRead f s, RLoop len room, []))
      | None => Ret None
      end
  end.

(** The entry of [spiRamFifoRead], into a buffer of [room]: a request for more than
    there is will be cut to what there is.  The fill level is read without the
    mutex, for the test and again for the cut. *)
Definition read_entry (f : fifo) (len room : Z) : rpc :=
  if len <=? 0 then RIdle else if fifoFill f <? len then RClamp room else RLoop len room.

(** The length with which the loop starts, which is the call's value. *)
Definition read_value (f : fifo) (pc : rpc) : Z :=
  match pc with RIdle => 0 | RClamp _ => fifoFill f | RLoop len _ | RWait len _ => len end.

Definition spiRamFifoFill (f : fifo) : option Z := if mux f then None else Some (fifoFill f).
Definition spiRamFifoFree (f : fifo) : option Z :=
  fill ← spiRamFifoFill f; Some (SPIRAMSIZE - fill).
Definition spiRamFifoLen : Z := SPIRAMSIZE.
Definition spiRamGetOverrunCt (f : fifo) : option Z := if mux f then None else Some (fifoOvfCnt f).
Definition spiRamGetUnderrunCt (f : fifo) : option Z := if mux f then None else Some (fifoUdrCnt f).

(** A whole call while the other task does not run: the state in which it
    returned ([true]) or blocked ([false]), with the bytes read and the call's
    value, or with the bytes not yet stored. *)
Fixpoint run_reader (fuel : nat) (f : fifo) (pc : rpc) (out : list Z) : res (fifo * rpc * list Z) :=
  match fuel with
  | O => Fault OutOfFuel
  | Datatypes.S fuel =>
      m ← reader_move f pc;
      match m with
      | Some (f', pc', bs) => run_reader fuel f' pc' (out ++ bs)
      | None => Ret (f, pc, out)
      end
  end.

Definition spiRamFifoRead (f : fifo) (len : Z) : res (fifo * rpc * list Z * Z) :=
  let pc := read_entry f len len in
  r ← run_reader (Z.to_nat len + 3) f pc []; Ret (r, read_value f pc).

Fixpoint run_writer (fuel : nat) (f : fifo) (pc : wpc) : res (fifo * wpc) :=
  match fuel with
  | O => Fault OutOfFuel
  | Datatypes.S fuel =>
      m ← writer_move f pc;
      match m with
      | Some (f', pc', _) => run_writer fuel f' pc'
      | None => Ret (f, pc)
      end
  end.

(** Each round stores a byte or takes the semaphore, which nobody gives back. *)
Definition spiRamFifoWrite (f : fifo) (buff : list Z) : res (fifo * wpc) :=
  run_writer (length buff + 6) f (WLoop buff).

(** * The invariant and the critical sections *)

Context `{!BinarySemaphoreLaws S}.

Record fifo_ok (f : fifo) : Prop := {
  ok_rpos : 0 <= fifoRpos f < SPIRAMSIZE;
  ok_wpos : 0 <= fifoWpos f < SPIRAMSIZE;
  ok_fill : 0 <= fifoFill f <= SPIRAMSIZE;
  ok_link : (fifoRpos f + fifoFill f) mod SPIRAMSIZE = fifoWpos f;
  ok_ram : zlen (fakespiram f) = SPIRAMSIZE;
  ok_mux : mux f = false;
  ok_semr : sem_ok (semCanRead f);
  ok_semw : sem_ok (semCanWrite f) }.

(** The byte queue the FIFO holds. *)
Definition stored (f : fifo) : list Z := contents SPIRAMSIZE (fakespiram f) (fifoRpos f) (fifoFill f).

Lemma chunk_len_spec pos len :
  0 <= pos < SPIRAMSIZE -> 0 < len ->
  0 < chunk_len pos len /\ chunk_len pos len <= SPIREADSIZE /\ chunk_len pos len <= len /\
  pos + chunk_len pos len <= SPIRAMSIZE.
Proof. unfold chunk_len, SPIREADSIZE, SPIRAMSIZE. intros. case_cmp. Qed.

(** Advancing a position over a chunk, wrapping at the end. *)
Lemma advance_pos pos n :
  0 <= pos -> 0 <= n -> pos + n <= SPIRAMSIZE ->
  (if SPIRAMSIZE <=? pos + n then 0 else pos + n) = (pos + n) mod SPIRAMSIZE.
Proof.
  intros. destruct (Z.leb_spec SPIRAMSIZE (pos + n)).
  - replace (pos + n) with SPIRAMSIZE by lia. done.
  - rewrite Z.mod_small; lia.
Qed.

Lemma SPIRAMSIZE_pos : 0 < SPIRAMSIZE.
Proof. done. Qed.

Lemma write_section_spec f buff :
  fifo_ok f -> 0 < zlen buff ->
  let n := chunk_len (fifoWpos f) (zlen buff) in
  (SPIRAMSIZE - fifoFill f < n /\
   write_section f buff =
     Ret (mkFifo (fifoRpos f) (fifoWpos f) (fifoFill f) (semCanRead f) (semCanWrite f) false
           (wrap_s 32 (fifoOvfCnt f + 1)) (fifoUdrCnt f) (fakespiram f), WWait buff, [])) \/
  (n <= SPIRAMSIZE - fifoFill f /\ exists f',
   write_section f buff = Ret (f', WLoop (drop (Z.to_nat n) buff), take (Z.to_nat n) buff) /\
   fifo_ok f' /\ stored f' = stored f ++ take (Z.to_nat n) buff /\
   fifoFill f' = fifoFill f + n /\ fifoUdrCnt f' = fifoUdrCnt f /\
   semCanWrite f' = semCanWrite f /\ sem_available (semCanRead f') = true).
Proof.
  intros [] Hb n. destruct (chunk_len_spec (fifoWpos f) (zlen buff)) as (H1 & H2 & H3 & H4); [done.. |].
  fold n in H1, H2, H3, H4. unfold write_section. fold n.
  destruct (Z.ltb_spec (SPIRAMSIZE - fifoFill f) n) as [Hf | Hf]; [by left |]. right.
  split; [done |]. rewrite memcpy_from_Ret by lia. cbn [mbind res_bind].
  assert (zlen (slice 0 n buff) = n) as Hc by (apply zlen_slice; lia).
  rewrite memcpy_to_Ret by lia. cbn [mbind res_bind].
  eexists. split; [done |].
  destruct (sem_give_ok (semCanRead f)) as [Hg1 Hg2]; [done |].
  rewrite advance_pos by lia. split_and!; try done.
  - constructor; cbn; try done.
    + apply Z.mod_pos_bound, SPIRAMSIZE_pos.
    + lia.
    + rewrite <- ok_link0, Z.add_mod_idemp_l by done. f_equal. lia.
    + rewrite zlen_blit; lia.
  - unfold stored. cbn.
    pose proof (contents_append SPIRAMSIZE SPIRAMSIZE_pos (fakespiram f) (fifoRpos f) (fifoFill f)
      (fifoWpos f) (slice 0 n buff)) as Ha.
    rewrite Hc in Ha. apply Ha; try lia. rewrite ok_link0, Z.mod_small; lia.
Qed.

Lemma read_section_spec f len room :
  fifo_ok f -> 0 < len ->
  let n := chunk_len (fifoRpos f) len in
  (fifoFill f < n /\ read_section f len room =
     Ret (mkFifo (fifoRpos f) (fifoWpos f) (fifoFill f) (semCanRead f) (semCanWrite f) false
           (fifoOvfCnt f) (wrap_s 32 (fifoUdrCnt f + 1)) (fakespiram f),
          if fifoFill f <? FIFO_LOWMARK then RWait len room else RLoop len room, [])) \/
  (n <= fifoFill f /\ room < n /\ read_section f len room = Fault OutOfBounds) \/
  (n <= fifoFill f /\ n <= room /\ exists f' bs,
   read_section f len room = Ret (f', RLoop (len - n) (room - n), bs) /\ zlen bs = n /\
   fifo_ok f' /\ stored f = bs ++ stored f' /\
   fifoFill f' = fifoFill f - n /\ fifoWpos f' = fifoWpos f /\ fifoUdrCnt f' = fifoUdrCnt f /\
   sem_available (semCanWrite f') = true).
Proof.
  intros [] Hb n. destruct (chunk_len_spec (fifoRpos f) len) as (H1 & H2 & H3 & H4); [done.. |].
  fold n in H1, H2, H3, H4. unfold read_section. fold n.
  destruct (Z.ltb_spec (fifoFill f) n) as [Hf | Hf]; [by left |]. right.
  destruct (Z.ltb_spec room n) as [Hr | Hr]; [by left |]. right.
  split; [done |]. split; [done |]. rewrite memcpy_from_Ret by lia. cbn [mbind res_bind].
  eexists _, _. split; [done |].
  destruct (sem_give_ok (semCanWrite f)) as [Hg1 Hg2]; [done |].
  rewrite advance_pos by lia. split_and!; try done.
  - apply zlen_slice; lia.
  - constructor; cbn; try done.
    + apply Z.mod_pos_bound, SPIRAMSIZE_pos.
    + lia.
    + rewrite Z.add_mod_idemp_l by done. rewrite <- ok_link0. f_equal. lia.
  - unfold stored. cbn. rewrite (contents_mod _ SPIRAMSIZE_pos).
    replace (fifoFill f) with (n + (fifoFill f - n)) at 1 by lia.
    rewrite contents_app by lia. f_equal. by apply contents_slice; lia.
Qed.

(** * Interleavings *)

Record sys := mkSys { mem : fifo; wr : wpc; rd : rpc }.

(** One move of the system, with the bytes it stored and the bytes it read. *)
Inductive sys_step : sys -> list Z -> list Z -> sys -> Prop :=
  | call_write s buff :
      wr s = WIdle -> sys_step s [] [] (mkSys (mem s) (WLoop buff) (rd s))
  | call_read s len room :
      rd s = RIdle -> len <= room -> sys_step s [] [] (mkSys (mem s) (wr s) (read_entry (mem s) len room))
  | move_writer s f' pc' bs :
      writer_move (mem s) (wr s) = Ret (Some (f', pc', bs)) ->
      sys_step s bs [] (mkSys f' pc' (rd s))
  | move_reader s f' pc' bs :
      reader_move (mem s) (rd s) = Ret (Some (f', pc', bs)) ->
      sys_step s [] bs (mkSys f' (wr s) pc').

(** The states reachable from initialisation, with all bytes stored and read. *)
Inductive reach : sys -> list Z -> list Z -> Prop :=
  | reach_init ram :
      zlen ram = SPIRAMSIZE -> reach (mkSys (fst (spiRamFifoInit ram)) WIdle RIdle) [] []
  | reach_step s w r bw br s' :
      reach s w r -> sys_step s bw br s' -> reach s' (w ++ bw) (r ++ br).

(** What a waiting writer waits for: there is no room for its next chunk unless
    the semaphore has been given. *)
Definition writer_inv (f : fifo) (pc : wpc) : Prop :=
  match pc with
  | WWait buff => 0 < zlen buff /\
      (sem_available (semCanWrite f) = false ->
       SPIRAMSIZE - fifoFill f < chunk_len (fifoWpos f) (zlen buff))
  | _ => True
  end.

(** The single reader only asks for what is there. *)
Definition reader_inv (f : fifo) (pc : rpc) : Prop :=
  match pc with
  | RIdle => True
  | RClamp room => 0 <= room
  | RLoop len room => 0 <= len <= fifoFill f /\ 0 <= room
  | RWait _ _ => False
  end.

(** It will read more than the caller's buffer has room for. *)
Definition overlong (f : fifo) (pc : rpc) : Prop :=
  match pc with RIdle => False | RClamp room => room < fifoFill f | RLoop len room | RWait len room => room < len end.

Record sys_ok (s : sys) : Prop := {
  sys_fifo : fifo_ok (mem s);
  sys_writer : writer_inv (mem s) (wr s);
  sys_reader : reader_inv (mem s) (rd s);
  sys_udr : fifoUdrCnt (mem s) = 0 }.

Lemma init_ok ram : zlen ram = SPIRAMSIZE -> fifo_ok (fst (spiRamFifoInit ram)).
Proof.
  intros Hl. destruct sem_create_ok as [Hok _].
  constructor; cbn; try done; unfold SPIRAMSIZE; lia.
Qed.

Lemma writer_move_inv f pc f' pc' bs :
  fifo_ok f -> writer_inv f pc -> writer_move f pc = Ret (Some (f', pc', bs)) ->
  fifo_ok f' /\ stored f' = stored f ++ bs /\ fifoFill f <= fifoFill f' /\
  fifoUdrCnt f' = fifoUdrCnt f /\ writer_inv f' pc'.
Proof.
  intros Hok Hw. destruct pc as [| buff | buff]; cbn [writer_move]; [discriminate | |].
  - destruct (Z.ltb_spec 0 (zlen buff)) as [Hb | Hb].
    2: { intros [= <- <- <-]. rewrite app_nil_r. done. }
    rewrite (ok_mux f Hok).
    destruct (write_section_spec f buff Hok Hb) as [[Hf ->] | [Hf (f1 & -> & Hok1 & Hst & Hfill & Hu & _)]].
    + cbn. intros [= <- <- <-]. rewrite app_nil_r. destruct Hok. split_and!; done.
    + cbn. intros [= <- <- <-].
      destruct (chunk_len_spec (fifoWpos f) (zlen buff)); [apply Hok | done |].
      split_and!; [done | done | lia | done | done].
  - destruct (sem_take (semCanWrite f)) as [s |] eqn:Es; [| discriminate].
    intros [= <- <- <-]. rewrite app_nil_r.
    destruct (sem_take_inv _ _ (ok_semw f Hok) Es) as (_ & Hs & _). destruct Hok.
    split_and!; done.
Qed.

Lemma reader_move_inv f pc f' pc' bs :
  fifo_ok f -> reader_inv f pc -> reader_move f pc = Ret (Some (f', pc', bs)) ->
  fifo_ok f' /\ stored f = bs ++ stored f' /\ fifoUdrCnt f' = fifoUdrCnt f /\
  reader_inv f' pc' /\ fifoWpos f' = fifoWpos f /\
  (f' = f \/ sem_available (semCanWrite f') = true) /\ (overlong f' pc' -> overlong f pc).
Proof.
  intros Hok Hr. pose proof (ok_fill f Hok) as Hfl.
  destruct pc as [| room | len room | len room]; cbn [reader_move]; [discriminate | | | done].
  { intros [= <- <- <-]. cbn in *. split_and!; try done; [lia.. | by left]. }
  destruct (Z.ltb_spec 0 len) as [Hb | Hb].
  2: { intros [= <- <- <-]. split_and!; try done. by left. }
  rewrite (ok_mux f Hok). cbn in Hr.
  destruct (chunk_len_spec (fifoRpos f) len) as (? & ? & ? & ?); [apply Hok | done |].
  destruct (read_section_spec f len room Hok Hb)
    as [[Hf _] | [(_ & _ & ->) | (Hf & Hrm & f1 & bs1 & -> & Hbs & Hok1 & Hst & Hfill & Hwp & Hu & Hs)]]; [lia | done |].
  cbn. intros [= <- <- <-]. split_and!; try done; [cbn; lia.. | by right | cbn; lia].
Qed.

Lemma writer_inv_after_read f f' pc :
  writer_inv f pc -> fifoWpos f' = fifoWpos f ->
  f' = f \/ sem_available (semCanWrite f') = true -> writer_inv f' pc.
Proof.
  intros Hw Hp [-> | Hs]; [done |]. destruct pc; cbn in *; [done | done |].
  split; [apply Hw |]. rewrite Hs. discriminate.
Qed.

Lemma reader_inv_after_write f f' pc :
  reader_inv f pc -> fifoFill f <= fifoFill f' -> reader_inv f' pc.
Proof. destruct pc; cbn; [done | done | lia | done]. Qed.

Lemma read_entry_inv f len room : fifo_ok f -> len <= room ->
  reader_inv f (read_entry f len room) /\ ~ overlong f (read_entry f len room).
Proof. intros [] Hr. unfold read_entry. case_cmp; cbn; lia. Qed.

Lemma sys_step_inv s bw br s' :
  sys_ok s -> sys_step s bw br s' ->
  sys_ok s' /\ stored (mem s) ++ bw = br ++ stored (mem s').
Proof.
  intros [Hok Hw Hr Hu] Hst. destruct Hst as [s buff E | s len room E Hlr | s f' pc' bs E | s f' pc' bs E].
  - rewrite app_nil_r. split; [by constructor | done].
  - rewrite app_nil_r. split; [| done]. constructor; cbn; try done. by apply read_entry_inv.
  - destruct (writer_move_inv _ _ _ _ _ Hok Hw E) as (Hok' & Hs & Hf & Hu' & Hw').
    split; [| cbn; by rewrite Hs]. constructor; cbn; [done | done | | congruence].
    by eapply reader_inv_after_write.
  - destruct (reader_move_inv _ _ _ _ _ Hok Hr E) as (Hok' & Hs & Hu' & Hr' & Hp & Hsem & _).
    rewrite app_nil_r. split; [| done]. constructor; cbn; [done | | done | congruence].
    by eapply writer_inv_after_read.
Qed.

Lemma reach_ok s w r : reach s w r -> sys_ok s /\ w = r ++ stored (mem s).
Proof.
  intros Hr. induction Hr as [ram Hl | s w r bw br s' Hr [IH1 IH2] Hst].
  - split; [| done]. constructor; [by apply init_ok | done..].
  - destruct (sys_step_inv _ _ _ _ IH1 Hst) as [Hok' E]. split; [done |].
    by rewrite IH2, <- !app_assoc, E.
Qed.

(** A reader inside a call always moves, unless it leaves the caller's buffer. *)
Lemma reader_moves f pc :
  fifo_ok f -> reader_inv f pc -> pc <> RIdle ->
  (exists f' pc' bs, reader_move f pc = Ret (Some (f', pc', bs))) \/
  overlong f pc /\ reader_move f pc = Fault OutOfBounds.
Proof.
  intros Hok Hr Hne. destruct pc as [| room | len room | len room]; [done | cbn; eauto | | done]. cbn in *.
  destruct (Z.ltb_spec 0 len) as [Hb |]; [| eauto].
  rewrite (ok_mux f Hok).
  destruct (chunk_len_spec (fifoRpos f) len) as (? & ? & ? & ?); [apply Hok | done |].
  destruct (read_section_spec f len room Hok Hb)
    as [[Hf _] | [(_ & Hrm & ->) | (_ & _ & f1 & bs & -> & _)]]; [lia | right; split; [lia | done] | cbn; eauto].
Qed.

(** A read becomes too long only by a store between its two looks at the fill level. *)
Lemma overlong_by_store s bw br s' : sys_ok s -> sys_step s bw br s' ->
  ~ overlong (mem s) (rd s) -> overlong (mem s') (rd s') -> bw <> [] /\ exists room, rd s = RClamp room.
Proof.
  intros [Hok Hw Hr Hu] Hst Hn Ho. destruct Hst as [s buff E | s len room E Hlr | s f' pc' bs E | s f' pc' bs E]; cbn in *.
  - done.
  - exfalso. by eapply read_entry_inv.
  - destruct (writer_move_inv _ _ _ _ _ Hok Hw E) as (Hok' & Hst & _).
    destruct (rd s) as [| room | len room | len room] eqn:Er; [done | | done.. ]. split; [| by exists room].
    intros ->. rewrite app_nil_r in Hst. apply (f_equal zlen) in Hst. unfold stored in Hst.
    rewrite !zlen_contents in Hst by (apply Hok || apply Hok'). cbn in *. lia.
  - exfalso. apply Hn. by eapply reader_move_inv.
Qed.

(** A writer inside a call moves unless it waits for the semaphore. *)
Lemma writer_moves f pc :
  fifo_ok f -> pc <> WIdle ->
  (exists f' pc' bs, writer_move f pc = Ret (Some (f', pc', bs))) \/
  (exists buff, pc = WWait buff /\ sem_available (semCanWrite f) = false /\
                writer_move f pc = Ret None).
Proof.
  intros Hok Hne. destruct pc as [| buff | buff]; [done | |]; cbn.
  - left. destruct (Z.ltb_spec 0 (zlen buff)) as [Hb |]; [| eauto]. rewrite (ok_mux f Hok).
    destruct (write_section_spec f buff Hok Hb) as [[_ ->] | [_ (f1 & -> & _)]]; cbn; eauto.
  - destruct (sem_available (semCanWrite f)) eqn:E.
    + destruct (sem_take_available _ (ok_semw f Hok) E) as (s & -> & _). left. eauto.
    + right. rewrite (sem_take_empty _ (ok_semw f Hok) E). eauto.
Qed.

Lemma writer_moves_or_full f pc :
  fifo_ok f -> writer_inv f pc -> pc <> WIdle ->
  (exists f' pc' bs, writer_move f pc = Ret (Some (f', pc', bs))) \/
  (writer_move f pc = Ret None /\ SPIRAMSIZE - fifoFill f < SPIREADSIZE).
Proof.
  intros Hok Hw Hne. destruct (writer_moves _ _ Hok Hne) as [| (buff & -> & Hs & E)]; [by left |].
  right. split; [done |]. destruct Hw as [Hb Hw]. specialize (Hw Hs).
  destruct (chunk_len_spec (fifoWpos f) (zlen buff)) as (_ & Hc & _); [apply Hok | done | lia].
Qed.

(** C7. Over every interleaving of the two tasks the FIFO is a bounded byte
    queue: the bytes stored are the bytes read followed by the [fifoFill] bytes
    still held, of which there are never more than the store has room for. *)
Theorem reach_fifo s w r :
  reach s w r ->
  fifo_ok (mem s) /\ w = r ++ stored (mem s) /\
  zlen (stored (mem s)) = fifoFill (mem s) /\ 0 <= fifoFill (mem s) <= SPIRAMSIZE.
Proof.
  intros [Hok E]%reach_ok. destruct (sys_fifo s Hok). split_and!; [apply Hok | done | | lia | lia].
  apply zlen_contents. lia.
Qed.

(** C8. No deadlock and no lost wake-up, in any reachable state: the single
    reader is never blocked and never meets an underrun; the writer is blocked
    only while fewer than [SPIREADSIZE] bytes are free, and every chunk the
    reader takes releases it.  A task inside a call never faults, but for one
    case: the reader looks at the fill level twice without the mutex, and when
    bytes are stored between the two looks the length it settles on can exceed
    the request and the caller's buffer, beyond whose end it then writes; only
    such a store makes a read too long. *)
Theorem reach_progress s w r :
  reach s w r ->
  fifoUdrCnt (mem s) = 0 /\
  (rd s <> RIdle -> (exists f' pc' bs, reader_move (mem s) (rd s) = Ret (Some (f', pc', bs)) /\
     (bs <> [] -> sem_available (semCanWrite f') = true)) \/
     overlong (mem s) (rd s) /\ reader_move (mem s) (rd s) = Fault OutOfBounds) /\
  (forall bw br s', sys_step s bw br s' -> ~ overlong (mem s) (rd s) -> overlong (mem s') (rd s') ->
     bw <> [] /\ exists room, rd s = RClamp room) /\
  (wr s <> WIdle ->
     (exists f' pc' bs, writer_move (mem s) (wr s) = Ret (Some (f', pc', bs))) \/
     (writer_move (mem s) (wr s) = Ret None /\ SPIRAMSIZE - fifoFill (mem s) < SPIREADSIZE)).
Proof.
  intros [Hsys _]%reach_ok. pose proof Hsys as [Hok Hw Hr Hu]. split; [done |]. split; [| split].
  - intros Hne. destruct (reader_moves _ _ Hok Hr Hne) as [(f' & pc' & bs & E) | Ho]; [left | by right].
    exists f', pc', bs. split; [done |]. intros Hbs.
    destruct (reader_move_inv _ _ _ _ _ Hok Hr E) as (_ & Hs & _ & _ & _ & [-> |] & _); [| done].
    exfalso. apply Hbs. apply (f_equal length) in Hs. rewrite length_app in Hs.
    apply length_zero_iff_nil. lia.
  - intros bw br s'. by apply overlong_by_store.
  - intros Hne. by apply writer_moves_or_full.
Qed.

(** ** Whole calls *)

Lemma run_reader_spec fuel f len room out :
  fifo_ok f -> 0 <= len <= fifoFill f -> len <= room -> len + 1 < Z.of_nat fuel ->
  exists f', run_reader fuel f (RLoop len room) out = Ret (f', RIdle, out ++ take (Z.to_nat len) (stored f)) /\
    fifo_ok f' /\ stored f = take (Z.to_nat len) (stored f) ++ stored f' /\
    fifoFill f' = fifoFill f - len.
Proof.
  revert f len room out. induction fuel as [| fuel IH]; intros f len room out Hok Hl Hrm Hf; [lia |].
  cbn [run_reader reader_move]. destruct (Z.ltb_spec 0 len) as [Hb | Hb].
  - rewrite (ok_mux f Hok).
    destruct (chunk_len_spec (fifoRpos f) len) as (Hc1 & _ & Hc3 & _); [apply Hok | done |].
    destruct (read_section_spec f len room Hok Hb)
      as [[Hx _] | [(_ & Hx & _) | (_ & _ & f1 & bs & -> & Hbs & Hok1 & Hst & Hfill & _)]]; [lia | lia |].
    cbn [mbind res_bind].
    destruct (IH f1 (len - chunk_len (fifoRpos f) len) (room - chunk_len (fifoRpos f) len) (out ++ bs) Hok1)
      as (f' & -> & Hok' & Hst' & Hfill'); [lia | lia | lia |].
    unfold zlen in Hbs.
    assert (take (Z.to_nat len) (stored f)
            = bs ++ take (Z.to_nat (len - chunk_len (fifoRpos f) len)) (stored f1)) as ->.
    { rewrite Hst, take_app_ge by lia. do 2 f_equal. lia. }
    exists f'. split_and!; [by rewrite <- app_assoc | done | | lia].
    rewrite Hst at 1. rewrite <- app_assoc. f_equal. done.
  - replace len with 0 by lia. cbn [mbind res_bind].
    destruct fuel as [| fuel]; [lia |]. exists f. cbn. rewrite !app_nil_r.
    split_and!; [done | done | done | lia].
Qed.

(** A read call on its own returns without blocking: its value is the
    smaller of the request and the fill level (0 for a request of no bytes),
    and it returns and removes that many of the oldest bytes.  On an empty FIFO
    it returns 0 at once. *)
Theorem spiRamFifoRead_spec f len :
  fifo_ok f ->
  let m := if len <=? 0 then 0 else Z.min len (fifoFill f) in
  exists f', spiRamFifoRead f len = Ret (f', RIdle, take (Z.to_nat m) (stored f), m) /\
    fifo_ok f' /\ stored f' = drop (Z.to_nat m) (stored f) /\ fifoFill f' = fifoFill f - m.
Proof.
  intros Hok m. unfold spiRamFifoRead, read_entry, read_value. pose proof (ok_fill f Hok).
  destruct (Z.leb_spec len 0) as [Hl | Hl].
  { exists f. subst m. cbn [Z.to_nat].
    destruct (Z.to_nat len + 3)%nat as [| fuel] eqn:E; [lia |]. cbn.
    split_and!; [done | done | done | lia]. }
  assert (forall fuel, len + 1 < Z.of_nat fuel -> exists f', run_reader fuel f (RLoop m len) [] = Ret (f', RIdle, take (Z.to_nat m) (stored f)) /\
    fifo_ok f' /\ stored f' = drop (Z.to_nat m) (stored f) /\ fifoFill f' = fifoFill f - m) as Hrun.
  { intros fuel Hf. destruct (run_reader_spec fuel f m len []) as (f' & E & Hok' & Hst & Hfill);
      [done | subst m; lia | subst m; lia | subst m; lia |].
    exists f'. split_and!; [exact E | done | | done].
    apply (app_inv_head (take (Z.to_nat m) (stored f))). by rewrite <- Hst, take_drop. }
  destruct (Z.ltb_spec (fifoFill f) len) as [Hlt | Hge].
  - replace (Z.to_nat len + 3)%nat with (Datatypes.S (Z.to_nat len + 2)) by lia. cbn [run_reader reader_move mbind res_bind app].
    assert (fifoFill f = m) as Em by (subst m; lia). rewrite <- Em in Hrun |- *.
    destruct (Hrun (Z.to_nat len + 2)%nat) as (f' & E & H'); [lia |]. exists f'. by rewrite E.
  - assert (len = m) as Em by (subst m; lia). rewrite <- Em in Hrun |- *.
    destruct (Hrun (Z.to_nat len + 3)%nat) as (f' & E & H'); [lia |]. exists f'. by rewrite E.
Qed.

(** How a write call on its own ends. *)
Definition write_outcome (f : fifo) (buff : list Z) (f' : fifo) (pc' : wpc) : Prop :=
  fifo_ok f' /\
  (if zlen buff <=? SPIRAMSIZE - fifoFill f
   then pc' = WIdle /\ stored f' = stored f ++ buff
   else exists k, pc' = WWait (drop k buff) /\ stored f' = stored f ++ take k buff /\
          SPIRAMSIZE - fifoFill f' < SPIREADSIZE /\
          SPIRAMSIZE - fifoFill f' < zlen (drop k buff)).

(** Rounds still needed besides those that store a byte. *)
Definition spare_rounds (f : fifo) : Z := if sem_available (semCanWrite f) then 5 else 3.

Lemma write_outcome_stored f f1 buff n f' pc' :
  0 <= n <= zlen buff -> fifoFill f1 = fifoFill f + n -> 0 <= SPIRAMSIZE - fifoFill f - n ->
  stored f1 = stored f ++ take (Z.to_nat n) buff ->
  write_outcome f1 (drop (Z.to_nat n) buff) f' pc' -> write_outcome f buff f' pc'.
Proof.
  intros Hn Hfill Hr Hst [Hok H]. split; [done |].
  assert (zlen (drop (Z.to_nat n) buff) = zlen buff - n) as Ez
    by (unfold zlen in *; rewrite length_drop; lia).
  rewrite Ez, Hfill, Hst in H.
  destruct (Z.leb_spec (zlen buff - n) (SPIRAMSIZE - (fifoFill f + n)));
    destruct (Z.leb_spec (zlen buff) (SPIRAMSIZE - fifoFill f)); try lia.
  - by rewrite <- app_assoc, take_drop in H.
  - destruct H as (k & -> & E & H). exists (Z.to_nat n + k)%nat.
    rewrite drop_drop in *. split; [done |]. split; [| done].
    rewrite E, <- app_assoc. f_equal. by rewrite take_take_drop.
Qed.

Lemma run_writer_wait fuel f buff :
  fifo_ok f -> (1 < fuel)%nat -> sem_available (semCanWrite f) = false ->
  run_writer fuel f (WWait buff) = Ret (f, WWait buff).
Proof.
  intros Hok Hf Hs. destruct fuel as [| fuel]; [lia |]. cbn.
  by rewrite (sem_take_empty _ (ok_semw f Hok) Hs).
Qed.

Lemma run_writer_spec fuel f buff :
  fifo_ok f -> zlen buff + spare_rounds f <= Z.of_nat fuel ->
  exists f' pc', run_writer fuel f (WLoop buff) = Ret (f', pc') /\ write_outcome f buff f' pc'.
Proof.
  revert f buff. induction fuel as [fuel IH] using lt_wf_ind. intros f buff Hok Hf.
  pose proof (zlen_nonneg buff). assert (3 <= spare_rounds f) by (unfold spare_rounds; case_match; lia).
  pose proof (ok_fill f Hok).
  destruct fuel as [| fuel]; [lia |]. cbn [run_writer writer_move].
  destruct (Z.ltb_spec 0 (zlen buff)) as [Hb | Hb].
  2: { assert (buff = []) as -> by (apply zlen_0_nil; lia).
       destruct fuel as [| fuel]; [lia |]. cbn. exists f, WIdle. split; [done |]. split; [done |].
       rewrite zlen_nil, app_nil_r. case_cmp. done. }
  rewrite (ok_mux f Hok).
  destruct (chunk_len_spec (fifoWpos f) (zlen buff)) as (Hc1 & Hc2 & Hc3 & _); [apply Hok | done |].
  destruct (write_section_spec f buff Hok Hb)
    as [[Hfull ->] | [Hroom (f1 & -> & Hok1 & Hst & Hfill & _ & Hsem & _)]]; cbn [mbind res_bind].
  - set (f1 := mkFifo _ _ _ _ _ _ _ _ _).
    assert (fifo_ok f1) as Hok1 by (destruct Hok; by constructor).
    destruct (sem_available (semCanWrite f)) eqn:Es.
    + destruct fuel as [| fuel]; [unfold spare_rounds in *; rewrite Es in *; lia |].
      cbn [run_writer writer_move].
      destruct (sem_take_available _ (ok_semw f Hok) Es) as (s & Et & Hs & Hav).
      change (semCanWrite f1) with (semCanWrite f). rewrite Et. cbn [mbind res_bind].
      destruct (IH fuel ltac:(lia) (set_semCanWrite f1 s) buff) as (f' & pc' & E & Ho).
      { destruct Hok1. by constructor. }
      { unfold spare_rounds in *. cbn. rewrite Es in *. rewrite Hav. lia. }
      exists f', pc'. split; [exact E | exact Ho].
    + rewrite run_writer_wait by (done || lia). exists f1, (WWait buff). split; [done |].
      split; [done |]. destruct (Z.leb_spec (zlen buff) (SPIRAMSIZE - fifoFill f)); [lia |].
      exists 0%nat. rewrite take_0, drop_0, app_nil_r. change (fifoFill f1) with (fifoFill f).
      split_and!; [done | done | lia | lia].
  - destruct (IH fuel ltac:(lia) f1 (drop (Z.to_nat (chunk_len (fifoWpos f) (zlen buff))) buff) Hok1)
      as (f' & pc' & E & Ho).
    { unfold spare_rounds in *. rewrite Hsem. unfold zlen in *. rewrite length_drop. lia. }
    exists f', pc'. split; [done |]. eapply write_outcome_stored; [| exact Hfill | | exact Hst | exact Ho]; lia.
Qed.

(** A write call on its own appends its bytes and returns when there is room
    for them; otherwise it appends as many chunks as fit and is left waiting for
    the semaphore with the others, fewer than [SPIREADSIZE] bytes being free. *)
Theorem spiRamFifoWrite_spec f buff :
  fifo_ok f ->
  exists f' pc', spiRamFifoWrite f buff = Ret (f', pc') /\ write_outcome f buff f' pc'.
Proof.
  intros Hok. apply run_writer_spec; [done |]. unfold spare_rounds, zlen. case_match; lia.
Qed.

Lemma write_section_rpos f buff f' pc bs : write_section f buff = Ret (f', pc, bs) -> fifoRpos f' = fifoRpos f.
Proof.
  unfold write_section. destruct (_ <? _); [by injection 1 as <- _ _ |].
  destruct (memcpy_from _ _ _); [| discriminate]. cbn [mbind res_bind].
  destruct (memcpy_to _ _ _); [| discriminate]. by injection 1 as <- _ _.
Qed.

(** The semaphore of the reader: nobody but a reset takes it. *)
Lemma writer_move_semr f pc f' pc' bs : fifo_ok f -> writer_move f pc = Ret (Some (f', pc', bs)) ->
  sem_available (semCanRead f) = true -> sem_available (semCanRead f') = true.
Proof.
  intros Hok. destruct pc as [| buff | buff]; cbn [writer_move]; [discriminate | |].
  - destruct (Z.ltb_spec 0 (zlen buff)) as [Hb | Hb]; [| by intros [= <- _ _]]. rewrite (ok_mux f Hok).
    destruct (write_section_spec f buff Hok Hb) as [[_ ->] | [_ (f1 & -> & _ & _ & _ & _ & _ & Hs)]]; cbn; by intros [= <- _ _].
  - destruct (sem_take (semCanWrite f)); [| discriminate]. by intros [= <- _ _].
Qed.
Lemma reader_move_semr f pc f' pc' bs : reader_inv f pc -> reader_move f pc = Ret (Some (f', pc', bs)) -> semCanRead f' = semCanRead f.
Proof.
  intros Hr. destruct pc as [| room | len room | len room]; cbn [reader_move]; [discriminate | by intros [= <- _ _] | | done].
  destruct (0 <? len); [| by intros [= <- _ _]]. destruct (mux f); [discriminate |]. unfold read_section.
  destruct (_ <? _); [cbn; by intros [= <- _ _] |]. destruct (room <? _); [discriminate |]. destruct (memcpy_from _ _ _); cbn; [by intros [= <- _ _] | discriminate].
Qed.

(** A reset that gets the semaphore. *)
Lemma reset_done f : fifo_ok f -> sem_available (semCanRead f) = true ->
  exists f', spiRamFifoReset f = ResetDone f' /\ fifo_ok f' /\ stored f' = [] /\ fifoFill f' = 0 /\
    sem_available (semCanRead f') = false /\ sem_available (semCanWrite f') = true.
Proof.
  intros [] Hav. unfold spiRamFifoReset. rewrite ok_mux0. cbn.
  destruct (sem_give_ok (semCanWrite f) ok_semw0) as [Hg Hga].
  destruct (sem_take_available _ ok_semr0 Hav) as (s & -> & Hs & Hsa).
  eexists. split; [done |]. split; [constructor; cbn; try done; unfold SPIRAMSIZE; lia |]. done.
Qed.

(** C34. A reset empties the FIFO, but it takes the read semaphore while it holds
    the mutex: when that semaphore is not available (as after another reset with
    no write in between) it blocks for ever with the mutex held, and from then
    on every other operation of the FIFO blocks. *)
Theorem spiRamFifoReset_spec f :
  fifo_ok f ->
  if sem_available (semCanRead f)
  then exists f', spiRamFifoReset f = ResetDone f' /\ fifo_ok f' /\ stored f' = [] /\
                  fifoFill f' = 0 /\
                  exists f'', spiRamFifoReset f' = ResetBlocked f'' /\ mux f'' = true
  else exists f', spiRamFifoReset f = ResetBlocked f' /\
         spiRamFifoFill f' = None /\ (exists f'', spiRamFifoReset f' = ResetBlocked f'') /\
         (forall buff, 0 < zlen buff -> writer_move f' (WLoop buff) = Ret None) /\
         (forall len room, 0 < len -> reader_move f' (RLoop len room) = Ret None).
Proof.
  intros Hok. destruct (sem_available (semCanRead f)) eqn:Es.
  - destruct (reset_done f Hok Es) as (f' & Hr & Hok' & Hst & Hfill & Hs & _). exists f'. split_and!; try done.
    unfold spiRamFifoReset. rewrite (ok_mux f' Hok'). cbn. rewrite (sem_take_empty _ (ok_semr f' Hok') Hs). eauto.
  - destruct Hok. unfold spiRamFifoReset. rewrite ok_mux0. cbn. rewrite (sem_take_empty _ ok_semr0 Es). eexists. split; [done |]. cbn.
    split_and!; [done | eauto | intros x Hx | intros x room Hx]; (destruct (Z.ltb_spec 0 (zlen x)) || destruct (Z.ltb_spec 0 x));
      done || lia.
Qed.

End spiram_fifo.

(** * Witnesses *)

Definition demo_ram : list Z := replicate (Z.to_nat SPIRAMSIZE) 0.
Definition demo_fifo : fifo (S := bool) := fst (spiRamFifoInit demo_ram).

Lemma demo_ram_length : zlen demo_ram = SPIRAMSIZE.
Proof. unfold zlen, demo_ram. rewrite length_replicate. done. Qed.

Lemma demo_fifo_ok : fifo_ok demo_fifo.
Proof. apply init_ok, demo_ram_length. Qed.

(** The reachable state in which the writer has entered a call. *)
Definition demo_sys : sys (S := bool) := mkSys demo_fifo (WLoop [1; 2; 3]) RIdle.

Lemma demo_reach : reach demo_sys [] [].
Proof.
  apply (reach_step (mkSys demo_fifo WIdle RIdle) [] [] [] []).
  - apply reach_init, demo_ram_length.
  - by apply (call_write (mkSys demo_fifo WIdle RIdle)).
Qed.

(** Asked for ten bytes of an empty store, with sixty-four stored between the two
    looks: the reader goes beyond a buffer of ten. *)
Example overlong_read : exists s,
  rtc (fun s s' => exists bw br, sys_step s bw br s') (mkSys demo_fifo WIdle RIdle) s /\
  rd s = RLoop 64 10 /\ reader_move (mem s) (rd s) = Fault OutOfBounds.
Proof.
  set (bytes := replicate 64 7 : list Z). assert (zlen bytes = 64) as Hz by reflexivity.
  set (s2 := mkSys demo_fifo (WLoop bytes) (RClamp 10)).
  destruct (write_section_spec demo_fifo bytes demo_fifo_ok) as [[Hf _] | [_ (f1 & E & Hok & _ & Hfill & _)]]; [rewrite Hz; lia | exfalso; clear -Hf; vm_compute in Hf; discriminate |].
  change (chunk_len _ _) with 64 in Hfill. change (fifoFill demo_fifo) with 0 in Hfill.
  set (s3 := mkSys f1 (WLoop (drop 64 bytes)) (RClamp 10)).
  exists (mkSys f1 (WLoop (drop 64 bytes)) (RLoop 64 10)). split; [| split; [done |]].
  - apply rtc_l with (y := mkSys demo_fifo WIdle (RClamp 10)).
    { exists [], []. by apply (call_read (mkSys demo_fifo WIdle RIdle) 10 10). }
    apply rtc_l with (y := s2). { exists [], []. by apply (call_write (mkSys demo_fifo WIdle (RClamp 10)) bytes). }
    apply rtc_l with (y := s3).
    { eexists _, []. apply (move_writer s2). cbn [wr s2 writer_move mem]. rewrite Hz. change (0 <? 64) with true. cbv iota.
      change (mux demo_fifo) with false. cbv iota. rewrite E. reflexivity. }
    apply rtc_once. eexists [], []. apply (move_reader s3). cbn [rd s3 reader_move mem].
    by rewrite Hfill.
  - cbn [mem rd reader_move]. change (0 <? 64) with true. cbv iota. rewrite (ok_mux _ Hok).
    destruct (chunk_len_spec (fifoRpos f1) 64) as (Hc & _); [apply Hok | done |].
    destruct (read_section_spec f1 64 10 Hok ltac:(done)) as [[Hx _] | [(_ & _ & ->) | (_ & Hx & _)]]; [| done |].
    all: exfalso; rewrite (write_section_rpos _ _ _ _ _ E) in Hx; change (chunk_len _ 64) with 64 in Hx; lia.
Qed.

Lemma reach_fifo_witness : fifo_ok (mem demo_sys) /\ [] = [] ++ stored (mem demo_sys).
Proof. destruct (reach_fifo demo_sys [] [] demo_reach) as (H1 & H2 & _). by split. Defined.

Lemma reach_progress_witness :
  wr demo_sys <> WIdle /\ fifoUdrCnt (mem demo_sys) = 0.
Proof. split; [discriminate | apply (reach_progress demo_sys [] [] demo_reach)]. Defined.

Lemma spiRamFifoRead_spec_witness :
  exists f', spiRamFifoRead demo_fifo 10 = Ret (f', RIdle, [], 0).
Proof.
  destruct (spiRamFifoRead_spec demo_fifo 10 demo_fifo_ok) as (f' & E & _).
  exists f'. exact E.
Defined.

Lemma spiRamFifoWrite_spec_witness :
  exists f' pc', spiRamFifoWrite demo_fifo [1; 2; 3] = Ret (f', pc') /\
                 write_outcome demo_fifo [1; 2; 3] f' pc'.
Proof. apply (spiRamFifoWrite_spec demo_fifo [1; 2; 3] demo_fifo_ok). Defined.

Lemma spiRamFifoReset_spec_witness :
  exists f', spiRamFifoReset demo_fifo = ResetDone f' /\
             exists f'', spiRamFifoReset f' = ResetBlocked f''.
Proof.
  destruct (spiRamFifoReset_spec demo_fifo demo_fifo_ok) as (f' & E & _ & _ & _ & f'' & E' & _).
  exists f'. split; [exact E | exists f''; exact E'].
Defined.
