(* ===== verification/DataBuffer.v ===== *)
(** The ring of audio buffers between the network task and the player task
    (src/ESP32/main/data_buffer.c): its state, its operations one loop
    iteration at a time, the whole calls, and the FIFO refinement. *)

From S2P Require Import Prelude ByteSource.

(** * The code *)

Definition NUMBER_OF_BUFFER : Z := 5.
Definition LENGTH_OF_BUFFER : Z := 5120.

Inductive data_buffer_state_e := B_PREPARED | B_UNPREPARED.

#[export] Instance data_buffer_state_e_dec : EqDecision data_buffer_state_e.
Proof. solve_decision. Defined.

Record data_buffer_s := mkSlot {
  buffer : list Z;
  used : Z;
  data_buffer_state : data_buffer_state_e }.

(** The file's static variables. *)
Record state := mkState {
  data_buffer : list data_buffer_s;
  current_write_buffer : Z;
  current_read_buffer : Z;
  buffer_used : Z }.

(** Static storage is zero: the state of every buffer is the enumerator of
    value 0, which is [B_PREPARED]. *)
Definition static_state : state :=
  mkState (replicate (Z.to_nat NUMBER_OF_BUFFER)
             (mkSlot (replicate (Z.to_nat LENGTH_OF_BUFFER) 0) 0 B_PREPARED)) 0 0 0.

Definition init_data_buffer (st : state) : state :=
  mkState ((fun s => mkSlot (buffer s) 0 B_UNPREPARED) <$> data_buffer st)
    (current_write_buffer st) (current_read_buffer st) (buffer_used st).

(** [&data_buffer[i]] read and written. *)
Definition get_slot (st : state) (i : Z) : res data_buffer_s :=
  of_option OutOfBounds (if 0 <=? i then data_buffer st !! Z.to_nat i else None).
Definition set_slot (st : state) (i : Z) (s : data_buffer_s) : state :=
  mkState (<[Z.to_nat i := s]> (data_buffer st))
    (current_write_buffer st) (current_read_buffer st) (buffer_used st).

(** [current = &data_buffer[i]; current->used = 0;] *)
Definition reset_used (s : data_buffer_s) : data_buffer_s :=
  mkSlot (buffer s) 0 (data_buffer_state s).
Definition clear_used (st : state) (i : Z) : res state :=
  current ← get_slot st i; Ret (set_slot st i (reset_used current)).

(** What one iteration of a loop of the file does: it finds the buffer in the
    wrong state and spins, it leaves the function, or it goes round. *)
Inductive wprogress :=
  | WSpin
  | WDone (st : state)
  | WMore (st : state) (data : list Z) (size : Z).

Definition buffer_write_iter (st : state) (data : list Z) (size : Z) : res wprogress :=
  if size <=? 0 then Ret (WDone st) else
  current ← get_slot st (current_write_buffer st);
  if decide (data_buffer_state current = B_PREPARED) then Ret WSpin else
  if size <? LENGTH_OF_BUFFER - used current then
    chunk ← memcpy_from data 0 size;
    b ← memcpy_to (buffer current) (used current) chunk;
    Ret (WDone (set_slot st (current_write_buffer st)
                  (mkSlot b (used current + size) (data_buffer_state current))))
  else
    let remain := LENGTH_OF_BUFFER - used current in
    chunk ← memcpy_from data 0 remain;
    b ← memcpy_to (buffer current) (used current) chunk;
    let st1 := set_slot st (current_write_buffer st) (mkSlot b 0 B_PREPARED) in
    let w := Z.rem (current_write_buffer st + 1) NUMBER_OF_BUFFER in
    st2 ← clear_used st1 w;
    Ret (WMore (mkState (data_buffer st2) w (current_read_buffer st2) (buffer_used st2 + 1))
           (drop (Z.to_nat remain) data) (size - remain)).

(** The reader's iteration also yields the bytes it stored through [data]. *)
Inductive rprogress :=
  | RSpin
  | RDone (st : state) (out : list Z) (ret : Z)
  | RMore (st : state) (out : list Z) (size data_read : Z).

Definition buffer_read_iter (st : state) (size data_read : Z) : res rprogress :=
  if size <=? 0 then Ret (RDone st [] 0) else
  current ← get_slot st (current_read_buffer st);
  if decide (data_buffer_state current = B_UNPREPARED) then Ret RSpin else
  if size <? LENGTH_OF_BUFFER - used current then
    chunk ← memcpy_from (buffer current) (used current) size;
    Ret (RDone (set_slot st (current_read_buffer st)
                  (mkSlot (buffer current) (used current + size) (data_buffer_state current)))
           chunk (data_read + size))
  else
    let remain := LENGTH_OF_BUFFER - used current in
    chunk ← memcpy_from (buffer current) (used current) remain;
    let st1 := set_slot st (current_read_buffer st) (mkSlot (buffer current) 0 B_UNPREPARED) in
    let r := Z.rem (current_read_buffer st + 1) NUMBER_OF_BUFFER in
    st2 ← clear_used st1 r;
    Ret (RMore (mkState (data_buffer st2) (current_write_buffer st2) r (buffer_used st2 - 1))
           chunk (size - remain) (data_read + remain)).

(** A whole call made while the other task does not run: it finishes, or it
    ends spinning in the state reached. *)
Inductive wresult :=
  | Written (st : state)
  | WBlocked (st : state) (data : list Z) (size : Z).

Fixpoint buffer_write_loop (fuel : nat) (st : state) (data : list Z) (size : Z) : res wresult :=
  match fuel with
  | O => Fault OutOfFuel
  | S fuel =>
      p ← buffer_write_iter st data size;
      match p with
      | WSpin => Ret (WBlocked st data size)
      | WDone st' => Ret (Written st')
      | WMore st' data' size' => buffer_write_loop fuel st' data' size'
      end
  end.

(** Every round but the last stores at least one byte. *)
Definition buffer_write_data (st : state) (data : list Z) (size : Z) : res wresult :=
  buffer_write_loop (S (Z.to_nat size)) st data size.

Inductive rresult :=
  | ReadBack (st : state) (out : list Z) (ret : Z)
  | RBlocked (st : state) (out : list Z) (size data_read : Z).

Fixpoint buffer_read_loop (fuel : nat) (st : state) (out : list Z) (size data_read : Z)
    : res rresult :=
  match fuel with
  | O => Fault OutOfFuel
  | S fuel =>
      p ← buffer_read_iter st size data_read;
      match p with
      | RSpin => Ret (RBlocked st out size data_read)
      | RDone st' chunk ret => Ret (ReadBack st' (out ++ chunk) ret)
      | RMore st' chunk size' data_read' =>
          buffer_read_loop fuel st' (out ++ chunk) size' data_read'
      end
  end.

Definition buffer_read_data (st : state) (size : Z) : res rresult :=
  buffer_read_loop (S (Z.to_nat size)) st [] size 0.

Definition getBufferPercent (st : state) : Z :=
  Z.quot (buffer_used st * 100) NUMBER_OF_BUFFER.

(** * Well-formed states

    Positions are counted round the ring from the reader: buffers [0 .. k-1]
    are full and await the reader, buffer [k] is being filled, the others are
    empty, where [k] is [buffer_used]. *)

Definition dummy_slot : data_buffer_s := mkSlot [] 0 B_UNPREPARED.

Definition ring_ix (st : state) (i : Z) : Z :=
  (current_read_buffer st + i) mod NUMBER_OF_BUFFER.

Definition slot_of (st : state) (i : Z) : data_buffer_s :=
  default dummy_slot (data_buffer st !! Z.to_nat (ring_ix st i)).

Record slot_ok (k i : Z) (s : data_buffer_s) : Prop := {
  slot_ok_len : zlen (buffer s) = LENGTH_OF_BUFFER;
  slot_ok_used : 0 <= used s < LENGTH_OF_BUFFER;
  slot_ok_state : data_buffer_state s = if i <? k then B_PREPARED else B_UNPREPARED;
  slot_ok_idle : i <> 0 -> i <> k -> used s = 0 }.

Record wf (st : state) : Prop := {
  wf_len : length (data_buffer st) = Z.to_nat NUMBER_OF_BUFFER;
  wf_rd : 0 <= current_read_buffer st < NUMBER_OF_BUFFER;
  wf_k : 0 <= buffer_used st <= NUMBER_OF_BUFFER;
  wf_wr : current_write_buffer st = ring_ix st (buffer_used st);
  wf_slot : forall i, 0 <= i < NUMBER_OF_BUFFER -> slot_ok (buffer_used st) i (slot_of st i) }.

(** The bytes of the full buffers that the reader has still to return, and
    those of the buffer being filled. *)
Definition slot_unread (s : data_buffer_s) : list Z := drop (Z.to_nat (used s)) (buffer s).

Definition prepared_from (st : state) (a n : nat) : list Z :=
  concat ((fun i => slot_unread (slot_of st (Z.of_nat i))) <$> seq a n).

Definition prepared (st : state) : list Z := prepared_from st 0 (Z.to_nat (buffer_used st)).

Definition pending (st : state) : list Z :=
  if buffer_used st <? NUMBER_OF_BUFFER
  then take (Z.to_nat (used (slot_of st (buffer_used st)))) (buffer (slot_of st (buffer_used st)))
  else [].

(** The byte queue the component implements. *)
Definition unread (st : state) : list Z := prepared st ++ pending st.

(** ** Ring arithmetic *)

Lemma ring_ix_range st i : 0 <= ring_ix st i < NUMBER_OF_BUFFER.
Proof. apply Z.mod_pos_bound. done. Qed.

Lemma ring_ix_inj st i j :
  0 <= i < NUMBER_OF_BUFFER -> 0 <= j < NUMBER_OF_BUFFER ->
  ring_ix st i = ring_ix st j -> i = j.
Proof. unfold ring_ix, NUMBER_OF_BUFFER. zdiv. Qed.

Lemma ring_ix_wrap st i : ring_ix st (i + NUMBER_OF_BUFFER) = ring_ix st i.
Proof. unfold ring_ix, NUMBER_OF_BUFFER. zdiv. Qed.

Lemma ring_ix_0 st : wf st -> ring_ix st 0 = current_read_buffer st.
Proof. intros []. unfold ring_ix. rewrite Z.add_0_r. by apply Z.mod_small. Qed.

Lemma ring_ix_succ st i :
  0 <= current_read_buffer st -> 0 <= i ->
  Z.rem (ring_ix st i + 1) NUMBER_OF_BUFFER = ring_ix st (i + 1).
Proof. unfold ring_ix, NUMBER_OF_BUFFER. intros. zdiv. Qed.

Lemma get_slot_ring st i :
  length (data_buffer st) = Z.to_nat NUMBER_OF_BUFFER -> get_slot st (ring_ix st i) = Ret (slot_of st i).
Proof.
  intros Hlen. unfold get_slot, slot_of. pose proof (ring_ix_range st i).
  destruct (Z.leb_spec 0 (ring_ix st i)); [| lia].
  destruct (lookup_lt_is_Some_2 (data_buffer st) (Z.to_nat (ring_ix st i))) as [s ->];
    [lia | done].
Qed.

Lemma slot_of_set st i j s :
  length (data_buffer st) = Z.to_nat NUMBER_OF_BUFFER ->
  0 <= i < NUMBER_OF_BUFFER -> 0 <= j < NUMBER_OF_BUFFER ->
  slot_of (set_slot st (ring_ix st j) s) i = if i =? j then s else slot_of st i.
Proof.
  intros Hlen Hi Hj. unfold slot_of. cbn.
  change (ring_ix (set_slot st (ring_ix st j) s) i) with (ring_ix st i).
  pose proof (ring_ix_range st j). pose proof (ring_ix_range st i).
  destruct (Z.eqb_spec i j) as [-> | Hne].
  - rewrite list_lookup_insert_eq; [done | lia].
  - rewrite list_lookup_insert_ne; [done |].
    intros E. apply Hne, (ring_ix_inj st); lia.
Qed.

Lemma slot_of_wrap st i : slot_of st (i + NUMBER_OF_BUFFER) = slot_of st i.
Proof. unfold slot_of. by rewrite ring_ix_wrap. Qed.

Lemma get_write_slot st :
  wf st -> get_slot st (current_write_buffer st) = Ret (slot_of st (buffer_used st)).
Proof. intros W. rewrite (wf_wr st W). apply get_slot_ring, W. Qed.

Lemma get_read_slot st : wf st -> get_slot st (current_read_buffer st) = Ret (slot_of st 0).
Proof. intros W. rewrite <- (ring_ix_0 st W). apply get_slot_ring, W. Qed.

(** ** The queue contents *)

Lemma prepared_from_snoc st a n :
  prepared_from st a (S n)
  = prepared_from st a n ++ slot_unread (slot_of st (Z.of_nat (a + n))).
Proof.
  unfold prepared_from. rewrite seq_S, fmap_app, concat_app. cbn. by rewrite app_nil_r.
Qed.

Lemma prepared_from_cons st a n :
  prepared_from st a (S n) = slot_unread (slot_of st (Z.of_nat a)) ++ prepared_from st (S a) n.
Proof. done. Qed.

Lemma prepared_from_shift st st' a b n :
  (forall i, Z.of_nat a <= i < Z.of_nat (a + n) ->
    slot_of st i = slot_of st' (i + Z.of_nat b - Z.of_nat a)) ->
  prepared_from st a n = prepared_from st' b n.
Proof.
  induction n as [| n IH]; intros E; [done |].
  rewrite !prepared_from_snoc, IH by (intros; apply E; lia).
  do 2 f_equal. rewrite E by lia. f_equal. lia.
Qed.

Lemma prepared_from_ext st st' a n :
  (forall i, Z.of_nat a <= i < Z.of_nat (a + n) -> slot_of st i = slot_of st' i) ->
  prepared_from st a n = prepared_from st' a n.
Proof. intros E. apply prepared_from_shift. intros. rewrite E by done. f_equal. lia. Qed.

(** A state is determined, as far as the queue is concerned, by [buffer_used]
    and the buffers seen from the reader. *)
Lemma wf_slots_intro st :
  length (data_buffer st) = Z.to_nat NUMBER_OF_BUFFER ->
  0 <= current_read_buffer st < NUMBER_OF_BUFFER ->
  0 <= buffer_used st <= NUMBER_OF_BUFFER ->
  current_write_buffer st = ring_ix st (buffer_used st) ->
  (forall i, 0 <= i < NUMBER_OF_BUFFER -> slot_ok (buffer_used st) i (slot_of st i)) -> wf st.
Proof. by constructor. Qed.

Lemma length_set_slot st i s : length (data_buffer (set_slot st i s)) = length (data_buffer st).
Proof. apply length_insert. Qed.

Lemma wf_writable st :
  wf st -> data_buffer_state (slot_of st (buffer_used st)) = B_UNPREPARED <->
           buffer_used st < NUMBER_OF_BUFFER.
Proof.
  intros W. pose proof (wf_k st W).
  destruct (Z.eq_dec (buffer_used st) NUMBER_OF_BUFFER) as [E | E].
  - rewrite E. change NUMBER_OF_BUFFER with (0 + NUMBER_OF_BUFFER) at 1.
    rewrite slot_of_wrap, (slot_ok_state _ _ _ (wf_slot st W 0 ltac:(done))), E. cbn.
    split; [discriminate | lia].
  - rewrite (slot_ok_state _ _ _ (wf_slot st W (buffer_used st) ltac:(lia))), Z.ltb_irrefl.
    split; [lia | done].
Qed.

Lemma wf_readable st :
  wf st -> data_buffer_state (slot_of st 0) = B_PREPARED <-> 0 < buffer_used st.
Proof.
  intros W. pose proof (wf_k st W).
  rewrite (slot_ok_state _ _ _ (wf_slot st W 0 ltac:(done))). case_cmp; split; done || lia.
Qed.

(** ** One iteration of the writer *)

Lemma take_used_blit s chunk :
  0 <= used s -> used s + zlen chunk <= zlen (buffer s) ->
  take (Z.to_nat (used s + zlen chunk)) (blit (used s) chunk (buffer s))
  = take (Z.to_nat (used s)) (buffer s) ++ chunk.
Proof. intros. by apply blit_prefix. Qed.

Lemma write_iter_done st data size :
  wf st -> buffer_used st < NUMBER_OF_BUFFER -> 0 < size <= zlen data ->
  size < LENGTH_OF_BUFFER - used (slot_of st (buffer_used st)) ->
  exists st', buffer_write_iter st data size = Ret (WDone st') /\ wf st' /\
    prepared st' = prepared st /\ pending st' = pending st ++ slice 0 size data /\
    buffer_used st' = buffer_used st /\ current_read_buffer st' = current_read_buffer st /\
    current_write_buffer st' = current_write_buffer st.
Proof.
  intros W Hk Hsz Hfit. pose proof (wf_k st W) as Hk0.
  destruct (wf_slot st W (buffer_used st)) as [Hl Hu Hs Hi]; [lia |].
  unfold buffer_write_iter. destruct (Z.leb_spec size 0); [lia |].
  rewrite (get_write_slot st W). cbn.
  rewrite decide_False by (rewrite (proj2 (wf_writable st W) Hk); done).
  destruct (Z.ltb_spec size (LENGTH_OF_BUFFER - used (slot_of st (buffer_used st)))); [| lia].
  rewrite memcpy_from_Ret by lia. cbn.
  assert (zlen (slice 0 size data) = size) as Hc by (apply zlen_slice; lia).
  rewrite memcpy_to_Ret by lia. cbn. eexists. split; [done |].
  rewrite (wf_wr st W).
  set (s' := mkSlot _ _ _). set (st' := set_slot _ _ _).
  assert (forall i, 0 <= i < NUMBER_OF_BUFFER ->
    slot_of st' i = if i =? buffer_used st then s' else slot_of st i) as E.
  { intros. apply slot_of_set; [apply W | lia | lia]. }
  split_and!; try done.
  - apply wf_slots_intro; [subst st'; rewrite length_set_slot; apply W | apply W | done | apply W |].
    intros i Hr. rewrite E by done. destruct (Z.eqb_spec i (buffer_used st)) as [-> |].
    + constructor; cbn; [rewrite zlen_blit; lia | lia | done | lia].
    + apply W; lia.
  - apply prepared_from_ext. intros i Hr. cbn in Hr. rewrite E by lia. case_cmp. done.
  - unfold pending. cbn [buffer_used st' set_slot].
    destruct (Z.ltb_spec (buffer_used st) NUMBER_OF_BUFFER); [| lia].
    rewrite E by lia. rewrite Z.eqb_refl. cbn. rewrite <- Hc at 1. apply take_used_blit; lia.
  - apply (wf_wr st W).
Qed.

(** A side completes buffer [i] and moves to the next one: the buffer it moves to
    loses its [used] count, which is the other side's position if that side is
    in the middle of that buffer. *)
Definition advance_slots (st : state) (i : Z) (s : data_buffer_s) : state :=
  let st1 := set_slot st (ring_ix st i) s in
  set_slot st1 (ring_ix st1 (i + 1)) (reset_used (slot_of st1 (i + 1))).

Arguments advance_slots : simpl never.

Lemma clear_used_ring st i :
  length (data_buffer st) = Z.to_nat NUMBER_OF_BUFFER ->
  clear_used st (ring_ix st i)
  = Ret (set_slot st (ring_ix st i) (reset_used (slot_of st i))).
Proof. intros Hlen. unfold clear_used. by rewrite get_slot_ring. Qed.

Lemma clear_used_next st i s :
  length (data_buffer st) = Z.to_nat NUMBER_OF_BUFFER ->
  clear_used (set_slot st (ring_ix st i) s) (ring_ix st (i + 1)) = Ret (advance_slots st i s).
Proof.
  intros. apply (clear_used_ring (set_slot st (ring_ix st i) s)). by rewrite length_set_slot.
Qed.

Lemma slot_of_advance st i s m :
  length (data_buffer st) = Z.to_nat NUMBER_OF_BUFFER ->
  0 <= i < NUMBER_OF_BUFFER -> 0 <= m < NUMBER_OF_BUFFER ->
  slot_of (advance_slots st i s) m =
    if m =? i then s
    else if (m =? i + 1) || (m + NUMBER_OF_BUFFER =? i + 1) then reset_used (slot_of st m)
    else slot_of st m.
Proof.
  intros Hlen Hi Hm. unfold advance_slots.
  set (st1 := set_slot st (ring_ix st i) s).
  assert (length (data_buffer st1) = Z.to_nat NUMBER_OF_BUFFER) as Hl1
    by (subst st1; by rewrite length_set_slot).
  assert (forall m, 0 <= m < NUMBER_OF_BUFFER -> slot_of st1 m = if m =? i then s else slot_of st m)
    as E1 by (intros; by apply slot_of_set).
  set (j := if i + 1 =? NUMBER_OF_BUFFER then 0 else i + 1).
  assert (0 <= j < NUMBER_OF_BUFFER) as Hj by (subst j; case_cmp; done).
  assert (ring_ix st1 (i + 1) = ring_ix st1 j) as Ej.
  { subst j. destruct (Z.eqb_spec (i + 1) NUMBER_OF_BUFFER) as [-> |]; [| done].
    apply (ring_ix_wrap st1 0). }
  assert (slot_of st1 (i + 1) = slot_of st1 j) as -> by (unfold slot_of; by rewrite Ej).
  rewrite Ej, slot_of_set, !E1 by done.
  subst j. unfold NUMBER_OF_BUFFER in *.
  destruct (Z.eqb_spec (i + 1) 5); case_cmp; subst; cbn; done.
Qed.

Lemma slot_ok_weaken k k' i s :
  slot_ok k i s -> (i <? k) = (i <? k') -> used s = 0 \/ i = 0 \/ i = k' -> slot_ok k' i s.
Proof. intros [] E Hu. constructor; [done | done | by rewrite <- E | intros; lia]. Qed.

Lemma slot_ok_reset k i s : slot_ok k i s -> slot_ok k i (reset_used s).
Proof. intros []. constructor; cbn; try done. Qed.

(** The state in which a writer that filled buffer [k] with [s] goes on. *)
Definition complete_write (st : state) (s : data_buffer_s) : state :=
  mkState (data_buffer (advance_slots st (buffer_used st) s))
    (ring_ix st (buffer_used st + 1)) (current_read_buffer st) (buffer_used st + 1).

Lemma length_advance st i s :
  length (data_buffer (advance_slots st i s)) = length (data_buffer st).
Proof. unfold advance_slots. by rewrite !length_set_slot. Qed.

Lemma slot_of_complete_write st s m :
  wf st -> buffer_used st < NUMBER_OF_BUFFER -> 0 <= m < NUMBER_OF_BUFFER ->
  slot_of (complete_write st s) m =
    if m =? buffer_used st then s
    else if (m =? buffer_used st + 1) || (m + NUMBER_OF_BUFFER =? buffer_used st + 1)
    then reset_used (slot_of st m) else slot_of st m.
Proof. intros W Hk Hm. pose proof (wf_k st W). apply slot_of_advance; [apply W | lia | lia]. Qed.

Lemma complete_write_wf st s :
  wf st -> buffer_used st < NUMBER_OF_BUFFER ->
  zlen (buffer s) = LENGTH_OF_BUFFER -> used s = 0 -> data_buffer_state s = B_PREPARED ->
  wf (complete_write st s).
Proof.
  intros W Hk Hl Hu Hs. pose proof (wf_k st W). constructor; cbn -[NUMBER_OF_BUFFER].
  - rewrite length_advance. apply W.
  - apply W.
  - lia.
  - done.
  - intros i Hi. rewrite slot_of_complete_write by done.
    destruct (Z.eqb_spec i (buffer_used st)) as [-> | Hne].
    { constructor; [done | rewrite Hu; done | case_cmp; done | done]. }
    pose proof (wf_slot st W i Hi) as Hok.
    apply slot_ok_weaken with (buffer_used st).
    + destruct (_ || _); [apply slot_ok_reset |]; done.
    + case_cmp; done.
    + destruct (Z.eq_dec i 0) as [| Hi0]; [tauto |]. left.
      pose proof (slot_ok_idle _ _ _ Hok Hi0 Hne). destruct (_ || _); done.
Qed.

Lemma complete_write_pending st s :
  wf st -> buffer_used st < NUMBER_OF_BUFFER -> pending (complete_write st s) = [].
Proof.
  intros W Hk. pose proof (wf_k st W). unfold pending. cbn -[NUMBER_OF_BUFFER].
  destruct (Z.ltb_spec (buffer_used st + 1) NUMBER_OF_BUFFER); [| done].
  rewrite slot_of_complete_write by (done || lia).
  destruct (Z.eqb_spec (buffer_used st + 1) (buffer_used st)); [lia |].
  rewrite Z.eqb_refl. done.
Qed.

(** The writer's move is harmless unless the reader is inside the buffer moved
    to, in which case the reader's position is lost. *)
Definition writer_overtakes (st : state) : bool :=
  (buffer_used st + 1 =? NUMBER_OF_BUFFER) && negb (used (slot_of st 0) =? 0).

Lemma reset_used_id s : used s = 0 -> reset_used s = s.
Proof. destruct s; cbn. by intros ->. Qed.

Lemma complete_write_prepared st s :
  wf st -> buffer_used st < NUMBER_OF_BUFFER -> used s = 0 ->
  prepared (complete_write st s) =
    (if writer_overtakes st
     then take (Z.to_nat (used (slot_of st 0))) (buffer (slot_of st 0)) else [])
    ++ prepared st ++ buffer s.
Proof.
  intros W Hk Hu. pose proof (wf_k st W). unfold prepared. cbn -[NUMBER_OF_BUFFER].
  rewrite Z2Nat.inj_add by lia. rewrite Nat.add_1_r, prepared_from_snoc. cbn [Nat.add].
  rewrite Z2Nat.id by lia. rewrite slot_of_complete_write, Z.eqb_refl by (done || lia).
  unfold slot_unread at 1. rewrite Hu. cbn [Z.to_nat]. rewrite drop_0, app_assoc. f_equal.
  unfold writer_overtakes.
  destruct (Z.eqb_spec (buffer_used st + 1) NUMBER_OF_BUFFER) as [E | E]; cbn [andb].
  2: { apply prepared_from_ext. intros i Hi.
       rewrite slot_of_complete_write by (done || lia). case_cmp. done. }
  destruct (Z.to_nat (buffer_used st)) as [| n] eqn:En; [unfold NUMBER_OF_BUFFER in *; lia |].
  rewrite !prepared_from_cons, (prepared_from_ext (complete_write st s) st), app_assoc.
  2: { intros i Hi. rewrite slot_of_complete_write by (done || lia). case_cmp. done. }
  f_equal. change (Z.of_nat 0) with 0. rewrite slot_of_complete_write by (done || lia).
  destruct (Z.eqb_spec 0 (buffer_used st)); [lia |].
  replace (0 + NUMBER_OF_BUFFER =? buffer_used st + 1) with true by (symmetry; lia).
  replace (0 =? buffer_used st + 1) with false by (symmetry; lia). cbn [orb].
  unfold slot_unread. cbn [reset_used used buffer].
  change (Z.to_nat 0) with 0%nat. rewrite drop_0.
  destruct (Z.eqb_spec (used (slot_of st 0)) 0) as [-> |]; cbn [negb].
  - done.
  - by rewrite take_drop.
Qed.

Definition filled (s : data_buffer_s) (data : list Z) : data_buffer_s :=
  mkSlot (take (Z.to_nat (used s)) (buffer s) ++ slice 0 (LENGTH_OF_BUFFER - used s) data)
    0 B_PREPARED.

Lemma write_iter_more st data size :
  wf st -> buffer_used st < NUMBER_OF_BUFFER -> 0 < size <= zlen data ->
  LENGTH_OF_BUFFER - used (slot_of st (buffer_used st)) <= size ->
  let s := slot_of st (buffer_used st) in
  let remain := LENGTH_OF_BUFFER - used s in
  buffer_write_iter st data size
  = Ret (WMore (complete_write st (filled s data)) (drop (Z.to_nat remain) data) (size - remain)).
Proof.
  intros W Hk Hsz Hfit. cbv zeta.
  pose proof (wf_k st W) as Hk0. pose proof (wf_rd st W) as Hrd.
  destruct (wf_slot st W (buffer_used st)) as [Hl Hu _ _]; [lia |].
  unfold buffer_write_iter. destruct (Z.leb_spec size 0); [lia |].
  rewrite (get_write_slot st W). cbn -[NUMBER_OF_BUFFER].
  rewrite decide_False by (rewrite (proj2 (wf_writable st W) Hk); done).
  destruct (Z.ltb_spec size (LENGTH_OF_BUFFER - used (slot_of st (buffer_used st)))); [lia |].
  rewrite memcpy_from_Ret by lia. cbn -[NUMBER_OF_BUFFER].
  pose proof (zlen_slice 0 (LENGTH_OF_BUFFER - used (slot_of st (buffer_used st))) data
    ltac:(lia) ltac:(lia) ltac:(lia)) as Hc.
  rewrite memcpy_to_Ret by lia. cbn -[NUMBER_OF_BUFFER].
  rewrite blit_full by lia.
  rewrite (wf_wr st W), ring_ix_succ by lia.
  rewrite clear_used_next by apply W. done.
Qed.

Lemma filled_length st data :
  wf st -> buffer_used st < NUMBER_OF_BUFFER ->
  LENGTH_OF_BUFFER - used (slot_of st (buffer_used st)) <= zlen data ->
  zlen (buffer (filled (slot_of st (buffer_used st)) data)) = LENGTH_OF_BUFFER.
Proof.
  intros W Hk Hd. destruct (wf_slot st W (buffer_used st)) as [Hl Hu _ _].
  { pose proof (wf_k st W). lia. }
  cbn. rewrite zlen_app, zlen_slice by lia. unfold zlen in *. rewrite length_take. lia.
Qed.

Lemma pending_take st :
  wf st -> buffer_used st < NUMBER_OF_BUFFER ->
  pending st = take (Z.to_nat (used (slot_of st (buffer_used st))))
                 (buffer (slot_of st (buffer_used st))).
Proof. intros W Hk. unfold pending. case_cmp. done. Qed.

(** ** One iteration of the reader *)

(** The state in which a reader that emptied its buffer goes on. *)
Definition complete_read (st : state) : state :=
  mkState (data_buffer (advance_slots st 0 (mkSlot (buffer (slot_of st 0)) 0 B_UNPREPARED)))
    (current_write_buffer st) (ring_ix st 1) (buffer_used st - 1).

Lemma ring_ix_complete_read st m : ring_ix (complete_read st) m = ring_ix st (m + 1).
Proof.
  unfold ring_ix. cbn -[NUMBER_OF_BUFFER]. unfold ring_ix.
  rewrite Z.add_mod_idemp_l by done. f_equal. lia.
Qed.

Lemma slot_of_complete_read st m :
  wf st -> 0 <= m < NUMBER_OF_BUFFER ->
  slot_of (complete_read st) m =
    if m =? 0 then reset_used (slot_of st 1)
    else if m =? NUMBER_OF_BUFFER - 1 then mkSlot (buffer (slot_of st 0)) 0 B_UNPREPARED
    else slot_of st (m + 1).
Proof.
  intros W Hm.
  set (j := if m =? NUMBER_OF_BUFFER - 1 then 0 else m + 1).
  assert (0 <= j < NUMBER_OF_BUFFER) as Hj by (subst j; unfold NUMBER_OF_BUFFER in *; case_cmp).
  transitivity (slot_of (advance_slots st 0 (mkSlot (buffer (slot_of st 0)) 0 B_UNPREPARED)) j).
  { unfold slot_of. rewrite ring_ix_complete_read. do 3 f_equal.
    change (ring_ix (advance_slots st 0 _) j) with (ring_ix st j). subst j.
    destruct (Z.eqb_spec m (NUMBER_OF_BUFFER - 1)) as [-> |]; [| done].
    apply (ring_ix_wrap st 0). }
  rewrite slot_of_advance by (apply W || done).
  subst j. unfold NUMBER_OF_BUFFER in *.
  destruct (Z.eqb_spec m (5 - 1)) as [-> |]; [done |].
  destruct (Z.eqb_spec m 0) as [-> |]; [done |]. case_cmp. done.
Qed.

Lemma complete_read_wf st : wf st -> 0 < buffer_used st -> wf (complete_read st).
Proof.
  intros W Hk. pose proof (wf_k st W) as Hk5. pose proof (wf_slot st W 0 ltac:(done)) as H0.
  constructor; cbn -[NUMBER_OF_BUFFER].
  - rewrite length_advance. apply W.
  - apply ring_ix_range.
  - lia.
  - rewrite (wf_wr st W), ring_ix_complete_read. f_equal. lia.
  - intros i Hi. rewrite slot_of_complete_read by done.
    destruct (Z.eqb_spec i 0) as [-> | Hne].
    { destruct (wf_slot st W 1 ltac:(done)) as [Hl Hu Hs _].
      constructor; cbn; [done | done | rewrite Hs; case_cmp; done | done]. }
    destruct (Z.eqb_spec i (NUMBER_OF_BUFFER - 1)) as [-> |].
    { destruct H0. constructor; cbn; [done | done | | done].
      unfold NUMBER_OF_BUFFER in *. case_cmp. done. }
    destruct (wf_slot st W (i + 1)) as [Hl Hu Hs Hx]; [lia |].
    constructor; [done | done | rewrite Hs; case_cmp; done | intros; apply Hx; lia].
Qed.

(** The reader's move is harmless unless the writer is inside the buffer moved
    to, in which case the writer's position, hence the bytes before it, is lost. *)
Definition reader_overtakes (st : state) : bool :=
  (buffer_used st =? 1) && negb (used (slot_of st 1) =? 0).

Lemma slot_1_idle st : wf st -> buffer_used st <> 1 -> reset_used (slot_of st 1) = slot_of st 1.
Proof.
  intros W Hk. apply reset_used_id. apply (slot_ok_idle _ _ _ (wf_slot st W 1 ltac:(done))); lia.
Qed.

Lemma complete_read_prepared st :
  wf st -> 0 < buffer_used st ->
  prepared st = slot_unread (slot_of st 0) ++ prepared (complete_read st).
Proof.
  intros W Hk. pose proof (wf_k st W) as Hk5. unfold prepared. cbn -[NUMBER_OF_BUFFER].
  replace (Z.to_nat (buffer_used st)) with (S (Z.to_nat (buffer_used st - 1))) by lia.
  rewrite prepared_from_cons. f_equal. apply prepared_from_shift. intros i Hi.
  rewrite slot_of_complete_read by (done || lia).
  destruct (Z.eqb_spec (i + Z.of_nat 0 - Z.of_nat 1) 0) as [E |].
  - rewrite slot_1_idle by (done || lia). f_equal. lia.
  - case_cmp. f_equal. lia.
Qed.

Lemma complete_read_pending st :
  wf st -> 0 < buffer_used st ->
  pending (complete_read st) = if reader_overtakes st then [] else pending st.
Proof.
  intros W Hk. pose proof (wf_k st W) as Hk5.
  rewrite pending_take by (apply complete_read_wf || cbn; done || lia).
  cbn -[NUMBER_OF_BUFFER]. rewrite slot_of_complete_read by (done || lia).
  unfold reader_overtakes, pending.
  destruct (Z.eqb_spec (buffer_used st) 1) as [E | E]; cbn [andb].
  - rewrite E. cbn. destruct (Z.eqb_spec (used (slot_of st 1)) 0) as [-> |]; done.
  - destruct (Z.eqb_spec (buffer_used st - 1) 0); [lia |].
    destruct (Z.eqb_spec (buffer_used st - 1) (NUMBER_OF_BUFFER - 1)); case_cmp; [done |].
    by rewrite Z.sub_add.
Qed.

Lemma read_iter_done st size data_read :
  wf st -> 0 < buffer_used st -> 0 < size < LENGTH_OF_BUFFER - used (slot_of st 0) ->
  exists st', buffer_read_iter st size data_read
    = Ret (RDone st' (slice (used (slot_of st 0)) size (buffer (slot_of st 0))) (data_read + size)) /\
    wf st' /\ pending st' = pending st /\ buffer_used st' = buffer_used st /\
    current_read_buffer st' = current_read_buffer st /\
    current_write_buffer st' = current_write_buffer st /\
    (forall i, 0 <= i < NUMBER_OF_BUFFER -> slot_of st' i =
       if i =? 0 then mkSlot (buffer (slot_of st 0)) (used (slot_of st 0) + size) B_PREPARED
       else slot_of st i).
Proof.
  intros W Hk Hsz. pose proof (wf_k st W) as Hk0.
  destruct (wf_slot st W 0 ltac:(done)) as [Hl Hu Hs Hi].
  unfold buffer_read_iter. destruct (Z.leb_spec size 0); [lia |].
  rewrite (get_read_slot st W). cbn -[NUMBER_OF_BUFFER].
  rewrite (proj2 (wf_readable st W) Hk), decide_False by done.
  destruct (Z.ltb_spec size (LENGTH_OF_BUFFER - used (slot_of st 0))); [| lia].
  rewrite memcpy_from_Ret by lia. cbn -[NUMBER_OF_BUFFER]. eexists. split; [done |].
  set (s' := mkSlot _ _ _). rewrite <- (ring_ix_0 st W). set (st' := set_slot _ _ _).
  assert (forall i, 0 <= i < NUMBER_OF_BUFFER ->
    slot_of st' i = if i =? 0 then s' else slot_of st i) as E.
  { intros. apply slot_of_set; [apply W | lia | done]. }
  split_and!; try done.
  - apply wf_slots_intro; [subst st'; rewrite length_set_slot; apply W | apply W | done | apply W |].
    intros i Hr. rewrite E by done. destruct (Z.eqb_spec i 0) as [-> |].
    + constructor; cbn; [done | lia | case_cmp; done | done].
    + apply W; lia.
  - unfold pending. cbn [buffer_used st' set_slot].
    destruct (Z.ltb_spec (buffer_used st) NUMBER_OF_BUFFER); [| done].
    rewrite E by lia. case_cmp. done.
  - symmetry. apply (ring_ix_0 st W).
Qed.

Lemma read_iter_more st size data_read :
  wf st -> 0 < buffer_used st -> 0 < size -> LENGTH_OF_BUFFER - used (slot_of st 0) <= size ->
  buffer_read_iter st size data_read
  = Ret (RMore (complete_read st) (slot_unread (slot_of st 0))
           (size - (LENGTH_OF_BUFFER - used (slot_of st 0)))
           (data_read + (LENGTH_OF_BUFFER - used (slot_of st 0)))).
Proof.
  intros W Hk Hsz Hfit. pose proof (wf_k st W) as Hk0. pose proof (wf_rd st W).
  destruct (wf_slot st W 0 ltac:(done)) as [Hl Hu Hs Hi].
  unfold buffer_read_iter. destruct (Z.leb_spec size 0); [lia |].
  rewrite (get_read_slot st W). cbn -[NUMBER_OF_BUFFER].
  rewrite (proj2 (wf_readable st W) Hk), decide_False by done.
  destruct (Z.ltb_spec size (LENGTH_OF_BUFFER - used (slot_of st 0))); [lia |].
  rewrite memcpy_from_Ret by lia. cbn -[NUMBER_OF_BUFFER].
  rewrite <- (ring_ix_0 st W), ring_ix_succ by lia. cbn [Z.add].
  rewrite (clear_used_next st 0) by apply W. cbn -[NUMBER_OF_BUFFER].
  unfold complete_read, slot_unread, slice. rewrite (take_ge (drop _ _)); [done |].
  unfold zlen in Hl. rewrite length_drop. lia.
Qed.

Lemma read_iter_done_prepared st st' size :
  wf st -> 0 < buffer_used st -> 0 < size < LENGTH_OF_BUFFER - used (slot_of st 0) ->
  buffer_used st' = buffer_used st ->
  (forall i, 0 <= i < NUMBER_OF_BUFFER -> slot_of st' i =
     if i =? 0 then mkSlot (buffer (slot_of st 0)) (used (slot_of st 0) + size) B_PREPARED
     else slot_of st i) ->
  prepared st = slice (used (slot_of st 0)) size (buffer (slot_of st 0)) ++ prepared st'.
Proof.
  intros W Hk Hsz Ek E. pose proof (wf_k st W) as Hk0.
  destruct (wf_slot st W 0 ltac:(done)) as [_ Hu _ _].
  unfold prepared. rewrite Ek.
  destruct (Z.to_nat (buffer_used st)) as [| n] eqn:En; [lia |].
  rewrite !prepared_from_cons, (prepared_from_ext st' st 1 n).
  2: { intros i Hi. rewrite E by lia. case_cmp. done. }
  rewrite app_assoc. f_equal. change (Z.of_nat 0) with 0. rewrite E by done. cbn [Z.eqb].
  unfold slot_unread. cbn [used buffer]. symmetry. apply slice_app_drop; lia.
Qed.

(** * Interleavings *)

(** One step is one iteration of either task; its label is the bytes it moved. *)
Inductive event := Wrote (bs : list Z) | Got (bs : list Z).

Inductive step : state -> event -> state -> Prop :=
  | step_write_done st data size st' :
      0 < size <= zlen data -> buffer_write_iter st data size = Ret (WDone st') ->
      step st (Wrote (slice 0 size data)) st'
  | step_write_more st data size st' data' size' :
      0 < size <= zlen data -> buffer_write_iter st data size = Ret (WMore st' data' size') ->
      step st (Wrote (slice 0 (size - size') data)) st'
  | step_read_done st size data_read st' out ret :
      0 < size -> buffer_read_iter st size data_read = Ret (RDone st' out ret) ->
      step st (Got out) st'
  | step_read_more st size data_read st' out size' data_read' :
      0 < size -> buffer_read_iter st size data_read = Ret (RMore st' out size' data_read') ->
      step st (Got out) st'.

(** The step moves an index onto a buffer the other task is in the middle of. *)
Definition overtakes (st : state) (e : event) (st' : state) : bool :=
  match e with
  | Wrote _ => negb (current_write_buffer st' =? current_write_buffer st) && writer_overtakes st
  | Got _ => negb (current_read_buffer st' =? current_read_buffer st) && reader_overtakes st
  end.

Inductive orderly_run : state -> list event -> state -> Prop :=
  | run_nil st : orderly_run st [] st
  | run_cons st e st' evs st'' :
      step st e st' -> overtakes st e st' = false -> orderly_run st' evs st'' ->
      orderly_run st (e :: evs) st''.

Definition wrote (evs : list event) : list Z :=
  concat ((fun e => match e with Wrote bs => bs | Got _ => [] end) <$> evs).
Definition got (evs : list event) : list Z :=
  concat ((fun e => match e with Got bs => bs | Wrote _ => [] end) <$> evs).

Lemma ring_ix_succ_ne st i : ring_ix st (i + 1) <> ring_ix st i.
Proof. unfold ring_ix, NUMBER_OF_BUFFER. zdiv. Qed.

Lemma write_iter_full st data size :
  wf st -> 0 < size -> buffer_used st = NUMBER_OF_BUFFER ->
  buffer_write_iter st data size = Ret WSpin.
Proof.
  intros W Hs Hk. unfold buffer_write_iter. destruct (Z.leb_spec size 0); [lia |].
  rewrite (get_write_slot st W). cbn -[NUMBER_OF_BUFFER]. rewrite decide_True; [done |].
  destruct (wf_writable st W) as [Hw _].
  destruct (data_buffer_state (slot_of st (buffer_used st))); [done |].
  specialize (Hw eq_refl). lia.
Qed.

Lemma read_iter_empty st size data_read :
  wf st -> 0 < size -> buffer_used st = 0 -> buffer_read_iter st size data_read = Ret RSpin.
Proof.
  intros W Hs Hk. unfold buffer_read_iter. destruct (Z.leb_spec size 0); [lia |].
  rewrite (get_read_slot st W). cbn -[NUMBER_OF_BUFFER]. rewrite decide_True; [done |].
  destruct (wf_readable st W) as [Hw _].
  destruct (data_buffer_state (slot_of st 0)); [| done].
  specialize (Hw eq_refl). lia.
Qed.

Lemma write_step st data size :
  wf st -> 0 < size <= zlen data ->
  match buffer_write_iter st data size with
  | Ret WSpin => buffer_used st = NUMBER_OF_BUFFER
  | Ret (WDone st') =>
      wf st' /\ unread st' = unread st ++ slice 0 size data /\
      current_write_buffer st' = current_write_buffer st
  | Ret (WMore st' data' size') =>
      wf st' /\ current_write_buffer st' <> current_write_buffer st /\
      unread st' = (if writer_overtakes st
                    then take (Z.to_nat (used (slot_of st 0))) (buffer (slot_of st 0)) else [])
                   ++ unread st ++ slice 0 (size - size') data
  | Fault _ => False
  end.
Proof.
  intros W Hs. pose proof (wf_k st W) as Hk.
  destruct (Z.eq_dec (buffer_used st) NUMBER_OF_BUFFER) as [E | E].
  { rewrite write_iter_full by (done || lia). done. }
  assert (buffer_used st < NUMBER_OF_BUFFER) as Hk' by lia.
  destruct (Z.lt_ge_cases size (LENGTH_OF_BUFFER - used (slot_of st (buffer_used st)))) as [Hf | Hf].
  - destruct (write_iter_done st data size) as (st' & -> & W' & Ep & En & _ & _ & Ew); [done.. |].
    unfold unread. rewrite Ep, En, app_assoc. done.
  - rewrite write_iter_more by done. cbv zeta.
    pose proof (filled_length st data W Hk' ltac:(lia)) as Hfl.
    split; [by apply complete_write_wf |]. split.
    { cbn. rewrite (wf_wr st W). apply ring_ix_succ_ne. }
    unfold unread. rewrite complete_write_prepared, complete_write_pending by done.
    rewrite pending_take, app_nil_r, <- !app_assoc by done. cbn [buffer filled].
    do 4 f_equal. lia.
Qed.

Lemma read_step st size data_read :
  wf st -> 0 < size ->
  match buffer_read_iter st size data_read with
  | Ret RSpin => buffer_used st = 0
  | Ret (RDone st' out ret) =>
      wf st' /\ unread st = out ++ unread st' /\ ret = data_read + size /\
      current_read_buffer st' = current_read_buffer st
  | Ret (RMore st' out size' data_read') =>
      wf st' /\ current_read_buffer st' <> current_read_buffer st /\
      prepared st = out ++ prepared st' /\
      pending st' = (if reader_overtakes st then [] else pending st) /\
      buffer_used st' = buffer_used st - 1
  | Fault _ => False
  end.
Proof.
  intros W Hs. pose proof (wf_k st W) as Hk.
  destruct (Z.eq_dec (buffer_used st) 0) as [E | E].
  { rewrite read_iter_empty by (done || lia). done. }
  assert (0 < buffer_used st) as Hk' by lia.
  destruct (Z.lt_ge_cases size (LENGTH_OF_BUFFER - used (slot_of st 0))) as [Hf | Hf].
  - destruct (read_iter_done st size data_read) as (st' & -> & W' & En & Ek & Er & _ & Es); [done.. |].
    split_and!; try done. unfold unread.
    by rewrite En, app_assoc, (read_iter_done_prepared st st' size).
  - rewrite read_iter_more by done.
    split_and!; [by apply complete_read_wf | | by apply complete_read_prepared
                | by apply complete_read_pending | done].
    cbn. rewrite <- (ring_ix_0 st W) at 1. apply (ring_ix_succ_ne st 0).
Qed.

Lemma step_wf st e st' : wf st -> step st e st' -> wf st'.
Proof.
  intros W Hst. destruct Hst as [? data size ? Hs H | ? data size ? ? ? Hs H
                                | ? size dr ? ? ? Hs H | ? size dr ? ? ? ? Hs H].
  1,2: pose proof (write_step _ data size W Hs) as P; rewrite H in P; tauto.
  1,2: pose proof (read_step _ size dr W Hs) as P; rewrite H in P; tauto.
Qed.

Lemma step_orderly st e st' :
  wf st -> step st e st' -> overtakes st e st' = false ->
  unread st ++ wrote [e] = got [e] ++ unread st'.
Proof.
  intros W Hst. destruct Hst as [? data size ? Hs H | ? data size ? ? ? Hs H
                                | ? size dr ? ? ? Hs H | ? size dr ? ? ? ? Hs H];
    cbn [overtakes]; unfold wrote, got; cbn [fmap list_fmap concat]; rewrite ?app_nil_r; cbn [app].
  - pose proof (write_step _ data size W Hs) as P. rewrite H in P. intros _.
    symmetry. apply P.
  - pose proof (write_step _ data size W Hs) as P. rewrite H in P. destruct P as (_ & Hne & ->).
    apply Z.eqb_neq in Hne. rewrite Hne. cbn [negb andb]. by intros ->.
  - pose proof (read_step _ size dr W Hs) as P. rewrite H in P. intros _. apply P.
  - pose proof (read_step _ size dr W Hs) as P. rewrite H in P.
    destruct P as (_ & Hne & Ep & En & _). apply Z.eqb_neq in Hne. rewrite Hne. cbn [negb andb].
    intros E. unfold unread. by rewrite Ep, En, E, app_assoc.
Qed.

Lemma wrote_cons e evs : wrote (e :: evs) = wrote [e] ++ wrote evs.
Proof. unfold wrote. cbn. by rewrite app_nil_r. Qed.

Lemma got_cons e evs : got (e :: evs) = got [e] ++ got evs.
Proof. unfold got. cbn. by rewrite app_nil_r. Qed.

(** * Start-up *)

Definition boot_state : state := init_data_buffer static_state.

Lemma boot_slot i : slot_of boot_state i = mkSlot (replicate (Z.to_nat LENGTH_OF_BUFFER) 0) 0 B_UNPREPARED.
Proof.
  unfold slot_of, boot_state, init_data_buffer, static_state. cbn [data_buffer].
  rewrite fmap_replicate, lookup_replicate_2; [done |].
  apply Z2Nat.inj_lt; [apply (ring_ix_range boot_state) | done | apply (ring_ix_range boot_state)].
Qed.

Lemma boot_wf : wf boot_state.
Proof.
  constructor; try done. intros i Hi. rewrite boot_slot.
  constructor; cbn [buffer used data_buffer_state boot_state buffer_used init_data_buffer static_state];
    [| done | case_cmp; done | done].
  unfold zlen. rewrite length_replicate. done.
Qed.

Lemma boot_unread : unread boot_state = [].
Proof. unfold unread, prepared, pending. rewrite boot_slot. done. Qed.

(** * Properties *)

(** C6. Any interleaving of writer and reader iterations in which neither side
    moves onto a buffer the other side is in the middle of is a FIFO: from any
    well-formed state (in particular from start-up, where the queue is empty)
    the bytes queued at the start followed by those written are the bytes read
    followed by those still queued, and the state stays well-formed. *)
Theorem orderly_run_fifo st evs st' :
  wf st -> orderly_run st evs st' ->
  wf st' /\ unread st ++ wrote evs = got evs ++ unread st'.
Proof.
  intros W Hrun. induction Hrun as [st | st e st1 evs st2 Hst Ho Hrun IH].
  - split; [done |]. unfold wrote, got. cbn. by rewrite app_nil_r.
  - destruct (IH (step_wf _ _ _ W Hst)) as [W2 E2]. split; [done |].
    rewrite wrote_cons, got_cons, app_assoc, (step_orderly _ _ _ W Hst Ho).
    rewrite <- !app_assoc. by rewrite E2.
Qed.

Lemma prepared_empty st : buffer_used st = 0 -> prepared st = [].
Proof. unfold prepared. by intros ->. Qed.

Lemma reader_overtakes_true st :
  reader_overtakes st = true -> buffer_used st = 1 /\ used (slot_of st 1) <> 0.
Proof.
  unfold reader_overtakes. rewrite andb_true_iff, negb_true_iff, Z.eqb_eq, Z.eqb_neq. done.
Qed.

Lemma writer_overtakes_true st :
  writer_overtakes st = true ->
  buffer_used st + 1 = NUMBER_OF_BUFFER /\ used (slot_of st 0) <> 0.
Proof.
  unfold writer_overtakes. rewrite andb_true_iff, negb_true_iff, Z.eqb_eq, Z.eqb_neq. done.
Qed.

Lemma take_used_nonempty st i :
  wf st -> 0 <= i < NUMBER_OF_BUFFER -> used (slot_of st i) <> 0 ->
  take (Z.to_nat (used (slot_of st i))) (buffer (slot_of st i)) <> [].
Proof.
  intros W Hi Hu E. destruct (wf_slot st W i Hi) as [Hl Hr _ _].
  apply (f_equal length) in E. rewrite length_take in E. unfold zlen in Hl. cbn in E. lia.
Qed.

(** Overtaking always corrupts the stream.  A reader that moves onto the
    buffer the writer is filling discards the bytes already written there; a
    writer that moves onto the buffer the reader is in the middle of makes the
    bytes already read appear again at the front of the queue. *)
Theorem overtaking_corrupts st e st' :
  wf st -> step st e st' -> overtakes st e st' = true ->
  match e with
  | Got out => unread st = out ++ pending st /\ pending st <> [] /\ unread st' = []
  | Wrote bs =>
      let old := take (Z.to_nat (used (slot_of st 0))) (buffer (slot_of st 0)) in
      old <> [] /\ unread st' = old ++ unread st ++ bs
  end.
Proof.
  intros W Hst. destruct Hst as [? data size ? Hs H | ? data size ? ? ? Hs H
                                | ? size dr ? ? ? Hs H | ? size dr ? ? ? ? Hs H];
    cbn [overtakes].
  - pose proof (write_step _ data size W Hs) as P. rewrite H in P. destruct P as (_ & _ & ->).
    by rewrite Z.eqb_refl.
  - pose proof (write_step _ data size W Hs) as P. rewrite H in P. destruct P as (_ & _ & ->).
    rewrite andb_true_iff. intros [_ Ho]. rewrite Ho. split; [| done].
    apply writer_overtakes_true in Ho. apply take_used_nonempty; [done | done | apply Ho].
  - pose proof (read_step _ size dr W Hs) as P. rewrite H in P. destruct P as (_ & _ & _ & ->).
    by rewrite Z.eqb_refl.
  - pose proof (read_step _ size dr W Hs) as P. rewrite H in P.
    destruct P as (_ & _ & Ep & En & Ek).
    rewrite andb_true_iff. intros [_ Ho]. rewrite Ho in En.
    destruct (reader_overtakes_true _ Ho) as [Hk Hu].
    rewrite (prepared_empty st'), app_nil_r in Ep by lia.
    split_and!.
    + unfold unread. by rewrite Ep.
    + rewrite pending_take by (done || by rewrite Hk). rewrite Hk.
      by apply take_used_nonempty.
    + unfold unread. rewrite prepared_empty, En by lia. done.
Qed.

(** ** Whole calls *)

(** The room for the writer, and the bytes ready for the reader. *)
Definition room (st : state) : Z :=
  if buffer_used st <? NUMBER_OF_BUFFER
  then (NUMBER_OF_BUFFER - buffer_used st) * LENGTH_OF_BUFFER - used (slot_of st (buffer_used st))
  else 0.
Definition ready (st : state) : Z :=
  if 0 <? buffer_used st then buffer_used st * LENGTH_OF_BUFFER - used (slot_of st 0) else 0.

(** The bytes a write of [size] bytes makes reappear. *)
Definition replayed_by (st : state) (size : Z) : list Z :=
  if (0 <? buffer_used st) && (buffer_used st <? NUMBER_OF_BUFFER) && (room st <=? size)
  then take (Z.to_nat (used (slot_of st 0))) (buffer (slot_of st 0)) else [].

Definition write_result (st : state) (data : list Z) (size : Z) (r : wresult) : Prop :=
  exists st', wf st' /\
    unread st' = replayed_by st size ++ unread st ++ take (Z.to_nat (Z.min size (room st))) data /\
    room st' = room st - Z.min size (room st) /\ buffer_used st <= buffer_used st' /\
    r = if size <=? room st then Written st'
        else WBlocked st' (drop (Z.to_nat (room st)) data) (size - room st).

Ltac ring_lia := unfold NUMBER_OF_BUFFER, LENGTH_OF_BUFFER in *; lia.

Lemma room_spec st :
  wf st -> buffer_used st < NUMBER_OF_BUFFER ->
  room st = (NUMBER_OF_BUFFER - buffer_used st) * LENGTH_OF_BUFFER - used (slot_of st (buffer_used st))
  /\ LENGTH_OF_BUFFER - used (slot_of st (buffer_used st)) <= room st
  /\ 0 <= used (slot_of st (buffer_used st)) < LENGTH_OF_BUFFER.
Proof.
  intros W Hk. pose proof (wf_k st W). unfold room. case_cmp.
  destruct (wf_slot st W (buffer_used st)) as [_ Hu _ _]; [lia |]. ring_lia.
Qed.

Lemma room_nonneg st : wf st -> 0 <= room st.
Proof.
  intros W. destruct (Z.ltb_spec (buffer_used st) NUMBER_OF_BUFFER) as [H | H].
  - destruct (room_spec st W H) as (_ & Hr & Hu). lia.
  - unfold room. by rewrite (proj2 (Z.ltb_ge _ _) H).
Qed.

Lemma room_pending st :
  wf st -> buffer_used st < NUMBER_OF_BUFFER ->
  room st = (NUMBER_OF_BUFFER - buffer_used st) * LENGTH_OF_BUFFER - zlen (pending st).
Proof.
  intros W H. destruct (room_spec st W H) as (-> & _ & Hu). pose proof (wf_k st W). f_equal.
  unfold pending. rewrite (proj2 (Z.ltb_lt _ _) H).
  destruct (wf_slot st W (buffer_used st)) as [Hl _ _ _]; [lia |].
  unfold zlen in *. rewrite length_take. ring_lia.
Qed.

Lemma room_full st : buffer_used st = NUMBER_OF_BUFFER -> room st = 0.
Proof. unfold room. by intros ->. Qed.

Lemma replayed_by_nil st size : size < room st -> replayed_by st size = [].
Proof.
  intros H. unfold replayed_by. destruct (Z.leb_spec (room st) size); [lia |].
  by rewrite andb_false_r.
Qed.

Lemma replayed_by_full st size : buffer_used st = NUMBER_OF_BUFFER -> replayed_by st size = [].
Proof. unfold replayed_by. by intros ->. Qed.

Lemma write_result_zero st data : wf st -> write_result st data 0 (Written st).
Proof.
  intros W. exists st. split; [done |]. pose proof (wf_k st W).
  destruct (Z.eq_dec (buffer_used st) NUMBER_OF_BUFFER) as [E | E].
  - rewrite room_full, replayed_by_full by done. cbn. by rewrite app_nil_r.
  - destruct (room_spec st W) as (_ & Hr & Hu); [lia |].
    destruct (Z.leb_spec 0 (room st)); [| lia].
    rewrite replayed_by_nil, Z.min_l by lia. cbn. rewrite app_nil_r. split_and!; done || lia.
Qed.

Lemma write_result_full st data size :
  wf st -> buffer_used st = NUMBER_OF_BUFFER -> 0 < size ->
  write_result st data size (WBlocked st data size).
Proof.
  intros W E Hs. exists st. split; [done |].
  rewrite room_full, replayed_by_full, Z.min_r, !Z.sub_0_r by (done || lia).
  destruct (Z.leb_spec size 0); [lia |]. cbn. rewrite app_nil_r. split_and!; done || lia.
Qed.

Lemma write_result_done st st' data size :
  buffer_used st' = buffer_used st -> zlen (pending st') = zlen (pending st) + size ->
  wf st -> buffer_used st < NUMBER_OF_BUFFER -> wf st' ->
  size < LENGTH_OF_BUFFER - used (slot_of st (buffer_used st)) ->
  unread st' = unread st ++ slice 0 size data -> write_result st data size (Written st').
Proof.
  intros Hu Hp W Hk W' Hs E. exists st'. split; [done |].
  destruct (room_spec st W Hk) as (_ & Hr & _).
  destruct (Z.leb_spec size (room st)); [| lia].
  rewrite replayed_by_nil, Z.min_l by lia. split; [by rewrite E |].
  split; [| split; [lia | done]]. rewrite !room_pending by (done || lia). lia.
Qed.

Lemma complete_write_room st s :
  wf st -> buffer_used st < NUMBER_OF_BUFFER -> used s = 0 ->
  room (complete_write st s)
  = room st - (LENGTH_OF_BUFFER - used (slot_of st (buffer_used st))).
Proof.
  intros W Hk Hs. destruct (room_spec st W Hk) as (-> & _ & Hu). pose proof (wf_k st W).
  unfold room. cbn [buffer_used complete_write].
  destruct (Z.ltb_spec (buffer_used st + 1) NUMBER_OF_BUFFER); [| ring_lia].
  rewrite slot_of_complete_write by (done || lia).
  destruct (Z.eqb_spec (buffer_used st + 1) (buffer_used st)); [lia |].
  rewrite Z.eqb_refl. cbn [orb reset_used used]. ring_lia.
Qed.

(** Bytes reappear when the last free buffer is completed, which is the first
    round of the call or a later one. *)
Lemma complete_write_replayed st s size :
  wf st -> buffer_used st < NUMBER_OF_BUFFER -> used s = 0 ->
  LENGTH_OF_BUFFER - used (slot_of st (buffer_used st)) <= size ->
  replayed_by st size
  = replayed_by (complete_write st s)
      (size - (LENGTH_OF_BUFFER - used (slot_of st (buffer_used st))))
    ++ (if writer_overtakes st
        then take (Z.to_nat (used (slot_of st 0))) (buffer (slot_of st 0)) else []).
Proof.
  intros W Hk Hs Hsz. destruct (room_spec st W Hk) as (Er & Hr & Hu). pose proof (wf_k st W).
  unfold writer_overtakes.
  destruct (Z.eqb_spec (buffer_used st + 1) NUMBER_OF_BUFFER) as [E | E]; cbn [andb].
  - rewrite (replayed_by_full (complete_write _ _)) by done. unfold replayed_by.
    replace (room st <=? size) with true by (symmetry; apply Z.leb_le; ring_lia).
    destruct (Z.ltb_spec 0 (buffer_used st)); [| ring_lia].
    destruct (Z.ltb_spec (buffer_used st) NUMBER_OF_BUFFER); [| lia]. cbn [andb app].
    destruct (Z.eqb_spec (used (slot_of st 0)) 0) as [-> |]; done.
  - rewrite app_nil_r. unfold replayed_by. rewrite complete_write_room by done.
    cbn [buffer_used complete_write]. rewrite slot_of_complete_write by done.
    destruct (Z.eqb_spec 0 (buffer_used st)) as [<- | H0].
    + cbn [Z.ltb andb]. rewrite Hs. cbn. by destruct (_ && _).
    + replace ((0 =? buffer_used st + 1) || (0 + NUMBER_OF_BUFFER =? buffer_used st + 1)) with false
        by (symmetry; apply orb_false_iff; rewrite !Z.eqb_neq; lia).
      case_cmp; done.
Qed.

Lemma write_loop_spec fuel st data size :
  wf st -> 0 <= size <= zlen data -> size < Z.of_nat fuel ->
  exists r, buffer_write_loop fuel st data size = Ret r /\ write_result st data size r.
Proof.
  revert st data size. induction fuel as [| fuel IH]; intros st data size W Hs Hf; [lia |].
  pose proof (wf_k st W) as Hk. cbn [buffer_write_loop].
  destruct (Z.eq_dec size 0) as [-> | Hne].
  { exists (Written st). split; [done | by apply write_result_zero]. }
  destruct (Z.eq_dec (buffer_used st) NUMBER_OF_BUFFER) as [E | E].
  { rewrite write_iter_full by (done || lia). exists (WBlocked st data size).
    split; [done | by apply write_result_full; [.. | lia]]. }
  assert (buffer_used st < NUMBER_OF_BUFFER) as Hk' by lia.
  destruct (room_spec st W Hk') as (Er & Hr & Hu).
  set (u := used (slot_of st (buffer_used st))) in *.
  destruct (Z.lt_ge_cases size (LENGTH_OF_BUFFER - u)) as [Hl | Hl].
  { destruct (write_iter_done st data size) as (st' & -> & W' & Ep & En & Eu & _); [done | done | lia | done |].
    exists (Written st'). split; [done |]. apply write_result_done; [done | | done.. |].
    { rewrite En, zlen_app, zlen_slice by lia. done. }
    unfold unread. rewrite Ep, En. by rewrite app_assoc. }
  rewrite write_iter_more by (done || lia). cbn [mbind res_bind]. cbv zeta. fold u.
  set (s := filled _ _). set (st1 := complete_write st s).
  assert (wf st1) as W1 by (apply complete_write_wf; [done.. | apply filled_length; lia || done | done | done]).
  destruct (IH st1 (drop (Z.to_nat (LENGTH_OF_BUFFER - u)) data) (size - (LENGTH_OF_BUFFER - u)))
    as (r & -> & st' & W' & E' & Hr' & Hk1 & ->); [done | | lia |].
  { unfold zlen in *. rewrite length_drop. lia. }
  assert (room st1 = room st - (LENGTH_OF_BUFFER - u)) as Er1 by (by apply complete_write_room).
  eexists. split; [done |]. exists st'. split; [done |]. split.
  - rewrite E', (complete_write_replayed st s size) by (done || lia). rewrite <- app_assoc. f_equal.
    unfold unread. unfold st1 at 1 2. rewrite complete_write_prepared, complete_write_pending by done.
    rewrite pending_take, app_nil_r, <- !app_assoc by done. do 2 f_equal.
    unfold s, filled. cbn [buffer]. rewrite <- app_assoc. f_equal.
    rewrite Er1, slice_0_take. fold u.
    rewrite <- (take_drop (Z.to_nat (LENGTH_OF_BUFFER - u)) (take (Z.to_nat (Z.min size (room st))) data)).
    rewrite take_take. f_equal; [f_equal; lia |].
    rewrite skipn_firstn_comm. f_equal. lia.
  - split; [lia |]. split; [cbn in Hk1; lia |]. rewrite Er1. rewrite drop_drop. case_cmp; [done |]. f_equal; [f_equal; lia | lia].
Qed.

(** A write call returns, or ends spinning because all buffers are full:
    with [room] for the request it returns, otherwise it stores exactly [room]
    bytes and spins with the rest, and the room shrinks by as much.  The bytes stored are appended to the queue;
    bytes reappear in front of it exactly when the call completes the last free
    buffer while the reader is inside a buffer. *)
Theorem buffer_write_data_spec st data size :
  wf st -> 0 <= size <= zlen data ->
  exists r, buffer_write_data st data size = Ret r /\ write_result st data size r.
Proof. intros W Hs. apply write_loop_spec; [done | done | lia]. Qed.

(** The value returned by a read that completes: [return 0] is reached when the
    request ends exactly at the end of a buffer. *)
Definition read_ret (st : state) (size data_read : Z) : Z :=
  if (size =? 0) || ((used (slot_of st 0) + size) mod LENGTH_OF_BUFFER =? 0)
  then 0 else data_read + size.

Definition read_result (st : state) (out : list Z) (size data_read : Z) (r : rresult) : Prop :=
  exists st', wf st' /\ prepared st' = drop (Z.to_nat size) (prepared st) /\
    unread st' = drop (Z.to_nat size) (prepared st) ++
                 (if (0 <? buffer_used st) && (ready st <=? size) then [] else pending st) /\
    r = if size <=? ready st
        then ReadBack st' (out ++ take (Z.to_nat size) (prepared st)) (read_ret st size data_read)
        else RBlocked st' (out ++ prepared st) (size - ready st) (data_read + ready st).

Lemma ready_spec st :
  wf st -> 0 < buffer_used st ->
  ready st = buffer_used st * LENGTH_OF_BUFFER - used (slot_of st 0)
  /\ LENGTH_OF_BUFFER - used (slot_of st 0) <= ready st
  /\ 0 <= used (slot_of st 0) < LENGTH_OF_BUFFER.
Proof.
  intros W Hk. pose proof (wf_k st W). unfold ready. case_cmp.
  destruct (wf_slot st W 0 ltac:(done)) as [_ Hu _ _]. ring_lia.
Qed.

Lemma ready_empty st : buffer_used st = 0 -> ready st = 0.
Proof. unfold ready. by intros ->. Qed.

Lemma zlen_slot_unread st :
  wf st -> zlen (slot_unread (slot_of st 0)) = LENGTH_OF_BUFFER - used (slot_of st 0).
Proof.
  intros W. destruct (wf_slot st W 0 ltac:(done)) as [Hl Hu _ _].
  unfold zlen, slot_unread in *. rewrite length_drop. lia.
Qed.

Lemma ready_complete_read st :
  wf st -> 0 < buffer_used st ->
  ready (complete_read st) = ready st - (LENGTH_OF_BUFFER - used (slot_of st 0)).
Proof.
  intros W Hk. destruct (ready_spec st W Hk) as (-> & _ & Hu). unfold ready.
  cbn [buffer_used complete_read]. rewrite slot_of_complete_read by done. cbn [Z.eqb reset_used used].
  destruct (Z.ltb_spec 0 (buffer_used st - 1)); [ring_lia |].
  replace (buffer_used st) with 1 by lia. lia.
Qed.

Lemma zlen_prepared st : wf st -> zlen (prepared st) = ready st.
Proof.
  remember (Z.to_nat (buffer_used st)) as n eqn:En. revert st En.
  induction n as [| n IH]; intros st En W; pose proof (wf_k st W).
  - rewrite prepared_empty, ready_empty by lia. done.
  - rewrite complete_read_prepared, zlen_app, zlen_slot_unread by (done || lia).
    rewrite IH; [| cbn; lia | apply complete_read_wf; [done | lia]].
    rewrite ready_complete_read by (done || lia). lia.
Qed.

Lemma read_result_zero st out data_read :
  wf st -> read_result st out 0 data_read (ReadBack st (out ++ []) 0).
Proof.
  intros W. exists st. split; [done |]. split; [done |]. pose proof (wf_k st W).
  destruct (Z.eq_dec (buffer_used st) 0) as [E | E].
  - rewrite ready_empty, E by done. done.
  - destruct (ready_spec st W) as (_ & Hr & Hu); [lia |]. case_cmp. done.
Qed.

Lemma read_result_empty st out size data_read :
  wf st -> buffer_used st = 0 -> 0 < size ->
  read_result st out size data_read (RBlocked st out size data_read).
Proof.
  intros W E Hs. exists st. split; [done |]. split; [by rewrite prepared_empty, drop_nil |].
  rewrite ready_empty, E by done. destruct (Z.leb_spec size 0); [lia |].
  unfold unread. rewrite prepared_empty, drop_nil, app_nil_r, Z.sub_0_r, Z.add_0_r by done. done.
Qed.

Lemma read_result_done st st' out size data_read :
  wf st -> 0 < buffer_used st -> wf st' ->
  0 < size < LENGTH_OF_BUFFER - used (slot_of st 0) -> pending st' = pending st ->
  prepared st = slice (used (slot_of st 0)) size (buffer (slot_of st 0)) ++ prepared st' ->
  read_result st out size data_read
    (ReadBack st' (out ++ slice (used (slot_of st 0)) size (buffer (slot_of st 0)))
       (data_read + size)).
Proof.
  intros W Hk W' Hs En Ep. exists st'. split; [done |].
  destruct (ready_spec st W Hk) as (_ & Hr & Hu).
  destruct (wf_slot st W 0 ltac:(done)) as [Hl _ _ _].
  pose proof (zlen_slice (used (slot_of st 0)) size (buffer (slot_of st 0))
    ltac:(lia) ltac:(lia) ltac:(lia)) as Hc. unfold zlen in Hc.
  destruct (Z.leb_spec size (ready st)); [| lia].
  destruct (Z.leb_spec (ready st) size); [lia |]. rewrite andb_false_r.
  rewrite Ep, drop_app_length', take_app_length' by lia. split; [done |]. split.
  - unfold unread. by rewrite En.
  - unfold read_ret. rewrite Z.mod_small by lia. case_cmp. done.
Qed.

(** The bytes being written survive a call unless it drains the full buffers. *)
Lemma complete_read_drained st size :
  wf st -> 0 < buffer_used st -> LENGTH_OF_BUFFER - used (slot_of st 0) <= size ->
  (if (0 <? buffer_used (complete_read st)) &&
      (ready (complete_read st) <=? size - (LENGTH_OF_BUFFER - used (slot_of st 0)))
   then [] else pending (complete_read st))
  = (if (0 <? buffer_used st) && (ready st <=? size) then [] else pending st).
Proof.
  intros W Hk Hs. destruct (ready_spec st W Hk) as (Er & _ & _).
  rewrite ready_complete_read, complete_read_pending by done. cbn [buffer_used complete_read].
  destruct (Z.ltb_spec 0 (buffer_used st)); [| lia]. cbn [andb]. unfold reader_overtakes.
  destruct (Z.eqb_spec (buffer_used st) 1) as [E | E]; cbn [andb].
  - rewrite E in *. destruct (Z.leb_spec (ready st) size); [| lia]. cbn [Z.sub Z.ltb andb].
    rewrite pending_take, E by (done || by rewrite E).
    destruct (Z.eqb_spec (used (slot_of st 1)) 0) as [-> |]; done.
  - case_cmp; done.
Qed.

Lemma read_ret_complete st size data_read :
  wf st -> 0 < buffer_used st -> LENGTH_OF_BUFFER - used (slot_of st 0) <= size ->
  read_ret (complete_read st) (size - (LENGTH_OF_BUFFER - used (slot_of st 0)))
    (data_read + (LENGTH_OF_BUFFER - used (slot_of st 0)))
  = read_ret st size data_read.
Proof.
  intros W Hk Hs. destruct (ready_spec st W Hk) as (_ & _ & Hu).
  unfold read_ret. rewrite slot_of_complete_read by done. cbn [Z.eqb reset_used used].
  replace ((0 + (size - (LENGTH_OF_BUFFER - used (slot_of st 0)))) mod LENGTH_OF_BUFFER)
    with ((used (slot_of st 0) + size) mod LENGTH_OF_BUFFER)
    by (unfold LENGTH_OF_BUFFER; zdiv).
  destruct (Z.eqb_spec (size - (LENGTH_OF_BUFFER - used (slot_of st 0))) 0) as [E | E];
  destruct (Z.eqb_spec ((used (slot_of st 0) + size) mod LENGTH_OF_BUFFER) 0) as [E' | E'];
    case_cmp; cbn [orb]; try lia.
  exfalso. apply E'. replace (used (slot_of st 0) + size) with LENGTH_OF_BUFFER by lia. done.
Qed.

Lemma read_loop_spec fuel st out size data_read :
  wf st -> 0 <= size < Z.of_nat fuel ->
  exists r, buffer_read_loop fuel st out size data_read = Ret r /\
            read_result st out size data_read r.
Proof.
  revert st out size data_read.
  induction fuel as [| fuel IH]; intros st out size data_read W Hf; [lia |].
  pose proof (wf_k st W) as Hk. cbn [buffer_read_loop].
  destruct (Z.eq_dec size 0) as [-> | Hne].
  { eexists. split; [done | by apply read_result_zero]. }
  destruct (Z.eq_dec (buffer_used st) 0) as [E | E].
  { rewrite read_iter_empty by (done || lia). eexists. split; [done |].
    apply read_result_empty; [done.. | lia]. }
  assert (0 < buffer_used st) as Hk' by lia.
  destruct (ready_spec st W Hk') as (Er & Hr & Hu).
  destruct (Z.lt_ge_cases size (LENGTH_OF_BUFFER - used (slot_of st 0))) as [Hl | Hl].
  { destruct (read_iter_done st size data_read) as (st' & -> & W' & En & Ek & _ & _ & Es);
      [done | done | lia |]. eexists. split; [done |].
    apply read_result_done; [done | done | done | lia | done |].
    apply (read_iter_done_prepared st st' size); [done | done | lia | done | done]. }
  rewrite read_iter_more by (done || lia). cbn [mbind res_bind].
  assert (wf (complete_read st)) as W1 by (by apply complete_read_wf).
  destruct (IH (complete_read st) (out ++ slot_unread (slot_of st 0))
    (size - (LENGTH_OF_BUFFER - used (slot_of st 0)))
    (data_read + (LENGTH_OF_BUFFER - used (slot_of st 0)))) as (r & -> & st' & W' & Ep & E' & ->);
    [done | lia |].
  eexists. split; [done |]. exists st'. split; [done |].
  pose proof (zlen_slot_unread st W) as Hz. unfold zlen in Hz.
  split; [| split].
  - rewrite Ep, (complete_read_prepared st), drop_app_ge by (done || lia). f_equal. lia.
  - rewrite E', complete_read_drained, (complete_read_prepared st), drop_app_ge by (done || lia).
    do 2 f_equal. lia.
  - rewrite read_ret_complete, ready_complete_read by (done || lia).
    rewrite (complete_read_prepared st), <- !app_assoc by done.
    rewrite take_app_ge by lia.
    replace (Z.to_nat (size - (LENGTH_OF_BUFFER - used (slot_of st 0))))
      with (Z.to_nat size - length (slot_unread (slot_of st 0)))%nat by lia.
    destruct (Z.leb_spec size (ready st)) as [H | H];
      destruct (Z.leb_spec (size - (LENGTH_OF_BUFFER - used (slot_of st 0)))
                  (ready st - (LENGTH_OF_BUFFER - used (slot_of st 0)))); try lia; [done |].
    f_equal; lia.
Qed.

(** A read call stores the next bytes of the full buffers, in order: the
    request if they suffice, else all of them, and then it spins for the rest.
    When it returns, the value is the request's size except when the request
    ends at a buffer boundary, where it is 0.  The bytes left are those of the
    queue, but a call that takes the last full buffer also discards the bytes
    already written to the next one. *)
Theorem buffer_read_data_spec st size :
  wf st -> 0 <= size ->
  exists r, buffer_read_data st size = Ret r /\ read_result st [] size 0 r.
Proof. intros W Hs. apply read_loop_spec; [done | lia]. Qed.

(** The fill level is the share of the full buffers: one of 0, 20, ..., 100,
    and above 50 exactly from three full buffers on, which is when the network
    task starts the player. *)
Theorem getBufferPercent_spec st :
  wf st ->
  getBufferPercent st = 20 * buffer_used st /\ 0 <= getBufferPercent st <= 100 /\
  (50 < getBufferPercent st <-> 3 * LENGTH_OF_BUFFER - used (slot_of st 0) <= zlen (prepared st)
                                /\ 0 < buffer_used st).
Proof.
  intros W. pose proof (wf_k st W) as Hk. unfold NUMBER_OF_BUFFER in Hk.
  assert (getBufferPercent st = 20 * buffer_used st) as E.
  { unfold getBufferPercent, NUMBER_OF_BUFFER. zdiv. }
  rewrite E, zlen_prepared by done. split_and!; [done | lia | lia |].
  destruct (Z.eq_dec (buffer_used st) 0) as [E0 |]; [lia |].
  destruct (ready_spec st W) as (-> & _ & _); [lia |]. ring_lia.
Qed.

(** * The buffers as the source of the packet parser *)

#[export] Instance data_buffer_source : ByteSource state := {
  src_read n st :=
    r ← buffer_read_data st n;
    match r with
    | ReadBack st' out ret => Ret (Some (out, ret, st'))
    | RBlocked _ _ _ _ => Ret None
    end }.

#[export] Instance data_buffer_source_laws : ByteSourceLaws state.
Proof.
  refine {| src_ok := wf; src_ready := prepared |}.
  - intros st n W [H0 Hn]. rewrite zlen_prepared in Hn by done.
    destruct (read_loop_spec (S (Z.to_nat n)) st [] n 0 W) as (r & E & st' & W' & Ep & _ & Er); [lia |].
    fold (buffer_read_data st n) in E. destruct (Z.leb_spec n (ready st)); [| lia]. subst r.
    cbn -[buffer_read_data]. rewrite E. by eexists _, st'.
  - intros st n W Hn. rewrite zlen_prepared in Hn by done.
    destruct (read_loop_spec (S (Z.to_nat n)) st [] n 0 W) as (r & E & st' & W' & _ & _ & Er).
    { pose proof (wf_k st W). unfold ready in Hn. destruct (Z.ltb_spec 0 (buffer_used st)); [| lia].
      destruct (wf_slot st W 0 ltac:(done)) as [_ Hu _ _]. ring_lia. }
    fold (buffer_read_data st n) in E. destruct (Z.leb_spec n (ready st)); [lia |]. subst r.
    cbn -[buffer_read_data]. by rewrite E.
  - intros st n W Hn. exists 0. cbn -[buffer_read_data]. unfold buffer_read_data.
    replace (Z.to_nat n) with 0%nat by lia. cbn [buffer_read_loop]. unfold buffer_read_iter.
    destruct (Z.leb_spec n 0); [done | lia].
Defined.

(** * Witnesses *)

(** Start-up, a write that fills a buffer and begins the next one, and a read
    that takes the full buffer. *)
Definition demo_data : list Z := replicate (Z.to_nat 5121) 7.
Definition demo_full : state :=
  match buffer_write_iter boot_state demo_data 5121 with
  | Ret (WMore st _ _) => st | _ => boot_state
  end.
Definition demo_partial : state :=
  match buffer_write_iter demo_full (drop (Z.to_nat 5120) demo_data) 1 with
  | Ret (WDone st) => st | _ => boot_state
  end.
Definition demo_drained : state :=
  match buffer_read_iter demo_partial 5120 0 with
  | Ret (RMore st _ _ _) => st | _ => boot_state
  end.

Lemma demo_step_1 : step boot_state (Wrote (slice 0 (5121 - 1) demo_data)) demo_full.
Proof.
  apply (step_write_more boot_state demo_data 5121 demo_full (drop (Z.to_nat 5120) demo_data) 1).
  - split; [done | vm_compute; discriminate].
  - vm_compute. reflexivity.
Qed.

Lemma demo_step_2 : step demo_full (Wrote (slice 0 1 (drop (Z.to_nat 5120) demo_data))) demo_partial.
Proof.
  apply (step_write_done demo_full (drop (Z.to_nat 5120) demo_data) 1 demo_partial).
  - split; [done | vm_compute; discriminate].
  - vm_compute. reflexivity.
Qed.

Lemma demo_step_3 : step demo_partial (Got (slice 0 5120 demo_data)) demo_drained.
Proof.
  apply (step_read_more demo_partial 5120 0 demo_drained (slice 0 5120 demo_data) 0 5120).
  - done.
  - vm_compute. reflexivity.
Qed.

Lemma demo_partial_wf : wf demo_partial.
Proof. exact (step_wf _ _ _ (step_wf _ _ _ boot_wf demo_step_1) demo_step_2). Qed.

Lemma orderly_run_fifo_witness :
  let evs := [Wrote (slice 0 (5121 - 1) demo_data); Wrote (slice 0 1 (drop (Z.to_nat 5120) demo_data))] in
  orderly_run boot_state evs demo_partial /\
  unread boot_state ++ wrote evs = got evs ++ unread demo_partial.
Proof.
  assert (orderly_run boot_state
    [Wrote (slice 0 (5121 - 1) demo_data); Wrote (slice 0 1 (drop (Z.to_nat 5120) demo_data))] demo_partial) as R.
  { eapply run_cons; [apply demo_step_1 | vm_compute; reflexivity |].
    eapply run_cons; [apply demo_step_2 | vm_compute; reflexivity | apply run_nil]. }
  split; [exact R | apply (orderly_run_fifo boot_state _ demo_partial boot_wf R)].
Defined.

Lemma overtaking_corrupts_witness :
  overtakes demo_partial (Got (slice 0 5120 demo_data)) demo_drained = true /\
  unread demo_drained = [].
Proof.
  assert (overtakes demo_partial (Got (slice 0 5120 demo_data)) demo_drained = true) as O
    by (vm_compute; reflexivity).
  split; [exact O |].
  apply (overtaking_corrupts demo_partial (Got (slice 0 5120 demo_data)) demo_drained
           demo_partial_wf demo_step_3 O).
Defined.

Lemma buffer_write_data_spec_witness :
  exists r, buffer_write_data boot_state [1; 2; 3] 3 = Ret r /\ write_result boot_state [1; 2; 3] 3 r.
Proof. apply (buffer_write_data_spec boot_state [1; 2; 3] 3 boot_wf). split; vm_compute; discriminate. Defined.

Lemma buffer_read_data_spec_witness :
  exists r, buffer_read_data demo_partial 5120 = Ret r /\ read_result demo_partial [] 5120 0 r.
Proof. apply (buffer_read_data_spec demo_partial 5120 demo_partial_wf). discriminate. Defined.

Lemma getBufferPercent_spec_witness : getBufferPercent demo_partial = 20 * buffer_used demo_partial.
Proof. apply (getBufferPercent_spec demo_partial demo_partial_wf). Defined.
