(* ===== verification/PaRingBuffer.v ===== *)
(** The lock-free ring buffer of the sender's audio library
    (src/WIN32/src/common/pa_ringbuffer.c): one writer and one reader that
    share the two indices, every interleaving of their steps, and the FIFO
    they implement. *)

From S2P Require Import Prelude Ring.

(** * The code *)

(** [ring_buffer_size_t] is [long], 32 bits on the sender's platform. *)
Definition LONG_BITS : Z := 32.

Record PaUtilRingBuffer := mkRing {
  bufferSize : Z;
  writeIndex : Z;
  readIndex : Z;
  bigMask : Z;
  smallMask : Z;
  elementSizeBytes : Z;
  buffer : list Z }.

Definition PaUtil_FlushRingBuffer (rbuf : PaUtilRingBuffer) : PaUtilRingBuffer :=
  mkRing (bufferSize rbuf) 0 0 (bigMask rbuf) (smallMask rbuf) (elementSizeBytes rbuf) (buffer rbuf).

Definition PaUtil_InitializeRingBuffer (rbuf : PaUtilRingBuffer) (elementSize elementCount : Z)
    (dataPtr : list Z) : res (PaUtilRingBuffer * Z) :=
  pred ← chk_s LONG_BITS (elementCount - 1);
  if negb (Z.land pred elementCount =? 0) then Ret (rbuf, -1) else
  let rbuf := mkRing elementCount (writeIndex rbuf) (readIndex rbuf) (bigMask rbuf)
                (smallMask rbuf) (elementSizeBytes rbuf) dataPtr in
  let rbuf := PaUtil_FlushRingBuffer rbuf in
  twice ← chk_s LONG_BITS (elementCount * 2);
  Ret (mkRing (bufferSize rbuf) (writeIndex rbuf) (readIndex rbuf) (twice - 1)
         (elementCount - 1) elementSize (buffer rbuf), 0).

Definition PaUtil_GetRingBufferReadAvailable (rbuf : PaUtilRingBuffer) : Z :=
  Z.land (writeIndex rbuf - readIndex rbuf) (bigMask rbuf).

Definition PaUtil_GetRingBufferWriteAvailable (rbuf : PaUtilRingBuffer) : Z :=
  bufferSize rbuf - PaUtil_GetRingBufferReadAvailable rbuf.

(** The regions of a transfer: byte offsets into [buffer] and sizes in
    elements; no second region is [None]. *)
Record regions := mkRegions {
  dataPtr1 : Z; sizePtr1 : Z; dataPtr2 : option Z; sizePtr2 : Z }.

Definition PaUtil_GetRingBufferWriteRegions (rbuf : PaUtilRingBuffer) (elementCount : Z) : regions * Z :=
  let available := PaUtil_GetRingBufferWriteAvailable rbuf in
  let elementCount := if available <? elementCount then available else elementCount in
  let index := Z.land (writeIndex rbuf) (smallMask rbuf) in
  (if bufferSize rbuf <? index + elementCount then
     let firstHalf := bufferSize rbuf - index in
     mkRegions (index * elementSizeBytes rbuf) firstHalf (Some 0) (elementCount - firstHalf)
   else mkRegions (index * elementSizeBytes rbuf) elementCount None 0, elementCount).

Definition PaUtil_AdvanceRingBufferWriteIndex (rbuf : PaUtilRingBuffer) (elementCount : Z) : PaUtilRingBuffer :=
  mkRing (bufferSize rbuf) (Z.land (writeIndex rbuf + elementCount) (bigMask rbuf)) (readIndex rbuf)
    (bigMask rbuf) (smallMask rbuf) (elementSizeBytes rbuf) (buffer rbuf).

Definition PaUtil_GetRingBufferReadRegions (rbuf : PaUtilRingBuffer) (elementCount : Z) : regions * Z :=
  let available := PaUtil_GetRingBufferReadAvailable rbuf in
  let elementCount := if available <? elementCount then available else elementCount in
  let index := Z.land (readIndex rbuf) (smallMask rbuf) in
  (if bufferSize rbuf <? index + elementCount then
     let firstHalf := bufferSize rbuf - index in
     mkRegions (index * elementSizeBytes rbuf) firstHalf (Some 0) (elementCount - firstHalf)
   else mkRegions (index * elementSizeBytes rbuf) elementCount None 0, elementCount).

Definition PaUtil_AdvanceRingBufferReadIndex (rbuf : PaUtilRingBuffer) (elementCount : Z) : PaUtilRingBuffer :=
  mkRing (bufferSize rbuf) (writeIndex rbuf) (Z.land (readIndex rbuf + elementCount) (bigMask rbuf))
    (bigMask rbuf) (smallMask rbuf) (elementSizeBytes rbuf) (buffer rbuf).

Definition set_buffer (rbuf : PaUtilRingBuffer) (b : list Z) : PaUtilRingBuffer :=
  mkRing (bufferSize rbuf) (writeIndex rbuf) (readIndex rbuf) (bigMask rbuf) (smallMask rbuf)
    (elementSizeBytes rbuf) b.

(** The two copies of a write and of a read.  [data] is the caller's memory
    from its current position on; [got] what the reader has been given. *)
Definition write_region (rbuf : PaUtilRingBuffer) (data : list Z) (off size : Z) : res (PaUtilRingBuffer * list Z) :=
  let n := size * elementSizeBytes rbuf in
  bytes ← memcpy_from data 0 n;
  b ← memcpy_to (buffer rbuf) off bytes;
  Ret (set_buffer rbuf b, drop (Z.to_nat n) data).

Definition read_region (rbuf : PaUtilRingBuffer) (off size : Z) : res (list Z) :=
  memcpy_from (buffer rbuf) off (size * elementSizeBytes rbuf).

(** What a task has still to do inside its call. *)
Inductive wpc :=
  | WIdle
  | WFirst (data : list Z) (r : regions) (numWritten : Z)
  | WSecond (data : list Z) (r : regions) (numWritten : Z)
  | WAdvance (numWritten : Z).

Inductive rpc :=
  | RIdle
  | RFirst (r : regions) (numRead : Z)
  | RSecond (got : list Z) (r : regions) (numRead : Z)
  | RAdvance (got : list Z) (numRead : Z).

(** One step of [PaUtil_WriteRingBuffer] after the regions were fetched; the
    last component is the call's value when it returns. *)
Definition write_step (rbuf : PaUtilRingBuffer) (pc : wpc) : res (PaUtilRingBuffer * wpc * option Z) :=
  match pc with
  | WIdle => Ret (rbuf, WIdle, None)
  | WFirst data r n =>
      w ← write_region rbuf data (dataPtr1 r) (sizePtr1 r);
      let '(rbuf, data) := w in
      Ret (rbuf, if 0 <? sizePtr2 r then WSecond data r n else WAdvance n, None)
  | WSecond data r n =>
      off ← of_option NullPointer (dataPtr2 r);
      w ← write_region rbuf data off (sizePtr2 r);
      Ret (w.1, WAdvance n, None)
  | WAdvance n => Ret (PaUtil_AdvanceRingBufferWriteIndex rbuf n, WIdle, Some n)
  end.

Definition write_entry (rbuf : PaUtilRingBuffer) (data : list Z) (elementCount : Z) : wpc :=
  let (r, n) := PaUtil_GetRingBufferWriteRegions rbuf elementCount in WFirst data r n.

Definition read_step (rbuf : PaUtilRingBuffer) (pc : rpc) : res (PaUtilRingBuffer * rpc * option (list Z * Z)) :=
  match pc with
  | RIdle => Ret (rbuf, RIdle, None)
  | RFirst r n =>
      got ← read_region rbuf (dataPtr1 r) (sizePtr1 r);
      Ret (rbuf, if 0 <? sizePtr2 r then RSecond got r n else RAdvance got n, None)
  | RSecond got r n =>
      off ← of_option NullPointer (dataPtr2 r);
      more ← read_region rbuf off (sizePtr2 r);
      Ret (rbuf, RAdvance (got ++ more) n, None)
  | RAdvance got n => Ret (PaUtil_AdvanceRingBufferReadIndex rbuf n, RIdle, Some (got, n))
  end.

Definition read_entry (rbuf : PaUtilRingBuffer) (elementCount : Z) : rpc :=
  let (r, n) := PaUtil_GetRingBufferReadRegions rbuf elementCount in RFirst r n.

(** A whole call without the other task: at most three steps. *)
Definition PaUtil_WriteRingBuffer (rbuf : PaUtilRingBuffer) (data : list Z) (elementCount : Z)
    : res (PaUtilRingBuffer * Z) :=
  a ← write_step rbuf (write_entry rbuf data elementCount);
  let '(rbuf, pc, _) := a in
  b ← write_step rbuf pc;
  let '(rbuf, pc, ret) := b in
  match ret with
  | Some n => Ret (rbuf, n)
  | None =>
      c ← write_step rbuf pc;
      let '(rbuf, _, ret) := c in
      n ← of_option OutOfFuel ret; Ret (rbuf, n)
  end.

Definition PaUtil_ReadRingBuffer (rbuf : PaUtilRingBuffer) (elementCount : Z)
    : res (PaUtilRingBuffer * list Z * Z) :=
  a ← read_step rbuf (read_entry rbuf elementCount);
  let '(rbuf, pc, _) := a in
  b ← read_step rbuf pc;
  let '(rbuf, pc, ret) := b in
  match ret with
  | Some (got, n) => Ret (rbuf, got, n)
  | None =>
      c ← read_step rbuf pc;
      let '(rbuf, _, ret) := c in
      gn ← of_option OutOfFuel ret; Ret (rbuf, gn.1, gn.2)
  end.

(** * Well-formed rings *)

Record ring_ok (k : Z) (rb : PaUtilRingBuffer) : Prop := {
  ro_k : 0 <= k;
  ro_size : bufferSize rb = 2 ^ k;
  ro_big : bigMask rb = 2 ^ (k + 1) - 1;
  ro_small : smallMask rb = 2 ^ k - 1;
  ro_es : 0 < elementSizeBytes rb;
  ro_w : 0 <= writeIndex rb < 2 ^ (k + 1);
  ro_r : 0 <= readIndex rb < 2 ^ (k + 1);
  ro_avail : (writeIndex rb - readIndex rb) mod 2 ^ (k + 1) <= 2 ^ k;
  ro_buf : zlen (buffer rb) = 2 ^ k * elementSizeBytes rb }.

Abbreviation avail := PaUtil_GetRingBufferReadAvailable.

Lemma land_mask z k : 0 <= k -> Z.land z (2 ^ k - 1) = z mod 2 ^ k.
Proof. intros. rewrite <- Z.land_ones by done. rewrite Z.ones_equiv. f_equal. Qed.

Lemma pow_twice k : 0 <= k -> 2 ^ (k + 1) = 2 * 2 ^ k.
Proof. intros. rewrite Z.pow_add_r; lia. Qed.

Lemma mod_of_twice z k : 0 <= k -> (z mod 2 ^ (k + 1)) mod 2 ^ k = z mod 2 ^ k.
Proof.
  intros. rewrite (Z.pow_add_r 2 k 1), Z.rem_mul_r by lia.
  rewrite (Z.mul_comm (2 ^ k)), Z.mod_add, Z.mod_mod; lia.
Qed.

Section ok_ring.
Context (k : Z) (rb : PaUtilRingBuffer) (Hok : ring_ok k rb).
Abbreviation N := (2 ^ k).
Abbreviation es := (elementSizeBytes rb).
Abbreviation M := (2 ^ k * elementSizeBytes rb).

Lemma N_pos : 0 < N.
Proof. apply Z.pow_pos_nonneg; [lia | apply (ro_k k rb Hok)]. Qed.

Lemma M_pos : 0 < M.
Proof. pose proof N_pos. pose proof (ro_es k rb Hok). nia. Qed.

Lemma avail_mod : avail rb = (writeIndex rb - readIndex rb) mod 2 ^ (k + 1).
Proof.
  unfold avail. rewrite (ro_big k rb Hok). apply land_mask. pose proof (ro_k k rb Hok). lia.
Qed.

Lemma avail_range : 0 <= avail rb <= N.
Proof.
  rewrite avail_mod. split; [| apply (ro_avail k rb Hok)].
  apply Z.mod_pos_bound. pose proof (ro_w k rb Hok). lia.
Qed.

(** The write index is [avail] elements after the read index. *)
Lemma avail_link : (readIndex rb + avail rb) mod 2 ^ (k + 1) = writeIndex rb.
Proof.
  rewrite avail_mod, Z.add_mod_idemp_r by (pose proof (ro_w k rb Hok); lia).
  replace (readIndex rb + _) with (writeIndex rb) by lia. apply Z.mod_small, (ro_w k rb Hok).
Qed.

Lemma byte_pos i : (i mod N) * es = (i * es) mod M.
Proof. pose proof (ro_es k rb Hok). rewrite Z.mul_mod_distr_r; pose proof N_pos; lia. Qed.

Lemma byte_link : (readIndex rb * es + avail rb * es) mod M = (writeIndex rb * es) mod M.
Proof.
  rewrite <- Z.mul_add_distr_r, <- !byte_pos. f_equal.
  rewrite <- avail_link, mod_of_twice; [done | apply (ro_k k rb Hok)].
Qed.

(** The regions of a transfer of [n] elements at index [i]. *)
Definition regions_at (i n : Z) : regions :=
  if N <? i mod N + n
  then mkRegions ((i mod N) * es) (N - i mod N) (Some 0) (n - (N - i mod N))
  else mkRegions ((i mod N) * es) n None 0.

Lemma write_regions n :
  PaUtil_GetRingBufferWriteRegions rb n
  = (regions_at (writeIndex rb) (Z.min n (N - avail rb)), Z.min n (N - avail rb)).
Proof.
  unfold PaUtil_GetRingBufferWriteRegions, PaUtil_GetRingBufferWriteAvailable, regions_at.
  rewrite (ro_size k rb Hok), (ro_small k rb Hok), land_mask by apply (ro_k k rb Hok).
  replace (if N - avail rb <? n then N - avail rb else n) with (Z.min n (N - avail rb)) by (case_cmp).
  by destruct (N <? _).
Qed.

Lemma read_regions n :
  PaUtil_GetRingBufferReadRegions rb n
  = (regions_at (readIndex rb) (Z.min n (avail rb)), Z.min n (avail rb)).
Proof.
  unfold PaUtil_GetRingBufferReadRegions, regions_at.
  rewrite (ro_size k rb Hok), (ro_small k rb Hok), land_mask by apply (ro_k k rb Hok).
  replace (if avail rb <? n then avail rb else n) with (Z.min n (avail rb)) by (case_cmp).
  by destruct (N <? _).
Qed.

(** The two regions are inside the buffer and meet at its end. *)
Lemma regions_at_spec i n :
  0 <= n <= N ->
  let r := regions_at i n in
  0 <= sizePtr1 r /\ 0 <= sizePtr2 r /\ sizePtr1 r + sizePtr2 r = n /\
  dataPtr1 r = (i * es) mod M /\ 0 <= dataPtr1 r /\ dataPtr1 r + sizePtr1 r * es <= M /\
  (0 < sizePtr2 r -> dataPtr2 r = Some 0 /\ ((i + sizePtr1 r) * es) mod M = 0 /\ sizePtr2 r * es <= M).
Proof.
  intros Hn. pose proof N_pos as HN. pose proof (ro_es k rb Hok).
  pose proof (Z.mod_pos_bound i N HN). unfold regions_at.
  destruct (Z.ltb_spec N (i mod N + n)); cbn [sizePtr1 sizePtr2 dataPtr1 dataPtr2];
    rewrite <- byte_pos; split_and!; try nia.
  intros _. split_and!; [done | | nia].
  rewrite <- byte_pos. replace ((i + (N - i mod N)) mod N) with 0; [done |].
  rewrite (Z.div_mod i N) at 1 by lia.
  replace (N * (i / N) + i mod N + (N - i mod N)) with ((i / N + 1) * N) by lia.
  by rewrite Z.mod_mul by lia.
Qed.
End ok_ring.

(** * The FIFO of bytes a ring holds, and the effect of each step on it *)

Section steps.
Context (k : Z).
Implicit Types (rb : PaUtilRingBuffer).
Definition ring_bytes rb : Z := 2 ^ k * elementSizeBytes rb.

(** [n] elements of the store from index [i] on. *)
Definition elems rb (i n : Z) : list Z :=
  contents (ring_bytes rb) (buffer rb) (i * elementSizeBytes rb) (n * elementSizeBytes rb).

Definition stored rb : list Z := elems rb (readIndex rb) (avail rb).

Lemma zlen_elems rb i n : ring_ok k rb -> 0 <= n -> zlen (elems rb i n) = n * elementSizeBytes rb.
Proof. intros Hok Hn. apply zlen_contents. pose proof (ro_es k rb Hok). nia. Qed.

Lemma elems_app rb i n m :
  ring_ok k rb -> 0 <= n -> 0 <= m -> elems rb i (n + m) = elems rb i n ++ elems rb (i + n) m.
Proof.
  intros Hok Hn Hm. pose proof (ro_es k rb Hok). unfold elems.
  rewrite !Z.mul_add_distr_r. apply contents_app; nia.
Qed.

Lemma elems_region rb i n :
  ring_ok k rb -> 0 <= n ->
  (i * elementSizeBytes rb) mod ring_bytes rb + n * elementSizeBytes rb <= ring_bytes rb ->
  memcpy_from (buffer rb) ((i * elementSizeBytes rb) mod ring_bytes rb) (n * elementSizeBytes rb)
  = Ret (elems rb i n).
Proof.
  intros Hok Hn Hr. pose proof (ro_es k rb Hok). pose proof (M_pos k rb Hok).
  pose proof (Z.mod_pos_bound (i * elementSizeBytes rb) (ring_bytes rb) ltac:(done)).
  pose proof (ro_buf k rb Hok) as Hb. unfold ring_bytes in *.
  rewrite memcpy_from_Ret by nia. f_equal. unfold elems, ring_bytes.
  rewrite <- contents_mod by done. symmetry. apply contents_slice; nia.
Qed.

(** A copy of [src] behind [c] elements already copied. *)
Lemma blit_region rb c m src :
  ring_ok k rb -> 0 <= c -> 0 <= m -> avail rb + c + m <= 2 ^ k ->
  zlen src = m * elementSizeBytes rb ->
  let off := ((writeIndex rb + c) * elementSizeBytes rb) mod ring_bytes rb in
  off + zlen src <= ring_bytes rb ->
  exists rb', rb' = set_buffer rb (blit off src (buffer rb)) /\
  memcpy_to (buffer rb) off src = Ret (buffer rb') /\ ring_ok k rb' /\
  (forall j, 0 <= j <= avail rb -> elems rb' (readIndex rb) j = elems rb (readIndex rb) j) /\
  elems rb' (writeIndex rb) (c + m) = elems rb (writeIndex rb) c ++ src.
Proof.
  intros Hok Hc Hm Hroom Hsrc off Hoff. pose proof (M_pos k rb Hok) as HM.
  pose proof (ro_es k rb Hok) as Hes. pose proof (ro_buf k rb Hok) as Hb.
  pose proof (avail_range k rb Hok) as Ha.
  pose proof (Z.mod_pos_bound ((writeIndex rb + c) * elementSizeBytes rb) (ring_bytes rb) HM) as Ho.
  fold off in Ho. unfold ring_bytes in *.
  eexists. split; [done |]. cbn [set_buffer buffer].
  split; [apply memcpy_to_Ret; lia |]. split; [| split].
  - destruct Hok. constructor; cbn; try done. rewrite zlen_blit; lia.
  - intros j Hj. unfold elems, ring_bytes. cbn [set_buffer buffer elementSizeBytes].
    apply contents_blit_prefix with (n := (avail rb + c) * elementSizeBytes rb); try nia.
    rewrite Z.mul_add_distr_r, Z.add_assoc, <- Z.add_mod_idemp_l, byte_link by (done || lia).
    rewrite Z.add_mod_idemp_l, <- Z.mul_add_distr_r by lia.
    unfold off. by rewrite Z.mod_mod by lia.
  - unfold elems, ring_bytes. cbn [set_buffer buffer elementSizeBytes].
    rewrite Z.mul_add_distr_r, <- Hsrc. apply contents_append; try nia.
    rewrite <- Z.mul_add_distr_r. unfold off. by rewrite Z.mod_mod by lia.
Qed.

Lemma advance_write rb n :
  ring_ok k rb -> 0 <= n -> avail rb + n <= 2 ^ k ->
  let rb' := PaUtil_AdvanceRingBufferWriteIndex rb n in
  ring_ok k rb' /\ avail rb' = avail rb + n /\
  stored rb' = stored rb ++ elems rb (writeIndex rb) n.
Proof.
  intros Hok Hn Hroom rb'. pose proof (avail_range k rb Hok) as Ha.
  pose proof (pow_twice k (ro_k k rb Hok)) as H2. pose proof (N_pos k rb Hok) as HN.
  assert (writeIndex rb' = (writeIndex rb + n) mod 2 ^ (k + 1)) as HW.
  { cbn. rewrite (ro_big k rb Hok). apply land_mask. pose proof (ro_k k rb Hok). lia. }
  assert ((writeIndex rb' - readIndex rb') mod 2 ^ (k + 1) = avail rb + n) as Hav.
  { rewrite HW. cbn [rb' readIndex PaUtil_AdvanceRingBufferWriteIndex].
    rewrite Zminus_mod_idemp_l. replace (writeIndex rb + n - readIndex rb)
      with (writeIndex rb - readIndex rb + n) by lia.
    rewrite <- Z.add_mod_idemp_l, <- (avail_mod k rb Hok) by lia. apply Z.mod_small. lia. }
  assert (ring_ok k rb') as Hok'.
  { destruct Hok. constructor; try done.
    - rewrite HW. apply Z.mod_pos_bound. lia.
    - rewrite Hav. lia. }
  split; [done |]. rewrite <- (avail_mod k rb' Hok') in Hav. split; [done |].
  unfold stored. rewrite Hav. change (elems rb' (readIndex rb')) with (elems rb (readIndex rb)).
  rewrite elems_app by (done || lia). f_equal.
  unfold elems. rewrite <- (contents_mod _ (M_pos k rb Hok) _ ((_ + _) * _)).
  rewrite Z.mul_add_distr_r. unfold ring_bytes. rewrite byte_link by done.
  apply contents_mod, (M_pos k rb Hok).
Qed.

Lemma advance_read rb n :
  ring_ok k rb -> 0 <= n <= avail rb ->
  let rb' := PaUtil_AdvanceRingBufferReadIndex rb n in
  ring_ok k rb' /\ avail rb' = avail rb - n /\
  stored rb = elems rb (readIndex rb) n ++ stored rb'.
Proof.
  intros Hok Hn rb'. pose proof (avail_range k rb Hok) as Ha.
  pose proof (pow_twice k (ro_k k rb Hok)) as H2. pose proof (N_pos k rb Hok) as HN.
  assert (readIndex rb' = (readIndex rb + n) mod 2 ^ (k + 1)) as HR.
  { cbn. rewrite (ro_big k rb Hok). apply land_mask. pose proof (ro_k k rb Hok). lia. }
  assert ((writeIndex rb' - readIndex rb') mod 2 ^ (k + 1) = avail rb - n) as Hav.
  { rewrite HR. cbn [rb' writeIndex PaUtil_AdvanceRingBufferReadIndex].
    rewrite Zminus_mod_idemp_r. replace (writeIndex rb - (readIndex rb + n))
      with (writeIndex rb - readIndex rb - n) by lia.
    rewrite <- Zminus_mod_idemp_l, <- (avail_mod k rb Hok). apply Z.mod_small. lia. }
  assert (ring_ok k rb') as Hok'.
  { destruct Hok. constructor; try done.
    - rewrite HR. apply Z.mod_pos_bound. lia.
    - rewrite Hav. lia. }
  split; [done |]. rewrite <- (avail_mod k rb' Hok') in Hav. split; [done |].
  unfold stored at 1. replace (avail rb) with (n + avail rb') by lia.
  rewrite elems_app by (done || lia). f_equal. unfold stored, elems.
  change (ring_bytes rb') with (ring_bytes rb). change (buffer rb') with (buffer rb).
  change (elementSizeBytes rb') with (elementSizeBytes rb).
  rewrite <- (contents_mod _ (M_pos k rb Hok)). symmetry.
  rewrite <- (contents_mod _ (M_pos k rb Hok)). f_equal.
  rewrite <- !(byte_pos k rb Hok), HR, mod_of_twice; [done | apply (ro_k k rb Hok)].
Qed.

(** * One writer and one reader *)

(** The bytes of the current write that the reader cannot see yet. *)
Definition inflight rb (pc : wpc) : list Z :=
  match pc with
  | WIdle => []
  | WFirst data _ n => take (Z.to_nat (n * elementSizeBytes rb)) data
  | WSecond data r _ => elems rb (writeIndex rb) (sizePtr1 r)
                        ++ take (Z.to_nat (sizePtr2 r * elementSizeBytes rb)) data
  | WAdvance n => elems rb (writeIndex rb) n
  end.

Definition wr_ok rb (pc : wpc) : Prop :=
  match pc with
  | WIdle => True
  | WFirst data r n =>
      0 <= n /\ avail rb + n <= 2 ^ k /\ r = regions_at k rb (writeIndex rb) n /\
      n * elementSizeBytes rb <= zlen data
  | WSecond data r n =>
      0 <= n /\ avail rb + n <= 2 ^ k /\ r = regions_at k rb (writeIndex rb) n /\
      0 < sizePtr2 r /\ sizePtr2 r * elementSizeBytes rb <= zlen data
  | WAdvance n => 0 <= n /\ avail rb + n <= 2 ^ k
  end.

Definition rd_ok rb (pc : rpc) : Prop :=
  match pc with
  | RIdle => True
  | RFirst r n => 0 <= n <= avail rb /\ r = regions_at k rb (readIndex rb) n
  | RSecond got r n =>
      0 <= n <= avail rb /\ r = regions_at k rb (readIndex rb) n /\
      0 < sizePtr2 r /\ got = elems rb (readIndex rb) (sizePtr1 r)
  | RAdvance got n => 0 <= n <= avail rb /\ got = elems rb (readIndex rb) n
  end.

Record sys := mkSys {
  ring : PaUtilRingBuffer;
  wr : wpc;
  rd : rpc;
  accepted : list Z;    (* the bytes the write calls took, in order *)
  delivered : list Z    (* the bytes the read calls returned, in order *) }.

(** The tasks move in any order; a write offers at least the bytes it names. *)
Inductive sys_step : sys -> sys -> Prop :=
  | step_write_call rb rpc0 acc del data n :
      0 <= n -> n * elementSizeBytes rb <= zlen data ->
      sys_step (mkSys rb WIdle rpc0 acc del)
        (mkSys rb (write_entry rb data n) rpc0
           (acc ++ inflight rb (write_entry rb data n)) del)
  | step_write rb rb' w w' ret rpc0 acc del :
      write_step rb w = Ret (rb', w', ret) ->
      sys_step (mkSys rb w rpc0 acc del) (mkSys rb' w' rpc0 acc del)
  | step_read_call rb w acc del n :
      0 <= n ->
      sys_step (mkSys rb w RIdle acc del) (mkSys rb w (read_entry rb n) acc del)
  | step_read rb rb' w r r' ret acc del :
      read_step rb r = Ret (rb', r', ret) ->
      sys_step (mkSys rb w r acc del)
        (mkSys rb' w r' acc (del ++ from_option fst [] ret)).

Record sys_ok (s : sys) : Prop := {
  so_ring : ring_ok k (ring s);
  so_wr : wr_ok (ring s) (wr s);
  so_rd : rd_ok (ring s) (rd s);
  so_fifo : accepted s = delivered s ++ stored (ring s) ++ inflight (ring s) (wr s) }.

(** What each task needs to keep of the other's moves. *)
Definition reader_view rb rb' : Prop :=
  readIndex rb' = readIndex rb /\ elementSizeBytes rb' = elementSizeBytes rb /\ avail rb <= avail rb' /\
  forall j, 0 <= j <= avail rb -> elems rb' (readIndex rb) j = elems rb (readIndex rb) j.

Definition writer_view rb rb' : Prop :=
  writeIndex rb' = writeIndex rb /\ elementSizeBytes rb' = elementSizeBytes rb /\
  buffer rb' = buffer rb /\ avail rb' <= avail rb.

Lemma regions_at_es rb rb' i n :
  elementSizeBytes rb' = elementSizeBytes rb -> regions_at k rb' i n = regions_at k rb i n.
Proof. unfold regions_at. by intros ->. Qed.

Lemma rd_ok_view rb rb' pc : ring_ok k rb -> rd_ok rb pc -> reader_view rb rb' -> rd_ok rb' pc.
Proof.
  intros Hok Hpc (HR & Hes & Ha & He). destruct pc as [| r n | got r n | got n]; cbn in *; [done | ..].
  - destruct Hpc as (? & ->). rewrite HR, (regions_at_es rb rb') by done. split; [lia | done].
  - destruct Hpc as (? & -> & ? & ->). rewrite HR, (regions_at_es rb rb') by done.
    pose proof (avail_range k rb Hok).
    destruct (regions_at_spec k rb Hok (readIndex rb) n) as (? & ? & ? & _); [lia |].
    split_and!; try done || lia. symmetry. apply He. lia.
  - destruct Hpc as (? & ->). rewrite HR. split; [lia |]. symmetry. apply He. lia.
Qed.

Lemma wr_ok_view rb rb' pc :
  wr_ok rb pc -> writer_view rb rb' -> wr_ok rb' pc /\ inflight rb' pc = inflight rb pc.
Proof.
  intros Hpc (HW & Hes & Hb & Ha).
  assert (forall i n, elems rb' i n = elems rb i n) as He.
  { intros. unfold elems, ring_bytes. by rewrite Hes, Hb. }
  destruct pc as [| data r n | data r n | n]; cbn in *; rewrite ?Hes, ?HW, ?He;
    [done | .. | split; [lia | done]].
  - destruct Hpc as (? & ? & -> & ?). rewrite (regions_at_es rb rb') by done. split_and!; try done || lia.
  - destruct Hpc as (? & ? & -> & ? & ?). rewrite (regions_at_es rb rb') by done. split_and!; try done || lia.
Qed.

Lemma take_split (l : list Z) a b :
  0 <= a -> 0 <= b -> take (Z.to_nat (a + b)) l = slice 0 a l ++ take (Z.to_nat b) (drop (Z.to_nat a) l).
Proof.
  intros. rewrite Z2Nat.inj_add by lia. rewrite slice_0_take.
  by rewrite take_take_drop.
Qed.

(** A step of the writer does not fault, and keeps the reader's view and the FIFO. *)
Definition writer_progress rb w : Prop :=
  exists rb' w' ret, write_step rb w = Ret (rb', w', ret) /\
    ring_ok k rb' /\ wr_ok rb' w' /\ reader_view rb rb' /\
    stored rb' ++ inflight rb' w' = stored rb ++ inflight rb w.

(** One copy of the writer: [size] elements from [data], [c] being there already. *)
Lemma write_region_ok rb data off c size :
  ring_ok k rb -> 0 <= c -> 0 <= size -> avail rb + c + size <= 2 ^ k ->
  size * elementSizeBytes rb <= zlen data ->
  off = ((writeIndex rb + c) * elementSizeBytes rb) mod ring_bytes rb ->
  off + size * elementSizeBytes rb <= ring_bytes rb ->
  exists rb', write_region rb data off size
              = Ret (rb', drop (Z.to_nat (size * elementSizeBytes rb)) data) /\
    ring_ok k rb' /\ avail rb' = avail rb /\ writeIndex rb' = writeIndex rb /\
    reader_view rb rb' /\ stored rb' = stored rb /\
    elems rb' (writeIndex rb) (c + size)
    = elems rb (writeIndex rb) c ++ slice 0 (size * elementSizeBytes rb) data.
Proof.
  intros Hok Hc Hsz Hroom Hd Eoff Hfit. pose proof (ro_es k rb Hok) as Hes.
  pose proof (avail_range k rb Hok) as Ha.
  assert (zlen (slice 0 (size * elementSizeBytes rb) data) = size * elementSizeBytes rb) as Hs
    by (apply zlen_slice; nia).
  destruct (blit_region rb c size (slice 0 (size * elementSizeBytes rb) data))
    as (rb' & Erb & Hm & Hok' & Hview & Hel); try done || lia.
  rewrite <- Eoff in Hm, Erb. exists rb'. split.
  { unfold write_region. rewrite memcpy_from_Ret by nia. cbn [mbind res_bind].
    rewrite Hm. cbn [mbind res_bind]. by subst rb'. }
  subst rb'. split_and!; try done. unfold stored. apply Hview.
  change (avail (set_buffer rb _)) with (avail rb). lia.
Qed.

Lemma write_first_ok rb data r n :
  ring_ok k rb -> wr_ok rb (WFirst data r n) -> writer_progress rb (WFirst data r n).
Proof.
  intros Hok (Hn & Hr & -> & Hd). pose proof (ro_es k rb Hok) as Hes.
  pose proof (avail_range k rb Hok) as Ha.
  destruct (regions_at_spec k rb Hok (writeIndex rb) n) as (S1 & S2 & Ssum & D1 & D0 & Dend & D2); [lia |].
  remember (regions_at k rb (writeIndex rb) n) as r eqn:Er.
  destruct (write_region_ok rb data (dataPtr1 r) 0 (sizePtr1 r))
    as (rb' & Hw & Hok' & Ha' & HW & Hview & Hst & Hel); try done || nia; [by rewrite Z.add_0_r |].
  eexists rb', _, None. split; [cbn [write_step]; rewrite Hw; done |].
  split; [done |]. pose proof Hview as (_ & Hes' & _).
  assert (take (Z.to_nat (n * elementSizeBytes rb)) data
          = slice 0 (sizePtr1 r * elementSizeBytes rb) data ++
            take (Z.to_nat (sizePtr2 r * elementSizeBytes rb))
              (drop (Z.to_nat (sizePtr1 r * elementSizeBytes rb)) data)) as Hsp.
  { rewrite <- take_split by nia. do 2 f_equal. nia. }
  change (elems rb (writeIndex rb) 0) with (@nil Z) in Hel. cbn [app] in Hel. rewrite Z.add_0_l in Hel.
  destruct (Z.ltb_spec 0 (sizePtr2 r)); cbn [wr_ok inflight]; rewrite Ha', HW, ?Hes', Hst, Hsp.
  - rewrite Hel. split_and!; try done.
    + by rewrite (regions_at_es rb rb').
    + unfold zlen in *. rewrite length_drop. nia.
  - replace (sizePtr2 r) with 0 in * by lia. replace n with (sizePtr1 r) by lia.
    rewrite Z.mul_0_l, take_0, app_nil_r, Hel. split_and!; try done || lia.
Qed.

Lemma write_second_ok rb data r n :
  ring_ok k rb -> wr_ok rb (WSecond data r n) -> writer_progress rb (WSecond data r n).
Proof.
  intros Hok (Hn & Hr & -> & Hp & Hd). pose proof (avail_range k rb Hok) as Ha.
  destruct (regions_at_spec k rb Hok (writeIndex rb) n) as (S1 & S2 & Ssum & D1 & D0 & Dend & D2); [lia |].
  remember (regions_at k rb (writeIndex rb) n) as r eqn:Er. destruct (D2 Hp) as (E0 & Em & Hfit).
  destruct (write_region_ok rb data 0 (sizePtr1 r) (sizePtr2 r))
    as (rb' & Hw & Hok' & Ha' & HW & Hview & Hst & Hel); try done || lia.
  eexists rb', _, None. split.
  { cbn [write_step]. rewrite E0. cbn [of_option mbind res_bind]. by rewrite Hw. }
  cbn [wr_ok inflight fst]. rewrite Ha', HW, Hst, <- Ssum, Hel, Ssum. done.
Qed.

Lemma write_step_ok rb w : ring_ok k rb -> wr_ok rb w -> writer_progress rb w.
Proof.
  intros Hok Hw. destruct w as [| data r n | data r n | n].
  - eexists _, _, _. split; [done |]. split_and!; try done; repeat split; done || lia.
  - by apply write_first_ok.
  - by apply write_second_ok.
  - destruct Hw as (Hn & Hr). destruct (advance_write rb n Hok Hn Hr) as (Hok' & Ha' & Hst).
    eexists _, _, _. split; [done |]. split_and!; try done; [repeat split; try done; lia |].
    rewrite Hst. cbn [inflight]. by rewrite app_nil_r.
Qed.

(** A step of the reader does not fault, keeps the writer's view, and returns
    the oldest bytes. *)
Lemma read_step_ok rb r :
  ring_ok k rb -> rd_ok rb r ->
  exists rb' r' ret, read_step rb r = Ret (rb', r', ret) /\
    ring_ok k rb' /\ rd_ok rb' r' /\ writer_view rb rb' /\
    stored rb = from_option fst [] ret ++ stored rb'.
Proof.
  intros Hok Hr. pose proof (avail_range k rb Hok) as Ha. pose proof (ro_es k rb Hok) as Hes.
  destruct r as [| r n | got r n | got n].
  - eexists _, _, _. split; [done |]. split_and!; try done; repeat split; done || lia.
  - destruct Hr as (Hn & ->).
    destruct (regions_at_spec k rb Hok (readIndex rb) n) as (S1 & S2 & Ssum & D1 & D0 & Dend & D2); [lia |].
    remember (regions_at k rb (readIndex rb) n) as r eqn:Er.
    eexists rb, _, None. split.
    { cbn [read_step]. unfold read_region. rewrite D1. unfold ring_bytes in *.
      rewrite elems_region by (done || unfold ring_bytes; lia). done. }
    split_and!; try done; try lia.
    destruct (Z.ltb_spec 0 (sizePtr2 r)); cbn; split_and!; try done || lia.
    f_equal. lia.
  - destruct Hr as (Hn & -> & Hp & ->).
    destruct (regions_at_spec k rb Hok (readIndex rb) n) as (S1 & S2 & Ssum & D1 & D0 & Dend & D2); [lia |].
    remember (regions_at k rb (readIndex rb) n) as r eqn:Er. destruct (D2 Hp) as (E0 & Em & Hfit).
    eexists rb, _, None. split.
    { cbn [read_step]. rewrite E0. cbn [of_option mbind res_bind]. unfold read_region.
      pose proof (elems_region rb (readIndex rb + sizePtr1 r) (sizePtr2 r) Hok S2) as He.
      unfold ring_bytes in He. rewrite Em in He. rewrite He by lia. done. }
    split_and!; try done || lia; try lia.
    by rewrite <- elems_app, Ssum.
  - destruct Hr as (Hn & ->). destruct (advance_read rb n Hok Hn) as (Hok' & Ha' & Hst).
    eexists _, _, _. split; [done |]. split_and!; try done. repeat split; try done; lia.
Qed.
End steps.

Lemma write_entry_ok k rb data n :
  ring_ok k rb -> 0 <= n -> n * elementSizeBytes rb <= zlen data -> wr_ok k rb (write_entry rb data n).
Proof.
  intros Hok Hn Hd. unfold write_entry. rewrite (write_regions k rb Hok). cbn.
  pose proof (avail_range k rb Hok). pose proof (ro_es k rb Hok). split_and!; try done || nia.
Qed.

Lemma read_entry_ok k rb n : ring_ok k rb -> 0 <= n -> rd_ok k rb (read_entry rb n).
Proof.
  intros Hok Hn. unfold read_entry. rewrite (read_regions k rb Hok). cbn.
  pose proof (avail_range k rb Hok). split; [lia | done].
Qed.

Lemma sys_step_ok k s s' : sys_ok k s -> sys_step k s s' -> sys_ok k s'.
Proof.
  intros [Hr Hw Hd Hf] Hs. destruct Hs as [rb rp acc del data n Hn Hl | rb rb' w w' ret rp acc del E
    | rb w acc del n Hn | rb rb' w r r' ret acc del E]; cbn in *.
  - constructor; cbn; try done.
    + by apply write_entry_ok.
    + rewrite Hf, app_nil_r. by rewrite !app_assoc.
  - destruct (write_step_ok k rb w Hr Hw) as (rb1 & w1 & ret1 & E1 & Hr1 & Hw1 & Hv & Hst).
    rewrite E in E1. injection E1 as -> -> ->. constructor; cbn; try done.
    + by apply (rd_ok_view k rb).
    + by rewrite Hst.
  - constructor; cbn; try done. by apply read_entry_ok.
  - destruct (read_step_ok k rb r Hr Hd) as (rb1 & r1 & ret1 & E1 & Hr1 & Hd1 & Hv & Hst).
    rewrite E in E1. injection E1 as -> -> ->.
    destruct (wr_ok_view k rb rb1 w Hw Hv) as [Hw1 Hi]. constructor; cbn; try done.
    by rewrite Hi, Hf, Hst, <- !app_assoc.
Qed.

Lemma sys_reach_ok k s s' : sys_ok k s -> rtc (sys_step k) s s' -> sys_ok k s'.
Proof. induction 2; eauto using sys_step_ok. Qed.

(** * Initialisation *)

Lemma init_pow2 k rb es mem :
  0 <= k <= 29 -> 0 < es -> zlen mem = 2 ^ k * es ->
  exists rb', PaUtil_InitializeRingBuffer rb es (2 ^ k) mem = Ret (rb', 0) /\
    ring_ok k rb' /\ stored k rb' = [] /\ PaUtil_GetRingBufferWriteAvailable rb' = 2 ^ k.
Proof.
  intros Hk Hes Hm. unfold PaUtil_InitializeRingBuffer, LONG_BITS.
  assert (0 < 2 ^ k) by (apply Z.pow_pos_nonneg; lia).
  assert (2 ^ k <= 2 ^ 29) by (apply Z.pow_le_mono_r; lia). change (2 ^ 29) with 536870912 in *.
  rewrite !chk_s_Ret by (change (2 ^ (32 - 1)) with 2147483648; lia). cbn [mbind res_bind].
  rewrite Z.land_comm, land_mask, Z.mod_same by lia. cbn [Z.eqb negb].
  eexists. split; [done |].
  pose proof (pow_twice k ltac:(lia)).
  match goal with |- ring_ok _ ?r /\ _ =>
    assert (ring_ok k r) as Hok by (constructor; cbn; rewrite ?Z.mod_0_l by lia; done || lia) end.
  split; [done |].
  match goal with |- stored _ ?r = _ /\ _ =>
    assert (avail r = 0) as Ha by (rewrite (avail_mod k r Hok); cbn; by rewrite Z.mod_0_l by lia) end.
  split; [unfold stored; by rewrite Ha |].
  unfold PaUtil_GetRingBufferWriteAvailable. rewrite Ha. cbn. lia.
Qed.

Lemma land_pred_not_pow2 n :
  0 < n -> (forall k, 0 <= k -> n <> 2 ^ k) -> Z.land (n - 1) n <> 0.
Proof.
  intros Hn Hp E. pose proof (Z.log2_spec n Hn) as Hl. pose proof (Z.log2_nonneg n) as Hl0.
  pose proof (Hp _ Hl0).
  assert (Z.log2 (n - 1) = Z.log2 n) as El by (apply Z.log2_unique; lia).
  pose proof (Z.pow_pos_nonneg 2 (Z.log2 n) ltac:(lia) Hl0).
  assert (Z.testbit (Z.land (n - 1) n) (Z.log2 n) = true) as Hb.
  { rewrite Z.land_spec. rewrite <- El at 1. rewrite !Z.bit_log2 by lia. done. }
  rewrite E, Z.bits_0 in Hb. discriminate.
Qed.

Lemma write_step_shape rb w rb' w' ret :
  write_step rb w = Ret (rb', w', ret) ->
  match w with
  | WIdle => True
  | WFirst _ r n => ret = None /\ (w' = WAdvance n \/ exists d, w' = WSecond d r n)
  | WSecond _ _ n => ret = None /\ w' = WAdvance n
  | WAdvance n => ret = Some n /\ w' = WIdle
  end.
Proof.
  destruct w as [| d r n | d r n | n]; cbn; [done | | |]; intros E.
  - res_inv. destruct v as [rb1 d1]. res_inv. destruct (0 <? sizePtr2 r); eauto.
  - res_inv. done.
  - by injection E as <- <- <-.
Qed.

Lemma read_step_shape rb r rb' r' ret :
  read_step rb r = Ret (rb', r', ret) ->
  match r with
  | RIdle => True
  | RFirst rg n => ret = None /\ ((exists g, r' = RAdvance g n) \/ exists g, r' = RSecond g rg n)
  | RSecond _ _ n => ret = None /\ exists g, r' = RAdvance g n
  | RAdvance g n => ret = Some (g, n) /\ r' = RIdle
  end.
Proof.
  destruct r as [| rg n | g rg n | g n]; cbn; [done | | |]; intros E.
  - res_inv. destruct (0 <? sizePtr2 rg); eauto.
  - res_inv. eauto.
  - by injection E as <- <- <-.
Qed.

(** From the point where only the index is still to be advanced. *)
Lemma write_finish k rb n :
  ring_ok k rb -> wr_ok k rb (WAdvance n) ->
  exists rb', write_step rb (WAdvance n) = Ret (rb', WIdle, Some n) /\ ring_ok k rb' /\
    stored k rb' = stored k rb ++ inflight k rb (WAdvance n).
Proof.
  intros Hok [Hn Hr]. destruct (advance_write k rb n Hok Hn Hr) as (Hok' & _ & Hst). eauto.
Qed.

Lemma read_finish k rb g n :
  ring_ok k rb -> rd_ok k rb (RAdvance g n) ->
  exists rb', read_step rb (RAdvance g n) = Ret (rb', RIdle, Some (g, n)) /\ ring_ok k rb' /\
    zlen g = n * elementSizeBytes rb /\ stored k rb = g ++ stored k rb'.
Proof.
  intros Hok [Hn ->]. destruct (advance_read k rb n Hok Hn) as (Hok' & _ & Hst).
  eexists. split_and!; [done.. | | done]. apply zlen_elems; [done | lia].
Qed.

(** * The properties of the ring buffer *)

(** C32. In every interleaving of one writing and one reading task, no step
    faults, and the bytes the write calls accepted are, in order, the bytes the
    read calls returned, then those stored, then those of the write under way:
    the ring is a FIFO that holds at most its capacity. *)
Theorem spsc_fifo k rb0 es mem rb s :
  0 <= k <= 29 -> 0 < es -> zlen mem = 2 ^ k * es ->
  PaUtil_InitializeRingBuffer rb0 es (2 ^ k) mem = Ret (rb, 0) ->
  rtc (sys_step k) (mkSys rb WIdle RIdle [] []) s ->
  accepted s = delivered s ++ stored k (ring s) ++ inflight k (ring s) (wr s) /\
  zlen (stored k (ring s)) <= 2 ^ k * elementSizeBytes (ring s) /\
  res_ok (write_step (ring s) (wr s)) = true /\ res_ok (read_step (ring s) (rd s)) = true.
Proof.
  intros Hk Hes Hm Hi Hr.
  destruct (init_pow2 k rb0 es mem Hk Hes Hm) as (rb' & Hi' & Hok & Hst & _).
  rewrite Hi in Hi'. injection Hi' as <-.
  assert (sys_ok k s) as [Hr' Hw Hd Hf].
  { eapply sys_reach_ok; [| done]. constructor; cbn; try done. by rewrite Hst. }
  split; [done |]. pose proof (avail_range k _ Hr'). pose proof (ro_es k _ Hr'). split; [| split].
  - unfold stored. rewrite zlen_elems by (done || lia). nia.
  - destruct (write_step_ok k _ _ Hr' Hw) as (? & ? & ? & -> & _). done.
  - destruct (read_step_ok k _ _ Hr' Hd) as (? & ? & ? & -> & _). done.
Qed.

(** [PaUtil_InitializeRingBuffer] makes an empty ring for a power of two up
    to 2^29, answers -1 for every other positive count and for a negative one,
    overflows [elementCount*2] for 2^30, and accepts the count 0. *)
Theorem PaUtil_InitializeRingBuffer_spec rb es n mem :
  - 2147483648 < n < 2147483648 -> 0 < es -> zlen mem = n * es \/ n <= 0 ->
  (forall k, 0 <= k <= 29 -> n = 2 ^ k ->
     exists rb', PaUtil_InitializeRingBuffer rb es n mem = Ret (rb', 0) /\
       ring_ok k rb' /\ stored k rb' = [] /\ PaUtil_GetRingBufferWriteAvailable rb' = n) /\
  (0 < n -> (forall k, 0 <= k -> n <> 2 ^ k) -> PaUtil_InitializeRingBuffer rb es n mem = Ret (rb, -1)) /\
  (n < 0 -> PaUtil_InitializeRingBuffer rb es n mem = Ret (rb, -1)) /\
  (n = 2 ^ 30 -> PaUtil_InitializeRingBuffer rb es n mem = Fault SignedOverflow) /\
  (n = 0 -> PaUtil_InitializeRingBuffer rb es n mem = Ret (mkRing 0 0 0 (-1) (-1) es mem, 0)).
Proof.
  intros Hn Hes Hm. split_and!.
  - intros k Hk ->. apply init_pow2; [done.. |]. destruct Hm; [done |].
    pose proof (Z.pow_pos_nonneg 2 k). lia.
  - intros H0 Hp. unfold PaUtil_InitializeRingBuffer, LONG_BITS.
    rewrite (chk_s_Ret 32 (n - 1)) by (change (2 ^ (32 - 1)) with 2147483648; lia). cbn [mbind res_bind].
    apply land_pred_not_pow2 in Hp; [| done]. by destruct (Z.eqb_spec (Z.land (n - 1) n) 0).
  - intros H0. unfold PaUtil_InitializeRingBuffer, LONG_BITS.
    rewrite (chk_s_Ret 32 (n - 1)) by (change (2 ^ (32 - 1)) with 2147483648; lia). cbn [mbind res_bind].
    assert (Z.land (n - 1) n < 0) by (apply Z.land_neg; lia).
    by destruct (Z.eqb_spec (Z.land (n - 1) n) 0); [lia |].
  - intros ->. reflexivity.
  - intros ->. reflexivity.
Qed.

(** C33. A whole call without interference terminates without a fault: a write
    stores as many elements as fit behind those stored, a read returns and
    removes as many of the oldest as there are, and both answer their number. *)
Theorem PaUtil_transfer_spec k rb data n :
  ring_ok k rb -> 0 <= n -> n * elementSizeBytes rb <= zlen data ->
  (exists rb' m, PaUtil_WriteRingBuffer rb data n = Ret (rb', m) /\
     m = Z.min n (PaUtil_GetRingBufferWriteAvailable rb) /\ ring_ok k rb' /\
     stored k rb' = stored k rb ++ take (Z.to_nat (m * elementSizeBytes rb)) data) /\
  (exists rb' got m, PaUtil_ReadRingBuffer rb n = Ret (rb', got, m) /\
     m = Z.min n (PaUtil_GetRingBufferReadAvailable rb) /\ ring_ok k rb' /\
     zlen got = m * elementSizeBytes rb /\ stored k rb = got ++ stored k rb').
Proof.
  intros Hok Hn Hd. split.
  - pose proof (write_entry_ok k rb data n Hok Hn Hd) as He.
    unfold PaUtil_WriteRingBuffer. unfold write_entry in *.
    rewrite (write_regions k rb Hok) in *.
    replace (PaUtil_GetRingBufferWriteAvailable rb) with (2 ^ k - avail rb)
      by (unfold PaUtil_GetRingBufferWriteAvailable; by rewrite (ro_size k rb Hok)).
    set (m := Z.min n (2 ^ k - avail rb)) in *.
    destruct (write_step_ok k _ _ Hok He) as (rb1 & w1 & ret1 & E1 & Hok1 & Hw1 & _ & Hs1).
    pose proof (write_step_shape _ _ _ _ _ E1) as [-> Hsh]. rewrite E1. cbn [mbind res_bind].
    destruct Hsh as [-> | [d ->]].
    + destruct (write_finish k rb1 m Hok1 Hw1) as (rb2 & E2 & Hok2 & Hs2).
      rewrite E2. cbn [mbind res_bind]. exists rb2, m. split_and!; try done. by rewrite Hs2, Hs1.
    + destruct (write_step_ok k _ _ Hok1 Hw1) as (rb2 & w2 & ret2 & E2 & Hok2 & Hw2 & _ & Hs2).
      pose proof (write_step_shape _ _ _ _ _ E2) as [-> ->]. rewrite E2. cbn [mbind res_bind].
      destruct (write_finish k rb2 m Hok2 Hw2) as (rb3 & E3 & Hok3 & Hs3).
      rewrite E3. cbn. exists rb3, m. split_and!; try done. by rewrite Hs3, Hs2, Hs1.
  - pose proof (read_entry_ok k rb n Hok Hn) as He.
    unfold PaUtil_ReadRingBuffer. unfold read_entry in *. rewrite (read_regions k rb Hok) in *.
    set (m := Z.min n (avail rb)) in *.
    destruct (read_step_ok k _ _ Hok He) as (rb1 & r1 & ret1 & E1 & Hok1 & Hr1 & (_ & Hes1 & _) & Hs1).
    pose proof (read_step_shape _ _ _ _ _ E1) as [-> Hsh]. rewrite E1. cbn [mbind res_bind].
    destruct Hsh as [[g ->] | [g ->]].
    + destruct (read_finish k rb1 g m Hok1 Hr1) as (rb2 & E2 & Hok2 & Hl & Hs2).
      rewrite E2. cbn [mbind res_bind]. exists rb2, g, m. rewrite <- Hes1. split_and!; try done.
      by rewrite Hs1, Hs2.
    + destruct (read_step_ok k _ _ Hok1 Hr1) as (rb2 & r2 & ret2 & E2 & Hok2 & Hr2 & (_ & Hes2 & _) & Hs2).
      pose proof (read_step_shape _ _ _ _ _ E2) as [-> [g' ->]]. rewrite E2. cbn [mbind res_bind].
      destruct (read_finish k rb2 g' m Hok2 Hr2) as (rb3 & E3 & Hok3 & Hl & Hs3).
      rewrite E3. cbn. exists rb3, g', m. rewrite <- Hes1, <- Hes2. split_and!; try done.
      by rewrite Hs1, Hs2, Hs3.
Qed.

(** * Witnesses *)

(** A ring of four bytes, and a run in which a write of three bytes and a read
    of two interleave. *)
Definition any_ring : PaUtilRingBuffer := mkRing 0 0 0 0 0 0 [].
Definition ring4 : PaUtilRingBuffer := mkRing 4 0 0 7 3 1 [0; 0; 0; 0].

Lemma run4 : exists s, rtc (sys_step 2) (mkSys ring4 WIdle RIdle [] []) s /\
  accepted s = [10; 20; 30; 40] /\ delivered s = [10; 20].
Proof.
  eexists. split.
  - eapply rtc_l; [apply (step_write_call 2 ring4 RIdle [] [] [10; 20; 30] 3); by vm_compute |]. vm_compute.
    eapply rtc_l; [eapply step_write; reflexivity |]. vm_compute.
    eapply rtc_l; [eapply step_write; reflexivity |]. vm_compute.
    eapply rtc_l; [eapply step_read_call with (n := 2); lia |]. vm_compute.
    eapply rtc_l; [eapply step_write_call with (data := [40; 50]) (n := 2); by vm_compute |]. vm_compute.
    eapply rtc_l; [eapply step_read; reflexivity |]. vm_compute.
    eapply rtc_l; [eapply step_write; reflexivity |]. vm_compute.
    eapply rtc_l; [eapply step_read; reflexivity |]. vm_compute.
    eapply rtc_l; [eapply step_write; reflexivity |]. vm_compute.
    apply rtc_refl.
  - split; reflexivity.
Defined.

Lemma spsc_fifo_witness : exists s, delivered s = [10; 20] /\
  accepted s = delivered s ++ stored 2 (ring s) ++ inflight 2 (ring s) (wr s).
Proof.
  destruct run4 as (s & Hr & _ & Hd). exists s. split; [exact Hd |].
  apply (spsc_fifo 2 any_ring 1 [0; 0; 0; 0] ring4 s); [lia | lia | done | reflexivity | exact Hr].
Defined.

Lemma ring4_ok : ring_ok 2 ring4.
Proof. constructor; cbn; done || lia. Qed.

Lemma PaUtil_transfer_spec_witness : exists rb' m,
  PaUtil_WriteRingBuffer ring4 [1; 2; 3; 4; 5] 5 = Ret (rb', m) /\ m = 4 /\ stored 2 rb' = [1; 2; 3; 4].
Proof.
  destruct (PaUtil_transfer_spec 2 ring4 [1; 2; 3; 4; 5] 5 ring4_ok) as [(rb' & m & H & Hm & _ & Hs) _];
    [by vm_compute | by vm_compute |].
  exists rb', m. split; [exact H |]. split; [exact Hm |]. rewrite Hs, Hm. reflexivity.
Defined.

Lemma PaUtil_InitializeRingBuffer_spec_witness :
  PaUtil_InitializeRingBuffer any_ring 1 6 [0; 0; 0; 0; 0; 0] = Ret (any_ring, -1).
Proof.
  destruct (PaUtil_InitializeRingBuffer_spec any_ring 1 6 [0; 0; 0; 0; 0; 0]) as (_ & H & _);
    [lia | lia | left; reflexivity |].
  apply H; [lia |]. intros k Hk E.
  destruct (Z.le_gt_cases k 2); [assert (k = 0 \/ k = 1 \/ k = 2) as [-> | [-> | ->]] by lia; discriminate |].
  pose proof (Z.pow_le_mono_r 2 3 k ltac:(lia) ltac:(lia)) as Hp. change (2 ^ 3) with 8 in Hp. lia.
Defined.
