(* ===== verification/I2s.v ===== *)
(** The I2S driver (src/ESP32/components/driver/i2s.c): the register writes, the
    DMA queues and their memory, clock configuration, the interrupt handler,
    installation and removal, and the transfer of samples.  The queues are any
    implementation of [MsgQueue]. *)

From S2P Require Import Prelude MsgQueue.
From Stdlib Require Import SpecFloat.

(** * Constants and types *)

Definition I2S_NUM_0 : Z := 0.
Definition I2S_NUM_1 : Z := 1.
Definition I2S_NUM_MAX : Z := 2.

Definition ESP_OK : Z := 0.
Definition ESP_FAIL : Z := -1.
Definition ESP_ERR_INVALID_ARG : Z := 258.
Definition ESP_ERR_INVALID_STATE : Z := 259.

Definition I2S_MODE_MASTER : Z := 1.
Definition I2S_MODE_SLAVE : Z := 2.
Definition I2S_MODE_TX : Z := 4.
Definition I2S_MODE_RX : Z := 8.
Definition I2S_MODE_DAC_BUILT_IN : Z := 16.
Definition I2S_MODE_PDM : Z := 64.

Definition I2S_COMM_FORMAT_I2S : Z := 1.
Definition I2S_COMM_FORMAT_I2S_MSB : Z := 2.
Definition I2S_COMM_FORMAT_I2S_LSB : Z := 4.
Definition I2S_COMM_FORMAT_PCM : Z := 8.
Definition I2S_COMM_FORMAT_PCM_SHORT : Z := 16.

Definition I2S_CHANNEL_FMT_RIGHT_LEFT : Z := 0.
Definition I2S_CHANNEL_FMT_ONLY_RIGHT : Z := 3.

Definition I2S_DAC_CHANNEL_DISABLE : Z := 0.
Definition I2S_DAC_CHANNEL_RIGHT_EN : Z := 1.
Definition I2S_DAC_CHANNEL_LEFT_EN : Z := 2.
Definition I2S_DAC_CHANNEL_BOTH_EN : Z := 3.
Definition I2S_DAC_CHANNEL_MAX : Z := 4.

Definition I2S_EVENT_DMA_ERROR : Z := 0.
Definition I2S_EVENT_TX_DONE : Z := 1.
Definition I2S_EVENT_RX_DONE : Z := 2.

Definition I2S_BASE_CLK : Z := 2 * 80 * 1000000.

(** [x & flag] as a condition. *)
Definition has (x flag : Z) : bool := negb (Z.land x flag =? 0).

(** The bit fields of [i2s_dev_t] the driver uses. *)
Inductive field :=
  | conf_tx_reset | conf_rx_reset | conf_tx_fifo_reset | conf_rx_fifo_reset
  | conf_tx_start | conf_rx_start | conf_tx_slave_mod | conf_rx_slave_mod
  | conf_tx_right_first | conf_rx_right_first | conf_tx_msb_shift | conf_rx_msb_shift
  | conf_tx_short_sync | conf_rx_short_sync | conf_tx_mono | conf_rx_mono
  | conf_tx_msb_right | conf_rx_msb_right | conf_sig_loopback
  | int_st_val | int_clr_val
  | int_ena_in_suc_eof | int_ena_out_eof | int_ena_in_dscr_err | int_ena_out_dscr_err
  | fifo_conf_dscr_en | fifo_conf_tx_fifo_mod | fifo_conf_rx_fifo_mod
  | fifo_conf_tx_fifo_mod_force_en | fifo_conf_rx_fifo_mod_force_en
  | rx_eof_num | conf_chan_tx_chan_mod | conf_chan_rx_chan_mod
  | out_link_addr | out_link_stop | out_link_start
  | in_link_addr | in_link_stop | in_link_start
  | out_eof_des_addr | in_eof_des_addr
  | lc_conf_in_rst | lc_conf_out_rst | lc_conf_out_loop_test | lc_conf_out_auto_wrback
  | lc_conf_out_no_restart_clr | lc_conf_out_eof_mode | lc_conf_outdscr_burst_en
  | lc_conf_indscr_burst_en | lc_conf_out_data_burst_en | lc_conf_check_owner
  | conf2_camera_en | conf2_lcd_en
  | clkm_conf_clkm_div_num | clkm_conf_clkm_div_b | clkm_conf_clkm_div_a | clkm_conf_clka_en
  | sample_rate_conf_tx_bck_div_num | sample_rate_conf_rx_bck_div_num
  | sample_rate_conf_tx_bits_mod | sample_rate_conf_rx_bits_mod
  | pdm_conf_tx_pdm_en | pdm_conf_rx_pdm_en | pdm_conf_pcm2pdm_conv_en | pdm_conf_pdm2pcm_conv_en
  | pdm_conf_tx_sinc_osr2 | pdm_conf_rx_sinc_dsr_16_en
  | pdm_freq_conf_tx_pdm_fs | pdm_freq_conf_tx_pdm_fp.

#[export] Instance field_eq_dec : EqDecision field.
Proof. solve_decision. Defined.

Definition width (f : field) : Z :=
  match f with
  | int_st_val | int_clr_val | rx_eof_num | out_eof_des_addr | in_eof_des_addr => 32
  | out_link_addr | in_link_addr => 20
  | fifo_conf_tx_fifo_mod | fifo_conf_rx_fifo_mod | conf_chan_tx_chan_mod => 3
  | conf_chan_rx_chan_mod => 2
  | clkm_conf_clkm_div_num => 8
  | clkm_conf_clkm_div_b | clkm_conf_clkm_div_a
  | sample_rate_conf_tx_bck_div_num | sample_rate_conf_rx_bck_div_num
  | sample_rate_conf_tx_bits_mod | sample_rate_conf_rx_bits_mod => 6
  | pdm_conf_tx_sinc_osr2 => 4
  | pdm_freq_conf_tx_pdm_fs | pdm_freq_conf_tx_pdm_fp => 10
  | _ => 1
  end.

(** Bits of [int_st]. *)
Definition INT_IN_SUC_EOF : Z := 9.
Definition INT_OUT_EOF : Z := 12.
Definition INT_IN_DSCR_ERR : Z := 13.
Definition INT_OUT_DSCR_ERR : Z := 14.

(** What the driver asks of other components, in order. *)
Inductive call :=
  | periph_module_enable (port : Z) | periph_module_disable (port : Z)
  | esp_intr_alloc (port : Z) | esp_intr_free (port : Z)
  | esp_intr_enable (port : Z) | esp_intr_disable (port : Z)
  | dac_output_enable (ch : Z) | dac_output_disable (ch : Z)
  | dac_i2s_enable | dac_i2s_disable
  | gpio_out (gpio sig : Z) | gpio_in (gpio sig : Z).

(** ** Doubles: IEEE binary64 *)

Definition double := spec_float.
Definition D_of_Z (z : Z) : double := binary_normalize 53 1024 z 0 false.
Definition D_div : double -> double -> double := SFdiv 53 1024.
Definition D_sub : double -> double -> double := SFsub 53 1024.

(** Conversion to [int]: truncation, undefined outside the type. *)
Definition D_to_int (d : double) : res Z :=
  match d with
  | S754_zero _ => Ret 0
  | S754_finite s m e =>
      let v := if 0 <=? e then Z.pos m * 2 ^ e else Z.pos m / 2 ^ (- e) in
      chk_s 32 (if s then - v else v)
  | _ => Fault SignedOverflow
  end.

(** ** Memory *)

(** A pointer in memory that may not have been written. *)
Inductive cell := Uninit | Null | Ptr (b : Z).

(** [lldesc_t]: [ll_buf] and [ll_empty] are the indices of the buffer and of
    the next descriptor. *)
Record lldesc_t := mkLl {
  owner : Z; eof : Z; sosf : Z; ll_length : Z; ll_size : Z; ll_buf : Z; ll_offset : Z; ll_empty : Z }.

(** What the compiler leaves on the handler's stack for its local [int dummy]:
    the bytes from its address up to what must not be overwritten.  By its C
    type these are four. *)
Class DummyRoom := { dummy_room : Z }.

Section i2s.
Context {Q : Type} `{!MsgQueue Q} {DummyRoom0 : DummyRoom}.

(** [i2s_dma_t].  [buf] and [desc] are the pointer arrays and [bufs], [descs]
    their entries; [mem] the bytes of the buffers, [lls] the descriptors;
    [curr_ptr] the index of the current buffer; a queue or a mutex comes with
    its block, the mutex with whether it is free. *)
Record i2s_dma_t := mkDma {
  d_self : Z;
  buf : cell;
  bufs : list cell;
  mem : list (list Z);
  buf_size : Z;
  rw_pos : Z;
  curr_ptr : option Z;
  mux : option (Z * bool);
  queue : option (Z * Q);
  desc : cell;
  descs : list cell;
  lls : list lldesc_t }.

(** The event queue's handle: installation puts the address of the caller's
    variable there, which is no queue, until the queue has been created. *)
Inductive event_handle := NoQueue | CallersVariable | EventQueue (b : Z) (q : Q).

Record i2s_obj_t := mkObj {
  o_self : Z;
  i2s_queue : event_handle;
  dma_buf_count : Z;
  dma_buf_len : Z;
  rx : option i2s_dma_t;
  tx : option i2s_dma_t;
  channel_num : Z;
  bytes_per_sample : Z;
  bits_per_sample : Z;
  mode : Z }.

Record i2s_config_t := mkConfig {
  cfg_mode : Z;
  sample_rate : Z;
  cfg_bits_per_sample : Z;
  channel_format : Z;
  communication_format : Z;
  cfg_dma_buf_count : Z;
  cfg_dma_buf_len : Z }.

Record i2s_pin_config_t := mkPin {
  bck_io_num : Z; ws_io_num : Z; data_out_num : Z; data_in_num : Z }.

(** The driver's variables, the registers, the allocator ([live] blocks, the
    next block, and which of the next allocations succeed), the answer of
    [esp_intr_alloc], and the bytes written beyond the handler's [dummy]. *)
Record drv := mkDrv {
  p_i2s_obj : Z -> option i2s_obj_t;
  I2S : Z -> field -> Z;
  live : list Z;
  next_block : Z;
  allocs : list bool;
  intr_alloc_err : Z;
  calls : list call;
  dummy_overrun : Z }.

Abbreviation M := (st drv).

(** ** Access to the state *)

Definition set_objs f (s : drv) : drv :=
  mkDrv f (I2S s) (live s) (next_block s) (allocs s) (intr_alloc_err s) (calls s) (dummy_overrun s).
Definition set_regs f (s : drv) : drv :=
  mkDrv (p_i2s_obj s) f (live s) (next_block s) (allocs s) (intr_alloc_err s) (calls s) (dummy_overrun s).
Definition set_heap l n a (s : drv) : drv :=
  mkDrv (p_i2s_obj s) (I2S s) l n a (intr_alloc_err s) (calls s) (dummy_overrun s).

Definition do_call (c : call) : M unit := modify (fun s =>
  mkDrv (p_i2s_obj s) (I2S s) (live s) (next_block s) (allocs s) (intr_alloc_err s)
    (calls s ++ [c]) (dummy_overrun s)).

(** [I2S[n]] and [p_i2s_obj[n]] are arrays of two entries. *)
Definition port_ok (n : Z) : bool := (0 <=? n) && (n <? I2S_NUM_MAX).

Definition write_reg (n : Z) (f : field) (v : Z) : M unit :=
  if port_ok n then modify (fun s => set_regs (<[n := <[f := wrap_u (width f) v]> (I2S s n)]> (I2S s)) s)
  else throw OutOfBounds.
Definition read_reg (n : Z) (f : field) : M Z :=
  if port_ok n then gets (fun s => I2S s n f) else throw OutOfBounds.

Definition get_obj_ptr (n : Z) : M (option i2s_obj_t) :=
  if port_ok n then gets (fun s => p_i2s_obj s n) else throw OutOfBounds.
(** [p_i2s_obj[n]->...] *)
Definition get_obj (n : Z) : M i2s_obj_t := o ← get_obj_ptr n; need NullPointer o.
Definition put_obj_ptr (n : Z) (o : option i2s_obj_t) : M unit := modify (fun s => set_objs (<[n := o]> (p_i2s_obj s)) s).
Definition put_obj (n : Z) (o : i2s_obj_t) : M unit := put_obj_ptr n (Some o).

Definition with_tx (o : i2s_obj_t) (d : option i2s_dma_t) : i2s_obj_t :=
  mkObj (o_self o) (i2s_queue o) (dma_buf_count o) (dma_buf_len o) (rx o) d
    (channel_num o) (bytes_per_sample o) (bits_per_sample o) (mode o).
Definition with_rx (o : i2s_obj_t) (d : option i2s_dma_t) : i2s_obj_t :=
  mkObj (o_self o) (i2s_queue o) (dma_buf_count o) (dma_buf_len o) d (tx o)
    (channel_num o) (bytes_per_sample o) (bits_per_sample o) (mode o).
Definition with_queue (o : i2s_obj_t) (q : event_handle) : i2s_obj_t :=
  mkObj (o_self o) q (dma_buf_count o) (dma_buf_len o) (rx o) (tx o)
    (channel_num o) (bytes_per_sample o) (bits_per_sample o) (mode o).
Definition with_format (o : i2s_obj_t) (len ch bytes bits : Z) : i2s_obj_t :=
  mkObj (o_self o) (i2s_queue o) (dma_buf_count o) len (rx o) (tx o) ch bytes bits (mode o).

Definition dma_move (d : i2s_dma_t) (pos : Z) (cur : option Z) (m : list (list Z)) (q : option (Z * Q)) : i2s_dma_t :=
  mkDma (d_self d) (buf d) (bufs d) m (buf_size d) pos cur (mux d) q (desc d) (descs d) (lls d).
Definition dma_mux (d : i2s_dma_t) (free : bool) : i2s_dma_t :=
  mkDma (d_self d) (buf d) (bufs d) (mem d) (buf_size d) (rw_pos d) (curr_ptr d)
    ((fun m => (m.1, free)) <$> mux d) (queue d) (desc d) (descs d) (lls d).

(** ** malloc and free *)

Definition malloc : M (option Z) :=
  s ← get;
  match allocs s with
  | false :: a => modify (set_heap (live s) (next_block s) a);; mret None
  | a => modify (set_heap (next_block s :: live s) (next_block s + 1) (tail a));; mret (Some (next_block s))
  end.

Definition free_block (b : Z) : M unit :=
  s ← get;
  if bool_decide (b ∈ live s)
  then modify (set_heap (filter (fun x => x ≠ b) (live s)) (next_block s) (allocs s))
  else throw BadFree.

(** [if (p) free(p)] *)
Definition free_if (c : cell) : M unit :=
  match c with Uninit => throw UninitRead | Null => mret tt | Ptr b => free_block b end.

Definition xQueueCreate (len : Z) : M (option (Z * Q)) :=
  b ← malloc; mret ((fun b => (b, q_create len)) <$> b).
Definition xSemaphoreCreateMutex : M (option (Z * bool)) :=
  b ← malloc; mret ((fun b => (b, true)) <$> b).
(** [vQueueDelete] and [vSemaphoreDelete] assert that the handle is not NULL. *)
Definition vQueueDelete {A} (h : option (Z * A)) : M unit :=
  h ← need AssertFailed h; free_block h.1.

(** ** Interrupts and FIFOs *)

Definition i2s_reset_fifo (n : Z) : M Z :=
  if negb (n <? I2S_NUM_MAX) then mret ESP_ERR_INVALID_ARG else
  write_reg n conf_rx_fifo_reset 1;; write_reg n conf_rx_fifo_reset 0;;
  write_reg n conf_tx_fifo_reset 1;; write_reg n conf_tx_fifo_reset 0;;
  mret ESP_OK.

(** A pin of -1 is left as it is. *)
Definition gpio_matrix_out_check (gpio sig : Z) : M unit :=
  when (negb (gpio =? -1)) (do_call (gpio_out gpio sig)).
Definition gpio_matrix_in_check (gpio sig : Z) : M unit :=
  when (negb (gpio =? -1)) (do_call (gpio_in gpio sig)).

Definition i2s_clear_intr_status (n clr_mask : Z) : M Z :=
  if negb (n <? I2S_NUM_MAX) then mret ESP_ERR_INVALID_ARG else
  write_reg n int_clr_val clr_mask;; mret ESP_OK.

Definition i2s_enable_rx_intr (n : Z) : M Z :=
  write_reg n int_ena_in_suc_eof 1;; write_reg n int_ena_in_dscr_err 1;; mret ESP_OK.
Definition i2s_disable_rx_intr (n : Z) : M Z :=
  write_reg n int_ena_in_suc_eof 0;; write_reg n int_ena_in_dscr_err 0;; mret ESP_OK.
Definition i2s_disable_tx_intr (n : Z) : M Z :=
  write_reg n int_ena_out_eof 0;; write_reg n int_ena_out_dscr_err 0;; mret ESP_OK.
Definition i2s_enable_tx_intr (n : Z) : M Z :=
  write_reg n int_ena_out_eof 1;; write_reg n int_ena_out_dscr_err 1;; mret ESP_OK.

Definition i2s_isr_register (n : Z) : M Z :=
  do_call (esp_intr_alloc n);; gets intr_alloc_err.

Definition i2s_start (n : Z) : M Z :=
  o ← get_obj n;
  do_call (esp_intr_disable n);;
  write_reg n int_clr_val (2 ^ 32 - 1);;
  when (has (mode o) I2S_MODE_TX)
    (i2s_enable_tx_intr n;; write_reg n out_link_start 1;; write_reg n conf_tx_start 1);;
  when (has (mode o) I2S_MODE_RX)
    (i2s_enable_rx_intr n;; write_reg n in_link_start 1;; write_reg n conf_rx_start 1);;
  do_call (esp_intr_enable n);;
  mret ESP_OK.

Definition i2s_stop (n : Z) : M Z :=
  o ← get_obj n;
  do_call (esp_intr_disable n);;
  when (has (mode o) I2S_MODE_TX)
    (write_reg n out_link_stop 1;; write_reg n conf_tx_start 0;; i2s_disable_tx_intr n;; mret tt);;
  when (has (mode o) I2S_MODE_RX)
    (write_reg n in_link_stop 1;; write_reg n conf_rx_start 0;; i2s_disable_rx_intr n;; mret tt);;
  st ← read_reg n int_st_val;
  write_reg n int_clr_val st;;
  i2s_reset_fifo n;;
  write_reg n lc_conf_in_rst 1;; write_reg n lc_conf_in_rst 0;;
  write_reg n lc_conf_out_rst 1;; write_reg n lc_conf_out_rst 0;;
  mret 0.

(** ** DMA queues *)

(** Entry [i] of a pointer array that may not exist. *)
Definition free_entry (array : cell) (entries : list cell) (i : Z) : M unit :=
  match array with
  | Uninit => throw UninitRead
  | Null => mret tt
  | Ptr _ => c ← need OutOfBounds (entries !! Z.to_nat i); free_if c
  end.

Definition i2s_destroy_dma_queue (n : Z) (dma : option i2s_dma_t) : M Z :=
  o ← get_obj_ptr n;
  match o with
  | None => mret ESP_FAIL
  | Some o =>
      match dma with
      | None => mret ESP_FAIL
      | Some d =>
          for_each (seqZ 0 (dma_buf_count o)) (fun i =>
            free_entry (desc d) (descs d) i;; free_entry (buf d) (bufs d) i);;
          free_if (buf d);;
          free_if (desc d);;
          vQueueDelete (queue d);;
          vQueueDelete (mux d);;
          free_block (d_self d);;
          mret ESP_OK
      end
  end.

(** [n] allocations, until one fails; the entries behind it are [rest]. *)
Fixpoint alloc_array (n : nat) (rest : cell) : M (list cell * bool) :=
  match n with
  | O => mret ([], true)
  | S n =>
      b ← malloc;
      match b with
      | None => mret (Null :: replicate n rest, false)
      | Some b => r ← alloc_array n rest; mret (Ptr b :: r.1, r.2)
      end
  end.

Definition make_desc (count len i : Z) : lldesc_t :=
  mkLl 1 1 0 len len i 0 (if i <? count - 1 then i + 1 else 0).

(** The buffers are zeroed; the array of buffer pointers is zeroed before it is
    filled, that of the descriptors is not. *)
Definition i2s_create_dma_queue (n dma_buf_count dma_buf_len : Z) : M (option i2s_dma_t) :=
  o ← get_obj n;
  let sample_size := bytes_per_sample o * channel_num o in
  self ← malloc;
  match self with
  | None => mret None
  | Some self =>
  b ← malloc;
  match b with
  | None => mret None
  | Some b =>
  r ← alloc_array (Z.to_nat dma_buf_count) Null;
  let '(bs, ok) := r in
  let part ds ps := mkDma self (Ptr b) bs [] 0 0 None None None ds ps [] in
  if negb ok then i2s_destroy_dma_queue n (Some (part Null []));; mret None else
  d ← malloc;
  match d with
  | None => i2s_destroy_dma_queue n (Some (part Null []));; mret None
  | Some d =>
  r ← alloc_array (Z.to_nat dma_buf_count) Uninit;
  let '(ds, ok) := r in
  if negb ok then i2s_destroy_dma_queue n (Some (part (Ptr d) ds));; mret None else
  let len := dma_buf_len * sample_size in
  q ← xQueueCreate (dma_buf_count - 1);
  m ← xSemaphoreCreateMutex;
  mret (Some (mkDma self (Ptr b) bs (replicate (Z.to_nat dma_buf_count) (replicate (Z.to_nat len) 0))
                len 0 None m q (Ptr d) ds (make_desc dma_buf_count len <$> seqZ 0 dma_buf_count)))
  end end end.

(** The value of a pointer as a DMA address. *)
Definition desc_addr (d : i2s_dma_t) : M Z :=
  c ← need OutOfBounds (head (descs d));
  match c with Ptr b => mret b | Null => mret 0 | Uninit => throw UninitRead end.

(** ** Removal *)

Definition i2s_driver_uninstall (n : Z) : M Z :=
  if negb (n <? I2S_NUM_MAX) then mret ESP_ERR_INVALID_ARG else
  o ← get_obj_ptr n;
  match o with
  | None => mret ESP_OK
  | Some _ =>
      i2s_stop n;;
      do_call (esp_intr_free n);;
      o ← get_obj n;
      when (match tx o with Some _ => has (mode o) I2S_MODE_TX | None => false end)
        (i2s_destroy_dma_queue n (tx o);; put_obj n (with_tx o None));;
      o ← get_obj n;
      when (match rx o with Some _ => has (mode o) I2S_MODE_RX | None => false end)
        (i2s_destroy_dma_queue n (rx o);; put_obj n (with_rx o None));;
      o ← get_obj n;
      match i2s_queue o with
      | NoQueue => mret tt
      | CallersVariable => throw BadFree
      | EventQueue b _ => free_block b;; put_obj n (with_queue o NoQueue)
      end;;
      o ← get_obj n;
      free_block (o_self o);;
      put_obj_ptr n None;;
      (if n =? I2S_NUM_0 then do_call (periph_module_disable 0)
       else when (n =? I2S_NUM_1) (do_call (periph_module_disable 1)));;
      mret ESP_OK
  end.

(** ** Clocks *)

(** Take and give the mutex of a queue of the object. *)
Definition take_mux (d : i2s_dma_t) : res i2s_dma_t :=
  match mux d with
  | None => Fault AssertFailed
  | Some (_, false) => Fault Deadlock
  | Some (_, true) => Ret (dma_mux d false)
  end.
Definition give_mux (d : i2s_dma_t) : res i2s_dma_t :=
  match mux d with None => Fault AssertFailed | Some _ => Ret (dma_mux d true) end.

Definition lift {A} (m : res A) : M A := match m with Ret a => mret a | Fault e => throw e end.

(** [if ((mode & I2S_MODE_TX) && tx) f (tx)], and the same of [rx]. *)
Definition on_queues (n : Z) (f : i2s_dma_t -> res i2s_dma_t) : M unit :=
  o ← get_obj n;
  match tx o with
  | Some d => when (has (mode o) I2S_MODE_TX) (d ← lift (f d); put_obj n (with_tx o (Some d)))
  | None => mret tt
  end;;
  o ← get_obj n;
  match rx o with
  | Some d => when (has (mode o) I2S_MODE_RX) (d ← lift (f d); put_obj n (with_rx o (Some d)))
  | None => mret tt
  end.

(** [f += k] on a bit field. *)
Definition add_reg (n : Z) (f : field) (k : Z) : M unit := v ← read_reg n f; write_reg n f (v + k).

Definition set_channels (n ch : Z) : M unit :=
  o ← get_obj n;
  when (negb (channel_num o =? ch))
    (put_obj n (with_format o (dma_buf_len o) (if ch =? 2 then 2 else 1) (bytes_per_sample o) (bits_per_sample o));;
     add_reg n fifo_conf_tx_fifo_mod (if ch =? 2 then -1 else 1);;
     add_reg n fifo_conf_rx_fifo_mod (if ch =? 2 then -1 else 1);;
     write_reg n conf_chan_tx_chan_mod (if ch =? 2 then 0 else 1);;
     write_reg n conf_chan_rx_chan_mod (if ch =? 2 then 0 else 1)).

(** The new queue of one direction; [false] when it could not be created. *)
Definition recreate_tx (n : Z) : M bool :=
  o ← get_obj n;
  if negb (has (mode o) I2S_MODE_TX) then mret true else
  let save_tx := tx o in
  d ← i2s_create_dma_queue n (dma_buf_count o) (dma_buf_len o);
  put_obj n (with_tx o d);;
  match d with
  | None => i2s_driver_uninstall n;; mret false
  | Some d =>
      a ← desc_addr d; write_reg n out_link_addr a;;
      when (match save_tx with Some _ => true | None => false end)
        (i2s_destroy_dma_queue n save_tx;; mret tt);;
      mret true
  end.

Definition recreate_rx (n : Z) : M bool :=
  o ← get_obj n;
  if negb (has (mode o) I2S_MODE_RX) then mret true else
  let save_rx := rx o in
  d ← i2s_create_dma_queue n (dma_buf_count o) (dma_buf_len o);
  put_obj n (with_rx o d);;
  match d with
  | None => i2s_driver_uninstall n;; mret false
  | Some d =>
      write_reg n rx_eof_num ((dma_buf_len o * channel_num o * bytes_per_sample o) / 4);;
      a ← desc_addr d; write_reg n in_link_addr a;;
      when (match save_rx with Some _ => true | None => false end)
        (i2s_destroy_dma_queue n save_rx;; mret tt);;
      mret true
  end.

Definition set_bits (n bits : Z) : M bool :=
  o ← get_obj n;
  if bits =? bits_per_sample o then mret true else
  (if (bits_per_sample o <=? 16) && (16 <? bits)
   then add_reg n fifo_conf_tx_fifo_mod 2;; add_reg n fifo_conf_rx_fifo_mod 2
   else when ((16 <? bits_per_sample o) && (bits <=? 16))
          (add_reg n fifo_conf_tx_fifo_mod (-2);; add_reg n fifo_conf_rx_fifo_mod (-2)));;
  let bytes := (bits + 15) / 16 * 2 in
  let len := if 4092 <? dma_buf_len o * bytes * channel_num o
             then 4092 / bytes / channel_num o else dma_buf_len o in
  put_obj n (with_format o len (channel_num o) bytes bits);;
  ok ← recreate_tx n;
  if negb ok then mret false else recreate_rx n.

(** The integer and fractional divider and the bit clock divider. *)
Definition dividers_of_mclk (b_clk factor2 : Z) : res (Z * Z * Z) :=
  let mclk := D_of_Z (wrap_u 32 (b_clk * factor2)) in
  let clkmdiv := D_div (D_of_Z I2S_BASE_CLK) mclk in
  clkmInteger ← D_to_int clkmdiv;
  clkmDecimals ← D_to_int (D_div (D_sub clkmdiv (D_of_Z clkmInteger)) (D_div (D_of_Z 1) (D_of_Z 64)));
  bck ← D_to_int (D_div mclk (D_of_Z b_clk));
  Ret (clkmInteger, clkmDecimals, bck).

Definition dividers_plain (clkmdiv : double) (factor bits : Z) : res (Z * Z * Z) :=
  clkmInteger ← D_to_int clkmdiv;
  clkmDecimals ← D_to_int (D_div (D_sub clkmdiv (D_of_Z clkmInteger)) (D_div (D_of_Z 1) (D_of_Z 64)));
  Ret (clkmInteger, clkmDecimals, factor / (bits * 2)).

Definition dividers (n rate bits factor : Z) (clkmdiv : double) : M (Z * Z * Z) :=
  o ← get_obj n;
  if has (mode o) I2S_MODE_DAC_BUILT_IN then lift (dividers_of_mclk (wrap_u 32 (rate * 2)) 60)
  else if has (mode o) I2S_MODE_PDM then
    b_clk ← (if has (mode o) I2S_MODE_TX then
               fp ← read_reg n pdm_freq_conf_tx_pdm_fp;
               fs ← read_reg n pdm_freq_conf_tx_pdm_fs;
               if fs =? 0 then throw DivideByZero else mret (wrap_u 32 (rate * 64 * (fp / fs)))
             else if has (mode o) I2S_MODE_RX then
               dsr ← read_reg n pdm_conf_rx_sinc_dsr_16_en; mret (wrap_u 32 (rate * 64 * (dsr + 1)))
             else mret 0);
    lift (dividers_of_mclk b_clk 5)
  else lift (dividers_plain clkmdiv factor bits).

Definition i2s_set_clk (n rate bits ch : Z) : M Z :=
  if bits =? 0 then throw DivideByZero else
  let factor := if negb (256 mod bits =? 0) then 384 else 256 in
  if negb (n <? I2S_NUM_MAX) then mret ESP_ERR_INVALID_ARG else
  if negb (bits mod 8 =? 0) || (32 <? bits) || (bits <? 16) then mret ESP_ERR_INVALID_ARG else
  o ← get_obj_ptr n;
  match o with
  | None => mret ESP_FAIL
  | Some _ =>
      let clkmdiv := D_div (D_of_Z I2S_BASE_CLK) (D_of_Z (wrap_u 32 (rate * factor))) in
      if SFltb (D_of_Z 256) clkmdiv then mret ESP_FAIL else
      on_queues n take_mux;;
      i2s_stop n;;
      set_channels n ch;;
      ok ← set_bits n bits;
      if negb ok then mret ESP_FAIL else
      r ← dividers n rate bits factor clkmdiv;
      let '(clkmInteger, clkmDecimals, bck) := r in
      write_reg n clkm_conf_clka_en 0;;
      write_reg n clkm_conf_clkm_div_a 63;;
      write_reg n clkm_conf_clkm_div_b clkmDecimals;;
      write_reg n clkm_conf_clkm_div_num clkmInteger;;
      write_reg n sample_rate_conf_tx_bck_div_num bck;;
      write_reg n sample_rate_conf_rx_bck_div_num bck;;
      write_reg n sample_rate_conf_tx_bits_mod bits;;
      write_reg n sample_rate_conf_rx_bits_mod bits;;
      (* the real rate, computed for the log, divides by the dividers *)
      (if wrap_u 32 (bck * bits * clkmInteger) =? 0 then throw DivideByZero else mret tt);;
      on_queues n give_mux;;
      i2s_start n;;
      mret ESP_OK
  end.

(** ** Pins and the built-in DAC *)

Definition DAC_CHANNEL_1 : Z := 1.
Definition DAC_CHANNEL_2 : Z := 2.

Definition i2s_set_dac_mode (dac_mode : Z) : M Z :=
  if negb (dac_mode <? I2S_DAC_CHANNEL_MAX) then mret ESP_ERR_INVALID_ARG else
  (if dac_mode =? I2S_DAC_CHANNEL_DISABLE
   then do_call (dac_output_disable DAC_CHANNEL_1);; do_call (dac_output_disable DAC_CHANNEL_1);;
        do_call dac_i2s_disable
   else do_call dac_i2s_enable);;
  when (has dac_mode I2S_DAC_CHANNEL_RIGHT_EN) (do_call (dac_output_enable DAC_CHANNEL_1));;
  when (has dac_mode I2S_DAC_CHANNEL_LEFT_EN) (do_call (dac_output_enable DAC_CHANNEL_2));;
  mret ESP_OK.

(** [GPIO_IS_VALID_GPIO]: below 40 and present in [GPIO_PIN_MUX_REG]. *)
Definition GPIO_IS_VALID_GPIO (gpio : Z) : res bool :=
  if negb (gpio <? 40) then Ret false
  else if gpio <? 0 then Fault OutOfBounds
  else Ret (negb (bool_decide (gpio ∈ [20; 24; 28; 29; 30; 31]))).

(** [pin != -1 && !GPIO_IS_VALID_GPIO(pin)] *)
Definition bad_pin (gpio : Z) : M bool :=
  if gpio =? -1 then mret false else v ← lift (GPIO_IS_VALID_GPIO gpio); mret (negb v).

(** The signal indices of a port: bit clock, word select and data of the
    transmitter and of the receiver (the index of a signal is the same in both
    directions). *)
Definition sig_o_bck (n : Z) : Z := if n =? I2S_NUM_0 then 23 else 24.
Definition sig_o_ws (n : Z) : Z := if n =? I2S_NUM_0 then 25 else 26.
Definition sig_o_data (n : Z) : Z := if n =? I2S_NUM_0 then 163 else 189.
Definition sig_i_bck (n : Z) : Z := if n =? I2S_NUM_0 then 27 else 164.
Definition sig_i_ws (n : Z) : Z := if n =? I2S_NUM_0 then 28 else 165.
Definition sig_i_data (n : Z) : Z := if n =? I2S_NUM_0 then 155 else 181.

(** [bck_sig], [ws_sig], [data_out_sig] and [data_in_sig] of a mode. *)
Definition signals (n m : Z) : Z * Z * Z * Z :=
  let clocked := has m I2S_MODE_MASTER || has m I2S_MODE_SLAVE in
  let '(bck, ws, dout, din) := (-1, -1, -1, -1) in
  let '(bck, ws, dout) :=
    if has m I2S_MODE_TX && clocked then (sig_o_bck n, sig_o_ws n, sig_o_data n) else (bck, ws, dout) in
  let '(bck, ws, din) :=
    if has m I2S_MODE_RX && clocked then (sig_i_bck n, sig_i_ws n, sig_i_data n) else (bck, ws, din) in
  let slave := Z.lor (Z.lor I2S_MODE_TX I2S_MODE_RX) I2S_MODE_SLAVE in
  let master := Z.lor (Z.lor I2S_MODE_TX I2S_MODE_RX) I2S_MODE_MASTER in
  let '(bck, ws) :=
    if Z.land m slave =? slave then (sig_i_bck n, sig_i_ws n)
    else if Z.land m master =? master then (sig_o_bck n, sig_o_ws n) else (bck, ws) in
  (bck, ws, dout, din).

Definition i2s_set_pin (n : Z) (pin : option i2s_pin_config_t) : M Z :=
  if negb (n <? I2S_NUM_MAX) then mret ESP_ERR_INVALID_ARG else
  match pin with
  | None => i2s_set_dac_mode I2S_DAC_CHANNEL_BOTH_EN
  | Some pin =>
      bad ← bad_pin (bck_io_num pin); if (bad : bool) then mret ESP_FAIL else
      bad ← bad_pin (ws_io_num pin); if (bad : bool) then mret ESP_FAIL else
      bad ← bad_pin (data_out_num pin); if (bad : bool) then mret ESP_FAIL else
      bad ← bad_pin (data_in_num pin); if (bad : bool) then mret ESP_FAIL else
      o ← get_obj n;
      let '(bck_sig, ws_sig, data_out_sig, data_in_sig) := signals n (mode o) in
      gpio_matrix_out_check (data_out_num pin) data_out_sig;;
      gpio_matrix_in_check (data_in_num pin) data_in_sig;;
      (if has (mode o) I2S_MODE_MASTER
       then gpio_matrix_out_check (ws_io_num pin) ws_sig;; gpio_matrix_out_check (bck_io_num pin) bck_sig
       else when (has (mode o) I2S_MODE_SLAVE)
              (gpio_matrix_in_check (ws_io_num pin) ws_sig;; gpio_matrix_in_check (bck_io_num pin) bck_sig));;
      mret ESP_OK
  end.

Definition i2s_set_sample_rates (n rate : Z) : M Z :=
  if negb (n <? I2S_NUM_MAX) then mret ESP_ERR_INVALID_ARG else
  o ← get_obj n;
  if negb (0 <? bytes_per_sample o) then mret ESP_ERR_INVALID_ARG else
  i2s_set_clk n (wrap_u 32 rate) (bits_per_sample o) (channel_num o).

(** ** Configuration *)

(** Writes in order. *)
Definition write_regs (n : Z) (l : list (field * Z)) : M unit :=
  for_each l (fun fv => write_reg n fv.1 fv.2).

Definition config_reset : list (field * Z) := [
  (conf_tx_reset, 1); (conf_tx_reset, 0); (conf_rx_reset, 1); (conf_rx_reset, 0);
  (lc_conf_in_rst, 1); (lc_conf_in_rst, 0); (lc_conf_out_rst, 1); (lc_conf_out_rst, 0);
  (lc_conf_check_owner, 0); (lc_conf_out_loop_test, 0); (lc_conf_out_auto_wrback, 0);
  (lc_conf_out_data_burst_en, 0); (lc_conf_outdscr_burst_en, 0); (lc_conf_out_no_restart_clr, 0);
  (lc_conf_indscr_burst_en, 0); (lc_conf_out_eof_mode, 1);
  (conf2_lcd_en, 0); (conf2_camera_en, 0); (pdm_conf_pcm2pdm_conv_en, 0); (pdm_conf_pdm2pcm_conv_en, 0);
  (fifo_conf_dscr_en, 0)].

Definition config_channels (fmt : Z) : list (field * Z) :=
  let chan_mod := if fmt <? I2S_CHANNEL_FMT_ONLY_RIGHT then fmt else Z.shiftr fmt 1 in
  let fifo_mod := if fmt <? I2S_CHANNEL_FMT_ONLY_RIGHT then 0 else 1 in
  [(conf_chan_tx_chan_mod, chan_mod); (fifo_conf_tx_fifo_mod, fifo_mod); (conf_tx_mono, 0);
   (conf_chan_rx_chan_mod, chan_mod); (fifo_conf_rx_fifo_mod, fifo_mod); (conf_rx_mono, 0);
   (fifo_conf_dscr_en, 1); (conf_tx_start, 0); (conf_rx_start, 0)].

Definition config_direction (m : Z) : list (field * Z) :=
  (if has m I2S_MODE_TX then
     [(conf_tx_msb_right, 0); (conf_tx_right_first, 0); (conf_tx_slave_mod, 0);
      (fifo_conf_tx_fifo_mod_force_en, 1)] ++
     (if has m I2S_MODE_SLAVE then [(conf_tx_slave_mod, 1)] else [])
   else []) ++
  (if has m I2S_MODE_RX then
     [(conf_rx_msb_right, 0); (conf_rx_right_first, 0); (conf_rx_slave_mod, 0);
      (fifo_conf_rx_fifo_mod_force_en, 1)] ++
     (if has m I2S_MODE_SLAVE then [(conf_rx_slave_mod, 1)] else [])
   else []) ++
  (if has m I2S_MODE_DAC_BUILT_IN then [(conf2_lcd_en, 1); (conf_tx_right_first, 1)] else []).

Definition config_format (fmt m : Z) : list (field * Z) :=
  (if has fmt I2S_COMM_FORMAT_I2S then
     [(conf_tx_short_sync, 0); (conf_rx_short_sync, 0); (conf_tx_msb_shift, 1); (conf_rx_msb_shift, 1)] ++
     (if has fmt I2S_COMM_FORMAT_I2S_LSB then
        (if has m I2S_MODE_TX then [(conf_tx_msb_shift, 0)] else []) ++
        (if has m I2S_MODE_RX then [(conf_rx_msb_shift, 0)] else [])
      else [])
   else []) ++
  (if has fmt I2S_COMM_FORMAT_PCM then
     [(conf_tx_msb_shift, 0); (conf_rx_msb_shift, 0); (conf_tx_short_sync, 0); (conf_rx_short_sync, 0)] ++
     (if has fmt I2S_COMM_FORMAT_PCM_SHORT then
        (if has m I2S_MODE_TX then [(conf_tx_short_sync, 1)] else []) ++
        (if has m I2S_MODE_RX then [(conf_rx_short_sync, 1)] else [])
      else [])
   else []).

Definition i2s_param_config (n : Z) (config : option i2s_config_t) : M Z :=
  if negb (n <? I2S_NUM_MAX) then mret ESP_ERR_INVALID_ARG else
  match config with
  | None => mret ESP_ERR_INVALID_ARG
  | Some c =>
      do_call (periph_module_enable (if n =? I2S_NUM_1 then 1 else 0));;
      i2s_reset_fifo n;;
      write_regs n (config_reset ++ config_channels (channel_format c) ++ config_direction (cfg_mode c));;
      (if has (cfg_mode c) I2S_MODE_PDM then
         write_regs n [(fifo_conf_rx_fifo_mod_force_en, 1); (fifo_conf_tx_fifo_mod_force_en, 1);
           (pdm_freq_conf_tx_pdm_fp, 960);
           (pdm_freq_conf_tx_pdm_fs, Z.quot (sample_rate c) 1000 * 10)];;
         fp ← read_reg n pdm_freq_conf_tx_pdm_fp;
         fs ← read_reg n pdm_freq_conf_tx_pdm_fs;
         (if fs =? 0 then throw DivideByZero else write_reg n pdm_conf_tx_sinc_osr2 (fp / fs));;
         write_regs n [(pdm_conf_rx_sinc_dsr_16_en, 0); (pdm_conf_rx_pdm_en, 1); (pdm_conf_tx_pdm_en, 1);
           (pdm_conf_pcm2pdm_conv_en, 1); (pdm_conf_pdm2pcm_conv_en, 1)]
       else write_regs n [(pdm_conf_rx_pdm_en, 0); (pdm_conf_tx_pdm_en, 0)]);;
      write_regs n (config_format (communication_format c) (cfg_mode c));;
      o ← get_obj n;
      when (has (mode o) I2S_MODE_RX && has (mode o) I2S_MODE_TX)
        (write_reg n conf_sig_loopback 1;;
         if has (mode o) I2S_MODE_MASTER
         then write_reg n conf_tx_slave_mod 0;; write_reg n conf_rx_slave_mod 1
         else write_reg n conf_tx_slave_mod 1;; write_reg n conf_rx_slave_mod 1);;
      mret ESP_OK
  end.

(** [memset] of every buffer of a queue that has any. *)
Definition zero_buffers (count : Z) (d : i2s_dma_t) : res i2s_dma_t :=
  match buf d with
  | Ptr _ =>
      if negb (buf_size d =? 0) then
        if count <=? zlen (mem d)
        then Ret (dma_move d (rw_pos d) (curr_ptr d)
               (replicate (Z.to_nat count) (replicate (Z.to_nat (buf_size d)) 0) ++ drop (Z.to_nat count) (mem d))
               (queue d))
        else Fault OutOfBounds
      else Ret d
  | Null => Ret d
  | Uninit => Fault UninitRead
  end.

Definition i2s_zero_dma_buffer (n : Z) : M Z :=
  if negb (n <? I2S_NUM_MAX) then mret ESP_ERR_INVALID_ARG else
  o ← get_obj n;
  match rx o with
  | Some d => d ← lift (zero_buffers (dma_buf_count o) d); put_obj n (with_rx o (Some d))
  | None => mret tt
  end;;
  o ← get_obj n;
  match tx o with
  | Some d => d ← lift (zero_buffers (dma_buf_count o) d); put_obj n (with_tx o (Some d))
  | None => mret tt
  end;;
  mret ESP_OK.

(** ** Installation: [queue_size] is [None] when the caller wants no event queue *)

Definition i2s_driver_install (n : Z) (config : option i2s_config_t) (queue_size : option Z) : M Z :=
  if negb (n <? I2S_NUM_MAX) then mret ESP_ERR_INVALID_ARG else
  match config with
  | None => mret ESP_ERR_INVALID_ARG
  | Some c =>
  if negb ((2 <=? cfg_dma_buf_count c) && (cfg_dma_buf_count c <=? 128)) then mret ESP_ERR_INVALID_ARG else
  if negb ((8 <=? cfg_dma_buf_len c) && (cfg_dma_buf_len c <=? 1024)) then mret ESP_ERR_INVALID_ARG else
  o ← get_obj_ptr n;
  match o with
  | Some _ => mret ESP_ERR_INVALID_STATE
  | None =>
  self ← malloc;
  match self with
  | None => mret ESP_FAIL
  | Some self =>
  let channels := if channel_format c <? I2S_CHANNEL_FMT_ONLY_RIGHT then 2 else 1 in
  let handle := match queue_size with Some _ => CallersVariable | None => NoQueue end in
  put_obj n (mkObj self handle (cfg_dma_buf_count c) (cfg_dma_buf_len c) None None channels 0 0 (cfg_mode c));;
  do_call (periph_module_enable (if n =? I2S_NUM_1 then 1 else 0));;
  err ← i2s_isr_register n;
  if negb (err =? ESP_OK) then free_block self;; put_obj_ptr n None;; mret err else
  i2s_stop n;;
  i2s_param_config n (Some c);;
  match queue_size with
  | Some size =>
      q ← xQueueCreate size;
      o ← get_obj n;
      put_obj n (with_queue o match q with Some (b, q) => EventQueue b q | None => NoQueue end);;
      (* uxQueueSpacesAvailable asserts that the handle is not NULL *)
      match q with Some _ => mret tt | None => throw AssertFailed end
  | None => o ← get_obj n; put_obj n (with_queue o NoQueue)
  end;;
  o ← get_obj n;
  i2s_set_clk n (wrap_u 32 (sample_rate c)) (cfg_bits_per_sample c) (channel_num o)
  end end end.

(** ** The interrupt handler *)

(** Post to a queue that drops its oldest item when it is full; whether it did. *)
Definition post (x : Z) (q : Q) : Q * bool :=
  let '(q, dropped) :=
    if q_isfull q
    then match q_receive q with Some (_, q) => (q, true) | None => (q, false) end
    else (q, false) in
  (match q_send x q with Some q => q | None => q end, dropped).

(** An event, eight bytes, that is dropped is received into [dummy], an [int]:
    the four bytes behind it are written, which is an access outside the object
    unless the frame has room there. *)
Definition post_event (n ev : Z) : M unit :=
  o ← get_obj n;
  match i2s_queue o with
  | NoQueue => mret tt
  | CallersVariable => throw OutOfBounds
  | EventQueue b q =>
      let (q, dropped) := post ev q in
      if dropped && (dummy_room <? 8) then throw OutOfBounds else
      put_obj n (with_queue o (EventQueue b q));;
      when dropped (modify (fun s => mkDrv (p_i2s_obj s) (I2S s) (live s) (next_block s) (allocs s)
        (intr_alloc_err s) (calls s) (dummy_overrun s + (8 - 4))))
  end.

(** Post the buffer of the descriptor that finished. *)
Definition post_buffer (d : i2s_dma_t) (des : Z) : res i2s_dma_t :=
  ll ← of_option OutOfBounds (lls d !! Z.to_nat des);
  bq ← of_option AssertFailed (queue d);
  Ret (dma_move d (rw_pos d) (curr_ptr d) (mem d) (Some (bq.1, (post (ll_buf ll) bq.2).1))).

Definition i2s_intr_handler_default (n : Z) : M unit :=
  st ← read_reg n int_st_val;
  when (Z.testbit st INT_OUT_DSCR_ERR || Z.testbit st INT_IN_DSCR_ERR) (post_event n I2S_EVENT_DMA_ERROR);;
  o ← get_obj n;
  match tx o with
  | Some d =>
      when (Z.testbit st INT_OUT_EOF)
        (des ← read_reg n out_eof_des_addr;
         d ← lift (post_buffer d des);
         put_obj n (with_tx o (Some d));;
         post_event n I2S_EVENT_TX_DONE)
  | None => mret tt
  end;;
  o ← get_obj n;
  match rx o with
  | Some d =>
      when (Z.testbit st INT_IN_SUC_EOF)
        (des ← read_reg n in_eof_des_addr;
         d ← lift (post_buffer d des);
         put_obj n (with_rx o (Some d));;
         post_event n I2S_EVENT_RX_DONE)
  | None => mret tt
  end;;
  st ← read_reg n int_st_val;
  write_reg n int_clr_val st.

(** The hardware raises an interrupt: the status word, and the descriptor that the
    register [reg] shows. *)
Definition interrupt_of (reg : field) (n : Z) (irq : Z * Z) : M unit :=
  modify (fun s => set_regs (<[n := <[int_st_val := irq.1]> (<[reg := irq.2]> (I2S s n))]> (I2S s)) s);;
  i2s_intr_handler_default n.
Definition interrupt (n : Z) (irq : Z * Z) : M unit := interrupt_of out_eof_des_addr n irq.

(** ** Transfers *)

(** The buffer to use: the current one, or the next of the queue when there is
    none or it is used up; [None] when the queue stays empty for the time to
    wait, that is, holds nothing when the wait ends.  What arrives during the
    wait is posted before: by the loops below, and by the caller of a single
    sample's transfer. *)
Definition next_buffer (d : i2s_dma_t) : res (option i2s_dma_t) :=
  if (rw_pos d =? buf_size d) || (match curr_ptr d with None => true | Some _ => false end) then
    match queue d with
    | None => Fault AssertFailed
    | Some (b, q) =>
        match q_receive q with
        | None => Ret None
        | Some (x, q) => Ret (Some (dma_move d 0 (Some x) (mem d) (Some (b, q))))
        end
    end
  else Ret (Some d).

(** Store [bytes] at the position, and read [n] bytes from it. *)
Definition put_bytes (d : i2s_dma_t) (bytes : list Z) : res i2s_dma_t :=
  cur ← of_option NullPointer (curr_ptr d);
  b ← of_option OutOfBounds (mem d !! Z.to_nat cur);
  b ← memcpy_to b (rw_pos d) bytes;
  Ret (dma_move d (rw_pos d + zlen bytes) (curr_ptr d) (<[Z.to_nat cur := b]> (mem d)) (queue d)).
Definition take_bytes (d : i2s_dma_t) (n : Z) : res (list Z * i2s_dma_t) :=
  cur ← of_option NullPointer (curr_ptr d);
  b ← of_option OutOfBounds (mem d !! Z.to_nat cur);
  bytes ← memcpy_from b (rw_pos d) n;
  Ret (bytes, dma_move d (rw_pos d + n) (curr_ptr d) (mem d) (queue d)).

(** [waits]: for each round, the interrupts since the last one, those of the wait
    for ticks_to_wait included. *)
Fixpoint write_loop (fuel : nat) (n : Z) (waits : list (list (Z * Z))) (src : list Z) (size writen : Z) : M Z :=
  if size =? 0 then mret writen else
  match fuel with
  | O => throw OutOfFuel
  | S fuel =>
      for_each (hd [] waits) (interrupt n);;
      o ← get_obj n;
      d ← need NullPointer (tx o);
      r ← lift (next_buffer d);
      match r with
      | None => mret writen
      | Some d =>
          let k := buf_size d - rw_pos d in
          let k := if size <? k then size else k in
          bytes ← lift (memcpy_from src 0 k);
          d ← lift (put_bytes d bytes);
          put_obj n (with_tx o (Some d));;
          write_loop fuel n (tail waits) (drop (Z.to_nat k) src) (size - k) (writen + k)
      end
  end.

Definition i2s_write_bytes (n : Z) (src : list Z) (size : Z) (waits : list (list (Z * Z))) : M Z :=
  if negb (n <? I2S_NUM_MAX) then mret ESP_ERR_INVALID_ARG else
  o ← get_obj n;
  match tx o with
  | None => mret 0
  | Some d =>
      d ← lift (take_mux d);
      put_obj n (with_tx o (Some d));;
      r ← write_loop (Z.to_nat size + 1) n waits src size 0;
      o ← get_obj n;
      d ← need NullPointer (tx o);
      d ← lift (give_mux d);
      put_obj n (with_tx o (Some d));;
      mret r
  end.

Fixpoint read_loop (fuel : nat) (n : Z) (waits : list (list (Z * Z))) (size : Z) (got : list Z) : M (list Z) :=
  if size =? 0 then mret got else
  match fuel with
  | O => throw OutOfFuel
  | S fuel =>
      for_each (hd [] waits) (interrupt_of in_eof_des_addr n);;
      o ← get_obj n;
      d ← need NullPointer (rx o);
      r ← lift (next_buffer d);
      match r with
      | None => mret got
      | Some d =>
          let k := buf_size d - rw_pos d in
          let k := if size <? k then size else k in
          bd ← lift (take_bytes d k);
          put_obj n (with_rx o (Some bd.2));;
          read_loop fuel n (tail waits) (size - k) (got ++ bd.1)
      end
  end.

(** The bytes read; the call's value is their number. *)
Definition i2s_read_bytes (n : Z) (size : Z) (waits : list (list (Z * Z))) : M (list Z * Z) :=
  if negb (n <? I2S_NUM_MAX) then mret ([], ESP_ERR_INVALID_ARG) else
  o ← get_obj n;
  match rx o with
  | None => mret ([], 0)
  | Some d =>
      d ← lift (take_mux d);
      put_obj n (with_rx o (Some d));;
      r ← read_loop (Z.to_nat size + 1) n waits size [];
      o ← get_obj n;
      d ← need NullPointer (rx o);
      d ← lift (give_mux d);
      put_obj n (with_rx o (Some d));;
      mret (r, zlen r)
  end.

Definition i2s_push_sample (n : Z) (sample : list Z) : M Z :=
  if negb (n <? I2S_NUM_MAX) then mret ESP_ERR_INVALID_ARG else
  o ← get_obj n;
  d ← need NullPointer (tx o);
  r ← lift (next_buffer d);
  match r with
  | None => mret 0
  | Some d =>
      bytes ← lift (memcpy_from sample 0 (bytes_per_sample o * channel_num o));
      d ← lift (put_bytes d bytes);
      put_obj n (with_tx o (Some d));;
      mret (zlen bytes)
  end.

Definition i2s_pop_sample (n : Z) : M (list Z * Z) :=
  if negb (n <? I2S_NUM_MAX) then mret ([], ESP_ERR_INVALID_ARG) else
  o ← get_obj n;
  d ← need NullPointer (rx o);
  r ← lift (next_buffer d);
  match r with
  | None => mret ([], 0)
  | Some d =>
      r ← lift (take_bytes d (if channel_num o =? 2 then 2 * bytes_per_sample o else bytes_per_sample o));
      let d := r.2 in
      let d := dma_move d (rw_pos d - zlen r.1 + bytes_per_sample o * channel_num o)
                 (curr_ptr d) (mem d) (queue d) in
      put_obj n (with_rx o (Some d));;
      mret (r.1, zlen r.1)
  end.

(** * Rules for the access to the state *)

Lemma wp_get_obj n o P s :
  port_ok n = true -> p_i2s_obj s n = Some o -> P o s -> wp (get_obj n) P s.
Proof. intros Hn Ho HP. unfold get_obj, get_obj_ptr. rewrite Hn. wp_step. wp_step. by rewrite Ho. Qed.

Lemma wp_put_obj n o P s :
  P tt (set_objs (<[n := Some o]> (p_i2s_obj s)) s) -> wp (put_obj n o) P s.
Proof. done. Qed.

Lemma wp_get_obj_ptr n P s : port_ok n = true -> P (p_i2s_obj s n) s -> wp (get_obj_ptr n) P s.
Proof. intros Hn HP. unfold get_obj_ptr. by rewrite Hn. Qed.

Lemma wp_lift {A} (m : res A) a P (s : drv) : m = Ret a -> P a s -> wp (lift m) P s.
Proof. by intros ->. Qed.

Lemma wp_read_reg n f P s : port_ok n = true -> P (I2S s n f) s -> wp (read_reg n f) P s.
Proof. intros Hn HP. unfold read_reg. by rewrite Hn. Qed.

Lemma wp_write_reg n f v P s :
  port_ok n = true ->
  P tt (set_regs (<[n := <[f := wrap_u (width f) v]> (I2S s n)]> (I2S s)) s) -> wp (write_reg n f v) P s.
Proof. intros Hn HP. unfold write_reg. by rewrite Hn. Qed.

Lemma port_max n : port_ok n = true -> negb (n <? I2S_NUM_MAX) = false.
Proof. unfold port_ok. by intros [_ ->]%andb_true_iff. Qed.

(** * The state of a DMA queue *)

Context `{!MsgQueueLaws Q}.

(** The bytes of the queue's items, for a queue that exists. *)
Definition queued (d : i2s_dma_t) : list Z :=
  match queue d with Some (_, q) => q_items q | None => [] end.

(** [count] buffers of whole samples of [ss] bytes; the position is inside the
    current buffer; the queue holds buffers only. *)
Record dma_ok (count ss : Z) (d : i2s_dma_t) : Prop := {
  do_ss : 0 < ss;
  do_size : 0 < buf_size d;
  do_whole : (ss | buf_size d);
  do_count : 2 <= count <= 2 ^ 31;
  do_mem : zlen (mem d) = count;
  do_bufs : Forall (fun b => zlen b = buf_size d) (mem d);
  do_pos : 0 <= rw_pos d <= buf_size d;
  do_cur : forall c, curr_ptr d = Some c -> 0 <= c < count;
  do_queue : exists b q, queue d = Some (b, q) /\ q_ok q /\ q_length q = count - 1;
  do_items : Forall (fun c => 0 <= c < count) (queued d) }.

Lemma mem_lookup count ss d c :
  dma_ok count ss d -> 0 <= c < count ->
  exists b, mem d !! Z.to_nat c = Some b /\ zlen b = buf_size d.
Proof.
  intros Hd Hc. pose proof (do_mem _ _ _ Hd) as Hm. unfold zlen in Hm.
  destruct (lookup_lt_is_Some_2 (mem d) (Z.to_nat c)) as [b Hb]; [lia |].
  exists b. split; [done |]. exact (Forall_lookup_1 _ _ _ _ (do_bufs _ _ _ Hd) Hb).
Qed.

Lemma next_mux d d1 : next_buffer d = Ret (Some d1) -> mux d1 = mux d.
Proof.
  unfold next_buffer. destruct (_ || _); [| by intros [= <-]].
  destruct (queue d) as [[b q] |]; [| done]. destruct (q_receive q) as [[x q'] |]; [| done].
  by intros [= <-].
Qed.

Lemma put_mux d bytes d1 : put_bytes d bytes = Ret d1 -> mux d1 = mux d.
Proof. unfold put_bytes. intros. by res_inv. Qed.

(** What [next_buffer] does: keep the buffer, take the next, or give up. *)
Lemma next_buffer_spec count ss d :
  dma_ok count ss d ->
  (exists c, curr_ptr d = Some c /\ rw_pos d < buf_size d /\ next_buffer d = Ret (Some d)) \/
  ((curr_ptr d = None \/ rw_pos d = buf_size d) /\ queued d = [] /\ next_buffer d = Ret None) \/
  ((curr_ptr d = None \/ rw_pos d = buf_size d) /\
   exists x l d', queued d = x :: l /\ next_buffer d = Ret (Some d') /\ dma_ok count ss d' /\
     curr_ptr d' = Some x /\ rw_pos d' = 0 /\ mem d' = mem d /\ queued d' = l /\
     buf_size d' = buf_size d /\ lls d' = lls d /\ mux d' = mux d).
Proof.
  intros Hd. pose proof Hd as [Hss Hsz Hw Hc Hm Hb Hp Hcur (b & q & Eq & Hq & Hl) Hi].
  unfold next_buffer. destruct ((rw_pos d =? buf_size d) || _) eqn:E.
  - assert (curr_ptr d = None \/ rw_pos d = buf_size d) as Hn.
    { apply orb_true_iff in E as [E | E]; [right; lia | left]. by destruct (curr_ptr d). }
    rewrite Eq. unfold queued in *. rewrite Eq in *.
    destruct (q_items q) as [| x l] eqn:Ei.
    + right. left. split; [done |]. split; [done |]. by rewrite (q_receive_empty q Hq Ei).
    + right. right. split; [done |].
      destruct (q_receive_ok q x l Hq Ei) as (q' & Er & Hq' & Ei' & El'). rewrite Er.
      exists x, l. eexists. split; [done |]. split; [done |].
      apply Forall_cons_1 in Hi as [Hx Hi]. cbn. rewrite Ei'. split; [| done].
      constructor; cbn; try done; try lia.
      * intros c [= <-]. done.
      * exists b, q'. split_and!; try done. lia.
      * unfold queued. cbn. by rewrite Ei'.
  - apply orb_false_iff in E as [E1 E2]. left. destruct (curr_ptr d) as [c |]; [| done].
    exists c. split_and!; try done. lia.
Qed.

(** Storing [bytes] that fit into the rest of the current buffer. *)
Lemma put_bytes_spec count ss d c bytes :
  dma_ok count ss d -> curr_ptr d = Some c -> rw_pos d + zlen bytes <= buf_size d ->
  exists d' b, mem d !! Z.to_nat c = Some b /\ put_bytes d bytes = Ret d' /\ dma_ok count ss d' /\
    mem d' = <[Z.to_nat c := blit (rw_pos d) bytes b]> (mem d) /\
    rw_pos d' = rw_pos d + zlen bytes /\ curr_ptr d' = Some c /\ queued d' = queued d /\
    buf_size d' = buf_size d /\ lls d' = lls d.
Proof.
  intros Hd Ec Hfit. destruct (mem_lookup count ss d c Hd) as (b & Eb & Hb); [by apply Hd |].
  unfold put_bytes. rewrite Ec. cbn [of_option mbind res_bind]. rewrite Eb. cbn [of_option mbind res_bind].
  pose proof (do_pos _ _ _ Hd) as Hp. rewrite memcpy_to_Ret by lia. cbn [mbind res_bind].
  eexists _, b. split; [done |]. split; [done |].
  split; [| done]. pose proof (zlen_nonneg bytes). destruct Hd.
  constructor; cbn; try done; try lia.
  - unfold zlen. by rewrite length_insert.
  - apply Forall_insert; [done |]. rewrite zlen_blit; lia.
  - intros x [= ->]. by apply do_cur0.
Qed.

(** ** Pushing a sample *)

(** The three outcomes of pushing [sample]: stored behind the last one, stored
    at the start of the next buffer, or nothing done for want of a buffer. *)
Definition push_outcome (n count : Z) (sample : list Z) (s : drv) (o : i2s_obj_t) (d : i2s_dma_t)
    (r : Z) (s' : drv) : Prop :=
  let ss := bytes_per_sample o * channel_num o in
  exists d', p_i2s_obj s' n = Some (with_tx o (Some d')) /\ dma_ok count ss d' /\ (ss | rw_pos d') /\
    lls d' = lls d /\ buf_size d' = buf_size d /\ mux d' = mux d /\
    ((exists c b, r = ss /\ curr_ptr d = Some c /\ rw_pos d < buf_size d /\ mem d !! Z.to_nat c = Some b /\
        mem d' = <[Z.to_nat c := blit (rw_pos d) (slice 0 ss sample) b]> (mem d) /\
        curr_ptr d' = Some c /\ rw_pos d' = rw_pos d + ss /\ queued d' = queued d) \/
     (exists c b l, r = ss /\ (curr_ptr d = None \/ rw_pos d = buf_size d) /\ queued d = c :: l /\
        mem d !! Z.to_nat c = Some b /\
        mem d' = <[Z.to_nat c := blit 0 (slice 0 ss sample) b]> (mem d) /\
        curr_ptr d' = Some c /\ rw_pos d' = ss /\ queued d' = l) \/
     (r = 0 /\ (curr_ptr d = None \/ rw_pos d = buf_size d) /\ queued d = [] /\ s' = s /\ d' = d)).

Lemma wp_push_sample n s o d count sample :
  let ss := bytes_per_sample o * channel_num o in
  port_ok n = true -> p_i2s_obj s n = Some o -> tx o = Some d ->
  dma_ok count ss d -> (ss | rw_pos d) -> ss <= zlen sample ->
  wp (i2s_push_sample n sample) (push_outcome n count sample s o d) s.
Proof.
  intros ss Hn Ho Ht Hd Hdiv Hs. pose proof (do_ss _ _ _ Hd) as Hss. pose proof (do_size _ _ _ Hd) as Hsz.
  unfold i2s_push_sample. rewrite port_max by done.
  wp_step. eapply wp_get_obj; [done.. |]. rewrite Ht. wp_step. wp_step. wp_step.
  assert (zlen (slice 0 ss sample) = ss) as Hlen by (apply zlen_slice; lia).
  destruct (next_buffer_spec count ss d Hd)
    as [(c & Ec & Hlt & ->) | [(Hn' & Eq & ->) | (Hn' & c & l & d1 & Eq & -> & Hd1 & Ec & Ep & Em & El & Es & Ell & Emx)]].
  - eapply wp_lift; [done |]. wp_step. eapply wp_lift.
    { fold ss. by apply memcpy_from_Ret; lia. } wp_step.
    assert (rw_pos d + ss <= buf_size d) as Hfit by (apply divide_step; [done | done | apply Hd | done]).
    destruct (put_bytes_spec count ss d c (slice 0 ss sample))
      as (d' & b & Eb & Epb & Hd' & Em & Ep & Ec' & Eq & Es & Ell); [done.. | lia |].
    eapply wp_lift; [done |]. wp_step. apply wp_put_obj. wp_step. exists d'.
    cbn [set_objs p_i2s_obj]. rewrite fn_lookup_insert.
    split; [done |]. split; [done |]. split.
    { rewrite Ep, Hlen. apply Z.divide_add_r; [done | reflexivity]. }
    split; [done |]. split; [done |]. split; [by apply put_mux in Epb |].
    left. exists c, b. rewrite Hlen in *. split_and!; done.
  - eapply wp_lift; [done |]. wp_step. exists d. split; [| do 5 (split; [done |]); by right; right].
    rewrite Ho, <- Ht. by destruct o.
  - eapply wp_lift; [done |]. wp_step. eapply wp_lift.
    { fold ss. by apply memcpy_from_Ret; lia. } wp_step.
    assert (ss <= buf_size d) as Hfit by (apply Z.divide_pos_le; [done | apply (do_whole _ _ _ Hd)]).
    destruct (put_bytes_spec count ss d1 c (slice 0 ss sample))
      as (d' & b & Eb & Epb & Hd' & Em' & Ep' & Ec' & Eq' & Es' & Ell'); [done.. | lia |].
    eapply wp_lift; [done |]. wp_step. apply wp_put_obj. wp_step. exists d'.
    cbn [set_objs p_i2s_obj]. rewrite fn_lookup_insert.
    rewrite Ep, Hlen in Ep'. rewrite Ep, Em in Em'. rewrite Em in Eb.
    split; [done |]. split; [done |]. split; [by rewrite Ep' |].
    split; [by rewrite Ell', Ell |]. split; [by rewrite Es', Es |].
    split; [apply put_mux in Epb; by rewrite Epb, Emx |]. right. left. exists c, b, l. rewrite Hlen. split_and!; try done; by rewrite ?Eq', ?El.
Qed.

(** [i2s_push_sample] on a well-formed queue never runs outside a buffer
    when the position is at a whole sample: with room it stores the sample at
    the position of the current buffer, at the end of the buffer it takes the
    next one of the queue and stores it there, and with an empty queue it
    answers 0 and changes nothing.  The queue stays well-formed. *)
Theorem i2s_push_sample_spec n s o d count sample :
  let ss := bytes_per_sample o * channel_num o in
  port_ok n = true -> p_i2s_obj s n = Some o -> tx o = Some d ->
  dma_ok count ss d -> (ss | rw_pos d) -> ss <= zlen sample ->
  wp (i2s_push_sample n sample) (push_outcome n count sample s o d) s.
Proof. exact (wp_push_sample n s o d count sample). Qed.

(** ** Writing a block *)

(** The places of the buffers that can be written, in the order they are. *)
Definition segment (c lo hi : Z) : list (Z * Z) := (fun off => (c, off)) <$> seqZ lo (hi - lo).
Definition area (d : i2s_dma_t) : list (Z * Z) :=
  match curr_ptr d with Some c => segment c (rw_pos d) (buf_size d) | None => [] end ++
  mjoin ((fun c => segment c 0 (buf_size d)) <$> queued d).
Definition load (m : list (list Z)) (a : Z * Z) : option Z :=
  b ← m !! Z.to_nat a.1; b !! Z.to_nat a.2.

Lemma zlen_segment c lo hi : lo <= hi -> zlen (segment c lo hi) = hi - lo.
Proof. intros. unfold segment, zlen. rewrite length_fmap, length_seqZ. lia. Qed.

Lemma segment_split c lo mid hi :
  lo <= mid <= hi -> segment c lo hi = segment c lo mid ++ segment c mid hi.
Proof.
  intros. unfold segment. rewrite <- fmap_app. f_equal.
  replace (hi - lo) with ((mid - lo) + (hi - mid)) by lia.
  rewrite seqZ_app by lia. do 2 f_equal. lia.
Qed.

Lemma segment_lookup c lo hi i :
  0 <= i < hi - lo -> segment c lo hi !! Z.to_nat i = Some (c, lo + i).
Proof.
  intros. unfold segment. rewrite list_lookup_fmap, lookup_seqZ_lt by lia. cbn. do 2 f_equal. lia.
Qed.

Lemma elem_of_segment a c lo hi : a ∈ segment c lo hi <-> a.1 = c /\ lo <= a.2 < hi.
Proof.
  unfold segment. rewrite list_elem_of_fmap. setoid_rewrite elem_of_seqZ. split.
  - intros (y & -> & Hy). cbn. lia.
  - destruct a as [a1 a2]. cbn. intros [-> Hy]. exists a2. split; [done | lia].
Qed.

Lemma area_next count ss d d1 :
  dma_ok count ss d -> next_buffer d = Ret (Some d1) ->
  dma_ok count ss d1 /\ area d1 = area d /\ mem d1 = mem d /\ buf_size d1 = buf_size d /\
  exists c, curr_ptr d1 = Some c /\ rw_pos d1 < buf_size d1.
Proof.
  intros Hd Hn. pose proof (do_size _ _ _ Hd).
  destruct (next_buffer_spec count ss d Hd)
    as [(c & Ec & Hlt & E) | [(_ & _ & E) | (Hc & c & l & d2 & Eq & E & Hd1 & Ec & Ep & Em & El & Es & _)]];
    rewrite E in Hn; try discriminate Hn; injection Hn as <-.
  - split_and!; try done. eauto.
  - split_and!; try done; [| exists c; split; [done | lia]].
    unfold area. rewrite Ec, Ep, Es, El, Eq. cbn. destruct Hc as [-> | Hc]; [done |].
    destruct (curr_ptr d); [| done]. rewrite Hc. unfold segment. by rewrite Z.sub_diag.
Qed.

(** What a store into the current buffer does to memory. *)
Lemma load_put count ss d d' c bytes :
  dma_ok count ss d -> curr_ptr d = Some c -> rw_pos d + zlen bytes <= buf_size d ->
  put_bytes d bytes = Ret d' ->
  dma_ok count ss d' /\ buf_size d' = buf_size d /\
  area d = segment c (rw_pos d) (rw_pos d + zlen bytes) ++ area d' /\
  (forall i, 0 <= i < zlen bytes -> load (mem d') (c, rw_pos d + i) = bytes !! Z.to_nat i) /\
  (forall a, 0 <= a.1 -> 0 <= a.2 -> a ∉ segment c (rw_pos d) (rw_pos d + zlen bytes) ->
     load (mem d') a = load (mem d) a).
Proof.
  intros Hd Ec Hfit Hp. pose proof (zlen_nonneg bytes) as Hz.
  destruct (put_bytes_spec count ss d c bytes Hd Ec Hfit) as (d1 & b & Eb & E & Hd1 & Em & Ep & Ec1 & Eq & Es & _).
  rewrite E in Hp. simplify_eq. split; [done |]. split; [done |].
  pose proof (do_pos _ _ _ Hd) as Hpos. pose proof (do_cur _ _ _ Hd c Ec) as Hc.
  assert (zlen b = buf_size d) as Hb by exact (Forall_lookup_1 _ _ _ _ (do_bufs _ _ _ Hd) Eb).
  pose proof (lookup_lt_Some _ _ _ Eb) as Hlt. split; [| split].
  - unfold area. rewrite Ec, Ec1, Ep, Es, Eq.
    rewrite (segment_split c (rw_pos d) (rw_pos d + zlen bytes)) by lia. by rewrite <- app_assoc.
  - intros i Hi. unfold load. rewrite Em. cbn.
    rewrite list_lookup_insert_eq by done. cbn. unfold blit, zlen in *.
    rewrite lookup_app_r by (rewrite length_take; lia). rewrite length_take.
    rewrite lookup_app_l by lia. f_equal. lia.
  - intros [a1 a2] H1 H2 Ha. unfold load. rewrite Em. cbn in *. rewrite elem_of_segment in Ha. cbn in Ha.
    destruct (decide (a1 = c)) as [-> | Hne].
    + rewrite list_lookup_insert_eq by done. rewrite Eb. cbn. unfold blit, zlen in *.
      destruct (decide (a2 < rw_pos d)).
      * rewrite lookup_app_l by (rewrite length_take; lia). by rewrite lookup_take_lt by lia.
      * rewrite lookup_app_r by (rewrite length_take; lia). rewrite length_take.
        rewrite lookup_app_r, lookup_drop by lia. f_equal. lia.
    + by rewrite list_lookup_insert_ne by lia.
Qed.

Lemma area_range count ss d a : dma_ok count ss d -> a ∈ area d -> 0 <= a.1 /\ 0 <= a.2.
Proof.
  intros Hd. unfold area. rewrite elem_of_app, list_elem_of_join. intros [Ha | (l & Ha & Hl)].
  - destruct (curr_ptr d) as [c |] eqn:Ec; [| by apply not_elem_of_nil in Ha].
    apply elem_of_segment in Ha as [-> Ha]. pose proof (do_pos _ _ _ Hd). pose proof (do_cur _ _ _ Hd c Ec). lia.
  - apply list_elem_of_fmap in Hl as (c & -> & Hc). apply elem_of_segment in Ha as [-> Ha].
    pose proof (proj1 (list.Forall_forall _ _) (do_items _ _ _ Hd) c Hc). cbn in *. lia.
Qed.

(** The outcome of writing [src], [w] bytes of it, into the area of [d]. *)
Definition written count ss (d d' : i2s_dma_t) (src : list Z) (w : Z) : Prop :=
  dma_ok count ss d' /\ buf_size d' = buf_size d /\ area d' = drop (Z.to_nat w) (area d) /\
  (NoDup (area d) -> forall i a, 0 <= i < w -> area d !! Z.to_nat i = Some a ->
     load (mem d') a = src !! Z.to_nat i) /\
  (forall a, 0 <= a.1 -> 0 <= a.2 -> a ∉ take (Z.to_nat w) (area d) -> load (mem d') a = load (mem d) a).

Lemma written_0 count ss d src : dma_ok count ss d -> written count ss d d src 0.
Proof. intros Hd. split_and!; try done. intros. lia. Qed.

(** A first piece and then the rest. *)
Lemma written_app count ss d d1 d2 c src n w :
  dma_ok count ss d -> curr_ptr d = Some c -> 0 <= n -> n <= zlen src -> rw_pos d + n <= buf_size d -> 0 <= w ->
  put_bytes d (slice 0 n src) = Ret d1 ->
  written count ss d1 d2 (drop (Z.to_nat n) src) w -> written count ss d d2 src (n + w).
Proof.
  intros Hd Ec Hn Hns Hfit Hw Hp (Hd2 & Hs2 & Ha2 & Hl2 & Hk2).
  assert (zlen (slice 0 n src) = n) as Hz by (apply zlen_slice; lia).
  destruct (load_put count ss d d1 c (slice 0 n src)) as (Hd1 & Hs1 & Ha1 & Hl1 & Hk1); try done; [lia |].
  rewrite Hz in *. pose proof (zlen_segment c (rw_pos d) (rw_pos d + n) ltac:(lia)) as Hsg.
  assert (length (segment c (rw_pos d) (rw_pos d + n)) = Z.to_nat n) as Hsn by (unfold zlen in Hsg; lia).
  split_and!; try done.
  - congruence.
  - rewrite Ha1, Ha2, Z2Nat.inj_add by lia. rewrite <- Hsn.
    rewrite drop_app_add'; [done | lia].
  - intros Hnd i a Hi Hai. rewrite Ha1 in Hnd, Hai. apply list.NoDup_app in Hnd as (_ & Hdis & Hnd2).
    destruct (decide (i < n)).
    + rewrite lookup_app_l in Hai by lia. rewrite segment_lookup in Hai by lia. injection Hai as <-.
      rewrite Hk2.
      * rewrite Hl1 by lia. unfold slice. rewrite drop_0, lookup_take_lt by lia. done.
      * pose proof (do_cur _ _ _ Hd c Ec). cbn. lia.
      * pose proof (do_pos _ _ _ Hd). cbn. lia.
      * intros Hin. apply elem_of_take in Hin as (k & Hin & _). apply list_elem_of_lookup_2 in Hin.
        apply (Hdis (c, rw_pos d + i)); [| done]. apply elem_of_segment. cbn. lia.
    + rewrite lookup_app_r in Hai by lia. rewrite Hsn in Hai.
      rewrite (Hl2 Hnd2 (i - n) a); [| lia |].
      * rewrite lookup_drop. f_equal. lia.
      * rewrite <- Hai. f_equal. lia.
  - intros a H1 H2 Hnot. rewrite Ha1, Z2Nat.inj_add, <- Hsn, take_app_add' in Hnot by lia.
    apply not_elem_of_app in Hnot as [Hn1 Hn2]. rewrite Hk2 by done. by apply Hk1.
Qed.

(** ** The interrupt handler *)

(** A queue of finished buffers keeps the newest ones. *)
Definition keep_newest (len : Z) (l : list Z) (x : Z) : list Z :=
  (if zlen l =? len then tail l else l) ++ [x].

Lemma post_spec (q : Q) x :
  q_ok q -> 0 < q_length q -> 0 <= x < 2 ^ 32 ->
  q_ok (post x q).1 /\ q_length (post x q).1 = q_length q /\
  q_items (post x q).1 = keep_newest (q_length q) (q_items q) x /\
  (post x q).2 = (zlen (q_items q) =? q_length q).
Proof.
  intros Hq Hl Hx. unfold post, keep_newest. rewrite q_isfull_ok by done.
  pose proof (q_bounded q Hq) as Hb.
  destruct (Z.eqb_spec (zlen (q_items q)) (q_length q)) as [E | E].
  - destruct (q_items q) as [| y l] eqn:Ei; [rewrite zlen_nil in E; lia |].
    destruct (q_receive_ok q y l Hq Ei) as (q1 & Er & Hq1 & Ei1 & El1). rewrite Er.
    rewrite zlen_cons in E.
    destruct (q_send_ok q1 x Hq1) as (q2 & Es & Hq2 & Ei2 & El2); [rewrite Ei1, El1; lia | done |].
    rewrite Es. cbn. rewrite Ei2, El2, Ei1, El1. done.
  - destruct (q_send_ok q x Hq) as (q2 & Es & Hq2 & Ei2 & El2); [lia | done |].
    rewrite Es. cbn. done.
Qed.

#[local] Arguments post : simpl never.

(** The descriptors of a queue are those [i2s_create_dma_queue] makes. *)
Definition descs_ok (count : Z) (d : i2s_dma_t) : Prop :=
  lls d = make_desc count (buf_size d) <$> seqZ 0 count.

Lemma post_buffer_spec count ss d des :
  dma_ok count ss d -> descs_ok count d -> 0 <= des < count ->
  exists d', post_buffer d des = Ret d' /\ dma_ok count ss d' /\ descs_ok count d' /\
    queued d' = keep_newest (count - 1) (queued d) des /\
    mem d' = mem d /\ curr_ptr d' = curr_ptr d /\ rw_pos d' = rw_pos d /\ mux d' = mux d.
Proof.
  intros Hd Hl Hdes. unfold post_buffer. rewrite Hl, list_lookup_fmap, lookup_seqZ_lt by lia. cbn.
  destruct (do_queue _ _ _ Hd) as (b & q & Eq & Hq & Hlen). rewrite Eq. cbn.
  pose proof (do_count _ _ _ Hd) as Hc. rewrite Z2Nat.id, Z.add_0_l by lia.
  assert (2 ^ 32 = 2 * 2 ^ 31) as H2 by reflexivity.
  destruct (post_spec q des Hq) as (Hq' & Hl' & Hi' & _); [lia | lia |].
  eexists. split; [done |].
  assert (queued d = q_items q) as Eqi by (unfold queued; by rewrite Eq).
  split; [| split_and!; try done; unfold queued; cbn; by rewrite Hi', Hlen, Eq].
  pose proof (do_items _ _ _ Hd) as Hit. rewrite Eqi in Hit.
  destruct Hd. constructor; cbn; try done.
  - exists b, (post des q).1. split_and!; try done. by rewrite Hl'.
  - unfold queued. cbn. rewrite Hi'. unfold keep_newest. apply Forall_app. split; [| by constructor].
    destruct (zlen (q_items q) =? q_length q); [by apply Forall_tail | done].
Qed.

(** The object after an event, and the bytes that overrun [dummy]. *)
Definition event_obj (ev : Z) (o : i2s_obj_t) : i2s_obj_t :=
  with_queue o match i2s_queue o with EventQueue b q => EventQueue b (post ev q).1 | h => h end.
Definition event_overrun (ev : Z) (o : i2s_obj_t) : Z :=
  match i2s_queue o with EventQueue _ q => if (post ev q).2 then 4 else 0 | _ => 0 end.

Lemma wp_post_event n ev s o :
  port_ok n = true -> p_i2s_obj s n = Some o -> i2s_queue o <> CallersVariable ->
  8 <= dummy_room \/ event_overrun ev o = 0 ->
  wp (post_event n ev) (fun _ s' => p_i2s_obj s' n = Some (event_obj ev o) /\ I2S s' = I2S s /\
    dummy_overrun s' = dummy_overrun s + event_overrun ev o) s.
Proof.
  intros Hn Ho Hc Hroom. unfold post_event. wp_step. eapply wp_get_obj; [done.. |].
  unfold event_obj, event_overrun in *. destruct (i2s_queue o) as [| | b q] eqn:Eq; [| done |].
  2: { destruct (post ev q) as [q' dr] eqn:Ep. cbn [snd] in Hroom.
    destruct (dr && (dummy_room <? 8)) eqn:Er.
    { apply andb_true_iff in Er as [-> Er%Z.ltb_lt]. destruct Hroom; [lia | done]. }
    wp_step. apply wp_put_obj. cbn. destruct dr; cbn; rewrite fn_lookup_insert; split_and!; done || lia. }
  - wp_step. rewrite Z.add_0_r. split; [| done]. rewrite Ho. f_equal. unfold with_queue.
    destruct o. cbn in *. by subst.
Qed.

(** Without the room, dropping an event is the fault. *)
Lemma post_event_faults n ev s o :
  port_ok n = true -> p_i2s_obj s n = Some o -> dummy_room < 8 -> event_overrun ev o <> 0 ->
  post_event n ev s = Fault OutOfBounds.
Proof.
  intros Hn Ho Hroom Hov. unfold post_event. erewrite run_bind by (unfold get_obj, get_obj_ptr; rewrite Hn; by erewrite run_bind by (by unfold gets; rewrite Ho)).
  unfold event_overrun in Hov. destruct (i2s_queue o) as [| | b q]; [done.. |]. destruct (post ev q) as [q' [|]]; [| done].
  cbn [andb]. by rewrite (proj2 (Z.ltb_lt _ _) Hroom).
Qed.

(** The events in an event queue that exists. *)
Definition events (o : i2s_obj_t) : list Z :=
  match i2s_queue o with EventQueue _ q => q_items q | _ => [] end.
Definition event_queue_ok (o : i2s_obj_t) (len : Z) : Prop :=
  match i2s_queue o with EventQueue _ q => q_ok q /\ q_length q = len /\ 0 < len | _ => False end.

Lemma event_obj_spec ev o len :
  event_queue_ok o len -> 0 <= ev < 2 ^ 32 ->
  event_queue_ok (event_obj ev o) len /\ events (event_obj ev o) = keep_newest len (events o) ev /\
  event_overrun ev o = if zlen (events o) =? len then 4 else 0.
Proof.
  unfold event_queue_ok, events, event_overrun, event_obj.
  destruct (i2s_queue o) as [| | b q] eqn:E; [done.. |]. intros (Hq & Hl & H0) Hev. cbn.
  destruct (post_spec q ev Hq) as (H1 & H2 & H3 & H4); [lia | done |].
  rewrite H3, H4, Hl. split_and!; try done. by rewrite H2.
Qed.

(** What a transmit interrupt with the status [st] means for the event queue of
    [len]: the events before its own, and the bytes it writes beyond [dummy]. *)
Definition isr_err (st : Z) : bool := Z.testbit st INT_OUT_DSCR_ERR || Z.testbit st INT_IN_DSCR_ERR.
Definition isr_before (st len : Z) (o : i2s_obj_t) : list Z :=
  if isr_err st then keep_newest len (events o) I2S_EVENT_DMA_ERROR else events o.
Definition isr_overrun (st len : Z) (o : i2s_obj_t) : Z :=
  (if isr_err st && (zlen (events o) =? len) then 4 else 0) + (if zlen (isr_before st len o) =? len then 4 else 0).

(** The state after it. *)
Definition isr_outcome (n count ss len : Z) (s : drv) (o : i2s_obj_t) (d : i2s_dma_t) (s' : drv) : Prop :=
  let st := I2S s n int_st_val in
  exists o' d', p_i2s_obj s' n = Some o' /\ tx o' = Some d' /\ rx o' = None /\
    bytes_per_sample o' = bytes_per_sample o /\ channel_num o' = channel_num o /\
    bits_per_sample o' = bits_per_sample o /\ mode o' = mode o /\ mux d' = mux d /\
    dma_ok count ss d' /\ descs_ok count d' /\
    queued d' = keep_newest (count - 1) (queued d) (I2S s n out_eof_des_addr) /\
    mem d' = mem d /\ curr_ptr d' = curr_ptr d /\ rw_pos d' = rw_pos d /\
    event_queue_ok o' len /\ events o' = keep_newest len (isr_before st len o) I2S_EVENT_TX_DONE /\
    dummy_overrun s' = dummy_overrun s + isr_overrun st len o /\
    I2S s' n int_clr_val = st.

Lemma event_queue_handle o len : event_queue_ok o len -> i2s_queue o <> CallersVariable.
Proof. unfold event_queue_ok. by destruct (i2s_queue o). Qed.

Lemma post_event_fits len ev o : event_queue_ok o len -> 0 <= ev < 2 ^ 32 ->
  8 <= dummy_room \/ (if zlen (events o) =? len then 4 else 0) = 0 -> 8 <= dummy_room \/ event_overrun ev o = 0.
Proof. intros Hq Hev [|]; [by left | right]. by destruct (event_obj_spec ev o len Hq Hev) as (_ & _ & ->). Qed.

(** Its first part, for a descriptor error. *)
Lemma wp_intr_error n s o len :
  let err := isr_err (I2S s n int_st_val) in
  port_ok n = true -> p_i2s_obj s n = Some o -> event_queue_ok o len ->
  8 <= dummy_room \/ (if err && (zlen (events o) =? len) then 4 else 0) = 0 ->
  wp (when err (post_event n I2S_EVENT_DMA_ERROR)) (fun _ s1 => exists o1, p_i2s_obj s1 n = Some o1 /\
    o1 = (if err then event_obj I2S_EVENT_DMA_ERROR o else o) /\ event_queue_ok o1 len /\
    events o1 = isr_before (I2S s n int_st_val) len o /\ I2S s1 = I2S s /\
    dummy_overrun s1 = dummy_overrun s + if err && (zlen (events o) =? len) then 4 else 0) s.
Proof.
  intros err Hn Ho Hev Hroom. unfold isr_before. fold err.
  destruct (event_obj_spec I2S_EVENT_DMA_ERROR o len) as (Hq1 & He1 & Hov1); [done.. |].
  destruct err; cbn [when andb] in *.
  - eapply wp_mono; [apply wp_post_event; try done; [by eapply event_queue_handle | by eapply post_event_fits] |].
    intros _ s1 (H1 & H2 & H3). exists (event_obj I2S_EVENT_DMA_ERROR o). rewrite H3, Hov1. done.
  - wp_step. exists o. split_and!; try done. cbn. lia.
Qed.

Section handler.
Context (n : Z) (s : drv) (o : i2s_obj_t) (d : i2s_dma_t) (count ss len : Z).
Let st := I2S s n int_st_val.
Hypotheses (Hn : port_ok n = true) (Ho : p_i2s_obj s n = Some o) (Ht : tx o = Some d) (Hr : rx o = None)
  (Hd : dma_ok count ss d) (Hl : descs_ok count d) (Hev : event_queue_ok o len)
  (Hbit : Z.testbit st INT_OUT_EOF = true) (Hdes : 0 <= I2S s n out_eof_des_addr < count).

Lemma event_codes : 0 <= I2S_EVENT_DMA_ERROR < 2 ^ 32 /\ 0 <= I2S_EVENT_TX_DONE < 2 ^ 32.
Proof. done. Qed.

Lemma wp_intr_handler : 0 <= st < 2 ^ 32 -> 8 <= dummy_room \/ isr_overrun st len o = 0 ->
  wp (i2s_intr_handler_default n) (fun _ => isr_outcome n count ss len s o d) s.
Proof.
  intros Hst Hroom. unfold i2s_intr_handler_default, isr_outcome. fold st.
  set (des := I2S s n out_eof_des_addr) in *.
  assert (8 <= dummy_room \/ (if isr_err st && (zlen (events o) =? len) then 4 else 0) = 0 /\
    (if zlen (isr_before st len o) =? len then 4 else 0) = 0) as Hfit.
  { destruct Hroom as [| Hz]; [by left | right]. unfold isr_overrun in Hz. repeat destruct (_ =? _); repeat destruct (_ && _); lia. }
  wp_step. apply wp_read_reg; [done |]. fold st. fold (isr_err st).
  wp_step. eapply wp_mono; [apply (wp_intr_error n s o len); [done.. |]; tauto |].
  intros _ s1 (o1 & Ho1 & Eo1 & Hq & Hb & Hs1 & Hov). fold st in Eo1, Hb, Hov.
  assert (tx o1 = Some d /\ rx o1 = None) as [Ht1 Hr1] by (subst o1; by destruct (isr_err st)).
  wp_step. eapply wp_get_obj; [done.. |]. rewrite Ht1. wp_step.
  rewrite Hbit. cbn [when]. wp_step. apply wp_read_reg; [done |]. rewrite Hs1. fold des.
  destruct (post_buffer_spec count ss d des Hd Hl Hdes) as (d' & Ep & Hd' & Hl' & Hqd & Hm & Hc & Hp & Hmx).
  wp_step. eapply wp_lift; [exact Ep |]. wp_step. apply wp_put_obj.
  set (o2 := with_tx o1 (Some d')).
  assert (event_queue_ok o2 len /\ events o2 = isr_before st len o) as [Hq2 He2] by done.
  destruct (event_obj_spec I2S_EVENT_TX_DONE o2 len) as (Hq3 & He3 & Hov3); [done.. |].
  eapply wp_mono; [apply wp_post_event with (o := o2); [done | cbn; by rewrite fn_lookup_insert | by eapply event_queue_handle |] |].
  { eapply post_event_fits; [done.. |]. rewrite He2. tauto. }
  intros _ s2 (Ho2 & Hs2 & Hov2). cbn in Hs2, Hov2. wp_step. eapply wp_get_obj; [done.. |].
  change (rx (event_obj I2S_EVENT_TX_DONE o2)) with (rx o1). rewrite Hr1. wp_step. wp_step. wp_step.
  apply wp_read_reg; [done |]. rewrite Hs2, Hs1. fold st. apply wp_write_reg; [done |].
  exists (event_obj I2S_EVENT_TX_DONE o2), d'. cbn. rewrite !fn_lookup_insert, wrap_u_small by done.
  split_and!; try done; try (unfold o2; rewrite Eo1; by destruct (isr_err st)).
  - by rewrite He3, He2.
  - unfold isr_overrun. rewrite Hov2, Hov, Hov3, He2. lia.
Qed.

Lemma intr_handler_faults : dummy_room < 8 -> isr_overrun st len o <> 0 -> i2s_intr_handler_default n s = Fault OutOfBounds.
Proof.
  intros Hroom Hov. unfold i2s_intr_handler_default. set (des := I2S s n out_eof_des_addr) in *.
  assert (forall f s, read_reg n f s = Ret (I2S s n f, s)) as Hread by (intros f s0; unfold read_reg; by rewrite Hn).
  assert (forall o s, p_i2s_obj s n = Some o -> get_obj n s = Ret (o, s)) as Hget.
  { intros o0 s0 E. unfold get_obj, get_obj_ptr. rewrite Hn. by erewrite run_bind by (by unfold gets; rewrite E). }
  erewrite run_bind by apply Hread. fold st. fold (isr_err st).
  destruct (isr_err st && (zlen (events o) =? len)) eqn:E1.
  - apply andb_true_iff in E1 as [-> E1]. cbn [when]. apply run_bind_fault. eapply post_event_faults; [done.. |].
    destruct (event_obj_spec I2S_EVENT_DMA_ERROR o len) as (_ & _ & ->); [done.. |]. by rewrite E1.
  - destruct (wp_run _ _ _ (wp_intr_error n s o len Hn Ho Hev ltac:(fold st; rewrite E1; by right)))
      as (u & s1 & E & o1 & Ho1 & Eo1 & Hq & Hb & Hs1 & _). fold st in E, Eo1, Hb.
    assert (tx o1 = Some d) as Ht1 by (subst o1; by destruct (isr_err st)).
    erewrite run_bind by exact E. erewrite run_bind by (by apply Hget). rewrite Ht1, Hbit. cbn [when].
    destruct (post_buffer_spec count ss d des Hd Hl Hdes) as (d' & Ep & _).
    apply run_bind_fault. erewrite run_bind by apply Hread. rewrite Hs1. fold des.
    erewrite run_bind by (by unfold lift; rewrite Ep). erewrite run_bind by done.
    eapply (post_event_faults _ _ _ (with_tx o1 (Some d'))); [done | cbn; by rewrite fn_lookup_insert | done |].
    destruct (event_obj_spec I2S_EVENT_TX_DONE (with_tx o1 (Some d')) len) as (_ & _ & ->); [done.. |].
    change (events (with_tx o1 (Some d'))) with (events o1). rewrite Hb.
    unfold isr_overrun in Hov. rewrite E1 in Hov. done.
Qed.
End handler.

(** C28. When a transmit buffer has been sent, the interrupt handler puts it into
    the queue of free buffers and, if that was full, drops the one that has
    waited longest (an underflow), so the queue holds the newest buffers; it
    touches neither the buffers nor the writer's position.  It posts the event
    to an event queue that likewise keeps the newest events, and every event it
    has to drop for that overruns the local [dummy] by four bytes: the handler
    returns where the stack has room for them, and where it has not an
    interrupt that drops an event ends in an access out of bounds.  It ends by
    clearing the interrupts it saw. *)
Theorem i2s_intr_handler_spec n s o d count ss len :
  let st := I2S s n int_st_val in
  port_ok n = true -> p_i2s_obj s n = Some o -> tx o = Some d -> rx o = None ->
  dma_ok count ss d -> descs_ok count d -> event_queue_ok o len ->
  Z.testbit st INT_OUT_EOF = true -> 0 <= I2S s n out_eof_des_addr < count -> 0 <= st < 2 ^ 32 ->
  (8 <= dummy_room \/ isr_overrun st len o = 0 ->
   wp (i2s_intr_handler_default n) (fun _ => isr_outcome n count ss len s o d) s) /\
  (dummy_room < 8 -> isr_overrun st len o <> 0 -> i2s_intr_handler_default n s = Fault OutOfBounds).
Proof.
  intros st Hn Ho Ht Hr Hd Hl Hev Hbit Hdes Hst. split; intros.
  - by apply wp_intr_handler.
  - by eapply intr_handler_faults.
Qed.

(** ** Interrupts while the driver is used *)

(** A transmit interrupt for one of the descriptors. *)
Definition tx_irq (count : Z) (irq : Z * Z) : Prop :=
  Z.testbit irq.1 INT_OUT_EOF = true /\ 0 <= irq.1 < 2 ^ 32 /\ 0 <= irq.2 < count.

(** The port transmits, with [count] buffers and an event queue of [len]. *)
Definition sending (n count ss len : Z) (mx : option (Z * bool)) (s : drv) : Prop :=
  exists o d, p_i2s_obj s n = Some o /\ tx o = Some d /\ rx o = None /\ mux d = mx /\
    dma_ok count ss d /\ descs_ok count d /\ event_queue_ok o len.

(** A transmit interrupt, where the stack has room for the events it drops. *)
Lemma wp_tx_interrupt n count ss len irq s o d :
  8 <= dummy_room -> port_ok n = true -> p_i2s_obj s n = Some o -> tx o = Some d -> rx o = None ->
  dma_ok count ss d -> descs_ok count d -> event_queue_ok o len -> tx_irq count irq ->
  wp (interrupt n irq) (fun _ s' => exists o' d', p_i2s_obj s' n = Some o' /\ tx o' = Some d' /\ rx o' = None /\
    bytes_per_sample o' = bytes_per_sample o /\ channel_num o' = channel_num o /\
    bits_per_sample o' = bits_per_sample o /\ mode o' = mode o /\ mux d' = mux d /\ rw_pos d' = rw_pos d /\
    dma_ok count ss d' /\ descs_ok count d' /\ queued d' <> [] /\ event_queue_ok o' len) s.
Proof.
  intros Hroom Hn Ho Ht Hr Hd Hl Hev (H1 & H2 & H3). unfold interrupt, interrupt_of. wp_step. wp_step. eapply wp_mono.
  - apply (wp_intr_handler n _ o d count ss len); try done; cbn;
      try (by rewrite fn_lookup_insert, ?fn_lookup_insert, ?fn_lookup_insert_ne, ?fn_lookup_insert by done). by left.
  - intros [] s' (o' & d' & Ho' & Ht' & Hr' & Hb' & Hc' & H16' & Hm' & Hmx' & Hd' & Hl' & Hq' & _ & _ & Hp' & Hev' & _).
    exists o', d'. split_and!; try done. rewrite Hq'. unfold keep_newest.
    intros E. apply app_eq_nil in E as [_ E]. discriminate.
Qed.

Lemma wp_tx_interrupts n count ss len mx irqs s :
  8 <= dummy_room -> port_ok n = true -> sending n count ss len mx s -> Forall (tx_irq count) irqs ->
  wp (for_each irqs (interrupt n)) (fun _ s' => sending n count ss len mx s' /\
    (irqs <> [] -> forall o d, p_i2s_obj s' n = Some o -> tx o = Some d -> queued d <> [])) s.
Proof.
  intros Hroom Hn Hs Hall. apply wp_for_each with (I := fun dn s1 => sending n count ss len mx s1 /\
    (dn <> [] -> forall o d, p_i2s_obj s1 n = Some o -> tx o = Some d -> queued d <> [])); [done | | done].
  intros dn irq todo s1 E [(o & d & Ho & Ht & Hr & Hm & Hd & Hl & Hev) _].
  assert (tx_irq count irq) as Hirq by (rewrite E in Hall; apply Forall_app in Hall as [_ Hall]; by inversion Hall).
  eapply wp_mono; [by eapply (wp_tx_interrupt n count ss len) |].
  intros [] s' (o' & d' & Ho' & Ht' & Hr' & _ & _ & _ & _ & Hm' & _ & Hd' & Hl' & Hq' & Hev'). split.
  - exists o', d'. split_and!; try done. congruence.
  - intros _ o1 d1 E1 E2. congruence.
Qed.

(** ** Writing *)

Lemma wp_write_loop n count ss fuel : port_ok n = true ->
  forall s o d src size w0,
  p_i2s_obj s n = Some o -> tx o = Some d -> dma_ok count ss d -> 0 <= size <= zlen src -> size < Z.of_nat fuel ->
  wp (write_loop fuel n [] src size w0) (fun r s' => r = w0 + Z.min size (zlen (area d)) /\
    exists d', p_i2s_obj s' n = Some (with_tx o (Some d')) /\ mux d' = mux d /\
      written count ss d d' src (Z.min size (zlen (area d)))) s.
Proof.
  intros Hn. induction fuel as [| fuel IH]; intros s o d src size w0 Ho Ht Hd Hs Hf; [lia |]. cbn [write_loop hd tail for_each].
  pose proof (zlen_nonneg (area d)) as Hz.
  assert (p_i2s_obj s n = Some (with_tx o (Some d))) as Ho' by (rewrite Ho; destruct o; cbn in *; by subst).
  destruct (Z.eqb_spec size 0) as [-> | Hne].
  { wp_step. rewrite Z.min_l, Z.add_0_r by lia. split; [done |]. exists d. split_and!; try done. by apply written_0. }
  wp_step. wp_step. wp_step. apply (wp_get_obj _ o); [done.. |]. rewrite Ht. wp_step. wp_step. wp_step.
  destruct (next_buffer d) as [[d1 |] | e] eqn:En.
  - eapply wp_lift; [done |].
    destruct (area_next count ss d d1 Hd En) as (Hd1 & Ea & Em & Es & c & Ec & Hlt).
    set (k := if size <? buf_size d1 - rw_pos d1 then size else buf_size d1 - rw_pos d1).
    assert (0 < k <= size /\ rw_pos d1 + k <= buf_size d1) as [Hk Hfit] by (unfold k; case_cmp).
    wp_step. eapply wp_lift; [apply memcpy_from_Ret; lia |].
    assert (zlen (slice 0 k src) = k) as Hsl by (apply zlen_slice; lia).
    destruct (put_bytes_spec count ss d1 c (slice 0 k src) Hd1 Ec ltac:(lia)) as (d2 & b & _ & Ep & Hd2 & _).
    wp_step. eapply wp_lift; [exact Ep |]. wp_step. apply wp_put_obj.
    destruct (load_put count ss d1 d2 c (slice 0 k src)) as (_ & _ & Ea2 & _); try done; [lia |].
    rewrite Hsl in Ea2.
    assert (zlen (area d) = k + zlen (area d2)) as Hlen by (rewrite <- Ea, Ea2, zlen_app, zlen_segment by lia; lia).
    eapply wp_mono; [apply (IH _ (with_tx o (Some d2)) d2 (drop (Z.to_nat k) src) (size - k) (w0 + k)); try done; try lia |].
    { cbn. by rewrite fn_lookup_insert. }
    { unfold zlen in *. rewrite length_drop. lia. }
    intros r s' (-> & d' & E & Emux & Hw).
    replace (Z.min size (zlen (area d))) with (k + Z.min (size - k) (zlen (area d2))) by lia.
    split; [by rewrite Z.add_assoc |]. exists d'. split; [done |]. split.
    { rewrite Emux. apply put_mux in Ep. apply next_mux in En. congruence. }
    unfold written. rewrite <- Ea, <- Es, <- Em.
    apply (written_app count ss d1 d2 d' c src k); try done; try lia.
    pose proof (zlen_nonneg (area d2)). lia.
  - eapply wp_lift; [done |]. assert (area d = []) as Ha.
    { destruct (next_buffer_spec count ss d Hd)
        as [(c & _ & _ & E) | [(Hc & Eq & _) | (_ & c & l & d2 & _ & E & _)]]; [congruence | | congruence].
      unfold area. rewrite Eq. destruct Hc as [-> | Hc]; [done |]. destruct (curr_ptr d); [| done].
      rewrite Hc. unfold segment. by rewrite Z.sub_diag. }
    wp_step. rewrite Ha, zlen_nil, Z.min_r, Z.add_0_r by lia. split; [done |]. exists d. split_and!; try done. by apply written_0.
  - exfalso. destruct (next_buffer_spec count ss d Hd)
      as [(c & _ & _ & E) | [(_ & _ & E) | (_ & c & l & d2 & _ & E & _)]]; congruence.
Qed.

Lemma next_lls d d' : next_buffer d = Ret (Some d') -> lls d' = lls d /\ buf_size d' = buf_size d.
Proof.
  unfold next_buffer. destruct (_ || _); [| by injection 1 as <-].
  destruct (queue d) as [[b q] |]; [| done]. destruct (q_receive q) as [[x q'] |]; [| done]. by injection 1 as <-.
Qed.

(** With interrupts during the rounds. *)
Lemma wp_write_loop_waits n count ss len mx fuel : port_ok n = true -> 8 <= dummy_room ->
  forall waits s src size w0, sending n count ss len mx s -> Forall (Forall (tx_irq count)) waits ->
  0 <= size <= zlen src -> size < Z.of_nat fuel ->
  wp (write_loop fuel n waits src size w0) (fun r s' => w0 <= r <= w0 + size /\
    (Forall (fun irqs => irqs <> []) waits -> size <= zlen waits -> r = w0 + size) /\ sending n count ss len mx s') s.
Proof.
  intros Hn Hroom. induction fuel as [| fuel IH]; intros waits s src size w0 Hs Hw Hz Hf; [lia |]. cbn [write_loop].
  destruct (Z.eqb_spec size 0) as [-> | Hne].
  { wp_step. split_and!; [lia | lia | lia | done]. }
  assert (Forall (tx_irq count) (hd [] waits) /\ Forall (Forall (tx_irq count)) (tail waits)) as [Hh Ht] by (destruct Hw; by split).
  wp_step. eapply wp_mono; [by eapply (wp_tx_interrupts n count ss len mx) |].
  intros [] s1 [(o & d & Ho & Htx & Hr & Hm & Hd & Hl & Hev) Hq].
  wp_step. eapply wp_get_obj; [done.. |]. rewrite Htx. wp_step. wp_step. wp_step.
  destruct (next_buffer d) as [[d1 |] | e] eqn:En.
  - eapply wp_lift; [done |].
    destruct (area_next count ss d d1 Hd En) as (Hd1 & _ & _ & _ & c & Ec & Hlt).
    set (k := if size <? buf_size d1 - rw_pos d1 then size else buf_size d1 - rw_pos d1).
    assert (0 < k <= size /\ rw_pos d1 + k <= buf_size d1) as [Hk Hfit] by (unfold k; case_cmp).
    wp_step. eapply wp_lift; [apply memcpy_from_Ret; lia |].
    assert (zlen (slice 0 k src) = k) as Hsl by (apply zlen_slice; lia).
    destruct (put_bytes_spec count ss d1 c (slice 0 k src) Hd1 Ec ltac:(lia)) as (d2 & b & _ & Ep & Hd2 & _ & _ & _ & _ & Es2 & El2).
    wp_step. eapply wp_lift; [exact Ep |]. wp_step. apply wp_put_obj.
    destruct (next_lls d d1 En) as [El1 Es1].
    eapply wp_mono; [apply (IH (tail waits) _ (drop (Z.to_nat k) src) (size - k) (w0 + k)); try done; try lia |].
    + exists (with_tx o (Some d2)), d2. cbn. rewrite fn_lookup_insert. split_and!; try done.
      * apply put_mux in Ep. apply next_mux in En. congruence.
      * unfold descs_ok in *. congruence.
    + unfold zlen in *. rewrite length_drop. lia.
    + intros r s' (Hrange & Hall & Hs'). split; [lia |]. split; [| done]. intros Hne' Hlen.
      destruct waits as [| w waits]; [unfold zlen in Hlen; cbn in Hlen; lia |]. cbn [tail] in Hall. inversion Hne'; subst.
      rewrite zlen_cons in Hlen. rewrite Hall; [lia | done | lia].
  - eapply wp_lift; [done |]. wp_step. split; [lia |]. split; [| by exists o, d]. intros Hne' Hlen. exfalso.
    destruct (next_buffer_spec count ss d Hd)
      as [(c & _ & _ & E) | [(_ & Eq & _) | (_ & c & l & d2 & _ & E & _)]]; [congruence | | congruence].
    destruct waits as [| w waits]; [unfold zlen in Hlen; cbn in Hlen; lia |]. inversion Hne'; subst. by apply (Hq ltac:(done) o d).
  - exfalso. destruct (next_buffer_spec count ss d Hd)
      as [(c & _ & _ & E) | [(_ & _ & E) | (_ & c & l & d2 & _ & E & _)]]; congruence.
Qed.

Lemma dma_mux_ok count ss d free : dma_ok count ss d -> dma_ok count ss (dma_mux d free).
Proof. by intros []. Qed.


(** ** Creating and destroying a queue *)

(** The heap while every allocation succeeds: [L] are the blocks in use, [nx]
    is the next one. *)
Definition heap_st (n : Z) (o : i2s_obj_t) (nx : Z) (L : Z -> bool) (s : drv) : Prop :=
  allocs s = [] /\ next_block s = nx /\ p_i2s_obj s n = Some o /\ forall b, bool_decide (b ∈ live s) = L b.

Lemma heap_st_iff n o nx (L L' : Z -> bool) s :
  (forall b, L b = L' b) -> heap_st n o nx L s -> heap_st n o nx L' s.
Proof. intros HL (H1 & H2 & H3 & H4). split_and!; try done. intros b. by rewrite H4. Qed.

Lemma wp_malloc n o nx (L : Z -> bool) s :
  heap_st n o nx L s ->
  wp malloc (fun r s' => r = Some nx /\ heap_st n o (nx + 1) (fun b => (b =? nx) || L b) s') s.
Proof.
  intros (Ha & <- & Ho & Hl). unfold malloc. wp_step. wp_step. rewrite Ha.
  wp_step. wp_step. wp_step. split; [done |]. split_and!; try done.
  intros b. cbn. rewrite <- Hl. destruct (Z.eqb_spec b (next_block s)) as [-> | E].
  - by rewrite bool_decide_true by (by left).
  - apply bool_decide_ext. rewrite elem_of_cons. tauto.
Qed.

Lemma wp_free n o nx (L : Z -> bool) s b :
  heap_st n o nx L s -> L b = true ->
  wp (free_block b) (fun _ => heap_st n o nx (fun x => L x && negb (x =? b))) s.
Proof.
  intros (Ha & Hn & Ho & Hl) Hb. unfold free_block. wp_step. wp_step.
  rewrite Hl, Hb. wp_step. split_and!; try done.
  intros x. cbn. rewrite <- Hl. destruct (Z.eqb_spec x b) as [-> | E]; cbn.
  - rewrite andb_false_r. apply bool_decide_false. rewrite list_elem_of_filter. tauto.
  - rewrite andb_true_r. apply bool_decide_ext. rewrite list_elem_of_filter. tauto.
Qed.

Lemma wp_alloc_array n o (m : nat) rest : forall nx (L : Z -> bool) s,
  heap_st n o nx L s ->
  wp (alloc_array m rest) (fun r s' => r = (Ptr <$> seqZ nx (Z.of_nat m), true) /\
    heap_st n o (nx + Z.of_nat m) (fun b => (nx <=? b) && (b <? nx + Z.of_nat m) || L b) s') s.
Proof.
  induction m as [| m IH]; intros nx L s Hs; cbn [alloc_array].
  - wp_step. split; [done |]. rewrite Z.add_0_r. eapply heap_st_iff, Hs. intros b. cbv beta. destruct (L b); case_cmp; done.
  - wp_step. eapply wp_mono; [by apply wp_malloc |]. intros r s1 [-> Hs1]. wp_step.
    eapply wp_mono; [by apply IH |]. intros r s2 [-> Hs2]. wp_step. split.
    + rewrite (seqZ_cons nx) by lia. cbn. replace (Z.pred (Z.of_nat (S m))) with (Z.of_nat m) by lia.
      done.
    + replace (nx + Z.of_nat (S m)) with (nx + 1 + Z.of_nat m) by lia.
      eapply heap_st_iff, Hs2. intros b. cbv beta. destruct (L b); case_cmp; done.
Qed.

(** A queue as [i2s_create_dma_queue] makes it from block [nx] on. *)
Definition fresh_dma (c len nx : Z) : i2s_dma_t :=
  mkDma nx (Ptr (nx + 1)) (Ptr <$> seqZ (nx + 2) c)
    (replicate (Z.to_nat c) (replicate (Z.to_nat len) 0)) len 0 None
    (Some (nx + 4 + 2 * c, true)) (Some (nx + 3 + 2 * c, q_create (c - 1)))
    (Ptr (nx + 2 + c)) (Ptr <$> seqZ (nx + 3 + c) c) (make_desc c len <$> seqZ 0 c).

Lemma wp_create n o nx (L : Z -> bool) s c len :
  heap_st n o nx L s -> port_ok n = true -> 0 <= c ->
  wp (i2s_create_dma_queue n c len) (fun r s' =>
    r = Some (fresh_dma c (len * (bytes_per_sample o * channel_num o)) nx) /\
    heap_st n o (nx + 5 + 2 * c) (fun b => (nx <=? b) && (b <? nx + 5 + 2 * c) || L b) s') s.
Proof.
  intros Hs Hn Hc. unfold i2s_create_dma_queue. wp_step.
  eapply wp_get_obj; [done | apply Hs |]. wp_step.
  eapply wp_mono; [by apply wp_malloc |]. intros r s1 [-> H1]. wp_step.
  eapply wp_mono; [by apply wp_malloc |]. intros r s2 [-> H2]. wp_step.
  eapply wp_mono; [by apply wp_alloc_array |]. intros r s3 [-> H3]. cbn [negb]. wp_step.
  eapply wp_mono; [by apply wp_malloc |]. intros r s4 [-> H4]. wp_step.
  eapply wp_mono; [by apply wp_alloc_array |]. intros r s5 [-> H5]. cbn [negb]. wp_step.
  unfold xQueueCreate, xSemaphoreCreateMutex. wp_step.
  eapply wp_mono; [by apply wp_malloc |]. intros r s6 [-> H6]. wp_step. wp_step. wp_step.
  eapply wp_mono; [by apply wp_malloc |]. intros r s7 [-> H7]. wp_step. wp_step.
  rewrite !Z2Nat.id in * by done. split.
  - replace (nx + 1 + 1 + c + 1 + c + 1) with (nx + 4 + 2 * c) by lia.
    replace (nx + 1 + 1 + c + 1 + c) with (nx + 3 + 2 * c) by lia.
    replace (nx + 1 + 1 + c + 1) with (nx + 3 + c) by lia.
    replace (nx + 1 + 1 + c) with (nx + 2 + c) by lia.
    by replace (nx + 1 + 1) with (nx + 2) by lia.
  - replace (nx + 5 + 2 * c) with (nx + 1 + 1 + c + 1 + c + 1 + 1) by lia.
    eapply heap_st_iff, H7. intros b. cbv beta. destruct (L b); case_cmp; done.
Qed.

(** The blocks of a queue made from block [nx] on. *)
Definition blocks_from (c nx : Z) (d : i2s_dma_t) : Prop :=
  d_self d = nx /\ buf d = Ptr (nx + 1) /\ bufs d = Ptr <$> seqZ (nx + 2) c /\
  desc d = Ptr (nx + 2 + c) /\ descs d = Ptr <$> seqZ (nx + 3 + c) c /\
  (fst <$> queue d) = Some (nx + 3 + 2 * c) /\ (fst <$> mux d) = Some (nx + 4 + 2 * c).

Lemma wp_free_entry n o nx (L : Z -> bool) s a l b0 c i :
  heap_st n o nx L s -> l = Ptr <$> seqZ b0 c -> 0 <= i < c -> L (b0 + i) = true ->
  wp (free_entry (Ptr a) l i) (fun _ => heap_st n o nx (fun x => L x && negb (x =? b0 + i))) s.
Proof.
  intros Hs -> Hi HL. unfold free_entry. wp_step.
  eapply wp_need; [by rewrite list_lookup_fmap, lookup_seqZ_lt by lia |].
  replace (b0 + Z.of_nat (Z.to_nat i)) with (b0 + i) by lia. by apply wp_free.
Qed.

Lemma seqZ_split c i done todo :
  seqZ 0 c = done ++ i :: todo -> 0 <= i < c /\ zlen done = i.
Proof.
  intros E. assert (seqZ 0 c !! length done = Some i) as Hl.
  { rewrite E, lookup_app_r, Nat.sub_diag by lia. done. }
  apply lookup_seqZ in Hl as [-> Hl]. unfold zlen. lia.
Qed.

(** The loop of [i2s_destroy_dma_queue]. *)
Lemma wp_free_arrays n o nx' (L : Z -> bool) s c nx d :
  heap_st n o nx' L s -> blocks_from c nx d -> 0 <= c ->
  (forall b, nx <= b < nx + 5 + 2 * c -> L b = true) ->
  wp (for_each (seqZ 0 c) (fun i => free_entry (desc d) (descs d) i;; free_entry (buf d) (bufs d) i))
    (fun _ => heap_st n o nx' (fun b => L b && negb ((nx + 2 <=? b) && (b <? nx + 2 + c))
                                   && negb ((nx + 3 + c <=? b) && (b <? nx + 3 + c + c)))) s.
Proof.
  intros Hs (_ & Eb & Ebs & Ed & Eds & _) Hc HL. rewrite Eb, Ed.
  apply wp_for_each with (I := fun dn => heap_st n o nx' (fun b => L b
    && negb ((nx + 2 <=? b) && (b <? nx + 2 + zlen dn)) && negb ((nx + 3 + c <=? b) && (b <? nx + 3 + c + zlen dn)))).
  - eapply heap_st_iff, Hs. intros b. rewrite zlen_nil. destruct (L b); case_cmp; done.
  - intros dn i todo s1 E H1. apply seqZ_split in E as [Hi <-].
    wp_step. eapply wp_mono.
    { eapply wp_free_entry; [exact H1 | exact Eds | lia |]. cbv beta. rewrite HL by lia. case_cmp; done. }
    intros [] s2 H2. eapply wp_mono.
    { eapply wp_free_entry; [exact H2 | exact Ebs | lia |]. cbv beta. rewrite HL by lia. case_cmp; done. }
    intros [] s3 H3. eapply heap_st_iff, H3. intros b. cbv beta. rewrite zlen_app. change (zlen [zlen dn]) with 1.
    destruct (L b); case_cmp; done.
  - intros s1 H1. eapply heap_st_iff, H1. intros b. cbv beta. unfold zlen. rewrite length_seqZ.
    rewrite Z2Nat.id by done. done.
Qed.

Lemma wp_delete {A} n o nx (L : Z -> bool) s (h : option (Z * A)) b :
  heap_st n o nx L s -> (fst <$> h) = Some b -> L b = true ->
  wp (vQueueDelete h) (fun _ => heap_st n o nx (fun x => L x && negb (x =? b))) s.
Proof.
  intros Hs Hh HL. destruct h as [[b' q] |]; [| done]. injection Hh as ->.
  unfold vQueueDelete. wp_step. wp_step. by apply wp_free.
Qed.

Lemma wp_destroy n o nx' (L : Z -> bool) s c nx d :
  heap_st n o nx' L s -> port_ok n = true -> dma_buf_count o = c -> blocks_from c nx d -> 0 <= c ->
  (forall b, nx <= b < nx + 5 + 2 * c -> L b = true) ->
  wp (i2s_destroy_dma_queue n (Some d)) (fun r s' => r = ESP_OK /\
    heap_st n o nx' (fun b => L b && negb ((nx <=? b) && (b <? nx + 5 + 2 * c))) s') s.
Proof.
  intros Hs Hn Hcnt Hb Hc HL. pose proof Hb as (Es & Eb & _ & Ed & _ & Eq & Em).
  unfold i2s_destroy_dma_queue. wp_step. apply wp_get_obj_ptr; [done |].
  rewrite (proj1 (proj2 (proj2 Hs))), Hcnt. wp_step.
  eapply wp_mono; [by eapply wp_free_arrays |]. intros [] s1 H1. rewrite Eb, Ed. cbn [free_if].
  wp_step. eapply wp_mono; [eapply wp_free; [exact H1 |]; cbv beta; rewrite HL by lia; case_cmp; done |].
  intros [] s2 H2. wp_step. eapply wp_mono; [eapply wp_free; [exact H2 |]; cbv beta; rewrite HL by lia; case_cmp; done |].
  intros [] s3 H3. wp_step.
  eapply wp_mono; [eapply wp_delete; [exact H3 | exact Eq |]; cbv beta; rewrite HL by lia; case_cmp; done |].
  intros [] s4 H4. wp_step.
  eapply wp_mono; [eapply wp_delete; [exact H4 | exact Em |]; cbv beta; rewrite HL by lia; case_cmp; done |].
  intros [] s5 H5. wp_step. rewrite Es.
  eapply wp_mono; [eapply wp_free; [exact H5 |]; cbv beta; rewrite HL by lia; case_cmp; done |].
  intros [] s6 H6. wp_step. split; [done |]. eapply heap_st_iff, H6. intros b. cbv beta.
  destruct (L b); case_cmp; done.
Qed.

Lemma fresh_dma_ok c ss len nx :
  0 < ss -> 0 < len -> 2 <= c <= 2 ^ 30 ->
  dma_ok c ss (fresh_dma c (len * ss) nx) /\ descs_ok c (fresh_dma c (len * ss) nx) /\
  queued (fresh_dma c (len * ss) nx) = [] /\ blocks_from c nx (fresh_dma c (len * ss) nx).
Proof.
  intros Hss Hlen Hc. destruct (q_create_ok (c - 1)) as (Hq & Hi & Hl); [lia |].
  split; [| split_and!; done].
  constructor; cbn; try done; try nia.
  - exists len. lia.
  - unfold zlen. rewrite length_replicate. lia.
  - apply Forall_replicate. unfold zlen. rewrite length_replicate. nia.
  - eauto.
  - unfold queued. cbn. by rewrite Hi.
Qed.

(** C30. When memory lasts, [i2s_create_dma_queue] makes a well-formed queue:
    [count] zeroed buffers of [len] samples, descriptors that link them into a
    ring, no free buffer and nothing written; and, whatever the transfers do to
    it, [i2s_destroy_dma_queue] gives back exactly the memory it took. *)
Theorem i2s_create_dma_queue_spec n s o c len :
  let ss := bytes_per_sample o * channel_num o in
  port_ok n = true -> p_i2s_obj s n = Some o -> dma_buf_count o = c -> 2 <= c <= 2 ^ 30 ->
  0 < ss -> 0 < len -> allocs s = [] -> (forall b, b ∈ live s -> b < next_block s) ->
  wp (i2s_create_dma_queue n c len) (fun r s1 => exists d, r = Some d /\
    dma_ok c ss d /\ descs_ok c d /\ queued d = [] /\ curr_ptr d = None /\ buf_size d = len * ss /\
    mem d = replicate (Z.to_nat c) (replicate (Z.to_nat (len * ss)) 0) /\
    blocks_from c (next_block s) d /\
    forall d', blocks_from c (next_block s) d' ->
      wp (i2s_destroy_dma_queue n (Some d')) (fun r s2 => r = ESP_OK /\
        p_i2s_obj s2 n = Some o /\ forall b, b ∈ live s2 <-> b ∈ live s) s1) s.
Proof.
  intros ss Hn Ho Hcnt Hc Hss Hlen Ha Hlive.
  assert (heap_st n o (next_block s) (fun b => bool_decide (b ∈ live s)) s) as Hs by done.
  eapply wp_mono; [apply (wp_create n o _ _ s c len Hs Hn); lia |].
  intros r s1 [-> H1]. fold ss. eexists. split; [done |].
  destruct (fresh_dma_ok c ss len (next_block s)) as (H2 & H3 & H4 & H5); [done.. |].
  split_and!; try done. intros d' Hd'.
  eapply wp_mono.
  { eapply (wp_destroy n o _ _ s1 c (next_block s)); [exact H1 | done.. | lia |].
    intros b Hb. cbv beta. case_cmp; done. }
  intros r s2 [-> H6]. split; [done |]. split; [apply H6 |]. intros b.
  destruct H6 as (_ & _ & _ & H6). specialize (H6 b). cbv beta in H6.
  rewrite <- (bool_decide_spec (b ∈ live s2)), H6.
  destruct (decide (b ∈ live s)) as [Hb | Hb].
  - specialize (Hlive b Hb). rewrite (bool_decide_true _ Hb). case_cmp; done.
  - rewrite (bool_decide_false _ Hb). case_cmp; done.
Qed.

(** ** A failing allocation *)

Definition faults {A} (m : M A) (s : drv) : Prop := match m s with Ret _ => False | Fault _ => True end.

Lemma faults_bind {A B} (m : M A) (f : A -> M B) s :
  (forall a s', m s = Ret (a, s') -> faults (f a) s') -> faults (m ≫= f) s.
Proof. unfold faults, mbind, st_bind. destruct (m s) as [[a s'] |]; [| done]. intros H. by apply H. Qed.

Lemma faults_after {A B} (m : M A) (f : A -> M B) s :
  wp m (fun a => faults (f a)) s -> faults (m ≫= f) s.
Proof. intros Hm. apply faults_bind. intros a s' E. unfold wp in Hm. by rewrite E in Hm. Qed.

Lemma faults_left {A B} (m : M A) (f : A -> M B) s : faults m s -> faults (m ≫= f) s.
Proof. unfold faults, mbind, st_bind. by destruct (m s). Qed.

Lemma faults_exists {A} (m : M A) s : faults m s -> exists e, m s = Fault e.
Proof. unfold faults. destruct (m s); [done | eauto]. Qed.

(** A queue without its FreeRTOS queue cannot be destroyed. *)
Lemma destroy_no_queue_faults n s o d :
  port_ok n = true -> p_i2s_obj s n = Some o -> queue d = None ->
  faults (i2s_destroy_dma_queue n (Some d)) s.
Proof.
  intros Hn Ho Hq. unfold i2s_destroy_dma_queue. apply faults_after, wp_get_obj_ptr; [done |].
  rewrite Ho, Hq. do 3 (apply faults_bind; intros [] ? _). by apply faults_bind.
Qed.

(** [k] allocations succeed and the next one fails. *)
Definition fails_after (k : nat) (s : drv) : Prop := exists rest, allocs s = replicate k true ++ false :: rest.

Lemma malloc_true n o k s P :
  fails_after (S k) s -> p_i2s_obj s n = Some o ->
  (forall s', fails_after k s' -> p_i2s_obj s' n = Some o -> live s' = next_block s :: live s ->
     P (Some (next_block s)) s') -> wp malloc P s.
Proof.
  intros [rest Ha] Ho HP. unfold malloc. wp_step. wp_step. rewrite Ha. cbn.
  apply HP; [by exists rest | done | done].
Qed.

Lemma malloc_false n o s P :
  fails_after 0 s -> p_i2s_obj s n = Some o ->
  (forall s', p_i2s_obj s' n = Some o -> live s' = live s -> P None s') -> wp malloc P s.
Proof. intros [rest Ha] Ho HP. unfold malloc. wp_step. wp_step. rewrite Ha. cbn. by apply HP. Qed.

Lemma alloc_array_fails n o m rest : forall k s P,
  fails_after k s -> p_i2s_obj s n = Some o ->
  (forall r s', p_i2s_obj s' n = Some o ->
     (m <= k)%nat /\ r.2 = true /\ fails_after (k - m) s' \/ (k < m)%nat /\ r.2 = false -> P r s') ->
  wp (alloc_array m rest) P s.
Proof.
  induction m as [| m IH]; intros k s P Hk Ho HP; cbn [alloc_array].
  - wp_step. apply HP; [done |]. left. rewrite Nat.sub_0_r. split_and!; done || lia.
  - wp_step. destruct k as [| k].
    + eapply malloc_false; [done.. |]. intros s1 Ho1 _. wp_step. apply HP; [done |]. right. cbn. lia.
    + eapply malloc_true; [done.. |]. intros s1 Hk1 Ho1 _. wp_step. eapply IH; [done.. |].
      intros r s2 Ho2 Hr. wp_step. apply HP; [done |]. cbn.
      destruct Hr as [(H1 & H2 & H3) | (H1 & H2)]; [left | right]; split_and!; done || lia.
Qed.

(** What [i2s_create_dma_queue] does when its [k]-th allocation fails: at
    the first it returns NULL; at the second it returns NULL and loses the
    block of the queue object; at every later one the clean-up faults, because
    [i2s_destroy_dma_queue] deletes the queue handle that does not exist yet
    (and may free entries of the descriptor array that were never written). *)
Theorem i2s_create_dma_queue_alloc_failure n s o c len k :
  port_ok n = true -> p_i2s_obj s n = Some o -> 0 <= c -> fails_after k s ->
  (k = 0%nat -> exists s', i2s_create_dma_queue n c len s = Ret (None, s') /\ live s' = live s) /\
  (k = 1%nat -> exists s', i2s_create_dma_queue n c len s = Ret (None, s') /\
                           live s' = next_block s :: live s) /\
  ((2 <= k)%nat -> Z.of_nat k <= 2 + 2 * c -> exists e, i2s_create_dma_queue n c len s = Fault e).
Proof.
  intros Hn Ho Hc Hk. split_and!.
  - intros ->. assert (wp (i2s_create_dma_queue n c len) (fun r s' => r = None /\ live s' = live s) s) as Hw.
    { unfold i2s_create_dma_queue. wp_step. eapply wp_get_obj; [done.. |]. wp_step.
      eapply malloc_false; [done.. |]. intros s1 _ Hl. by wp_step. }
    apply wp_run in Hw as (r & s' & E & -> & Hl). eauto.
  - intros ->. assert (wp (i2s_create_dma_queue n c len) (fun r s' => r = None /\
                         live s' = next_block s :: live s) s) as Hw.
    { unfold i2s_create_dma_queue. wp_step. eapply wp_get_obj; [done.. |]. wp_step.
      eapply malloc_true; [done.. |]. intros s1 Hk1 Ho1 Hl. wp_step.
      eapply malloc_false; [done.. |]. intros s2 _ Hl2. wp_step. split; [done |]. by rewrite Hl2, Hl. }
    apply wp_run in Hw as (r & s' & E & -> & Hl). eauto.
  - intros Hk2 Hkc. apply faults_exists. destruct k as [| [| k]]; [lia | lia |].
    unfold i2s_create_dma_queue. apply faults_after. eapply wp_get_obj; [done.. |].
    apply faults_after. eapply malloc_true; [done.. |]. intros s1 Hk1 Ho1 _. cbv beta iota.
    apply faults_after. eapply malloc_true; [done.. |]. intros s2 Hk3 Ho2 _. cbv beta iota.
    apply faults_after. eapply alloc_array_fails; [done.. |].
    intros [bs ok] s3 Ho3 [(H1 & H2 & H3) | (H1 & H2)]; cbn in H2; subst ok; cbn [negb].
    2: { by apply faults_left, (destroy_no_queue_faults n s3 o). }
    apply faults_after. remember (k - Z.to_nat c)%nat as k' eqn:Ek. destruct k' as [| k'].
    + eapply malloc_false; [done.. |]. intros s4 Ho4 _. cbv beta iota.
      by apply faults_left, (destroy_no_queue_faults n s4 o).
    + eapply malloc_true; [done.. |]. intros s4 Hk4 Ho4 _. cbv beta iota.
      apply faults_after. eapply alloc_array_fails; [done.. |].
      intros [ds ok] s5 Ho5 [(H4 & _) | (_ & H4)]; [exfalso; lia |]. cbn in H4. subst ok. cbn [negb].
      by apply faults_left, (destroy_no_queue_faults n s5 o).
Qed.

(** ** The clock *)

(** [m] keeps [P]. *)
Definition keeps {A} (P : drv -> Prop) (m : M A) : Prop := forall s, P s -> wp m (fun _ => P) s.

Section keeps.
Context (P : drv -> Prop).

Lemma keeps_bind {A B} (m : M A) (f : A -> M B) :
  keeps P m -> (forall a, keeps P (f a)) -> keeps P (m ≫= f).
Proof. intros Hm Hf s Hs. wp_step. eapply wp_mono; [by apply Hm |]. intros a s' Hs'. by apply Hf. Qed.

Lemma keeps_ret {A} (a : A) : keeps P (mret a).
Proof. intros s Hs. by wp_step. Qed.

Lemma keeps_when b (m : M unit) : keeps P m -> keeps P (when b m).
Proof. destruct b; [done |]. intros _. apply keeps_ret. Qed.

Lemma keeps_get_obj {B} n o (f : i2s_obj_t -> M B) :
  port_ok n = true -> (forall s, P s -> p_i2s_obj s n = Some o) -> keeps P (f o) -> keeps P (get_obj n ≫= f).
Proof.
  intros Hn Ho Hf s Hs. wp_step. eapply wp_get_obj; [done | by apply Ho |]. by apply Hf.
Qed.

Lemma keeps_read_reg n f : port_ok n = true -> keeps P (read_reg n f).
Proof. intros Hn s Hs. by apply wp_read_reg. Qed.
End keeps.

(** The object of port [n] is [o], and each field of [regs] has its value. *)
Definition port_state (n : Z) (o : i2s_obj_t) (regs : list (field * Z)) (s : drv) : Prop :=
  p_i2s_obj s n = Some o /\ forall f v, (f, v) ∈ regs -> I2S s n f = v.

Lemma keeps_call n o regs c : keeps (port_state n o regs) (do_call c).
Proof. intros s Hs. unfold do_call. by wp_step. Qed.

Lemma keeps_write_reg n o regs f v :
  port_ok n = true -> bool_decide (f ∈ fst <$> regs) = false -> keeps (port_state n o regs) (write_reg n f v).
Proof.
  intros Hn Hf s [Ho Hr]. apply wp_write_reg; [done |]. split; [done |].
  apply bool_decide_eq_false in Hf. intros f' v' Hin. cbn. rewrite fn_lookup_insert, fn_lookup_insert_ne; [by apply Hr |].
  intros ->. apply Hf. apply list_elem_of_fmap. by exists (f', v').
Qed.

(** A write that adds to what is known. *)
Lemma wp_set_reg n o regs f v P s :
  port_ok n = true -> port_state n o regs s -> bool_decide (f ∈ fst <$> regs) = false ->
  (forall s', port_state n o ((f, wrap_u (width f) v) :: regs) s' -> P tt s') -> wp (write_reg n f v) P s.
Proof.
  intros Hn Hs Hf HP. pose proof (keeps_write_reg n o regs f v Hn Hf s Hs) as Hk. revert Hk.
  unfold write_reg, wp. rewrite Hn. intros [H1 H2]. apply HP. split; [done |].
  intros f' v' [[= -> ->] | Hin]%elem_of_cons; [| by apply H2]. cbn. by rewrite !fn_lookup_insert.
Qed.

Ltac keep :=
  repeat first
    [ progress cbv beta
    | apply keeps_ret | apply keeps_call | apply keeps_when
    | apply keeps_read_reg; [assumption]
    | apply keeps_write_reg; [assumption | reflexivity]
    | eapply keeps_get_obj; [assumption | intros ? [? _]; eassumption |]
    | apply keeps_bind; [| intros ?] ].

Lemma keeps_reset_fifo n o regs :
  port_ok n = true -> forallb (fun fv => negb (bool_decide (fv.1 ∈
    [conf_rx_fifo_reset; conf_tx_fifo_reset]))) regs = true ->
  keeps (port_state n o regs) (i2s_reset_fifo n).
Proof.
  intros Hn Hr. unfold i2s_reset_fifo. rewrite port_max by done.
  assert (forall f, f ∈ [conf_rx_fifo_reset; conf_tx_fifo_reset] ->
    bool_decide (f ∈ fst <$> regs) = false) as Hf.
  { intros f Hf. apply bool_decide_false. intros Hin. apply list_elem_of_fmap in Hin as (fv & -> & Hin).
    rewrite forallb_forall in Hr. apply list_elem_of_In in Hin. specialize (Hr fv Hin).
    by rewrite bool_decide_true in Hr. }
  keep; (apply keeps_write_reg; [done |]; apply Hf; set_solver).
Qed.

Lemma keeps_stop n o : port_ok n = true -> keeps (port_state n o []) (i2s_stop n).
Proof.
  intros Hn. unfold i2s_stop, i2s_disable_tx_intr, i2s_disable_rx_intr. keep.
  by apply keeps_reset_fifo.
Qed.

Definition start_fields : list field :=
  [int_clr_val; int_ena_out_eof; int_ena_out_dscr_err; out_link_start; conf_tx_start;
   int_ena_in_suc_eof; int_ena_in_dscr_err; in_link_start; conf_rx_start].

Lemma keeps_start n o regs :
  port_ok n = true -> forallb (fun f => negb (bool_decide (f ∈ fst <$> regs))) start_fields = true ->
  keeps (port_state n o regs) (i2s_start n).
Proof.
  intros Hn Hr. cbn in Hr. repeat (apply andb_true_iff in Hr as [?%negb_true_iff Hr]).
  unfold i2s_start, i2s_enable_tx_intr, i2s_enable_rx_intr. keep; by apply keeps_write_reg.
Qed.

(** The dividers of a rate in DAC mode with 16 bit samples, for a rate the code
    does not refuse and whose dividers are not zero. *)
Definition dac_dividers (rate : Z) : option (Z * Z * Z) :=
  if SFltb (D_of_Z 256) (D_div (D_of_Z I2S_BASE_CLK) (D_of_Z (wrap_u 32 (rate * 256)))) then None else
  match dividers_of_mclk (wrap_u 32 (rate * 2)) 60 with
  | Ret (i, dec, bck) => if wrap_u 32 (bck * 16 * i) =? 0 then None else Some (i, dec, bck)
  | Fault _ => None
  end.

(** A port that transmits 16 bit stereo to the DAC, with a free mutex. *)
Definition dac_obj (o : i2s_obj_t) (d : i2s_dma_t) : Prop :=
  tx o = Some d /\ rx o = None /\ mode o = Z.lor (Z.lor I2S_MODE_MASTER I2S_MODE_TX) I2S_MODE_DAC_BUILT_IN /\
  bits_per_sample o = 16 /\ channel_num o = 2 /\ exists b, mux d = Some (b, true).

Lemma put_port_state n o o' regs s :
  port_state n o regs s -> port_state n o' regs (set_objs (<[n := Some o']> (p_i2s_obj s)) s).
Proof. intros [Ho Hr]. split; [| done]. cbn. by rewrite fn_lookup_insert. Qed.

(** Taking and giving the mutex of the transmit queue. *)
Lemma wp_on_queues n o d d' f regs s P :
  port_ok n = true -> port_state n o regs s -> tx o = Some d -> rx o = None ->
  has (mode o) I2S_MODE_TX = true -> f d = Ret d' ->
  (forall s', port_state n (with_tx o (Some d')) regs s' -> P tt s') -> wp (on_queues n f) P s.
Proof.
  intros Hn Hs Ht Hr Hm Hf HP. unfold on_queues. wp_step. eapply wp_get_obj; [done | apply Hs |].
  rewrite Ht, Hm. cbn [when]. wp_step. wp_step. rewrite Hf. cbn [lift]. wp_step. apply wp_put_obj.
  wp_step. eapply wp_get_obj; [done | cbn; by rewrite fn_lookup_insert |].
  change (rx (with_tx o (Some d'))) with (rx o). rewrite Hr. wp_step. apply HP. by eapply put_port_state.
Qed.

Lemma wp_start n o regs s P :
  port_ok n = true -> port_state n o regs s -> has (mode o) I2S_MODE_TX = true -> has (mode o) I2S_MODE_RX = false ->
  forallb (fun f => negb (bool_decide (f ∈ fst <$> regs))) start_fields = true ->
  (forall s', port_state n o ((conf_tx_start, 1) :: regs) s' -> P ESP_OK s') -> wp (i2s_start n) P s.
Proof.
  intros Hn Hs Ht Hr Hf HP. cbn in Hf. repeat (apply andb_true_iff in Hf as [?%negb_true_iff Hf]).
  unfold i2s_start, i2s_enable_tx_intr. wp_step. eapply wp_get_obj; [done | apply Hs |].
  rewrite Ht, Hr. cbn [when].
  repeat wp_step. eapply wp_mono; [by apply keeps_call |]. intros [] s1 St1.
  repeat wp_step. eapply wp_mono; [by apply (keeps_write_reg n o regs) |]. intros [] s2 St2.
  repeat wp_step. eapply wp_mono; [by apply (keeps_write_reg n o regs) |]. intros [] s3 St3.
  repeat wp_step. eapply wp_mono; [by apply (keeps_write_reg n o regs) |]. intros [] s4 St4.
  repeat wp_step. eapply wp_mono; [by apply (keeps_write_reg n o regs) |]. intros [] s5 St5.
  repeat wp_step. eapply wp_set_reg; [done.. |]. intros s6 St6. repeat wp_step.
  eapply wp_mono; [by apply keeps_call |]. intros [] s7 St7. wp_step. by apply HP.
Qed.

(** What [i2s_set_clk] leaves in the registers. *)
Definition clock_registers (i dec bck : Z) : list (field * Z) := [
  (conf_tx_start, 1); (sample_rate_conf_rx_bits_mod, 16); (sample_rate_conf_tx_bits_mod, 16);
  (sample_rate_conf_rx_bck_div_num, wrap_u 6 bck); (sample_rate_conf_tx_bck_div_num, wrap_u 6 bck);
  (clkm_conf_clkm_div_num, wrap_u 8 i); (clkm_conf_clkm_div_b, wrap_u 6 dec);
  (clkm_conf_clkm_div_a, 63); (clkm_conf_clka_en, 0)].

Lemma wp_set_clk n o d rate i dec bck s :
  port_ok n = true -> p_i2s_obj s n = Some o -> dac_obj o d -> dac_dividers rate = Some (i, dec, bck) ->
  wp (i2s_set_clk n rate 16 2) (fun r s' =>
    r = ESP_OK /\ port_state n o (clock_registers i dec bck) s') s.
Proof.
  intros Hn Ho (Ht & Hr & Hm & Hb & Hc & b & Hmx) Hdiv. unfold dac_dividers in Hdiv.
  unfold i2s_set_clk. change (16 =? 0) with false. cbv iota. rewrite port_max by done.
  change (negb (16 mod 8 =? 0) || (32 <? 16) || (16 <? 16)) with false.
  change (if negb (256 mod 16 =? 0) then 384 else 256) with 256. cbv iota zeta.
  destruct (SFltb _ _); [done |].
  destruct (dividers_of_mclk (wrap_u 32 (rate * 2)) 60) as [[[i' dec'] bck'] |] eqn:Ed; [| done].
  destruct (Z.eqb_spec (wrap_u 32 (bck' * 16 * i')) 0) as [| Hnz]; [done |].
  injection Hdiv as -> -> ->.
  assert (port_state n o [] s) as Hs0 by (split; [done | by intros f v Hin%not_elem_of_nil]).
  wp_step. apply wp_get_obj_ptr; [done |]. rewrite Ho.
  set (o1 := with_tx o (Some (dma_mux d false))).
  wp_step. eapply (wp_on_queues n o d (dma_mux d false)); try done.
  { by rewrite Hm. } { unfold take_mux. by rewrite Hmx. }
  fold o1. intros s1 H1. wp_step. eapply wp_mono; [by apply keeps_stop |]. intros r s2 H2. cbv beta in H2. clear r.
  wp_step. unfold set_channels. wp_step. eapply wp_get_obj; [done | apply H2 |].
  change (channel_num o1) with (channel_num o). rewrite Hc. change (negb (2 =? 2)) with false. wp_step; [done |].
  wp_step. unfold set_bits. wp_step. eapply wp_get_obj; [done | apply H2 |].
  change (bits_per_sample o1) with (bits_per_sample o). rewrite Hb. change (16 =? 16) with true. wp_step.
  cbn [negb]. wp_step. unfold dividers. wp_step. eapply wp_get_obj; [done | apply H2 |].
  change (mode o1) with (mode o). rewrite Hm. cbn [has]. rewrite Ed. apply wp_ret. cbv beta iota.
  do 8 (wp_step; eapply wp_set_reg; [done | exact H2 | reflexivity |]; intros s2' St2; clear H2; try clear s2; rename s2' into s2, St2 into H2; cbn [width] in H2).
  wp_step. rewrite (proj2 (Z.eqb_neq _ _) Hnz). wp_step.
  wp_step. eapply (wp_on_queues n o1 (dma_mux d false) d); try done.
  { change (mode o1) with (mode o). by rewrite Hm. }
  { unfold give_mux. cbn. rewrite Hmx. cbn. f_equal. unfold dma_mux. cbn. rewrite Hmx. cbn. rewrite <- Hmx. by destruct d. }
  assert (with_tx o1 (Some d) = o) as -> by (unfold o1, with_tx; rewrite <- Ht; by destruct o).
  intros s3 H3. wp_step. eapply wp_start; try done.
  { by rewrite Hm. } { by rewrite Hm. }
Qed.

End i2s.

(** * Witnesses *)

(** A port with two buffers of two samples, the second of them free, and a full
    event queue; the first buffer has just been sent. *)
Definition demo_dma : i2s_dma_t :=
  mkDma 0 (Ptr 1) [Ptr 2; Ptr 3] [[0; 0; 0; 0; 0; 0; 0; 0]; [0; 0; 0; 0; 0; 0; 0; 0]] 8 0 None
    (Some (8, true)) (Some (7, mkBounded 1 [1])) (Ptr 4) [Ptr 5; Ptr 6] [make_desc 2 8 0; make_desc 2 8 1].
Definition demo_obj : i2s_obj_t :=
  mkObj 9 (EventQueue 10 (mkBounded 1 [I2S_EVENT_TX_DONE])) 2 2 None (Some demo_dma) 2 2 16
    (Z.lor I2S_MODE_MASTER I2S_MODE_TX).
Definition demo_drv (a : list bool) : drv :=
  mkDrv (fun n => if n =? 0 then Some demo_obj else None)
    (fun _ f => if bool_decide (f = int_st_val) then 2 ^ INT_OUT_EOF else 0) [] 11 a 0 [] 0.

Lemma demo_dma_ok : dma_ok 2 4 demo_dma.
Proof.
  constructor; cbn; try done; try lia.
  - by exists 2.
  - repeat constructor.
  - eexists _, _. split; [done |]. split_and!; done.
  - repeat constructor; lia.
Qed.

Lemma i2s_push_sample_spec_witness :
  wp (i2s_push_sample 0 [1; 2; 3; 4]) (fun r _ => r = 4 \/ r = 0) (demo_drv []).
Proof.
  eapply wp_mono.
  - apply (i2s_push_sample_spec 0 (demo_drv []) demo_obj demo_dma 2 [1; 2; 3; 4]); try reflexivity.
    + exact demo_dma_ok.
    + exists 0. reflexivity.
  - intros r s' (d' & _ & _ & _ & _ & _ & _ & [(c & b & -> & _) | [(c & b & l & -> & _) | (-> & _)]]); auto.
Defined.


Lemma i2s_intr_handler_spec_witness :
  wp (i2s_intr_handler_default (DummyRoom0 := {| dummy_room := 8 |}) 0) (fun _ s' => dummy_overrun s' = 4) (demo_drv []) /\
  i2s_intr_handler_default (DummyRoom0 := {| dummy_room := 4 |}) 0 (demo_drv []) = Fault OutOfBounds.
Proof.
  split.
  - destruct (i2s_intr_handler_spec (DummyRoom0 := {| dummy_room := 8 |}) 0 (demo_drv []) demo_obj demo_dma 2 4 1) as [H _];
      [reflexivity | reflexivity | reflexivity | reflexivity | exact demo_dma_ok | reflexivity
      | vm_compute; split_and!; done | reflexivity
      | vm_compute; split; [discriminate | reflexivity] | vm_compute; split; [discriminate | reflexivity] |].
    eapply wp_mono; [apply H; left; discriminate |].
    intros r s' (o' & d' & _ & _ & _ & _ & _ & _ & _ & _ & _ & _ & _ & _ & _ & _ & _ & _ & -> & _). reflexivity.
  - destruct (i2s_intr_handler_spec (DummyRoom0 := {| dummy_room := 4 |}) 0 (demo_drv []) demo_obj demo_dma 2 4 1) as [_ H];
      [reflexivity | reflexivity | reflexivity | reflexivity | exact demo_dma_ok | reflexivity
      | vm_compute; split_and!; done | reflexivity
      | vm_compute; split; [discriminate | reflexivity] | vm_compute; split; [discriminate | reflexivity] |].
    apply H; vm_compute; [reflexivity | discriminate].
Defined.

Lemma i2s_create_dma_queue_spec_witness :
  wp (i2s_create_dma_queue 0 2 2) (fun r _ => exists d, r = Some d /\ buf_size d = 8) (demo_drv []).
Proof.
  eapply wp_mono.
  - apply (i2s_create_dma_queue_spec 0 (demo_drv []) demo_obj 2 2);
      [reflexivity | reflexivity | reflexivity | lia | reflexivity | lia | reflexivity |].
    intros b Hb. apply not_elem_of_nil in Hb. destruct Hb.
  - intros r s' (d & -> & _ & _ & _ & _ & E & _). exists d. split; [reflexivity | exact E].
Defined.

Lemma i2s_create_dma_queue_alloc_failure_witness :
  exists e, i2s_create_dma_queue 0 2 2 (demo_drv [true; true; true; false]) = Fault e.
Proof.
  destruct (i2s_create_dma_queue_alloc_failure 0 (demo_drv [true; true; true; false]) demo_obj 2 2 3)
    as (_ & _ & H); [reflexivity | reflexivity | lia | exists []; reflexivity |].
  apply H; lia.
Defined.

