(* ===== verification/AudioRender.v ===== *)
(** The renderer (src/ESP32/components/audio_render/audio_render.c): its
    configuration and start, and the conversion of PCM blocks into the samples
    pushed to the I2S driver, with the transmit interrupts that arrive while it
    waits. *)

From S2P Require Import Prelude MsgQueue I2s.

Inductive component_status_t := UNINITIALIZED | INITIALIZED | RUNNING | STOPPED.
Inductive output_mode_t := OUT_I2S | I2S_MERUS | DAC_BUILT_IN | PDM.

#[export] Instance component_status_eq_dec : EqDecision component_status_t.
Proof. solve_decision. Defined.
#[export] Instance output_mode_eq_dec : EqDecision output_mode_t.
Proof. solve_decision. Defined.

Record renderer_config_t := mkRenderer {
  output_mode : output_mode_t;
  r_sample_rate : Z;
  sample_rate_modifier : double;
  bit_depth : Z;
  i2s_num : Z }.

Record WAVEFORMATEX := mkWfx {
  wFormatTag : Z; nChannels : Z; nSamplesPerSec : Z; nAvgBytesPerSec : Z;
  nBlockAlign : Z; wBitsPerSample : Z; cbSize : Z; fillFullStruct : Z }.

(** The bytes of a 32-bit word in memory. *)
Definition le32 (w : Z) : list Z :=
  [w mod 256; w / 256 mod 256; w / 65536 mod 256; w / 16777216 mod 256].

Section audio_render.
Context {Q : Type} `{!MsgQueue Q} {DummyRoom0 : DummyRoom}.

(** [pending] is the environment: for each wait of the renderer, the transmit
    interrupts that arrive by its end, as the status word and the descriptor
    the hardware shows. *)
Record render := mkRender {
  renderer_instance : option renderer_config_t;
  renderer_status : component_status_t;
  i2s : drv (Q := Q);
  pending : list (list (Z * Z)) }.

Abbreviation R := (st render).

Definition set_i2s (s : render) (d : drv) : render :=
  mkRender (renderer_instance s) (renderer_status s) d (pending s).
Definition on_i2s {A} (m : st (drv (Q := Q)) A) : R A :=
  fun s => match m (i2s s) with Ret (a, d) => Ret (a, set_i2s s d) | Fault e => Fault e end.
Definition rlift {A} (m : res A) : R A := match m with Ret a => mret a | Fault e => throw e end.

(** ** Start *)

(** The result of [calloc] is used unchecked. *)
Definition create_renderer_config : R renderer_config_t :=
  p ← on_i2s malloc;
  need NullPointer p;;
  mret (mkRenderer DAC_BUILT_IN 44100 (D_of_Z 1) 16 I2S_NUM_0).

Definition init_i2s (config : renderer_config_t) : R unit :=
  let mode := Z.lor I2S_MODE_MASTER I2S_MODE_TX in
  let comm_fmt := Z.lor I2S_COMM_FORMAT_I2S I2S_COMM_FORMAT_I2S_MSB in
  let '(mode, comm_fmt) :=
    if bool_decide (output_mode config = DAC_BUILT_IN)
    then (Z.lor mode I2S_MODE_DAC_BUILT_IN, I2S_COMM_FORMAT_I2S_MSB) else (mode, comm_fmt) in
  let mode := if bool_decide (output_mode config = PDM) then Z.lor mode I2S_MODE_PDM else mode in
  let i2s_config := mkConfig mode (r_sample_rate config) (bit_depth config)
    I2S_CHANNEL_FMT_RIGHT_LEFT comm_fmt 32 64 in
  let pin_config := mkPin 26 25 22 (-1) in
  on_i2s (i2s_driver_install (i2s_num config) (Some i2s_config) (Some 1));;
  (if has mode I2S_MODE_DAC_BUILT_IN || has mode I2S_MODE_PDM
   then on_i2s (i2s_set_pin (i2s_num config) None);; on_i2s (i2s_set_dac_mode I2S_DAC_CHANNEL_BOTH_EN)
   else on_i2s (i2s_set_pin (i2s_num config) (Some pin_config)));;
  on_i2s (i2s_stop (i2s_num config));;
  mret tt.

Definition renderer_init (config : renderer_config_t) : R unit :=
  modify (fun s => mkRender (Some config) INITIALIZED (i2s s) (pending s));;
  init_i2s config;;
  c ← gets renderer_instance;
  c ← need NullPointer c;
  on_i2s (i2s_set_sample_rates (i2s_num c) (r_sample_rate c));;
  mret tt.

(** ** Rendering *)

(** [( * (short * ) (buf + off))] *)
Definition load_short (buf : list Z) (off : Z) : res Z :=
  b ← memcpy_from buf off 2;
  match b with [lo; hi] => Ret (wrap_s 16 (lo + 256 * hi)) | _ => Fault OutOfBounds end.

(** The word pushed for a pair of signed samples. *)
Definition pack_sample (left right : Z) : Z :=
  let left := wrap_s 16 (left + 32768) in
  let right := wrap_s 16 (right + 32768) in
  let sample := wrap_u 16 left in
  Z.lor (Z.land (wrap_u 32 (Z.shiftl sample 16)) 4294901760) (wrap_u 16 right).

(** The loop of [render_samples] from iteration [i] on.  The result is whether
    it has ended, and the samples that were accepted; it has not when the
    interrupts seen so far leave it waiting for room.  A push that returns 0 is
    retried with the same sample. *)
Fixpoint render_loop (sched : list (list (Z * Z))) (port : Z) (buf : list Z)
    (ptr_l ptr_r i num stride : Z) (out : list (list Z)) : R (bool * list (list Z)) :=
  if negb (i <? num) then mret (true, out) else
  status ← gets renderer_status;
  if bool_decide (status = STOPPED) then mret (true, out) else
  match sched with
  | [] => mret (false, out)
  | irqs :: sched =>
      left ← rlift (load_short buf ptr_l);
      right ← rlift (load_short buf ptr_r);
      let sample := le32 (pack_sample left right) in
      modify (fun s => mkRender (renderer_instance s) (renderer_status s) (i2s s) sched);;
      for_each irqs (fun irq => on_i2s (interrupt port irq));;
      bytes_pushed ← on_i2s (i2s_push_sample port sample);
      if bytes_pushed =? 0
      then render_loop sched port buf ptr_l ptr_r i num stride out
      else render_loop sched port buf (ptr_l + stride) (ptr_r + stride) (i + 1) num stride (out ++ [sample])
  end.

Definition render_samples (buf : list Z) (buf_len : Z) (buf_desc : WAVEFORMATEX) : R (bool * list (list Z)) :=
  c ← gets renderer_instance;
  c ← need NullPointer c;
  when (negb (wrap_u 32 (r_sample_rate c) =? nSamplesPerSec buf_desc))
    (on_i2s (i2s_set_sample_rates (i2s_num c) (nSamplesPerSec buf_desc));;
     modify (fun s => mkRender
       (Some (mkRenderer (output_mode c) (wrap_s 32 (nSamplesPerSec buf_desc)) (sample_rate_modifier c)
                (bit_depth c) (i2s_num c))) (renderer_status s) (i2s s) (pending s)));;
  let buf_bytes_per_sample := wrap_u 8 (wBitsPerSample buf_desc / 8) in
  if (buf_bytes_per_sample =? 0) || (nChannels buf_desc =? 0) then throw DivideByZero else
  let num_samples := buf_len / buf_bytes_per_sample / nChannels buf_desc in
  if negb (wBitsPerSample buf_desc =? 16) then mret (true, []) else
  let ptr_l := 0 in
  let ptr_r := buf_bytes_per_sample in
  let stride := wrap_u 8 (buf_bytes_per_sample * 2) in
  let ptr_r := if nChannels buf_desc =? 1 then ptr_l else ptr_r in
  sched ← gets pending;
  render_loop sched (i2s_num c) buf ptr_l ptr_r 0 num_samples stride [].

(** * A transmitter that is ready *)

Context `{!MsgQueueLaws Q}.

(** Port [n] is installed for transmission of 16 bit stereo with [count]
    buffers and an event queue of [len]. *)
Definition tx_obj (count len : Z) (o : i2s_obj_t (Q := Q)) (d : i2s_dma_t (Q := Q)) : Prop :=
  dac_obj o d /\ bytes_per_sample o = 2 /\
  dma_ok count 4 d /\ descs_ok count d /\ (4 | rw_pos d) /\ event_queue_ok o len.
Definition tx_ready (n count len : Z) (s : drv (Q := Q)) : Prop :=
  exists o d, p_i2s_obj s n = Some o /\ tx_obj count len o d.

(** There is a free buffer in the queue. *)
Definition has_free (n : Z) (s : drv (Q := Q)) : Prop :=
  exists o d, p_i2s_obj s n = Some o /\ tx o = Some d /\ queued d <> [].

Lemma wp_interrupt n count len irq s :
  8 <= dummy_room -> port_ok n = true -> tx_ready n count len s -> tx_irq count irq ->
  wp (interrupt n irq) (fun _ s' => tx_ready n count len s' /\ has_free n s') s.
Proof.
  intros Hroom Hn (o & d & Ho & (Ht & Hr & Hm & H16 & Hc & b & Hmx) & Hb & Hd & Hl & Hdiv & Hev) Hirq.
  eapply wp_mono; [by eapply (wp_tx_interrupt n count 4 len) |].
  intros [] s' (o' & d' & Ho' & Ht' & Hr' & Hb' & Hc' & H16' & Hm' & Hmx' & Hp' & Hd' & Hl' & Hq' & Hev').
  split; exists o', d'; [| done]. split; [done |]. unfold tx_obj, dac_obj. rewrite Hb', Hc', Hp', H16', Hm', Hmx'.
  split_and!; try done. by exists b.
Qed.

Lemma wp_on_i2s {A} (m : st (drv (Q := Q)) A) P s :
  wp m (fun a d => P a (set_i2s s d)) (i2s s) -> wp (on_i2s m) P s.
Proof. unfold wp, on_i2s. by destruct (m (i2s s)) as [[a d] |]. Qed.

Lemma wp_rlift {A} (m : res A) a P (s : render) : m = Ret a -> P a s -> wp (rlift m) P s.
Proof. by intros ->. Qed.

(** The interrupts of one wait. *)
Lemma wp_interrupts n count len irqs s P :
  8 <= dummy_room -> port_ok n = true -> tx_ready n count len (i2s s) -> Forall (tx_irq count) irqs ->
  (forall d, tx_ready n count len d -> irqs <> [] -> has_free n d -> P tt (set_i2s s d)) ->
  (irqs = [] -> P tt s) ->
  wp (for_each irqs (fun irq => on_i2s (interrupt n irq))) P s.
Proof.
  intros Hroom Hn Hs Hall Hsome Hnone.
  apply wp_for_each with (I := fun dn s1 =>
    (dn = [] /\ s1 = s) \/ (dn <> [] /\ exists d, s1 = set_i2s s d /\ tx_ready n count len d /\ has_free n d)).
  - by left.
  - intros dn irq todo s1 E H1. apply wp_on_i2s.
    assert (tx_irq count irq) as Hirq.
    { rewrite E in Hall. apply Forall_app in Hall as [_ Hall]. by inversion Hall. }
    assert (tx_ready n count len (i2s s1) /\ exists d, s1 = set_i2s s d) as [Hr [d ->]].
    { destruct H1 as [[_ ->] | (_ & d & -> & Hr & _)]; [split; [done |] | eauto].
      exists (i2s s). by destruct s. }
    eapply wp_mono; [by apply wp_interrupt |]. intros [] d' [Hr' Hf']. right.
    split; [by destruct dn |]. by exists d'.
  - intros s1 [[-> ->] | (Hne & d & -> & Hr & Hf)]; [by apply Hnone | by apply Hsome].
Qed.

(** One push of a word: it is accepted, or there is no free buffer. *)
Lemma wp_push n count len sample s P :
  port_ok n = true -> tx_ready n count len s -> zlen sample = 4 ->
  (forall s', tx_ready n count len s' -> P 4 s') -> (~ has_free n s -> P 0 s) ->
  wp (i2s_push_sample n sample) P s.
Proof.
  intros Hn (o & d & Ho & (Ht & Hr & Hm & H16 & Hc & b & Hmx) & Hb & Hd & Hl & Hdiv & Hev) Hz Hok Hno.
  assert (bytes_per_sample o * channel_num o = 4) as Hss by (rewrite Hb, Hc; done).
  eapply wp_mono.
  - apply (wp_push_sample n s o d count sample); rewrite ?Hss; done || lia.
  - intros r s' (d' & Ho' & Hd' & Hdiv' & Hl' & Hsz & Hmx' & Hcase). rewrite Hss in *.
    assert (tx_ready n count len s') as Hready.
    { exists (with_tx o (Some d')), d'. split; [done |].
      unfold tx_obj, dac_obj, descs_ok in *. rewrite Hmx', Hl', Hsz. split_and!; try done. by exists b. }
    destruct Hcase as [(c & x & -> & _) | [(c & x & l & -> & _) | (-> & _ & Eq & -> & _)]]; [by apply Hok.. |].
    apply Hno. intros (o1 & d1 & E1 & E2 & E3). congruence.
Qed.

(** * What a block is rendered to *)

(** The signed sample at an offset, and the four bytes that go to the DAC for a
    left and a right sample: both shifted to the unsigned range, right first. *)
Definition short_at (buf : list Z) (off : Z) : Z :=
  wrap_s 16 (buf !!! Z.to_nat off + 256 * buf !!! Z.to_nat (off + 1)).
Definition dac_frame (left right : Z) : list Z :=
  let l := left + 32768 in
  let r := right + 32768 in
  [r mod 256; r / 256; l mod 256; l / 256].
Definition frames (buf : list Z) (l r stride k : Z) : list (list Z) :=
  (fun i => dac_frame (short_at buf (l + stride * i)) (short_at buf (r + stride * i))) <$> seqZ 0 k.

Lemma load_short_ok buf off :
  0 <= off -> off + 2 <= zlen buf -> load_short buf off = Ret (short_at buf off).
Proof.
  intros H0 H1. unfold load_short. rewrite memcpy_from_Ret by lia. cbn [mbind res_bind].
  unfold slice, short_at, zlen in *. change (Z.to_nat 2) with 2%nat.
  destruct (lookup_lt_is_Some_2 buf (Z.to_nat off)) as [x Hx]; [lia |].
  destruct (lookup_lt_is_Some_2 buf (Z.to_nat (off + 1))) as [y Hy]; [lia |].
  rewrite !list_lookup_total_alt, Hx, Hy.
  rewrite (drop_S _ x) by done. replace (S (Z.to_nat off)) with (Z.to_nat (off + 1)) by lia.
  by rewrite (drop_S _ y).
Qed.

Lemma short_at_range buf off : -32768 <= short_at buf off < 32768.
Proof. apply (wrap_s_range 16). lia. Qed.

Lemma lor_shifted a b : 0 <= b < 65536 -> Z.lor (Z.shiftl a 16) b = a * 65536 + b.
Proof.
  intros Hb. assert (Z.land (Z.shiftl a 16) b = 0) as Hl.
  { apply Z.bits_inj'. intros i Hi. rewrite Z.land_spec, Z.bits_0.
    destruct (Z.ltb_spec i 16); [by rewrite Z.shiftl_spec_low |].
    rewrite <- (Z.mod_small b (2 ^ 16)) by (change (2 ^ 16) with 65536; lia).
    by rewrite Z.mod_pow2_bits_high, andb_false_r by lia. }
  rewrite <- Z.lxor_lor, <- Z.add_nocarry_lxor by done. by rewrite Z.shiftl_mul_pow2.
Qed.

Lemma wrap_shift x : -32768 <= x < 32768 -> wrap_u 16 (wrap_s 16 (x + 32768)) = x + 32768.
Proof. intros Hx. unfold wrap_u, wrap_s. change (2 ^ 16) with 65536. change (2 ^ (16 - 1)) with 32768. zdiv. Qed.

(** The packed word is the frame. *)
Lemma pack_sample_frame l r :
  -32768 <= l < 32768 -> -32768 <= r < 32768 -> le32 (pack_sample l r) = dac_frame l r.
Proof.
  intros Hl Hr. unfold pack_sample. rewrite !wrap_shift by done.
  change 4294901760 with (Z.shiftl 65535 16).
  rewrite (wrap_u_small 32) by (rewrite Z.shiftl_mul_pow2 by lia; lia).
  rewrite <- Z.shiftl_land. change 65535 with (Z.ones 16). rewrite Z.land_ones by lia.
  rewrite (Z.mod_small (l + 32768)) by lia. rewrite lor_shifted by lia.
  unfold le32, dac_frame. set (R := r + 32768) in *. set (L := l + 32768) in *.
  assert (0 <= R < 65536 /\ 0 <= L < 65536) as [HR HL] by lia. clearbody R L.
  assert ((L * 65536 + R) mod 256 = R mod 256) as -> by zdiv.
  assert ((L * 65536 + R) / 256 mod 256 = R / 256) as -> by zdiv.
  assert ((L * 65536 + R) / 65536 mod 256 = L mod 256) as -> by zdiv.
  assert ((L * 65536 + R) / 16777216 mod 256 = L / 256) as -> by zdiv. done.
Qed.

Lemma frames_cons buf l r stride k :
  0 <= k -> frames buf l r stride (1 + k)
            = dac_frame (short_at buf l) (short_at buf r) :: frames buf (l + stride) (r + stride) stride k.
Proof.
  intros Hk. unfold frames. rewrite (seqZ_cons 0) by lia. cbn. rewrite Z.mul_0_r, !Z.add_0_r. f_equal.
  replace (Z.pred (1 + k)) with k by lia.
  replace (seqZ (Z.succ 0) k) with (Z.add 1 <$> seqZ 0 k) by (rewrite fmap_add_seqZ; f_equal; lia).
  rewrite <- list_fmap_compose. apply list_fmap_ext. intros j i _. cbn. do 2 f_equal; lia.
Qed.

(** The waits in which an interrupt arrives. *)
Definition served (sched : list (list (Z * Z))) : Z := zlen (filter (fun irqs => irqs <> []) sched).

Lemma served_cons irqs sched :
  served (irqs :: sched) = (if bool_decide (irqs = []) then 0 else 1) + served sched.
Proof.
  unfold served. case_bool_decide as E.
  - by rewrite filter_cons_False by (by intros []).
  - rewrite filter_cons_True by done. by rewrite zlen_cons.
Qed.

Lemma served_nonneg sched : 0 <= served sched.
Proof. apply zlen_nonneg. Qed.

(** The loop from iteration [i] on, with [k] more samples accepted. *)
Definition loop_result (n count len : Z) (buf : list Z) (l r stride i num : Z) (sched : list (list (Z * Z)))
    (out : list (list Z)) (s : render) (res : bool * list (list Z)) (s' : render) : Prop :=
  exists k, 0 <= k /\ i + k <= Z.max i num /\ res.2 = out ++ frames buf l r stride k /\
    (res.1 = true <-> num <= i + k) /\ Z.min (num - i) (served sched) <= k /\
    tx_ready n count len (i2s s') /\
    renderer_instance s' = renderer_instance s /\ renderer_status s' = renderer_status s /\
    Forall (Forall (tx_irq count)) (pending s') /\ served sched - k <= served (pending s').

Lemma wp_render_loop n count len buf stride num sched : 8 <= dummy_room -> forall i l r out s,
  port_ok n = true -> tx_ready n count len (i2s s) -> renderer_status s <> STOPPED ->
  pending s = sched -> Forall (Forall (tx_irq count)) sched -> 0 <= l -> 0 <= r -> 0 <= stride ->
  (forall j, 0 <= j < num - i -> l + stride * j + 2 <= zlen buf /\ r + stride * j + 2 <= zlen buf) ->
  wp (render_loop sched n buf l r i num stride out) (loop_result n count len buf l r stride i num sched out s) s.
Proof.
  intros Hroom. induction sched as [| irqs sched IH]; intros i l r out s Hn Hs Hst Hpen Hall Hl Hr Hstr Hin.
  - cbn [render_loop]. assert (forall fin, (fin = true <-> num <= i) ->
      loop_result n count len buf l r stride i num [] out s (fin, out) s) as Hend.
    { intros fin Hf. exists 0. cbn. rewrite app_nil_r, Z.add_0_r, Hpen. change (served []) with 0.
      split_and!; done || lia. }
    destruct (Z.ltb_spec i num); cbn [negb]; wp_step; [| apply Hend; lia].
    wp_step. rewrite bool_decide_false by done. wp_step. apply Hend. lia.
  - cbn [render_loop]. destruct (Z.ltb_spec i num) as [Hlt | Hge]; cbn [negb].
    2: { wp_step. exists 0. cbn. rewrite app_nil_r, Z.add_0_r, Hpen. pose proof (served_nonneg (irqs :: sched)).
         split_and!; done || lia. }
    wp_step. wp_step. rewrite bool_decide_false by done.
    destruct (Hin 0) as [H1 H2]; [lia |]. rewrite Z.mul_0_r, !Z.add_0_r in *.
    wp_step. eapply wp_rlift; [by apply load_short_ok |].
    wp_step. eapply wp_rlift; [by apply load_short_ok |].
    rewrite pack_sample_frame by apply short_at_range.
    set (word := dac_frame (short_at buf l) (short_at buf r)).
    wp_step. wp_step. inversion Hall as [| ? ? Hirqs Hall']; subst.
    set (s1 := mkRender (renderer_instance s) (renderer_status s) (i2s s) sched).
    assert (forall d (retry : bool), tx_ready n count len d -> (retry = true -> irqs = []) ->
      wp (if retry then render_loop sched n buf l r i num stride out
          else render_loop sched n buf (l + stride) (r + stride) (i + 1) num stride (out ++ [word]))
        (loop_result n count len buf l r stride i num (irqs :: sched) out s) (set_i2s s1 d)) as Hrest.
    { intros d [|] Hd Hretry.
      - rewrite (Hretry eq_refl). eapply wp_mono; [by apply IH |].
        intros res s2 (k & Hk). exists k. rewrite served_cons. exact Hk.
      - eapply wp_mono; [apply IH; try done; try lia |].
        { intros j Hj. destruct (Hin (j + 1)); [lia |]. lia. }
        intros res s2 (k & H0 & Hk & Hout & Hfin & Hmin & Htx & Hri & Hrs & Hp2 & Hsv). exists (1 + k).
        rewrite frames_cons by done. fold word. rewrite Hout, <- app_assoc. cbn [app].
        rewrite served_cons. split_and!; try done; try lia.
        + rewrite Hfin. lia.
        + case_bool_decide; lia.
        + case_bool_decide; lia. }
    wp_step. apply wp_interrupts with (count := count) (len := len); try done.
    + intros d Hd _ Hfree. wp_step. apply wp_on_i2s.
      apply wp_push with (count := count) (len := len); try done.
      intros s2 Hs2. exact (Hrest s2 false Hs2 ltac:(done)).
    + intros ->. wp_step. apply wp_on_i2s. apply wp_push with (count := count) (len := len); try done.
      * intros s2 Hs2. exact (Hrest s2 false Hs2 ltac:(done)).
      * intros _. exact (Hrest (i2s s) true Hs ltac:(done)).
Qed.

(** A rate the renderer can switch to. *)
Definition rate_ok (rate : Z) : bool :=
  match dac_dividers rate with Some _ => true | None => false end.

Lemma wp_set_sample_rates n count len rate s :
  port_ok n = true -> tx_ready n count len s -> 0 <= rate < 2 ^ 32 -> rate_ok rate = true ->
  wp (i2s_set_sample_rates n rate) (fun _ s' => tx_ready n count len s') s.
Proof.
  intros Hn (o & d & Ho & Hobj) Hrate Hok. unfold rate_ok in Hok.
  destruct (dac_dividers rate) as [[[i dec] bck] |] eqn:Ed; [| done].
  unfold i2s_set_sample_rates. rewrite port_max by done. wp_step. eapply wp_get_obj; [done.. |].
  pose proof Hobj as ((_ & _ & _ & H16 & Hc & _) & Hb & _). rewrite Hb, H16, Hc, wrap_u_small by done.
  change (negb (0 <? 2)) with false. eapply wp_mono; [apply (wp_set_clk n o d rate i dec bck); try done; apply Hobj |].
  intros r s' [_ [Ho' _]]. exists o, d. done.
Qed.

(** The rate the renderer has after [render_samples]. *)
Definition has_rate (n : Z) (rate : Z) (s : render) : Prop :=
  exists c, renderer_instance s = Some c /\ i2s_num c = n /\ wrap_u 32 (r_sample_rate c) = rate.

Lemma wrap_u_s z : 0 <= z < 2 ^ 32 -> wrap_u 32 (wrap_s 32 z) = z.
Proof. unfold wrap_u, wrap_s. change (2 ^ 32) with 4294967296. change (2 ^ (32 - 1)) with 2147483648. intros. zdiv. Qed.

(** Everything before the loop of [render_samples], at a rate that is current or
    can be switched to. *)
Lemma wp_render_samples n count len rate0 buf buf_len wfx s P :
  let chans := nChannels wfx in
  let num := buf_len / 2 / chans in
  let r := if chans =? 1 then 0 else 2 in
  has_rate n rate0 s -> renderer_status s <> STOPPED -> port_ok n = true -> tx_ready n count len (i2s s) ->
  0 <= nSamplesPerSec wfx < 2 ^ 32 -> nSamplesPerSec wfx = rate0 \/ rate_ok (nSamplesPerSec wfx) = true ->
  wBitsPerSample wfx = 16 -> chans <> 0 ->
  (forall s', has_rate n (nSamplesPerSec wfx) s' -> tx_ready n count len (i2s s') ->
     renderer_status s' = renderer_status s -> pending s' = pending s ->
     wp (render_loop (pending s) n buf 0 r 0 num 4 []) P s') ->
  wp (render_samples buf buf_len wfx) P s.
Proof.
  intros chans num r (c & Hi & Hc & Hrate0) Hst Hn Hs Hrng Hrate Hbits Hch HP. unfold render_samples.
  wp_step. wp_step. rewrite Hi. wp_step. wp_step. rewrite Hrate0, Hbits, Hc.
  change (wrap_u 8 (16 / 8)) with 2. change (wrap_u 8 (2 * 2)) with 4. change (negb (16 =? 16)) with false.
  destruct (Z.eqb_spec (nChannels wfx) 0) as [E | _]; [done |]. change ((2 =? 0) || false) with false.
  cbv zeta iota. fold chans num r. wp_step. apply wp_when.
  - intros Hne. apply negb_true_iff, Z.eqb_neq in Hne.
    assert (rate_ok (nSamplesPerSec wfx) = true) as Hok by (destruct Hrate; congruence).
    wp_step. apply wp_on_i2s. eapply wp_mono; [by apply wp_set_sample_rates with (count := count) (len := len) |].
    intros ret d Hd. cbv beta in *. clear ret. wp_step. wp_step. wp_step. apply HP; try done.
    eexists. split; [done |]. split; [done |]. cbn. by apply wrap_u_s.
  - intros He. apply negb_false_iff, Z.eqb_eq in He. wp_step. wp_step. apply HP; try done.
    exists c. split_and!; try done. congruence.
Qed.

(** The renderer after [k] accepted samples at [rate]. *)
Definition render_after (n count len rate k : Z) (s s' : render) : Prop :=
  tx_ready n count len (i2s s') /\ has_rate n rate s' /\ renderer_status s' = renderer_status s /\
  Forall (Forall (tx_irq count)) (pending s') /\ served (pending s) - k <= served (pending s').

Lemma wp_render_block n count len rate0 buf buf_len wfx s :
  let chans := nChannels wfx in
  let num := buf_len / 2 / chans in
  let r := if chans =? 1 then 0 else 2 in
  8 <= dummy_room -> has_rate n rate0 s -> renderer_status s <> STOPPED -> port_ok n = true -> tx_ready n count len (i2s s) ->
  0 <= nSamplesPerSec wfx < 2 ^ 32 -> nSamplesPerSec wfx = rate0 \/ rate_ok (nSamplesPerSec wfx) = true ->
  wBitsPerSample wfx = 16 -> chans = 1 \/ chans = 2 ->
  Forall (Forall (tx_irq count)) (pending s) ->
  0 <= buf_len -> (0 < num -> 4 * (num - 1) + r + 2 <= zlen buf) ->
  wp (render_samples buf buf_len wfx) (fun res s' => exists k, 0 <= k <= num /\
    res.2 = frames buf 0 r 4 k /\ (res.1 = true <-> k = num) /\
    Z.min num (served (pending s)) <= k /\
    render_after n count len (nSamplesPerSec wfx) k s s') s.
Proof.
  intros chans num r Hroom Hi Hst Hn Hs Hrng Hrate Hbits Hch Hall Hlen Hfit.
  eapply (wp_render_samples n count len rate0); try done.
  { fold chans. lia. }
  intros s' Hi' Hs' Hst' Hp'. fold chans num r.
  assert (0 <= num) as Hnum by (unfold num; apply Z.div_pos; [apply Z.div_pos; lia | lia]).
  assert (0 <= r) as Hr0 by (unfold r; by destruct (chans =? 1)).
  eapply wp_mono.
  - apply (wp_render_loop _ count len buf 4 num (pending s)); try done; [by rewrite Hst' |].
    intros j Hj. specialize (Hfit ltac:(lia)). unfold r in *. destruct (chans =? 1); lia.
  - intros res s2 (k & H0 & Hk & Hout & Hfin & Hmin & Htx & Hri & Hrs & Hp2 & Hsv). exists k.
    rewrite Z.max_r in Hk by lia.
    assert (has_rate n (nSamplesPerSec wfx) s2) as Hr2.
    { destruct Hi' as (c & E & Hc). exists c. by rewrite Hri. }
    unfold render_after. split_and!; try done; try lia; try congruence. rewrite Hfin. lia.
Qed.

(** C27. [render_samples] on a block of 16 bit samples with one or two channels,
    at the rate the renderer has or any other whose dividers fit, where the
    handler's stack has room for the events it drops (see [i2s_intr_handler_spec]:
    with the event queue of one entry that the firmware makes and nobody reads,
    the second interrupt drops one) and the memory of the block reaches to the
    last sample the loop loads (for one channel that is up to twice the block's
    length): whatever transmit interrupts arrive, no step faults and the driver stays ready, at
    the new rate; the samples it gets the driver to accept are, in order and
    without loss or repetition, the frames of the block (for one channel both
    halves come from the same sample, but the position still moves by four
    bytes); it has ended exactly when it has pushed all of them; and it does
    end once an interrupt has arrived in as many waits as there are frames, so
    the retry loop does not hang. *)
Theorem render_samples_spec n count len rate0 buf buf_len wfx s :
  let chans := nChannels wfx in
  let num := buf_len / 2 / chans in
  let r := if chans =? 1 then 0 else 2 in
  8 <= dummy_room -> has_rate n rate0 s -> renderer_status s <> STOPPED -> port_ok n = true -> tx_ready n count len (i2s s) ->
  0 <= nSamplesPerSec wfx < 2 ^ 32 -> nSamplesPerSec wfx = rate0 \/ rate_ok (nSamplesPerSec wfx) = true ->
  wBitsPerSample wfx = 16 -> chans = 1 \/ chans = 2 ->
  Forall (Forall (tx_irq count)) (pending s) ->
  0 <= buf_len -> (0 < num -> 4 * (num - 1) + r + 2 <= zlen buf) ->
  wp (render_samples buf buf_len wfx) (fun res s' => exists k, 0 <= k <= num /\
    res.2 = frames buf 0 r 4 k /\ (res.1 = true <-> k = num) /\
    Z.min num (served (pending s)) <= k /\
    render_after n count len (nSamplesPerSec wfx) k s s') s.
Proof. exact (wp_render_block n count len rate0 buf buf_len wfx s). Qed.
End audio_render.

(** * Start-up *)

(** The chip before [app_main] starts the renderer, with any register contents,
    and [renderer_init (create_renderer_config ())]. *)
Definition reset_drv (r0 : Z -> field -> Z) : drv (Q := bounded) :=
  mkDrv (fun _ => None) r0 [] 0 [] 0 [] 0.
Definition boot_renderer (irqs : list (list (Z * Z))) (r0 : Z -> field -> Z) : res (unit * render (Q := bounded)) :=
  (c ← create_renderer_config; renderer_init c) (mkRender None UNINITIALIZED (reset_drv r0) irqs).

(** The object and the queue the driver then has. *)
Definition boot_dma : i2s_dma_t (Q := bounded) := fresh_dma 32 256 3.
Definition boot_obj : i2s_obj_t (Q := bounded) :=
  mkObj 1 (EventQueue 2 (mkBounded 1 [])) 32 64 None (Some boot_dma) 2 2 16
    (Z.lor (Z.lor I2S_MODE_MASTER I2S_MODE_TX) I2S_MODE_DAC_BUILT_IN).

Definition boot_registers : list (field * Z) := [
  (conf_tx_start, 1); (out_link_start, 1); (int_ena_out_eof, 1); (int_ena_out_dscr_err, 1);
  (out_link_addr, 38); (conf_tx_slave_mod, 0); (conf_tx_right_first, 1); (conf2_lcd_en, 1);
  (fifo_conf_dscr_en, 1); (fifo_conf_tx_fifo_mod, 0); (conf_chan_tx_chan_mod, 0);
  (sample_rate_conf_tx_bits_mod, 16); (sample_rate_conf_tx_bck_div_num, 60);
  (clkm_conf_clkm_div_num, 30); (clkm_conf_clkm_div_b, 14); (clkm_conf_clkm_div_a, 63);
  (clkm_conf_clka_en, 0); (conf_rx_start, 0); (pdm_conf_tx_pdm_en, 0)].

Definition boot_summary (m : res (unit * render (Q := bounded))) :=
  match m with
  | Ret (_, s) => Some ((fun f => (f, I2S (i2s s) 0 f)) <$> (fst <$> boot_registers),
                        p_i2s_obj (i2s s) 0, renderer_instance s, renderer_status s,
                        (live (i2s s), next_block (i2s s), allocs (i2s s)), pending s)
  | Fault _ => None
  end.

Definition boot_config : renderer_config_t := mkRenderer DAC_BUILT_IN 44100 (D_of_Z 1) 16 0.
Definition boot_live : list Z := rev (seqZ 0 72).

Lemma boot_computed irqs r0 :
  boot_summary (boot_renderer irqs r0)
  = Some (boot_registers, Some boot_obj, Some boot_config, INITIALIZED, (boot_live, 72, []), irqs).
Proof. vm_compute. reflexivity. Qed.

Lemma boot_summary_inv irqs m :
  boot_summary m = Some (boot_registers, Some boot_obj, Some boot_config, INITIALIZED, (boot_live, 72, []), irqs) ->
  exists s, m = Ret (tt, s) /\
  (forall f v, (f, v) ∈ boot_registers -> I2S (i2s s) 0 f = v) /\
  p_i2s_obj (i2s s) 0 = Some boot_obj /\ renderer_instance s = Some boot_config /\
  renderer_status s = INITIALIZED /\ live (i2s s) = boot_live /\ pending s = irqs.
Proof.
  intros Hc. unfold boot_summary in Hc. destruct m as [[[] s] |]; [| done].
  apply (inj Some) in Hc. rewrite !pair_equal_spec in Hc.
  destruct Hc as (((((Hr & Ho) & Hi) & Hs) & ((Hl & _) & _)) & Hp).
  exists s. split_and!; try done.
  intros f v Hf. apply list_elem_of_lookup in Hf as [i Hf]. rewrite <- Hr, <- list_fmap_compose in Hf.
  apply list_lookup_fmap_Some in Hf as ([f' v'] & E & _). cbn in E. by injection E as -> ->.
Qed.

Lemma boot_runs irqs r0 : exists s, boot_renderer irqs r0 = Ret (tt, s) /\
  (forall f v, (f, v) ∈ boot_registers -> I2S (i2s s) 0 f = v) /\
  p_i2s_obj (i2s s) 0 = Some boot_obj /\ renderer_instance s = Some boot_config /\
  renderer_status s = INITIALIZED /\ live (i2s s) = boot_live /\ pending s = irqs.
Proof. apply boot_summary_inv, boot_computed. Qed.

Lemma boot_ready irqs r0 s :
  boot_renderer irqs r0 = Ret (tt, s) -> tx_ready 0 32 1 (i2s s).
Proof.
  intros E. destruct (boot_runs irqs r0) as (s' & E' & _ & Ho & _). rewrite E in E'. injection E' as <-.
  destruct (fresh_dma_ok 32 4 64 3) as (H1 & H2 & _); [lia.. |].
  change (64 * 4) with 256 in H1, H2. exists boot_obj, boot_dma. split; [exact Ho |].
  split; [repeat (split; [reflexivity |]); exists 71; reflexivity |]. split; [reflexivity |].
  split; [exact H1 |]. split; [exact H2 |].
  split; [by exists 0 |]. cbn. split_and!; done.
Qed.

(** Whatever the registers held, starting the renderer as [app_main] does
    succeeds: the I2S port is configured as a running 16 bit stereo master
    transmitter for the built-in DAC with the dividers for 44100 Hz (30 + 14/63,
    bit clock 60), its descriptor ring is linked in, and the driver is ready to
    take samples: 32 buffers of 64 frames, all of them zero and none queued. *)
Theorem renderer_start_spec irqs r0 :
  exists s o d, boot_renderer irqs r0 = Ret (tt, s) /\
    (forall f v, (f, v) ∈ boot_registers -> I2S (i2s s) 0 f = v) /\
    p_i2s_obj (i2s s) 0 = Some o /\ tx_obj 32 1 o d /\ buf_size d = 64 * 4 /\ queued d = [] /\
    mem d = replicate 32 (replicate 256 0) /\
    renderer_instance s = Some boot_config /\ renderer_status s = INITIALIZED.
Proof.
  destruct (boot_runs irqs r0) as (s & E & Hr & Ho & Hi & Hs & _). exists s, boot_obj, boot_dma.
  destruct (boot_ready irqs r0 s E) as (o & d & Ho' & Hobj). rewrite Ho in Ho'. injection Ho' as <-.
  pose proof (proj1 (proj1 Hobj)) as Ht. injection Ht as <-. split_and!; done.
Qed.

(** Removing the driver of the started renderer gives back every block it
    took: only the renderer's configuration stays allocated; the DMA is stopped
    and the port can be installed again. *)
Theorem renderer_uninstall_no_leak irqs r0 s :
  boot_renderer irqs r0 = Ret (tt, s) ->
  exists s', i2s_driver_uninstall 0 (i2s s) = Ret (ESP_OK, s') /\
    live s' = [0] /\ p_i2s_obj s' 0 = None /\ I2S s' 0 conf_tx_start = 0 /\ I2S s' 0 int_ena_out_eof = 0.
Proof.
  intros E.
  assert ((fun m => match m with Ret (_, s) => match i2s_driver_uninstall 0 (i2s s) with
             Ret (r, s') => Some (r, live s', p_i2s_obj s' 0, I2S s' 0 conf_tx_start, I2S s' 0 int_ena_out_eof)
           | Fault _ => None end | Fault _ => None end) (boot_renderer irqs r0)
          = Some (ESP_OK, [0], None, 0, 0)) as Hc by (vm_compute; reflexivity).
  rewrite E in Hc. cbv beta in Hc. clear E.
  destruct (i2s_driver_uninstall 0 (i2s s)) as [[r s'] |]; [| discriminate Hc].
  injection Hc as -> Hl Ho Hs Hi. exists s'. done.
Qed.

(** The format a sender can put into its header. *)
Definition format (channels rate bits : Z) : WAVEFORMATEX := mkWfx 1 channels rate 0 0 bits 0 0.

(** Formats that crash the renderer: a depth below 8 bits and no channel
    divide by zero before the check of the depth, and a rate above the one the
    divider can produce (here 1500000 Hz) divides by the zero divider in
    [i2s_set_clk], on every block and whatever its contents. *)
Theorem render_samples_format_faults {DummyRoom0 : DummyRoom} irqs r0 s buf buf_len channels bits :
  boot_renderer irqs r0 = Ret (tt, s) ->
  0 <= bits < 8 ->
  render_samples buf buf_len (format channels 44100 bits) s = Fault DivideByZero /\
  render_samples buf buf_len (format 0 44100 16) s = Fault DivideByZero /\
  render_samples buf buf_len (format channels 1500000 16) s = Fault DivideByZero.
Proof.
  intros E Hb. destruct (boot_runs irqs r0) as (s' & E' & _ & _ & Hi & _).
  rewrite E in E'. injection E' as <-. split_and!.
  - unfold render_samples. rewrite (run_bind _ _ _ (Some boot_config) s) by (unfold gets; by rewrite Hi).
    rewrite (run_bind _ _ _ boot_config s) by done. rewrite (run_bind _ _ _ tt s) by done.
    cbn [wBitsPerSample format]. by rewrite (Z.div_small bits 8) by lia.
  - unfold render_samples. rewrite (run_bind _ _ _ (Some boot_config) s) by (unfold gets; by rewrite Hi).
    rewrite (run_bind _ _ _ boot_config s) by done. by rewrite (run_bind _ _ _ tt s) by done.
  - assert ((fun m => match m with Ret (_, s) => match i2s_set_sample_rates 0 1500000 (i2s s) with
             Ret _ => false | Fault e => bool_decide (e = DivideByZero) end | Fault _ => false end)
           (boot_renderer irqs r0) = true) as Hc by (vm_compute; reflexivity).
    rewrite E in Hc. cbv beta in Hc. clear E. unfold render_samples.
    rewrite (run_bind _ _ _ (Some boot_config) s) by (unfold gets; by rewrite Hi).
    rewrite (run_bind _ _ _ boot_config s) by done. apply run_bind_fault.
    change (negb _) with true. cbn [when]. apply run_bind_fault. unfold on_i2s.
    change (i2s_num boot_config) with 0. change (nSamplesPerSec _) with 1500000.
    destruct (i2s_set_sample_rates 0 1500000 (i2s s)) as [| e]; [discriminate Hc |].
    apply bool_decide_eq_true in Hc as ->. reflexivity.
Qed.

(** * Witnesses *)

(** A frame with four spare bytes behind [dummy]. *)
Definition roomy : DummyRoom := {| dummy_room := 8 |}.
#[local] Existing Instance roomy.

Definition any_regs : Z -> field -> Z := fun _ _ => 0.
Definition demo_irqs : list (list (Z * Z)) := [[(4096, 0)]; [(4096, 1); (4096, 2)]].

Lemma render_samples_spec_witness : exists s,
  boot_renderer demo_irqs any_regs = Ret (tt, s) /\
  wp (render_samples [1; 2; 3; 4; 5; 6; 7; 8] 8 (format 2 48000 16))
    (fun res _ => res.2 = [[3; 132; 1; 130]; [7; 136; 5; 134]]) s.
Proof.
  destruct (boot_runs demo_irqs any_regs) as (s & E & _ & _ & Hi & Hst & _ & Hp).
  exists s. split; [exact E |]. eapply wp_mono.
  - apply (render_samples_spec 0 32 1 44100 [1; 2; 3; 4; 5; 6; 7; 8] 8 (format 2 48000 16) s);
      [discriminate | exists boot_config; split; [exact Hi | split; reflexivity] | by rewrite Hst | reflexivity
      | exact (boot_ready _ _ s E) | cbn; lia | right; reflexivity | reflexivity | right; reflexivity | | lia |].
    + rewrite Hp. repeat constructor; cbn; lia.
    + intros _. vm_compute. discriminate.
  - intros res s' (k & [_ Hk] & Hout & _ & Hmin & _). rewrite Hp in Hmin.
    change (8 / 2 / nChannels (format 2 48000 16)) with 2 in *. change (served demo_irqs) with 2 in Hmin.
    assert (k = 2) as -> by lia. rewrite Hout. reflexivity.
Defined.

Lemma renderer_uninstall_no_leak_witness : exists s s',
  boot_renderer [] any_regs = Ret (tt, s) /\ i2s_driver_uninstall 0 (i2s s) = Ret (ESP_OK, s') /\ live s' = [0].
Proof.
  destruct (boot_runs [] any_regs) as (s & E & _). exists s.
  destruct (renderer_uninstall_no_leak [] any_regs s E) as (s' & E' & Hl & _).
  exists s'. split; [exact E |]. split; [exact E' | exact Hl].
Defined.

Lemma render_samples_format_faults_witness : exists s,
  boot_renderer [] any_regs = Ret (tt, s) /\
  render_samples [] 1024 (format 2 1500000 16) s = Fault DivideByZero.
Proof.
  destruct (boot_runs [] any_regs) as (s & E & _). exists s. split; [exact E |].
  destruct (render_samples_format_faults [] any_regs s [] 1024 2 0 E) as (_ & _ & H); [lia | exact H].
Defined.
