(* ===== verification/AudioPlayer.v ===== *)
(** The stream consumer (src/ESP32/components/audio_player/audio_player.c) and the
    render task it starts ([render_audio] of src/ESP32/components/audio_render/
    audio_render.c), at the two ends of the byte FIFO: the configuration of the
    firmware in which the network task calls [audio_stream_consumer].

    Both are state machines whose moves are the critical sections of the FIFO
    and what the code does between them; [play_step] lets them interleave. *)

From S2P Require Import Prelude Ring Semaphore SpiRamFifo AudioRender.

(** * The code *)

Inductive player_command_t := CMD_NONE | CMD_START | CMD_STOP.

#[export] Instance player_command_eq_dec : EqDecision player_command_t.
Proof. solve_decision. Defined.

(** The static variables of audio_player.c; the counter of the log is [t]. *)
Record player := mkPlayer {
  player_status : component_status_t;
  t : Z;
  command : player_command_t;
  decoder_command : player_command_t;
  decoder_status : component_status_t }.

Definition player_init : player := mkPlayer UNINITIALIZED 0 CMD_NONE CMD_NONE UNINITIALIZED.

Definition audio_player_init (p : player) : player := mkPlayer INITIALIZED (t p) (command p) (decoder_command p) (decoder_status p).
Definition audio_player_destroy (p : player) : player := mkPlayer UNINITIALIZED (t p) (command p) (decoder_command p) (decoder_status p).
Definition audio_player_start (p : player) : player := mkPlayer RUNNING (t p) (command p) (decoder_command p) (decoder_status p).
Definition audio_player_stop (p : player) : player := mkPlayer (player_status p) (t p) CMD_STOP (decoder_command p) (decoder_status p).
Definition get_player_status (p : player) : component_status_t := player_status p.

Section player.
Context {S : Type} `{!BinarySemaphore S}.

(** Where the network task stands inside audio_stream_consumer: outside, in
    spiRamFifoWrite, or before spiRamFifoFill. *)
Inductive cpc := CIdle | CWrite (w : wpc) | CFill.

(** The entry of audio_stream_consumer: the value it returns at once, or where
    it goes on. *)
Definition consumer_entry (p : player) (recv_buf : list Z) : player * (Z + cpc) :=
  if decide (command p = CMD_STOP)
  then (mkPlayer (player_status p) (t p) CMD_NONE CMD_STOP (decoder_status p), inl (-1))
  else (p, inr (if 0 <? zlen recv_buf then CWrite (WLoop recv_buf) else CFill)).

(** What xTaskCreate did. *)
Inductive created := NotAsked | Created | Refused.

(** From spiRamFifoFill to the return; [xTaskCreate] tells whether a task can
    be created. *)
Definition consumer_end (p : player) (bytes_in_buf : Z) (xTaskCreate : bool) : player * Z * created :=
  let fill_level := wrap_u 8 (Z.quot (bytes_in_buf * 100) spiRamFifoLen) in
  let min_fill_lvl := 50 in
  let enough_buffer := min_fill_lvl <? fill_level in
  let p_next p := mkPlayer (player_status p) (Z.land (t p + 1) 255) (command p) (decoder_command p) (decoder_status p) in
  if negb (bool_decide (decoder_status p = RUNNING)) && enough_buffer then
    if negb xTaskCreate then (p, -1, Refused)
    else (p_next (mkPlayer (player_status p) (t p) (command p) (decoder_command p) RUNNING), 0, Created)
  else (p_next p, 0, NotAsked).

(** A whole call while the render task does not run: what it returns, or the
    bytes it still holds when it blocks in spiRamFifoWrite. *)
Definition audio_stream_consumer (p : player) (f : fifo (S := S)) (recv_buf : list Z) (xTaskCreate : bool) :
    res (player * fifo (S := S) * (Z * created + list Z)) :=
  let '(p, r) := consumer_entry p recv_buf in
  match r with
  | inl v => Ret (p, f, inl (v, NotAsked))
  | inr _ =>
      x ← (if 0 <? zlen recv_buf then spiRamFifoWrite f recv_buf else Ret (f, WIdle));
      let '(f, w) := x in
      match w with
      | WLoop buff | WWait buff => Ret (p, f, inr buff)
      | WIdle =>
          match spiRamFifoFill f with
          | None => Ret (p, f, inr [])
          | Some bytes_in_buf =>
              let '(p, v, c) := consumer_end p bytes_in_buf xTaskCreate in Ret (p, f, inl (v, c))
          end
      end
  end.

(** The render task: not created, before spiRamFifoRead, inside it with the
    value it will return and the bytes so far, before or inside the reset, gone.
    The buffer, on its stack, has 1024 bytes. *)
Inductive tpc := TNone | TEnter | TRead (r : rpc) (m : Z) (out : list Z) | TReset | TBlocked | TDone.

(** One move of render_audio, with the blocks given to render_samples; [None]
    when it cannot move. *)
Definition render_audio (f : fifo (S := S)) (pc : tpc) : res (option (fifo (S := S) * tpc * list (list Z))) :=
  match pc with
  | TNone | TBlocked | TDone => Ret None
  | TEnter => let r := read_entry f 1024 1024 in Ret (Some (f, TRead r (read_value f r) [], []))
  | TRead RIdle bytes_to_read render_buffer =>
      if bytes_to_read <? 1024
      then Ret (Some (f, TReset, [render_buffer; replicate 16 0]))
      else Ret (Some (f, TEnter, [render_buffer]))
  | TRead r m out =>
      x ← reader_move f r;
      let m := match r with RClamp _ => read_value f r | _ => m end in
      match x with Some (f', r', bs) => Ret (Some (f', TRead r' m (out ++ bs), [])) | None => Ret None end
  | TReset =>
      if mux f then Ret None
      else match spiRamFifoReset f with
           | ResetDone f' => Ret (Some (f', TDone, []))
           | ResetBlocked f' => Ret (Some (f', TBlocked, []))
           end
  end.

(** * The two tasks *)

(** The state, the bytes the FIFO accepted and the blocks rendered so far. *)
Record play := mkPlay {
  pl : player; ff : fifo (S := S); net : cpc; ren : tpc; accepted : list Z; blocks : list (list Z) }.

Inductive play_step : play -> play -> Prop :=
  | PlayCall s buf p r : net s = CIdle -> consumer_entry (pl s) buf = (p, r) ->
      play_step s (mkPlay p (ff s) (match r with inl _ => CIdle | inr c => c end) (ren s) (accepted s) (blocks s))
  | PlayWrite s w f w' bs : net s = CWrite w -> writer_move (ff s) w = Ret (Some (f, w', bs)) ->
      play_step s (mkPlay (pl s) f (CWrite w') (ren s) (accepted s ++ bs) (blocks s))
  | PlayWritten s : net s = CWrite WIdle ->
      play_step s (mkPlay (pl s) (ff s) CFill (ren s) (accepted s) (blocks s))
  | PlayFill s fill ok p v c : net s = CFill -> spiRamFifoFill (ff s) = Some fill -> consumer_end (pl s) fill ok = (p, v, c) ->
      play_step s (mkPlay p (ff s) CIdle (match c with Created => TEnter | _ => ren s end) (accepted s) (blocks s))
  | PlayRender s f r out : render_audio (ff s) (ren s) = Ret (Some (f, r, out)) ->
      play_step s (mkPlay (pl s) f (net s) r (accepted s) (blocks s ++ out))
  | PlayStop s : play_step s (mkPlay (audio_player_stop (pl s)) (ff s) (net s) (ren s) (accepted s) (blocks s)).

(** After spiRamFifoInit, before the first call. *)
Definition play_start (s : play) : Prop :=
  exists ram p, zlen ram = SPIRAMSIZE /\ decoder_status p <> RUNNING /\
    s = mkPlay p (fst (spiRamFifoInit ram)) CIdle TNone [] [].

(** * The invariant *)

Context `{!BinarySemaphoreLaws S}.

(** More than half of the store: [fill_level] is above 50 from this fill on. *)
Definition START_FILL : Z := 65280.
Definition block : Z := 1024.

Definition full_blocks (bs : list (list Z)) : Prop := Forall (fun b => zlen b = block) bs.

(** The call will read more than the buffer holds. *)
Definition overread (s : play) : Prop := match ren s with TRead r _ _ => overlong (ff s) r | _ => False end.

(** The call so far: the value, what is left, the room; it ends the music only
    when enough has been rendered. *)
Definition reading (blocks : list (list Z)) (r : rpc) (m : Z) (out : list Z) : Prop :=
  match r with
  | RIdle => zlen out = m /\ m <= block
  | RClamp room => out = [] /\ room = block
  | RLoop len room | RWait len room => zlen out + len = m /\ room = block - zlen out
  end /\
  match r with RClamp _ => True | _ => m < block -> START_FILL <= block * zlen blocks + m end.

(** What has been rendered at each place of the render task. *)
Definition phase (s : play) : Prop :=
  match ren s with
  | TNone => blocks s = [] /\ accepted s = stored (ff s)
  | TEnter => full_blocks (blocks s) /\ accepted s = mjoin (blocks s) ++ stored (ff s) /\ START_FILL <= zlen (accepted s)
  | TRead r m out =>
      full_blocks (blocks s) /\ reader_inv (ff s) r /\ accepted s = mjoin (blocks s) ++ out ++ stored (ff s) /\
      START_FILL <= zlen (accepted s) /\ reading (blocks s) r m out
  | TReset | TDone => exists full last lost,
      blocks s = full ++ [last; replicate 16 0] /\ full_blocks full /\ zlen last < block /\
      START_FILL <= zlen (mjoin full ++ last) /\ accepted s = mjoin full ++ last ++ lost ++ stored (ff s)
  | TBlocked => False
  end.

Record play_ok (s : play) : Prop := {
  play_fifo : fifo_ok (ff s);
  play_net : match net s with CWrite w => writer_inv (ff s) w | _ => True end;
  play_status : decoder_status (pl s) = RUNNING <-> ren s <> TNone;
  play_sem : ren s <> TDone -> sem_available (semCanRead (ff s)) = true;
  play_phase : phase s }.

Lemma mjoin_full bs : full_blocks bs -> zlen (mjoin bs) = block * zlen bs.
Proof. induction 1 as [| b l Hb _ IH]; [done |]. change (mjoin (b :: l)) with (b ++ mjoin l). rewrite zlen_app, zlen_cons, IH, Hb. lia. Qed.

Lemma zlen_stored f : fifo_ok f -> zlen (stored f) = fifoFill f.
Proof. intros []. apply zlen_contents. lia. Qed.

(** The FIFO only grew: what the writer's moves and the start of a call do. *)
Lemma phase_write s f bs c p : phase s -> fifoFill (ff s) <= fifoFill f -> stored f = stored (ff s) ++ bs ->
  phase (mkPlay p f c (ren s) (accepted s ++ bs) (blocks s)).
Proof.
  unfold phase. cbn. intros H Hf Hst. destruct (ren s) as [| | r m out | | |]; [..| done |]; rewrite Hst.
  - by destruct H as [-> ->].
  - destruct H as (? & -> & ?). pose proof (zlen_nonneg bs). split_and!; [done | by rewrite <- app_assoc | rewrite zlen_app; lia].
  - destruct H as (? & Hr & -> & ? & ?). pose proof (zlen_nonneg bs). split_and!; try done.
    + by eapply reader_inv_after_write.
    + by rewrite <- !app_assoc.
    + rewrite zlen_app. lia.
  - destruct H as (full & last & lost & ? & ? & ? & ? & ->). exists full, last, lost. by rewrite <- !app_assoc.
  - destruct H as (full & last & lost & ? & ? & ? & ? & ->). exists full, last, lost. by rewrite <- !app_assoc.
Qed.

(** A move inside the loop. *)
Lemma loop_move f len room f' r' bs : fifo_ok f -> reader_inv f (RLoop len room) ->
  reader_move f (RLoop len room) = Ret (Some (f', r', bs)) ->
  (len = 0 /\ r' = RIdle /\ bs = [] /\ f' = f) \/
  (0 < zlen bs /\ r' = RLoop (len - zlen bs) (room - zlen bs) /\ zlen bs <= room).
Proof.
  intros Hok Hr. cbn [reader_move] in *. cbn in Hr. destruct (Z.ltb_spec 0 len) as [Hb | Hb].
  2: { intros [= <- <- <-]. left. split_and!; [lia | done..]. }
  rewrite (ok_mux f Hok). destruct (chunk_len_spec (fifoRpos f) len) as (? & ? & ? & ?); [apply Hok | done |].
  destruct (read_section_spec f len room Hok Hb) as [[Hf _] | [(_ & _ & ->) | (_ & Hrm & f1 & bs1 & -> & Hbs & _)]]; [lia | done |].
  cbn [mbind res_bind]. intros [= _ <- <-]. right. rewrite Hbs. split_and!; [lia | done | lia].
Qed.

(** What one move does to the call. *)
Lemma reading_move blocks f r m out f' r' bs : fifo_ok f -> reader_inv f r -> r <> RIdle ->
  (forall room, r = RClamp room -> START_FILL <= block * zlen blocks + fifoFill f) ->
  reading blocks r m out -> reader_move f r = Ret (Some (f', r', bs)) ->
  reading blocks r' (match r with RClamp _ => read_value f r | _ => m end) (out ++ bs).
Proof.
  intros Hok Hr Hne Hcl [H1 H2] E. destruct r as [| room | len room | len room]; [done | | | done].
  - cbn in E. injection E as <- <- <-. destruct H1 as [-> ->]. split; cbn; [unfold zlen; cbn; lia | intros _; by apply (Hcl block)].
  - destruct H1 as [H1 ->]. destruct (loop_move _ _ _ _ _ _ Hok Hr E) as [(-> & -> & -> & ->) | (Hb & -> & Hle)].
    + rewrite app_nil_r. split; [| done]. cbn in Hr. lia.
    + split; [| done]. rewrite zlen_app. lia.
Qed.

(** A move of the render task. *)
Lemma mjoin_snoc (bs : list (list Z)) b : mjoin (bs ++ [b]) = mjoin bs ++ b.
Proof. rewrite join_app. cbn. by rewrite app_nil_r. Qed.

Lemma render_ok s f r out : play_ok s -> render_audio (ff s) (ren s) = Ret (Some (f, r, out)) ->
  play_ok (mkPlay (pl s) f (net s) r (accepted s) (blocks s ++ out)).
Proof.
  intros [Hf Hn Hs Hsem Hp] E. unfold phase in Hp. destruct (ren s) as [| | r0 m out0 | | |] eqn:Er; try discriminate.
  all: assert (decoder_status (pl s) = RUNNING) as Hrun by (by apply Hs).
  - cbn [render_audio] in E. injection E as <- <- <-. destruct Hp as (Hb & Ha & Hl). pose proof (ok_fill _ Hf). pose proof (zlen_stored _ Hf).
    pose proof (mjoin_full _ Hb). destruct (read_entry_inv (ff s) 1024 1024 Hf) as [Hri _]; [done |].
    constructor; cbn; [done | done | done | intros _; by apply Hsem |].
    rewrite app_nil_r. unfold phase. cbn [ren blocks accepted ff]. split_and!; [done | exact Hri | by rewrite Ha | done |].
    rewrite Ha, zlen_app in Hl. unfold read_entry, read_value, block in *. change (1024 <=? 0) with false. cbv iota.
    split; destruct (Z.ltb_spec (fifoFill (ff s)) 1024); unfold zlen; cbn; done || lia.
  - destruct Hp as (Hb & Hr & Ha & Hst & Hm). assert (r0 = RIdle \/ r0 <> RIdle) as [-> | Hne] by (destruct r0; auto).
    + destruct Hm as [[Hl Hle] Hm].
      cbn [render_audio] in E. destruct (Z.ltb_spec m 1024) as [Hlt | Hge]; injection E as <- <- <-.
      all: constructor; cbn; [done | done | done | intros _; by apply Hsem |].
      * exists (blocks s), out0, []. specialize (Hm Hlt). split_and!; [done | done | unfold block; lia | | done].
        rewrite zlen_app, mjoin_full by done. lia.
      * split_and!; [| | done].
        { apply Forall_app. split; [done |]. constructor; [unfold block in *; lia | done]. }
        by rewrite mjoin_snoc, <- app_assoc.
    + assert (render_audio (ff s) (TRead r0 m out0) = x ← reader_move (ff s) r0;
        match x with Some (f', r', bs) => Ret (Some (f', TRead r' (match r0 with RClamp _ => read_value (ff s) r0 | _ => m end) (out0 ++ bs), [])) | None => Ret None end)
        as Er0 by (by destruct r0).
      rewrite Er0 in E. clear Er0. destruct (reader_move (ff s) r0) as [[[[f1 r1] bs] |] |] eqn:Emv; try discriminate. cbn [mbind res_bind] in E.
      destruct (reader_move_inv _ _ _ _ _ Hf Hr Emv) as (Hf1 & Hst1 & _ & Hr1 & Hpos & Hsem1 & _).
      assert (reading (blocks s) r1 (match r0 with RClamp _ => read_value (ff s) r0 | _ => m end) (out0 ++ bs)) as Hread.
      { eapply reading_move; [exact Hf | exact Hr | done | | exact Hm | exact Emv]. intros room ->. destruct Hm as [[-> _] _].
        pose proof (mjoin_full _ Hb). rewrite Ha, zlen_app in Hst. change ([] ++ stored (ff s)) with (stored (ff s)) in Hst.
        rewrite (zlen_stored _ Hf) in Hst. lia. }
      pose proof (reader_move_semr _ _ _ _ _ Hr Emv) as Hsemr. injection E as <- <- <-.
      rewrite app_nil_r. constructor; cbn; [done | | done | intros _; rewrite Hsemr; by apply Hsem |].
      { destruct (net s); [done | | done]. by eapply writer_inv_after_read. }
      split_and!; [done | done | by rewrite Ha, Hst1, <- !app_assoc | done | done].
  - cbn [render_audio] in E. rewrite (ok_mux _ Hf) in E. destruct (reset_done (ff s) Hf) as (f1 & Hres & Hf1 & Hst1 & _ & _ & Hsw); [by apply Hsem |].
    rewrite Hres in E. injection E as <- <- <-. rewrite app_nil_r. constructor; cbn; [done | | done | done |].
    { destruct (net s) as [| [| |] |]; try done. cbn in *. split; [apply Hn |]. by rewrite Hsw. }
    destruct Hp as (full & last & lost & Hb & Hfull & Hlast & Hlen & Ha).
    exists full, last, (lost ++ stored (ff s)). rewrite Hst1, app_nil_r. split_and!; [done.. | exact Ha].
Qed.

(** The network task's side. *)
Lemma fill_level_start fill : 0 <= fill <= SPIRAMSIZE ->
  (50 <? wrap_u 8 (Z.quot (fill * 100) spiRamFifoLen)) = (START_FILL <=? fill).
Proof.
  unfold spiRamFifoLen, SPIRAMSIZE, START_FILL. intros Hr. rewrite Z.quot_div_nonneg by lia. rewrite wrap_u_small.
  - pose proof (Z.mul_div_le (fill * 100) 128000). pose proof (Z.mul_succ_div_gt (fill * 100) 128000).
    destruct (Z.ltb_spec 50 (fill * 100 / 128000)), (Z.leb_spec 65280 fill); lia.
  - split; [apply Z.div_pos; lia |]. apply Z.div_lt_upper_bound; lia.
Qed.

Definition next_t (p : player) : player := mkPlayer (player_status p) (Z.land (t p + 1) 255) (command p) (decoder_command p) (decoder_status p).
Definition set_running (p : player) : player := mkPlayer (player_status p) (t p) (command p) (decoder_command p) RUNNING.

Lemma consumer_end_spec p fill ok : 0 <= fill <= SPIRAMSIZE ->
  consumer_end p fill ok =
    if bool_decide (decoder_status p <> RUNNING) && (START_FILL <=? fill)
    then if ok then (next_t (set_running p), 0, Created) else (p, -1, Refused)
    else (next_t p, 0, NotAsked).
Proof.
  intros Hf. unfold consumer_end. cbv zeta. rewrite fill_level_start by done.
  rewrite (bool_decide_not (decoder_status p = RUNNING)). destruct (negb _ && _); [by destruct ok | done].
Qed.

Lemma consumer_end_status p fill ok p' v c : 0 <= fill <= SPIRAMSIZE -> consumer_end p fill ok = (p', v, c) ->
  match c with
  | Created => decoder_status p <> RUNNING /\ decoder_status p' = RUNNING /\ START_FILL <= fill
  | _ => decoder_status p' = decoder_status p
  end.
Proof.
  intros Hf. rewrite consumer_end_spec by done. destruct (bool_decide_reflect (decoder_status p <> RUNNING)); cbn [andb]; [| by intros [= <- _ <-]].
  destruct (Z.leb_spec START_FILL fill); [| by intros [= <- _ <-]]. destruct ok; by intros [= <- _ <-].
Qed.

Lemma play_step_ok s s' : play_ok s -> play_step s s' -> play_ok s'.
Proof.
  intros Hok Hst. destruct Hst as [s buf p r En E | s w f w' bs En E | s En | s fill ok p v c En Ef E | s f r out E | s].
  - destruct Hok as [Hf Hn Hs Hsem Hp]. unfold consumer_entry in E.
    destruct (decide _); injection E as <- <-; constructor; cbn; try done. by destruct (0 <? zlen buf).
  - destruct Hok as [Hf Hn Hs Hsem Hp]. rewrite En in Hn.
    destruct (writer_move_inv _ _ _ _ _ Hf Hn E) as (Hf' & Hst & Hfill & _ & Hw').
    constructor; cbn; [done | done | done | | by apply phase_write].
    intros Hd. eapply writer_move_semr; [exact Hf | exact E | by apply Hsem].
  - destruct Hok as [Hf Hn Hs Hsem Hp]. by constructor.
  - destruct Hok as [Hf Hn Hs Hsem Hp]. unfold spiRamFifoFill in Ef. destruct (mux (ff s)); [discriminate |]. injection Ef as <-.
    pose proof (consumer_end_status _ _ _ _ _ _ (ok_fill _ Hf) E) as Hc.
    destruct c; [| | ]; [by constructor; cbn; [done | done | rewrite Hc | .. ] | | by constructor; cbn; [done | done | rewrite Hc | ..]].
    destruct Hc as (Hnr & Hr & Hlev). assert (ren s = TNone) as Hno.
    { destruct (ren s); try done; exfalso; apply Hnr, Hs; done. }
    unfold phase in Hp. rewrite Hno in Hp. destruct Hp as [Hb Ha].
    constructor; cbn; [done | done | done | intros _; apply Hsem; by rewrite Hno |].
    unfold phase. cbn. rewrite Hb, Ha. split_and!; [by constructor | done |].
    by rewrite zlen_stored.
  - by eapply render_ok.
  - destruct Hok as [Hf Hn Hs Hsem Hp]. by constructor.
Qed.

Lemma play_start_ok s : play_start s -> play_ok s.
Proof.
  intros (ram & p & Hl & Hp & ->). constructor; cbn; [by apply init_ok | done | done | | done].
  intros _. apply sem_create_ok.
Qed.

Lemma play_steps_ok s s' : play_ok s -> rtc play_step s s' -> play_ok s'.
Proof. intros H0 Hr. induction Hr as [| s0 s1 s2 H1 _ IH]; [done |]. apply IH. by eapply play_step_ok. Qed.

Lemma play_reach_ok s0 s : play_start s0 -> rtc play_step s0 s -> play_ok s.
Proof. intros H0. by apply play_steps_ok, play_start_ok. Qed.

(** * The render task on its own *)

Definition render_step (s s' : play) : Prop := exists f r out,
  render_audio (ff s) (ren s) = Ret (Some (f, r, out)) /\ s' = mkPlay (pl s) f (net s) r (accepted s) (blocks s ++ out).

Lemma render_step_play s s' : render_step s s' -> play_step s s'.
Proof. intros (f & r & out & E & ->). by constructor. Qed.

Lemma render_steps_play s s' : rtc render_step s s' -> rtc play_step s s'.
Proof. apply rtc_subrel. intros ??. apply render_step_play. Qed.

(** The rounds it still needs when nothing is written. *)
Definition rounds (s : play) : Z :=
  match ren s with
  | TNone | TBlocked | TDone => 0
  | TReset => 1
  | TEnter => 4 * fifoFill (ff s) + 10
  | TRead r m _ =>
      match r with
      | RIdle => 4 * fifoFill (ff s) + (if m <? block then 3 else 11)
      | RClamp _ => 2 * fifoFill (ff s) + (if fifoFill (ff s) <? block then 5 else 13)
      | RLoop l _ | RWait l _ => 4 * (fifoFill (ff s) - l) + (if m <? block then 3 else 11) + 2 * l + 1
      end
  end.

Lemma render_moves s : play_ok s -> ren s <> TNone -> ren s <> TDone ->
  (exists f r out, render_audio (ff s) (ren s) = Ret (Some (f, r, out))) \/
  overread s /\ render_audio (ff s) (ren s) = Fault OutOfBounds.
Proof.
  intros [Hf _ _ Hsem Hp] Hn Hd. unfold phase, overread in *. destruct (ren s) as [| | r m out | | |]; try done; cbn [render_audio].
  - left. eauto.
  - destruct Hp as (_ & Hr & _). assert (r = RIdle \/ r <> RIdle) as [-> | Hne] by (destruct r; auto); [left; destruct (_ <? _); eauto |].
    destruct (reader_moves _ _ Hf Hr Hne) as [(f1 & r1 & bs & E) | [Ho E]]; [left | right; split; [done |]]; destruct r; try done; rewrite E; cbn; eauto.
  - left. rewrite (ok_mux _ Hf). destruct (reset_done (ff s) Hf) as (f1 & -> & _); [by apply Hsem |]. eauto.
Qed.

(** Its own moves do not make a read too long. *)
Lemma render_step_overread s s' : play_ok s -> render_step s s' -> overread s' -> overread s.
Proof.
  intros [Hf _ _ _ Hp] (f & r & out & E & ->). unfold phase, overread in *. cbn [ren ff]. destruct (ren s) as [| | r0 m out0 | | |]; try discriminate.
  - cbn [render_audio] in E. injection E as <- <- <-. by apply read_entry_inv.
  - destruct Hp as (_ & Hr & _). assert (r0 = RIdle \/ r0 <> RIdle) as [-> | Hne] by (destruct r0; auto).
    + cbn in E. destruct (_ <? _); by injection E as <- <- <-.
    + destruct (reader_move (ff s) r0) as [[[[f1 r1] bs] |] |] eqn:Emv; [| destruct r0; try done; cbn [render_audio] in E; by rewrite Emv in E..].
      assert (f = f1 /\ exists m', r = TRead r1 m' (out0 ++ bs)) as (-> & m' & ->).
      { destruct r0; try done; cbn [render_audio] in E; rewrite Emv in E; injection E as <- <- <-; eauto. }
      by eapply reader_move_inv.
  - cbn in E. destruct (mux (ff s)); [discriminate |]. destruct (spiRamFifoReset (ff s)); by injection E as <- <- <-.
Qed.

Lemma rounds_decrease s s' : play_ok s -> render_step s s' -> 0 <= rounds s' < rounds s.
Proof.
  intros Hok (f & r & out & E & ->). pose proof (render_ok _ _ _ _ Hok E) as Hok'.
  pose proof (ok_fill _ (play_fifo _ Hok')) as Hfill'. cbn in Hfill'.
  destruct Hok as [Hf _ _ Hsem Hp]. unfold phase in Hp. unfold rounds. pose proof (ok_fill _ Hf) as Hfill.
  destruct (ren s) as [| | r0 m out0 | | |]; try discriminate; cbn [ren ff].
  - cbn [render_audio] in E. injection E as <- <- <-. unfold read_entry, read_value, block. change (1024 <=? 0) with false. cbv iota.
    destruct (Z.ltb_spec (fifoFill (ff s)) 1024); [lia |]. change (1024 <? 1024) with false. lia.
  - destruct Hp as (_ & Hr & _ & _ & Hm). destruct r0 as [| room | l room | l room]; [| | | done].
    + cbn [render_audio] in E. fold block in E. destruct (Z.ltb_spec m block); injection E as <- <- <-; lia.
    + cbn in E. injection E as <- <- <-. cbn [read_value]. destruct (fifoFill (ff s) <? block); lia.
    + cbn [render_audio] in E. destruct (reader_move (ff s) (RLoop l room)) as [[[[f1 r1] bs] |] |] eqn:Emv; try discriminate.
      cbn in E. injection E as <- <- <-.
      destruct (reader_move_inv _ _ _ _ _ Hf Hr Emv) as (Hf1 & Hst & _ & Hr1 & _).
      apply (f_equal zlen) in Hst. rewrite zlen_app, !zlen_stored in Hst by done. cbn in Hr.
      destruct (loop_move _ _ _ _ _ _ Hf Hr Emv) as [(-> & -> & -> & ->) | (Hpos & -> & Hle)]; destruct (m <? block); cbn in Hr1; lia.
  - cbn [render_audio] in E. rewrite (ok_mux _ Hf) in E. destruct (spiRamFifoReset (ff s)); injection E as <- <- <-; lia.
Qed.

Lemma drains s : play_ok s -> ren s <> TNone -> ~ overread s -> exists s', rtc render_step s s' /\ ren s' = TDone.
Proof.
  remember (Z.to_nat (rounds s)) as n eqn:En. revert s En. induction n as [n IH] using lt_wf_ind. intros s -> Hok Hn Hov.
  assert (ren s = TDone \/ ren s <> TDone) as [Hd | Hd] by (destruct (ren s); auto); [by exists s |].
  destruct (render_moves s Hok Hn Hd) as [(f & r & out & E) | [? _]]; [| done].
  set (s1 := mkPlay (pl s) f (net s) r (accepted s) (blocks s ++ out)).
  assert (render_step s s1) as Hst by (repeat eexists; exact E).
  pose proof (rounds_decrease _ _ Hok Hst). pose proof (render_ok _ _ _ _ Hok E : play_ok s1) as Hok'.
  destruct (IH (Z.to_nat (rounds s1)) ltac:(lia) s1 eq_refl Hok') as (s' & Hrun & Hd'); [| | exists s'; split; [by eapply rtc_l | done]].
  - by apply (play_status s1 Hok'), (play_status s Hok).
  - intros Ho. apply Hov. by eapply render_step_overread.
Qed.

Lemma render_steps_frame s s' : rtc render_step s s' -> pl s' = pl s /\ net s' = net s /\ accepted s' = accepted s.
Proof. induction 1 as [| s s1 s2 (f & r & out & _ & ->) _ IH]; [done | exact IH]. Qed.

(** * Theorems *)

Definition ended (pc : tpc) : bool := match pc with TReset | TDone => true | _ => false end.

(** What may have been rendered of the bytes accepted: whole blocks of them, from
    the first byte on; when the loop has ended, also one short block and the
    sixteen zero bytes. *)
Definition rendered (accepted : list Z) (blocks : list (list Z)) (ended : bool) : Prop :=
  if ended then exists full last, blocks = full ++ [last; replicate 16 0] /\ full_blocks full /\ zlen last < block /\
    63 <= zlen full /\ mjoin full ++ last `prefix_of` accepted
  else full_blocks blocks /\ mjoin blocks `prefix_of` accepted.

Lemma ok_rendered s : play_ok s -> rendered (accepted s) (blocks s) (ended (ren s)) /\ (blocks s <> [] -> START_FILL <= zlen (accepted s)).
Proof.
  intros [_ _ _ _ Hp]. unfold phase in Hp. destruct (ren s) as [| | r m out | | |]; cbn [ended rendered]; [.. | done |].
  - destruct Hp as [-> _]. split; [split; [by constructor | apply prefix_nil] | done].
  - destruct Hp as (? & -> & ?). split; [split; [done | by eexists] | done].
  - destruct Hp as (? & _ & -> & ? & _). split; [split; [done | by eexists] | done].
  - destruct Hp as (full & last & lost & -> & Hb & Hlast & Hlen & ->). rewrite app_assoc. split; [| rewrite zlen_app; pose proof (zlen_nonneg (lost ++ stored (ff s))); lia].
    exists full, last. rewrite zlen_app, mjoin_full in Hlen by done. unfold START_FILL, block in *. split_and!; [done | done | done | lia | by eexists].
  - destruct Hp as (full & last & lost & -> & Hb & Hlast & Hlen & ->). rewrite app_assoc. split; [| rewrite zlen_app; pose proof (zlen_nonneg (lost ++ stored (ff s))); lia].
    exists full, last. rewrite zlen_app, mjoin_full in Hlen by done. unfold START_FILL, block in *. split_and!; [done | done | done | lia | by eexists].
Qed.

(** Only the network task can make a read too long, by a store between the two
    looks at the fill level. *)
Lemma overread_by_store s s' : play_ok s -> play_step s s' -> ~ overread s -> overread s' ->
  accepted s' <> accepted s /\ exists room m, ren s = TRead (RClamp room) m [].
Proof.
  intros Hok Hst Hn Ho. destruct Hst as [s buf p r En E | s w f w' bs En E | s En | s fill ok p v c En Ef E | s f r out E | s]; try done.
  - pose proof Hok as [Hf Hw _ _ Hp]. rewrite En in Hw. unfold phase, overread in *. cbn in *.
    destruct (writer_move_inv _ _ _ _ _ Hf Hw E) as (Hf' & Hst & _).
    destruct (ren s) as [| | r m out | | |]; try done. destruct Hp as (_ & _ & _ & _ & Hrd). destruct r as [| room | len room | len room]; try done.
    destruct Hrd as [[-> _] _]. split; [| by exists room, m]. intros Ea. apply (f_equal zlen) in Ea. rewrite zlen_app in Ea.
    apply (f_equal zlen) in Hst. rewrite zlen_app, !zlen_stored in Hst by done. cbn in *. lia.
  - unfold overread in *. cbn in *. by destruct c.
  - exfalso. apply Hn. eapply render_step_overread; [done | by repeat eexists | exact Ho].
Qed.

(** C9. Over every interleaving of the network task and the render task from
    start-up on: what is rendered is the accepted byte stream in blocks of 1024
    bytes, without a gap, a repetition or a reordering; rendering starts only
    when more than half of the FIFO has been filled, so that at least 63 whole
    blocks precede the short block that ends it; the final reset does not block
    and the render task can always move until it has ended, and the network task
    is blocked only in spiRamFifoWrite, while fewer than 64 bytes are free.  No
    access faults but in one case: when the network task stores bytes between the
    two looks spiRamFifoRead takes at the fill level, the length can exceed the
    1024 bytes of the render task's buffer, and the read runs over its end before
    anything of it is rendered. *)
Theorem player_stream s0 s : play_start s0 -> rtc play_step s0 s ->
  rendered (accepted s) (blocks s) (ended (ren s)) /\
  (blocks s <> [] -> START_FILL <= zlen (accepted s)) /\
  ren s <> TBlocked /\
  (ren s <> TNone -> ren s <> TDone -> (exists s', render_step s s') \/
     overread s /\ render_audio (ff s) (ren s) = Fault OutOfBounds) /\
  (forall s', play_step s s' -> ~ overread s -> overread s' ->
     accepted s' <> accepted s /\ exists room m, ren s = TRead (RClamp room) m []) /\
  match net s with
  | CIdle => True
  | CFill => spiRamFifoFill (ff s) = Some (fifoFill (ff s))
  | CWrite w => w = WIdle \/ (exists f w' bs, writer_move (ff s) w = Ret (Some (f, w', bs))) \/
      (writer_move (ff s) w = Ret None /\ SPIRAMSIZE - fifoFill (ff s) < SPIREADSIZE)
  end.
Proof.
  intros H0 Hr. pose proof (play_reach_ok _ _ H0 Hr) as Hok. destruct (ok_rendered _ Hok) as [H1 H2].
  split_and!; [done | done | | | |].
  - intros E. pose proof (play_phase _ Hok) as Hp. unfold phase in Hp. by rewrite E in Hp.
  - intros Hn Hd. destruct (render_moves s Hok Hn Hd) as [(f & r & out & E) | Ho]; [left; repeat eexists; exact E | by right].
  - intros s'. by apply overread_by_store.
  - pose proof (play_fifo _ Hok) as Hf. pose proof (play_net _ Hok) as Hn. destruct (net s) as [| w |]; [done | |].
    + assert (w = WIdle \/ w <> WIdle) as [| Hw] by (destruct w; auto); [by left | right]. by apply writer_moves_or_full.
    + unfold spiRamFifoFill. by rewrite (ok_mux _ Hf).
Qed.

(** After the end: the network task still writes, nobody reads. *)
Record over (s s' : play) : Prop := {
  over_ren : ren s' = TDone;
  over_blocks : blocks s' = blocks s;
  over_status : decoder_status (pl s') = RUNNING;
  over_stored : exists more, accepted s' = accepted s ++ more /\ stored (ff s') = stored (ff s) ++ more;
  over_stuck : forall buff, net s = CWrite (WWait buff) -> sem_available (semCanWrite (ff s)) = false ->
    net s' = net s /\ semCanWrite (ff s') = semCanWrite (ff s) }.

Lemma over_step s s' : play_ok s -> ren s = TDone -> play_step s s' -> over s s'.
Proof.
  intros Hok Hd Hst. assert (decoder_status (pl s) = RUNNING) as Hrun by (apply (play_status _ Hok); by rewrite Hd).
  destruct Hok as [Hf Hn _ _ _].
  destruct Hst as [s buf p r En E | s w f w' bs En E | s En | s fill ok p v c En Ef E | s f r out E | s].
  - constructor; cbn; [done | done | | exists []; by rewrite !app_nil_r | by rewrite En].
    unfold consumer_entry in E. by destruct (decide _); injection E as <- _.
  - rewrite En in Hn. destruct (writer_move_inv _ _ _ _ _ Hf Hn E) as (_ & Hst & _).
    constructor; cbn; [done | done | done | by exists bs |].
    intros buff Ew Hs. rewrite En in Ew. injection Ew as ->. cbn in E. rewrite (sem_take_empty _ (ok_semw _ Hf) Hs) in E. discriminate.
  - constructor; cbn; [done.. | exists []; by rewrite !app_nil_r | by rewrite En].
  - unfold spiRamFifoFill in Ef. destruct (mux (ff s)); [discriminate |]. injection Ef as <-.
    pose proof (consumer_end_status _ _ _ _ _ _ (ok_fill _ Hf) E) as Hc.
    constructor; cbn; [destruct c; [done | by destruct Hc | done] | done | destruct c; [congruence | apply Hc | congruence] | exists []; by rewrite !app_nil_r | by rewrite En].
  - rewrite Hd in E. discriminate.
  - constructor; cbn; [done.. | exists []; by rewrite !app_nil_r | done].
Qed.

Lemma over_trans s1 s2 s3 : over s1 s2 -> over s2 s3 -> over s1 s3.
Proof.
  intros [_ B1 _ (m1 & A1 & S1) T1] [R2 B2 C2 (m2 & A2 & S2) T2].
  constructor; [done | congruence | done | exists (m1 ++ m2); by rewrite A2, S2, A1, S1, !app_assoc |].
  intros buff Hn Hs. destruct (T1 buff Hn Hs) as [Hn1 Hs1]. rewrite <- Hn1, <- Hs1.
  apply (T2 buff); by rewrite ?Hn1, ?Hs1.
Qed.

Lemma over_steps s s' : play_ok s -> ren s = TDone -> rtc play_step s s' -> over s s'.
Proof.
  intros Hok Hd Hr. revert Hok Hd. induction Hr as [s | s s1 s2 Hst _ IH]; intros Hok Hd.
  - constructor; [done | done | apply (play_status _ Hok); by rewrite Hd | exists []; by rewrite !app_nil_r | done].
  - pose proof (over_step _ _ Hok Hd Hst) as Ho. eapply over_trans; [exact Ho |].
    apply IH; [by eapply play_step_ok | apply Ho].
Qed.

(** C10. The music plays once: from every reachable state in which the render task
    exists, and is not in a read that a store has made too long for its buffer
    (see [player_stream]), it ends by itself if no byte arrives in time, after finitely many of
    its own moves; once it has ended, nothing is ever rendered again, whatever
    arrives: [decoder_status] stays RUNNING, so no new task is created, the FIFO
    accepts at most what it has room for, and a writer waiting for room waits
    for ever. *)
Theorem player_plays_once s0 s : play_start s0 -> rtc play_step s0 s -> ren s <> TNone -> ~ overread s ->
  exists s1, rtc render_step s s1 /\ ren s1 = TDone /\
  forall s2, rtc play_step s1 s2 ->
    ren s2 = TDone /\ blocks s2 = blocks s1 /\ decoder_status (pl s2) = RUNNING /\
    zlen (accepted s2) - zlen (accepted s1) <= SPIRAMSIZE - fifoFill (ff s1) /\
    forall buff s3, net s2 = CWrite (WWait buff) -> sem_available (semCanWrite (ff s2)) = false ->
      rtc play_step s2 s3 -> net s3 = CWrite (WWait buff).
Proof.
  intros H0 Hr Hn Hov. pose proof (play_reach_ok _ _ H0 Hr) as Hok. destruct (drains s Hok Hn Hov) as (s1 & Hrun & Hd).
  exists s1. split; [done |]. split; [done |]. intros s2 H12.
  pose proof (render_steps_play _ _ Hrun) as H1. pose proof (play_reach_ok _ _ H0 (transitivity Hr H1)) as Hok1.
  pose proof (play_steps_ok _ _ Hok1 H12) as Hok2.
  destruct (over_steps _ _ Hok1 Hd H12) as [Hd2 Hb Hs (more & Ha & Hst) _]. split_and!; [done | done | done | |].
  - rewrite Ha, zlen_app. apply (f_equal zlen) in Hst. rewrite zlen_app, !zlen_stored in Hst by (apply Hok1 || apply Hok2).
    pose proof (ok_fill _ (play_fifo _ Hok2)). lia.
  - intros buff s3 Hw Hsem H23. rewrite <- Hw. apply (over_stuck _ _ (over_steps _ _ Hok2 Hd2 H23) buff Hw Hsem).
Qed.

(** A call of audio_stream_consumer, on every branch. *)
Theorem audio_stream_consumer_spec p f buf ok : fifo_ok f ->
  let room := SPIRAMSIZE - fifoFill f in
  let fill := fifoFill f + zlen buf in
  if decide (command p = CMD_STOP) then
    audio_stream_consumer p f buf ok = Ret (mkPlayer (player_status p) (t p) CMD_NONE CMD_STOP (decoder_status p), f, inl (-1, NotAsked))
  else exists f', fifo_ok f' /\
    if zlen buf <=? room then stored f' = stored f ++ buf /\
      audio_stream_consumer p f buf ok =
        if bool_decide (decoder_status p <> RUNNING) && (START_FILL <=? fill)
        then if ok then Ret (next_t (set_running p), f', inl (0, Created)) else Ret (p, f', inl (-1, Refused))
        else Ret (next_t p, f', inl (0, NotAsked))
    else exists k, audio_stream_consumer p f buf ok = Ret (p, f', inr (drop k buf)) /\
      stored f' = stored f ++ take k buf /\ SPIRAMSIZE - fifoFill f' < Z.min SPIREADSIZE (zlen (drop k buf)).
Proof.
  intros Hok room fill. unfold audio_stream_consumer, consumer_entry. destruct (decide (command p = CMD_STOP)); [done |].
  assert (exists f' pc', (if 0 <? zlen buf then spiRamFifoWrite f buf else Ret (f, WIdle)) = Ret (f', pc') /\ write_outcome f buf f' pc')
    as (f' & pc' & E & Ho).
  { destruct (Z.ltb_spec 0 (zlen buf)) as [Hb | Hb].
    - apply run_writer_spec; [done |]. unfold spare_rounds, zlen. case_match; lia.
    - assert (buf = []) as -> by (apply zlen_0_nil; pose proof (zlen_nonneg buf); lia).
      exists f, WIdle. split; [done |]. split; [done |]. pose proof (ok_fill _ Hok). rewrite zlen_nil, app_nil_r. by case_cmp. }
  exists f'. split; [apply Ho |]. cbn [fst snd]. rewrite E. cbn [mbind res_bind].
  destruct Ho as [Hok' Ho]. fold room in Ho. destruct (Z.leb_spec (zlen buf) room).
  - destruct Ho as [-> Hst]. split; [done |]. unfold spiRamFifoFill. rewrite (ok_mux _ Hok').
    assert (fifoFill f' = fill) as ->.
    { rewrite <- (zlen_stored f'), Hst, zlen_app, zlen_stored by done. done. }
    rewrite consumer_end_spec by (pose proof (ok_fill _ Hok); pose proof (zlen_nonneg buf); unfold fill, room in *; lia).
    destruct (_ && _); [by destruct ok | done].
  - destruct Ho as (k & -> & Hst & H1 & H2). exists k. split_and!; [done | done | lia].
Qed.

(** A whole write call is a run of the network task. *)
Lemma run_writer_play fuel s pc f' : net s = CWrite pc -> run_writer fuel (ff s) pc = Ret (f', WIdle) ->
  exists bs, rtc play_step s (mkPlay (pl s) f' (CWrite WIdle) (ren s) (accepted s ++ bs) (blocks s)).
Proof.
  revert s pc. induction fuel as [| fuel IH]; intros s pc Hn; cbn [run_writer]; [discriminate |].
  destruct (writer_move (ff s) pc) as [[[[f1 pc1] bs1] |] |] eqn:E; cbn [mbind res_bind]; [| | discriminate].
  - intros Hr. pose proof (PlayWrite s _ _ _ _ Hn E) as Hst.
    destruct (IH (mkPlay (pl s) f1 (CWrite pc1) (ren s) (accepted s ++ bs1) (blocks s)) pc1 eq_refl Hr) as (bs & Hrun).
    exists (bs1 ++ bs). eapply rtc_l; [exact Hst |]. cbn in Hrun. by rewrite <- app_assoc in Hrun.
  - intros [= <- ->]. exists []. rewrite app_nil_r. rewrite <- Hn. destruct s. apply rtc_refl.
Qed.

(** The call that starts the music. *)
Lemma play_begins s (buf : list Z) : play_ok s -> net s = CIdle -> ren s = TNone -> command (pl s) <> CMD_STOP ->
  START_FILL <= fifoFill (ff s) + zlen buf <= SPIRAMSIZE -> 0 < zlen buf ->
  exists s', rtc play_step s s' /\ ren s' = TEnter.
Proof.
  intros Hok Hn Hno Hcmd Hl Hb. pose proof (play_fifo _ Hok) as Hf.
  destruct (run_writer_spec (length buf + 6) (ff s) buf Hf) as (f' & pc' & E & Hf' & Ho); [unfold spare_rounds, zlen; case_match; lia |].
  destruct (Z.leb_spec (zlen buf) (SPIRAMSIZE - fifoFill (ff s))); [| lia]. destruct Ho as [-> Hst].
  set (s1 := mkPlay (pl s) (ff s) (CWrite (WLoop buf)) (ren s) (accepted s) (blocks s)).
  assert (play_step s s1) as H1.
  { pose proof (PlayCall s buf (pl s) (inr (CWrite (WLoop buf))) Hn) as Hc. apply Hc. unfold consumer_entry.
    rewrite decide_False by done. by destruct (Z.ltb_spec 0 (zlen buf)); [| lia]. }
  destruct (run_writer_play _ s1 _ _ eq_refl E) as (bs & H2).
  set (s2 := mkPlay (pl s1) f' (CWrite WIdle) (ren s1) (accepted s1 ++ bs) (blocks s1)) in *.
  pose proof (PlayWritten s2 eq_refl) as H3. set (s3 := mkPlay _ _ CFill _ _ _) in H3.
  assert (fifoFill f' = fifoFill (ff s) + zlen buf) as Hfill by (rewrite <- (zlen_stored f'), Hst, zlen_app, zlen_stored; done).
  assert (spiRamFifoFill (ff s3) = Some (fifoFill f')) as Hff by (unfold spiRamFifoFill; cbn; by rewrite (ok_mux _ Hf')).
  assert (decoder_status (pl s) <> RUNNING) as Hnr by (intros Hx; by apply (play_status _ Hok) in Hx).
  assert (consumer_end (pl s3) (fifoFill f') true = (next_t (set_running (pl s)), 0, Created)) as Hend.
  { rewrite consumer_end_spec by (apply Hf'). cbn [pl s3]. rewrite bool_decide_true by done. by destruct (Z.leb_spec START_FILL (fifoFill f')); [| lia]. }
  pose proof (PlayFill s3 _ true _ _ _ eq_refl Hff Hend) as H4.
  eexists. split; [| shelve]. eapply rtc_l; [exact H1 |]. etrans; [exact H2 |]. eapply rtc_l; [exact H3 |]. eapply rtc_once. exact H4.
  Unshelve. done.
Qed.
End player.

(** * Witnesses *)

Definition demo_play : play (S := bool) := mkPlay player_init demo_fifo CIdle TNone [] [].

Lemma demo_play_start : play_start demo_play.
Proof. exists demo_ram, player_init. split; [apply demo_ram_length | done]. Qed.

Lemma demo_begins : exists s, rtc play_step demo_play s /\ ren s = TEnter.
Proof.
  apply (play_begins demo_play (replicate (Z.to_nat START_FILL) 7));
    [apply play_start_ok, demo_play_start | done | done | done | |];
    unfold zlen; rewrite length_replicate; unfold START_FILL, SPIRAMSIZE; cbn [ff demo_play demo_fifo spiRamFifoInit fst fifoFill]; lia.
Qed.

Lemma player_stream_witness : exists s, rtc play_step demo_play s /\ ren s = TEnter /\ exists s', render_step s s'.
Proof.
  destruct demo_begins as (s & Hr & E). exists s. split; [exact Hr |]. split; [exact E |].
  destruct (player_stream demo_play s demo_play_start Hr) as (_ & _ & _ & H & _).
  destruct H as [H | [Ho _]]; [rewrite E; discriminate | rewrite E; discriminate | exact H | exfalso; unfold overread in Ho; rewrite E in Ho; exact Ho].
Defined.

Lemma player_plays_once_witness : exists s s1, rtc play_step demo_play s /\ ren s = TEnter /\ rtc render_step s s1 /\ ren s1 = TDone.
Proof.
  destruct demo_begins as (s & Hr & E).
  destruct (player_plays_once demo_play s demo_play_start Hr) as (s1 & H1 & H2 & _); [rewrite E; discriminate | unfold overread; rewrite E; intros [] |].
  exists s, s1. split; [exact Hr |]. split; [exact E |]. split; [exact H1 | exact H2].
Defined.

Lemma audio_stream_consumer_spec_witness : exists f',
  audio_stream_consumer player_init demo_fifo [1; 2; 3] true = Ret (next_t player_init, f', inl (0, NotAsked)).
Proof.
  destruct (audio_stream_consumer_spec player_init demo_fifo [1; 2; 3] true demo_fifo_ok) as (f' & _ & _ & H).
  exists f'. exact H.
Defined.
