(* ===== verification/TcpPerf.v ===== *)
(** The network side (src/ESP32/main/tcp_perf.c): the WiFi event handler, the
    server and its receive task, and the player task that parses the packets
    out of the byte stream and renders them.  The packet format is the one the
    sender (src/WIN32/build/TestPA/TestPA.cpp) produces. *)

From S2P Require Import Prelude MsgQueue ByteSource I2s AudioRender DataBuffer.

(** * Packets *)

Definition SEND_HEADER : Z := 1.
Definition SEND_DATA : Z := 2.
Definition SEND_ACK : Z := 3.

Definition sizeof_TCP_COMMAND : Z := 4.
Definition sizeof_DWORD : Z := 4.
Definition sizeof_WAVEFORMATEX : Z := 20.
(* int buffer[4096] *)
Definition sizeof_buffer : Z := 16384.

(** A little-endian unsigned integer. *)
Fixpoint le_dec (l : list Z) : Z :=
  match l with [] => 0 | b :: l => b + 256 * le_dec l end.

(** The fields of the structure in memory. *)
Definition wfx_of (m : list Z) : WAVEFORMATEX :=
  mkWfx (le_dec (slice 0 2 m)) (le_dec (slice 2 2 m)) (le_dec (slice 4 4 m)) (le_dec (slice 8 4 m))
    (le_dec (slice 12 2 m)) (le_dec (slice 14 2 m)) (le_dec (slice 16 2 m)) (le_dec (slice 18 2 m)).

(** Bytes stored over a 32-bit variable. *)
Definition store32 (old : Z) (bytes : list Z) : res Z :=
  m ← memcpy_to (le32 old) 0 bytes; Ret (le_dec m).

(** The sender's [UserData]: the send buffer shared between the callback of
    PortAudio and the sending thread.  The buffer holds 1024 stereo frames, a
    command and a format. *)
Record UserData := mkUserData { audio_data : list Z; data_state : Z; size_buffer : Z }.

Definition FRAMES_PER_BUFFER : Z := 1024.
Definition sizeof_audio_data : Z := FRAMES_PER_BUFFER * 2 * 2 + sizeof_TCP_COMMAND + sizeof_WAVEFORMATEX.

(** A block of 16 bit stereo frames becomes a packet in the send buffer,
    whether the previous one has been sent or not. *)
Definition recordCallback (input : list Z) (framesPerBuffer : Z) (u : UserData) : res UserData :=
  m ← memcpy_to (audio_data u) 0 (le32 SEND_DATA);
  let data_length := wrap_u 32 (framesPerBuffer * 4) in
  m ← memcpy_to m sizeof_TCP_COMMAND (le32 data_length);
  data ← memcpy_from input 0 data_length;
  m ← memcpy_to m (sizeof_TCP_COMMAND + sizeof_DWORD) data;
  Ret (mkUserData m 1 (sizeof_TCP_COMMAND + sizeof_DWORD + data_length)).

(** One round of the sending thread, with the bytes it sends. *)
Definition threadFunctionSendData (u : UserData) : res (UserData * list Z) :=
  if data_state u =? 1 then
    bytes ← memcpy_from (audio_data u) 0 (size_buffer u);
    Ret (mkUserData (audio_data u) 0 (size_buffer u), bytes)
  else Ret (u, []).

(** The sender: blocks that arrive, and rounds of the thread. *)
Inductive sender_event := Records (input : list Z) (frames : Z) | ThreadRuns.

Fixpoint sender (evs : list sender_event) (u : UserData) : res (UserData * list Z) :=
  match evs with
  | [] => Ret (u, [])
  | Records input n :: evs => u ← recordCallback input n u; sender evs u
  | ThreadRuns :: evs =>
      r ← threadFunctionSendData u; r2 ← sender evs r.1; Ret (r2.1, r.2 ++ r2.2)
  end.

Section player.
Context {B : Type} `{!ByteSource B} {Q : Type} `{!MsgQueue Q} {DummyRoom0 : DummyRoom}.

(** The player task: the source of its bytes, the renderer, the global [wfx] as
    memory, and the locals of [prcess_character]. *)
Record player := mkPlayer {
  source : B;
  rend : render (Q := Q);
  wfx : list Z;
  buffer : list Z;
  tcp_command : Z;
  length_data : Z }.

(** The stores with which [prcess_character] begins. *)
Definition player_start (p : player) : player :=
  let m := blit 2 [2; 0] (wfx p) in
  let m := blit 14 [16; 0] m in
  let m := blit 4 (le32 48000) m in
  mkPlayer (source p) (rend p) m (buffer p) (tcp_command p) (length_data p).

(** One round of the loop: the next state with the samples rendered, or where
    the task waits (for bytes, or for room in the DMA queue). *)
Inductive round :=
  | Next (p : player) (out : list (list Z))
  | WaitsForData
  | WaitsForRoom (out : list (list Z)).

(** [buffer_read_data (dst, n)] into memory. *)
Definition read_into (s : B) (mem : list Z) (n : Z) : res (option (list Z * B)) :=
  r ← src_read n s;
  match r with
  | None => Ret None
  | Some (bytes, _, s) => m ← memcpy_to mem 0 bytes; Ret (Some (m, s))
  end.

(** The length that follows a command. *)
Definition read_length (s : B) (old : Z) : res (option (Z * B)) :=
  r ← src_read sizeof_DWORD s;
  match r with
  | None => Ret None
  | Some (bytes, _, s) => v ← store32 old bytes; Ret (Some (v, s))
  end.

(** A wrong length or a short read is only logged; the length is converted to
    [int] for the read and kept unsigned for the rendering. *)
Definition process_round (p : player) : res round :=
  r ← src_read sizeof_TCP_COMMAND (source p);
  match r with
  | None => Ret WaitsForData
  | Some (bytes, _, s) =>
  cmd ← store32 (tcp_command p) bytes;
  if cmd =? SEND_HEADER then
    r ← read_length s (length_data p);
    match r with
    | None => Ret WaitsForData
    | Some (len, s) =>
        r ← read_into s (wfx p) (wrap_s 32 len);
        match r with
        | None => Ret WaitsForData
        | Some (m, s) => Ret (Next (mkPlayer s (rend p) m (buffer p) cmd len) [])
        end
    end
  else if cmd =? SEND_DATA then
    r ← read_length s (length_data p);
    match r with
    | None => Ret WaitsForData
    | Some (len, s) =>
        r ← read_into s (buffer p) (wrap_s 32 len);
        match r with
        | None => Ret WaitsForData
        | Some (m, s) =>
            r ← render_samples m len (wfx_of (wfx p)) (rend p);
            let '(fin, out, rd) := r in
            if (fin : bool) then Ret (Next (mkPlayer s rd (wfx p) m cmd len) out)
            else Ret (WaitsForRoom out)
        end
    end
  else Ret (Next (mkPlayer s (rend p) (wfx p) (buffer p) cmd (length_data p)) [])
  end.

(** [prcess_character] until it waits: the state at the start of the round in
    which it does, and all the samples. *)
Fixpoint prcess_loop (fuel : nat) (p : player) (out : list (list Z)) : res (player * list (list Z)) :=
  match fuel with
  | O => Fault OutOfFuel
  | S fuel =>
      r ← process_round p;
      match r with
      | Next p' o => prcess_loop fuel p' (out ++ o)
      | WaitsForData => Ret (p, out)
      | WaitsForRoom o => Ret (p, out ++ o)
      end
  end.
Definition prcess_character (fuel : nat) (p : player) : res (player * list (list Z)) :=
  prcess_loop fuel (player_start p) [].
End player.

(** * The receive task *)

(** What [recv] returns: bytes (none when the peer has closed), or -1. *)
Inductive recv_result := RecvData (bytes : list Z) | RecvError.

(** The task: the audio buffers, whether it has started the player, whether it
    has closed its socket and ended, and whether it spins on full buffers. *)
Record receiver := mkReceiver {
  buffers : DataBuffer.state;
  render_status : Z;
  players_created : nat;
  closed : bool;
  spinning : bool }.

Definition audio_round (r : recv_result) (t : receiver) : res receiver :=
  match r with
  | RecvError => Ret (mkReceiver (buffers t) (render_status t) (players_created t) true false)
  | RecvData bytes =>
      chunk ← memcpy_to (replicate 1024 0) 0 bytes;
      w ← buffer_write_data (buffers t) chunk (zlen bytes);
      match w with
      | WBlocked st _ _ => Ret (mkReceiver st (render_status t) (players_created t) false true)
      | Written st =>
          if (50 <? getBufferPercent st) && (render_status t =? 0)
          then Ret (mkReceiver st 1 (S (players_created t)) false false)
          else Ret (mkReceiver st (render_status t) (players_created t) false false)
      end
  end.

Fixpoint audio_thread (recvs : list recv_result) (t : receiver) : res receiver :=
  match recvs with
  | [] => Ret t
  | r :: recvs =>
      if closed t || spinning t then Ret t else
      t ← audio_round r t; audio_thread recvs t
  end.

(** * The server *)

(** What [listen_tcp_server] does to its environment, and how it ends up: it
    waits in [accept], or it hangs in [error_handle] (an endless loop). *)
Inductive server_action := CloseSocket (fd : Z) | CreateTask.
Inductive server_outcome := Accepting | Hung.

Fixpoint accept_loop (server_socket : Z) (accepts : list Z) : list server_action * server_outcome :=
  match accepts with
  | [] => ([], Accepting)
  | client :: accepts =>
      if client <? 0 then ([CloseSocket server_socket], Hung)
      else let '(acts, o) := accept_loop server_socket accepts in (CreateTask :: acts, o)
  end.

(** The values the socket calls return are the environment's. *)
Definition listen_tcp_server (server_socket bind_r listen_r : Z) (accepts : list Z)
    : list server_action * server_outcome :=
  if server_socket <? 0 then ([], Hung)
  else if bind_r <? 0 then ([CloseSocket server_socket], Hung)
  else if listen_r <? 0 then ([CloseSocket server_socket], Hung)
  else accept_loop server_socket accepts.

(** The variable [client] of the loop is shared with the tasks it starts. *)
Record server := mkServer {
  client : Z;               (* the local of listen_tcp_server *)
  starting : nat;           (* tasks created that have not read it yet *)
  sockets : list Z }.       (* what the tasks read, in order *)

Inductive server_step : server -> Z + unit -> server -> Prop :=
  | srv_accept s fd :
      0 <= fd -> server_step s (inl fd) (mkServer fd (S (starting s)) (sockets s))
  | srv_task s k :
      starting s = S k -> server_step s (inr tt) (mkServer (client s) k (sockets s ++ [client s])).

Inductive server_run : server -> list (Z + unit) -> server -> Prop :=
  | run_nil s : server_run s [] s
  | run_cons s1 e s2 es s3 : server_step s1 e s2 -> server_run s2 es s3 -> server_run s1 (e :: es) s3.

(** * WiFi events *)

Definition WIFI_CONNECTED_BIT : Z := 1.

Inductive system_event_id_t :=
  | SYSTEM_EVENT_STA_START | SYSTEM_EVENT_STA_DISCONNECTED | SYSTEM_EVENT_STA_CONNECTED
  | SYSTEM_EVENT_STA_GOT_IP | SYSTEM_EVENT_AP_STACONNECTED | SYSTEM_EVENT_AP_STADISCONNECTED
  | SYSTEM_EVENT_OTHER.

#[export] Instance system_event_id_eq_dec : EqDecision system_event_id_t.
Proof. solve_decision. Defined.

(** The bits of [tcp_event_group], and the connection attempts made. *)
Record wifi := mkWifi { tcp_event_group : Z; connects : nat }.

Definition set_bits_of (w : wifi) (b : Z) : wifi := mkWifi (Z.lor (tcp_event_group w) b) (connects w).
Definition clear_bits_of (w : wifi) (b : Z) : wifi := mkWifi (Z.land (tcp_event_group w) (Z.lnot b)) (connects w).
Definition esp_wifi_connect (w : wifi) : wifi := mkWifi (tcp_event_group w) (S (connects w)).

Definition event_handler (w : wifi) (e : system_event_id_t) : wifi :=
  match e with
  | SYSTEM_EVENT_STA_START => esp_wifi_connect w
  | SYSTEM_EVENT_STA_DISCONNECTED => clear_bits_of (esp_wifi_connect w) WIFI_CONNECTED_BIT
  | SYSTEM_EVENT_STA_CONNECTED => w
  | SYSTEM_EVENT_STA_GOT_IP => set_bits_of w WIFI_CONNECTED_BIT
  | SYSTEM_EVENT_AP_STACONNECTED => set_bits_of w WIFI_CONNECTED_BIT
  | SYSTEM_EVENT_AP_STADISCONNECTED => clear_bits_of w WIFI_CONNECTED_BIT
  | SYSTEM_EVENT_OTHER => w
  end.

(** * The packet stream *)

Lemma le_dec_le32 z : 0 <= z < 2 ^ 32 -> le_dec (le32 z) = z.
Proof. intros Hz. change (2 ^ 32) with 4294967296 in Hz. unfold le32. cbn [le_dec]. zdiv. Qed.

Lemma blit_whole (src dst : list Z) : zlen src = zlen dst -> blit 0 src dst = src.
Proof. intros E. by rewrite blit_full by lia. Qed.

Lemma store32_le32 old z : 0 <= z < 2 ^ 32 -> store32 old (le32 z) = Ret z.
Proof.
  intros Hz. unfold store32. rewrite memcpy_to_Ret by done. cbn [mbind res_bind].
  rewrite blit_whole by done. by rewrite le_dec_le32.
Qed.

Lemma short_at_prefix d buf off :
  0 <= off -> off + 2 <= zlen d -> zlen d <= zlen buf -> short_at (blit 0 d buf) off = short_at d off.
Proof.
  intros H0 H1 H2. unfold short_at, blit, zlen in *. change (take (Z.to_nat 0) buf) with (@nil Z). cbn [app].
  rewrite !list_lookup_total_alt, !lookup_app_l by lia. done.
Qed.

Lemma frames_prefix d buf l r stride k :
  0 <= l -> 0 <= r -> 0 <= stride -> zlen d <= zlen buf ->
  (0 < k -> l + stride * (k - 1) + 2 <= zlen d /\ r + stride * (k - 1) + 2 <= zlen d) ->
  frames (blit 0 d buf) l r stride k = frames d l r stride k.
Proof.
  intros Hl Hr Hs Hle Hk. apply list_fmap_ext. intros j i Hi.
  apply lookup_seqZ in Hi as [-> Hj]. destruct Hk as [H1 H2]; [lia |].
  by rewrite !short_at_prefix by (done || nia).
Qed.

(** A packet, its bytes, and the samples it stands for. *)
Inductive packet := Header (format : list Z) | Data (payload : list Z) | Command (cmd : Z).

Definition encode (p : packet) : list Z :=
  match p with
  | Header w => le32 SEND_HEADER ++ le32 (zlen w) ++ w
  | Data d => le32 SEND_DATA ++ le32 (zlen d) ++ d
  | Command c => le32 c
  end.
Definition encodes (ps : list packet) : list Z := mjoin (encode <$> ps).

Definition packet_frames (p : packet) : Z :=
  match p with Data d => zlen d / 2 / 2 | _ => 0 end.
Definition samples (p : packet) : list (list Z) :=
  match p with Data d => frames d 0 2 4 (packet_frames p) | _ => [] end.

(** A format of two 16 bit channels the renderer can switch to. *)
Definition format_ok (w : list Z) : Prop :=
  zlen w = sizeof_WAVEFORMATEX /\ nChannels (wfx_of w) = 2 /\ wBitsPerSample (wfx_of w) = 16 /\
  0 <= nSamplesPerSec (wfx_of w) < 2 ^ 32 /\ rate_ok (nSamplesPerSec (wfx_of w)) = true.

Definition packet_ok (p : packet) : Prop :=
  match p with
  | Header w => format_ok w
  | Data d => zlen d <= sizeof_buffer
  | Command c => 0 <= c < 2 ^ 32 /\ c <> SEND_HEADER /\ c <> SEND_DATA
  end.

Section stream.
Context {B : Type} `{!ByteSource B, !ByteSourceLaws B} {Q : Type} `{!MsgQueue Q, !MsgQueueLaws Q} {DummyRoom0 : DummyRoom}.
Implicit Types (p : player (B := B) (Q := Q)) (s : B).

Lemma read_ready s n x rest :
  src_ok s -> src_ready s = x ++ rest -> n = zlen x ->
  exists v s', src_read n s = Ret (Some (x, v, s')) /\ src_ok s' /\ src_ready s' = rest.
Proof.
  intros Hok Hr ->. destruct (src_read_ready s (zlen x)) as (v & s' & E & H1 & H2); [done | |].
  { rewrite Hr, zlen_app. pose proof (zlen_nonneg x). pose proof (zlen_nonneg rest). lia. }
  rewrite Hr in E, H2. unfold zlen in E, H2. rewrite Nat2Z.id in E, H2.
  rewrite take_app_length in E. rewrite drop_app_length in H2. eauto 10.
Qed.

Lemma read_length_ready s old z rest :
  src_ok s -> src_ready s = le32 z ++ rest -> 0 <= z < 2 ^ 32 ->
  exists s', read_length s old = Ret (Some (z, s')) /\ src_ok s' /\ src_ready s' = rest.
Proof.
  intros Hok Hr Hz. destruct (read_ready s sizeof_DWORD (le32 z) rest) as (v & s' & E & H); [done.. |].
  exists s'. split; [| done]. unfold read_length. rewrite E. cbn [mbind res_bind].
  by rewrite store32_le32.
Qed.

(** The task is between two packets, with port 0 ready at a rate. *)
Definition between_packets (rate : Z) p : Prop :=
  src_ok (source p) /\ format_ok (wfx p) /\ zlen (buffer p) = sizeof_buffer /\
  has_rate 0 rate (rend p) /\ renderer_status (rend p) <> STOPPED /\ tx_ready 0 32 1 (i2s (rend p)) /\
  Forall (Forall (tx_irq 32)) (AudioRender.pending (rend p)).

(** One packet. *)
Lemma process_packet rate p k rest : 8 <= dummy_room ->
  between_packets rate p -> packet_ok k -> src_ready (source p) = encode k ++ rest ->
  packet_frames k <= served (AudioRender.pending (rend p)) ->
  exists rate' p', process_round p = Ret (Next p' (samples k)) /\
    between_packets rate' p' /\ src_ready (source p') = rest /\
    served (AudioRender.pending (rend p)) - packet_frames k <= served (AudioRender.pending (rend p')).
Proof.
  intros Hroom (Hok & Hfmt & Hbuf & Hrate & Hst & Htx & Hpen) Hk Hr Hserved. unfold process_round.
  assert (forall c rest', 0 <= c < 2 ^ 32 -> src_ready (source p) = le32 c ++ rest' ->
    exists v s', src_read sizeof_TCP_COMMAND (source p) = Ret (Some (le32 c, v, s')) /\ src_ok s' /\
      src_ready s' = rest' /\ store32 (tcp_command p) (le32 c) = Ret c) as Hcmd.
  { intros c rest' Hc Hc'. destruct (read_ready (source p) 4 (le32 c) rest') as (v & s' & E & H1 & H2); [done.. |].
    exists v, s'. split_and!; try done. by apply store32_le32. }
  destruct k as [w | d | c]; cbn [encode] in Hr; rewrite <- ?app_assoc in Hr.
  - destruct Hk as (Hw & Hw'). destruct (Hcmd SEND_HEADER _ ltac:(done) Hr) as (v & s1 & E1 & Hok1 & Hr1 & Ec).
    rewrite E1. cbn [mbind res_bind]. rewrite Ec. cbn [mbind res_bind]. change (SEND_HEADER =? SEND_HEADER) with true.
    cbv iota. destruct (read_length_ready s1 (length_data p) (zlen w) (w ++ rest)) as (s2 & E2 & Hok2 & Hr2);
      [done | done | by rewrite Hw |].
    rewrite E2. cbn [mbind res_bind].
    destruct (read_ready s2 (zlen w) w rest) as (v3 & s3 & E3 & Hok3 & Hr3); [done.. |].
    unfold read_into. rewrite Hw in E3 |- *. change (wrap_s 32 sizeof_WAVEFORMATEX) with sizeof_WAVEFORMATEX.
    rewrite E3. cbn [mbind res_bind]. destruct Hfmt as [Hf _].
    rewrite memcpy_to_Ret by lia. cbn [mbind res_bind].
    rewrite blit_whole by lia. eexists rate, _. split; [done |].
    split_and!; cbn; done || lia.
  - cbn in Hk. pose proof (zlen_nonneg d) as Hd0. unfold sizeof_buffer in Hk.
    destruct (Hcmd SEND_DATA _ ltac:(done) Hr) as (v & s1 & E1 & Hok1 & Hr1 & Ec).
    rewrite E1. cbn [mbind res_bind]. rewrite Ec. cbn [mbind res_bind].
    change (SEND_DATA =? SEND_HEADER) with false. change (SEND_DATA =? SEND_DATA) with true. cbv iota.
    destruct (read_length_ready s1 (length_data p) (zlen d) (d ++ rest)) as (s2 & E2 & Hok2 & Hr2);
      [done | done | lia |].
    rewrite E2. cbn [mbind res_bind]. rewrite wrap_s_small by lia.
    destruct (read_ready s2 (zlen d) d rest) as (v3 & s3 & E3 & Hok3 & Hr3); [done.. |].
    unfold read_into. rewrite E3. cbn [mbind res_bind].
    rewrite memcpy_to_Ret by (unfold sizeof_buffer in Hbuf; lia). cbn [mbind res_bind].
    destruct Hfmt as (Hf & Hch & Hbits & Hrng & Hrok).
    assert (zlen (blit 0 d (buffer p)) = sizeof_buffer) as Hz.
    { rewrite zlen_blit; [done | unfold sizeof_buffer in Hbuf; lia..]. }
    pose proof (wp_render_block 0 32 1 rate (blit 0 d (buffer p)) (zlen d) (wfx_of (wfx p)) (rend p)) as Hwp.
    cbv zeta in Hwp. rewrite Hch in Hwp. change (2 =? 1) with false in Hwp. cbv iota in Hwp.
    assert (4 * (zlen d / 2 / 2) <= zlen d) as Hq by zdiv.
    destruct (wp_run _ _ _ (Hwp Hroom Hrate Hst eq_refl Htx Hrng (or_intror Hrok) Hbits (or_intror eq_refl) Hpen Hd0
      ltac:(rewrite Hz; unfold sizeof_buffer; lia)))
      as ([fin out] & rd & E & kk & Hkk & Hout & Hfin & Hmin & Htx' & Hrate' & Hst' & Hpen' & Hsv).
    cbn [packet_frames] in *. cbn [fst snd] in *.
    assert (kk = zlen d / 2 / 2) as -> by lia.
    rewrite E. cbn [mbind res_bind]. rewrite (proj2 Hfin eq_refl).
    eexists _, _. split; [| split; [| split]].
    + rewrite Hout. rewrite frames_prefix by (rewrite ?Hbuf; unfold sizeof_buffer; lia). reflexivity.
    + split_and!; cbn; try done. congruence.
    + done.
    + done.
  - destruct Hk as (Hc & Hc1 & Hc2). destruct (Hcmd c _ Hc Hr) as (v & s1 & E1 & Hok1 & Hr1 & Ec).
    rewrite E1. cbn [mbind res_bind]. rewrite Ec. cbn [mbind res_bind].
    rewrite (proj2 (Z.eqb_neq _ _) Hc1), (proj2 (Z.eqb_neq _ _) Hc2).
    eexists rate, _. split; [done |]. split_and!; cbn; try done. lia.
Qed.

(** Bytes that end before a packet does. *)
Definition incomplete (rest : list Z) : Prop :=
  zlen rest < sizeof_TCP_COMMAND \/
  exists k, packet_ok k /\ rest `prefix_of` encode k /\ zlen rest < zlen (encode k).

Lemma prefix_split (x rest l : list Z) : rest `prefix_of` x ++ l -> zlen x <= zlen rest ->
  exists r, rest = x ++ r /\ r `prefix_of` l.
Proof.
  intros [t Ht] Hz. unfold zlen in Hz. exists (drop (length x) rest).
  assert (take (length x) rest = x) as E.
  { apply (f_equal (take (length x))) in Ht. rewrite take_app_length, take_app_le in Ht by lia. done. }
  split; [by rewrite <- E at 1; rewrite take_drop |]. exists t.
  apply (f_equal (drop (length x))) in Ht. rewrite drop_app_length, drop_app_le in Ht by lia. done.
Qed.

(** With such bytes the round waits, wherever they end. *)
Lemma process_incomplete rate p :
  between_packets rate p -> incomplete (src_ready (source p)) -> process_round p = Ret WaitsForData.
Proof.
  intros (Hok & _) Hinc. unfold process_round.
  destruct (Z.lt_ge_cases (zlen (src_ready (source p))) sizeof_TCP_COMMAND) as [Hl | Hl].
  { by rewrite src_read_wait. }
  destruct Hinc as [? | (k & Hk & Hp & Hz)]; [lia |].
  assert (forall c w, (c = SEND_HEADER \/ c = SEND_DATA) -> encode k = le32 c ++ le32 (zlen w) ++ w -> 0 <= zlen w < 2 ^ 31 ->
    exists v s1, src_read sizeof_TCP_COMMAND (source p) = Ret (Some (le32 c, v, s1)) /\ store32 (tcp_command p) (le32 c) = Ret c /\
      (read_length s1 (length_data p) = Ret None \/ exists s2, read_length s1 (length_data p) = Ret (Some (zlen w, s2)) /\
        forall mem, read_into s2 mem (wrap_s 32 (zlen w)) = Ret None)) as H.
  { intros c w Hc Ek Hw. rewrite Ek in Hp, Hz. destruct (prefix_split _ _ _ Hp Hl) as (r & Er & Hp1).
    destruct (read_ready (source p) 4 (le32 c) r Hok Er eq_refl) as (v & s1 & E1 & Hok1 & Hr1).
    exists v, s1. split; [done |]. split; [destruct Hc as [-> | ->]; by rewrite store32_le32 |].
    rewrite Er, !zlen_app in Hz.
    destruct (Z.lt_ge_cases (zlen r) sizeof_DWORD) as [Hl1 | Hl1].
    { left. unfold read_length. rewrite src_read_wait by (done || by rewrite Hr1). done. }
    right. destruct (prefix_split _ _ _ Hp1 Hl1) as (r2 & Er2 & Hp2). rewrite Er2 in Hr1.
    destruct (read_length_ready s1 (length_data p) (zlen w) r2 Hok1 Hr1) as (s2 & E2 & Hok2 & Hr2); [lia |].
    exists s2. split; [done |]. intros mem. rewrite wrap_s_small by lia. unfold read_into.
    rewrite src_read_wait; [done | done |]. rewrite Hr2. rewrite Er2, zlen_app in Hz. lia. }
  destruct k as [w | d | c]; cbn [packet_ok] in Hk.
  - destruct Hk as [Hw _]. destruct (H SEND_HEADER w) as (v & s1 & E1 & Ec & Hcase); [by left | done | by rewrite Hw |].
    rewrite E1. cbn [mbind res_bind]. rewrite Ec. cbn [mbind res_bind]. change (SEND_HEADER =? SEND_HEADER) with true. cbv iota.
    destruct Hcase as [-> | (s2 & -> & Hri)]; cbn [mbind res_bind]; [done | by rewrite Hri].
  - pose proof (zlen_nonneg d). unfold sizeof_buffer in Hk.
    destruct (H SEND_DATA d) as (v & s1 & E1 & Ec & Hcase); [by right | done | lia |].
    rewrite E1. cbn [mbind res_bind]. rewrite Ec. cbn [mbind res_bind]. change (SEND_DATA =? SEND_HEADER) with false. change (SEND_DATA =? SEND_DATA) with true. cbv iota.
    destruct Hcase as [-> | (s2 & -> & Hri)]; cbn [mbind res_bind]; [done | by rewrite Hri].
  - cbn [encode] in Hz. change (zlen (le32 c)) with 4 in Hz. unfold sizeof_TCP_COMMAND in Hl. lia.
Qed.

Definition total_frames (ps : list packet) : Z := foldr Z.add 0 (packet_frames <$> ps).

Lemma packet_frames_nonneg k : 0 <= packet_frames k.
Proof. destruct k; cbn; try lia. pose proof (zlen_nonneg payload). zdiv. Qed.

Lemma process_packets ps : 8 <= dummy_room -> forall fuel rate p out rest,
  between_packets rate p -> Forall packet_ok ps -> src_ready (source p) = encodes ps ++ rest ->
  incomplete rest -> total_frames ps <= served (AudioRender.pending (rend p)) -> (length ps < fuel)%nat ->
  exists rate' p', prcess_loop fuel p out = Ret (p', out ++ mjoin (samples <$> ps)) /\
    between_packets rate' p' /\ src_ready (source p') = rest.
Proof.
  intros Hroom. induction ps as [| k ps IH]; intros [| fuel] rate p out rest Hp Hall Hr Hrest Hserved Hfuel; cbn [length] in Hfuel; try lia.
  - cbn [prcess_loop]. rewrite (process_incomplete rate) by (done || by rewrite Hr).
    cbn. rewrite app_nil_r. exists rate, p. done.
  - inversion Hall as [| ? ? Hk Hks]; subst. cbn [prcess_loop].
    change (encodes (k :: ps)) with (encode k ++ encodes ps) in Hr. rewrite <- app_assoc in Hr.
    change (total_frames (k :: ps)) with (packet_frames k + total_frames ps) in Hserved.
    pose proof (packet_frames_nonneg k).
    assert (0 <= total_frames ps) as Ht.
    { clear. induction ps as [| k ps IH]; [done |]. pose proof (packet_frames_nonneg k).
      change (total_frames (k :: ps)) with (packet_frames k + total_frames ps). lia. }
    destruct (process_packet rate p k (encodes ps ++ rest)) as (rate1 & p1 & E & Hp1 & Hr1 & Hsv); [done.. | lia |].
    rewrite E. cbn [mbind res_bind].
    destruct (IH fuel rate1 p1 (out ++ samples k) rest) as (rate2 & p2 & E2 & H2); try done; try lia.
    exists rate2, p2. rewrite E2. cbn. by rewrite <- app_assoc.
Qed.

Lemma player_start_format (m : list Z) (p : player (B := B) (Q := Q)) :
  wfx p = m -> zlen m = sizeof_WAVEFORMATEX -> format_ok (wfx (player_start p)).
Proof.
  intros Hm Hz. unfold player_start, format_ok, zlen, sizeof_WAVEFORMATEX in *. cbn [wfx]. rewrite Hm.
  do 20 (destruct m as [| ? m]; [done |]). destruct m as [| ? m]; [| cbn [length] in Hz; lia].
  split; [reflexivity |]. vm_compute. done.
Qed.

Lemma process_character_packets ps rest rate p fuel : 8 <= dummy_room ->
  src_ok (source p) -> zlen (wfx p) = sizeof_WAVEFORMATEX -> zlen (buffer p) = sizeof_buffer ->
  has_rate 0 rate (rend p) -> renderer_status (rend p) <> STOPPED -> tx_ready 0 32 1 (i2s (rend p)) ->
  Forall (Forall (tx_irq 32)) (AudioRender.pending (rend p)) ->
  Forall packet_ok ps -> src_ready (source p) = encodes ps ++ rest -> incomplete rest ->
  total_frames ps <= served (AudioRender.pending (rend p)) -> (length ps < fuel)%nat ->
  exists rate' p', prcess_character fuel p = Ret (p', mjoin (samples <$> ps)) /\
    between_packets rate' p' /\ src_ready (source p') = rest.
Proof.
  intros Hroom Hok Hw Hb Hr Hst Htx Hirq Hps Hready Hrest Hserved Hfuel. unfold prcess_character.
  apply (process_packets ps Hroom fuel rate (player_start p) [] rest); try done.
  split_and!; try done. by eapply player_start_format.
Qed.

(** C3. The player task on any byte source: for every sequence of well-formed
    packets (headers of 20 bytes announcing two 16 bit channels at a rate the
    clock can be divided to, data of up to 16384 bytes, other commands) followed
    by less than a packet, cut anywhere, with the DMA interrupts served and where
    the handler's stack has room for the events it drops (see
    [I2s.i2s_intr_handler_spec]: without it the second interrupt faults), the
    loop renders exactly the frames of the data packets, in order, and then waits
    for the bytes the next packet still lacks; no read, store or rendering
    faults, and the driver stays ready. *)
Theorem prcess_character_stream ps rest rate p fuel : 8 <= dummy_room ->
  src_ok (source p) -> zlen (wfx p) = sizeof_WAVEFORMATEX -> zlen (buffer p) = sizeof_buffer ->
  has_rate 0 rate (rend p) -> renderer_status (rend p) <> STOPPED -> tx_ready 0 32 1 (i2s (rend p)) ->
  Forall (Forall (tx_irq 32)) (AudioRender.pending (rend p)) ->
  Forall packet_ok ps -> src_ready (source p) = encodes ps ++ rest -> incomplete rest ->
  total_frames ps <= served (AudioRender.pending (rend p)) -> (length ps < fuel)%nat ->
  exists rate' p', prcess_character fuel p = Ret (p', mjoin (samples <$> ps)) /\
    between_packets rate' p' /\ src_ready (source p') = rest.
Proof. exact (process_character_packets ps rest rate p fuel). Qed.

(** Cutting a stream of packets anywhere. *)
Lemma cut_packets ps l : Forall packet_ok ps -> l `prefix_of` encodes ps ->
  exists ps1 rest ps2, ps = ps1 ++ ps2 /\ l = encodes ps1 ++ rest /\ incomplete rest /\
    (zlen (encodes ps1) <= zlen l) /\ (forall k ps3, ps2 = k :: ps3 -> zlen l < zlen (encodes (ps1 ++ [k]))).
Proof.
  intros Hps. revert l. induction Hps as [| k ps Hk _ IH]; intros l Hl.
  - apply prefix_nil_inv in Hl as ->. exists [], [], []. split_and!; try done. by left.
  - change (encodes (k :: ps)) with (encode k ++ encodes ps) in Hl.
    destruct (Z.lt_ge_cases (zlen l) (zlen (encode k))) as [Hlt | Hge].
    + exists [], l, (k :: ps). split_and!; try done.
      * right. exists k. split_and!; [done | | done]. destruct Hl as [t Ht].
        exists (drop (length l) (encode k)). apply (f_equal (take (length l))) in Ht.
        unfold zlen in Hlt. rewrite take_app_length, take_app_le in Ht by lia. by rewrite <- Ht at 1; rewrite take_drop.
      * apply zlen_nonneg.
      * intros k' ps3 [= <- _]. cbn. by rewrite app_nil_r.
    + destruct (prefix_split _ _ _ Hl Hge) as (r & -> & Hr). destruct (IH r Hr) as (ps1 & rest & ps2 & -> & -> & Hi & Hz & Hn).
      exists (k :: ps1), rest, ps2. change (encodes (k :: ps1)) with (encode k ++ encodes ps1).
      split_and!; [done | by rewrite <- app_assoc | done | rewrite !zlen_app in *; lia |].
      intros k' ps3 E. specialize (Hn k' ps3 E). change (encodes ((k :: ps1) ++ [k'])) with (encode k ++ encodes (ps1 ++ [k'])).
      rewrite !zlen_app in *. lia.
Qed.

Lemma total_frames_app ps1 ps2 : total_frames (ps1 ++ ps2) = total_frames ps1 + total_frames ps2 /\ 0 <= total_frames ps2.
Proof.
  assert (forall ps, 0 <= total_frames ps) as H.
  { intros ps. induction ps as [| k ps IH]; [done |]. change (total_frames (k :: ps)) with (packet_frames k + total_frames ps).
    pose proof (packet_frames_nonneg k). lia. }
  split; [| apply H]. induction ps1 as [| k ps1 IH]; [done |].
  change (total_frames ((k :: ps1) ++ ps2)) with (packet_frames k + total_frames (ps1 ++ ps2)).
  change (total_frames (k :: ps1)) with (packet_frames k + total_frames ps1). lia.
Qed.

(** Each block is sent before the next one arrives. *)
Definition paced (blocks : list (list Z * Z)) : list sender_event :=
  mjoin ((fun b => [Records b.1 b.2; ThreadRuns]) <$> blocks).

Definition block_packet (b : list Z * Z) : packet := Data (take (Z.to_nat (b.2 * 4)) b.1).
Definition block_ok (b : list Z * Z) : Prop := 0 <= b.2 <= FRAMES_PER_BUFFER /\ b.2 * 4 <= zlen b.1.

Lemma block_size b : block_ok b -> zlen (take (Z.to_nat (b.2 * 4)) b.1) = b.2 * 4.
Proof. intros [H1 H2]. rewrite <- slice_0_take, zlen_slice; lia. Qed.

Lemma blit_after (a l dst : list Z) :
  zlen a + zlen l <= zlen dst -> exists rest, blit (zlen a) l (blit 0 a dst) = a ++ l ++ rest.
Proof.
  intros H. pose proof (zlen_nonneg l). pose proof (zlen_nonneg a).
  exists (drop (Z.to_nat (zlen a) + length l) (blit 0 a dst)). unfold blit at 1. f_equal.
  pose proof (blit_prefix 0 a dst) as Hp. rewrite Z.add_0_l in Hp. rewrite Hp by lia. reflexivity.
Qed.

(** A block goes through the send buffer as its packet. *)
Lemma record_and_send b u :
  block_ok b -> zlen (audio_data u) = sizeof_audio_data ->
  exists u1 u2, recordCallback b.1 b.2 u = Ret u1 /\ zlen (audio_data u1) = sizeof_audio_data /\
    threadFunctionSendData u1 = Ret (u2, encode (block_packet b)) /\ zlen (audio_data u2) = sizeof_audio_data.
Proof.
  intros Hb Hu. pose proof (block_size b Hb) as Hz. destruct Hb as [Hn Hle].
  unfold FRAMES_PER_BUFFER in Hn. change sizeof_audio_data with 4120 in *.
  unfold recordCallback. rewrite memcpy_to_Ret by (rewrite ?Hu; done). cbn [mbind res_bind].
  rewrite wrap_u_small by lia. set (m1 := blit 0 (le32 SEND_DATA) (audio_data u)).
  assert (zlen m1 = 4120) as H1 by (unfold m1; rewrite zlen_blit; rewrite ?Hu; done).
  rewrite memcpy_to_Ret by (rewrite ?H1; done). cbn [mbind res_bind].
  set (m2 := blit sizeof_TCP_COMMAND (le32 (b.2 * 4)) m1).
  assert (zlen m2 = 4120) as H2 by (unfold m2; rewrite zlen_blit; [done | done | by rewrite H1]).
  rewrite memcpy_from_Ret by lia. cbn [mbind res_bind]. rewrite slice_0_take.
  change (sizeof_TCP_COMMAND + sizeof_DWORD) with 8.
  rewrite memcpy_to_Ret by (rewrite ?H2, ?Hz; lia). cbn [mbind res_bind].
  set (data := take (Z.to_nat (b.2 * 4)) b.1) in *. set (m3 := blit 8 data m2).
  assert (zlen m3 = 4120) as H3 by (unfold m3; rewrite zlen_blit; [done | lia | rewrite H2, Hz; lia]).
  assert (take (Z.to_nat (8 + b.2 * 4)) m3 = encode (block_packet b)) as Hsent.
  { destruct (blit_after (le32 SEND_DATA) (le32 (b.2 * 4)) (audio_data u)) as (rest & E); [by rewrite ?Hu |].
    change (zlen (le32 SEND_DATA)) with sizeof_TCP_COMMAND in E. fold m1 m2 in E.
    rewrite <- Hz at 1. unfold m3. rewrite blit_prefix by (rewrite ?H2, ?Hz; lia). rewrite E.
    unfold block_packet, encode. fold data. rewrite Hz. reflexivity. }
  exists (mkUserData m3 1 (8 + b.2 * 4)), (mkUserData m3 0 (8 + b.2 * 4)).
  split; [reflexivity |]. split; [exact H3 |]. split; [| exact H3].
  unfold threadFunctionSendData. cbn [data_state audio_data size_buffer]. change (1 =? 1) with true. cbv iota.
  rewrite memcpy_from_Ret by (rewrite ?H3; lia). cbn [mbind res_bind]. by rewrite slice_0_take, Hsent.
Qed.

Lemma paced_sends blocks : forall u,
  Forall block_ok blocks -> zlen (audio_data u) = sizeof_audio_data ->
  exists u', sender (paced blocks) u = Ret (u', encodes (block_packet <$> blocks)).
Proof.
  induction blocks as [| b blocks IH]; intros u Hall Hu; [by eexists |].
  inversion Hall as [| ? ? Hb Hbs]; subst.
  destruct (record_and_send b u Hb Hu) as (u1 & u2 & E1 & _ & E2 & Hu2).
  destruct (IH u2 Hbs Hu2) as (u' & E').
  exists u'. change (paced (b :: blocks)) with (Records b.1 b.2 :: ThreadRuns :: paced blocks).
  cbn [sender]. rewrite E1. cbn [mbind res_bind]. rewrite E2. cbn [mbind res_bind fst snd].
  rewrite E'. reflexivity.
Qed.

(** A block recorded before the thread has run replaces the one before it. *)
Lemma unpaced_block_lost a b u :
  block_ok a -> block_ok b -> zlen (audio_data u) = sizeof_audio_data ->
  exists u', sender [Records a.1 a.2; Records b.1 b.2; ThreadRuns] u = Ret (u', encode (block_packet b)).
Proof.
  intros Ha Hb Hu. destruct (record_and_send a u Ha Hu) as (u1 & _ & E1 & Hu1 & _).
  destruct (record_and_send b u1 Hb Hu1) as (u2 & u3 & E2 & _ & E3 & _).
  exists u3. cbn [sender]. rewrite E1. cbn [mbind res_bind]. rewrite E2. cbn [mbind res_bind].
  rewrite E3. cbn. by rewrite app_nil_r.
Qed.

Lemma samples_block b :
  block_ok b -> packet_frames (block_packet b) = b.2 /\ samples (block_packet b) = frames b.1 0 2 4 b.2.
Proof.
  intros Hb. pose proof (block_size b Hb) as Hz. destruct Hb as [Hn Hle].
  assert (packet_frames (block_packet b) = b.2) as Hf by (cbn; rewrite Hz; zdiv).
  split; [done |]. unfold samples. rewrite Hf. unfold block_packet.
  set (d := take (Z.to_nat (b.2 * 4)) b.1) in *.
  assert (b.1 = blit 0 d b.1) as E.
  { unfold blit. change (take (Z.to_nat 0) b.1) with (@nil Z). cbn [app]. rewrite Nat.add_0_l.
    unfold zlen in Hz. replace (length d) with (Z.to_nat (b.2 * 4)) by lia. unfold d. by rewrite take_drop. }
  rewrite E at 1. rewrite frames_prefix; [done | lia | lia | lia | rewrite Hz; lia |].
  rewrite Hz. lia.
Qed.

Lemma blocks_packets blocks :
  Forall block_ok blocks ->
  Forall packet_ok (block_packet <$> blocks) /\
  total_frames (block_packet <$> blocks) = foldr Z.add 0 (snd <$> blocks) /\
  samples <$> (block_packet <$> blocks) = (fun b => frames b.1 0 2 4 b.2) <$> blocks.
Proof.
  induction 1 as [| b blocks Hb _ (H1 & H2 & H3)]; [by repeat constructor |].
  destruct (samples_block b Hb) as [Hf Hs]. cbn [fmap list_fmap]. split_and!.
  - constructor; [| done]. cbn. rewrite block_size by done. destruct Hb as [Hb _].
    unfold FRAMES_PER_BUFFER, sizeof_buffer in *. lia.
  - unfold total_frames in *. cbn [fmap list_fmap foldr]. rewrite Hf. f_equal. exact H2.
  - rewrite Hs. f_equal. exact H3.
Qed.

(** The size of the packets of the blocks. *)
Definition sent_size (blocks : list (list Z * Z)) : Z := foldr Z.add 0 ((fun b => 8 + b.2 * 4) <$> blocks).

Lemma blocks_size blocks : Forall block_ok blocks -> zlen (encodes (block_packet <$> blocks)) = sent_size blocks.
Proof.
  induction 1 as [| b blocks Hb _ IH]; [done |]. cbn [fmap list_fmap].
  change (encodes (block_packet b :: ?ps)) with (encode (block_packet b) ++ encodes ps).
  change (sent_size (b :: blocks)) with (8 + b.2 * 4 + sent_size blocks). rewrite zlen_app, IH. f_equal.
  unfold block_packet, encode. rewrite !zlen_app, (block_size b Hb). change (zlen (le32 SEND_DATA)) with 4.
  change (zlen (le32 (b.2 * 4))) with 4. lia.
Qed.

(** C1. Sender and player together: whatever blocks of up to 1024 stereo frames
    the sender records, when its thread sends each before the next arrives, and
    whatever part of the sent bytes, from the first on, the player can read
    without waiting (of the firmware's store these are the full buffers of 5120
    bytes: the last one waits until it is full), the player renders exactly the
    recorded frames of the blocks whose packets lie completely in that part, in
    order and completely (each as the unsigned pair the DAC takes), keeps the
    bytes behind them and waits for the rest of the next packet; it renders all
    blocks when it can read everything.  The port is ready, an interrupt arrives
    for every frame, and the handler's stack has room for the events it drops
    (see [I2s.i2s_intr_handler_spec]). *)
Theorem record_render_roundtrip blocks u rate p fuel : 8 <= dummy_room ->
  Forall block_ok blocks -> zlen (audio_data u) = sizeof_audio_data ->
  src_ok (source p) -> zlen (wfx p) = sizeof_WAVEFORMATEX -> zlen (buffer p) = sizeof_buffer ->
  has_rate 0 rate (rend p) -> renderer_status (rend p) <> STOPPED -> tx_ready 0 32 1 (i2s (rend p)) ->
  Forall (Forall (tx_irq 32)) (AudioRender.pending (rend p)) ->
  (forall u' bytes, sender (paced blocks) u = Ret (u', bytes) -> src_ready (source p) `prefix_of` bytes) ->
  (length blocks < fuel)%nat -> foldr Z.add 0 (snd <$> blocks) <= served (AudioRender.pending (rend p)) ->
  exists u' bytes p' k, sender (paced blocks) u = Ret (u', bytes) /\
    prcess_character fuel p = Ret (p', mjoin ((fun b => frames b.1 0 2 4 b.2) <$> take k blocks)) /\
    src_ready (source p') = drop (Z.to_nat (sent_size (take k blocks))) (src_ready (source p)) /\
    (k <= length blocks)%nat /\ sent_size (take k blocks) <= zlen (src_ready (source p)) /\
    ((k < length blocks)%nat -> zlen (src_ready (source p)) < sent_size (take (S k) blocks)) /\
    (src_ready (source p) = bytes -> k = length blocks /\ src_ready (source p') = []).
Proof.
  intros Hroom Hall Hu Hok Hw Hb Hr Hst Htx Hirq Hready Hfuel Hserved.
  destruct (paced_sends blocks u Hall Hu) as (u' & E). specialize (Hready _ _ E).
  destruct (blocks_packets blocks Hall) as (Hps & Htot & Hsam).
  destruct (cut_packets _ _ Hps Hready) as (ps1 & rest & ps2 & Eps & Ecut & Hinc & Hle & Hlt).
  set (k := length ps1). assert (length blocks = (k + length ps2)%nat) as Hlen.
  { unfold k. by rewrite <- length_app, <- Eps, length_fmap. }
  assert (ps1 = block_packet <$> take k blocks) as E1 by (rewrite fmap_take, Eps; symmetry; apply take_app_length).
  assert (zlen (encodes ps1) = sent_size (take k blocks)) as Hsz by (rewrite E1; by apply blocks_size, Forall_take).
  rewrite Eps in Hps, Htot. apply Forall_app in Hps as [Hps1 _]. destruct (total_frames_app ps1 ps2) as [Htf Htf2].
  destruct (process_character_packets ps1 rest rate p fuel) as (rate' & p' & E' & _ & Hr'); try done; [lia | lia |].
  assert (samples <$> ps1 = (fun b => frames b.1 0 2 4 b.2) <$> take k blocks) as Esam.
  { rewrite fmap_take, <- Hsam, Eps, fmap_app. unfold k. by rewrite take_app_le, take_ge by (rewrite length_fmap; lia). }
  exists u', (encodes (block_packet <$> blocks)), p', k. rewrite <- Hsz. split; [done |]. split; [by rewrite E', Esam |].
  split. { rewrite Hr', Ecut. unfold zlen. by rewrite Nat2Z.id, drop_app_length. }
  split; [lia |]. split; [done |]. split.
  - intros Hk. destruct ps2 as [| q ps3]; [cbn in Hlen; lia |]. specialize (Hlt q ps3 eq_refl).
    rewrite <- blocks_size by (by apply Forall_take). rewrite fmap_take, Eps.
    replace (take (S k) (ps1 ++ q :: ps3)) with (ps1 ++ [q]); [done |].
    unfold k. rewrite take_app_ge by lia. by replace (S (length ps1) - length ps1)%nat with 1%nat by lia.
  - intros Eall. destruct ps2 as [| q ps3].
    + split; [cbn in Hlen; lia |]. rewrite Hr'. rewrite app_nil_r in Eps. rewrite Eps, Ecut in Eall.
      by apply (app_inv_head (encodes ps1)); rewrite app_nil_r.
    + exfalso. specialize (Hlt q ps3 eq_refl). rewrite Eall, Eps in Hlt. unfold encodes in Hlt.
      rewrite !fmap_app, !join_app, !zlen_app in Hlt. cbn in Hlt. rewrite app_nil_r, zlen_app in Hlt.
      match type of Hlt with context [zlen (encode q) + ?z] => assert (0 <= z) by apply zlen_nonneg end. lia.
Qed.

Lemma src_read_take s n x :
  src_ok s -> src_ready s = x -> 0 <= n <= zlen x ->
  exists v s', src_read n s = Ret (Some (take (Z.to_nat n) x, v, s')) /\ zlen (take (Z.to_nat n) x) = n.
Proof.
  intros Hok <- Hn. destruct (src_read_ready s n) as (v & s' & E & _); [done.. |].
  exists v, s'. split; [done |]. by rewrite <- slice_0_take, zlen_slice by lia.
Qed.

Lemma read_into_overflow s mem n :
  src_ok s -> zlen mem < n <= zlen (src_ready s) -> read_into s mem n = Fault OutOfBounds.
Proof.
  intros Hok Hn. pose proof (zlen_nonneg mem).
  destruct (src_read_take s n (src_ready s)) as (v & s' & E & Hz); [done | done | lia |].
  unfold read_into. rewrite E. cbn [mbind res_bind]. unfold memcpy_to, in_range. rewrite Hz.
  rewrite (proj2 (Z.leb_gt _ (zlen mem))) by lia. by rewrite andb_false_r.
Qed.

(** C36. The length of a packet is not checked against the memory it is read
    into: a header packet longer than the format structure, and a data packet
    longer than the buffer on the task's stack, are written past its end as
    soon as their bytes have arrived. *)
Theorem packet_length_overflow p cmd len rest :
  src_ok (source p) -> zlen (wfx p) = sizeof_WAVEFORMATEX -> zlen (buffer p) = sizeof_buffer ->
  cmd = SEND_HEADER /\ sizeof_WAVEFORMATEX < len \/ cmd = SEND_DATA /\ sizeof_buffer < len ->
  src_ready (source p) = le32 cmd ++ le32 len ++ rest -> len < 2 ^ 31 -> len <= zlen rest ->
  process_round p = Fault OutOfBounds.
Proof.
  intros Hok Hw Hb Hcase Hr Hlen Hrest. unfold process_round.
  destruct (read_ready (source p) 4 (le32 cmd) (le32 len ++ rest)) as (v & s1 & E1 & Hok1 & Hr1); [done.. |].
  change 4 with sizeof_TCP_COMMAND in E1. rewrite E1. cbn [mbind res_bind].
  assert (0 <= len) as H0 by (unfold sizeof_WAVEFORMATEX, sizeof_buffer in *; lia).
  destruct (read_length_ready s1 (length_data p) len rest) as (s2 & E2 & Hok2 & Hr2); [done | done | lia |].
  destruct Hcase as [[-> Hl] | [-> Hl]]; rewrite store32_le32 by done; cbn [mbind res_bind].
  - change (SEND_HEADER =? SEND_HEADER) with true. cbv iota. rewrite E2. cbn [mbind res_bind].
    rewrite wrap_s_small by lia. rewrite read_into_overflow; [done | done | by rewrite Hr2, Hw].
  - change (SEND_DATA =? SEND_HEADER) with false. change (SEND_DATA =? SEND_DATA) with true. cbv iota.
    rewrite E2. cbn [mbind res_bind].
    rewrite wrap_s_small by lia. rewrite read_into_overflow; [done | done | by rewrite Hr2, Hb].
Qed.
End stream.

(** * The receive task *)

(** Where the complete buffers cut what has been received. *)
Lemma prepared_cut st bytes : DataBuffer.wf st -> unread st = bytes -> room st = room boot_state - zlen bytes ->
  zlen bytes < room boot_state ->
  let whole := zlen bytes / LENGTH_OF_BUFFER in
  prepared st = take (Z.to_nat (whole * LENGTH_OF_BUFFER)) bytes /\ getBufferPercent st = 20 * whole.
Proof.
  intros W Eu Er Hlt whole. change (room boot_state) with 25600 in *.
  assert (buffer_used st < NUMBER_OF_BUFFER) as Hk.
  { pose proof (wf_k st W). destruct (Z.eq_dec (buffer_used st) NUMBER_OF_BUFFER) as [E |]; [| lia].
    pose proof (room_full st E). lia. }
  pose proof (room_pending st W Hk) as Hrp. destruct (room_spec st W Hk) as (Hr1 & _ & Hu).
  assert (zlen bytes = zlen (prepared st) + zlen (DataBuffer.pending st)) as Hz by (by rewrite <- Eu, <- zlen_app).
  unfold NUMBER_OF_BUFFER, LENGTH_OF_BUFFER in *.
  assert (whole = buffer_used st) as ->.
  { unfold whole. symmetry. apply (Z.div_unique_pos _ _ _ (zlen (DataBuffer.pending st))); lia. }
  split.
  - rewrite <- Eu. unfold unread. replace (Z.to_nat (buffer_used st * 5120)) with (length (prepared st)) by (unfold zlen in *; lia).
    by rewrite take_app_length.
  - apply (getBufferPercent_spec st W).
Qed.

Lemma write_chunk st chunk buf :
  wf st -> zlen chunk < room st -> buf = blit 0 chunk (replicate 1024 0) -> zlen chunk <= 1024 ->
  exists st', buffer_write_data st buf (zlen chunk) = Ret (Written st') /\ wf st' /\
    unread st' = unread st ++ chunk /\ room st' = room st - zlen chunk /\ buffer_used st <= buffer_used st'.
Proof.
  intros W Hroom -> Hc. pose proof (zlen_nonneg chunk).
  assert (zlen (blit 0 chunk (replicate 1024 0)) = 1024) as Hz by (by rewrite zlen_blit).
  destruct (write_loop_spec (S (Z.to_nat (zlen chunk))) st (blit 0 chunk (replicate 1024 0)) (zlen chunk) W)
    as (r & E & st' & W' & Eu & Er & Ek & Hr); [lia | lia |].
  rewrite (proj2 (Z.leb_le _ _)) in Hr by lia. subst r. exists st'. split; [exact E |].
  rewrite Z.min_l in Er, Eu by lia. split_and!; try done.
  rewrite Eu, replayed_by_nil by done. cbn [app]. f_equal.
  pose proof (blit_prefix 0 chunk (replicate 1024 0)) as Hp. rewrite Z.add_0_l in Hp. by apply Hp.
Qed.

Lemma audio_round_data chunk t :
  wf (buffers t) -> zlen chunk <= 1024 -> zlen chunk < room (buffers t) ->
  exists st, wf st /\ unread st = unread (buffers t) ++ chunk /\ room st = room (buffers t) - zlen chunk /\
    audio_round (RecvData chunk) t
    = Ret (let start := (50 <? getBufferPercent st) && (render_status t =? 0) in
           mkReceiver st (if start then 1 else render_status t)
             (if start then S (players_created t) else players_created t) false false).
Proof.
  intros W Hc Hr. destruct (write_chunk (buffers t) chunk _ W Hr eq_refl Hc) as (st & E & W' & Eu & Er & _).
  exists st. split_and!; try done. unfold audio_round. rewrite memcpy_to_Ret by done. cbn [mbind res_bind].
  rewrite E. cbn [mbind res_bind]. by destruct (_ && _).
Qed.

(** The state of the task in terms of what it has received: the chunks are in
    the buffers and the player has been started at most once. *)
Definition received (t0 : receiver) (bytes : list Z) (t : receiver) : Prop :=
  wf (buffers t) /\ unread (buffers t) = unread (buffers t0) ++ bytes /\
  room (buffers t) = room (buffers t0) - zlen bytes /\ closed t = false /\ spinning t = false /\
  (render_status t = 0 /\ players_created t = 0%nat \/ render_status t = 1 /\ players_created t = 1%nat).

Lemma received_step t0 bytes t chunk :
  received t0 bytes t -> zlen chunk <= 1024 -> zlen bytes + zlen chunk < room (buffers t0) ->
  exists t', audio_round (RecvData chunk) t = Ret t' /\ received t0 (bytes ++ chunk) t' /\
    (50 < getBufferPercent (buffers t') -> players_created t' = 1%nat).
Proof.
  intros (W & Eu & Er & Ec & Es & Ep) Hc Hr.
  destruct (audio_round_data chunk t W Hc ltac:(lia)) as (st & W' & Eu' & Er' & E). rewrite E.
  eexists. split; [done |]. unfold received. cbn [buffers closed spinning render_status players_created].
  split.
  - split_and!; try done; [by rewrite Eu', Eu, app_assoc | rewrite zlen_app; lia |].
    destruct Ep as [[-> ->] | [-> ->]]; [| rewrite andb_false_r; by right].
    destruct (50 <? getBufferPercent st); cbn; [by right | by left].
  - intros Hp. rewrite (proj2 (Z.ltb_lt _ _) Hp). by destruct Ep as [[-> ->] | [-> ->]].
Qed.

Lemma audio_thread_received chunks : forall t0 bytes t,
  received t0 bytes t -> Forall (fun c => zlen c <= 1024) chunks ->
  zlen bytes + zlen (mjoin chunks) < room (buffers t0) ->
  exists t', received t0 (bytes ++ mjoin chunks) t' /\
    (chunks <> [] -> 50 < getBufferPercent (buffers t') -> players_created t' = 1%nat) /\
    (chunks = [] -> t' = t) /\
    forall tail, audio_thread ((RecvData <$> chunks) ++ tail) t = audio_thread tail t'.
Proof.
  induction chunks as [| c chunks IH]; intros t0 bytes t Ht Hall Hroom.
  - exists t. cbn. rewrite app_nil_r. split_and!; done.
  - inversion Hall as [| ? ? Hc Hcs]; subst. change (mjoin (c :: chunks)) with (c ++ mjoin chunks) in *. rewrite zlen_app in Hroom.
    pose proof (zlen_nonneg (mjoin chunks)).
    destruct (received_step t0 bytes t c Ht Hc) as (t1 & E1 & Ht1 & Hp1); [lia |].
    destruct (IH t0 (bytes ++ c) t1 Ht1 Hcs) as (t2 & Ht2 & Hp2 & He2 & E2).
    { rewrite zlen_app. lia. }
    exists t2. split; [by rewrite <- app_assoc in Ht2 |]. split.
    + intros _ Hp. destruct chunks as [| c' chunks]; [| by apply Hp2].
      rewrite He2 in * by done. by apply Hp1.
    + split; [done |]. intros tail. cbn [fmap list_fmap app audio_thread]. destruct Ht as (_ & _ & _ & -> & -> & _). cbn [orb].
      rewrite E1. apply E2.
Qed.

Lemma mjoin_replicate_nil n : mjoin (replicate n (@nil Z)) = [].
Proof. by induction n. Qed.

(** C35. The receive task while the player does not take anything: chunks of up
    to 1024 bytes, less than the room in all, reach the buffers completely and
    in order; the player is started at most once, and has been when the buffers
    are more than half full; an error of [recv] closes the socket and ends the
    task for good; but the 0 that [recv] returns when the peer has closed the
    connection is taken for data, so the task then goes round for ever, with
    nothing changed and its socket open. *)
Theorem audio_thread_spec chunks rest n t :
  wf (buffers t) -> closed t = false -> spinning t = false -> render_status t = 0 ->
  players_created t = 0%nat -> Forall (fun c => zlen c <= 1024) chunks -> chunks <> [] ->
  zlen (mjoin chunks) < room (buffers t) ->
  exists t', audio_thread (RecvData <$> chunks) t = Ret t' /\ received t (mjoin chunks) t' /\
    (50 < getBufferPercent (buffers t') -> players_created t' = 1%nat) /\
    audio_thread ((RecvData <$> chunks) ++ RecvError :: rest) t
    = Ret (mkReceiver (buffers t') (render_status t') (players_created t') true false) /\
    exists t2, audio_thread ((RecvData <$> chunks) ++ replicate n (RecvData [])) t = Ret t2 /\
      unread (buffers t2) = unread (buffers t') /\ closed t2 = false /\ spinning t2 = false.
Proof.
  intros W Hc Hs Hr Hp Hall Hne Hroom.
  assert (received t [] t) as H0.
  { split_and!; try done; [by rewrite app_nil_r | rewrite zlen_nil; lia | by left]. }
  destruct (audio_thread_received chunks t [] t H0 Hall Hroom) as (t' & Ht & Hst & _ & E).
  exists t'. split; [by rewrite <- (app_nil_r (RecvData <$> chunks)), E |].
  split; [exact Ht |]. split; [by apply Hst |]. split.
  - rewrite E. destruct Ht as (_ & _ & _ & Hcl & Hsp & _). cbn [audio_thread]. rewrite Hcl, Hsp. by destruct rest.
  - destruct (audio_thread_received (replicate n []) t (mjoin chunks) t' Ht) as (t2 & Ht2 & _ & _ & E2).
    + apply Forall_replicate. by cbn.
    + rewrite mjoin_replicate_nil, zlen_nil. by rewrite Z.add_0_r.
    + exists t2. rewrite E. rewrite <- (app_nil_r (replicate n (RecvData []))).
      replace (replicate n (RecvData [])) with (RecvData <$> replicate n []) by (by rewrite fmap_replicate).
      rewrite E2. split; [done |].
      rewrite mjoin_replicate_nil, app_nil_r in Ht2. destruct Ht2 as (_ & Eu & _ & Hcl & Hsp & _), Ht as (_ & Eu1 & _).
      by rewrite Eu, Eu1.
Qed.

(** The socket each task reads: the one accepted last before it starts. *)
Fixpoint last_accepted (cur : Z) (evs : list (Z + unit)) : list Z :=
  match evs with
  | [] => []
  | inl fd :: evs => last_accepted fd evs
  | inr _ :: evs => cur :: last_accepted cur evs
  end.

Lemma server_run_sockets s evs s' :
  server_run s evs s' -> sockets s' = sockets s ++ last_accepted (client s) evs.
Proof.
  induction 1 as [s | s1 e s2 es s3 Hst _ IH]; [by rewrite app_nil_r |].
  rewrite IH. destruct Hst as [s fd _ | s k _]; cbn; [done |]. by rewrite <- app_assoc.
Qed.

(** The address of the loop's variable [client] is what a new task gets:
    each task serves the connection accepted last before it reads the variable.
    When every task starts before the next connection is accepted, each serves
    its own; when two connections are accepted before the first task runs, both
    tasks serve the second one and the first is served by nobody. *)
Theorem server_handoff s evs s' :
  server_run s evs s' -> sockets s = [] ->
  sockets s' = last_accepted (client s) evs /\
  (forall fds, evs = mjoin ((fun fd => [inl fd; inr tt]) <$> fds) -> sockets s' = fds) /\
  (forall a b, evs = [inl a; inl b; inr tt; inr tt] -> sockets s' = [b; b]).
Proof.
  intros Hrun H0. rewrite (server_run_sockets s evs s' Hrun), H0. cbn [app]. split_and!.
  - done.
  - intros fds ->. clear Hrun. generalize (client s). induction fds as [| fd fds IH]; intros c; [done |].
    specialize (IH fd). exact (f_equal (cons fd) IH).
  - by intros a b ->.
Qed.

(** The server: with a socket, an address and a backlog it creates one task
    per accepted connection; the first failing call closes the listening socket
    (except when there is none) and hangs the task in [error_handle], so no
    later connection is served although the device stays up. *)
Theorem listen_tcp_server_spec fd bind_r listen_r good bad rest :
  Forall (fun c => 0 <= c) good -> bad < 0 -> 0 <= fd ->
  (0 <= bind_r -> 0 <= listen_r ->
     listen_tcp_server fd bind_r listen_r good = (replicate (length good) CreateTask, Accepting) /\
     listen_tcp_server fd bind_r listen_r (good ++ bad :: rest)
     = (replicate (length good) CreateTask ++ [CloseSocket fd], Hung)) /\
  (bind_r < 0 \/ listen_r < 0 -> listen_tcp_server fd bind_r listen_r rest = ([CloseSocket fd], Hung)) /\
  listen_tcp_server bad bind_r listen_r rest = ([], Hung).
Proof.
  intros Hgood Hbad Hfd. unfold listen_tcp_server. rewrite (proj2 (Z.ltb_ge fd 0)) by lia.
  rewrite (proj2 (Z.ltb_lt bad 0)) by lia. split_and!; [| | done].
  - intros Hb Hl. rewrite (proj2 (Z.ltb_ge bind_r 0)), (proj2 (Z.ltb_ge listen_r 0)) by lia.
    induction Hgood as [| c good Hc _ [IH1 IH2]]; cbn [accept_loop app length replicate].
    + by rewrite (proj2 (Z.ltb_lt bad 0)) by lia.
    + rewrite (proj2 (Z.ltb_ge c 0)) by lia. by rewrite IH1, IH2.
  - intros [H | H]; case_cmp; done.
Qed.

(** Whether the last event that concerns the connection announced one. *)
Fixpoint connected_after (evs : list system_event_id_t) (was : bool) : bool :=
  match evs with
  | [] => was
  | e :: evs => connected_after evs
      match e with
      | SYSTEM_EVENT_STA_GOT_IP | SYSTEM_EVENT_AP_STACONNECTED => true
      | SYSTEM_EVENT_STA_DISCONNECTED | SYSTEM_EVENT_AP_STADISCONNECTED => false
      | _ => was
      end
  end.
Definition attempts (evs : list system_event_id_t) : nat :=
  length (filter (fun e => e = SYSTEM_EVENT_STA_START \/ e = SYSTEM_EVENT_STA_DISCONNECTED) evs).

(** After any sequence of WiFi events the connected bit tells whether the
    last connection event announced a connection or its loss, the other bits of
    the event group are as they were, and the station has tried to connect once
    per start and once per disconnection (so it keeps trying). *)
Theorem event_handler_spec evs w :
  let w' := foldl event_handler w evs in
  Z.testbit (tcp_event_group w') 0 = connected_after evs (Z.testbit (tcp_event_group w) 0) /\
  (forall i, 0 < i -> Z.testbit (tcp_event_group w') i = Z.testbit (tcp_event_group w) i) /\
  connects w' = (connects w + attempts evs)%nat.
Proof.
  revert w. induction evs as [| e evs IH]; intros w; cbn [foldl connected_after].
  - unfold attempts. cbn. split_and!; done || lia.
  - destruct (IH (event_handler w e)) as (H1 & H2 & H3). clear IH.
    assert (forall i, 0 <= i -> Z.testbit WIFI_CONNECTED_BIT i = (i =? 0)) as Hbit.
    { intros i Hi. change WIFI_CONNECTED_BIT with (2 ^ 0). rewrite Z.pow2_bits_eqb by done. apply Z.eqb_sym. }
    split_and!.
    + rewrite H1. f_equal. destruct e; cbn [event_handler tcp_event_group set_bits_of clear_bits_of esp_wifi_connect];
        rewrite ?Z.land_spec, ?Z.lor_spec, ?Z.lnot_spec, ?Hbit by done;
        rewrite ?orb_true_r, ?andb_false_r; done.
    + intros i Hi. rewrite (H2 i Hi).
      destruct e; cbn [event_handler tcp_event_group set_bits_of clear_bits_of esp_wifi_connect];
        rewrite ?Z.land_spec, ?Z.lor_spec, ?Z.lnot_spec, ?Hbit by lia; try done;
        rewrite ?(proj2 (Z.eqb_neq i 0)) by lia; cbn; rewrite ?orb_false_r, ?andb_true_r; done.
    + rewrite H3. unfold attempts. rewrite filter_cons.
      destruct e; cbn [event_handler connects set_bits_of clear_bits_of esp_wifi_connect]; case_decide; cbn [length];
        try lia; intuition discriminate.
Qed.

(** * Witnesses *)

#[local] Existing Instance roomy.

Definition demo_format : list Z := [1; 0; 2; 0] ++ le32 48000 ++ le32 192000 ++ [4; 0; 16; 0; 0; 0; 0; 0].
Definition demo_samples : list Z := [1; 2; 3; 4; 5; 6; 7; 8].
Definition demo_packets : list packet := [Header demo_format; Data demo_samples; Command SEND_ACK].

(** A player with the started renderer, reading from a list of bytes. *)
Definition demo_player (s : render (Q := bounded)) (bytes : list Z) : player (B := list Z) (Q := bounded) :=
  mkPlayer bytes s (replicate 20 0) (replicate (Z.to_nat 16384) 0) 0 0.

Lemma prcess_character_stream_witness : exists s p',
  boot_renderer demo_irqs any_regs = Ret (tt, s) /\
  prcess_character 9 (demo_player s (encodes demo_packets ++ [2])) = Ret (p', [[3; 132; 1; 130]; [7; 136; 5; 134]]) /\
  source p' = [2].
Proof.
  destruct (boot_runs demo_irqs any_regs) as (s & E & _ & _ & Hi & Hst & _ & Hp).
  destruct (prcess_character_stream demo_packets [2] 44100 (demo_player s (encodes demo_packets ++ [2])) 9)
    as (rate & p' & E' & _ & Hr).
  - discriminate.
  - exact I.
  - reflexivity.
  - reflexivity.
  - exists boot_config. split; [exact Hi | split; reflexivity].
  - cbn [rend demo_player]. by rewrite Hst.
  - exact (boot_ready _ _ s E).
  - cbn [rend demo_player]. rewrite Hp. repeat constructor; cbn; lia.
  - repeat constructor; vm_compute; congruence.
  - reflexivity.
  - left. reflexivity.
  - cbn [rend demo_player]. rewrite Hp. vm_compute. discriminate.
  - cbn. lia.
  - exists s, p'. split; [exact E |]. split; [exact E' | exact Hr].
Defined.

Definition demo_user : UserData := mkUserData (replicate (Z.to_nat sizeof_audio_data) 0) 0 0.

(** Two blocks, 6160 bytes, in the firmware's store: the first buffer is full, and
    only the first block lies in it completely. *)
Definition demo_blocks : list (list Z * Z) := [(replicate (Z.to_nat 4096) 7, 1024); (replicate (Z.to_nat 2048) 9, 512)].
Definition demo_bytes : list Z := encodes (block_packet <$> demo_blocks).

Lemma demo_store : exists st, buffer_write_data boot_state demo_bytes (zlen demo_bytes) = Ret (Written st) /\
  wf st /\ prepared st = take (Z.to_nat 5120) demo_bytes.
Proof.
  destruct (write_loop_spec (S (Z.to_nat (zlen demo_bytes))) boot_state demo_bytes (zlen demo_bytes) boot_wf)
    as (r & E & st & W & Eu & Er & _ & Hr); [vm_compute; split; discriminate | lia |].
  assert (zlen demo_bytes = 6160) as Hz by (vm_compute; reflexivity). change (room boot_state) with 25600 in *. rewrite Hz in *.
  exists st. subst r. split; [exact E |]. split; [exact W |].
  assert (unread st = demo_bytes) as Eu'.
  { rewrite Eu, replayed_by_nil, boot_unread by (change (room boot_state) with 25600; lia). apply take_ge. unfold zlen in Hz. lia. }
  destruct (prepared_cut st demo_bytes W Eu') as [-> _]; [rewrite Er, Hz; change (room boot_state) with 25600; lia | by rewrite Hz |].
  by rewrite Hz.
Qed.

Lemma record_render_roundtrip_witness : exists st s p',
  buffer_write_data boot_state demo_bytes (zlen demo_bytes) = Ret (Written st) /\
  boot_renderer (replicate 1536 [(4096, 0)]) any_regs = Ret (tt, s) /\
  prcess_character 9 (mkPlayer st s (replicate 20 0) (replicate (Z.to_nat 16384) 0) 0 0)
  = Ret (p', frames (replicate (Z.to_nat 4096) 7) 0 2 4 1024).
Proof.
  destruct demo_store as (st & Est & W & Hprep).
  destruct (boot_runs (replicate 1536 [(4096, 0)]) any_regs) as (s & E & _ & _ & Hi & Hst & _ & Hp).
  destruct (record_render_roundtrip demo_blocks demo_user 44100
    (mkPlayer st s (replicate 20 0) (replicate (Z.to_nat 16384) 0) 0 0) 9)
    as (u' & bytes & p' & k & _ & Ep & _ & Hk & Hle & Hlt & _).
  - discriminate.
  - repeat constructor; vm_compute; congruence.
  - reflexivity.
  - exact W.
  - reflexivity.
  - reflexivity.
  - exists boot_config. split; [exact Hi | split; reflexivity].
  - cbn [rend]. by rewrite Hst.
  - exact (boot_ready _ _ s E).
  - cbn [rend]. rewrite Hp. apply Forall_replicate. repeat constructor; cbn; lia.
  - intros u' bytes Hs. cbn [source]. change (src_ready st) with (prepared st). rewrite Hprep.
    assert (bytes = demo_bytes) as -> by (vm_compute in Hs; injection Hs as _ <-; vm_compute; reflexivity).
    apply prefix_take.
  - cbn. lia.
  - cbn [rend]. rewrite Hp. vm_compute. discriminate.
  - cbn [source] in Hle, Hlt. change (src_ready st) with (prepared st) in Hle, Hlt.
    assert (zlen (prepared st) = 5120) as Hz by (rewrite Hprep; vm_compute; reflexivity). rewrite Hz in Hle, Hlt.
    exists st, s, p'. split; [exact Est |]. split; [exact E |]. rewrite Ep. clear Ep. cbn [length demo_blocks] in Hk.
    assert (k = 1%nat) as ->; [| cbn [take demo_blocks fmap list_fmap mjoin fst snd]; cbn; by rewrite app_nil_r].
    destruct k as [| [| [| k]]]; [| reflexivity | | lia].
    + exfalso. specialize (Hlt ltac:(cbn; lia)). vm_compute in Hlt. discriminate.
    + exfalso. vm_compute in Hle. by apply Hle.
Defined.

Lemma packet_length_overflow_witness : exists s,
  boot_renderer [] any_regs = Ret (tt, s) /\
  process_round (demo_player s (le32 SEND_HEADER ++ le32 21 ++ replicate 21 0)) = Fault OutOfBounds.
Proof.
  destruct (boot_runs [] any_regs) as (s & E & _). exists s. split; [exact E |].
  apply (packet_length_overflow _ SEND_HEADER 21 (replicate 21 0)); try reflexivity.
  - left. split; reflexivity.
Defined.

Definition demo_receiver : receiver := mkReceiver boot_state 0 0 false false.

Lemma audio_thread_spec_witness : exists t',
  audio_thread (RecvData <$> [[1; 2]; [3]]) demo_receiver = Ret t' /\ unread (buffers t') = [1; 2; 3].
Proof.
  destruct (audio_thread_spec [[1; 2]; [3]] [] 0 demo_receiver) as (t' & E & (_ & Hu & _) & _);
    try reflexivity; try discriminate.
  - exact boot_wf.
  - repeat constructor; vm_compute; discriminate.
  - exists t'. split; [exact E |]. rewrite Hu. cbn [buffers demo_receiver]. rewrite boot_unread. reflexivity.
Defined.

Lemma server_handoff_witness : exists s',
  server_run (mkServer 0 0 []) [inl 5; inl 6; inr tt; inr tt] s' /\ sockets s' = [6; 6].
Proof.
  exists (mkServer 6 0 [6; 6]).
  assert (server_run (mkServer 0 0 []) [inl 5; inl 6; inr tt; inr tt] (mkServer 6 0 [6; 6])) as Hrun.
  { eapply run_cons; [by apply srv_accept |]. eapply run_cons; [by apply srv_accept |].
    eapply run_cons; [by eapply srv_task |]. eapply run_cons; [by eapply srv_task |]. apply run_nil. }
  split; [exact Hrun |]. destruct (server_handoff _ _ _ Hrun eq_refl) as (_ & _ & H). exact (H 5 6 eq_refl).
Defined.

Lemma listen_tcp_server_spec_witness :
  listen_tcp_server 3 0 0 [4; 5; -1; 6] = ([CreateTask; CreateTask; CloseSocket 3], Hung).
Proof.
  destruct (listen_tcp_server_spec 3 0 0 [4; 5] (-1) [6]) as ((_ & E) & _); try done.
  repeat constructor; done.
Defined.
