(* ===== verification/PaConverters.v ===== *)
(** PortAudio's sample formats, converters and zeroers
    (src/WIN32/src/common/pa_converters.c, pa_dither.c, Pa_GetSampleSize of
    pa_front.c).

    A pointer is a memory block with a byte offset.  A converter walks two strided
    sequences of samples; each one is [convert] at its sample sizes and its
    expression on one sample.  The order of bytes is the little endian one.  The
    converters from and to float are entries of the table that this file leaves
    open; [converts] is what the rest of the development asks of an entry. *)

From S2P Require Import Prelude.

(** * Memory *)

Inductive ptr := NULL | Ptr (block off : Z).

Notation memory := (gmap Z (list Z)).

#[export] Instance ptr_eq_dec : EqDecision ptr.
Proof. solve_decision. Defined.

(** [p + n] on a pointer to bytes. *)
Definition padd (p : ptr) (n : Z) : ptr :=
  match p with NULL => NULL | Ptr b off => Ptr b (off + n) end.

Definition load (m : memory) (p : ptr) (n : Z) : res (list Z) :=
  match p with
  | NULL => Fault NullPointer
  | Ptr b off => l ← of_option OutOfBounds (m !! b); memcpy_from l off n
  end.

Definition store (m : memory) (p : ptr) (bytes : list Z) : res memory :=
  match p with
  | NULL => Fault NullPointer
  | Ptr b off =>
      l ← of_option OutOfBounds (m !! b); l ← memcpy_to l off bytes; Ret (<[b := l]> m)
  end.

(** Little-endian integers. *)
Fixpoint le_value (l : list Z) : Z :=
  match l with [] => 0 | b :: l => b + 256 * le_value l end.
Fixpoint le_bytes (n : nat) (v : Z) : list Z :=
  match n with O => [] | S n => v mod 256 :: le_bytes n (v / 256) end.

Definition PaInt32 (s : list Z) : Z := wrap_s 32 (le_value s).
Definition PaInt16 (s : list Z) : Z := wrap_s 16 (le_value s).
Definition schar (s : list Z) : Z := wrap_s 8 (le_value s).
Definition uchar (v : Z) : Z := wrap_u 8 v.

(** * Formats *)

Definition paFloat32 : Z := 1.
Definition paInt32 : Z := 2.
Definition paInt24 : Z := 4.
Definition paInt16 : Z := 8.
Definition paInt8 : Z := 16.
Definition paUInt8 : Z := 32.
Definition paCustomFormat : Z := 65536.
Definition paNonInterleaved : Z := 2147483648.

Definition paNoError : Z := 0.
Definition paInsufficientMemory : Z := -9992.
Definition paSampleFormatNotSupported : Z := -9994.

Definition paClipOff : Z := 1.
Definition paDitherOff : Z := 2.

(** [format & ~paNonInterleaved] on 32 bits. *)
Definition interleaved_format (format : Z) : Z := Z.ldiff format paNonInterleaved.

(** The formats the tables know; any other value is the [default] of the
    switches. *)
Inductive format := Float32 | Int32 | Int24 | Int16 | Int8 | UInt8.

#[export] Instance format_eq_dec : EqDecision format.
Proof. solve_decision. Defined.

Definition format_of (f : Z) : option format :=
  let f := interleaved_format f in
  if f =? paFloat32 then Some Float32 else if f =? paInt32 then Some Int32
  else if f =? paInt24 then Some Int24 else if f =? paInt16 then Some Int16
  else if f =? paInt8 then Some Int8 else if f =? paUInt8 then Some UInt8 else None.

Definition sample_size (f : format) : Z :=
  match f with UInt8 | Int8 => 1 | Int16 => 2 | Int24 => 3 | Float32 | Int32 => 4 end.

Definition Pa_GetSampleSize (f : Z) : Z :=
  match format_of f with Some f => sample_size f | None => paSampleFormatNotSupported end.

(** [PaUtil_SelectClosestAvailableFormat]: a better format (a lower bit) first, a
    worse one next.  The second scan stops at an available format or at
    [paCustomFormat]; 32 shifts have left no bit, so a scan that long never
    stops. *)
Fixpoint scan_better (fuel : nat) (result available : Z) : res Z :=
  match fuel with
  | O => Fault OutOfFuel
  | S fuel =>
      let result := Z.shiftr result 1 in
      if (Z.land result available =? 0) && negb (result =? 0) then scan_better fuel result available
      else Ret result
  end.

Fixpoint scan_worse (fuel : nat) (result available : Z) : res Z :=
  match fuel with
  | O => Fault OutOfFuel
  | S fuel =>
      let result := wrap_u 32 (Z.shiftl result 1) in
      if (Z.land result available =? 0) && negb (result =? paCustomFormat) then scan_worse fuel result available
      else Ret result
  end.

Definition PaUtil_SelectClosestAvailableFormat (availableFormats fmt : Z) : res Z :=
  let fmt := interleaved_format fmt in
  let availableFormats := interleaved_format availableFormats in
  if Z.land fmt availableFormats =? 0 then
    result ← (if negb (fmt =? 1) then scan_better 33 fmt availableFormats else Ret 0);
    if result =? 0 then
      result ← scan_worse 33 fmt availableFormats;
      Ret (if Z.land result availableFormats =? 0 then wrap_u 32 paSampleFormatNotSupported else result)
    else Ret result
  else Ret fmt.

(** * Dither *)

Record PaUtilTriangularDitherGenerator := mkDither { previous : Z; randSeed1 : Z; randSeed2 : Z }.
Notation dither := PaUtilTriangularDitherGenerator.

Definition PaUtil_InitializeTriangularDitherState : dither := mkDither 0 22222 5555555.

Definition DITHER_SHIFT_ : Z := 32 - 15 + 1.

Definition PaUtil_Generate16BitTriangularDither (s : dither) : Z * dither :=
  let r1 := wrap_u 32 (randSeed1 s * 196314165 + 907633515) in
  let r2 := wrap_u 32 (randSeed2 s * 196314165 + 907633515) in
  let current := Z.shiftr (wrap_s 32 r1) DITHER_SHIFT_ + Z.shiftr (wrap_s 32 r2) DITHER_SHIFT_ in
  (wrap_s 32 (current - previous s), mkDither (wrap_u 32 current) r1 r2).

(** * Converters *)

(** [PaUtilConverter]: destination, its stride, source, its stride, count; the
    state is the memory and the dither generator. *)
Definition PaUtilConverter : Type := ptr -> Z -> ptr -> Z -> Z -> st (memory * dither) unit.
Definition PaUtilZeroer : Type := ptr -> Z -> Z -> memory -> res memory.

(** The common loop: [count] samples of [sb] bytes, each read whole and written as
    [db] bytes; strides are in samples. *)
Fixpoint convert_loop (n : nat) (sb db : Z) (g : list Z -> dither -> list Z * dither)
    (dest : ptr) (dstride : Z) (src : ptr) (sstride : Z) : st (memory * dither) unit :=
  match n with
  | O => mret tt
  | S n => fun w =>
      s ← load w.1 src sb;
      let r := g s w.2 in
      m ← store w.1 dest r.1;
      convert_loop n sb db g (padd dest (dstride * db)) dstride (padd src (sstride * sb)) sstride (m, r.2)
  end.

Definition convert (sb db : Z) (g : list Z -> list Z) : PaUtilConverter :=
  fun dest dstride src sstride count =>
    convert_loop (Z.to_nat count) sb db (fun s d => (g s, d)) dest dstride src sstride.

(** A converter that adds dither, sample by sample. *)
Definition convert_dither (sb db : Z) (g : list Z -> Z -> list Z) : PaUtilConverter :=
  fun dest dstride src sstride count =>
    convert_loop (Z.to_nat count) sb db
      (fun s d => let r := PaUtil_Generate16BitTriangularDither d in (g s r.1, r.2))
      dest dstride src sstride.

(** The expressions on one sample, from its bytes to the bytes stored. *)
Definition int32_to_int24 (s : list Z) : list Z :=
  [uchar (Z.shiftr (PaInt32 s) 8); uchar (Z.shiftr (PaInt32 s) 16); uchar (Z.shiftr (PaInt32 s) 24)].
Definition int32_to_int16 (s : list Z) : list Z := le_bytes 2 (Z.shiftr (PaInt32 s) 16).
Definition int32_to_int8 (s : list Z) : list Z := le_bytes 1 (Z.shiftr (PaInt32 s) 24).
Definition int32_to_uint8 (s : list Z) : list Z := [uchar (Z.shiftr (PaInt32 s) 24 + 128)].

(** [temp], the 24 bits in the upper bytes of an int. *)
Definition int24_temp (s : list Z) : Z :=
  let b i := s !!! i in
  wrap_s 32 (Z.lor (Z.lor (Z.shiftl (b 0%nat) 8) (Z.shiftl (b 1%nat) 16)) (Z.shiftl (b 2%nat) 24)).
Definition int24_to_int32 (s : list Z) : list Z := le_bytes 4 (int24_temp s).
Definition int24_to_int16 (s : list Z) : list Z :=
  le_bytes 2 (Z.lor (s !!! 1%nat) (wrap_s 16 (Z.shiftl (s !!! 2%nat) 8))).
Definition int24_to_int8 (s : list Z) : list Z := [s !!! 2%nat].
Definition int24_to_uint8 (s : list Z) : list Z := [uchar (s !!! 2%nat + 128)].

Definition int16_to_int32 (s : list Z) : list Z := le_bytes 4 (Z.shiftl (PaInt16 s) 16).
Definition int16_to_int24 (s : list Z) : list Z :=
  [0; uchar (PaInt16 s); uchar (Z.shiftr (PaInt16 s) 8)].
Definition int16_to_int8 (s : list Z) : list Z := le_bytes 1 (Z.shiftr (PaInt16 s) 8).
Definition int16_to_uint8 (s : list Z) : list Z := [uchar (Z.shiftr (PaInt16 s) 8 + 128)].

Definition int8_to_int32 (s : list Z) : list Z := le_bytes 4 (Z.shiftl (schar s) 24).
Definition int8_to_int24 (s : list Z) : list Z := [0; 0; uchar (schar s)].
Definition int8_to_int16 (s : list Z) : list Z := le_bytes 2 (Z.shiftl (schar s) 8).
Definition int8_to_uint8 (s : list Z) : list Z := [uchar (schar s + 128)].

Definition uint8_to_int32 (s : list Z) : list Z := le_bytes 4 (Z.shiftl (le_value s - 128) 24).
Definition uint8_to_int24 (s : list Z) : list Z := [0; 0; uchar (le_value s - 128)].
Definition uint8_to_int16 (s : list Z) : list Z := le_bytes 2 (Z.shiftl (le_value s - 128) 8).
Definition uint8_to_int8 (s : list Z) : list Z := [uchar (le_value s - 128)].

Definition dithered16 (v d : Z) : list Z := le_bytes 2 (Z.shiftr (Z.shiftr v 1 + d) 15).
Definition dithered8 (v d : Z) : list Z := le_bytes 1 (Z.shiftr (Z.shiftr v 1 + d) 23).

(** The converters, under the names of the source. *)
Definition Int32_To_Int24 := convert 4 3 int32_to_int24.
Definition Int32_To_Int16 := convert 4 2 int32_to_int16.
Definition Int32_To_Int16_Dither := convert_dither 4 2 (fun s => dithered16 (PaInt32 s)).
Definition Int32_To_Int8 := convert 4 1 int32_to_int8.
Definition Int32_To_Int8_Dither := convert_dither 4 1 (fun s => dithered8 (PaInt32 s)).
Definition Int32_To_UInt8 := convert 4 1 int32_to_uint8.
Definition Int24_To_Int32 := convert 3 4 int24_to_int32.
Definition Int24_To_Int16 := convert 3 2 int24_to_int16.
Definition Int24_To_Int16_Dither := convert_dither 3 2 (fun s => dithered16 (int24_temp s)).
Definition Int24_To_Int8 := convert 3 1 int24_to_int8.
Definition Int24_To_Int8_Dither := convert_dither 3 1 (fun s => dithered8 (int24_temp s)).
Definition Int24_To_UInt8 := convert 3 1 int24_to_uint8.
Definition Int16_To_Int32 := convert 2 4 int16_to_int32.
Definition Int16_To_Int24 := convert 2 3 int16_to_int24.
Definition Int16_To_Int8 := convert 2 1 int16_to_int8.
Definition Int16_To_UInt8 := convert 2 1 int16_to_uint8.
Definition Int8_To_Int32 := convert 1 4 int8_to_int32.
Definition Int8_To_Int24 := convert 1 3 int8_to_int24.
Definition Int8_To_Int16 := convert 1 2 int8_to_int16.
Definition Int8_To_UInt8 := convert 1 1 int8_to_uint8.
Definition UInt8_To_Int32 := convert 1 4 uint8_to_int32.
Definition UInt8_To_Int24 := convert 1 3 uint8_to_int24.
Definition UInt8_To_Int16 := convert 1 2 uint8_to_int16.
Definition UInt8_To_Int8 := convert 1 1 uint8_to_int8.
Definition Copy_8_To_8 := convert 1 1 (fun s => s).
Definition Copy_16_To_16 := convert 2 2 (fun s => s).
Definition Copy_24_To_24 := convert 3 3 (fun s => s).
Definition Copy_32_To_32 := convert 4 4 (fun s => s).

(** The converters marked IMPLEMENT ME: the destination is not written. *)
Definition unimplemented : PaUtilConverter := fun _ _ _ _ _ => mret tt.
Definition Int32_To_Int24_Dither := unimplemented.
Definition Int32_To_UInt8_Dither := unimplemented.
Definition Int24_To_UInt8_Dither := unimplemented.
Definition Int16_To_Int8_Dither := unimplemented.
Definition Int16_To_UInt8_Dither := unimplemented.

(** * The tables *)

(** The fields of [PaUtilConverterTable]: [source ## _To_ ## destination], with
    the suffixes of the macros, and the copies. *)
Inductive suffix := Plain | Dither | Clip | DitherClip.
Inductive converter_id := Convert (source destination : format) (how : suffix) | Copy (bits : Z).

(** An entry may be NULL. *)
Definition PaUtilConverterTable : Type := converter_id -> option PaUtilConverter.

Definition PA_SELECT_CONVERTER_DITHER_CLIP_ (flags : Z) (s d : format) : converter_id :=
  if negb (Z.land flags paClipOff =? 0) then
    if negb (Z.land flags paDitherOff =? 0) then Convert s d Plain else Convert s d Dither
  else if negb (Z.land flags paDitherOff =? 0) then Convert s d Clip else Convert s d DitherClip.

Definition PA_SELECT_CONVERTER_DITHER_ (flags : Z) (s d : format) : converter_id :=
  if negb (Z.land flags paDitherOff =? 0) then Convert s d Plain else Convert s d Dither.

(** The matrix of [PaUtil_SelectConverter]. *)
Definition select_id (s d : format) (flags : Z) : converter_id :=
  match s, d with
  | Float32, Float32 => Copy 32
  | Float32, _ => PA_SELECT_CONVERTER_DITHER_CLIP_ flags s d
  | Int32, Float32 => Convert s d Plain
  | Int32, Int32 => Copy 32
  | Int32, _ => PA_SELECT_CONVERTER_DITHER_ flags s d
  | Int24, (Float32 | Int32) => Convert s d Plain
  | Int24, Int24 => Copy 24
  | Int24, _ => PA_SELECT_CONVERTER_DITHER_ flags s d
  | Int16, (Float32 | Int32 | Int24) => Convert s d Plain
  | Int16, Int16 => Copy 16
  | Int16, _ => PA_SELECT_CONVERTER_DITHER_ flags s d
  | Int8, Int8 => Copy 8
  | Int8, _ => Convert s d Plain
  | UInt8, UInt8 => Copy 8
  | UInt8, _ => Convert s d Plain
  end.

Definition PaUtil_SelectConverter (paConverters : PaUtilConverterTable)
    (sourceFormat destinationFormat flags : Z) : option PaUtilConverter :=
  match format_of sourceFormat with
  | None => None
  | Some s =>
      match format_of destinationFormat with
      | None => None
      | Some d => paConverters (select_id s d flags)
      end
  end.

(** [paConverters]; [float] holds the entries from and to float (PaFloat). *)
Definition paConverters (float : PaUtilConverterTable) : PaUtilConverterTable := fun id =>
  match id with
  | Convert Int32 Int24 Plain => Some Int32_To_Int24
  | Convert Int32 Int24 Dither => Some Int32_To_Int24_Dither
  | Convert Int32 Int16 Plain => Some Int32_To_Int16
  | Convert Int32 Int16 Dither => Some Int32_To_Int16_Dither
  | Convert Int32 Int8 Plain => Some Int32_To_Int8
  | Convert Int32 Int8 Dither => Some Int32_To_Int8_Dither
  | Convert Int32 UInt8 Plain => Some Int32_To_UInt8
  | Convert Int32 UInt8 Dither => Some Int32_To_UInt8_Dither
  | Convert Int24 Int32 Plain => Some Int24_To_Int32
  | Convert Int24 Int16 Plain => Some Int24_To_Int16
  | Convert Int24 Int16 Dither => Some Int24_To_Int16_Dither
  | Convert Int24 Int8 Plain => Some Int24_To_Int8
  | Convert Int24 Int8 Dither => Some Int24_To_Int8_Dither
  | Convert Int24 UInt8 Plain => Some Int24_To_UInt8
  | Convert Int24 UInt8 Dither => Some Int24_To_UInt8_Dither
  | Convert Int16 Int32 Plain => Some Int16_To_Int32
  | Convert Int16 Int24 Plain => Some Int16_To_Int24
  | Convert Int16 Int8 Plain => Some Int16_To_Int8
  | Convert Int16 Int8 Dither => Some Int16_To_Int8_Dither
  | Convert Int16 UInt8 Plain => Some Int16_To_UInt8
  | Convert Int16 UInt8 Dither => Some Int16_To_UInt8_Dither
  | Convert Int8 Int32 Plain => Some Int8_To_Int32
  | Convert Int8 Int24 Plain => Some Int8_To_Int24
  | Convert Int8 Int16 Plain => Some Int8_To_Int16
  | Convert Int8 UInt8 Plain => Some Int8_To_UInt8
  | Convert UInt8 Int32 Plain => Some UInt8_To_Int32
  | Convert UInt8 Int24 Plain => Some UInt8_To_Int24
  | Convert UInt8 Int16 Plain => Some UInt8_To_Int16
  | Convert UInt8 Int8 Plain => Some UInt8_To_Int8
  | Copy bits =>
      if bits =? 8 then Some Copy_8_To_8 else if bits =? 16 then Some Copy_16_To_16
      else if bits =? 24 then Some Copy_24_To_24 else if bits =? 32 then Some Copy_32_To_32 else None
  | Convert Float32 _ _ | Convert _ Float32 _ => float id
  | Convert _ _ _ => None
  end.

(** The zeroers. *)
Fixpoint zero_loop (n : nat) (bytes : list Z) (dest : ptr) (step : Z) (m : memory) : res memory :=
  match n with
  | O => Ret m
  | S n => m ← store m dest bytes; zero_loop n bytes (padd dest step) step m
  end.

Definition zeroer (bytes : list Z) : PaUtilZeroer :=
  fun dest stride count => zero_loop (Z.to_nat count) bytes dest (stride * zlen bytes).

Definition ZeroU8 := zeroer [128].
Definition Zero8 := zeroer [0].
Definition Zero16 := zeroer [0; 0].
Definition Zero24 := zeroer [0; 0; 0].
Definition Zero32 := zeroer [0; 0; 0; 0].

Definition PaUtil_SelectZeroer (destinationFormat : Z) : option PaUtilZeroer :=
  match format_of destinationFormat with
  | Some (Float32 | Int32) => Some Zero32
  | Some Int24 => Some Zero24
  | Some Int16 => Some Zero16
  | Some Int8 => Some Zero8
  | Some UInt8 => Some ZeroU8
  | None => None
  end.

(** * Strided stores

    [pokes off step vs l]: the samples [vs], stored [step] apart. *)

Fixpoint pokes (off step : Z) (vs : list (list Z)) (l : list Z) : list Z :=
  match vs with
  | [] => l
  | v :: vs => pokes (off + step) step vs (blit off v l)
  end.

Section strided.
Implicit Types (l v : list Z) (vs : list (list Z)).

Lemma lookup_blit l v off i : 0 <= off -> off + zlen v <= zlen l ->
  blit off v l !! i = if decide (off <= Z.of_nat i < off + zlen v) then v !! (i - Z.to_nat off)%nat else l !! i.
Proof.
  unfold zlen. intros H0 H1. unfold blit.
  assert (length (take (Z.to_nat off) l) = Z.to_nat off) as E by (rewrite length_take; lia).
  destruct (decide _) as [Hi | Hi].
  - rewrite lookup_app_r by lia. rewrite lookup_app_l by lia. by rewrite E.
  - destruct (decide (i < Z.to_nat off)%nat).
    + rewrite lookup_app_l by lia. by rewrite lookup_take_lt by lia.
    + rewrite lookup_app_r by lia. rewrite lookup_app_r by lia. rewrite lookup_drop, E. f_equal. lia.
Qed.

Lemma lookup_slice l off n i : 0 <= off ->
  slice off n l !! i = if decide (Z.of_nat i < n) then l !! (Z.to_nat off + i)%nat else None.
Proof.
  intros. unfold slice. destruct (decide _).
  - rewrite lookup_take_lt by lia. apply lookup_drop.
  - apply lookup_take_ge. lia.
Qed.

Lemma slice_blit_same l v off : 0 <= off -> off + zlen v <= zlen l -> slice off (zlen v) (blit off v l) = v.
Proof.
  intros H0 H1. apply list_eq. intros i. rewrite lookup_slice, lookup_blit by done.
  unfold zlen in *. destruct (decide _).
  - rewrite decide_True by lia. f_equal. lia.
  - symmetry. apply lookup_ge_None_2. lia.
Qed.

Lemma slice_blit_other l v off p n : 0 <= off -> off + zlen v <= zlen l -> 0 <= p ->
  p + n <= off \/ off + zlen v <= p -> slice p n (blit off v l) = slice p n l.
Proof.
  intros H0 H1 Hp Hd. apply list_eq. intros i. rewrite !lookup_slice, lookup_blit by done.
  destruct (decide _); [| done]. apply decide_False. lia.
Qed.

(** The samples lie inside the object. *)
Definition in_bounds (off step b : Z) (n : nat) (len : Z) : Prop :=
  forall k, 0 <= k < Z.of_nat n -> 0 <= off + k * step /\ off + k * step + b <= len.

Lemma in_bounds_S off step b n len : in_bounds off step b (S n) len ->
  0 <= off /\ off + b <= len /\ in_bounds (off + step) step b n len.
Proof.
  intros H. pose proof (H 0 ltac:(lia)). split_and!; [lia.. |].
  intros k Hk. pose proof (H (k + 1) ltac:(lia)). lia.
Qed.

Lemma zlen_pokes vs : forall off step b l, Forall (fun v => zlen v = b) vs ->
  in_bounds off step b (length vs) (zlen l) -> zlen (pokes off step vs l) = zlen l.
Proof.
  induction vs as [| v vs IH]; intros off step b l Hv Hb; [done |].
  apply Forall_cons_1 in Hv as [Hv Hvs]. apply in_bounds_S in Hb as (H0 & H1 & Hb). cbn [pokes].
  assert (zlen (blit off v l) = zlen l) as E by (apply zlen_blit; lia).
  rewrite (IH _ _ b) by (rewrite ?E; done). done.
Qed.

Lemma slice_pokes_other vs : forall off step b l p n, Forall (fun v => zlen v = b) vs ->
  in_bounds off step b (length vs) (zlen l) -> 0 <= p ->
  (forall k, 0 <= k < zlen vs -> p + n <= off + k * step \/ off + k * step + b <= p) ->
  slice p n (pokes off step vs l) = slice p n l.
Proof.
  induction vs as [| v vs IH]; intros off step b l p n Hv Hb Hp Hd; [done |].
  apply Forall_cons_1 in Hv as [Hv Hvs]. apply in_bounds_S in Hb as (H0 & H1 & Hb). cbn [pokes].
  pose proof (zlen_nonneg vs) as Hn. rewrite zlen_cons in Hd.
  assert (zlen (blit off v l) = zlen l) as E by (apply zlen_blit; lia).
  rewrite (IH _ _ b); [| by rewrite ?E.. |].
  - apply slice_blit_other; [lia.. |]. pose proof (Hd 0 ltac:(lia)). lia.
  - intros k Hk. pose proof (Hd (k + 1) ltac:(lia)). lia.
Qed.

Lemma slice_pokes_same vs : forall off step b l k v, Forall (fun v => zlen v = b) vs ->
  in_bounds off step b (length vs) (zlen l) -> 0 < b <= step -> vs !! k = Some v ->
  slice (off + Z.of_nat k * step) b (pokes off step vs l) = v.
Proof.
  induction vs as [| w vs IH]; intros off step b l k v Hv Hb Hs Hk; [done |].
  apply Forall_cons_1 in Hv as [Hv Hvs]. apply in_bounds_S in Hb as (H0 & H1 & Hb). cbn [pokes].
  assert (zlen (blit off w l) = zlen l) as E by (apply zlen_blit; lia).
  destruct k as [| k]; cbn in Hk.
  - injection Hk as ->. replace (off + Z.of_nat 0 * step) with off by lia.
    rewrite (slice_pokes_other _ _ _ b) by (rewrite ?E; (done || nia)).
    rewrite <- Hv. apply slice_blit_same; lia.
  - replace (off + Z.of_nat (S k) * step) with (off + step + Z.of_nat k * step) by lia.
    apply IH; [done | by rewrite E | done..].
Qed.
End strided.

(** * What a converter does

    [converts c sb db R]: [c] reads samples of [sb] bytes and stores, at their
    places, samples of [db] bytes that [R] relates to them; it touches nothing
    else of the memory. *)
Definition converts (c : PaUtilConverter) (sb db : Z) (R : list Z -> list Z -> Prop) : Prop :=
  forall bd od ds bs os ss n m δ ls ld,
    bd <> bs -> m !! bs = Some ls -> m !! bd = Some ld -> 0 <= n ->
    in_bounds os (ss * sb) sb (Z.to_nat n) (zlen ls) -> in_bounds od (ds * db) db (Z.to_nat n) (zlen ld) ->
    exists vs δ', c (Ptr bd od) ds (Ptr bs os) ss n (m, δ) =
        Ret (tt, (<[bd := pokes od (ds * db) vs ld]> m, δ')) /\ zlen vs = n /\
      Forall (fun v => zlen v = db) vs /\
      forall k v, vs !! k = Some v -> R (slice (os + Z.of_nat k * (ss * sb)) sb ls) v.

Lemma load_Ret m b off n l : m !! b = Some l -> 0 <= off -> 0 <= n -> off + n <= zlen l ->
  load m (Ptr b off) n = Ret (slice off n l).
Proof. intros E ???. unfold load. rewrite E. cbn. by apply memcpy_from_Ret. Qed.

Lemma store_Ret m b off v l : m !! b = Some l -> 0 <= off -> off + zlen v <= zlen l ->
  store m (Ptr b off) v = Ret (<[b := blit off v l]> m).
Proof. intros E ??. unfold store. rewrite E. cbn. by rewrite memcpy_to_Ret. Qed.

Lemma convert_loop_run sb db g R : 0 < sb ->
  (forall s δ, zlen s = sb -> zlen (g s δ).1 = db /\ R s (g s δ).1) ->
  forall n bd od ds bs os ss m δ ls ld,
    bd <> bs -> m !! bs = Some ls -> m !! bd = Some ld ->
    in_bounds os (ss * sb) sb n (zlen ls) -> in_bounds od (ds * db) db n (zlen ld) ->
    exists vs δ', convert_loop n sb db g (Ptr bd od) ds (Ptr bs os) ss (m, δ) =
        Ret (tt, (<[bd := pokes od (ds * db) vs ld]> m, δ')) /\ length vs = n /\
      Forall (fun v => zlen v = db) vs /\
      forall k v, vs !! k = Some v -> R (slice (os + Z.of_nat k * (ss * sb)) sb ls) v.
Proof.
  intros Hsb Hg. induction n as [| n IH]; intros bd od ds bs os ss m δ ls ld Hne Es Ed Hs Hd.
  { exists [], δ. cbn. rewrite insert_id by done. by split_and!. }
  apply in_bounds_S in Hs as (H0 & H1 & Hs). apply in_bounds_S in Hd as (H2 & H3 & Hd).
  destruct (Hg (slice os sb ls) δ) as [Hl HR]; [apply zlen_slice; lia |].
  set (r := g (slice os sb ls) δ) in *.
  destruct (IH bd (od + ds * db) ds bs (os + ss * sb) ss (<[bd := blit od r.1 ld]> m) r.2 ls (blit od r.1 ld))
    as (vs & δ' & E & Hlen & Hv & HRs); [done | by rewrite lookup_insert_ne | by rewrite lookup_insert_eq | done | |].
  { by rewrite zlen_blit by lia. }
  exists (r.1 :: vs), δ'. split_and!.
  - cbn [convert_loop fst snd]. rewrite (load_Ret _ _ _ _ ls) by (done || lia). cbn [mbind res_bind].
    fold r. rewrite (store_Ret _ _ _ _ ld) by (done || lia). cbn [mbind res_bind padd].
    rewrite E. by rewrite insert_insert_eq.
  - cbn. lia.
  - by constructor.
  - intros [| k] v Hk; cbn in Hk.
    + injection Hk as <-. by replace (os + Z.of_nat 0 * (ss * sb)) with os by lia.
    + apply HRs in Hk. by replace (os + Z.of_nat (S k) * (ss * sb)) with (os + ss * sb + Z.of_nat k * (ss * sb)) by lia.
Qed.

Lemma convert_converts sb db g : 0 < sb -> (forall s, zlen s = sb -> zlen (g s) = db) ->
  converts (convert sb db g) sb db (fun s v => v = g s).
Proof.
  intros Hsb Hg bd od ds bs os ss n m δ ls ld Hne Es Ed Hn Hs Hd.
  destruct (convert_loop_run sb db (fun s d => (g s, d)) (fun s v => v = g s) Hsb) with (n := Z.to_nat n)
    (bd := bd) (od := od) (ds := ds) (bs := bs) (os := os) (ss := ss) (m := m) (δ := δ) (ls := ls) (ld := ld)
    as (vs & δ' & E & Hl & H); [naive_solver | done.. |].
  exists vs, δ'. split_and!; [done | unfold zlen; lia | apply H..].
Qed.

(** With dither: the sizes. *)
Lemma convert_dither_converts sb db g : 0 < sb -> (forall s d, zlen s = sb -> zlen (g s d) = db) ->
  converts (convert_dither sb db g) sb db (fun s v => exists d, v = g s d).
Proof.
  intros Hsb Hg bd od ds bs os ss n m δ ls ld Hne Es Ed Hn Hs Hd.
  destruct (convert_loop_run sb db
      (fun s d => let r := PaUtil_Generate16BitTriangularDither d in (g s r.1, r.2))
      (fun s v => exists d, v = g s d) Hsb) with (n := Z.to_nat n)
    (bd := bd) (od := od) (ds := ds) (bs := bs) (os := os) (ss := ss) (m := m) (δ := δ) (ls := ls) (ld := ld)
    as (vs & δ' & E & Hl & H); [cbn; eauto | done.. |].
  exists vs, δ'. split_and!; [done | unfold zlen; lia | apply H..].
Qed.

(** The converter the tables choose between two integer formats, without dither,
    is one of the expressions above at the sizes [Pa_GetSampleSize] reports. *)
Definition sample_fun (s d : format) : list Z -> list Z :=
  match s, d with
  | Int32, Int24 => int32_to_int24 | Int32, Int16 => int32_to_int16
  | Int32, Int8 => int32_to_int8 | Int32, UInt8 => int32_to_uint8
  | Int24, Int32 => int24_to_int32 | Int24, Int16 => int24_to_int16
  | Int24, Int8 => int24_to_int8 | Int24, UInt8 => int24_to_uint8
  | Int16, Int32 => int16_to_int32 | Int16, Int24 => int16_to_int24
  | Int16, Int8 => int16_to_int8 | Int16, UInt8 => int16_to_uint8
  | Int8, Int32 => int8_to_int32 | Int8, Int24 => int8_to_int24
  | Int8, Int16 => int8_to_int16 | Int8, UInt8 => int8_to_uint8
  | UInt8, Int32 => uint8_to_int32 | UInt8, Int24 => uint8_to_int24
  | UInt8, Int16 => uint8_to_int16 | UInt8, Int8 => uint8_to_int8
  | _, _ => fun s => s
  end.

Lemma zlen_le_bytes n v : zlen (le_bytes n v) = Z.of_nat n.
Proof. revert v. induction n as [| n IH]; intros v; [done |]. cbn [le_bytes]. rewrite zlen_cons, IH. lia. Qed.

Lemma sample_fun_size s d x : s <> Float32 -> d <> Float32 -> zlen x = sample_size s ->
  zlen (sample_fun s d x) = sample_size d.
Proof. destruct s, d; try done; intros _ _ Hx; exact Hx || reflexivity || apply zlen_le_bytes. Qed.

Lemma selected_converter float s d sf df flags :
  format_of sf = Some s -> format_of df = Some d -> s <> Float32 -> d <> Float32 ->
  s = d \/ Z.land flags paDitherOff <> 0 \/ select_id s d flags = Convert s d Plain ->
  PaUtil_SelectConverter (paConverters float) sf df flags =
    Some (convert (sample_size s) (sample_size d) (sample_fun s d)).
Proof.
  intros Es Ed Hs Hd Hf. unfold PaUtil_SelectConverter. rewrite Es, Ed.
  assert (s = d \/ select_id s d flags = Convert s d Plain) as [<- | E].
  { destruct Hf as [| [Hf |]]; [by left | | by right].
    destruct (decide (s = d)); [by left |]. right.
    destruct s, d; try done; cbn; unfold PA_SELECT_CONVERTER_DITHER_; by rewrite (proj2 (Z.eqb_neq _ _) Hf). }
  - by destruct s.
  - destruct (decide (s = d)) as [<- | Hne]; [by destruct s |]. rewrite E. by destruct s, d.
Qed.

(** * Little-endian arithmetic *)

Definition is_bytes (l : list Z) : Prop := Forall (fun b => 0 <= b < 256) l.

Lemma le_value_bytes n v : le_value (le_bytes n v) = v mod 256 ^ Z.of_nat n.
Proof.
  revert v. induction n as [| n IH]; intros v; [symmetry; apply Z.mod_1_r |].
  cbn [le_bytes le_value]. rewrite IH, Nat2Z.inj_succ, Z.pow_succ_r by lia.
  pose proof (Z.pow_pos_nonneg 256 (Z.of_nat n)). rewrite Z.rem_mul_r by lia. lia.
Qed.

Lemma le_bytes_value l : is_bytes l -> le_bytes (length l) (le_value l) = l.
Proof.
  induction 1 as [| b l Hb Hl IH]; [done |]. cbn [le_value length le_bytes].
  replace (b + 256 * le_value l) with (b + le_value l * 256) by lia.
  rewrite Z.mod_add, Z.div_add by lia. rewrite Z.mod_small, Z.div_small by lia. by rewrite Z.add_0_l, IH.
Qed.

Lemma le_value_range l : is_bytes l -> 0 <= le_value l < 256 ^ zlen l.
Proof.
  induction 1 as [| b l Hb Hl IH]; [done |]. cbn [le_value]. rewrite zlen_cons, Z.pow_add_r by (pose proof (zlen_nonneg l); lia).
  lia.
Qed.

Lemma le_bytes_mod n v k : le_bytes n (v + k * 256 ^ Z.of_nat n) = le_bytes n v.
Proof.
  revert v. induction n as [| n IH]; intros v; [done |]. cbn [le_bytes].
  rewrite Nat2Z.inj_succ, Z.pow_succ_r by lia.
  replace (v + k * (256 * 256 ^ Z.of_nat n)) with (v + k * 256 ^ Z.of_nat n * 256) by lia.
  rewrite Z.mod_add, Z.div_add by lia. by rewrite IH.
Qed.

Lemma wrap_s_eq w v : 0 < w -> exists k, wrap_s w v = v + k * 2 ^ w.
Proof.
  intros Hw. unfold wrap_s. pose proof (Z.pow_pos_nonneg 2 w).
  exists (- ((v + 2 ^ (w - 1)) / 2 ^ w)). rewrite Z.mod_eq by lia. lia.
Qed.

(** Storing a wrapped value stores the value. *)
Lemma le_bytes_wrap n w v : (0 < n)%nat -> w = 8 * Z.of_nat n -> le_bytes n (wrap_s w v) = le_bytes n v.
Proof.
  intros Hn ->. destruct (wrap_s_eq (8 * Z.of_nat n) v) as [k ->]; [lia |].
  rewrite Z.pow_mul_r by lia. apply le_bytes_mod.
Qed.

Lemma wrap_s_cong w v k : 0 < w -> wrap_s w (v + k * 2 ^ w) = wrap_s w v.
Proof.
  intros. unfold wrap_s. replace (v + k * 2 ^ w + 2 ^ (w - 1)) with (v + 2 ^ (w - 1) + k * 2 ^ w) by lia.
  rewrite Z.mod_add; [done |]. pose proof (Z.pow_pos_nonneg 2 w). lia.
Qed.

(** Reading back what was stored. *)
Lemma wrap_s_le n w v : (0 < n)%nat -> w = 8 * Z.of_nat n -> wrap_s w (le_value (le_bytes n v)) = wrap_s w v.
Proof.
  intros Hn ->. rewrite le_value_bytes. change 256 with (2 ^ 8). rewrite <- Z.pow_mul_r by lia.
  pose proof (Z.pow_pos_nonneg 2 (8 * Z.of_nat n)).
  rewrite Z.mod_eq by lia. replace (v - _) with (v + - (v / 2 ^ (8 * Z.of_nat n)) * 2 ^ (8 * Z.of_nat n)) by lia.
  apply wrap_s_cong. lia.
Qed.

(** A signed sample of [n] bytes. *)
Lemma le_bytes_signed n w l : zlen l = Z.of_nat n -> (0 < n)%nat -> w = 8 * Z.of_nat n -> is_bytes l ->
  le_bytes n (wrap_s w (le_value l)) = l.
Proof.
  intros Hl Hn -> Hb. rewrite le_bytes_wrap by done. assert (n = length l) as -> by (unfold zlen in Hl; lia).
  by apply le_bytes_value.
Qed.

Lemma shiftl_range w n v : 0 < w -> 0 <= n -> - 2 ^ (w - 1) <= v < 2 ^ (w - 1) ->
  - 2 ^ (w + n - 1) <= Z.shiftl v n < 2 ^ (w + n - 1).
Proof.
  intros Hw Hn Hv. rewrite Z.shiftl_mul_pow2 by lia.
  replace (w + n - 1) with (w - 1 + n) by lia. rewrite Z.pow_add_r by lia.
  pose proof (Z.pow_pos_nonneg 2 n). nia.
Qed.

Lemma bits_above a n i : 0 <= a < 2 ^ n -> 0 <= n <= i -> Z.testbit a i = false.
Proof.
  intros Ha Hi. destruct (decide (a = 0)) as [-> |]; [apply Z.bits_0 |].
  apply Z.bits_above_log2; [lia |]. apply (Z.lt_le_trans _ n); [apply Z.log2_lt_pow2; lia | lia].
Qed.

Lemma lor_disjoint a b n : 0 <= n -> 0 <= a < 2 ^ n -> Z.lor a (Z.shiftl b n) = a + Z.shiftl b n.
Proof.
  intros Hn Ha. assert (Z.land a (Z.shiftl b n) = 0) as E.
  { apply Z.bits_inj'. intros i Hi. rewrite Z.land_spec, Z.bits_0.
    destruct (Z.ltb_spec i n); [by rewrite Z.shiftl_spec_low, andb_false_r |].
    by rewrite (bits_above a n i) by lia. }
  rewrite <- Z.lxor_lor by done. symmetry. by apply Z.add_nocarry_lxor.
Qed.

(** The bytes of a literal list. *)
Ltac bytes_inv H := unfold is_bytes in H; repeat (apply Forall_cons_1 in H as [? H]).

Lemma int24_temp_value a b c : is_bytes [a; b; c] -> int24_temp [a; b; c] = wrap_s 32 (256 * le_value [a; b; c]).
Proof.
  intros Hx. bytes_inv Hx. unfold int24_temp. cbn [lookup_total list_lookup_total le_value].
  f_equal. rewrite (lor_disjoint _ _ 16) by (rewrite ?Z.shiftl_mul_pow2 by lia; lia).
  rewrite lor_disjoint by (rewrite ?Z.shiftl_mul_pow2 by lia; lia).
  rewrite !Z.shiftl_mul_pow2 by lia. lia.
Qed.

(** Narrowing undoes widening, sample by sample. *)
Lemma narrow_widen_le ns nd v k : (0 < ns)%nat -> 8 * Z.of_nat nd = 8 * Z.of_nat ns + k -> 0 <= k ->
  - 2 ^ (8 * Z.of_nat ns - 1) <= v < 2 ^ (8 * Z.of_nat ns - 1) ->
  Z.shiftr (wrap_s (8 * Z.of_nat nd) (le_value (le_bytes nd (Z.shiftl v k)))) k = v.
Proof.
  intros Hn Ed Hk Hv. rewrite (wrap_s_le nd) by lia.
  rewrite wrap_s_small by (try lia; rewrite Ed; apply shiftl_range; lia).
  rewrite Z.shiftr_shiftl_l by lia. by rewrite Z.sub_diag, Z.shiftl_0_r.
Qed.

Lemma signed_range n w l : w = 8 * Z.of_nat n -> (0 < n)%nat -> - 2 ^ (w - 1) <= wrap_s w (le_value l) < 2 ^ (w - 1).
Proof. intros -> Hn. apply wrap_s_range. lia. Qed.

Lemma one_byte x : is_bytes x -> zlen x = 1 -> exists a, x = [a] /\ 0 <= a < 256.
Proof.
  intros Hx Hl. destruct x as [| a [| b x]]; [done | | rewrite !zlen_cons in Hl; pose proof (zlen_nonneg x); lia].
  bytes_inv Hx. eauto.
Qed.

(** The powers of two of the widths. *)
Ltac pow_consts :=
  repeat match goal with |- context [2 ^ ?n] => let v := eval vm_compute in (2 ^ n) in change (2 ^ n) with v end.

(** Both samples in one integer, or a byte and its shift by 128. *)
Ltac narrow_le ns nd k :=
  unfold PaInt32, PaInt16;
  rewrite (narrow_widen_le ns nd _ k) by (lia || (apply (signed_range ns); lia));
  apply le_bytes_signed; (done || lia).
Ltac narrow_byte Hx Hl :=
  destruct (one_byte _ Hx Hl) as (? & -> & ?);
  cbn [lookup_total list_lookup_total le_value]; unfold uchar, schar, wrap_u, wrap_s; cbn [le_value];
  pow_consts; f_equal; zdiv.

Lemma narrow_widen s d x : s <> Float32 -> d <> Float32 -> sample_size s <= sample_size d ->
  is_bytes x -> zlen x = sample_size s -> sample_fun d s (sample_fun s d x) = x.
Proof.
  intros Hs Hd Hsd Hx Hl.
  destruct s, d; try done; cbn in Hsd; try lia; clear Hs Hd Hsd; cbn [sample_fun]; cbn in Hl.
  - destruct x as [| a [| b [| c [| ? x]]]]; try done; [| rewrite !zlen_cons in Hl; pose proof (zlen_nonneg x); lia].
    unfold int24_to_int32, int32_to_int24. rewrite int24_temp_value by done.
    unfold PaInt32. rewrite (wrap_s_le 4) by lia.
    bytes_inv Hx. cbn [le_value]. unfold uchar, wrap_u, wrap_s.
    rewrite !Z.shiftr_div_pow2 by lia.
    pow_consts.
    f_equal; [zdiv | f_equal; [zdiv | f_equal; zdiv]].
  - unfold int32_to_int16, int16_to_int32. narrow_le 2%nat 4%nat 16.
  - destruct x as [| a [| b [| c x]]]; try done; [| rewrite !zlen_cons in Hl; pose proof (zlen_nonneg x); lia].
    bytes_inv Hx. unfold int24_to_int16, int16_to_int24. cbn [lookup_total list_lookup_total].
    assert (uchar (PaInt16 [a; b]) = a /\ uchar (Z.shiftr (PaInt16 [a; b]) 8) = b) as [-> ->].
    { rewrite Z.shiftr_div_pow2 by lia. unfold uchar, PaInt16, wrap_u, wrap_s. cbn [le_value]. pow_consts. split; zdiv. }
    assert (wrap_s 16 (Z.shiftl b 8) = Z.shiftl (wrap_s 8 b) 8) as ->.
    { rewrite !Z.shiftl_mul_pow2 by lia. unfold wrap_s. pow_consts. zdiv. }
    rewrite lor_disjoint by lia. rewrite Z.shiftl_mul_pow2 by lia. unfold wrap_s. cbn [le_bytes]. pow_consts.
    f_equal; [zdiv | f_equal; zdiv].
  - unfold int32_to_int8, int8_to_int32, schar. narrow_le 1%nat 4%nat 24.
  - unfold int24_to_int8, int8_to_int24. narrow_byte Hx Hl.
  - unfold int16_to_int8, int8_to_int16, schar. narrow_le 1%nat 2%nat 8.
  - unfold uint8_to_int8, int8_to_uint8. narrow_byte Hx Hl.
  - unfold int32_to_uint8, uint8_to_int32, PaInt32. destruct (one_byte _ Hx Hl) as (a & -> & Ha). cbn [le_value].
    rewrite (narrow_widen_le 1 4 _ 24) by lia. unfold uchar, wrap_u. pow_consts. f_equal. zdiv.
  - unfold int24_to_uint8, uint8_to_int24. narrow_byte Hx Hl.
  - unfold int16_to_uint8, uint8_to_int16, PaInt16. destruct (one_byte _ Hx Hl) as (a & -> & Ha). cbn [le_value].
    rewrite (narrow_widen_le 1 2 _ 8) by lia. unfold uchar, wrap_u. pow_consts. f_equal. zdiv.
  - unfold int8_to_uint8, uint8_to_int8. narrow_byte Hx Hl.
Qed.

(** * Converting there and back *)

Lemma slices_ext (n b : Z) (l l' : list Z) : 0 < b -> zlen l = n * b -> zlen l' = n * b ->
  (forall k, 0 <= k < n -> slice (k * b) b l = slice (k * b) b l') -> l = l'.
Proof.
  intros Hb Hl Hl' H. apply list_eq. intros i. unfold zlen in *.
  destruct (decide (Z.of_nat i < n * b)) as [Hi |].
  2: { rewrite !(proj2 (lookup_ge_None _ _)); (done || lia). }
  pose proof (Z.mod_pos_bound (Z.of_nat i) b Hb) as Hm. pose proof (Z.div_mod (Z.of_nat i) b ltac:(lia)) as Hdm.
  set (q := Z.of_nat i / b) in *. set (r := Z.of_nat i mod b) in *.
  assert (0 <= q < n) as Hq by nia.
  specialize (H q Hq). apply (f_equal (fun s => s !! Z.to_nat r)) in H.
  rewrite !lookup_slice in H by nia. rewrite !decide_True in H by lia.
  by replace (Z.to_nat (q * b) + Z.to_nat r)%nat with i in H by nia.
Qed.

Lemma whole_in_bounds b n len : 0 <= b -> len = n * b -> in_bounds 0 (1 * b) b (Z.to_nat n) len.
Proof. intros Hb -> k Hk. nia. Qed.

(** A conversion of a whole block. *)
Lemma convert_whole c sb db R bd bs n m δ ls ld : converts c sb db R -> 0 < sb -> 0 < db -> bd <> bs ->
  m !! bs = Some ls -> m !! bd = Some ld -> 0 <= n -> zlen ls = n * sb -> zlen ld = n * db ->
  exists ld' δ', c (Ptr bd 0) 1 (Ptr bs 0) 1 n (m, δ) = Ret (tt, (<[bd := ld']> m, δ')) /\ zlen ld' = n * db /\
    forall k, 0 <= k < n -> R (slice (k * sb) sb ls) (slice (k * db) db ld').
Proof.
  intros Hc Hsb Hdb Hne Es Ed Hn Hls Hld.
  assert (in_bounds 0 (1 * db) db (Z.to_nat n) (zlen ld)) as Hd by (apply whole_in_bounds; lia).
  destruct (Hc bd 0 1 bs 0 1 n m δ ls ld) as (vs & δ' & E & Hvn & Hv & HR); [done.. | |done |].
  { apply whole_in_bounds; lia. }
  assert (length vs = Z.to_nat n) as Elen by (unfold zlen in Hvn; lia).
  exists (pokes 0 (1 * db) vs ld), δ'. split_and!; [done | |].
  { rewrite <- Hld. apply (zlen_pokes _ _ _ db); [done | by rewrite Elen]. }
  intros k Hk. destruct (lookup_lt_is_Some_2 vs (Z.to_nat k)) as [v Ev]; [lia |].
  pose proof (HR _ _ Ev) as Hr.
  pose proof (slice_pokes_same vs 0 (1 * db) db ld (Z.to_nat k) v Hv ltac:(by rewrite Elen) ltac:(lia) Ev) as Hs.
  rewrite Z2Nat.id in Hr, Hs by lia. rewrite !Z.mul_1_l, !Z.add_0_l in Hr, Hs. rewrite Z.mul_1_l. by rewrite Hs.
Qed.

(** C39. Widening loses nothing: with dither switched off, the converter the tables
    select from an integer format to one of at least its size, followed by the one
    they select back, restores every sample of a block. *)
Theorem convert_there_and_back float s d sf df flags n src mid dst m δ :
  format_of sf = Some s -> format_of df = Some d -> s <> Float32 -> d <> Float32 ->
  sample_size s <= sample_size d -> Z.land flags paDitherOff <> 0 ->
  0 <= n -> is_bytes src -> zlen src = n * sample_size s -> zlen mid = n * sample_size d -> zlen dst = n * sample_size s ->
  m !! 1 = Some src -> m !! 2 = Some mid -> m !! 3 = Some dst ->
  exists c1 c2 m' δ', PaUtil_SelectConverter (paConverters float) sf df flags = Some c1 /\
    PaUtil_SelectConverter (paConverters float) df sf flags = Some c2 /\
    (c1 (Ptr 2 0) 1 (Ptr 1 0) 1 n;; c2 (Ptr 3 0) 1 (Ptr 2 0) 1 n) (m, δ) = Ret (tt, (m', δ')) /\
    m' !! 3 = Some src /\ m' !! 1 = Some src.
Proof.
  intros Es Ed Hs Hd Hsd Hf Hn Hb Hls Hlm Hld E1 E2 E3.
  assert (0 < sample_size s /\ 0 < sample_size d) as [Hps Hpd] by (split; by destruct s, d).
  destruct (convert_whole (convert (sample_size s) (sample_size d) (sample_fun s d)) (sample_size s) (sample_size d) (fun x v => v = sample_fun s d x) 2 1 n m δ src mid)
    as (mid' & δ1 & R1 & Hl1 & Hr1); try done; [apply convert_converts; [done | intros; by apply sample_fun_size] |].
  destruct (convert_whole (convert (sample_size d) (sample_size s) (sample_fun d s)) (sample_size d) (sample_size s) (fun x v => v = sample_fun d s x) 3 2 n (<[2 := mid']> m) δ1 mid' dst)
    as (dst' & δ2 & R2 & Hl2 & Hr2); try done; try (by rewrite ?lookup_insert_eq, ?lookup_insert_ne by done).
  { apply convert_converts; [done | intros; by apply sample_fun_size]. }
  eexists _, _, _, δ2. split_and!.
  - apply selected_converter; try done. right; by left.
  - apply selected_converter; try done. right; by left.
  - erewrite run_bind by exact R1. exact R2.
  - rewrite lookup_insert_eq. f_equal. apply (slices_ext n (sample_size s)); [lia.. |]. intros k Hk.
    rewrite Hr2, Hr1 by done. apply narrow_widen; try done.
    + by apply Forall_take, Forall_drop.
    + apply zlen_slice; nia.
  - by rewrite !lookup_insert_ne by done.
Qed.

Example convert_there_and_back_witness :
  exists c1 c2 m' δ', PaUtil_SelectConverter (paConverters (fun _ => None)) paInt16 paInt24 paDitherOff = Some c1 /\
    PaUtil_SelectConverter (paConverters (fun _ => None)) paInt24 paInt16 paDitherOff = Some c2 /\
    (c1 (Ptr 2 0) 1 (Ptr 1 0) 1 2;; c2 (Ptr 3 0) 1 (Ptr 2 0) 1 2)
      ({[1 := [1; 128; 255; 127]; 2 := [0; 0; 0; 0; 0; 0]; 3 := [9; 9; 9; 9]]}, PaUtil_InitializeTriangularDitherState) =
      Ret (tt, (m', δ')) /\
    m' !! 3 = Some [1; 128; 255; 127] /\ m' !! 1 = Some [1; 128; 255; 127].
Proof.
  apply (convert_there_and_back (fun _ => None) Int16 Int24 paInt16 paInt24 paDitherOff 2 [1; 128; 255; 127]
    [0; 0; 0; 0; 0; 0] [9; 9; 9; 9]); try reflexivity; try done. repeat constructor; lia.
Defined.

(** ** What is missing: clipping and five converters

    The largest 32 bit sample becomes the smallest 16 bit sample: the sum with the
    dither is not clipped. *)
Example dither_wraps_full_scale :
  exists w, Int32_To_Int16_Dither (Ptr 2 0) 1 (Ptr 1 0) 1 1
      ({[1 := [255; 255; 255; 127]; 2 := [0; 0]]}, PaUtil_InitializeTriangularDitherState) = Ret (tt, w) /\
    w.1 !! 2 = Some (le_bytes 2 (- 32768)).
Proof. eexists. split; [vm_compute; reflexivity | reflexivity]. Qed.

(** With dither on, the default, narrowing 16 to 8 bits leaves the destination as
    it was. *)
Example narrowing_with_dither_writes_nothing float w :
  exists c, PaUtil_SelectConverter (paConverters float) paInt16 paInt8 0 = Some c /\
    c (Ptr 2 0) 1 (Ptr 1 0) 1 64 w = Ret (tt, w).
Proof. by eexists. Qed.

(** * The closest available format *)

Section closest.
Context (available : Z).

Lemma land_one_bit j : 0 <= j -> (Z.land (2 ^ j) available =? 0) = negb (Z.testbit available j).
Proof.
  intros Hj. destruct (Z.testbit available j) eqn:E; cbn.
  - apply Z.eqb_neq. intros H. assert (Z.testbit (Z.land (2 ^ j) available) j = false) as F by (by rewrite H, Z.bits_0).
    by rewrite Z.land_spec, Z.pow2_bits_true, E in F by lia.
  - apply Z.eqb_eq, Z.bits_inj'. intros i Hi. rewrite Z.land_spec, Z.bits_0, Z.pow2_bits_eqb by lia.
    destruct (Z.eqb_spec j i) as [-> |]; [by rewrite E | done].
Qed.

(** Better formats in descending, worse ones in ascending order of their bits. *)
Fixpoint first_below (i : nat) : option Z :=
  match i with
  | O => None
  | S i => if Z.testbit available (Z.of_nat i) then Some (Z.of_nat i) else first_below i
  end.

Fixpoint first_above (i : Z) (k : nat) : option Z :=
  match k with
  | O => None
  | S k => if Z.testbit available (i + 1) then Some (i + 1) else first_above (i + 1) k
  end.

Lemma scan_better_spec i : forall fuel, (i < fuel)%nat ->
  scan_better fuel (2 ^ Z.of_nat i) available = Ret (match first_below i with Some j => 2 ^ j | None => 0 end).
Proof.
  induction i as [| i IH]; intros [| fuel] Hf; try lia; cbn [scan_better first_below].
  - by replace (Z.shiftr (2 ^ Z.of_nat 0) 1) with 0 by done.
  - assert (Z.shiftr (2 ^ Z.of_nat (S i)) 1 = 2 ^ Z.of_nat i) as ->.
    { rewrite Z.shiftr_div_pow2, Nat2Z.inj_succ, Z.pow_succ_r by lia. change (2 ^ 1) with 2. zdiv. }
    rewrite land_one_bit by lia. rewrite (proj2 (Z.eqb_neq (2 ^ _) 0)) by (pose proof (Z.pow_pos_nonneg 2 (Z.of_nat i)); lia).
    destruct (Z.testbit _ _); cbn [negb andb]; [done |]. apply IH. lia.
Qed.

Lemma scan_worse_spec k : forall i fuel, 0 <= i -> i + Z.of_nat (S k) = 16 -> (k < fuel)%nat ->
  scan_worse fuel (2 ^ i) available = Ret (2 ^ default 16 (first_above i (S k))).
Proof.
  induction k as [| k IH]; intros i [| fuel] Hi Ek Hf; try lia; cbn [scan_worse].
  all: assert (wrap_u 32 (Z.shiftl (2 ^ i) 1) = 2 ^ (i + 1)) as ->
    by (rewrite Z.shiftl_mul_pow2, <- Z.pow_add_r by lia; apply wrap_u_small;
        split; [apply Z.pow_nonneg; lia | apply Z.pow_lt_mono_r; lia]).
  all: rewrite land_one_bit by lia; cbn [first_above]; destruct (Z.testbit _ _) eqn:E; cbn [negb andb default]; [done |].
  - by replace (i + 1) with 16 by lia.
  - assert (2 ^ (i + 1) <> paCustomFormat) as Hne.
    { change paCustomFormat with (2 ^ 16). intros H. apply Z.pow_inj_r in H; lia. }
    rewrite (proj2 (Z.eqb_neq _ _) Hne). cbn [negb]. rewrite IH by lia. done.
Qed.
End closest.

(** The request itself, the best of the formats below its quality being last. *)
Definition closest (available : Z) (i : nat) : option Z :=
  if Z.testbit available (Z.of_nat i) then Some (Z.of_nat i)
  else match first_below available i with
       | Some j => Some j
       | None => first_above available (Z.of_nat i) (16 - i)
       end.

(** For every known format and every set of available formats the scan stops,
    and picks the requested format, else the nearest better one, else the nearest
    worse one, else reports that none is supported. *)
Theorem PaUtil_SelectClosestAvailableFormat_spec available i : (i <= 5)%nat -> 0 <= available < paNonInterleaved ->
  PaUtil_SelectClosestAvailableFormat available (2 ^ Z.of_nat i) =
    Ret (match closest available i with Some j => 2 ^ j | None => wrap_u 32 paSampleFormatNotSupported end).
Proof.
  intros Hi Ha. unfold PaUtil_SelectClosestAvailableFormat, closest.
  assert (forall z, 0 <= z < paNonInterleaved -> interleaved_format z = z) as Hil.
  { intros z Hz. unfold interleaved_format. apply Z.bits_inj'. intros k Hk. rewrite Z.ldiff_spec.
    change paNonInterleaved with (2 ^ 31) in *. rewrite Z.pow2_bits_eqb by lia.
    destruct (Z.eqb_spec 31 k) as [<- |]; [by rewrite (bits_above z 31 31) by lia | by rewrite andb_true_r]. }
  assert (0 <= 2 ^ Z.of_nat i < paNonInterleaved) as H2.
  { change paNonInterleaved with (2 ^ 31). split; [apply Z.pow_nonneg; lia | apply Z.pow_lt_mono_r; lia]. }
  rewrite !Hil by done. rewrite land_one_bit by lia. destruct (Z.testbit available _) eqn:E; cbn [negb]; [done |].
  assert ((if negb (2 ^ Z.of_nat i =? 1) then scan_better 33 (2 ^ Z.of_nat i) available else Ret 0) =
    Ret (match first_below available i with Some j => 2 ^ j | None => 0 end)) as ->.
  { destruct i as [| i]; [done |]. rewrite scan_better_spec by lia.
    rewrite (proj2 (Z.eqb_neq _ 1)); [done |]. change 1 with (2 ^ 0). intros H. apply Z.pow_inj_r in H; lia. }
  cbn [mbind res_bind]. destruct (first_below available i) as [j |] eqn:Ej.
  - rewrite (proj2 (Z.eqb_neq _ 0)); [done |]. apply Z.pow_nonzero; [lia |].
    clear - Ej. induction i as [| i IH]; [done |]. cbn in Ej. destruct (Z.testbit _ _); [injection Ej; lia | eauto].
  - cbn [Z.eqb]. destruct (16 - i)%nat as [| k] eqn:Ek; [lia |].
    rewrite (scan_worse_spec _ k) by lia. cbn [mbind res_bind].
    destruct (first_above available (Z.of_nat i) (S k)) as [j |] eqn:Ea; cbn [default].
    + assert (Z.testbit available j = true /\ 0 <= j) as [Hj Hj0].
      { clear - Ea. revert Ea. generalize (Z.of_nat i), (Nat2Z.is_nonneg i). generalize (S k). intros n.
        induction n as [| n IH]; intros z Hz Ea; [done |]. cbn in Ea.
        destruct (Z.testbit _ (z + 1)) eqn:Et; [injection Ea as <-; split; [done | lia] | apply (IH (z + 1)); [lia | done]]. }
      unfold id. by rewrite (land_one_bit available j Hj0), Hj.
    + assert (Z.testbit available 16 = false) as H16.
      { clear - Ea Ek Hi. assert (Z.of_nat i + Z.of_nat (S k) = 16) as Eik by lia. clear Ek Hi. revert Ea Eik.
        generalize (Z.of_nat i). generalize k. intros n. induction n as [| n IH]; intros z Ea Ez; cbn in Ea.
        - destruct (Z.testbit _ (z + 1)) eqn:Et; [done |]. by replace 16 with (z + 1) by lia.
        - destruct (Z.testbit _ (z + 1)) eqn:Et; [done |]. apply (IH (z + 1)); [exact Ea | lia]. }
      by rewrite (land_one_bit _ 16), H16 by lia.
Qed.

Example PaUtil_SelectClosestAvailableFormat_spec_witness :
  PaUtil_SelectClosestAvailableFormat (paInt32 + paInt8) paInt16 = Ret paInt32.
Proof.
  change paInt16 with (2 ^ Z.of_nat 3).
  rewrite (PaUtil_SelectClosestAvailableFormat_spec (paInt32 + paInt8) 3) by (vm_compute; (done || lia)). reflexivity.
Defined.

(** A request outside the known formats, with nothing available below it, does not
    stop. *)
Example closest_format_may_not_stop : PaUtil_SelectClosestAvailableFormat 0 (2 ^ 17) = Fault OutOfFuel.
Proof. reflexivity. Qed.
