(* ===== verification/PaFloat.v ===== *)
(** The conversions from and to floating point (src/WIN32/src/common/pa_converters.c,
    pa_dither.c), over the IEEE formats of SpecFloat.

    What C leaves to the compiler is a parameter: the format in which a float
    expression is evaluated (FLT_EVAL_METHOD), and what the conversion of a value
    that the integer type cannot hold delivers.  The branch without
    PA_USE_C99_LRINTF is the one built. *)

From S2P Require Import Prelude PaConverters.
From Stdlib Require Import SpecFloat.

(** * Formats *)

Record ieee := mkIeee { prec : Z; emax : Z }.
Definition single : ieee := mkIeee 24 128.
Definition double_format : ieee := mkIeee 53 1024.

Notation fp := spec_float.

(** A value of one format in another, and an integer in one. *)
Definition fround (f : ieee) (x : fp) : fp :=
  match x with S754_finite s m e => binary_normalize (prec f) (emax f) (if s then Z.neg m else Z.pos m) e s | _ => x end.
Definition of_int (f : ieee) (n : Z) : fp := binary_normalize (prec f) (emax f) n 0 false.
Definition fmul (f : ieee) (x y : fp) : fp := SFmul (prec f) (emax f) (fround f x) (fround f y).
Definition fadd (f : ieee) (x y : fp) : fp := SFadd (prec f) (emax f) (fround f x) (fround f y).
Definition fdiv (f : ieee) (x y : fp) : fp := SFdiv (prec f) (emax f) (fround f x) (fround f y).

(** The bytes of a float. *)
Definition float_of_bits (n : Z) : fp :=
  let s := Z.testbit n 31 in
  let field := Z.land (Z.shiftr n 23) 255 in
  let frac := Z.land n (2 ^ 23 - 1) in
  if field =? 255 then (if frac =? 0 then S754_infinity s else S754_nan)
  else match (if field =? 0 then frac else frac + 2 ^ 23) with
       | Z.pos m => S754_finite s m (if field =? 0 then -149 else field - 150)
       | _ => S754_zero s
       end.

Definition bits_of_float (x : fp) : Z :=
  let sign (s : bool) := if s then 2 ^ 31 else 0 in
  match x with
  | S754_zero s => sign s
  | S754_infinity s => sign s + 255 * 2 ^ 23
  | S754_nan => 255 * 2 ^ 23 + 2 ^ 22
  | S754_finite s m e => sign s + (if Z.pos m <? 2 ^ 23 then Z.pos m else (e + 150) * 2 ^ 23 + (Z.pos m - 2 ^ 23))
  end.

Definition load_float (s : list Z) : fp := float_of_bits (le_value s).
Definition store_float (x : fp) : list Z := le_bytes 4 (bits_of_float (fround single x)).

(** * Evaluation *)

Class Evaluation := {
  eval_format : ieee;
  (** the conversion to an integer type, of the given least and greatest values, of
      a value it cannot hold *)
  unrepresentable : Z -> Z -> fp -> Z }.

(** Towards zero. *)
Definition truncate (x : fp) : option Z :=
  match x with
  | S754_zero _ => Some 0
  | S754_finite s m e => let v := if 0 <=? e then Z.shiftl (Z.pos m) e else Z.shiftr (Z.pos m) (- e) in Some (if s then - v else v)
  | _ => None
  end.

Section converters.
Context {ev : Evaluation}.

Definition to_type (least greatest : Z) (x : fp) : Z :=
  match truncate x with
  | Some v => if (least <=? v) && (v <=? greatest) then v else unrepresentable least greatest x
  | None => unrepresentable least greatest x
  end.
Definition to_PaInt32 : fp -> Z := to_type (- 2 ^ 31) (2 ^ 31 - 1).
Definition to_short : fp -> Z := to_type (- 2 ^ 15) (2 ^ 15 - 1).
Definition to_schar : fp -> Z := to_type (- 2 ^ 7) (2 ^ 7 - 1).
Definition to_uchar : fp -> Z := to_type 0 (2 ^ 8 - 1).

(** Expressions of type float, and of type double. *)
Definition mulf (x y : fp) : fp := fmul eval_format x y.
Definition addf (x y : fp) : fp := fadd eval_format x y.
Definition muld (x y : fp) : fp := fmul double_format x y.
Definition addd (x y : fp) : fp := fadd double_format x y.
Definition int_to_float (n : Z) : fp := of_int eval_format n.
Definition floatc (n : Z) : fp := of_int single n.
Definition doublec (n : Z) : fp := of_int double_format n.

(** [PA_CLIP_] on a double (a comparison with a NaN is false), and on an integer. *)
Definition PA_CLIP_double (v least greatest : fp) : fp := if SFltb v least then least else if SFltb greatest v then greatest else v.
Definition PA_CLIP_ (v least greatest : Z) : Z := if v <? least then least else if v >? greatest then greatest else v.

(** * The constants *)

Definition const_1_div_128_ : fp := fround single (fdiv eval_format (floatc 1) (floatc 128)).
Definition const_1_div_32768_ : fp := fround single (fdiv eval_format (floatc 1) (floatc 32768)).
Definition const_1_div_2147483648_ : fp := fdiv double_format (doublec 1) (doublec 2147483648).
Definition const_float_dither_scale_ : fp := fround single (fdiv eval_format (floatc 1) (int_to_float (Z.shiftl 1 15 - 1))).

(** * Dither

    The generator is the one for integers. *)
Definition float_dither (highPass : Z) : fp := fround single (mulf (of_int single highPass) const_float_dither_scale_).

Definition PaUtil_GenerateFloatTriangularDither (s : dither) : fp * dither :=
  let r := PaUtil_Generate16BitTriangularDither s in (float_dither r.1, r.2).

(** * From float

    [d] is the dither's integer. *)
Definition int24_bytes (temp : Z) : list Z := [uchar (Z.shiftr temp 8); uchar (Z.shiftr temp 16); uchar (Z.shiftr temp 24)].

Definition scaled32 (s : list Z) : fp := fround double_format (mulf (load_float s) (int_to_float 2147483647)).
Definition dithered32 (s : list Z) (d : Z) : fp := addd (muld (load_float s) (doublec 2147483646)) (float_dither d).
Definition clip32 (x : fp) : fp := PA_CLIP_double x (doublec (-2147483648)) (doublec 2147483647).
(** [float dithered = ( * src * (scale)) + dither] *)
Definition dithered (scale : Z) (s : list Z) (d : Z) : fp :=
  fround single (addf (mulf (load_float s) (floatc scale)) (float_dither d)).

Definition float32_to_int32 (s : list Z) : list Z := le_bytes 4 (to_PaInt32 (scaled32 s)).
Definition float32_to_int32_dither (s : list Z) (d : Z) : list Z := le_bytes 4 (to_PaInt32 (dithered32 s d)).
Definition float32_to_int32_clip (s : list Z) : list Z := le_bytes 4 (to_PaInt32 (clip32 (scaled32 s))).
Definition float32_to_int32_ditherclip (s : list Z) (d : Z) : list Z := le_bytes 4 (to_PaInt32 (clip32 (dithered32 s d))).

Definition float32_to_int24 (s : list Z) : list Z := int24_bytes (to_PaInt32 (muld (load_float s) (doublec 2147483647))).
Definition float32_to_int24_dither (s : list Z) (d : Z) : list Z := int24_bytes (to_PaInt32 (dithered32 s d)).
Definition float32_to_int24_clip (s : list Z) : list Z := int24_bytes (to_PaInt32 (clip32 (scaled32 s))).
Definition float32_to_int24_ditherclip (s : list Z) (d : Z) : list Z := int24_bytes (to_PaInt32 (clip32 (dithered32 s d))).

Definition float32_to_int16 (s : list Z) : list Z := le_bytes 2 (to_short (mulf (load_float s) (floatc 32767))).
Definition float32_to_int16_dither (s : list Z) (d : Z) : list Z := le_bytes 2 (to_short (dithered 32766 s d)).
Definition float32_to_int16_clip (s : list Z) : list Z :=
  le_bytes 2 (PA_CLIP_ (to_PaInt32 (mulf (load_float s) (floatc 32767))) (- 32768) 32767).
Definition float32_to_int16_ditherclip (s : list Z) (d : Z) : list Z :=
  le_bytes 2 (PA_CLIP_ (to_PaInt32 (dithered 32766 s d)) (- 32768) 32767).

Definition float32_to_int8 (s : list Z) : list Z := le_bytes 1 (to_schar (mulf (load_float s) (floatc 127))).
Definition float32_to_int8_dither (s : list Z) (d : Z) : list Z := le_bytes 1 (to_PaInt32 (dithered 126 s d)).
Definition float32_to_int8_clip (s : list Z) : list Z :=
  le_bytes 1 (PA_CLIP_ (to_PaInt32 (mulf (load_float s) (floatc 127))) (- 128) 127).
Definition float32_to_int8_ditherclip (s : list Z) (d : Z) : list Z :=
  le_bytes 1 (PA_CLIP_ (to_PaInt32 (dithered 126 s d)) (- 128) 127).

Definition float32_to_uint8 (s : list Z) : list Z := [uchar (128 + to_uchar (mulf (load_float s) (floatc 127)))].
Definition float32_to_uint8_dither (s : list Z) (d : Z) : list Z := [uchar (128 + to_PaInt32 (dithered 126 s d))].
Definition float32_to_uint8_clip (s : list Z) : list Z :=
  [uchar (PA_CLIP_ (wrap_s 32 (128 + to_PaInt32 (mulf (load_float s) (floatc 127)))) 0 255)].
Definition float32_to_uint8_ditherclip (s : list Z) (d : Z) : list Z :=
  [uchar (PA_CLIP_ (wrap_s 32 (128 + to_PaInt32 (dithered 126 s d))) 0 255)].

(** * To float *)

Definition int32_to_float32 (s : list Z) : list Z := store_float (muld (doublec (PaInt32 s)) const_1_div_2147483648_).
Definition int24_to_float32 (s : list Z) : list Z := store_float (muld (doublec (int24_temp s)) const_1_div_2147483648_).
Definition int16_to_float32 (s : list Z) : list Z := store_float (mulf (int_to_float (PaInt16 s)) const_1_div_32768_).
Definition int8_to_float32 (s : list Z) : list Z := store_float (mulf (int_to_float (schar s)) const_1_div_128_).
Definition uint8_to_float32 (s : list Z) : list Z := store_float (mulf (int_to_float (le_value s - 128)) const_1_div_128_).

(** * The converters *)

Definition Float32_To_Int32 := convert 4 4 float32_to_int32.
Definition Float32_To_Int32_Dither := convert_dither 4 4 float32_to_int32_dither.
Definition Float32_To_Int32_Clip := convert 4 4 float32_to_int32_clip.
Definition Float32_To_Int32_DitherClip := convert_dither 4 4 float32_to_int32_ditherclip.
Definition Float32_To_Int24 := convert 4 3 float32_to_int24.
Definition Float32_To_Int24_Dither := convert_dither 4 3 float32_to_int24_dither.
Definition Float32_To_Int24_Clip := convert 4 3 float32_to_int24_clip.
Definition Float32_To_Int24_DitherClip := convert_dither 4 3 float32_to_int24_ditherclip.
Definition Float32_To_Int16 := convert 4 2 float32_to_int16.
Definition Float32_To_Int16_Dither := convert_dither 4 2 float32_to_int16_dither.
Definition Float32_To_Int16_Clip := convert 4 2 float32_to_int16_clip.
Definition Float32_To_Int16_DitherClip := convert_dither 4 2 float32_to_int16_ditherclip.
Definition Float32_To_Int8 := convert 4 1 float32_to_int8.
Definition Float32_To_Int8_Dither := convert_dither 4 1 float32_to_int8_dither.
Definition Float32_To_Int8_Clip := convert 4 1 float32_to_int8_clip.
Definition Float32_To_Int8_DitherClip := convert_dither 4 1 float32_to_int8_ditherclip.
Definition Float32_To_UInt8 := convert 4 1 float32_to_uint8.
Definition Float32_To_UInt8_Dither := convert_dither 4 1 float32_to_uint8_dither.
Definition Float32_To_UInt8_Clip := convert 4 1 float32_to_uint8_clip.
Definition Float32_To_UInt8_DitherClip := convert_dither 4 1 float32_to_uint8_ditherclip.
Definition Int32_To_Float32 := convert 4 4 int32_to_float32.
Definition Int24_To_Float32 := convert 3 4 int24_to_float32.
Definition Int16_To_Float32 := convert 2 4 int16_to_float32.
Definition Int8_To_Float32 := convert 1 4 int8_to_float32.
Definition UInt8_To_Float32 := convert 1 4 uint8_to_float32.

(** Their entries in the table. *)
Definition float_entries : PaUtilConverterTable := fun id =>
  match id with
  | Convert Float32 Int32 Plain => Some Float32_To_Int32
  | Convert Float32 Int32 Dither => Some Float32_To_Int32_Dither
  | Convert Float32 Int32 Clip => Some Float32_To_Int32_Clip
  | Convert Float32 Int32 DitherClip => Some Float32_To_Int32_DitherClip
  | Convert Float32 Int24 Plain => Some Float32_To_Int24
  | Convert Float32 Int24 Dither => Some Float32_To_Int24_Dither
  | Convert Float32 Int24 Clip => Some Float32_To_Int24_Clip
  | Convert Float32 Int24 DitherClip => Some Float32_To_Int24_DitherClip
  | Convert Float32 Int16 Plain => Some Float32_To_Int16
  | Convert Float32 Int16 Dither => Some Float32_To_Int16_Dither
  | Convert Float32 Int16 Clip => Some Float32_To_Int16_Clip
  | Convert Float32 Int16 DitherClip => Some Float32_To_Int16_DitherClip
  | Convert Float32 Int8 Plain => Some Float32_To_Int8
  | Convert Float32 Int8 Dither => Some Float32_To_Int8_Dither
  | Convert Float32 Int8 Clip => Some Float32_To_Int8_Clip
  | Convert Float32 Int8 DitherClip => Some Float32_To_Int8_DitherClip
  | Convert Float32 UInt8 Plain => Some Float32_To_UInt8
  | Convert Float32 UInt8 Dither => Some Float32_To_UInt8_Dither
  | Convert Float32 UInt8 Clip => Some Float32_To_UInt8_Clip
  | Convert Float32 UInt8 DitherClip => Some Float32_To_UInt8_DitherClip
  | Convert Int32 Float32 Plain => Some Int32_To_Float32
  | Convert Int24 Float32 Plain => Some Int24_To_Float32
  | Convert Int16 Float32 Plain => Some Int16_To_Float32
  | Convert Int8 Float32 Plain => Some Int8_To_Float32
  | Convert UInt8 Float32 Plain => Some UInt8_To_Float32
  | _ => None
  end.

(** * What each converter computes of a sample

    [d] is the number drawn for it where there is dither. *)
Definition expression (id : converter_id) (d : Z) : list Z -> list Z :=
  match id with
  | Convert Float32 Int32 Plain => float32_to_int32
  | Convert Float32 Int32 Dither => fun s => float32_to_int32_dither s d
  | Convert Float32 Int32 Clip => float32_to_int32_clip
  | Convert Float32 Int32 DitherClip => fun s => float32_to_int32_ditherclip s d
  | Convert Float32 Int24 Plain => float32_to_int24
  | Convert Float32 Int24 Dither => fun s => float32_to_int24_dither s d
  | Convert Float32 Int24 Clip => float32_to_int24_clip
  | Convert Float32 Int24 DitherClip => fun s => float32_to_int24_ditherclip s d
  | Convert Float32 Int16 Plain => float32_to_int16
  | Convert Float32 Int16 Dither => fun s => float32_to_int16_dither s d
  | Convert Float32 Int16 Clip => float32_to_int16_clip
  | Convert Float32 Int16 DitherClip => fun s => float32_to_int16_ditherclip s d
  | Convert Float32 Int8 Plain => float32_to_int8
  | Convert Float32 Int8 Dither => fun s => float32_to_int8_dither s d
  | Convert Float32 Int8 Clip => float32_to_int8_clip
  | Convert Float32 Int8 DitherClip => fun s => float32_to_int8_ditherclip s d
  | Convert Float32 UInt8 Plain => float32_to_uint8
  | Convert Float32 UInt8 Dither => fun s => float32_to_uint8_dither s d
  | Convert Float32 UInt8 Clip => float32_to_uint8_clip
  | Convert Float32 UInt8 DitherClip => fun s => float32_to_uint8_ditherclip s d
  | Convert Int32 Float32 _ => int32_to_float32
  | Convert Int24 Float32 _ => int24_to_float32
  | Convert Int16 Float32 _ => int16_to_float32
  | Convert Int8 Float32 _ => int8_to_float32
  | Convert UInt8 Float32 _ => uint8_to_float32
  | Convert Int32 Int16 Dither => fun s => dithered16 (PaInt32 s) d
  | Convert Int32 Int8 Dither => fun s => dithered8 (PaInt32 s) d
  | Convert Int24 Int16 Dither => fun s => dithered16 (int24_temp s) d
  | Convert Int24 Int8 Dither => fun s => dithered8 (int24_temp s) d
  | Convert s d _ => sample_fun s d
  | Copy _ => fun s => s
  end.

(** The five that are not implemented. *)
Definition implemented (id : converter_id) : bool :=
  match id with
  | Convert Int32 Int24 Dither | Convert Int32 UInt8 Dither | Convert Int24 UInt8 Dither
  | Convert Int16 Int8 Dither | Convert Int16 UInt8 Dither => false
  | _ => true
  end.

Lemma converts_impl c sb db (R R' : list Z -> list Z -> Prop) : (forall x v, R x v -> R' x v) ->
  converts c sb db R -> converts c sb db R'.
Proof.
  intros HR H bd od ds bs os ss n m δ ls ld Hne Es Ed Hn Hs Hd.
  destruct (H bd od ds bs os ss n m δ ls ld Hne Es Ed Hn Hs Hd) as (vs & δ' & E & Hl & Hv & Hr).
  exists vs, δ'. split_and!; try done. intros k v Hk. by apply HR, Hr.
Qed.

Lemma plain_converts sb db g : 0 < sb -> (forall s, zlen s = sb -> zlen (g s) = db) ->
  converts (convert sb db g) sb db (fun x v => exists _ : Z, v = g x).
Proof. intros Hs Hg. eapply converts_impl; [| by apply convert_converts]. intros x v ->. by exists 0. Qed.

(** Every entry that can be selected. *)
Lemma entry_converts s d flags : exists conv, paConverters float_entries (select_id s d flags) = Some conv /\
  if implemented (select_id s d flags) then
    converts conv (sample_size s) (sample_size d) (fun x v => exists w, v = expression (select_id s d flags) w x)
  else conv = unimplemented.
Proof.
  assert (forall id conv, paConverters float_entries id = Some conv ->
    (if implemented id then converts conv (sample_size s) (sample_size d) (fun x v => exists w, v = expression id w x)
     else conv = unimplemented) ->
    exists conv, paConverters float_entries id = Some conv /\
      (if implemented id then converts conv (sample_size s) (sample_size d) (fun x v => exists w, v = expression id w x)
       else conv = unimplemented)) as Hid by eauto.
  destruct s, d; cbn [select_id]; unfold PA_SELECT_CONVERTER_DITHER_CLIP_, PA_SELECT_CONVERTER_DITHER_;
    repeat match goal with |- context [negb (Z.land flags ?f =? 0)] => destruct (negb (Z.land flags f =? 0)) end;
    (eapply Hid; [reflexivity |]); cbn [implemented expression sample_fun sample_size];
    first [ reflexivity
          | apply plain_converts; [lia |]
          | apply convert_dither_converts; [lia |] ]; intros; first [done | apply zlen_le_bytes].
Qed.

(** C40. Between any two of the six formats, under any flags, a converter is
    selected, and between others none; unless it is one of the five whose loop is
    empty, it stays within buffers, the source and the destination being distinct
    objects, that hold the samples at the sizes [Pa_GetSampleSize] reports, returns,
    and leaves in each place the value of its expression.  (A comment at the top of
    pa_converters.c lists two more as still to be implemented, Int24_To_Int16_Dither
    and Int24_To_Int8_Dither; the code has them.)  The value is that of the C
    expression (whatever the compiler makes of float expressions and of values an
    integer type cannot hold). *)
Theorem selected_converter_total sf df flags :
  match format_of sf, format_of df with
  | Some s, Some d =>
      exists conv, PaUtil_SelectConverter (paConverters float_entries) sf df flags = Some conv /\
        if implemented (select_id s d flags) then
          converts conv (Pa_GetSampleSize sf) (Pa_GetSampleSize df) (fun x v => exists w, v = expression (select_id s d flags) w x)
        else conv = unimplemented
  | _, _ => PaUtil_SelectConverter (paConverters float_entries) sf df flags = None
  end.
Proof.
  unfold PaUtil_SelectConverter, Pa_GetSampleSize. destruct (format_of sf) as [s |]; [| done].
  destruct (format_of df) as [d |]; [| done]. apply entry_converts.
Qed.
End converters.

(** What a compiler does that evaluates in the type of the operands, on a processor
    that answers the least value where there is none. *)
#[export] Instance strict_evaluation : Evaluation := {| eval_format := single; unrepresentable := fun least _ _ => least |}.

(** A sample in full: half of the range, and beyond it. *)
Example float_samples :
  float32_to_int16 (store_float (S754_finite false 8388608 (-24))) = le_bytes 2 16383 /\
  float32_to_int16_clip (store_float (floatc 2)) = le_bytes 2 32767 /\
  float32_to_int16 (store_float (floatc 2)) = le_bytes 2 (-32768) /\
  int16_to_float32 (le_bytes 2 (-16384)) = store_float (S754_finite true 8388608 (-24)).
Proof. vm_compute. done. Qed.

(** A negative sample has no value as an [unsigned char]. *)
Example float_to_unsigned : float32_to_uint8 (store_float (S754_finite true 8388608 (-24))) = [128].
Proof. vm_compute. done. Qed.

