(* ===== verification/PaProcess.v ===== *)
(** PortAudio's buffer processor (src/WIN32/src/common/pa_process.c, pa_process.h):
    it adapts the buffers of the host to the blocks the callback of a stream asks
    for.

    [processor] is [PaUtilBufferProcessor] with the memory it works on, the state
    of the callback and the variable [*streamCallbackResult].  What
    PaUtil_InitializeBufferProcessor fixes for good is its [cfg].  The arrays of
    two elements are pairs; the descriptors of the channels and the pointers of
    non-interleaved buffers are lists, whose blocks the heap holds only to free
    them.  The time stamps are IEEE doubles. *)

From S2P Require Import Prelude PaConverters.
From Stdlib Require Import SpecFloat.

(** * Doubles *)

Definition double : Type := spec_float.
Definition dadd : double -> double -> double := SFadd 53 1024.
Definition dsub : double -> double -> double := SFsub 53 1024.
Definition dmul : double -> double -> double := SFmul 53 1024.
Definition ddiv : double -> double -> double := SFdiv 53 1024.
Definition of_ulong (n : Z) : double := binary_normalize 53 1024 n 0 false.

Record PaStreamCallbackTimeInfo := mkTime {
  inputBufferAdcTime : double; currentTime : double; outputBufferDacTime : double }.

(** * Data *)

Inductive PaUtilHostBufferSizeMode :=
  | paUtilFixedHostBufferSize
  | paUtilBoundedHostBufferSize
  | paUtilUnknownHostBufferSize
  | paUtilVariableHostBufferSizePartialUsageAllowed.

Record PaUtilChannelDescriptor := mkChan { data : ptr; stride : Z }.
Notation chan := PaUtilChannelDescriptor.

Definition paContinue : Z := 0.
Definition paComplete : Z := 1.
Definition paAbort : Z := 2.

(** What the callback receives as a buffer: nothing, interleaved samples, or one
    pointer for each channel. *)
Inductive user_buffer := UNone | UInterleaved (p : ptr) | UNonInterleaved (ps : list ptr).

(** Input, output, frames, times, flags; memory and the callback's own data. *)
Definition PaStreamCallback (U : Type) : Type :=
  user_buffer -> user_buffer -> Z -> PaStreamCallbackTimeInfo -> Z -> memory -> U -> res (Z * memory * U).

Record config {U : Type} := mkConfig {
  framesPerUserBuffer : Z;
  framesPerHostBuffer : Z;
  hostBufferSizeMode : PaUtilHostBufferSizeMode;
  useNonAdaptingProcess : bool;
  userOutputSampleFormatIsEqualToHost : bool;
  userInputSampleFormatIsEqualToHost : bool;
  framesPerTempBuffer : Z;
  inputChannelCount : Z;
  bytesPerHostInputSample : Z;
  bytesPerUserInputSample : Z;
  userInputIsInterleaved : bool;
  hostInputIsInterleaved : bool;
  inputConverter : option PaUtilConverter;
  inputZeroer : option PaUtilZeroer;
  outputChannelCount : Z;
  bytesPerHostOutputSample : Z;
  bytesPerUserOutputSample : Z;
  userOutputIsInterleaved : bool;
  hostOutputIsInterleaved : bool;
  outputConverter : option PaUtilConverter;
  outputZeroer : option PaUtilZeroer;
  initialFramesInTempInputBuffer : Z;
  initialFramesInTempOutputBuffer : Z;
  tempInputBuffer : ptr;
  tempOutputBuffer : ptr;
  blocks : list ptr;  (* tempInputBufferPtrs, hostInputChannels[0], and so on: the blocks to free *)
  samplePeriod : double;
  streamCallback : PaStreamCallback U }.
Arguments config : clear implicits.

Record processor {U : Type} := mkProc {
  cfg : config U;
  timeInfo : PaStreamCallbackTimeInfo;
  callbackStatusFlags : Z;
  framesInTempInputBuffer : Z;
  framesInTempOutputBuffer : Z;
  hostInputFrameCount : Z * Z;
  hostInputChannels : list chan * list chan;
  hostOutputFrameCount : Z * Z;
  hostOutputChannels : list chan * list chan;
  ditherGenerator : dither;
  mem : memory;
  userData : U;
  streamCallbackResult : Z }.
Arguments processor : clear implicits.

(** The elements [0] and [1] of an array of two. *)
Inductive bufsel := B0 | B1.
Definition pick {A} (b : bufsel) (p : A * A) : A := match b with B0 => p.1 | B1 => p.2 end.
Definition put {A} (b : bufsel) (v : A) (p : A * A) : A * A :=
  match b with B0 => (v, p.2) | B1 => (p.1, v) end.

Section setters.
Context {U : Type}.
Implicit Types (s : processor U).
Definition set_time v s := mkProc U (cfg s) v (callbackStatusFlags s) (framesInTempInputBuffer s) (framesInTempOutputBuffer s) (hostInputFrameCount s) (hostInputChannels s) (hostOutputFrameCount s) (hostOutputChannels s) (ditherGenerator s) (mem s) (userData s) (streamCallbackResult s).
Definition set_flags v s := mkProc U (cfg s) (timeInfo s) v (framesInTempInputBuffer s) (framesInTempOutputBuffer s) (hostInputFrameCount s) (hostInputChannels s) (hostOutputFrameCount s) (hostOutputChannels s) (ditherGenerator s) (mem s) (userData s) (streamCallbackResult s).
Definition set_in_temp v s := mkProc U (cfg s) (timeInfo s) (callbackStatusFlags s) v (framesInTempOutputBuffer s) (hostInputFrameCount s) (hostInputChannels s) (hostOutputFrameCount s) (hostOutputChannels s) (ditherGenerator s) (mem s) (userData s) (streamCallbackResult s).
Definition set_out_temp v s := mkProc U (cfg s) (timeInfo s) (callbackStatusFlags s) (framesInTempInputBuffer s) v (hostInputFrameCount s) (hostInputChannels s) (hostOutputFrameCount s) (hostOutputChannels s) (ditherGenerator s) (mem s) (userData s) (streamCallbackResult s).
Definition set_in_count v s := mkProc U (cfg s) (timeInfo s) (callbackStatusFlags s) (framesInTempInputBuffer s) (framesInTempOutputBuffer s) v (hostInputChannels s) (hostOutputFrameCount s) (hostOutputChannels s) (ditherGenerator s) (mem s) (userData s) (streamCallbackResult s).
Definition set_in_chans v s := mkProc U (cfg s) (timeInfo s) (callbackStatusFlags s) (framesInTempInputBuffer s) (framesInTempOutputBuffer s) (hostInputFrameCount s) v (hostOutputFrameCount s) (hostOutputChannels s) (ditherGenerator s) (mem s) (userData s) (streamCallbackResult s).
Definition set_out_count v s := mkProc U (cfg s) (timeInfo s) (callbackStatusFlags s) (framesInTempInputBuffer s) (framesInTempOutputBuffer s) (hostInputFrameCount s) (hostInputChannels s) v (hostOutputChannels s) (ditherGenerator s) (mem s) (userData s) (streamCallbackResult s).
Definition set_out_chans v s := mkProc U (cfg s) (timeInfo s) (callbackStatusFlags s) (framesInTempInputBuffer s) (framesInTempOutputBuffer s) (hostInputFrameCount s) (hostInputChannels s) (hostOutputFrameCount s) v (ditherGenerator s) (mem s) (userData s) (streamCallbackResult s).
Definition set_dither v s := mkProc U (cfg s) (timeInfo s) (callbackStatusFlags s) (framesInTempInputBuffer s) (framesInTempOutputBuffer s) (hostInputFrameCount s) (hostInputChannels s) (hostOutputFrameCount s) (hostOutputChannels s) v (mem s) (userData s) (streamCallbackResult s).
Definition set_mem v s := mkProc U (cfg s) (timeInfo s) (callbackStatusFlags s) (framesInTempInputBuffer s) (framesInTempOutputBuffer s) (hostInputFrameCount s) (hostInputChannels s) (hostOutputFrameCount s) (hostOutputChannels s) (ditherGenerator s) v (userData s) (streamCallbackResult s).
Definition set_user v s := mkProc U (cfg s) (timeInfo s) (callbackStatusFlags s) (framesInTempInputBuffer s) (framesInTempOutputBuffer s) (hostInputFrameCount s) (hostInputChannels s) (hostOutputFrameCount s) (hostOutputChannels s) (ditherGenerator s) (mem s) v (streamCallbackResult s).
Definition set_result v s := mkProc U (cfg s) (timeInfo s) (callbackStatusFlags s) (framesInTempInputBuffer s) (framesInTempOutputBuffer s) (hostInputFrameCount s) (hostInputChannels s) (hostOutputFrameCount s) (hostOutputChannels s) (ditherGenerator s) (mem s) (userData s) v.
End setters.

(** * Arithmetic *)

Definition PA_MIN_ (a b : Z) : Z := if a <? b then a else b.
Definition PA_MAX_ (a b : Z) : Z := if a >? b then a else b.

(** [GCD]: the recursion ends after [b] calls at most. *)
Fixpoint GCD_fuel (fuel : nat) (a b : Z) : res Z :=
  match fuel with
  | O => Fault OutOfFuel
  | S fuel => if b =? 0 then Ret a else GCD_fuel fuel b (a mod b)
  end.
Definition GCD (a b : Z) : res Z := GCD_fuel (S (Z.to_nat b)) a b.

Definition LCM (a b : Z) : res Z :=
  g ← GCD a b; if g =? 0 then Fault DivideByZero else Ret (wrap_u 32 (a * b) / g).

(** [for( i = M; i < lcm; i += M )]. *)
Fixpoint frame_shift_loop (fuel : nat) (i M N lcm result : Z) : res Z :=
  if i <? lcm then
    match fuel with
    | O => Fault OutOfFuel
    | S fuel => frame_shift_loop fuel (wrap_u 32 (i + M)) M N lcm (PA_MAX_ result (i mod N))
    end
  else Ret result.

Definition CalculateFrameShift (M N : Z) : res Z :=
  if negb (M >? 0) then Fault AssertFailed
  else if negb (N >? 0) then Fault AssertFailed
  else lcm ← LCM M N; frame_shift_loop (Z.to_nat lcm) M M N lcm 0.

(** * The heap

    [PaUtil_AllocateMemory] is GlobalAlloc with zeroed memory; the list says which
    of the coming calls fail. *)

Definition heap : Type := memory * list bool.

Definition next_block (m : memory) : Z := map_fold (fun b _ r => (b + 1) `max` r) 1 m.

Definition PaUtil_AllocateMemory (size : Z) : st heap ptr := fun h =>
  match h.2 with
  | true :: oom => Ret (NULL, (h.1, oom))
  | _ => let b := next_block h.1 in
         Ret (Ptr b 0, (<[b := replicate (Z.to_nat size) 0]> h.1, tail h.2))
  end.

Definition PaUtil_FreeMemory (p : ptr) : st heap unit := fun h =>
  match p with
  | Ptr b 0 => match h.1 !! b with Some _ => Ret (tt, (delete b h.1, h.2)) | None => Fault BadFree end
  | Ptr _ _ => Fault BadFree
  | NULL => Ret (tt, h)
  end.

(** * Initialization *)

Definition paNeverDropInput : Z := 4.
Definition paFramesPerBufferUnspecified : Z := 0.
Definition paInvalidFlag : Z := -9995.
Definition PA_FRAMES_PER_TEMP_BUFFER_WHEN_HOST_BUFFER_SIZE_IS_UNKNOWN_ : Z := 1024.
Definition sizeof_pointer : Z := 4.
Definition sizeof_PaUtilChannelDescriptor : Z := 8.

Definition is_fixed (m : PaUtilHostBufferSizeMode) : bool :=
  match m with paUtilFixedHostBufferSize => true | _ => false end.
Definition is_bounded (m : PaUtilHostBufferSizeMode) : bool :=
  match m with paUtilBoundedHostBufferSize => true | _ => false end.

(** Whether the buffers are passed on as they come, the size of the temporary
    buffers and their first fill. *)
Record plan := mkPlan { nonAdapting : bool; perTemp : Z; firstInput : Z; firstOutput : Z }.

Definition plan_buffers (inputChannels outputChannels userFrames hostFrames : Z)
    (mode : PaUtilHostBufferSizeMode) : res plan :=
  if userFrames =? 0 then
    Ret (mkPlan true
      (if is_fixed mode || is_bounded mode then hostFrames
       else PA_FRAMES_PER_TEMP_BUFFER_WHEN_HOST_BUFFER_SIZE_IS_UNKNOWN_) 0 0)
  else if is_fixed mode && (hostFrames mod userFrames =? 0) then Ret (mkPlan true userFrames 0 0)
  else if (inputChannels >? 0) && (outputChannels >? 0) then
    if is_fixed mode then
      frameShift ← CalculateFrameShift hostFrames userFrames;
      Ret (if userFrames >? hostFrames then mkPlan false userFrames frameShift 0
           else mkPlan false userFrames 0 frameShift)
    else Ret (mkPlan false userFrames 0 userFrames)
  else Ret (mkPlan false userFrames 0 0).

(** One direction: sample sizes, converter, and its allocations in their order.
    [inl] is an error, with what has been allocated by then. *)
Record direction := mkDir {
  hostBytes : Z; userBytes : Z; interleavedUser : bool; interleavedHost : bool; sameFormat : bool;
  temp : ptr; pointers : ptr; channels : ptr }.

Definition is_interleaved (fmt : Z) : bool := Z.land fmt paNonInterleaved =? 0.

(** [memset] of the temporary buffer, when it starts with frames in it. *)
Definition clear_temp (first : Z) (p : ptr) (size : Z) : st heap unit :=
  when (first >? 0) (fun h => m ← store h.1 p (replicate (Z.to_nat size) 0); Ret (tt, (m, h.2))).

Definition init_direction (count userFormat hostFormat perTempBuffer first : Z) :
    st heap (Z * list ptr + direction) :=
  let hb := Pa_GetSampleSize hostFormat in
  if negb (hb >? 0) then mret (inl (hb, []))
  else
    let ub := Pa_GetSampleSize userFormat in
    if negb (ub >? 0) then mret (inl (ub, []))
    else
      let size := wrap_u 32 (perTempBuffer * ub * count) in
      t ← PaUtil_AllocateMemory size;
      if decide (t = NULL) then mret (inl (paInsufficientMemory, []))
      else
        clear_temp first t size;;
        ps ← (if is_interleaved userFormat then mret NULL else PaUtil_AllocateMemory (sizeof_pointer * count));
        if negb (is_interleaved userFormat) && bool_decide (ps = NULL) then mret (inl (paInsufficientMemory, [t]))
        else
          ch ← PaUtil_AllocateMemory (sizeof_PaUtilChannelDescriptor * count * 2);
          if decide (ch = NULL) then mret (inl (paInsufficientMemory, [t; ps]))
          else mret (inr (mkDir hb ub (is_interleaved userFormat) (is_interleaved hostFormat)
                   (interleaved_format userFormat =? interleaved_format hostFormat) t ps ch)).

Definition no_direction : direction := mkDir 0 0 false false false NULL NULL NULL.

(** The descriptors of a direction, not set yet. *)
Definition no_channels (count : Z) : list chan * list chan :=
  let l := replicate (Z.to_nat count) (mkChan NULL 0) in (l, l).

Section processing.
Context {U : Type}.

Notation P := (st (processor U)).

(** Error code or processor.  [paConverters] is the table of converters. *)
Definition PaUtil_InitializeBufferProcessor (paConverters : PaUtilConverterTable)
    (inputCount userInputFormat hostInputFormat outputCount userOutputFormat hostOutputFormat : Z)
    (sampleRate : double) (streamFlags userFrames hostFrames : Z) (mode : PaUtilHostBufferSizeMode)
    (callback : option (PaStreamCallback U)) (u : U) : st heap (Z + processor U) :=
  if negb (Z.land streamFlags paNeverDropInput =? 0) &&
     (negb (if callback then true else false) || negb ((inputCount >? 0) && (outputCount >? 0)) ||
      negb (userFrames =? paFramesPerBufferUnspecified))
  then mret (inl paInvalidFlag)
  else
    p ← (fun h => p ← plan_buffers inputCount outputCount userFrames hostFrames mode; Ret (p, h));
    di ← (if inputCount >? 0 then init_direction inputCount userInputFormat hostInputFormat (perTemp p) (firstInput p)
          else mret (inr no_direction));
    match di with
    | inl (e, ps) => for_each ps PaUtil_FreeMemory;; mret (inl e)
    | inr di =>
        let inputs := [temp di; pointers di; channels di] in
        do ← (if outputCount >? 0 then init_direction outputCount userOutputFormat hostOutputFormat (perTemp p) (firstOutput p)
              else mret (inr no_direction));
        match do with
        | inl (e, ps) => for_each (inputs ++ ps) PaUtil_FreeMemory;; mret (inl e)
        | inr do =>
            let inputFlags :=
              if (Z.land streamFlags paDitherOff =? 0) && negb (Z.land hostInputFormat paInt32 =? 0) &&
                 negb (Z.land userInputFormat paInt24 =? 0)
              then Z.lor streamFlags paDitherOff else streamFlags in
            m ← gets fst;
            mret (inr (mkProc U
              (mkConfig U userFrames hostFrames mode (nonAdapting p) (sameFormat do) (sameFormat di) (perTemp p)
                inputCount (hostBytes di) (userBytes di) (interleavedUser di) (interleavedHost di)
                (PaUtil_SelectConverter paConverters hostInputFormat userInputFormat inputFlags)
                (PaUtil_SelectZeroer userInputFormat)
                outputCount (hostBytes do) (userBytes do) (interleavedUser do) (interleavedHost do)
                (PaUtil_SelectConverter paConverters userOutputFormat hostOutputFormat streamFlags)
                (PaUtil_SelectZeroer hostOutputFormat)
                (firstInput p) (firstOutput p) (temp di) (temp do)
                (inputs ++ [temp do; pointers do; channels do])
                (ddiv (of_ulong 1) sampleRate) (default (fun _ _ _ _ _ _ _ => Fault NullPointer) callback))
              (mkTime (of_ulong 0) (of_ulong 0) (of_ulong 0)) 0 (firstInput p) (firstOutput p)
              (0, 0) (no_channels inputCount) (0, 0) (no_channels outputCount)
              PaUtil_InitializeTriangularDitherState m u paContinue))
        end
    end.

Definition PaUtil_TerminateBufferProcessor (bp : processor U) : st heap unit :=
  for_each (blocks (cfg bp)) PaUtil_FreeMemory.

Definition memset0 (p : ptr) (n : Z) : P unit := fun s =>
  m ← store (mem s) p (replicate (Z.to_nat n) 0); Ret (tt, set_mem m s).

Definition PaUtil_ResetBufferProcessor : P unit :=
  c ← gets cfg;
  modify (set_in_temp (initialFramesInTempInputBuffer c));;
  modify (set_out_temp (initialFramesInTempOutputBuffer c));;
  when (initialFramesInTempInputBuffer c >? 0)
    (memset0 (tempInputBuffer c) (wrap_u 32 (framesPerTempBuffer c * bytesPerUserInputSample c * inputChannelCount c)));;
  when (initialFramesInTempOutputBuffer c >? 0)
    (memset0 (tempOutputBuffer c) (wrap_u 32 (framesPerTempBuffer c * bytesPerUserOutputSample c * outputChannelCount c))).

Definition PaUtil_GetBufferProcessorInputLatencyFrames : P Z := gets (fun s => initialFramesInTempInputBuffer (cfg s)).
Definition PaUtil_GetBufferProcessorOutputLatencyFrames : P Z := gets (fun s => initialFramesInTempOutputBuffer (cfg s)).

(** * The buffers of the host *)

Definition assert (b : bool) : P unit := if b then mret tt else throw AssertFailed.

Definition PaUtil_SetInputFrameCount (frameCount : Z) : P unit :=
  modify (fun s => set_in_count (put B0 (if frameCount =? 0 then framesPerHostBuffer (cfg s) else frameCount)
                                  (hostInputFrameCount s)) s).

Definition PaUtil_Set2ndInputFrameCount (frameCount : Z) : P unit :=
  modify (fun s => set_in_count (put B1 frameCount (hostInputFrameCount s)) s).

(** A store to a descriptor; the arrays are null for a direction without channels. *)
Definition put_in_chan (b : bufsel) (channel : Z) (c : chan) : P unit := fun s =>
  let l := pick b (hostInputChannels s) in
  if channel <? zlen l then Ret (tt, set_in_chans (put b (<[Z.to_nat channel := c]> l) (hostInputChannels s)) s)
  else Fault OutOfBounds.

Definition put_out_chan (b : bufsel) (channel : Z) (c : chan) : P unit := fun s =>
  let l := pick b (hostOutputChannels s) in
  if channel <? zlen l then Ret (tt, set_out_chans (put b (<[Z.to_nat channel := c]> l) (hostOutputChannels s)) s)
  else Fault OutOfBounds.

(** [PaUtil_SetInputChannel] and [PaUtil_Set2ndInputChannel]. *)
Definition set_input_channel (b : bufsel) (channel : Z) (p : ptr) (strd : Z) : P unit :=
  c ← gets cfg; assert (channel <? inputChannelCount c);; put_in_chan b channel (mkChan p strd).
Definition PaUtil_SetInputChannel := set_input_channel B0.
Definition PaUtil_Set2ndInputChannel := set_input_channel B1.

Definition set_interleaved_input (b : bufsel) (firstChannel : Z) (p : ptr) (channelCount : Z) : P unit :=
  c ← gets cfg;
  let channelCount := if channelCount =? 0 then inputChannelCount c else channelCount in
  assert (firstChannel <? inputChannelCount c);;
  assert (wrap_u 32 (firstChannel + channelCount) <=? inputChannelCount c);;
  assert (hostInputIsInterleaved c);;
  for_each (seqZ 0 channelCount) (fun i =>
    put_in_chan b (firstChannel + i) (mkChan (padd p (i * bytesPerHostInputSample c)) channelCount)).
Definition PaUtil_SetInterleavedInputChannels := set_interleaved_input B0.
Definition PaUtil_Set2ndInterleavedInputChannels := set_interleaved_input B1.

Definition set_noninterleaved_input (b : bufsel) (channel : Z) (p : ptr) : P unit :=
  c ← gets cfg;
  assert (channel <? inputChannelCount c);; assert (negb (hostInputIsInterleaved c));;
  put_in_chan b channel (mkChan p 1).
Definition PaUtil_SetNonInterleavedInputChannel := set_noninterleaved_input B0.
Definition PaUtil_Set2ndNonInterleavedInputChannel := set_noninterleaved_input B1.

Definition PaUtil_SetNoInput : P unit :=
  s ← get;
  assert (inputChannelCount (cfg s) >? 0);;
  c ← need NullPointer (head (hostInputChannels s).1);
  put_in_chan B0 0 (mkChan NULL (stride c)).

Definition PaUtil_SetOutputFrameCount (frameCount : Z) : P unit :=
  modify (fun s => set_out_count (put B0 (if frameCount =? 0 then framesPerHostBuffer (cfg s) else frameCount)
                                   (hostOutputFrameCount s)) s).

Definition PaUtil_Set2ndOutputFrameCount (frameCount : Z) : P unit :=
  modify (fun s => set_out_count (put B1 frameCount (hostOutputFrameCount s)) s).

Definition set_output_channel (b : bufsel) (channel : Z) (p : ptr) (strd : Z) : P unit :=
  c ← gets cfg;
  assert (channel <? outputChannelCount c);; assert (negb (bool_decide (p = NULL)));;
  put_out_chan b channel (mkChan p strd).
Definition PaUtil_SetOutputChannel := set_output_channel B0.
Definition PaUtil_Set2ndOutputChannel := set_output_channel B1.

Definition set_interleaved_output (b : bufsel) (firstChannel : Z) (p : ptr) (channelCount : Z) : P unit :=
  c ← gets cfg;
  let channelCount := if channelCount =? 0 then outputChannelCount c else channelCount in
  assert (firstChannel <? outputChannelCount c);;
  assert (wrap_u 32 (firstChannel + channelCount) <=? outputChannelCount c);;
  assert (hostOutputIsInterleaved c);;
  for_each (seqZ 0 channelCount) (fun i =>
    set_output_channel b (firstChannel + i) (padd p (i * bytesPerHostOutputSample c)) channelCount).
Definition PaUtil_SetInterleavedOutputChannels := set_interleaved_output B0.
Definition PaUtil_Set2ndInterleavedOutputChannels := set_interleaved_output B1.

Definition set_noninterleaved_output (b : bufsel) (channel : Z) (p : ptr) : P unit :=
  c ← gets cfg;
  assert (channel <? outputChannelCount c);; assert (negb (hostOutputIsInterleaved c));;
  set_output_channel b channel p 1.
Definition PaUtil_SetNonInterleavedOutputChannel := set_noninterleaved_output B0.
Definition PaUtil_Set2ndNonInterleavedOutputChannel := set_noninterleaved_output B1.

Definition PaUtil_SetNoOutput : P unit :=
  s ← get;
  assert (outputChannelCount (cfg s) >? 0);;
  c ← need NullPointer (head (hostOutputChannels s).1);
  put_out_chan B0 0 (mkChan NULL (stride c)).

Definition PaUtil_BeginBufferProcessing (t : PaStreamCallbackTimeInfo) (flags : Z) : P unit :=
  s ← get;
  modify (set_time (mkTime
    (dsub (inputBufferAdcTime t) (dmul (of_ulong (framesInTempInputBuffer s)) (samplePeriod (cfg s))))
    (currentTime t)
    (dadd (outputBufferDacTime t) (dmul (of_ulong (framesInTempOutputBuffer s)) (samplePeriod (cfg s))))));;
  modify (set_flags flags);;
  modify (fun s => set_in_count (put B1 0 (hostInputFrameCount s)) s);;
  modify (fun s => set_out_count (put B1 0 (hostOutputFrameCount s)) s).

(** * Converting between the buffers

    A reference to a pair of descriptor arrays: the first, the second, or NULL. *)

Definition in_chan (r : option bufsel) (i : Z) : P chan := fun s =>
  match r with
  | None => Fault NullPointer
  | Some b => match pick b (hostInputChannels s) !! Z.to_nat i with Some c => Ret (c, s) | None => Fault OutOfBounds end
  end.

Definition out_chan (r : option bufsel) (i : Z) : P chan := fun s =>
  match r with
  | None => Fault NullPointer
  | Some b => match pick b (hostOutputChannels s) !! Z.to_nat i with Some c => Ret (c, s) | None => Fault OutOfBounds end
  end.

(** "advance src ptr for next iteration" *)
Definition advanced (n bytes : Z) (c : chan) : chan :=
  mkChan (padd (data c) (wrap_u 32 (n * stride c * bytes))) (stride c).

Definition advance_in (r : option bufsel) (i n : Z) : P unit :=
  s ← get; c ← in_chan r i;
  match r with None => throw NullPointer | Some b => put_in_chan b i (advanced n (bytesPerHostInputSample (cfg s)) c) end.

Definition advance_out (r : option bufsel) (i n : Z) : P unit :=
  s ← get; c ← out_chan r i;
  match r with None => throw NullPointer | Some b => put_out_chan b i (advanced n (bytesPerHostOutputSample (cfg s)) c) end.

(** Calls through the pointers [inputConverter], [outputConverter] and the
    zeroers. *)
Definition run_converter (conv : option PaUtilConverter) (dest : ptr) (dstride : Z) (src : ptr) (sstride n : Z) : P unit :=
  fun s => match conv with
  | None => Fault NullPointer
  | Some conv => r ← conv dest dstride src sstride n (mem s, ditherGenerator s);
                 Ret (tt, set_mem r.2.1 (set_dither r.2.2 s))
  end.

Definition run_zeroer (zero : option PaUtilZeroer) (dest : ptr) (strd n : Z) : P unit :=
  fun s => match zero with
  | None => Fault NullPointer
  | Some zero => m ← zero dest strd n (mem s); Ret (tt, set_mem m s)
  end.

(** [n] frames of every channel, host -> user: the loop that ends each branch. *)
Definition convert_in (r : option bufsel) (dest : ptr) (sampleStride channelStride n : Z) : P unit :=
  c ← gets cfg;
  for_each (seqZ 0 (inputChannelCount c)) (fun i =>
    d ← in_chan r i;
    run_converter (inputConverter c) (padd dest (i * channelStride)) sampleStride (data d) (stride d) n;;
    advance_in r i n).

(** User -> host. *)
Definition convert_out (r : option bufsel) (src : ptr) (sampleStride channelStride n : Z) : P unit :=
  c ← gets cfg;
  for_each (seqZ 0 (outputChannelCount c)) (fun i =>
    d ← out_chan r i;
    run_converter (outputConverter c) (data d) (stride d) (padd src (i * channelStride)) sampleStride n;;
    advance_out r i n).

Definition zero_out (r : option bufsel) (n : Z) : P unit :=
  c ← gets cfg;
  for_each (seqZ 0 (outputChannelCount c)) (fun i =>
    d ← out_chan r i; run_zeroer (outputZeroer c) (data d) (stride d) n;; advance_out r i n).

(** The pointers of a non-interleaved buffer of [frames] frames. *)
Definition channel_ptrs (p : ptr) (count bytes frames : Z) : list ptr :=
  (fun i => padd p (i * bytes * frames)) <$> seqZ 0 count.

Definition call_streamCallback (userInput userOutput : user_buffer) (n : Z) : P unit := fun s =>
  r ← streamCallback (cfg s) userInput userOutput n (timeInfo s) (callbackStatusFlags s) (mem s) (userData s);
  Ret (tt, set_result r.1.1 (set_mem r.1.2 (set_user r.2 s))).

Definition advance_time (input output : bool) (n : Z) : P unit :=
  modify (fun s =>
    let d := dmul (of_ulong n) (samplePeriod (cfg s)) in
    let t := timeInfo s in
    set_time (mkTime (if input then dadd (inputBufferAdcTime t) d else inputBufferAdcTime t) (currentTime t)
                (if output then dadd (outputBufferDacTime t) d else outputBufferDacTime t)) s).

(** * NonAdaptingProcess *)

Definition supplied (p : ptr) : bool := negb (bool_decide (p = NULL)).

(** Fill the user input: zeros, nothing (the host buffer is passed on), or a
    conversion. *)
Definition na_fill_input (r : option bufsel) (dest : ptr) (sampleStride channelStride n : Z) (skip : bool) : P unit :=
  c ← gets cfg; h ← in_chan (Some B0) 0;
  if negb (supplied (data h)) then
    for_each (seqZ 0 (inputChannelCount c)) (fun i =>
      run_zeroer (inputZeroer c) (padd dest (i * channelStride)) sampleStride n)
  else if skip then for_each (seqZ 0 (inputChannelCount c)) (fun i => advance_in r i n)
  else convert_in r dest sampleStride channelStride n.

Definition na_input (r : option bufsel) (n : Z) (skip : bool) : P (user_buffer * bool) :=
  c ← gets cfg;
  if inputChannelCount c =? 0 then mret (UNone, skip)
  else
    h ← in_chan (Some B0) 0;
    if userInputIsInterleaved c then
      direct ← (if userInputSampleFormatIsEqualToHost c && hostInputIsInterleaved c && supplied (data h)
                then d ← in_chan r 0; mret (inputChannelCount c =? stride d) else mret false);
      if (direct : bool) then
        d ← in_chan r 0;
        na_fill_input r (data d) (inputChannelCount c) (bytesPerUserInputSample c) n true;;
        mret (UInterleaved (data d), true)
      else
        na_fill_input r (tempInputBuffer c) (inputChannelCount c) (bytesPerUserInputSample c) n skip;;
        mret (UInterleaved (tempInputBuffer c), skip)
    else if userInputSampleFormatIsEqualToHost c && negb (hostInputIsInterleaved c) && supplied (data h) then
      ps ← mapM (fun i => d ← in_chan r i; mret (data d)) (seqZ 0 (inputChannelCount c));
      na_fill_input r (tempInputBuffer c) 1 (wrap_u 32 (n * bytesPerUserInputSample c)) n true;;
      mret (UNonInterleaved ps, true)
    else
      na_fill_input r (tempInputBuffer c) 1 (wrap_u 32 (n * bytesPerUserInputSample c)) n skip;;
      mret (UNonInterleaved (channel_ptrs (tempInputBuffer c) (inputChannelCount c) (bytesPerUserInputSample c) n), skip).

Definition na_output (r : option bufsel) (n : Z) (skip : bool) : P (user_buffer * bool) :=
  c ← gets cfg;
  if outputChannelCount c =? 0 then mret (UNone, skip)
  else if userOutputIsInterleaved c then
    direct ← (if userOutputSampleFormatIsEqualToHost c && hostOutputIsInterleaved c
              then d ← out_chan r 0; mret (outputChannelCount c =? stride d) else mret false);
    if (direct : bool) then d ← out_chan r 0; mret (UInterleaved (data d), true)
    else mret (UInterleaved (tempOutputBuffer c), skip)
  else if userOutputSampleFormatIsEqualToHost c && negb (hostOutputIsInterleaved c) then
    ps ← mapM (fun i => d ← out_chan r i; mret (data d)) (seqZ 0 (outputChannelCount c));
    mret (UNonInterleaved ps, true)
  else mret (UNonInterleaved (channel_ptrs (tempOutputBuffer c) (outputChannelCount c) (bytesPerUserOutputSample c) n), skip).

(** "convert output data (user -> host)" *)
Definition na_drain_output (r : option bufsel) (n : Z) (skip : bool) : P unit :=
  c ← gets cfg;
  if outputChannelCount c =? 0 then mret tt
  else
    h ← out_chan (Some B0) 0;
    when (supplied (data h))
      (if skip then for_each (seqZ 0 (outputChannelCount c)) (fun i => advance_out r i n)
       else if userOutputIsInterleaved c then
         convert_out r (tempOutputBuffer c) (outputChannelCount c) (bytesPerUserOutputSample c) n
       else convert_out r (tempOutputBuffer c) 1 (wrap_u 32 (n * bytesPerUserOutputSample c)) n).

(** The loop; it returns [framesToGo] and [framesProcessed]. *)
Fixpoint na_loop (fuel : nat) (ri ro : option bufsel) (framesToGo framesProcessed : Z) (skipInput skipOutput : bool) :
    P (Z * Z) :=
  match fuel with
  | O => throw OutOfFuel
  | S fuel =>
      c ← gets cfg;
      let n := PA_MIN_ (framesPerTempBuffer c) framesToGo in
      i ← na_input ri n skipInput;
      o ← na_output ro n skipOutput;
      call_streamCallback i.1 o.1 n;;
      res ← gets streamCallbackResult;
      if res =? paAbort then mret (framesToGo, framesProcessed)
      else
        advance_time true true n;;
        na_drain_output ro n o.2;;
        if (framesToGo - n >? 0) && (res =? paContinue)
        then na_loop fuel ri ro (framesToGo - n) (framesProcessed + n) i.2 o.2
        else mret (framesToGo - n, framesProcessed + n)
  end.

Definition NonAdaptingProcess (ri ro : option bufsel) (framesToProcess : Z) : P Z :=
  res ← gets streamCallbackResult;
  g ← (if res =? paContinue then na_loop (S (Z.to_nat framesToProcess)) ri ro framesToProcess 0 false false
       else mret (framesToProcess, 0));
  let '(framesToGo, framesProcessed) := g in
  if framesToGo >? 0 then
    c ← gets cfg;
    (if outputChannelCount c =? 0 then mret tt
     else h ← out_chan (Some B0) 0; when (supplied (data h)) (zero_out ro framesToGo));;
    mret (framesProcessed + framesToGo)
  else mret framesProcessed.

(** * AdaptingInputOnlyProcess *)

(** Where the next frames of the temporary input buffer go: pointer, stride from
    sample to sample, stride from channel to channel. *)
Definition input_place (s : processor U) : ptr * Z * Z :=
  let c := cfg s in
  if userInputIsInterleaved c then
    (padd (tempInputBuffer c)
       (wrap_u 32 (bytesPerUserInputSample c * inputChannelCount c * framesInTempInputBuffer s)),
     inputChannelCount c, bytesPerUserInputSample c)
  else
    (padd (tempInputBuffer c) (wrap_u 32 (bytesPerUserInputSample c * framesInTempInputBuffer s)),
     1, wrap_u 32 (framesPerUserBuffer c * bytesPerUserInputSample c)).

Definition temp_input (c : config U) : user_buffer :=
  if userInputIsInterleaved c then UInterleaved (tempInputBuffer c)
  else UNonInterleaved (channel_ptrs (tempInputBuffer c) (inputChannelCount c) (bytesPerUserInputSample c) (framesPerUserBuffer c)).

Definition temp_output (c : config U) : user_buffer :=
  if userOutputIsInterleaved c then UInterleaved (tempOutputBuffer c)
  else UNonInterleaved (channel_ptrs (tempOutputBuffer c) (outputChannelCount c) (bytesPerUserOutputSample c) (framesPerUserBuffer c)).

(** [n] frames into the temporary buffer. *)
Definition take_input (r : option bufsel) (n : Z) : P unit :=
  s ← get;
  let '(dest, sampleStride, channelStride) := input_place s in
  convert_in r dest sampleStride channelStride n.

Definition set_output_time0 : P unit :=
  modify (fun s => set_time (mkTime (inputBufferAdcTime (timeInfo s)) (currentTime (timeInfo s)) (of_ulong 0)) s).
Definition set_input_time0 : P unit :=
  modify (fun s => set_time (mkTime (of_ulong 0) (currentTime (timeInfo s)) (outputBufferDacTime (timeInfo s))) s).

(** One round of the loop: the number of frames it takes. *)
Definition input_round (r : option bufsel) (framesToGo : Z) : P Z :=
  s ← get;
  let N := framesPerUserBuffer (cfg s) in
  let frameCount := if wrap_u 32 (framesInTempInputBuffer s + framesToGo) >? N
                    then N - framesInTempInputBuffer s else framesToGo in
  take_input r frameCount;;
  modify (fun s => set_in_temp (framesInTempInputBuffer s + frameCount) s);;
  s ← get;
  when (framesInTempInputBuffer s =? N)
    (when (streamCallbackResult s =? paContinue)
       (set_output_time0;;
        call_streamCallback (temp_input (cfg s)) UNone N;;
        advance_time true false N);;
     modify (set_in_temp 0));;
  mret frameCount.

Fixpoint input_loop (fuel : nat) (r : option bufsel) (framesToGo framesProcessed : Z) : P Z :=
  match fuel with
  | O => throw OutOfFuel
  | S fuel =>
      n ← input_round r framesToGo;
      if framesToGo - n >? 0 then input_loop fuel r (framesToGo - n) (framesProcessed + n)
      else mret (framesProcessed + n)
  end.

Definition AdaptingInputOnlyProcess (r : option bufsel) (framesToProcess : Z) : P Z :=
  input_loop (S (Z.to_nat framesToProcess)) r framesToProcess 0.

(** * AdaptingOutputOnlyProcess *)

(** Where the next frames of the temporary output buffer are. *)
Definition output_place (s : processor U) : ptr * Z * Z :=
  let c := cfg s in
  let start := framesPerUserBuffer c - framesInTempOutputBuffer s in
  if userOutputIsInterleaved c then
    (padd (tempOutputBuffer c) (wrap_u 32 (bytesPerUserOutputSample c * outputChannelCount c * start)),
     outputChannelCount c, bytesPerUserOutputSample c)
  else
    (padd (tempOutputBuffer c) (wrap_u 32 (bytesPerUserOutputSample c * start)),
     1, wrap_u 32 (framesPerUserBuffer c * bytesPerUserOutputSample c)).

(** [n] frames out of the temporary buffer. *)
Definition give_output (r : option bufsel) (n : Z) : P unit :=
  s ← get;
  let '(src, sampleStride, channelStride) := output_place s in
  convert_out r src sampleStride channelStride n.

Definition output_round (r : option bufsel) (framesToGo : Z) : P Z :=
  s ← get;
  let N := framesPerUserBuffer (cfg s) in
  when ((framesInTempOutputBuffer s =? 0) && (streamCallbackResult s =? paContinue))
    (set_input_time0;;
     call_streamCallback UNone (temp_output (cfg s)) N;;
     res ← gets streamCallbackResult;
     when (negb (res =? paAbort)) (advance_time false true N;; modify (set_out_temp N)));;
  s ← get;
  if framesInTempOutputBuffer s >? 0 then
    let frameCount := PA_MIN_ (framesInTempOutputBuffer s) framesToGo in
    give_output r frameCount;;
    modify (fun s => set_out_temp (framesInTempOutputBuffer s - frameCount) s);;
    mret frameCount
  else
    zero_out r framesToGo;; mret framesToGo.

Fixpoint output_loop (fuel : nat) (r : option bufsel) (framesToGo framesProcessed : Z) : P Z :=
  match fuel with
  | O => throw OutOfFuel
  | S fuel =>
      n ← output_round r framesToGo;
      if framesToGo - n >? 0 then output_loop fuel r (framesToGo - n) (framesProcessed + n)
      else mret (framesProcessed + n)
  end.

Definition AdaptingOutputOnlyProcess (r : option bufsel) (framesToProcess : Z) : P Z :=
  output_loop (S (Z.to_nat framesToProcess)) r framesToProcess 0.

(** * AdaptingProcess *)

(** One round of [CopyTempOutputBuffersToHostOutputBuffers]. *)
Definition copy_out_round (s : processor U) : P unit :=
  let b := if (hostOutputFrameCount s).1 >? 0 then B0 else B1 in
  let frameCount := PA_MIN_ (pick b (hostOutputFrameCount s)) (framesInTempOutputBuffer s) in
  for_each (seqZ 0 (outputChannelCount (cfg s))) (fun i =>
    d ← out_chan (Some b) i; assert (supplied (data d)));;
  give_output (Some b) frameCount;;
  modify (fun s => set_out_count (put b (pick b (hostOutputFrameCount s) - frameCount) (hostOutputFrameCount s)) s);;
  modify (fun s => set_out_temp (framesInTempOutputBuffer s - frameCount) s).

(** Each round empties the temporary buffer or one of the two host buffers. *)
Fixpoint copy_out_loop (fuel : nat) : P unit :=
  s ← get;
  if (framesInTempOutputBuffer s >? 0) && (wrap_u 32 ((hostOutputFrameCount s).1 + (hostOutputFrameCount s).2) >? 0) then
    match fuel with
    | O => throw OutOfFuel
    | S fuel => copy_out_round s;; copy_out_loop fuel
    end
  else mret tt.

Definition CopyTempOutputBuffersToHostOutputBuffers : P unit := copy_out_loop 3.

(** "zero what remains of the host output buffers" *)
Definition zero_rest : P unit :=
  for_each [B0; B1] (fun b =>
    s ← get;
    let frameCount := pick b (hostOutputFrameCount s) in
    when (frameCount >? 0)
      (zero_out (Some b) frameCount;;
       modify (fun s => set_out_count (put b 0 (hostOutputFrameCount s)) s))).

(** "copy frames from host to user input buffers": a round, then all of them; they
    return the frames taken. *)
Definition copy_in_round (s : processor U) : P Z :=
  let b := if (hostInputFrameCount s).1 >? 0 then B0 else B1 in
  let frameCount := PA_MIN_ (pick b (hostInputFrameCount s)) (framesPerUserBuffer (cfg s) - framesInTempInputBuffer s) in
  take_input (Some b) frameCount;;
  modify (fun s => set_in_count (put b (pick b (hostInputFrameCount s) - frameCount) (hostInputFrameCount s)) s);;
  modify (fun s => set_in_temp (framesInTempInputBuffer s + frameCount) s);;
  mret frameCount.

Fixpoint copy_in_loop (fuel : nat) (taken : Z) : P Z :=
  s ← get;
  if (framesInTempInputBuffer s <? framesPerUserBuffer (cfg s)) &&
     (wrap_u 32 ((hostInputFrameCount s).1 + (hostInputFrameCount s).2) >? 0) then
    match fuel with
    | O => throw OutOfFuel
    | S fuel => n ← copy_in_round s; copy_in_loop fuel (taken + n)
    end
  else mret taken.

(** "call streamCallback" *)
Definition duplex_callback : P unit :=
  s ← get;
  let N := framesPerUserBuffer (cfg s) in
  when ((framesInTempInputBuffer s =? N) && (framesInTempOutputBuffer s =? 0))
    (if streamCallbackResult s =? paContinue then
       call_streamCallback (temp_input (cfg s)) (temp_output (cfg s)) N;;
       advance_time true true N;;
       modify (set_in_temp 0);;
       res ← gets streamCallbackResult;
       modify (set_out_temp (if res =? paAbort then 0 else N))
     else modify (set_in_temp 0)).

Definition duplex_round : P Z :=
  s ← get;
  when ((framesInTempOutputBuffer s =? 0) && negb (streamCallbackResult s =? paContinue)) zero_rest;;
  taken ← copy_in_loop 3 0;
  duplex_callback;;
  CopyTempOutputBuffersToHostOutputBuffers;;
  mret taken.

Fixpoint duplex_loop (fuel : nat) (framesAvailable minimum framesProcessed : Z) : P Z :=
  if framesAvailable >? minimum then
    match fuel with
    | O => throw OutOfFuel
    | S fuel =>
        taken ← duplex_round;
        duplex_loop fuel (framesAvailable - taken) minimum (framesProcessed + taken)
    end
  else mret framesProcessed.

(** Every round but the one after the callback has ended the stream takes a frame;
    the fuel covers two rounds for each. *)
Definition AdaptingProcess (processPartialUserBuffers : bool) : P Z :=
  s ← get;
  let framesAvailable := wrap_u 32 ((hostInputFrameCount s).1 + (hostInputFrameCount s).2) in
  let minimum := if processPartialUserBuffers then 0 else framesPerUserBuffer (cfg s) - 1 in
  CopyTempOutputBuffersToHostOutputBuffers;;
  duplex_loop (2 * Z.to_nat framesAvailable + 2) framesAvailable minimum 0.

(** * PaUtil_EndBufferProcessing *)

(** Full duplex without adaption: the buffers of the two directions are spliced.
    The test for [PaUtil_SetNoOutput] is overridden by the one that follows it. *)
Fixpoint splice_loop (fuel : nat) (framesToGo framesProcessed : Z) : P Z :=
  match fuel with
  | O => throw OutOfFuel
  | S fuel =>
      s ← get; h ← in_chan (Some B0) 0; out_chan (Some B0) 0;;
      let bi := if negb ((hostInputFrameCount s).1 =? 0) then B0 else B1 in
      let ri := if supplied (data h) then Some bi else None in
      let inputFrames := if supplied (data h) then pick bi (hostInputFrameCount s) else framesToGo in
      let bo := if negb ((hostOutputFrameCount s).1 =? 0) then B0 else B1 in
      let framesToProcess := PA_MIN_ inputFrames (pick bo (hostOutputFrameCount s)) in
      assert (negb (framesToProcess =? 0));;
      n ← NonAdaptingProcess ri (Some bo) framesToProcess;
      when (supplied (data h))
        (modify (fun s => set_in_count (put bi (wrap_u 32 (pick bi (hostInputFrameCount s) - n)) (hostInputFrameCount s)) s));;
      modify (fun s => set_out_count (put bo (wrap_u 32 (pick bo (hostOutputFrameCount s) - n)) (hostOutputFrameCount s)) s);;
      if wrap_u 32 (framesToGo - n) >? 0 then splice_loop fuel (wrap_u 32 (framesToGo - n)) (framesProcessed + n)
      else mret (framesProcessed + n)
  end.

(** A process on the first buffer, and on the second if it has frames. *)
Definition both_buffers (process : option bufsel -> Z -> P Z) (counts : processor U -> Z * Z) : P Z :=
  f ← gets counts;
  n ← process (Some B0) f.1;
  f ← gets counts;
  if f.2 >? 0 then m ← process (Some B1) f.2; mret (n + m) else mret n.

(** With an input and an output supplied, their sizes must agree. *)
Definition assert_equal_counts : P unit :=
  s ← get;
  let c := cfg s in
  if negb (inputChannelCount c =? 0) && negb (outputChannelCount c =? 0) then
    i ← in_chan (Some B0) 0;
    if supplied (data i) then
      o ← out_chan (Some B0) 0;
      when (supplied (data o))
        (assert (wrap_u 32 ((hostInputFrameCount s).1 + (hostInputFrameCount s).2) =?
                 wrap_u 32 ((hostOutputFrameCount s).1 + (hostOutputFrameCount s).2)))
    else mret tt
  else mret tt.

Definition is_variable (m : PaUtilHostBufferSizeMode) : bool :=
  match m with paUtilVariableHostBufferSizePartialUsageAllowed => true | _ => false end.

Definition PaUtil_EndBufferProcessing : P Z :=
  assert_equal_counts;;
  s ← get;
  let c := cfg s in
  let res := streamCallbackResult s in
  assert ((res =? paContinue) || (res =? paComplete) || (res =? paAbort));;
  let input := negb (inputChannelCount c =? 0) in
  let output := negb (outputChannelCount c =? 0) in
  if useNonAdaptingProcess c then
    if input && output then
      let framesToGo := wrap_u 32 ((hostOutputFrameCount s).1 + (hostOutputFrameCount s).2) in
      splice_loop (S (Z.to_nat framesToGo)) framesToGo 0
    else
      (* half duplex: the other reference is to an array that is not used *)
      both_buffers (fun r n => NonAdaptingProcess r r n) (if input then hostInputFrameCount else hostOutputFrameCount)
  else if input && output then AdaptingProcess (negb (is_variable (hostBufferSizeMode c)))
  else if input then both_buffers AdaptingInputOnlyProcess hostInputFrameCount
  else both_buffers AdaptingOutputOnlyProcess hostOutputFrameCount.

(** [0] or [1]. *)
Definition PaUtil_IsBufferProcessorOutputEmpty : P Z :=
  gets (fun s => if negb (framesInTempOutputBuffer s =? 0) then 0 else 1).

(** * Blocking streams

    The caller's pointer moves past the frames copied. *)

Definition PaUtil_CopyInput (buffer : user_buffer) (frameCount : Z) : P (Z * user_buffer) :=
  s ← get;
  let c := cfg s in
  let n := PA_MIN_ (hostInputFrameCount s).1 frameCount in
  b ← match buffer with
      | UInterleaved p =>
          convert_in (Some B0) p (inputChannelCount c) (bytesPerUserInputSample c) n;;
          mret (UInterleaved (padd p (wrap_u 32 (n * inputChannelCount c * bytesPerUserInputSample c))))
      | UNonInterleaved ps =>
          ps ← mapM (fun i =>
            p ← need OutOfBounds (ps !! Z.to_nat i);
            d ← in_chan (Some B0) i;
            run_converter (inputConverter c) p 1 (data d) (stride d) n;;
            advance_in (Some B0) i n;;
            mret (padd p (wrap_u 32 (bytesPerUserInputSample c * n)))) (seqZ 0 (inputChannelCount c));
          mret (UNonInterleaved ps)
      | UNone => throw NullPointer
      end;
  modify (fun s => set_in_count (put B0 ((hostInputFrameCount s).1 - n) (hostInputFrameCount s)) s);;
  mret (n, b).

Definition PaUtil_CopyOutput (buffer : user_buffer) (frameCount : Z) : P (Z * user_buffer) :=
  s ← get;
  let c := cfg s in
  let n := PA_MIN_ (hostOutputFrameCount s).1 frameCount in
  b ← match buffer with
      | UInterleaved p =>
          convert_out (Some B0) p (outputChannelCount c) (bytesPerUserOutputSample c) n;;
          mret (UInterleaved (padd p (wrap_u 32 (n * outputChannelCount c * bytesPerUserOutputSample c))))
      | UNonInterleaved ps =>
          ps ← mapM (fun i =>
            p ← need OutOfBounds (ps !! Z.to_nat i);
            d ← out_chan (Some B0) i;
            run_converter (outputConverter c) (data d) (stride d) p 1 n;;
            advance_out (Some B0) i n;;
            mret (padd p (wrap_u 32 (bytesPerUserOutputSample c * n)))) (seqZ 0 (outputChannelCount c));
          mret (UNonInterleaved ps)
      | UNone => throw NullPointer
      end;
  modify (fun s => set_out_count (put B0 (wrap_u 32 ((hostOutputFrameCount s).1 + n)) (hostOutputFrameCount s)) s);;
  mret (n, b).

Definition PaUtil_ZeroOutput (frameCount : Z) : P Z :=
  s ← get;
  let n := PA_MIN_ (hostOutputFrameCount s).1 frameCount in
  zero_out (Some B0) n;;
  modify (fun s => set_out_count (put B0 (wrap_u 32 ((hostOutputFrameCount s).1 + n)) (hostOutputFrameCount s)) s);;
  mret n.

(** * The WASAPI binding

    [WaspiHostProcessingLoop] (hostapi/wasapi/pa_win_wasapi.c) on the buffers the
    host provides; [t] is the time information it gathers first.  The result says
    whether it asks the stream's thread to stop. *)
Definition WaspiHostProcessingLoop (t : PaStreamCallbackTimeInfo) (inputBuffer : ptr) (inputFrames : Z)
    (outputBuffer : ptr) (outputFrames : Z) : P bool :=
  PaUtil_BeginBufferProcessing t 0;;
  c ← gets cfg;
  when (inputChannelCount c >? 0)
    (PaUtil_SetInputFrameCount inputFrames;; PaUtil_SetInterleavedInputChannels 0 inputBuffer 0);;
  when (outputChannelCount c >? 0)
    (PaUtil_SetOutputFrameCount outputFrames;; PaUtil_SetInterleavedOutputChannels 0 outputBuffer 0);;
  modify (set_result paContinue);;
  PaUtil_EndBufferProcessing;;
  res ← gets streamCallbackResult;
  mret (negb (res =? paContinue)).

(** A packet of the capture client: time information, bytes, frames.  The engine
    hands it over in its buffer [captured]. *)
Record packet := mkPacket { p_time : PaStreamCallbackTimeInfo; p_bytes : list Z; p_frames : Z }.

(** [ProcessInputBuffer]: packets until there are none, until an empty one, or until
    the stream is to stop (the result is then true). *)
Fixpoint ProcessInputBuffer (captured : Z) (packets : list packet) : P bool :=
  match packets with
  | [] => mret false
  | p :: packets =>
      if p_frames p =? 0 then mret false
      else
        modify (fun s => set_mem (<[captured := p_bytes p]> (mem s)) s);;
        stop ← WaspiHostProcessingLoop (p_time p) (Ptr captured 0) (p_frames p) NULL 0;
        if (stop : bool) then mret true else ProcessInputBuffer captured packets
  end.

(** A packet of the capture client with the render client's buffer for as many
    frames, as it is found. *)
Record exchange := mkExchange { x_packet : packet; x_output : list Z }.

(** The full-duplex loop of [ProcThreadPoll] for one wake-up: packets are processed
    as long as the render client has room for them; [rendered] is the buffer it
    hands out.  The result is what has been left in it each time, and whether the
    stream has been asked to close.  An empty packet is processed, and ends the loop. *)
Fixpoint poll_full_duplex (captured rendered : Z) (o_frames : Z) (exchanges : list exchange) : P (list (list Z) * bool) :=
  match exchanges with
  | [] => mret ([], false)
  | x :: exchanges =>
      let p := x_packet x in
      if (o_frames =? 0) || (o_frames <? p_frames p) then mret ([], false)
      else
        modify (fun s => set_mem (<[rendered := x_output x]> (<[captured := p_bytes p]> (mem s))) s);;
        stop ← WaspiHostProcessingLoop (p_time p) (Ptr captured 0) (p_frames p) (Ptr rendered 0) (p_frames p);
        s ← get;
        l ← need OutOfBounds (mem s !! rendered);
        if p_frames p =? 0 then mret ([l], stop)
        else
          r ← poll_full_duplex captured rendered (o_frames - p_frames p) exchanges;
          mret (l :: r.1, stop || r.2)
  end.

(** The thread: a wake-up after the other, with the room there is at each, until
    the stream is to close. *)
Fixpoint ProcThreadPoll (captured rendered : Z) (wakeups : list (Z * list exchange)) : P (list (list Z)) :=
  match wakeups with
  | [] => mret []
  | w :: wakeups =>
      r ← poll_full_duplex captured rendered w.1 w.2;
      if (r.2 : bool) then mret r.1
      else ls ← ProcThreadPoll captured rendered wakeups; mret (r.1 ++ ls)
  end.

End processing.

(** * The latency of a full-duplex stream *)

Lemma GCD_fuel_spec fuel : forall a b, 0 <= a -> 0 <= b -> (Z.to_nat b < fuel)%nat -> GCD_fuel fuel a b = Ret (Z.gcd a b).
Proof.
  induction fuel as [| fuel IH]; intros a b Ha Hb Hf; [lia |]. cbn [GCD_fuel].
  destruct (Z.eqb_spec b 0) as [-> |]; [rewrite Z.gcd_0_r; f_equal; lia |].
  pose proof (Z.mod_pos_bound a b ltac:(lia)). rewrite IH by lia.
  f_equal. rewrite (Z.gcd_comm b), Z.gcd_mod by lia. apply Z.gcd_comm.
Qed.

Lemma LCM_spec a b : 0 < a -> 0 < b -> a * b < 2 ^ 32 -> LCM a b = Ret (a * b / Z.gcd a b).
Proof.
  intros Ha Hb Hab. unfold LCM, GCD. rewrite GCD_fuel_spec by lia. cbn [mbind res_bind].
  rewrite (proj2 (Z.eqb_neq _ _)) by (pose proof (Z.gcd_eq_0_l a b); lia). by rewrite wrap_u_small by nia.
Qed.

Section frame_shift.
Context (M N : Z) (HM : 0 < M) (HN : 0 < N) (Hmn : M * N < 2 ^ 32).

Notation g := (Z.gcd M N).

Lemma gcd_pos : 0 < g.
Proof. pose proof (Z.gcd_nonneg M N). pose proof (Z.gcd_eq_0_l M N). lia. Qed.

(** The multiples of [M] below the least common multiple. *)
Lemma lcm_eq : M * N / g = M * (N / g).
Proof. apply Z.divide_div_mul_exact; [pose proof gcd_pos; lia | apply Z.gcd_divide_r]. Qed.

Lemma mod_at_most i : i mod N <= N - g \/ ~ (g | i).
Proof.
  destruct (Znumtheory.Zdivide_dec g i) as [Hd |]; [| by right]. left.
  pose proof gcd_pos. pose proof (Z.mod_pos_bound i N HN).
  assert ((g | i mod N)) as [x Hx].
  { rewrite Z.mod_eq by lia. apply Z.divide_sub_r; [done |]. apply Z.divide_mul_l, Z.gcd_divide_r. }
  destruct (Z.gcd_divide_r M N) as [y Hy]. set (G := g) in *. clearbody G.
  assert (x < y) by (apply (Z.mul_lt_mono_pos_r G); lia). nia.
Qed.

(** One of them leaves the greatest remainder. *)
Lemma mod_attained : N <> g -> exists j, 1 <= j < N / g /\ (j * M) mod N = N - g.
Proof.
  intros Hne. pose proof gcd_pos as Hg. destruct (Z.gcd_divide_r M N) as [y Hy].
  destruct (Z.gcd_divide_l M N) as [x Hx]. destruct (Z.gcd_bezout M N g eq_refl) as (a & b & Hab).
  assert (N / g = y) as -> by (rewrite Hy at 1; apply Z.div_mul; lia).
  set (G := g) in *. clearbody G.
  assert (2 <= y) as Hy2 by (destruct (decide (y = 1)) as [-> |]; [lia | nia]).
  exists ((- a) mod y). pose proof (Z.mod_pos_bound (- a) y ltac:(lia)) as Hm.
  assert (((- a) mod y * M) mod N = N - G) as E.
  { symmetry. apply Z.mod_unique_pos with (q := b - 1 - ((- a) / y) * x); [nia |].
    pose proof (Z.div_mod (- a) y ltac:(lia)) as Hd. replace ((- a) mod y) with (- a - y * ((- a) / y)) by lia.
    set (q := (- a) / y) in *. clearbody q.
    replace ((- a - y * q) * M) with (- (a * M) - q * (y * M)) by ring.
    replace (y * M) with (x * N) by (rewrite Hx, Hy; ring). lia. }
  split; [| done]. destruct (decide ((- a) mod y = 0)) as [E0 |]; [| lia].
  rewrite E0 in E. rewrite Z.mul_0_l, Z.mod_0_l in E by lia. lia.
Qed.

Lemma frame_shift_loop_spec y k : M * y < 2 ^ 32 -> forall fuel j r, 0 < j -> j + Z.of_nat k = y -> (k <= fuel)%nat ->
  exists r', frame_shift_loop fuel (j * M) M N (M * y) r = Ret r' /\ r <= r' /\
    (forall i, j <= i < y -> (i * M) mod N <= r') /\ (r' = r \/ exists i, j <= i < y /\ r' = (i * M) mod N).
Proof.
  intros Hy. induction k as [| k IH]; intros fuel j r Hj Hk Hf.
  { exists r. split_and!; [| lia | lia | by left]. destruct fuel; cbn [frame_shift_loop]; by rewrite (proj2 (Z.ltb_ge _ _)) by nia. }
  destruct fuel as [| fuel]; [lia |]. cbn [frame_shift_loop]. rewrite (proj2 (Z.ltb_lt _ _)) by nia.
  replace (wrap_u 32 (j * M + M)) with ((j + 1) * M) by (rewrite wrap_u_small; [ring | nia]).
  set (r1 := PA_MAX_ r ((j * M) mod N)).
  assert (r <= r1 /\ (j * M) mod N <= r1 /\ (r1 = r \/ r1 = (j * M) mod N)) as (H1 & H2 & H3).
  { unfold r1, PA_MAX_. destruct (Z.gtb_spec r ((j * M) mod N)); lia. }
  destruct (IH fuel (j + 1) r1) as (r' & E & Hle & Hall & Hex); [lia.. |].
  exists r'. split_and!; [done | lia | |].
  - intros i Hi. destruct (decide (i = j)) as [-> |]; [lia | apply Hall; lia].
  - destruct Hex as [-> | (i & Hi & ->)]; [| right; exists i; split; [lia | done]].
    destruct H3 as [-> | ->]; [by left | right; exists j; split; [lia | done]].
Qed.
End frame_shift.

(** The search over the multiples of the host's size. *)
Lemma CalculateFrameShift_run M N : 0 < M -> 0 < N -> M * N < 2 ^ 32 ->
  CalculateFrameShift M N = Ret (N - Z.gcd M N).
Proof.
  intros HM HN Hmn. pose proof (gcd_pos M N HM) as Hg. destruct (Z.gcd_divide_r M N) as [y Hy].
  assert (N / Z.gcd M N = y) as Ey by (rewrite Hy at 1; apply Z.div_mul; lia).
  unfold CalculateFrameShift. rewrite (proj2 (Z.gtb_lt M 0)), (proj2 (Z.gtb_lt N 0)) by done. cbn [negb].
  rewrite LCM_spec by done. cbn [mbind res_bind]. rewrite lcm_eq by done. rewrite Ey.
  assert (0 < y) by nia. assert (M * y <= M * N) as Hle by nia.
  destruct (frame_shift_loop_spec M N HM y (Z.to_nat (y - 1)) ltac:(lia) (Z.to_nat (M * y)) 1 0) as (r & E & H0 & Hall & Hex);
    [lia.. | nia |].
  rewrite Z.mul_1_l in E. rewrite E. f_equal.
  assert (r <= N - Z.gcd M N) as Hup.
  { destruct Hex as [-> | (i & Hi & ->)]; [pose proof (Z.gcd_divide_r M N) as Hd; apply Z.divide_pos_le in Hd; lia |].
    destruct (mod_at_most M N HM HN (i * M)) as [| Hn]; [done |]. destruct Hn. apply Z.divide_mul_r, Z.gcd_divide_l. }
  destruct (decide (N = Z.gcd M N)) as [EN |]; [lia |].
  destruct (mod_attained M N HM HN) as (j & Hj & Ej); [done.. |]. rewrite Ey in Hj. pose proof (Hall j Hj). lia.
Qed.

(** C38. Where the product of the two sizes is below 2^32 (beyond it the product in
    LCM wraps and the result is wrong, see [frame_shift_wraps]),
    [CalculateFrameShift] stops, and what it computes, by running through the
    multiples of the host's size [M] below the least common multiple, is the user's
    size [N] less the greatest common divisor: the least number that covers, after
    any number of host buffers, the frames that do not fill a block. *)
Theorem CalculateFrameShift_spec M N : 0 < M -> 0 < N -> M * N < 2 ^ 32 ->
  exists k, CalculateFrameShift M N = Ret k /\ k = N - Z.gcd M N /\
    (forall j, (j * M) mod N <= k) /\ (exists j, 0 <= j /\ (j * M) mod N = k).
Proof.
  intros HM HN Hmn. exists (N - Z.gcd M N). split_and!; [by apply CalculateFrameShift_run | done | |].
  - intros j. destruct (mod_at_most M N HM HN (j * M)) as [| Hn]; [done |].
    destruct Hn. apply Z.divide_mul_r, Z.gcd_divide_l.
  - destruct (decide (N = Z.gcd M N)) as [E | Hne]; [exists 0; split; [done |]; rewrite Z.mul_0_l, Z.mod_0_l; lia |].
    destruct (mod_attained M N HM HN Hmn Hne) as (j & Hj & E). exists j. split; [lia | done].
Qed.

Example CalculateFrameShift_spec_witness : exists k, CalculateFrameShift 441 1024 = Ret k /\ k = 1024 - Z.gcd 441 1024 /\
    (forall j, (j * 441) mod 1024 <= k) /\ (exists j, 0 <= j /\ (j * 441) mod 1024 = k).
Proof. apply (CalculateFrameShift_spec 441 1024); lia. Defined.

(** Beyond that the product wraps, and no latency is computed. *)
Example frame_shift_wraps : CalculateFrameShift 65536 65537 = Ret 0 /\ 65537 - Z.gcd 65536 65537 = 65536.
Proof. split; vm_compute; reflexivity. Qed.
