(* ===== verification/PaProcessFrames.v ===== *)
(** Frames in the buffers of PortAudio's processor (src/WIN32/src/common/pa_process.c):
    what the samples of the host's channels and of the temporary buffers are, and
    what the converting loops do to them.

    A frame is the list of its samples, one for each channel; a sample is the list
    of its bytes.  Slot [idx c j] of a temporary buffer holds channel [c] of frame
    [j], in either layout. *)

From S2P Require Import Prelude PaConverters PaProcess.

Notation frame := (list (list Z)).

Lemma put_pick {A} b (p : A * A) : put b (pick b p) p = p.
Proof. by destruct b, p. Qed.

Lemma pick_put {A} b (v : A) p : pick b (put b v p) = v.
Proof. by destruct b. Qed.

(** * Loops over the channels *)

Lemma for_each_seqZ {S} (st : Z -> S) (f : Z -> Prelude.st S unit) n : 0 <= n ->
  (forall i, 0 <= i < n -> f i (st i) = Ret (tt, st (i + 1))) -> for_each (seqZ 0 n) f (st 0) = Ret (tt, st n).
Proof.
  intros Hn Hf. assert (forall k i, 0 <= i -> i + Z.of_nat k = n -> for_each (seqZ i (Z.of_nat k)) f (st i) = Ret (tt, st n)) as H.
  { induction k as [| k IH]; intros i Hi Hk.
    - by replace i with n by lia.
    - rewrite seqZ_cons by lia. replace (Z.pred (Z.of_nat (Datatypes.S k))) with (Z.of_nat k) by lia. cbn [for_each].
      erewrite run_bind by (apply Hf; lia). apply IH; lia. }
  specialize (H (Z.to_nat n) 0). rewrite Z2Nat.id in H by lia. apply H; lia.
Qed.

(** The elements of a list replaced in order. *)
Lemma insert_prefix {A} (f : Z -> A) (l : list A) i : 0 <= i < zlen l ->
  <[Z.to_nat i := f i]> ((f <$> seqZ 0 i) ++ drop (Z.to_nat i) l) = (f <$> seqZ 0 (i + 1)) ++ drop (Z.to_nat (i + 1)) l.
Proof.
  intros Hi. rewrite insert_app_r_alt by (rewrite length_fmap, length_seqZ; lia).
  rewrite length_fmap, length_seqZ, Nat.sub_diag. replace (Z.to_nat (i + 1)) with (S (Z.to_nat i)) by lia.
  destruct (lookup_lt_is_Some_2 l (Z.to_nat i)) as [d Hd]; [unfold zlen in Hi; lia |].
  rewrite (drop_S _ d) by done. cbn [insert list_insert]. rewrite (seqZ_app 0 i 1), fmap_app, <- app_assoc by lia.
  by rewrite Z.add_0_l.
Qed.

Lemma zlen_prefix {A} (f : Z -> A) (l : list A) i : 0 <= i <= zlen l -> zlen ((f <$> seqZ 0 i) ++ drop (Z.to_nat i) l) = zlen l.
Proof. intros. unfold zlen in *. rewrite length_app, length_fmap, length_seqZ, length_drop. lia. Qed.

(** * Samples and frames in memory *)

(** What a load would return; an empty list outside the memory. *)
Definition peek (m : memory) (p : ptr) (n : Z) : list Z :=
  match p with
  | NULL => []
  | Ptr b off => match m !! b with Some l => if decide (0 <= off) then slice off n l else [] | None => [] end
  end.

Lemma peek_Ptr m b off n l : m !! b = Some l -> 0 <= off -> peek m (Ptr b off) n = slice off n l.
Proof. intros E H. unfold peek. by rewrite E, decide_True. Qed.

Lemma peek_insert_ne m b l b' off n : b <> b' -> peek (<[b := l]> m) (Ptr b' off) n = peek m (Ptr b' off) n.
Proof. intros. unfold peek. by rewrite lookup_insert_ne. Qed.

(** A sample that is there whole can be loaded. *)
Lemma peek_load m p n : 0 < n -> zlen (peek m p n) = n -> load m p n = Ret (peek m p n).
Proof.
  destruct p as [| b off]; cbn; [intros; change (zlen []) with 0 in *; lia |].
  intros Hn Hl. destruct (m !! b) as [l |] eqn:E; [| change (zlen []) with 0 in *; lia].
  destruct (decide (0 <= off)); [| change (zlen []) with 0 in *; lia]. cbn.
  apply memcpy_from_Ret; [done | lia |]. revert Hl. unfold slice, zlen. rewrite length_take, length_drop. lia.
Qed.

(** Channel [c] of frame [k] from descriptors with samples of [b] bytes. *)
Definition host_sample (m : memory) (b : Z) (d : chan) (k : Z) : list Z :=
  peek m (padd (data d) (k * (stride d * b))) b.
Definition host_frame (m : memory) (b : Z) (ds : list chan) (k : Z) : frame :=
  (fun d => host_sample m b d k) <$> ds.
Definition host_frames (m : memory) (b : Z) (ds : list chan) (n : Z) : list frame :=
  host_frame m b ds <$> seqZ 0 n.

(** [n] frames are there, outside the block [tb], and the pointers can move past
    them without a wrap. *)
Definition chan_ok (m : memory) (b tb n : Z) (d : chan) : Prop :=
  exists blk off l, data d = Ptr blk off /\ blk <> tb /\ m !! blk = Some l /\ 0 <= off /\
    in_bounds off (stride d * b) b (Z.to_nat n) (zlen l) /\ 0 <= n * stride d * b < 2 ^ 32.
Definition chans_ok (m : memory) (b tb n : Z) (ds : list chan) : Prop := Forall (chan_ok m b tb n) ds.

Lemma chan_ok_le m b tb n n' d : 0 <= n' <= n -> chan_ok m b tb n d -> chan_ok m b tb n' d.
Proof.
  intros Hn (blk & off & l & E & Hne & Em & Hoff & Hin & Hw).
  assert (0 <= n' * stride d * b < 2 ^ 32) as Hw'.
  { rewrite <- Z.mul_assoc in Hw |- *. set (q := stride d * b) in *. destruct (decide (n' = 0)) as [-> |]; [lia |].
    assert (0 <= q) by nia. split; nia. }
  exists blk, off, l. split_and!; try done; try lia. intros k Hk. apply Hin. lia.
Qed.

Lemma chan_ok_advanced m b tb n k d : 0 <= n -> 0 <= k -> chan_ok m b tb (n + k) d ->
  chan_ok m b tb k (advanced n b d) /\ forall j, host_sample m b (advanced n b d) j = host_sample m b d (n + j).
Proof.
  intros Hn Hk Hok. pose proof (chan_ok_le m b tb (n + k) n d ltac:(lia) Hok) as (? & ? & ? & E' & _ & _ & _ & _ & Hw).
  pose proof Hok as (blk & off & l & E & Hne & Em & Hoff & Hin & Hw'). unfold host_sample, advanced.
  rewrite E, wrap_u_small by lia. cbn [padd data stride]. split.
  - apply (chan_ok_le m b tb (n + k) k d) in Hok as (? & ? & ? & _ & _ & _ & _ & _ & Hk'); [| lia].
    exists blk, (off + n * stride d * b), l. cbn [data stride]. split_and!; try done; try lia.
    intros i Hi. pose proof (Hin (n + i) ltac:(lia)) as Hni.
    by replace (off + n * stride d * b + i * (stride d * b)) with (off + (n + i) * (stride d * b)) by ring.
  - intros j. cbn [padd]. do 2 f_equal. ring.
Qed.

Lemma chans_ok_le m b tb n n' ds : 0 <= n' <= n -> chans_ok m b tb n ds -> chans_ok m b tb n' ds.
Proof. intros Hn H. eapply Forall_impl; [| exact H]. intros d. by apply chan_ok_le. Qed.

Lemma chans_ok_advanced m b tb n k ds : 0 <= n -> 0 <= k -> chans_ok m b tb (n + k) ds ->
  chans_ok m b tb k (advanced n b <$> ds).
Proof.
  intros Hn Hk H. apply Forall_fmap. eapply Forall_impl; [| exact H]. intros d Hd. by apply (chan_ok_advanced m b tb n k d).
Qed.

Lemma chans_ok_insert m b tb l n ds : chans_ok m b tb n ds -> chans_ok (<[tb := l]> m) b tb n ds.
Proof.
  intros H. eapply Forall_impl; [| exact H]. intros d (blk & off & l0 & ? & ? & ? & ?).
  exists blk, off, l0. by rewrite lookup_insert_ne.
Qed.

Lemma host_frames_insert m b tb l n ds : chans_ok m b tb n ds -> host_frames (<[tb := l]> m) b ds n = host_frames m b ds n.
Proof.
  intros H. unfold host_frames. apply list_fmap_ext. intros i j _. unfold host_frame.
  apply list_fmap_ext. intros i' d Hd. pose proof (Forall_lookup_1 _ _ _ _ H Hd) as (blk & off & l0 & E & Hne & _).
  unfold host_sample. rewrite E. cbn [padd]. by apply peek_insert_ne.
Qed.

Lemma host_frames_split m b tb n k ds : 0 <= n -> 0 <= k -> chans_ok m b tb (n + k) ds ->
  host_frames m b ds (n + k) = host_frames m b ds n ++ host_frames m b (advanced n b <$> ds) k.
Proof.
  intros Hn Hk H. unfold host_frames. rewrite seqZ_app, fmap_app, Z.add_0_l by lia. f_equal.
  replace (seqZ n k) with (Z.add n <$> seqZ 0 k) by (rewrite fmap_add_seqZ; f_equal; lia).
  rewrite <- list_fmap_compose. apply list_fmap_ext. intros i j _. unfold host_frame, compose.
  rewrite <- list_fmap_compose. apply list_fmap_ext. intros i' d Hd. unfold compose.
  pose proof (Forall_lookup_1 _ _ _ _ H Hd). symmetry. by apply (chan_ok_advanced m b tb n k d).
Qed.

(** Frames as the callback finds them in a buffer it is given. *)
Definition user_sample (m : memory) (nch b : Z) (ui : user_buffer) (c j : Z) : list Z :=
  match ui with
  | UNone => []
  | UInterleaved p => peek m (padd p (b * (j * nch + c))) b
  | UNonInterleaved ps => match ps !! Z.to_nat c with Some p => peek m (padd p (b * j)) b | None => [] end
  end.
Definition user_frame (m : memory) (nch b : Z) (ui : user_buffer) (j : Z) : frame :=
  (fun c => user_sample m nch b ui c j) <$> seqZ 0 nch.
Definition user_frames (m : memory) (nch b : Z) (ui : user_buffer) (n : Z) : list frame :=
  user_frame m nch b ui <$> seqZ 0 n.

(** Every sample is there. *)
Definition whole_frames (nch b : Z) (fs : list frame) : Prop :=
  Forall (fun f => zlen f = nch /\ Forall (fun v => zlen v = b) f) fs.

(** * The temporary buffers *)

Section layout.
Context (interleaved : bool) (nch N b : Z).
Context (Hnch : 0 < nch) (HN : 0 < N) (Hb : 0 < b).
Implicit Types (l : list Z) (vs : list (list Z)).

Definition idx (c j : Z) : Z := if interleaved then j * nch + c else c * N + j.
Definition slot (l : list Z) (c j : Z) : list Z := slice (b * idx c j) b l.
Definition temp_frame (l : list Z) (j : Z) : frame := (fun c => slot l c j) <$> seqZ 0 nch.
Definition temp_frames (l : list Z) (from n : Z) : list frame := temp_frame l <$> seqZ from n.

(** The distance, in slots, from a frame to the next. *)
Definition istride : Z := if interleaved then nch else 1.

Lemma idx_add c j k : idx c (j + k) = idx c j + k * istride.
Proof. unfold idx, istride. destruct interleaved; lia. Qed.

Lemma idx_range c j : 0 <= c < nch -> 0 <= j < N -> 0 <= idx c j < N * nch.
Proof. unfold idx. destruct interleaved; nia. Qed.

Lemma idx_inj c j c' j' : 0 <= c < nch -> 0 <= c' < nch -> 0 <= j < N -> 0 <= j' < N ->
  idx c j = idx c' j' -> c = c' /\ j = j'.
Proof.
  unfold idx. intros Hc Hc' Hj Hj' E. destruct interleaved.
  - assert (j = j') by (destruct (Z.lt_trichotomy j j') as [| [|]]; nia). subst. lia.
  - assert (c = c') by (destruct (Z.lt_trichotomy c c') as [| [|]]; nia). subst. lia.
Qed.

Lemma zlen_slot l c j : zlen l = b * (N * nch) -> 0 <= c < nch -> 0 <= j < N -> zlen (slot l c j) = b.
Proof. intros Hl Hc Hj. pose proof (idx_range c j Hc Hj). apply zlen_slice; nia. Qed.

(** The samples [vs] at consecutive frames of channel [c]. *)
Lemma slots_in_bounds l c a n : zlen l = b * (N * nch) -> 0 <= c < nch -> 0 <= a -> a + Z.of_nat n <= N ->
  in_bounds (b * idx c a) (istride * b) b n (zlen l).
Proof.
  intros Hl Hc Ha Hn k Hk. pose proof (idx_range c (a + k) Hc ltac:(lia)) as H. rewrite idx_add in H. nia.
Qed.

Lemma slot_pokes_same l c a vs k v : zlen l = b * (N * nch) -> 0 <= c < nch -> 0 <= a -> a + zlen vs <= N ->
  Forall (fun v => zlen v = b) vs -> vs !! Z.to_nat k = Some v -> 0 <= k ->
  slot (pokes (b * idx c a) (istride * b) vs l) c (a + k) = v.
Proof.
  intros Hl Hc Ha Hn Hv Ev Hk. unfold slot. rewrite idx_add.
  replace (b * (idx c a + k * istride)) with (b * idx c a + Z.of_nat (Z.to_nat k) * (istride * b)) by (rewrite Z2Nat.id by lia; lia).
  apply slice_pokes_same; [done | | | done].
  - apply slots_in_bounds; unfold zlen in *; (done || lia).
  - unfold istride. destruct interleaved; nia.
Qed.

Lemma slot_pokes_other l c a vs c' j : zlen l = b * (N * nch) -> 0 <= c < nch -> 0 <= a -> a + zlen vs <= N ->
  Forall (fun v => zlen v = b) vs -> 0 <= c' < nch -> 0 <= j < N -> ~ (c' = c /\ a <= j < a + zlen vs) ->
  slot (pokes (b * idx c a) (istride * b) vs l) c' j = slot l c' j.
Proof.
  intros Hl Hc Ha Hn Hv Hc' Hj Hne. unfold slot.
  pose proof (idx_range c' j Hc' Hj) as Hr.
  apply (slice_pokes_other _ _ _ b); [done | apply slots_in_bounds; unfold zlen in *; (done || lia) | nia |].
  intros k Hk. assert (idx c' j <> idx c (a + k)) as Hi.
  { intros E. apply idx_inj in E; [| lia..]. destruct E as [-> ->]. apply Hne. lia. }
  rewrite idx_add in Hi. set (q := idx c' j) in *. set (p := idx c a + k * istride) in *.
  replace (b * idx c a + k * (istride * b)) with (b * p) by (unfold p; lia).
  destruct (Z.lt_trichotomy q p) as [| [|]]; nia.
Qed.

Lemma zlen_temp_frames l a n : 0 <= n -> zlen (temp_frames l a n) = n.
Proof. intros. unfold temp_frames, zlen. rewrite length_fmap, length_seqZ. lia. Qed.

Lemma temp_frames_ext l l' a n :
  (forall c j, 0 <= c < nch -> a <= j < a + n -> slot l c j = slot l' c j) ->
  temp_frames l a n = temp_frames l' a n.
Proof.
  intros H. unfold temp_frames. apply list_fmap_ext. intros i j [-> Hi]%lookup_seqZ.
  unfold temp_frame. apply list_fmap_ext. intros ? c [-> Hc]%lookup_seqZ. apply H; lia.
Qed.

Lemma temp_frames_app l a n k : 0 <= n -> 0 <= k -> temp_frames l a (n + k) = temp_frames l a n ++ temp_frames l (a + n) k.
Proof. intros. unfold temp_frames. by rewrite <- fmap_app, <- seqZ_app by lia. Qed.

Lemma whole_temp_frames l a n : zlen l = b * (N * nch) -> 0 <= a -> 0 <= n -> a + n <= N ->
  whole_frames nch b (temp_frames l a n).
Proof.
  intros Hl Ha Hn Han. unfold temp_frames. apply Forall_fmap, Forall_lookup. intros i j [-> Hi]%lookup_seqZ. split.
  - unfold temp_frame, zlen. rewrite length_fmap, length_seqZ. lia.
  - unfold temp_frame. apply Forall_fmap, Forall_lookup. intros ch c [-> Hch]%lookup_seqZ. cbn. apply zlen_slot; (done || lia).
Qed.

(** What conversion has done to the buffer when frames [a], ..., [a + n - 1] of the
    first [i] channels are through; [src] are the samples converted. *)
Definition converted (R : list Z -> list Z -> Prop) (src : Z -> Z -> list Z) l l' (a n i : Z) : Prop :=
  zlen l' = zlen l /\
  forall ch j, 0 <= ch < nch -> 0 <= j < N ->
    if decide (ch < i /\ a <= j < a + n) then R (src ch (j - a)) (slot l' ch j) else slot l' ch j = slot l ch j.

Lemma converted_0 R src l a n : converted R src l l a n 0.
Proof. split; [done |]. intros. by rewrite decide_False by lia. Qed.

Lemma converted_step R src l l' a n i vs :
  zlen l = b * (N * nch) -> 0 <= i < nch -> 0 <= a -> 0 <= n -> a + n <= N ->
  zlen vs = n -> Forall (fun v => zlen v = b) vs -> (forall k v, vs !! k = Some v -> R (src i (Z.of_nat k)) v) ->
  converted R src l l' a n i -> converted R src l (pokes (b * idx i a) (istride * b) vs l') a n (i + 1).
Proof.
  intros Hl Hi Ha Hn Han Hvn Hv HR [Hl' Hs]. assert (zlen l' = b * (N * nch)) as Hll by lia. split.
  { rewrite <- Hl'. apply (zlen_pokes _ _ _ b); [done |]. apply slots_in_bounds; unfold zlen in *; (done || lia). }
  intros ch j Hch Hj. destruct (decide (ch = i /\ a <= j < a + n)) as [[-> Hj'] | Hne].
  - rewrite decide_True by lia.
    destruct (lookup_lt_is_Some_2 vs (Z.to_nat (j - a))) as [v Ev]; [unfold zlen in Hvn; lia |].
    assert (slot (pokes (b * idx i a) (istride * b) vs l') i j = v) as ->.
    { replace j with (a + (j - a)) by lia. apply slot_pokes_same; (done || lia). }
    rewrite <- (Z2Nat.id (j - a)) by lia. by apply HR.
  - rewrite slot_pokes_other by (rewrite ?Hvn; (done || lia)).
    pose proof (Hs ch j Hch Hj) as H. destruct (decide (ch < i + 1 /\ _)), (decide (ch < i /\ _)); (done || lia).
Qed.

(** All channels done: the frames before [a] are as they were, and [n] new ones
    follow. *)
Lemma converted_all R src l l' a n : 0 <= a -> 0 <= n -> a + n <= N -> converted R src l l' a n nch ->
  temp_frames l' 0 a = temp_frames l 0 a /\
  Forall2 (Forall2 R) ((fun k => (fun ch => src ch k) <$> seqZ 0 nch) <$> seqZ 0 n) (temp_frames l' a n).
Proof.
  intros Ha Hn Han [Hl Hs]. split.
  - apply temp_frames_ext. intros ch j Hch Hj. pose proof (Hs ch j ltac:(lia) ltac:(lia)) as H.
    by rewrite decide_False in H by lia.
  - apply Forall2_same_length_lookup_2; [unfold temp_frames; by rewrite !length_fmap, !length_seqZ |].
    intros i x y Hx Hy. unfold temp_frames in Hy.
    apply list_lookup_fmap_Some in Hx as (j & -> & [-> Hj]%lookup_seqZ).
    apply list_lookup_fmap_Some in Hy as (j' & -> & [-> Hj']%lookup_seqZ).
    apply Forall2_same_length_lookup_2; [unfold temp_frame; by rewrite !length_fmap, !length_seqZ |].
    intros ch x y Hx Hy. unfold temp_frame in Hy.
    apply list_lookup_fmap_Some in Hx as (c & -> & [-> Hc]%lookup_seqZ).
    apply list_lookup_fmap_Some in Hy as (c' & -> & [-> Hc']%lookup_seqZ).
    pose proof (Hs (0 + Z.of_nat ch) (a + Z.of_nat i) ltac:(lia) ltac:(lia)) as H. rewrite decide_True in H by lia.
    by replace (0 + Z.of_nat i) with (a + Z.of_nat i - a) by lia.
Qed.

(** Frames beyond the new ones. *)
Lemma converted_later R src l l' a n k : 0 <= a -> 0 <= n -> 0 <= k -> a + n + k <= N -> converted R src l l' a n nch ->
  temp_frames l' (a + n) k = temp_frames l (a + n) k.
Proof.
  intros Ha Hn Hk Hank [Hl Hs]. apply temp_frames_ext. intros ch j Hch Hj.
  pose proof (Hs ch j ltac:(lia) ltac:(lia)) as H. by rewrite decide_False in H by lia.
Qed.
End layout.

(** What a converter stores has the size of its samples. *)
Lemma converts_size conv sb db R : converts conv sb db R -> converts conv sb db (fun x v => R x v /\ zlen v = db).
Proof.
  intros H bd od ds bs os ss n m δ ls ld Hne Es Ed Hn Hs Hd.
  destruct (H bd od ds bs os ss n m δ ls ld Hne Es Ed Hn Hs Hd) as (vs & δ' & E & Hl & Hv & HR).
  exists vs, δ'. split_and!; try done. intros k v Hk. split; [by apply HR | by apply (Forall_lookup_1 _ _ _ _ Hv Hk)].
Qed.

(** * From the host into the temporary buffer *)

Section host_to_user.
Context {U : Type} (c : config U) (tb : Z) (R : list Z -> list Z -> Prop).
Implicit Types (s : processor U) (ds : list chan).

Notation nch := (inputChannelCount c).
Notation N := (framesPerUserBuffer c).
Notation hb := (bytesPerHostInputSample c).
Notation ub := (bytesPerUserInputSample c).

(** The input side of a processor that has been initialized. *)
Record input_config : Prop := {
  ic_frames : 0 < N;
  ic_channels : 0 < nch;
  ic_host_bytes : 0 < hb;
  ic_user_bytes : 0 < ub;
  ic_temp : tempInputBuffer c = Ptr tb 0;
  ic_size : ub * (N * nch) < 2 ^ 32;
  ic_converter : exists conv, inputConverter c = Some conv /\ converts conv hb ub R }.

Definition in_slot := slot (userInputIsInterleaved c) nch N ub.
Definition in_frames := temp_frames (userInputIsInterleaved c) nch N ub.

(** The descriptors when the first [i] of them have moved on. *)
Definition moved (n i : Z) ds : list chan :=
  (advanced n hb <$> take (Z.to_nat i) ds) ++ drop (Z.to_nat i) ds.

Lemma moved_0 n ds : moved n 0 ds = ds.
Proof. unfold moved. by rewrite take_0, drop_0. Qed.

Lemma moved_all n i ds : zlen ds <= i -> moved n i ds = advanced n hb <$> ds.
Proof. unfold moved, zlen. intros. by rewrite take_ge, drop_ge, app_nil_r by lia. Qed.

Lemma moved_lookup n i ds : 0 <= i -> moved n i ds !! Z.to_nat i = ds !! Z.to_nat i.
Proof.
  intros Hi. unfold moved. destruct (decide (i < zlen ds)) as [H | H]; unfold zlen in H.
  - rewrite lookup_app_r by (rewrite length_fmap, length_take; lia).
    rewrite length_fmap, length_take, lookup_drop. f_equal. lia.
  - rewrite !(proj2 (lookup_ge_None _ _)); [done | lia |].
    rewrite length_app, length_fmap, length_take, length_drop. lia.
Qed.

Lemma moved_insert n i ds d : 0 <= i -> ds !! Z.to_nat i = Some d ->
  <[Z.to_nat i := advanced n hb d]> (moved n i ds) = moved n (i + 1) ds.
Proof.
  intros Hi Hd. pose proof (lookup_lt_Some _ _ _ Hd) as Hlt. unfold moved.
  replace (Z.to_nat (i + 1)) with (S (Z.to_nat i)) by lia.
  rewrite insert_app_r_alt by (rewrite length_fmap, length_take; lia).
  rewrite length_fmap, length_take. replace (Z.to_nat i - _)%nat with 0%nat by lia.
  rewrite (drop_S _ d) by done. cbn. rewrite (take_S_r _ _ d) by done.
  by rewrite fmap_app, <- app_assoc.
Qed.

Lemma zlen_moved n i ds : zlen (moved n i ds) = zlen ds.
Proof. unfold moved, zlen. rewrite length_app, length_fmap, length_take, length_drop. lia. Qed.

Lemma chan_ok_insert m tb' l n d b : chan_ok m b tb' n d -> chan_ok (<[tb' := l]> m) b tb' n d.
Proof. intros (blk & off & l0 & ? & ? & ? & ?). exists blk, off, l0. by rewrite lookup_insert_ne. Qed.

Lemma host_sample_insert m tb' l n d b k : chan_ok m b tb' n d ->
  host_sample (<[tb' := l]> m) b d k = host_sample m b d k.
Proof.
  intros (blk & off & l0 & E & Hne & _). unfold host_sample. rewrite E. cbn [padd]. by apply peek_insert_ne.
Qed.

(** The samples of the host's channels. *)
Definition chan_samples (m : memory) ds (ch k : Z) : list Z :=
  match ds !! Z.to_nat ch with Some d => host_sample m hb d k | None => [] end.

Lemma host_frames_samples m ds n : zlen ds = nch ->
  host_frames m hb ds n = (fun k => (fun ch => chan_samples m ds ch k) <$> seqZ 0 nch) <$> seqZ 0 n.
Proof.
  intros Hds. unfold host_frames. apply list_fmap_ext. intros i k _. unfold host_frame, chan_samples.
  apply list_eq. intros ch. rewrite !list_lookup_fmap. destruct (decide (Z.of_nat ch < nch)) as [Hch |].
  - rewrite lookup_seqZ_lt by lia. cbn. rewrite Z.add_0_l, Nat2Z.id.
    destruct (lookup_lt_is_Some_2 ds ch) as [d Hd]; [unfold zlen in Hds; lia |]. by rewrite Hd.
  - rewrite lookup_seqZ_ge by lia. rewrite (proj2 (lookup_ge_None ds ch)) by (unfold zlen in Hds; lia). done.
Qed.

Definition in_converted (m : memory) ds := converted (userInputIsInterleaved c) nch N ub R (chan_samples m ds).

(** The place of the next frames: slot [idx 0 a], and the channels after it. *)
Definition in_place (p : ptr) (cs a : Z) : Prop :=
  p = Ptr tb (ub * idx (userInputIsInterleaved c) nch N 0 a) /\
  forall i, padd p (i * cs) = Ptr tb (ub * idx (userInputIsInterleaved c) nch N i a).

Lemma input_place_spec s : input_config -> cfg s = c -> 0 <= framesInTempInputBuffer s <= N ->
  exists p cs, input_place s = (p, istride (userInputIsInterleaved c) nch, cs) /\ in_place p cs (framesInTempInputBuffer s).
Proof.
  intros [HN Hnch _ Hub Ht Hsz _] Ec Ha. unfold input_place. rewrite Ec, Ht. set (a := framesInTempInputBuffer s) in *.
  assert (0 <= ub * nch * a < 2 ^ 32) as H1 by (split; [nia |]; apply (Z.le_lt_trans _ (ub * (N * nch))); [nia | done]).
  assert (0 <= ub * a < 2 ^ 32) as H2 by (split; [nia |]; apply (Z.le_lt_trans _ (ub * nch * a)); [nia | lia]).
  assert (0 <= N * ub < 2 ^ 32) as H3 by (split; [nia |]; apply (Z.le_lt_trans _ (ub * (N * nch))); [nia | done]).
  rewrite !wrap_u_small by done.
  unfold in_place, idx, istride. destruct (userInputIsInterleaved c); eexists _, _; (split; [reflexivity |]);
    cbn [padd]; (split; [| intros i]; f_equal; ring).
Qed.

(** One channel. *)
Lemma convert_channel s b l l' δ ds i n a p cs d : input_config -> cfg s = c ->
  zlen l = ub * (N * nch) -> 0 <= i < nch -> 0 <= a -> 0 <= n -> a + n <= N -> in_place p cs a ->
  pick b (hostInputChannels s) = ds -> zlen ds = nch -> chans_ok (mem s) hb tb n ds -> mem s !! tb = Some l ->
  ds !! Z.to_nat i = Some d -> in_converted (mem s) ds l l' a n i ->
  exists l2 δ2, (d ← in_chan (Some b) i;
      run_converter (inputConverter c) (padd p (i * cs)) (istride (userInputIsInterleaved c) nch) (data d) (stride d) n;;
      advance_in (Some b) i n)
    (set_mem (<[tb := l']> (mem s)) (set_dither δ (set_in_chans (put b (moved n i ds) (hostInputChannels s)) s))) =
    Ret (tt, set_mem (<[tb := l2]> (mem s)) (set_dither δ2 (set_in_chans (put b (moved n (i + 1) ds) (hostInputChannels s)) s))) /\
    in_converted (mem s) ds l l2 a n (i + 1).
Proof.
  intros Hc Ec Hl Hi Ha Hn Han [Ep Hp] Eds Hds Hok Em Hd Hcv.
  pose proof Hc as [HN Hnch Hhb Hub Ht Hsz (conv & Econv & Hconv)].
  assert (chan_ok (mem s) hb tb n d) as Hdok by (by eapply Forall_lookup_1).
  pose proof Hdok as (blk & off & lh & Ed & Hne & Eh & Hoff & Hin & Hw).
  destruct Hcv as [Hl' Hcv]. assert (zlen l' = ub * (N * nch)) as Hll by lia.
  destruct (Hconv tb (ub * idx (userInputIsInterleaved c) nch N i a) (istride (userInputIsInterleaved c) nch) blk off (stride d) n
      (<[tb := l']> (mem s)) δ lh l') as (vs & δ2 & Erun & Hvn & Hv & HR); try done.
  { by rewrite lookup_insert_ne. }
  { by rewrite lookup_insert_eq. }
  { apply slots_in_bounds; (done || lia). }
  exists (pokes (ub * idx (userInputIsInterleaved c) nch N i a) (istride (userInputIsInterleaved c) nch * ub) vs l'), δ2. split.
  - erewrite run_bind.
    2: { unfold in_chan. cbn. replace (pick b (put b (moved n i ds) (hostInputChannels s))) with (moved n i ds) by (by rewrite pick_put).
         rewrite moved_lookup, Hd by lia. reflexivity. }
    erewrite run_bind.
    2: { unfold run_converter. rewrite Econv, Hp, Ed. cbn [mem set_mem ditherGenerator set_dither]. rewrite Erun. reflexivity. }
    cbn [fst snd]. unfold advance_in.
    erewrite run_bind by reflexivity.
    erewrite run_bind.
    2: { unfold in_chan. cbn. replace (pick b (put b (moved n i ds) (hostInputChannels s))) with (moved n i ds) by (by rewrite pick_put).
         rewrite moved_lookup, Hd by lia. reflexivity. }
    unfold put_in_chan. cbn.
    replace (pick b (put b (moved n i ds) (hostInputChannels s))) with (moved n i ds) by (by rewrite pick_put).
    rewrite zlen_moved, Hds, (proj2 (Z.ltb_lt i nch)) by lia.
    rewrite Ec, moved_insert by (done || lia). rewrite insert_insert_eq. unfold set_mem, set_dither, set_in_chans. cbn.
    by destruct b.
  - apply converted_step; try done.
    intros k v Ev. unfold chan_samples, host_sample. rewrite Hd, Ed. cbn [padd].
    pose proof (lookup_lt_Some _ _ _ Ev) as Hk. unfold zlen in Hvn.
    destruct (Hin (Z.of_nat k) ltac:(lia)) as [H0 _]. rewrite (peek_Ptr _ _ _ _ lh) by done. by apply HR.
Qed.

Lemma convert_channels s b l ds n a p cs : input_config -> cfg s = c ->
  zlen l = ub * (N * nch) -> 0 <= a -> 0 <= n -> a + n <= N -> in_place p cs a ->
  pick b (hostInputChannels s) = ds -> zlen ds = nch -> chans_ok (mem s) hb tb n ds -> mem s !! tb = Some l ->
  forall k i l' δ, 0 <= i -> i + Z.of_nat k = nch -> in_converted (mem s) ds l l' a n i ->
  exists l2 δ2, for_each (seqZ i (Z.of_nat k)) (fun i =>
      d ← in_chan (Some b) i;
      run_converter (inputConverter c) (padd p (i * cs)) (istride (userInputIsInterleaved c) nch) (data d) (stride d) n;;
      advance_in (Some b) i n)
    (set_mem (<[tb := l']> (mem s)) (set_dither δ (set_in_chans (put b (moved n i ds) (hostInputChannels s)) s))) =
    Ret (tt, set_mem (<[tb := l2]> (mem s)) (set_dither δ2 (set_in_chans (put b (moved n nch ds) (hostInputChannels s)) s))) /\
    in_converted (mem s) ds l l2 a n nch.
Proof.
  intros Hc Ec Hl Ha Hn Han Hp Eds Hds Hok Em. induction k as [| k IH]; intros i l' δ Hi Hk Hcv.
  - assert (i = nch) as -> by lia. by exists l', δ.
  - rewrite seqZ_cons by lia. replace (Z.pred (Z.of_nat (S k))) with (Z.of_nat k) by lia. cbn [for_each].
    destruct (lookup_lt_is_Some_2 ds (Z.to_nat i)) as [d Hd]; [unfold zlen in Hds; lia |].
    destruct (convert_channel s b l l' δ ds i n a p cs d) as (l2 & δ2 & E & Hcv2); try done; [lia |].
    erewrite run_bind by exact E. apply (IH (Z.succ i) l2 δ2); [lia.. | done].
Qed.

(** [n] frames are appended to the [a] frames already there. *)
Lemma take_input_spec s b l ds n : input_config -> cfg s = c ->
  zlen l = ub * (N * nch) -> 0 <= framesInTempInputBuffer s -> 0 <= n -> framesInTempInputBuffer s + n <= N ->
  pick b (hostInputChannels s) = ds -> zlen ds = nch -> chans_ok (mem s) hb tb n ds -> mem s !! tb = Some l ->
  exists l' δ', take_input (Some b) n s =
      Ret (tt, set_mem (<[tb := l']> (mem s)) (set_dither δ'
                 (set_in_chans (put b (advanced n hb <$> ds) (hostInputChannels s)) s))) /\
    zlen l' = zlen l /\ in_frames l' 0 (framesInTempInputBuffer s) = in_frames l 0 (framesInTempInputBuffer s) /\
    Forall2 (Forall2 R) (host_frames (mem s) hb ds n) (in_frames l' (framesInTempInputBuffer s) n).
Proof.
  intros Hc Ec Hl Ha Hn Han Eds Hds Hok Em. set (a := framesInTempInputBuffer s) in *.
  destruct (input_place_spec s) as (p & cs & Ep & Hp); [done.. | lia |]. pose proof Hc as [HN Hnch _ _ _ _ _].
  destruct (convert_channels s b l ds n a p cs) with (k := Z.to_nat nch) (i := 0) (l' := l) (δ := ditherGenerator s)
    as (l' & δ' & E & Hcv); try done; [lia | apply converted_0 |].
  pose proof Hcv as [Hl' _].
  exists l', δ'. split_and!; [| done | |].
  - unfold take_input. erewrite run_bind by reflexivity. rewrite Ep. unfold convert_in.
    erewrite run_bind by reflexivity. rewrite Ec. rewrite Z2Nat.id in E by lia.
    rewrite moved_0, moved_all in E by lia. rewrite <- E. f_equal.
    rewrite insert_id by done. rewrite <- Eds, put_pick. by destruct s.
  - by eapply converted_all.
  - rewrite host_frames_samples by done. by eapply converted_all.
Qed.

(** The callback finds the temporary frames in the buffer it is given. *)
Lemma user_frames_temp_input m l : input_config -> m !! tb = Some l -> zlen l = ub * (N * nch) ->
  user_frames m nch ub (temp_input c) N = in_frames l 0 N.
Proof.
  intros [HN Hnch _ Hub Ht _ _] Em Hl. unfold user_frames, in_frames, temp_frames. apply list_fmap_ext.
  intros i j [-> Hj]%lookup_seqZ. unfold user_frame, temp_frame. apply list_fmap_ext. intros i' ch [-> Hch]%lookup_seqZ.
  unfold temp_input, slot, idx, user_sample. rewrite Ht. destruct (userInputIsInterleaved c).
  - cbn [padd]. rewrite (peek_Ptr _ _ _ _ l) by (done || nia). by rewrite Z.add_0_l.
  - unfold channel_ptrs. rewrite list_lookup_fmap, lookup_seqZ_lt by lia. cbn [fmap option_fmap option_map padd].
    rewrite (peek_Ptr _ _ _ _ l) by (done || nia). f_equal. rewrite Z2Nat.id by lia. ring.
Qed.
End host_to_user.

(** * From the temporary buffer to the host

    The host's output is one interleaved buffer, as the WASAPI binding passes it:
    [n] frames in the block [ob]. *)

Section user_to_host.
Context {U : Type} (c : config U) (tb : Z) (R : list Z -> list Z -> Prop).
Implicit Types (s : processor U).

Notation nch := (outputChannelCount c).
Notation N := (framesPerUserBuffer c).
Notation hb := (bytesPerHostOutputSample c).
Notation ub := (bytesPerUserOutputSample c).

Record output_config : Prop := {
  oc_frames : 0 < N;
  oc_channels : 0 < nch;
  oc_host_bytes : 0 < hb;
  oc_user_bytes : 0 < ub;
  oc_temp : tempOutputBuffer c = Ptr tb 0;
  oc_size : ub * (N * nch) < 2 ^ 32;
  oc_converter : exists conv, outputConverter c = Some conv /\ converts conv ub hb R }.

Definition out_slot := slot (userOutputIsInterleaved c) nch N ub.
Definition out_frames := temp_frames (userOutputIsInterleaved c) nch N ub.

(** The descriptors at frame [w] of the host's buffer, and the frames in it. *)
Definition out_chans (ob w : Z) : list chan := (fun i => mkChan (Ptr ob (hb * (w * nch + i))) nch) <$> seqZ 0 nch.
Definition written (n : Z) := temp_frames true nch n hb.

Definition out_place (p : ptr) (cs a : Z) : Prop :=
  p = Ptr tb (ub * idx (userOutputIsInterleaved c) nch N 0 a) /\
  forall i, padd p (i * cs) = Ptr tb (ub * idx (userOutputIsInterleaved c) nch N i a).

Lemma output_place_spec s : output_config -> cfg s = c -> 0 <= framesInTempOutputBuffer s <= N ->
  exists p cs, output_place s = (p, istride (userOutputIsInterleaved c) nch, cs) /\
    out_place p cs (N - framesInTempOutputBuffer s).
Proof.
  intros [HN Hnch _ Hub Ht Hsz _] Ec Ha. unfold output_place. rewrite Ec, Ht.
  set (a := N - framesInTempOutputBuffer s) in *. assert (0 <= a <= N) as Han by (unfold a; lia). clearbody a.
  assert (0 <= ub * nch * a < 2 ^ 32) as H1 by (split; [nia |]; apply (Z.le_lt_trans _ (ub * (N * nch))); [nia | done]).
  assert (0 <= ub * a < 2 ^ 32) as H2 by (split; [nia |]; apply (Z.le_lt_trans _ (ub * nch * a)); [nia | lia]).
  assert (0 <= N * ub < 2 ^ 32) as H3 by (split; [nia |]; apply (Z.le_lt_trans _ (ub * (N * nch))); [nia | done]).
  rewrite !wrap_u_small by done.
  unfold out_place, idx, istride. destruct (userOutputIsInterleaved c); eexists _, _; (split; [reflexivity |]);
    cbn [padd]; (split; [| intros i]; f_equal; ring).
Qed.

(** The descriptors when the first [i] have moved on by [k] frames. *)
Definition out_moved (ob w k i : Z) : list chan :=
  (fun ch => mkChan (Ptr ob (hb * ((if decide (ch < i) then w + k else w) * nch + ch))) nch) <$> seqZ 0 nch.

Lemma out_moved_0 ob w k : out_moved ob w k 0 = out_chans ob w.
Proof.
  unfold out_moved, out_chans. apply list_fmap_ext. intros i ch [-> Hch]%lookup_seqZ. by rewrite decide_False by lia.
Qed.

Lemma out_moved_all ob w k : out_moved ob w k nch = out_chans ob (w + k).
Proof.
  unfold out_moved, out_chans. apply list_fmap_ext. intros i ch [-> Hch]%lookup_seqZ. by rewrite decide_True by lia.
Qed.

Lemma out_moved_lookup ob w k i j : 0 <= j < nch ->
  out_moved ob w k i !! Z.to_nat j = Some (mkChan (Ptr ob (hb * ((if decide (j < i) then w + k else w) * nch + j))) nch).
Proof.
  intros Hj. unfold out_moved. rewrite list_lookup_fmap, lookup_seqZ_lt by lia. cbn.
  by replace (0 + Z.of_nat (Z.to_nat j)) with j by lia.
Qed.

Lemma zlen_out_moved ob w k i : 0 <= nch -> zlen (out_moved ob w k i) = nch.
Proof. intros. unfold out_moved, zlen. rewrite length_fmap, length_seqZ. lia. Qed.

Lemma out_moved_insert ob w k i : 0 <= i < nch ->
  <[Z.to_nat i := mkChan (Ptr ob (hb * ((w + k) * nch + i))) nch]> (out_moved ob w k i) = out_moved ob w k (i + 1).
Proof.
  intros Hi. apply list_eq. intros j.
  destruct (decide (Z.of_nat j < nch)) as [Hj |].
  2: { rewrite !(proj2 (lookup_ge_None _ _)); [done | |]; rewrite ?length_insert; unfold out_moved;
       rewrite length_fmap, length_seqZ; lia. }
  rewrite <- (Nat2Z.id j). rewrite out_moved_lookup by lia.
  destruct (decide (Z.of_nat j = i)) as [Ej | Hne].
  - subst i. rewrite decide_True by lia. rewrite list_lookup_insert_eq; [done |].
    unfold out_moved. rewrite length_fmap, length_seqZ. lia.
  - rewrite list_lookup_insert_ne by lia. rewrite out_moved_lookup by lia.
    destruct (decide (Z.of_nat j < i)), (decide (Z.of_nat j < i + 1)); (done || lia).
Qed.

(** The samples in the temporary buffer from frame [a]. *)
Definition temp_samples (lt : list Z) (a ch k : Z) : list Z := out_slot lt ch (a + k).

Lemma temp_samples_frames lt a n : 
  (fun k => (fun ch => temp_samples lt a ch k) <$> seqZ 0 nch) <$> seqZ 0 n = out_frames lt a n.
Proof.
  unfold out_frames, temp_frames, temp_samples. replace (seqZ a n) with (Z.add a <$> seqZ 0 n) by (rewrite fmap_add_seqZ; f_equal; lia).
  by rewrite <- list_fmap_compose.
Qed.

(** A buffer of [n] frames of the host. *)
Record host_output (m : memory) (ob n : Z) (lo : list Z) : Prop := {
  ho_block : m !! ob = Some lo;
  ho_size : zlen lo = hb * (n * nch);
  ho_other : ob <> tb;
  ho_small : hb * (n * nch) < 2 ^ 32 }.

Lemma give_channel s b lt lo l' δ ob n w k i a p cs : output_config -> cfg s = c ->
  mem s !! tb = Some lt -> zlen lt = ub * (N * nch) -> host_output (mem s) ob n lo ->
  0 <= i < nch -> 0 <= a -> 0 <= k -> a + k <= N -> 0 <= w -> w + k <= n -> out_place p cs a ->
  converted true nch n hb R (temp_samples lt a) lo l' w k i ->
  exists l2 δ2, (d ← out_chan (Some b) i;
      run_converter (outputConverter c) (data d) (stride d) (padd p (i * cs)) (istride (userOutputIsInterleaved c) nch) k;;
      advance_out (Some b) i k)
    (set_mem (<[ob := l']> (mem s)) (set_dither δ (set_out_chans (put b (out_moved ob w k i) (hostOutputChannels s)) s))) =
    Ret (tt, set_mem (<[ob := l2]> (mem s)) (set_dither δ2 (set_out_chans (put b (out_moved ob w k (i + 1)) (hostOutputChannels s)) s))) /\
    converted true nch n hb R (temp_samples lt a) lo l2 w k (i + 1).
Proof.
  intros Hc Ec Elt Hlt [Elo Hlo Hob Hsm] Hi Ha Hk Hak Hw Hwk [Ep Hp] Hcv.
  pose proof Hc as [HN Hnch Hhb Hub Ht Hsz (conv & Econv & Hconv)].
  assert (zlen l' = hb * (n * nch)) as Hl' by (destruct Hcv; lia).
  assert (k = 0 \/ 0 < n) as Hkn by lia.
  assert (in_bounds (hb * (w * nch + i)) (nch * hb) hb (Z.to_nat k) (zlen l')) as Hdst.
  { intros j Hj. rewrite Hl'. split; [nia |].
    replace (hb * (w * nch + i) + j * (nch * hb) + hb) with (hb * ((w + j) * nch + i + 1)) by ring.
    apply Z.mul_le_mono_nonneg_l; [lia |]. nia. }
  destruct (Hconv ob (hb * (w * nch + i)) nch tb (ub * idx (userOutputIsInterleaved c) nch N i a)
      (istride (userOutputIsInterleaved c) nch) k (<[ob := l']> (mem s)) δ lt l') as (vs & δ2 & Erun & Hvn & Hv & HR); try done.
  { by rewrite lookup_insert_ne. }
  { by rewrite lookup_insert_eq. }
  { apply slots_in_bounds; (done || lia). }
  exists (pokes (hb * (w * nch + i)) (nch * hb) vs l'), δ2. split.
  - erewrite run_bind.
    2: { unfold PaProcess.out_chan. cbn. rewrite pick_put, out_moved_lookup by lia. rewrite decide_False by lia. reflexivity. }
    cbn [data stride].
    erewrite run_bind.
    2: { unfold run_converter. rewrite Econv, Hp. cbn [mem set_mem ditherGenerator set_dither]. rewrite Erun. reflexivity. }
    cbn [fst snd]. unfold advance_out.
    erewrite run_bind by reflexivity.
    erewrite run_bind.
    2: { unfold PaProcess.out_chan. cbn. rewrite pick_put, out_moved_lookup by lia. rewrite decide_False by lia. reflexivity. }
    unfold put_out_chan. cbn. rewrite pick_put, zlen_out_moved, (proj2 (Z.ltb_lt i nch)) by lia.
    rewrite Ec. unfold advanced. cbn [data stride padd].
    assert (k * nch * hb <= hb * (n * nch)) as Hle by (replace (k * nch * hb) with (hb * (k * nch)) by ring; apply Z.mul_le_mono_nonneg_l; nia).
    rewrite wrap_u_small by (split; [nia | lia]).
    replace (hb * (w * nch + i) + k * nch * hb) with (hb * ((w + k) * nch + i)) by ring.
    rewrite out_moved_insert by lia. rewrite insert_insert_eq. unfold set_mem, set_dither, set_out_chans. cbn. by destruct b.
  - destruct (decide (k = 0)) as [-> | Hk0].
    { assert (vs = []) as -> by (by apply zlen_0_nil). cbn. destruct Hcv as [Hz Hs]. split; [done |].
      intros ch j Hch Hj. pose proof (Hs ch j Hch Hj) as H. rewrite decide_False in H by lia. by rewrite decide_False by lia. }
    apply (converted_step true nch n hb); try done; try lia.
    intros j v Ev. apply HR in Ev. unfold temp_samples, out_slot, slot. rewrite idx_add.
    by replace (ub * (idx (userOutputIsInterleaved c) nch N i a + Z.of_nat j * istride (userOutputIsInterleaved c) nch)) with
      (ub * idx (userOutputIsInterleaved c) nch N i a + Z.of_nat j * (istride (userOutputIsInterleaved c) nch * ub)) by ring.
Qed.

Lemma give_channels s b lt lo ob n w k a p cs : output_config -> cfg s = c ->
  mem s !! tb = Some lt -> zlen lt = ub * (N * nch) -> host_output (mem s) ob n lo ->
  0 <= a -> 0 <= k -> a + k <= N -> 0 <= w -> w + k <= n -> out_place p cs a ->
  forall r i l' δ, 0 <= i -> i + Z.of_nat r = nch -> converted true nch n hb R (temp_samples lt a) lo l' w k i ->
  exists l2 δ2, for_each (seqZ i (Z.of_nat r)) (fun i =>
      d ← out_chan (Some b) i;
      run_converter (outputConverter c) (data d) (stride d) (padd p (i * cs)) (istride (userOutputIsInterleaved c) nch) k;;
      advance_out (Some b) i k)
    (set_mem (<[ob := l']> (mem s)) (set_dither δ (set_out_chans (put b (out_moved ob w k i) (hostOutputChannels s)) s))) =
    Ret (tt, set_mem (<[ob := l2]> (mem s)) (set_dither δ2 (set_out_chans (put b (out_moved ob w k nch) (hostOutputChannels s)) s))) /\
    converted true nch n hb R (temp_samples lt a) lo l2 w k nch.
Proof.
  intros Hc Ec Elt Hlt Hho Ha Hk Hak Hw Hwk Hp. induction r as [| r IH]; intros i l' δ Hi Hr Hcv.
  - assert (i = nch) as -> by lia. by exists l', δ.
  - rewrite seqZ_cons by lia. replace (Z.pred (Z.of_nat (S r))) with (Z.of_nat r) by lia. cbn [for_each].
    destruct (give_channel s b lt lo l' δ ob n w k i a p cs) as (l2 & δ2 & E & Hcv2); try done; [lia |].
    erewrite run_bind by exact E. apply (IH (Z.succ i) l2 δ2); [lia.. | done].
Qed.

(** [k] frames of the temporary buffer follow the [w] frames written. *)
Lemma give_output_spec s b lt lo ob n w k : output_config -> cfg s = c ->
  mem s !! tb = Some lt -> zlen lt = ub * (N * nch) -> host_output (mem s) ob n lo ->
  0 <= k -> k <= framesInTempOutputBuffer s <= N -> 0 <= w -> w + k <= n ->
  pick b (hostOutputChannels s) = out_chans ob w ->
  let a := N - framesInTempOutputBuffer s in
  exists lo' δ', give_output (Some b) k s =
      Ret (tt, set_mem (<[ob := lo']> (mem s)) (set_dither δ' (set_out_chans (put b (out_chans ob (w + k)) (hostOutputChannels s)) s))) /\
    zlen lo' = zlen lo /\ written n lo' 0 w = written n lo 0 w /\
    Forall2 (Forall2 R) (out_frames lt a k) (written n lo' w k) /\
    (forall r, 0 <= r -> w + k + r <= n -> written n lo' (w + k) r = written n lo (w + k) r).
Proof.
  intros Hc Ec Elt Hlt Hho Hk Hkt Hw Hwk Ech a. pose proof Hc as [HN Hnch Hhb _ _ _ _].
  destruct (output_place_spec s) as (p & cs & Ep & Hp); [done.. | lia |]. fold a in Hp.
  destruct (give_channels s b lt lo ob n w k a p cs) with (r := Z.to_nat nch) (i := 0) (l' := lo) (δ := ditherGenerator s)
    as (lo' & δ' & E & Hcv); try done; [unfold a; lia.. | apply converted_0 |].
  exists lo', δ'. pose proof Hcv as [Hlen _]. split_and!; [| done | | |].
  - unfold give_output. erewrite run_bind by reflexivity. rewrite Ep. unfold convert_out.
    erewrite run_bind by reflexivity. rewrite Ec. rewrite Z2Nat.id in E by lia.
    rewrite out_moved_0, out_moved_all in E by lia. rewrite <- E. f_equal.
    rewrite insert_id by apply Hho. rewrite <- Ech, put_pick. by destruct s.
  - unfold written. eapply converted_all; [.. | exact Hcv]; done.
  - rewrite <- temp_samples_frames. unfold written. eapply converted_all; [.. | exact Hcv]; done.
  - intros r Hr Hwr. unfold written. eapply converted_later; [.. | exact Hcv]; done.
Qed.
End user_to_host.
