(* ===== verification/PaProcessInput.v ===== *)
(** Recording through PortAudio's buffer processor (src/WIN32/src/common/pa_process.c):
    whatever the sizes of the buffers the host delivers, the callback is given every
    frame once, in order, in blocks of the size it asked for. *)

From S2P Require Import Prelude PaConverters PaProcess PaProcessFrames.

Lemma zlen_fmap {A B} (f : A -> B) (l : list A) : zlen (f <$> l) = zlen l.
Proof. unfold zlen. by rewrite length_fmap. Qed.

(** * The specification: one frame at a time

    Pending frames, the last result of the callback, its data.  A full block goes to
    the callback as long as it wants more; a block that comes later is dropped. *)
Section spec.
Context {U : Type} (N : Z) (cb : U -> list frame -> Z * U).

Definition feed : Type := list frame * Z * U.

Definition push (q : feed) (f : frame) : feed :=
  let '(pend, res, u) := q in
  let pend := pend ++ [f] in
  if zlen pend =? N then
    if res =? paContinue then ([], (cb u pend).1, (cb u pend).2) else ([], res, u)
  else (pend, res, u).

Definition pushes (fs : list frame) (q : feed) : feed := fold_left push fs q.

Lemma pushes_app fs1 fs2 q : pushes (fs1 ++ fs2) q = pushes fs2 (pushes fs1 q).
Proof. apply fold_left_app. Qed.

Lemma pushes_short fs pend res u : zlen pend + zlen fs < N -> pushes fs (pend, res, u) = (pend ++ fs, res, u).
Proof.
  revert pend. induction fs as [| f fs IH]; intros pend H; [by rewrite app_nil_r |].
  rewrite zlen_cons in H. pose proof (zlen_nonneg fs). unfold pushes in *. cbn [fold_left push].
  rewrite (proj2 (Z.eqb_neq _ _)) by (rewrite zlen_app, zlen_cons, zlen_nil; lia).
  rewrite IH by (rewrite zlen_app, zlen_cons, zlen_nil; lia). by rewrite <- app_assoc.
Qed.

Lemma pushes_full fs pend res u : zlen pend < N -> zlen pend + zlen fs = N ->
  pushes fs (pend, res, u) =
    if res =? paContinue then ([], (cb u (pend ++ fs)).1, (cb u (pend ++ fs)).2) else ([], res, u).
Proof.
  intros Hp H. destruct fs as [| f fs _] using rev_ind; [rewrite zlen_nil in H; lia |].
  rewrite zlen_app, zlen_cons, zlen_nil in H. rewrite pushes_app, pushes_short by lia.
  unfold pushes. cbn [fold_left push]. rewrite (proj2 (Z.eqb_eq _ _)) by (rewrite !zlen_app, zlen_cons, zlen_nil; lia).
  by rewrite app_assoc.
Qed.
End spec.

Definition layout_of (interleaved : bool) (ui : user_buffer) : Prop :=
  match ui with UNone => False | UInterleaved _ => interleaved = true | UNonInterleaved _ => interleaved = false end.

(** The callback looks at nothing but its input frames, in the layout it asked for,
    on data that satisfies [ok]. *)
Class InputCallback {U : Type} (callback : PaStreamCallback U) (interleaved : bool) (nch b N : Z) (ok : U -> Prop)
    (cb : U -> list frame -> Z * U) : Prop :=
  input_callback : forall ui t fl m u, ok u -> layout_of interleaved ui -> whole_frames nch b (user_frames m nch b ui N) ->
    callback ui UNone N t fl m u =
      Ret ((cb u (user_frames m nch b ui N)).1, m, (cb u (user_frames m nch b ui N)).2) /\
    ok (cb u (user_frames m nch b ui N)).2.

(** The frames in [n] interleaved frames of bytes. *)
Definition packet_frames (nch hb : Z) (bytes : list Z) (n : Z) : list frame :=
  (fun k => (fun ch => slice ((k * nch + ch) * hb) hb bytes) <$> seqZ 0 nch) <$> seqZ 0 n.
Definition packets_frames (nch hb : Z) (ps : list packet) : list frame :=
  concat ((fun p => packet_frames nch hb (p_bytes p) (p_frames p)) <$> ps).

(** A packet with the bytes of its frames, small enough for 32-bit counts. *)
Definition packet_ok (nch hb N : Z) (p : packet) : Prop :=
  0 < p_frames p /\ zlen (p_bytes p) = p_frames p * nch * hb /\ zlen (p_bytes p) < 2 ^ 32 /\ N + p_frames p < 2 ^ 32.

(** * AdaptingInputOnlyProcess *)

Section input.
Context {U : Type} (c : config U) (tb : Z) (R : list Z -> list Z -> Prop)
  (ok : U -> Prop) (cb : U -> list frame -> Z * U).
Implicit Types (s : processor U) (q : feed (U := U)).

Notation nch := (inputChannelCount c).
Notation N := (framesPerUserBuffer c).
Notation hb := (bytesPerHostInputSample c).
Notation ub := (bytesPerUserInputSample c).

Context (Hc : input_config c tb R) `{!InputCallback (streamCallback c) (userInputIsInterleaved c) nch ub N ok cb}.

(** The processor holds what the specification holds. *)
Record fed s q : Prop := {
  fed_cfg : cfg s = c;
  fed_temp : exists l, mem s !! tb = Some l /\ zlen l = ub * (N * nch) /\ in_frames c l 0 (zlen q.1.1) = q.1.1;
  fed_count : framesInTempInputBuffer s = zlen q.1.1;
  fed_room : zlen q.1.1 < N;
  fed_result : streamCallbackResult s = q.1.2;
  fed_user : userData s = q.2;
  fed_ok : ok q.2;
  fed_channels : zlen (hostInputChannels s).1 = nch /\ zlen (hostInputChannels s).2 = nch }.

(** What stays: the counts of the host's frames, and the memory but for the
    temporary buffer. *)
Definition same_host s s' : Prop :=
  hostInputFrameCount s' = hostInputFrameCount s /\ exists l, mem s' = <[tb := l]> (mem s).

(** A full buffer goes to the callback. *)
Lemma call_full s l : cfg s = c -> mem s !! tb = Some l -> zlen l = ub * (N * nch) -> ok (userData s) ->
  call_streamCallback (temp_input c) UNone N s =
    Ret (tt, set_result (cb (userData s) (in_frames c l 0 N)).1
               (set_mem (mem s) (set_user (cb (userData s) (in_frames c l 0 N)).2 s))) /\
  ok (cb (userData s) (in_frames c l 0 N)).2.
Proof.
  intros Ec Em Hl Hu. unfold call_streamCallback. rewrite Ec.
  pose proof (user_frames_temp_input c tb R (mem s) l Hc Em Hl) as Ef. rewrite <- Ef.
  destruct (input_callback (temp_input c) (timeInfo s) (callbackStatusFlags s) (mem s) (userData s)) as [-> Hok']; [done | | | done].
  { unfold temp_input. by destruct (userInputIsInterleaved c). }
  rewrite Ef. destruct Hc as [HN Hnch _ Hub _ _ _]. apply whole_temp_frames; (done || lia).
Qed.

Lemma input_round_spec s q b ds togo : fed s q ->
  pick b (hostInputChannels s) = ds -> zlen ds = nch -> 0 <= togo -> N + togo < 2 ^ 32 -> chans_ok (mem s) hb tb togo ds ->
  let n := (N - zlen q.1.1) `min` togo in
  exists fs s', input_round (Some b) togo s = Ret (n, s') /\
    Forall2 (Forall2 R) (host_frames (mem s) hb ds n) fs /\ fed s' (pushes N cb fs q) /\
    hostInputChannels s' = put b (advanced n hb <$> ds) (hostInputChannels s) /\ same_host s s'.
Proof.
  destruct q as [[pend res] u]. cbn [fst snd].
  intros [Ec (l & Em & Hl & Hpend) Hcount Hroom Hres Hu Huok Hch] Eds Hds Htogo Hw Hok. cbn [fst snd] in *.
  pose proof (zlen_nonneg pend) as Hp0. set (n := (N - zlen pend) `min` togo).
  assert ((if wrap_u 32 (framesInTempInputBuffer s + togo) >? N then N - framesInTempInputBuffer s else togo) = n) as En.
  { rewrite wrap_u_small, Hcount by lia. destruct (Z.gtb_spec (zlen pend + togo) N); lia. }
  destruct (take_input_spec c tb R s b l ds n) as (l' & δ' & E & Hl' & Hold & Hnew); try done; [lia.. | |].
  { apply (chans_ok_le _ _ _ togo); [lia | done]. }
  rewrite Hcount in Hold, Hnew. set (fs := in_frames c l' (zlen pend) n) in *.
  assert (in_frames c l' 0 (zlen pend + n) = pend ++ fs) as Hall.
  { unfold in_frames. rewrite temp_frames_app by lia. rewrite Z.add_0_l. unfold in_frames in Hold. rewrite Hold.
    unfold in_frames in Hpend. by rewrite Hpend. }
  assert (zlen fs = n) as Hfs by (apply zlen_temp_frames; lia).
  set (s1 := set_mem (<[tb := l']> (mem s)) (set_dither δ' (set_in_chans (put b (advanced n hb <$> ds) (hostInputChannels s)) s))) in *.
  assert (mem s1 !! tb = Some l') as Em1 by apply lookup_insert_eq.
  assert (zlen (hostInputChannels s1).1 = nch /\ zlen (hostInputChannels s1).2 = nch) as Hch1.
  { unfold s1. cbn. subst ds. destruct b; cbn; by rewrite zlen_fmap. }
  unfold input_round. rewrite (run_bind _ _ s s s) by done. rewrite Ec, En.
  erewrite run_bind by exact E. erewrite run_bind by reflexivity. erewrite run_bind by reflexivity.
  cbn [framesInTempInputBuffer set_in_temp]. change (framesInTempInputBuffer s1) with (framesInTempInputBuffer s).
  change (streamCallbackResult (set_in_temp (framesInTempInputBuffer s + n) s1)) with (streamCallbackResult s).
  rewrite Hcount, Hres. exists fs.
  destruct (Z.eqb_spec (zlen pend + n) N) as [Hfull | Hshort].
  - rewrite pushes_full by lia. rewrite Hfull in Hall. destruct (Z.eqb_spec res paContinue) as [-> | Hne].
    + destruct (call_full (set_time (mkTime (inputBufferAdcTime (timeInfo s1)) (currentTime (timeInfo s1)) (of_ulong 0))
                             (set_in_temp (zlen pend + n) s1)) l') as [Ecall Hok']; [done.. | lia | by rewrite <- Hu in Huok |].
      cbn [userData set_time set_in_temp] in Hok'. change (userData s1) with (userData s) in Hok'. rewrite Hall, Hu in Hok'.
      eexists. split; [| split_and!].
      { unfold when. erewrite run_bind; [reflexivity |].
        erewrite run_bind; [reflexivity |]. erewrite run_bind by reflexivity.
        change (cfg (set_in_temp (zlen pend + n) s1)) with (cfg s). rewrite Ec.
        erewrite run_bind; [reflexivity |]. exact Ecall. }
      all: cbn [fst snd]; try done.
      * split; cbn; rewrite ?Hall, ?Hu; try done; [| rewrite zlen_nil; lia]. exists l'. split_and!; [done | lia | done].
      * split; [done |]. by exists l'.
    + eexists. split; [unfold when; reflexivity |]. split_and!; try done.
      * split; cbn; try done; [| rewrite zlen_nil; lia]. exists l'. split_and!; [done | lia | done].
      * split; [done |]. by exists l'.
  - rewrite pushes_short by lia. eexists. split; [unfold when; reflexivity |]. split_and!; try done.
    + split; cbn; try done; rewrite ?zlen_app, ?Hfs; [| lia..]. exists l'. split_and!; [done | lia | done].
    + split; [done |]. by exists l'.
Qed.

Lemma same_host_trans s1 s2 s3 : same_host s1 s2 -> same_host s2 s3 -> same_host s1 s3.
Proof.
  intros [E1 [l1 M1]] [E2 [l2 M2]]. split; [congruence |]. exists l2. by rewrite M2, M1, insert_insert_eq.
Qed.

Lemma put_put {A} b (v w : A) p : put b v (put b w p) = put b v p.
Proof. by destruct b. Qed.

(** The loop takes everything, and every round takes a frame: fuel for one more
    round than there are frames is enough. *)
Lemma input_loop_spec fuel : forall s q b ds togo done, (Z.to_nat togo < fuel)%nat -> fed s q ->
  pick b (hostInputChannels s) = ds -> zlen ds = nch -> 0 <= togo -> N + togo < 2 ^ 32 -> chans_ok (mem s) hb tb togo ds ->
  exists fs ds' s', input_loop fuel (Some b) togo done s = Ret (done + togo, s') /\
    Forall2 (Forall2 R) (host_frames (mem s) hb ds togo) fs /\ fed s' (pushes N cb fs q) /\
    hostInputChannels s' = put b ds' (hostInputChannels s) /\ same_host s s'.
Proof.
  induction fuel as [| fuel IH]; intros s q b ds togo done Hf Hq Eds Hds Htogo Hw Hok; [lia |].
  destruct (input_round_spec s q b ds togo) as (fs1 & s1 & E1 & HR1 & Hq1 & Ech & Hsh1); try done.
  cbn [input_loop]. erewrite run_bind by exact E1.
  pose proof (fed_room _ _ Hq) as Hroom. set (n := (N - zlen q.1.1) `min` togo) in *.
  destruct (Z.gtb_spec (togo - n) 0) as [Hgo | Hend].
  - pose proof Hsh1 as [Hcnt [l1 Em1]].
    destruct (IH s1 (pushes N cb fs1 q) b (advanced n hb <$> ds) (togo - n) (done + n))
      as (fs2 & ds' & s' & E2 & HR2 & Hq2 & Ech2 & Hsh2); try done; [lia | | | lia | lia | |].
    { by rewrite Ech, pick_put. }
    { by rewrite zlen_fmap. }
    { rewrite Em1. apply chans_ok_insert, chans_ok_advanced; [lia.. |]. by replace (n + (togo - n)) with togo by lia. }
    exists (fs1 ++ fs2), ds', s'. split_and!.
    + rewrite E2. f_equal. f_equal. lia.
    + replace togo with (n + (togo - n)) by lia.
      rewrite (host_frames_split _ _ tb) by (lia || by replace (n + (togo - n)) with togo by lia).
      apply Forall2_app; [done |]. rewrite Em1, host_frames_insert in HR2; [done |].
      apply chans_ok_advanced; [lia.. |]. by replace (n + (togo - n)) with togo by lia.
    + by rewrite pushes_app.
    + by rewrite Ech2, Ech, put_put.
    + by eapply same_host_trans.
  - assert (n = togo) as Hn by lia. exists fs1, (advanced n hb <$> ds), s1. rewrite <- Hn. split_and!; try done.
Qed.

(** * PaUtil_EndBufferProcessing for an input stream *)

(** The frames in the two buffers of the host. *)
Definition delivered s : list frame :=
  host_frames (mem s) hb (hostInputChannels s).1 (hostInputFrameCount s).1 ++
  host_frames (mem s) hb (hostInputChannels s).2 (hostInputFrameCount s).2.

Record host_input_ok s : Prop := {
  hi_counts : 0 <= (hostInputFrameCount s).1 /\ 0 <= (hostInputFrameCount s).2;
  hi_small : N + (hostInputFrameCount s).1 < 2 ^ 32 /\ N + (hostInputFrameCount s).2 < 2 ^ 32;
  hi_first : chans_ok (mem s) hb tb (hostInputFrameCount s).1 (hostInputChannels s).1;
  hi_second : 0 < (hostInputFrameCount s).2 -> chans_ok (mem s) hb tb (hostInputFrameCount s).2 (hostInputChannels s).2 }.

Lemma both_buffers_input s q : fed s q -> host_input_ok s ->
  exists fs s', both_buffers AdaptingInputOnlyProcess hostInputFrameCount s =
      Ret ((hostInputFrameCount s).1 + (hostInputFrameCount s).2, s') /\
    Forall2 (Forall2 R) (delivered s) fs /\ fed s' (pushes N cb fs q) /\ same_host s s'.
Proof.
  intros Hq [[H1 H2] [Hs1 Hs2] Hf Hs]. pose proof (fed_channels _ _ Hq) as [Hc1 Hc2]. unfold both_buffers.
  destruct (input_loop_spec (S (Z.to_nat (hostInputFrameCount s).1)) s q B0 (hostInputChannels s).1 (hostInputFrameCount s).1 0)
    as (fs1 & ds1 & s1 & E1 & HR1 & Hq1 & Ech1 & [Hcnt1 [l1 Em1]]); try done; [lia |].
  erewrite run_bind by reflexivity. erewrite run_bind by exact E1. erewrite run_bind by reflexivity. rewrite Hcnt1.
  unfold delivered. destruct (Z.gtb_spec (hostInputFrameCount s).2 0) as [Hgo | Hend].
  - destruct (input_loop_spec (S (Z.to_nat (hostInputFrameCount s).2)) s1 (pushes N cb fs1 q) B1
        (hostInputChannels s).2 (hostInputFrameCount s).2 0)
      as (fs2 & ds2 & s2 & E2 & HR2 & Hq2 & Ech2 & [Hcnt2 [l2 Em2]]); try done; [lia | by rewrite Ech1 | |].
    { rewrite Em1. apply chans_ok_insert. by apply Hs. }
    erewrite run_bind by exact E2. exists (fs1 ++ fs2), s2. split_and!; [done | | by rewrite pushes_app |].
    + apply Forall2_app; [done |]. rewrite Em1, host_frames_insert in HR2; [done | by apply Hs].
    + split; [congruence |]. exists l2. by rewrite Em2, Em1, insert_insert_eq.
  - assert ((hostInputFrameCount s).2 = 0) as E0 by lia. rewrite E0. exists fs1, s1. split_and!; try done.
    + by rewrite Z.add_0_l, Z.add_0_r.
    + unfold host_frames at 2. cbn. by rewrite app_nil_r.
    + split; [done | by exists l1].
Qed.

(** Recording with block adaption: from any state, whatever the host delivers in
    its two buffers, the call returns, takes all of it, and has done to the callback
    and to the frames kept back exactly what feeding the converted frames one by one
    does: every block the callback sees has the size it asked for, no frame is lost,
    repeated or reordered, and after the callback has ended the stream it is not
    called again. *)
Lemma input_adaption_refines s q : fed s q -> host_input_ok s ->
  useNonAdaptingProcess c = false -> outputChannelCount c = 0 ->
  q.1.2 = paContinue \/ q.1.2 = paComplete \/ q.1.2 = paAbort ->
  exists fs s', PaUtil_EndBufferProcessing s = Ret ((hostInputFrameCount s).1 + (hostInputFrameCount s).2, s') /\
    Forall2 (Forall2 R) (delivered s) fs /\ fed s' (pushes N cb fs q) /\ same_host s s'.
Proof.
  intros Hq Hh Hna Hout Hr. destruct (both_buffers_input s q Hq Hh) as (fs & s' & E & H).
  exists fs, s'. split; [| done]. pose proof Hc as [_ Hnch _ _ _ _ _].
  unfold PaUtil_EndBufferProcessing, assert_equal_counts.
  rewrite (run_bind _ _ s tt s).
  2: { rewrite (run_bind _ _ s s s) by done. rewrite (fed_cfg _ _ Hq), Hout. cbn. by rewrite andb_false_r. }
  rewrite (run_bind _ _ s s s) by done. rewrite (fed_cfg _ _ Hq), (fed_result _ _ Hq).
  rewrite (run_bind _ _ s tt s).
  2: { unfold assert. by destruct Hr as [-> | [-> | ->]]. }
  rewrite Hna, Hout. cbn [Z.eqb negb]. rewrite (proj2 (Z.eqb_neq _ _)) by lia. exact E.
Qed.

(** * Packets of the host *)

Definition interleaved_chans (captured : Z) : list chan :=
  (fun i => mkChan (Ptr captured (i * hb)) nch) <$> seqZ 0 nch.

Lemma interleaved_chans_ok m captured bytes n : 0 < nch -> 0 < hb -> captured <> tb -> m !! captured = Some bytes ->
  0 <= n -> zlen bytes = n * nch * hb -> zlen bytes < 2 ^ 32 -> chans_ok m hb tb n (interleaved_chans captured).
Proof.
  intros Hnch Hhb Hne Em Hn Hl Hlt. apply Forall_fmap, Forall_lookup. intros i ch [-> Hi]%lookup_seqZ.
  exists captured, ((0 + Z.of_nat i) * hb), bytes. cbn [data stride]. rewrite Hl in *. split_and!; try done; try lia; try nia.
  intros k Hk. split; [nia |].
  replace ((0 + Z.of_nat i) * hb + k * (nch * hb) + hb) with ((k * nch + Z.of_nat i + 1) * hb) by ring.
  apply Z.mul_le_mono_nonneg_r; [lia |]. nia.
Qed.

Lemma interleaved_frames m captured bytes n : 0 < nch -> 0 < hb -> m !! captured = Some bytes ->
  host_frames m hb (interleaved_chans captured) n = packet_frames nch hb bytes n.
Proof.
  intros Hnch Hhb Em. unfold host_frames, packet_frames. apply list_fmap_ext. intros i k [-> Hk]%lookup_seqZ.
  unfold host_frame, interleaved_chans. rewrite <- list_fmap_compose. apply list_fmap_ext. intros i' ch [-> Hch]%lookup_seqZ.
  unfold compose, host_sample. cbn [data stride padd]. rewrite (peek_Ptr _ _ _ _ bytes) by (done || nia). f_equal. ring.
Qed.

(** Setting all the descriptors of the first buffer. *)
Lemma put_chans_run s (f : Z -> chan) : zlen (hostInputChannels s).1 = nch ->
  for_each (seqZ 0 nch) (fun i => put_in_chan B0 (0 + i) (f i)) s =
    Ret (tt, set_in_chans (f <$> seqZ 0 nch, (hostInputChannels s).2) s).
Proof.
  intros Hl. pose proof Hc as [_ Hnch _ _ _ _ _].
  set (st := fun i => set_in_chans ((f <$> seqZ 0 i) ++ drop (Z.to_nat i) (hostInputChannels s).1, (hostInputChannels s).2) s).
  transitivity (for_each (seqZ 0 nch) (fun i => put_in_chan B0 (0 + i) (f i)) (st 0)); [by destruct s as [?????? [] ??????] |].
  rewrite (for_each_seqZ st) by (lia || (intros i Hi; unfold put_in_chan; cbn [st pick hostInputChannels set_in_chans fst snd put];
    rewrite zlen_prefix, (proj2 (Z.ltb_lt _ _)), Z.add_0_l, insert_prefix by lia; reflexivity)).
  unfold st at 1. by rewrite drop_ge, app_nil_r by (unfold zlen in Hl; lia).
Qed.

(** An input stream with block adaption on interleaved host buffers. *)
Record recording : Prop := {
  rec_adapting : useNonAdaptingProcess c = false;
  rec_output : outputChannelCount c = 0;
  rec_interleaved : hostInputIsInterleaved c = true;
  rec_channels : nch < 2 ^ 32 }.

Lemma host_processing s pend res u t captured bytes n : recording -> fed s (pend, res, u) ->
  captured <> tb -> mem s !! captured = Some bytes -> packet_ok nch hb N (mkPacket t bytes n) ->
  exists fs s', WaspiHostProcessingLoop t (Ptr captured 0) n NULL 0 s =
      Ret (negb ((pushes N cb fs (pend, paContinue, u)).1.2 =? paContinue), s') /\
    Forall2 (Forall2 R) (packet_frames nch hb bytes n) fs /\ fed s' (pushes N cb fs (pend, paContinue, u)) /\
    exists l, mem s' = <[tb := l]> (mem s).
Proof.
  intros Hrec Hq Hne Em (Hn & Hl & Hlt & Hw). pose proof Hc as [HN Hnch Hhb _ _ _ _]. cbn [p_frames p_bytes] in *.
  pose proof Hrec as [Hna Hout Hint Hn32]. destruct Hq as [Ec Htemp Hcount Hroom Hres Hu Huok [Hc1 Hc2]].
  set (begun := fun T s => set_out_count (put B1 0 (hostOutputFrameCount s)) (set_in_count (put B1 0 (hostInputFrameCount s)) (set_flags 0 (set_time T s)))).
  assert (exists T, PaUtil_BeginBufferProcessing t 0 s = Ret (tt, begun T s)) as [T EB] by by eexists.
  set (s2 := set_result paContinue (set_in_chans (interleaved_chans captured, (hostInputChannels s).2)
               (set_in_count (put B0 n (hostInputFrameCount (begun T s))) (begun T s)))).
  assert (forall (A : Type) (k : st (processor U) A), (when (nch >? 0)
      (PaUtil_SetInputFrameCount n;; PaUtil_SetInterleavedInputChannels 0 (Ptr captured 0) 0);;
     when (outputChannelCount c >? 0) (PaUtil_SetOutputFrameCount 0;; PaUtil_SetInterleavedOutputChannels 0 NULL 0);;
     modify (set_result paContinue);; k) (begun T s) = k s2) as Eset.
  { intros A k. rewrite (proj2 (Z.gtb_lt nch 0)), Hout by lia. cbn [when Z.gtb Z.compare].
    erewrite run_bind.
    2: { unfold PaUtil_SetInputFrameCount. rewrite (proj2 (Z.eqb_neq n 0)) by lia.
         erewrite run_bind by reflexivity. unfold PaUtil_SetInterleavedInputChannels, set_interleaved_input.
         erewrite run_bind by reflexivity. cbn [cfg set_in_count]. change (cfg (begun T s)) with (cfg s). rewrite Ec, Hint.
         change (0 =? 0) with true. cbn match. rewrite (proj2 (Z.ltb_lt 0 nch)), wrap_u_small, (proj2 (Z.leb_le (0 + nch) nch)) by lia.
         do 3 erewrite run_bind by reflexivity.
         rewrite (put_chans_run _ (fun i => mkChan (padd (Ptr captured 0) (i * hb)) nch)) by done. reflexivity. }
    reflexivity. }
  assert (fed s2 (pend, paContinue, u)) as Hq2.
  { split; try done. split; [| done]. unfold s2, interleaved_chans. cbn. unfold zlen. rewrite length_fmap, length_seqZ. lia. }
  assert (chans_ok (mem s) hb tb n (interleaved_chans captured)) as Hchok by (apply (interleaved_chans_ok _ _ bytes); (done || lia)).
  destruct (input_adaption_refines s2 (pend, paContinue, u)) as (fs & s' & EE & HR & Hq' & [_ Hm]); [done | | done | done | by left |].
  { split; cbn; try done; lia. }
  exists fs, s'. split_and!; [| | done | done].
  - unfold WaspiHostProcessingLoop. erewrite run_bind by exact EB. erewrite run_bind by reflexivity.
    change (cfg (begun T s)) with (cfg s). rewrite Ec, Eset. erewrite run_bind by exact EE.
    erewrite run_bind by reflexivity. by rewrite (fed_result _ _ Hq').
  - unfold delivered in HR. cbn in HR. rewrite (interleaved_frames _ _ bytes) in HR by done.
    unfold host_frames in HR. cbn in HR. by rewrite app_nil_r in HR.
Qed.

(** A recording session: the packets of the host, of any sizes, are processed
    without a fault, and the callback is given their frames in order in blocks of
    the size it asked for, with less than a block kept back; as soon as it ends the
    stream no further packet is taken. *)
Lemma recording_session captured packets s pend u : recording -> fed s (pend, paContinue, u) ->
  captured <> tb -> Forall (packet_ok nch hb N) packets ->
  exists taken fs s' stop, ProcessInputBuffer captured packets s = Ret (stop, s') /\
    Forall2 (Forall2 R) (packets_frames nch hb (take taken packets)) fs /\
    fed s' (pushes N cb fs (pend, paContinue, u)) /\
    (stop = false -> (length packets <= taken)%nat /\ streamCallbackResult s' = paContinue) /\
    (stop = true -> streamCallbackResult s' <> paContinue).
Proof.
  intros Hrec Hq Hne Hp. revert s pend u Hq. induction Hp as [| p packets Hp Hps IH]; intros s pend u Hq.
  { exists 0%nat, [], s, false. split_and!; try done. intros _. split; [done |]. by rewrite (fed_result _ _ Hq). }
  cbn [ProcessInputBuffer]. rewrite (proj2 (Z.eqb_neq (p_frames p) 0)) by (destruct Hp; lia).
  erewrite run_bind by reflexivity.
  set (s1 := set_mem (<[captured := p_bytes p]> (mem s)) s).
  assert (fed s1 (pend, paContinue, u)) as Hq1.
  { destruct Hq as [Ec (l & Em & Hl) Hcount Hroom Hres Hu Huok Hch]. split; try done.
    exists l. split; [| done]. cbn. by rewrite lookup_insert_ne. }
  destruct p as [t bytes n]. cbn [p_time p_bytes p_frames] in *.
  destruct (host_processing s1 pend paContinue u t captured bytes n) as (fs1 & s2 & E & HR & Hq2 & _); try done.
  { apply lookup_insert_eq. }
  destruct (pushes N cb fs1 (pend, paContinue, u)) as [[pend2 res2] u2] eqn:Ep. cbn [fst snd] in *.
  erewrite run_bind by exact E. destruct (Z.eqb_spec res2 paContinue) as [-> | Hres]; cbn [negb].
  - destruct (IH s2 pend2 u2 Hq2) as (taken & fs & s' & stop & E' & HR' & Hq' & H1 & H2).
    exists (S taken), (fs1 ++ fs), s', stop. split_and!; [done | | by rewrite pushes_app, Ep | | done].
    + unfold packets_frames. cbn [take fmap list_fmap concat p_bytes p_frames]. by apply Forall2_app.
    + intros Hs. destruct (H1 Hs). split; [cbn; lia | done].
  - exists 1%nat, fs1, s2, true. split_and!; [done | | by rewrite Ep | done |].
    + unfold packets_frames. cbn [take fmap list_fmap concat p_bytes p_frames]. by rewrite app_nil_r.
    + intros _. by rewrite (fed_result _ _ Hq2).
Qed.
End input.

(** A callback that goes on for ever sees the stream cut into blocks. *)
Lemma pushes_blocks {U} N (cb : U -> list frame -> Z * U) fs u : 0 < N -> (forall u b, (cb u b).1 = paContinue) ->
  exists blocks rest, fs = concat blocks ++ rest /\ Forall (fun b => zlen b = N) blocks /\ zlen rest < N /\
    pushes N cb fs ([], paContinue, u) = (rest, paContinue, fold_left (fun u b => (cb u b).2) blocks u).
Proof.
  intros HN Hcb. induction fs as [| f fs (blocks & rest & -> & Hb & Hr & Ep)] using rev_ind.
  { exists [], []. split_and!; try done; by rewrite ?zlen_nil. }
  rewrite pushes_app, Ep. unfold pushes. cbn [fold_left push].
  destruct (Z.eqb_spec (zlen (rest ++ [f])) N) as [E | E]; cbn [Z.eqb paContinue].
  - exists (blocks ++ [rest ++ [f]]), []. split_and!.
    + by rewrite concat_app, app_nil_r, <- app_assoc; cbn; rewrite app_nil_r.
    + apply Forall_app. by split; [| constructor].
    + by rewrite zlen_nil.
    + rewrite fold_left_app. cbn. by rewrite Hcb.
  - exists blocks, (rest ++ [f]). split_and!; [by rewrite app_assoc | done | | done].
    rewrite zlen_app, zlen_cons, zlen_nil in *. lia.
Qed.
