(* ===== verification/PaProcessDuplex.v ===== *)
(** Full duplex through PortAudio's buffer processor (src/WIN32/src/common/pa_process.c):
    what one call of AdaptingProcess does, stated over the frames that go in and out
    of the temporary buffers and of the host's. *)

From S2P Require Import Prelude PaConverters PaProcess PaProcessFrames PaProcessInput.

(** * The callback

    It reads its input frames and writes its output frames, and touches nothing
    else of the memory. *)

(** The buffer handed out for output: [N] frames in the block [tb]. *)
Definition output_buffer (interleaved : bool) (nch b N tb : Z) : user_buffer :=
  if interleaved then UInterleaved (Ptr tb 0) else UNonInterleaved (channel_ptrs (Ptr tb 0) nch b N).

Class DuplexCallback {U : Type} (callback : PaStreamCallback U) (N : Z) (iin : bool) (ni ubi : Z) (iout : bool) (no ubo : Z)
    (ok : U -> Prop) (cb : U -> list frame -> U * list frame) : Prop :=
  duplex_callback_law : forall tbo ui t fl m u lo,
    let fs := user_frames m ni ubi ui N in
    ok u -> layout_of iin ui -> whole_frames ni ubi fs -> m !! tbo = Some lo -> zlen lo = ubo * (N * no) ->
    exists lo', callback ui (output_buffer iout no ubo N tbo) N t fl m u = Ret (paContinue, <[tbo := lo']> m, (cb u fs).1) /\
      zlen lo' = ubo * (N * no) /\ temp_frames iout no N ubo lo' 0 N = (cb u fs).2 /\ ok (cb u fs).1.

(** * The specification

    The frames are pushed one by one as for an input stream; every full block adds
    the callback's frames to the output that is due. *)
Definition answer {U} (cb : U -> list frame -> U * list frame) (u : U * list frame) (b : list frame) : Z * (U * list frame) :=
  (paContinue, ((cb u.1 b).1, u.2 ++ (cb u.1 b).2)).

(** * One call of AdaptingProcess *)

Section duplex.
Context {U : Type} (c : config U) (tbi tbo : Z) (Ri Ro : list Z -> list Z -> Prop)
  (ok : U -> Prop) (cb : U -> list frame -> U * list frame).
Implicit Types (s : processor U) (ds : list chan).

Notation N := (framesPerUserBuffer c).
Notation ni := (inputChannelCount c).
Notation no := (outputChannelCount c).
Notation hbi := (bytesPerHostInputSample c).
Notation hbo := (bytesPerHostOutputSample c).
Notation ubi := (bytesPerUserInputSample c).
Notation ubo := (bytesPerUserOutputSample c).

Context (Hic : input_config c tbi Ri) (Hoc : output_config c tbo Ro) (Hne : tbi <> tbo)
  `{!DuplexCallback (streamCallback c) N (userInputIsInterleaved c) ni ubi (userOutputIsInterleaved c) no ubo ok cb}.

(** Pending input, output that is due, the callback's data. *)
Record holds s (inb outb : list frame) (u : U) : Prop := {
  h_cfg : cfg s = c;
  h_in : exists l, mem s !! tbi = Some l /\ zlen l = ubi * (N * ni) /\ in_frames c l 0 (zlen inb) = inb;
  h_in_count : framesInTempInputBuffer s = zlen inb;
  h_in_room : zlen inb <= N;
  h_out : exists l, mem s !! tbo = Some l /\ zlen l = ubo * (N * no) /\ out_frames c l (N - zlen outb) (zlen outb) = outb;
  h_out_count : framesInTempOutputBuffer s = zlen outb;
  h_out_room : zlen outb <= N;
  h_result : streamCallbackResult s = paContinue;
  h_user : userData s = u;
  h_ok : ok u }.

(** The host's buffers in the middle of a call: [r] input frames to come, whose
    samples are [hf]; [w] of the [n] output frames written, converted from [out]. *)
Record host s (ob n r w : Z) (hf out : list frame) : Prop := {
  hs_in_count : hostInputFrameCount s = (r, 0);
  hs_in_nonneg : 0 <= r;
  hs_in_chans : zlen (hostInputChannels s).1 = ni;
  hs_in_ok : Forall (fun t => chans_ok (mem s) hbi t r (hostInputChannels s).1) [tbi; tbo; ob];
  hs_in_frames : host_frames (mem s) hbi (hostInputChannels s).1 r = hf;
  hs_out_count : hostOutputFrameCount s = (n - w, 0);
  hs_out_range : 0 <= w <= n;
  hs_out_chans : (hostOutputChannels s).1 = out_chans c ob w;
  hs_out : exists lo, host_output c tbo (mem s) ob n lo /\ Forall2 (Forall2 Ro) out (written c n lo 0 w);
  hs_other : ob <> tbi /\ ob <> tbo;
  hs_small : n < 2 ^ 32 /\ r < 2 ^ 32 }.

Lemma out_frames_split l outb k : 0 <= k <= zlen outb -> out_frames c l (N - zlen outb) (zlen outb) = outb ->
  out_frames c l (N - zlen outb) k = take (Z.to_nat k) outb /\
  out_frames c l (N - (zlen outb - k)) (zlen outb - k) = drop (Z.to_nat k) outb.
Proof.
  intros Hk El. unfold out_frames in *.
  pose proof (temp_frames_app (userOutputIsInterleaved c) no N ubo l (N - zlen outb) k (zlen outb - k) ltac:(lia) ltac:(lia)) as E.
  replace (k + (zlen outb - k)) with (zlen outb) in E by lia. rewrite El in E.
  replace (N - (zlen outb - k)) with (N - zlen outb + k) by lia.
  assert (zlen (temp_frames (userOutputIsInterleaved c) no N ubo l (N - zlen outb) k) = k) as Hlen by (apply zlen_temp_frames; lia).
  set (A := temp_frames _ _ _ _ l (N - zlen outb) k) in *. set (B := temp_frames _ _ _ _ l (N - zlen outb + k) _) in *.
  clearbody A B. rewrite E. unfold zlen in Hlen. split; [by rewrite take_app_length' by lia | by rewrite drop_app_length' by lia].
Qed.

Lemma readable_insert m t' l b r ds ts : t' ∈ ts -> Forall (fun t => chans_ok m b t r ds) ts ->
  Forall (fun t => chans_ok (<[t' := l]> m) b t r ds) ts.
Proof.
  intros Hin H. apply list_elem_of_lookup in Hin as [i Hi]. pose proof (Forall_lookup_1 _ _ _ _ H Hi) as H'.
  eapply Forall_impl; [| exact H]. intros t Ht. apply Forall_lookup. intros j d Hd.
  destruct (Forall_lookup_1 _ _ _ _ Ht Hd) as (blk & off & l0 & ? & ? & ? & ?).
  destruct (Forall_lookup_1 _ _ _ _ H' Hd) as (blk' & off' & l0' & ? & ? & _).
  exists blk, off, l0. split_and!; try done; try tauto. rewrite lookup_insert_ne; [done |]. congruence.
Qed.

Lemma assert_supplied s ob w : (hostOutputChannels s).1 = out_chans c ob w -> 0 < no ->
  for_each (seqZ 0 no) (fun i => d ← out_chan (Some B0) i; assert (supplied (data d))) s = Ret (tt, s).
Proof.
  intros Ech Hno. apply (for_each_seqZ (fun _ => s)); [lia |]. intros i Hi.
  erewrite run_bind; [| unfold out_chan; cbn [pick]; rewrite Ech, <- (out_moved_0 c ob w 0), out_moved_lookup by lia; reflexivity].
  done.
Qed.

(** The two copying loops stop when one side has nothing left. *)
Lemma copy_out_stop fuel s inb outb u ob n r w hf out : holds s inb outb u -> host s ob n r w hf out ->
  zlen outb = 0 \/ w = n -> copy_out_loop fuel s = Ret (tt, s).
Proof.
  intros Hh Hs Hd. pose proof (hs_out_range _ _ _ _ _ _ _ Hs). pose proof (hs_small _ _ _ _ _ _ _ Hs).
  assert ((framesInTempOutputBuffer s >? 0) && (wrap_u 32 ((hostOutputFrameCount s).1 + (hostOutputFrameCount s).2) >? 0) = false) as Ef.
  { rewrite (h_out_count _ _ _ _ Hh), (hs_out_count _ _ _ _ _ _ _ Hs). cbn [fst snd]. rewrite wrap_u_small by lia.
    destruct Hd as [-> | ->]; [done |]. rewrite Z.sub_diag. by rewrite andb_false_r. }
  destruct fuel; cbn [copy_out_loop]; erewrite run_bind by reflexivity; by rewrite Ef.
Qed.

Lemma copy_in_stop fuel taken s inb outb u ob n r w hf out : holds s inb outb u -> host s ob n r w hf out ->
  zlen inb = N \/ r = 0 -> copy_in_loop fuel taken s = Ret (taken, s).
Proof.
  intros Hh Hs Hd. pose proof (hs_in_nonneg _ _ _ _ _ _ _ Hs). pose proof (hs_small _ _ _ _ _ _ _ Hs).
  assert ((framesInTempInputBuffer s <? N) && (wrap_u 32 ((hostInputFrameCount s).1 + (hostInputFrameCount s).2) >? 0) = false) as Ef.
  { rewrite (h_in_count _ _ _ _ Hh), (hs_in_count _ _ _ _ _ _ _ Hs). cbn [fst snd]. rewrite wrap_u_small by lia.
    destruct Hd as [-> | ->]; [by rewrite Z.ltb_irrefl | by rewrite andb_false_r]. }
  destruct fuel; cbn [copy_in_loop]; erewrite run_bind by reflexivity; by rewrite (h_cfg _ _ _ _ Hh), Ef.
Qed.

(** Frames that are due go to the host. *)
Lemma copy_out_round_spec s inb outb u ob n r w hf out : holds s inb outb u -> host s ob n r w hf out ->
  0 < zlen outb -> w < n ->
  let k := (n - w) `min` zlen outb in
  exists s', copy_out_round s s = Ret (tt, s') /\ holds s' inb (drop (Z.to_nat k) outb) u /\
    host s' ob n r (w + k) hf (out ++ take (Z.to_nat k) outb).
Proof.
  intros [Ec (li & Eli & Hli & Hin) Hcin Hrin (lo & Elo & Hlo & Hout) Hcout Hrout Hres Hu Hok]
    [Hic1 Hr Hics Hicok Hicf Hoc1 Hw Hocs (lh & Hho & Hwr) Hob Hsm] Hpos Hlt k.
  pose proof Hic as [HN Hni _ _ _ _ _]. pose proof Hoc as [_ Hno _ _ _ _ _].
  destruct (out_frames_split lo outb k ltac:(lia) Hout) as [Htake Hdrop].
  destruct (give_output_spec c tbo Ro s B0 lo lh ob n w k) as (lh' & δ' & E & Hl' & Hold & Hnew & _); try done; [lia.. |].
  rewrite Hcout in Hnew.
  assert (PA_MIN_ (n - w) (zlen outb) = k) as Ek by (unfold PA_MIN_, k; destruct (Z.ltb_spec (n - w) (zlen outb)); lia).
  eexists. split; [| split].
  - unfold copy_out_round. rewrite Hoc1, Hcout, Ec. cbn [fst snd]. rewrite (proj2 (Z.gtb_lt (n - w) 0)) by lia.
    cbn [pick fst]. rewrite Ek. erewrite run_bind by (by apply (assert_supplied _ ob w)).
    erewrite run_bind by exact E. erewrite run_bind by reflexivity. reflexivity.
  - assert (zlen (drop (Z.to_nat k) outb) = zlen outb - k) as Hz by (unfold zlen in *; rewrite length_drop; lia).
    split; cbn; try done; rewrite ?Hz; try lia.
    + exists li. by rewrite lookup_insert_ne by naive_solver.
    + exists lo. rewrite lookup_insert_ne by naive_solver. done.
  - split; cbn; try done; try lia.
    + apply readable_insert; [set_solver | done].
    + rewrite (host_frames_insert _ _ ob); [done |].
      apply Forall_cons_1 in Hicok as [_ Hicok]. apply Forall_cons_1 in Hicok as [_ Hicok]. by apply Forall_cons_1 in Hicok as [? _].
    + rewrite Hoc1. cbn. f_equal. lia.
    + exists lh'. split.
      * destruct Hho as [? ? ? ?]. split; try done; [apply lookup_insert_eq | lia].
      * unfold written. rewrite temp_frames_app by lia. rewrite Z.add_0_l. apply Forall2_app.
        -- fold (written c n lh' 0 w). by rewrite Hold.
        -- by rewrite <- Htake.
Qed.

Lemma copy_out_spec s inb outb u ob n r w hf out : holds s inb outb u -> host s ob n r w hf out ->
  let k := (n - w) `min` zlen outb in
  exists s', CopyTempOutputBuffersToHostOutputBuffers s = Ret (tt, s') /\ holds s' inb (drop (Z.to_nat k) outb) u /\
    host s' ob n r (w + k) hf (out ++ take (Z.to_nat k) outb).
Proof.
  intros Hh Hs k. pose proof (zlen_nonneg outb) as Hz. pose proof (hs_out_range _ _ _ _ _ _ _ Hs) as Hw.
  pose proof (hs_small _ _ _ _ _ _ _ Hs) as Hsm.
  unfold CopyTempOutputBuffersToHostOutputBuffers.
  destruct (decide (0 < zlen outb /\ w < n)) as [[Hpos Hlt] | Hno].
  - destruct (copy_out_round_spec s inb outb u ob n r w hf out Hh Hs Hpos Hlt) as (s' & E & Hh' & Hs'). fold k in Hh', Hs'.
    exists s'. split; [| done]. cbn [copy_out_loop]. erewrite run_bind by reflexivity.
    rewrite (h_out_count _ _ _ _ Hh), (hs_out_count _ _ _ _ _ _ _ Hs). cbn [fst snd]. rewrite wrap_u_small by lia.
    rewrite (proj2 (Z.gtb_lt _ _)), (proj2 (Z.gtb_lt _ _)) by lia. cbn [andb]. erewrite run_bind by exact E.
    eapply (copy_out_stop 2%nat); [exact Hh' | exact Hs' |].
    unfold zlen in *. rewrite length_drop. unfold k. lia.
  - assert (k = 0) as E0 by (unfold k; lia). rewrite E0, drop_0, take_0, app_nil_r, Z.add_0_r.
    exists s. split; [| done]. eapply copy_out_stop; [exact Hh | exact Hs | lia].
Qed.

(** Frames of the host fill the block. *)
Lemma copy_in_spec s inb outb u ob n r w hf out : holds s inb outb u -> host s ob n r w hf out ->
  let k := (N - zlen inb) `min` r in
  exists fs s', copy_in_loop 3 0 s = Ret (k, s') /\ Forall2 (Forall2 Ri) (take (Z.to_nat k) hf) fs /\
    holds s' (inb ++ fs) outb u /\ host s' ob n (r - k) w (drop (Z.to_nat k) hf) out.
Proof.
  intros Hh Hs k. pose proof (zlen_nonneg inb) as Hz. pose proof (hs_small _ _ _ _ _ _ _ Hs) as Hsm.
  pose proof (hs_in_nonneg _ _ _ _ _ _ _ Hs) as Hr. pose proof (h_in_room _ _ _ _ Hh) as Hroom.
  destruct (decide (zlen inb < N /\ 0 < r)) as [[Hlt Hpos] | Hno].
  2: { assert (k = 0) as E0 by (unfold k; lia). rewrite E0, drop_0, take_0, Z.sub_0_r. exists [], s.
       rewrite app_nil_r. split_and!; try done. eapply copy_in_stop; [exact Hh | exact Hs | lia]. }
  pose proof Hh as [Ec (li & Eli & Hli & Hin) Hcin Hrin (lo & Elo & Hlo & Hout) Hcout Hrout Hres Hu Hok].
  pose proof Hs as [Hic1 _ Hics Hicok Hicf Hoc1 Hw Hocs (lh & Hho & Hwr) Hob _].
  pose proof (Forall_cons_1 _ _ _ Hicok) as [Hokti _].
  destruct (take_input_spec c tbi Ri s B0 li (hostInputChannels s).1 k) as (li' & δ' & E & Hl' & Hold & Hnew); try done;
    [unfold k; lia.. | apply (chans_ok_le _ _ _ r); [unfold k; lia | done] |].
  rewrite Hcin in Hold, Hnew. set (fs := in_frames c li' (zlen inb) k) in *.
  assert (zlen fs = k) as Hfs by (apply zlen_temp_frames; unfold k; lia).
  assert (host_frames (mem s) hbi (hostInputChannels s).1 k = take (Z.to_nat k) hf /\
          host_frames (mem s) hbi (advanced k hbi <$> (hostInputChannels s).1) (r - k) = drop (Z.to_nat k) hf) as [Hhk Hhd].
  { assert (0 <= k <= r) as Hkr by (unfold k; lia). clearbody k.
    pose proof (host_frames_split (mem s) hbi tbi k (r - k) (hostInputChannels s).1) as Esp.
    replace (k + (r - k)) with r in Esp by lia. rewrite <- Hicf, Esp by (done || lia).
    assert (length (host_frames (mem s) hbi (hostInputChannels s).1 k) = Z.to_nat k) as Hlen.
    { unfold host_frames. rewrite length_fmap, length_seqZ. lia. }
    by rewrite take_app_length', drop_app_length'. }
  assert (PA_MIN_ r (N - zlen inb) = k) as Ek by (unfold PA_MIN_, k; destruct (Z.ltb_spec r (N - zlen inb)); lia).
  assert (Forall (fun t => chans_ok (<[tbi := li']> (mem s)) hbi t (r - k) (advanced k hbi <$> (hostInputChannels s).1)) [tbi; tbo; ob]) as Hokr.
  { apply readable_insert; [set_solver |]. eapply Forall_impl; [| exact Hicok]. intros t Ht.
    apply chans_ok_advanced; [unfold k; lia.. |]. by replace (k + (r - k)) with r by lia. }
  set (s1 := set_mem (<[tbi := li']> (mem s)) (set_dither δ' (set_in_chans (put B0 (advanced k hbi <$> (hostInputChannels s).1) (hostInputChannels s)) s))) in *.
  set (s' := set_in_temp (framesInTempInputBuffer s + k) (set_in_count (put B0 (r - k) (hostInputFrameCount s)) s1)).
  assert (holds s' (inb ++ fs) outb u) as Hh'.
  { split; cbn; try done; rewrite ?zlen_app, ?Hfs, ?Hcin; try (unfold k; lia).
    - exists li'. rewrite lookup_insert_eq. split_and!; [done | lia |].
      unfold in_frames. rewrite temp_frames_app by (unfold k; lia). rewrite Z.add_0_l. unfold in_frames in Hold. rewrite Hold.
      unfold in_frames in Hin. by rewrite Hin.
    - exists lo. by rewrite lookup_insert_ne. }
  assert (host s' ob n (r - k) w (drop (Z.to_nat k) hf) out) as Hs'.
  { split; cbn; try done; try (unfold k; lia).
    - by rewrite Hic1.
    - by rewrite zlen_fmap.
    - rewrite (host_frames_insert _ _ tbi); [done |]. apply chans_ok_advanced; [unfold k; lia.. |].
      by replace (k + (r - k)) with r by lia.
    - exists lh. destruct Hho as [? ? ? ?]. split; [| done]. split; try done. rewrite lookup_insert_ne by naive_solver. done. }
  exists fs, s'. split_and!; [| by rewrite <- Hhk | done | done].
  cbn [copy_in_loop]. erewrite run_bind by reflexivity. rewrite Ec, Hic1, Hcin. cbn [fst snd].
  rewrite wrap_u_small by lia. rewrite (proj2 (Z.ltb_lt _ _)), (proj2 (Z.gtb_lt (r + 0) 0)) by lia.
  cbn [andb]. erewrite run_bind.
  2: { unfold copy_in_round. rewrite Ec, Hic1, Hcin. cbn [fst snd]. rewrite (proj2 (Z.gtb_lt r 0)) by lia. cbn [pick fst]. rewrite Ek.
       erewrite run_bind by exact E. erewrite run_bind by reflexivity. erewrite run_bind by reflexivity. reflexivity. }
  assert (set_in_temp (framesInTempInputBuffer (set_in_count (put B0 ((hostInputFrameCount s1).1 - k) (hostInputFrameCount s1)) s1) + k)
    (set_in_count (put B0 ((hostInputFrameCount s1).1 - k) (hostInputFrameCount s1)) s1) = s') as ->.
  { unfold s'. cbn. by rewrite Hic1. }
  rewrite Z.add_0_l. eapply (copy_in_stop 2%nat); [exact Hh' | exact Hs' |]. rewrite zlen_app, Hfs. unfold k. lia.
Qed.

(** A full block with nothing due goes to the callback. *)
Lemma duplex_callback_call s inb u ob n r w hf out : holds s inb [] u -> host s ob n r w hf out -> zlen inb = N ->
  exists s', duplex_callback s = Ret (tt, s') /\ holds s' [] (cb u inb).2 (cb u inb).1 /\ host s' ob n r w hf out /\
    zlen (cb u inb).2 = N.
Proof.
  intros [Ec (li & Eli & Hli & Hin) Hcin Hrin (lo & Elo & Hlo & _) Hcout Hrout Hres Hu Hok] Hs Hfull.
  pose proof Hic as [HN Hni _ Hubi _ _ _]. pose proof Hoc as [_ Hno _ _ Hto _ _]. rewrite Hfull in Hin.
  pose proof (user_frames_temp_input c tbi Ri (mem s) li Hic Eli Hli) as Ef. rewrite Hin in Ef.
  assert (whole_frames ni ubi inb) as Hwh by (rewrite <- Hin; apply whole_temp_frames; (done || lia)).
  destruct (duplex_callback_law tbo (temp_input c) (timeInfo s) (callbackStatusFlags s) (mem s) u lo) as (lo' & Ecall & Hl' & Hout & Hok');
    [done | | by rewrite Ef | done | done |].
  { unfold temp_input. by destruct (userInputIsInterleaved c). }
  rewrite Ef in Ecall, Hout, Hok'.
  assert (output_buffer (userOutputIsInterleaved c) no ubo N tbo = temp_output c) as Eto.
  { unfold temp_output, output_buffer. by rewrite Hto. }
  rewrite Eto in Ecall.
  assert (zlen (cb u inb).2 = N) as Hlen by (rewrite <- Hout; apply zlen_temp_frames; lia).
  eexists. split; [| split_and!; [| | done]].
  - unfold duplex_callback. erewrite run_bind by reflexivity. rewrite Ec, Hcin, Hcout, Hfull, Hres.
    rewrite Z.eqb_refl. change (zlen (@nil frame) =? 0) with true. change (paContinue =? paContinue) with true. cbn [andb when].
    erewrite run_bind. 2: { unfold call_streamCallback. rewrite Ec, Hu, Ecall. reflexivity. }
    erewrite run_bind by reflexivity. erewrite run_bind by reflexivity. erewrite run_bind by reflexivity. reflexivity.
  - split; cbn; try done; rewrite ?zlen_nil, ?Hlen; try (done || lia).
    + exists li. rewrite lookup_insert_ne by done. split_and!; try done.
    + exists lo'. rewrite lookup_insert_eq. split_and!; try done. by rewrite Z.sub_diag.
  - destruct Hs as [Hic1 Hr Hics Hicok Hicf Hoc1 Hw Hocs (lh & Hho & Hwr) Hob Hsm]. split; cbn; try done.
    + apply readable_insert; [set_solver | done].
    + rewrite (host_frames_insert _ _ tbo); [done |].
      apply Forall_cons_1 in Hicok as [_ Hicok]. by apply Forall_cons_1 in Hicok as [? _].
    + exists lh. destruct Hho as [? ? ? ?]. split; [| done]. split; try done. by rewrite lookup_insert_ne by naive_solver.
Qed.

Lemma duplex_callback_skip s inb outb u : holds s inb outb u -> zlen inb < N -> duplex_callback s = Ret (tt, s).
Proof.
  intros Hh Hlt. unfold duplex_callback. erewrite run_bind by reflexivity.
  rewrite (h_cfg _ _ _ _ Hh), (h_in_count _ _ _ _ Hh), (proj2 (Z.eqb_neq (zlen inb) N)) by lia. done.
Qed.

Lemma duplex_loop_spec ob n fuel : forall s inb outb u r w hf out done, (Z.to_nat r <= fuel)%nat ->
  holds s inb outb u -> host s ob n r w hf out -> zlen hf = r -> zlen out = w ->
  zlen inb < N -> zlen outb = 0 \/ w = n -> zlen inb + zlen outb + r <= N + (n - w) ->
  exists fs s' inb' outb' u' w' out', duplex_loop fuel r 0 done s = Ret (done + r, s') /\
    Forall2 (Forall2 Ri) hf fs /\
    pushes N (answer cb) fs (inb, paContinue, (u, out ++ outb)) = (inb', paContinue, (u', out' ++ outb')) /\
    holds s' inb' outb' u' /\ host s' ob n 0 w' [] out' /\ zlen out' = w' /\ zlen inb' < N /\ (zlen outb' = 0 \/ w' = n) /\
    zlen inb' + zlen out' + zlen outb' = zlen inb + zlen out + zlen outb + r.
Proof.
  induction fuel as [| fuel IH]; intros s inb outb u r w hf out done Hf Hh Hs Hhf Hout Hlt Hdone Hsum;
    pose proof (hs_in_nonneg _ _ _ _ _ _ _ Hs) as Hr.
  { assert (r = 0) as -> by lia. apply zlen_0_nil in Hhf as ->. cbn [duplex_loop Z.gtb Z.compare].
    exists [], s, inb, outb, u, w, out. rewrite Z.add_0_r. split_and!; done || constructor || lia. }
  cbn [duplex_loop]. destruct (Z.gtb_spec r 0) as [Hpos | Hend].
  2: { assert (r = 0) as -> by lia. apply zlen_0_nil in Hhf as ->.
       exists [], s, inb, outb, u, w, out. rewrite Z.add_0_r. split_and!; done || constructor || lia. }
  destruct (copy_in_spec s inb outb u ob n r w hf out Hh Hs) as (fs1 & s1 & E1 & HR1 & Hh1 & Hs1).
  set (k := (N - zlen inb) `min` r) in *. pose proof (zlen_nonneg outb) as Hz. pose proof (zlen_nonneg inb) as Hzi.
  assert (zlen fs1 = k) as Hfs1.
  { apply Forall2_length in HR1. unfold zlen in *. rewrite length_take in HR1. lia. }
  assert (zlen (drop (Z.to_nat k) hf) = r - k) as Hhf1 by (unfold zlen in *; rewrite length_drop; lia).
  assert (zlen (inb ++ fs1) = zlen inb + k) as Hin1 by (rewrite zlen_app; lia).
  assert (exists s2 outb2 u2 w2 out2 inb2, (duplex_callback;; CopyTempOutputBuffersToHostOutputBuffers;; mret k) s1 = Ret (k, s2) /\
    pushes N (answer cb) fs1 (inb, paContinue, (u, out ++ outb)) = (inb2, paContinue, (u2, out2 ++ outb2)) /\
    holds s2 inb2 outb2 u2 /\ host s2 ob n (r - k) w2 (drop (Z.to_nat k) hf) out2 /\ zlen out2 = w2 /\ zlen inb2 < N /\
    (zlen outb2 = 0 \/ w2 = n) /\ zlen inb2 + zlen outb2 + (r - k) <= N + (n - w2) /\
    zlen inb2 + zlen out2 + zlen outb2 = zlen inb + zlen out + zlen outb + k)
    as (s2 & outb2 & u2 & w2 & out2 & inb2 & E2 & Ep & Hh2 & Hs2 & Hout2 & Hlt2 & Hd2 & Hsum2 & Hcons).
  { pose proof (hs_out_range _ _ _ _ _ _ _ Hs) as Hw.
    destruct (decide (zlen inb + k = N)) as [Hfull | Hshort].
    - assert (outb = []) as -> by (apply zlen_0_nil; lia).
      destruct (duplex_callback_call s1 (inb ++ fs1) u ob n (r - k) w _ out Hh1 Hs1 ltac:(lia)) as (s2 & E2 & Hh2 & Hs2 & Hlen).
      destruct (copy_out_spec _ _ _ _ _ _ _ _ _ _ Hh2 Hs2) as (s3 & E3 & Hh3 & Hs3). rewrite Hlen in Hh3, Hs3.
      set (k2 := (n - w) `min` N) in *. set (outs := (cb u (inb ++ fs1)).2) in *.
      exists s3, (drop (Z.to_nat k2) outs), (cb u (inb ++ fs1)).1, (w + k2), (out ++ take (Z.to_nat k2) outs), [].
      assert (zlen (drop (Z.to_nat k2) outs) = N - k2) as Hd by (unfold zlen in *; rewrite length_drop; lia).
      assert (zlen (take (Z.to_nat k2) outs) = k2) as Ht by (unfold zlen in *; rewrite length_take; lia).
      split_and!; try done; rewrite ?Hd, ?zlen_app, ?Ht, ?zlen_nil; try lia.
      + erewrite run_bind by exact E2. by erewrite run_bind by exact E3.
      + rewrite pushes_full by lia. cbn [answer fst snd Z.eqb paContinue]. unfold answer. cbn [fst snd]. rewrite app_nil_r.
        by rewrite <- app_assoc, take_drop.
    - destruct (copy_out_spec _ _ _ _ _ _ _ _ _ _ Hh1 Hs1) as (s3 & E3 & Hh3 & Hs3).
      assert ((n - w) `min` zlen outb = 0) as E0 by lia. rewrite E0, drop_0, take_0, app_nil_r, Z.add_0_r in *.
      exists s3, outb, u, w, out, (inb ++ fs1). split_and!; try done; try lia.
      + erewrite run_bind; [by erewrite run_bind by exact E3 |]. eapply duplex_callback_skip; [exact Hh1 | lia].
      + by rewrite pushes_short by lia. }
  destruct (IH s2 inb2 outb2 u2 (r - k) w2 (drop (Z.to_nat k) hf) out2 (done + k))
    as (fs2 & s' & inb' & outb' & u' & w' & out' & E3 & HR2 & Ep2 & Hh' & Hs' & Ho' & Hl' & Hd' & Hc'); try done; [lia |].
  exists (fs1 ++ fs2), s', inb', outb', u', w', out'. split_and!; try done; try lia.
  - erewrite run_bind.
    2: { unfold duplex_round. erewrite run_bind by reflexivity. rewrite (h_result _ _ _ _ Hh). rewrite andb_false_r.
         cbn [when]. erewrite run_bind by reflexivity. erewrite run_bind by exact E1. exact E2. }
    rewrite E3. f_equal. f_equal. lia.
  - rewrite <- (take_drop (Z.to_nat k) hf). by apply Forall2_app.
  - by rewrite pushes_app, Ep.
Qed.

(** One call takes all the input, and fills the output as long as enough is due;
    that it returns at all is part of it. *)
Lemma AdaptingProcess_spec s inb outb u ob n hf : holds s inb outb u -> host s ob n n 0 hf [] -> zlen hf = n ->
  zlen inb < N -> zlen inb + zlen outb <= N ->
  exists fs s' inb' u' all, AdaptingProcess true s = Ret (n, s') /\ Forall2 (Forall2 Ri) hf fs /\
    pushes N (answer cb) fs (inb, paContinue, (u, outb)) = (inb', paContinue, (u', all)) /\ zlen inb' < N /\
    zlen inb' + zlen all = zlen inb + zlen outb + n /\
    (n <= zlen all -> holds s' inb' (drop (Z.to_nat n) all) u' /\ zlen (hostInputChannels s').1 = ni /\
       (hostOutputChannels s').1 = out_chans c ob n /\ exists lo, mem s' !! ob = Some lo /\ Forall2 (Forall2 Ro) (take (Z.to_nat n) all) (written c n lo 0 n)).
Proof.
  intros Hh Hs Hhf Hlt Hle. pose proof (hs_out_range _ _ _ _ _ _ _ Hs) as Hn. pose proof (hs_small _ _ _ _ _ _ _ Hs) as Hsm.
  pose proof (zlen_nonneg outb) as Hz.
  destruct (copy_out_spec _ _ _ _ _ _ _ _ _ _ Hh Hs) as (s1 & E1 & Hh1 & Hs1).
  rewrite Z.sub_0_r, Z.add_0_l, app_nil_l in *. set (k := n `min` zlen outb) in *.
  assert (zlen (drop (Z.to_nat k) outb) = zlen outb - k) as Hd by (unfold zlen in *; rewrite length_drop; lia).
  assert (zlen (take (Z.to_nat k) outb) = k) as Ht by (unfold zlen in *; rewrite length_take; lia).
  destruct (duplex_loop_spec ob n (2 * Z.to_nat n + 2) s1 inb _ u n k hf _ 0 ltac:(lia) Hh1 Hs1 Hhf Ht Hlt)
    as (fs & s' & inb' & outb' & u' & w' & out' & E & HR & Ep & Hh' & Hs' & Ho' & Hl' & Hd' & Hc'); [lia.. |].
  rewrite take_drop in Ep. exists fs, s', inb', u', (out' ++ outb'). split_and!; try done.
  - unfold AdaptingProcess. erewrite run_bind by reflexivity. rewrite (hs_in_count _ _ _ _ _ _ _ Hs). cbn [fst snd].
    rewrite wrap_u_small, Z.add_0_r by lia. erewrite run_bind by exact E1. rewrite E. f_equal.
  - rewrite zlen_app. lia.
  - intros Hdue. assert (w' = n) as Hwn.
    { destruct Hd' as [H0 | H0]; [| done]. pose proof (hs_out_range _ _ _ _ _ _ _ Hs'). rewrite zlen_app in Hdue. lia. }
    assert (length out' = Z.to_nat n) as Hlen by (unfold zlen in Ho'; lia).
    rewrite drop_app_length', take_app_length' by done. split; [done |]. split; [apply (hs_in_chans _ _ _ _ _ _ _ Hs') |].
    split; [by rewrite (hs_out_chans _ _ _ _ _ _ _ Hs'), Hwn |].
    destruct (hs_out _ _ _ _ _ _ _ Hs') as (lo & Hho & HF). exists lo. split; [apply Hho |]. by rewrite <- Hwn.
Qed.
End duplex.
