(* ===== verification/PaOpen.v ===== *)
(** The buffer processor as the WASAPI binding initializes it (pa_process.c,
    PaUtil_InitializeBufferProcessor): what it allocates and the state it leaves; and
    frames as the bytes of an interleaved buffer. *)

From S2P Require Import Prelude PaConverters PaProcess PaProcessFrames PaProcessInput PaProcessDuplex.

(** * Allocation *)

Lemma next_block_above m b : is_Some (m !! b) -> b < next_block m.
Proof.
  unfold next_block. revert b.
  apply (map_fold_weak_ind (fun r m => forall b, is_Some (m !! b) -> b < r)).
  - intros b []. done.
  - intros i x m' r Hi IH b [y Hy]. destruct (decide (b = i)) as [-> |]; [lia |].
    rewrite lookup_insert_ne in Hy by done. pose proof (IH b ltac:(by eexists)). lia.
Qed.

Lemma next_block_fresh m : m !! next_block m = None.
Proof. destruct (m !! next_block m) eqn:E; [| done]. pose proof (next_block_above m _ (mk_is_Some _ _ E)). lia. Qed.

(** Memory that has grown. *)
Definition grown (m m' : memory) : Prop := forall b, is_Some (m !! b) -> m' !! b = m !! b.

Lemma grown_insert m b l : m !! b = None -> grown m (<[b := l]> m).
Proof. intros E b' [x Hx]. apply lookup_insert_ne. congruence. Qed.

Lemma grown_trans m1 m2 m3 : grown m1 m2 -> grown m2 m3 -> grown m1 m3.
Proof. intros H1 H2 b Hb. rewrite H2, H1; [done.. |]. by rewrite H1. Qed.

Lemma allocate size m : PaUtil_AllocateMemory size (m, []) =
  Ret (Ptr (next_block m) 0, (<[next_block m := replicate (Z.to_nat size) 0]> m, [])).
Proof. done. Qed.

(** Clearing what has just been allocated changes nothing. *)
Lemma clear_fresh first size m : 0 <= size ->
  clear_temp first (Ptr (next_block m) 0) size (<[next_block m := replicate (Z.to_nat size) 0]> m, []) =
    Ret (tt, (<[next_block m := replicate (Z.to_nat size) 0]> m, [])).
Proof.
  intros Hs. unfold clear_temp, when. destruct (first >? 0); [| done]. cbn [fst snd].
  assert (zlen (replicate (Z.to_nat size) 0) = size) as Hz by (unfold zlen; rewrite length_replicate; lia).
  rewrite (store_Ret _ _ _ _ (replicate (Z.to_nat size) 0)) by (rewrite ?lookup_insert_eq; (done || lia)).
  cbn [mbind res_bind]. rewrite insert_insert_eq. do 4 f_equal.
  apply list_eq. intros i. rewrite lookup_blit by lia. rewrite Hz.
  case_decide; [| done]. f_equal. lia.
Qed.

(** A direction whose formats are known, with all the memory it asks for. *)
Lemma init_direction_run count uf hf perTempBuffer first m :
  0 < Pa_GetSampleSize hf -> 0 < Pa_GetSampleSize uf ->
  exists ps ch m', init_direction count uf hf perTempBuffer first (m, []) =
      Ret (inr (mkDir (Pa_GetSampleSize hf) (Pa_GetSampleSize uf) (is_interleaved uf) (is_interleaved hf)
            (interleaved_format uf =? interleaved_format hf) (Ptr (next_block m) 0) ps ch), (m', [])) /\
    m' !! next_block m = Some (replicate (Z.to_nat (wrap_u 32 (perTempBuffer * Pa_GetSampleSize uf * count))) 0) /\
    grown m m'.
Proof.
  intros Hh Hu. unfold init_direction. rewrite (proj2 (Z.gtb_lt _ _) Hh), (proj2 (Z.gtb_lt _ _) Hu). cbn [negb].
  set (size := wrap_u 32 _). assert (0 <= size) as Hsize by (unfold size, wrap_u; pose proof (Z.mod_pos_bound (perTempBuffer * Pa_GetSampleSize uf * count) (2 ^ 32)); lia).
  set (m1 := <[next_block m := replicate (Z.to_nat size) 0]> m).
  assert (grown m m1) as H1 by apply grown_insert, next_block_fresh.
  assert (m1 !! next_block m = Some (replicate (Z.to_nat size) 0)) as E1 by apply lookup_insert_eq.
  erewrite run_bind by apply allocate. rewrite decide_False by done.
  erewrite run_bind by (by apply clear_fresh). fold m1.
  destruct (is_interleaved uf); cbn [negb andb].
  - erewrite run_bind by reflexivity. erewrite run_bind by apply allocate. rewrite decide_False by done.
    eexists _, _, _. split; [reflexivity |].
    assert (grown m1 (<[next_block m1 := replicate (Z.to_nat (sizeof_PaUtilChannelDescriptor * count * 2)) 0]> m1)) as H2
      by apply grown_insert, next_block_fresh.
    split; [| by eapply grown_trans]. by rewrite H2 by (rewrite E1; by eexists).
  - erewrite run_bind by apply allocate. rewrite bool_decide_eq_false_2 by done. cbn [andb].
    erewrite run_bind by apply allocate. rewrite decide_False by done.
    eexists _, _, _. split; [reflexivity |].
    set (m2 := <[next_block m1 := _]> m1).
    assert (grown m1 m2) as H2 by apply grown_insert, next_block_fresh.
    assert (grown m2 (<[next_block m2 := replicate (Z.to_nat (sizeof_PaUtilChannelDescriptor * count * 2)) 0]> m2)) as H3
      by apply grown_insert, next_block_fresh.
    pose proof (grown_trans _ _ _ H2 H3) as H23.
    split; [| by eapply grown_trans]. by rewrite H23 by (rewrite E1; by eexists).
Qed.

(** * Opening an input stream

    The WASAPI binding passes [paUtilBoundedHostBufferSize] for every stream with
    an input, so blocks of a fixed size are always adapted. *)

Section opened.
Context {U : Type} (table : PaUtilConverterTable) (callback : PaStreamCallback U).
Context (count uf hf N hostFrames rate flags : Z) (u : U) (R : list Z -> list Z -> Prop) (conv : PaUtilConverter).

Definition open_input : st heap (Z + processor U) :=
  PaUtil_InitializeBufferProcessor table count uf hf 0 0 0 (of_ulong rate) flags N hostFrames
    paUtilBoundedHostBufferSize (Some callback) u.

(** The flags for the input converter: 24 of 32 bits need no dither. *)
Definition input_flags : Z :=
  if (Z.land flags paDitherOff =? 0) && negb (Z.land hf paInt32 =? 0) && negb (Z.land uf paInt24 =? 0)
  then Z.lor flags paDitherOff else flags.

Lemma open_input_run (ok : U -> Prop) m : 0 < count -> 0 < N -> Z.land flags paNeverDropInput = 0 ->
  0 < Pa_GetSampleSize hf -> 0 < Pa_GetSampleSize uf -> N * Pa_GetSampleSize uf * count < 2 ^ 32 ->
  PaUtil_SelectConverter table hf uf input_flags = Some conv ->
  converts conv (Pa_GetSampleSize hf) (Pa_GetSampleSize uf) R -> ok u ->
  exists bp h, open_input (m, []) = Ret (inr bp, h) /\
    let c := cfg bp in let tb := next_block m in
    input_config c tb R /\ fed c tb ok bp ([], paContinue, u) /\ grown m (mem bp) /\
    useNonAdaptingProcess c = false /\ outputChannelCount c = 0 /\ hostInputIsInterleaved c = is_interleaved hf /\
    userInputIsInterleaved c = is_interleaved uf /\ inputChannelCount c = count /\ framesPerUserBuffer c = N /\
    bytesPerHostInputSample c = Pa_GetSampleSize hf /\ bytesPerUserInputSample c = Pa_GetSampleSize uf /\
    streamCallback c = callback.
Proof.
  intros Hcnt HN Hdrop Hh Hu Hsz Hconv HR Hok. unfold open_input, PaUtil_InitializeBufferProcessor.
  rewrite Hdrop. cbn [Z.eqb negb andb]. erewrite run_bind.
  2: { unfold plan_buffers. rewrite (proj2 (Z.eqb_neq N 0)) by lia. cbn [is_fixed andb Z.gtb Z.compare].
       rewrite andb_false_r. reflexivity. }
  cbn [firstInput firstOutput perTemp nonAdapting]. rewrite (proj2 (Z.gtb_lt _ _) Hcnt).
  destruct (init_direction_run count uf hf N 0 m Hh Hu) as (ps & ch & m' & E & Em & Hg).
  erewrite run_bind by exact E. cbn [Z.gtb Z.compare]. erewrite run_bind by reflexivity.
  eexists _, _. split; [reflexivity |].
  cbn [cfg mem streamCallback default framesPerUserBuffer inputChannelCount bytesPerHostInputSample bytesPerUserInputSample
       useNonAdaptingProcess outputChannelCount hostInputIsInterleaved userInputIsInterleaved hostBytes userBytes interleavedUser interleavedHost temp].
  rewrite wrap_u_small in Em by nia.
  split_and!; try done.
  - split; cbn; try done; [lia |]. exists conv. split; [exact Hconv | exact HR].
  - split; cbn; try done.
    + eexists. split; [exact Em |]. split; [| done]. unfold zlen. rewrite length_replicate. rewrite Z2Nat.id by nia. ring.
    + unfold zlen. rewrite length_replicate. lia.
Qed.
End opened.

(** * The bytes of interleaved frames *)

Definition frames_bytes (fs : list frame) : list Z := concat (concat fs).

Lemma concat_concat {A} (ls : list (list (list A))) : concat (concat ls) = concat (@concat A <$> ls).
Proof. induction ls as [| l ls IH]; [done |]. cbn [concat fmap list_fmap]. by rewrite concat_app, IH. Qed.

Lemma slice_app (l : list Z) o w w' : 0 <= o -> 0 <= w -> 0 <= w' -> slice o w l ++ slice (o + w) w' l = slice o (w + w') l.
Proof.
  intros. unfold slice. rewrite !Z2Nat.inj_add by lia. rewrite <- drop_drop. by rewrite take_take_drop.
Qed.

Lemma concat_slices (l : list Z) o w k : 0 <= o -> 0 <= w ->
  concat ((fun j => slice (o + j * w) w l) <$> seqZ 0 (Z.of_nat k)) = slice o (Z.of_nat k * w) l.
Proof.
  intros Ho Hw. induction k as [| k IH]; [done |].
  replace (Z.of_nat (S k)) with (Z.of_nat k + 1) by lia. rewrite seqZ_app, fmap_app, concat_app, IH by lia.
  rewrite seqZ_cons by lia. change (seqZ _ (Z.pred 1)) with (@nil Z). cbn [fmap list_fmap concat].
  rewrite app_nil_r, Z.add_0_l. rewrite slice_app by nia. f_equal. lia.
Qed.

Lemma concat_slices_Z (l : list Z) o w k : 0 <= o -> 0 <= w -> 0 <= k ->
  concat ((fun j => slice (o + j * w) w l) <$> seqZ 0 k) = slice o (k * w) l.
Proof. intros Ho Hw Hk. rewrite <- (Z2Nat.id k) by done. by apply concat_slices. Qed.

Lemma whole_frames_block m nch b p n : 0 < nch -> 0 < b -> 0 < n ->
  whole_frames nch b (user_frames m nch b (UInterleaved p) n) ->
  exists blk off l, p = Ptr blk off /\ m !! blk = Some l /\ 0 <= off /\ off + n * nch * b <= zlen l.
Proof.
  intros Hnch Hb Hn H.
  assert (forall j c, 0 <= j < n -> 0 <= c < nch -> zlen (peek m (padd p (b * (j * nch + c))) b) = b) as Hs.
  { intros j c Hj Hc. unfold whole_frames, user_frames in H. rewrite Forall_fmap in H.
    apply (Forall_lookup_1 _ _ (Z.to_nat j) j) in H; [| apply lookup_seqZ; lia].
    destruct H as [_ H]. unfold user_frame in H. rewrite Forall_fmap in H.
    apply (Forall_lookup_1 _ _ (Z.to_nat c) c) in H; [| apply lookup_seqZ; lia]. exact H. }
  pose proof (Hs 0 0 ltac:(lia) ltac:(lia)) as H0. pose proof (Hs (n - 1) (nch - 1) ltac:(lia) ltac:(lia)) as H1.
  destruct p as [| blk off]; cbn [padd peek] in *; [rewrite zlen_nil in *; lia |].
  destruct (m !! blk) as [l |] eqn:Em; [| rewrite zlen_nil in *; lia].
  destruct (decide (0 <= off + b * (0 * nch + 0))) as [Hoff |]; [| rewrite zlen_nil in *; lia].
  assert (0 <= b * ((n - 1) * nch + (nch - 1))) as Hp by (apply Z.mul_nonneg_nonneg; nia).
  rewrite decide_True in H1 by lia. exists blk, off, l. split_and!; try done; [lia |].
  revert H1. unfold zlen, slice. rewrite length_take, length_drop. nia.
Qed.

Lemma whole_frames_load m nch b p n : 0 < nch -> 0 < b -> 0 < n ->
  whole_frames nch b (user_frames m nch b (UInterleaved p) n) ->
  load m p (n * nch * b) = Ret (frames_bytes (user_frames m nch b (UInterleaved p) n)).
Proof.
  intros Hnch Hb Hn H. destruct (whole_frames_block _ _ _ _ _ Hnch Hb Hn H) as (blk & off & l & -> & Em & Hoff & Hle).
  rewrite (load_Ret _ _ _ _ l) by (done || nia). f_equal. unfold frames_bytes. rewrite concat_concat.
  assert (@concat Z <$> user_frames m nch b (UInterleaved (Ptr blk off)) n =
    (fun j => slice (off + j * (nch * b)) (nch * b) l) <$> seqZ 0 n) as ->.
  { unfold user_frames. rewrite <- list_fmap_compose. apply list_fmap_ext. intros i j [-> Hj]%lookup_seqZ.
    unfold compose, user_frame, user_sample. cbn [padd].
    assert ((fun c => peek m (Ptr blk (off + b * ((0 + Z.of_nat i) * nch + c))) b) <$> seqZ 0 nch =
      (fun c => slice ((off + (0 + Z.of_nat i) * (nch * b)) + c * b) b l) <$> seqZ 0 nch) as ->.
    { apply list_fmap_ext. intros i' c [-> Hc]%lookup_seqZ. rewrite (peek_Ptr _ _ _ _ l) by (done || nia). f_equal. ring. }
    by rewrite concat_slices_Z by nia. }
  rewrite concat_slices_Z by nia. f_equal. ring.
Qed.
