(* ===== verification/PaHeap.v ===== *)
(** The memory of PortAudio's buffer processor (pa_process.c,
    PaUtil_InitializeBufferProcessor and PaUtil_TerminateBufferProcessor): whichever
    allocation fails, nothing is left behind, and what a processor holds is given
    back when it is terminated. *)

From S2P Require Import Prelude PaConverters PaProcess PaProcessFrames PaProcessInput PaProcessDuplex PaOpen.

(** [m'] is [m] with the blocks [bs] allocated besides. *)
Record extends (m : memory) (bs : list Z) (m' : memory) : Prop := {
  ex_nodup : NoDup bs;
  ex_new : forall b, b ∈ bs -> m !! b = None /\ is_Some (m' !! b);
  ex_old : forall b, b ∉ bs -> m' !! b = m !! b }.

Lemma extends_refl m : extends m [] m.
Proof. split; [constructor | set_solver | done]. Qed.

Lemma extends_allocate m bs m' l : extends m bs m' -> extends m (bs ++ [next_block m']) (<[next_block m' := l]> m').
Proof.
  intros [Hn Hnew Hold]. pose proof (next_block_fresh m') as Hf.
  assert (next_block m' ∉ bs) as Hni by (intros Hb; destruct (Hnew _ Hb) as [_ [x Hx]]; congruence).
  split.
  - apply list.NoDup_app. split_and!; [done | set_solver | apply list.NoDup_singleton].
  - intros b [Hb | ->%list_elem_of_singleton]%elem_of_app.
    + split; [by apply Hnew |]. rewrite lookup_insert_ne by set_solver. by apply Hnew.
    + rewrite lookup_insert_eq. split; [by rewrite <- Hold | by eexists].
  - intros b Hb. rewrite not_elem_of_app, list_elem_of_singleton in Hb. destruct Hb as [Hb Hne].
    rewrite lookup_insert_ne by done. by apply Hold.
Qed.

(** The blocks behind the pointers that are to be freed. *)
Definition block_of (p : ptr) : list Z := match p with Ptr b _ => [b] | NULL => [] end.
Definition blocks_of (ps : list ptr) : list Z := concat (block_of <$> ps).
Definition at_start (p : ptr) : Prop := match p with Ptr _ off => off = 0 | NULL => True end.

Lemma blocks_of_app ps qs : blocks_of (ps ++ qs) = blocks_of ps ++ blocks_of qs.
Proof. unfold blocks_of. by rewrite fmap_app, concat_app. Qed.

Lemma free_all m ps : forall m' oom, Forall at_start ps -> extends m (blocks_of ps) m' ->
  for_each ps PaUtil_FreeMemory (m', oom) = Ret (tt, (m, oom)).
Proof.
  induction ps as [| p ps IH]; intros m' oom Hat Hex.
  { destruct Hex as [_ _ Hold]. assert (m' = m) as -> by (apply map_eq; intros b; apply Hold; set_solver). done. }
  apply Forall_cons_1 in Hat as [Hp Hat]. cbn [for_each]. destruct p as [| b off]; [by apply IH |].
  cbn in Hp. subst off. destruct Hex as [Hn Hnew Hold]. change (blocks_of (Ptr b 0 :: ps)) with (b :: blocks_of ps) in *.
  destruct (Hnew b ltac:(set_solver)) as [Hb [x Hx]]. apply list.NoDup_cons in Hn as [Hni Hn].
  erewrite run_bind by (unfold PaUtil_FreeMemory; cbn [fst snd]; rewrite Hx; reflexivity).
  apply IH; [done |]. split; [done | |].
  - intros b' Hb'. destruct (Hnew b' ltac:(set_solver)). by rewrite lookup_delete_ne by set_solver.
  - intros b' Hb'. destruct (decide (b' = b)) as [-> |]; [by rewrite lookup_delete_eq |].
    rewrite lookup_delete_ne by done. apply Hold. set_solver.
Qed.

(** An allocation: a null pointer, or a block of zeros. *)
Lemma allocate_cases size m oom : exists p m' oom', PaUtil_AllocateMemory size (m, oom) = Ret (p, (m', oom')) /\
  (p = NULL /\ m' = m \/ p = Ptr (next_block m) 0 /\ m' = <[next_block m := replicate (Z.to_nat size) 0]> m).
Proof. unfold PaUtil_AllocateMemory. destruct oom as [| [|] oom]; cbn; eexists _, _, _; (split; [reflexivity |]); auto. Qed.

Lemma extends_block m bs m' p m2 size : extends m bs m' ->
  (p = NULL /\ m2 = m' \/ p = Ptr (next_block m') 0 /\ m2 = <[next_block m' := replicate (Z.to_nat size) 0]> m') ->
  extends m (bs ++ block_of p) m2 /\ at_start p.
Proof.
  intros Hex [[-> ->] | [-> ->]]; cbn; [by rewrite app_nil_r |]. split; [by apply extends_allocate | done].
Qed.

Lemma clear_fresh_oom first size m oom : 0 <= size ->
  clear_temp first (Ptr (next_block m) 0) size (<[next_block m := replicate (Z.to_nat size) 0]> m, oom) =
    Ret (tt, (<[next_block m := replicate (Z.to_nat size) 0]> m, oom)).
Proof.
  intros Hs. pose proof (clear_fresh first size m Hs) as H. unfold clear_temp, when in *.
  destruct (first >? 0); [| done]. cbn [fst snd] in *. destruct (store _ _ _) as [m' |]; [| done].
  cbn [mbind res_bind] in *. congruence.
Qed.

Lemma sample_size_error f : 0 < Pa_GetSampleSize f \/ Pa_GetSampleSize f = paSampleFormatNotSupported.
Proof. unfold Pa_GetSampleSize. destruct (format_of f) as [x |]; [left; by destruct x | by right]. Qed.

(** One direction. *)
Lemma init_direction_cases count uf hf perTempBuffer first m bs m1 oom : extends m bs m1 ->
  exists r m' oom', init_direction count uf hf perTempBuffer first (m1, oom) = Ret (r, (m', oom')) /\
    let ps := match r with inl (_, ps) => ps | inr d => [temp d; pointers d; channels d] end in
    extends m (bs ++ blocks_of ps) m' /\ Forall at_start ps /\
    match r with inl (e, _) => e < 0 | inr _ => True end.
Proof.
  intros Hex. unfold init_direction.
  assert (extends m (bs ++ blocks_of []) m1 /\ Forall at_start []) as [Hex0 Hat0] by (rewrite app_nil_r; by split).
  destruct (sample_size_error hf) as [Hh | ->]; [| by eexists (inl (_, [])), m1, oom].
  rewrite (proj2 (Z.gtb_lt _ _) Hh). cbn [negb].
  destruct (sample_size_error uf) as [Hu | ->]; [| by eexists (inl (_, [])), m1, oom].
  rewrite (proj2 (Z.gtb_lt _ _) Hu). cbn [negb]. set (size := wrap_u 32 _).
  assert (0 <= size) as Hsize.
  { unfold size, wrap_u. pose proof (Z.mod_pos_bound (perTempBuffer * Pa_GetSampleSize uf * count) (2 ^ 32)). lia. }
  destruct (allocate_cases size m1 oom) as (t & m2 & oom2 & E & Ht). erewrite run_bind by exact E.
  destruct (extends_block _ _ _ _ _ _ Hex Ht) as [Hex2 Hat2].
  destruct Ht as [[-> ->] | [-> ->]]; [rewrite decide_True by done; by eexists (inl (_, [])), m1, oom2 |].
  rewrite decide_False by done. erewrite run_bind by (by apply clear_fresh_oom).
  set (t := Ptr _ 0) in *. set (m2 := <[_ := _]> m1) in *. clearbody t m2.
  assert (exists ps m3 oom3, (if is_interleaved uf then mret NULL else PaUtil_AllocateMemory (sizeof_pointer * count)) (m2, oom2) = Ret (ps, (m3, oom3)) /\
    extends m (bs ++ block_of t ++ block_of ps) m3 /\ at_start ps) as (ps & m3 & oom3 & E3 & Hex3 & Hat3).
  { destruct (is_interleaved uf); [exists NULL, m2, oom2; by rewrite app_nil_r |].
    destruct (allocate_cases (sizeof_pointer * count) m2 oom2) as (p & m3 & oom3 & E3 & Hp).
    destruct (extends_block _ _ _ _ _ _ Hex2 Hp) as [? ?]. exists p, m3, oom3. by rewrite app_assoc. }
  erewrite run_bind by exact E3. destruct (negb (is_interleaved uf) && bool_decide (ps = NULL)) eqn:Eps.
  { apply andb_true_iff in Eps as [_ ->%bool_decide_eq_true]. eexists (inl (_, [t])), m3, oom3. split; [reflexivity |].
    split_and!; [exact Hex3 | by repeat constructor | done]. }
  destruct (allocate_cases (sizeof_PaUtilChannelDescriptor * count * 2) m3 oom3) as (ch & m4 & oom4 & E4 & Hch).
  erewrite run_bind by exact E4. destruct (extends_block _ _ _ _ _ _ Hex3 Hch) as [Hex4 Hat4].
  destruct (decide (ch = NULL)) as [-> |].
  - eexists (inl (_, [t; ps])), m4, oom4. split; [reflexivity |].
    unfold blocks_of. cbn. rewrite app_nil_r in *. split_and!; [done | by repeat constructor | done].
  - eexists (inr _), m4, oom4. split; [reflexivity |]. cbn [temp pointers channels].
    unfold blocks_of. cbn. rewrite <- !app_assoc in Hex4. rewrite app_nil_r. split_and!; [done | by repeat constructor | done].
Qed.

(** A direction that the stream does not have allocates nothing. *)
Lemma maybe_direction_cases (has : bool) count uf hf perTempBuffer first m bs m1 oom : extends m bs m1 ->
  exists r m' oom', (if has then init_direction count uf hf perTempBuffer first else mret (inr no_direction)) (m1, oom) = Ret (r, (m', oom')) /\
    let ps := match r with inl (_, ps) => ps | inr d => [temp d; pointers d; channels d] end in
    extends m (bs ++ blocks_of ps) m' /\ Forall at_start ps /\
    match r with inl (e, _) => e < 0 | inr _ => True end.
Proof.
  intros Hex. destruct has; [by apply init_direction_cases |].
  eexists (inr no_direction), m1, oom. split; [reflexivity |]. cbn. rewrite app_nil_r. split_and!; [done | by repeat constructor | done].
Qed.

(** Whatever the formats, the sizes and the flags, and whichever of the
    allocations fail: initialization returns; when it returns an error, all that it
    had allocated by then is freed; and when it succeeds, terminating the processor
    frees all it holds, each block once, and nothing else. *)
Theorem initialize_leaves_nothing {U} table ni uif hif no uof hof rate flags N hostFrames mode
    (callback : option (PaStreamCallback U)) u m oom p :
  plan_buffers ni no N hostFrames mode = Ret p ->
  exists r m' oom', PaUtil_InitializeBufferProcessor table ni uif hif no uof hof rate flags N hostFrames mode callback u (m, oom) =
      Ret (r, (m', oom')) /\
    match r with
    | inl e => e < 0 /\ m' = m
    | inr bp => mem bp = m' /\ PaUtil_TerminateBufferProcessor bp (m', oom') = Ret (tt, (m, oom'))
    end.
Proof.
  intros Hp. unfold PaUtil_InitializeBufferProcessor. case_match.
  { by eexists (inl _), m, oom. }
  erewrite run_bind by (rewrite Hp; reflexivity).
  destruct (maybe_direction_cases (ni >? 0) ni uif hif (perTemp p) (firstInput p) m [] m oom (extends_refl m))
    as (ri & m1 & oom1 & E1 & Hex1 & Hat1 & He1).
  erewrite run_bind by exact E1. destruct ri as [[e ps] | di].
  { erewrite run_bind by (by apply free_all). by eexists (inl _), m, oom1. }
  destruct (maybe_direction_cases (no >? 0) no uof hof (perTemp p) (firstOutput p) m _ m1 oom1 Hex1)
    as (ro & m2 & oom2 & E2 & Hex2 & Hat2 & He2).
  rewrite app_nil_l, <- blocks_of_app in Hex2.
  erewrite run_bind by exact E2. destruct ro as [[e ps] | do].
  { erewrite run_bind by (apply free_all; [by apply Forall_app | done]). by eexists (inl _), m, oom2. }
  eexists (inr _), m2, oom2. split; [reflexivity |]. split; [done |].
  apply free_all; [by apply Forall_app | done].
Qed.

(** The last allocation fails. *)
Example initialize_leaves_nothing_witness :
  exists r m' oom', PaUtil_InitializeBufferProcessor (U := unit) (paConverters (fun _ => None)) 2 paInt16 paInt16 2 paInt16 paInt16
      (of_ulong 48000) paClipOff 1024 441 paUtilFixedHostBufferSize None tt ({[7 := []]}, [false; false; false; true]) = Ret (r, (m', oom')) /\
    match r with
    | inl e => e < 0 /\ m' = {[7 := []]}
    | inr bp => mem bp = m' /\ PaUtil_TerminateBufferProcessor bp (m', oom') = Ret (tt, ({[7 := []]}, oom'))
    end.
Proof. apply (initialize_leaves_nothing _ _ _ _ _ _ _ _ _ _ _ _ _ _ _ _ (mkPlan false 1024 1023 0)). vm_compute. reflexivity. Defined.
