(* ===== verification/PaSender.v ===== *)
(** The sender's stream, from the call that opens it to the bytes on the wire: the
    buffer processor as the WASAPI binding initializes it, the packets of the
    capture device, the callback and the sending thread of TestPA.cpp. *)

From S2P Require Import Prelude TcpPerf PaConverters PaFloat PaProcess PaProcessFrames PaProcessInput PaOpen.

(** * The sender

    [recordCallback] on the buffer it is given; after it the sending thread has its
    turn before the next block comes.  The data are those of the sender with what
    it has put on the wire. *)

Definition sender_callback : PaStreamCallback (UserData * list Z) := fun ui uo n t fl m u =>
  match ui with
  | UInterleaved p =>
      input ← load m p (wrap_u 32 (n * 4));
      u1 ← recordCallback input n u.1;
      r ← threadFunctionSendData u1;
      Ret (paContinue, m, (r.1, u.2 ++ r.2))
  | _ => Fault NullPointer
  end.

(** A block of frames as an event of the model of the sender. *)
Definition block_input (b : list frame) : list Z * Z := (frames_bytes b, zlen b).

Definition sender_step (u : UserData * list Z) (b : list frame) : Z * (UserData * list Z) :=
  (paContinue, match sender (paced [block_input b]) u.1 with Ret (u', out) => (u', u.2 ++ out) | Fault _ => u end).

Definition sender_ok (u : UserData * list Z) : Prop := zlen (audio_data u.1) = sizeof_audio_data.

Lemma zlen_frames_bytes nch b fs : whole_frames nch b fs -> zlen (frames_bytes fs) = zlen fs * nch * b.
Proof.
  unfold frames_bytes. rewrite concat_concat. induction 1 as [| f fs [Hf Hs] Hfs IH]; [done |].
  cbn [fmap list_fmap concat]. rewrite zlen_app, IH, zlen_cons.
  assert (zlen (concat f) = nch * b) as ->; [| ring]. rewrite <- Hf. clear - Hs.
  induction Hs as [| s f Hs Hfs IH]; [done |]. cbn [concat]. rewrite zlen_app, zlen_cons, IH, Hs. ring.
Qed.

Lemma sender_step_run u b : sender_ok u -> zlen b = FRAMES_PER_BUFFER -> whole_frames 2 2 b ->
  exists u1 u2, recordCallback (frames_bytes b) FRAMES_PER_BUFFER u.1 = Ret u1 /\
    threadFunctionSendData u1 = Ret (u2, encode (block_packet (block_input b))) /\
    (sender_step u b).2 = (u2, u.2 ++ encode (block_packet (block_input b))) /\ sender_ok (sender_step u b).2.
Proof.
  intros Hu Hb Hw. pose proof (zlen_frames_bytes 2 2 b Hw) as Hz. rewrite Hb in Hz.
  assert (block_ok (block_input b)) as Hbo.
  { unfold block_ok, block_input. cbn [fst snd]. rewrite Hb, Hz. unfold FRAMES_PER_BUFFER. lia. }
  destruct (record_and_send (block_input b) u.1 Hbo Hu) as (u1 & u2 & E1 & _ & E2 & Hu2).
  exists u1, u2. assert ((sender_step u b).2 = (u2, u.2 ++ encode (block_packet (block_input b)))) as Es.
  { unfold sender_step. cbn [snd]. unfold paced. cbn [fmap list_fmap mjoin list_join app sender].
    rewrite E1. cbn [mbind res_bind]. rewrite E2. cbn. by rewrite app_nil_r. }
  split_and!; [| done | done |].
  - unfold block_input in E1. cbn [fst snd] in E1. by rewrite Hb in E1.
  - rewrite Es. exact Hu2.
Qed.

#[export] Instance sender_callback_law :
  InputCallback sender_callback true 2 2 FRAMES_PER_BUFFER sender_ok sender_step.
Proof.
  intros ui t fl m u Hu Hlay Hw. destruct ui as [| p | ps]; try done.
  set (fs := user_frames m 2 2 (UInterleaved p) FRAMES_PER_BUFFER) in *.
  assert (zlen fs = FRAMES_PER_BUFFER) as Hfs.
  { unfold fs, user_frames, zlen. by rewrite length_fmap, length_seqZ. }
  destruct (sender_step_run u fs Hu Hfs Hw) as (u1 & u2 & E1 & E2 & Es & Hok).
  split; [| done]. unfold sender_callback. change (wrap_u 32 (FRAMES_PER_BUFFER * 4)) with (FRAMES_PER_BUFFER * 2 * 2).
  rewrite (whole_frames_load m 2 2 p FRAMES_PER_BUFFER) by done. cbn [mbind res_bind]. fold fs.
  rewrite E1. cbn [mbind res_bind]. rewrite E2. cbn [mbind res_bind fst snd]. by rewrite Es.
Qed.

(** Any number of blocks. *)
Lemma sender_steps blocks : forall u, sender_ok u ->
  Forall (fun b => zlen b = FRAMES_PER_BUFFER /\ whole_frames 2 2 b) blocks ->
  exists u', sender (paced (block_input <$> blocks)) u.1 = Ret (u', encodes (block_packet <$> (block_input <$> blocks))) /\
    fold_left (fun u b => (sender_step u b).2) blocks u = (u', u.2 ++ encodes (block_packet <$> (block_input <$> blocks))).
Proof.
  induction blocks as [| b blocks IH]; intros u Hu Hall.
  { exists u.1. split; [done |]. cbn. rewrite app_nil_r. by destruct u. }
  apply Forall_cons_1 in Hall as [[Hb Hw] Hall].
  destruct (sender_step_run u b Hu Hb Hw) as (u1 & u2 & E1 & E2 & Es & Hok).
  destruct (IH _ Hok Hall) as (u' & E & Ef). exists u'. rewrite Es in E, Ef. cbn [fst snd] in E, Ef. split.
  - cbn [fmap list_fmap].
    change (paced (block_input b :: (block_input <$> blocks))) with
      (Records (frames_bytes b) (zlen b) :: ThreadRuns :: paced (block_input <$> blocks)).
    cbn [sender]. rewrite Hb, E1. cbn [mbind res_bind]. rewrite E2. cbn [mbind res_bind fst snd]. rewrite E. reflexivity.
  - cbn [fold_left]. rewrite Es, Ef. f_equal. cbn [fmap list_fmap]. by rewrite <- app_assoc.
Qed.

Lemma Forall2_right {A B} (P : A -> B -> Prop) (Q : B -> Prop) l k :
  Forall2 P l k -> (forall x y, P x y -> Q y) -> Forall Q k.
Proof. induction 1; constructor; eauto. Qed.

(** Frames of [nch] samples have become frames of as many samples of [b] bytes. *)
Lemma converted_whole (R : list Z -> list Z -> Prop) nch hb b ps fs : 0 <= nch ->
  Forall2 (Forall2 (fun x v => R x v /\ zlen v = b)) (packets_frames nch hb ps) fs -> whole_frames nch b fs.
Proof.
  intros Hn H. unfold whole_frames.
  assert (Forall (fun f => zlen f = nch) (packets_frames nch hb ps)) as Hl.
  { unfold packets_frames. apply Forall_concat, Forall_fmap, Forall_lookup. intros i p _. cbn.
    apply Forall_fmap, Forall_lookup. intros j k _. cbn. unfold zlen. rewrite length_fmap, length_seqZ. lia. }
  revert Hl. induction H as [| x f xs fs Hf Hfs IH]; intros Hl; [done |]. apply Forall_cons_1 in Hl as [Hx Hl].
  constructor; [| by apply IH]. split.
  - apply Forall2_length in Hf. unfold zlen in *. lia.
  - eapply Forall2_right; [exact Hf |]. by intros ? ? [].
Qed.

Lemma Forall2_Forall2_impl {A B} (P Q : A -> B -> Prop) (l : list (list A)) k : (forall x y, P x y -> Q x y) ->
  Forall2 (Forall2 P) l k -> Forall2 (Forall2 Q) l k.
Proof. intros H. apply Forall2_impl. intros x y Hxy. eapply Forall2_impl; [exact H | exact Hxy]. Qed.

(** C4. From the sound card to the wire: for each of the six host formats the stream
    the sender opens (two channels of 16 bits, 1024 frames for each call, no
    clipping, dither) takes packets of any sizes without a fault; their frames,
    converted sample by sample by the expression the tables select, are cut into
    blocks of 1024 with less than a block kept back, and what the sending thread puts
    on the wire, one block at a time, is the packets of exactly these blocks, in
    order. *)
Theorem capture_to_wire {ev : Evaluation} hf f hostFrames m u captured packets :
  format_of hf = Some f -> is_interleaved hf = true ->
  is_Some (m !! captured) -> zlen (audio_data u) = sizeof_audio_data ->
  Forall (PaProcessInput.packet_ok 2 (sample_size f) FRAMES_PER_BUFFER) packets ->
  exists bp h, open_input (paConverters float_entries) sender_callback 2 paInt16 hf FRAMES_PER_BUFFER hostFrames 48000 paClipOff
      (u, []) (m, []) = Ret (inr bp, h) /\
    exists blocks rest s' u', ProcessInputBuffer captured packets bp = Ret (false, s') /\
      Forall2 (Forall2 (fun x v => exists w, v = expression (select_id f Int16 paClipOff) w x))
        (packets_frames 2 (sample_size f) packets) (concat blocks ++ rest) /\
      Forall (fun b => zlen b = FRAMES_PER_BUFFER) blocks /\ zlen rest < FRAMES_PER_BUFFER /\
      sender (paced (block_input <$> blocks)) u = Ret (u', encodes (block_packet <$> (block_input <$> blocks))) /\
      userData s' = (u', encodes (block_packet <$> (block_input <$> blocks))).
Proof.
  intros Ef Hil [l0 Hcap] Hu Hps. set (R := fun x v => exists w, v = expression (select_id f Int16 paClipOff) w x).
  assert (Pa_GetSampleSize hf = sample_size f) as Esz by (unfold Pa_GetSampleSize; by rewrite Ef).
  destruct (entry_converts f Int16 paClipOff) as (conv & Econv & HR). fold R in HR.
  assert (implemented (select_id f Int16 paClipOff) = true) as Himp by (by destruct f). rewrite Himp in HR.
  destruct (open_input_run (paConverters float_entries) sender_callback 2 paInt16 hf FRAMES_PER_BUFFER hostFrames 48000 paClipOff (u, [])
    (fun x v => R x v /\ zlen v = 2) conv sender_ok m)
    as (bp & h & E & Hic & Hfed & _ & Hna & Hout & Hint & Huint & Ech & EN & Ehb & Eub & Ecb); try done.
  { rewrite Esz. by destruct f. }
  { unfold input_flags. cbn [paInt16 paInt24 Z.land]. rewrite andb_false_r. unfold PaUtil_SelectConverter. by rewrite Ef. }
  { rewrite Esz. by apply converts_size. }
  exists bp, h. split; [done |]. set (c := cfg bp) in *. rewrite Esz in Ehb.
  assert (captured <> next_block m) as Hne by (intros ->; by rewrite next_block_fresh in Hcap).
  assert (InputCallback (streamCallback c) (userInputIsInterleaved c) (inputChannelCount c) (bytesPerUserInputSample c)
    (framesPerUserBuffer c) sender_ok sender_step) as Hlaw.
  { rewrite Ecb, Huint, Ech, EN, Eub. apply sender_callback_law. }
  destruct (recording_session c (next_block m) _ sender_ok sender_step Hic captured packets bp [] (u, []))
    as (taken & fs & s' & stop & Erun & HF & Hq & Hgo & Hstop); try done.
  { split; [done | done | by rewrite Hint | by rewrite Ech]. }
  { by rewrite Ech, Ehb, EN. }
  rewrite Ech, Ehb in HF. rewrite EN in Hq.
  destruct (pushes_blocks FRAMES_PER_BUFFER sender_step fs (u, [])) as (blocks & rest & -> & Hb & Hrest & Ep); [done | done |].
  rewrite Ep in Hq. assert (stop = false) as ->.
  { destruct stop; [| done]. by destruct (Hstop eq_refl); rewrite (fed_result _ _ _ _ _ Hq). }
  destruct (Hgo eq_refl) as [Htaken _]. rewrite take_ge in HF by done.
  pose proof (converted_whole R 2 _ 2 _ _ ltac:(lia) HF) as Hw. unfold whole_frames in Hw. apply Forall_app in Hw as [Hw _].
  destruct (sender_steps blocks (u, [])) as (u' & Es & Ecb'); [done | |].
  { clear - Hb Hw. induction Hb as [| b blocks Hb Hbs IH]; [constructor |]. cbn [concat] in Hw. apply Forall_app in Hw as [H1 H2].
    constructor; [done | by apply IH]. }
  exists blocks, rest, s', u'. split_and!; try done.
  - eapply Forall2_Forall2_impl; [| exact HF]. by intros ?? [].
  - rewrite (fed_user _ _ _ _ _ Hq). cbn [snd]. by rewrite Ecb'.
Qed.

(** Two packets in float, the format of the engine in shared mode. *)
Definition capture_witness_packets : list packet :=
  [mkPacket (mkTime (of_ulong 0) (of_ulong 0) (of_ulong 0)) (replicate 5600 1) 700;
   mkPacket (mkTime (of_ulong 0) (of_ulong 0) (of_ulong 0)) (replicate 3200 2) 400].

Example capture_to_wire_witness :
  exists bp h, open_input (paConverters float_entries) sender_callback 2 paInt16 paFloat32 FRAMES_PER_BUFFER 480 48000 paClipOff
      (mkUserData (replicate 4120 0) 0 0, []) ({[7 := []]}, []) = Ret (inr bp, h) /\
    exists blocks rest s' u', ProcessInputBuffer 7 capture_witness_packets bp = Ret (false, s') /\
      Forall2 (Forall2 (fun x v => exists w, v = expression (select_id Float32 Int16 paClipOff) w x))
        (packets_frames 2 4 capture_witness_packets) (concat blocks ++ rest) /\
      Forall (fun b => zlen b = FRAMES_PER_BUFFER) blocks /\ zlen rest < FRAMES_PER_BUFFER /\
      sender (paced (block_input <$> blocks)) (mkUserData (replicate 4120 0) 0 0) =
        Ret (u', encodes (block_packet <$> (block_input <$> blocks))) /\
      userData s' = (u', encodes (block_packet <$> (block_input <$> blocks))).
Proof.
  apply (capture_to_wire paFloat32 Float32 480); try done.
  repeat constructor; try done; vm_compute; congruence.
Defined.
