(* ===== verification/PaDuplexSession.v ===== *)
(** A full-duplex stream on the WASAPI binding, from the call that opens it
    (PaUtil_InitializeBufferProcessor) through every wake-up of the thread that polls
    the two clients (ProcThreadPoll, WaspiHostProcessingLoop). *)

From S2P Require Import Prelude PaConverters PaProcess PaProcessFrames PaProcessInput PaProcessDuplex PaOpen.

(** * More on the specification *)

Section pushes.
Context {U : Type} (N : Z) (HN : 0 < N).

(** How much is kept back. *)
Lemma pushes_kept (cb : U -> list frame -> Z * U) fs : forall q, zlen q.1.1 < N ->
  zlen (pushes N cb fs q).1.1 = (zlen q.1.1 + zlen fs) mod N.
Proof.
  induction fs as [| f fs IH]; intros [[pend res] u] Hq; cbn [fst snd] in *; pose proof (zlen_nonneg pend).
  { rewrite zlen_nil, Z.add_0_r, Z.mod_small by lia. done. }
  unfold pushes in *. cbn [fold_left push]. rewrite zlen_cons.
  destruct (Z.eqb_spec (zlen (pend ++ [f])) N) as [E | E]; rewrite zlen_app, zlen_cons, zlen_nil in E.
  - destruct (res =? paContinue); rewrite IH by (cbn; rewrite ?zlen_nil; lia); cbn [fst]; rewrite zlen_nil;
      (replace (zlen pend + (1 + zlen fs)) with (0 + zlen fs + 1 * N) by lia; by rewrite Z_mod_plus_full).
  - rewrite IH by (cbn; rewrite zlen_app, zlen_cons, zlen_nil; lia). cbn [fst]. rewrite zlen_app, zlen_cons, zlen_nil.
    f_equal. lia.
Qed.

(** What is due already stays in front. *)
Lemma pushes_answer_prefix (cb : U -> list frame -> U * list frame) pre fs : forall pend res u outs,
  pushes N (answer cb) fs (pend, res, (u, pre ++ outs)) =
    let q := pushes N (answer cb) fs (pend, res, (u, outs)) in (q.1, (q.2.1, pre ++ q.2.2)).
Proof.
  induction fs as [| f fs IH]; intros; [done |]. unfold pushes in *. cbn [fold_left push].
  destruct (_ =? N); [| apply IH]. destruct (res =? paContinue); [| apply IH].
  unfold answer at 2 3 5 6. cbn [fst snd]. rewrite <- app_assoc. apply IH.
Qed.

(** The callback's answers to the blocks, one after the other. *)
Fixpoint responses (cb : U -> list frame -> U * list frame) (u : U) (blocks : list (list frame)) : U * list frame :=
  match blocks with
  | [] => (u, [])
  | b :: blocks => let r := cb u b in let rs := responses cb r.1 blocks in (rs.1, r.2 ++ rs.2)
  end.

Lemma pushes_responses (cb : U -> list frame -> U * list frame) fs pend u outs : zlen pend < N ->
  exists blocks rest, pend ++ fs = concat blocks ++ rest /\ Forall (fun b => zlen b = N) blocks /\ zlen rest < N /\
    pushes N (answer cb) fs (pend, paContinue, (u, outs)) =
      (rest, paContinue, ((responses cb u blocks).1, outs ++ (responses cb u blocks).2)).
Proof.
  intros Hp. destruct (pushes_blocks N (answer cb) (pend ++ fs) (u, outs) HN ltac:(done)) as (blocks & rest & E & Hb & Hr & Ep).
  exists blocks, rest. split_and!; try done. rewrite pushes_app, pushes_short in Ep by (rewrite zlen_nil; lia).
  change ([] ++ pend) with pend in Ep. rewrite Ep. f_equal. clear.
  revert u outs. induction blocks as [| b blocks IH]; intros u outs; cbn [fold_left responses fst snd]; [by rewrite app_nil_r |].
  unfold answer at 2. cbn [fst snd]. by rewrite IH, app_assoc.
Qed.
End pushes.

(** * What the clients hand over *)

(** Buffers of the right size for the frames of the packet, whose number [size]
    allows. *)
Record exchange_ok (ni hbi no hbo : Z) (size : Z -> Prop) (x : exchange) : Prop := {
  xo_frames : 0 < p_frames (x_packet x) < 2 ^ 32;
  xo_size : size (p_frames (x_packet x));
  xo_input : zlen (p_bytes (x_packet x)) = p_frames (x_packet x) * ni * hbi /\ zlen (p_bytes (x_packet x)) < 2 ^ 32;
  xo_output : zlen (x_output x) = hbo * (p_frames (x_packet x) * no) /\ zlen (x_output x) < 2 ^ 32 }.

Definition total_frames (xs : list exchange) : Z := fold_right Z.add 0 ((fun x => p_frames (x_packet x)) <$> xs).

(** The frames left in the buffers handed back. *)
Definition rendered_frames (no hbo : Z) (xs : list exchange) (ls : list (list Z)) : list frame :=
  concat (zip_with (fun x l => packet_frames no hbo l (p_frames (x_packet x))) xs ls).

Lemma exchanged_frames_app xs ys : total_frames (xs ++ ys) = total_frames xs + total_frames ys.
Proof. unfold total_frames. induction xs as [| x xs IH]; cbn in *; lia. Qed.

Lemma total_frames_nonneg ni hbi no hbo size xs : Forall (exchange_ok ni hbi no hbo size) xs -> 0 <= total_frames xs.
Proof. unfold total_frames. induction 1 as [| x xs [? _ _ _] _ IH]; cbn in *; lia. Qed.

Lemma rendered_frames_app no hbo xs ys ls ks : length ls = length xs ->
  rendered_frames no hbo (xs ++ ys) (ls ++ ks) = rendered_frames no hbo xs ls ++ rendered_frames no hbo ys ks.
Proof. intros H. unfold rendered_frames. by rewrite zip_with_app, concat_app. Qed.

Lemma packets_frames_app nch hb ps qs : packets_frames nch hb (ps ++ qs) = packets_frames nch hb ps ++ packets_frames nch hb qs.
Proof. unfold packets_frames. by rewrite fmap_app, concat_app. Qed.

(** The exchanges of a number of wake-ups, each of which has room for its own. *)
Definition exchanged (wakeups : list (Z * list exchange)) : list exchange := concat (snd <$> wakeups).
Definition room (w : Z * list exchange) : Prop := total_frames w.2 <= w.1.

(** * One call of the host *)

Section duplex.
Context {U : Type} (c : config U) (tbi tbo : Z) (Ri Ro : list Z -> list Z -> Prop)
  (ok : U -> Prop) (cb : U -> list frame -> U * list frame).
Implicit Types (s : processor U).

Notation N := (framesPerUserBuffer c).
Notation ni := (inputChannelCount c).
Notation no := (outputChannelCount c).
Notation hbi := (bytesPerHostInputSample c).
Notation hbo := (bytesPerHostOutputSample c).
Notation holds := (holds c tbi tbo ok).

Context (Hic : input_config c tbi Ri) (Hoc : output_config c tbo Ro) (Hne : tbi <> tbo)
  `{!DuplexCallback (streamCallback c) N (userInputIsInterleaved c) ni (bytesPerUserInputSample c)
      (userOutputIsInterleaved c) no (bytesPerUserOutputSample c) ok cb}.

(** A full-duplex stream with block adaption, on interleaved host buffers that are
    used up whole. *)
Record duplex_stream : Prop := {
  ds_adapting : useNonAdaptingProcess c = false;
  ds_mode : is_variable (hostBufferSizeMode c) = false;
  ds_interleaved_in : hostInputIsInterleaved c = true;
  ds_interleaved_out : hostOutputIsInterleaved c = true;
  ds_channels : ni < 2 ^ 32 /\ no < 2 ^ 32 }.

(** There is a descriptor for each channel. *)
Definition ready s : Prop := zlen (hostInputChannels s).1 = ni /\ zlen (hostOutputChannels s).1 = no.

Lemma put_out_chans_run s ob : zlen (hostOutputChannels s).1 = no -> cfg s = c ->
  for_each (seqZ 0 no) (fun i => set_output_channel B0 (0 + i) (padd (Ptr ob 0) (i * hbo)) no) s =
    Ret (tt, set_out_chans (out_chans c ob 0, (hostOutputChannels s).2) s).
Proof.
  intros Hl Ec. pose proof Hoc as [_ Hno _ _ _ _ _]. set (f := fun i => mkChan (Ptr ob (hbo * (0 * no + i))) no).
  set (st := fun i => set_out_chans ((f <$> seqZ 0 i) ++ drop (Z.to_nat i) (hostOutputChannels s).1, (hostOutputChannels s).2) s).
  transitivity (for_each (seqZ 0 no) (fun i => set_output_channel B0 (0 + i) (padd (Ptr ob 0) (i * hbo)) no) (st 0));
    [by destruct s as [???????? [] ????] |].
  rewrite (for_each_seqZ st); [| lia |].
  - unfold st at 1. by rewrite drop_ge, app_nil_r by (unfold zlen in Hl; lia).
  - intros i Hi. unfold set_output_channel. erewrite run_bind by reflexivity. change (cfg (st i)) with (cfg s). rewrite Ec.
    rewrite (proj2 (Z.ltb_lt _ _)) by lia. do 2 erewrite run_bind by reflexivity.
    unfold put_out_chan. cbn [st pick hostOutputChannels set_out_chans fst snd put].
    rewrite zlen_prefix, (proj2 (Z.ltb_lt _ _)) by lia.
    assert (mkChan (padd (Ptr ob 0) (i * hbo)) no = f i) as -> by (unfold f, padd; do 2 f_equal; ring).
    rewrite Z.add_0_l, insert_prefix by lia. reflexivity.
Qed.

(** [WaspiHostProcessingLoop] up to the call of [PaUtil_EndBufferProcessing]. *)
Lemma duplex_setup s t captured ob n : duplex_stream -> cfg s = c -> ready s -> 0 < n ->
  exists T, forall (A : Type) (k : st (processor U) A),
    (PaUtil_BeginBufferProcessing t 0;;
     c ← gets cfg;
     when (inputChannelCount c >? 0)
       (PaUtil_SetInputFrameCount n;; PaUtil_SetInterleavedInputChannels 0 (Ptr captured 0) 0);;
     when (outputChannelCount c >? 0)
       (PaUtil_SetOutputFrameCount n;; PaUtil_SetInterleavedOutputChannels 0 (Ptr ob 0) 0);;
     modify (set_result paContinue);; k) s =
    k (set_result paContinue (set_out_chans (out_chans c ob 0, (hostOutputChannels s).2)
        (set_out_count (n, 0) (set_in_chans (interleaved_chans c captured, (hostInputChannels s).2)
          (set_in_count (n, 0) (set_out_count (put B1 0 (hostOutputFrameCount s)) (set_in_count (put B1 0 (hostInputFrameCount s))
            (set_flags 0 (set_time T s))))))))).
Proof.
  intros [Hna Hm Hii Hio [Hni32 Hno32]] Ec [Hri Hro] Hn.
  pose proof Hic as [_ Hni _ _ _ _ _]. pose proof Hoc as [_ Hno _ _ _ _ _].
  eexists. intros A k. unfold PaUtil_BeginBufferProcessing. cbn [put fst snd].
  erewrite run_bind by reflexivity. erewrite run_bind by reflexivity.
  cbn [cfg set_out_count set_in_count set_flags set_time]. rewrite Ec.
  rewrite (proj2 (Z.gtb_lt ni 0)), (proj2 (Z.gtb_lt no 0)) by lia. cbn [when].
  erewrite run_bind.
  2: { unfold PaUtil_SetInputFrameCount. rewrite (proj2 (Z.eqb_neq n 0)) by lia.
       erewrite run_bind by reflexivity. unfold PaUtil_SetInterleavedInputChannels, set_interleaved_input.
       erewrite run_bind by reflexivity. cbn [cfg set_out_count set_in_count set_flags set_time]. rewrite Ec, Hii.
       change (0 =? 0) with true. cbn match. rewrite (proj2 (Z.ltb_lt 0 ni)), wrap_u_small, (proj2 (Z.leb_le (0 + ni) ni)) by lia.
       do 3 erewrite run_bind by reflexivity.
       rewrite (put_chans_run c tbi Ri Hic _ (fun i => mkChan (padd (Ptr captured 0) (i * hbi)) ni)) by done. reflexivity. }
  erewrite run_bind.
  2: { unfold PaUtil_SetOutputFrameCount. rewrite (proj2 (Z.eqb_neq n 0)) by lia.
       erewrite run_bind by reflexivity. unfold PaUtil_SetInterleavedOutputChannels, set_interleaved_output.
       erewrite run_bind by reflexivity. cbn [cfg set_out_count set_in_count set_flags set_time set_in_chans]. rewrite Ec, Hio.
       change (0 =? 0) with true. cbn match. rewrite (proj2 (Z.ltb_lt 0 no)), wrap_u_small, (proj2 (Z.leb_le (0 + no) no)) by lia.
       do 3 erewrite run_bind by reflexivity.
       rewrite put_out_chans_run by done. reflexivity. }
  erewrite run_bind by reflexivity. reflexivity.
Qed.
(** What the host supplies in a call. *)
Record supplies s (captured ob n : Z) (bytes : list Z) : Prop := {
  su_frames : 0 < n;
  su_input : mem s !! captured = Some bytes;
  su_bytes : zlen bytes = n * ni * hbi /\ zlen bytes < 2 ^ 32;
  su_output : exists lo, mem s !! ob = Some lo /\ zlen lo = hbo * (n * no) /\ zlen lo < 2 ^ 32;
  su_apart : captured <> tbi /\ captured <> tbo /\ captured <> ob /\ ob <> tbi /\ ob <> tbo;
  su_count : n < 2 ^ 32 }.

(** The frames kept back and those due: together they never change, and as long as
    every size is a multiple of [d], they suffice. *)
Record enough (d : Z) (inb outb : list frame) (n : Z) : Prop := {
  en_unit : (d | N) /\ (d | zlen inb) /\ (d | n);
  en_room : zlen inb < N;
  en_sum : N - d <= zlen inb + zlen outb <= N }.

Lemma enough_due d inb outb n inb' res q fs all : 0 < d -> enough d inb outb n -> zlen fs = n -> 0 <= n ->
  pushes N (answer cb) fs (inb, paContinue, q) = (inb', res, all) -> (d | zlen inb') /\ zlen inb' <= N - d.
Proof.
  intros Hd [(HdN & Hdi & Hdn) Hroom _] Hfs Hn Ep. pose proof Hic as [HN _ _ _ _ _ _].
  pose proof (pushes_kept N HN (answer cb) fs (inb, paContinue, q) Hroom) as Hk. rewrite Ep in Hk. cbn [fst] in Hk.
  assert ((d | zlen inb')) as Hdiv.
  { rewrite Hk, Z.mod_eq by lia. apply Z.divide_sub_r; [rewrite Hfs; by apply Z.divide_add_r | by apply Z.divide_mul_l]. }
  split; [done |]. assert (zlen inb' < N) by (rewrite Hk; apply Z.mod_pos_bound; lia).
  destruct Hdiv as [x Hx], HdN as [y Hy]. assert (x < y) by (apply (Z.mul_lt_mono_pos_r d); lia). nia.
Qed.

Lemma written_packet n lo : 0 < n -> written c n lo 0 n = packet_frames no hbo lo n.
Proof.
  intros Hn. unfold written, temp_frames, packet_frames. apply list_fmap_ext. intros i k [-> Hk]%lookup_seqZ.
  unfold temp_frame. apply list_fmap_ext. intros i' ch [-> Hch]%lookup_seqZ. unfold slot, idx. f_equal. ring.
Qed.

(** [PaUtil_EndBufferProcessing] comes down to [AdaptingProcess]: the sizes of the two
    sides are the same. *)
Lemma end_duplex s captured ob n : duplex_stream -> cfg s = c -> streamCallbackResult s = paContinue ->
  (hostInputChannels s).1 = interleaved_chans c captured -> (hostOutputChannels s).1 = out_chans c ob 0 ->
  hostInputFrameCount s = (n, 0) -> hostOutputFrameCount s = (n, 0) ->
  PaUtil_EndBufferProcessing s = AdaptingProcess true s.
Proof.
  intros [Hna Hm _ _ _] Ec Hres Hci Hco Hni Hno.
  pose proof Hic as [_ Hi _ _ _ _ _]. pose proof Hoc as [_ Ho _ _ _ _ _].
  unfold PaUtil_EndBufferProcessing, assert_equal_counts.
  rewrite (run_bind _ _ s tt s).
  2: { erewrite run_bind by reflexivity. rewrite Ec.
       rewrite (proj2 (Z.eqb_neq ni 0)), (proj2 (Z.eqb_neq no 0)) by lia. cbn [negb andb].
       erewrite run_bind by (unfold in_chan; cbn [pick]; rewrite Hci; unfold interleaved_chans; rewrite seqZ_cons by lia; reflexivity).
       cbn [data padd]. unfold supplied at 1. rewrite bool_decide_eq_false_2 by done. cbn [negb].
       erewrite run_bind by (unfold out_chan; cbn [pick]; rewrite Hco; unfold out_chans; rewrite seqZ_cons by lia; reflexivity).
       unfold supplied. cbn [data padd]. rewrite bool_decide_eq_false_2 by done. cbn [negb when].
       rewrite Hni, Hno. cbn [fst snd]. by rewrite Z.eqb_refl. }
  erewrite run_bind by reflexivity. rewrite Ec, Hres. change (paContinue =? paContinue) with true. cbn [orb].
  erewrite run_bind by reflexivity. rewrite Hna, Hm, (proj2 (Z.eqb_neq ni 0)), (proj2 (Z.eqb_neq no 0)) by lia. done.
Qed.

(** A call takes all the input and fills all of the output. *)
Lemma duplex_call d s inb outb u t captured ob bytes n : duplex_stream -> holds s inb outb u -> ready s ->
  supplies s captured ob n bytes -> 0 < d -> enough d inb outb n ->
  exists fs s' inb' u' all, WaspiHostProcessingLoop t (Ptr captured 0) n (Ptr ob 0) n s = Ret (false, s') /\
    Forall2 (Forall2 Ri) (packet_frames ni hbi bytes n) fs /\
    pushes N (answer cb) fs (inb, paContinue, (u, outb)) = (inb', paContinue, (u', all)) /\
    (d | zlen inb') /\ zlen inb' < N /\ n <= zlen all /\ zlen inb' + zlen all = zlen inb + zlen outb + n /\
    holds s' inb' (drop (Z.to_nat n) all) u' /\ ready s' /\
    exists lo, mem s' !! ob = Some lo /\ Forall2 (Forall2 Ro) (take (Z.to_nat n) all) (packet_frames no hbo lo n).
Proof.
  intros Hds Hh Hr [Hn Em (Hb1 & Hb2) (lo & Eo & Ho1 & Ho2) (Ha1 & Ha2 & Ha3 & Ha4 & Ha5) Hn32] Hd Hen.
  pose proof Hic as [HN Hni Hhi _ _ _ _]. pose proof Hoc as [_ Hno Hho _ _ _ _].
  destruct (duplex_setup s t captured ob n Hds (h_cfg _ _ _ _ _ _ _ _ Hh) Hr Hn) as [T Eset].
  match type of Eset with context [set_result paContinue ?x] => set (s1 := set_result paContinue x) in Eset end.
  assert (holds s1 inb outb u) as Hh1 by (destruct Hh; split; done).
  assert (host c tbi tbo Ro s1 ob n n 0 (packet_frames ni hbi bytes n) []) as Hs1.
  { split; cbn; try done; try lia.
    - unfold interleaved_chans, zlen. rewrite length_fmap, length_seqZ. lia.
    - repeat apply Forall_cons_2; [| | | constructor]; eapply (interleaved_chans_ok c _ _ _ bytes); (done || lia).
    - by apply interleaved_frames.
    - by rewrite Z.sub_0_r.
    - exists lo. split; [split; (done || lia) |]. unfold written, temp_frames. constructor. }
  destruct (AdaptingProcess_spec c tbi tbo Ri Ro ok cb Hic Hoc Hne s1 inb outb u ob n _ Hh1 Hs1)
    as (fs & s' & inb' & u' & all & EA & HF & Ep & Hroom & Hcons & Hdue).
  { unfold packet_frames, zlen. rewrite length_fmap, length_seqZ. lia. }
  { apply Hen. }
  { apply Hen. }
  assert (zlen fs = n) as Hfs.
  { apply Forall2_length in HF. unfold packet_frames, zlen in *. rewrite length_fmap, length_seqZ in HF. lia. }
  destruct (enough_due d inb outb n _ _ _ _ _ Hd Hen Hfs ltac:(lia) Ep) as [Hdiv Hle].
  destruct Hen as [_ _ Hsum]. destruct (Hdue ltac:(lia)) as (Hh' & Hci & Hco & lo' & Eo' & HF').
  exists fs, s', inb', u', all. split_and!; try done; try lia.
  - unfold WaspiHostProcessingLoop. rewrite Eset. erewrite run_bind.
    2: { rewrite (end_duplex s1 captured ob n) by (done || exact (h_cfg _ _ _ _ _ _ _ _ Hh1)). exact EA. }
    erewrite run_bind by reflexivity. by rewrite (h_result _ _ _ _ _ _ _ _ Hh').
  - split; [done |]. rewrite Hco. unfold out_chans, zlen. rewrite length_fmap, length_seqZ. lia.
  - exists lo'. by rewrite <- written_packet.
Qed.
(** A wake-up: the loop goes through all the exchanges there is room for. *)
Lemma duplex_session d captured ob xs : duplex_stream -> 0 < d ->
  captured <> tbi /\ captured <> tbo /\ captured <> ob /\ ob <> tbi /\ ob <> tbo ->
  forall s inb outb u o_frames, holds s inb outb u -> ready s -> enough d inb outb 0 ->
  Forall (exchange_ok ni hbi no hbo (fun n => (d | n))) xs -> total_frames xs <= o_frames ->
  exists fs s' ls inb' u' all, poll_full_duplex captured ob o_frames xs s = Ret ((ls, false), s') /\
    Forall2 (Forall2 Ri) (packets_frames ni hbi (x_packet <$> xs)) fs /\
    pushes N (answer cb) fs (inb, paContinue, (u, outb)) = (inb', paContinue, (u', all)) /\
    total_frames xs <= zlen all /\
    Forall2 (Forall2 Ro) (take (Z.to_nat (total_frames xs)) all) (rendered_frames no hbo xs ls) /\
    length ls = length xs /\ holds s' inb' (drop (Z.to_nat (total_frames xs)) all) u' /\ ready s' /\
    enough d inb' (drop (Z.to_nat (total_frames xs)) all) 0.
Proof.
  intros Hds Hd Hap. induction xs as [| [p lo] xs IH]; intros s inb outb u o_frames Hh Hr Hen Hxs Htot.
  { exists [], s, [], inb, u, outb. split_and!; try done. apply zlen_nonneg. }
  apply Forall_cons_1 in Hxs as [[Hn Hdn (Hi1 & Hi2) (Ho1 & Ho2)] Hxs]. cbn [x_packet x_output] in *.
  pose proof (total_frames_nonneg _ _ _ _ _ _ Hxs) as Hpos.
  assert (total_frames (mkExchange p lo :: xs) = p_frames p + total_frames xs) as Et by done. rewrite Et in *.
  set (n := p_frames p) in *.
  set (s1 := set_mem (<[ob := lo]> (<[captured := p_bytes p]> (mem s))) s).
  assert (holds s1 inb outb u) as Hh1.
  { destruct Hh as [? (li & ? & ?) ? ? (l & ? & ?) ? ? ? ? ?]. destruct Hap as (? & ? & ? & ? & ?).
    split; try done; [exists li | exists l]; cbn; by rewrite !lookup_insert_ne by done. }
  assert (enough d inb outb n) as Hen1 by (destruct Hen as [(? & ? & _) ? ?]; by split).
  destruct (duplex_call d s1 inb outb u (p_time p) captured ob (p_bytes p) n Hds Hh1 Hr)
    as (fs & s2 & inb2 & u2 & all & E & HF & Ep & Hdiv & Hroom & Hdue & Hcons & Hh2 & Hr2 & l & El & HFo); [| done.. |].
  { destruct Hap as (? & ? & ? & ? & ?). split; try done; try lia.
    - cbn. by rewrite lookup_insert_ne, lookup_insert_eq.
    - exists lo. cbn. rewrite lookup_insert_eq. split_and!; done. }
  assert (zlen (drop (Z.to_nat n) all) = zlen all - n) as Hdrop by (unfold zlen in *; rewrite length_drop; lia).
  destruct (IH s2 inb2 (drop (Z.to_nat n) all) u2 (o_frames - n)) as (fs2 & s' & ls & inb' & u' & all2 & E2 & HF2 & Ep2 & Hle & HFo2 & Hlen & Hh' & Hr' & Hen');
    [done | done | | done | lia |].
  { destruct Hen as [(? & ? & _) ? ?]. split; [split_and!; try done; apply Z.divide_0_r | done | lia]. }
  assert (length (take (Z.to_nat n) all) = Z.to_nat n) as Htake by (unfold zlen in *; rewrite length_take; lia).
  assert (Z.to_nat (n + total_frames xs) = length (take (Z.to_nat n) all) + Z.to_nat (total_frames xs))%nat as Enat by lia.
  assert (drop (Z.to_nat (n + total_frames xs)) (take (Z.to_nat n) all ++ all2) = drop (Z.to_nat (total_frames xs)) all2) as Edrop.
  { by rewrite Enat, drop_app_add. }
  exists (fs ++ fs2), s', (l :: ls), inb', u', (take (Z.to_nat n) all ++ all2). split_and!; try done.
  - cbn [poll_full_duplex x_packet x_output]. fold n.
    rewrite (proj2 (Z.eqb_neq o_frames 0)), (proj2 (Z.ltb_ge o_frames n)) by lia. cbn [orb].
    erewrite run_bind by reflexivity. erewrite run_bind by exact E. erewrite run_bind by reflexivity.
    rewrite El. erewrite run_bind by reflexivity. rewrite (proj2 (Z.eqb_neq n 0)) by lia. erewrite run_bind by exact E2. reflexivity.
  - unfold packets_frames. cbn [fmap list_fmap concat x_packet]. by apply Forall2_app.
  - rewrite pushes_app, Ep. rewrite <- (take_drop (Z.to_nat n) all) at 1.
    rewrite pushes_answer_prefix. by rewrite Ep2.
  - rewrite zlen_app. unfold zlen at 1. lia.
  - rewrite Enat, take_app_add. unfold rendered_frames. cbn [zip_with concat x_packet]. by apply Forall2_app.
  - cbn. by rewrite Hlen.
  - by rewrite Edrop.
  - by rewrite Edrop.
Qed.

(** The whole life of the thread. *)
Lemma duplex_thread d captured ob wakeups : duplex_stream -> 0 < d ->
  captured <> tbi /\ captured <> tbo /\ captured <> ob /\ ob <> tbi /\ ob <> tbo ->
  forall s inb outb u, holds s inb outb u -> ready s -> enough d inb outb 0 ->
  Forall (exchange_ok ni hbi no hbo (fun n => (d | n))) (exchanged wakeups) -> Forall room wakeups ->
  exists fs s' ls inb' u' all, ProcThreadPoll captured ob wakeups s = Ret (ls, s') /\
    Forall2 (Forall2 Ri) (packets_frames ni hbi (x_packet <$> exchanged wakeups)) fs /\
    pushes N (answer cb) fs (inb, paContinue, (u, outb)) = (inb', paContinue, (u', all)) /\
    total_frames (exchanged wakeups) <= zlen all /\
    Forall2 (Forall2 Ro) (take (Z.to_nat (total_frames (exchanged wakeups))) all) (rendered_frames no hbo (exchanged wakeups) ls) /\
    length ls = length (exchanged wakeups) /\ userData s' = u'.
Proof.
  intros Hds Hd Hap. induction wakeups as [| w wakeups IH]; intros s inb outb u Hh Hr Hen Hxs Hroom.
  { exists [], s, [], inb, u, outb. split_and!; try done; [apply zlen_nonneg | by destruct Hh]. }
  change (exchanged (w :: wakeups)) with (w.2 ++ exchanged wakeups) in *. set (xs := w.2) in *. set (ys := exchanged wakeups) in *.
  apply Forall_app in Hxs as [Hxs Hys]. apply Forall_cons_1 in Hroom as [Hw Hroom].
  pose proof (total_frames_nonneg _ _ _ _ _ _ Hxs) as Hx0. pose proof (total_frames_nonneg _ _ _ _ _ _ Hys) as Hy0.
  destruct (duplex_session d captured ob xs Hds Hd Hap s inb outb u w.1 Hh Hr Hen Hxs Hw)
    as (fs & s1 & ls & inb1 & u1 & all & E & HF & Ep & Hle & HFo & Hlen & Hh1 & Hr1 & Hen1).
  destruct (IH s1 _ _ _ Hh1 Hr1 Hen1 Hys Hroom) as (fs2 & s' & ks & inb' & u' & all2 & E2 & HF2 & Ep2 & Hle2 & HFo2 & Hlen2 & Hu).
  set (n := Z.to_nat (total_frames xs)) in *.
  assert (length (take n all) = n) as Htake by (unfold zlen in *; rewrite length_take; lia).
  exists (fs ++ fs2), s', (ls ++ ks), inb', u', (take n all ++ all2). split_and!; try done.
  - cbn [ProcThreadPoll]. erewrite run_bind by exact E. cbn [fst snd]. by erewrite run_bind by exact E2.
  - rewrite fmap_app, packets_frames_app. by apply Forall2_app.
  - rewrite pushes_app, Ep. rewrite <- (take_drop n all) at 1. rewrite pushes_answer_prefix. by rewrite Ep2.
  - rewrite exchanged_frames_app, zlen_app. unfold zlen at 1. lia.
  - rewrite exchanged_frames_app, rendered_frames_app by done.
    replace (Z.to_nat (total_frames xs + total_frames ys)) with (length (take n all) + Z.to_nat (total_frames ys))%nat by lia.
    rewrite take_app_add. by apply Forall2_app.
  - rewrite !length_app. by rewrite Hlen, Hlen2.
Qed.
End duplex.

(** * Opening a full-duplex stream *)

(** The latency: a block, or what [CalculateFrameShift] computes when the host's size
    is fixed; it is put into the input when the user's blocks are the larger ones. *)
Definition latency (mode : PaUtilHostBufferSizeMode) (M N : Z) : Z := if is_fixed mode then N - Z.gcd M N else N.
Definition input_latency (mode : PaUtilHostBufferSizeMode) (M N : Z) : Z :=
  if is_fixed mode && (N >? M) then latency mode M N else 0.
Definition output_latency (mode : PaUtilHostBufferSizeMode) (M N : Z) : Z :=
  if is_fixed mode && (N >? M) then 0 else latency mode M N.

(** The sizes that have to be adapted, and those the host may then use. *)
Definition adapted (mode : PaUtilHostBufferSizeMode) (M N : Z) : Prop :=
  0 < N /\ is_variable mode = false /\ (is_fixed mode = true -> 0 < M /\ M mod N <> 0 /\ M * N < 2 ^ 32).
Definition host_size (mode : PaUtilHostBufferSizeMode) (M n : Z) : Prop := is_fixed mode = true -> n = M.

Lemma plan_adapted mode M N ni no : adapted mode M N -> 0 < ni -> 0 < no ->
  plan_buffers ni no N M mode = Ret (mkPlan false N (input_latency mode M N) (output_latency mode M N)).
Proof.
  intros (HN & Hm & Hf) Hni Hno. unfold plan_buffers, input_latency, output_latency, latency.
  rewrite (proj2 (Z.eqb_neq N 0)), (proj2 (Z.gtb_lt ni 0)), (proj2 (Z.gtb_lt no 0)) by lia. cbn [andb].
  destruct (is_fixed mode); cbn [andb]; [| done]. destruct (Hf eq_refl) as (HM & Hmod & HMN).
  rewrite (proj2 (Z.eqb_neq (M mod N) 0)) by done. rewrite CalculateFrameShift_run by done. cbn [mbind res_bind].
  by destruct (N >? M).
Qed.

(** The sizes of the host are multiples of what the latency leaves. *)
Definition unit_size (mode : PaUtilHostBufferSizeMode) (M N : Z) : Z := if is_fixed mode then Z.gcd M N else 1.

Lemma latency_enough mode M N (inb outb : list frame) : adapted mode M N ->
  zlen inb = input_latency mode M N -> zlen outb = output_latency mode M N ->
  forall d, d = unit_size mode M N -> 0 < d /\ (d | N) /\ (d | zlen inb) /\ zlen inb < N /\ zlen outb <= N /\
    N - d <= zlen inb + zlen outb <= N.
Proof.
  intros (HN & Hm & Hf) -> -> d ->. unfold unit_size, input_latency, output_latency, latency.
  destruct (is_fixed mode); cbn [andb].
  - destruct (Hf eq_refl) as (HM & Hmod & HMN). pose proof (gcd_pos M N HM). pose proof (Z.gcd_divide_r M N) as Hd.
    pose proof (Z.divide_pos_le _ _ HN Hd).
    destruct (N >? M); split_and!; try done; try lia; [apply Z.divide_sub_r; [done | apply Z.divide_refl] | apply Z.divide_0_r].
  - split_and!; try lia; apply Z.divide_1_l.
Qed.

Definition silent (nch b : Z) : frame := replicate (Z.to_nat nch) (replicate (Z.to_nat b) 0).

Lemma fmap_seqZ_const {B} (f : Z -> B) (x : B) a n : (forall i, a <= i < a + n -> f i = x) -> f <$> seqZ a n = replicate (Z.to_nat n) x.
Proof.
  intros H. apply list_eq_same_length with (n := Z.to_nat n); [by rewrite length_replicate | by rewrite length_fmap, length_seqZ |].
  intros i y z Hi Hy Hz. apply lookup_replicate in Hz as [-> _]. rewrite list_lookup_fmap in Hy.
  destruct (seqZ a n !! i) eqn:E; [| done]. apply lookup_seqZ in E as [-> ?]. cbn in Hy. injection Hy as <-. apply H. lia.
Qed.

Lemma silent_frames il nch N b a n : 0 < nch -> 0 < N -> 0 < b -> 0 <= a -> a + n <= N ->
  temp_frames il nch N b (replicate (Z.to_nat (b * (N * nch))) 0) a n = replicate (Z.to_nat n) (silent nch b).
Proof.
  intros Hnch HN Hb Ha Han. apply fmap_seqZ_const. intros j Hj. apply fmap_seqZ_const. intros ch Hch.
  assert (0 <= idx il nch N ch j < N * nch) as Hidx by (apply idx_range; lia).
  unfold slot, slice. rewrite drop_replicate, take_replicate. f_equal.
  apply Nat.min_l. apply Nat2Z.inj_le. rewrite Nat2Z.inj_sub by nia. rewrite !Z2Nat.id by nia. nia.
Qed.

Section opened.
Context {U : Type} (table : PaUtilConverterTable) (callback : PaStreamCallback U).
Context (ni uif hif no uof hof N hostFrames rate flags : Z) (mode : PaUtilHostBufferSizeMode) (u : U).
Context (Ri Ro : list Z -> list Z -> Prop) (convi convo : PaUtilConverter) (ok : U -> Prop).

Definition open_duplex : st heap (Z + processor U) :=
  PaUtil_InitializeBufferProcessor table ni uif hif no uof hof (of_ulong rate) flags N hostFrames mode (Some callback) u.

(** Formats the tables convert, and buffers whose sizes fit the types. *)
Record duplex_formats : Prop := {
  df_channels : 0 < ni < 2 ^ 32 /\ 0 < no < 2 ^ 32;
  df_flags : Z.land flags paNeverDropInput = 0;
  df_sizes : 0 < Pa_GetSampleSize uif /\ 0 < Pa_GetSampleSize hif /\ 0 < Pa_GetSampleSize uof /\ 0 < Pa_GetSampleSize hof;
  df_input : N * Pa_GetSampleSize uif * ni < 2 ^ 32;
  df_output : N * Pa_GetSampleSize uof * no < 2 ^ 32;
  df_interleaved : is_interleaved hif = true /\ is_interleaved hof = true;
  df_convert_in : PaUtil_SelectConverter table hif uif (input_flags uif hif flags) = Some convi /\
    converts convi (Pa_GetSampleSize hif) (Pa_GetSampleSize uif) Ri;
  df_convert_out : PaUtil_SelectConverter table uof hof flags = Some convo /\
    converts convo (Pa_GetSampleSize uof) (Pa_GetSampleSize hof) Ro }.

Definition silent_input : list frame := replicate (Z.to_nat (input_latency mode hostFrames N)) (silent ni (Pa_GetSampleSize uif)).
Definition silent_output : list frame := replicate (Z.to_nat (output_latency mode hostFrames N)) (silent no (Pa_GetSampleSize uof)).

Lemma latency_range : adapted mode hostFrames N ->
  0 <= input_latency mode hostFrames N < N /\ 0 <= output_latency mode hostFrames N <= N.
Proof.
  intros (HN & Hm & Hf). unfold input_latency, output_latency, latency.
  destruct (is_fixed mode); cbn [andb]; [| lia]. destruct (Hf eq_refl) as (HM & _ & _).
  pose proof (gcd_pos hostFrames N HM). pose proof (Z.divide_pos_le _ _ HN (Z.gcd_divide_r hostFrames N)).
  destruct (N >? hostFrames); lia.
Qed.

Lemma open_duplex_run m : adapted mode hostFrames N -> duplex_formats -> ok u ->
  exists bp h tbi tbo, open_duplex (m, []) = Ret (inr bp, h) /\
    let c := cfg bp in
    input_config c tbi Ri /\ output_config c tbo Ro /\ tbi <> tbo /\ m !! tbi = None /\ m !! tbo = None /\
    holds c tbi tbo ok bp silent_input silent_output u /\ duplex_stream c /\ ready c bp /\
    framesPerUserBuffer c = N /\ inputChannelCount c = ni /\ outputChannelCount c = no /\
    bytesPerHostInputSample c = Pa_GetSampleSize hif /\ bytesPerHostOutputSample c = Pa_GetSampleSize hof /\
    bytesPerUserInputSample c = Pa_GetSampleSize uif /\ bytesPerUserOutputSample c = Pa_GetSampleSize uof /\
    userInputIsInterleaved c = is_interleaved uif /\ userOutputIsInterleaved c = is_interleaved uof /\
    streamCallback c = callback.
Proof.
  intros Had [(Hni & Hno) Hdrop (Hui & Hhi & Huo & Hho) Hsi Hso (Hii & Hio) (Hci & HRi) (Hco & HRo)] Hok.
  pose proof (latency_range Had) as [Hli Hlo]. pose proof Had as (HN & Hm & _).
  unfold open_duplex, PaUtil_InitializeBufferProcessor.
  rewrite Hdrop. cbn [Z.eqb negb andb]. erewrite run_bind.
  2: { rewrite plan_adapted by (done || lia). reflexivity. }
  cbn [firstInput firstOutput perTemp nonAdapting]. rewrite (proj2 (Z.gtb_lt ni 0)), (proj2 (Z.gtb_lt no 0)) by lia.
  destruct (init_direction_run ni uif hif N (input_latency mode hostFrames N) m Hhi Hui) as (ps & ch & m1 & E1 & Em1 & Hg1).
  erewrite run_bind by exact E1.
  destruct (init_direction_run no uof hof N (output_latency mode hostFrames N) m1 Hho Huo) as (ps2 & ch2 & m2 & E2 & Em2 & Hg2).
  erewrite run_bind by exact E2.
  rewrite wrap_u_small in Em1, Em2 by nia.
  assert (m2 !! next_block m = m1 !! next_block m) as Ek by (apply Hg2; rewrite Em1; by eexists).
  assert (next_block m <> next_block m1) as Hne by (intros E; rewrite E, next_block_fresh in Em1; done).
  assert (m !! next_block m1 = None) as Hf1.
  { destruct (m !! next_block m1) eqn:E; [| done]. pose proof (Hg1 _ (mk_is_Some _ _ E)) as E'. rewrite next_block_fresh in E'. congruence. }
  eexists _, _, (next_block m), (next_block m1). split; [reflexivity |].
  cbn [cfg mem streamCallback default framesPerUserBuffer inputChannelCount outputChannelCount bytesPerHostInputSample bytesPerHostOutputSample
       bytesPerUserInputSample bytesPerUserOutputSample userInputIsInterleaved userOutputIsInterleaved].
  split_and!; try done.
  - split; cbn; try (done || lia). exists convi. split; [exact Hci | exact HRi].
  - split; cbn; try (done || lia). exists convo. split; [exact Hco | exact HRo].
  - apply next_block_fresh.
  - assert (zlen silent_input = input_latency mode hostFrames N) as Hzi by (unfold silent_input, zlen; rewrite length_replicate; lia).
    assert (zlen silent_output = output_latency mode hostFrames N) as Hzo by (unfold silent_output, zlen; rewrite length_replicate; lia).
    split; cbn; try done; rewrite ?Hzi, ?Hzo; try lia.
    + eexists. split; [by rewrite Ek, Em1 |]. split.
      * unfold zlen. rewrite length_replicate, Z2Nat.id by nia. ring.
      * unfold in_frames. cbn. replace (N * Pa_GetSampleSize uif * ni) with (Pa_GetSampleSize uif * (N * ni)) by ring.
        apply silent_frames; lia.
    + eexists. split; [exact Em2 |]. split.
      * unfold zlen. rewrite length_replicate, Z2Nat.id by nia. ring.
      * unfold out_frames. cbn. replace (N * Pa_GetSampleSize uof * no) with (Pa_GetSampleSize uof * (N * no)) by ring.
        apply silent_frames; lia.
  - split; cbn; try done; lia.
  - split; cbn; unfold zlen; rewrite length_replicate; lia.
Qed.
End opened.

(** * The stream *)

(** C5. A full-duplex stream whose block size the host does not use: whatever number of
    host buffers of whatever sizes the mode allows are exchanged, over any number of
    wake-ups, nothing faults; the callback is given the input, after the silence of
    the input latency, in blocks of the size it asked for; and every host buffer is
    filled to its end with the output latency's silence followed by the callback's
    answers, in order: the latency of the buffer processor is enough for the host
    never to be left without frames.  The stream is one whose callback answers
    every block with paContinue (after paAbort host buffers are left unfilled, see
    [abort_calls_again]), whose host buffers are interleaved and, in the mode of a
    fixed host size M, for which M * N is below 2^32 (beyond it the latency is
    computed wrongly, see [PaProcess.frame_shift_wraps]); silence is zero bytes,
    as the code clears it, which for paUInt8 is not the silent value. *)
Theorem full_duplex_stream {U} table (callback : PaStreamCallback U) ni uif hif no uof hof N hostFrames rate flags mode u
    Ri Ro convi convo ok cb m captured rendered wakeups :
  adapted mode hostFrames N -> duplex_formats table ni uif hif no uof hof N flags Ri Ro convi convo ->
  DuplexCallback callback N (is_interleaved uif) ni (Pa_GetSampleSize uif) (is_interleaved uof) no (Pa_GetSampleSize uof) ok cb ->
  ok u -> is_Some (m !! captured) -> is_Some (m !! rendered) -> captured <> rendered ->
  Forall (exchange_ok ni (Pa_GetSampleSize hif) no (Pa_GetSampleSize hof) (host_size mode hostFrames)) (exchanged wakeups) ->
  Forall room wakeups ->
  exists bp h, open_duplex table callback ni uif hif no uof hof N hostFrames rate flags mode u (m, []) = Ret (inr bp, h) /\
    exists fs blocks rest ls s', ProcThreadPoll captured rendered wakeups bp = Ret (ls, s') /\
      Forall2 (Forall2 Ri) (packets_frames ni (Pa_GetSampleSize hif) (x_packet <$> exchanged wakeups)) fs /\
      silent_input ni uif N hostFrames mode ++ fs = concat blocks ++ rest /\
      Forall (fun b => zlen b = N) blocks /\ zlen rest < N /\
      let due := silent_output no uof N hostFrames mode ++ (responses cb u blocks).2 in
      total_frames (exchanged wakeups) <= zlen due /\
      Forall2 (Forall2 Ro) (take (Z.to_nat (total_frames (exchanged wakeups))) due)
        (rendered_frames no (Pa_GetSampleSize hof) (exchanged wakeups) ls) /\
      length ls = length (exchanged wakeups) /\ userData s' = (responses cb u blocks).1.
Proof.
  intros Had Hf Hcb Hok [lc Hc] [lr Hr] Hcr Hxs Hroom.
  destruct (open_duplex_run table callback ni uif hif no uof hof N hostFrames rate flags mode u Ri Ro convi convo ok m Had Hf Hok)
    as (bp & h & tbi & tbo & E & Hic & Hoc & Hne & Hmi & Hmo & Hh & Hds & Hrd & EN & Eni & Eno & Ehi & Eho & Eui & Euo & Eii & Eio & Ecb).
  exists bp, h. split; [done |]. set (c := cfg bp) in *.
  assert (DuplexCallback (streamCallback c) (framesPerUserBuffer c) (userInputIsInterleaved c) (inputChannelCount c) (bytesPerUserInputSample c)
    (userOutputIsInterleaved c) (outputChannelCount c) (bytesPerUserOutputSample c) ok cb) as Hlaw.
  { by rewrite Ecb, EN, Eni, Eno, Eui, Euo, Eii, Eio. }
  pose proof (latency_range N hostFrames mode Had) as [Hli Hlo].
  assert (zlen (silent_input ni uif N hostFrames mode) = input_latency mode hostFrames N) as Hzi
    by (unfold silent_input, zlen; rewrite length_replicate; lia).
  assert (zlen (silent_output no uof N hostFrames mode) = output_latency mode hostFrames N) as Hzo
    by (unfold silent_output, zlen; rewrite length_replicate; lia).
  destruct (latency_enough mode hostFrames N _ _ Had Hzi Hzo _ eq_refl) as (Hd & HdN & Hdi & Hin & Hout & Hsum).
  destruct (duplex_thread c tbi tbo Ri Ro ok cb Hic Hoc Hne (unit_size mode hostFrames N) captured rendered wakeups Hds Hd)
    with (s := bp) (inb := silent_input ni uif N hostFrames mode) (outb := silent_output no uof N hostFrames mode) (u := u)
    as (fs & s' & ls & inb' & u' & all & ET & HF & Ep & Hle & HFo & Hlen & Hu); try done.
  - split_and!; congruence.
  - split; rewrite ?EN; try done. split_and!; [done | done | apply Z.divide_0_r].
  - rewrite Eni, Eno, Ehi, Eho. eapply Forall_impl; [| exact Hxs]. intros x [? Hs ? ?]. split; try done.
    unfold host_size in Hs. unfold unit_size. destruct (is_fixed mode); [| apply Z.divide_1_l]. rewrite Hs by done. apply Z.gcd_divide_l.
  - rewrite Eni, Ehi in HF. rewrite Eno, Eho in HFo. rewrite EN in Ep. pose proof Had as (HN & _).
    destruct (pushes_responses N HN cb fs _ u (silent_output no uof N hostFrames mode) Hin) as (blocks & rest & Eb & Hb & Hrest & Ep2).
    rewrite Ep in Ep2. injection Ep2 as -> -> ->. exists fs, blocks, rest, ls, s'. done.
Qed.

(** A callback that passes its input on. *)
Definition pass_through : PaStreamCallback unit := fun ui uo n t fl m u =>
  match ui, uo with
  | UInterleaved p, UInterleaved q => bytes ← load m p (n * 2 * 2); m ← store m q bytes; Ret (paContinue, m, u)
  | _, _ => Fault NullPointer
  end.

Lemma pass_through_law N : 0 < N ->
  DuplexCallback pass_through N true 2 2 true 2 2 (fun _ => True) (fun u b => (u, b)).
Proof.
  intros HN tbo ui t fl m [] lo fs _ Hlay Hw Em Hlo. destruct ui as [| p | ps]; try done.
  destruct (whole_frames_block m 2 2 p N) as (blk & off & l & -> & El & Hoff & Hle); [lia.. | done |].
  unfold pass_through, output_buffer. rewrite (load_Ret _ _ _ _ l) by (done || lia). cbn [mbind res_bind].
  assert (zlen (slice off (N * 2 * 2) l) = N * 2 * 2) as Hz by (apply zlen_slice; lia).
  rewrite (store_Ret _ _ _ _ lo) by (done || lia). cbn [mbind res_bind].
  assert (blit 0 (slice off (N * 2 * 2) l) lo = slice off (N * 2 * 2) l) as ->.
  { apply list_eq. intros i. rewrite lookup_blit by lia. case_decide as Hi; [by rewrite Nat.sub_0_r |].
    rewrite !lookup_ge_None_2; [done | unfold zlen in *; lia..]. }
  eexists. split; [reflexivity |]. split_and!; [lia | | done].
  unfold fs, user_frames, temp_frames. apply list_fmap_ext. intros i j [-> Hj]%lookup_seqZ.
  apply list_fmap_ext. intros i' ch [-> Hch]%lookup_seqZ. unfold slot, idx, user_sample. cbn [padd].
  rewrite (peek_Ptr _ _ _ _ l) by (done || nia). apply list_eq. intros k. rewrite !lookup_slice by nia.
  case_decide; [| done]. rewrite decide_True by nia. f_equal. nia.
Qed.

(** Blocks of three frames on a host that uses two: two wake-ups, three buffers. *)
Definition two_frames (a : Z) : exchange :=
  mkExchange (mkPacket (mkTime (of_ulong 0) (of_ulong 0) (of_ulong 0)) (Z.add a <$> seqZ 0 8) 2) (replicate 8 255).
Definition two_wakeups : list (Z * list exchange) := [(5, [two_frames 1; two_frames 11]); (2, [two_frames 21])].

Example full_duplex_stream_witness :
  exists bp h, open_duplex (paConverters (fun _ => None)) pass_through 2 paInt16 paInt16 2 paInt16 paInt16 3 2 48000 paClipOff
      paUtilFixedHostBufferSize tt ({[7 := []; 8 := []]}, []) = Ret (inr bp, h) /\
    exists fs blocks rest ls s', ProcThreadPoll 7 8 two_wakeups bp = Ret (ls, s') /\
      Forall2 (Forall2 (fun x v => v = x)) (packets_frames 2 2 (x_packet <$> exchanged two_wakeups)) fs /\
      silent_input 2 paInt16 3 2 paUtilFixedHostBufferSize ++ fs = concat blocks ++ rest /\
      Forall (fun b => zlen b = 3) blocks /\ zlen rest < 3 /\
      let due := silent_output 2 paInt16 3 2 paUtilFixedHostBufferSize ++ (responses (fun u b => (u, b)) tt blocks).2 in
      total_frames (exchanged two_wakeups) <= zlen due /\
      Forall2 (Forall2 (fun x v => v = x)) (take (Z.to_nat (total_frames (exchanged two_wakeups))) due)
        (rendered_frames 2 2 (exchanged two_wakeups) ls) /\
      length ls = length (exchanged two_wakeups) /\ userData s' = (responses (fun u b => (u, b)) tt blocks).1.
Proof.
  apply (full_duplex_stream _ pass_through 2 paInt16 paInt16 2 paInt16 paInt16 3 2 48000 paClipOff paUtilFixedHostBufferSize tt
    (fun x v => v = x) (fun x v => v = x) Copy_16_To_16 Copy_16_To_16 (fun _ => True)); try done.
  - split; try done; split; try done; by apply convert_converts.
  - by apply pass_through_law.
  - repeat constructor; try done; vm_compute; congruence.
  - repeat constructor; vm_compute; congruence.
Defined.

(** What it computes: the latency of two frames, in the input, then the input. *)
Example full_duplex_computed :
  (let '(r, _) := default (inl 0, (∅, [])) (match open_duplex (paConverters (fun _ => None)) pass_through 2 paInt16 paInt16 2 paInt16 paInt16 3 2 48000
      paClipOff paUtilFixedHostBufferSize tt ({[7 := []; 8 := []]}, []) with Ret r => Some r | Fault _ => None end) in
   match r with inr bp => match ProcThreadPoll 7 8 two_wakeups bp with Ret (ls, _) => ls | _ => [] end | _ => [] end) =
  [replicate 8 0; Z.add 1 <$> seqZ 0 8; Z.add 11 <$> seqZ 0 8].
Proof. vm_compute. reflexivity. Qed.

(** A callback that gives up, and counts how often it is called. *)
Definition giving_up : PaStreamCallback Z := fun _ _ _ _ _ m u => Ret (paAbort, m, u + 1).

(** It is called again for the next packet of the same wake-up; and when its answer
    comes with the last input of a call, no round is left to zero the output: the
    host keeps what its buffer held. *)
Example abort_calls_again :
  (let '(r, _) := default (inl 0, (∅, [])) (match open_duplex (paConverters (fun _ => None)) giving_up 2 paInt16 paInt16 2 paInt16 paInt16 3 2 48000
      paClipOff paUtilFixedHostBufferSize 0 ({[7 := []; 8 := []]}, []) with Ret r => Some r | Fault _ => None end) in
   match r with
   | inr bp => match ProcThreadPoll 7 8 [(4, [two_frames 1; two_frames 11])] bp with Ret (ls, s') => (ls, userData s') | _ => ([], 0) end
   | _ => ([], 0)
   end) = ([replicate 8 0; replicate 8 255], 2).
Proof. vm_compute. reflexivity. Qed.
