(* ===== verification/FreeRtosList.v ===== *)
(** The kernel's lists (src/ESP32/components/freertos/list.c): circular doubly
    linked lists of items with an end marker, on which ready, delayed and
    waiting tasks are kept.  Memory is a set of fields indexed by the address
    of an item; the end marker of a list has the list's address. *)

From S2P Require Import Prelude.

Definition portMAX_DELAY : Z := 2 ^ 32 - 1.

Record lists := mkLists {
  pxNext : Z -> Z;
  pxPrevious : Z -> Z;
  xItemValue : Z -> Z;
  pvOwner : Z -> Z;
  pvContainer : Z -> option Z;
  pxIndex : Z -> Z;
  uxNumberOfItems : Z -> Z }.

Definition set_next (a v : Z) (s : lists) : lists :=
  mkLists (<[a := v]> (pxNext s)) (pxPrevious s) (xItemValue s) (pvOwner s) (pvContainer s) (pxIndex s) (uxNumberOfItems s).
Definition set_previous (a v : Z) (s : lists) : lists :=
  mkLists (pxNext s) (<[a := v]> (pxPrevious s)) (xItemValue s) (pvOwner s) (pvContainer s) (pxIndex s) (uxNumberOfItems s).
Definition set_value (a v : Z) (s : lists) : lists :=
  mkLists (pxNext s) (pxPrevious s) (<[a := v]> (xItemValue s)) (pvOwner s) (pvContainer s) (pxIndex s) (uxNumberOfItems s).
Definition set_container (a : Z) (v : option Z) (s : lists) : lists :=
  mkLists (pxNext s) (pxPrevious s) (xItemValue s) (pvOwner s) (<[a := v]> (pvContainer s)) (pxIndex s) (uxNumberOfItems s).
Definition set_index (a v : Z) (s : lists) : lists :=
  mkLists (pxNext s) (pxPrevious s) (xItemValue s) (pvOwner s) (pvContainer s) (<[a := v]> (pxIndex s)) (uxNumberOfItems s).
Definition set_count (a v : Z) (s : lists) : lists :=
  mkLists (pxNext s) (pxPrevious s) (xItemValue s) (pvOwner s) (pvContainer s) (pxIndex s) (<[a := wrap_u 32 v]> (uxNumberOfItems s)).

Definition vListInitialise (pxList : Z) (s : lists) : lists :=
  let s := set_index pxList pxList s in
  let s := set_value pxList portMAX_DELAY s in
  let s := set_next pxList pxList s in
  let s := set_previous pxList pxList s in
  set_count pxList 0 s.

Definition vListInitialiseItem (pxItem : Z) (s : lists) : lists := set_container pxItem None s.

Definition vListInsertEnd (pxList pxNewListItem : Z) (s : lists) : lists :=
  let ix := pxIndex s pxList in
  let s := set_next pxNewListItem ix s in
  let s := set_previous pxNewListItem (pxPrevious s ix) s in
  let s := set_next (pxPrevious s ix) pxNewListItem s in
  let s := set_previous ix pxNewListItem s in
  let s := set_container pxNewListItem (Some pxList) s in
  set_count pxList (uxNumberOfItems s pxList + 1) s.

(** The loop that looks for the place of an item; it has no bound of its own. *)
Fixpoint find_position (fuel : nat) (pxIterator xValueOfInsertion : Z) (s : lists) : res Z :=
  match fuel with
  | O => Fault OutOfFuel
  | S fuel =>
      if xItemValue s (pxNext s pxIterator) <=? xValueOfInsertion
      then find_position fuel (pxNext s pxIterator) xValueOfInsertion s
      else Ret pxIterator
  end.

Definition vListInsert (pxList pxNewListItem : Z) (s : lists) : res lists :=
  let xValueOfInsertion := xItemValue s pxNewListItem in
  pxIterator ← (if xValueOfInsertion =? portMAX_DELAY then Ret (pxPrevious s pxList)
                else find_position (S (Z.to_nat (uxNumberOfItems s pxList))) pxList xValueOfInsertion s);
  let s := set_next pxNewListItem (pxNext s pxIterator) s in
  let s := set_previous (pxNext s pxNewListItem) pxNewListItem s in
  let s := set_previous pxNewListItem pxIterator s in
  let s := set_next pxIterator pxNewListItem s in
  let s := set_container pxNewListItem (Some pxList) s in
  Ret (set_count pxList (uxNumberOfItems s pxList + 1) s).

Definition uxListRemove (pxItemToRemove : Z) (s : lists) : res (Z * lists) :=
  pxList ← of_option NullPointer (pvContainer s pxItemToRemove);
  let s := set_previous (pxNext s pxItemToRemove) (pxPrevious s pxItemToRemove) s in
  let s := set_next (pxPrevious s pxItemToRemove) (pxNext s pxItemToRemove) s in
  let s := if pxIndex s pxList =? pxItemToRemove then set_index pxList (pxPrevious s pxItemToRemove) s else s in
  let s := set_container pxItemToRemove None s in
  let s := set_count pxList (uxNumberOfItems s pxList - 1) s in
  Ret (uxNumberOfItems s pxList, s).

Definition listLIST_IS_EMPTY (pxList : Z) (s : lists) : bool := uxNumberOfItems s pxList =? 0.

(** xListEnd is a MiniListItem_t, which has no owner: reading the owner of the
    marker reads behind the List_t. *)
Definition get_owner (pxList pxItem : Z) (s : lists) : res Z :=
  if pxItem =? pxList then Fault OutOfBounds else Ret (pvOwner s pxItem).
Definition listGET_OWNER_OF_HEAD_ENTRY (pxList : Z) (s : lists) : res Z := get_owner pxList (pxNext s pxList) s.
Definition listGET_OWNER_OF_NEXT_ENTRY (pxList : Z) (s : lists) : res (Z * lists) :=
  let s := set_index pxList (pxNext s (pxIndex s pxList)) s in
  let s := if pxIndex s pxList =? pxList then set_index pxList (pxNext s (pxIndex s pxList)) s else s in
  owner ← get_owner pxList (pxIndex s pxList) s;
  Ret (owner, s).

(** * The list represented *)

(** Neighbours along [l] are linked both ways. *)
Fixpoint linked (s : lists) (l : list Z) : Prop :=
  match l with
  | u :: (v :: _) as r => pxNext s u = v /\ pxPrevious s v = u /\ linked s r
  | _ => True
  end.

(** The list at [L] holds the items [l], and its index stands at [ix]. *)
Record list_ok (s : lists) (L : Z) (l : list Z) (ix : Z) : Prop := {
  ok_ring : linked s (L :: l ++ [L]);
  ok_nodup : NoDup (L :: l);
  ok_container x : x ∈ l -> pvContainer s x = Some L;
  ok_count : uxNumberOfItems s L = zlen l;
  ok_small : zlen l < 2 ^ 32;
  ok_index : pxIndex s L = ix;
  ok_index_in : ix ∈ (L :: l);
  ok_marker : xItemValue s L = portMAX_DELAY }.

(** The place of an item: behind all that do not exceed it. *)
Fixpoint insert_sorted (value : Z -> Z) (x : Z) (l : list Z) : list Z :=
  match l with
  | [] => [x]
  | y :: l => if value y <=? value x then y :: insert_sorted value x l else x :: y :: l
  end.

(** In front of an item, or at the end for the marker. *)
Fixpoint insert_before (ix x : Z) (l : list Z) : list Z :=
  match l with
  | [] => [x]
  | y :: l => if y =? ix then x :: y :: l else y :: insert_before ix x l
  end.

(** The node in front of an item, and the list without it. *)
Fixpoint pred_of (L x : Z) (l : list Z) : Z :=
  match l with
  | [] => L
  | y :: l => if y =? x then L else pred_of y x l
  end.
Definition remove_item (x : Z) (l : list Z) : list Z := filter (fun y => y <> x) l.

(** The item behind [ix], skipping the marker. *)
Fixpoint next_in (L ix : Z) (l : list Z) : Z :=
  match l with
  | [] => L
  | y :: l => if y =? ix then hd L l else next_in L ix l
  end.
Definition next_index (L ix : Z) (l : list Z) : Z :=
  let n := if ix =? L then hd L l else next_in L ix l in
  if n =? L then hd L l else n.

(** ** Links *)

Lemma linked_mid s l1 u v l2 :
  linked s (l1 ++ u :: v :: l2) <->
  linked s (l1 ++ [u]) /\ (pxNext s u = v /\ pxPrevious s v = u) /\ linked s (v :: l2).
Proof.
  induction l1 as [| a l1 IH]; [cbn; tauto |].
  destruct l1 as [| b l1]; [cbn in *; tauto |].
  change ((a :: b :: l1) ++ ?r) with (a :: b :: (l1 ++ r)) in *.
  change ((b :: l1) ++ ?r) with (b :: (l1 ++ r)) in *. cbn [linked]. rewrite IH. tauto.
Qed.

(** Links are kept by a change elsewhere. *)
Lemma linked_agree s s' l u :
  (forall x, x ∈ l -> pxNext s' x = pxNext s x) ->
  (forall x, x ∈ tail (l ++ [u]) -> pxPrevious s' x = pxPrevious s x) ->
  linked s (l ++ [u]) -> linked s' (l ++ [u]).
Proof.
  induction l as [| a [| b l] IH]; intros Hn Hp; [done | |].
  - cbn in *. intros (E1 & E2 & _). by rewrite Hn, Hp by set_solver.
  - change ((a :: b :: l) ++ [u]) with (a :: b :: (l ++ [u])) in *.
    change ((b :: l) ++ [u]) with (b :: (l ++ [u])) in *. cbn [linked tail] in *.
    intros (H1 & H2 & H3). rewrite (Hn a), (Hp b) by set_solver. split_and!; [done.. |].
    apply IH; [set_solver | set_solver | done].
Qed.

(** The nodes around a place of the ring. *)
Lemma ring_split (L : Z) l1 l2 : exists m1 p n m2,
  L :: l1 = m1 ++ [p] /\ l2 ++ [L] = n :: m2 /\
  L :: (l1 ++ l2) ++ [L] = m1 ++ p :: n :: m2 /\
  (forall x, L :: (l1 ++ x :: l2) ++ [L] = m1 ++ p :: x :: n :: m2).
Proof.
  destruct (exists_last (l := L :: l1)) as (m1 & p & E1); [done |].
  assert (exists n m2, l2 ++ [L] = n :: m2) as (n & m2 & E2) by (destruct l2; cbn; eauto).
  exists m1, p, n, m2. split_and!; [done | done | |].
  - rewrite <- app_assoc, E2. rewrite app_comm_cons, E1. by rewrite <- app_assoc.
  - intros x. rewrite <- app_assoc. cbn. rewrite E2, app_comm_cons, E1. by rewrite <- app_assoc.
Qed.

(** What the place says of its neighbours. *)
Lemma ring_split_nodup (L p n : Z) (l1 l2 m1 m2 : list Z) :
  L :: l1 = m1 ++ [p] -> l2 ++ [L] = n :: m2 -> NoDup (L :: l1 ++ l2) ->
  (p ∉ m1) /\ (p ∉ l2) /\ (n ∉ l1) /\ (n ∉ m2) /\ (forall y, y ∈ m1 -> y ∈ (L :: l1)) /\ (forall y, y ∈ m2 -> y ∈ (L :: l2))
  /\ (p ∈ L :: l1) /\ (n ∈ L :: l2) /\ tail (m1 ++ [p]) = l1 /\ (forall y, y ∈ l1 -> y <> L) /\ (forall y, y ∈ l2 -> y <> L).
Proof.
  intros E1 E2 Hd.
  assert (NoDup (m1 ++ [p])) as D1 by (rewrite <- E1; rewrite app_comm_cons in Hd; by apply list.NoDup_app in Hd as (? & _)).
  assert (NoDup (n :: m2)) as D2.
  { rewrite <- E2. apply list.NoDup_cons in Hd as (Hn & Hd). apply list.NoDup_app in Hd as (_ & _ & Hd).
    apply list.NoDup_app. split_and!; [done | set_solver | apply NoDup_singleton]. }
  apply list.NoDup_app in D1 as (_ & D1 & _). apply list.NoDup_cons in D2 as (D2 & _).
  apply list.NoDup_cons in Hd as (HL & Hd). apply list.NoDup_app in Hd as (_ & Hx & _).
  rewrite elem_of_app in HL.
  assert (forall y, y ∈ m1 \/ y = p <-> y = L \/ y ∈ l1) as M1.
  { intros y. rewrite <- list_elem_of_singleton, <- elem_of_app, <- E1. apply elem_of_cons. }
  assert (forall y, y = n \/ y ∈ m2 <-> y ∈ l2 \/ y = L) as M2.
  { intros y. rewrite <- elem_of_cons, <- E2, elem_of_app, list_elem_of_singleton. done. }
  assert (p ∉ m1) by (intros Hp; apply (D1 p Hp); left).
  setoid_rewrite elem_of_cons.
  pose proof (proj1 (M1 p) (or_intror eq_refl)) as Hp.
  pose proof (proj1 (M2 n) (or_introl eq_refl)) as Hn.
  assert (tail (m1 ++ [p]) = l1) by (by rewrite <- E1).
  clear E1 E2. split_and!; try done; firstorder congruence.
Qed.

(** Putting [x] between [p] and [n], and taking it out. *)
Lemma linked_insert s s' (L p n x : Z) (l1 l2 m1 m2 : list Z) :
  L :: l1 = m1 ++ [p] -> l2 ++ [L] = n :: m2 -> NoDup (x :: L :: l1 ++ l2) ->
  linked s (m1 ++ p :: n :: m2) ->
  pxNext s' p = x -> pxNext s' x = n -> (forall y, y <> p -> y <> x -> pxNext s' y = pxNext s y) ->
  pxPrevious s' n = x -> pxPrevious s' x = p -> (forall y, y <> n -> y <> x -> pxPrevious s' y = pxPrevious s y) ->
  linked s' (m1 ++ p :: x :: n :: m2).
Proof.
  intros E1 E2 [Hx Hd]%list.NoDup_cons Hl Np Nx Nr Pn Px Pr.
  pose proof (ring_split_nodup _ _ _ _ _ _ _ E1 E2 Hd) as (Pm & Pl & Nl & Nm & Im1 & Im2 & Ip & In & Et & Ne1 & Ne2).
  apply linked_mid in Hl as (H1 & _ & H2).
  rewrite linked_mid. split_and!; [| done.. |].
  - revert H1. apply linked_agree; [intros y Hy; apply Nr; set_solver +Hy Pm Im1 Hx |].
    rewrite Et. intros y Hy. apply Pr; set_solver +Hy Nl Hx.
  - change (pxNext s' x = n /\ pxPrevious s' n = x /\ linked s' (n :: m2)).
    split_and!; [done | done |]. rewrite <- E2 in *. revert H2.
    apply linked_agree; [intros y Hy; apply Nr; set_solver +Hy Pl Hx |].
    rewrite E2. cbn [tail]. intros y Hy. apply Pr; set_solver +Hy Nm Im2 Hx.
Qed.

Lemma linked_remove s s' (L p n x : Z) (l1 l2 m1 m2 : list Z) :
  L :: l1 = m1 ++ [p] -> l2 ++ [L] = n :: m2 -> NoDup (x :: L :: l1 ++ l2) ->
  linked s (m1 ++ p :: x :: n :: m2) ->
  pxNext s' p = n -> (forall y, y <> p -> pxNext s' y = pxNext s y) ->
  pxPrevious s' n = p -> (forall y, y <> n -> pxPrevious s' y = pxPrevious s y) ->
  linked s' (m1 ++ p :: n :: m2).
Proof.
  intros E1 E2 [Hx Hd]%list.NoDup_cons Hl Np Nr Pn Pr.
  pose proof (ring_split_nodup _ _ _ _ _ _ _ E1 E2 Hd) as (Pm & Pl & Nl & Nm & Im1 & Im2 & Ip & In & Et & Ne1 & Ne2).
  apply linked_mid in Hl as (H1 & _ & H2).
  change (pxNext s x = n /\ pxPrevious s n = x /\ linked s (n :: m2)) in H2. destruct H2 as (_ & _ & H2).
  rewrite linked_mid. split_and!; [| done.. |].
  - revert H1. apply linked_agree; [intros y Hy; apply Nr; set_solver +Hy Pm Im1 Hx |].
    rewrite Et. intros y Hy. apply Pr; set_solver +Hy Nl Hx.
  - rewrite <- E2 in *. revert H2.
    apply linked_agree; [intros y Hy; apply Nr; set_solver +Hy Pl Hx |].
    rewrite E2. cbn [tail]. intros y Hy. apply Pr; set_solver +Hy Nm Im2 Hx.
Qed.

(** A list whose nodes are left alone. *)
Lemma list_frame s s' L l ix :
  (forall y, y ∈ L :: l -> pxNext s' y = pxNext s y /\ pxPrevious s' y = pxPrevious s y /\ pvContainer s' y = pvContainer s y) ->
  pxIndex s' L = pxIndex s L -> uxNumberOfItems s' L = uxNumberOfItems s L -> xItemValue s' L = xItemValue s L ->
  list_ok s L l ix -> list_ok s' L l ix.
Proof.
  intros Hy Hi Hc Hv [Hr Hd Hco Hn Hs Hix Hin Hm]. split; try congruence.
  - change (L :: l ++ [L]) with ((L :: l) ++ [L]) in *. revert Hr. apply linked_agree.
    + intros y Hl. by apply Hy.
    + cbn [tail app]. intros y [Hl | ->%list_elem_of_singleton]%elem_of_app; apply Hy; set_solver.
  - intros x Hx. destruct (Hy x) as (_ & _ & ->); [set_solver | auto].
Qed.

(** * The operations on the list represented *)

Lemma fn_insert_eq {A} (f : Z -> A) a b : (<[a := b]> f) a = b.
Proof. apply fn_lookup_insert. Qed.
Lemma fn_insert_ne {A} (f : Z -> A) a b c : c <> a -> (<[a := b]> f) c = f c.
Proof. intros. by apply fn_lookup_insert_ne. Qed.

(** Reading a field that was just written, or another one. *)
Ltac fields :=
  cbn [pxNext pxPrevious xItemValue pvOwner pvContainer pxIndex uxNumberOfItems
       set_next set_previous set_value set_container set_index set_count] in *;
  repeat match goal with
  | |- context [(<[?a := ?b]> ?f) ?c] =>
      first [ rewrite (fn_insert_eq f a b : (<[a := b]> f) c = b)
            | rewrite (fn_insert_ne f a b c) by (first [done | congruence]) ]
  end; try done.

Lemma vListInitialise_ok L s : list_ok (vListInitialise L s) L [] L.
Proof.
  split; unfold vListInitialise; fields; try set_solver.
  - cbn [linked app]. fields.
  - apply NoDup_singleton.
Qed.

(** The item put between [p] and [n]. *)
Definition link (L p x n : Z) (s : lists) : lists :=
  mkLists (<[p := x]> (<[x := n]> (pxNext s))) (<[x := p]> (<[n := x]> (pxPrevious s)))
    (xItemValue s) (pvOwner s) (<[x := Some L]> (pvContainer s)) (pxIndex s)
    (<[L := wrap_u 32 (uxNumberOfItems s L + 1)]> (uxNumberOfItems s)).

Lemma list_link s L ix x (p n : Z) (l1 l2 m1 m2 : list Z) :
  L :: l1 = m1 ++ [p] -> l2 ++ [L] = n :: m2 ->
  list_ok s L (l1 ++ l2) ix -> x ∉ L :: l1 ++ l2 -> zlen (l1 ++ l2) + 1 < 2 ^ 32 ->
  list_ok (link L p x n s) L (l1 ++ x :: l2) ix.
Proof.
  intros E1 E2 [Hr Hd Hco Hn Hs Hix Hin Hm] Hx Hz.
  assert (NoDup (x :: L :: l1 ++ l2)) as Hdx by (apply list.NoDup_cons; done).
  pose proof (ring_split_nodup _ _ _ _ _ _ _ E1 E2 Hd) as (Pm & Pl & Nl & Nm & Im1 & Im2 & Ip & In & Et & Ne1 & Ne2).
  assert (x <> p /\ x <> n) as [Hxp Hxn] by (split; set_solver +Hx Ip In).
  split; unfold link.
  - rewrite <- app_assoc. cbn [app]. rewrite E2, app_comm_cons, E1, <- app_assoc. cbn [app].
    rewrite <- app_assoc, app_comm_cons, E2, E1, <- app_assoc in Hr.
    eapply (linked_insert s); try done; fields; intros; fields.
  - rewrite app_comm_cons, <- Permutation_middle. done.
  - intros y Hy. destruct (decide (y = x)) as [-> |]; fields. apply Hco. set_solver +Hy n0.
  - fields. rewrite Hn, !zlen_app, zlen_cons, wrap_u_small; rewrite ?zlen_app in *; [lia |].
    pose proof (zlen_nonneg l1). pose proof (zlen_nonneg l2). lia.
  - rewrite zlen_app, zlen_cons. rewrite zlen_app in Hz. lia.
  - done.
  - set_solver +Hin.
  - done.
Qed.

(** What a change of the list at [L] and of the items [xs] leaves alone. *)
Definition only (L : Z) (xs : list Z) (s s' : lists) : Prop :=
  (forall y, y ∉ L :: xs -> pxNext s' y = pxNext s y /\ pxPrevious s' y = pxPrevious s y /\ pvContainer s' y = pvContainer s y) /\
  (forall M, M <> L -> pxIndex s' M = pxIndex s M /\ uxNumberOfItems s' M = uxNumberOfItems s M) /\
  (forall y, xItemValue s' y = xItemValue s y) /\ (forall y, pvOwner s' y = pvOwner s y).

(** Equal in every field of every address. *)
Definition same (s s' : lists) : Prop :=
  (forall y, pxNext s' y = pxNext s y /\ pxPrevious s' y = pxPrevious s y /\ pvContainer s' y = pvContainer s y) /\
  (forall M, pxIndex s' M = pxIndex s M /\ uxNumberOfItems s' M = uxNumberOfItems s M) /\
  (forall y, xItemValue s' y = xItemValue s y) /\ (forall y, pvOwner s' y = pvOwner s y).

Lemma same_ok s s' L l ix : same s s' -> list_ok s L l ix -> list_ok s' L l ix.
Proof. intros (H1 & H2 & H3 & _). apply list_frame; intros; try apply H1; try apply H2; apply H3. Qed.

Lemma same_only L xs s s' s'' : only L xs s s' -> same s' s'' -> only L xs s s''.
Proof.
  intros (H1 & H2 & H3 & H4) (K1 & K2 & K3 & K4). split_and!.
  - intros y Hy. destruct (H1 y Hy) as (<- & <- & <-). apply K1.
  - intros M HM. destruct (H2 M HM) as (<- & <-). apply K2.
  - intros. by rewrite K3, H3.
  - intros. by rewrite K4, H4.
Qed.

Lemma link_only L p x n xs s : p ∈ L :: xs -> n ∈ L :: xs -> only L (x :: xs) s (link L p x n s).
Proof.
  intros. split_and!; unfold link.
  - intros y Hy. assert (y <> p /\ y <> n /\ y <> x) as (? & ? & ?) by set_solver. fields.
  - intros M HM. fields.
  - done.
  - done.
Qed.

(** The neighbours of a place. *)
Lemma ring_neighbours s L ix (p n : Z) (l1 l2 m1 m2 : list Z) :
  L :: l1 = m1 ++ [p] -> l2 ++ [L] = n :: m2 -> list_ok s L (l1 ++ l2) ix ->
  pxNext s p = n /\ pxPrevious s n = p.
Proof.
  intros E1 E2 Hok. pose proof (ok_ring _ _ _ _ Hok) as Hr.
  rewrite <- app_assoc, app_comm_cons, E2, E1, <- app_assoc in Hr. by apply linked_mid in Hr as (_ & ? & _).
Qed.

Lemma insert_before_split L ix x l : ix ∈ L :: l -> L ∉ l ->
  exists l1 l2, l = l1 ++ l2 /\ hd L l2 = ix /\ insert_before ix x l = l1 ++ x :: l2.
Proof.
  induction l as [| y l IH]; cbn [insert_before].
  - intros ->%list_elem_of_singleton _. by exists [], [].
  - intros Hi HL. destruct (Z.eqb_spec y ix) as [-> |].
    + by exists [], (ix :: l).
    + destruct IH as (l1 & l2 & -> & Hh & ->); [set_solver | set_solver |]. by exists (y :: l1), l2.
Qed.

(** A new item is put in front of the index. *)
Lemma vListInsertEnd_ok s L l ix x :
  list_ok s L l ix -> x ∉ L :: l -> zlen l + 1 < 2 ^ 32 ->
  list_ok (vListInsertEnd L x s) L (insert_before ix x l) ix /\ only L (x :: l) s (vListInsertEnd L x s).
Proof.
  intros Hok Hx Hz.
  destruct (insert_before_split L ix x l) as (l1 & l2 & -> & Hh & ->);
    [apply Hok | by destruct Hok as [_ [? _]%list.NoDup_cons] |].
  destruct (ring_split L l1 l2) as (m1 & p & n & m2 & E1 & E2 & _).
  assert (n = ix) as -> by (destruct l2; cbn in *; congruence).
  destruct (ring_neighbours _ _ _ _ _ _ _ _ _ E1 E2 Hok) as [Hn Hp].
  pose proof (ring_split_nodup _ _ _ _ _ _ _ E1 E2 (ok_nodup _ _ _ _ Hok)) as (_ & _ & _ & _ & _ & _ & Ip & In & _).
  assert (x <> p /\ x <> ix) as [? ?] by (split; set_solver +Hx Ip In).
  assert (same (link L p x ix s) (vListInsertEnd L x s)) as Hs.
  { unfold vListInsertEnd. rewrite (ok_index _ _ _ _ Hok). fields. rewrite Hp. fields.
    unfold link. split_and!; intros y; cbn; [| done..].
    destruct (decide (y = x)) as [-> |]; [fields |].
    destruct (decide (y = ix)) as [-> |]; fields. }
  split.
  - eapply same_ok; [done |]. by eapply list_link.
  - eapply same_only; [| done]. apply link_only; set_solver +Ip In.
Qed.

(** The search ends, at the latest in front of the marker. *)
Lemma find_position_spec s (L x a : Z) l fuel :
  linked s (a :: l ++ [L]) -> xItemValue s x < xItemValue s L -> (length l < fuel)%nat ->
  exists l1 l2 p m1, l = l1 ++ l2 /\ insert_sorted (xItemValue s) x l = l1 ++ x :: l2 /\
    find_position fuel a (xItemValue s x) s = Ret p /\ a :: l1 = m1 ++ [p].
Proof.
  revert a fuel. induction l as [| y l IH]; intros a fuel Hl Hv Hf;
    (destruct fuel as [| fuel]; [cbn in Hf; lia |]); cbn [find_position insert_sorted].
  - cbn in Hl. destruct Hl as (-> & _). destruct (Z.leb_spec (xItemValue s L) (xItemValue s x)); [lia |].
    exists [], [], a, []. done.
  - cbn [app] in Hl. destruct Hl as (-> & _ & Hl).
    destruct (Z.leb_spec (xItemValue s y) (xItemValue s x)).
    + destruct (IH y fuel Hl Hv) as (l1 & l2 & p & m1 & -> & -> & -> & Em); [cbn in Hf; lia |].
      exists (y :: l1), l2, p, (a :: m1). split_and!; [done.. |]. by rewrite Em.
    + by exists [], (y :: l), a, [].
Qed.

Lemma insert_sorted_top v x l : (forall y, y ∈ l -> v y <= v x) -> insert_sorted v x l = l ++ [x].
Proof.
  induction l as [| y l IH]; intros Hv; [done |]. cbn [insert_sorted app].
  destruct (Z.leb_spec (v y) (v x)) as [_ | Hy]; [rewrite IH; [done | set_solver] |].
  specialize (Hv y). assert (v y <= v x) by set_solver. lia.
Qed.

Lemma vListInsert_ok s L l ix x :
  list_ok s L l ix -> x ∉ L :: l -> zlen l + 1 < 2 ^ 32 -> (forall y, xItemValue s y <= portMAX_DELAY) ->
  exists s', vListInsert L x s = Ret s' /\ list_ok s' L (insert_sorted (xItemValue s) x l) ix /\ only L (x :: l) s s'.
Proof.
  intros Hok Hx Hz Hmax.
  assert (exists l1 l2 p m1, l = l1 ++ l2 /\ insert_sorted (xItemValue s) x l = l1 ++ x :: l2 /\
    (if xItemValue s x =? portMAX_DELAY then Ret (pxPrevious s L)
     else find_position (S (Z.to_nat (uxNumberOfItems s L))) L (xItemValue s x) s) = Ret p /\ L :: l1 = m1 ++ [p])
    as (l1 & l2 & p & m1 & -> & -> & Hf & E1).
  { destruct (Z.eqb_spec (xItemValue s x) portMAX_DELAY) as [Ex |].
    - destruct (ring_split L l []) as (m1 & p & n & m2 & E1 & E2 & _). cbn in E2. injection E2 as <- <-.
      rewrite insert_sorted_top by (intros y _; rewrite Ex; apply Hmax).
      exists l, [], p, m1. rewrite app_nil_r. split_and!; [done | done | | done].
      f_equal. rewrite <- (app_nil_r l) in Hok. by eapply (ring_neighbours s L ix p L l [] m1 []) in Hok as [_ ->].
    - apply (find_position_spec s L x L l); [apply Hok | rewrite (ok_marker _ _ _ _ Hok); specialize (Hmax x); lia |].
      rewrite (ok_count _ _ _ _ Hok). unfold zlen. lia. }
  destruct (ring_split L l1 l2) as (m1' & p' & n & m2 & E1' & E2 & _).
  rewrite E1' in E1. apply app_inj_tail in E1 as [<- ->].
  destruct (ring_neighbours _ _ _ _ _ _ _ _ _ E1' E2 Hok) as [Hn Hp].
  pose proof (ring_split_nodup _ _ _ _ _ _ _ E1' E2 (ok_nodup _ _ _ _ Hok)) as (_ & _ & _ & _ & _ & _ & Ip & In & _).
  assert (x <> p /\ x <> n) as [? ?] by (split; set_solver +Hx Ip In).
  unfold vListInsert. rewrite Hf. cbn [mbind res_bind]. eexists. split; [done |].
  match goal with |- list_ok ?s' _ _ _ /\ _ => assert (same (link L p x n s) s') as Hs end.
  { rewrite Hn. unfold link. fields.
    all: split_and!; intros y; cbn; [| done..].
    all: destruct (decide (y = x)) as [-> |]; [by fields |]; fields. }
  split.
  - eapply same_ok; [done |]. by eapply list_link.
  - eapply same_only; [| done]. apply link_only; set_solver +Ip In.
Qed.

Lemma remove_item_notin x l : x ∉ l -> remove_item x l = l.
Proof.
  unfold remove_item. induction l as [| y l IH]; [done |]. intros [? ?]%not_elem_of_cons.
  rewrite filter_cons_True by congruence. by rewrite IH.
Qed.

Lemma item_split L x l : x ∈ l -> NoDup (L :: l) ->
  exists l1 l2, l = l1 ++ x :: l2 /\ remove_item x l = l1 ++ l2.
Proof.
  intros (l1 & l2 & ->)%list_elem_of_split [_ Hd]%list.NoDup_cons. exists l1, l2. split; [done |].
  apply list.NoDup_app in Hd as (_ & H1 & [H2 _]%list.NoDup_cons).
  unfold remove_item. rewrite list.filter_app, filter_cons_False by tauto.
  fold (remove_item x l1) (remove_item x l2). rewrite !remove_item_notin; [done | done |].
  intros Hx. apply (H1 x Hx). left.
Qed.

Lemma pred_of_split L x (p : Z) l1 l2 m1 : x ∉ l1 -> L :: l1 = m1 ++ [p] -> pred_of L x (l1 ++ x :: l2) = p.
Proof.
  revert L m1. induction l1 as [| y l1 IH]; intros L m1 Hx E; cbn.
  - rewrite Z.eqb_refl. destruct m1 as [| ? [|]]; cbn in E; congruence.
  - destruct (Z.eqb_spec y x) as [-> |]; [set_solver |].
    destruct m1 as [| a m1]; [destruct l1; discriminate |]. injection E as -> E.
    by apply (IH y m1); [set_solver |].
Qed.

(** The item between [p] and [n] taken out. *)
Definition unlink (L p x n : Z) (s : lists) : lists :=
  mkLists (<[p := n]> (pxNext s)) (<[n := p]> (pxPrevious s)) (xItemValue s) (pvOwner s)
    (<[x := None]> (pvContainer s)) (<[L := if pxIndex s L =? x then p else pxIndex s L]> (pxIndex s))
    (<[L := wrap_u 32 (uxNumberOfItems s L - 1)]> (uxNumberOfItems s)).

Lemma list_unlink s L ix x (p n : Z) (l1 l2 m1 m2 : list Z) :
  L :: l1 = m1 ++ [p] -> l2 ++ [L] = n :: m2 -> list_ok s L (l1 ++ x :: l2) ix ->
  list_ok (unlink L p x n s) L (l1 ++ l2) (if ix =? x then p else ix) /\ only L (l1 ++ x :: l2) s (unlink L p x n s)
  /\ pxPrevious s x = p /\ pxNext s x = n /\ x <> p /\ x <> n.
Proof.
  intros E1 E2 [Hr Hd Hco Hn Hs Hix Hin Hm].
  assert (NoDup (x :: L :: l1 ++ l2)) as Hdx by (by rewrite app_comm_cons, <- Permutation_middle in Hd).
  pose proof Hdx as [Hx Hd']%list.NoDup_cons.
  pose proof (ring_split_nodup _ _ _ _ _ _ _ E1 E2 Hd') as (_ & _ & _ & _ & _ & _ & Ip & In & _).
  assert (x <> p /\ x <> n) as (? & ?) by (split_and!; set_solver +Hx Ip In).
  rewrite <- app_assoc, app_comm_cons, E1, <- app_assoc in Hr. cbn [app] in Hr. rewrite E2 in Hr.
  pose proof Hr as (_ & [_ Px] & Hl2)%linked_mid. destruct Hl2 as [Nx _].
  assert (forall y, y ∈ l1 ++ l2 -> y ∈ l1 ++ x :: l2 /\ y <> x) as Hmem by (set_solver +Hx).
  rewrite !zlen_app, zlen_cons in *. pose proof (zlen_nonneg l1). pose proof (zlen_nonneg l2).
  split_and!; [| | done..].
  - split; unfold unlink; fields; [| | | | by rewrite Hix | ].
    + rewrite <- app_assoc, app_comm_cons, E2, E1, <- app_assoc. eapply (linked_remove s); try done; fields; intros; fields.
    + intros y [Hy Hyx]%Hmem. fields. auto.
    + rewrite Hn, zlen_app, wrap_u_small; lia.
    + rewrite zlen_app; lia.
    + destruct (Z.eqb_spec ix x) as [| Hne]; [set_solver +Ip | set_solver +Hin Hne].
  - unfold unlink. split_and!; try done.
    + intros y Hy. assert (y <> p /\ y <> n /\ y <> x) as (? & ? & ?) by (split_and!; set_solver +Hy Ip In). fields.
    + intros M HM. fields.
Qed.

(** An item is taken out of the list its container field names. *)
Lemma uxListRemove_ok s L l ix x :
  list_ok s L l ix -> x ∈ l ->
  exists s', uxListRemove x s = Ret (zlen l - 1, s') /\
    list_ok s' L (remove_item x l) (if ix =? x then pred_of L x l else ix) /\
    only L l s s' /\ pvContainer s' x = None.
Proof.
  intros Hok Hxl. pose proof (ok_index _ _ _ _ Hok) as Hix. pose proof (ok_container _ _ _ _ Hok x Hxl) as Hco.
  pose proof (ok_count _ _ _ _ Hok) as Hn. pose proof (ok_small _ _ _ _ Hok).
  destruct (item_split L x l Hxl (ok_nodup _ _ _ _ Hok)) as (l1 & l2 & -> & ->).
  destruct (ring_split L l1 l2) as (m1 & p & n & m2 & E1 & E2 & _).
  destruct (list_unlink _ _ _ _ _ _ _ _ _ _ E1 E2 Hok) as (Hok' & Ho & Px & Nx & ? & ?).
  rewrite (pred_of_split L x p l1 l2 m1) by (done || by pose proof (ok_nodup _ _ _ _ Hok) as [_ (_ & Hc & _)%list.NoDup_app]%list.NoDup_cons; intros Hi; apply (Hc _ Hi); left).
  rewrite !zlen_app, zlen_cons in *. pose proof (zlen_nonneg l1). pose proof (zlen_nonneg l2).
  unfold uxListRemove. rewrite Hco. cbn [of_option mbind res_bind]. fields. rewrite Px, Nx, Hix.
  match goal with |- exists _, Ret (_, ?s') = _ /\ _ => assert (same (unlink L p x n s) s') as Hs; [| exists s'] end.
  { unfold unlink. rewrite Hix. split_and!; intros y; destruct (Z.eqb_spec ix x) as [-> |]; cbn; try split_and!; try done.
    all: destruct (decide (y = L)) as [-> |]; fields. }
  split_and!.
  - destruct (ix =? x); fields; rewrite Hn, wrap_u_small by lia; do 2 f_equal; lia.
  - by eapply same_ok.
  - by eapply same_only.
  - destruct (ix =? x); fields.
Qed.

Lemma next_in_split (L ix : Z) l : ix ∈ l -> NoDup l ->
  exists l1 l2, l = l1 ++ ix :: l2 /\ next_in L ix l = hd L l2.
Proof.
  induction l as [| y l IH]; intros Hi Hd; [by apply elem_of_nil in Hi |]. cbn [next_in].
  apply list.NoDup_cons in Hd as [Hy Hd].
  destruct (Z.eqb_spec y ix) as [-> | Hne]; [by exists [], l |].
  destruct IH as (l1 & l2 & -> & Hn); [by apply elem_of_cons in Hi as [|] | done |]. by exists (y :: l1), l2.
Qed.

(** The node behind the index. *)
Lemma next_of s L l ix : list_ok s L l ix ->
  pxNext s L = hd L l /\ pxNext s ix = (if ix =? L then hd L l else next_in L ix l).
Proof.
  intros Hok. pose proof (ok_nodup _ _ _ _ Hok) as [HL Hd]%list.NoDup_cons.
  assert (pxNext s L = hd L l) as Hh.
  { pose proof (ok_ring _ _ _ _ Hok) as Hr. destruct l; cbn in *; tauto. }
  split; [done |]. destruct (Z.eqb_spec ix L) as [-> | Hne]; [done |].
  assert (ix ∈ l) as Hi by (pose proof (ok_index_in _ _ _ _ Hok) as [|]%elem_of_cons; done).
  destruct (next_in_split L ix l Hi Hd) as (l1 & l2 & -> & ->).
  pose proof (ok_ring _ _ _ _ Hok) as Hr.
  destruct l2 as [| y l2].
  - replace (L :: (l1 ++ [ix]) ++ [L]) with ((L :: l1) ++ ix :: L :: []) in Hr by (cbn; by rewrite <- app_assoc).
    by apply linked_mid in Hr as (_ & [? _] & _).
  - replace (L :: (l1 ++ ix :: y :: l2) ++ [L]) with ((L :: l1) ++ ix :: y :: (l2 ++ [L])) in Hr by (cbn; by rewrite <- app_assoc).
    by apply linked_mid in Hr as (_ & [? _] & _).
Qed.

Lemma next_index_in L ix l : ix ∈ L :: l -> next_index L ix l ∈ L :: l.
Proof.
  intros Hi. assert (hd L l ∈ L :: l) by (destruct l; cbn; set_solver +).
  assert (forall l', (forall y, y ∈ l' -> y ∈ L :: l) -> next_in L ix l' ∈ L :: l) as Hg.
  { induction l' as [| y l' IH]; intros Hs; cbn; [left |]. destruct (y =? ix).
    - destruct l' as [| z ?]; cbn; [left | apply Hs; right; left].
    - apply IH. intros. apply Hs. by right. }
  unfold next_index. case_match; [done |]. destruct (ix =? L); [done |]. apply Hg. intros. by right.
Qed.

Lemma set_index_ok s L l ix ix' : list_ok s L l ix -> ix' ∈ L :: l -> list_ok (set_index L ix' s) L l ix'.
Proof.
  intros [Hr] ?. split; fields. revert Hr. rewrite (app_comm_cons l [L] L).
  by apply linked_agree.
Qed.

(** In a list that is not empty the index moves to the next item and skips the marker. *)
Lemma next_index_item L ix l : NoDup (L :: l) -> l <> [] -> next_index L ix l <> L.
Proof.
  intros [HL _]%list.NoDup_cons Hne E. unfold next_index in E. set (n := if ix =? L then hd L l else next_in L ix l) in E.
  assert (hd L l <> L) as Hh by (destruct l; [done | cbn; intros ->; apply HL; left]). by destruct (Z.eqb_spec n L).
Qed.

Lemma next_entry_ok s L l ix :
  list_ok s L l ix -> l <> [] ->
  exists s', listGET_OWNER_OF_NEXT_ENTRY L s = Ret (pvOwner s (next_index L ix l), s') /\
    list_ok s' L l (next_index L ix l) /\ only L l s s'.
Proof.
  intros Hok Hne. destruct (next_of s L l ix Hok) as [Hh Hn].
  pose proof (next_index_item L ix l (ok_nodup _ _ _ _ Hok) Hne) as Hnm.
  pose proof (next_index_in L ix l (ok_index_in _ _ _ _ Hok)) as Hin.
  unfold listGET_OWNER_OF_NEXT_ENTRY. rewrite (ok_index _ _ _ _ Hok), Hn. fields.
  set (n := if ix =? L then hd L l else next_in L ix l) in *.
  assert (next_index L ix l = if n =? L then hd L l else n) as En by done. clearbody n.
  assert (forall ix', only L l s (set_index L ix' s)) as Hset.
  { intros ix'. split_and!; fields. intros M HM. fields. }
  unfold get_owner. destruct (Z.eqb_spec n L) as [-> | E]; rewrite En in *; cbn [pxIndex pvOwner set_index]; eexists.
  - split; [fields; rewrite Hh, (proj2 (Z.eqb_neq _ _)) by done; done |]. split; [| split_and!; fields; intros M HM; fields].
    eapply same_ok; [| by apply (set_index_ok s L l ix (hd L l))].
    split_and!; intros y; cbn; try done. destruct (decide (y = L)) as [-> |]; fields.
  - split; [fields; rewrite (proj2 (Z.eqb_neq _ _)) by done; done |]. split; [by apply (set_index_ok s L l ix n) | apply Hset].
Qed.

(** In an empty one it stays on the marker, whose owner is read. *)
Lemma next_entry_empty s L ix : list_ok s L [] ix -> listGET_OWNER_OF_NEXT_ENTRY L s = Fault OutOfBounds.
Proof.
  intros Hok. destruct (next_of s L [] ix Hok) as [Hh Hn]. pose proof (ok_index_in _ _ _ _ Hok) as ->%list_elem_of_singleton.
  unfold listGET_OWNER_OF_NEXT_ENTRY, get_owner. rewrite (ok_index _ _ _ _ Hok), Hn, Z.eqb_refl. fields. cbn [hd].
  rewrite Z.eqb_refl. cbn [pxIndex set_index pxNext]. fields. rewrite Hh. cbn [hd]. by rewrite Z.eqb_refl.
Qed.

(** * The system of lists

    Ready lists, delayed lists and the wait lists of the queues share the
    items of the tasks.  An abstract state names the lists in use, each with
    its items in order and its index, and the value of every item. *)

Record astate := mkAstate { a_lists : gmap Z (list Z * Z); a_value : Z -> Z }.

Inductive list_op :=
  | OpInitialise (L : Z)
  | OpSetValue (x v : Z)
  | OpInsert (L x : Z)
  | OpInsertEnd (L x : Z)
  | OpRemove (x : Z)
  | OpNextEntry (L : Z).

Definition run_op (o : list_op) (s : lists) : res lists :=
  match o with
  | OpInitialise L => Ret (vListInitialise L s)
  | OpSetValue x v => Ret (set_value x v s)
  | OpInsert L x => vListInsert L x s
  | OpInsertEnd L x => Ret (vListInsertEnd L x s)
  | OpRemove x => snd <$> uxListRemove x s
  | OpNextEntry L => snd <$> listGET_OWNER_OF_NEXT_ENTRY L s
  end.

(** The node [x] belongs to the list at [L]. *)
Definition node_of (a : astate) (L x : Z) : bool :=
  match a_lists a !! L with Some (l, _) => bool_decide (x ∈ L :: l) | None => false end.
Definition item_of (a : astate) (L x : Z) : bool :=
  match a_lists a !! L with Some (l, _) => bool_decide (x ∈ l) | None => false end.
Definition unused (a : astate) (x : Z) : Prop := map_Forall (fun L li => x ∉ L :: fst li) (a_lists a).
Definition abs_op (o : list_op) (a : astate) : astate :=
  match o with
  | OpInitialise L => mkAstate (<[L := ([], L)]> (a_lists a)) (<[L := portMAX_DELAY]> (a_value a))
  | OpSetValue x v => mkAstate (a_lists a) (<[x := v]> (a_value a))
  | OpInsert L x => mkAstate (alter (fun '(l, ix) => (insert_sorted (a_value a) x l, ix)) L (a_lists a)) (a_value a)
  | OpInsertEnd L x => mkAstate (alter (fun '(l, ix) => (insert_before ix x l, ix)) L (a_lists a)) (a_value a)
  | OpRemove x =>
      mkAstate (map_imap (fun L '(l, ix) => Some (if bool_decide (x ∈ l)
                 then (remove_item x l, if ix =? x then pred_of L x l else ix) else (l, ix))) (a_lists a)) (a_value a)
  | OpNextEntry L => mkAstate (alter (fun '(l, ix) => (l, next_index L ix l)) L (a_lists a)) (a_value a)
  end.

(** What the callers respect: an item goes into a list when it is in none,
    leaves when it is in one, its value changes when it is in none, a list
    is initialised once, and only a list that is not empty is walked. *)
Definition legal_op (o : list_op) (a : astate) : Prop :=
  match o with
  | OpInitialise L => unused a L
  | OpSetValue x v => unused a x /\ 0 <= v <= portMAX_DELAY
  | OpInsert L x | OpInsertEnd L x =>
      unused a x /\ exists l ix, a_lists a !! L = Some (l, ix) /\ zlen l + 1 < 2 ^ 32
  | OpRemove x => exists L l ix, a_lists a !! L = Some (l, ix) /\ x ∈ l
  | OpNextEntry L => exists l ix, a_lists a !! L = Some (l, ix) /\ l <> []
  end.

Fixpoint run_ops (os : list list_op) (s : lists) : res lists :=
  match os with [] => Ret s | o :: os => run_op o s ≫= run_ops os end.
Fixpoint abs_ops (os : list list_op) (a : astate) : astate :=
  match os with [] => a | o :: os => abs_ops os (abs_op o a) end.
Fixpoint legal_ops (os : list list_op) (a : astate) : Prop :=
  match os with [] => True | o :: os => legal_op o a /\ legal_ops os (abs_op o a) end.

Record rep (a : astate) (s : lists) : Prop := {
  rep_list L l ix : a_lists a !! L = Some (l, ix) -> list_ok s L l ix;
  rep_disjoint L M l m ix im : a_lists a !! L = Some (l, ix) -> a_lists a !! M = Some (m, im) -> L <> M ->
    forall y, y ∈ L :: l -> y ∉ M :: m;
  rep_value y : a_value a y = xItemValue s y;
  rep_bound y : a_value a y <= portMAX_DELAY }.

(** A change of one list keeps the others. *)
Lemma rep_step a s s' L l ix l' ix' :
  rep a s -> a_lists a !! L = Some (l, ix) -> list_ok s' L l' ix' ->
  (forall y, y ∈ l' -> y ∈ l \/ unused a y) ->
  (exists xs, only L xs s s' /\ forall y, y ∈ xs -> y ∈ l \/ unused a y) ->
  rep (mkAstate (<[L := (l', ix')]> (a_lists a)) (a_value a)) s'.
Proof.
  intros [Hl Hd Hv Hb] HL Hok Hl' (xs & (O1 & O2 & O3 & O4) & Hxs).
  assert (forall M m im y, a_lists a !! M = Some (m, im) -> M <> L -> y ∈ M :: m -> y ∉ l /\ y <> L /\ (unused a y -> False)) as Hout.
  { intros M m im y HM HML Hy. pose proof (Hd M L m l im ix HM HL HML y Hy) as [? ?]%not_elem_of_cons.
    split_and!; [done.. |]. intros Hu. by apply (Hu M (m, im) HM). }
  split; cbn.
  - intros M m im. destruct (decide (M = L)) as [-> |]; [rewrite lookup_insert_eq; by intros [= <- <-] |].
    rewrite lookup_insert_ne by done. intros HM. apply (list_frame s); [| apply (O2 M); done.. | apply O3 | eauto].
    intros y Hy. apply O1. destruct (Hout M m im y HM) as (? & ? & ?); [done.. |].
    intros [? | Hx]%elem_of_cons; [done |]. by destruct (Hxs y Hx).
  - assert (forall M m im y, a_lists a !! M = Some (m, im) -> M <> L -> y ∈ M :: m -> y ∉ L :: l') as Hnew.
    { intros M m im y HM HML Hy [-> | Hx]%elem_of_cons; destruct (Hout M m im _ HM HML Hy) as (? & ? & ?); [done |].
      by destruct (Hl' y Hx). }
    intros M N m n im jn. destruct (decide (M = L)) as [-> |], (decide (N = L)) as [-> |];
      rewrite ?lookup_insert_eq, ?lookup_insert_ne by done; [done | intros [= <- <-] HN _ | intros HM [= <- <-] _ | by eauto].
    + intros y Hy Hy'. by apply (Hnew N n jn y).
    + intros y Hy. by apply (Hnew M m im y).
  - intros y. by rewrite O3.
  - done.
Qed.

(** The same in the form of the operations on one list. *)
Lemma rep_alter a s s' L l ix l' ix' f xs :
  rep a s -> a_lists a !! L = Some (l, ix) -> f (l, ix) = (l', ix') -> list_ok s' L l' ix' ->
  (forall y, y ∈ l' -> y ∈ l \/ unused a y) ->
  only L xs s s' -> (forall y, y ∈ xs -> y ∈ l \/ unused a y) ->
  rep (mkAstate (alter f L (a_lists a)) (a_value a)) s'.
Proof.
  intros Hr HL Hf Hok Hl' Ho Hxs.
  replace (alter f L (a_lists a)) with (<[L := (l', ix')]> (a_lists a)).
  - eapply rep_step; eauto.
  - apply map_eq. intros M. destruct (decide (M = L)) as [-> |].
    + rewrite lookup_insert_eq, lookup_alter_eq, HL. cbn. by rewrite Hf.
    + by rewrite lookup_insert_ne, lookup_alter_ne.
Qed.

Lemma insert_sorted_perm v x l : insert_sorted v x l ≡ₚ x :: l.
Proof.
  induction l as [| y l IH]; cbn; [done |]. case_match; [| done]. rewrite IH. apply perm_swap.
Qed.
Lemma insert_before_perm ix x l : insert_before ix x l ≡ₚ x :: l.
Proof.
  induction l as [| y l IH]; cbn; [done |]. case_match; [done |]. rewrite IH. apply perm_swap.
Qed.

Lemma insert_sorted_ext v w x l : (forall y, v y = w y) -> insert_sorted v x l = insert_sorted w x l.
Proof. intros E. induction l as [| y l IH]; cbn; [done |]. by rewrite !E, IH. Qed.

Lemma unused_out a L l ix x : unused a x -> a_lists a !! L = Some (l, ix) -> x ∉ L :: l.
Proof. intros Hu HL. by apply (Hu L (l, ix) HL). Qed.

Lemma rep_initialise a s L : rep a s -> unused a L -> rep (abs_op (OpInitialise L) a) (vListInitialise L s).
Proof.
  intros [Hl Hd Hv Hb] Hu.
  assert (a_lists a !! L = None) as Hn.
  { destruct (a_lists a !! L) as [[l ix] |] eqn:E; [| done]. destruct (unused_out a L l ix L Hu E). left. }
  split; cbn.
  - intros M m im. destruct (decide (M = L)) as [-> |].
    + rewrite lookup_insert_eq. intros [= <- <-]. apply vListInitialise_ok.
    + rewrite lookup_insert_ne by done. intros HM. pose proof (unused_out _ _ _ _ _ Hu HM) as Ho.
      apply (list_frame s); unfold vListInitialise; fields; [| by apply Hl].
      intros y Hy. assert (y <> L) by congruence. fields.
  - assert (forall M m im y, a_lists a !! M = Some (m, im) -> y ∈ M :: m -> y <> L) as Hout.
    { intros M m im y HM Hy ->. by destruct (unused_out _ _ _ _ _ Hu HM). }
    intros M N m n im jn. destruct (decide (M = L)) as [-> |], (decide (N = L)) as [-> |];
      rewrite ?lookup_insert_eq, ?lookup_insert_ne by done; [done | | | by eauto].
    + intros [= <- <-] HN _ y ->%list_elem_of_singleton Hy. by apply (Hout N n jn L).
    + intros HM [= <- <-] _ y Hy ->%list_elem_of_singleton. by apply (Hout M m im L).
  - intros y. unfold vListInitialise. fields. destruct (decide (y = L)) as [-> |]; fields.
  - intros y. destruct (decide (y = L)) as [-> |]; [rewrite fn_insert_eq; lia | rewrite fn_insert_ne by done; apply Hb].
Qed.

Lemma rep_set_value a s x v : rep a s -> unused a x -> v <= portMAX_DELAY ->
  rep (abs_op (OpSetValue x v) a) (set_value x v s).
Proof.
  intros [Hl Hd Hv Hb] Hu Hm. split; cbn; [| done | |].
  - intros M m im HM. pose proof (unused_out _ _ _ _ _ Hu HM) as [? _]%not_elem_of_cons.
    apply (list_frame s); fields. by apply Hl.
  - intros y. destruct (decide (y = x)) as [-> |]; fields.
  - intros y. destruct (decide (y = x)) as [-> |]; [rewrite fn_insert_eq; lia | rewrite fn_insert_ne by done; apply Hb].
Qed.

(** The list that holds an item is the only one. *)
Lemma rep_remove_lists a s L l ix x : rep a s -> a_lists a !! L = Some (l, ix) -> x ∈ l ->
  a_lists (abs_op (OpRemove x) a) = <[L := (remove_item x l, if ix =? x then pred_of L x l else ix)]> (a_lists a).
Proof.
  intros Hr HL Hx. apply map_eq. intros M. cbn. rewrite map_lookup_imap.
  destruct (decide (M = L)) as [-> |].
  - rewrite HL, lookup_insert_eq. cbn. by rewrite bool_decide_true.
  - rewrite lookup_insert_ne by done. destruct (a_lists a !! M) as [[m im] |] eqn:HM; [| done]. cbn.
    rewrite bool_decide_false; [done |]. intros Hm.
    apply (rep_disjoint _ _ Hr L M l m ix im HL HM) with x; [done | by right | by right].
Qed.

Lemma rep_op o a s : rep a s -> legal_op o a -> exists s', run_op o s = Ret s' /\ rep (abs_op o a) s'.
Proof.
  intros Hr Hl. destruct o as [L | x v | L x | L x | x | L]; cbn in Hl.
  - eexists. split; [done |]. by apply rep_initialise.
  - eexists. split; [done |]. apply rep_set_value; [done | tauto | lia].
  - destruct Hl as (Hu & l & ix & HL & Hz). pose proof (unused_out _ _ _ _ _ Hu HL) as Hx.
    destruct (vListInsert_ok s L l ix x) as (s' & Hs & Hok & Ho); [by eapply rep_list | done | done | |].
    { intros y. rewrite <- (rep_value _ _ Hr). apply (rep_bound _ _ Hr). }
    exists s'. split; [done |].
    eapply (rep_alter a s s' L l ix (insert_sorted (a_value a) x l) ix _ (x :: l)); [done | done | done | | | done |].
    + by rewrite (insert_sorted_ext _ (xItemValue s)) by apply (rep_value _ _ Hr).
    + intros y. rewrite insert_sorted_perm. intros [-> |]%elem_of_cons; auto.
    + intros y [-> |]%elem_of_cons; auto.
  - destruct Hl as (Hu & l & ix & HL & Hz). pose proof (unused_out _ _ _ _ _ Hu HL) as Hx.
    destruct (vListInsertEnd_ok s L l ix x) as (Hok & Ho); [by eapply rep_list | done | done |].
    eexists. split; [done |].
    eapply (rep_alter a s _ L l ix (insert_before ix x l) ix _ (x :: l)); [done | done | done | done | | done |].
    + intros y. rewrite insert_before_perm. intros [-> |]%elem_of_cons; auto.
    + intros y [-> |]%elem_of_cons; auto.
  - destruct Hl as (L & l & ix & HL & Hx).
    destruct (uxListRemove_ok s L l ix x) as (s' & Hs & Hok & Ho & _); [by eapply rep_list | done |].
    exists s'. split; [cbn; by rewrite Hs |].
    assert (abs_op (OpRemove x) a = mkAstate (a_lists (abs_op (OpRemove x) a)) (a_value a)) as -> by done.
    rewrite (rep_remove_lists a s L l ix x Hr HL Hx).
    eapply rep_step; [done | done | done | |].
    + intros y [_ ?]%list_elem_of_filter. by left.
    + exists l. split; [done | auto].
  - destruct Hl as (l & ix & HL & Hne).
    destruct (next_entry_ok s L l ix) as (s' & Hs & Hok & Ho); [by eapply rep_list | done |].
    exists s'. split; [unfold run_op; by rewrite Hs |].
    eapply (rep_alter a s s' L l ix l (next_index L ix l) _ l); [done | done | done | done | auto | done | auto].
Qed.

Lemma rep_ops os a s : rep a s -> legal_ops os a -> exists s', run_ops os s = Ret s' /\ rep (abs_ops os a) s'.
Proof.
  revert a s. induction os as [| o os IH]; intros a s Hr Hl; cbn; [eauto |].
  destruct Hl as [Ho Hl]. destruct (rep_op o a s Hr Ho) as (s1 & -> & Hr1). cbn. by apply IH.
Qed.

(** What the macros of list.h read. *)
Lemma list_observe s L l ix : list_ok s L l ix ->
  listLIST_IS_EMPTY L s = bool_decide (l = []) /\ uxNumberOfItems s L = zlen l /\
  listGET_OWNER_OF_HEAD_ENTRY L s = match l with [] => Fault OutOfBounds | x :: _ => Ret (pvOwner s x) end.
Proof.
  intros Hok. unfold listLIST_IS_EMPTY, listGET_OWNER_OF_HEAD_ENTRY, get_owner.
  destruct (next_of _ _ _ _ Hok) as [-> _]. rewrite (ok_count _ _ _ _ Hok). split_and!; [| done |].
  - destruct l; [done |]. rewrite zlen_cons. pose proof (zlen_nonneg l). rewrite bool_decide_false by done. lia.
  - destruct l as [| x l]; cbn [hd]; [by rewrite Z.eqb_refl |].
    pose proof (ok_nodup _ _ _ _ Hok) as [HL _]%list.NoDup_cons.
    rewrite (proj2 (Z.eqb_neq _ _)); [done | intros ->; apply HL; left].
Qed.

(** C26. Any legal sequence of list operations, on any number of lists that share
    their items, runs without a fault (in particular the search of vListInsert
    ends and no null container is followed) and leaves the circular doubly linked
    structures that represent the abstract lists: vListInsert puts an item behind
    all that do not exceed its value, vListInsertEnd in front of the index,
    uxListRemove takes it out of whichever list holds it and moves the index back
    when it stood there, and the emptiness test, the length and, in a list that is
    not empty, the head entry read the abstract list.  On an empty list the two
    macros that return an owner read behind the end marker, which has none: the
    head entry and the next entry both fault, and a legal sequence walks only lists
    that are not empty. *)
Theorem list_refinement os a s :
  rep a s -> legal_ops os a ->
  exists s', run_ops os s = Ret s' /\ rep (abs_ops os a) s' /\
    forall L l ix, a_lists (abs_ops os a) !! L = Some (l, ix) ->
      listLIST_IS_EMPTY L s' = bool_decide (l = []) /\ uxNumberOfItems s' L = zlen l /\
      listGET_OWNER_OF_HEAD_ENTRY L s' = match l with [] => Fault OutOfBounds | x :: _ => Ret (pvOwner s' x) end /\
      (l = [] -> listGET_OWNER_OF_NEXT_ENTRY L s' = Fault OutOfBounds).
Proof.
  intros Hr Hl. destruct (rep_ops os a s Hr Hl) as (s' & Hs & Hr'). exists s'. split_and!; [done.. |].
  intros L l ix HL. pose proof (rep_list _ _ Hr' L l ix HL) as Hok.
  destruct (list_observe s' L l ix Hok) as (? & ? & ?). split_and!; [done.. |]. intros ->. by eapply next_entry_empty.
Qed.

(** * Priority order *)

Definition in_order (v : Z -> Z) (l : list Z) : Prop :=
  forall i j x y, (i < j)%nat -> l !! i = Some x -> l !! j = Some y -> v x <= v y.

Lemma in_order_cons v x l : in_order v (x :: l) <-> (forall y, y ∈ l -> v x <= v y) /\ in_order v l.
Proof.
  split.
  - intros H. split.
    + intros y [j Hj]%list_elem_of_lookup. by apply (H O (S j) x y); [lia | |].
    + intros i j y z Hij Hi Hj. by apply (H (S i) (S j)); [lia | |].
  - intros [H1 H2] [| i] [| j] y z Hij Hi Hj; cbn in *; try lia.
    + injection Hi as <-. apply H1. by eapply list_elem_of_lookup_2.
    + by apply (H2 i j); [lia | |].
Qed.

Lemma insert_sorted_split v x l : in_order v l ->
  exists l1 l2, l = l1 ++ l2 /\ insert_sorted v x l = l1 ++ x :: l2 /\
    (forall y, y ∈ l1 -> v y <= v x) /\ (forall y, y ∈ l2 -> v x < v y).
Proof.
  induction l as [| y l IH]; intros Ho; cbn [insert_sorted].
  - exists [], []. split_and!; [done | done | |]; intros y Hy; by apply elem_of_nil in Hy.
  - apply in_order_cons in Ho as [Hy Ho]. destruct (Z.leb_spec (v y) (v x)).
    + destruct (IH Ho) as (l1 & l2 & -> & -> & H1 & H2). exists (y :: l1), l2.
      split_and!; [done | done | | done]. intros z [-> |]%elem_of_cons; auto.
    + exists [], (y :: l). split_and!; [done | done | |].
      * intros z Hz. by apply elem_of_nil in Hz.
      * intros z [-> | Hz]%elem_of_cons; [done |]. specialize (Hy z Hz). lia.
Qed.

Lemma insert_sorted_in_order v x l : in_order v l -> in_order v (insert_sorted v x l).
Proof.
  induction l as [| y l IH]; intros Ho; cbn [insert_sorted].
  - apply in_order_cons. split; [set_solver | done].
  - pose proof Ho as [Hy Hl]%in_order_cons. destruct (Z.leb_spec (v y) (v x)).
    + apply in_order_cons. split; [| auto]. intros z. rewrite insert_sorted_perm.
      intros [-> |]%elem_of_cons; auto.
    + apply in_order_cons. split; [| done]. intros z [-> | Hz]%elem_of_cons; [lia |]. specialize (Hy z Hz). lia.
Qed.

(** In a list kept by vListInsert the items stand in the order of their
    values, and among equals in the order of arrival: a new item goes behind
    every item that does not exceed it and in front of every greater one, so the
    head entry (the waiter that is woken next) is always one of least value, and
    is the new item only when all others exceed it. *)
Theorem vListInsert_priority a s L l ix x :
  rep a s -> a_lists a !! L = Some (l, ix) -> legal_op (OpInsert L x) a -> in_order (xItemValue s) l ->
  exists s' l1 l2, vListInsert L x s = Ret s' /\ l = l1 ++ l2 /\ list_ok s' L (l1 ++ x :: l2) ix /\
    (forall y, y ∈ l1 -> xItemValue s y <= xItemValue s x) /\
    (forall y, y ∈ l2 -> xItemValue s x < xItemValue s y) /\
    in_order (xItemValue s') (l1 ++ x :: l2) /\
    listGET_OWNER_OF_HEAD_ENTRY L s' = Ret (pvOwner s (hd x l1)) /\
    (forall y, y ∈ l1 ++ x :: l2 -> xItemValue s (hd x l1) <= xItemValue s y).
Proof.
  intros Hr HL (Hu & ? & ? & HL' & Hz) Ho. rewrite HL in HL'. injection HL' as <- <-.
  destruct (vListInsert_ok s L l ix x) as (s' & Hs & Hok & (_ & _ & Hv & Hw));
    [by eapply rep_list | by eapply unused_out | done | |].
  { intros y. rewrite <- (rep_value _ _ Hr). apply (rep_bound _ _ Hr). }
  destruct (insert_sorted_split (xItemValue s) x l Ho) as (l1 & l2 & -> & E & H1 & H2).
  pose proof (insert_sorted_in_order _ x _ Ho) as Ho'. rewrite E in Ho', Hok.
  exists s', l1, l2. split_and!; try done.
  - intros i j y z Hij Hi Hj. rewrite !Hv. eauto.
  - destruct (list_observe s' L _ ix Hok) as (_ & _ & ->). destruct l1; cbn; by rewrite Hw.
  - intros y. destruct l1 as [| z l1]; cbn [hd]; cbn [app] in *; apply in_order_cons in Ho' as [Ho' _];
      (intros [-> | Hy]%elem_of_cons; [lia | auto]).
Qed.

Lemma next_in_mid (L ix : Z) l1 l2 : ix ∉ l1 -> next_in L ix (l1 ++ ix :: l2) = hd L l2.
Proof.
  induction l1 as [| y l1 IH]; cbn; [by rewrite Z.eqb_refl |].
  intros [? ?]%not_elem_of_cons. destruct (Z.eqb_spec y ix); [congruence | auto].
Qed.

(** Behind the last item the walk starts over. *)
Lemma next_index_wrap L l : NoDup (L :: l) -> next_index L (List.last l L) l = hd L l.
Proof.
  intros [HL Hd]%list.NoDup_cons. unfold next_index. destruct l as [| y l _] using rev_ind; [cbn; by repeat case_match |].
  rewrite List.last_last. assert (y <> L) by (intros ->; apply HL; set_solver +).
  apply list.NoDup_app in Hd as (_ & Hd & _).
  rewrite next_in_mid by (intros Hy; apply (Hd y Hy); left). cbn [hd].
  destruct (Z.eqb_spec y L); [done |]. by rewrite Z.eqb_refl.
Qed.

(** The calls of the scheduler for one list. *)
Fixpoint next_entries (n : nat) (L : Z) (s : lists) : res (list Z * lists) :=
  match n with
  | O => Ret ([], s)
  | S n => r ← listGET_OWNER_OF_NEXT_ENTRY L s; let '(o, s) := r in
           r ← next_entries n L s; let '(os, s) := r in Ret (o :: os, s)
  end.

(** The index behind [l1]: the last of [l1], or the marker. *)
Lemma next_index_mid L l1 x l2 : NoDup (L :: l1 ++ x :: l2) -> next_index L (List.last l1 L) (l1 ++ x :: l2) = x.
Proof.
  intros [HL Hd]%list.NoDup_cons. unfold next_index.
  assert (x <> L) by (intros ->; apply HL; set_solver +).
  destruct l1 as [| y l1 _] using rev_ind.
  - cbn. rewrite Z.eqb_refl. destruct (Z.eqb_spec x L); done.
  - rewrite List.last_last. rewrite <- app_assoc in *. cbn [app] in *.
    assert (y <> L) by (intros ->; apply HL; set_solver +).
    apply list.NoDup_app in Hd as (_ & Hd & _).
    rewrite next_in_mid by (intros Hy; apply (Hd y Hy); left). cbn [hd].
    destruct (Z.eqb_spec y L); [done |]. destruct (Z.eqb_spec x L); done.
Qed.

Lemma next_entries_ok s L ix l1 l2 l3 :
  list_ok s L (l1 ++ l2 ++ l3) ix -> (ix = List.last l1 L \/ l2 <> [] /\ next_index L ix (l1 ++ l2 ++ l3) = hd L l2) ->
  exists s', next_entries (length l2) L s = Ret (map (pvOwner s) l2, s') /\
    list_ok s' L (l1 ++ l2 ++ l3) (List.last (l1 ++ l2) L) /\ forall y, pvOwner s' y = pvOwner s y.
Proof.
  revert s l1 ix. induction l2 as [| x l2 IH]; intros s l1 ix Hok Hix; cbn [next_entries length map].
  - rewrite app_nil_r. destruct Hix as [-> | [? _]]; [by exists s | done].
  - destruct (next_entry_ok _ _ _ _ Hok) as (s1 & -> & Hok1 & (_ & _ & _ & Hw)); [by destruct l1 |]. cbn [mbind res_bind].
    assert (next_index L ix (l1 ++ (x :: l2) ++ l3) = x) as En.
    { destruct Hix as [-> | [_ ->]]; [| done]. cbn [app]. apply next_index_mid, Hok. }
    rewrite En in *. change ((x :: l2) ++ l3) with ([x] ++ l2 ++ l3) in *. rewrite (app_assoc l1) in *.
    destruct (IH s1 (l1 ++ [x]) x) as (s' & -> & Hok' & Hw'); [done | left; by rewrite List.last_last |].
    exists s'. cbn [mbind res_bind]. split_and!; [| | by intros; rewrite Hw', Hw].
    + do 3 f_equal. apply map_ext. intros. apply Hw.
    + by replace (l1 ++ x :: l2) with ((l1 ++ [x]) ++ l2) by (by rewrite <- app_assoc).
Qed.

Lemma next_entries_app n m L s :
  next_entries (n + m) L s =
  (r ← next_entries n L s; let '(o1, s1) := r in r ← next_entries m L s1; let '(o2, s2) := r in Ret (o1 ++ o2, s2)).
Proof.
  revert s. induction n as [| n IH]; intros s; cbn [next_entries Nat.add].
  - cbn. by destruct (next_entries m L s) as [[] |].
  - destruct (listGET_OWNER_OF_NEXT_ENTRY L s) as [[o s0] |]; [| done]. cbn. rewrite IH.
    destruct (next_entries n L s0) as [[o1 s1] |]; [| done]. cbn. by destruct (next_entries m L s1) as [[] |].
Qed.

(** The scheduler's walk over a list is fair.  Wherever the index stands, as
    many calls of listGET_OWNER_OF_NEXT_ENTRY as there are items return the
    owner of every item exactly once, those behind the index first and then
    those from the head, each in list order; the index is then back on the item
    it started from (on the last one, if it started on the end marker), and the
    list is unchanged. *)
Theorem round_robin_fair s L l ix :
  list_ok s L l ix -> l <> [] ->
  exists l1 l2 s', l = l1 ++ l2 /\ ix = List.last l1 L /\
    next_entries (length l) L s = Ret (map (pvOwner s) (l2 ++ l1), s') /\
    list_ok s' L l (List.last (l2 ++ l1) L).
Proof.
  intros Hok Hl.
  assert (exists l1 l2, l = l1 ++ l2 /\ ix = List.last l1 L) as (l1 & l2 & -> & ->).
  { pose proof (ok_index_in _ _ _ _ Hok) as [-> | Hi]%elem_of_cons; [by exists [], l |].
    apply list_elem_of_split in Hi as (l1 & l2 & ->). exists (l1 ++ [ix]), l2. split; [by rewrite <- app_assoc |].
    by rewrite List.last_last. }
  exists l1, l2. rewrite length_app, Nat.add_comm, next_entries_app.
  destruct (next_entries_ok s L (List.last l1 L) l1 l2 []) as (s1 & -> & Hok1 & Hw1);
    [by rewrite app_nil_r | by left |].
  rewrite app_nil_r in Hok1. cbn [mbind res_bind]. destruct l1 as [| x l1].
  { exists s1. cbn. by rewrite !app_nil_r. }
  destruct (next_entries_ok s1 L (List.last ((x :: l1) ++ l2) L) [] (x :: l1) l2) as (s2 & -> & Hok2 & _); [done | |].
  { right. split; [done |]. apply (next_index_wrap L ((x :: l1) ++ l2)), Hok. }
  exists s2. cbn [mbind res_bind]. split_and!; [done | done | |].
  - rewrite map_app. do 3 f_equal. apply map_ext, Hw1.
  - cbn [app] in *. destruct (exists_last (l := x :: l1)) as (l0 & z & E); [done |].
    rewrite E in *. by rewrite app_assoc, !List.last_last in *.
Qed.

(** * Witnesses *)

Definition lists0 : lists :=
  mkLists (fun _ => 0) (fun _ => 0) (fun _ => 0) (fun a => a + 1000) (fun _ => None) (fun _ => 0) (fun _ => 0).
Definition astate0 : astate := mkAstate ∅ (fun _ => 0).

Lemma rep0 : rep astate0 lists0.
Proof. split; done. Qed.

(** Two wait lists (1 and 2) and the items 11, 12 and 13. *)
Definition ops0 : list list_op :=
  [OpInitialise 1; OpInitialise 2; OpSetValue 11 5; OpSetValue 12 3; OpSetValue 13 5;
   OpInsert 1 11; OpInsert 1 12; OpInsert 1 13; OpNextEntry 1; OpRemove 11; OpInsertEnd 2 11].

Ltac legal :=
  repeat match goal with
  | |- unused _ _ => apply (bool_decide_unpack _); vm_compute; exact I
  | |- _ /\ _ => split
  | |- @ex Z _ => exists 1
  | |- @ex (list Z) _ => eexists; eexists
  | |- True => exact I
  | |- _ !! _ = _ => vm_compute; reflexivity
  | |- _ < _ => reflexivity
  | |- _ <= _ => vm_compute; discriminate
  | |- _ <> [] => discriminate
  | |- _ ∈ _ => apply (bool_decide_unpack _); vm_compute; exact I
  end.

Lemma list_refinement_witness :
  legal_ops ops0 astate0 /\
  (a_lists (abs_ops ops0 astate0) !! 1 = Some ([12; 13], 12) /\ a_lists (abs_ops ops0 astate0) !! 2 = Some ([11], 2)) /\
  exists s', run_ops ops0 lists0 = Ret s' /\ rep (abs_ops ops0 astate0) s' /\
    forall L l ix, a_lists (abs_ops ops0 astate0) !! L = Some (l, ix) ->
      listLIST_IS_EMPTY L s' = bool_decide (l = []) /\ uxNumberOfItems s' L = zlen l /\
      listGET_OWNER_OF_HEAD_ENTRY L s' = match l with [] => Fault OutOfBounds | x :: _ => Ret (pvOwner s' x) end /\
      (l = [] -> listGET_OWNER_OF_NEXT_ENTRY L s' = Fault OutOfBounds).
Proof.
  assert (legal_ops ops0 astate0) as Hl by (cbn [legal_ops ops0]; cbn [legal_op]; legal).
  split; [exact Hl |]. split; [split; vm_compute; reflexivity |].
  exact (list_refinement ops0 astate0 lists0 rep0 Hl).
Defined.

Definition ops1 : list list_op :=
  [OpInitialise 1; OpSetValue 11 5; OpSetValue 12 3; OpSetValue 13 5; OpInsert 1 11; OpInsert 1 12].

Lemma vListInsert_priority_witness : exists a s, legal_op (OpInsert 1 13) a /\
  exists s' l1 l2, vListInsert 1 13 s = Ret s' /\ [12; 11] = l1 ++ l2 /\ list_ok s' 1 (l1 ++ 13 :: l2) 1 /\
    (forall y, y ∈ l1 -> xItemValue s y <= xItemValue s 13) /\
    (forall y, y ∈ l2 -> xItemValue s 13 < xItemValue s y) /\
    in_order (xItemValue s') (l1 ++ 13 :: l2) /\
    listGET_OWNER_OF_HEAD_ENTRY 1 s' = Ret (pvOwner s (hd 13 l1)) /\
    (forall y, y ∈ l1 ++ 13 :: l2 -> xItemValue s (hd 13 l1) <= xItemValue s y).
Proof.
  destruct (rep_ops ops1 astate0 lists0 rep0) as (s & Hs & Hr); [cbn [legal_ops ops1]; cbn [legal_op]; legal |].
  exists (abs_ops ops1 astate0), s.
  assert (legal_op (OpInsert 1 13) (abs_ops ops1 astate0)) as Hl by (cbn [legal_op]; legal).
  split; [exact Hl |].
  apply (vListInsert_priority (abs_ops ops1 astate0) s 1 [12; 11] 1 13 Hr); [vm_compute; reflexivity | exact Hl |].
  assert (forall y, xItemValue s y = a_value (abs_ops ops1 astate0) y) as E by (intros y; symmetry; apply Hr).
  apply in_order_cons. split.
  - intros y ->%list_elem_of_singleton. rewrite !E. vm_compute. discriminate.
  - apply in_order_cons. split; [intros y Hy; by apply elem_of_nil in Hy |]. intros i j x y _ Hi. done.
Defined.

Lemma round_robin_fair_witness : exists s, list_ok s 1 [11; 12; 13] 12 /\
  exists l1 l2 s', [11; 12; 13] = l1 ++ l2 /\ 12 = List.last l1 1 /\
    next_entries 3 1 s = Ret (map (pvOwner s) (l2 ++ l1), s') /\ list_ok s' 1 [11; 12; 13] (List.last (l2 ++ l1) 1).
Proof.
  set (ops := [OpInitialise 1; OpInsertEnd 1 11; OpInsertEnd 1 12; OpInsertEnd 1 13; OpNextEntry 1; OpNextEntry 1]).
  destruct (rep_ops ops astate0 lists0 rep0) as (s & Hs & Hr); [cbn [legal_ops ops]; cbn [legal_op]; legal |].
  exists s.
  assert (list_ok s 1 [11; 12; 13] 12) as Hok by (apply (rep_list _ _ Hr); vm_compute; reflexivity).
  split; [exact Hok |].
  apply (round_robin_fair s 1 [11; 12; 13] 12 Hok). discriminate.
Defined.
