(* ===== verification/FreeRtosTasks.v ===== *)
(** The scheduler's side of blocking and waking (src/ESP32/components/freertos/
    tasks.c): task control blocks, the ready, delayed, suspended and event lists,
    the tick, time-outs, suspension of the scheduler and priority inheritance.
    The data of queues and event groups is declared here as well, since one
    kernel state holds all of it.

    A list is kept as the sequence of tasks it holds, in the order in which a
    walk from its index meets them; FreeRtosList.list_refinement is the theorem
    that the linked structure of list.c does so. *)

From S2P Require Import Prelude FreeRtosList.

Definition configMAX_PRIORITIES : Z := 25.
Definition portNUM_PROCESSORS : Z := 2.
Definition tskNO_AFFINITY : Z := 2 ^ 31 - 1.
Definition taskEVENT_LIST_ITEM_VALUE_IN_USE : Z := 2 ^ 31.

(** * Data *)

Inductive list_id :=
  | pxReadyTasksLists (uxPriority : Z)
  | xDelayedTaskList1
  | xDelayedTaskList2
  | xSuspendedTaskList
  | xTasksWaitingTermination
  | xPendingReadyList (core : Z)
  | xTasksWaitingToSend (xQueue : Z)
  | xTasksWaitingToReceive (xQueue : Z)
  | xTasksWaitingForBits (xEventGroup : Z).

#[export] Instance list_id_eq_dec : EqDecision list_id.
Proof. solve_decision. Defined.

(** A list item: its value and the list that holds it. *)
Record ListItem_t := mkItem { item_value : Z; container : option list_id }.

Record TCB_t := mkTCB {
  xGenericListItem : ListItem_t;
  xEventListItem : ListItem_t;
  uxPriority : Z;
  xCoreID : Z;
  uxBasePriority : Z;
  uxMutexesHeld : Z }.

Record TimeOut_t := mkTimeOut { xOverflowCount : Z; xTimeOnEntering : Z }.

(** The two unions of a queue: pcTail is the end of the storage of a queue and
    the holder of a mutex; u holds the read position of a queue and the call
    count of a recursive mutex. *)
Inductive tail_t := pcTail (off : Z) | pxMutexHolder (holder : option Z).
Inductive u_t := pcReadFrom (off : Z) | uxRecursiveCallCount (n : Z).

(** Positions are offsets from the start of the storage; pcHead is the pointer
    NULL for a mutex.  The two wait lists are the lists named after the queue. *)
Record Queue_t := mkQueue {
  pcHead_is_NULL : bool;
  tail_union : tail_t;
  pcWriteTo : Z;
  u_union : u_t;
  uxMessagesWaiting : Z;
  uxLength : Z;
  uxItemSize : Z;
  ucStaticallyAllocated : bool;
  pxQueueSetContainer : option Z;
  storage : list Z }.

Record EventGroup_t := mkEventGroup { uxEventBits : Z }.

Record kernel := mkKernel {
  tcbs : gmap Z TCB_t;
  klists : list_id -> list Z;
  delayed_is_1 : bool;          (* pxDelayedTaskList is xDelayedTaskList1 *)
  pxCurrentTCB : Z -> option Z;
  xPortGetCoreID : Z;           (* the core that runs *)
  uxSchedulerSuspended : Z -> Z;
  xSchedulerRunning : bool;
  uxCurrentNumberOfTasks : Z;
  uxPendedTicks : Z;
  xTickCount : Z;
  xNumOfOverflows : Z;
  xNextTaskUnblockTime : Z;
  xYieldPending : Z -> bool;
  yields : list Z;              (* the cores asked to switch, last first *)
  queues : gmap Z Queue_t;
  groups : gmap Z EventGroup_t;
  stray_read : bool (* whether the word that pxCurrentTCB[tskNO_AFFINITY] designates can be read *) }.

Definition set_tcbs v k := mkKernel v (klists k) (delayed_is_1 k) (pxCurrentTCB k) (xPortGetCoreID k) (uxSchedulerSuspended k) (xSchedulerRunning k) (uxCurrentNumberOfTasks k) (uxPendedTicks k) (xTickCount k) (xNumOfOverflows k) (xNextTaskUnblockTime k) (xYieldPending k) (yields k) (queues k) (groups k) (stray_read k).
Definition set_klists v k := mkKernel (tcbs k) v (delayed_is_1 k) (pxCurrentTCB k) (xPortGetCoreID k) (uxSchedulerSuspended k) (xSchedulerRunning k) (uxCurrentNumberOfTasks k) (uxPendedTicks k) (xTickCount k) (xNumOfOverflows k) (xNextTaskUnblockTime k) (xYieldPending k) (yields k) (queues k) (groups k) (stray_read k).
Definition set_delayed_is_1 v k := mkKernel (tcbs k) (klists k) v (pxCurrentTCB k) (xPortGetCoreID k) (uxSchedulerSuspended k) (xSchedulerRunning k) (uxCurrentNumberOfTasks k) (uxPendedTicks k) (xTickCount k) (xNumOfOverflows k) (xNextTaskUnblockTime k) (xYieldPending k) (yields k) (queues k) (groups k) (stray_read k).
Definition set_current v k := mkKernel (tcbs k) (klists k) (delayed_is_1 k) v (xPortGetCoreID k) (uxSchedulerSuspended k) (xSchedulerRunning k) (uxCurrentNumberOfTasks k) (uxPendedTicks k) (xTickCount k) (xNumOfOverflows k) (xNextTaskUnblockTime k) (xYieldPending k) (yields k) (queues k) (groups k) (stray_read k).
Definition set_core v k := mkKernel (tcbs k) (klists k) (delayed_is_1 k) (pxCurrentTCB k) v (uxSchedulerSuspended k) (xSchedulerRunning k) (uxCurrentNumberOfTasks k) (uxPendedTicks k) (xTickCount k) (xNumOfOverflows k) (xNextTaskUnblockTime k) (xYieldPending k) (yields k) (queues k) (groups k) (stray_read k).
Definition set_suspended v k := mkKernel (tcbs k) (klists k) (delayed_is_1 k) (pxCurrentTCB k) (xPortGetCoreID k) v (xSchedulerRunning k) (uxCurrentNumberOfTasks k) (uxPendedTicks k) (xTickCount k) (xNumOfOverflows k) (xNextTaskUnblockTime k) (xYieldPending k) (yields k) (queues k) (groups k) (stray_read k).
Definition set_pended v k := mkKernel (tcbs k) (klists k) (delayed_is_1 k) (pxCurrentTCB k) (xPortGetCoreID k) (uxSchedulerSuspended k) (xSchedulerRunning k) (uxCurrentNumberOfTasks k) v (xTickCount k) (xNumOfOverflows k) (xNextTaskUnblockTime k) (xYieldPending k) (yields k) (queues k) (groups k) (stray_read k).
Definition set_tick v k := mkKernel (tcbs k) (klists k) (delayed_is_1 k) (pxCurrentTCB k) (xPortGetCoreID k) (uxSchedulerSuspended k) (xSchedulerRunning k) (uxCurrentNumberOfTasks k) (uxPendedTicks k) v (xNumOfOverflows k) (xNextTaskUnblockTime k) (xYieldPending k) (yields k) (queues k) (groups k) (stray_read k).
Definition set_overflows v k := mkKernel (tcbs k) (klists k) (delayed_is_1 k) (pxCurrentTCB k) (xPortGetCoreID k) (uxSchedulerSuspended k) (xSchedulerRunning k) (uxCurrentNumberOfTasks k) (uxPendedTicks k) (xTickCount k) v (xNextTaskUnblockTime k) (xYieldPending k) (yields k) (queues k) (groups k) (stray_read k).
Definition set_unblock v k := mkKernel (tcbs k) (klists k) (delayed_is_1 k) (pxCurrentTCB k) (xPortGetCoreID k) (uxSchedulerSuspended k) (xSchedulerRunning k) (uxCurrentNumberOfTasks k) (uxPendedTicks k) (xTickCount k) (xNumOfOverflows k) v (xYieldPending k) (yields k) (queues k) (groups k) (stray_read k).
Definition set_yield_pending v k := mkKernel (tcbs k) (klists k) (delayed_is_1 k) (pxCurrentTCB k) (xPortGetCoreID k) (uxSchedulerSuspended k) (xSchedulerRunning k) (uxCurrentNumberOfTasks k) (uxPendedTicks k) (xTickCount k) (xNumOfOverflows k) (xNextTaskUnblockTime k) v (yields k) (queues k) (groups k) (stray_read k).
Definition set_yields v k := mkKernel (tcbs k) (klists k) (delayed_is_1 k) (pxCurrentTCB k) (xPortGetCoreID k) (uxSchedulerSuspended k) (xSchedulerRunning k) (uxCurrentNumberOfTasks k) (uxPendedTicks k) (xTickCount k) (xNumOfOverflows k) (xNextTaskUnblockTime k) (xYieldPending k) v (queues k) (groups k) (stray_read k).
Definition set_queues v k := mkKernel (tcbs k) (klists k) (delayed_is_1 k) (pxCurrentTCB k) (xPortGetCoreID k) (uxSchedulerSuspended k) (xSchedulerRunning k) (uxCurrentNumberOfTasks k) (uxPendedTicks k) (xTickCount k) (xNumOfOverflows k) (xNextTaskUnblockTime k) (xYieldPending k) (yields k) v (groups k) (stray_read k).
Definition set_groups v k := mkKernel (tcbs k) (klists k) (delayed_is_1 k) (pxCurrentTCB k) (xPortGetCoreID k) (uxSchedulerSuspended k) (xSchedulerRunning k) (uxCurrentNumberOfTasks k) (uxPendedTicks k) (xTickCount k) (xNumOfOverflows k) (xNextTaskUnblockTime k) (xYieldPending k) (yields k) (queues k) v (stray_read k).

Abbreviation K := (st kernel).

(** * Access *)

Definition get_tcb (t : Z) : K TCB_t := k ← get; need NullPointer (tcbs k !! t).
Definition put_tcb (t : Z) (c : TCB_t) : K unit := modify (fun k => set_tcbs (<[t := c]> (tcbs k)) k).
Definition update_tcb (t : Z) (f : TCB_t -> TCB_t) : K unit := c ← get_tcb t; put_tcb t (f c).
Definition current : K Z := k ← get; need NullPointer (pxCurrentTCB k (xPortGetCoreID k)).
Definition current_tcb : K TCB_t := t ← current; get_tcb t.
Definition core_id : K Z := gets xPortGetCoreID.

Definition with_generic i c := mkTCB i (xEventListItem c) (uxPriority c) (xCoreID c) (uxBasePriority c) (uxMutexesHeld c).
Definition with_event i c := mkTCB (xGenericListItem c) i (uxPriority c) (xCoreID c) (uxBasePriority c) (uxMutexesHeld c).
Definition with_priority p c := mkTCB (xGenericListItem c) (xEventListItem c) p (xCoreID c) (uxBasePriority c) (uxMutexesHeld c).
Definition with_mutexes n c := mkTCB (xGenericListItem c) (xEventListItem c) (uxPriority c) (xCoreID c) (uxBasePriority c) n.

(** A task has two items; each list holds items of one kind. *)
Inductive item_kind := generic_item | event_item.
Definition item_of_kind (i : item_kind) (c : TCB_t) : ListItem_t :=
  match i with generic_item => xGenericListItem c | event_item => xEventListItem c end.
Definition with_item (i : item_kind) (v : ListItem_t) (c : TCB_t) : TCB_t :=
  match i with generic_item => with_generic v c | event_item => with_event v c end.

(** ** The operations of list.c on the lists represented *)

Definition set_list (l : list_id) (v : list Z) : K unit := modify (fun k => set_klists (<[l := v]> (klists k)) k).
Definition get_list (l : list_id) : K (list Z) := gets (fun k => klists k l).
Definition set_container (i : item_kind) (t : Z) (l : option list_id) : K unit :=
  update_tcb t (fun c => with_item i (mkItem (item_value (item_of_kind i c)) l) c).
Definition listSET_LIST_ITEM_VALUE (i : item_kind) (t v : Z) : K unit :=
  update_tcb t (fun c => with_item i (mkItem (wrap_u 32 v) (container (item_of_kind i c))) c).
Definition values (i : item_kind) (k : kernel) (t : Z) : Z :=
  match tcbs k !! t with Some c => item_value (item_of_kind i c) | None => portMAX_DELAY end.

Definition list_insert (l : list_id) (i : item_kind) (t : Z) : K unit :=
  k ← get;
  set_list l (insert_sorted (values i k) t (klists k l));;
  set_container i t (Some l).
Definition list_insert_end (l : list_id) (i : item_kind) (t : Z) : K unit :=
  k ← get;
  set_list l (klists k l ++ [t]);;
  set_container i t (Some l).
Definition list_remove (i : item_kind) (t : Z) : K Z :=
  c ← get_tcb t;
  l ← need NullPointer (container (item_of_kind i c));
  k ← get;
  set_list l (remove_item t (klists k l));;
  set_container i t None;;
  gets (fun k => zlen (klists k l)).

(** * tasks.c *)

Definition pxDelayedTaskList (k : kernel) : list_id := if delayed_is_1 k then xDelayedTaskList1 else xDelayedTaskList2.
Definition pxOverflowDelayedTaskList (k : kernel) : list_id := if delayed_is_1 k then xDelayedTaskList2 else xDelayedTaskList1.

Definition tskCAN_RUN_HERE (cpuid : Z) : K bool := c ← core_id; mret ((cpuid =? c) || (cpuid =? tskNO_AFFINITY)).

Definition prvAddTaskToReadyList (pxTCB : Z) : K unit :=
  c ← get_tcb pxTCB; list_insert_end (pxReadyTasksLists (uxPriority c)) generic_item pxTCB.

(** portYIELD_WITHIN_API and vPortYieldOtherCore ask a core to switch. *)
Definition yield_core (core : Z) : K unit := modify (fun k => set_yields (core :: yields k) k).
Definition portYIELD_WITHIN_API : K unit := c ← core_id; yield_core c.
Definition set_xYieldPending : K unit :=
  modify (fun k => set_yield_pending (<[xPortGetCoreID k := true]> (xYieldPending k)) k).

Definition current_of (core : Z) : K TCB_t :=
  k ← get; t ← need NullPointer (pxCurrentTCB k core); get_tcb t.

Fixpoint yield_some_core (cores : list Z) (prio : Z) : K unit :=
  match cores with
  | [] => mret tt
  | i :: cores =>
      c ← core_id;
      if i =? c then yield_some_core cores prio else
      cur ← current_of i;
      if uxPriority cur <? prio then yield_core i else yield_some_core cores prio
  end.

(** The initializer of [curTCB] comes before the test of [xCoreID]: for a task without
    affinity it reads [pxCurrentTCB[tskNO_AFFINITY]], outside the array.  C does not
    define that.  On this machine the address, whose offset 4 * (2^31 - 1) wraps to
    -4, is that of the word before the array, and the value read is not used;
    [stray_read] says whether there is such a word. *)
Definition taskYIELD_OTHER_CORE (xCoreID uxPrio : Z) : K unit :=
  if xCoreID =? tskNO_AFFINITY then
    mapped ← gets stray_read;
    if (mapped : bool) then yield_some_core [0; 1] uxPrio else throw OutOfBounds
  else curTCB ← current_of xCoreID;
       when (uxPriority curTCB <? uxPrio) (yield_core xCoreID).

Definition vTaskSuspendAll : K unit :=
  modify (fun k => set_suspended (<[xPortGetCoreID k := wrap_u 32 (uxSchedulerSuspended k (xPortGetCoreID k) + 1)]> (uxSchedulerSuspended k)) k).

Definition xTaskGetSchedulerState_suspended : K bool :=
  gets (fun k => xSchedulerRunning k && negb (uxSchedulerSuspended k (xPortGetCoreID k) =? 0)).

Definition prvResetNextTaskUnblockTime : K unit :=
  k ← get;
  match klists k (pxDelayedTaskList k) with
  | [] => modify (set_unblock portMAX_DELAY)
  | t :: _ => c ← get_tcb t; modify (set_unblock (item_value (xGenericListItem c)))
  end.

Definition assert (b : bool) : K unit := if b then mret tt else throw AssertFailed.

Definition taskSWITCH_DELAYED_LISTS : K unit :=
  k ← get;
  assert (bool_decide (klists k (pxDelayedTaskList k) = []));;
  modify (fun k => set_delayed_is_1 (negb (delayed_is_1 k)) k);;
  modify (fun k => set_overflows (wrap_s 32 (xNumOfOverflows k + 1)) k);;
  prvResetNextTaskUnblockTime.

(** The loop of the tick over the delayed list; it returns whether a task of
    sufficient priority was unblocked. *)
Fixpoint unblock_loop (fuel : nat) (xConstTickCount : Z) : K bool :=
  match fuel with
  | O => throw OutOfFuel
  | S fuel =>
      k ← get;
      match klists k (pxDelayedTaskList k) with
      | [] => modify (set_unblock portMAX_DELAY);; mret false
      | pxTCB :: _ =>
          c ← get_tcb pxTCB;
          let xItemValue := item_value (xGenericListItem c) in
          if xConstTickCount <? xItemValue then modify (set_unblock xItemValue);; mret false
          else
            list_remove generic_item pxTCB;;
            (if container (xEventListItem c) then (list_remove event_item pxTCB;; mret tt) else mret tt);;
            prvAddTaskToReadyList pxTCB;;
            cur ← current_tcb;
            rest ← unblock_loop fuel xConstTickCount;
            mret ((uxPriority cur <=? uxPriority c) || rest)
      end
  end.

(** The tick hooks are calls of the application and are left out. *)
Definition xTaskIncrementTick : K bool :=
  c ← core_id;
  if negb (c =? 0) then mret true else
  k ← get;
  sw ← (if uxSchedulerSuspended k c =? 0 then
      modify (fun k => set_tick (wrap_u 32 (xTickCount k + 1)) k);;
      k ← get;
      let xConstTickCount := xTickCount k in
      when (xConstTickCount =? 0) taskSWITCH_DELAYED_LISTS;;
      k ← get;
      sw ← (if xNextTaskUnblockTime k <=? xConstTickCount
            then unblock_loop (S (length (klists k (pxDelayedTaskList k)))) xConstTickCount else mret false);
      cur ← current_tcb;
      k ← get;
      mret (sw || (1 <? zlen (klists k (pxReadyTasksLists (uxPriority cur)))))
    else modify (fun k => set_pended (wrap_u 32 (uxPendedTicks k + 1)) k);; mret false);
  k ← get;
  mret (sw || xYieldPending k c).

(** Moving the tasks that were made ready while the scheduler was suspended. *)
Fixpoint pending_loop (fuel : nat) : K unit :=
  match fuel with
  | O => throw OutOfFuel
  | S fuel =>
      c ← core_id;
      l ← get_list (xPendingReadyList c);
      match l with
      | [] => mret tt
      | pxTCB :: _ =>
          list_remove event_item pxTCB;;
          list_remove generic_item pxTCB;;
          prvAddTaskToReadyList pxTCB;;
          tcb ← get_tcb pxTCB;
          here ← tskCAN_RUN_HERE (xCoreID tcb);
          cur ← current_tcb;
          if here && (uxPriority cur <=? uxPriority tcb) then set_xYieldPending else pending_loop fuel
      end
  end.

Fixpoint pended_ticks_loop (fuel : nat) : K unit :=
  match fuel with
  | O => throw OutOfFuel
  | S fuel =>
      k ← get;
      if 0 <? uxPendedTicks k then
        sw ← xTaskIncrementTick;
        when sw set_xYieldPending;;
        modify (fun k => set_pended (wrap_u 32 (uxPendedTicks k - 1)) k);;
        pended_ticks_loop fuel
      else mret tt
  end.

Definition xTaskResumeAll : K bool :=
  k ← get;
  let core := xPortGetCoreID k in
  assert (negb (uxSchedulerSuspended k core =? 0));;
  modify (fun k => set_suspended (<[core := wrap_u 32 (uxSchedulerSuspended k core - 1)]> (uxSchedulerSuspended k)) k);;
  k ← get;
  if (uxSchedulerSuspended k core =? 0) && (0 <? uxCurrentNumberOfTasks k) then
    pending_loop (S (length (klists k (xPendingReadyList core))));;
    k ← get;
    when (0 <? uxPendedTicks k) (pended_ticks_loop (S (Z.to_nat (uxPendedTicks k))));;
    k ← get;
    if xYieldPending k core then portYIELD_WITHIN_API;; mret true else mret false
  else mret false.

(** ** Event lists *)

Definition prvAddCurrentTaskToDelayedList (xTimeToWake : Z) : K unit :=
  t ← current;
  listSET_LIST_ITEM_VALUE generic_item t xTimeToWake;;
  k ← get;
  if xTimeToWake <? xTickCount k then list_insert (pxOverflowDelayedTaskList k) generic_item t
  else list_insert (pxDelayedTaskList k) generic_item t;;
       when (xTimeToWake <? xNextTaskUnblockTime k) (modify (set_unblock xTimeToWake)).

(** From the ready list to the suspended list, or to a delayed list. *)
Definition block_current (xTicksToWait : Z) : K unit :=
  t ← current;
  list_remove generic_item t;;
  k ← get;
  if xTicksToWait =? portMAX_DELAY then list_insert_end xSuspendedTaskList generic_item t
  else prvAddCurrentTaskToDelayedList (wrap_u 32 (xTickCount k + xTicksToWait)).

Definition vTaskPlaceOnEventList (pxEventList : list_id) (xTicksToWait : Z) : K unit :=
  t ← current;
  list_insert pxEventList event_item t;;
  block_current xTicksToWait.

Definition vTaskPlaceOnUnorderedEventList (pxEventList : list_id) (xItemValue xTicksToWait : Z) : K unit :=
  k ← get;
  assert (negb (uxSchedulerSuspended k (xPortGetCoreID k) =? 0));;
  t ← current;
  listSET_LIST_ITEM_VALUE event_item t (Z.lor xItemValue taskEVENT_LIST_ITEM_VALUE_IN_USE);;
  list_insert_end pxEventList event_item t;;
  block_current xTicksToWait.

(** The new priority of the running task decides on a switch. *)
Definition switch_if_higher (pxUnblockedTCB : Z) : K bool :=
  c ← get_tcb pxUnblockedTCB;
  here ← tskCAN_RUN_HERE (xCoreID c);
  cur ← current_tcb;
  core ← core_id;
  if here && (uxPriority cur <=? uxPriority c) then set_xYieldPending;; mret true
  else if negb (xCoreID c =? core) then taskYIELD_OTHER_CORE (xCoreID c) (uxPriority c);; mret false
  else mret false.

Definition xTaskRemoveFromEventList (pxEventList : list_id) : K bool :=
  l ← get_list pxEventList;
  match l with
  | [] => mret false
  | pxUnblockedTCB :: _ =>
      list_remove event_item pxUnblockedTCB;;
      k ← get;
      let core := xPortGetCoreID k in
      (if uxSchedulerSuspended k core =? 0
       then list_remove generic_item pxUnblockedTCB;; prvAddTaskToReadyList pxUnblockedTCB
       else list_insert_end (xPendingReadyList core) event_item pxUnblockedTCB);;
      switch_if_higher pxUnblockedTCB
  end.

Definition xTaskRemoveFromUnorderedEventList (pxUnblockedTCB xItemValue : Z) : K bool :=
  k ← get;
  assert (negb (uxSchedulerSuspended k (xPortGetCoreID k) =? 0));;
  listSET_LIST_ITEM_VALUE event_item pxUnblockedTCB (Z.lor xItemValue taskEVENT_LIST_ITEM_VALUE_IN_USE);;
  list_remove event_item pxUnblockedTCB;;
  list_remove generic_item pxUnblockedTCB;;
  prvAddTaskToReadyList pxUnblockedTCB;;
  switch_if_higher pxUnblockedTCB.

Definition uxTaskResetEventItemValue : K Z :=
  t ← current;
  c ← get_tcb t;
  listSET_LIST_ITEM_VALUE event_item t (configMAX_PRIORITIES - uxPriority c);;
  mret (item_value (xEventListItem c)).

(** ** Time-outs *)

Definition vTaskSetTimeOutState : K TimeOut_t := gets (fun k => mkTimeOut (xNumOfOverflows k) (xTickCount k)).

(** The result, and the new time-out state and remaining time. *)
Definition xTaskCheckForTimeOut (pxTimeOut : TimeOut_t) (xTicksToWait : Z) : K (bool * TimeOut_t * Z) :=
  k ← get;
  let elapsed := wrap_u 32 (xTickCount k - xTimeOnEntering pxTimeOut) in
  if xTicksToWait =? portMAX_DELAY then mret (false, pxTimeOut, xTicksToWait)
  else if negb (xNumOfOverflows k =? xOverflowCount pxTimeOut) && (xTimeOnEntering pxTimeOut <=? xTickCount k)
  then mret (true, pxTimeOut, xTicksToWait)
  else if elapsed <? xTicksToWait
  then t ← vTaskSetTimeOutState; mret (false, t, wrap_u 32 (xTicksToWait - elapsed))
  else mret (true, pxTimeOut, xTicksToWait).

(** ** Priority inheritance *)

Definition vTaskPriorityInherit (pxMutexHolder : option Z) : K unit :=
  match pxMutexHolder with
  | None => mret tt
  | Some pxTCB =>
      c ← get_tcb pxTCB;
      cur ← current_tcb;
      when (uxPriority c <? uxPriority cur)
        (when (Z.land (item_value (xEventListItem c)) taskEVENT_LIST_ITEM_VALUE_IN_USE =? 0)
           (listSET_LIST_ITEM_VALUE event_item pxTCB (configMAX_PRIORITIES - uxPriority cur));;
         if bool_decide (container (xGenericListItem c) = Some (pxReadyTasksLists (uxPriority c))) then
           list_remove generic_item pxTCB;;
           update_tcb pxTCB (with_priority (uxPriority cur));;
           prvAddTaskToReadyList pxTCB
         else update_tcb pxTCB (with_priority (uxPriority cur)))
  end.

Definition xTaskPriorityDisinherit (pxMutexHolder : option Z) : K bool :=
  match pxMutexHolder with
  | None => mret false
  | Some pxTCB =>
      c ← get_tcb pxTCB;
      assert (negb (uxMutexesHeld c =? 0));;
      update_tcb pxTCB (with_mutexes (wrap_u 32 (uxMutexesHeld c - 1)));;
      c ← get_tcb pxTCB;
      if negb (uxPriority c =? uxBasePriority c) && (uxMutexesHeld c =? 0) then
        list_remove generic_item pxTCB;;
        update_tcb pxTCB (with_priority (uxBasePriority c));;
        listSET_LIST_ITEM_VALUE event_item pxTCB (configMAX_PRIORITIES - uxBasePriority c);;
        prvAddTaskToReadyList pxTCB;;
        mret true
      else mret false
  end.

Definition pvTaskIncrementMutexHeldCount : K (option Z) :=
  k ← get;
  match pxCurrentTCB k (xPortGetCoreID k) with
  | None => mret None
  | Some t => update_tcb t (fun c => with_mutexes (wrap_u 32 (uxMutexesHeld c + 1)) c);; mret (Some t)
  end.

(** * Well-formed states *)

Definition kind_of (l : list_id) : item_kind :=
  match l with
  | pxReadyTasksLists _ | xDelayedTaskList1 | xDelayedTaskList2 | xSuspendedTaskList
  | xTasksWaitingTermination => generic_item
  | _ => event_item
  end.

(** An affinity [taskYIELD_OTHER_CORE] can be called with. *)
Definition affinity_ok (k : kernel) (core : Z) : Prop :=
  core = 0 \/ core = 1 \/ core = tskNO_AFFINITY /\ stray_read k = true.

(** Lists and containers agree; the cores run tasks, pinned to cores that exist. *)
Record kwf (k : kernel) : Prop := {
  k_in l t : t ∈ klists k l <->
    exists c, tcbs k !! t = Some c /\ container (item_of_kind (kind_of l) c) = Some l;
  k_kind t c i l : tcbs k !! t = Some c -> container (item_of_kind i c) = Some l -> kind_of l = i;
  k_nodup l : NoDup (klists k l);
  k_core : xPortGetCoreID k = 0 \/ xPortGetCoreID k = 1;
  k_current core : core = 0 \/ core = 1 -> exists t c, pxCurrentTCB k core = Some t /\ tcbs k !! t = Some c;
  k_affinity t c : tcbs k !! t = Some c -> affinity_ok k (xCoreID c) }.

Lemma affinity_core k core : core = 0 \/ core = 1 -> affinity_ok k core.
Proof. unfold affinity_ok. tauto. Qed.
Lemma affinity_cases k core : affinity_ok k core -> core = 0 \/ core = 1 \/ core = tskNO_AFFINITY.
Proof. unfold affinity_ok. tauto. Qed.

(** Every task is in a list that says what it does. *)
Definition placed (k : kernel) : Prop :=
  forall t c, tcbs k !! t = Some c -> is_Some (container (xGenericListItem c)).

(** The two moves of an item. *)
Definition unlink_item (i : item_kind) (t : Z) (c : TCB_t) (l : list_id) (k : kernel) : kernel :=
  set_tcbs (<[t := with_item i (mkItem (item_value (item_of_kind i c)) None) c]> (tcbs k))
    (set_klists (<[l := remove_item t (klists k l)]> (klists k)) k).
Definition link_item (i : item_kind) (t : Z) (c : TCB_t) (l : list_id) (new : list Z) (k : kernel) : kernel :=
  set_tcbs (<[t := with_item i (mkItem (item_value (item_of_kind i c)) (Some l)) c]> (tcbs k))
    (set_klists (<[l := new]> (klists k)) k).

(** Running the accessors. *)
Lemma get_tcb_run t c k : tcbs k !! t = Some c -> get_tcb t k = Ret (c, k).
Proof. intros H. unfold get_tcb, mbind, st_bind, get, need. by rewrite H. Qed.

Lemma update_tcb_run t c f k : tcbs k !! t = Some c -> update_tcb t f k = Ret (tt, set_tcbs (<[t := f c]> (tcbs k)) k).
Proof. intros H. unfold update_tcb. erewrite run_bind by (by apply get_tcb_run). done. Qed.

Lemma list_remove_run i t c l k : tcbs k !! t = Some c -> container (item_of_kind i c) = Some l ->
  list_remove i t k = Ret (zlen (remove_item t (klists k l)), unlink_item i t c l k).
Proof.
  intros Ht Hc. unfold list_remove, set_container. erewrite run_bind by (by apply get_tcb_run).
  rewrite Hc. change (need NullPointer (Some l)) with (mret l : K list_id).
  erewrite run_bind by done. erewrite run_bind by done. erewrite run_bind by done.
  erewrite run_bind by (by apply update_tcb_run). unfold gets. cbn [klists set_tcbs set_klists].
  by rewrite fn_lookup_insert.
Qed.

Lemma list_insert_end_run l i t c k : tcbs k !! t = Some c ->
  list_insert_end l i t k = Ret (tt, link_item i t c l (klists k l ++ [t]) k).
Proof.
  intros Ht. unfold list_insert_end, set_container. erewrite run_bind by done. erewrite run_bind by done.
  by erewrite update_tcb_run.
Qed.

Lemma list_insert_run l i t c k : tcbs k !! t = Some c ->
  list_insert l i t k = Ret (tt, link_item i t c l (insert_sorted (values i k) t (klists k l)) k).
Proof.
  intros Ht. unfold list_insert, set_container. erewrite run_bind by done. erewrite run_bind by done.
  by erewrite update_tcb_run.
Qed.

Lemma item_of_with i v c : item_of_kind i (with_item i v c) = v.
Proof. by destruct i. Qed.
Lemma item_of_with_ne i j v c : i <> j -> item_of_kind i (with_item j v c) = item_of_kind i c.
Proof. by destruct i, j. Qed.

#[export] Instance item_kind_eq_dec : EqDecision item_kind.
Proof. solve_decision. Defined.

Lemma elem_of_remove_item x y l : y ∈ remove_item x l <-> y <> x /\ y ∈ l.
Proof. unfold remove_item. by rewrite list_elem_of_filter. Qed.
Lemma NoDup_remove_item x l : NoDup l -> NoDup (remove_item x l).
Proof. unfold remove_item. by apply list.NoDup_filter. Qed.

Lemma remove_item_head x l : NoDup (x :: l) -> remove_item x (x :: l) = l.
Proof.
  intros [Hx _]%list.NoDup_cons. unfold remove_item. rewrite filter_cons_False by tauto. by apply remove_item_notin.
Qed.

(** The lookup of a changed task. *)
Ltac task_cases t t0 := destruct (decide (t = t0)) as [-> |]; [rewrite ?lookup_insert_eq in * | rewrite ?lookup_insert_ne in * by done].

(** An item that is linked nowhere may be moved; these are the two moves. *)
Lemma unlink_kwf i t c l k : kwf k -> tcbs k !! t = Some c -> container (item_of_kind i c) = Some l ->
  kwf (unlink_item i t c l k).
Proof.
  intros [Hin Hk Hd Hc Hcur Ha] Ht Hl. pose proof (Hk _ _ _ _ Ht Hl) as Hi.
  split; unfold unlink_item; cbn.
  - intros m y. destruct (decide (m = l)) as [-> | Hm].
    + rewrite fn_lookup_insert, elem_of_remove_item, Hin. task_cases y t.
      * split; [tauto |]. intros (c' & [= <-] & E). by rewrite Hi, item_of_with in E.
      * tauto.
    + rewrite fn_lookup_insert_ne, Hin by done. task_cases y t; [| done].
      destruct (decide (kind_of m = i)) as [E | E].
      * rewrite E. split; [| intros (c' & [= <-] & E'); by rewrite item_of_with in E'].
        intros (c' & Hc' & Hm'). rewrite Ht in Hc'. injection Hc' as <-. congruence.
      * split; intros (c' & Hc' & Hm'); [rewrite Ht in Hc' |]; injection Hc' as <-; eexists; split; try done;
          rewrite item_of_with_ne in *; done.
  - intros y c' j m. task_cases y t; [| by eauto]. intros [= <-] E.
    destruct (decide (j = i)) as [-> |]; [by rewrite item_of_with in E | rewrite item_of_with_ne in E by done; by eauto].
  - intros m. destruct (decide (m = l)) as [-> | Hm].
    + rewrite fn_lookup_insert. apply NoDup_remove_item, Hd.
    + by rewrite fn_lookup_insert_ne.
  - done.
  - intros core Hco. destruct (Hcur core Hco) as (y & c' & ? & ?). exists y. task_cases y t; eauto.
  - intros y c'. task_cases y t; [| by eauto]. intros [= <-]. destruct i; cbn; by eauto.
Qed.

Lemma link_kwf i t c l new k : kwf k -> tcbs k !! t = Some c -> container (item_of_kind i c) = None ->
  kind_of l = i -> new ≡ₚ t :: klists k l -> kwf (link_item i t c l new k).
Proof.
  intros [Hin Hk Hd Hc Hcur Ha] Ht Hl Hi Hnew.
  assert (t ∉ klists k l) as Hnt.
  { rewrite Hin. intros (c' & Hc' & E). rewrite Ht in Hc'. injection Hc' as <-. congruence. }
  split; unfold link_item; cbn.
  - intros m y. destruct (decide (m = l)) as [-> | Hm].
    + rewrite fn_lookup_insert, Hnew, elem_of_cons, Hin. task_cases y t.
      * split; [| by left]. intros _. eexists. split; [done |]. by rewrite Hi, item_of_with.
      * split; [intros [? | ?]; done | by right].
    + rewrite fn_lookup_insert_ne, Hin by done. task_cases y t; [| done].
      destruct (decide (kind_of m = i)) as [E | E].
      * rewrite E. split; intros (c' & Hc' & Hm'); [rewrite Ht in Hc' |]; injection Hc' as <-; [congruence |].
        rewrite item_of_with in Hm'. cbn in Hm'. congruence.
      * split; intros (c' & Hc' & Hm'); [rewrite Ht in Hc' |]; injection Hc' as <-; eexists; split; try done;
          rewrite item_of_with_ne in *; done.
  - intros y c' j m. task_cases y t; [| by eauto]. intros [= <-] E.
    destruct (decide (j = i)) as [-> |]; [rewrite item_of_with in E; cbn in E; congruence | rewrite item_of_with_ne in E by done; by eauto].
  - intros m. destruct (decide (m = l)) as [-> | Hm].
    + rewrite fn_lookup_insert, Hnew. apply list.NoDup_cons. by split.
    + by rewrite fn_lookup_insert_ne.
  - done.
  - intros core Hco. destruct (Hcur core Hco) as (y & c' & ? & ?). exists y. task_cases y t; eauto.
  - intros y c'. task_cases y t; [| by eauto]. intros [= <-]. destruct i; cbn; by eauto.
Qed.

(** What a move of items leaves alone. *)
Definition tcb_like (c c' : TCB_t) : Prop :=
  uxPriority c' = uxPriority c /\ xCoreID c' = xCoreID c /\ uxBasePriority c' = uxBasePriority c /\
  uxMutexesHeld c' = uxMutexesHeld c /\ item_value (xEventListItem c') = item_value (xEventListItem c).

Record frame (k k' : kernel) : Prop := {
  f_queues : queues k' = queues k; f_groups : groups k' = groups k;
  f_current : pxCurrentTCB k' = pxCurrentTCB k; f_core : xPortGetCoreID k' = xPortGetCoreID k;
  f_suspended : uxSchedulerSuspended k' = uxSchedulerSuspended k; f_running : xSchedulerRunning k' = xSchedulerRunning k;
  f_tasks : uxCurrentNumberOfTasks k' = uxCurrentNumberOfTasks k; f_pended : uxPendedTicks k' = uxPendedTicks k;
  f_tick : xTickCount k' = xTickCount k; f_overflows : xNumOfOverflows k' = xNumOfOverflows k;
  f_delayed : delayed_is_1 k' = delayed_is_1 k;
  f_tcb t c : tcbs k !! t = Some c -> exists c', tcbs k' !! t = Some c' /\ tcb_like c c';
  f_none t : tcbs k !! t = None -> tcbs k' !! t = None }.

Lemma tcb_like_refl c : tcb_like c c.
Proof. done. Qed.
#[export] Instance tcb_like_trans : Transitive tcb_like.
Proof. intros a b c (? & ? & ? & ? & Ha) (? & ? & ? & ? & Hb). split_and!; congruence. Qed.

#[export] Instance frame_refl : Reflexive frame.
Proof. intros k. split; try done. intros t c H. exists c. by split; [| apply tcb_like_refl]. Qed.
#[export] Instance frame_trans : Transitive frame.
Proof.
  intros a b c [] []. split; try congruence; [| by auto].
  intros t x H. destruct (f_tcb0 t x H) as (y & Hy & ?). destruct (f_tcb1 t y Hy) as (z & Hz & ?).
  exists z. split; [done |]. by etrans.
Qed.

Lemma with_item_like i l c : tcb_like c (with_item i (mkItem (item_value (item_of_kind i c)) l) c).
Proof. by destruct i. Qed.

Lemma frame_unlink i t c l k : tcbs k !! t = Some c -> frame k (unlink_item i t c l k).
Proof.
  intros Ht. split; try done; unfold unlink_item; cbn.
  - intros y c' Hy. task_cases y t; [| by eauto using tcb_like_refl].
    rewrite Ht in Hy. injection Hy as <-. eexists. split; [done |]. apply with_item_like.
  - intros y Hy. task_cases y t; [congruence | done].
Qed.
Lemma frame_link i t c l new k : tcbs k !! t = Some c -> frame k (link_item i t c l new k).
Proof.
  intros Ht. split; try done; unfold link_item; cbn.
  - intros y c' Hy. task_cases y t; [| by eauto using tcb_like_refl].
    rewrite Ht in Hy. injection Hy as <-. eexists. split; [done |]. apply with_item_like.
  - intros y Hy. task_cases y t; [congruence | done].
Qed.

(** Requests to switch. *)
Definition only_yields (k k' : kernel) : Prop := exists w y, k' = set_yields y (set_yield_pending w k).

#[export] Instance only_yields_refl : Reflexive only_yields.
Proof. intros k. exists (xYieldPending k), (yields k). by destruct k. Qed.
#[export] Instance only_yields_trans : Transitive only_yields.
Proof. intros a b c (w & y & ->) (w' & y' & ->). by exists w', y'. Qed.

Lemma only_yields_add core k : only_yields k (set_yields (core :: yields k) k).
Proof. exists (xYieldPending k), (core :: yields k). by destruct k. Qed.
Lemma only_yields_kwf k k' : only_yields k k' -> kwf k -> kwf k'.
Proof. intros (w & y & ->) []. by split. Qed.
Lemma only_yields_frame k k' : only_yields k k' -> frame k k'.
Proof. intros (w & y & ->). split; try done. intros t c H. exists c. by split; [| apply tcb_like_refl]. Qed.

Lemma current_of_run k core : kwf k -> core = 0 \/ core = 1 -> exists c, current_of core k = Ret (c, k).
Proof.
  intros Hk Hc. destruct (k_current k Hk core Hc) as (t & c & Ht & Htc). exists c.
  unfold current_of. erewrite run_bind by done. rewrite Ht.
  change (need NullPointer (Some t)) with (mret t : K Z). erewrite run_bind by done. by apply get_tcb_run.
Qed.
Lemma current_run k : kwf k -> exists t c, current k = Ret (t, k) /\ pxCurrentTCB k (xPortGetCoreID k) = Some t /\ tcbs k !! t = Some c.
Proof.
  intros Hk. destruct (k_current k Hk _ (k_core k Hk)) as (t & c & Ht & Htc). exists t, c.
  unfold current. erewrite run_bind by done. by rewrite Ht.
Qed.
Lemma current_tcb_run k : kwf k -> exists c, current_tcb k = Ret (c, k).
Proof.
  intros Hk. destruct (current_run k Hk) as (t & c & Hr & _ & Hc). exists c.
  unfold current_tcb. erewrite run_bind by done. by apply get_tcb_run.
Qed.

Lemma taskYIELD_OTHER_CORE_run k core p : kwf k -> affinity_ok k core ->
  exists k', taskYIELD_OTHER_CORE core p k = Ret (tt, k') /\ only_yields k k'.
Proof.
  intros Hk Hc. unfold taskYIELD_OTHER_CORE. destruct (Z.eqb_spec core tskNO_AFFINITY) as [E | E].
  - assert (forall cores, (forall i, i ∈ cores -> i = 0 \/ i = 1) ->
      exists k', yield_some_core cores p k = Ret (tt, k') /\ only_yields k k') as Hy.
    { induction cores as [| i cores IH]; intros Hi; cbn [yield_some_core]; [by exists k |].
      erewrite run_bind by done. destruct (i =? xPortGetCoreID k); [apply IH; set_solver |].
      destruct (current_of_run k i Hk) as (c & Hr); [apply Hi; left |]. erewrite run_bind by done.
      destruct (uxPriority c <? p); [| apply IH; set_solver].
      eexists. split; [done |]. exists (xYieldPending k), (i :: yields k). by destruct k. }
    destruct Hc as [-> | [-> | (_ & Hm)]]; [done.. |]. erewrite run_bind by reflexivity. rewrite Hm. apply Hy. set_solver.
  - destruct (current_of_run k core Hk) as (c & Hr); [pose proof (affinity_cases _ _ Hc); tauto |]. erewrite run_bind by done.
    unfold when. destruct (uxPriority c <? p).
    + eexists. split; [done |]. exists (xYieldPending k), (core :: yields k). by destruct k.
    + by exists k.
Qed.

Lemma switch_if_higher_run k t c : kwf k -> tcbs k !! t = Some c ->
  exists b k', switch_if_higher t k = Ret (b, k') /\ only_yields k k'.
Proof.
  intros Hk Ht. unfold switch_if_higher. erewrite run_bind by (by apply get_tcb_run).
  unfold tskCAN_RUN_HERE. erewrite run_bind by done.
  destruct (current_tcb_run k Hk) as (cur & Hr). erewrite run_bind by done. erewrite run_bind by done.
  destruct (_ && _).
  - erewrite run_bind by done. do 2 eexists. split; [done |]. exists (<[xPortGetCoreID k := true]> (xYieldPending k)), (yields k). by destruct k.
  - destruct (negb _).
    + destruct (taskYIELD_OTHER_CORE_run k (xCoreID c) (uxPriority c) Hk (k_affinity k Hk _ _ Ht)) as (k' & Hy & Ho).
      erewrite run_bind by done. by exists false, k'.
    + by exists false, k.
Qed.

(** A task that may run. *)
Definition is_ready (k : kernel) (t : Z) : Prop :=
  exists c p, tcbs k !! t = Some c /\ container (xGenericListItem c) = Some (pxReadyTasksLists p).

(** The task that runs. *)
Definition runs (k : kernel) (t : Z) : Prop := pxCurrentTCB k (xPortGetCoreID k) = Some t /\ is_ready k t.

(** No task that waits for an event is ready. *)
Definition quiet (k : kernel) : Prop :=
  forall l t, kind_of l = event_item -> t ∈ klists k l -> ~ is_ready k t.

(** A step that concerns the task [h] keeps this if [h] waits nowhere or is not
    ready afterwards. *)
Lemma quiet_step h k k' : kwf k -> kwf k' -> quiet k -> (forall y, y <> h -> tcbs k' !! y = tcbs k !! y) ->
  (forall c', tcbs k' !! h = Some c' -> container (xEventListItem c') = None) \/ ~ is_ready k' h -> quiet k'.
Proof.
  intros Hk Hk' Hq Hy Hh l y Hl Hin. destruct (decide (y = h)) as [-> | Hne].
  - destruct Hh as [Hh | Hh]; [| done]. apply (k_in k' Hk') in Hin as (c' & Hc' & E). rewrite Hl in E. cbn in E.
    rewrite (Hh c' Hc') in E. done.
  - assert (y ∈ klists k l) as Hin' by (apply (k_in k Hk); rewrite <- Hy by done; by apply (k_in k' Hk')).
    intros (c & p & Hc & E). apply (Hq l y Hl Hin'). exists c, p. by rewrite <- Hy.
Qed.

(** A ready task waits for nothing. *)
Lemma quiet_event k t c : kwf k -> quiet k -> is_ready k t -> tcbs k !! t = Some c -> container (xEventListItem c) = None.
Proof.
  intros Hk Hq Hr Ht. destruct (container (xEventListItem c)) as [l |] eqn:E; [| done]. exfalso.
  pose proof (k_kind k Hk t c event_item l Ht E) as Hl. apply (Hq l t Hl); [| done].
  apply (k_in k Hk). exists c. by rewrite Hl.
Qed.

(** The move of a task to the end of the ready list of its priority. *)
Lemma prvAddTaskToReadyList_run k t c : kwf k -> tcbs k !! t = Some c -> container (xGenericListItem c) = None ->
  exists k', prvAddTaskToReadyList t k = Ret (tt, k') /\ kwf k' /\ frame k k' /\ is_ready k' t /\
    (forall y, y <> t -> tcbs k' !! y = tcbs k !! y) /\
    (forall c', tcbs k' !! t = Some c' -> xEventListItem c' = xEventListItem c) /\
    (forall m, m <> pxReadyTasksLists (uxPriority c) -> klists k' m = klists k m) /\
    klists k' (pxReadyTasksLists (uxPriority c)) = klists k (pxReadyTasksLists (uxPriority c)) ++ [t].
Proof.
  intros Hk Ht Hc. unfold prvAddTaskToReadyList. erewrite run_bind by (by apply get_tcb_run).
  rewrite (list_insert_end_run _ _ _ c k Ht). eexists. split; [done |]. split_and!.
  - apply link_kwf; try done. by rewrite <- Permutation_cons_append.
  - by apply frame_link.
  - eexists _, _. unfold link_item. cbn. rewrite lookup_insert_eq. done.
  - intros y Hy. unfold link_item. cbn. by rewrite lookup_insert_ne.
  - unfold link_item. cbn. rewrite lookup_insert_eq. by intros c' [= <-].
  - intros m Hm. unfold link_item. cbn. by rewrite fn_lookup_insert_ne.
  - unfold link_item. cbn. by rewrite fn_lookup_insert.
Qed.

Definition make_ready (t : Z) : K unit := list_remove generic_item t;; prvAddTaskToReadyList t.

Lemma make_ready_run k t c : kwf k -> tcbs k !! t = Some c -> is_Some (container (xGenericListItem c)) ->
  exists k', make_ready t k = Ret (tt, k') /\ kwf k' /\ frame k k' /\ is_ready k' t /\
    (forall y, y <> t -> tcbs k' !! y = tcbs k !! y) /\
    (forall c', tcbs k' !! t = Some c' -> xEventListItem c' = xEventListItem c) /\
    (forall m, kind_of m = event_item -> klists k' m = klists k m).
Proof.
  intros Hk Ht (g & Hg). unfold make_ready. erewrite run_bind by (by apply list_remove_run).
  destruct (prvAddTaskToReadyList_run (unlink_item generic_item t c g k) t
     (with_item generic_item (mkItem (item_value (xGenericListItem c)) None) c))
    as (k' & Hr & Hk' & Hf & Hre & Hy & He & Hm & _).
  - by apply unlink_kwf.
  - unfold unlink_item. cbn. by rewrite lookup_insert_eq.
  - done.
  - exists k'. split_and!; try done.
    + etrans; [by apply frame_unlink | done].
    + intros y Hne. rewrite Hy by done. unfold unlink_item. cbn. by rewrite lookup_insert_ne.
    + intros m Hev. rewrite Hm by (intros ->; done). unfold unlink_item. cbn. rewrite fn_lookup_insert_ne; [done |].
      intros ->. pose proof (k_kind k Hk t c generic_item _ Ht Hg). congruence.
Qed.

Definition wait_list (l : list_id) : Prop := kind_of l = event_item /\ forall core, l <> xPendingReadyList core.

(** The first waiter of an event list is taken off it; it is ready at once, or
    pending while the scheduler of the core is suspended. *)
Lemma xTaskRemoveFromEventList_run k l t rest :
  kwf k -> placed k -> wait_list l -> klists k l = t :: rest ->
  exists b k', xTaskRemoveFromEventList l k = Ret (b, k') /\ kwf k' /\ placed k' /\ frame k k' /\
    klists k' l = rest /\
    (forall m, wait_list m -> m <> l -> klists k' m = klists k m) /\
    (forall y, y <> t -> tcbs k' !! y = tcbs k !! y) /\
    (if uxSchedulerSuspended k (xPortGetCoreID k) =? 0 then is_ready k' t
     else t ∈ klists k' (xPendingReadyList (xPortGetCoreID k))) /\ (quiet k -> quiet k').
Proof.
  intros Hk Hp [Hl Hlp] E. unfold xTaskRemoveFromEventList. erewrite run_bind by done. rewrite E.
  pose proof (k_nodup k Hk l) as Hd. rewrite E in Hd.
  destruct (proj1 (k_in k Hk l t)) as (c & Ht & Hc); [rewrite E; left |]. rewrite Hl in Hc.
  erewrite run_bind by (by apply list_remove_run). erewrite run_bind by done.
  set (k1 := unlink_item event_item t c l k).
  set (c1 := with_item event_item (mkItem (item_value (xEventListItem c)) None) c).
  assert (kwf k1) as Hk1 by (by apply unlink_kwf).
  assert (tcbs k1 !! t = Some c1) as Ht1 by (unfold k1, unlink_item; cbn; by rewrite lookup_insert_eq).
  assert (forall y, y <> t -> tcbs k1 !! y = tcbs k !! y) as Hy1 by (intros; unfold k1, unlink_item; cbn; by rewrite lookup_insert_ne).
  assert (klists k1 l = rest) as El by (unfold k1, unlink_item; cbn; rewrite fn_lookup_insert, E; by apply remove_item_head).
  assert (forall m, m <> l -> klists k1 m = klists k m) as Em by (intros; unfold k1, unlink_item; cbn; by rewrite fn_lookup_insert_ne).
  assert (frame k k1) as Hf1 by (by apply frame_unlink).
  assert (exists k2, (if uxSchedulerSuspended k1 (xPortGetCoreID k1) =? 0
      then list_remove generic_item t;; prvAddTaskToReadyList t
      else list_insert_end (xPendingReadyList (xPortGetCoreID k1)) event_item t) k1 = Ret (tt, k2) /\ kwf k2 /\ frame k1 k2 /\
    (forall m, wait_list m -> klists k2 m = klists k1 m) /\ (forall y, y <> t -> tcbs k2 !! y = tcbs k1 !! y) /\
    (forall c2, tcbs k2 !! t = Some c2 -> is_Some (container (xGenericListItem c2))) /\
    (if uxSchedulerSuspended k (xPortGetCoreID k) =? 0 then is_ready k2 t
     else t ∈ klists k2 (xPendingReadyList (xPortGetCoreID k))) /\
    ((forall c2, tcbs k2 !! t = Some c2 -> container (xEventListItem c2) = None) \/ (is_ready k2 t -> is_ready k t)))
    as (k2 & Hr & Hk2 & Hf2 & Em2 & Hy2 & Hg2 & Hr2 & Hq2).
  { change (uxSchedulerSuspended k1 (xPortGetCoreID k1)) with (uxSchedulerSuspended k (xPortGetCoreID k)).
    destruct (_ =? 0).
    - destruct (make_ready_run k1 t c1 Hk1 Ht1) as (k2 & Hr & ? & ? & (c2 & p2 & Hc2 & Hg2) & ? & Hev2 & Hm); [by apply (Hp t c) |].
      exists k2. split_and!; try done; [intros m [Hm1 _]; auto | | by exists c2, p2 |].
      + intros c' Hc'. rewrite Hc2 in Hc'. injection Hc' as <-. eauto.
      + left. intros c' Hc'. by rewrite (Hev2 c' Hc').
    - rewrite (list_insert_end_run _ _ _ c1 k1 Ht1). eexists. split; [done |]. split_and!.
      + apply link_kwf; try done. by rewrite <- Permutation_cons_append.
      + by apply frame_link.
      + intros m [_ Hm]. unfold link_item. cbn [klists set_tcbs set_klists]. by rewrite fn_lookup_insert_ne.
      + intros y Hy. unfold link_item. cbn [tcbs set_tcbs set_klists]. by rewrite lookup_insert_ne.
      + unfold link_item. cbn [tcbs set_tcbs set_klists]. rewrite lookup_insert_eq. intros c2 [= <-]. by apply (Hp t c).
      + unfold link_item. cbn [klists set_tcbs set_klists].
        change (xPortGetCoreID k1) with (xPortGetCoreID k). rewrite fn_lookup_insert. set_solver +.
      + right. intros (x & p & Hx & Ex). unfold link_item in Hx. cbn in Hx. rewrite lookup_insert_eq in Hx. injection Hx as <-.
        by exists c, p. }
  rewrite (run_bind _ _ k1 tt k2 Hr).
  destruct (f_tcb _ _ Hf2 t c1 Ht1) as (c2 & Ht2 & _).
  destruct (switch_if_higher_run k2 t c2 Hk2 Ht2) as (b & k3 & Hsw & Ho).
  exists b, k3. split; [done |]. pose proof Ho as (w & ys & Ek3).
  split_and!.
  - by eapply only_yields_kwf.
  - intros y c' Hc'. rewrite Ek3 in Hc'. cbn in Hc'. destruct (decide (y = t)) as [-> | Hne]; [by apply (Hg2 c') |].
    rewrite Hy2, Hy1 in Hc' by done. by apply (Hp y).
  - etrans; [done |]. etrans; [done |]. by apply only_yields_frame.
  - rewrite Ek3. cbn. by rewrite Em2.
  - intros m Hm Hne. rewrite Ek3. cbn. by rewrite Em2, Em.
  - intros y Hne. rewrite Ek3. cbn. by rewrite Hy2, Hy1.
  - rewrite Ek3. by destruct (_ =? 0).
  - intros Hq. rewrite Ek3. assert (quiet k2) as Hqk2; [| done].
    apply (quiet_step t k k2); try done; [intros; by rewrite Hy2, Hy1 |].
    destruct Hq2 as [Hev2 | Hnr]; [by left | right]. intros Hr2'. apply (Hq l t Hl); [rewrite E; left | auto].
Qed.

(** A change of the generic item of [t] and of the lists of such items. *)
Definition moves (t : Z) (k k' : kernel) : Prop :=
  frame k k' /\ (forall m, kind_of m = event_item -> klists k' m = klists k m) /\
  (forall y, y <> t -> tcbs k' !! y = tcbs k !! y).

#[export] Instance moves_trans t : Transitive (moves t).
Proof.
  intros a b c (? & Hm & Hy) (? & Hm' & Hy'). split_and!; [by etrans | |].
  - intros m Hev. by rewrite Hm', Hm.
  - intros y Hne. by rewrite Hy', Hy.
Qed.

Lemma moves_unlink k t c l : kwf k -> tcbs k !! t = Some c -> container (xGenericListItem c) = Some l ->
  moves t k (unlink_item generic_item t c l k).
Proof.
  intros Hk Ht Hc. split_and!; [by apply frame_unlink | |]; unfold unlink_item; cbn.
  - intros m Hm. rewrite fn_lookup_insert_ne; [done |]. intros ->.
    pose proof (k_kind k Hk t c generic_item _ Ht Hc). congruence.
  - intros y Hy. by rewrite lookup_insert_ne.
Qed.
Lemma moves_link k t c l new : kind_of l = generic_item -> tcbs k !! t = Some c ->
  moves t k (link_item generic_item t c l new k).
Proof.
  intros Hl Ht. split_and!; [by apply frame_link | |]; unfold link_item; cbn.
  - intros m Hm. rewrite fn_lookup_insert_ne; [done |]. congruence.
  - intros y Hy. by rewrite lookup_insert_ne.
Qed.
Lemma moves_update k t c f : tcbs k !! t = Some c -> tcb_like c (f c) ->
  moves t k (set_tcbs (<[t := f c]> (tcbs k)) k).
Proof.
  intros Ht Hl. split_and!; [| done |].
  - split; try done; cbn.
    + intros y c' Hy. task_cases y t; [| by eauto using tcb_like_refl]. rewrite Ht in Hy. injection Hy as <-. eauto.
    + intros y Hy. task_cases y t; [congruence | done].
  - intros y Hy. cbn. by rewrite lookup_insert_ne.
Qed.
Lemma moves_unblock k t v : moves t k (set_unblock v k).
Proof. split_and!; try done. split; try done. intros y c H. exists c. by split; [| apply tcb_like_refl]. Qed.

(** A change of a task that leaves its items where they are. *)
Lemma kwf_set h c c' k : kwf k -> tcbs k !! h = Some c -> xCoreID c' = xCoreID c ->
  (forall i, container (item_of_kind i c') = container (item_of_kind i c)) ->
  kwf (set_tcbs (<[h := c']> (tcbs k)) k).
Proof.
  intros [Hin Hk Hd Hc Hcur Ha] Ht Hl Hf. split; cbn; try done.
  - intros l y. rewrite Hin. task_cases y h; [| done].
    split; intros (c1 & Hc1 & E); [rewrite Ht in Hc1 |]; injection Hc1 as <-; eexists; (split; [done |]); rewrite ?Hf in *; done.
  - intros y c1 i l. task_cases y h; [| by eauto]. intros [= <-]. rewrite Hf. eauto.
  - intros core Hco. destruct (Hcur core Hco) as (y & c1 & ? & ?). exists y. task_cases y h; eauto.
  - intros y c1. task_cases y h; [| by eauto]. intros [= <-]. rewrite Hl. eauto.
Qed.

Lemma kwf_update k t c f : kwf k -> tcbs k !! t = Some c -> tcb_like c (f c) ->
  (forall i, container (item_of_kind i (f c)) = container (item_of_kind i c)) ->
  kwf (set_tcbs (<[t := f c]> (tcbs k)) k).
Proof. intros Hk Ht (_ & Hl & _). by apply (kwf_set t c (f c)). Qed.

(** The value of the generic item of the running task, and a link into one of
    the two delayed lists. *)
Lemma prvAddCurrentTaskToDelayedList_run k t c wake :
  kwf k -> pxCurrentTCB k (xPortGetCoreID k) = Some t -> tcbs k !! t = Some c -> container (xGenericListItem c) = None ->
  exists k' c', prvAddCurrentTaskToDelayedList wake k = Ret (tt, k') /\ kwf k' /\ moves t k k' /\
    tcbs k' !! t = Some c' /\ item_value (xGenericListItem c') = wrap_u 32 wake /\
    container (xGenericListItem c') =
      Some (if wake <? xTickCount k then pxOverflowDelayedTaskList k else pxDelayedTaskList k).
Proof.
  intros Hk Hcur Ht Hc.
  assert (current k = Ret (t, k)) as Hcr by (unfold current; erewrite run_bind by done; by rewrite Hcur).
  set (c1 := with_item generic_item (mkItem (wrap_u 32 wake) (container (item_of_kind generic_item c))) c).
  set (k1 := set_tcbs (<[t := c1]> (tcbs k)) k).
  assert (tcbs k1 !! t = Some c1) as Ht1 by (cbn; by rewrite lookup_insert_eq).
  assert (kwf k1) as Hk1 by (apply (kwf_update k t c (fun _ => c1)); try done; by intros []).
  assert (moves t k k1) as Hm1 by (by apply (moves_update k t c (fun _ => c1))).
  unfold prvAddCurrentTaskToDelayedList, listSET_LIST_ITEM_VALUE. erewrite run_bind by done.
  erewrite run_bind by (by apply update_tcb_run). erewrite run_bind by done. fold c1. fold k1. cbv beta.
  change (xTickCount k1) with (xTickCount k). change (pxDelayedTaskList k1) with (pxDelayedTaskList k).
  change (pxOverflowDelayedTaskList k1) with (pxOverflowDelayedTaskList k).
  assert (kind_of (pxOverflowDelayedTaskList k) = generic_item /\ kind_of (pxDelayedTaskList k) = generic_item) as [Ho Hd]
    by (unfold pxOverflowDelayedTaskList, pxDelayedTaskList; by destruct (delayed_is_1 k)).
  assert (forall l, kind_of l = generic_item -> kwf (link_item generic_item t c1 l (insert_sorted (values generic_item k1) t (klists k1 l)) k1)) as Hl
    by (intros l Hl; apply link_kwf; try done; apply insert_sorted_perm).
  destruct (wake <? xTickCount k).
  - rewrite (list_insert_run _ _ _ c1 k1 Ht1).
    eexists _, (with_item generic_item (mkItem (wrap_u 32 wake) (Some (pxOverflowDelayedTaskList k))) c1).
    split_and!; [done | auto | | | done | done].
    + etrans; [done | by apply moves_link].
    + unfold link_item. cbn. by rewrite lookup_insert_eq.
  - erewrite run_bind by (by apply list_insert_run). unfold when.
    set (k2 := link_item _ _ _ _ _ _).
    assert (moves t k k2) as Hm2 by (etrans; [done | by apply moves_link]).
    assert (tcbs k2 !! t = Some (with_item generic_item (mkItem (wrap_u 32 wake) (Some (pxDelayedTaskList k))) c1)) as Ht2
      by (unfold k2, link_item; cbn; by rewrite lookup_insert_eq).
    assert (kwf k2) as Hk2 by (by apply Hl).
    destruct (wake <? xNextTaskUnblockTime k1);
      eexists _, (with_item generic_item (mkItem (wrap_u 32 wake) (Some (pxDelayedTaskList k))) c1);
      (split_and!; [done | | | done | done | done]); try done.
    + by destruct Hk2.
    + etrans; [done | apply moves_unblock].
Qed.

Lemma moves_placed t k k' c' l : placed k -> moves t k k' -> tcbs k' !! t = Some c' ->
  container (xGenericListItem c') = Some l -> placed k'.
Proof.
  intros Hp (_ & _ & Hy) Ht Hl y c Hc. destruct (decide (y = t)) as [-> | Hne].
  - rewrite Ht in Hc. injection Hc as <-. by exists l.
  - rewrite Hy in Hc by done. by apply (Hp y).
Qed.

(** The running task goes to the suspended or to a delayed list. *)
Lemma block_current_run k t c n :
  kwf k -> placed k -> pxCurrentTCB k (xPortGetCoreID k) = Some t -> tcbs k !! t = Some c ->
  exists k' c', block_current n k = Ret (tt, k') /\ kwf k' /\ placed k' /\ moves t k k' /\
    tcbs k' !! t = Some c' /\
    if n =? portMAX_DELAY then container (xGenericListItem c') = Some xSuspendedTaskList
    else item_value (xGenericListItem c') = wrap_u 32 (xTickCount k + n) /\
      container (xGenericListItem c') =
        Some (if wrap_u 32 (xTickCount k + n) <? xTickCount k then pxOverflowDelayedTaskList k else pxDelayedTaskList k).
Proof.
  intros Hk Hp Hcur Ht. destruct (Hp t c Ht) as (g & Hg).
  assert (current k = Ret (t, k)) as Hc by (unfold current; erewrite run_bind by done; by rewrite Hcur).
  unfold block_current. erewrite run_bind by done. erewrite run_bind by (by apply list_remove_run). erewrite run_bind by done.
  cbv beta. set (k1 := unlink_item generic_item t c g k).
  set (c1 := with_item generic_item (mkItem (item_value (xGenericListItem c)) None) c).
  assert (kwf k1) as Hk1 by (by apply unlink_kwf).
  assert (tcbs k1 !! t = Some c1) as Ht1 by (unfold k1, unlink_item; cbn; by rewrite lookup_insert_eq).
  assert (moves t k k1) as Hm1 by (by apply moves_unlink).
  destruct (n =? portMAX_DELAY).
  - rewrite (list_insert_end_run _ _ _ c1 k1 Ht1). set (k2 := link_item _ _ _ _ _ _).
    set (c2 := with_item generic_item (mkItem (item_value (xGenericListItem c)) (Some xSuspendedTaskList)) c1).
    assert (tcbs k2 !! t = Some c2) as Ht2 by (unfold k2, link_item; cbn; by rewrite lookup_insert_eq).
    assert (moves t k k2) as Hm2 by (etrans; [done | by apply moves_link]).
    exists k2, c2. split_and!; try done.
    + apply link_kwf; try done. by rewrite <- Permutation_cons_append.
    + by eapply moves_placed.
  - destruct (prvAddCurrentTaskToDelayedList_run k1 t c1 (wrap_u 32 (xTickCount k1 + n)) Hk1) as
      (k' & c' & Hr & Hk' & Hm' & Ht' & Hv & Hco); [done.. |].
    assert (moves t k k') as Hm2 by (by etrans).
    exists k', c'. split_and!; try done.
    + by eapply moves_placed.
    + rewrite Hv. apply wrap_u_small, wrap_u_range. lia.
Qed.

(** The running task, linked into an event list, blocks: it is no longer ready. *)
Lemma link_then_block_run k l t c n new :
  kwf k -> placed k -> wait_list l -> pxCurrentTCB k (xPortGetCoreID k) = Some t -> tcbs k !! t = Some c ->
  container (xEventListItem c) = None -> new ≡ₚ t :: klists k l ->
  exists k', block_current n (link_item event_item t c l new k) = Ret (tt, k') /\ kwf k' /\ placed k' /\ frame k k' /\
    klists k' l = new /\
    (forall m, kind_of m = event_item -> m <> l -> klists k' m = klists k m) /\
    (forall y, y <> t -> tcbs k' !! y = tcbs k !! y) /\ ~ is_ready k' t /\ (quiet k -> quiet k').
Proof.
  intros Hk Hp [Hl Hlp] Hcur Ht Hev Hnew.
  set (k1 := link_item event_item t c l new k).
  set (c1 := with_item event_item (mkItem (item_value (xEventListItem c)) (Some l)) c).
  assert (kwf k1) as Hk1 by (by apply link_kwf).
  assert (tcbs k1 !! t = Some c1) as Ht1 by (unfold k1, link_item; cbn; by rewrite lookup_insert_eq).
  assert (forall y, y <> t -> tcbs k1 !! y = tcbs k !! y) as Hy1 by (intros; unfold k1, link_item; cbn; by rewrite lookup_insert_ne).
  assert (placed k1) as Hp1.
  { intros y c' Hc'. destruct (decide (y = t)) as [-> | Hne].
    - rewrite Ht1 in Hc'. injection Hc' as <-. apply (Hp t c Ht).
    - rewrite Hy1 in Hc' by done. by apply (Hp y). }
  destruct (block_current_run k1 t c1 n Hk1 Hp1) as (k' & c' & Hr & Hk' & Hp' & (Hf & Hm & Hy) & Ht' & Hx); [done.. |].
  assert (forall y, y <> t -> tcbs k' !! y = tcbs k !! y) as Hy2 by (intros; by rewrite Hy, Hy1).
  assert (~ is_ready k' t) as Hnr; cycle 1.
  { exists k'. split_and!; try done.
    - etrans; [by apply (frame_link event_item t c l new) | done].
    - rewrite Hm by done. unfold k1, link_item. cbn. by rewrite fn_lookup_insert.
    - intros m Hm1 Hne. rewrite Hm by done. unfold k1, link_item. cbn. by rewrite fn_lookup_insert_ne.
    - intros Hq. apply (quiet_step t k k'); auto. }
  - intros (c2 & p2 & Hc2 & E). rewrite Ht' in Hc2. injection Hc2 as <-. rewrite E in Hx. clear -Hx.
    destruct (n =? portMAX_DELAY); [done |]. destruct Hx as [_ Hx].
    unfold pxOverflowDelayedTaskList, pxDelayedTaskList in Hx. by repeat case_match.
Qed.

(** The running task waits on an event list: it is there in the order of the
    priorities, and no longer ready. *)
Lemma vTaskPlaceOnEventList_run k l t c n :
  kwf k -> placed k -> wait_list l -> pxCurrentTCB k (xPortGetCoreID k) = Some t -> tcbs k !! t = Some c ->
  container (xEventListItem c) = None ->
  exists k', vTaskPlaceOnEventList l n k = Ret (tt, k') /\ kwf k' /\ placed k' /\ frame k k' /\
    klists k' l = insert_sorted (values event_item k) t (klists k l) /\
    (forall m, wait_list m -> m <> l -> klists k' m = klists k m) /\
    (forall y, y <> t -> tcbs k' !! y = tcbs k !! y) /\ ~ is_ready k' t /\ (quiet k -> quiet k').
Proof.
  intros Hk Hp Hl Hcur Ht Hev.
  assert (current k = Ret (t, k)) as Hc by (unfold current; erewrite run_bind by done; by rewrite Hcur).
  unfold vTaskPlaceOnEventList. erewrite run_bind by done. erewrite run_bind by (by apply list_insert_run).
  destruct (link_then_block_run k l t c n (insert_sorted (values event_item k) t (klists k l))) as
    (k' & Hr & ? & ? & ? & ? & Hm & ? & ? & ?); try done; [apply insert_sorted_perm |].
  exists k'. split_and!; try done. intros m [Hm1 _]. by apply Hm.
Qed.

(** The same at the end of the list, with the value [v] in the item. *)
Lemma vTaskPlaceOnUnorderedEventList_run k l t c v n :
  kwf k -> placed k -> wait_list l -> pxCurrentTCB k (xPortGetCoreID k) = Some t -> tcbs k !! t = Some c ->
  container (xEventListItem c) = None -> uxSchedulerSuspended k (xPortGetCoreID k) <> 0 ->
  let v' := wrap_u 32 (Z.lor v taskEVENT_LIST_ITEM_VALUE_IN_USE) in
  let k0 := set_tcbs (<[t := with_item event_item (mkItem v' None) c]> (tcbs k)) k in
  exists k', vTaskPlaceOnUnorderedEventList l v n k = Ret (tt, k') /\ kwf k' /\ placed k' /\ frame k0 k' /\
    klists k' l = klists k l ++ [t] /\
    (forall m, kind_of m = event_item -> m <> l -> klists k' m = klists k m) /\
    (forall y, y <> t -> tcbs k' !! y = tcbs k !! y) /\ ~ is_ready k' t /\ (quiet k -> quiet k').
Proof.
  intros Hk Hp Hl Hcur Ht Hev Hs v' k0. unfold vTaskPlaceOnUnorderedEventList, listSET_LIST_ITEM_VALUE.
  assert (current k = Ret (t, k)) as Hc by (unfold current; erewrite run_bind by done; by rewrite Hcur).
  erewrite run_bind by done. rewrite (proj2 (Z.eqb_neq _ _) Hs). erewrite run_bind by done. erewrite run_bind by done.
  erewrite run_bind by (by apply update_tcb_run). cbn [item_of_kind]. rewrite Hev. fold v'. fold k0.
  set (c0 := with_item event_item (mkItem v' None) c).
  assert (forall i, container (item_of_kind i c0) = container (item_of_kind i c)) as Hi by (intros []; done).
  assert (kwf k0) as Hk0 by (by apply (kwf_set t c c0)).
  assert (tcbs k0 !! t = Some c0) as Ht0 by (unfold k0; cbn; by rewrite lookup_insert_eq).
  assert (forall y, y <> t -> tcbs k0 !! y = tcbs k !! y) as Hy0 by (intros; unfold k0; cbn; by rewrite lookup_insert_ne).
  assert (placed k0) as Hp0.
  { intros y x Hx. destruct (decide (y = t)) as [-> | Hne]; [rewrite Ht0 in Hx; injection Hx as <-; by apply (Hp t c) |].
    rewrite Hy0 in Hx by done. by apply (Hp y). }
  erewrite run_bind by (by apply list_insert_end_run).
  destruct (link_then_block_run k0 l t c0 n (klists k0 l ++ [t])) as (k' & Hr & ? & ? & ? & ? & Hm & Hy & ? & Hq); try done.
  { by rewrite <- Permutation_cons_append. }
  exists k'. split_and!; try done.
  - intros y Hne. by rewrite Hy, Hy0.
  - intros Hqk. apply Hq. apply (quiet_step t k k0); try done. left. intros x Hx. rewrite Ht0 in Hx. by injection Hx as <-.
Qed.

(** ** Priority inheritance *)

(** Only the task [h] changed: its priority, its count of mutexes, the value of
    its event item and the place of its generic item. *)
Record only_task (h : Z) (k k' : kernel) : Prop := {
  o_queues : queues k' = queues k; o_groups : groups k' = groups k;
  o_current : pxCurrentTCB k' = pxCurrentTCB k; o_core : xPortGetCoreID k' = xPortGetCoreID k;
  o_suspended : uxSchedulerSuspended k' = uxSchedulerSuspended k; o_running : xSchedulerRunning k' = xSchedulerRunning k;
  o_tick : xTickCount k' = xTickCount k; o_overflows : xNumOfOverflows k' = xNumOfOverflows k;
  o_tcbs y : y <> h -> tcbs k' !! y = tcbs k !! y;
  o_tcb c : tcbs k !! h = Some c -> exists c', tcbs k' !! h = Some c' /\ xCoreID c' = xCoreID c /\
    uxBasePriority c' = uxBasePriority c /\ container (xEventListItem c') = container (xEventListItem c) /\
    (0 <= uxMutexesHeld c < 2 ^ 32 -> 0 <= uxMutexesHeld c' < 2 ^ 32);
  o_lists m : kind_of m = event_item -> klists k' m = klists k m }.

#[export] Instance only_task_refl h : Reflexive (only_task h).
Proof. intros k. split; try done. intros c Hc. by exists c. Qed.
#[export] Instance only_task_trans h : Transitive (only_task h).
Proof.
  intros a b c [] []. split; try congruence.
  - intros y Hy. rewrite o_tcbs1, o_tcbs0; done.
  - intros x Hx. destruct (o_tcb0 x Hx) as (y & Hy & ? & ? & ? & ?). destruct (o_tcb1 y Hy) as (z & Hz & ? & ? & ? & ?).
    exists z. split_and!; try congruence; auto.
  - intros m Hm. rewrite o_lists1, o_lists0; done.
Qed.

Lemma only_task_update h c f k : tcbs k !! h = Some c -> xCoreID (f c) = xCoreID c ->
  uxBasePriority (f c) = uxBasePriority c -> container (xEventListItem (f c)) = container (xEventListItem c) ->
  (0 <= uxMutexesHeld c < 2 ^ 32 -> 0 <= uxMutexesHeld (f c) < 2 ^ 32) ->
  only_task h k (set_tcbs (<[h := f c]> (tcbs k)) k).
Proof.
  intros Hh H1 H2 H3 H4. split; try done; cbn.
  - intros y Hy. by rewrite lookup_insert_ne.
  - intros x Hx. rewrite Hh in Hx. injection Hx as <-. rewrite lookup_insert_eq. by exists (f c).
Qed.

(** The state of a task after a change that keeps it where it is. *)
Lemma placed_set h c c' k : placed k -> tcbs k !! h = Some c -> container (xGenericListItem c') = container (xGenericListItem c) ->
  placed (set_tcbs (<[h := c']> (tcbs k)) k).
Proof.
  intros Hp Hh E y x. cbn. task_cases y h; [| by apply Hp]. intros [= <-]. rewrite E. by apply (Hp h).
Qed.

(** A ready task changes its priority and moves to the list of the new one. *)
Lemma change_priority_run h c p k : kwf k -> placed k -> tcbs k !! h = Some c ->
  exists k' c', (list_remove generic_item h;; update_tcb h (with_priority p);; prvAddTaskToReadyList h) k = Ret (tt, k') /\
    kwf k' /\ placed k' /\ only_task h k k' /\ is_ready k' h /\ tcbs k' !! h = Some c' /\ uxPriority c' = p /\
    uxMutexesHeld c' = uxMutexesHeld c.
Proof.
  intros Hk Hp Hh. destruct (Hp h c Hh) as (g & Hg).
  erewrite run_bind by (by apply list_remove_run).
  set (k1 := unlink_item generic_item h c g k).
  set (c1 := with_item generic_item (mkItem (item_value (xGenericListItem c)) None) c).
  assert (tcbs k1 !! h = Some c1) as H1 by (unfold k1, unlink_item; cbn; by rewrite lookup_insert_eq).
  erewrite run_bind by (by apply update_tcb_run).
  set (k2 := set_tcbs (<[h := with_priority p c1]> (tcbs k1)) k1).
  assert (kwf k2) as Hk2 by (apply (kwf_set h c1); try done; first [by apply unlink_kwf | by intros []]).
  assert (tcbs k2 !! h = Some (with_priority p c1)) as H2 by (unfold k2; cbn; by rewrite lookup_insert_eq).
  fold k1. fold k2. unfold prvAddTaskToReadyList. erewrite run_bind by (by apply get_tcb_run).
  rewrite (list_insert_end_run _ generic_item h (with_priority p c1) k2 H2).
  set (k3 := link_item _ _ _ _ _ _).
  set (c3 := with_item generic_item (mkItem (item_value (xGenericListItem c)) (Some (pxReadyTasksLists p))) (with_priority p c1)).
  assert (tcbs k3 !! h = Some c3) as H3 by (unfold k3, link_item; cbn; by rewrite lookup_insert_eq).
  assert (forall y, y <> h -> tcbs k3 !! y = tcbs k !! y) as Hy.
  { intros y Hy. unfold k3, link_item, k2, k1, unlink_item. cbn. by rewrite !lookup_insert_ne. }
  exists k3, c3. split_and!; try done.
  - apply link_kwf; try done. by rewrite <- Permutation_cons_append.
  - intros y x Hx. destruct (decide (y = h)) as [-> |]; [rewrite H3 in Hx; by injection Hx as <- | rewrite Hy in Hx by done; by apply (Hp y)].
  - split; try done.
    + intros x Hx. rewrite Hh in Hx. injection Hx as <-. by exists c3.
    + intros m Hm. unfold k3, link_item, k2, k1, unlink_item. cbn.
      assert (m <> g) by (intros ->; pose proof (k_kind k Hk h c generic_item _ Hh Hg); congruence).
      rewrite !fn_lookup_insert_ne; [done | congruence | intros <-; done].
  - by exists c3, p.
Qed.

(** The holder of a mutex inherits the priority of the running task, if that is
    higher. *)
Lemma vTaskPriorityInherit_run h c cur k : kwf k -> placed k -> tcbs k !! h = Some c -> current_tcb k = Ret (cur, k) ->
  exists k' c', vTaskPriorityInherit (Some h) k = Ret (tt, k') /\ kwf k' /\ placed k' /\ only_task h k k' /\
    (is_ready k' h <-> is_ready k h) /\ tcbs k' !! h = Some c' /\ uxPriority c' = Z.max (uxPriority c) (uxPriority cur) /\
    uxMutexesHeld c' = uxMutexesHeld c.
Proof.
  intros Hk Hp Hh Hcur. unfold vTaskPriorityInherit. erewrite run_bind by (by apply get_tcb_run).
  erewrite run_bind by done. unfold when at 1. destruct (Z.ltb_spec (uxPriority c) (uxPriority cur)) as [Hlt | Hge].
  2:{ exists k, c. split_and!; try done. lia. }
  set (b := _ =? 0). set (c1 := if b then with_item event_item (mkItem (wrap_u 32 (configMAX_PRIORITIES - uxPriority cur)) (container (item_of_kind event_item c))) c else c).
  set (k1 := if b then set_tcbs (<[h := c1]> (tcbs k)) k else k).
  assert (when b (listSET_LIST_ITEM_VALUE event_item h (configMAX_PRIORITIES - uxPriority cur)) k = Ret (tt, k1)) as Hw.
  { unfold k1, c1, when, listSET_LIST_ITEM_VALUE. destruct b; [| done]. by rewrite (update_tcb_run h c _ k Hh). }
  assert (tcbs k1 !! h = Some c1) as H1 by (unfold k1, c1; destruct b; [cbn; by rewrite lookup_insert_eq | done]).
  assert (kwf k1) as Hk1 by (unfold k1, c1; destruct b; [apply (kwf_set h c); try done; by intros [] | done]).
  assert (placed k1) as Hp1 by (unfold k1, c1; destruct b; [by apply (placed_set h c) | done]).
  assert (only_task h k k1) as Ho1 by (unfold k1; destruct b; [by apply (only_task_update h c (fun _ => c1)) | done]).
  assert (xGenericListItem c1 = xGenericListItem c /\ uxPriority c1 = uxPriority c /\ uxMutexesHeld c1 = uxMutexesHeld c /\
    xCoreID c1 = xCoreID c /\ uxBasePriority c1 = uxBasePriority c) as (Eg & Ep & Em & Ec & Eb)
    by (unfold c1; by destruct b).
  erewrite run_bind by done. case_bool_decide as Hr.
  - destruct (change_priority_run h c1 (uxPriority cur) k1 Hk1 Hp1 H1) as (k' & c' & Hrun & ? & ? & ? & ? & ? & ? & ?).
    exists k', c'. split_and!; try done; [by etrans | | lia | congruence].
    split; [intros _ | done]. exists c, (uxPriority c). done.
  - erewrite update_tcb_run by done. do 2 eexists. split; [done |].
    split_and!; [by apply (kwf_set h c1); [| | | intros []] | by apply (placed_set h c1) | | | cbn; by apply lookup_insert_eq | cbn; lia | done].
    + etrans; [done | by apply only_task_update].
    + unfold is_ready. cbn. rewrite lookup_insert_eq, Hh.
      split; intros (x & p & [= <-] & E); eexists _, p; (split; [done |]); cbn in *; congruence.
Qed.

(** A mutex is given back: the count goes down, and with the last one the
    priority goes back to the base priority. *)
Lemma xTaskPriorityDisinherit_run h c k : kwf k -> placed k -> tcbs k !! h = Some c -> 0 < uxMutexesHeld c < 2 ^ 32 ->
  exists b k' c', xTaskPriorityDisinherit (Some h) k = Ret (b, k') /\ kwf k' /\ placed k' /\ only_task h k k' /\
    (is_ready k h -> is_ready k' h) /\ tcbs k' !! h = Some c' /\ uxMutexesHeld c' = uxMutexesHeld c - 1 /\
    uxPriority c' = (if uxMutexesHeld c =? 1 then uxBasePriority c else uxPriority c).
Proof.
  intros Hk Hp Hh Hn. unfold xTaskPriorityDisinherit. erewrite run_bind by (by apply get_tcb_run).
  assert (uxMutexesHeld c =? 0 = false) as En by (apply Z.eqb_neq; lia). rewrite En.
  erewrite run_bind by done. rewrite wrap_u_small by lia.
  set (c1 := with_mutexes (uxMutexesHeld c - 1) c).
  set (k1 := set_tcbs (<[h := c1]> (tcbs k)) k).
  rewrite (run_bind _ _ k tt k1) by (exact (update_tcb_run h c _ k Hh)).
  assert (tcbs k1 !! h = Some c1) as H1 by (unfold k1; cbn; by rewrite lookup_insert_eq).
  assert (kwf k1) as Hk1 by (apply (kwf_set h c); try done; by intros []).
  assert (placed k1) as Hp1 by (by apply (placed_set h c)).
  assert (only_task h k k1) as Ho1 by (apply (only_task_update h c (fun _ => c1)); try done; cbn; lia).
  assert (is_ready k h -> is_ready k1 h) as Hr1.
  { intros (x & p & Hx & E). rewrite Hh in Hx. injection Hx as <-. by exists c1, p. }
  erewrite run_bind by (by apply get_tcb_run).
  change (uxPriority c1) with (uxPriority c). change (uxBasePriority c1) with (uxBasePriority c).
  change (uxMutexesHeld c1) with (uxMutexesHeld c - 1).
  replace (uxMutexesHeld c - 1 =? 0) with (uxMutexesHeld c =? 1) by (destruct (Z.eqb_spec (uxMutexesHeld c) 1), (Z.eqb_spec (uxMutexesHeld c - 1) 0); lia).
  destruct (Z.eqb_spec (uxMutexesHeld c) 1) as [E1 | E1].
  2:{ rewrite andb_false_r. by exists false, k1, c1. }
  rewrite andb_true_r. destruct (Z.eqb_spec (uxPriority c) (uxBasePriority c)) as [Ep | Ep]; cbn [negb].
  { exists false, k1, c1. split_and!; done. }
  (* the three moves, with the event item's value in between *)
  destruct (Hp1 h c1 H1) as (g & Hg).
  erewrite run_bind by (by apply list_remove_run).
  set (k2 := unlink_item generic_item h c1 g k1).
  set (c2 := with_item generic_item (mkItem (item_value (xGenericListItem c1)) None) c1).
  assert (tcbs k2 !! h = Some c2) as H2 by (unfold k2, unlink_item; cbn; by rewrite lookup_insert_eq).
  set (c3 := with_priority (uxBasePriority c) c2).
  set (k3 := set_tcbs (<[h := c3]> (tcbs k2)) k2).
  rewrite (run_bind _ _ k2 tt k3) by (exact (update_tcb_run h c2 _ k2 H2)).
  assert (tcbs k3 !! h = Some c3) as H3 by (unfold k3; cbn; by rewrite lookup_insert_eq).
  set (c4 := with_item event_item (mkItem (wrap_u 32 (configMAX_PRIORITIES - uxBasePriority c)) (container (item_of_kind event_item c3))) c3).
  set (k4 := set_tcbs (<[h := c4]> (tcbs k3)) k3).
  rewrite (run_bind _ _ k3 tt k4) by (exact (update_tcb_run h c3 _ k3 H3)).
  assert (tcbs k4 !! h = Some c4) as H4 by (unfold k4; cbn; by rewrite lookup_insert_eq).
  assert (kwf k4) as Hk4.
  { apply (kwf_set h c3); try done; [| by intros []]. apply (kwf_set h c2); try done; first [by apply unlink_kwf | by intros []]. }
  destruct (prvAddTaskToReadyList_run k4 h c4 Hk4 H4 eq_refl) as (k5 & Hr5 & Hk5 & Hf5 & Hre5 & Hy5 & He5 & Hm5 & _).
  destruct (f_tcb _ _ Hf5 h c4 H4) as (c5 & H5 & Hp5 & Hc5 & Hb5 & Hmu5 & _).
  assert (forall y, y <> h -> tcbs k5 !! y = tcbs k1 !! y) as Hy.
  { intros y Hne. rewrite Hy5 by done. unfold k4, k3, k2, unlink_item. cbn. by rewrite !lookup_insert_ne. }
  exists true, k5, c5. erewrite run_bind by done. split_and!; try done.
  - intros y x Hx. destruct (decide (y = h)) as [-> | Hne]; [| rewrite Hy in Hx by done; by apply (Hp1 y)].
    destruct Hre5 as (x' & p' & Hx' & E). rewrite Hx' in Hx. injection Hx as <-. by eexists.
  - etrans; [done |]. destruct Hf5. split; try done.
    + intros x Hx. rewrite H1 in Hx. injection Hx as <-. exists c5. split_and!; try done; [by rewrite (He5 c5 H5) | rewrite Hmu5; cbn; lia].
    + intros m Hm. rewrite Hm5 by (intros ->; done). unfold k4, k3, k2, unlink_item. cbn.
      rewrite fn_lookup_insert_ne; [done |]. intros <-.
      pose proof (k_kind k1 Hk1 h c1 generic_item _ H1 Hg). congruence.
Qed.

(** The running task counts a mutex it has taken. *)
Lemma pvTaskIncrementMutexHeldCount_run t c k : kwf k -> placed k -> pxCurrentTCB k (xPortGetCoreID k) = Some t ->
  tcbs k !! t = Some c ->
  exists k', pvTaskIncrementMutexHeldCount k = Ret (Some t, k') /\ kwf k' /\ placed k' /\ only_task t k k' /\
    (is_ready k' t <-> is_ready k t) /\ tcbs k' !! t = Some (with_mutexes (wrap_u 32 (uxMutexesHeld c + 1)) c).
Proof.
  intros Hk Hp Hcur Ht. unfold pvTaskIncrementMutexHeldCount. erewrite run_bind by done. rewrite Hcur.
  set (c1 := with_mutexes (wrap_u 32 (uxMutexesHeld c + 1)) c). set (k1 := set_tcbs (<[t := c1]> (tcbs k)) k).
  rewrite (run_bind _ _ k tt k1) by (exact (update_tcb_run t c _ k Ht)).
  exists k1. split_and!; try done.
  - apply (kwf_set t c); done.
  - by apply (placed_set t c).
  - apply (only_task_update t c (fun _ => c1)); try done. intros _. apply wrap_u_range. lia.
  - unfold is_ready. cbn. rewrite lookup_insert_eq, Ht. split; intros (x & p & [= <-] & E); eexists _, p; done.
  - cbn. by rewrite lookup_insert_eq.
Qed.

(** ** Making a task ready *)

(** [t] became ready and waits for nothing; nothing else moved. *)
Record readied (t : Z) (k k' : kernel) : Prop := {
  r_kwf : kwf k'; r_frame : frame k k'; r_ready : is_ready k' t;
  r_tcbs y : y <> t -> tcbs k' !! y = tcbs k !! y;
  r_event c : tcbs k' !! t = Some c -> container (xEventListItem c) = None;
  r_lists m : kind_of m = event_item -> klists k' m = remove_item t (klists k m);
  r_generic m : kind_of m = generic_item -> (forall p, m <> pxReadyTasksLists p) -> klists k' m = remove_item t (klists k m) }.

(** Off an event list, if it is on one. *)
Definition unlink_event (t : Z) : K unit :=
  c ← get_tcb t; if container (xEventListItem c) then (list_remove event_item t;; mret tt) else mret tt.

Lemma remove_item_not_in k i t c l m : kwf k -> tcbs k !! t = Some c -> container (item_of_kind i c) = l ->
  kind_of m = i -> l <> Some m -> remove_item t (klists k m) = klists k m.
Proof.
  intros Hk Ht Hc Hm Hne. apply remove_item_notin. intros (x & Hx & E)%(k_in k Hk). rewrite Ht in Hx. injection Hx as <-.
  rewrite Hm in E. congruence.
Qed.

Lemma unlink_event_run k t c : kwf k -> tcbs k !! t = Some c ->
  exists k' c', unlink_event t k = Ret (tt, k') /\ kwf k' /\ frame k k' /\ tcbs k' !! t = Some c' /\
    container (xEventListItem c') = None /\ xGenericListItem c' = xGenericListItem c /\
    (forall y, y <> t -> tcbs k' !! y = tcbs k !! y) /\
    (forall m, kind_of m = event_item -> klists k' m = remove_item t (klists k m)) /\
    (forall m, kind_of m = generic_item -> klists k' m = klists k m).
Proof.
  intros Hk Ht. unfold unlink_event. erewrite run_bind by (by apply get_tcb_run).
  destruct (container (xEventListItem c)) as [l |] eqn:E.
  - erewrite run_bind by (by apply list_remove_run). eexists (unlink_item event_item t c l k), _. split; [done |].
    assert (kind_of l = event_item) as Hl by (by apply (k_kind k Hk t c event_item)).
    split_and!; [by apply unlink_kwf | by apply frame_unlink | unfold unlink_item; cbn; by rewrite lookup_insert_eq | done | done | | |].
    + intros y Hy. unfold unlink_item. cbn. by rewrite lookup_insert_ne.
    + intros m Hm. unfold unlink_item. cbn. destruct (decide (m = l)) as [-> | Hne]; [by rewrite fn_lookup_insert |].
      rewrite fn_lookup_insert_ne by done. symmetry. apply (remove_item_not_in k event_item t c (Some l)); try done. congruence.
    + intros m Hm. unfold unlink_item. cbn. rewrite fn_lookup_insert_ne; [done | congruence].
  - exists k, c. split_and!; try done. intros m Hm. symmetry. by apply (remove_item_not_in k event_item t c None).
Qed.

Lemma make_ready_readied k t c : kwf k -> tcbs k !! t = Some c -> is_Some (container (xGenericListItem c)) ->
  container (xEventListItem c) = None -> exists k', make_ready t k = Ret (tt, k') /\ readied t k k'.
Proof.
  intros Hk Ht (g & Hg) He. destruct (make_ready_run k t c Hk Ht (mk_is_Some _ _ Hg)) as (k' & Hr & Hk' & Hf & Hre & Hy & Hev & Hm).
  exists k'. split; [done |]. split; try done.
  - intros x Hx. by rewrite (Hev x Hx).
  - intros m Hm'. rewrite Hm by done. symmetry. by apply (remove_item_not_in k event_item t c None).
  - intros m Hm' Hne. unfold make_ready in Hr. erewrite run_bind in Hr by (by apply list_remove_run).
    destruct (prvAddTaskToReadyList_run (unlink_item generic_item t c g k) t
      (with_item generic_item (mkItem (item_value (xGenericListItem c)) None) c)) as (k2 & Hr2 & _ & _ & _ & _ & _ & Hm2 & _);
      [by apply unlink_kwf | unfold unlink_item; cbn; by rewrite lookup_insert_eq | done |].
    rewrite Hr2 in Hr. injection Hr as <-. rewrite Hm2 by done. unfold unlink_item. cbn.
    destruct (decide (m = g)) as [-> | Hmg]; [by rewrite fn_lookup_insert |].
    rewrite fn_lookup_insert_ne by done. symmetry. apply (remove_item_not_in k generic_item t c (Some g)); try done. congruence.
Qed.

Lemma remove_item_twice t l : remove_item t (remove_item t l) = remove_item t l.
Proof. apply remove_item_notin. rewrite elem_of_remove_item. tauto. Qed.

(** First the event list, then the other. *)
Lemma readied_after_event k k1 k' t : frame k k1 -> (forall y, y <> t -> tcbs k1 !! y = tcbs k !! y) ->
  (forall m, kind_of m = event_item -> klists k1 m = remove_item t (klists k m)) ->
  (forall m, kind_of m = generic_item -> klists k1 m = klists k m) -> readied t k1 k' -> readied t k k'.
Proof.
  intros Hf Hy Hm Hg []. split; try done.
  - by etrans.
  - intros y Hne. by rewrite r_tcbs0, Hy.
  - intros m Hm'. by rewrite r_lists0, Hm, remove_item_twice.
  - intros m Hm' Hne. by rewrite r_generic0, Hg.
Qed.

Lemma event_then_ready_run k t c : kwf k -> tcbs k !! t = Some c -> is_Some (container (xGenericListItem c)) ->
  is_Some (container (xEventListItem c)) ->
  exists k', (list_remove event_item t;; list_remove generic_item t;; prvAddTaskToReadyList t) k = Ret (tt, k') /\ readied t k k'.
Proof.
  intros Hk Ht Hg (l & He). destruct (unlink_event_run k t c Hk Ht) as (k1 & c1 & Hr & Hk1 & Hf & Ht1 & He1 & Hg1 & Hy & Hm & Hm').
  unfold unlink_event in Hr. erewrite run_bind in Hr by (by apply get_tcb_run). rewrite He in Hr.
  erewrite run_bind in Hr by (by apply list_remove_run). injection Hr as Hr.
  erewrite run_bind by (by apply list_remove_run). rewrite Hr.
  destruct (make_ready_readied k1 t c1 Hk1 Ht1) as (k' & Hr' & Hre); [by rewrite Hg1 | done |].
  exists k'. split; [exact Hr' |]. by eapply readied_after_event.
Qed.

(** First the other list, then the event list, as the tick does. *)
Lemma unblock_run k t c : kwf k -> tcbs k !! t = Some c -> is_Some (container (xGenericListItem c)) ->
  exists k', (list_remove generic_item t;;
     (if container (xEventListItem c) then (list_remove event_item t;; mret tt) else mret tt);;
     prvAddTaskToReadyList t) k = Ret (tt, k') /\ readied t k k'.
Proof.
  intros Hk Ht (g & Hg). pose proof (k_kind k Hk t c generic_item g Ht Hg) as Hgk.
  erewrite run_bind by (by apply list_remove_run).
  set (k1 := unlink_item generic_item t c g k).
  set (c1 := with_item generic_item (mkItem (item_value (xGenericListItem c)) None) c).
  assert (kwf k1) as Hk1 by (by apply unlink_kwf).
  assert (tcbs k1 !! t = Some c1) as Ht1 by (unfold k1, unlink_item; cbn; by rewrite lookup_insert_eq).
  destruct (unlink_event_run k1 t c1 Hk1 Ht1) as (k2 & c2 & Hr2 & Hk2 & Hf2 & Ht2 & He2 & Hg2 & Hy2 & Hm2 & Hm2').
  unfold unlink_event in Hr2. erewrite run_bind in Hr2 by (by apply get_tcb_run).
  change (xEventListItem c1) with (xEventListItem c) in Hr2. erewrite run_bind by exact Hr2.
  destruct (prvAddTaskToReadyList_run k2 t c2 Hk2 Ht2) as (k' & Hr & Hk' & Hf & Hre & Hy & He & Hm & _); [by rewrite Hg2 |].
  exists k'. split; [done |].
  assert (forall m, m <> g -> klists k1 m = klists k m) as Hl1 by (intros; unfold k1, unlink_item; cbn; by rewrite fn_lookup_insert_ne).
  split; try done.
  - etrans; [by apply frame_unlink | by etrans].
  - intros y Hne. rewrite Hy, Hy2 by done. unfold k1, unlink_item. cbn. by rewrite lookup_insert_ne.
  - intros x Hx. by rewrite (He x Hx).
  - intros m Hm'. rewrite Hm by (intros ->; done). rewrite Hm2, Hl1; [done | congruence | done].
  - intros m Hm' Hne. rewrite Hm, Hm2' by done. destruct (decide (m = g)) as [-> | Hmg].
    + unfold k1, unlink_item. cbn. by rewrite fn_lookup_insert.
    + rewrite Hl1 by done. symmetry. apply (remove_item_not_in k generic_item t c (Some g)); try done. congruence.
Qed.

Lemma readied_placed t k k' : placed k -> readied t k k' -> placed k'.
Proof.
  intros Hp [] y c Hc. destruct (decide (y = t)) as [-> | Hne]; [| rewrite r_tcbs0 in Hc by done; by apply (Hp y)].
  destruct r_ready0 as (x & p & Hx & E). rewrite Hx in Hc. injection Hc as <-. by eexists.
Qed.

Lemma readied_quiet t k k' : kwf k -> quiet k -> readied t k k' -> quiet k'.
Proof. intros Hk Hq []. apply (quiet_step t k k'); auto. Qed.

(** ** Awake tasks *)

(** A task that may run, now or when the scheduler of a core is resumed. *)
Definition awake (k : kernel) (t : Z) : Prop := is_ready k t \/ exists core, t ∈ klists k (xPendingReadyList core).

Lemma awake_not_waiting k l t : kwf k -> quiet k -> wait_list l -> awake k t -> t ∉ klists k l.
Proof.
  intros Hk Hq [Hl Hlp] Ha Hin. destruct Ha as [Hr | (core & Hin')]; [by apply (Hq l t Hl) |].
  apply (k_in k Hk) in Hin as (c & Hc & E). apply (k_in k Hk) in Hin' as (c' & Hc' & E'). rewrite Hl in E. cbn in E'.
  rewrite Hc in Hc'. injection Hc' as <-. cbn in E. apply (Hlp core). congruence.
Qed.

Lemma awake_same k k' t : kwf k -> kwf k' -> tcbs k' !! t = tcbs k !! t -> awake k t -> awake k' t.
Proof.
  intros Hk Hk' E [(c & p & Hc & Hp) | (core & Hin)]; [left; exists c, p; by rewrite E | right; exists core].
  apply (k_in k' Hk'). rewrite E. by apply (k_in k Hk).
Qed.

Lemma awake_readied t k k' y : kwf k -> readied t k k' -> awake k y -> awake k' y.
Proof.
  intros Hk [] Ha. destruct (decide (y = t)) as [-> | Hne]; [by left |]. apply (awake_same k); auto.
Qed.

(** * A kernel with two tasks *)

(** Two tasks of priority 5 run, one on each core; [held] mutexes belong to the
    first. *)
Definition ready_tcb (core held : Z) : TCB_t :=
  mkTCB (mkItem 0 (Some (pxReadyTasksLists 5))) (mkItem (configMAX_PRIORITIES - 5) None) 5 core 5 held.
Definition two_tasks (held : Z) (qs : gmap Z Queue_t) (gs : gmap Z EventGroup_t) : kernel :=
  mkKernel (<[1 := ready_tcb 0 held]> {[2 := ready_tcb 1 0]}) (<[pxReadyTasksLists 5 := [1; 2]]> (fun _ => []))
    true (fun core => if core =? 0 then Some 1 else Some 2) 0 (fun _ => 0) true 2 0 0 0 portMAX_DELAY (fun _ => false) [] qs gs true.

Lemma two_tasks_tcb held qs gs t c : tcbs (two_tasks held qs gs) !! t = Some c ->
  t = 1 /\ c = ready_tcb 0 held \/ t = 2 /\ c = ready_tcb 1 0.
Proof.
  cbn. destruct (decide (t = 1)) as [-> |].
  - rewrite lookup_insert_eq. intros [= <-]. by left.
  - rewrite lookup_insert_ne by done. intros [-> <-]%lookup_singleton_Some. by right.
Qed.
Lemma two_tasks_1 held qs gs : tcbs (two_tasks held qs gs) !! 1 = Some (ready_tcb 0 held).
Proof. cbn. apply lookup_insert_eq. Qed.
Lemma two_tasks_2 held qs gs : tcbs (two_tasks held qs gs) !! 2 = Some (ready_tcb 1 0).
Proof. cbn. rewrite lookup_insert_ne by done. apply lookup_singleton_eq. Qed.

Lemma two_tasks_kwf held qs gs : kwf (two_tasks held qs gs).
Proof.
  split.
  - intros l t. split.
    + intros Hin. cbn in Hin. destruct (decide (l = pxReadyTasksLists 5)) as [-> |].
      * rewrite fn_lookup_insert, elem_of_cons, list_elem_of_singleton in Hin. destruct Hin as [-> | ->].
        -- exists (ready_tcb 0 held). by rewrite two_tasks_1.
        -- exists (ready_tcb 1 0). by rewrite two_tasks_2.
      * rewrite fn_lookup_insert_ne in Hin by done. by apply elem_of_nil in Hin.
    + intros (c & Hc & E). apply two_tasks_tcb in Hc as [[-> ->] | [-> ->]];
        destruct (kind_of l); cbn in E; injection E as <- || discriminate E; cbn; rewrite fn_lookup_insert; set_solver.
  - intros t c i l Hc E. apply two_tasks_tcb in Hc as [[-> ->] | [-> ->]]; destruct i; cbn in E; by simplify_eq.
  - intros l. cbn. destruct (decide (l = pxReadyTasksLists 5)) as [-> |].
    + rewrite fn_lookup_insert. repeat constructor; set_solver.
    + rewrite fn_lookup_insert_ne by done. constructor.
  - by left.
  - intros core [-> | ->]; cbn -[tcbs]; eexists _, _; (split; [done |]); [apply (two_tasks_1 held qs gs) | apply (two_tasks_2 held qs gs)].
  - intros t c Hc. apply two_tasks_tcb in Hc as [[-> ->] | [-> ->]]; unfold affinity_ok; cbn; tauto.
Qed.

Lemma two_tasks_placed held qs gs : placed (two_tasks held qs gs).
Proof. intros t c Hc. apply two_tasks_tcb in Hc as [[-> ->] | [-> ->]]; cbn; eauto. Qed.

Lemma two_tasks_quiet held qs gs : quiet (two_tasks held qs gs).
Proof.
  intros l t Hl Hin. cbn in Hin. destruct (decide (l = pxReadyTasksLists 5)) as [-> |]; [done |].
  rewrite fn_lookup_insert_ne in Hin by done. by apply elem_of_nil in Hin.
Qed.
