(* ===== verification/FreeRtosSwitch.v ===== *)
(** The choice of the task to run (vTaskSwitchContext of
    src/ESP32/components/freertos/tasks.c), on the ready lists as list.c keeps
    them: the walk over each list with its index, the tasks it has to skip
    because the other core runs them or they are pinned to it, and the bound
    uxTopReadyPriority. *)

From S2P Require Import Prelude FreeRtosList FreeRtosTasks.

(** * The code *)

(** What the choice reads and writes; a TCB is the owner of its list item. *)
Record sched := mkSched {
  ls : lists;
  xCoreID : Z -> Z;                       (* the affinity of a task *)
  pxCurrentTCB : Z -> Z;
  uxTopReadyPriority : Z;
  xPortGetCoreID : Z;
  uxSchedulerSuspended : Z -> Z;
  xYieldPending : Z -> bool;
  marker_word : bool }.                   (* whether the word behind the marker of a list can be read *)

Definition set_ls v s := mkSched v (xCoreID s) (pxCurrentTCB s) (uxTopReadyPriority s) (xPortGetCoreID s) (uxSchedulerSuspended s) (xYieldPending s) (marker_word s).
Definition set_current v s := mkSched (ls s) (xCoreID s) v (uxTopReadyPriority s) (xPortGetCoreID s) (uxSchedulerSuspended s) (xYieldPending s) (marker_word s).
Definition set_top v s := mkSched (ls s) (xCoreID s) (pxCurrentTCB s) v (xPortGetCoreID s) (uxSchedulerSuspended s) (xYieldPending s) (marker_word s).
Definition set_yield_pending v s := mkSched (ls s) (xCoreID s) (pxCurrentTCB s) (uxTopReadyPriority s) (xPortGetCoreID s) (uxSchedulerSuspended s) v (marker_word s).

(** The loop over the cores: another one runs the task. *)
Definition runs_elsewhere (s : sched) (pxTCB : Z) : bool :=
  existsb (fun i => negb (i =? xPortGetCoreID s) && (pxCurrentTCB s i =? pxTCB)) (seqZ 0 portNUM_PROCESSORS).

(** ableToSchedule, for a task the walk has come to. *)
Definition can_run (s : sched) (pxTCB : Z) : bool :=
  negb (runs_elsewhere s pxTCB) && ((xCoreID s pxTCB =? tskNO_AFFINITY) || (xCoreID s pxTCB =? xPortGetCoreID s)).

(** The loop that takes the index back to where the walk began. *)
Fixpoint reset_loop (fuel : nat) (L pxRefTCB : Z) (l : lists) : res lists :=
  match fuel with
  | O => Fault OutOfFuel
  | S fuel =>
      r ← listGET_OWNER_OF_NEXT_ENTRY L l;
      let '(pxResetTCB, l) := r in
      if pxResetTCB =? pxRefTCB then Ret l else reset_loop fuel L pxRefTCB l
  end.

(** The loop over one list: whether a task was found, holdTop, the state. *)
Fixpoint inspect (fuel : nat) (L pxRefTCB : Z) (resetListHead holdTop : bool) (s : sched) : res (bool * bool * sched) :=
  match fuel with
  | O => Fault OutOfFuel
  | S fuel =>
      r ← listGET_OWNER_OF_NEXT_ENTRY L (ls s);
      let '(pxTCB, l) := r in
      let s := set_ls l s in
      if can_run s pxTCB then
        let s := set_current (<[xPortGetCoreID s := pxTCB]> (pxCurrentTCB s)) s in
        if resetListHead
        then l ← reset_loop (S (Z.to_nat (uxNumberOfItems (ls s) L))) L pxRefTCB (ls s); Ret (true, holdTop, set_ls l s)
        else Ret (true, holdTop, s)
      else if pxTCB =? pxRefTCB then Ret (false, true, s)
      else inspect fuel L pxRefTCB true true s
  end.

(** The task the index is on; from the marker it moves to the head first.  The
    code reads pvOwner behind the index before it tests for the marker, and the
    marker, a MiniListItem_t, ends before that field. *)
Definition first_task (L : Z) (s : sched) : res (Z * sched) :=
  if pxIndex (ls s) L =? L
  then if negb (marker_word s) then Fault OutOfBounds else r ← listGET_OWNER_OF_NEXT_ENTRY L (ls s); let '(o, l) := r in Ret (o, set_ls l s)
  else Ret (pvOwner (ls s) (pxIndex (ls s) L), s).

Section switch.
(** The addresses of the ready lists. *)
Context (pxReadyTasksLists : Z -> Z).

(** The loop over the priorities, from [n - 1] down. *)
Fixpoint search (n : nat) (holdTop : bool) (s : sched) : res sched :=
  match n with
  | O => Ret s
  | S n =>
      let L := pxReadyTasksLists (Z.of_nat n) in
      if listLIST_IS_EMPTY L (ls s)
      then search n holdTop (if holdTop then s else set_top (wrap_u 32 (uxTopReadyPriority s - 1)) s)
      else
        r ← first_task L s;
        let '(pxRefTCB, s) := r in
        r ← inspect (S (Z.to_nat (uxNumberOfItems (ls s) L))) L pxRefTCB false holdTop s;
        let '(ableToSchedule, holdTop, s) := r in
        if (ableToSchedule : bool) then Ret s else search n holdTop s
  end.

Definition vTaskSwitchContext (s : sched) : res sched :=
  if negb (uxSchedulerSuspended s (xPortGetCoreID s) =? 0)
  then Ret (set_yield_pending (<[xPortGetCoreID s := true]> (xYieldPending s)) s)
  else
    let s := set_yield_pending (<[xPortGetCoreID s := false]> (xYieldPending s)) s in
    search (Z.to_nat (wrap_s 32 (uxTopReadyPriority s) + 1)) false s.

(** The ready lists in prvInitialiseTaskLists. *)
Definition prvInitialiseTaskLists (s : sched) : sched :=
  set_ls (foldl (fun l uxPriority => vListInitialise (pxReadyTasksLists uxPriority) l) (ls s) (seqZ 0 configMAX_PRIORITIES)) s.

(** taskRECORD_READY_PRIORITY and the insertion of prvAddTaskToReadyList. *)
Definition prvAddTaskToReadyList (pxItem uxPriority : Z) (s : sched) : sched :=
  let s := if uxTopReadyPriority s <? uxPriority then set_top uxPriority s else s in
  set_ls (vListInsertEnd (pxReadyTasksLists uxPriority) pxItem (ls s)) s.

(** * The ready lists *)

Hypothesis addresses : forall p q, 0 <= p < configMAX_PRIORITIES -> 0 <= q < configMAX_PRIORITIES ->
  pxReadyTasksLists p = pxReadyTasksLists q -> p = q.

(** At every priority [items p], the index at [ix p]; the tasks differ; nothing
    is ready above the bound. *)
Record ready_ok (items : Z -> list Z) (ix : Z -> Z) (s : sched) : Prop := {
  ro_list p : 0 <= p < configMAX_PRIORITIES -> list_ok (ls s) (pxReadyTasksLists p) (items p) (ix p);
  ro_owner p : 0 <= p < configMAX_PRIORITIES -> NoDup (map (pvOwner (ls s)) (items p));
  ro_marker p q : 0 <= p < configMAX_PRIORITIES -> 0 <= q < configMAX_PRIORITIES -> pxReadyTasksLists p ∉ items q;
  ro_top p : uxTopReadyPriority s < p < configMAX_PRIORITIES -> items p = [];
  ro_range : 0 <= uxTopReadyPriority s < configMAX_PRIORITIES;
  ro_word : marker_word s = true }.

(** The order in which a walk from the index [ix] comes to the items of a list: the
    marker counts as the first item. *)
Fixpoint split_behind (x : Z) (l : list Z) : list Z * list Z :=
  match l with
  | [] => ([], [])
  | y :: l => if y =? x then ([y], l) else let '(a, b) := split_behind x l in (y :: a, b)
  end.
Definition walk_order (L ix : Z) (l : list Z) : list Z :=
  let '(a, b) := split_behind (if ix =? L then hd L l else ix) l in b ++ a.

(** [r] is the list [l] as seen from a point of the ring. *)
Definition rotation (r l : list Z) : Prop := exists l1 l2, l = l1 ++ l2 /\ r = l2 ++ l1.

Lemma next_behind (L : Z) l1 y z l2 : NoDup (L :: l1 ++ y :: z :: l2) -> next_index L y (l1 ++ y :: z :: l2) = z.
Proof.
  intros Hd. pose proof (next_index_mid L (l1 ++ [y]) z l2) as H. rewrite List.last_last, <- app_assoc in H. by apply H.
Qed.

Lemma next_in_rotation (L : Z) l r y z a b : NoDup (L :: l) -> rotation r l -> r = a ++ y :: z :: b -> next_index L y l = z.
Proof.
  intros Hd (l1 & l2 & -> & ->) E. symmetry in E. apply app_eq_app in E as (k & [[-> ->] | [-> E]]).
  - rewrite <- app_assoc in *. by apply (next_behind L k y z).
  - destruct k as [| y' [| z' k]]; cbn in E.
    + subst l1. by apply (next_behind L [] y z).
    + injection E as -> <-.
      pose proof (next_index_wrap L _ Hd) as H. rewrite app_assoc, List.last_last in H. rewrite app_assoc. exact H.
    + injection E as -> -> ->. rewrite app_assoc in *. by apply (next_behind L (l1 ++ a) y' z').
Qed.

(** Behind the last comes the first. *)
Lemma next_behind_last (L d : Z) l r : NoDup (L :: l) -> rotation r l -> r <> [] -> next_index L (List.last r d) l = hd L r.
Proof.
  intros Hd (l1 & l2 & -> & ->) Hne. destruct l1 as [| x1 l1 _] using rev_ind.
  - cbn [app] in *. rewrite app_nil_r in *. pose proof (next_index_wrap L l2 Hd) as H.
    destruct (exists_last Hne) as (l0 & z & ->). by rewrite List.last_last in *.
  - rewrite app_assoc, List.last_last. destruct l2 as [| z l2].
    + rewrite app_nil_r in *. pose proof (next_index_wrap L _ Hd) as H. by rewrite List.last_last in H.
    + rewrite <- app_assoc in *. by apply (next_behind L l1 x1 z).
Qed.

Definition lists_at (l : lists) (items : Z -> list Z) (ix : Z -> Z) : Prop :=
  forall p, 0 <= p < configMAX_PRIORITIES -> list_ok l (pxReadyTasksLists p) (items p) (ix p).

(** One step of a walk moves one index. *)
Lemma next_entry_at l items ix p : lists_at l items ix -> 0 <= p < configMAX_PRIORITIES -> items p <> [] ->
  let n := next_index (pxReadyTasksLists p) (ix p) (items p) in
  exists l', listGET_OWNER_OF_NEXT_ENTRY (pxReadyTasksLists p) l = Ret (pvOwner l n, l') /\
    lists_at l' items (<[p := n]> ix) /\ (forall y, pvOwner l' y = pvOwner l y).
Proof.
  intros Hl Hp Hne0 n. destruct (next_entry_ok _ _ _ _ (Hl p Hp) Hne0) as (l' & E & Hok & Ho & Ho2 & Ho3 & Ho4).
  exists l'. split; [exact E |]. split; [| done]. intros q Hq. destruct (decide (q = p)) as [-> | Hne].
  - by rewrite fn_lookup_insert.
  - rewrite fn_lookup_insert_ne by done.
    assert (pxReadyTasksLists q <> pxReadyTasksLists p) as Ha by (intros E'; apply Hne; by apply addresses).
    destruct (Ho2 _ Ha) as [Hi Hc]. eapply (list_frame l l'); [| done | done | apply Ho3 | by apply Hl].
    intros y _. unfold listGET_OWNER_OF_NEXT_ENTRY in E. cbv zeta in E. destruct (pxIndex (set_index _ _ l) _ =? _); destruct (get_owner _ _ _); try discriminate E; injection E as _ <-; done.
Qed.

Lemma lists_at_ext l items ix ix' : (forall q, ix q = ix' q) -> lists_at l items ix -> lists_at l items ix'.
Proof. intros E H p Hp. rewrite <- E. by apply H. Qed.

Lemma lists_at_again l items ix p x y : lists_at l items (<[p := y]> (<[p := x]> ix)) -> lists_at l items (<[p := y]> ix).
Proof.
  apply lists_at_ext. intros q. destruct (decide (q = p)) as [-> |]; [by rewrite !fn_lookup_insert | by rewrite !fn_lookup_insert_ne].
Qed.

Lemma rotation_perm r l : rotation r l -> r ≡ₚ l.
Proof. intros (l1 & l2 & -> & ->). apply Permutation_app_comm. Qed.

Lemma find_same {A} (f g : A -> bool) l : (forall x, f x = g x) -> find f l = find g l.
Proof. intros E. induction l as [| x l IH]; [done |]. cbn. by rewrite E, IH. Qed.

(** Another item than the last has another owner. *)
Lemma owner_differs (owner : Z -> Z) a x c e l : rotation (a ++ x :: c ++ [e]) l -> NoDup (map owner l) -> owner x <> owner e.
Proof.
  intros Hr Hd E. apply rotation_perm in Hr. rewrite <- Hr in Hd. rewrite map_app in Hd.
  apply list.NoDup_app in Hd as (_ & _ & Hd). cbn [map] in Hd. apply list.NoDup_cons in Hd as [Hx _].
  apply Hx. rewrite map_app, E. set_solver +.
Qed.

Section walk.
Variables (items : Z -> list Z) (p : Z) (r : list Z) (e : Z).
Hypotheses (Hp : 0 <= p < configMAX_PRIORITIES) (Hrot : rotation r (items p)) (Hitems : items p <> []).
Notation L := (pxReadyTasksLists p).

Lemma next_of_step l ix a x c : lists_at l items ix -> r = a ++ x :: c ++ [e] ->
  next_index L x (items p) = hd L (c ++ [e]).
Proof.
  intros Hl E. destruct (c ++ [e]) as [| z c'] eqn:Ec; [by destruct c |]. cbn [hd].
  eapply next_in_rotation; [apply (Hl p Hp) | exact Hrot | exact E].
Qed.

Lemma reset_ok c : forall fuel a l ix, r = a ++ c ++ [e] ->
  lists_at l items ix -> NoDup (map (pvOwner l) (items p)) ->
  next_index L (ix p) (items p) = hd L (c ++ [e]) -> (length c < fuel)%nat ->
  exists l', reset_loop fuel L (pvOwner l e) l = Ret l' /\
    lists_at l' items (<[p := e]> ix) /\ (forall y, pvOwner l' y = pvOwner l y).
Proof.
  induction c as [| x c IH]; intros [| fuel] a l ix E Hl Hd Hn Hf; cbn [length] in Hf; try lia;
    cbn [reset_loop]; destruct (next_entry_at l items ix p Hl Hp Hitems) as (l1 & E1 & Hl1 & Ho1); rewrite Hn in E1, Hl1;
    cbn [hd app] in E1, Hl1; rewrite E1; cbn [mbind res_bind].
  - rewrite Z.eqb_refl. by exists l1.
  - cbn [app] in E. pose proof Hrot as Hrot'. rewrite E in Hrot'. pose proof (owner_differs (pvOwner l) a x c e _ Hrot' Hd) as Hne. apply Z.eqb_neq in Hne. rewrite Hne.
    destruct (IH fuel (a ++ [x]) l1 (<[p := x]> ix)) as (l2 & E2 & Hl2 & Ho2).
    + rewrite E, <- app_assoc. done.
    + done.
    + erewrite map_ext by apply Ho1. done.
    + rewrite fn_lookup_insert. by eapply next_of_step.
    + lia.
    + exists l2. rewrite Ho1 in E2. split; [exact E2 |]. split; [by eapply lists_at_again | intros y; by rewrite Ho2, Ho1].
Qed.

(** The walk back, from the item the index is on. *)
Lemma reset_from l ix a c : r = a ++ c ++ [e] -> ix p = hd e c ->
  lists_at l items ix -> NoDup (map (pvOwner l) (items p)) ->
  exists l', reset_loop (S (Z.to_nat (uxNumberOfItems l L))) L (pvOwner l e) l = Ret l' /\
    lists_at l' items (<[p := e]> ix) /\ (forall y, pvOwner l' y = pvOwner l y).
Proof.
  intros E Hix Hl Hd. pose proof (Permutation_length (rotation_perm _ _ Hrot)) as Hlen.
  assert (Z.to_nat (uxNumberOfItems l L) = length r) as Hc by (rewrite (ok_count _ _ _ _ (Hl p Hp)), Hlen; unfold zlen; lia).
  rewrite Hc, E, !length_app. destruct c as [| x c]; cbn [hd] in Hix.
  - apply (reset_ok a _ [] l ix); [exact E | done | done | | cbn; lia].
    cbn [app] in E. rewrite Hix, <- E. pose proof (next_behind_last L e _ _ (ok_nodup _ _ _ _ (Hl p Hp)) Hrot) as H.
    rewrite E, List.last_last in H. rewrite <- E in H. apply H. rewrite E. by destruct a.
  - apply (reset_ok c _ (a ++ [x]) l ix); [by rewrite E, <- app_assoc | done | done | | cbn; lia].
    rewrite Hix. by eapply next_of_step.
Qed.

Definition pick (s : sched) (x : Z) : bool := can_run s (pvOwner (ls s) x).

Lemma inspect_ok c : forall fuel a s ix reset hold, r = a ++ c ++ [e] ->
  lists_at (ls s) items ix -> NoDup (map (pvOwner (ls s)) (items p)) ->
  next_index L (ix p) (items p) = hd L (c ++ [e]) -> (length c < fuel)%nat ->
  exists l', lists_at l' items (<[p := if reset || negb (pick s (hd e c)) then e else hd e c]> ix) /\
    (forall y, pvOwner l' y = pvOwner (ls s) y) /\
  match find (pick s) (c ++ [e]) with
  | None => inspect fuel L (pvOwner (ls s) e) reset hold s = Ret (false, true, set_ls l' s)
  | Some t => exists hold', inspect fuel L (pvOwner (ls s) e) reset hold s =
      Ret (true, hold', set_ls l' (set_current (<[xPortGetCoreID s := pvOwner (ls s) t]> (pxCurrentTCB s)) s))
  end.
Proof.
  induction c as [| x c IH]; intros [| fuel] a s ix reset hold E Hl Hd Hn Hf; cbn [length] in Hf; try lia;
    cbn [inspect]; destruct (next_entry_at (ls s) items ix p Hl Hp Hitems) as (l1 & E1 & Hl1 & Ho1); rewrite Hn in E1, Hl1;
    cbn [hd app] in E1, Hl1 |- *; rewrite E1; cbn [mbind res_bind find];
    assert (NoDup (map (pvOwner l1) (items p))) as Hd1 by (by erewrite map_ext by apply Ho1).
  - change (can_run (set_ls l1 s) (pvOwner (ls s) e)) with (pick s e). destruct (pick s e); cbn [negb orb].
    + destruct reset; cbn [orb].
      * destruct (reset_from l1 _ a [] E ltac:(cbn [hd]; apply fn_lookup_insert) Hl1 Hd1) as (l2 & E2 & Hl2 & Ho2).
        exists l2. split; [by eapply lists_at_again |]. split; [intros y; by rewrite Ho2, Ho1 |].
        exists hold. cbn [ls set_ls set_current]. rewrite Ho1 in E2. rewrite E2. done.
      * exists l1. split; [done |]. split; [done |]. by exists hold.
    + exists l1. rewrite orb_true_r, Z.eqb_refl. done.
  - change (can_run (set_ls l1 s) (pvOwner (ls s) x)) with (pick s x). destruct (pick s x); cbn [negb orb].
    + destruct reset; cbn [orb].
      * destruct (reset_from l1 _ a (x :: c) E ltac:(cbn [hd]; apply fn_lookup_insert) Hl1 Hd1) as (l2 & E2 & Hl2 & Ho2).
        exists l2. split; [by eapply lists_at_again |]. split; [intros y; by rewrite Ho2, Ho1 |].
        exists hold. cbn [ls set_ls set_current]. rewrite Ho1 in E2. rewrite E2. done.
      * exists l1. split; [done |]. split; [done |]. by exists hold.
    + cbn [app] in E. pose proof Hrot as Hrot'. rewrite E in Hrot'.
      pose proof (owner_differs (pvOwner (ls s)) a x c e _ Hrot' Hd) as Hne. apply Z.eqb_neq in Hne. rewrite Hne.
      destruct (IH fuel (a ++ [x]) (set_ls l1 s) (<[p := x]> ix) true true) as (l2 & Hl2 & Ho2 & Hi).
      * rewrite E, <- app_assoc. done.
      * done.
      * done.
      * rewrite fn_lookup_insert. by eapply next_of_step.
      * lia.
      * exists l2. rewrite orb_true_r. split; [by eapply lists_at_again |]. cbn [ls set_ls] in Ho2, Hi.
        split; [intros y; by rewrite Ho2, Ho1 |]. rewrite Ho1 in Hi.
        rewrite (find_same (pick s) (pick (set_ls l1 s)))
          by (intros y; unfold pick; cbn [ls set_ls]; by rewrite Ho1).
        destruct (find _ _); [| exact Hi]. rewrite Ho1 in Hi. exact Hi.
Qed.
End walk.

Lemma split_behind_in x l : x ∈ l -> exists a b, split_behind x l = (a ++ [x], b) /\ l = a ++ x :: b.
Proof.
  induction l as [| y l IH]; intros Hx; [by apply elem_of_nil in Hx |]. cbn [split_behind].
  destruct (Z.eqb_spec y x) as [-> | Hne]; [by exists [], l |].
  destruct IH as (a & b & -> & ->); [by apply elem_of_cons in Hx as [|] |]. by exists (y :: a), b.
Qed.

(** Where a walk over a list that is not empty begins and ends. *)
Lemma walk_order_ends s L l ix : list_ok s L l ix -> l <> [] ->
  let e := if ix =? L then hd L l else ix in
  exists c, walk_order L ix l = c ++ [e] /\ rotation (c ++ [e]) l /\ e ∈ l /\ e <> L /\
    next_index L e l = hd L (c ++ [e]).
Proof.
  intros Hok Hne e. assert (e ∈ l /\ e <> L) as [He HeL].
  { pose proof (ok_nodup _ _ _ _ Hok) as [HL _]%list.NoDup_cons.
    assert (e ∈ l) as He; [| split; [done | by intros ->]]. unfold e. destruct (Z.eqb_spec ix L) as [-> | Hx].
    - destruct l; [done | left].
    - by pose proof (ok_index_in _ _ _ _ Hok) as [|]%elem_of_cons. }
  destruct (split_behind_in e l He) as (a & b & Es & El).
  assert (walk_order L ix l = (b ++ a) ++ [e]) as Ew by (unfold walk_order; fold e; by rewrite Es, app_assoc).
  assert (rotation ((b ++ a) ++ [e]) l) as Hr.
  { exists (a ++ [e]), b. by rewrite <- !app_assoc. }
  exists (b ++ a). split_and!; try done.
  pose proof (next_behind_last L L l _ (ok_nodup _ _ _ _ Hok) Hr) as H. rewrite List.last_last in H. apply H. by destruct (b ++ a).
Qed.

(** One list that is not empty. *)
Lemma walk_list s items ix p hold : marker_word s = true -> lists_at (ls s) items ix -> 0 <= p < configMAX_PRIORITIES ->
  NoDup (map (pvOwner (ls s)) (items p)) -> items p <> [] ->
  let L := pxReadyTasksLists p in
  let order := walk_order L (ix p) (items p) in
  exists l' ix' hold', lists_at l' items ix' /\ (forall y, pvOwner l' y = pvOwner (ls s) y) /\
    ix' p = (if pick s (hd L order) then hd L order else List.last order L) /\
    (forall q, q <> p -> ix' q = ix q) /\
  (r ← first_task L s; let '(pxRefTCB, s) := r in
    inspect (S (Z.to_nat (uxNumberOfItems (ls s) L))) L pxRefTCB false hold s) =
  match find (pick s) order with
  | None => Ret (false, true, set_ls l' s)
  | Some t => Ret (true, hold', set_ls l' (set_current (<[xPortGetCoreID s := pvOwner (ls s) t]> (pxCurrentTCB s)) s))
  end.
Proof.
  intros Hw Hl Hp Hd Hne L order. pose proof (Hl p Hp) as Hok. fold L in Hok.
  destruct (walk_order_ends _ _ _ _ Hok Hne) as (c & Ew & Hrot & He & HeL & Hnext). fold order in Ew.
  set (e := if ix p =? L then hd L (items p) else ix p) in *.
  assert (exists l1 ix1, (r ← first_task L s; let '(pxRefTCB, s) := r in
    inspect (S (Z.to_nat (uxNumberOfItems (ls s) L))) L pxRefTCB false hold s)
    = inspect (S (length (items p))) L (pvOwner (ls s) e) false hold (set_ls l1 s) /\
    lists_at l1 items ix1 /\ ix1 p = e /\ (forall y, pvOwner l1 y = pvOwner (ls s) y) /\ forall q, q <> p -> ix1 q = ix q)
    as (l1 & ix1 & -> & Hl1 & Hi1 & Ho1 & Hix1).
  { unfold first_task. rewrite Hw. cbn [negb]. assert (forall l ix, lists_at l items ix -> Z.to_nat (uxNumberOfItems l L) = length (items p)) as Hcount
      by (intros l ix0 Hl0; pose proof (ok_count _ _ _ _ (Hl0 p Hp)) as Hx; fold L in Hx; rewrite Hx; unfold zlen; lia).
    rewrite (ok_index _ _ _ _ Hok). destruct (Z.eqb_spec (ix p) L) as [E | E].
    - destruct (next_entry_at (ls s) items ix p Hl Hp Hne) as (l1 & E1 & Hl1 & Ho1). fold L in E1.
      assert (next_index L (ix p) (items p) = e) as En.
      { unfold next_index, e. rewrite E, Z.eqb_refl. by destruct (hd L (items p) =? L). }
      rewrite E1. cbn [mbind res_bind set_ls ls]. rewrite En, (Hcount _ _ Hl1) in *. exists l1, (<[p := next_index (pxReadyTasksLists p) (ix p) (items p)]> ix).
      split; [done |]. split; [done |]. split; [rewrite fn_lookup_insert; exact En |]. split; [done |]. intros q Hq. by rewrite fn_lookup_insert_ne.
    - cbn [mbind res_bind]. rewrite (Hcount _ _ Hl). exists (ls s), ix. cbn [mbind res_bind]. split; [by destruct s |]. done. }
  destruct (inspect_ok items p (c ++ [e]) e Hp Hrot Hne c (S (length (items p))) [] (set_ls l1 s) ix1 false hold) as (l2 & Hl2 & Ho2 & Hi).
  - done.
  - done.
  - by erewrite map_ext by apply Ho1.
  - by rewrite Hi1.
  - pose proof (Permutation_length (rotation_perm _ _ Hrot)) as Hlen. rewrite length_app in Hlen. cbn in Hlen. lia.
  - fold L in Hi. cbn [ls set_ls] in *. rewrite Ho1 in Hi.
    assert (forall x, pick (set_ls l1 s) x = pick s x) as Hpick by (intros x; unfold pick; cbn [ls set_ls]; by rewrite Ho1).
    assert (hd L order = hd e c /\ List.last order L = e) as [Eh El] by (rewrite Ew, List.last_last; by destruct c).
    exists l2, (<[p := if pick s (hd L order) then hd L order else List.last order L]> ix1).
    rewrite (find_same _ (pick s)) in Hi by exact Hpick. rewrite Hpick in Hl2. cbn [orb] in Hl2. rewrite Eh, El.
    assert (lists_at l2 items (<[p := if pick s (hd e c) then hd e c else e]> ix1)) as Hl2' by (by destruct (pick s (hd e c))).
    rewrite Ew. destruct (find (pick s) (c ++ [e])) as [t |].
    + destruct Hi as (hold' & Hi). exists hold'. split; [done |]. split; [intros y; by rewrite Ho2, Ho1 |].
      split; [by rewrite fn_lookup_insert |]. split; [intros q Hq; rewrite fn_lookup_insert_ne by done; auto |]. rewrite Hi. cbn. by rewrite Ho1.
    + exists true. split; [done |]. split; [intros y; by rewrite Ho2, Ho1 |]. split; [by rewrite fn_lookup_insert |].
      split; [intros q Hq; rewrite fn_lookup_insert_ne by done; auto | exact Hi].
Qed.

Lemma find_None_all {A} (f : A -> bool) l : find f l = None <-> forall x, x ∈ l -> f x = false.
Proof.
  induction l as [| y l IH]; cbn; [split; [by intros _ x ?%elem_of_nil | done] |]. destruct (f y) eqn:E.
  - split; [done |]. intros H. specialize (H y (list_elem_of_here _ _)). congruence.
  - rewrite IH. split; [intros H x [-> |]%elem_of_cons; auto | intros H x Hx; apply H; by right].
Qed.

Lemma walk_order_perm s L l ix : list_ok s L l ix -> l <> [] -> walk_order L ix l ≡ₚ l.
Proof. intros Hok Hne. destruct (walk_order_ends _ _ _ _ Hok Hne) as (c & -> & Hr & _). by apply rotation_perm. Qed.

(** Everything but the lists, the task of this core and the bound. *)
Definition same_rest (s s' : sched) : Prop :=
  xCoreID s' = xCoreID s /\ xPortGetCoreID s' = xPortGetCoreID s /\ uxSchedulerSuspended s' = uxSchedulerSuspended s /\
  xYieldPending s' = xYieldPending s /\ marker_word s' = marker_word s.

(** The task chosen among the priorities below [bound]: at the highest one that
    has a task which can run here, the first such task on the walk; the index
    goes on to it, or back to where the walk began if others were skipped. *)
Record chosen (items : Z -> list Z) (ix : Z -> Z) (bound : Z) (s : sched) (p t : Z) (ix' : Z -> Z) (s' : sched) : Prop := {
  ch_ready : ready_ok items ix' s';
  ch_priority : 0 <= p < bound;
  ch_first : find (pick s) (walk_order (pxReadyTasksLists p) (ix p) (items p)) = Some t;
  ch_above q x : p < q < bound -> x ∈ items q -> pick s x = false;
  ch_index : let order := walk_order (pxReadyTasksLists p) (ix p) (items p) in
    ix' p = if pick s (hd (pxReadyTasksLists p) order) then hd (pxReadyTasksLists p) order else List.last order (pxReadyTasksLists p);
  ch_current : pxCurrentTCB s' = <[xPortGetCoreID s := pvOwner (ls s) t]> (pxCurrentTCB s);
  ch_rest : same_rest s s';
  ch_owner y : pvOwner (ls s') y = pvOwner (ls s) y }.

Lemma pick_same s s1 x : xCoreID s1 = xCoreID s -> xPortGetCoreID s1 = xPortGetCoreID s -> pxCurrentTCB s1 = pxCurrentTCB s ->
  pvOwner (ls s1) x = pvOwner (ls s) x -> pick s1 x = pick s x.
Proof. unfold pick, can_run, runs_elsewhere. by intros -> -> -> ->. Qed.

Lemma chosen_from items ix ix1 n s s1 p t ix' s' : same_rest s s1 -> pxCurrentTCB s1 = pxCurrentTCB s ->
  (forall y, pvOwner (ls s1) y = pvOwner (ls s) y) -> (forall q, q <> n -> ix1 q = ix q) ->
  (forall x, x ∈ items n -> pick s x = false) ->
  chosen items ix1 n s1 p t ix' s' -> chosen items ix (n + 1) s p t ix' s'.
Proof.
  intros (R1 & R2 & R3 & R4 & R5) Hc Ho Hi Hn [H1 H2 H3 H4 H5 H6 (S1 & S2 & S3 & S4 & S5) H8].
  assert (forall x, pick s1 x = pick s x) as Hp by (intros x; by apply pick_same).
  cbv zeta in H5. rewrite Hi in H3, H5 by lia. rewrite (find_same _ (pick s)) in H3 by exact Hp. rewrite Hp in H5.
  split; [done | lia | done | | done | | |].
  - intros q x Hq Hx. destruct (decide (q = n)) as [-> |]; [by apply Hn |]. rewrite <- Hp. apply (H4 q x); [lia | done].
  - by rewrite H6, Hc, R2, Ho.
  - unfold same_rest. by rewrite S1, S2, S3, S4, S5.
  - intros y. by rewrite H8, Ho.
Qed.

(** The bound, before priority [n - 1] is looked at. *)
Definition bound_ok (items : Z -> list Z) (n : Z) (hold : bool) (top : Z) : Prop :=
  if hold then 0 <= top < configMAX_PRIORITIES /\ forall q, top < q < configMAX_PRIORITIES -> items q = []
  else top = n - 1 /\ forall q, n <= q < configMAX_PRIORITIES -> items q = [].

Lemma search_ok items n : forall hold s ix, (Z.of_nat n <= configMAX_PRIORITIES) -> marker_word s = true ->
  lists_at (ls s) items ix -> (forall p, 0 <= p < configMAX_PRIORITIES -> NoDup (map (pvOwner (ls s)) (items p))) ->
  bound_ok items (Z.of_nat n) hold (uxTopReadyPriority s) ->
  (forall p q, 0 <= p < configMAX_PRIORITIES -> 0 <= q < configMAX_PRIORITIES -> pxReadyTasksLists p ∉ items q) ->
  (exists p x, 0 <= p < Z.of_nat n /\ x ∈ items p /\ pick s x = true) ->
  exists p t s' ix', search n hold s = Ret s' /\ chosen items ix (Z.of_nat n) s p t ix' s'.
Proof.
  induction n as [| n IH]; intros hold s ix Hn Hword Hl Hd Htop Hmark Hex; [destruct Hex as (p & x & ? & _); lia |].
  cbn [search]. unfold listLIST_IS_EMPTY.
  assert (0 <= Z.of_nat n < configMAX_PRIORITIES) as Hp by lia.
  pose proof (Hl _ Hp) as Hok. rewrite (ok_count _ _ _ _ Hok). replace (Z.of_nat (S n)) with (Z.of_nat n + 1) in * by lia.
  assert (forall s1, (forall x, pick s1 x = pick s x) -> (forall x, x ∈ items (Z.of_nat n) -> pick s x = false) ->
    exists p x, 0 <= p < Z.of_nat n /\ x ∈ items p /\ pick s1 x = true) as Hex'.
  { intros s1 H1 Hno. destruct Hex as (p & x & Hpn & Hx & Hpk). exists p, x. rewrite H1. split_and!; try done; [lia |].
    destruct (decide (p = Z.of_nat n)) as [-> |]; [| lia]. rewrite Hno in Hpk by done. done. }
  destruct (Z.eqb_spec (zlen (items (Z.of_nat n))) 0) as [Hz | Hz].
  - apply zlen_0_nil in Hz. assert (forall x, x ∈ items (Z.of_nat n) -> pick s x = false) as Hno by (intros x; rewrite Hz; by intros ?%elem_of_nil).
    set (s1 := if hold then s else _). destruct (IH hold s1 ix) as (p & t & s' & ix' & E & Hc).
    + lia.
    + by destruct hold.
    + by destruct hold.
    + by destruct hold.
    + unfold bound_ok in *. destruct (Hex' s ltac:(done) Hno) as (q & _ & Hq & _). destruct hold; [done |]. cbn [s1 uxTopReadyPriority set_top].
      destruct Htop as [Ht Hall]. rewrite wrap_u_small by (unfold configMAX_PRIORITIES in *; lia). split; [lia |].
      intros q' Hq'. destruct (decide (q' = Z.of_nat n)) as [-> |]; [done | apply Hall; lia].
    + done.
    + apply Hex'; [by destruct hold | done].
    + exists p, t, s', ix'. split; [exact E |]. apply (chosen_from items ix ix _ s s1); try done; by destruct hold.
  - assert (items (Z.of_nat n) <> []) as Hne by (intros E; by rewrite E in Hz).
    destruct (walk_list s items ix (Z.of_nat n) hold Hword Hl Hp (Hd _ Hp) Hne) as (l' & ix' & hold' & Hl' & Ho' & Hix & Hixq & E).
    set (L := pxReadyTasksLists (Z.of_nat n)) in *. set (order := walk_order L (ix (Z.of_nat n)) (items (Z.of_nat n))) in *.
    assert (forall b, bound_ok items (Z.of_nat n + 1) b (uxTopReadyPriority s) ->
      0 <= uxTopReadyPriority s < configMAX_PRIORITIES /\ forall q, uxTopReadyPriority s < q < configMAX_PRIORITIES -> items q = []) as Hbound.
    { intros [|]; [done |]. intros [-> Hq]. split; [lia |]. intros q Hq'. apply Hq. lia. }
    destruct (Hbound _ Htop) as [Hb1 Hb2].
    destruct (first_task L s) as [[ref s2] | e] eqn:Es2; cbn [mbind res_bind] in E |- *; [rewrite E | by destruct (find _ _)].
    destruct (find (pick s) order) as [t |] eqn:Ef; cbn [mbind res_bind].
    + exists (Z.of_nat n), t, (set_ls l' (set_current (<[xPortGetCoreID s:=pvOwner (ls s) t]> (pxCurrentTCB s)) s)), ix'.
      split; [done |]. split; try done; try lia. split; try done. intros q Hq. cbn. erewrite map_ext by apply Ho'. by apply Hd.
    + assert (forall x, x ∈ items (Z.of_nat n) -> pick s x = false) as Hno.
      { intros x Hx. apply (proj1 (find_None_all _ _) Ef). unfold order. by rewrite (walk_order_perm _ _ _ _ Hok Hne). }
      assert (forall x, pick (set_ls l' s) x = pick s x) as Hps by (intros x; by apply pick_same).
      destruct (IH true (set_ls l' s) ix') as (p & t & s' & ix2 & E2 & Hc).
      * lia.
      * done.
      * done.
      * intros q Hq. cbn. erewrite map_ext by apply Ho'. by apply Hd.
      * done.
      * done.
      * by apply Hex'.
      * exists p, t, s', ix2. split; [exact E2 |]. by apply (chosen_from items ix ix' _ s (set_ls l' s)).
Qed.

Lemma walk_order_in s items ix p t f : ready_ok items ix s -> 0 <= p < configMAX_PRIORITIES ->
  find f (walk_order (pxReadyTasksLists p) (ix p) (items p)) = Some t -> t ∈ items p /\ f t = true.
Proof.
  intros Hr Hp H. apply find_some in H as [Hin Hf]. split; [| done]. apply list_elem_of_In in Hin.
  destruct (decide (items p = [])) as [E | Hne].
  - rewrite E in *. unfold walk_order in Hin. cbn in Hin. by apply elem_of_nil in Hin.
  - by rewrite (walk_order_perm _ _ _ _ (ro_list _ _ _ Hr p Hp) Hne) in Hin.
Qed.

Lemma switch_chosen items ix s : ready_ok items ix s -> uxSchedulerSuspended s (xPortGetCoreID s) = 0 ->
  (exists p x, 0 <= p < configMAX_PRIORITIES /\ x ∈ items p /\ pick s x = true) ->
  exists p t s' ix', vTaskSwitchContext s = Ret s' /\
    chosen items ix configMAX_PRIORITIES (set_yield_pending (<[xPortGetCoreID s := false]> (xYieldPending s)) s) p t ix' s'.
Proof.
  intros [H1 H2 H3 H4 H5 H6] Hs (p & x & Hp & Hx & Hpick). unfold vTaskSwitchContext. rewrite Hs. cbn [negb Z.eqb].
  set (s1 := set_yield_pending _ s). unfold configMAX_PRIORITIES in *.
  change (uxTopReadyPriority s1) with (uxTopReadyPriority s). rewrite wrap_s_small by lia.
  destruct (search_ok items (Z.to_nat (uxTopReadyPriority s + 1)) false s1 ix) as (p' & t & s' & ix' & E & [C1 C2 C3 C4 C5 C6 C7 C8]).
  - unfold configMAX_PRIORITIES. lia.
  - exact H6.
  - exact H1.
  - exact H2.
  - cbn. split; [lia |]. intros q Hq. apply H4. unfold configMAX_PRIORITIES in *. lia.
  - exact H3.
  - exists p, x. split_and!; try done; [lia |]. destruct (Z.le_gt_cases p (uxTopReadyPriority s)) as [| Hgt]; [lia |].
    rewrite (H4 p) in Hx by lia. by apply elem_of_nil in Hx.
  - exists p', t, s', ix'. split; [exact E |]. split; try done; [lia |].
    intros q y Hq Hy. destruct (Z.le_gt_cases q (uxTopReadyPriority s)) as [| Hgt]; [apply (C4 q y); [lia | done] |].
    rewrite (H4 q) in Hy by lia. by apply elem_of_nil in Hy.
Qed.

(** C18. The choice of the next task on one core of two.  While the scheduler is
    suspended on this core only the pending switch is noted.  Otherwise, if some
    ready task can run here (it has no other core's affinity and the other core
    does not run it), the call returns with such a task as the current one of
    this core: no ready task of a higher priority can run here; among those of
    its priority it is the first one behind the index; the other core keeps its
    task, the ready lists keep their members and order, and the bound
    uxTopReadyPriority still covers every ready task.  The call reads pvOwner
    behind an index that is on the marker, whose structure ends before that
    field: the theorem is about a memory in which the word there can be read. *)
Theorem vTaskSwitchContext_spec items ix s : ready_ok items ix s ->
  let core := xPortGetCoreID s in
  (uxSchedulerSuspended s core <> 0 -> vTaskSwitchContext s = Ret (set_yield_pending (<[core := true]> (xYieldPending s)) s)) /\
  (uxSchedulerSuspended s core = 0 ->
   (exists p x, 0 <= p < configMAX_PRIORITIES /\ x ∈ items p /\ pick s x = true) ->
   exists p t ix' s', vTaskSwitchContext s = Ret s' /\ ready_ok items ix' s' /\
     0 <= p < configMAX_PRIORITIES /\ t ∈ items p /\ pick s t = true /\
     (forall q x, p < q < configMAX_PRIORITIES -> x ∈ items q -> pick s x = false) /\
     find (pick s) (walk_order (pxReadyTasksLists p) (ix p) (items p)) = Some t /\
     pxCurrentTCB s' core = pvOwner (ls s) t /\ (forall i, i <> core -> pxCurrentTCB s' i = pxCurrentTCB s i) /\
     xYieldPending s' core = false).
Proof.
  intros Hr core. split.
  - intros Hs. unfold vTaskSwitchContext. fold core. by rewrite (proj2 (Z.eqb_neq _ _) Hs).
  - intros Hs Hex. destruct (switch_chosen items ix s Hr Hs Hex) as (p & t & s' & ix' & E & [C1 C2 C3 C4 C5 C6 (_ & _ & _ & C7 & _) C8]).
    exists p, t, ix', s'. destruct (walk_order_in s items ix p t _ Hr C2 C3) as [Ht Hpt].
    split; [exact E |]. split; [exact C1 |]. split; [exact C2 |]. split; [exact Ht |]. split; [exact Hpt |].
    split; [exact C4 |]. split; [exact C3 |]. split_and!.
    + rewrite C6. apply fn_lookup_insert.
    + intros i Hi. rewrite C6. by apply fn_lookup_insert_ne.
    + rewrite C7. apply fn_lookup_insert.
Qed.


(** ** Repeated switches *)

Fixpoint switches (n : nat) (s : sched) : res sched :=
  match n with O => Ret s | S n => s1 ← vTaskSwitchContext s; switches n s1 end.

Lemma walk_order_again s L l ix : list_ok s L l ix -> l <> [] ->
  walk_order L (List.last (walk_order L ix l) L) l = walk_order L ix l.
Proof.
  intros Hok Hne. destruct (walk_order_ends _ _ _ _ Hok Hne) as (c & Ew & _ & _ & HeL & _).
  rewrite Ew, List.last_last. rewrite <- Ew. unfold walk_order. by rewrite (proj2 (Z.eqb_neq _ _) HeL).
Qed.

(** Whether a task can run here does not depend on which task runs here. *)
Lemma pick_current s s' x : xCoreID s' = xCoreID s -> xPortGetCoreID s' = xPortGetCoreID s ->
  (forall i, i <> xPortGetCoreID s -> pxCurrentTCB s' i = pxCurrentTCB s i) -> (forall y, pvOwner (ls s') y = pvOwner (ls s) y) ->
  pick s' x = pick s x.
Proof.
  intros E1 E2 H Ho. unfold pick, can_run. rewrite E1, E2, Ho. do 2 f_equal. unfold runs_elsewhere. rewrite E2.
  induction (seqZ 0 portNUM_PROCESSORS) as [| i l IH]; [done |]. cbn. rewrite IH. f_equal.
  destruct (Z.eqb_spec i (xPortGetCoreID s)) as [-> | Hne]; [done |]. by rewrite H.
Qed.

(** The choice is not fair.  When the walk has to skip the task it comes to
    first (the other core runs it, or it is pinned there), it takes the first
    task [t] behind it that can run and puts the index back: as long as the
    ready lists and the other core stay as they are, every later switch takes [t]
    again, however many other tasks of the same priority are ready. *)
Theorem switch_starves items ix s p h rest t n : ready_ok items ix s ->
  uxSchedulerSuspended s (xPortGetCoreID s) = 0 -> 0 <= p < configMAX_PRIORITIES ->
  (forall q x, p < q < configMAX_PRIORITIES -> x ∈ items q -> pick s x = false) ->
  walk_order (pxReadyTasksLists p) (ix p) (items p) = h :: rest -> pick s h = false -> find (pick s) rest = Some t ->
  exists s', switches (S n) s = Ret s' /\ pxCurrentTCB s' (xPortGetCoreID s) = pvOwner (ls s) t.
Proof.
  intros Hr Hs Hp Habove Hw Hh Ht. set (order := h :: rest) in *.
  assert (find (pick s) order = Some t) as Hfind by (unfold order; cbn; by rewrite Hh).
  assert (items p <> []) as Hne by (intros E; rewrite E in Hw; done).
  destruct (walk_order_in s items ix p t (pick s) Hr Hp ltac:(by rewrite Hw)) as [Htin Htp].
  assert (forall n s1 ix1, ready_ok items ix1 s1 -> uxSchedulerSuspended s1 (xPortGetCoreID s) = 0 -> xPortGetCoreID s1 = xPortGetCoreID s ->
    (forall x, pick s1 x = pick s x) -> (forall y, pvOwner (ls s1) y = pvOwner (ls s) y) ->
    walk_order (pxReadyTasksLists p) (ix1 p) (items p) = order ->
    exists s', switches (S n) s1 = Ret s' /\ pxCurrentTCB s' (xPortGetCoreID s) = pvOwner (ls s) t) as H.
  { clear n. intros n. induction n as [| n IH]; intros s1 ix1 Hr1 Hs1 Hco Hpk Ho Hw1.
    all: destruct (switch_chosen items ix1 s1 Hr1 ltac:(by rewrite Hco)) as (p' & t' & s2 & ix2 & E & [C1 C2 C3 C4 C5 C6 (C7 & C8 & C9 & _) C10]);
      [exists p, t; by rewrite Hpk |].
    all: set (sy := set_yield_pending _ s1) in *; assert (forall x, pick sy x = pick s x) as Hpy by (intros x; rewrite <- Hpk; by apply pick_same).
    all: assert (p' = p) as ->.
    1, 3: destruct (walk_order_in s1 items ix1 p' t' _ Hr1 C2 C3) as [Ht' Hpt']; rewrite Hpy in Hpt';
      destruct (Z.lt_trichotomy p' p) as [Hlt | [| Hgt]]; [| done |];
      [specialize (C4 p t ltac:(lia) Htin); by rewrite Hpy, Htp in C4 | by rewrite (Habove p' t' ltac:(lia) Ht') in Hpt'].
    all: rewrite Hw1, (find_same _ (pick s)) in C3 by exact Hpy; rewrite Hfind in C3; injection C3 as <-.
    all: cbn [switches]; rewrite E; cbn [mbind res_bind].
    - exists s2. split; [done |]. rewrite C6. change (xPortGetCoreID sy) with (xPortGetCoreID s1). rewrite Hco, fn_lookup_insert. apply Ho.
    - apply (IH s2 ix2); [done | by rewrite C9 | by rewrite C8 | | by intros y; rewrite C10, <- Ho |].
      + intros x. rewrite <- Hpk. apply (pick_current s1 s2); [done | done | | done].
        intros i Hi. rewrite C6. by apply fn_lookup_insert_ne.
      + cbv zeta in C5. rewrite Hw1, Hpy in C5. cbn [hd order] in C5. rewrite Hh in C5. rewrite C5, <- Hw1.
        apply (walk_order_again _ _ _ _ (ro_list _ _ _ Hr1 p Hp) Hne). }
  by apply (H n s ix).
Qed.

(** ** What keeps the ready lists in order *)

Lemma initialise_ok s : uxTopReadyPriority s = 0 -> marker_word s = true -> ready_ok (fun _ => []) pxReadyTasksLists (prvInitialiseTaskLists s).
Proof.
  intros Ht Hw. assert (forall ps seen l, (forall p, p ∈ ps ++ seen -> 0 <= p < configMAX_PRIORITIES) ->
    (forall p, p ∈ seen -> list_ok l (pxReadyTasksLists p) [] (pxReadyTasksLists p)) ->
    forall p, p ∈ ps ++ seen -> list_ok (foldl (fun l uxPriority => vListInitialise (pxReadyTasksLists uxPriority) l) l ps) (pxReadyTasksLists p) [] (pxReadyTasksLists p)) as H.
  { intros ps. induction ps as [| q ps IH]; intros seen l Hr Hseen p Hp; cbn [foldl app] in *; [by apply Hseen |].
    apply (IH (q :: seen)).
    - intros p' Hp'. apply Hr. set_solver +Hp'.
    - intros p' Hp'. destruct (decide (p' = q)) as [-> | Hne]; [apply vListInitialise_ok |].
      apply elem_of_cons in Hp' as [| Hp']; [done |].
      assert (pxReadyTasksLists p' <> pxReadyTasksLists q) as Ha by (intros E; apply Hne, addresses; [apply Hr; set_solver +Hp' | apply Hr; left | done]).
      eapply (list_frame l); [| | | | by apply Hseen]; unfold vListInitialise; fields.
      intros y ->%list_elem_of_singleton. fields.
    - set_solver +Hp. }
  split; cbn [prvInitialiseTaskLists set_ls uxTopReadyPriority ls].
  - intros p Hp. apply (H _ []); [| by intros ? ?%elem_of_nil |]; rewrite app_nil_r.
    + intros q Hq%elem_of_seqZ. unfold configMAX_PRIORITIES in *. lia.
    + apply elem_of_seqZ. unfold configMAX_PRIORITIES in *. lia.
  - intros. constructor.
  - intros. by intros ?%elem_of_nil.
  - done.
  - rewrite Ht. done.
  - done.
Qed.

(** Another list, while the one at [p] and [xs] change. *)
Lemma other_list items ix s p q l' xs : ready_ok items ix s -> 0 <= p < configMAX_PRIORITIES -> 0 <= q < configMAX_PRIORITIES -> q <> p ->
  only (pxReadyTasksLists p) xs (ls s) l' -> (forall y, y ∈ xs -> y ∈ items p \/ y <> pxReadyTasksLists q /\ y ∉ items q) ->
  list_ok l' (pxReadyTasksLists q) (items q) (ix q).
Proof.
  intros [H1 H2 H3 H4 H5 _] Hp Hq Hne (O1 & O2 & O3 & O4) Hxs.
  assert (pxReadyTasksLists q <> pxReadyTasksLists p) as Ha by (intros E; by apply Hne, addresses).
  destruct (O2 _ Ha) as [Hi Hc]. eapply (list_frame (ls s)); [| done | done | apply O3 | by apply H1].
  intros y Hy. apply O1. intros [-> | Hx]%elem_of_cons.
  - apply elem_of_cons in Hy as [| Hy]; [done | by apply (H3 p q)].
  - apply Hxs in Hx as [Hx | [Hx1 Hx2]].
    + apply elem_of_cons in Hy as [-> | Hy]; [by apply (H3 q p) |].
      apply Ha. pose proof (ok_container _ _ _ _ (H1 p Hp) y Hx). pose proof (ok_container _ _ _ _ (H1 q Hq) y Hy). congruence.
    + by apply elem_of_cons in Hy as [-> | Hy].
Qed.

Lemma insert_before_in ix x l y : y ∈ insert_before ix x l <-> y = x \/ y ∈ l.
Proof. rewrite (insert_before_perm ix x l). apply elem_of_cons. Qed.

(** A task made ready: new on every list, with an item of its own. *)
Lemma add_ok items ix s x p : ready_ok items ix s -> 0 <= p < configMAX_PRIORITIES ->
  (forall q, 0 <= q < configMAX_PRIORITIES -> x <> pxReadyTasksLists q /\ x ∉ items q) ->
  (forall y, y ∈ items p -> pvOwner (ls s) y <> pvOwner (ls s) x) -> zlen (items p) + 1 < 2 ^ 32 ->
  ready_ok (<[p := insert_before (ix p) x (items p)]> items) ix (prvAddTaskToReadyList x p s).
Proof.
  intros Hr Hp Hx Ho Hz. pose proof (Hx p Hp) as [Hxp1 Hxp2].
  destruct (vListInsertEnd_ok _ _ _ _ x (ro_list _ _ _ Hr p Hp)) as [Hok Honly]; [by intros [|]%elem_of_cons | done |].
  pose proof Honly as (_ & _ & _ & Hw). set (s' := prvAddTaskToReadyList x p s).
  assert (ls s' = vListInsertEnd (pxReadyTasksLists p) x (ls s)) as El by (unfold s', prvAddTaskToReadyList; by destruct (_ <? _)).
  split; rewrite ?El.
  - intros q Hq. destruct (decide (q = p)) as [-> | Hne]; [by rewrite fn_lookup_insert | rewrite fn_lookup_insert_ne by done].
    eapply (other_list items ix s p q _ (x :: items p)); try done. intros y [-> | Hy]%elem_of_cons; [right; by apply Hx | by left].
  - intros q Hq. erewrite map_ext by apply Hw. destruct (decide (q = p)) as [-> | Hne];
      [rewrite fn_lookup_insert | rewrite fn_lookup_insert_ne by done; by apply (ro_owner _ _ _ Hr)].
    rewrite (insert_before_perm (ix p) x (items p)). cbn [map]. apply list.NoDup_cons. split; [| by apply (ro_owner _ _ _ Hr)].
    intros (y & E & Hy)%list_elem_of_In%in_map_iff. apply (Ho y); [by apply list_elem_of_In | done].
  - intros q q' Hq Hq'. destruct (decide (q' = p)) as [-> | Hne];
      [rewrite fn_lookup_insert, insert_before_in | rewrite fn_lookup_insert_ne by done; by apply (ro_marker _ _ _ Hr)].
    intros [E | Hi]; [by destruct (Hx q Hq) as [[] _] | by apply (ro_marker _ _ _ Hr q p)].
  - intros q Hq. assert (uxTopReadyPriority s < q /\ q <> p) as [H1 H2].
    { unfold s', prvAddTaskToReadyList in Hq. destruct (Z.ltb_spec (uxTopReadyPriority s) p); cbn in Hq; lia. }
    rewrite fn_lookup_insert_ne by done. apply (ro_top _ _ _ Hr). lia.
  - pose proof (ro_range _ _ _ Hr). unfold s', prvAddTaskToReadyList. destruct (_ <? _); cbn; lia.
  - pose proof (ro_word _ _ _ Hr). unfold s', prvAddTaskToReadyList. by destruct (_ <? _).
Qed.

Lemma NoDup_map_remove (f : Z -> Z) x l : NoDup (map f l) -> NoDup (map f (remove_item x l)).
Proof.
  unfold remove_item. induction l as [| y l IH]; [done |]. cbn [map]. intros [Hy Hd]%list.NoDup_cons. rewrite filter_cons.
  destruct (decide (y <> x)); [| by apply IH]. cbn [map]. apply list.NoDup_cons. split; [| by apply IH].
  intros (z & Ez & Hz)%list_elem_of_In%in_map_iff. apply Hy. apply list_elem_of_In, in_map_iff. exists z. split; [done |].
  apply list_elem_of_In. apply list_elem_of_In, list_elem_of_filter in Hz. apply Hz.
Qed.

(** A ready task leaves its list. *)
Lemma remove_ok items ix s x p : ready_ok items ix s -> 0 <= p < configMAX_PRIORITIES -> x ∈ items p ->
  exists l' i, uxListRemove x (ls s) = Ret (zlen (items p) - 1, l') /\
    ready_ok (<[p := remove_item x (items p)]> items) (<[p := i]> ix) (set_ls l' s).
Proof.
  intros Hr Hp Hx. destruct (uxListRemove_ok _ _ _ _ x (ro_list _ _ _ Hr p Hp) Hx) as (l' & E & Hok & Honly & _).
  pose proof Honly as (_ & _ & _ & Hw). exists l'. eexists. split; [exact E |]. split; cbn [ls set_ls uxTopReadyPriority].
  - intros q Hq. destruct (decide (q = p)) as [-> | Hne]; [rewrite !fn_lookup_insert; exact Hok | rewrite !fn_lookup_insert_ne by done].
    eapply (other_list items ix s p q _ (items p)); try done. by left.
  - intros q Hq. erewrite map_ext by apply Hw. destruct (decide (q = p)) as [-> | Hne];
      [rewrite fn_lookup_insert | rewrite fn_lookup_insert_ne by done; by apply (ro_owner _ _ _ Hr)].
    by apply NoDup_map_remove, (ro_owner _ _ _ Hr).
  - intros q q' Hq Hq'. destruct (decide (q' = p)) as [-> | Hne];
      [rewrite fn_lookup_insert | rewrite fn_lookup_insert_ne by done; by apply (ro_marker _ _ _ Hr)].
    intros [_ Hi]%list_elem_of_filter. by apply (ro_marker _ _ _ Hr q p).
  - intros q Hq. destruct (decide (q = p)) as [-> | Hne];
      [rewrite fn_lookup_insert; by rewrite (ro_top _ _ _ Hr p Hq) | rewrite fn_lookup_insert_ne by done; by apply (ro_top _ _ _ Hr)].
  - apply (ro_range _ _ _ Hr).
  - apply (ro_word _ _ _ Hr).
Qed.
End switch.

(** * Witnesses *)

(** Core 0 with the tasks 1101, 1102 and 1103 at priority 5; 1102 is pinned to
    core 1. *)
Definition demo_sched : sched :=
  mkSched lists0 (fun t => if t =? 1102 then 1 else tskNO_AFFINITY) (fun _ => 9) 0 0 (fun _ => 0) (fun _ => false) true.
Definition demo_ready : sched :=
  prvAddTaskToReadyList id 103 5 (prvAddTaskToReadyList id 102 5 (prvAddTaskToReadyList id 101 5 (prvInitialiseTaskLists id demo_sched))).
Definition demo_items : Z -> list Z := <[5 := [101; 102; 103]]> (<[5 := [101; 102]]> (<[5 := [101]]> (fun _ => []))).

Lemma demo_addresses p q : 0 <= p < configMAX_PRIORITIES -> 0 <= q < configMAX_PRIORITIES -> id p = id q -> p = q.
Proof. done. Qed.

Lemma demo_add l items x s : ready_ok id items id s -> items 5 = l -> 100 < x -> x ∉ l -> (forall q, q <> 5 -> items q = []) ->
  (forall y, y ∈ l -> pvOwner (ls s) y <> pvOwner (ls s) x) -> zlen l + 1 < 2 ^ 32 -> insert_before 5 x l = l ++ [x] ->
  ready_ok id (<[5 := l ++ [x]]> items) id (prvAddTaskToReadyList id x 5 s).
Proof.
  intros Hr Hl Hx Hn Hi Ho Hz <-. rewrite <- Hl. rewrite <- Hl in *. apply (add_ok id demo_addresses items id s x 5); try done.
  intros q Hq. unfold id, configMAX_PRIORITIES in *. split; [lia |]. destruct (decide (q = 5)) as [-> | Hne]; [done |].
  rewrite Hi by done. by intros ?%elem_of_nil.
Qed.

Lemma demo_ready_ok : ready_ok id demo_items id demo_ready.
Proof.
  assert (ready_ok id (fun _ => []) id (prvInitialiseTaskLists id demo_sched)) as H0 by (by apply (initialise_ok id demo_addresses)).
  refine (demo_add [101; 102] _ 103 _ (demo_add [101] _ 102 _ (demo_add [] _ 101 _ H0 _ _ _ _ _ _ _) _ _ _ _ _ _ _) _ _ _ _ _ _ _);
    try reflexivity; try (intros q Hq; cbn; by rewrite ?fn_lookup_insert_ne by done); try set_solver;
    intros y Hy; repeat (apply elem_of_cons in Hy as [-> | Hy]; [vm_compute; discriminate |]); by apply elem_of_nil in Hy.
Qed.

Lemma vTaskSwitchContext_spec_witness : exists s', vTaskSwitchContext id demo_ready = Ret s' /\ pxCurrentTCB s' 0 = 1103.
Proof.
  destruct (vTaskSwitchContext_spec id demo_addresses demo_items id demo_ready demo_ready_ok) as [_ H].
  destruct H as (p & t & ix' & s' & E & _ & Hp & Ht & _ & Habove & Hfind & Hc & _).
  - reflexivity.
  - exists 5, 103. split; [split; [discriminate | reflexivity] |]. split; [right; right; left | vm_compute; reflexivity].
  - exists s'. split; [exact E |]. change (pxCurrentTCB s' 0) with (pxCurrentTCB s' (xPortGetCoreID demo_ready)). rewrite Hc.
    destruct (decide (p = 5)) as [-> | Hne].
    + vm_compute in Hfind. injection Hfind as <-. vm_compute. reflexivity.
    + exfalso. unfold demo_items in Ht. rewrite !fn_lookup_insert_ne in Ht by (intros E5; apply Hne; rewrite E5; reflexivity). apply elem_of_nil in Ht. exact Ht.
Defined.

(** Where that word cannot be read: on the fresh list the index is on the marker. *)
Example switch_past_marker :
  vTaskSwitchContext id (mkSched (ls demo_ready) (xCoreID demo_ready) (pxCurrentTCB demo_ready) 5 0 (fun _ => 0) (fun _ => false) false)
  = Fault OutOfBounds.
Proof. reflexivity. Qed.

(** Task 1101 is never chosen. *)
Lemma switch_starves_witness : exists s', switches id 8 demo_ready = Ret s' /\ pxCurrentTCB s' 0 = 1103.
Proof.
  destruct (switch_starves id demo_addresses demo_items id demo_ready 5 102 [103; 101] 103 7 demo_ready_ok) as (s' & E & Hc).
  - reflexivity.
  - split; [discriminate | reflexivity].
  - intros q x Hq Hx. unfold demo_items in Hx. rewrite !fn_lookup_insert_ne in Hx by lia. by apply elem_of_nil in Hx.
  - vm_compute. reflexivity.
  - vm_compute. reflexivity.
  - vm_compute. reflexivity.
  - exists s'. split; [exact E |]. change (pxCurrentTCB s' 0) with (pxCurrentTCB s' (xPortGetCoreID demo_ready)). rewrite Hc. vm_compute. reflexivity.
Defined.
