(* ===== verification/FreeRtosTime.v ===== *)
(** The passing of time in src/ESP32/components/freertos/tasks.c: the tick and the
    tasks it wakes across the wrap of the tick count, the ticks that are pended
    while the scheduler is suspended, and time-outs. *)

From S2P Require Import Prelude FreeRtosList FreeRtosTasks.

(** * Inversion of runs *)

Lemma st_bind_inv {S A B} (m : st S A) (f : A -> st S B) s b s' :
  (m ≫= f) s = Ret (b, s') -> exists a s1, m s = Ret (a, s1) /\ f a s1 = Ret (b, s').
Proof. unfold mbind, st_bind. destruct (m s) as [[a s1] |]; [eauto | discriminate]. Qed.

Lemma assert_inv b k u k' : assert b k = Ret (u, k') -> b = true /\ k' = k.
Proof. unfold assert. destruct b; [by intros [= _ <-] | discriminate]. Qed.
Lemma get_tcb_inv t k c k' : get_tcb t k = Ret (c, k') -> k' = k /\ tcbs k !! t = Some c.
Proof. unfold get_tcb, mbind, st_bind, get, need. destruct (tcbs k !! t); [by intros [= <- <-] | discriminate]. Qed.

(** The next step of a run. *)
Ltac run_inv H :=
  lazymatch type of H with
  | (_ ≫= _) _ = Ret _ =>
      let a := fresh "a" in let s := fresh "s" in let H1 := fresh "Hrun" in
      apply st_bind_inv in H as (a & s & H1 & H)
  end.
Tactic Notation "bind_inv" hyp(H) "as" ident(a) ident(s) ident(H1) := apply st_bind_inv in H as (a & s & H1 & H).

(** * Steps that wake tasks at most *)

Record calm (k k' : kernel) : Prop := {
  c_kwf : kwf k'; c_placed : placed k'; c_quiet : quiet k -> quiet k';
  c_queues : queues k' = queues k; c_groups : groups k' = groups k;
  c_tcb t c : tcbs k !! t = Some c -> exists c', tcbs k' !! t = Some c' /\ tcb_like c c';
  c_none t : tcbs k !! t = None -> tcbs k' !! t = None;
  c_lists m t : wait_list m -> t ∈ klists k' m -> t ∈ klists k m;
  c_left m t : wait_list m -> t ∈ klists k m -> t ∈ klists k' m \/ awake k' t;
  c_awake t : awake k t -> awake k' t;
  c_ready t : is_ready k t -> is_ready k' t;
  c_current : pxCurrentTCB k' = pxCurrentTCB k;
  c_core : xPortGetCoreID k' = xPortGetCoreID k }.

#[export] Instance calm_trans : Transitive calm.
Proof.
  intros a b c [] []. split; try congruence; auto.
  - intros t x H. destruct (c_tcb0 t x H) as (y & Hy & ?). destruct (c_tcb1 t y Hy) as (z & Hz & ?).
    exists z. split; [done |]. by etrans.
  - intros m t Hm Hin. destruct (c_left0 m t Hm Hin); auto.
Qed.

(** Counters, times and requests. *)
Definition same_tasks (k k' : kernel) : Prop :=
  tcbs k' = tcbs k /\ klists k' = klists k /\ queues k' = queues k /\ groups k' = groups k /\
  pxCurrentTCB k' = pxCurrentTCB k /\ xPortGetCoreID k' = xPortGetCoreID k /\ stray_read k' = stray_read k.

Lemma same_tasks_calm k k' : kwf k -> placed k -> same_tasks k k' -> calm k k'.
Proof.
  intros [] Hp (Et & El & Eq & Eg & Ec & Eo & Es). split; try done.
  - split; unfold affinity_ok; rewrite ?Et, ?El, ?Ec, ?Eo, ?Es; done.
  - intros t c. rewrite Et. apply Hp.
  - intros Hq l t Hl. rewrite El. intros Hin Hr. apply (Hq l t Hl Hin). unfold is_ready in *. by rewrite Et in Hr.
  - intros t c H. exists c. rewrite Et. by split; [| apply tcb_like_refl].
  - intros t. by rewrite Et.
  - intros m t _. by rewrite El.
  - intros m t _. rewrite El. by left.
  - intros t. unfold awake, is_ready. by rewrite Et, El.
  - intros t. unfold is_ready. by rewrite Et.
Qed.
Lemma calm_refl k : kwf k -> placed k -> calm k k.
Proof. intros Hk Hp. by apply same_tasks_calm. Qed.

Lemma readied_calm t k k' : kwf k -> placed k -> readied t k k' -> calm k k'.
Proof.
  intros Hk Hp Hr. pose proof (r_frame _ _ _ Hr) as Hf. split; try apply Hf.
  - apply Hr.
  - by eapply readied_placed.
  - intros Hq. exact (readied_quiet t k k' Hk Hq Hr).
  - intros m y [Hm _]. rewrite (r_lists _ _ _ Hr) by done. rewrite elem_of_remove_item. tauto.
  - intros m y [Hm _] Hin. destruct (decide (y = t)) as [-> | Hne]; [right; left; apply Hr | left].
    rewrite (r_lists _ _ _ Hr) by done. by apply elem_of_remove_item.
  - intros y. exact (awake_readied t k k' y Hk Hr).
  - intros y Hy. destruct (decide (y = t)) as [-> | Hne]; [apply Hr |].
    unfold is_ready. by rewrite (r_tcbs _ _ _ Hr).
Qed.

Fixpoint readied_all (ts : list Z) (k k' : kernel) : Prop :=
  match ts with [] => k' = k | t :: ts => exists k1, readied t k k1 /\ readied_all ts k1 k' end.

Lemma readied_all_calm ts : forall k k', kwf k -> placed k -> readied_all ts k k' -> calm k k'.
Proof.
  induction ts as [| t ts IH]; intros k k' Hk Hp; cbn [readied_all]; [intros ->; by apply calm_refl |].
  intros (k1 & H1 & H). pose proof (readied_calm t k k1 Hk Hp H1) as Hc. etrans; [exact Hc |]. apply IH; [apply Hc.. | done].
Qed.

(** * The loop of the tick *)

(** The tasks at the head of the list whose time has come. *)
Fixpoint due (value : Z -> Z) (now : Z) (l : list Z) : list Z :=
  match l with [] => [] | t :: l => if now <? value t then [] else t :: due value now l end.

Definition next_unblock (value : Z -> Z) (now : Z) (l : list Z) : Z :=
  match drop (length (due value now l)) l with [] => portMAX_DELAY | t :: _ => value t end.

Lemma due_ext v v' now l : (forall t, t ∈ l -> v t = v' t) -> due v now l = due v' now l.
Proof. induction l as [| t l IH]; intros H; cbn; [done |]. rewrite (H t), IH by set_solver. done. Qed.

Lemma values_tcb i k t c : tcbs k !! t = Some c -> values i k t = item_value (item_of_kind i c).
Proof. unfold values. by intros ->. Qed.

Lemma delayed_kind k : kind_of (pxDelayedTaskList k) = generic_item /\ (forall p, pxDelayedTaskList k <> pxReadyTasksLists p).
Proof. unfold pxDelayedTaskList. by destruct (delayed_is_1 k). Qed.

Lemma run_three {S A B C D} (m1 : st S A) (m2 : st S B) (m3 : st S C) (f : C -> st S D) s c s' :
  (m1 ≫= fun _ => m2 ≫= fun _ => m3) s = Ret (c, s') -> (m1 ≫= fun _ => m2 ≫= fun _ => m3 ≫= f) s = f c s'.
Proof.
  unfold mbind, st_bind. destruct (m1 s) as [[? s1] |]; [| discriminate]. destruct (m2 s1) as [[? s2] |]; [| discriminate].
  by intros ->.
Qed.

Lemma readied_values t k k' y : readied t k k' -> y <> t -> values generic_item k' y = values generic_item k y.
Proof. intros Hr Hne. unfold values. by rewrite (r_tcbs _ _ _ Hr). Qed.

(** Each round readies the head of the list, until its time is to come. *)
Lemma unblock_loop_run now : forall fuel k, kwf k -> placed k ->
  let l := klists k (pxDelayedTaskList k) in let v := values generic_item k in
  (length l < fuel)%nat ->
  exists b k1, unblock_loop fuel now k = Ret (b, set_unblock (next_unblock v now l) k1) /\
    readied_all (due v now l) k k1 /\ klists k1 (pxDelayedTaskList k) = drop (length (due v now l)) l.
Proof.
  induction fuel as [| fuel IH]; intros k Hk Hp; cbv zeta; set (v := values generic_item k); intros Hf; [lia |].
  cbn [unblock_loop]. erewrite run_bind by done.
  destruct (klists k (pxDelayedTaskList k)) as [| t rest] eqn:El.
  - by exists false, k.
  - destruct (proj1 (k_in k Hk (pxDelayedTaskList k) t)) as (c & Ht & Hc); [rewrite El; left |].
    destruct (delayed_kind k) as [Hdk Hdr]. rewrite Hdk in Hc. cbn in Hc.
    erewrite run_bind by (by apply get_tcb_run). assert (v t = item_value (xGenericListItem c)) as Ev by exact (values_tcb generic_item k t c Ht).
    unfold next_unblock. cbn [due]. rewrite !Ev. destruct (now <? item_value (xGenericListItem c)) eqn:E.
    + exists false, k. cbn. by rewrite Ev.
    + destruct (unblock_run k t c Hk Ht) as (k1 & Hr1 & Hre); [by rewrite Hc |]. pose proof Hre as [].
      rewrite (run_three _ _ _ _ k tt k1 Hr1).
      destruct (current_tcb_run k1 r_kwf) as (cur & Hcur). erewrite run_bind by done.
      assert (pxDelayedTaskList k1 = pxDelayedTaskList k) as Ed by (unfold pxDelayedTaskList; by rewrite (f_delayed _ _ r_frame)).
      pose proof (k_nodup k Hk (pxDelayedTaskList k)) as Hd. rewrite El in Hd. pose proof Hd as [Hnt _]%list.NoDup_cons.
      assert (klists k1 (pxDelayedTaskList k1) = rest) as El1 by (rewrite Ed, r_generic, El by done; by apply remove_item_head).
      destruct (IH k1 r_kwf (readied_placed _ _ _ Hp Hre)) as (b & k2 & Hr2 & Hall & Hl2); [rewrite El1; cbn in Hf; lia |].
      rewrite El1, Ed in *. erewrite run_bind by exact Hr2.
      assert (due (values generic_item k1) now rest = due v now rest) as Edue.
      { apply due_ext. intros y Hy. apply (readied_values t k k1); [done |]. by intros ->. }
      assert (next_unblock (values generic_item k1) now rest = match drop (length (due v now rest)) rest with [] => portMAX_DELAY | y :: _ => v y end) as En.
      { unfold next_unblock. rewrite Edue. destruct (drop (length (due v now rest)) rest) as [| y ys] eqn:Ey; [done |].
        apply (readied_values t k k1); [done |].
        intros ->. apply Hnt. rewrite <- (take_drop (length (due v now rest)) rest), Ey. set_solver. }
      rewrite En, Edue in *. eexists _, k2. cbn [length drop readied_all]. split_and!; [done | by exists k1 | done].
Qed.

(** * The time left *)

Lemma due_in v now l t : in_order v l -> t ∈ l -> (t ∈ due v now l <-> v t <= now).
Proof.
  induction l as [| x l IH]; intros Ho Ht; [by apply elem_of_nil in Ht |]. apply in_order_cons in Ho as [Hx Ho]. cbn.
  destruct (Z.ltb_spec now (v x)) as [Hlt | Hle].
  - split; [intros H; by apply elem_of_nil in H |]. apply elem_of_cons in Ht as [-> | Ht]; [lia |]. specialize (Hx t Ht). lia.
  - rewrite elem_of_cons. apply elem_of_cons in Ht as [-> | Ht]; [split; [done | by left] |]. rewrite (IH Ho Ht).
    split; [intros [-> |]; done | by right].
Qed.
Lemma due_sub v now l t : t ∈ due v now l -> t ∈ l.
Proof. induction l as [| x l IH]; cbn; [done |]. destruct (now <? v x); [intros H; by apply elem_of_nil in H | set_solver +IH]. Qed.
Lemma due_app v now l : l = due v now l ++ drop (length (due v now l)) l.
Proof. induction l as [| x l IH]; cbn; [done |]. destruct (now <? v x); cbn; [done |]. by rewrite <- IH. Qed.
Lemma due_rest v now l t : in_order v l -> NoDup l -> t ∈ drop (length (due v now l)) l -> now < v t.
Proof.
  intros Ho Hd Ht. destruct (Z.lt_ge_cases now (v t)) as [| Hle]; [done |]. exfalso.
  assert (t ∈ due v now l) as Hin by (apply due_in; [done | | lia]; rewrite (due_app v now l); set_solver +Ht).
  rewrite (due_app v now l) in Hd. apply list.NoDup_app in Hd as (_ & Hd & _). by apply (Hd t).
Qed.
Lemma in_order_ext v v' l : (forall t, t ∈ l -> v t = v' t) -> in_order v l -> in_order v' l.
Proof. intros E Ho i j x y Hij Hi Hj. rewrite <- !E by (by eapply list_elem_of_lookup_2). by apply (Ho i j). Qed.
Lemma in_order_app v l1 l2 : in_order v (l1 ++ l2) -> in_order v l2.
Proof. induction l1 as [| x l1 IH]; [done |]. intros [_ H]%in_order_cons. auto. Qed.

(** The ticks a blocked task still has to wait. *)
Definition ticks_left (k : kernel) (t : Z) : option Z :=
  c ← tcbs k !! t;
  l ← container (xGenericListItem c);
  if decide (l = pxDelayedTaskList k) then Some (item_value (xGenericListItem c) - xTickCount k)
  else if decide (l = pxOverflowDelayedTaskList k) then Some (item_value (xGenericListItem c) + 2 ^ 32 - xTickCount k)
  else None.

(** The delayed lists are in the order of their times, which lie ahead: those in
    the overflow list behind the next wrap of the tick count. *)
Record timed (k : kernel) : Prop := {
  tm_tick : 0 <= xTickCount k < 2 ^ 32;
  tm_delayed t : t ∈ klists k (pxDelayedTaskList k) -> xTickCount k < values generic_item k t < 2 ^ 32;
  tm_overflow t : t ∈ klists k (pxOverflowDelayedTaskList k) -> 0 <= values generic_item k t < xTickCount k;
  tm_order : in_order (values generic_item k) (klists k (pxDelayedTaskList k));
  tm_order' : in_order (values generic_item k) (klists k (pxOverflowDelayedTaskList k));
  tm_next t : t ∈ klists k (pxDelayedTaskList k) -> xNextTaskUnblockTime k <= values generic_item k t }.

(** The same when the tick count has just reached a new value. *)
Record arrived (k : kernel) : Prop := {
  ar_tick : 0 <= xTickCount k < 2 ^ 32;
  ar_delayed t : t ∈ klists k (pxDelayedTaskList k) -> xTickCount k <= values generic_item k t < 2 ^ 32;
  ar_overflow t : t ∈ klists k (pxOverflowDelayedTaskList k) -> 0 <= values generic_item k t < xTickCount k;
  ar_order : in_order (values generic_item k) (klists k (pxDelayedTaskList k));
  ar_order' : in_order (values generic_item k) (klists k (pxOverflowDelayedTaskList k));
  ar_next t : t ∈ klists k (pxDelayedTaskList k) -> xNextTaskUnblockTime k <= values generic_item k t }.

Lemma overflow_kind k : kind_of (pxOverflowDelayedTaskList k) = generic_item /\
  (forall p, pxOverflowDelayedTaskList k <> pxReadyTasksLists p) /\ pxOverflowDelayedTaskList k <> pxDelayedTaskList k.
Proof. unfold pxOverflowDelayedTaskList, pxDelayedTaskList. by destruct (delayed_is_1 k). Qed.

Lemma left_delayed k t : kwf k -> t ∈ klists k (pxDelayedTaskList k) -> ticks_left k t = Some (values generic_item k t - xTickCount k).
Proof.
  intros Hk (c & Hc & E)%(k_in k Hk). destruct (delayed_kind k) as [Hd _]. rewrite Hd in E. cbn in E.
  unfold ticks_left, values. rewrite Hc. cbn. rewrite E. cbn. by rewrite decide_True.
Qed.
Lemma left_overflow k t : kwf k -> t ∈ klists k (pxOverflowDelayedTaskList k) ->
  ticks_left k t = Some (values generic_item k t + 2 ^ 32 - xTickCount k).
Proof.
  intros Hk (c & Hc & E)%(k_in k Hk). destruct (overflow_kind k) as (Hd & _ & Hne). rewrite Hd in E. cbn in E.
  unfold ticks_left, values. rewrite Hc. cbn. rewrite E. cbn. by rewrite decide_False, decide_True.
Qed.
Lemma left_inv k t d : kwf k -> ticks_left k t = Some d ->
  t ∈ klists k (pxDelayedTaskList k) /\ d = values generic_item k t - xTickCount k \/
  t ∈ klists k (pxOverflowDelayedTaskList k) /\ d = values generic_item k t + 2 ^ 32 - xTickCount k.
Proof.
  intros Hk H. unfold ticks_left in H. destruct (tcbs k !! t) as [c |] eqn:Hc; [| done]. cbn in H.
  destruct (container (xGenericListItem c)) as [l |] eqn:E; [| done]. cbn in H.
  destruct (delayed_kind k) as [Hd _]. destruct (overflow_kind k) as (Ho & _ & _).
  destruct (decide (l = pxDelayedTaskList k)) as [-> | _]; [| destruct (decide (l = pxOverflowDelayedTaskList k)) as [-> | _]; [| done]].
  - left. split; [apply (k_in k Hk); exists c; by rewrite Hd | rewrite (values_tcb _ k t c Hc); by injection H as <-].
  - right. split; [apply (k_in k Hk); exists c; by rewrite Ho | rewrite (values_tcb _ k t c Hc); by injection H as <-].
Qed.

Lemma left_none k t : kwf k ->
  (ticks_left k t = None <-> t ∉ klists k (pxDelayedTaskList k) /\ t ∉ klists k (pxOverflowDelayedTaskList k)).
Proof.
  intros Hk. split.
  - intros E. split; intros Hin; [rewrite left_delayed in E | rewrite left_overflow in E]; done.
  - intros [H1 H2]. destruct (ticks_left k t) as [d |] eqn:E; [| done]. by apply left_inv in E as [[? _] | [? _]].
Qed.

Lemma readied_all_spec ts : forall k k', kwf k -> readied_all ts k k' ->
  frame k k' /\ kwf k' /\
  (forall t, t ∈ ts -> is_ready k' t /\ forall c, tcbs k' !! t = Some c -> container (xEventListItem c) = None) /\
  (forall y, y ∉ ts -> tcbs k' !! y = tcbs k !! y) /\
  (forall m, kind_of m = generic_item -> (forall p, m <> pxReadyTasksLists p) -> (forall y, y ∈ ts -> y ∉ klists k m) ->
    klists k' m = klists k m).
Proof.
  induction ts as [| x ts IH]; intros k k' Hk H; cbn [readied_all] in H.
  - subst k'. split_and!; try done. intros t Ht. by apply elem_of_nil in Ht.
  - destruct H as (k1 & H1 & H). pose proof (r_kwf _ _ _ H1) as Hk1.
    destruct (IH k1 k' Hk1 H) as (Hf & Hk' & Hr & Hy & Hm). split_and!; try done.
    + etrans; [by apply (r_frame x) | done].
    + intros t Ht. destruct (decide (t ∈ ts)) as [Hin | Hni]; [by apply Hr |].
      apply elem_of_cons in Ht as [-> | Ht]; [| done]. pose proof (Hy x Hni) as Et. split.
      * destruct (r_ready _ _ _ H1) as (c & p & Hc & E). exists c, p. by rewrite Et.
      * intros c. rewrite Et. apply (r_event _ _ _ H1).
    + intros y [Hne Hni]%not_elem_of_cons. rewrite Hy by done. by apply (r_tcbs _ _ _ H1).
    + intros m Hg Hnr Hd. assert (klists k1 m = klists k m) as E.
      { rewrite (r_generic _ _ _ H1) by done. apply remove_item_notin, Hd. left. }
      rewrite Hm; [done.. |]. intros y Hin. rewrite E. apply Hd. by right.
Qed.

(** Time advances by one: every time that is left goes down by one, also when
    the count wraps and the two lists are switched. *)
Lemma tick_arrives k : kwf k -> placed k -> timed k ->
  let now := wrap_u 32 (xTickCount k + 1) in
  exists k2, when (now =? 0) taskSWITCH_DELAYED_LISTS (set_tick now k) = Ret (tt, k2) /\ same_tasks k k2 /\ arrived k2 /\
    xTickCount k2 = now /\ uxSchedulerSuspended k2 = uxSchedulerSuspended k /\
    (forall t d, ticks_left k t = Some d -> 1 <= d /\ ticks_left k2 t = Some (d - 1)) /\
    (forall t, ticks_left k t = None -> ticks_left k2 t = None).
Proof.
  intros Hk Hp [Ht Hd Ho Hod Hoo Hn] now. assert (2 ^ 32 = 4294967296) as E32 by done.
  assert (forall t d, ticks_left k t = Some d -> 1 <= d) as Hpos.
  { intros t d [[Hin ->] | [Hin ->]]%left_inv; [| | done]; [specialize (Hd t Hin) | specialize (Ho t Hin)]; lia. }
  destruct (decide (xTickCount k = 2 ^ 32 - 1)) as [E | E].
  - assert (now = 0) as En by (unfold now; by rewrite E). rewrite En. cbn [when Z.eqb].
    assert (klists k (pxDelayedTaskList k) = []) as Enil.
    { destruct (klists k (pxDelayedTaskList k)) as [| x l]; [done |]. specialize (Hd x ltac:(left)). lia. }
    set (k1 := set_overflows (wrap_s 32 (xNumOfOverflows k + 1)) (set_delayed_is_1 (negb (delayed_is_1 k)) (set_tick 0 k))).
    assert (pxDelayedTaskList k1 = pxOverflowDelayedTaskList k /\ pxOverflowDelayedTaskList k1 = pxDelayedTaskList k) as [Ed Eo]
      by (unfold pxDelayedTaskList, pxOverflowDelayedTaskList, k1; cbn; by destruct (delayed_is_1 k)).
    assert (exists v, prvResetNextTaskUnblockTime k1 = Ret (tt, set_unblock v k1) /\
      forall t, t ∈ klists k (pxOverflowDelayedTaskList k) -> v <= values generic_item k t) as (v & Hr & Hv).
    { unfold prvResetNextTaskUnblockTime. erewrite run_bind by done. rewrite Ed. change (klists k1) with (klists k).
      destruct (klists k (pxOverflowDelayedTaskList k)) as [| x l] eqn:El.
      - exists portMAX_DELAY. split; [done |]. intros t Hin. by apply elem_of_nil in Hin.
      - destruct (proj1 (k_in k Hk (pxOverflowDelayedTaskList k) x)) as (c & Hc & _); [rewrite El; left |].
        exists (item_value (xGenericListItem c)). erewrite run_bind by (by apply get_tcb_run). split; [done |].
        apply in_order_cons in Hoo as [Hx _]. intros t [-> | Hin]%elem_of_cons; [by rewrite (values_tcb _ k x c Hc) |].
        specialize (Hx t Hin). by rewrite (values_tcb _ k x c Hc) in Hx. }
    exists (set_unblock v k1). split; [| split_and!].
    + unfold taskSWITCH_DELAYED_LISTS. erewrite run_bind by done. change (pxDelayedTaskList (set_tick 0 k)) with (pxDelayedTaskList k).
      cbn [klists set_tick]. rewrite Enil. erewrite run_bind by done. erewrite run_bind by done. by erewrite run_bind by done.
    + done.
    + split; change (pxDelayedTaskList (set_unblock v k1)) with (pxDelayedTaskList k1);
        change (pxOverflowDelayedTaskList (set_unblock v k1)) with (pxOverflowDelayedTaskList k1); rewrite ?Ed, ?Eo; cbn.
      * lia.
      * intros t Hin. specialize (Ho t Hin). change (values generic_item (set_unblock v k1) t) with (values generic_item k t). lia.
      * rewrite Enil. intros t Hin. by apply elem_of_nil in Hin.
      * done.
      * done.
      * done.
    + done.
    + done.
    + intros t d Hl. split; [by eapply Hpos |]. apply left_inv in Hl as [[Hin ->] | [Hin ->]]; [| | done].
      * rewrite Enil in Hin. by apply elem_of_nil in Hin.
      * rewrite left_delayed; [| by destruct Hk | exact Hin || (change (pxDelayedTaskList (set_unblock v k1)) with (pxDelayedTaskList k1); by rewrite Ed)].
        f_equal. change (values generic_item (set_unblock v k1) t) with (values generic_item k t). cbn. lia.
    + intros t Hl. apply left_none in Hl as [H1 H2]; [| done]. apply left_none; [by destruct Hk |].
      change (pxDelayedTaskList (set_unblock v k1)) with (pxDelayedTaskList k1).
      change (pxOverflowDelayedTaskList (set_unblock v k1)) with (pxOverflowDelayedTaskList k1). by rewrite Ed, Eo.
  - assert (now = xTickCount k + 1) as En by (apply wrap_u_small; lia).
    rewrite (proj2 (Z.eqb_neq now 0)) by lia. exists (set_tick now k). split_and!; try done.
    + split; cbn; try done; try lia.
      * intros t Hin. specialize (Hd t Hin). change (values generic_item (set_tick now k) t) with (values generic_item k t). lia.
      * intros t Hin. specialize (Ho t Hin). change (values generic_item (set_tick now k) t) with (values generic_item k t). lia.
    + intros t d Hl. split; [by eapply Hpos |]. apply left_inv in Hl as [[Hin ->] | [Hin ->]]; [| | done].
      * rewrite left_delayed; [| by destruct Hk | done]. f_equal. change (values generic_item (set_tick now k) t) with (values generic_item k t). cbn. lia.
      * rewrite left_overflow; [| by destruct Hk | done]. f_equal. change (values generic_item (set_tick now k) t) with (values generic_item k t). cbn. lia.
    + intros t Hl. apply left_none in Hl as [H1 H2]; [| done]. apply left_none; [by destruct Hk | done].
Qed.

Lemma ticks_left_ext k k' t : tcbs k' !! t = tcbs k !! t -> delayed_is_1 k' = delayed_is_1 k -> xTickCount k' = xTickCount k ->
  ticks_left k' t = ticks_left k t.
Proof. intros E1 E2 E3. unfold ticks_left, pxDelayedTaskList, pxOverflowDelayedTaskList. by rewrite E1, E2, E3. Qed.

Definition waits_nowhere (k : kernel) (t : Z) : Prop := forall m, kind_of m = event_item -> t ∉ klists k m.

Lemma waits_nowhere_intro k t : kwf k -> (forall c, tcbs k !! t = Some c -> container (xEventListItem c) = None) -> waits_nowhere k t.
Proof. intros Hk H m Hm (c & Hc & E)%(k_in k Hk). rewrite Hm in E. cbn in E. by rewrite (H c Hc) in E. Qed.

Lemma tick_loop_run k : kwf k -> placed k -> arrived k ->
  exists b k3, (if xNextTaskUnblockTime k <=? xTickCount k
      then unblock_loop (S (length (klists k (pxDelayedTaskList k)))) (xTickCount k) else mret false) k = Ret (b, k3) /\
    timed k3 /\ calm k k3 /\ frame k k3 /\
    (forall t d, ticks_left k t = Some d ->
      if d =? 0 then is_ready k3 t /\ waits_nowhere k3 t else ticks_left k3 t = Some d /\ tcbs k3 !! t = tcbs k !! t) /\
    (forall t, ticks_left k t = None -> tcbs k3 !! t = tcbs k !! t).
Proof.
  intros Hk Hp [Ht Hd Ho Hod Hoo Hn]. destruct (Z.leb_spec (xNextTaskUnblockTime k) (xTickCount k)) as [Hle | Hlt].
  - set (l := klists k (pxDelayedTaskList k)) in *. set (v := values generic_item k) in *. set (now := xTickCount k) in *.
    destruct (unblock_loop_run now (S (length l)) k Hk Hp) as (b & k1 & Hr & Hall & Hl1); [fold l; lia |].
    fold l v in Hr, Hall, Hl1. destruct (readied_all_spec _ _ _ Hk Hall) as (Hf & Hk1 & Hready & Hsame & Hlists).
    set (k3 := set_unblock _ k1) in Hr. exists b, k3. split; [done |].
    assert (pxDelayedTaskList k3 = pxDelayedTaskList k /\ pxOverflowDelayedTaskList k3 = pxOverflowDelayedTaskList k) as [Ed Eo]
      by (unfold pxDelayedTaskList, pxOverflowDelayedTaskList, k3; cbn; by rewrite (f_delayed _ _ Hf)).
    pose proof (k_nodup k Hk (pxDelayedTaskList k)) as Hnd. fold l in Hnd.
    assert (forall t, t ∈ drop (length (due v now l)) l -> t ∉ due v now l) as Hdis.
    { intros t Hin Hin'. rewrite (due_app v now l) in Hnd. apply list.NoDup_app in Hnd as (_ & Hnd & _). by apply (Hnd t). }
    assert (klists k3 (pxOverflowDelayedTaskList k) = klists k (pxOverflowDelayedTaskList k)) as Elo.
    { destruct (overflow_kind k) as (Hok & Hor & _). apply (Hlists _ Hok Hor). intros y Hy%due_sub Hin.
      specialize (Hd y Hy). specialize (Ho y Hin). lia. }
    assert (forall t, tcbs k !! t = tcbs k1 !! t -> values generic_item k3 t = v t) as Hv by (intros t E; unfold v, values; by rewrite E).
    assert (forall t, t ∈ klists k (pxOverflowDelayedTaskList k) -> t ∉ due v now l) as Hod'.
    { intros t Hin Hdue%due_sub. specialize (Hd t Hdue). specialize (Ho t Hin). lia. }
    pose proof (readied_all_calm _ _ _ Hk Hp Hall) as Hc1.
    assert (calm k k3) as Hcalm by (etrans; [exact Hc1 | apply same_tasks_calm; [apply Hc1 | apply Hc1 | done]]).
    split_and!; try done.
    + split; rewrite ?Ed, ?Eo, ?Elo; change (klists k3) with (klists k1); rewrite ?Hl1; change (xTickCount k3) with (xTickCount k1);
        rewrite ?(f_tick _ _ Hf); fold now; try done.
      * intros t Hin. rewrite Hv by (symmetry; apply Hsame; auto). split; [by apply (due_rest v now l) |].
        apply Hd. rewrite (due_app v now l). apply elem_of_app. by right.
      * intros t Hin. rewrite Hv by (symmetry; apply Hsame; auto). auto.
      * apply (in_order_ext v); [intros t Hin; symmetry; apply Hv; symmetry; apply Hsame; auto |].
        apply (in_order_app v (due v now l)). by rewrite <- due_app.
      * apply (in_order_ext v); [intros t Hin; symmetry; apply Hv; symmetry; apply Hsame; auto | done].
      * intros t Hin. rewrite Hv by (symmetry; apply Hsame; auto). unfold k3, next_unblock. cbn.
        assert (in_order v (drop (length (due v now l)) l)) as Hor by (apply (in_order_app v (due v now l)); by rewrite <- due_app).
        destruct (drop _ l) as [| x xs]; [by apply elem_of_nil in Hin |]. apply in_order_cons in Hor as [Hx _].
        apply elem_of_cons in Hin as [-> | Hin]; [done | auto].
    + etrans; [done |]. destruct (moves_unblock k1 0 (next_unblock v now l)) as [? _]. done.
    + intros t d Hleft. assert (d = 0 <-> t ∈ due v now l) as Hiff.
      { apply left_inv in Hleft as [[Hin ->] | [Hin ->]]; [| | done].
        - rewrite (due_in v now l t Hod Hin). specialize (Hd t Hin). fold v now. lia.
        - specialize (Ho t Hin). fold v now. split; [lia | by intros ?%Hod']. }
      destruct (Z.eqb_spec d 0) as [E | E].
      * apply Hiff in E. destruct (Hready t E) as [Hre Hev]. split; [done |]. by apply (waits_nowhere_intro k1).
      * assert (t ∉ due v now l) as Hni by tauto. split; [| by apply Hsame].
        rewrite <- Hleft. apply ticks_left_ext; [by apply Hsame | apply Hf..].
    + intros t [Hni _]%left_none; [| done]. apply Hsame. by intros ?%due_sub.
  - exists false, k. split_and!; try done; [| by apply calm_refl |].
    + split; try done. intros t Hin. specialize (Hn t Hin). specialize (Hd t Hin). lia.
    + intros t d Hleft. apply left_inv in Hleft as Hin; [| done]. rewrite (proj2 (Z.eqb_neq d 0)); [done |].
      destruct Hin as [[Hin ->] | [Hin ->]]; [specialize (Hn t Hin); lia | specialize (Ho t Hin); lia].
Qed.

(** ** Ticks *)

(** The scheduler is not suspended where the ticks are counted. *)
Definition ticking (k : kernel) : Prop := xPortGetCoreID k = 0 /\ uxSchedulerSuspended k 0 = 0.

Lemma tick_run k : kwf k -> placed k -> timed k -> ticking k ->
  exists b k', xTaskIncrementTick k = Ret (b, k') /\ timed k' /\ calm k k' /\ ticking k' /\
    xTickCount k' = wrap_u 32 (xTickCount k + 1) /\
    (forall t d, ticks_left k t = Some d -> 1 <= d /\
      if d =? 1 then is_ready k' t /\ waits_nowhere k' t
      else ticks_left k' t = Some (d - 1) /\ tcbs k' !! t = tcbs k !! t) /\
    (forall t, ticks_left k t = None -> tcbs k' !! t = tcbs k !! t /\ ticks_left k' t = None).
Proof.
  intros Hk Hp Ht [Hc0 Hs0]. destruct (tick_arrives k Hk Hp Ht) as (k2 & Hr2 & Hst & Har & Hn2 & Hs2 & Hl2 & Hnone2).
  set (now := wrap_u 32 (xTickCount k + 1)) in *.
  pose proof (same_tasks_calm k k2 Hk Hp Hst) as Hcalm2. destruct Hcalm2 as [Hk2 Hp2] eqn:E; clear E.
  destruct (tick_loop_run k2 Hk2 Hp2 Har) as (b & k3 & Hr3 & Ht3 & Hcalm3 & Hf3 & Hl3 & Hnone3).
  destruct Hst as (Etc & Ekl & Eq & Eg & Ecu & Eco & _).
  destruct (current_tcb_run k3 (c_kwf _ _ Hcalm3)) as (cur & Hcur).
  unfold xTaskIncrementTick. erewrite run_bind by done. rewrite Hc0. cbn [Z.eqb negb].
  erewrite run_bind by done. rewrite Hs0. cbn [Z.eqb]. cbv beta iota.
  erewrite run_bind.
  2:{ erewrite run_bind by done. erewrite run_bind by done. cbv zeta. cbn [xTickCount set_tick]. fold now.
      erewrite run_bind by exact Hr2. erewrite run_bind by done.
      rewrite Hn2 in Hr3. erewrite run_bind by exact Hr3. erewrite run_bind by exact Hcur. by erewrite run_bind by done. }
  erewrite run_bind by done. eexists _, k3. split; [done |]. split_and!; try done.
  - etrans; [exact Hcalm2 | done].
  - split; [by rewrite (f_core _ _ Hf3), Eco | by rewrite (f_suspended _ _ Hf3), Hs2].
  - by rewrite (f_tick _ _ Hf3), Hn2.
  - intros t d Hl. destruct (Hl2 t d Hl) as [Hd Hl']. split; [done |]. specialize (Hl3 t (d - 1) Hl').
    replace (d =? 1) with (d - 1 =? 0) by (destruct (Z.eqb_spec (d - 1) 0), (Z.eqb_spec d 1); lia).
    rewrite <- Etc. by destruct (d - 1 =? 0).
  - intros t Hl. rewrite <- Etc. split; [auto |]. rewrite <- (Hnone2 t Hl). apply ticks_left_ext; [auto | apply Hf3..].
Qed.

Fixpoint ticks (m : nat) : K unit := match m with O => mret tt | S m => xTaskIncrementTick;; ticks m end.

Lemma ready_not_left k t : is_ready k t -> ticks_left k t = None.
Proof.
  intros (c & p & Hc & E). unfold ticks_left. rewrite Hc. cbn. rewrite E. cbn.
  destruct (delayed_kind k) as [_ Hd]. destruct (overflow_kind k) as (_ & Ho & _). by rewrite !decide_False.
Qed.

(** A ready task that waits for nothing stays so. *)
Lemma rested_same k k' t : kwf k -> kwf k' -> tcbs k' !! t = tcbs k !! t -> is_ready k t /\ waits_nowhere k t ->
  is_ready k' t /\ waits_nowhere k' t.
Proof.
  intros Hk Hk' E [(c & p & Hc & Hp) Hw]. split; [exists c, p; by rewrite E |].
  intros m Hm (x & Hx & Ex)%(k_in k' Hk'). apply (Hw m Hm), (k_in k Hk). exists x. by rewrite <- E.
Qed.

Lemma ticks_run (m : nat) : forall k, kwf k -> placed k -> timed k -> ticking k ->
  exists k', ticks m k = Ret (tt, k') /\ timed k' /\ calm k k' /\ ticking k' /\
    xTickCount k' = wrap_u 32 (xTickCount k + Z.of_nat m) /\
    (forall t d, ticks_left k t = Some d ->
      if Z.of_nat m <? d then ticks_left k' t = Some (d - Z.of_nat m) /\ tcbs k' !! t = tcbs k !! t
      else is_ready k' t /\ waits_nowhere k' t) /\
    (forall t, ticks_left k t = None -> tcbs k' !! t = tcbs k !! t).
Proof.
  induction m as [| m IH]; intros k Hk Hp Ht Hc.
  - exists k. split; [done |]. split_and!; try done; [by apply calm_refl | |].
    + rewrite Z.add_0_r. symmetry. apply wrap_u_small, Ht.
    + intros t d Hl. destruct (tick_run k Hk Hp Ht Hc) as (? & ? & _ & _ & _ & _ & _ & Hl1 & _). destruct (Hl1 t d Hl) as [Hd _].
      rewrite (proj2 (Z.ltb_lt _ _)) by lia. split; [rewrite Hl; f_equal; lia | done].
  - destruct (tick_run k Hk Hp Ht Hc) as (b & k1 & Hr & Ht1 & Hcalm1 & Hc1 & Hn1 & Hl1 & Ho1).
    destruct (IH k1 (c_kwf _ _ Hcalm1) (c_placed _ _ Hcalm1) Ht1 Hc1) as (k' & Hr' & Ht' & Hcalm' & Hc' & Hn' & Hl' & Ho').
    exists k'. cbn [ticks]. erewrite run_bind by exact Hr. split_and!; try done.
    + by etrans.
    + rewrite Hn', Hn1. unfold wrap_u. rewrite Zplus_mod_idemp_l. f_equal. lia.
    + intros t d Hl. destruct (Hl1 t d Hl) as [Hd H1]. destruct (Z.eqb_spec d 1) as [-> | Hne].
      * destruct (Z.ltb_spec (Z.of_nat (S m)) 1); [lia |].
        apply (rested_same k1); [apply Hcalm1 | apply Hcalm' | apply Ho', ready_not_left, H1 | done].
      * destruct H1 as [H1 E1]. specialize (Hl' t (d - 1) H1).
        replace (Z.of_nat (S m) <? d) with (Z.of_nat m <? d - 1)
          by (destruct (Z.ltb_spec (Z.of_nat m) (d - 1)), (Z.ltb_spec (Z.of_nat (S m)) d); lia).
        destruct (Z.of_nat m <? d - 1); [| done]. destruct Hl' as [Hl' E']. split; [rewrite Hl'; f_equal; lia | congruence].
    + intros t Hl. destruct (Ho1 t Hl) as [E1 El]. by rewrite Ho'.
Qed.

(** ** Blocking for a time *)

(** The running task [t] with the time [wake] goes to the list [l]. *)
Lemma insert_timed k t c wake l : kwf k -> tcbs k !! t = Some c -> container (xGenericListItem c) = None ->
  kind_of l = generic_item -> 0 <= wake < 2 ^ 32 ->
  let c1 := with_item generic_item (mkItem wake None) c in
  let k1 := set_tcbs (<[t := c1]> (tcbs k)) k in
  let k2 := link_item generic_item t c1 l (insert_sorted (values generic_item k1) t (klists k1 l)) k1 in
  (forall y, y <> t -> values generic_item k2 y = values generic_item k y) /\ values generic_item k2 t = wake /\
  (forall m, kind_of m = generic_item -> t ∉ klists k m) /\
  (forall m, m <> l -> klists k2 m = klists k m) /\ klists k2 l ≡ₚ t :: klists k l /\
  (in_order (values generic_item k) (klists k l) -> in_order (values generic_item k2) (klists k2 l)).
Proof.
  intros Hk Ht Hc Hl Hw c1 k1 k2.
  assert (forall y, y <> t -> values generic_item k2 y = values generic_item k y) as Hv
    by (intros y Hy; unfold values, k2, link_item, k1; cbn; by rewrite !lookup_insert_ne).
  assert (values generic_item k2 t = wake) as Hvt by (unfold values, k2, link_item; cbn; by rewrite lookup_insert_eq).
  assert (forall m, kind_of m = generic_item -> t ∉ klists k m) as Hnt.
  { intros m Hm (x & Hx & E)%(k_in k Hk). rewrite Ht in Hx. injection Hx as <-. rewrite Hm in E. cbn in E. congruence. }
  assert (klists k2 l = insert_sorted (values generic_item k1) t (klists k l)) as El by (unfold k2, link_item; cbn; by rewrite fn_lookup_insert).
  split_and!; try done.
  - intros m Hm. unfold k2, link_item. cbn. by rewrite fn_lookup_insert_ne.
  - rewrite El. apply insert_sorted_perm.
  - intros Ho. rewrite El. apply (in_order_ext (values generic_item k1)).
    + intros y _. destruct (decide (y = t)) as [-> | Hy].
      * rewrite Hvt. unfold values, k1. cbn. by rewrite lookup_insert_eq.
      * rewrite Hv by done. unfold values, k1. cbn. by rewrite lookup_insert_ne.
    + apply insert_sorted_in_order. apply (in_order_ext (values generic_item k)); [| done].
      intros y Hin. unfold values, k1. cbn. rewrite lookup_insert_ne; [done |]. intros <-. by apply (Hnt l).
Qed.

(** Off its list, the running task is put where its time belongs. *)
Lemma delay_timed k t c n : kwf k -> timed k -> pxCurrentTCB k (xPortGetCoreID k) = Some t -> tcbs k !! t = Some c ->
  container (xGenericListItem c) = None -> 0 < n < portMAX_DELAY ->
  exists k', prvAddCurrentTaskToDelayedList (wrap_u 32 (xTickCount k + n)) k = Ret (tt, k') /\ timed k' /\
    ticks_left k' t = Some n /\ uxSchedulerSuspended k' = uxSchedulerSuspended k.
Proof.
  intros Hk [Ht Hd Ho Hod Hoo Hn] Hcur Htc Hc Hrange. assert (2 ^ 32 = 4294967296 /\ portMAX_DELAY = 4294967295) as [E32 Emax] by done.
  set (wake := wrap_u 32 (xTickCount k + n)). pose proof (wrap_u_range 32 (xTickCount k + n) ltac:(lia)) as Hwake. fold wake in Hwake.
  assert (current k = Ret (t, k)) as Hcr by (unfold current; erewrite run_bind by done; by rewrite Hcur).
  unfold prvAddCurrentTaskToDelayedList, listSET_LIST_ITEM_VALUE. erewrite run_bind by done.
  erewrite run_bind by (by apply update_tcb_run). erewrite run_bind by done. cbn [item_of_kind]. rewrite Hc.
  rewrite (wrap_u_small 32 wake) by lia.
  set (c1 := with_item generic_item (mkItem wake None) c). set (k1 := set_tcbs (<[t := c1]> (tcbs k)) k).
  assert (tcbs k1 !! t = Some c1) as Ht1 by (cbn; by rewrite lookup_insert_eq).
  destruct (overflow_kind k) as (Hok & _ & Hne). destruct (delayed_kind k) as [Hdk _].
  change (xTickCount k1) with (xTickCount k). change (pxDelayedTaskList k1) with (pxDelayedTaskList k).
  change (pxOverflowDelayedTaskList k1) with (pxOverflowDelayedTaskList k).
  assert (wake = xTickCount k + n /\ xTickCount k + n < 2 ^ 32 \/ wake = xTickCount k + n - 2 ^ 32) as Hcases.
  { unfold wake, wrap_u. destruct (Z.lt_ge_cases (xTickCount k + n) (2 ^ 32)).
    - left. rewrite Z.mod_small by lia. done.
    - right. rewrite <- (Z_mod_plus_full _ (-1)), Z.mod_small by lia. lia. }
  destruct (Z.ltb_spec wake (xTickCount k)) as [Hlt | Hge].
  - rewrite (list_insert_run _ _ _ c1 k1 Ht1).
    destruct (insert_timed k t c wake (pxOverflowDelayedTaskList k) Hk Htc Hc Hok Hwake) as (Hv & Hvt & Hnt & Hm & Hp & Hor).
    fold c1 k1 in Hv, Hvt, Hm, Hp, Hor. set (k2 := link_item _ _ _ _ _ k1) in *. exists k2. split; [done |]. split_and!; [| | done].
    + split; change (pxDelayedTaskList k2) with (pxDelayedTaskList k); change (pxOverflowDelayedTaskList k2) with (pxOverflowDelayedTaskList k);
        change (xTickCount k2) with (xTickCount k); change (xNextTaskUnblockTime k2) with (xNextTaskUnblockTime k); rewrite ?(Hm (pxDelayedTaskList k)) by done; try done; auto.
      * intros y Hin. rewrite Hv; [auto |]. intros ->. by apply (Hnt _ Hdk).
      * intros y. rewrite Hp. intros [-> | Hin]%elem_of_cons; [rewrite Hvt; lia |]. rewrite Hv; [auto |]. intros ->. by apply (Hnt _ Hok).
      * apply (in_order_ext (values generic_item k)); [| done]. intros y Hin. rewrite Hv; [done |]. intros ->. by apply (Hnt _ Hdk).
      * intros y Hin. rewrite Hv; [auto |]. intros ->. by apply (Hnt _ Hdk).
    + unfold ticks_left, k2, link_item. cbn. rewrite lookup_insert_eq. cbn.
      change (pxDelayedTaskList (set_tcbs _ _)) with (pxDelayedTaskList k). change (pxOverflowDelayedTaskList (set_tcbs _ _)) with (pxOverflowDelayedTaskList k).
      rewrite decide_False, decide_True by done. f_equal. lia.
  - erewrite run_bind by (by apply list_insert_run).
    destruct (insert_timed k t c wake (pxDelayedTaskList k) Hk Htc Hc Hdk Hwake) as (Hv & Hvt & Hnt & Hm & Hp & Hor).
    fold c1 k1 in Hv, Hvt, Hm, Hp, Hor. set (k2 := link_item _ _ _ _ _ k1) in *.
    set (next := if wake <? xNextTaskUnblockTime k then wake else xNextTaskUnblockTime k).
    assert (when (wake <? xNextTaskUnblockTime k1) (modify (set_unblock wake)) k2 = Ret (tt, set_unblock next k2)) as ->.
    { change (xNextTaskUnblockTime k1) with (xNextTaskUnblockTime k2). unfold next. change (xNextTaskUnblockTime k) with (xNextTaskUnblockTime k2).
      unfold when. destruct (wake <? xNextTaskUnblockTime k2); [done |]. by destruct k2. }
    exists (set_unblock next k2). split; [done |]. split_and!; [| | done].
    + assert (next <= wake /\ next <= xNextTaskUnblockTime k) as [Hn1 Hn2] by (unfold next; destruct (Z.ltb_spec wake (xNextTaskUnblockTime k)); lia).
      split; change (pxDelayedTaskList (set_unblock next k2)) with (pxDelayedTaskList k); change (pxOverflowDelayedTaskList (set_unblock next k2)) with (pxOverflowDelayedTaskList k);
        change (xTickCount (set_unblock next k2)) with (xTickCount k); change (klists (set_unblock next k2)) with (klists k2);
        change (values generic_item (set_unblock next k2)) with (values generic_item k2); change (xNextTaskUnblockTime (set_unblock next k2)) with next;
        rewrite ?(Hm (pxOverflowDelayedTaskList k)) by done; try done; auto.
      * intros y. rewrite Hp. intros [-> | Hin]%elem_of_cons; [rewrite Hvt; lia |]. rewrite Hv; [auto |]. intros ->. by apply (Hnt _ Hdk).
      * intros y Hin. rewrite Hv; [auto |]. intros ->. by apply (Hnt _ Hok).
      * apply (in_order_ext (values generic_item k)); [| done]. intros y Hin. rewrite Hv; [done |]. intros ->. by apply (Hnt _ Hok).
      * intros y. rewrite Hp. intros [-> | Hin]%elem_of_cons; [by rewrite Hvt |]. rewrite Hv by (intros ->; by apply (Hnt _ Hdk)). specialize (Hn y Hin). lia.
    + unfold ticks_left, k2, link_item. cbn. rewrite lookup_insert_eq. cbn.
      change (pxDelayedTaskList (set_unblock _ _)) with (pxDelayedTaskList k). rewrite decide_True by done. f_equal. lia.
Qed.

Lemma timed_same k k' : timed k -> delayed_is_1 k' = delayed_is_1 k -> xTickCount k' = xTickCount k ->
  xNextTaskUnblockTime k' = xNextTaskUnblockTime k ->
  (forall m, kind_of m = generic_item -> (forall p, m <> pxReadyTasksLists p) -> klists k' m = klists k m) ->
  (forall y, values generic_item k' y = values generic_item k y) -> timed k'.
Proof.
  intros [Ht Hd Ho Hod Hoo Hn] E1 E2 E3 El Ev. destruct (delayed_kind k) as [Hdk Hdr]. destruct (overflow_kind k) as (Hok & Hor & _).
  assert (pxDelayedTaskList k' = pxDelayedTaskList k /\ pxOverflowDelayedTaskList k' = pxOverflowDelayedTaskList k) as [Ed Eo]
    by (unfold pxDelayedTaskList, pxOverflowDelayedTaskList; by rewrite E1).
  split; rewrite ?Ed, ?Eo, ?E2, ?E3, ?El by done; try done.
  - intros t Hin. rewrite Ev. auto.
  - intros t Hin. rewrite Ev. auto.
  - eapply in_order_ext; [| exact Hod]. intros; by rewrite Ev.
  - eapply in_order_ext; [| exact Hoo]. intros; by rewrite Ev.
  - intros t Hin. rewrite Ev. auto.
Qed.

Lemma values_relink k t c v y i : tcbs k !! t = Some c -> item_value v = item_value (item_of_kind i c) ->
  values generic_item (set_tcbs (<[t := with_item i v c]> (tcbs k)) k) y = values generic_item k y.
Proof.
  intros Ht E. unfold values. cbn. task_cases y t; [| done]. rewrite Ht. by destruct i.
Qed.

Lemma vTaskPlaceOnEventList_timed k l t c n : kwf k -> placed k -> quiet k -> timed k -> wait_list l ->
  pxCurrentTCB k (xPortGetCoreID k) = Some t -> tcbs k !! t = Some c -> is_ready k t -> 0 < n < portMAX_DELAY ->
  exists k1, vTaskPlaceOnEventList l n k = Ret (tt, k1) /\ timed k1 /\ ticks_left k1 t = Some n /\
    uxSchedulerSuspended k1 = uxSchedulerSuspended k.
Proof.
  intros Hk Hp Hq Ht [Hl _] Hcur Htc Hr Hn. pose proof (quiet_event k t c Hk Hq Hr Htc) as Hev.
  destruct Hr as (x & p & Hx & Hg). rewrite Htc in Hx. injection Hx as <-.
  assert (current k = Ret (t, k)) as Hc by (unfold current; erewrite run_bind by done; by rewrite Hcur).
  unfold vTaskPlaceOnEventList. erewrite run_bind by done. erewrite run_bind by (by apply list_insert_run).
  set (k1 := link_item event_item t c l (insert_sorted (values event_item k) t (klists k l)) k).
  set (c1 := with_item event_item (mkItem (item_value (xEventListItem c)) (Some l)) c).
  assert (kwf k1) as Hk1 by (apply link_kwf; try done; apply insert_sorted_perm).
  assert (tcbs k1 !! t = Some c1) as Ht1 by (unfold k1, link_item; cbn; by rewrite lookup_insert_eq).
  assert (timed k1) as Htm1.
  { apply (timed_same k); try done.
    - intros m Hm _. unfold k1, link_item. cbn. rewrite fn_lookup_insert_ne; [done | congruence].
    - intros y. exact (values_relink k t c (mkItem (item_value (xEventListItem c)) (Some l)) y event_item Htc eq_refl). }
  assert (current k1 = Ret (t, k1)) as Hc1 by (unfold current; erewrite run_bind by done; unfold k1, link_item; cbn; by rewrite Hcur).
  unfold block_current. erewrite run_bind by exact Hc1. erewrite run_bind by (by apply (list_remove_run generic_item t c1)).
  erewrite run_bind by done. rewrite (proj2 (Z.eqb_neq n portMAX_DELAY)) by lia. cbv beta.
  set (k2 := unlink_item generic_item t c1 (pxReadyTasksLists p) k1).
  set (c2 := with_item generic_item (mkItem (item_value (xGenericListItem c1)) None) c1).
  assert (timed k2) as Htm2.
  { apply (timed_same k1); try done.
    - intros m _ Hm. unfold k2, unlink_item. cbn. by rewrite fn_lookup_insert_ne.
    - intros y. exact (values_relink k1 t c1 (mkItem (item_value (xGenericListItem c1)) None) y generic_item Ht1 eq_refl). }
  change (xTickCount k2) with (xTickCount k2).
  destruct (delay_timed k2 t c2 n) as (k3 & Hr3 & Htm3 & Hl3 & Hs3); try done.
  - by apply unlink_kwf.
  - unfold k2, unlink_item. cbn. by rewrite lookup_insert_eq.
  - by exists k3.
Qed.

(** C25. Time.  A running task that goes to wait on an event list for [n] ticks
    (less than portMAX_DELAY) and whom nobody wakes before is still on that list,
    and not ready, after any number of ticks below [n], and from the [n]-th tick
    on it is ready and waits for nothing.  The same holds of every other blocked
    task and the ticks it has left.  No tick faults, although the count wraps to
    0 and the two delayed lists are switched under an assertion, and the times
    kept for the tasks stay in order. *)
Theorem delay_exact k l t c n (m : nat) :
  kwf k -> placed k -> quiet k -> timed k -> ticking k -> wait_list l ->
  pxCurrentTCB k (xPortGetCoreID k) = Some t -> tcbs k !! t = Some c -> is_ready k t -> 0 < n < portMAX_DELAY ->
  exists k1 k', vTaskPlaceOnEventList l n k = Ret (tt, k1) /\ ticks m k1 = Ret (tt, k') /\ timed k' /\
    xTickCount k' = wrap_u 32 (xTickCount k + Z.of_nat m) /\
    (if Z.of_nat m <? n then t ∈ klists k' l /\ ~ is_ready k' t else is_ready k' t /\ waits_nowhere k' t) /\
    (forall y d, ticks_left k y = Some d ->
      if Z.of_nat m <? d then ticks_left k' y = Some (d - Z.of_nat m) /\ tcbs k' !! y = tcbs k !! y
      else is_ready k' y /\ waits_nowhere k' y).
Proof.
  intros Hk Hp Hq Ht [Hc0 Hs0] Hl Hcur Htc Hr Hn.
  destruct (vTaskPlaceOnEventList_timed k l t c n) as (k1 & Hr1 & Ht1 & Hl1 & Hs1); try done.
  destruct (vTaskPlaceOnEventList_run k l t c n) as (k1' & Hr1' & Hk1 & Hp1 & Hf1 & Hin1 & _ & Hy1 & Hnr1 & _); try done; [by apply (quiet_event k t)|].
  rewrite Hr1 in Hr1'. injection Hr1' as <-.
  assert (ticking k1) as Hc1 by (split; [by rewrite (f_core _ _ Hf1) | by rewrite Hs1]).
  destruct (ticks_run m k1 Hk1 Hp1 Ht1 Hc1) as (k' & Hr' & Ht' & Hcalm & _ & Hnow & Hleft & _).
  exists k1, k'. split_and!; try done.
  - by rewrite Hnow, (f_tick _ _ Hf1).
  - specialize (Hleft t n Hl1). destruct (Z.of_nat m <? n); [| done]. destruct Hleft as [Hlt Et]. split.
    + apply (k_in k' (c_kwf _ _ Hcalm)). rewrite Et. apply (k_in k1 Hk1). rewrite Hin1, insert_sorted_perm. left.
    + intros Hre%ready_not_left. congruence.
  - intros y d Hd. assert (y <> t) as Hne by (intros ->; by rewrite (ready_not_left k t Hr) in Hd).
    specialize (Hleft y d). rewrite (ticks_left_ext k k1) in Hleft; [| auto | apply Hf1..]. specialize (Hleft Hd).
    rewrite Hy1 in Hleft by done. done.
Qed.

(** * Time-outs *)

(** The ticks since the time-out state was set, in terms of a clock that does
    not wrap; xNumOfOverflows is the number of its wraps. *)
Definition at_time (k : kernel) (now : Z) : Prop := xTickCount k = now mod 2 ^ 32 /\ xNumOfOverflows k = wrap_s 32 (now / 2 ^ 32).
Definition entered_at (to : TimeOut_t) (start : Z) : Prop :=
  xTimeOnEntering to = start mod 2 ^ 32 /\ xOverflowCount to = wrap_s 32 (start / 2 ^ 32).

Lemma vTaskSetTimeOutState_run k now : at_time k now -> exists to, vTaskSetTimeOutState k = Ret (to, k) /\ entered_at to now.
Proof. intros [H1 H2]. eexists. split; [done |]. by split. Qed.

Lemma elapsed_exact now start : start <= now -> now - start < 2 ^ 32 ->
  wrap_u 32 (now mod 2 ^ 32 - start mod 2 ^ 32) = now - start /\
  (wrap_s 32 (now / 2 ^ 32) <> wrap_s 32 (start / 2 ^ 32) -> now mod 2 ^ 32 < start mod 2 ^ 32).
Proof.
  intros Hle Hlt. split.
  - unfold wrap_u. rewrite <- Zminus_mod. apply Z.mod_small. lia.
  - intros Hne. pose proof (Z.div_mod now (2 ^ 32) ltac:(lia)). pose proof (Z.div_mod start (2 ^ 32) ltac:(lia)).
    pose proof (Z.mod_pos_bound now (2 ^ 32) ltac:(lia)). pose proof (Z.mod_pos_bound start (2 ^ 32) ltac:(lia)).
    destruct (decide (now / 2 ^ 32 = start / 2 ^ 32)) as [E | E]; [by rewrite E in Hne |]. nia.
Qed.

(** C37. Time-outs.  Less than 2^32 ticks after the time-out state was set (or last
    checked), wherever the count wrapped in between, xTaskCheckForTimeOut
    reports a time-out exactly when the ticks to wait have passed; otherwise it
    restarts the state at the present and leaves the remaining ticks, so that
    the sum of the waits of a call is what the caller asked for.  A wait of
    portMAX_DELAY never times out.  Later than that a time-out can be missed:
    when the count wrapped twice and stands below where it was, only the ticks
    beyond the last 2^32 are seen. *)
Theorem xTaskCheckForTimeOut_spec k to now start w :
  at_time k now -> entered_at to start -> start <= now -> 0 <= w < 2 ^ 32 ->
  (w = portMAX_DELAY -> xTaskCheckForTimeOut to w k = Ret ((false, to, w), k)) /\
  (w <> portMAX_DELAY -> now - start < 2 ^ 32 ->
    (w <= now - start -> xTaskCheckForTimeOut to w k = Ret ((true, to, w), k)) /\
    (now - start < w -> exists to', xTaskCheckForTimeOut to w k = Ret ((false, to', w - (now - start)), k) /\ entered_at to' now)) /\
  (w <> portMAX_DELAY -> forall e, now = start + 2 ^ 32 + e -> 0 <= e < w -> 2 ^ 32 <= start mod 2 ^ 32 + e ->
    exists to', xTaskCheckForTimeOut to w k = Ret ((false, to', w - e), k)).
Proof.
  intros [Htick Hover] [Hto1 Hto2] Hle Hw. unfold xTaskCheckForTimeOut, vTaskSetTimeOutState.
  split; [| split].
  - intros ->. done.
  - intros Hne Hlt. destruct (elapsed_exact now start Hle Hlt) as [Ee Ho].
    assert (negb (xNumOfOverflows k =? xOverflowCount to) && (xTimeOnEntering to <=? xTickCount k) = false) as Ec.
    { rewrite Htick, Hover, Hto1, Hto2. destruct (Z.eqb_spec (wrap_s 32 (now / 2 ^ 32)) (wrap_s 32 (start / 2 ^ 32))) as [E | E]; [done |].
      specialize (Ho E). by rewrite (proj2 (Z.leb_gt _ _)). }
    erewrite run_bind by done. rewrite (proj2 (Z.eqb_neq _ _) Hne), Ec, Htick, Hto1, Ee. split; intros Hx.
    + by rewrite (proj2 (Z.ltb_ge _ _)) by lia.
    + rewrite (proj2 (Z.ltb_lt _ _)) by lia. exists (mkTimeOut (xNumOfOverflows k) (xTickCount k)). split; [| by split].
      unfold gets, mbind, st_bind, mret, st_ret. do 3 f_equal. apply wrap_u_small. lia.
  - intros Hne e -> He Hbig. assert (now_mod : (start + 2 ^ 32 + e) mod 2 ^ 32 = start mod 2 ^ 32 + e - 2 ^ 32).
    { pose proof (Z.div_mod start (2 ^ 32) ltac:(lia)). pose proof (Z.mod_pos_bound start (2 ^ 32) ltac:(lia)).
      symmetry. apply (Z.mod_unique _ _ (start / 2 ^ 32 + 2)); lia. }
    erewrite run_bind by done. rewrite (proj2 (Z.eqb_neq _ _) Hne), Htick, Hto1, now_mod.
    pose proof (Z.mod_pos_bound start (2 ^ 32) ltac:(lia)).
    assert (start mod 2 ^ 32 <=? start mod 2 ^ 32 + e - 2 ^ 32 = false) as -> by (apply Z.leb_gt; lia). rewrite andb_false_r.
    assert (wrap_u 32 (start mod 2 ^ 32 + e - 2 ^ 32 - start mod 2 ^ 32) = e) as ->.
    { replace (start mod 2 ^ 32 + e - 2 ^ 32 - start mod 2 ^ 32) with (e + (-1) * 2 ^ 32) by lia.
      unfold wrap_u. rewrite Z_mod_plus_full. apply Z.mod_small. lia. }
    rewrite (proj2 (Z.ltb_lt _ _)) by lia. exists (mkTimeOut (xNumOfOverflows k) (xTickCount k)).
    unfold gets, mbind, st_bind, mret, st_ret. do 3 f_equal. apply wrap_u_small. lia.
Qed.

(** * Ticks pended while the scheduler is suspended *)

(** The ticks that interrupts of core 0 left pending are counted when the
    scheduler is resumed, but only core 0 counts: xTaskIncrementTick returns at
    once on the other core, and the loop of xTaskResumeAll still takes each
    pended tick off. *)
Lemma pended_ticks_lost : forall fuel k, xPortGetCoreID k <> 0 -> 0 <= uxPendedTicks k < 2 ^ 32 ->
  (Z.to_nat (uxPendedTicks k) < fuel)%nat ->
  exists k', pended_ticks_loop fuel k = Ret (tt, k') /\ xTickCount k' = xTickCount k /\ uxPendedTicks k' = 0.
Proof.
  induction fuel as [| fuel IH]; intros k Hc Hn Hf; [lia |]. cbn [pended_ticks_loop]. erewrite run_bind by done.
  destruct (Z.ltb_spec 0 (uxPendedTicks k)) as [Hpos | Hz]; [| exists k; split_and!; [done | done | lia]].
  assert (xTaskIncrementTick k = Ret (true, k)) as Ht.
  { unfold xTaskIncrementTick, core_id. erewrite run_bind by done. by rewrite (proj2 (Z.eqb_neq _ _) Hc). }
  erewrite run_bind by exact Ht. erewrite run_bind by done. erewrite run_bind by done.
  cbn [uxPendedTicks set_yield_pending]. rewrite (wrap_u_small 32 (uxPendedTicks k - 1)) by lia.
  destruct (IH (set_pended (uxPendedTicks k - 1) (set_yield_pending (<[xPortGetCoreID k := true]> (xYieldPending k)) k)))
    as (k' & Hr & Ht' & Hp'); [done | cbn; lia | cbn; lia |].
  exists k'. split_and!; done.
Qed.

Theorem resume_loses_ticks k : xPortGetCoreID k = 1 -> uxSchedulerSuspended k 1 = 1 -> 0 < uxCurrentNumberOfTasks k ->
  klists k (xPendingReadyList 1) = [] -> 0 <= uxPendedTicks k < 2 ^ 32 ->
  exists b k', xTaskResumeAll k = Ret (b, k') /\ xTickCount k' = xTickCount k /\ uxPendedTicks k' = 0.
Proof.
  intros Hc Hs Hn Hl Hp. unfold xTaskResumeAll. erewrite run_bind by done. rewrite Hc, Hs.
  erewrite run_bind by done. erewrite run_bind by done. erewrite run_bind by done.
  set (k1 := set_suspended _ k). assert (uxSchedulerSuspended k1 1 = 0) as -> by (unfold k1; cbn; by rewrite fn_lookup_insert, Hs).
  rewrite (proj2 (Z.ltb_lt _ _)) by done. cbn [Z.eqb andb]. cbv iota.
  erewrite run_bind; cycle 1.
  { cbn [pending_loop]. erewrite run_bind by done. unfold get_list. erewrite run_bind by done.
    change (xPortGetCoreID k1) with (xPortGetCoreID k). rewrite Hc. change (klists k1) with (klists k). rewrite Hl. done. }
  erewrite run_bind by done. change (uxPendedTicks k1) with (uxPendedTicks k).
  assert (exists k2, when (0 <? uxPendedTicks k) (pended_ticks_loop (S (Z.to_nat (uxPendedTicks k)))) k1 = Ret (tt, k2) /\
    xTickCount k2 = xTickCount k /\ uxPendedTicks k2 = 0) as (k2 & Hr2 & Ht2 & Hp2).
  { unfold when. destruct (Z.ltb_spec 0 (uxPendedTicks k)).
    - destruct (pended_ticks_lost (S (Z.to_nat (uxPendedTicks k))) k1) as (k2 & ? & ? & ?); [cbn; lia | done | cbn; lia |]. by exists k2.
    - exists k1. split_and!; [done | done | cbn; lia]. }
  erewrite run_bind by exact Hr2. erewrite run_bind by done. destruct (xYieldPending k2 1).
  - eexists true, _. split; [done |]. done.
  - by exists false, k2.
Qed.

(** * The tick and the resume only wake tasks *)

(** The part of a run that is left, with the steps so far. *)
Lemma calm_then k k1 k' : kwf k -> placed k -> calm k k1 -> (kwf k1 -> placed k1 -> calm k1 k') -> calm k k'.
Proof. intros Hk Hp Hc H. etrans; [exact Hc |]. apply H; apply Hc. Qed.

(** Up to the state from which the rest of the run [H] starts. *)
Ltac calm_to H :=
  lazymatch type of H with _ ?k1 = Ret _ => refine (calm_then _ k1 _ _ _ _ _); [assumption | assumption | try by apply same_tasks_calm |] end.

Lemma reset_calm k u k' : kwf k -> placed k -> prvResetNextTaskUnblockTime k = Ret (u, k') -> calm k k'.
Proof.
  intros Hk Hp H. unfold prvResetNextTaskUnblockTime in H. bind_inv H as k0 s Hg. injection Hg as <- <-.
  destruct (klists k (pxDelayedTaskList k)); [injection H as _ <-; by apply same_tasks_calm |].
  bind_inv H as c s Hg. apply get_tcb_inv in Hg as [-> _]. injection H as _ <-. by apply same_tasks_calm.
Qed.

Lemma switch_calm k u k' : kwf k -> placed k -> taskSWITCH_DELAYED_LISTS k = Ret (u, k') -> calm k k'.
Proof.
  intros Hk Hp H. unfold taskSWITCH_DELAYED_LISTS in H. bind_inv H as k0 s Hg. injection Hg as <- <-.
  bind_inv H as u1 s Ha. apply assert_inv in Ha as [_ ->]. bind_inv H as u2 s Hm. injection Hm as _ <-.
  bind_inv H as u3 s Hm. injection Hm as _ <-. calm_to H. intros Hk1 Hp1. by eapply reset_calm.
Qed.

Lemma unblock_loop_calm k now b k' : kwf k -> placed k ->
  unblock_loop (S (length (klists k (pxDelayedTaskList k)))) now k = Ret (b, k') -> calm k k'.
Proof.
  intros Hk Hp H. destruct (unblock_loop_run now (S (length (klists k (pxDelayedTaskList k)))) k Hk Hp) as (b1 & k1 & Hr & Hall & _); [lia |].
  rewrite H in Hr. injection Hr as _ ->. pose proof (readied_all_calm _ _ _ Hk Hp Hall) as Hc.
  eapply (calm_then k); [done.. | exact Hc |]. intros Hk1 Hp1. by apply same_tasks_calm.
Qed.

Lemma current_tcb_inv k c k' : kwf k -> current_tcb k = Ret (c, k') -> k' = k.
Proof. intros Hk H. destruct (current_tcb_run k Hk) as (x & Hr). rewrite H in Hr. by injection Hr. Qed.

Lemma xTaskIncrementTick_calm k b k' : kwf k -> placed k -> xTaskIncrementTick k = Ret (b, k') -> calm k k'.
Proof.
  intros Hk Hp H. unfold xTaskIncrementTick in H. bind_inv H as core s Hg. injection Hg as <- <-.
  destruct (negb _); [injection H as _ <-; by apply calm_refl |].
  bind_inv H as k0 s Hg. injection Hg as <- <-. bind_inv H as sw s Hs. bind_inv H as k1 s1 Hg. injection Hg as <- <-.
  injection H as _ <-. destruct (_ =? 0).
  - bind_inv Hs as u s1 Hm. injection Hm as _ <-. bind_inv Hs as k1 s1 Hg. injection Hg as <- <-. cbv zeta in Hs. cbn [xTickCount set_tick] in Hs.
    bind_inv Hs as u1 s1 Hw. bind_inv Hs as k2 s2 Hg. injection Hg as <- <-. bind_inv Hs as sw1 s2 Hl. bind_inv Hs as cur s3 Hc.
    bind_inv Hs as k3 s4 Hg. injection Hg as <- <-. injection Hs as _ ->.
    calm_to Hw. intros Hk1 Hp1. eapply (calm_then _ s1 _ Hk1 Hp1).
    { unfold when in Hw. destruct (_ =? 0); [by eapply switch_calm | injection Hw as _ <-; by apply calm_refl]. }
    intros Hk2 Hp2. eapply (calm_then _ s2 _ Hk2 Hp2).
    { destruct (_ <=? _); [by eapply unblock_loop_calm | injection Hl as _ <-; by apply calm_refl]. }
    intros Hk3 Hp3. apply current_tcb_inv in Hc as ->; [| done]. by apply calm_refl.
  - bind_inv Hs as u s1 Hm. injection Hm as _ <-. injection Hs as _ <-. by apply same_tasks_calm.
Qed.

Lemma pending_loop_calm : forall fuel k u k', kwf k -> placed k -> pending_loop fuel k = Ret (u, k') -> calm k k'.
Proof.
  induction fuel as [| fuel IH]; intros k u k' Hk Hp H; [done |]. cbn [pending_loop] in H.
  bind_inv H as core s Hg. injection Hg as <- <-. bind_inv H as l s Hg. injection Hg as <- <-.
  destruct (klists k (xPendingReadyList (xPortGetCoreID k))) as [| t rest] eqn:E; [injection H as _ <-; by apply calm_refl |].
  destruct (proj1 (k_in k Hk (xPendingReadyList (xPortGetCoreID k)) t)) as (c & Hc & He); [rewrite E; left |].
  destruct (event_then_ready_run k t c Hk Hc (Hp t c Hc)) as (k1 & Hr & Hre); [cbn in He; by rewrite He |].
  rewrite (run_three _ _ _ _ k tt k1 Hr) in H. clear Hr.
  eapply (calm_then k k1 k' Hk Hp); [by eapply readied_calm |]. intros Hk1 Hp1.
  bind_inv H as tcb s Hg. apply get_tcb_inv in Hg as [-> _]. bind_inv H as here s Hh.
  assert (s = k1) as -> by (unfold tskCAN_RUN_HERE in Hh; bind_inv Hh as c1 s1 Hg; injection Hg as <- <-; by injection Hh).
  bind_inv H as cur s Hcu. apply current_tcb_inv in Hcu as ->; [| done].
  destruct (_ && _); [injection H as _ <-; by apply same_tasks_calm | by eapply IH].
Qed.

Lemma pended_ticks_loop_calm : forall fuel k u k', kwf k -> placed k -> pended_ticks_loop fuel k = Ret (u, k') -> calm k k'.
Proof.
  induction fuel as [| fuel IH]; intros k u k' Hk Hp H; [done |]. cbn [pended_ticks_loop] in H.
  bind_inv H as k0 s Hg. injection Hg as <- <-. destruct (0 <? uxPendedTicks k); [| injection H as _ <-; by apply calm_refl].
  bind_inv H as sw s Ht. eapply (calm_then k s k' Hk Hp); [by eapply xTaskIncrementTick_calm |]. intros Hk1 Hp1.
  bind_inv H as u1 s1 Hw. bind_inv H as u2 s2 Hm. injection Hm as _ <-.
  assert (same_tasks s s1) as Hs by (destruct sw; by injection Hw as _ <-).
  calm_to H. intros Hk2 Hp2. by eapply IH.
Qed.

Lemma xTaskResumeAll_calm k b k' : kwf k -> placed k -> xTaskResumeAll k = Ret (b, k') -> calm k k'.
Proof.
  intros Hk Hp H. unfold xTaskResumeAll in H. bind_inv H as k0 s Hg. injection Hg as <- <-.
  bind_inv H as u1 s Ha. apply assert_inv in Ha as [_ ->]. bind_inv H as u2 s Hm. injection Hm as _ <-.
  bind_inv H as k1 s Hg. injection Hg as <- <-. calm_to H. intros Hk1 Hp1.
  destruct (_ && _); [| injection H as _ <-; by apply calm_refl].
  bind_inv H as u3 s1 Hpl. eapply (calm_then _ s1 k' Hk1 Hp1); [by eapply pending_loop_calm |]. intros Hk2 Hp2.
  bind_inv H as k2 s2 Hg. injection Hg as <- <-. bind_inv H as u4 s2 Hw.
  eapply (calm_then _ s2 k' Hk2 Hp2).
  { unfold when in Hw. destruct (0 <? _); [by eapply pended_ticks_loop_calm | injection Hw as _ <-; by apply calm_refl]. }
  intros Hk3 Hp3. bind_inv H as k3 s3 Hg. injection Hg as <- <-.
  destruct (xYieldPending _ _); [| injection H as _ <-; by apply calm_refl].
  bind_inv H as u5 s3 Hy. injection Hy as _ <-. injection H as _ <-. by apply same_tasks_calm.
Qed.

(** * The theorems at work *)

Lemma two_tasks_timed v held qs gs : 0 <= v < 2 ^ 32 -> timed (set_tick v (two_tasks held qs gs)).
Proof.
  intros Hv. set (k := set_tick v (two_tasks held qs gs)).
  assert (klists k xDelayedTaskList1 = [] /\ klists k xDelayedTaskList2 = []) as [E1 E2] by done.
  split; change (pxDelayedTaskList k) with xDelayedTaskList1; change (pxOverflowDelayedTaskList k) with xDelayedTaskList2;
    rewrite ?E1, ?E2; try done; intros t Hin; by apply elem_of_nil in Hin.
Qed.

(** Five ticks from two before the wrap. *)
Lemma delay_exact_witness :
  let k := set_tick (2 ^ 32 - 2) (two_tasks 0 ∅ ∅) in
  exists k1 k', vTaskPlaceOnEventList (xTasksWaitingToReceive 7) 5 k = Ret (tt, k1) /\ ticks 5 k1 = Ret (tt, k') /\
    xTickCount k' = 3 /\ is_ready k' 1.
Proof.
  intros k.
  destruct (delay_exact k (xTasksWaitingToReceive 7) 1 (ready_tcb 0 0) 5 5) as (k1 & k' & H1 & H2 & _ & H3 & H4 & _).
  - destruct (two_tasks_kwf 0 ∅ ∅). split; assumption.
  - exact (two_tasks_placed 0 ∅ ∅).
  - exact (two_tasks_quiet 0 ∅ ∅).
  - apply two_tasks_timed. lia.
  - split; reflexivity.
  - split; [reflexivity | discriminate].
  - reflexivity.
  - exact (two_tasks_1 0 ∅ ∅).
  - exists (ready_tcb 0 0), 5. split; [exact (two_tasks_1 0 ∅ ∅) | reflexivity].
  - split; reflexivity.
  - exists k1, k'. split; [exact H1 | split; [exact H2 | split; [rewrite H3; reflexivity | exact (proj1 H4)]]].
Defined.

Lemma xTaskCheckForTimeOut_spec_witness :
  let to := mkTimeOut 0 (2 ^ 32 - 2) in let k := set_overflows 1 (set_tick 3 (two_tasks 0 ∅ ∅)) in
  xTaskCheckForTimeOut to 5 k = Ret ((true, to, 5), k) /\ exists to', xTaskCheckForTimeOut to 6 k = Ret ((false, to', 1), k).
Proof.
  intros to k. split.
  - destruct (xTaskCheckForTimeOut_spec k to (2 ^ 32 + 3) (2 ^ 32 - 2) 5) as (_ & H & _);
      [split; reflexivity | split; reflexivity | lia | lia |].
    destruct H as [H _]; [discriminate | lia |]. apply H. lia.
  - destruct (xTaskCheckForTimeOut_spec k to (2 ^ 32 + 3) (2 ^ 32 - 2) 6) as (_ & H & _);
      [split; reflexivity | split; reflexivity | lia | lia |].
    destruct H as [_ H]; [discriminate | lia |]. destruct H as (to' & H & _); [lia |]. exists to'. exact H.
Defined.
