(* ===== verification/FreeRtosControl.v ===== *)
(** Task control (src/ESP32/components/freertos/tasks.c): delaying, suspending and
    resuming tasks, setting their priority, and asking for their state. *)

From S2P Require Import Prelude FreeRtosList FreeRtosTasks FreeRtosTime.

(** * Operations on the kernel alone *)

(** A null handle is the calling task. *)
Definition prvGetTCBFromHandle (pxHandle : option Z) : K Z :=
  match pxHandle with None => current | Some t => mret t end.

(** ** Delays *)

(** The running task goes from its ready list to a delayed list. *)
Definition delay_current (xTimeToWake : Z) : K unit :=
  t ← current;
  list_remove generic_item t;;
  prvAddCurrentTaskToDelayedList xTimeToWake.

Definition vTaskDelay (xTicksToDelay : Z) : K unit :=
  when (0 <? xTicksToDelay)
    (k ← get;
     assert (uxSchedulerSuspended k (xPortGetCoreID k) =? 0);;
     delay_current (wrap_u 32 (xTickCount k + xTicksToDelay)));;
  portYIELD_WITHIN_API.

(** Whether the wake time is still to come, from the unsigned comparisons of the
    tick count with the previous and the next wake time. *)
Definition should_delay (xConstTickCount pxPreviousWakeTime xTimeToWake : Z) : bool :=
  if xConstTickCount <? pxPreviousWakeTime
  then (xTimeToWake <? pxPreviousWakeTime) && (xConstTickCount <? xTimeToWake)
  else (xTimeToWake <? pxPreviousWakeTime) || (xConstTickCount <? xTimeToWake).

(** The result is the new *pxPreviousWakeTime.  [untested] says whether
    UNTESTED_FUNCTION aborts (CONFIG_FREERTOS_ASSERT_ON_UNTESTED_FUNCTION). *)
Definition vTaskDelayUntil (untested : bool) (pxPreviousWakeTime xTimeIncrement : Z) : K Z :=
  assert (negb untested);;
  assert (0 <? xTimeIncrement);;
  k ← get;
  assert (uxSchedulerSuspended k (xPortGetCoreID k) =? 0);;
  let xTimeToWake := wrap_u 32 (pxPreviousWakeTime + xTimeIncrement) in
  when (should_delay (xTickCount k) pxPreviousWakeTime xTimeToWake) (delay_current xTimeToWake);;
  portYIELD_WITHIN_API;;
  mret xTimeToWake.

(** ** Suspending and resuming *)

(** Off every list, and to the end of the list [l]. *)
Definition move_to (l : list_id) (pxTCB : Z) : K unit :=
  list_remove generic_item pxTCB;;
  unlink_event pxTCB;;
  list_insert_end l generic_item pxTCB.

(** What vTaskSuspend does last: nothing, or a call of vTaskSwitchContext. *)
Inductive suspend_end := SuspendDone | SuspendSwitch.

Definition vTaskSuspend (xTaskToSuspend : option Z) : K suspend_end :=
  pxTCB ← prvGetTCBFromHandle xTaskToSuspend;
  move_to xSuspendedTaskList pxTCB;;
  k ← get;
  let core := xPortGetCoreID k in
  if bool_decide (pxCurrentTCB k core = Some pxTCB) then
    if xSchedulerRunning k then
      assert (uxSchedulerSuspended k core =? 0);; portYIELD_WITHIN_API;; mret SuspendDone
    else if zlen (klists k xSuspendedTaskList) =? uxCurrentNumberOfTasks k then
      modify (fun k => set_current (<[core := None]> (pxCurrentTCB k)) k);; mret SuspendDone
    else mret SuspendSwitch
  else when (xSchedulerRunning k) prvResetNextTaskUnblockTime;; mret SuspendDone.

Definition prvTaskIsTaskSuspended (pxTCB : Z) : K bool :=
  c ← get_tcb pxTCB;
  core ← core_id;
  mret (bool_decide (container (xGenericListItem c) = Some xSuspendedTaskList) &&
        negb (bool_decide (container (xEventListItem c) = Some (xPendingReadyList core))) &&
        bool_decide (container (xEventListItem c) = None)).

Definition vTaskResume (pxTCB : Z) : K unit :=
  k ← get;
  if bool_decide (pxCurrentTCB k (xPortGetCoreID k) = Some pxTCB) then mret tt else
  suspended ← prvTaskIsTaskSuspended pxTCB;
  when suspended
    (make_ready pxTCB;;
     c ← get_tcb pxTCB;
     here ← tskCAN_RUN_HERE (xCoreID c);
     cur ← current_tcb;
     core ← core_id;
     if here && (uxPriority cur <=? uxPriority c) then portYIELD_WITHIN_API
     else when (negb (xCoreID c =? core)) (taskYIELD_OTHER_CORE (xCoreID c) (uxPriority c))).

(** The result says whether the interrupt should ask for a switch. *)
Definition xTaskResumeFromISR (pxTCB : Z) : K bool :=
  suspended ← prvTaskIsTaskSuspended pxTCB;
  k ← get;
  let core := xPortGetCoreID k in
  if (suspended : bool) then
    if uxSchedulerSuspended k core =? 0 then
      make_ready pxTCB;;
      c ← get_tcb pxTCB;
      here ← tskCAN_RUN_HERE (xCoreID c);
      cur ← current_tcb;
      if here && (uxPriority cur <=? uxPriority c) then mret true
      else when (negb (xCoreID c =? core)) (taskYIELD_OTHER_CORE (xCoreID c) (uxPriority c));; mret false
    else list_insert_end (xPendingReadyList core) event_item pxTCB;; mret false
  else mret false.

(** ** Priorities and states *)

Definition uxTaskPriorityGet (xTask : option Z) : K Z :=
  pxTCB ← prvGetTCBFromHandle xTask; c ← get_tcb pxTCB; mret (uxPriority c).
Definition xTaskGetAffinity (xTask : option Z) : K Z :=
  pxTCB ← prvGetTCBFromHandle xTask; c ← get_tcb pxTCB; mret (xCoreID c).

Definition with_base (p : Z) (c : TCB_t) : TCB_t :=
  mkTCB (xGenericListItem c) (xEventListItem c) (uxPriority c) (xCoreID c) p (uxMutexesHeld c).

(** The yield a new priority asks for, and whether this core has to switch. *)
Definition priority_yield (pxTCB uxNewPriority uxCurrentBasePriority : Z) (c : TCB_t) : K bool :=
  t ← current;
  core ← core_id;
  if uxCurrentBasePriority <? uxNewPriority then
    if negb (pxTCB =? t) then
      here ← tskCAN_RUN_HERE (xCoreID c);
      cur ← current_tcb;
      if here && (uxPriority cur <=? uxNewPriority) then mret true
      else when (negb (xCoreID c =? core)) (taskYIELD_OTHER_CORE (xCoreID c) uxNewPriority);; mret false
    else mret false
  else mret (pxTCB =? t).

Definition vTaskPrioritySet (xTask : option Z) (uxNewPriority : Z) : K unit :=
  assert (uxNewPriority <? configMAX_PRIORITIES);;
  pxTCB ← prvGetTCBFromHandle xTask;
  c ← get_tcb pxTCB;
  when (negb (uxBasePriority c =? uxNewPriority))
    (xYieldRequired ← priority_yield pxTCB uxNewPriority (uxBasePriority c) c;
     let uxPriorityUsedOnEntry := uxPriority c in
     when (uxBasePriority c =? uxPriority c) (update_tcb pxTCB (with_priority uxNewPriority));;
     update_tcb pxTCB (with_base uxNewPriority);;
     when (Z.land (item_value (xEventListItem c)) taskEVENT_LIST_ITEM_VALUE_IN_USE =? 0)
       (listSET_LIST_ITEM_VALUE event_item pxTCB (configMAX_PRIORITIES - uxNewPriority));;
     when (bool_decide (container (xGenericListItem c) = Some (pxReadyTasksLists uxPriorityUsedOnEntry)))
       (make_ready pxTCB);;
     when xYieldRequired portYIELD_WITHIN_API).

Inductive eTaskState := eRunning | eReady | eBlocked | eSuspended | eDeleted.

Definition eTaskGetState (untested : bool) (pxTCB : Z) : K eTaskState :=
  assert (negb untested);;
  k ← get;
  if bool_decide (pxCurrentTCB k (xPortGetCoreID k) = Some pxTCB) then mret eRunning else
  c ← get_tcb pxTCB;
  let pxStateList := container (xGenericListItem c) in
  mret (if bool_decide (pxStateList = Some (pxDelayedTaskList k)) || bool_decide (pxStateList = Some (pxOverflowDelayedTaskList k))
        then eBlocked
        else if bool_decide (pxStateList = Some xSuspendedTaskList)
        then if bool_decide (container (xEventListItem c) = None) then eSuspended else eBlocked
        else if bool_decide (pxStateList = Some xTasksWaitingTermination) then eDeleted
        else eReady).

(** * Moving a task *)

(** The task [t] is now at the end of the list [l] and in no other. *)
Record moved (t : Z) (l : list_id) (k k' : kernel) : Prop := {
  mv_kwf : kwf k';
  mv_frame : frame k k';
  mv_next : xNextTaskUnblockTime k' = xNextTaskUnblockTime k;
  mv_yields : yields k' = yields k;
  mv_tcb : exists c', tcbs k' !! t = Some c' /\ container (xGenericListItem c') = Some l /\ container (xEventListItem c') = None;
  mv_tcbs y : y <> t -> tcbs k' !! y = tcbs k !! y;
  mv_lists m : klists k' m = if decide (m = l) then remove_item t (klists k l) ++ [t] else remove_item t (klists k m) }.

Lemma unlink_lists i t c g k m : kwf k -> tcbs k !! t = Some c -> container (item_of_kind i c) = Some g ->
  kind_of m = i -> klists (unlink_item i t c g k) m = remove_item t (klists k m).
Proof.
  intros Hk Ht Hg Hm. unfold unlink_item. cbn. destruct (decide (m = g)) as [-> | Hne]; [by rewrite fn_lookup_insert |].
  rewrite fn_lookup_insert_ne by done. symmetry. apply (remove_item_not_in k i t c (Some g)); try done. congruence.
Qed.

Lemma unlink_event_same t c k k' : kwf k -> tcbs k !! t = Some c -> unlink_event t k = Ret (tt, k') ->
  xNextTaskUnblockTime k' = xNextTaskUnblockTime k /\ yields k' = yields k.
Proof.
  intros Hk Ht. unfold unlink_event. erewrite run_bind by (by apply get_tcb_run).
  destruct (container (xEventListItem c)) as [l |] eqn:E; [| by intros [= <-]].
  erewrite run_bind by (by apply list_remove_run). by intros [= <-].
Qed.

Lemma move_to_run l t c k : kwf k -> tcbs k !! t = Some c -> is_Some (container (xGenericListItem c)) ->
  kind_of l = generic_item -> exists k', move_to l t k = Ret (tt, k') /\ moved t l k k'.
Proof.
  intros Hk Ht (g & Hg) Hl. pose proof (k_kind k Hk t c generic_item g Ht Hg) as Hgk.
  unfold move_to. erewrite run_bind by (by apply list_remove_run).
  set (k1 := unlink_item generic_item t c g k).
  set (c1 := with_item generic_item (mkItem (item_value (xGenericListItem c)) None) c).
  assert (kwf k1) as Hk1 by (by apply unlink_kwf).
  assert (tcbs k1 !! t = Some c1) as Ht1 by (unfold k1, unlink_item; cbn; by rewrite lookup_insert_eq).
  destruct (unlink_event_run k1 t c1 Hk1 Ht1) as (k2 & c2 & Hr2 & Hk2 & Hf2 & Ht2 & He2 & Hg2 & Hy2 & Hm2 & Hm2').
  destruct (unlink_event_same t c1 k1 k2 Hk1 Ht1 Hr2) as [Hn2 Hyi2].
  erewrite run_bind by exact Hr2. rewrite (list_insert_end_run l generic_item t c2 k2 Ht2).
  eexists. split; [done |].
  assert (forall m, kind_of m = generic_item -> klists k1 m = remove_item t (klists k m)) as Hl1 by (intros; by apply unlink_lists).
  assert (forall m, kind_of m = event_item -> klists k1 m = klists k m) as Hl1'.
  { intros m Hm. unfold k1, unlink_item. cbn. rewrite fn_lookup_insert_ne; [done | congruence]. }
  split; try done.
  - apply link_kwf; try done; [cbn; by rewrite Hg2 | by rewrite <- Permutation_cons_append].
  - etrans; [by apply (frame_unlink generic_item t c g) |]. etrans; [exact Hf2 | by apply frame_link].
  - eexists. unfold link_item. cbn. rewrite lookup_insert_eq. split; [done |]. by split.
  - intros y Hy. unfold link_item. cbn. rewrite lookup_insert_ne, Hy2 by done. unfold k1, unlink_item. cbn. by rewrite lookup_insert_ne.
  - intros m. unfold link_item. cbn. destruct (decide (m = l)) as [-> | Hne].
    + rewrite fn_lookup_insert, Hm2', Hl1; done.
    + rewrite fn_lookup_insert_ne by done. destruct (kind_of m) eqn:E; [rewrite Hm2', Hl1; done | rewrite Hm2, Hl1'; done].
Qed.

Lemma moved_placed t l k k' : placed k -> moved t l k k' -> placed k'.
Proof.
  intros Hp []. destruct mv_tcb0 as (c' & Hc' & E & _). intros y c Hc. destruct (decide (y = t)) as [-> | Hne].
  - rewrite Hc' in Hc. injection Hc as <-. by exists l.
  - rewrite mv_tcbs0 in Hc by done. by apply (Hp y).
Qed.

Lemma moved_quiet t l k k' : kwf k -> quiet k -> moved t l k k' -> quiet k'.
Proof.
  intros Hk Hq []. apply (quiet_step t k k'); try done. left. destruct mv_tcb0 as (c & Hc & _ & E).
  intros c' Hc'. rewrite Hc in Hc'. by injection Hc' as <-.
Qed.

(** A task that leaves the delayed lists does not upset them. *)
Lemma in_order_remove v t l : in_order v l -> in_order v (remove_item t l).
Proof.
  unfold remove_item. induction l as [| x l IH]; [done |]. intros [Hx Ho]%in_order_cons.
  destruct (decide (x <> t)) as [Hne | He]; [rewrite filter_cons_True by done | rewrite filter_cons_False by done; by apply IH].
  apply in_order_cons. split; [| by apply IH]. intros y Hy. apply Hx. by apply list_elem_of_filter in Hy as [_ Hy].
Qed.

Definition timer_list (k : kernel) (l : list_id) : Prop := l = pxDelayedTaskList k \/ l = pxOverflowDelayedTaskList k.

Lemma timed_leaves t k k' : timed k -> delayed_is_1 k' = delayed_is_1 k -> xTickCount k' = xTickCount k ->
  xNextTaskUnblockTime k' = xNextTaskUnblockTime k ->
  (forall y, y <> t -> tcbs k' !! y = tcbs k !! y) ->
  (forall m, timer_list k m -> klists k' m = remove_item t (klists k m)) -> timed k'.
Proof.
  intros [Ht Hd Ho Hod Hoo Hn] E1 E2 E3 Ey El.
  assert (pxDelayedTaskList k' = pxDelayedTaskList k /\ pxOverflowDelayedTaskList k' = pxOverflowDelayedTaskList k) as [Ed Eo]
    by (unfold pxDelayedTaskList, pxOverflowDelayedTaskList; by rewrite E1).
  assert (forall y, y <> t -> values generic_item k' y = values generic_item k y) as Ev by (intros y Hy; unfold values; by rewrite Ey).
  pose proof (El _ (or_introl eq_refl)) as El1. pose proof (El _ (or_intror eq_refl)) as El2.
  assert (forall l, in_order (values generic_item k) l -> in_order (values generic_item k') (remove_item t l)) as Hio.
  { intros l H. apply (in_order_ext (values generic_item k)); [| by apply in_order_remove].
    intros y [Hy _]%elem_of_remove_item. by rewrite Ev. }
  split; rewrite ?Ed, ?Eo, ?E2, ?E3, ?El1, ?El2; auto; intros y [Hy Hin]%elem_of_remove_item; rewrite Ev by done; auto.
Qed.

Lemma moved_timed t l k k' : timed k -> ~ timer_list k l -> moved t l k k' -> timed k'.
Proof.
  intros Hti Hl []. apply (timed_leaves t k); try done; [apply mv_frame0.. |].
  intros m Hm. rewrite mv_lists0, decide_False by congruence. done.
Qed.

Lemma not_timer k l : l <> xDelayedTaskList1 -> l <> xDelayedTaskList2 -> ~ timer_list k l.
Proof. unfold timer_list, pxDelayedTaskList, pxOverflowDelayedTaskList. destruct (delayed_is_1 k); naive_solver. Qed.

(** The next time to unblock a task is set again from the head of the list. *)
Lemma reset_unblock_run k : kwf k -> exists k', prvResetNextTaskUnblockTime k = Ret (tt, k') /\ same_tasks k k' /\ yields k' = yields k /\
  (timed k -> timed k') /\ frame k k'.
Proof.
  intros Hk. unfold prvResetNextTaskUnblockTime. erewrite run_bind by done.
  assert (forall v, frame k (set_unblock v k)) as Hf.
  { intros v. split; try done. intros t c H. exists c. by split; [| apply tcb_like_refl]. }
  assert (forall v, (forall t, t ∈ klists k (pxDelayedTaskList k) -> v <= values generic_item k t) -> timed k -> timed (set_unblock v k)) as Ht
    by (intros v Hv []; by split).
  destruct (klists k (pxDelayedTaskList k)) as [| t l] eqn:E.
  - eexists. split_and!; [done | done | done | | done]. apply Ht. intros t Hin. by apply elem_of_nil in Hin.
  - destruct (proj1 (k_in k Hk (pxDelayedTaskList k) t)) as (c & Hc & _); [rewrite E; left |].
    erewrite run_bind by (by apply get_tcb_run). eexists. split_and!; [done | done | done | | done]. intros Hti.
    apply Ht; [| done]. intros y Hy. pose proof (tm_order k Hti) as Ho. rewrite E in Ho. apply in_order_cons in Ho as [Ho _].
    change (item_value (xGenericListItem c)) with (item_value (item_of_kind generic_item c)).
    rewrite <- (values_tcb generic_item k t c Hc). apply elem_of_cons in Hy as [-> | Hy]; [lia | by apply Ho].
Qed.

(** * Delays *)

Record steady (k : kernel) : Prop := { st_kwf : kwf k; st_placed : placed k; st_quiet : quiet k; st_timed : timed k }.

Lemma add_delayed_yields t c wake k k' : pxCurrentTCB k (xPortGetCoreID k) = Some t -> tcbs k !! t = Some c ->
  prvAddCurrentTaskToDelayedList wake k = Ret (tt, k') -> yields k' = yields k.
Proof.
  intros Hcur Ht. assert (current k = Ret (t, k)) as Hc by (unfold current; erewrite run_bind by done; by rewrite Hcur).
  unfold prvAddCurrentTaskToDelayedList, listSET_LIST_ITEM_VALUE. erewrite run_bind by exact Hc. erewrite run_bind by (by apply update_tcb_run). erewrite run_bind by done.
  set (k1 := set_tcbs _ k). assert (exists c1, tcbs k1 !! t = Some c1) as (c1 & H1) by (eexists; cbn; by rewrite lookup_insert_eq).
  destruct (wake <? _).
  - rewrite (list_insert_run _ _ _ c1 k1 H1). by intros [= <-].
  - erewrite run_bind by (by apply list_insert_run). unfold when. destruct (wake <? _); by intros [= <-].
Qed.

(** The running task sleeps until a wake time that is [n] ticks away. *)
Lemma delay_current_run k t c n : steady k -> pxCurrentTCB k (xPortGetCoreID k) = Some t -> tcbs k !! t = Some c ->
  is_ready k t -> 0 < n < portMAX_DELAY ->
  exists k', delay_current (wrap_u 32 (xTickCount k + n)) k = Ret (tt, k') /\ steady k' /\ frame k k' /\
    ticks_left k' t = Some n /\ yields k' = yields k /\ (forall y, y <> t -> tcbs k' !! y = tcbs k !! y).
Proof.
  intros [Hk Hp Hq Hti] Hcur Ht Hr Hn. destruct (Hp t c Ht) as (g & Hg).
  pose proof (quiet_event k t c Hk Hq Hr Ht) as Hev.
  assert (current k = Ret (t, k)) as Hc by (unfold current; erewrite run_bind by done; by rewrite Hcur).
  unfold delay_current. erewrite run_bind by exact Hc. erewrite run_bind by (by apply list_remove_run).
  set (k1 := unlink_item generic_item t c g k).
  set (c1 := with_item generic_item (mkItem (item_value (xGenericListItem c)) None) c).
  assert (kwf k1) as Hk1 by (by apply unlink_kwf).
  assert (tcbs k1 !! t = Some c1) as Ht1 by (unfold k1, unlink_item; cbn; by rewrite lookup_insert_eq).
  assert (timed k1) as Hti1.
  { apply (timed_leaves t k); try done.
    - intros y Hy. unfold k1, unlink_item. cbn. by rewrite lookup_insert_ne.
    - intros m Hm. apply unlink_lists; try done.
      destruct Hm as [-> | ->]; [apply delayed_kind | apply overflow_kind]. }
  destruct (delay_timed k1 t c1 n Hk1 Hti1 Hcur Ht1) as (k' & Hrun & Hti' & Hleft & _); [done | done |].
  destruct (prvAddCurrentTaskToDelayedList_run k1 t c1 (wrap_u 32 (xTickCount k1 + n)) Hk1 Hcur Ht1 eq_refl)
    as (k2 & c2 & Hrun2 & Hk2 & Hm2 & Ht2 & Hv2 & Hc2).
  rewrite Hrun in Hrun2. injection Hrun2 as <-. exists k'.
  assert (moves t k k') as Hm by (etrans; [by apply moves_unlink | done]).
  split_and!; [done | | apply Hm | done | | apply Hm].
  - split; try done; [by eapply moves_placed |]. destruct Hm as (Hf & Hl & Hy).
    apply (quiet_step t k k'); try done. right. intros Hr'. apply ready_not_left in Hr'. congruence.
  - transitivity (yields k1); [| done]. by apply (add_delayed_yields t c1 (wrap_u 32 (xTickCount k1 + n))).
Qed.

(** The [n]-th tick wakes [t] and none before. *)
Definition sleeps (t n : Z) (k : kernel) : Prop :=
  forall m : nat, exists k', ticks m k = Ret (tt, k') /\ steady k' /\
    xTickCount k' = wrap_u 32 (xTickCount k + Z.of_nat m) /\
    (if Z.of_nat m <? n then ~ is_ready k' t else is_ready k' t /\ waits_nowhere k' t).

Lemma left_sleeps k t n : steady k -> ticking k -> ticks_left k t = Some n -> sleeps t n k.
Proof.
  intros [Hk Hp Hq Hti] Htk Hl m. destruct (ticks_run m k Hk Hp Hti Htk) as (k' & Hr & Hti' & Hc & _ & Htick & Hs & _).
  exists k'. split_and!; [done | by split; [apply Hc | apply Hc | apply (c_quiet _ _ Hc) | done] | done |].
  specialize (Hs t n Hl). destruct (Z.of_nat m <? n) eqn:E; [| done].
  intros Hrd. apply ready_not_left in Hrd. destruct Hs as [Hs _]. congruence.
Qed.

Lemma only_yields_steady k k' : only_yields k k' -> steady k -> steady k'.
Proof.
  intros (w & y & ->) [Hk Hp Hq Hti]. split; [apply (only_yields_kwf k); [by exists w, y | done] | done | done |].
  by apply (timed_same k).
Qed.

Lemma frame_ticking k k' : frame k k' -> ticking k -> ticking k'.
Proof. intros Hf [H1 H2]. split; [by rewrite (f_core _ _ Hf) | by rewrite (f_suspended _ _ Hf)]. Qed.

Lemma left_yields k k' t : only_yields k k' -> ticks_left k' t = ticks_left k t.
Proof. by intros (w & y & ->). Qed.

(** A delay of [n] ticks lasts [n] ticks. *)
Theorem vTaskDelay_exact k t c n : steady k -> ticking k -> pxCurrentTCB k 0 = Some t -> tcbs k !! t = Some c ->
  is_ready k t -> 0 < n < portMAX_DELAY ->
  exists k', vTaskDelay n k = Ret (tt, k') /\ steady k' /\ sleeps t n k' /\ yields k' = 0 :: yields k.
Proof.
  intros Hs Htk Hcur Ht Hr Hn. pose proof Htk as [Hc Hsu]. unfold vTaskDelay. rewrite (proj2 (Z.ltb_lt 0 n)) by lia. cbn [when].
  rewrite run_assoc. erewrite run_bind by done. rewrite Hc, Hsu. rewrite run_assoc. erewrite run_bind by done.
  destruct (delay_current_run k t c n Hs) as (k1 & Hrun & Hs1 & Hf & Hl & Hy & _); [by rewrite Hc | done.. |].
  erewrite run_bind by exact Hrun. unfold portYIELD_WITHIN_API. erewrite run_bind by done.
  assert (xPortGetCoreID k1 = 0) as Hc1 by (by rewrite (f_core _ _ Hf)). rewrite Hc1.
  exists (set_yields (0 :: yields k1) k1). pose proof (only_yields_add 0 k1) as Ho.
  assert (steady (set_yields (0 :: yields k1) k1)) as Hs2 by (by apply (only_yields_steady k1)).
  split_and!; [done | done | | cbn; by rewrite Hy]. apply left_sleeps; [done | | by rewrite (left_yields k1)].
  by apply (frame_ticking k k1) in Htk.
Qed.

(** The comparisons decide whether the wake time is still to come, also when the
    count of ticks or the wake time has wrapped. *)
Lemma should_delay_exact now start inc : start <= now < start + 2 ^ 32 -> 0 < inc < 2 ^ 32 ->
  should_delay (now mod 2 ^ 32) (start mod 2 ^ 32) (wrap_u 32 (start mod 2 ^ 32 + inc)) = (now <? start + inc).
Proof.
  intros Hnow Hinc. unfold wrap_u. rewrite Zplus_mod_idemp_l. unfold should_delay.
  pose proof (Z.div_mod now (2 ^ 32) ltac:(lia)). pose proof (Z.div_mod start (2 ^ 32) ltac:(lia)).
  pose proof (Z.div_mod (start + inc) (2 ^ 32) ltac:(lia)).
  pose proof (Z.mod_pos_bound now (2 ^ 32) ltac:(lia)). pose proof (Z.mod_pos_bound start (2 ^ 32) ltac:(lia)).
  pose proof (Z.mod_pos_bound (start + inc) (2 ^ 32) ltac:(lia)).
  set (qn := now / 2 ^ 32) in *. set (qs := start / 2 ^ 32) in *. set (qw := (start + inc) / 2 ^ 32) in *.
  set (rn := now mod 2 ^ 32) in *. set (rs := start mod 2 ^ 32) in *. set (rw := (start + inc) mod 2 ^ 32) in *.
  assert (qn = qs \/ qn = qs + 1) by nia. assert (qw = qs \/ qw = qs + 1) by nia.
  apply eq_true_iff_eq. destruct (Z.ltb_spec rn rs); rewrite ?andb_true_iff, ?orb_true_iff, !Z.ltb_lt; nia.
Qed.

(** C16. vTaskDelayUntil keeps a fixed period.  The call of a task whose previous wake time was
    [start], at the time [now] less than 2^32 ticks later (all times counted without wrap-around),
    makes it sleep until exactly [start + inc] if that is still to come, and not at all otherwise;
    the wake time it stores is [start + inc] in either case, so that late calls do not shift the
    period.  In the configuration built UNTESTED_FUNCTION makes every call abort. *)
Theorem vTaskDelayUntil_periodic k t c now start inc :
  steady k -> ticking k -> pxCurrentTCB k 0 = Some t -> tcbs k !! t = Some c -> is_ready k t ->
  xTickCount k = now mod 2 ^ 32 -> start <= now < start + 2 ^ 32 -> 0 < inc < portMAX_DELAY ->
  (exists k', vTaskDelayUntil false (start mod 2 ^ 32) inc k = Ret ((start + inc) mod 2 ^ 32, k') /\ steady k' /\
     yields k' = 0 :: yields k /\
     if now <? start + inc then sleeps t (start + inc - now) k' else is_ready k' t) /\
  vTaskDelayUntil true (start mod 2 ^ 32) inc k = Fault AssertFailed.
Proof.
  intros Hs Htk Hcur Ht Hr Hnow Hst Hinc. split; [| done]. pose proof Htk as [Hc Hsu].
  assert (2 ^ 32 = 4294967296 /\ portMAX_DELAY = 4294967295) as [E32 Emax] by done.
  unfold vTaskDelayUntil. erewrite run_bind by done. rewrite (proj2 (Z.ltb_lt 0 inc)) by lia. erewrite run_bind by done.
  erewrite run_bind by done. rewrite Hc, Hsu. erewrite run_bind by done.
  rewrite Hnow, should_delay_exact by lia.
  assert (wrap_u 32 (start mod 2 ^ 32 + inc) = (start + inc) mod 2 ^ 32) as Hw by (unfold wrap_u; by rewrite Zplus_mod_idemp_l).
  rewrite Hw. destruct (Z.ltb_spec now (start + inc)) as [Hlt | Hge]; unfold when.
  - destruct (delay_current_run k t c (start + inc - now) Hs) as (k1 & Hrun & Hs1 & Hf & Hl & Hy & _); [by rewrite Hc | done | done | lia |].
    assert (wrap_u 32 (xTickCount k + (start + inc - now)) = (start + inc) mod 2 ^ 32) as Hw2.
    { rewrite Hnow. unfold wrap_u. rewrite Zplus_mod_idemp_l. f_equal. lia. }
    rewrite Hw2 in Hrun. erewrite run_bind by exact Hrun. unfold portYIELD_WITHIN_API. rewrite run_assoc. erewrite run_bind by done.
    assert (xPortGetCoreID k1 = 0) as Hc1 by (by rewrite (f_core _ _ Hf)). rewrite Hc1. erewrite run_bind by done.
    exists (set_yields (0 :: yields k1) k1). pose proof (only_yields_add 0 k1) as Ho.
    assert (steady (set_yields (0 :: yields k1) k1)) as Hs2 by (by apply (only_yields_steady k1)).
    split_and!; [done | done | cbn; by rewrite Hy |]. apply left_sleeps; [done | | by rewrite (left_yields k1)].
    by apply (frame_ticking k k1) in Htk.
  - erewrite run_bind by done. unfold portYIELD_WITHIN_API. rewrite run_assoc. erewrite run_bind by done. rewrite Hc.
    erewrite run_bind by done. eexists. split_and!; [done | | done | done].
    apply (only_yields_steady k); [apply only_yields_add | done].
Qed.

(** * Suspending and resuming *)

Lemma make_ready_same t c g k k' : tcbs k !! t = Some c -> container (xGenericListItem c) = Some g ->
  make_ready t k = Ret (tt, k') -> xNextTaskUnblockTime k' = xNextTaskUnblockTime k /\ yields k' = yields k /\
  xYieldPending k' = xYieldPending k.
Proof.
  intros Ht Hg. unfold make_ready. erewrite run_bind by (by apply list_remove_run). unfold prvAddTaskToReadyList.
  assert (exists c1, tcbs (unlink_item generic_item t c g k) !! t = Some c1) as (c1 & H1) by (eexists; unfold unlink_item; cbn; by rewrite lookup_insert_eq).
  erewrite run_bind by (by apply get_tcb_run). rewrite (list_insert_end_run _ _ _ c1 _ H1). by intros [= <-].
Qed.

(** A task that waits for no event is made ready. *)
Lemma make_ready_steady t c k : steady k -> tcbs k !! t = Some c -> container (xEventListItem c) = None ->
  exists k', make_ready t k = Ret (tt, k') /\ steady k' /\ readied t k k' /\ yields k' = yields k.
Proof.
  intros [Hk Hp Hq Hti] Ht He. destruct (Hp t c Ht) as (g & Hg).
  destruct (make_ready_readied k t c Hk Ht (mk_is_Some _ _ Hg) He) as (k' & Hr & Hre).
  destruct (make_ready_same t c g k k' Ht Hg Hr) as (Hn & Hy & _). exists k'. split_and!; try done.
  split; [apply Hre | by eapply readied_placed | by eapply readied_quiet |].
  apply (timed_leaves t k); try done; [apply (r_frame _ _ _ Hre).. | apply Hre |].
  intros m [-> | ->]; apply (r_generic _ _ _ Hre); first [apply delayed_kind | apply overflow_kind].
Qed.

Lemma moved_steady t l k k' : steady k -> ~ timer_list k l -> moved t l k k' -> steady k'.
Proof.
  intros [Hk Hp Hq Hti] Hl Hm.
  split; [apply Hm | by eapply moved_placed | by eapply moved_quiet | by eapply moved_timed].
Qed.

Lemma same_tasks_steady k k' : steady k -> same_tasks k k' -> timed k' -> steady k'.
Proof. intros [Hk Hp Hq _] Hs Ht. pose proof (same_tasks_calm k k' Hk Hp Hs) as []. split; auto. Qed.

(** Where it then stands in the ready lists. *)
Lemma make_ready_lists t c g k k' : kwf k -> tcbs k !! t = Some c -> container (xGenericListItem c) = Some g ->
  make_ready t k = Ret (tt, k') -> forall q, klists k' (pxReadyTasksLists q) =
    remove_item t (klists k (pxReadyTasksLists q)) ++ (if q =? uxPriority c then [t] else []).
Proof.
  intros Hk Ht Hg. unfold make_ready. erewrite run_bind by (by apply list_remove_run). unfold prvAddTaskToReadyList.
  set (k1 := unlink_item generic_item t c g k). set (c1 := with_item generic_item (mkItem (item_value (xGenericListItem c)) None) c).
  assert (tcbs k1 !! t = Some c1) as H1 by (unfold k1, unlink_item; cbn; by rewrite lookup_insert_eq).
  pose proof (fun q => unlink_lists generic_item t c g k (pxReadyTasksLists q) Hk Ht Hg eq_refl) as Hq. fold k1 in Hq. clearbody k1.
  erewrite run_bind by (by apply get_tcb_run). rewrite (list_insert_end_run _ _ _ c1 _ H1). intros [= <-] q.
  unfold link_item. cbn. change (uxPriority c1) with (uxPriority c). destruct (Z.eqb_spec q (uxPriority c)) as [-> | Hne].
  - rewrite fn_lookup_insert. by rewrite Hq.
  - rewrite fn_lookup_insert_ne by congruence. by rewrite Hq, app_nil_r.
Qed.

Definition suspended (k : kernel) (t : Z) : Prop :=
  exists c, tcbs k !! t = Some c /\ container (xGenericListItem c) = Some xSuspendedTaskList /\ container (xEventListItem c) = None.

Lemma suspended_left k t : suspended k t -> ticks_left k t = None.
Proof.
  intros (c & Hc & Hg & _). unfold ticks_left. rewrite Hc. cbn. rewrite Hg. cbn.
  unfold pxDelayedTaskList, pxOverflowDelayedTaskList. by destruct (delayed_is_1 k).
Qed.
Lemma suspended_not_ready k t : suspended k t -> ~ is_ready k t.
Proof. intros (c & Hc & Hg & _) (c' & p & Hc' & Hg'). congruence. Qed.

Lemma vTaskSuspend_other k t c : steady k -> xSchedulerRunning k = true -> tcbs k !! t = Some c ->
  pxCurrentTCB k (xPortGetCoreID k) <> Some t ->
  exists k', vTaskSuspend (Some t) k = Ret (SuspendDone, k') /\ steady k' /\ frame k k' /\ suspended k' t /\ yields k' = yields k /\
    (forall y, y <> t -> tcbs k' !! y = tcbs k !! y).
Proof.
  intros Hs Hrun Ht Hcur. destruct (st_placed k Hs t c Ht) as (g & Hg).
  destruct (move_to_run xSuspendedTaskList t c k (st_kwf k Hs) Ht (mk_is_Some _ _ Hg) eq_refl) as (k1 & Hr & Hm).
  assert (steady k1) as Hs1 by (apply (moved_steady t xSuspendedTaskList k); [done | by apply not_timer | done]).
  unfold vTaskSuspend. erewrite run_bind by done. erewrite run_bind by exact Hr. erewrite run_bind by done. cbv zeta.
  rewrite (f_current _ _ (mv_frame _ _ _ _ Hm)), (f_core _ _ (mv_frame _ _ _ _ Hm)), bool_decide_false by done.
  rewrite (f_running _ _ (mv_frame _ _ _ _ Hm)), Hrun.
  destruct (reset_unblock_run k1 (st_kwf k1 Hs1)) as (k2 & Hr2 & Hsame & Hy2 & Hti2 & Hf2).
  cbn [when]. erewrite run_bind by exact Hr2. exists k2. destruct Hsame as (Et & Hsame).
  assert (same_tasks k1 k2) as Hst by (by split). split_and!; [done | | | | |].
  - apply (same_tasks_steady k1); [done | done | by apply Hti2, Hs1].
  - etrans; [apply Hm | done].
  - destruct (mv_tcb _ _ _ _ Hm) as (c' & Hc' & H1 & H2). exists c'. by rewrite Et.
  - rewrite Hy2. apply Hm.
  - intros y Hy. rewrite Et. by apply (mv_tcbs _ _ _ _ Hm).
Qed.

Lemma resume_yield_run k t c : kwf k -> tcbs k !! t = Some c ->
  exists k', (here ← tskCAN_RUN_HERE (xCoreID c); cur ← current_tcb; core ← core_id;
     if here && (uxPriority cur <=? uxPriority c) then portYIELD_WITHIN_API
     else when (negb (xCoreID c =? core)) (taskYIELD_OTHER_CORE (xCoreID c) (uxPriority c))) k = Ret (tt, k') /\ only_yields k k'.
Proof.
  intros Hk Ht. unfold tskCAN_RUN_HERE. rewrite run_assoc. erewrite run_bind by done. erewrite run_bind by done.
  destruct (current_tcb_run k Hk) as (cur & Hr). erewrite run_bind by exact Hr. erewrite run_bind by done.
  destruct (_ && _).
  - eexists. split; [done |]. apply only_yields_add.
  - unfold when. destruct (negb _); [| by exists k]. apply (taskYIELD_OTHER_CORE_run k _ _ Hk (k_affinity k Hk _ _ Ht)).
Qed.

Lemma is_suspended_run k t c : tcbs k !! t = Some c ->
  exists b, prvTaskIsTaskSuspended t k = Ret (b, k) /\ (b = true <-> suspended k t).
Proof.
  intros Ht. unfold prvTaskIsTaskSuspended. erewrite run_bind by (by apply get_tcb_run). erewrite run_bind by done.
  eexists. split; [done |]. rewrite !andb_true_iff, negb_true_iff, bool_decide_eq_false, !bool_decide_eq_true. split.
  - intros [[H1 _] H2]. by exists c.
  - intros (c' & Hc' & H1 & H2). rewrite Ht in Hc'. injection Hc' as <-. rewrite H2. done.
Qed.

Lemma vTaskResume_run k t c : steady k -> tcbs k !! t = Some c -> pxCurrentTCB k (xPortGetCoreID k) <> Some t ->
  exists k1 k', vTaskResume t k = Ret (tt, k') /\ only_yields k1 k' /\ steady k' /\
    (suspended k t /\ readied t k k1 \/ ~ suspended k t /\ k1 = k /\ k' = k).
Proof.
  intros Hs Ht Hcur. unfold vTaskResume. erewrite run_bind by done. rewrite bool_decide_false by done.
  destruct (is_suspended_run k t c Ht) as (b & Hb & Hbs). erewrite run_bind by exact Hb. destruct b; cbn [when].
  - pose proof (proj1 Hbs eq_refl) as (c1 & Hc1 & Hg & He). rewrite Ht in Hc1. injection Hc1 as <-.
    destruct (make_ready_steady t c k Hs Ht He) as (k1 & Hr & Hs1 & Hre & _). erewrite run_bind by exact Hr.
    destruct (f_tcb _ _ (r_frame _ _ _ Hre) t c Ht) as (c1 & Hc1 & _). erewrite run_bind by (by apply get_tcb_run).
    destruct (resume_yield_run k1 t c1 (st_kwf k1 Hs1) Hc1) as (k' & Hr' & Ho). exists k1, k'. split_and!; [exact Hr' | done | |].
    + by eapply only_yields_steady.
    + left. split; [by apply Hbs | done].
  - exists k, k. split_and!; [done | done | done |]. right. split; [| done]. intros Hsu. by apply Hbs in Hsu.
Qed.

(** C17. A suspended task stays so until it is resumed.  Suspending a task other than the caller
    takes it off every list, also the list of the event it waits for; no number of ticks makes it
    ready again, and vTaskResume does.  No core is asked to switch by the suspension, not even the
    one that runs the task at that moment, unlike when a task is deleted. *)
Theorem suspend_until_resumed k t c (m : nat) :
  steady k -> ticking k -> xSchedulerRunning k = true -> tcbs k !! t = Some c -> pxCurrentTCB k 0 <> Some t ->
  exists k1 k2 k3, vTaskSuspend (Some t) k = Ret (SuspendDone, k1) /\ yields k1 = yields k /\
    pxCurrentTCB k1 = pxCurrentTCB k /\
    ticks m k1 = Ret (tt, k2) /\ suspended k2 t /\ ~ is_ready k2 t /\ waits_nowhere k2 t /\
    vTaskResume t k2 = Ret (tt, k3) /\ steady k3 /\ is_ready k3 t.
Proof.
  intros Hs Htk Hrun Ht Hcur. pose proof Htk as [Hc _].
  destruct (vTaskSuspend_other k t c Hs Hrun Ht) as (k1 & Hr1 & Hs1 & Hf1 & Hsu1 & Hy1 & _); [by rewrite Hc |].
  pose proof (frame_ticking k k1 Hf1 Htk) as Htk1.
  destruct (ticks_run m k1 (st_kwf _ Hs1) (st_placed _ Hs1) (st_timed _ Hs1) Htk1) as (k2 & Hr2 & Hti2 & Hcalm & Htk2 & _ & _ & Hsame).
  specialize (Hsame t (suspended_left k1 t Hsu1)). pose proof Hsu1 as (c1 & Hc1 & Hg1 & He1).
  assert (suspended k2 t) as Hsu2 by (exists c1; by rewrite Hsame).
  assert (steady k2) as Hs2 by (split; [apply Hcalm | apply Hcalm | apply (c_quiet _ _ Hcalm), Hs1 | done]).
  assert (tcbs k2 !! t = Some c1) as Ht2 by (by rewrite Hsame).
  destruct (vTaskResume_run k2 t c1 Hs2 Ht2) as (k2' & k3 & Hr3 & Ho & Hs3 & Hx).
  { rewrite (c_current _ _ Hcalm), (c_core _ _ Hcalm), (f_current _ _ Hf1), (f_core _ _ Hf1). by rewrite Hc. }
  exists k1, k2, k3. split_and!; try done; [apply Hf1 | by apply suspended_not_ready | |].
  - apply waits_nowhere_intro; [apply Hs2 |]. intros c' Hc'. rewrite Ht2 in Hc'. by injection Hc' as <-.
  - destruct Hx as [[_ Hre] | [Hn _]]; [| done]. destruct Ho as (w & y & ->). apply (r_ready _ _ _ Hre).
Qed.

(** * Priorities *)

(** A task changes, but not its place. *)
Lemma set_tcb_steady t c c' k : steady k -> tcbs k !! t = Some c -> xGenericListItem c' = xGenericListItem c ->
  container (xEventListItem c') = container (xEventListItem c) -> xCoreID c' = xCoreID c ->
  steady (set_tcbs (<[t := c']> (tcbs k)) k).
Proof.
  intros [Hk Hp Hq Hti] Ht Hg He Hc. set (k' := set_tcbs _ k).
  assert (tcbs k' !! t = Some c') as Ht' by (unfold k'; cbn; by rewrite lookup_insert_eq).
  assert (forall y, y <> t -> tcbs k' !! y = tcbs k !! y) as Hy by (intros; unfold k'; cbn; by rewrite lookup_insert_ne).
  split.
  - apply (kwf_set t c c'); try done. intros []; cbn; [by rewrite Hg | done].
  - apply (placed_set t c); [done | done | by rewrite Hg].
  - intros l y Hl Hin (x & p & Hx & E). apply (Hq l y Hl Hin). destruct (decide (y = t)) as [-> | Hne].
    + rewrite Ht' in Hx. injection Hx as <-. exists c, p. by rewrite <- Hg.
    + rewrite Hy in Hx by done. by exists x, p.
  - apply (timed_same k); try done. intros y. unfold values. destruct (decide (y = t)) as [-> | Hne]; [| by rewrite Hy].
    rewrite Ht', Ht. cbn. by rewrite Hg.
Qed.

(** The task after its priority was set. *)
Definition prioritised (p : Z) (c : TCB_t) : TCB_t :=
  let c := with_base p (if uxBasePriority c =? uxPriority c then with_priority p c else c) in
  if Z.land (item_value (xEventListItem c)) taskEVENT_LIST_ITEM_VALUE_IN_USE =? 0
  then with_event (mkItem (wrap_u 32 (configMAX_PRIORITIES - p)) (container (xEventListItem c))) c else c.

Lemma prioritised_run t c p k : tcbs k !! t = Some c ->
  forall B (m : K B), (when (uxBasePriority c =? uxPriority c) (update_tcb t (with_priority p));;
   update_tcb t (with_base p);;
   when (Z.land (item_value (xEventListItem c)) taskEVENT_LIST_ITEM_VALUE_IN_USE =? 0)
     (listSET_LIST_ITEM_VALUE event_item t (configMAX_PRIORITIES - p));; m) k =
  m (set_tcbs (<[t := prioritised p c]> (tcbs k)) k).
Proof.
  intros Ht B m. unfold prioritised. set (c1 := if uxBasePriority c =? uxPriority c then with_priority p c else c).
  set (k1 := set_tcbs (<[t := c1]> (tcbs k)) k).
  assert (when (uxBasePriority c =? uxPriority c) (update_tcb t (with_priority p)) k = Ret (tt, k1)) as H1.
  { unfold k1, c1, when. destruct (_ =? _); [by apply update_tcb_run |]. rewrite insert_id by done. by destruct k. }
  erewrite run_bind by exact H1.
  assert (tcbs k1 !! t = Some c1) as Ht1 by (unfold k1; cbn; by rewrite lookup_insert_eq).
  erewrite run_bind by (by apply update_tcb_run).
  assert (set_tcbs (<[t := with_base p c1]> (tcbs k1)) k1 = set_tcbs (<[t := with_base p c1]> (tcbs k)) k) as ->
    by (unfold k1; cbn; by rewrite insert_insert_eq).
  set (k2 := set_tcbs _ k). assert (tcbs k2 !! t = Some (with_base p c1)) as Ht2 by (unfold k2; cbn; by rewrite lookup_insert_eq).
  assert (xEventListItem (with_base p c1) = xEventListItem c) as He by (unfold c1; by destruct (_ =? _)).
  rewrite He. destruct (_ =? 0); cbn [when]; [| by erewrite run_bind by done].
  erewrite run_bind by (by apply update_tcb_run). f_equal. unfold k2. cbn. rewrite insert_insert_eq.
  change (xEventListItem c1) with (xEventListItem (with_base p c1)). by rewrite He.
Qed.

Lemma priority_yield_run t p b c k : kwf k -> tcbs k !! t = Some c ->
  exists r k', priority_yield t p b c k = Ret (r, k') /\ only_yields k k' /\
    (p < b -> k' = k /\ r = bool_decide (pxCurrentTCB k (xPortGetCoreID k) = Some t)).
Proof.
  intros Hk Ht. unfold priority_yield. destruct (current_run k Hk) as (x & cx & Hr & Hx & Hcx).
  erewrite run_bind by exact Hr. erewrite run_bind by done. destruct (Z.ltb_spec b p) as [Hlt | Hge].
  - destruct (negb (t =? x)); [| exists false, k; split_and!; [done | done | lia]].
    unfold tskCAN_RUN_HERE. rewrite run_assoc. erewrite run_bind by done. erewrite run_bind by done.
    destruct (current_tcb_run k Hk) as (cur & Hcur). erewrite run_bind by exact Hcur.
    destruct (_ && _); [exists true, k; split_and!; [done | done | lia] |]. unfold when.
    destruct (negb _); [| exists false, k; split_and!; [done | done | lia]].
    destruct (taskYIELD_OTHER_CORE_run k (xCoreID c) p Hk (k_affinity k Hk _ _ Ht)) as (k' & Hy & Ho).
    erewrite run_bind by exact Hy. exists false, k'. split_and!; [done | done | lia].
  - exists (t =? x), k. split_and!; [done | done |]. intros _. split; [done |]. rewrite Hx. apply eq_true_iff_eq.
    rewrite Z.eqb_eq, bool_decide_eq_true. naive_solver.
Qed.

(** A task that is in the ready list of [q] moves to that of its own priority. *)
Lemma readd_run t c q k : steady k -> tcbs k !! t = Some c ->
  exists k' c', when (bool_decide (container (xGenericListItem c) = Some (pxReadyTasksLists q))) (make_ready t) k = Ret (tt, k') /\
    steady k' /\ tcbs k' !! t = Some c' /\ tcb_like c c' /\ frame k k' /\ yields k' = yields k /\
    (forall y, y <> t -> tcbs k' !! y = tcbs k !! y) /\
    (if decide (container (xGenericListItem c) = Some (pxReadyTasksLists q))
     then forall q, klists k' (pxReadyTasksLists q) = remove_item t (klists k (pxReadyTasksLists q)) ++ (if q =? uxPriority c then [t] else [])
     else klists k' = klists k).
Proof.
  intros Hs Ht. destruct (decide _) as [Hg | Hg];
    [rewrite bool_decide_true by done | rewrite bool_decide_false by done; exists k, c; by split_and!].
  destruct (make_ready_steady t c k Hs Ht) as (k' & Hr & Hs' & Hre & Hy).
  { apply (quiet_event k t c); try done; [apply Hs.. | by exists c, q]. }
  destruct (f_tcb _ _ (r_frame _ _ _ Hre) t c Ht) as (c' & Hc' & Hl). exists k', c'. split_and!; try done; [apply Hre.. |].
  by apply (make_ready_lists t c (pxReadyTasksLists q) k k' (st_kwf k Hs)).
Qed.

(** C?. vTaskPrioritySet on every branch.  The base priority becomes the new one; the priority the
    task runs with follows unless the task holds an inherited one, which it keeps even when the new
    one is higher; the value that orders it in event lists follows unless it is used for event bits.
    A ready task goes to the end of the ready list of the priority it then has, any other stays where
    it is; lowering the running task asks its core to switch.  A priority out of range aborts. *)
Theorem vTaskPrioritySet_spec k t c p : steady k -> tcbs k !! t = Some c ->
  (configMAX_PRIORITIES <= p -> vTaskPrioritySet (Some t) p k = Fault AssertFailed) /\
  (p < configMAX_PRIORITIES -> p = uxBasePriority c -> vTaskPrioritySet (Some t) p k = Ret (tt, k)) /\
  (p < configMAX_PRIORITIES -> p <> uxBasePriority c ->
   exists k' c', vTaskPrioritySet (Some t) p k = Ret (tt, k') /\ steady k' /\ tcbs k' !! t = Some c' /\
     uxBasePriority c' = p /\ uxPriority c' = (if uxBasePriority c =? uxPriority c then p else uxPriority c) /\
     (Z.land (item_value (xEventListItem c)) taskEVENT_LIST_ITEM_VALUE_IN_USE = 0 -> 0 <= p ->
        item_value (xEventListItem c') = configMAX_PRIORITIES - p) /\
     (forall y, y <> t -> tcbs k' !! y = tcbs k !! y) /\ uxCurrentNumberOfTasks k' = uxCurrentNumberOfTasks k /\
     (if decide (container (xGenericListItem c) = Some (pxReadyTasksLists (uxPriority c)))
      then forall q, klists k' (pxReadyTasksLists q) =
        remove_item t (klists k (pxReadyTasksLists q)) ++ (if q =? uxPriority c' then [t] else [])
      else klists k' = klists k) /\
     (pxCurrentTCB k (xPortGetCoreID k) = Some t -> p < uxBasePriority c -> yields k' = xPortGetCoreID k :: yields k)).
Proof.
  intros Hs Ht. assert (configMAX_PRIORITIES = 25) as E25 by done.
  unfold vTaskPrioritySet. split_and!.
  - intros Hp. by rewrite (proj2 (Z.ltb_ge p _)) by lia.
  - intros Hp ->. rewrite (proj2 (Z.ltb_lt _ _)) by lia. erewrite run_bind by done. erewrite run_bind by done.
    erewrite run_bind by (by apply get_tcb_run). by rewrite Z.eqb_refl.
  - intros Hp Hne. rewrite (proj2 (Z.ltb_lt _ _)) by lia. erewrite run_bind by done. erewrite run_bind by done.
    erewrite run_bind by (by apply get_tcb_run). rewrite (proj2 (Z.eqb_neq (uxBasePriority c) p)) by done. cbn [negb when].
    destruct (priority_yield_run t p (uxBasePriority c) c k (st_kwf k Hs) Ht) as (r & k1 & Hr & Ho & Hlow).
    erewrite run_bind by exact Hr. pose proof (only_yields_steady k k1 Ho Hs) as Hs1.
    assert (tcbs k1 = tcbs k /\ klists k1 = klists k /\ pxCurrentTCB k1 = pxCurrentTCB k /\ xPortGetCoreID k1 = xPortGetCoreID k)
      as (Et & El & Ec & Eo) by (by destruct Ho as (? & ? & ->)).
    assert (tcbs k1 !! t = Some c) as Ht1 by (by rewrite Et). cbv zeta. rewrite (prioritised_run t c p k1 Ht1).
    set (c2 := prioritised p c). set (k2 := set_tcbs _ k1).
    assert (tcbs k2 !! t = Some c2) as Ht2 by (unfold k2; cbn; by rewrite lookup_insert_eq).
    assert (xGenericListItem c2 = xGenericListItem c /\ container (xEventListItem c2) = container (xEventListItem c) /\ xCoreID c2 = xCoreID c /\
      uxBasePriority c2 = p /\ uxPriority c2 = (if uxBasePriority c =? uxPriority c then p else uxPriority c)) as (Hg2 & He2 & Hc2 & Hb2 & Hp2)
      by (unfold c2, prioritised; destruct (uxBasePriority c =? uxPriority c); cbn; by destruct (_ =? 0)).
    assert (steady k2) as Hs2 by (by apply (set_tcb_steady t c)).
    assert (forall y, y <> t -> tcbs k2 !! y = tcbs k !! y) as Hy2 by (intros; unfold k2; cbn; by rewrite lookup_insert_ne, Et).
    destruct (readd_run t c2 (uxPriority c) k2 Hs2 Ht2) as (k3 & c3 & Hr3 & Hs3 & Ht3 & Hl3 & Hf3 & Hy3 & Hn3 & Hq3).
    rewrite Hg2 in Hr3, Hq3.
    erewrite run_bind by exact Hr3. destruct Hl3 as (Hl1 & _ & Hl2 & _ & Hl3).
    assert (exists k', when r portYIELD_WITHIN_API k3 = Ret (tt, k') /\ only_yields k3 k' /\
      yields k' = if r then xPortGetCoreID k :: yields k3 else yields k3) as (k' & Hr' & Ho' & Hy').
    { destruct r; cbn [when]; [| by exists k3]. eexists. split_and!; [done | apply only_yields_add |]. cbn.
      by rewrite (f_core _ _ Hf3), <- Eo. }
    exists k', c3. pose proof (only_yields_steady k3 k' Ho' Hs3) as Hs'.
    assert (tcbs k' = tcbs k3 /\ klists k' = klists k3) as [-> ->] by (by destruct Ho' as (? & ? & ->)).
    split_and!; [exact Hr' | done | done | congruence | congruence | | | | |].
    + intros Hz Hp0. rewrite Hl3. unfold c2, prioritised.
      assert (forall b : bool, xEventListItem (with_base p (if b then with_priority p c else c)) = xEventListItem c) as -> by (by intros []).
      rewrite (proj2 (Z.eqb_eq _ 0)) by done. cbn. apply wrap_u_small. lia.
    + intros y Hy. by rewrite Hn3, Hy2.
    + transitivity (uxCurrentNumberOfTasks k3); [by destruct Ho' as (? & ? & ->) |]. rewrite (f_tasks _ _ Hf3). by destruct Ho as (? & ? & ->).
    + change (klists k2) with (klists k1) in Hq3. rewrite El in Hq3. by rewrite Hl1.
    + intros Hcur Hlt. rewrite Hy'. destruct (Hlow Hlt) as [-> ->]. rewrite bool_decide_true by done. by rewrite Hy3.
Qed.

(** ** What eTaskGetState reports *)

(** The state reported of a task other than the caller is the one the lists say. *)
Theorem eTaskGetState_spec k t c : steady k -> tcbs k !! t = Some c -> pxCurrentTCB k (xPortGetCoreID k) <> Some t ->
  exists r, eTaskGetState false t k = Ret (r, k) /\
    (r = eReady <-> is_ready k t) /\ (r = eDeleted <-> t ∈ klists k xTasksWaitingTermination) /\ (r = eSuspended <-> suspended k t) /\
    (r = eBlocked <-> is_Some (ticks_left k t) \/ t ∈ klists k xSuspendedTaskList /\ ~ suspended k t).
Proof.
  intros Hs Ht Hcur. unfold eTaskGetState. erewrite run_bind by done. erewrite run_bind by done. rewrite bool_decide_false by done.
  erewrite run_bind by (by apply get_tcb_run). cbv zeta. eexists. split; [done |]. destruct (st_placed k Hs t c Ht) as (g & Hg).
  pose proof (k_kind k (st_kwf k Hs) t c generic_item g Ht Hg) as Hkg.
  assert (forall l, kind_of l = generic_item -> t ∈ klists k l <-> g = l) as Hin.
  { intros l Hl. rewrite (k_in k (st_kwf k Hs)), Hl. split; [intros (x & Hx & E) | intros <-; by exists c].
    rewrite Ht in Hx. injection Hx as <-. cbn in E. congruence. }
  assert (is_ready k t <-> exists p, g = pxReadyTasksLists p) as Hr.
  { split; [intros (x & p & Hx & E) | intros (p & ->); by exists c, p]. rewrite Ht in Hx. injection Hx as <-. exists p. congruence. }
  assert (suspended k t <-> g = xSuspendedTaskList /\ container (xEventListItem c) = None) as Hsu.
  { split; [intros (x & Hx & E & E') | intros [-> ?]; by exists c]. rewrite Ht in Hx. injection Hx as <-. split; [congruence | done]. }
  assert (is_Some (ticks_left k t) <-> timer_list k g) as Hl.
  { unfold ticks_left, timer_list. rewrite Ht. cbn. rewrite Hg. cbn. destruct (decide _); [split; [by left | by eexists] |].
    destruct (decide _); [split; [by right | by eexists] |]. split; [intros [? ?]; done | tauto]. }
  rewrite Hr, Hsu, Hl, !Hin by done. rewrite Hg. unfold timer_list, pxDelayedTaskList, pxOverflowDelayedTaskList.
  destruct (delayed_is_1 k), g; try discriminate Hkg; cbn; try (destruct (container (xEventListItem c)); cbn); naive_solver.
Qed.

(** * Calls that leave deleted tasks alone *)

(** A call concerned the task [h] only, which is not waiting for termination. *)
Record keeps (h : Z) (k k' : kernel) : Prop := {
  kp_steady : steady k';
  kp_tcbs y : y <> h -> tcbs k' !! y = tcbs k !! y;
  kp_tcb : is_Some (tcbs k' !! h);
  kp_alive : h ∉ klists k' xTasksWaitingTermination;
  kp_count : uxCurrentNumberOfTasks k' = uxCurrentNumberOfTasks k }.

Lemma keeps_refl h k : steady k -> is_Some (tcbs k !! h) -> h ∉ klists k xTasksWaitingTermination -> keeps h k k.
Proof. by split. Qed.

Lemma keeps_yields h k k1 k' : only_yields k1 k' -> keeps h k k1 -> keeps h k k'.
Proof. intros Ho []. pose proof (only_yields_steady k1 k' Ho kp_steady0). destruct Ho as (w & y & ->). by split. Qed.

Lemma not_in_list k t c l : kwf k -> tcbs k !! t = Some c -> container (item_of_kind (kind_of l) c) <> Some l -> t ∉ klists k l.
Proof. intros Hk Ht Hn (c' & Hc' & E)%(k_in k Hk). congruence. Qed.

Lemma vTaskDelay_keeps k t c n : steady k -> pxCurrentTCB k (xPortGetCoreID k) = Some t -> tcbs k !! t = Some c -> is_ready k t ->
  uxSchedulerSuspended k (xPortGetCoreID k) = 0 -> 0 <= n < portMAX_DELAY -> exists k', vTaskDelay n k = Ret (tt, k') /\ keeps t k k'.
Proof.
  intros Hs Hcur Ht Hr Hsu Hn. pose proof Hr as (x & p & Hx & Hg). rewrite Ht in Hx. injection Hx as <-.
  assert (t ∉ klists k xTasksWaitingTermination) as Hnin by (apply (not_in_list k t c); [apply Hs | done | cbn; congruence]).
  unfold vTaskDelay. destruct (Z.ltb_spec 0 n) as [Hpos | Hz]; cbn [when].
  - rewrite run_assoc. erewrite run_bind by done. rewrite Hsu. rewrite run_assoc. erewrite run_bind by done.
    destruct (delay_current_run k t c n Hs Hcur Ht Hr) as (k1 & Hrun & Hs1 & Hf & Hl & _ & Hother); [lia |].
    erewrite run_bind by exact Hrun. eexists. split; [done |]. apply (keeps_yields t k k1); [apply only_yields_add |].
    destruct (f_tcb _ _ Hf t c Ht) as (c1 & Hc1 & _). split; [done | done | by exists c1 | | apply Hf].
    apply (not_in_list k1 t c1); [apply Hs1 | done |]. cbn. intros E. unfold ticks_left in Hl. rewrite Hc1 in Hl. cbn in Hl. rewrite E in Hl. cbn in Hl.
    revert Hl. unfold pxDelayedTaskList, pxOverflowDelayedTaskList. by destruct (delayed_is_1 k1).
  - erewrite run_bind by done. eexists. split; [done |]. apply (keeps_yields t k k); [apply only_yields_add |]. by apply keeps_refl.
Qed.

Lemma moved_keeps t l k k' : steady k' -> moved t l k k' -> l <> xTasksWaitingTermination -> kind_of l = generic_item -> keeps t k k'.
Proof.
  intros Hs Hm Hl Hkl. destruct (mv_tcb _ _ _ _ Hm) as (c & Hc & Hg & _). split; [done | apply Hm | by exists c | | apply Hm].
  apply (not_in_list k' t c); [apply Hs | done |]. cbn. congruence.
Qed.

Lemma vTaskSuspend_keeps k h t c : steady k -> xSchedulerRunning k = true -> prvGetTCBFromHandle h k = Ret (t, k) -> tcbs k !! t = Some c ->
  uxSchedulerSuspended k (xPortGetCoreID k) = 0 -> exists r k', vTaskSuspend h k = Ret (r, k') /\ keeps t k k'.
Proof.
  intros Hs Hrun Hh Ht Hsu. destruct (st_placed k Hs t c Ht) as (g & Hg).
  destruct (move_to_run xSuspendedTaskList t c k (st_kwf k Hs) Ht (mk_is_Some _ _ Hg) eq_refl) as (k1 & Hr & Hm).
  assert (steady k1) as Hs1 by (apply (moved_steady t xSuspendedTaskList k); [done | by apply not_timer | done]).
  pose proof (moved_keeps t _ k k1 Hs1 Hm ltac:(done) eq_refl) as Hkp. pose proof (mv_frame _ _ _ _ Hm) as Hf.
  unfold vTaskSuspend. erewrite run_bind by exact Hh. erewrite run_bind by exact Hr. erewrite run_bind by done. cbv zeta.
  rewrite (f_running _ _ Hf), Hrun, (f_suspended _ _ Hf), (f_core _ _ Hf), Hsu. destruct (bool_decide _).
  - erewrite run_bind by done. unfold portYIELD_WITHIN_API. rewrite run_assoc. erewrite run_bind by done. erewrite run_bind by done.
    do 2 eexists. split; [done |]. apply (keeps_yields t k k1); [apply only_yields_add | done].
  - destruct (reset_unblock_run k1 (st_kwf k1 Hs1)) as (k2 & Hr2 & (Et & El & Hsame) & _ & Hti & Hf2). cbn [when]. erewrite run_bind by exact Hr2.
    do 2 eexists. split; [done |]. destruct Hkp. split; rewrite ?Et, ?El; try done; [| by rewrite (f_tasks _ _ Hf2)].
    apply (same_tasks_steady k1); [done | by split | by apply Hti, Hs1].
Qed.

Lemma readied_keeps t k k' : steady k' -> readied t k k' -> keeps t k k'.
Proof.
  intros Hs Hre. destruct (r_ready _ _ _ Hre) as (c & p & Hc & Hg). split; [done | apply Hre | by exists c | | apply Hre].
  apply (not_in_list k' t c); [apply Hs | done |]. cbn. congruence.
Qed.

Lemma vTaskResume_keeps k t c : steady k -> tcbs k !! t = Some c -> t ∉ klists k xTasksWaitingTermination ->
  exists k', vTaskResume t k = Ret (tt, k') /\ keeps t k k'.
Proof.
  intros Hs Ht Hnin. destruct (decide (pxCurrentTCB k (xPortGetCoreID k) = Some t)) as [E | E].
  - exists k. split; [| by apply keeps_refl]. unfold vTaskResume. erewrite run_bind by done. by rewrite bool_decide_true by done.
  - destruct (vTaskResume_run k t c Hs Ht E) as (k1 & k' & Hr & Ho & Hs' & Hx). exists k'. split; [done |].
    apply (keeps_yields t k k1); [done |]. destruct Hx as [[_ Hre] | (_ & -> & _)]; [| by apply keeps_refl].
    apply readied_keeps; [| done]. destruct Ho as (w & y & ->). destruct Hs' as [[] ? ? ?]. split; [by split | done | done |]. by apply (timed_same (set_yields y (set_yield_pending w k1))).
Qed.

(** From an interrupt, on a core whose scheduler may be suspended. *)
Lemma xTaskResumeFromISR_keeps k t c : steady k -> tcbs k !! t = Some c -> t ∉ klists k xTasksWaitingTermination ->
  exists b k', xTaskResumeFromISR t k = Ret (b, k') /\ keeps t k k'.
Proof.
  intros Hs Ht Hnin. unfold xTaskResumeFromISR. destruct (is_suspended_run k t c Ht) as (b & Hb & Hbs).
  erewrite run_bind by exact Hb. erewrite run_bind by done. cbv zeta. destruct b; [| exists false, k; split; [done | by apply keeps_refl]].
  pose proof (proj1 Hbs eq_refl) as (c1 & Hc1 & Hg & He). rewrite Ht in Hc1. injection Hc1 as <-.
  destruct (uxSchedulerSuspended k (xPortGetCoreID k) =? 0).
  - destruct (make_ready_steady t c k Hs Ht He) as (k1 & Hr & Hs1 & Hre & _). erewrite run_bind by exact Hr.
    pose proof (readied_keeps t k k1 Hs1 Hre) as Hkp. destruct (f_tcb _ _ (r_frame _ _ _ Hre) t c Ht) as (c1 & Hc1 & _).
    erewrite run_bind by (by apply get_tcb_run). unfold tskCAN_RUN_HERE. rewrite run_assoc. erewrite run_bind by done. erewrite run_bind by done.
    destruct (current_tcb_run k1 (st_kwf k1 Hs1)) as (cur & Hcur). erewrite run_bind by exact Hcur. destruct (_ && _); [by exists true, k1 |].
    unfold when. destruct (negb _); [| by exists false, k1].
    destruct (taskYIELD_OTHER_CORE_run k1 _ (uxPriority c1) (st_kwf k1 Hs1) (k_affinity k1 (st_kwf k1 Hs1) _ _ Hc1)) as (k' & Hy & Ho).
    erewrite run_bind by exact Hy. exists false, k'. split; [done |]. by apply (keeps_yields t k k1).
  - erewrite run_bind by (by apply list_insert_end_run). do 2 eexists. split; [done |].
    set (k' := link_item event_item t c (xPendingReadyList (xPortGetCoreID k)) _ k).
    assert (kwf k') as Hk' by (apply link_kwf; try done; [apply Hs | by rewrite <- Permutation_cons_append]).
    assert (tcbs k' !! t = Some (with_item event_item (mkItem (item_value (xEventListItem c)) (Some (xPendingReadyList (xPortGetCoreID k)))) c)) as Ht'
      by (unfold k', link_item; cbn; by rewrite lookup_insert_eq).
    assert (forall y, y <> t -> tcbs k' !! y = tcbs k !! y) as Hy by (intros; unfold k', link_item; cbn; by rewrite lookup_insert_ne).
    assert (forall m, kind_of m = generic_item -> klists k' m = klists k m) as Hm.
    { intros m Hm. unfold k', link_item. cbn. by rewrite fn_lookup_insert_ne by (intros <-; done). }
    split; [| done | by eexists | by rewrite Hm | done]. split; [done | | |].
    + intros y x Hx. destruct (decide (y = t)) as [-> | Hne]; [rewrite Ht' in Hx; injection Hx as <-; cbn; rewrite Hg; by eexists |].
      rewrite Hy in Hx by done. by apply (st_placed k Hs y).
    + apply (quiet_step t k k'); try done; [apply Hs.. |]. right. intros (x & p & Hx & E). rewrite Ht' in Hx. injection Hx as <-. cbn in E. congruence.
    + apply (timed_same k); try done; [apply Hs | intros m Hm' _; by apply Hm |].
      intros y. unfold values. destruct (decide (y = t)) as [-> | Hne]; [by rewrite Ht', Ht | by rewrite Hy].
Qed.

Lemma vTaskPrioritySet_keeps k h t c p : steady k -> prvGetTCBFromHandle h k = Ret (t, k) -> tcbs k !! t = Some c ->
  t ∉ klists k xTasksWaitingTermination -> p < configMAX_PRIORITIES -> exists k', vTaskPrioritySet h p k = Ret (tt, k') /\ keeps t k k'.
Proof.
  intros Hs Hh Ht Hnin Hp. assert (vTaskPrioritySet h p k = vTaskPrioritySet (Some t) p k) as ->.
  { unfold vTaskPrioritySet. rewrite (proj2 (Z.ltb_lt _ _)) by done. rewrite !(run_bind (assert true) _ k tt k) by done.
    by rewrite (run_bind _ _ k t k Hh), (run_bind (prvGetTCBFromHandle (Some t)) _ k t k) by done. }
  destruct (vTaskPrioritySet_spec k t c p Hs Ht) as (_ & H1 & H2). destruct (decide (p = uxBasePriority c)) as [E | E].
  - exists k. split; [by apply H1 | by apply keeps_refl].
  - destruct (H2 Hp E) as (k' & c' & Hr & Hs' & Hc' & _ & _ & _ & Hy & Hn & Hl & _). exists k'. split; [done |].
    split; [done | done | by exists c' | | done]. destruct (decide _) as [Hg | Hg]; [| by rewrite Hl].
    apply (not_in_list k' t c'); [apply Hs' | done |]. specialize (Hl (uxPriority c')). rewrite Z.eqb_refl in Hl.
    assert (t ∈ klists k' (pxReadyTasksLists (uxPriority c'))) as Hin by (rewrite Hl; set_solver +).
    apply (k_in k' (st_kwf k' Hs')) in Hin as (x & Hx & E'). rewrite Hc' in Hx. injection Hx as <-. cbn in E'. cbn. congruence.
Qed.

(** * Concrete runs *)

Lemma two_tasks_steady v qs gs : 0 <= v < 2 ^ 32 -> steady (set_tick v (two_tasks 0 qs gs)).
Proof.
  intros Hv. pose proof (two_tasks_kwf 0 qs gs) as []. split; [by split | apply two_tasks_placed | apply two_tasks_quiet | by apply two_tasks_timed].
Qed.

Lemma two_tasks_ready v qs gs t : t = 1 \/ t = 2 -> is_ready (set_tick v (two_tasks 0 qs gs)) t.
Proof. intros [-> | ->]; [exists (ready_tcb 0 0), 5 | exists (ready_tcb 1 0), 5]; (split; [reflexivity | reflexivity]). Qed.

(** A period of 10 ticks across the wrap of the tick count: 8 ticks are left. *)
Lemma vTaskDelayUntil_periodic_witness : let k := set_tick (2 ^ 32 - 2) (two_tasks 0 ∅ ∅) in
  exists k1 k2, vTaskDelayUntil false (2 ^ 32 - 4) 10 k = Ret (6, k1) /\ ticks 8 k1 = Ret (tt, k2) /\ is_ready k2 1.
Proof.
  intros k. destruct (vTaskDelayUntil_periodic k 1 (ready_tcb 0 0) (2 ^ 32 - 2) (2 ^ 32 - 4) 10) as [(k1 & H1 & _ & _ & H2) _].
  - apply two_tasks_steady. lia.
  - split; reflexivity.
  - reflexivity.
  - reflexivity.
  - apply two_tasks_ready. by left.
  - reflexivity.
  - lia.
  - split; reflexivity.
  - change (2 ^ 32 - 2 <? 2 ^ 32 - 4 + 10) with true in H2. cbv iota in H2. destruct (H2 8%nat) as (k2 & H3 & _ & _ & H4).
    exists k1, k2. split; [exact H1 | split; [exact H3 | exact (proj1 H4)]].
Defined.

Lemma suspend_until_resumed_witness : let k := set_tick 0 (two_tasks 0 ∅ ∅) in
  exists k1 k2 k3, vTaskSuspend (Some 2) k = Ret (SuspendDone, k1) /\ yields k1 = [] /\ pxCurrentTCB k1 1 = Some 2 /\
    ticks 100 k1 = Ret (tt, k2) /\ ~ is_ready k2 2 /\ vTaskResume 2 k2 = Ret (tt, k3) /\ is_ready k3 2.
Proof.
  intros k. destruct (suspend_until_resumed k 2 (ready_tcb 1 0) 100) as (k1 & k2 & k3 & H1 & H2 & H3 & H4 & _ & H5 & _ & H6 & _ & H7).
  - apply two_tasks_steady. lia.
  - split; reflexivity.
  - reflexivity.
  - reflexivity.
  - discriminate.
  - exists k1, k2, k3. split_and!; try assumption. by rewrite H3.
Defined.

Lemma vTaskPrioritySet_spec_witness : let k := set_tick 0 (two_tasks 0 ∅ ∅) in
  vTaskPrioritySet (Some 1) 25 k = Fault AssertFailed /\
  exists k', vTaskPrioritySet (Some 1) 3 k = Ret (tt, k') /\ klists k' (pxReadyTasksLists 3) = [1] /\ klists k' (pxReadyTasksLists 5) = [2] /\ yields k' = [0].
Proof.
  intros k. assert (steady k) as Hs by (apply two_tasks_steady; lia). split.
  - apply (vTaskPrioritySet_spec k 1 (ready_tcb 0 0) 25 Hs); reflexivity || discriminate.
  - destruct (vTaskPrioritySet_spec k 1 (ready_tcb 0 0) 3 Hs eq_refl) as (_ & _ & H).
    destruct H as (k' & c' & H1 & _ & _ & _ & H2 & _ & _ & _ & H3 & H4); [reflexivity | discriminate |].
    exists k'. rewrite decide_True in H3 by reflexivity. rewrite !H3, H2, H4 by reflexivity. split_and!; [exact H1 | reflexivity..].
Defined.
