(* ===== verification/FreeRtosLife.v ===== *)
(** The life of tasks (src/ESP32/components/freertos/tasks.c): creating them,
    starting the scheduler, deleting them, and giving their memory back.

    The state [control] adds to the kernel what only these calls use: the counts
    of deleted tasks and of task numbers, the names and stacks of the tasks, and
    the blocks of memory in use.  The allocator is a parameter: each allocation
    is an argument, [None] when memory runs out.  Of a new task's memory the frame
    that pxPortInitialiseStack writes on the stack and the thread-local storage
    (with the application's delete callbacks) are left out.

    A deletion is two sections, since it leaves the kernel's mutex before it asks
    for the switch that takes the deleted task off its core. *)

From S2P Require Import Prelude FreeRtosList FreeRtosTasks FreeRtosTime FreeRtosControl.

Definition configMAX_TASK_NAME_LEN : Z := 16.

(** * The state of task control *)

Record control := mkControl {
  kern : kernel;
  uxTasksDeleted : Z;
  uxTaskNumber : Z;
  pcTaskName : gmap Z (list Z);
  pxStack : gmap Z Z;
  heap : gset Z }.       (* the blocks in use, by their address *)

Abbreviation C := (st control).

Definition set_kern v s := mkControl v (uxTasksDeleted s) (uxTaskNumber s) (pcTaskName s) (pxStack s) (heap s).
Definition set_deleted v s := mkControl (kern s) v (uxTaskNumber s) (pcTaskName s) (pxStack s) (heap s).
Definition set_number v s := mkControl (kern s) (uxTasksDeleted s) v (pcTaskName s) (pxStack s) (heap s).
Definition set_names v s := mkControl (kern s) (uxTasksDeleted s) (uxTaskNumber s) v (pxStack s) (heap s).
Definition set_stacks v s := mkControl (kern s) (uxTasksDeleted s) (uxTaskNumber s) (pcTaskName s) v (heap s).
Definition set_heap v s := mkControl (kern s) (uxTasksDeleted s) (uxTaskNumber s) (pcTaskName s) (pxStack s) v.

Definition on_kern {A} (m : K A) : C A := fun s =>
  match m (kern s) with Ret (a, k) => Ret (a, set_kern k s) | Fault e => Fault e end.

Definition set_tasks v k := mkKernel (tcbs k) (klists k) (delayed_is_1 k) (pxCurrentTCB k) (xPortGetCoreID k) (uxSchedulerSuspended k) (xSchedulerRunning k) v (uxPendedTicks k) (xTickCount k) (xNumOfOverflows k) (xNextTaskUnblockTime k) (xYieldPending k) (yields k) (queues k) (groups k) (stray_read k).

(** ** Memory *)

(** The allocator's answer [r], and what follows when there is a block. *)
Definition pvPortMalloc (r : option Z) : C (option Z) :=
  match r with
  | None => mret None
  | Some a => modify (fun s => set_heap ({[a]} ∪ heap s) s);; mret (Some a)
  end.
Definition vPortFree (a : Z) : C unit :=
  s ← get; if bool_decide (a ∈ heap s) then modify (fun s => set_heap (heap s ∖ {[a]}) s) else throw BadFree.

(** * Creation *)

(** The loop that copies at most [n] bytes of the name, up to its end. *)
Fixpoint copy_name (n : nat) (pcName : list Z) : res (list Z) :=
  match n with
  | O => Ret []
  | S n => match pcName with
           | [] => Fault OutOfBounds
           | b :: pcName => if b =? 0 then Ret [0] else l ← copy_name n pcName; Ret (b :: l)
           end
  end.

(** The bytes of pcTaskName that are written; the last of the array ends it. *)
Definition task_name (pcName : list Z) : res (list Z) :=
  l ← copy_name (Z.to_nat configMAX_TASK_NAME_LEN) pcName;
  Ret (if zlen l =? configMAX_TASK_NAME_LEN then take (Z.to_nat (configMAX_TASK_NAME_LEN - 1)) l ++ [0] else l).

(** The value of the generic item is not initialised: [junk]. *)
Definition new_tcb (junk uxPriority xCoreID : Z) : TCB_t :=
  let p := if configMAX_PRIORITIES <=? uxPriority then configMAX_PRIORITIES - 1 else uxPriority in
  mkTCB (mkItem junk None) (mkItem (wrap_u 32 (configMAX_PRIORITIES - p)) None) p xCoreID p 0.

Definition prvInitialiseNewTask (junk : Z) (pcName : list Z) (uxPriority pxNewTCB xCoreID : Z) : C unit :=
  name ← (fun s => match task_name pcName with Ret n => Ret (n, s) | Fault e => Fault e end);
  modify (fun s => set_names (<[pxNewTCB := name]> (pcTaskName s)) s);;
  modify (fun s => set_kern (set_tcbs (<[pxNewTCB := new_tcb junk uxPriority xCoreID]> (tcbs (kern s))) (kern s)) s).

Definition prvInitialiseTaskLists : K unit :=
  modify (fun k => set_klists (fun l => match l with
    | pxReadyTasksLists p => if (0 <=? p) && (p <? configMAX_PRIORITIES) then [] else klists k l
    | xDelayedTaskList1 | xDelayedTaskList2 | xTasksWaitingTermination | xSuspendedTaskList => []
    | xPendingReadyList core => if (core =? 0) || (core =? 1) then [] else klists k l
    | _ => klists k l end) k);;
  modify (set_delayed_is_1 true).

Definition priority_of (t : Z) : K Z := c ← get_tcb t; mret (uxPriority c).

(** The core a task without affinity starts on. *)
Definition choose_core (pxNewTCB : Z) : K Z :=
  k ← get;
  new ← priority_of pxNewTCB;
  match pxCurrentTCB k 0, pxCurrentTCB k 1 with
  | None, _ => mret 0
  | _, None => mret 1
  | Some tcb0, Some tcb1 =>
      p0 ← priority_of tcb0;
      p1 ← priority_of tcb1;
      mret (if (p0 <? new) && (p0 <? p1) then 0 else if p1 <? new then 1 else xPortGetCoreID k)
  end.

(** An index of pxCurrentTCB. *)
Definition core_index (core : Z) : K unit := if (core =? 0) || (core =? 1) then mret tt else throw OutOfBounds.
Definition set_running (core t : Z) : K unit := modify (fun k => set_current (<[core := Some t]> (pxCurrentTCB k)) k).

(** The first critical section; it returns the core chosen.  [number] is the
    number of tasks, the new one included. *)
Definition add_new_task (pxNewTCB xCoreID : Z) : K Z :=
  modify (fun k => set_tasks (wrap_u 32 (uxCurrentNumberOfTasks k + 1)) k);;
  xCoreID ← (if xCoreID =? tskNO_AFFINITY then choose_core pxNewTCB else mret xCoreID);
  core_index xCoreID;;
  k ← get;
  match pxCurrentTCB k xCoreID with
  | None => set_running xCoreID pxNewTCB;; when (uxCurrentNumberOfTasks k =? 1) prvInitialiseTaskLists
  | Some t =>
      when (negb (xSchedulerRunning k))
        (cur ← priority_of t;
         new ← priority_of pxNewTCB;
         when (cur <=? new) (set_running xCoreID pxNewTCB))
  end;;
  prvAddTaskToReadyList pxNewTCB;;
  mret xCoreID.

(** The second: the new task runs at once if its priority is higher. *)
Definition yield_to_new (pxNewTCB xCoreID : Z) : K unit :=
  k ← get;
  new ← priority_of pxNewTCB;
  higher ← match pxCurrentTCB k xCoreID with None => mret true | Some t => p ← priority_of t; mret (p <? new) end;
  when higher
    (if xCoreID =? xPortGetCoreID k then portYIELD_WITHIN_API else taskYIELD_OTHER_CORE xCoreID new).

Definition prvAddNewTaskToReadyList (pxNewTCB xCoreID : Z) : C unit :=
  on_kern (assert ((xCoreID =? tskNO_AFFINITY) || (xCoreID <? portNUM_PROCESSORS)));;
  xCoreID ← on_kern (add_new_task pxNewTCB xCoreID);
  modify (fun s => set_number (wrap_u 32 (uxTaskNumber s + 1)) s);;
  s ← get;
  when (xSchedulerRunning (kern s)) (on_kern (yield_to_new pxNewTCB xCoreID)).

(** [Some t]: pdPASS, with the handle; [None]: errCOULD_NOT_ALLOCATE_REQUIRED_MEMORY. *)
Definition xTaskCreatePinnedToCore (malloc_stack malloc_tcb : option Z) (junk : Z) (pcName : list Z)
    (uxPriority xCoreID : Z) : C (option Z) :=
  stack ← pvPortMalloc malloc_stack;
  match stack with
  | None => mret None
  | Some stack =>
      tcb ← pvPortMalloc malloc_tcb;
      match tcb with
      | None => vPortFree stack;; mret None
      | Some pxNewTCB =>
          modify (fun s => set_stacks (<[pxNewTCB := stack]> (pxStack s)) s);;
          prvInitialiseNewTask junk pcName uxPriority pxNewTCB xCoreID;;
          prvAddNewTaskToReadyList pxNewTCB xCoreID;;
          mret (Some pxNewTCB)
      end
  end.

(** ** Starting the scheduler *)

(** The answers of the allocator to one creation. *)
Record memory := mkMemory { malloc_stack : option Z; malloc_tcb : option Z; garbage : Z }.

Definition create_in (m : memory) (pcName : list Z) (uxPriority xCoreID : Z) : C bool :=
  r ← xTaskCreatePinnedToCore (malloc_stack m) (malloc_tcb m) (garbage m) pcName uxPriority xCoreID;
  mret (bool_decide (is_Some r)).

Definition tskIDLE_PRIORITY : Z := 0.
Definition configTIMER_TASK_PRIORITY : Z := 1.
Definition IDLE : list Z := [73; 68; 76; 69; 0].
Definition Tmr_Svc : list Z := [84; 109; 114; 32; 83; 118; 99; 0].

(** The timer task, when the queue of the timers is there. *)
Definition xTimerCreateTimerTask (timer : memory) : C bool :=
  xReturn ← create_in timer Tmr_Svc configTIMER_TASK_PRIORITY 0;
  on_kern (assert xReturn);;
  mret xReturn.

(** Up to the start of the tick; each round of the loop over the cores overwrites xReturn. *)
Definition vTaskStartScheduler (idle0 idle1 timer : memory) : C unit :=
  create_in idle0 IDLE tskIDLE_PRIORITY 0;;
  xReturn ← create_in idle1 IDLE tskIDLE_PRIORITY 1;
  xReturn ← (if (xReturn : bool) then xTimerCreateTimerTask timer else mret xReturn);
  if (xReturn : bool) then
    on_kern (modify (set_tick 0));;
    on_kern (modify (fun k => mkKernel (tcbs k) (klists k) (delayed_is_1 k) (pxCurrentTCB k) (xPortGetCoreID k) (uxSchedulerSuspended k) true
      (uxCurrentNumberOfTasks k) (uxPendedTicks k) (xTickCount k) (xNumOfOverflows k) (xNextTaskUnblockTime k) (xYieldPending k) (yields k) (queues k) (groups k) (stray_read k)))
  else on_kern (assert xReturn).

(** * Deletion *)

(** The section that takes the task out of the scheduler's hands. *)
Definition vTaskDelete_section (xTaskToDelete : option Z) : C Z :=
  pxTCB ← on_kern (pxTCB ← prvGetTCBFromHandle xTaskToDelete; move_to xTasksWaitingTermination pxTCB;; mret pxTCB);
  modify (fun s => set_deleted (wrap_u 32 (uxTasksDeleted s + 1)) s);;
  modify (fun s => set_number (wrap_u 32 (uxTaskNumber s + 1)) s);;
  mret pxTCB.

(** What follows it: the core that runs the task is asked to switch. *)
Definition vTaskDelete_end (pxTCB : Z) : K unit :=
  k ← get;
  let core := xPortGetCoreID k in
  let other := if core =? 0 then 1 else 0 in
  when (xSchedulerRunning k)
    (if bool_decide (pxCurrentTCB k core = Some pxTCB) then
       assert (uxSchedulerSuspended k core =? 0);; portYIELD_WITHIN_API
     else if bool_decide (pxCurrentTCB k other = Some pxTCB) then yield_core other
     else prvResetNextTaskUnblockTime).

Definition vTaskDelete (xTaskToDelete : option Z) : C unit :=
  pxTCB ← vTaskDelete_section xTaskToDelete; on_kern (vTaskDelete_end pxTCB).

(** The memory of the task is given back. *)
Definition prvDeleteTCB (pxTCB : Z) : C unit :=
  s ← get;
  stack ← need UninitRead (pxStack s !! pxTCB);
  vPortFree stack;;
  vPortFree pxTCB;;
  modify (fun s => set_kern (set_tcbs (delete pxTCB (tcbs (kern s))) (kern s)) s);;
  modify (fun s => set_names (delete pxTCB (pcTaskName s)) (set_stacks (delete pxTCB (pxStack s)) s)).

(** The loop of the idle task, under the kernel's mutex: with a count above zero
    and an empty list it would never end. *)
Fixpoint termination_loop (fuel : nat) : C unit :=
  match fuel with
  | O => throw OutOfFuel
  | S fuel =>
      s ← get;
      if 0 <? uxTasksDeleted s then
        match klists (kern s) xTasksWaitingTermination with
        | [] => throw Deadlock
        | pxTCB :: _ =>
            c ← on_kern (get_tcb pxTCB);
            if (xCoreID c =? tskNO_AFFINITY) || (xCoreID c =? xPortGetCoreID (kern s)) then
              on_kern (list_remove generic_item pxTCB);;
              modify (fun s => set_kern (set_tasks (wrap_u 32 (uxCurrentNumberOfTasks (kern s) - 1)) (kern s)) s);;
              modify (fun s => set_deleted (wrap_u 32 (uxTasksDeleted s - 1)) s);;
              prvDeleteTCB pxTCB;;
              termination_loop fuel
            else mret tt
        end
      else mret tt
  end.

Definition prvCheckTasksWaitingTermination : C unit :=
  s ← get; termination_loop (S (length (klists (kern s) xTasksWaitingTermination))).

(** * The memory of tasks *)

(** The part of [kwf] that also holds before the cores run tasks, and after the
    memory of a running task was freed. *)
Record lists_wf (k : kernel) : Prop := {
  lw_in l t : t ∈ klists k l <-> exists c, tcbs k !! t = Some c /\ container (item_of_kind (kind_of l) c) = Some l;
  lw_kind t c i l : tcbs k !! t = Some c -> container (item_of_kind i c) = Some l -> kind_of l = i;
  lw_nodup l : NoDup (klists k l);
  lw_core : xPortGetCoreID k = 0 \/ xPortGetCoreID k = 1;
  lw_affinity t c : tcbs k !! t = Some c -> affinity_ok k (xCoreID c) }.

Lemma kwf_lists k : kwf k -> lists_wf k.
Proof. intros []. by split. Qed.
Lemma lists_kwf k : lists_wf k -> (forall core, core = 0 \/ core = 1 -> exists t c, pxCurrentTCB k core = Some t /\ tcbs k !! t = Some c) -> kwf k.
Proof. intros [] ?. by split. Qed.

(** Let some task run everywhere, and [kwf] holds. *)
Lemma lists_run_everywhere k t c : lists_wf k -> tcbs k !! t = Some c -> kwf (set_current (fun _ => Some t) k).
Proof. intros [] Ht. split; try done. intros core _. by exists t, c. Qed.

Lemma unlink_lists_wf i t c l k : lists_wf k -> tcbs k !! t = Some c -> container (item_of_kind i c) = Some l ->
  lists_wf (unlink_item i t c l k).
Proof.
  intros Hk Ht Hl. pose proof (unlink_kwf i t c l _ (lists_run_everywhere k t c Hk Ht) Ht Hl) as H.
  apply kwf_lists in H as []. by split.
Qed.
Lemma link_lists_wf i t c l new k : lists_wf k -> tcbs k !! t = Some c -> container (item_of_kind i c) = None ->
  kind_of l = i -> new ≡ₚ t :: klists k l -> lists_wf (link_item i t c l new k).
Proof.
  intros Hk Ht Hn Hl Hnew. pose proof (link_kwf i t c l new _ (lists_run_everywhere k t c Hk Ht) Ht Hn Hl Hnew) as H.
  apply kwf_lists in H as []. by split.
Qed.

(** A task in no list may come and go. *)
Lemma free_lists_wf t c k : lists_wf k -> tcbs k !! t = Some c -> (forall i, container (item_of_kind i c) = None) ->
  lists_wf (set_tcbs (delete t (tcbs k)) k).
Proof.
  intros [] Ht Hn. split; try done; cbn.
  - intros l y. rewrite lw_in0. destruct (decide (y = t)) as [-> | Hne].
    + rewrite lookup_delete_eq. split; intros (c' & Hc' & E); [| done]. rewrite Ht in Hc'. injection Hc' as <-. by rewrite Hn in E.
    + by rewrite lookup_delete_ne.
  - intros y c' i l Hc'%lookup_delete_Some. apply lw_kind0 with y. tauto.
  - intros y c' Hc'%lookup_delete_Some. apply (lw_affinity0 y). tauto.
Qed.
Lemma new_lists_wf t c k : lists_wf k -> tcbs k !! t = None -> (forall i, container (item_of_kind i c) = None) ->
  affinity_ok k (xCoreID c) -> lists_wf (set_tcbs (<[t := c]> (tcbs k)) k).
Proof.
  intros [] Ht Hn Ha. split; try done; cbn.
  - intros l y. rewrite lw_in0. task_cases y t; [| done]. split; intros (c' & Hc' & E); [congruence |]. injection Hc' as <-. by rewrite Hn in E.
  - intros y c' i l. task_cases y t; [intros [= <-]; by rewrite Hn | apply lw_kind0].
  - intros y c'. task_cases y t; [by intros [= <-] | apply lw_affinity0].
Qed.

Lemma list_size k l : lists_wf k -> zlen (klists k l) <= Z.of_nat (size (tcbs k)).
Proof.
  intros Hk. unfold zlen. rewrite <- (size_list_to_set (C := gset Z)) by apply Hk. rewrite <- (size_dom (D := gset Z)).
  apply inj_le, subseteq_size. intros t Ht%elem_of_list_to_set. apply (lw_in k Hk) in Ht as (c & Hc & _). by apply elem_of_dom_2 in Hc.
Qed.

Record owned (s : control) : Prop := {
  ow_stack t : is_Some (tcbs (kern s) !! t) <-> is_Some (pxStack s !! t);
  ow_heap t a : pxStack s !! t = Some a -> t ∈ heap s /\ a ∈ heap s;
  ow_apart t a t' a' : pxStack s !! t = Some a -> pxStack s !! t' = Some a' -> t <> a' /\ (a = a' -> t = t');
  ow_deleted : uxTasksDeleted s = zlen (klists (kern s) xTasksWaitingTermination);
  ow_tasks : uxCurrentNumberOfTasks (kern s) = Z.of_nat (size (tcbs (kern s)));
  ow_small : Z.of_nat (size (tcbs (kern s))) < 2 ^ 32;
  ow_event t c : tcbs (kern s) !! t = Some c -> container (xGenericListItem c) = Some xTasksWaitingTermination ->
    container (xEventListItem c) = None }.

(** The task [t], with the stack [a], is given back. *)
Definition reap (t : Z) (s : control) : control :=
  let k := kern s in
  mkControl
    (set_tasks (uxCurrentNumberOfTasks k - 1) (set_tcbs (delete t (tcbs k))
      (set_klists (<[xTasksWaitingTermination := remove_item t (klists k xTasksWaitingTermination)]> (klists k)) k)))
    (uxTasksDeleted s - 1) (uxTaskNumber s) (delete t (pcTaskName s)) (delete t (pxStack s))
    (heap s ∖ {[default 0 (pxStack s !! t)]} ∖ {[t]}).

Lemma vPortFree_run a s : a ∈ heap s -> vPortFree a s = Ret (tt, set_heap (heap s ∖ {[a]}) s).
Proof. intros H. unfold vPortFree. erewrite run_bind by done. by rewrite bool_decide_true by done. Qed.

Lemma prvDeleteTCB_run t a s : pxStack s !! t = Some a -> t ∈ heap s -> a ∈ heap s -> t <> a ->
  prvDeleteTCB t s = Ret (tt, mkControl (set_tcbs (delete t (tcbs (kern s))) (kern s)) (uxTasksDeleted s) (uxTaskNumber s)
    (delete t (pcTaskName s)) (delete t (pxStack s)) (heap s ∖ {[a]} ∖ {[t]})).
Proof.
  intros Ha Ht Hah Hne. unfold prvDeleteTCB. erewrite run_bind by done. rewrite Ha. erewrite run_bind by done.
  erewrite run_bind by (by apply vPortFree_run). erewrite run_bind by (apply vPortFree_run; cbn; set_solver +Ht Hne).
  by erewrite run_bind by done.
Qed.

Lemma reap_run s t c rest : lists_wf (kern s) -> owned s -> klists (kern s) xTasksWaitingTermination = t :: rest ->
  tcbs (kern s) !! t = Some c ->
  forall B (m : C B), (on_kern (list_remove generic_item t);;
     modify (fun s => set_kern (set_tasks (wrap_u 32 (uxCurrentNumberOfTasks (kern s) - 1)) (kern s)) s);;
     modify (fun s => set_deleted (wrap_u 32 (uxTasksDeleted s - 1)) s);;
     prvDeleteTCB t;; m) s = m (reap t s).
Proof.
  intros Hk Ho El Ht B m.
  assert (container (xGenericListItem c) = Some xTasksWaitingTermination) as Hg.
  { destruct (proj1 (lw_in _ Hk xTasksWaitingTermination t)) as (c' & Hc' & E); [rewrite El; left |]. cbn in E. congruence. }
  destruct (proj1 (ow_stack _ Ho t) (mk_is_Some _ _ Ht)) as (a & Ha). destruct (ow_heap _ Ho t a Ha) as [Hth Hah].
  destruct (ow_apart _ Ho t a t a Ha Ha) as [Hne _].
  assert (1 <= Z.of_nat (size (tcbs (kern s)))) as Hsz.
  { assert (size (tcbs (kern s)) <> 0%nat); [| lia]. rewrite map_size_empty_iff. intros E. by rewrite E in Ht. }
  pose proof (ow_small _ Ho). pose proof (ow_tasks _ Ho) as Hn. pose proof (ow_deleted _ Ho) as Hd. rewrite El in Hd. unfold zlen in Hd. cbn in Hd.
  assert (on_kern (list_remove generic_item t) s = Ret (zlen (remove_item t (klists (kern s) xTasksWaitingTermination)),
    set_kern (unlink_item generic_item t c xTasksWaitingTermination (kern s)) s)) as Hr
    by (unfold on_kern; by rewrite (list_remove_run generic_item t c xTasksWaitingTermination _ Ht Hg)).
  erewrite run_bind by exact Hr. erewrite run_bind by done. erewrite run_bind by done.
  erewrite run_bind by (apply (prvDeleteTCB_run t a); cbn; done). f_equal. unfold reap. cbn. rewrite Ha.
  pose proof (list_size _ xTasksWaitingTermination Hk) as Hls. rewrite El in Hls. unfold zlen in Hls. cbn in Hls.
  rewrite (wrap_u_small 32 (uxTasksDeleted s - 1)), (wrap_u_small 32 (uxCurrentNumberOfTasks (kern s) - 1)) by lia.
  unfold set_tasks, set_tcbs, set_klists. cbn. by rewrite delete_insert_eq.
Qed.

Lemma reap_ok s t c rest : lists_wf (kern s) -> owned s -> klists (kern s) xTasksWaitingTermination = t :: rest ->
  tcbs (kern s) !! t = Some c ->
  lists_wf (kern (reap t s)) /\ owned (reap t s) /\ klists (kern (reap t s)) xTasksWaitingTermination = rest /\
  (forall l, l <> xTasksWaitingTermination -> klists (kern (reap t s)) l = klists (kern s) l).
Proof.
  intros Hk Ho El Ht.
  assert (container (xGenericListItem c) = Some xTasksWaitingTermination) as Hg.
  { destruct (proj1 (lw_in _ Hk xTasksWaitingTermination t)) as (c' & Hc' & E); [rewrite El; left |]. cbn in E. congruence. }
  pose proof (ow_event _ Ho t c Ht Hg) as He. destruct (proj1 (ow_stack _ Ho t) (mk_is_Some _ _ Ht)) as (a & Ha).
  assert (remove_item t (klists (kern s) xTasksWaitingTermination) = rest) as Hrest.
  { rewrite El. apply remove_item_head. rewrite <- El. apply Hk. }
  split_and!.
  - pose proof (unlink_lists_wf generic_item t c _ _ Hk Ht Hg) as Hk1.
    apply (free_lists_wf t (with_item generic_item (mkItem (item_value (xGenericListItem c)) None) c)) in Hk1;
      [| unfold unlink_item; cbn; by rewrite lookup_insert_eq | by intros []].
    unfold unlink_item in Hk1. destruct Hk1. cbn in *. rewrite delete_insert_eq in *. by split.
  - destruct Ho. split; cbn.
    + intros y. destruct (decide (y = t)) as [-> |]; [rewrite !lookup_delete_eq; by split; intros [? ?] |]. by rewrite !lookup_delete_ne.
    + intros y b [Hy Hb]%lookup_delete_Some. rewrite Ha. cbn. destruct (ow_heap0 y b Hb) as [H1 H2].
      destruct (ow_apart0 y b t a Hb Ha) as [H3 H4]. destruct (ow_apart0 t a y b Ha Hb) as [H5 H6]. set_solver.
    + intros y b y' b' [_ Hb]%lookup_delete_Some [_ Hb']%lookup_delete_Some. by apply ow_apart0.
    + rewrite fn_lookup_insert, Hrest, ow_deleted0, El. unfold zlen. cbn. lia.
    + rewrite map_size_delete_Some by done. assert (size (tcbs (kern s)) <> 0%nat); [| lia].
      rewrite map_size_empty_iff. intros E. by rewrite E in Ht.
    + rewrite map_size_delete_Some by done. lia.
    + intros y x [_ Hx]%lookup_delete_Some. by apply (ow_event0 y).
  - unfold reap. cbn. by rewrite fn_lookup_insert.
  - intros l Hl. unfold reap. cbn. by rewrite fn_lookup_insert_ne.
Qed.

(** The tasks at the front of the list whose memory this core may free. *)
Definition frees_here (k : kernel) (t : Z) : bool :=
  match tcbs k !! t with
  | Some c => (xCoreID c =? tskNO_AFFINITY) || (xCoreID c =? xPortGetCoreID k)
  | None => false
  end.
Fixpoint reapable (k : kernel) (l : list Z) : list Z :=
  match l with [] => [] | t :: l => if frees_here k t then t :: reapable k l else [] end.

Definition reap_all (ts : list Z) (s : control) : control := fold_left (fun s t => reap t s) ts s.

Lemma reapable_ext k k' l : xPortGetCoreID k' = xPortGetCoreID k -> (forall t, t ∈ l -> tcbs k' !! t = tcbs k !! t) ->
  reapable k' l = reapable k l.
Proof.
  intros Hc. induction l as [| t l IH]; intros Hl; cbn; [done |]. unfold frees_here. rewrite Hc, Hl by left.
  rewrite IH by (intros; apply Hl; by right). done.
Qed.

Lemma reapable_sub k l t : t ∈ reapable k l -> t ∈ l.
Proof. induction l as [| y l IH]; cbn; [done |]. destruct (frees_here k y); [set_solver +IH | intros H; by apply elem_of_nil in H]. Qed.

(** The loop frees exactly these, and leaves the others in the list. *)
Lemma termination_loop_run : forall fuel s, lists_wf (kern s) -> owned s ->
  let l := klists (kern s) xTasksWaitingTermination in let ts := reapable (kern s) l in
  (length l < fuel)%nat ->
  termination_loop fuel s = Ret (tt, reap_all ts s) /\ lists_wf (kern (reap_all ts s)) /\ owned (reap_all ts s) /\
  klists (kern (reap_all ts s)) xTasksWaitingTermination = drop (length ts) l /\
  (forall m, m <> xTasksWaitingTermination -> klists (kern (reap_all ts s)) m = klists (kern s) m).
Proof.
  induction fuel as [| fuel IH]; intros s Hk Ho; cbv zeta; intros Hf; [lia |]. cbn [termination_loop].
  erewrite run_bind by done. pose proof (ow_deleted _ Ho) as Hd.
  destruct (klists (kern s) xTasksWaitingTermination) as [| t rest] eqn:El.
  - rewrite Hd. cbn. by split_and!.
  - rewrite Hd. rewrite (proj2 (Z.ltb_lt 0 (zlen (t :: rest)))) by (unfold zlen; cbn; lia).
    destruct (proj1 (lw_in _ Hk xTasksWaitingTermination t)) as (c & Ht & Hg); [rewrite El; left |].
    assert (on_kern (get_tcb t) s = Ret (c, s)) as Hr by (unfold on_kern; rewrite (get_tcb_run t c _ Ht); by destruct s).
    erewrite run_bind by exact Hr. cbn [reapable]. unfold frees_here. rewrite Ht. destruct (_ || _) eqn:Eh; cbn [reap_all fold_left length drop]; [| by split_and!].
    rewrite (reap_run s t c rest Hk Ho El Ht). destruct (reap_ok s t c rest Hk Ho El Ht) as (Hk' & Ho' & El' & Hm').
    pose proof (lw_nodup _ Hk xTasksWaitingTermination) as Hnd. rewrite El in Hnd. apply list.NoDup_cons in Hnd as [Hnin _].
    assert (reapable (kern (reap t s)) rest = reapable (kern s) rest) as Er.
    { apply reapable_ext; [done |]. intros y Hy. cbn. rewrite lookup_delete_ne; [done | congruence]. }
    specialize (IH (reap t s) Hk' Ho'). cbv zeta in IH. rewrite El', Er in IH. destruct IH as (H1 & H2 & H3 & H4 & H5); [cbn in Hf; lia |].
    split_and!; try done. intros m Hm. unfold reap_all in H5. rewrite H5 by done. by apply Hm'.
Qed.

(** What is left after tasks are freed. *)
Record freed (ts : list Z) (s s' : control) : Prop := {
  fr_tcb t : tcbs (kern s') !! t = if decide (t ∈ ts) then None else tcbs (kern s) !! t;
  fr_stack t : pxStack s' !! t = if decide (t ∈ ts) then None else pxStack s !! t;
  fr_name t : pcTaskName s' !! t = if decide (t ∈ ts) then None else pcTaskName s !! t;
  fr_heap a : a ∈ heap s' <-> a ∈ heap s /\ forall t, t ∈ ts -> a <> t /\ pxStack s !! t <> Some a;
  fr_count : uxCurrentNumberOfTasks (kern s') = uxCurrentNumberOfTasks (kern s) - zlen ts;
  fr_current : pxCurrentTCB (kern s') = pxCurrentTCB (kern s);
  fr_clock : xTickCount (kern s') = xTickCount (kern s) /\ xNextTaskUnblockTime (kern s') = xNextTaskUnblockTime (kern s) /\
    delayed_is_1 (kern s') = delayed_is_1 (kern s) }.

(** Nothing but the tables of tasks, their number, one list and the core was written. *)
Definition untouched (s s' : control) : Prop :=
  uxTaskNumber s' = uxTaskNumber s /\
  (forall m, m <> xTasksWaitingTermination -> klists (kern s') m = klists (kern s) m) /\
  kern s' = set_core (xPortGetCoreID (kern s')) (set_tcbs (tcbs (kern s')) (set_klists (klists (kern s'))
    (set_tasks (uxCurrentNumberOfTasks (kern s')) (kern s)))).

#[export] Instance untouched_refl : Reflexive untouched.
Proof. intros [[] ? ? ? ? ?]. by split. Qed.
#[export] Instance untouched_trans : Transitive untouched.
Proof.
  intros a b c (N1 & L1 & E1) (N2 & L2 & E2). split_and!; [congruence | intros m Hm; by rewrite L2, L1 |].
  rewrite E2, E1. cbn. reflexivity.
Qed.

Lemma reap_untouched t s : untouched s (reap t s).
Proof. split_and!; [done | | by destruct s as [[]]]. intros m Hm. unfold reap. cbn. by rewrite fn_lookup_insert_ne. Qed.
Lemma reap_all_untouched ts : forall s, untouched s (reap_all ts s).
Proof. induction ts as [| t ts IH]; intros s; [done |]. cbn. etrans; [apply reap_untouched | apply IH]. Qed.

Lemma freed_refl s : freed [] s s.
Proof. split; try done; [| unfold zlen; cbn; lia]. intros a. split; [| tauto]. intros H. split; [done |]. intros t Ht. by apply elem_of_nil in Ht. Qed.

Lemma reap_freed t s : is_Some (pxStack s !! t) -> freed [t] s (reap t s).
Proof.
  intros (a & Ha). split; cbn; try done.
  - intros y. destruct (decide (y = t)) as [-> |]; [rewrite lookup_delete_eq | rewrite lookup_delete_ne by done];
      [rewrite decide_True by set_solver | rewrite decide_False by set_solver]; done.
  - intros y. destruct (decide (y = t)) as [-> |]; [rewrite lookup_delete_eq | rewrite lookup_delete_ne by done];
      [rewrite decide_True by set_solver | rewrite decide_False by set_solver]; done.
  - intros y. destruct (decide (y = t)) as [-> |]; [rewrite lookup_delete_eq | rewrite lookup_delete_ne by done];
      [rewrite decide_True by set_solver | rewrite decide_False by set_solver]; done.
  - intros b. rewrite Ha. cbn. rewrite !elem_of_difference, !elem_of_singleton. split.
    + intros [[Hb Hba] Hbt]. split; [done |]. intros y ->%list_elem_of_singleton. rewrite Ha. split; congruence.
    + intros [Hb H]. destruct (H t) as [H1 H2]; [by apply list_elem_of_singleton |]. rewrite Ha in H2. split_and!; congruence.
Qed.

Lemma freed_app ts us s s' s'' : (forall t, t ∈ us -> t ∉ ts) -> freed ts s s' -> freed us s' s'' -> freed (ts ++ us) s s''.
Proof.
  intros Hd [] []. split.
  - intros t. rewrite fr_tcb1, fr_tcb0. repeat destruct (decide _); set_solver.
  - intros t. rewrite fr_stack1, fr_stack0. repeat destruct (decide _); set_solver.
  - intros t. rewrite fr_name1, fr_name0. repeat destruct (decide _); set_solver.
  - intros a. rewrite fr_heap1, fr_heap0. split.
    + intros [[H1 H2] H3]. split; [done |]. intros t [Ht | Ht]%elem_of_app; [by apply H2 |].
      destruct (H3 t Ht) as [? H4]. split; [done |]. by rewrite fr_stack0, decide_False in H4 by (by apply Hd).
    + intros [H1 H2]. split_and!; [done | intros t Ht; apply H2; set_solver |]. intros t Ht.
      rewrite fr_stack0, decide_False by (by apply Hd). apply H2. set_solver.
  - rewrite fr_count1, fr_count0. unfold zlen. rewrite length_app. lia.
  - congruence.
  - destruct fr_clock0 as (? & ? & ?), fr_clock1 as (? & ? & ?). split_and!; congruence.
Qed.

Lemma reap_all_freed ts : forall s, NoDup ts -> (forall t, t ∈ ts -> is_Some (pxStack s !! t)) -> freed ts s (reap_all ts s).
Proof.
  induction ts as [| t ts IH]; intros s Hnd Hs; [apply freed_refl |]. apply list.NoDup_cons in Hnd as [Ht Hnd].
  change (t :: ts) with ([t] ++ ts). eapply freed_app; [| apply reap_freed, Hs; by left | apply IH; [done |]].
  - intros y Hy ->%list_elem_of_singleton. done.
  - intros y Hy. cbn. rewrite lookup_delete_ne by congruence. apply Hs. by right.
Qed.

Lemma reap_all_core ts : forall s, xPortGetCoreID (kern (reap_all ts s)) = xPortGetCoreID (kern s).
Proof. induction ts as [| t ts IH]; intros s; [done |]. cbn. by rewrite IH. Qed.

Lemma reapable_split k l : exists rest, l = reapable k l ++ rest /\ drop (length (reapable k l)) l = rest /\
  match rest with [] => True | t :: _ => frees_here k t = false end.
Proof.
  induction l as [| t l (rest & E & Ed & Hr)]; cbn; [by exists [] |]. destruct (frees_here k t) eqn:Ef.
  - exists rest. cbn. by rewrite <- E.
  - by exists (t :: l).
Qed.

(** One pass of an idle task. *)
Lemma check_run s : lists_wf (kern s) -> owned s ->
  exists ts rest s', prvCheckTasksWaitingTermination s = Ret (tt, s') /\ lists_wf (kern s') /\ owned s' /\
    klists (kern s) xTasksWaitingTermination = ts ++ rest /\ klists (kern s') xTasksWaitingTermination = rest /\
    freed ts s s' /\ xPortGetCoreID (kern s') = xPortGetCoreID (kern s) /\
    (forall m, m <> xTasksWaitingTermination -> klists (kern s') m = klists (kern s) m) /\
    (forall t, t ∈ ts -> frees_here (kern s) t = true) /\
    match rest with [] => True | t :: _ => frees_here (kern s) t = false end /\
    ts = reapable (kern s) (klists (kern s) xTasksWaitingTermination) /\ untouched s s'.
Proof.
  intros Hk Ho. unfold prvCheckTasksWaitingTermination. erewrite run_bind by done. cbv beta.
  destruct (termination_loop_run (S (length (klists (kern s) xTasksWaitingTermination))) s Hk Ho) as (Hr & Hk' & Ho' & El & Hm); [lia |].
  set (l := klists (kern s) xTasksWaitingTermination) in *. destruct (reapable_split (kern s) l) as (rest & E & Ed & Hrest).
  set (ts := reapable (kern s) l) in *. exists ts, rest, (reap_all ts s). rewrite Ed in El. split_and!; try done.
  - apply reap_all_freed.
    + pose proof (lw_nodup _ Hk xTasksWaitingTermination) as Hnd. fold l in Hnd. rewrite E in Hnd. by apply list.NoDup_app in Hnd as (? & _ & _).
    + intros t Ht. apply (ow_stack _ Ho). destruct (proj1 (lw_in _ Hk xTasksWaitingTermination t)) as (c & Hc & _); [| by exists c].
      by apply (reapable_sub (kern s)).
  - apply reap_all_core.
  - clear. unfold ts. induction l as [| y l IH]; cbn; intros t Ht; [by apply elem_of_nil in Ht |].
    destruct (frees_here (kern s) y) eqn:Ef; [| by apply elem_of_nil in Ht]. apply elem_of_cons in Ht as [-> | Ht]; [done | by apply IH].
  - apply reap_all_untouched.
Qed.

(** The idle tasks of the two cores, in turns. *)
Definition run_on (core : Z) : C unit := modify (fun s => set_kern (set_core core (kern s)) s).
Fixpoint idle_rounds (n : nat) : C unit :=
  match n with
  | O => mret tt
  | S n => run_on 0;; prvCheckTasksWaitingTermination;; run_on 1;; prvCheckTasksWaitingTermination;; idle_rounds n
  end.

Lemma run_on_ok core s : core = 0 \/ core = 1 -> lists_wf (kern s) -> owned s ->
  exists s1, run_on core s = Ret (tt, s1) /\ lists_wf (kern s1) /\ owned s1 /\ xPortGetCoreID (kern s1) = core /\
    tcbs (kern s1) = tcbs (kern s) /\ klists (kern s1) = klists (kern s) /\ (forall ts s', freed ts s1 s' -> freed ts s s') /\
    kern s1 = set_core core (kern s) /\ untouched s s1.
Proof.
  intros Hc [] []. exists (set_kern (set_core core (kern s)) s). split_and!; try done. intros ts s' []. by split.
Qed.

(** One core's idle task. *)
Lemma core_pass core s : core = 0 \/ core = 1 -> lists_wf (kern s) -> owned s ->
  let l := klists (kern s) xTasksWaitingTermination in let ts := reapable (set_core core (kern s)) l in
  exists s', (run_on core;; prvCheckTasksWaitingTermination) s = Ret (tt, s') /\ freed ts s s' /\ untouched s s' /\
    klists (kern s') xTasksWaitingTermination = drop (length ts) l.
Proof.
  intros Hc Hk Ho l ts. destruct (run_on_ok core s Hc Hk Ho) as (s1 & H1 & Hk1 & Ho1 & _ & _ & El & Hf & Ek & Hu).
  destruct (check_run s1 Hk1 Ho1) as (ts' & rest & s2 & H2 & _ & _ & E & Er & Hf2 & _ & _ & _ & _ & Ets & Hu2).
  rewrite El in E, Ets. rewrite Ek in Ets. fold l in E, Ets. fold ts in Ets. subst ts'.
  exists s2. split_and!; [by erewrite run_bind by exact H1 | by apply Hf | by etrans | by rewrite Er, E, drop_app_length].
Qed.

(** C14. The memory of deleted tasks is given back.  When the idle tasks of the two cores run in
    turns, as many turns as there are deleted tasks empty the list of tasks waiting for termination:
    the control block, the stack and the name of each are gone, each block is freed exactly once, and
    all else of the kernel is as it was: the other tasks, every other list, clocks, counters, requests,
    queues and event groups.  One pass on a core frees the tasks up to the first that is pinned to the
    other core, and leaves that one and those behind it in the list. *)
Theorem idle_reclaims s n : lists_wf (kern s) -> owned s -> (length (klists (kern s) xTasksWaitingTermination) <= n)%nat ->
  (exists s', idle_rounds n s = Ret (tt, s') /\ owned s' /\ klists (kern s') xTasksWaitingTermination = [] /\
    uxTasksDeleted s' = 0 /\ freed (klists (kern s) xTasksWaitingTermination) s s' /\ untouched s s') /\
  forall core, core = 0 \/ core = 1 ->
    let l := klists (kern s) xTasksWaitingTermination in let ts := reapable (set_core core (kern s)) l in
    exists s', (run_on core;; prvCheckTasksWaitingTermination) s = Ret (tt, s') /\ freed ts s s' /\ untouched s s' /\
      klists (kern s') xTasksWaitingTermination = drop (length ts) l.
Proof.
  intros Hk Ho Hn. split; [| intros core Hc; by apply core_pass]. revert s Hk Ho Hn. induction n as [| n IH]; intros s Hk Ho Hn.
  - destruct (klists (kern s) xTasksWaitingTermination) as [| t l] eqn:El; [| cbn in Hn; lia].
    exists s. split_and!; [done | done | done | by rewrite (ow_deleted _ Ho), El | apply freed_refl | done].
  - cbn [idle_rounds].
    destruct (run_on_ok 0 s (or_introl eq_refl) Hk Ho) as (s1 & H1 & Hk1 & Ho1 & Hc1 & Et1 & El1 & Hf1 & _ & Hu1). erewrite run_bind by exact H1.
    destruct (check_run s1 Hk1 Ho1) as (ts & rest & s2 & H2 & Hk2 & Ho2 & E2 & El2 & Hf2 & _ & _ & _ & Hrest & _ & Hu2). erewrite run_bind by exact H2.
    destruct (run_on_ok 1 s2 (or_intror eq_refl) Hk2 Ho2) as (s3 & H3 & Hk3 & Ho3 & Hc3 & Et3 & El3 & Hf3 & _ & Hu3). erewrite run_bind by exact H3.
    destruct (check_run s3 Hk3 Ho3) as (us & rest' & s4 & H4 & Hk4 & Ho4 & E4 & El4 & Hf4 & _ & _ & _ & Hrest' & _ & Hu4). erewrite run_bind by exact H4.
    rewrite El1 in E2. rewrite El3, El2 in E4. clear El2. subst rest.
    pose proof (lw_nodup _ Hk xTasksWaitingTermination) as Hnd. rewrite E2 in Hnd. rewrite E2 in Hn |- *. rewrite !length_app in Hn.
    assert (length ts + length us = 0 -> us ++ rest' = [])%nat as Hprog.
    { destruct us as [| u us]; [cbn in * | cbn; lia]. destruct rest' as [| t rest']; [done |]. intros H0. destruct ts as [| x ts]; [| cbn in H0; lia].
      exfalso. destruct (proj1 (lw_in _ Hk xTasksWaitingTermination t)) as (c & Hc & _); [rewrite E2; left |].
      unfold frees_here in Hrest, Hrest'. rewrite Et1, Hc1, Hc in Hrest.
      pose proof (fr_tcb _ _ _ Hf2 t) as Ht2. rewrite decide_False in Ht2 by (intros Hin; by apply elem_of_nil in Hin).
      rewrite Et3, Hc3, Ht2, Et1, Hc in Hrest'. apply orb_false_iff in Hrest as [H5 H6], Hrest' as [_ H7].
      apply Z.eqb_neq in H5, H6, H7. destruct (lw_affinity _ Hk t c Hc) as [? | [? | [? _]]]; done. }
    destruct (IH s4 Hk4 Ho4) as (s' & H5 & Ho5 & El5 & Hd5 & Hf5 & Hu5).
    { rewrite El4. destruct (us ++ rest') eqn:E; [apply app_eq_nil in E as [-> ->]; cbn; lia |].
      assert (length ts + length us <> 0)%nat by (intros H0; by specialize (Hprog H0)). lia. }
    exists s'. split_and!; try done; [| by etrans; [exact Hu1 | etrans; [exact Hu2 | etrans; [exact Hu3 | etrans; [exact Hu4 | done]]]]].
    rewrite El4 in Hf5. apply list.NoDup_app in Hnd as (Hnd1 & Hnd2 & Hnd3).
    apply list.NoDup_app in Hnd3 as (Hnd3 & Hnd4 & Hnd5).
    apply (freed_app ts (us ++ rest') s s2); [| by apply Hf1 |].
    + intros t Ht Hts. by apply (Hnd2 t).
    + apply (freed_app us rest' s2 s4); [| by apply Hf3 | done]. intros t Ht Hus. by apply (Hnd4 t).
Qed.

(** * A task is deleted *)

Lemma moved_size t l k k' : moved t l k k' -> size (tcbs k') = size (tcbs k).
Proof.
  intros Hm. rewrite <- !(size_dom (D := gset Z)). f_equal. apply set_eq. intros y. rewrite !elem_of_dom.
  destruct (tcbs k !! y) as [c |] eqn:E.
  - destruct (f_tcb _ _ (mv_frame _ _ _ _ Hm) y c E) as (c' & -> & _). by split; eexists.
  - by rewrite (f_none _ _ (mv_frame _ _ _ _ Hm) y E).
Qed.

Lemma vTaskDelete_section_run h t c s : steady (kern s) -> owned s -> prvGetTCBFromHandle h (kern s) = Ret (t, kern s) ->
  tcbs (kern s) !! t = Some c -> t ∉ klists (kern s) xTasksWaitingTermination ->
  exists k1, moved t xTasksWaitingTermination (kern s) k1 /\
    let s1 := mkControl k1 (uxTasksDeleted s + 1) (wrap_u 32 (uxTaskNumber s + 1)) (pcTaskName s) (pxStack s) (heap s) in
    vTaskDelete_section h s = Ret (t, s1) /\ steady k1 /\ owned s1.
Proof.
  intros Hs Ho Hh Ht Hnin. destruct (st_placed _ Hs t c Ht) as (g & Hg). pose proof (kwf_lists _ (st_kwf _ Hs)) as Hk.
  destruct (move_to_run xTasksWaitingTermination t c (kern s) (st_kwf _ Hs) Ht (mk_is_Some _ _ Hg) eq_refl) as (k1 & Hr & Hm).
  exists k1. split; [done |]. cbv zeta. pose proof (moved_size _ _ _ _ Hm) as Hsz.
  assert (klists k1 xTasksWaitingTermination = klists (kern s) xTasksWaitingTermination ++ [t]) as El.
  { rewrite (mv_lists _ _ _ _ Hm), decide_True by done. by rewrite remove_item_notin. }
  assert (steady k1) as Hs1 by (apply (moved_steady t xTasksWaitingTermination (kern s)); [done | by apply not_timer | done]).
  assert (uxTasksDeleted s + 1 < 2 ^ 32 /\ 0 <= uxTasksDeleted s) as Hsmall.
  { pose proof (list_size k1 xTasksWaitingTermination (kwf_lists _ (st_kwf _ Hs1))) as H. pose proof (ow_small _ Ho).
    rewrite El, Hsz in H. rewrite (ow_deleted _ Ho). unfold zlen in *. rewrite length_app in H. cbn in H. lia. }
  split_and!; [| done |].
  - unfold vTaskDelete_section.
    assert (on_kern (pxTCB ← prvGetTCBFromHandle h; move_to xTasksWaitingTermination pxTCB;; mret pxTCB) s = Ret (t, set_kern k1 s)) as Hrun.
    { unfold on_kern. erewrite run_bind by exact Hh. by erewrite run_bind by exact Hr. }
    erewrite run_bind by exact Hrun. erewrite run_bind by done. erewrite run_bind by done. cbn. by rewrite (wrap_u_small 32 (uxTasksDeleted s + 1)) by lia.
  - pose proof Ho as []. split; cbn; try done.
    + intros y. rewrite <- ow_stack0. destruct (tcbs (kern s) !! y) as [x |] eqn:E.
      * destruct (f_tcb _ _ (mv_frame _ _ _ _ Hm) y x E) as (c' & -> & _). by split; eexists.
      * by rewrite (f_none _ _ (mv_frame _ _ _ _ Hm) y E).
    + rewrite El, ow_deleted0. unfold zlen. rewrite length_app. cbn. lia.
    + by rewrite (f_tasks _ _ (mv_frame _ _ _ _ Hm)), Hsz.
    + by rewrite Hsz.
    + intros y x Hx Hgx. destruct (mv_tcb _ _ _ _ Hm) as (c' & Hc' & _ & He). destruct (decide (y = t)) as [-> | Hne].
      * rewrite Hc' in Hx. by injection Hx as <-.
      * rewrite (mv_tcbs _ _ _ _ Hm) in Hx by done. by apply (ow_event0 y).
Qed.

Lemma current_handle k t : pxCurrentTCB k (xPortGetCoreID k) = Some t -> prvGetTCBFromHandle None k = Ret (t, k).
Proof. intros H. unfold prvGetTCBFromHandle, current. erewrite run_bind by done. by rewrite H. Qed.

(** C12. A task that deletes itself races with the idle task of the other core.  Between the section of
    vTaskDelete that puts the task on the list and the switch that takes it off its core, the other
    core's idle task may run.  If the task was created without affinity, as xTaskCreate does, its
    control block and the stack it still runs on are freed under it, and the next use of the running
    task's control block on its core is an access to freed memory.  If it is pinned to its core, nothing
    happens to it. *)
Theorem self_delete_race s core other t c a : steady (kern s) -> owned s ->
  core = xPortGetCoreID (kern s) -> other = (if core =? 0 then 1 else 0) -> pxCurrentTCB (kern s) core = Some t ->
  tcbs (kern s) !! t = Some c -> pxStack s !! t = Some a ->
  klists (kern s) xTasksWaitingTermination = [] ->
  exists s1 s2, vTaskDelete_section None s = Ret (t, s1) /\
    (run_on other;; prvCheckTasksWaitingTermination) s1 = Ret (tt, s2) /\ pxCurrentTCB (kern s2) core = Some t /\
    (xCoreID c = tskNO_AFFINITY -> t ∉ heap s2 /\ a ∉ heap s2 /\ current_tcb (set_core core (kern s2)) = Fault NullPointer) /\
    (xCoreID c = core -> heap s2 = heap s1 /\ tcbs (kern s2) = tcbs (kern s1) /\ kwf (kern s2)).
Proof.
  intros Hs Ho Hcore Hother Hcur Ht Ha El. subst core.
  destruct (vTaskDelete_section_run None t c s Hs Ho (current_handle _ _ Hcur) Ht) as (k1 & Hm & Hr & Hs1 & Ho1);
    [rewrite El; intros Hin; by apply elem_of_nil in Hin |].
  set (s1 := mkControl k1 _ _ _ _ _) in *. exists s1.
  assert (klists k1 xTasksWaitingTermination = [t]) as El1 by (by rewrite (mv_lists _ _ _ _ Hm), decide_True, El by done).
  destruct (f_tcb _ _ (mv_frame _ _ _ _ Hm) t c Ht) as (c1 & Hc1 & (_ & Haff & _)).
  assert (other = 0 \/ other = 1) as Hob by (rewrite Hother; destruct (_ =? 0); tauto).
  assert (other <> xPortGetCoreID (kern s)) as Hone.
  { rewrite Hother. destruct (Z.eqb_spec (xPortGetCoreID (kern s)) 0) as [-> | E]; [done | congruence]. }
  destruct (run_on_ok other s1 Hob (kwf_lists _ (st_kwf _ Hs1)) Ho1) as (s1' & Hr1 & Hk1 & Ho1' & Hc1' & Et1 & Elx & Hf1 & _).
  destruct (check_run s1' Hk1 Ho1') as (ts & rest & s2 & Hr2 & Hk2 & Ho2 & E2 & _ & Hf2 & Hc2 & Hm2 & Hts & Hrest & _).
  exists s2. rewrite Elx in E2. change (kern s1) with k1 in E2. rewrite El1 in E2. apply Hf1 in Hf2.
  assert (pxCurrentTCB (kern s2) (xPortGetCoreID (kern s)) = Some t) as Hcur2.
  { rewrite (fr_current _ _ _ Hf2). change (kern s1) with k1. by rewrite (f_current _ _ (mv_frame _ _ _ _ Hm)). }
  assert (frees_here (kern s1') t = (xCoreID c =? tskNO_AFFINITY) || (xCoreID c =? other)) as Hfh.
  { unfold frees_here. rewrite Et1, Hc1', <- Haff. change (kern s1) with k1. by rewrite Hc1. }
  split_and!; [exact Hr | by erewrite run_bind by exact Hr1 | done | |].
  - intros Hna. rewrite Hna in Hfh. destruct ts as [| x ts].
    { cbn in E2. subst rest. by rewrite Hfh in Hrest. }
    cbn in E2. injection E2 as <- E2. symmetry in E2. apply app_eq_nil in E2 as [-> ->].
    assert (forall b, b ∈ heap s2 -> b <> t /\ b <> a) as Hb.
    { intros b [_ Hb]%(fr_heap _ _ _ Hf2). destruct (Hb t) as [? Hne]; [by left |]. split; [done |]. intros ->. by apply Hne. }
    split_and!; [intros Hin; by apply Hb in Hin as [? _] | intros Hin; by apply Hb in Hin as [_ ?] |].
    assert (current (set_core (xPortGetCoreID (kern s)) (kern s2)) = Ret (t, set_core (xPortGetCoreID (kern s)) (kern s2))) as Hc
      by (unfold current; erewrite run_bind by done; cbn; by rewrite Hcur2).
    unfold current_tcb. erewrite run_bind by exact Hc. unfold get_tcb. erewrite run_bind by done. cbn.
    by rewrite (fr_tcb _ _ _ Hf2), decide_True by left.
  - intros Hpin. destruct ts as [| x ts].
    + assert (forall y, y ∈ @nil Z -> False) as Hnil by (intros y Hy; by apply elem_of_nil in Hy). split_and!.
      * apply set_eq. intros b. rewrite (fr_heap _ _ _ Hf2). set_solver.
      * apply map_eq. intros y. by rewrite (fr_tcb _ _ _ Hf2), decide_False by (by intros ?%Hnil).
      * apply lists_kwf; [done |]. intros co Hco. rewrite (fr_current _ _ _ Hf2).
        destruct (k_current _ (st_kwf _ Hs1) co Hco) as (y & cy & Hy & Hcy). exists y, cy. split; [done |].
        by rewrite (fr_tcb _ _ _ Hf2), decide_False by (by intros ?%Hnil).
    + exfalso. cbn in E2. injection E2 as <- _. specialize (Hts t ltac:(left)). rewrite Hfh in Hts.
      apply orb_true_iff in Hts as [E%Z.eqb_eq | E%Z.eqb_eq]; [| congruence].
      destruct (k_core _ (st_kwf _ Hs)) as [E' | E']; rewrite Hpin, E' in E; done.
Qed.

(** * A task is created *)

(** Tasks, lists and times are the same; the lists of delayed tasks may have
    changed their roles when they are empty. *)
Record same_lists (k k' : kernel) : Prop := {
  sl_tcbs : tcbs k' = tcbs k;
  sl_lists l : klists k' l = klists k l;
  sl_core : xPortGetCoreID k' = xPortGetCoreID k;
  sl_stray : stray_read k' = stray_read k;
  sl_tick : xTickCount k' = xTickCount k;
  sl_next : xNextTaskUnblockTime k' = xNextTaskUnblockTime k;
  sl_delayed : delayed_is_1 k' = delayed_is_1 k \/ klists k xDelayedTaskList1 = [] /\ klists k xDelayedTaskList2 = [] }.

Lemma same_lists_wf k k' : same_lists k k' -> lists_wf k -> lists_wf k'.
Proof.
  intros [] []. split; unfold affinity_ok; rewrite ?sl_tcbs0, ?sl_core0, ?sl_stray0; try done; intros l; rewrite sl_lists0; done.
Qed.
Lemma same_lists_placed k k' : same_lists k k' -> placed k -> placed k'.
Proof. intros [] Hp t c. rewrite sl_tcbs0. apply Hp. Qed.
Lemma same_lists_quiet k k' : same_lists k k' -> quiet k -> quiet k'.
Proof. intros [] Hq l t Hl. rewrite sl_lists0. unfold is_ready. rewrite sl_tcbs0. by apply Hq. Qed.
Lemma same_lists_timed k k' : same_lists k k' -> timed k -> timed k'.
Proof.
  intros [] Hti. assert (forall y, values generic_item k' y = values generic_item k y) as Hv by (intros; unfold values; by rewrite sl_tcbs0).
  destruct sl_delayed0 as [Hd | [E1 E2]]; [by apply (timed_same k) |].
  assert (forall l, timer_list k' l -> klists k' l = []) as He.
  { intros l [-> | ->]; rewrite sl_lists0; unfold pxDelayedTaskList, pxOverflowDelayedTaskList; by destruct (delayed_is_1 k'). }
  pose proof (He _ (or_introl eq_refl)) as H1. pose proof (He _ (or_intror eq_refl)) as H2.
  split; rewrite ?H1, ?H2, ?sl_tick0; try apply Hti; try done; intros t Hin; by apply elem_of_nil in Hin.
Qed.

Definition own_list (l : list_id) : Prop :=
  match l with
  | pxReadyTasksLists p => 0 <= p < configMAX_PRIORITIES
  | xPendingReadyList core => core = 0 \/ core = 1
  | xDelayedTaskList1 | xDelayedTaskList2 | xSuspendedTaskList | xTasksWaitingTermination => True
  | _ => False
  end.

Lemma prvInitialiseTaskLists_run k : (forall l, own_list l -> klists k l = []) ->
  exists k', prvInitialiseTaskLists k = Ret (tt, k') /\ same_lists k k' /\ pxCurrentTCB k' = pxCurrentTCB k /\
    uxCurrentNumberOfTasks k' = uxCurrentNumberOfTasks k /\ xSchedulerRunning k' = xSchedulerRunning k.
Proof.
  intros He. eexists. split; [done |]. split_and!; try done. split; try done; cbn.
  - intros [p | | | | | core | q | q | g]; try done; try (symmetry; apply He; done).
    + destruct ((0 <=? p) && (p <? configMAX_PRIORITIES)) eqn:E; [| done]. symmetry. apply He. cbn.
      apply andb_true_iff in E as [H1 H2]. apply Z.leb_le in H1. apply Z.ltb_lt in H2. lia.
    + destruct ((core =? 0) || (core =? 1)) eqn:E; [| done]. symmetry. apply He. cbn.
      apply orb_true_iff in E as [H%Z.eqb_eq | H%Z.eqb_eq]; tauto.
  - right. split; by apply He.
Qed.

Lemma priority_of_run t c k : tcbs k !! t = Some c -> priority_of t k = Ret (uxPriority c, k).
Proof. intros H. unfold priority_of. by erewrite run_bind by (by apply get_tcb_run). Qed.

(** Every core that runs something runs a task. *)
Definition currents (k : kernel) : Prop := forall core t, core = 0 \/ core = 1 -> pxCurrentTCB k core = Some t -> is_Some (tcbs k !! t).

(** A task without affinity goes to a core that runs nothing, else to the core
    that runs the lowest priority if that is below its own, else it stays here. *)
Lemma choose_core_run t c k : currents k -> tcbs k !! t = Some c -> xPortGetCoreID k = 0 \/ xPortGetCoreID k = 1 ->
  exists core, choose_core t k = Ret (core, k) /\ (core = 0 \/ core = 1) /\
    match pxCurrentTCB k 0, pxCurrentTCB k 1 with
    | None, _ => core = 0
    | _, None => core = 1
    | Some t0, Some t1 => forall c0 c1, tcbs k !! t0 = Some c0 -> tcbs k !! t1 = Some c1 ->
        if Z.min (uxPriority c0) (uxPriority c1) <? uxPriority c
        then uxPriority (if core =? 0 then c0 else c1) = Z.min (uxPriority c0) (uxPriority c1)
        else core = xPortGetCoreID k
    end.
Proof.
  intros Hc Ht Hcore. unfold choose_core. erewrite run_bind by done. erewrite run_bind by (by apply priority_of_run).
  destruct (pxCurrentTCB k 0) as [t0 |] eqn:E0; [| exists 0; split_and!; [done | tauto | done]].
  destruct (pxCurrentTCB k 1) as [t1 |] eqn:E1; [| exists 1; split_and!; [done | tauto | done]].
  destruct (Hc 0 t0 ltac:(tauto) E0) as (c0 & H0), (Hc 1 t1 ltac:(tauto) E1) as (c1 & H1).
  erewrite run_bind by (by apply priority_of_run). erewrite run_bind by (by apply priority_of_run).
  eexists. split; [done |]. split; [repeat case_match; tauto |]. intros x0 x1 Hx0 Hx1. rewrite H0 in Hx0. rewrite H1 in Hx1. simplify_eq.
  destruct (Z.ltb_spec (uxPriority x0) (uxPriority c)), (Z.ltb_spec (uxPriority x0) (uxPriority x1)), (Z.ltb_spec (uxPriority x1) (uxPriority c)),
    (Z.ltb_spec (Z.min (uxPriority x0) (uxPriority x1)) (uxPriority c)); cbn; try lia; done.
Qed.

Lemma same_lists_refl k : same_lists k k.
Proof. split; try done. by left. Qed.
Lemma same_lists_trans a b c : same_lists a b -> same_lists b c -> same_lists a c.
Proof.
  intros [] []. split; try congruence.
  destruct sl_delayed1 as [-> | [E1 E2]]; [done |]. rewrite sl_lists0 in E1, E2. by right.
Qed.

Lemma core_index_run core k : core = 0 \/ core = 1 -> core_index core k = Ret (tt, k).
Proof. unfold core_index. by intros [-> | ->]. Qed.

Lemma add_new_task_run k t c core : currents k -> tcbs k !! t = Some c -> xPortGetCoreID k = 0 \/ xPortGetCoreID k = 1 ->
  core = 0 \/ core = 1 \/ core = tskNO_AFFINITY ->
  (wrap_u 32 (uxCurrentNumberOfTasks k + 1) = 1 -> forall l, own_list l -> klists k l = []) ->
  exists k' core', add_new_task t core k =
      Ret (core', link_item generic_item t c (pxReadyTasksLists (uxPriority c)) (klists k (pxReadyTasksLists (uxPriority c)) ++ [t]) k') /\
    same_lists k k' /\ (core' = 0 \/ core' = 1) /\ (core <> tskNO_AFFINITY -> core' = core) /\
    uxCurrentNumberOfTasks k' = wrap_u 32 (uxCurrentNumberOfTasks k + 1) /\ xSchedulerRunning k' = xSchedulerRunning k /\
    (forall x, pxCurrentTCB k' x = pxCurrentTCB k x \/ x = core' /\ pxCurrentTCB k' x = Some t) /\ is_Some (pxCurrentTCB k' core') /\
    (xSchedulerRunning k = true -> is_Some (pxCurrentTCB k core') -> pxCurrentTCB k' = pxCurrentTCB k).
Proof.
  intros Hcs Ht Hcore Haff Hfirst. unfold add_new_task. erewrite run_bind by done.
  set (n := wrap_u 32 (uxCurrentNumberOfTasks k + 1)) in *. set (k1 := set_tasks n k).
  assert (exists core', (if core =? tskNO_AFFINITY then choose_core t else mret core) k1 = Ret (core', k1) /\ (core' = 0 \/ core' = 1) /\
    (core <> tskNO_AFFINITY -> core' = core)) as (core' & Hr & Hc' & Hcc).
  { destruct (Z.eqb_spec core tskNO_AFFINITY) as [-> | Hne].
    - destruct (choose_core_run t c k1) as (core' & Hr & Hc' & _); try done. by exists core'.
    - exists core. split_and!; [done | tauto | done]. }
  erewrite run_bind by exact Hr. erewrite run_bind by (by apply core_index_run). erewrite run_bind by done.
  assert (forall k', same_lists k k' -> (prvAddTaskToReadyList t;; mret core') k' = Ret (core',
    link_item generic_item t c (pxReadyTasksLists (uxPriority c)) (klists k (pxReadyTasksLists (uxPriority c)) ++ [t]) k')) as Hadd.
  { intros k' Hsl. assert (tcbs k' !! t = Some c) as Ht' by (by rewrite (sl_tcbs _ _ Hsl)).
    unfold prvAddTaskToReadyList. rewrite run_assoc. erewrite run_bind by (by apply get_tcb_run).
    erewrite run_bind by (by apply list_insert_end_run). by rewrite (sl_lists _ _ Hsl). }
  assert (same_lists k k1) as Hs1 by (by split; [.. | left]).
  assert (forall k', same_lists k (set_current (<[core' := Some t]> (pxCurrentTCB k)) k') <-> same_lists k k') as Hsc
    by (intros k'; split; intros []; by split).
  assert (forall x, <[core' := Some t]> (pxCurrentTCB k) x = pxCurrentTCB k x \/ x = core' /\ <[core' := Some t]> (pxCurrentTCB k) x = Some t) as Hx.
  { intros x. destruct (decide (x = core')) as [-> | Hne]; [right; by rewrite fn_lookup_insert | left; by rewrite fn_lookup_insert_ne]. }
  change (pxCurrentTCB k1 core') with (pxCurrentTCB k core'). destruct (pxCurrentTCB k core') as [t' |] eqn:Ecur.
  - change (xSchedulerRunning k1) with (xSchedulerRunning k). destruct (xSchedulerRunning k) eqn:Erun; cbn [negb when].
    + erewrite run_bind by done. exists k1, core'. rewrite (Hadd k1 Hs1). split_and!; try done; [by left | by rewrite Ecur ..].
    + destruct (Hcs core' t' Hc' Ecur) as (x & Hx'). rewrite run_assoc. erewrite run_bind by (by apply priority_of_run).
      rewrite run_assoc. erewrite run_bind by (by apply priority_of_run). destruct (_ <=? _); cbn [when].
      * erewrite run_bind by done. exists (set_current (<[core' := Some t]> (pxCurrentTCB k)) k1), core'.
        rewrite Hadd by (by apply Hsc). split_and!; try done; [by apply Hsc |]. cbn. rewrite fn_lookup_insert. by eexists.
      * erewrite run_bind by done. exists k1, core'. rewrite (Hadd k1 Hs1). split_and!; try done; [by left | by rewrite Ecur ..].
  - rewrite run_assoc. erewrite run_bind by done. change (uxCurrentNumberOfTasks k1) with n.
    set (k2 := set_current (<[core' := Some t]> (pxCurrentTCB k1)) k1). assert (same_lists k k2) as Hs2 by (by apply Hsc).
    destruct (Z.eqb_spec n 1) as [E1 | E1]; cbn [when].
    + destruct (prvInitialiseTaskLists_run k2) as (k3 & Hr3 & Hs3 & Hc3 & Hn3 & Hrun3); [by apply Hfirst |].
      erewrite run_bind by exact Hr3. exists k3, core'. assert (same_lists k k3) as Hs by (by eapply same_lists_trans).
      rewrite (Hadd k3 Hs). split_and!; try done; [by rewrite Hc3 | rewrite Hc3; cbn; rewrite fn_lookup_insert; by eexists |].
      intros _ [? ?]. congruence.
    + erewrite run_bind by done. exists k2, core'. rewrite (Hadd k2 Hs2). split_and!; try done; [cbn; rewrite fn_lookup_insert; by eexists |].
      intros _ [? ?]. congruence.
Qed.

(** What creation needs and keeps, also before the scheduler runs. *)
Record made (s : control) : Prop := {
  md_lists : lists_wf (kern s); md_placed : placed (kern s); md_quiet : quiet (kern s); md_timed : timed (kern s);
  md_owned : owned s; md_currents : currents (kern s);
  md_running core : xSchedulerRunning (kern s) = true -> core = 0 \/ core = 1 -> is_Some (pxCurrentTCB (kern s) core) }.

(** The task [t], with the stack [a] and the control block [c], was created. *)
Record created (t a : Z) (c : TCB_t) (name : list Z) (s s' : control) : Prop := {
  cr_tcbs : tcbs (kern s') = <[t := c]> (tcbs (kern s));
  cr_lists l : klists (kern s') l = klists (kern s) l ++ (if decide (l = pxReadyTasksLists (uxPriority c)) then [t] else []);
  cr_stacks : pxStack s' = <[t := a]> (pxStack s);
  cr_names : pcTaskName s' = <[t := name]> (pcTaskName s);
  cr_heap : heap s' = {[t]} ∪ ({[a]} ∪ heap s);
  cr_deleted : uxTasksDeleted s' = uxTasksDeleted s;
  cr_count : uxCurrentNumberOfTasks (kern s') = uxCurrentNumberOfTasks (kern s) + 1;
  cr_running : xSchedulerRunning (kern s') = xSchedulerRunning (kern s);
  cr_core : xPortGetCoreID (kern s') = xPortGetCoreID (kern s);
  cr_tick : xTickCount (kern s') = xTickCount (kern s) }.

Definition on_ready_list (c : TCB_t) : TCB_t :=
  with_generic (mkItem (item_value (xGenericListItem c)) (Some (pxReadyTasksLists (uxPriority c)))) c.

Lemma fresh_not_in k t l : lists_wf k -> tcbs k !! t = None -> t ∉ klists k l.
Proof. intros Hk Ht (c & Hc & _)%(lw_in k Hk). congruence. Qed.

(** Linking a new task into its ready list. *)
Lemma link_new_made k k1 t c : lists_wf k -> placed k -> quiet k -> timed k -> tcbs k !! t = None ->
  container (xGenericListItem c) = None -> container (xEventListItem c) = None ->
  affinity_ok k (xCoreID c) ->
  let p := uxPriority c in let k0 := set_tcbs (<[t := c]> (tcbs k)) k in same_lists k0 k1 ->
  let k2 := link_item generic_item t c (pxReadyTasksLists p) (klists k0 (pxReadyTasksLists p) ++ [t]) k1 in
  lists_wf k2 /\ placed k2 /\ quiet k2 /\ timed k2 /\ tcbs k2 = <[t := on_ready_list c]> (tcbs k) /\
  (forall l, klists k2 l = klists k l ++ (if decide (l = pxReadyTasksLists p) then [t] else [])).
Proof.
  intros Hk Hp Hq Hti Ht Hg He Ha p k0 Hsl k2.
  assert (forall i, container (item_of_kind i c) = None) as Hi by (by intros []).
  pose proof (new_lists_wf t c k Hk Ht Hi Ha) as Hk0. fold k0 in Hk0. pose proof (same_lists_wf k0 k1 Hsl Hk0) as Hk1.
  assert (tcbs k2 = <[t := on_ready_list c]> (tcbs k)) as Et.
  { unfold k2, link_item. cbn [tcbs set_tcbs]. rewrite (sl_tcbs _ _ Hsl). unfold k0. cbn. by rewrite insert_insert_eq. }
  assert (forall l, klists k2 l = klists k l ++ (if decide (l = pxReadyTasksLists p) then [t] else [])) as El.
  { intros l. unfold k2, link_item. cbn [klists set_tcbs set_klists]. destruct (decide (l = pxReadyTasksLists p)) as [-> | Hne].
    - by rewrite fn_lookup_insert.
    - rewrite fn_lookup_insert_ne, (sl_lists _ _ Hsl) by done. unfold k0. cbn. by rewrite app_nil_r. }
  assert (forall l, t ∉ klists k l) as Hnin by (intros; by apply fresh_not_in).
  split_and!; [| | | | done | done].
  - apply link_lists_wf; try done.
    + rewrite (sl_tcbs _ _ Hsl). unfold k0. cbn. by rewrite lookup_insert_eq.
    + by rewrite (sl_lists _ _ Hsl), <- Permutation_cons_append.
  - intros y x. rewrite Et. task_cases y t; [intros [= <-]; by eexists | by apply Hp].
  - intros l y Hl. rewrite El, decide_False by (intros ->; done). rewrite app_nil_r. intros Hin (x & q & Hx & E).
    rewrite Et in Hx. assert (y <> t) by (intros ->; by apply (Hnin l)). rewrite lookup_insert_ne in Hx by done.
    apply (Hq l y Hl Hin). by exists x, q.
  - apply (timed_leaves t k1).
    + apply (same_lists_timed k0); [done |]. apply (timed_leaves t k); try done.
      * intros y Hy. unfold k0. cbn. by rewrite lookup_insert_ne.
      * intros m _. unfold k0. cbn. symmetry. by apply remove_item_notin.
    + done.
    + done.
    + done.
    + intros y Hy. rewrite Et, (sl_tcbs _ _ Hsl). unfold k0. cbn. by rewrite !lookup_insert_ne.
    + intros m Hm. rewrite El, (sl_lists _ _ Hsl), decide_False; [| intros ->].
      * rewrite app_nil_r. unfold k0. cbn. symmetry. by apply remove_item_notin.
      * revert Hm. unfold timer_list, pxDelayedTaskList, pxOverflowDelayedTaskList. by destruct (delayed_is_1 k1); intros [? | ?].
Qed.

Lemma yield_to_new_run t core k : kwf k -> is_Some (tcbs k !! t) -> core = 0 \/ core = 1 ->
  exists k', yield_to_new t core k = Ret (tt, k') /\ only_yields k k'.
Proof.
  intros Hk (c & Ht) Hcore. unfold yield_to_new. erewrite run_bind by done. erewrite run_bind by (by apply priority_of_run).
  destruct (k_current k Hk core Hcore) as (x & cx & Hx & Hcx). rewrite Hx. rewrite run_assoc.
  erewrite run_bind by (by apply priority_of_run). erewrite run_bind by done. unfold when. destruct (_ <? _); [| by exists k].
  destruct (_ =? _); [eexists; split; [done | apply only_yields_add] |].
  apply (taskYIELD_OTHER_CORE_run k); [done | by apply affinity_core].
Qed.

Lemma lists_empty k l : lists_wf k -> size (tcbs k) = 0%nat -> klists k l = [].
Proof.
  intros Hk Hz%map_size_empty_iff. apply elem_of_nil_inv. intros t (c & Hc & _)%(lw_in k Hk). by rewrite Hz in Hc.
Qed.

(** The block [t] is the control block of a task; with its stack [a] it belongs
    to nobody else. *)
Lemma owned_insert t a c name s k : owned s -> tcbs (kern s) !! t = None -> t ∉ heap s -> a ∉ heap s -> t <> a ->
  Z.of_nat (size (tcbs (kern s))) + 1 < 2 ^ 32 -> container (xGenericListItem c) <> Some xTasksWaitingTermination ->
  tcbs k = <[t := c]> (tcbs (kern s)) -> klists k xTasksWaitingTermination = klists (kern s) xTasksWaitingTermination ->
  uxCurrentNumberOfTasks k = uxCurrentNumberOfTasks (kern s) + 1 ->
  forall n, owned (mkControl k (uxTasksDeleted s) n (<[t := name]> (pcTaskName s)) (<[t := a]> (pxStack s)) ({[t]} ∪ ({[a]} ∪ heap s))).
Proof.
  intros [] Ht Hth Hah Hne Hsz Hg Et El En n.
  assert (forall y b, pxStack s !! y = Some b -> y <> t /\ y <> a /\ b <> t /\ b <> a) as Hapart.
  { intros y b Hb. destruct (ow_heap0 y b Hb). split_and!; congruence. }
  split; cbn; rewrite ?Et.
  - intros y. task_cases y t; [split; intros _; by eexists | apply ow_stack0].
  - intros y b. task_cases y t; [intros [= <-]; set_solver | intros Hb; destruct (ow_heap0 y b Hb); set_solver].
  - intros y b y' b'. task_cases y t; task_cases y' t; intros Hb Hb'; simplify_eq; try done.
    + destruct (Hapart y' b' Hb') as (? & ? & ? & ?). split; congruence.
    + destruct (Hapart y b Hb) as (? & ? & ? & ?). split; congruence.
    + by apply ow_apart0.
  - by rewrite El.
  - rewrite map_size_insert_None by done. lia.
  - rewrite map_size_insert_None by done. lia.
  - intros y x. task_cases y t; [intros [= <-]; congruence | apply ow_event0].
Qed.

Lemma pvPortMalloc_run a s : pvPortMalloc (Some a) s = Ret (Some a, set_heap ({[a]} ∪ heap s) s).
Proof. done. Qed.
Lemma run_bind_modify {S B} (f : S -> S) (m : unit -> st S B) s : (modify f ≫= m) s = m tt (f s).
Proof. done. Qed.

Lemma xTaskCreatePinnedToCore_run junk pcName name prio core t a s : made s -> t ∉ heap s -> a ∉ heap s -> t <> a ->
  task_name pcName = Ret name -> 0 <= prio -> affinity_ok (kern s) core ->
  Z.of_nat (size (tcbs (kern s))) + 1 < 2 ^ 32 ->
  exists s' core', xTaskCreatePinnedToCore (Some a) (Some t) junk pcName prio core s = Ret (Some t, s') /\ made s' /\
    created t a (on_ready_list (new_tcb junk prio core)) name s s' /\ (core' = 0 \/ core' = 1) /\ (core <> tskNO_AFFINITY -> core' = core) /\
    (forall x, pxCurrentTCB (kern s') x = pxCurrentTCB (kern s) x \/ x = core' /\ pxCurrentTCB (kern s') x = Some t) /\
    is_Some (pxCurrentTCB (kern s') core') /\
    (xSchedulerRunning (kern s) = true -> pxCurrentTCB (kern s') = pxCurrentTCB (kern s)).
Proof.
  intros [Hk Hp Hq Hti Ho Hcs Hrun] Hth Hah Hne Hname Hprio Haff Hsz.
  assert (tcbs (kern s) !! t = None) as Ht.
  { destruct (tcbs (kern s) !! t) as [c |] eqn:E; [| done]. destruct (proj1 (ow_stack _ Ho t) (mk_is_Some _ _ E)) as (b & Hb).
    by destruct (ow_heap _ Ho t b Hb). }
  set (c := new_tcb junk prio core). set (k0 := set_tcbs (<[t := c]> (tcbs (kern s))) (kern s)).
  set (s1 := mkControl k0 (uxTasksDeleted s) (uxTaskNumber s) (<[t := name]> (pcTaskName s)) (<[t := a]> (pxStack s)) ({[t]} ∪ ({[a]} ∪ heap s))).
  assert (xTaskCreatePinnedToCore (Some a) (Some t) junk pcName prio core s = (prvAddNewTaskToReadyList t core;; mret (Some t)) s1) as Hinit.
  { unfold xTaskCreatePinnedToCore. rewrite (run_bind _ _ _ _ _ (pvPortMalloc_run a s)). cbv beta iota.
    rewrite (run_bind _ _ _ _ _ (pvPortMalloc_run t _)). cbv beta iota. rewrite run_bind_modify.
    unfold prvInitialiseNewTask. rewrite Hname. rewrite run_assoc. erewrite run_bind by done. by rewrite run_assoc, run_bind_modify. }
  rewrite Hinit. unfold prvAddNewTaskToReadyList. rewrite run_assoc.
  assert ((core =? tskNO_AFFINITY) || (core <? portNUM_PROCESSORS) = true) as -> by (by destruct Haff as [-> | [-> | [-> _]]]).
  erewrite run_bind by (unfold on_kern; cbn; done). rewrite run_assoc.
  assert (tcbs k0 !! t = Some c) as Ht0 by (unfold k0; cbn; by rewrite lookup_insert_eq).
  assert (currents k0) as Hcs0.
  { intros x y Hx Hy. destruct (Hcs x y Hx Hy) as (z & Hz). unfold k0. cbn. task_cases y t; [by eexists | by exists z]. }
  assert (uxCurrentNumberOfTasks k0 = Z.of_nat (size (tcbs (kern s)))) as Hcount by apply (ow_tasks _ Ho).
  assert (wrap_u 32 (uxCurrentNumberOfTasks k0 + 1) = uxCurrentNumberOfTasks (kern s) + 1) as Hwrap
    by (change (uxCurrentNumberOfTasks k0) with (uxCurrentNumberOfTasks (kern s)) in *; rewrite wrap_u_small; [done | lia]).
  destruct (add_new_task_run k0 t c core Hcs0 Ht0 (lw_core _ Hk) (affinity_cases _ _ Haff)) as (k1 & core' & Hr & Hsl & Hcore' & Haff' & Hn & Hrun1 & Hcur1 & Hsome & Hsame).
  { rewrite Hwrap, (ow_tasks _ Ho). intros E l _. apply (lists_empty (kern s) l); [done | lia]. }
  destruct (link_new_made (kern s) k1 t c Hk Hp Hq Hti Ht eq_refl eq_refl Haff Hsl) as (Hk2 & Hp2 & Hq2 & Hti2 & Et2 & El2).
  set (k2 := link_item generic_item t c _ _ k1) in *.
  assert (on_kern (add_new_task t core) (set_kern k0 s1) = Ret (core', set_kern k2 s1)) as Hr1 by (unfold on_kern; cbn; by rewrite Hr).
  erewrite run_bind by exact Hr1. rewrite run_assoc, run_bind_modify. rewrite run_assoc. erewrite run_bind by done. cbv beta. cbn [kern set_number set_kern].
  set (n := wrap_u 32 (uxTaskNumber (set_kern k2 s1) + 1)).
  assert (currents k2) as Hcs2.
  { intros x y Hx Hy. rewrite Et2. change (pxCurrentTCB k2) with (pxCurrentTCB k1) in Hy. destruct (Hcur1 x) as [E | [_ E]]; rewrite Hy in E.
    - symmetry in E. destruct (Hcs x y Hx E) as (z & Hz). task_cases y t; [by eexists | by exists z].
    - injection E as ->. rewrite lookup_insert_eq. by eexists. }
  assert (exists k3, when (xSchedulerRunning k2) (on_kern (yield_to_new t core')) (set_number n (set_kern k2 s1)) = Ret (tt, set_number n (set_kern k3 s1)) /\ only_yields k2 k3)
    as (k3 & Hr3 & Hy3).
  { change (xSchedulerRunning k2) with (xSchedulerRunning k1). rewrite Hrun1. change (xSchedulerRunning k0) with (xSchedulerRunning (kern s)).
    destruct (xSchedulerRunning (kern s)) eqn:E; cbn [when]; [| by exists k2].
    destruct (yield_to_new_run t core' k2) as (k3 & Hr3 & Hy3); [| rewrite Et2, lookup_insert_eq; by eexists | done |].
    - apply lists_kwf; [done |]. intros x Hx. change (pxCurrentTCB k2) with (pxCurrentTCB k1).
      destruct (Hrun x eq_refl Hx) as (y & Hy). destruct (Hcur1 x) as [E' | [_ E']].
      + change (pxCurrentTCB k0 x) with (pxCurrentTCB (kern s) x) in E'. rewrite Hy in E'.
        destruct (Hcs2 x y Hx E') as (z & Hz). by exists y, z.
      + destruct (Hcs2 x t Hx E') as (z & Hz). by exists t, z.
    - exists k3. split; [| done]. unfold on_kern. cbn. by rewrite Hr3. }
  erewrite run_bind by exact Hr3. exists (set_number n (set_kern k3 s1)), core'.
  assert (created t a (on_ready_list c) name s (set_number n (set_kern k2 s1))) as Hcr.
  { split; try done; cbn; [by rewrite Hn, Hwrap | exact (sl_core _ _ Hsl) | exact (sl_tick _ _ Hsl)]. }
  destruct Hy3 as (w & y & ->). split_and!; try done.
  - split; try done.
    + by destruct Hk2.
    + by apply (timed_same k2).
    + apply (owned_insert t a (on_ready_list c) name s (set_yields y (set_yield_pending w k2))); try done.
      * transitivity (klists k2 xTasksWaitingTermination); [done |]. by rewrite El2, decide_False, app_nil_r.
      * cbn. by rewrite Hn, Hwrap.
    + cbn. rewrite Hrun1. intros x E Hx. destruct (Hrun x E Hx) as (z & Hz). destruct (Hcur1 x) as [E' | [_ E']]; rewrite E'; [| by eexists].
      change (pxCurrentTCB k0 x) with (pxCurrentTCB (kern s) x). by exists z.
  - by destruct Hcr.
  - cbn. intros E. apply Hsame; [done |]. destruct (Hrun core' E Hcore') as (z & Hz). by exists z.
Qed.

(** What a successful creation does to a state from which the scheduler starts. *)
Definition current_ready (k : kernel) : Prop := forall core t, core = 0 \/ core = 1 -> pxCurrentTCB k core = Some t -> is_ready k t.

Lemma create_in_run a t g pcName name prio core s : made s -> t ∉ heap s -> a ∉ heap s -> t <> a ->
  task_name pcName = Ret name -> 0 <= prio -> affinity_ok (kern s) core ->
  Z.of_nat (size (tcbs (kern s))) + 1 < 2 ^ 32 -> current_ready (kern s) ->
  exists s' core', create_in (mkMemory (Some a) (Some t) g) pcName prio core s = Ret (true, s') /\ made s' /\
    heap s' = {[t]} ∪ ({[a]} ∪ heap s) /\ size (tcbs (kern s')) = S (size (tcbs (kern s))) /\
    xSchedulerRunning (kern s') = xSchedulerRunning (kern s) /\ xPortGetCoreID (kern s') = xPortGetCoreID (kern s) /\
    xTickCount (kern s') = xTickCount (kern s) /\
    (core <> tskNO_AFFINITY -> core' = core) /\ is_Some (pxCurrentTCB (kern s') core') /\
    (forall x, is_Some (pxCurrentTCB (kern s) x) -> is_Some (pxCurrentTCB (kern s') x)) /\ current_ready (kern s') /\
    is_ready (kern s') t /\ (forall y, is_ready (kern s) y -> is_ready (kern s') y).
Proof.
  intros Hm Hth Hah Hne Hname Hprio Haff Hsz Hcr.
  destruct (xTaskCreatePinnedToCore_run g pcName name prio core t a s) as (s' & core' & Hr & Hm' & Hc & Hcore & Hco & Hcur & Hsome & _); try done.
  exists s', core'. unfold create_in. cbn [malloc_stack malloc_tcb garbage]. erewrite run_bind by exact Hr.
  assert (tcbs (kern s) !! t = None) as Ht.
  { destruct (tcbs (kern s) !! t) as [c |] eqn:E; [| done]. destruct (proj1 (ow_stack _ (md_owned _ Hm) t) (mk_is_Some _ _ E)) as (b & Hb).
    by destruct (ow_heap _ (md_owned _ Hm) t b Hb). }
  assert (is_ready (kern s') t) as Hrt.
  { do 2 eexists. rewrite (cr_tcbs _ _ _ _ _ _ Hc), lookup_insert_eq. split; done. }
  assert (forall y, is_ready (kern s) y -> is_ready (kern s') y) as Hry.
  { intros y (z & p & Hz & Hg). destruct (decide (y = t)) as [-> | Hyt]; [done |]. exists z, p. split; [| done].
    by rewrite (cr_tcbs _ _ _ _ _ _ Hc), lookup_insert_ne. }
  split_and!; try done.
  - apply Hc.
  - rewrite (cr_tcbs _ _ _ _ _ _ Hc). by rewrite map_size_insert_None.
  - apply Hc.
  - apply Hc.
  - apply Hc.
  - intros x Hx. destruct (Hcur x) as [-> | [_ ->]]; [done | by eexists].
  - intros x y Hx Hy. destruct (Hcur x) as [E | [_ E]]; rewrite Hy in E; [| by injection E as ->].
    symmetry in E. by apply Hry, (Hcr x).
Qed.

Ltac fresh_block := rewrite ?not_elem_of_union, ?not_elem_of_singleton; split_and?; first [assumption | apply not_eq_sym; assumption].

(** C13. The scheduler starts in a well-formed state.  From any state reached by creating tasks before
    (also from none: empty lists and no task), vTaskStartScheduler, given memory for the idle tasks and
    the timer task, returns with every invariant the kernel's theorems assume: lists and containers
    agree, every task is in the list that says what it does, no waiting task is ready, the delayed lists
    are in order, and both cores run a ready task. *)
Theorem scheduler_boot s a0 t0 g0 a1 t1 g1 a2 t2 g2 : made s -> xSchedulerRunning (kern s) = false ->
  xTickCount (kern s) = 0 -> current_ready (kern s) ->
  NoDup [a0; t0; a1; t1; a2; t2] -> (forall x, x ∈ [a0; t0; a1; t1; a2; t2] -> x ∉ heap s) ->
  Z.of_nat (size (tcbs (kern s))) + 3 < 2 ^ 32 ->
  exists s', vTaskStartScheduler (mkMemory (Some a0) (Some t0) g0) (mkMemory (Some a1) (Some t1) g1) (mkMemory (Some a2) (Some t2) g2) s = Ret (tt, s') /\
    steady (kern s') /\ owned s' /\ xSchedulerRunning (kern s') = true /\ xTickCount (kern s') = 0 /\
    is_ready (kern s') t0 /\ is_ready (kern s') t1 /\ is_ready (kern s') t2 /\
    forall core, core = 0 \/ core = 1 -> exists t, pxCurrentTCB (kern s') core = Some t /\ is_ready (kern s') t.
Proof.
  intros Hm Hrun Htick Hcr Hnd Hfresh Hsz. rewrite !list.NoDup_cons, !not_elem_of_cons in Hnd. destruct_and!.
  pose proof (Hfresh a0 ltac:(set_solver +)). pose proof (Hfresh t0 ltac:(set_solver +)). pose proof (Hfresh a1 ltac:(set_solver +)).
  pose proof (Hfresh t1 ltac:(set_solver +)). pose proof (Hfresh a2 ltac:(set_solver +)). pose proof (Hfresh t2 ltac:(set_solver +)).
  clear Hfresh. unfold vTaskStartScheduler.
  assert (task_name IDLE = Ret IDLE /\ task_name Tmr_Svc = Ret Tmr_Svc) as [Hn1 Hn2] by done.
  destruct (create_in_run a0 t0 g0 IDLE IDLE tskIDLE_PRIORITY 0 s Hm) as
    (s1 & c1 & Hr1 & Hm1 & Hh1 & Hz1 & Hrun1 & Hco1 & Htk1 & Hc1 & Hs1 & Hk1 & Hcr1 & Hy1 & Hp1);
    [fresh_block | fresh_block | fresh_block | exact Hn1 | done | by left | lia | exact Hcr |].
  erewrite run_bind by exact Hr1.
  destruct (create_in_run a1 t1 g1 IDLE IDLE tskIDLE_PRIORITY 1 s1 Hm1) as
    (s2 & c2 & Hr2 & Hm2 & Hh2 & Hz2 & Hrun2 & Hco2 & Htk2 & Hc2 & Hs2 & Hk2 & Hcr2 & Hy2 & Hp2);
    [rewrite Hh1; fresh_block | rewrite Hh1; fresh_block | fresh_block | exact Hn1 | done | by right; left | lia | exact Hcr1 |].
  erewrite run_bind by exact Hr2. cbv beta iota.
  destruct (create_in_run a2 t2 g2 Tmr_Svc Tmr_Svc configTIMER_TASK_PRIORITY 0 s2 Hm2) as
    (s3 & c3 & Hr3 & Hm3 & Hh3 & Hz3 & Hrun3 & Hco3 & Htk3 & Hc3 & Hs3 & Hk3 & Hcr3 & Hy3 & Hp3);
    [rewrite Hh2, Hh1; fresh_block | rewrite Hh2, Hh1; fresh_block | fresh_block | exact Hn2 | done | by left | clear -Hz1 Hz2 Hsz; lia | exact Hcr2 |].
  assert (xTimerCreateTimerTask (mkMemory (Some a2) (Some t2) g2) s2 = Ret (true, s3)) as Hr3'.
  { unfold xTimerCreateTimerTask. erewrite run_bind by exact Hr3. erewrite run_bind by (unfold on_kern; cbn; done). by destruct s3. }
  erewrite run_bind by exact Hr3'. cbv beta iota. erewrite run_bind by (unfold on_kern; cbn; done).
  assert (forall core, core = 0 \/ core = 1 -> exists t, pxCurrentTCB (kern s3) core = Some t /\ is_ready (kern s3) t) as Hcur.
  { intros core Hcore. assert (is_Some (pxCurrentTCB (kern s3) core)) as (t & Ht).
    { rewrite Hc1 in Hs1 by done. rewrite Hc2 in Hs2 by done. destruct Hcore as [-> | ->]; [by apply Hk3, Hk2 | by apply Hk3]. }
    exists t. split; [done |]. by apply (Hcr3 core). }
  assert (steady (kern s3)) as Hst.
  { destruct Hm3 as [L P Q T _ _ _]. split; try done. apply lists_kwf; [done |]. intros core Hcore.
    destruct (Hcur core Hcore) as (t & Ht & (c & p & Hc & _)). by exists t, c. }
  eexists. split; [unfold on_kern; cbn; reflexivity |]. cbn [kern].
  assert (xTickCount (kern s3) = 0) as Ht0 by congruence.
  split_and!; try done.
  - destruct Hst as [[] P Q T]. split; [by split | done | done |]. apply (timed_same (kern s3)); try done.
  - destruct Hm3 as [_ _ _ _ [] _ _]. by split.
  - by apply Hp3, Hp2.
  - by apply Hp3.
Qed.

(** * The life of a task *)

Lemma steady_made s : steady (kern s) -> owned s -> made s.
Proof.
  intros [Hk Hp Hq Ht] Ho. split; try done; [by apply kwf_lists | |].
  - intros core t Hc E. destruct (k_current _ Hk core Hc) as (x & c & Hx & Hcx). rewrite E in Hx. injection Hx as <-. by exists c.
  - intros core _ Hc. destruct (k_current _ Hk core Hc) as (x & c & Hx & _). by exists x.
Qed.

Lemma made_steady s : made s -> xSchedulerRunning (kern s) = true -> steady (kern s).
Proof.
  intros [] Hr. split; try done. apply lists_kwf; [done |]. intros core Hc. destruct (md_running0 core Hr Hc) as (t & Ht).
  destruct (md_currents0 core t Hc Ht) as (c & Hcx). by exists t, c.
Qed.

(** What vTaskDelete does after its section to a task that no core runs. *)
Lemma vTaskDelete_end_idle t k : kwf k -> (forall core, core = 0 \/ core = 1 -> pxCurrentTCB k core <> Some t) ->
  exists k', vTaskDelete_end t k = Ret (tt, k') /\ same_tasks k k' /\ frame k k' /\ (timed k -> timed k').
Proof.
  intros Hk Hn. unfold vTaskDelete_end. erewrite run_bind by done. cbv zeta. rewrite !bool_decide_false; [| | apply Hn, Hk]; [| apply Hn; destruct (_ =? _); tauto]. unfold when.
  destruct (xSchedulerRunning k); [| by exists k]. destruct (reset_unblock_run k Hk) as (k' & Hr & Hs & _ & Ht & Hf). by exists k'.
Qed.

Lemma remove_item_added t l (b : Prop) `{!Decision b} : t ∉ l -> remove_item t (l ++ (if decide b then [t] else [])) = l.
Proof.
  intros Hl. assert (remove_item t l = l) as E by (by apply remove_item_notin). unfold remove_item in *. rewrite list.filter_app, E.
  destruct (decide b); [rewrite filter_cons_False by tauto |]; by rewrite app_nil_r.
Qed.

(** Adding a name, a stack, ... and taking it away again. *)
Lemma map_gone {A} (m m' : gmap Z A) t v : m !! t = None ->
  (forall y, m' !! y = if decide (y ∈ [t]) then None else (<[t := v]> m) !! y) -> m' = m.
Proof.
  intros Hmt H. apply map_eq. intros y. rewrite H. destruct (decide (y ∈ [t])) as [-> %list_elem_of_singleton | Hy]; [done |].
  rewrite lookup_insert_ne; [done |]. intros ->. apply Hy. by left.
Qed.

Lemma owned_same s k : owned s -> same_tasks (kern s) k -> uxCurrentNumberOfTasks k = uxCurrentNumberOfTasks (kern s) -> owned (set_kern k s).
Proof. intros [] (Et & El & _) En. split; cbn; rewrite ?Et, ?El, ?En; done. Qed.

(** C15. The life of a task leaves nothing behind.  A task created on the running system, deleted by
    another task before it runs, and collected by an idle task that may free it (it is pinned to that
    core, or without affinity where the stray read of taskYIELD_OTHER_CORE returns): the control blocks, the
    stacks, the names, the blocks in use, the counts and every list of the scheduler are what they were
    before the creation. *)
Theorem task_lifecycle s junk pcName name prio core t a : steady (kern s) -> owned s -> xSchedulerRunning (kern s) = true ->
  t ∉ heap s -> a ∉ heap s -> t <> a -> task_name pcName = Ret name -> 0 <= prio ->
  core = xPortGetCoreID (kern s) \/ core = tskNO_AFFINITY /\ stray_read (kern s) = true -> Z.of_nat (size (tcbs (kern s))) + 1 < 2 ^ 32 ->
  pcTaskName s !! t = None -> klists (kern s) xTasksWaitingTermination = [] ->
  exists s1 s2 s3, xTaskCreatePinnedToCore (Some a) (Some t) junk pcName prio core s = Ret (Some t, s1) /\
    is_ready (kern s1) t /\ t ∈ heap s1 /\ a ∈ heap s1 /\
    vTaskDelete (Some t) s1 = Ret (tt, s2) /\ uxTasksDeleted s2 = 1 /\
    prvCheckTasksWaitingTermination s2 = Ret (tt, s3) /\
    tcbs (kern s3) = tcbs (kern s) /\ pxStack s3 = pxStack s /\ pcTaskName s3 = pcTaskName s /\ heap s3 = heap s /\
    uxTasksDeleted s3 = 0 /\ uxCurrentNumberOfTasks (kern s3) = uxCurrentNumberOfTasks (kern s) /\
    (forall l, klists (kern s3) l = klists (kern s) l).
Proof.
  intros Hs Ho Hrun Hth Hah Hne Hname Hprio Hcore Hsz Hnm El. pose proof (kwf_lists _ (st_kwf _ Hs)) as Hk.
  assert (affinity_ok (kern s) core) as Haff by (destruct Hcore as [-> | ?]; [apply affinity_core, (st_kwf _ Hs) | by right; right]).
  destruct (xTaskCreatePinnedToCore_run junk pcName name prio core t a s (steady_made s Hs Ho) Hth Hah Hne Hname Hprio Haff Hsz)
    as (s1 & core' & Hr1 & Hm1 & Hcr & _ & _ & _ & _ & Hsame). specialize (Hsame Hrun).
  set (c := on_ready_list (new_tcb junk prio core)) in *.
  assert (tcbs (kern s) !! t = None) as Ht.
  { destruct (tcbs (kern s) !! t) as [x |] eqn:E; [| done]. destruct (proj1 (ow_stack _ Ho t) (mk_is_Some _ _ E)) as (b & Hb).
    by destruct (ow_heap _ Ho t b Hb). }
  assert (pxStack s !! t = None) as Hst.
  { destruct (pxStack s !! t) as [b |] eqn:E; [| done]. by destruct (ow_heap _ Ho t b E). }
  assert (tcbs (kern s1) !! t = Some c) as Ht1 by (by rewrite (cr_tcbs _ _ _ _ _ _ Hcr), lookup_insert_eq).
  assert (forall l, t ∉ klists (kern s) l) as Hnin by (intros; by apply fresh_not_in).
  assert (steady (kern s1)) as Hs1 by (apply made_steady; [done | by rewrite (cr_running _ _ _ _ _ _ Hcr)]).
  assert (klists (kern s1) xTasksWaitingTermination = []) as El1 by (by rewrite (cr_lists _ _ _ _ _ _ Hcr), El, decide_False).
  destruct (vTaskDelete_section_run (Some t) t c s1 Hs1 (md_owned _ Hm1) eq_refl Ht1) as (k2 & Hmv & Hr2 & Hs2 & Ho2);
    [rewrite El1; intros Hin; by apply elem_of_nil in Hin |].
  destruct (vTaskDelete_end_idle t k2 (st_kwf _ Hs2)) as (k3 & Hr3 & Hst3 & Hf3 & Hti3).
  { intros x Hx. rewrite (f_current _ _ (mv_frame _ _ _ _ Hmv)), Hsame. intros E.
    destruct (k_current _ (st_kwf _ Hs) x Hx) as (y & cy & Hy & Hcy). congruence. }
  set (s2 := set_kern k3 (mkControl k2 (uxTasksDeleted s1 + 1) (wrap_u 32 (uxTaskNumber s1 + 1)) (pcTaskName s1) (pxStack s1) (heap s1))).
  assert (owned s2) as Ho2' by (apply owned_same; [done | done | apply Hf3]).
  assert (lists_wf (kern s2)) as Hk2 by (apply kwf_lists, (same_tasks_calm k2 k3); [apply Hs2 | apply Hs2 | done]).
  destruct (check_run s2 Hk2 Ho2') as (ts & rest & s3 & Hr4 & _ & Ho3 & E2 & E3 & Hf & _ & Hother & _ & Hrest & _).
  destruct Hst3 as (Et3 & El3 & _ & _ & _ & Eo3 & _).
  assert (klists (kern s2) xTasksWaitingTermination = [t]) as El2.
  { unfold s2. cbn. rewrite El3, (mv_lists _ _ _ _ Hmv), decide_True by done. by rewrite El1. }
  assert (exists c2, tcbs (kern s2) !! t = Some c2 /\ xCoreID c2 = core) as (c2 & Hc2 & Haff2).
  { unfold s2. cbn. rewrite Et3. destruct (f_tcb _ _ (mv_frame _ _ _ _ Hmv) t c Ht1) as (c2 & Hc2 & _ & Ha2 & _). by exists c2. }
  assert (frees_here (kern s2) t = true) as Hfree.
  { unfold frees_here. rewrite Hc2, Haff2. unfold s2. cbn. rewrite Eo3, (f_core _ _ (mv_frame _ _ _ _ Hmv)), (cr_core _ _ _ _ _ _ Hcr).
    destruct Hcore as [-> | [-> _]]; [rewrite Z.eqb_refl; apply orb_true_r | done]. }
  rewrite El2 in E2. assert (ts = [t] /\ rest = []) as [-> ->].
  { destruct ts as [| x ts]; [cbn in E2; subst rest; congruence |]. cbn in E2. injection E2 as <- E2. symmetry in E2. by apply app_eq_nil in E2 as [-> ->]. }
  exists s1, s2, s3. pose proof (cr_deleted _ _ _ _ _ _ Hcr) as Hd. rewrite (ow_deleted _ Ho), El in Hd.
  split_and!; try done.
  - by exists c, (uxPriority c).
  - rewrite (cr_heap _ _ _ _ _ _ Hcr). set_solver +.
  - rewrite (cr_heap _ _ _ _ _ _ Hcr). set_solver +.
  - unfold vTaskDelete. erewrite run_bind by exact Hr2. unfold on_kern. cbn. by rewrite Hr3.
  - unfold s2. cbn. by rewrite Hd.
  - apply map_eq. intros y. rewrite (fr_tcb _ _ _ Hf). destruct (decide (y ∈ [t])) as [-> %list_elem_of_singleton | Hy]; [done |].
    assert (y <> t) as Hyt by (intros ->; apply Hy; by left). unfold s2. cbn.
    by rewrite Et3, (mv_tcbs _ _ _ _ Hmv), (cr_tcbs _ _ _ _ _ _ Hcr), lookup_insert_ne.
  - apply (map_gone _ _ t a); [done |]. intros y. rewrite (fr_stack _ _ _ Hf). unfold s2. cbn. by rewrite (cr_stacks _ _ _ _ _ _ Hcr).
  - apply (map_gone _ _ t name); [done |]. intros y. rewrite (fr_name _ _ _ Hf). unfold s2. cbn. by rewrite (cr_names _ _ _ _ _ _ Hcr).
  - apply set_eq. intros b. rewrite (fr_heap _ _ _ Hf). unfold s2. cbn. rewrite (cr_heap _ _ _ _ _ _ Hcr), (cr_stacks _ _ _ _ _ _ Hcr).
    rewrite !elem_of_union, !elem_of_singleton. split.
    + intros [Hb H]. destruct (H t) as [H1 H2]; [by left |]. rewrite lookup_insert_eq in H2. destruct Hb as [-> | [-> | Hb]]; [done | congruence | done].
    + intros Hb. split; [tauto |]. intros y -> %list_elem_of_singleton. rewrite lookup_insert_eq. split; congruence.
  - rewrite (ow_deleted _ Ho3), E3. done.
  - rewrite (fr_count _ _ _ Hf). unfold s2. cbn. rewrite (f_tasks _ _ Hf3), (f_tasks _ _ (mv_frame _ _ _ _ Hmv)), (cr_count _ _ _ _ _ _ Hcr). unfold zlen. cbn. lia.
  - intros l. destruct (decide (l = xTasksWaitingTermination)) as [-> | Hl]; [by rewrite E3, El |].
    rewrite Hother by done. unfold s2. cbn. rewrite El3, (mv_lists _ _ _ _ Hmv), decide_False, (cr_lists _ _ _ _ _ _ Hcr) by done.
    by apply remove_item_added.
Qed.

(** * Every call keeps the system in order *)

Definition in_order_state (s : control) : Prop := steady (kern s) /\ owned s.

Inductive task_call :=
  | CreateTask (m : memory) (pcName : list Z) (uxPriority xCoreID : Z)
  | DeleteTask (h : option Z)
  | DelayTask (n : Z)
  | SuspendTask (h : option Z)
  | ResumeTask (t : Z)
  | ResumeTaskFromISR (t : Z)
  | SetPriority (h : option Z) (p : Z)
  | CollectTasks.

Definition run_call (c : task_call) : C unit :=
  match c with
  | CreateTask m n p core => create_in m n p core;; mret tt
  | DeleteTask h => vTaskDelete h
  | DelayTask n => on_kern (vTaskDelay n)
  | SuspendTask h => on_kern (vTaskSuspend h;; mret tt)
  | ResumeTask t => on_kern (vTaskResume t)
  | ResumeTaskFromISR t => on_kern (xTaskResumeFromISR t;; mret tt)
  | SetPriority h p => on_kern (vTaskPrioritySet h p)
  | CollectTasks => prvCheckTasksWaitingTermination
  end.

(** A handle of a task that is not deleted. *)
Definition alive (k : kernel) (h : option Z) : Prop :=
  exists t c, prvGetTCBFromHandle h k = Ret (t, k) /\ tcbs k !! t = Some c /\ t ∉ klists k xTasksWaitingTermination.

(** The assertions of the calls and what a caller owes them; no running task is
    collected (see [self_delete_race]). *)
Definition legal (c : task_call) (s : control) : Prop :=
  let k := kern s in
  match c with
  | CreateTask m n p core =>
      (malloc_stack m = None \/
       exists a, malloc_stack m = Some a /\ a ∉ heap s /\
         (malloc_tcb m = None \/ exists t, malloc_tcb m = Some t /\ t ∉ heap s /\ t <> a)) /\
      res_ok (task_name n) = true /\ 0 <= p /\ affinity_ok k core /\ Z.of_nat (size (tcbs k)) + 1 < 2 ^ 32
  | DeleteTask h => alive k h /\ uxSchedulerSuspended k (xPortGetCoreID k) = 0
  | DelayTask n => (exists t, runs k t) /\ uxSchedulerSuspended k (xPortGetCoreID k) = 0 /\ 0 <= n < portMAX_DELAY
  | SuspendTask h => alive k h /\ uxSchedulerSuspended k (xPortGetCoreID k) = 0 /\ xSchedulerRunning k = true
  | ResumeTask t | ResumeTaskFromISR t => alive k (Some t)
  | SetPriority h p => alive k h /\ p < configMAX_PRIORITIES
  | CollectTasks => forall t core, t ∈ klists k xTasksWaitingTermination -> frees_here k t = true -> pxCurrentTCB k core <> Some t
  end.

Lemma owned_keeps h s k' : in_order_state s -> is_Some (tcbs (kern s) !! h) -> h ∉ klists (kern s) xTasksWaitingTermination ->
  keeps h (kern s) k' -> in_order_state (set_kern k' s).
Proof.
  intros [Hs Ho] Hh Hnin [Hs' Hy Hh' Hal Hn]. split; [done |].
  pose proof (kwf_lists _ (st_kwf _ Hs)) as Hk. pose proof (kwf_lists _ (st_kwf _ Hs')) as Hk'.
  assert (forall y, is_Some (tcbs k' !! y) <-> is_Some (tcbs (kern s) !! y)) as Hdom.
  { intros y. destruct (decide (y = h)) as [-> | Hne]; [done | by rewrite Hy]. }
  assert (size (tcbs k') = size (tcbs (kern s))) as Hsz.
  { rewrite <- !(size_dom (D := gset Z)). f_equal. apply set_eq. intros y. rewrite !elem_of_dom. apply Hdom. }
  assert (klists k' xTasksWaitingTermination ≡ₚ klists (kern s) xTasksWaitingTermination) as Hp.
  { apply NoDup_Permutation; [apply Hk' | apply Hk |]. intros y. destruct (decide (y = h)) as [-> | Hne]; [done |].
    rewrite (lw_in _ Hk), (lw_in _ Hk'). by rewrite Hy. }
  destruct Ho. split; cbn; try done.
  - intros y. by rewrite Hdom.
  - rewrite ow_deleted0. unfold zlen. by rewrite Hp.
  - by rewrite Hn, Hsz.
  - by rewrite Hsz.
  - intros y c Hc Hg. destruct (decide (y = h)) as [-> | Hne]; [| rewrite Hy in Hc by done; by apply (ow_event0 y)].
    destruct Hal. apply (lw_in _ Hk'). by exists c.
Qed.

Lemma kernel_call_ok {A} (m : K A) h s r k' : in_order_state s -> is_Some (tcbs (kern s) !! h) -> h ∉ klists (kern s) xTasksWaitingTermination ->
  m (kern s) = Ret (r, k') -> keeps h (kern s) k' -> exists s', on_kern m s = Ret (r, s') /\ in_order_state s'.
Proof.
  intros Hs Hh Hnin Hr Hk. exists (set_kern k' s). split; [unfold on_kern; by rewrite Hr | by eapply owned_keeps].
Qed.

Lemma delete_ok h s : in_order_state s -> legal (DeleteTask h) s -> exists s', vTaskDelete h s = Ret (tt, s') /\ in_order_state s'.
Proof.
  intros [Hs Ho] [(t & c & Hh & Ht & Hnin) Hsu].
  destruct (vTaskDelete_section_run h t c s Hs Ho Hh Ht Hnin) as (k1 & Hm & Hr & Hs1 & Ho1).
  unfold vTaskDelete. erewrite run_bind by exact Hr. set (s1 := mkControl k1 _ _ _ _ _) in *.
  assert (exists k2, vTaskDelete_end t k1 = Ret (tt, k2) /\ steady k2 /\ same_tasks k1 k2 /\ uxCurrentNumberOfTasks k2 = uxCurrentNumberOfTasks k1)
    as (k2 & Hr2 & Hs2 & Hst & Hn).
  { unfold vTaskDelete_end. erewrite run_bind by done. cbv zeta. pose proof (mv_frame _ _ _ _ Hm) as Hf.
    rewrite (f_suspended _ _ Hf), (f_core _ _ Hf), Hsu. destruct (xSchedulerRunning k1); cbn [when]; [| by exists k1].
    assert (forall core, steady (set_yields (core :: yields k1) k1)) as Hy
      by (intros core; apply (only_yields_steady k1); [apply only_yields_add | done]).
    destruct (bool_decide (pxCurrentTCB k1 _ = Some t)); [| destruct (bool_decide _)].
    - erewrite run_bind by done. eexists. split_and!; [done | apply Hy | done | done].
    - eexists. split_and!; [done | apply Hy | done | done].
    - destruct (reset_unblock_run k1 (st_kwf k1 Hs1)) as (k2 & Hr2 & Hst & _ & Hti & Hf2). exists k2. split_and!; [done | | done | apply Hf2].
      apply (same_tasks_steady k1); [done | done | by apply Hti, Hs1]. }
  exists (set_kern k2 s1). split; [unfold on_kern; cbn; by rewrite Hr2 |]. split; [done |]. by apply owned_same.
Qed.

Lemma create_ok m n p core s : in_order_state s -> legal (CreateTask m n p core) s ->
  exists s', run_call (CreateTask m n p core) s = Ret (tt, s') /\ in_order_state s'.
Proof.
  intros [Hs Ho] (Hmem & Hname & Hp & Haff & Hsz). destruct m as [ms mt g]. cbn [malloc_stack malloc_tcb garbage] in *.
  destruct (task_name n) as [name | e] eqn:En; [| done].
  unfold run_call, create_in. cbn [malloc_stack malloc_tcb garbage].
  destruct Hmem as [-> | (a & -> & Ha & [-> | (t & -> & Ht & Hne)])].
  - exists s. split; [| done]. done.
  - exists (set_heap (({[a]} ∪ heap s) ∖ {[a]}) (set_heap ({[a]} ∪ heap s) s)). split.
    + rewrite run_assoc. unfold xTaskCreatePinnedToCore. rewrite run_assoc. rewrite (run_bind _ _ _ _ _ (pvPortMalloc_run a s)). cbv beta iota.
      rewrite run_assoc. erewrite run_bind by done. cbv beta iota. rewrite run_assoc. erewrite run_bind by (apply vPortFree_run; cbn; set_solver +). done.
    + split; [done |]. assert (({[a]} ∪ heap s) ∖ {[a]} = heap s) as E by set_solver +Ha. destruct Ho. split; cbn; try done. by rewrite E.
  - destruct (xTaskCreatePinnedToCore_run g n name p core t a s (steady_made s Hs Ho)) as (s' & core' & Hr & Hm' & Hcr & _ & _ & Hcur & _); try done.
    exists s'. split; [rewrite run_assoc; by erewrite run_bind by exact Hr |]. split; [| apply Hm'].
    destruct Hm' as [L P Q T _ Cu _]. split; try done. apply lists_kwf; [done |]. intros x Hx.
    destruct (k_current _ (st_kwf _ Hs) x Hx) as (y & cy & Hy & _).
    assert (is_Some (pxCurrentTCB (kern s') x)) as (z & Hz) by (destruct (Hcur x) as [-> | [_ ->]]; by eexists).
    destruct (Cu x z Hx Hz) as (cz & Hcz). by exists z, cz.
Qed.

(** Delayed tasks depend on the clock, the two lists and the wake times in them. *)
Lemma timed_on k k' : timed k -> xTickCount k' = xTickCount k -> xNextTaskUnblockTime k' = xNextTaskUnblockTime k ->
  delayed_is_1 k' = delayed_is_1 k -> (forall m, timer_list k m -> klists k' m = klists k m) ->
  (forall m y, timer_list k m -> y ∈ klists k m -> values generic_item k' y = values generic_item k y) -> timed k'.
Proof.
  intros [] E1 E2 E3 El Ev.
  assert (pxDelayedTaskList k' = pxDelayedTaskList k /\ pxOverflowDelayedTaskList k' = pxOverflowDelayedTaskList k) as [Ed Eo]
    by (unfold pxDelayedTaskList, pxOverflowDelayedTaskList; by rewrite E3).
  pose proof (El _ (or_introl eq_refl)) as L1. pose proof (El _ (or_intror eq_refl)) as L2.
  pose proof (fun y => Ev _ y (or_introl eq_refl)) as V1. pose proof (fun y => Ev _ y (or_intror eq_refl)) as V2.
  split; rewrite ?Ed, ?Eo, ?E1, ?E2, ?L1, ?L2; auto.
  - intros y Hy. rewrite V1 by done. auto.
  - intros y Hy. rewrite V2 by done. auto.
  - apply (in_order_ext (values generic_item k)); [intros y Hy; by rewrite V1 | done].
  - apply (in_order_ext (values generic_item k)); [intros y Hy; by rewrite V2 | done].
  - intros y Hy. rewrite V1 by done. auto.
Qed.

Lemma collect_ok s : in_order_state s -> legal CollectTasks s -> exists s', prvCheckTasksWaitingTermination s = Ret (tt, s') /\ in_order_state s'.
Proof.
  intros [Hs Ho] Hsafe. destruct (check_run s (kwf_lists _ (st_kwf _ Hs)) Ho) as (ts & rest & s' & Hr & Hk' & Ho' & E & E' & Hf & Hc & Hm & Hts & _).
  exists s'. split; [done |]. split; [| done].
  assert (forall t c, tcbs (kern s') !! t = Some c -> tcbs (kern s) !! t = Some c) as Hsub
    by (intros t c; rewrite (fr_tcb _ _ _ Hf); by destruct (decide _)).
  split.
  - apply lists_kwf; [done |]. intros core Hcore. rewrite (fr_current _ _ _ Hf).
    destruct (k_current _ (st_kwf _ Hs) core Hcore) as (t & c & Ht & Hct). exists t, c. split; [done |].
    rewrite (fr_tcb _ _ _ Hf), decide_False; [done |]. intros Hin. apply (Hsafe t core); [rewrite E; set_solver | by apply Hts | done].
  - intros t c Htc. apply (st_placed _ Hs t). by apply Hsub.
  - intros l t Hl. rewrite Hm by (intros ->; done). intros Hin (c & p & Htc & Hg). apply (st_quiet _ Hs l t Hl Hin). exists c, p. auto.
  - destruct (fr_clock _ _ _ Hf) as (E1 & E2 & E3). apply (timed_on (kern s)); try done; [apply Hs | |].
    + intros m Htm. apply Hm. intros ->. by apply (not_timer (kern s) xTasksWaitingTermination).
    + intros m y Htm Hy. unfold values. rewrite (fr_tcb _ _ _ Hf), decide_False; [done |]. intros Hin.
      assert (y ∈ klists (kern s) xTasksWaitingTermination) as Hy' by (rewrite E; set_solver +Hin).
      apply (k_in _ (st_kwf _ Hs)) in Hy as (c & Hct & Eg), Hy' as (c' & Hct' & Eg'). rewrite Hct in Hct'. injection Hct' as <-.
      assert (kind_of m = generic_item) as Ek by (destruct Htm as [-> | ->]; [apply delayed_kind | apply overflow_kind]).
      rewrite Ek in Eg. cbn in Eg, Eg'. rewrite Eg in Eg'. injection Eg' as ->. by apply (not_timer (kern s) xTasksWaitingTermination).
Qed.

(** C11. Task control is memory-safe and keeps the scheduler's structures in order.  From a state in
    which they are, every legal call on tasks with a live handle - creation with or without memory,
    deletion, delay, suspension, resumption also from an interrupt, a change of priority, and the idle
    task's collection - returns, without a failed assertion, an access to freed memory or a free of
    what is not allocated, and in a state in which they are again.  Two conditions are not of the
    caller's making.  A collection is legal only while no task that it frees still runs on a core,
    which the code does not ensure ([self_delete_race] runs into it).  And a task without affinity may
    be created or exist only where the read of pxCurrentTCB[tskNO_AFFINITY], which
    taskYIELD_OTHER_CORE makes outside the array, returns ([stray_read]); pinned tasks need nothing. *)
Theorem control_keeps_order c s : in_order_state s -> legal c s ->
  exists s', run_call c s = Ret (tt, s') /\ in_order_state s'.
Proof.
  intros Hs Hl. destruct c as [m n p core | h | n | h | t | t | h p |].
  - by apply create_ok.
  - by apply delete_ok.
  - destruct Hl as ((t & Hcur & Hr) & Hsu & Hn). pose proof Hr as (c & p & Hc & Hg). destruct Hs as [Hs Ho].
    destruct (vTaskDelay_keeps (kern s) t c n Hs Hcur Hc Hr Hsu Hn) as (k' & Hrun' & Hk).
    apply (kernel_call_ok (vTaskDelay n) t s tt k'); [done | by eexists | | done | done].
    apply (not_in_list _ t c); [apply Hs | done | cbn; congruence].
  - destruct Hl as ((t & c & Hh & Hc & Hnin) & Hsu & Hrun).
    destruct (vTaskSuspend_keeps (kern s) h t c (proj1 Hs) Hrun Hh Hc Hsu) as (r & k' & Hr & Hk).
    apply (kernel_call_ok (vTaskSuspend h;; mret tt) t s tt k'); [done | by eexists | done | by erewrite run_bind by exact Hr | done].
  - destruct Hl as (t' & c & [= <-] & Hc & Hnin). destruct (vTaskResume_keeps (kern s) t c (proj1 Hs) Hc Hnin) as (k' & Hr & Hk).
    apply (kernel_call_ok (vTaskResume t) t s tt k'); [done | by eexists | done..].
  - destruct Hl as (t' & c & [= <-] & Hc & Hnin). destruct (xTaskResumeFromISR_keeps (kern s) t c (proj1 Hs) Hc Hnin) as (b & k' & Hr & Hk).
    apply (kernel_call_ok (xTaskResumeFromISR t;; mret tt) t s tt k'); [done | by eexists | done | by erewrite run_bind by exact Hr | done].
  - destruct Hl as [(t & c & Hh & Hc & Hnin) Hp]. destruct (vTaskPrioritySet_keeps (kern s) h t c p (proj1 Hs) Hh Hc Hnin Hp) as (k' & Hr & Hk).
    apply (kernel_call_ok (vTaskPrioritySet h p) t s tt k'); [done | by eexists | done..].
  - by apply collect_ok.
Qed.

(** * Concrete systems *)

(** A task changes its affinity. *)
Lemma affinity_steady t c core k : steady k -> tcbs k !! t = Some c -> affinity_ok k core ->
  steady (set_tcbs (<[t := mkTCB (xGenericListItem c) (xEventListItem c) (uxPriority c) core (uxBasePriority c) (uxMutexesHeld c)]> (tcbs k)) k).
Proof.
  intros [Hk Hp Hq Hti] Ht Hcore. set (c' := mkTCB _ _ _ core _ _). set (k' := set_tcbs _ k).
  assert (forall y, tcbs k' !! y = if decide (y = t) then Some c' else tcbs k !! y) as Hy
    by (intros y; unfold k'; cbn; destruct (decide (y = t)) as [-> |]; [by rewrite lookup_insert_eq | by rewrite lookup_insert_ne]).
  assert (forall y i l, (exists x, tcbs k' !! y = Some x /\ container (item_of_kind i x) = Some l) <->
    (exists x, tcbs k !! y = Some x /\ container (item_of_kind i x) = Some l)) as Hc.
  { intros y i l. rewrite Hy. destruct (decide (y = t)) as [-> |]; [| done]. rewrite Ht. split; intros (x & [= <-] & E); eexists; (split; [done |]); by destruct i. }
  assert (forall y, is_ready k' y <-> is_ready k y) as Hr.
  { intros y. unfold is_ready. split; intros (x & p & H1 & H2);
      [destruct (proj1 (Hc y generic_item (pxReadyTasksLists p))) as (z & ? & ?) | destruct (proj2 (Hc y generic_item (pxReadyTasksLists p))) as (z & ? & ?)];
      eauto. }
  split.
  - destruct Hk. split; try done.
    + intros l y. rewrite Hc. apply k_in.
    + intros y x i l H1 H2. destruct (proj1 (Hc y i l)) as (z & Hz & E); [by exists x |]. by apply (k_kind y z).
    + intros co Hco. destruct (k_current co Hco) as (y & z & H1 & H2). exists y. rewrite Hy. destruct (decide (y = t)); eauto.
    + intros y x. rewrite Hy. destruct (decide (y = t)) as [-> |]; [by intros [= <-] | apply k_affinity].
  - intros y x. rewrite Hy. destruct (decide (y = t)) as [-> |]; [intros [= <-]; by apply (Hp t c) | apply Hp].
  - intros l y Hl Hin. rewrite Hr. by apply (Hq l y Hl).
  - apply (timed_same k); try done. intros y. unfold values. rewrite Hy. destruct (decide (y = t)) as [-> |]; [by rewrite Ht | done].
Qed.

(** The two tasks with their memory; the first has the affinity [core]. *)
Definition two_control (core : Z) : control :=
  mkControl (set_tcbs (<[1 := ready_tcb core 0]> (tcbs (two_tasks 0 ∅ ∅))) (set_tick 0 (two_tasks 0 ∅ ∅)))
    0 2 ∅ (<[1 := 101]> {[2 := 102]}) {[1; 2; 101; 102]}.

Lemma two_control_ok core : core = 0 \/ core = 1 \/ core = tskNO_AFFINITY -> in_order_state (two_control core).
Proof.
  intros Hcore. split.
  - exact (affinity_steady 1 (ready_tcb 0 0) core _ (two_tasks_steady 0 ∅ ∅ ltac:(lia)) (two_tasks_1 0 ∅ ∅) ltac:(unfold affinity_ok; cbn; tauto)).
  - assert (forall y b, pxStack (two_control core) !! y = Some b -> y = 1 /\ b = 101 \/ y = 2 /\ b = 102) as Hst.
    { intros y b. cbn. destruct (decide (y = 1)) as [-> |]; [rewrite lookup_insert_eq; intros [= <-]; by left |].
      rewrite lookup_insert_ne by done. intros [-> <-]%lookup_singleton_Some. by right. }
    assert (size (tcbs (kern (two_control core))) = 2%nat) as Hsz by reflexivity.
    split; cbn -[tcbs size]; rewrite ?Hsz; try done.
    + intros y. cbn. destruct (decide (y = 1)) as [-> |]; [rewrite !lookup_insert_eq; by split; eexists |].
      rewrite !lookup_insert_ne by done. destruct (decide (y = 2)) as [-> |]; [rewrite !lookup_singleton_eq; by split; eexists |].
      by rewrite !lookup_singleton_ne.
    + intros y b [[-> ->] | [-> ->]]%Hst; set_solver +.
    + intros y b y' b' [[-> ->] | [-> ->]]%Hst [[-> ->] | [-> ->]]%Hst; done.
    + intros y c Hc. cbn in Hc. destruct (decide (y = 1)) as [-> |]; [rewrite lookup_insert_eq in Hc; by injection Hc as <- |].
      rewrite !lookup_insert_ne in Hc by done. by apply lookup_singleton_Some in Hc as [_ <-].
Qed.

(** Memory after a reset: no task, empty lists. *)
Definition reset_control : control :=
  mkControl (mkKernel ∅ (fun _ => []) true (fun _ => None) 0 (fun _ => 0) false 0 0 0 0 portMAX_DELAY (fun _ => false) [] ∅ ∅ true) 0 0 ∅ ∅ ∅.

Lemma reset_made : made reset_control.
Proof.
  assert (forall (t : Z) l, t ∈ klists (kern reset_control) l -> False) as Hn by (intros t l Hin; by apply elem_of_nil in Hin).
  split; try done.
  - split; try done; [| intros; constructor | by left]. intros l t. split; [by intros ?%Hn | by intros (c & ? & _)].
  - intros l t _ ?%Hn. done.
  - split; try done; intros t ?%Hn; done.
  - split; try done. by split; intros [? ?].
Qed.

Lemma scheduler_boot_witness : exists s',
  vTaskStartScheduler (mkMemory (Some 1) (Some 2) 0) (mkMemory (Some 3) (Some 4) 0) (mkMemory (Some 5) (Some 6) 0) reset_control = Ret (tt, s') /\
  kwf (kern s') /\ is_ready (kern s') 2.
Proof.
  destruct (scheduler_boot reset_control 1 2 0 3 4 0 5 6 0) as (s' & H & [Hk _ _ _] & _ & _ & _ & H2 & _).
  - apply reset_made.
  - reflexivity.
  - reflexivity.
  - intros core t _ H. discriminate H.
  - repeat constructor; set_solver.
  - intros x _. apply not_elem_of_empty.
  - vm_compute. reflexivity.
  - exists s'. auto.
Defined.

Lemma idle_reclaims_witness : exists s1 s2, vTaskDelete_section (Some 2) (two_control 0) = Ret (2, s1) /\
  idle_rounds 1 s1 = Ret (tt, s2) /\ klists (kern s2) xTasksWaitingTermination = [] /\ uxTasksDeleted s2 = 0.
Proof.
  destruct (two_control_ok 0) as [Hs Ho]; [by left |].
  destruct (vTaskDelete_section_run (Some 2) 2 (ready_tcb 1 0) (two_control 0) Hs Ho) as (k1 & Hm & Hr & Hs1 & Ho1); [reflexivity.. | |].
  { intros H. by apply elem_of_nil in H. }
  set (s1 := mkControl k1 _ _ _ _ _) in *.
  destruct (idle_reclaims s1 1) as [(s2 & H & _ & He & Hd & _) _].
  - apply kwf_lists, Hs1.
  - exact Ho1.
  - change (kern s1) with k1. rewrite (mv_lists _ _ _ _ Hm). reflexivity.
  - exists s1, s2. auto.
Defined.

Lemma self_delete_race_witness : exists s1 s2, vTaskDelete_section None (two_control tskNO_AFFINITY) = Ret (1, s1) /\
  (run_on 1;; prvCheckTasksWaitingTermination) s1 = Ret (tt, s2) /\ pxCurrentTCB (kern s2) 0 = Some 1 /\ 1 ∉ heap s2 /\ 101 ∉ heap s2 /\
  current_tcb (set_core 0 (kern s2)) = Fault NullPointer.
Proof.
  destruct (two_control_ok tskNO_AFFINITY) as [Hs Ho]; [by right; right |].
  destruct (self_delete_race (two_control tskNO_AFFINITY) 0 1 1 (ready_tcb tskNO_AFFINITY 0) 101 Hs Ho) as (s1 & s2 & H1 & H2 & H3 & H4 & _); [reflexivity.. |].
  destruct H4 as (H5 & H6 & H7); [reflexivity |]. exists s1, s2. split_and!; assumption.
Defined.

Lemma task_lifecycle_witness : exists s1 s2 s3, xTaskCreatePinnedToCore (Some 200) (Some 201) 0 IDLE 7 tskNO_AFFINITY (two_control 0) = Ret (Some 201, s1) /\
  vTaskDelete (Some 201) s1 = Ret (tt, s2) /\ prvCheckTasksWaitingTermination s2 = Ret (tt, s3) /\ heap s3 = {[1; 2; 101; 102]}.
Proof.
  destruct (two_control_ok 0) as [Hs Ho]; [by left |].
  destruct (task_lifecycle (two_control 0) 0 IDLE IDLE 7 tskNO_AFFINITY 201 200 Hs Ho) as
    (s1 & s2 & s3 & H1 & _ & _ & _ & H2 & _ & H3 & _ & _ & _ & H4 & _).
  - reflexivity.
  - set_solver.
  - set_solver.
  - lia.
  - reflexivity.
  - lia.
  - by right.
  - vm_compute. reflexivity.
  - reflexivity.
  - reflexivity.
  - exists s1, s2, s3. auto.
Defined.

Lemma control_keeps_order_witness : exists s1 s2, run_call (CreateTask (mkMemory (Some 200) (Some 201) 0) IDLE 7 tskNO_AFFINITY) (two_control 0) = Ret (tt, s1) /\
  in_order_state s1 /\ run_call (SetPriority (Some 1) 3) (two_control 0) = Ret (tt, s2) /\ in_order_state s2.
Proof.
  pose proof (two_control_ok 0 (or_introl eq_refl)) as Hs.
  destruct (control_keeps_order (CreateTask (mkMemory (Some 200) (Some 201) 0) IDLE 7 tskNO_AFFINITY) _ Hs) as (s1 & H1 & H2).
  { split; [right; exists 200; split; [done | split; [set_solver |]]; right; exists 201; split; [done | split; [set_solver | lia]] |].
    split; [reflexivity | split; [lia | split; [by right; right | vm_compute; reflexivity]]]. }
  destruct (control_keeps_order (SetPriority (Some 1) 3) _ Hs) as (s2 & H3 & H4).
  { split; [exists 1, (ready_tcb 0 0); split; [reflexivity | split; [reflexivity |]]; intros H; by apply elem_of_nil in H | reflexivity]. }
  exists s1, s2. auto.
Defined.
