(* ===== verification/FreeRtosQueue.v ===== *)
(** Queues, semaphores, mutexes and queue sets
    (src/ESP32/components/freertos/queue.c).  A call that may block is the
    sequence of its critical sections; other tasks, interrupts and the tick run
    between two of them. *)

From S2P Require Import Prelude Ring FreeRtosList FreeRtosTasks.

Definition queueSEND_TO_BACK : Z := 0.
Definition queueSEND_TO_FRONT : Z := 1.
Definition queueOVERWRITE : Z := 2.
Definition queueSEMAPHORE_QUEUE_ITEM_LENGTH : Z := 0.

Definition lift {A} (m : res A) : K A := fun k => match m with Ret a => Ret (a, k) | Fault e => Fault e end.

Definition get_queue (q : Z) : K Queue_t := k ← get; need NullPointer (queues k !! q).
Definition put_queue (q : Z) (Q : Queue_t) : K unit := modify (fun k => set_queues (<[q := Q]> (queues k)) k).

Definition with_messages n Q := mkQueue (pcHead_is_NULL Q) (tail_union Q) (pcWriteTo Q) (u_union Q) n (uxLength Q) (uxItemSize Q) (ucStaticallyAllocated Q) (pxQueueSetContainer Q) (storage Q).
Definition with_u v Q := mkQueue (pcHead_is_NULL Q) (tail_union Q) (pcWriteTo Q) v (uxMessagesWaiting Q) (uxLength Q) (uxItemSize Q) (ucStaticallyAllocated Q) (pxQueueSetContainer Q) (storage Q).
Definition with_tail v Q := mkQueue (pcHead_is_NULL Q) v (pcWriteTo Q) (u_union Q) (uxMessagesWaiting Q) (uxLength Q) (uxItemSize Q) (ucStaticallyAllocated Q) (pxQueueSetContainer Q) (storage Q).
Definition with_write w b Q := mkQueue (pcHead_is_NULL Q) (tail_union Q) w (u_union Q) (uxMessagesWaiting Q) (uxLength Q) (uxItemSize Q) (ucStaticallyAllocated Q) (pxQueueSetContainer Q) b.
Definition with_read r b Q := mkQueue (pcHead_is_NULL Q) (tail_union Q) (pcWriteTo Q) (pcReadFrom r) (uxMessagesWaiting Q) (uxLength Q) (uxItemSize Q) (ucStaticallyAllocated Q) (pxQueueSetContainer Q) b.
Definition with_container c Q := mkQueue (pcHead_is_NULL Q) (tail_union Q) (pcWriteTo Q) (u_union Q) (uxMessagesWaiting Q) (uxLength Q) (uxItemSize Q) (ucStaticallyAllocated Q) c (storage Q).

(** The members of the unions; a member that was not the last stored is not
    read by the code. *)
Definition pcTail_of (Q : Queue_t) : res Z := match tail_union Q with pcTail off => Ret off | _ => Fault UninitRead end.
Definition pxMutexHolder_of (Q : Queue_t) : res (option Z) := match tail_union Q with pxMutexHolder h => Ret h | _ => Fault UninitRead end.
Definition pcReadFrom_of (Q : Queue_t) : res Z := match u_union Q with pcReadFrom off => Ret off | _ => Fault UninitRead end.
Definition uxRecursiveCallCount_of (Q : Queue_t) : res Z := match u_union Q with uxRecursiveCallCount n => Ret n | _ => Fault UninitRead end.

(** * Data *)

(** The part of prvCopyDataToQueue that stores a non-empty item. *)
Definition copy_in (pvItemToQueue : list Z) (xPosition : Z) (Q : Queue_t) : res Queue_t :=
  item ← memcpy_from pvItemToQueue 0 (uxItemSize Q);
  tail ← pcTail_of Q;
  if xPosition =? queueSEND_TO_BACK then
    b ← memcpy_to (storage Q) (pcWriteTo Q) item;
    let w := pcWriteTo Q + uxItemSize Q in
    Ret (with_write (if tail <=? w then 0 else w) b Q)
  else
    r ← pcReadFrom_of Q;
    b ← memcpy_to (storage Q) r item;
    let r := r - uxItemSize Q in
    let Q := with_read (if r <? 0 then tail - uxItemSize Q else r) b Q in
    Ret (if (xPosition =? queueOVERWRITE) && (0 <? uxMessagesWaiting Q)
         then with_messages (wrap_u 32 (uxMessagesWaiting Q - 1)) Q else Q).

Definition prvCopyDataToQueue (pxQueue : Z) (pvItemToQueue : option (list Z)) (xPosition : Z) : K bool :=
  Q ← get_queue pxQueue;
  xReturn ← (if uxItemSize Q =? 0 then
      if pcHead_is_NULL Q then
        h ← lift (pxMutexHolder_of Q);
        r ← xTaskPriorityDisinherit h;
        Q ← get_queue pxQueue;
        put_queue pxQueue (with_tail (pxMutexHolder None) Q);;
        mret r
      else mret false
    else
      item ← need NullPointer pvItemToQueue;
      Q ← lift (copy_in item xPosition Q);
      put_queue pxQueue Q;;
      mret false);
  Q ← get_queue pxQueue;
  put_queue pxQueue (with_messages (wrap_u 32 (uxMessagesWaiting Q + 1)) Q);;
  mret xReturn.

(** The bytes copied to the caller, and the queue with its read position moved. *)
Definition copy_out (Q : Queue_t) : res (list Z * Queue_t) :=
  if uxItemSize Q =? 0 then Ret ([], Q) else
  r ← pcReadFrom_of Q;
  tail ← pcTail_of Q;
  let r := r + uxItemSize Q in
  let r := if tail <=? r then 0 else r in
  item ← memcpy_from (storage Q) r (uxItemSize Q);
  Ret (item, with_read r (storage Q) Q).

Definition prvCopyDataFromQueue (pxQueue : Z) : K (list Z) :=
  Q ← get_queue pxQueue;
  '(item, Q) ← lift (copy_out Q);
  put_queue pxQueue Q;;
  mret item.

Definition prvIsQueueEmpty (pxQueue : Z) : K bool := Q ← get_queue pxQueue; mret (uxMessagesWaiting Q =? 0).
Definition prvIsQueueFull (pxQueue : Z) : K bool := Q ← get_queue pxQueue; mret (uxMessagesWaiting Q =? uxLength Q).

(** * Creation *)

Definition wake_one (l : list_id) : K unit :=
  w ← get_list l;
  match w with
  | [] => mret tt
  | _ => sw ← xTaskRemoveFromEventList l; when sw portYIELD_WITHIN_API
  end.

Definition xQueueGenericReset (xQueue : Z) (xNewQueue : bool) : K bool :=
  Q ← get_queue xQueue;
  put_queue xQueue (mkQueue (pcHead_is_NULL Q) (pcTail (wrap_u 32 (uxLength Q * uxItemSize Q))) 0
    (pcReadFrom (wrap_u 32 ((uxLength Q - 1) * uxItemSize Q))) 0 (uxLength Q) (uxItemSize Q)
    (ucStaticallyAllocated Q) (pxQueueSetContainer Q) (storage Q));;
  (if xNewQueue then
     set_list (xTasksWaitingToSend xQueue) [];; set_list (xTasksWaitingToReceive xQueue) []
   else wake_one (xTasksWaitingToSend xQueue));;
  mret true.

(** The structure is at [pxNewQueue] and the storage has [n] bytes. *)
Definition prvInitialiseNewQueue (len size n : Z) (static : bool) (pxNewQueue : Z) : K unit :=
  put_queue pxNewQueue (mkQueue false (pcTail 0) 0 (pcReadFrom 0) 0 len size static None (replicate (Z.to_nat n) 0));;
  xQueueGenericReset pxNewQueue true;;
  Q ← get_queue pxNewQueue;
  put_queue pxNewQueue (with_container None Q).

Section creation.
(** pvPortMalloc, given the bytes of the storage (the structure's size is added
    to it): the address of the new block, or nothing. *)
Variable pvPortMalloc : Z -> option Z.

Definition xQueueGenericCreate (uxQueueLength uxItemSz : Z) : K (option Z) :=
  assert (0 <? uxQueueLength);;
  let xQueueSizeInBytes := if uxItemSz =? 0 then 0 else wrap_u 32 (uxQueueLength * uxItemSz) in
  match pvPortMalloc xQueueSizeInBytes with
  | None => mret None
  | Some pxNewQueue =>
      prvInitialiseNewQueue uxQueueLength uxItemSz xQueueSizeInBytes false pxNewQueue;;
      mret (Some pxNewQueue)
  end.

(** [storage_bytes]: the storage the caller gives, none for NULL. *)
Definition xQueueGenericCreateStatic (uxQueueLength uxItemSz : Z) (storage_bytes : option Z) (pxStaticQueue : option Z) : K (option Z) :=
  assert (0 <? uxQueueLength);;
  assert (bool_decide (is_Some pxStaticQueue));;
  assert (negb (bool_decide (is_Some storage_bytes) && (uxItemSz =? 0)));;
  assert (negb (negb (bool_decide (is_Some storage_bytes)) && negb (uxItemSz =? 0)));;
  match pxStaticQueue with
  | None => mret None
  | Some pxNewQueue =>
      prvInitialiseNewQueue uxQueueLength uxItemSz (default 0 storage_bytes) true pxNewQueue;;
      mret (Some pxNewQueue)
  end.
End creation.

(** * Queue sets *)

Definition le32 (v : Z) : list Z := [v mod 256; v / 256 mod 256; v / 65536 mod 256; v / 16777216 mod 256].
Definition of_le32 (l : list Z) : Z :=
  match l with [a; b; c; d] => a + 256 * b + 65536 * c + 16777216 * d | _ => 0 end.

Definition prvNotifyQueueSetContainer (pxQueue xCopyPosition : Z) : K bool :=
  Q ← get_queue pxQueue;
  set ← need AssertFailed (pxQueueSetContainer Q);
  S ← get_queue set;
  assert (uxMessagesWaiting S <? uxLength S);;
  xReturn ← prvCopyDataToQueue set (Some (le32 pxQueue)) xCopyPosition;
  w ← get_list (xTasksWaitingToReceive set);
  match w with
  | [] => mret xReturn
  | _ => sw ← xTaskRemoveFromEventList (xTasksWaitingToReceive set); mret (sw || xReturn)
  end.

Definition xQueueAddToSet (xQueueOrSemaphore xQueueSet : Z) : K bool :=
  Q ← get_queue xQueueOrSemaphore;
  if bool_decide (is_Some (pxQueueSetContainer Q)) then mret false
  else if negb (uxMessagesWaiting Q =? 0) then mret false
  else put_queue xQueueOrSemaphore (with_container (Some xQueueSet) Q);; mret true.

Definition xQueueRemoveFromSet (xQueueOrSemaphore xQueueSet : Z) : K bool :=
  Q ← get_queue xQueueOrSemaphore;
  if negb (bool_decide (pxQueueSetContainer Q = Some xQueueSet)) then mret false
  else if negb (uxMessagesWaiting Q =? 0) then mret false
  else put_queue xQueueOrSemaphore (with_container None Q);; mret true.

(** * Sending *)

(** The end of a critical section: the call returns, goes on to the second
    section, tries again, or has put its task on a wait list. *)
Inductive section_end (A : Type) :=
  | Returned (a : A)
  | NotYet (xTimeOut : TimeOut_t)
  | TryAgain (xTimeOut : TimeOut_t) (xTicksToWait : Z)
  | Blocked (xTimeOut : TimeOut_t) (xTicksToWait : Z).
Arguments Returned {A} a.
Arguments NotYet {A} xTimeOut.
Arguments TryAgain {A} xTimeOut xTicksToWait.
Arguments Blocked {A} xTimeOut xTicksToWait.

(** The common part of the two functions that post from a task. *)
Definition post_from_task (pxQueue : Z) (pvItemToQueue : option (list Z)) (xCopyPosition : Z) : K unit :=
  xYieldRequired ← prvCopyDataToQueue pxQueue pvItemToQueue xCopyPosition;
  Q ← get_queue pxQueue;
  if bool_decide (is_Some (pxQueueSetContainer Q)) then
    sw ← prvNotifyQueueSetContainer pxQueue xCopyPosition;
    when sw portYIELD_WITHIN_API
  else
    w ← get_list (xTasksWaitingToReceive pxQueue);
    match w with
    | [] => when xYieldRequired portYIELD_WITHIN_API
    | _ => wake_one (xTasksWaitingToReceive pxQueue)
    end.

(** xEntryTimeSet and xTimeOut. *)
Definition entry_time (set : option TimeOut_t) : K TimeOut_t :=
  match set with Some t => mret t | None => vTaskSetTimeOutState end.

Definition send_section (pxQueue : Z) (pvItemToQueue : option (list Z)) (xTicksToWait xCopyPosition : Z)
    (set : option TimeOut_t) : K (section_end bool) :=
  Q ← get_queue pxQueue;
  if (uxMessagesWaiting Q <? uxLength Q) || (xCopyPosition =? queueOVERWRITE) then
    post_from_task pxQueue pvItemToQueue xCopyPosition;; mret (Returned true)
  else if xTicksToWait =? 0 then mret (Returned false)
  else t ← entry_time set; mret (NotYet t).

Definition send_wait_section (pxQueue xTicksToWait : Z) (xTimeOut : TimeOut_t) : K (section_end bool) :=
  '(expired, xTimeOut, xTicksToWait) ← xTaskCheckForTimeOut xTimeOut xTicksToWait;
  if expired : bool then mret (Returned false) else
  full ← prvIsQueueFull pxQueue;
  if full : bool then
    vTaskPlaceOnEventList (xTasksWaitingToSend pxQueue) xTicksToWait;;
    portYIELD_WITHIN_API;;
    mret (Blocked xTimeOut xTicksToWait)
  else mret (TryAgain xTimeOut xTicksToWait).

Definition send_asserts (xQueue : Z) (pvItemToQueue : option (list Z)) (xCopyPosition : Z) : K unit :=
  Q ← get_queue xQueue;
  assert (negb (bool_decide (pvItemToQueue = None) && negb (uxItemSize Q =? 0)));;
  assert (negb ((xCopyPosition =? queueOVERWRITE) && negb (uxLength Q =? 1))).

Definition suspended_assert (xTicksToWait : Z) : K unit :=
  s ← xTaskGetSchedulerState_suspended; assert (negb (s && negb (xTicksToWait =? 0))).

Definition set_woken (sw : bool) (woken : option bool) : option bool :=
  match woken with None => None | Some b => Some (b || sw) end.

(** What an interrupt does after it posted. *)
Definition notify_from_isr (pxQueue xCopyPosition : Z) (woken : option bool) : K (option bool) :=
  Q ← get_queue pxQueue;
  if bool_decide (is_Some (pxQueueSetContainer Q)) then
    sw ← prvNotifyQueueSetContainer pxQueue xCopyPosition; mret (set_woken sw woken)
  else
    w ← get_list (xTasksWaitingToReceive pxQueue);
    match w with
    | [] => mret woken
    | _ => sw ← xTaskRemoveFromEventList (xTasksWaitingToReceive pxQueue); mret (set_woken sw woken)
    end.

Definition xQueueGenericSendFromISR (xQueue : Z) (pvItemToQueue : option (list Z)) (woken : option bool) (xCopyPosition : Z) : K (bool * option bool) :=
  send_asserts xQueue pvItemToQueue xCopyPosition;;
  Q ← get_queue xQueue;
  if (uxMessagesWaiting Q <? uxLength Q) || (xCopyPosition =? queueOVERWRITE) then
    prvCopyDataToQueue xQueue pvItemToQueue xCopyPosition;;
    woken ← notify_from_isr xQueue xCopyPosition woken;
    mret (true, woken)
  else mret (false, woken).

Definition xQueueGiveFromISR (xQueue : Z) (woken : option bool) : K (bool * option bool) :=
  Q ← get_queue xQueue;
  assert (uxItemSize Q =? 0);;
  if uxMessagesWaiting Q <? uxLength Q then
    put_queue xQueue (with_messages (wrap_u 32 (uxMessagesWaiting Q + 1)) Q);;
    woken ← notify_from_isr xQueue queueSEND_TO_BACK woken;
    mret (true, woken)
  else mret (false, woken).

(** * Receiving *)

Definition receive_section (pxQueue xTicksToWait : Z) (xJustPeeking : bool) (set : option TimeOut_t) :
    K (section_end (bool * list Z)) :=
  Q ← get_queue pxQueue;
  if 0 <? uxMessagesWaiting Q then
    let original := u_union Q in
    item ← prvCopyDataFromQueue pxQueue;
    Q ← get_queue pxQueue;
    (if xJustPeeking then
       put_queue pxQueue (with_u original Q);;
       wake_one (xTasksWaitingToReceive pxQueue)
     else
       put_queue pxQueue (with_messages (wrap_u 32 (uxMessagesWaiting Q - 1)) Q);;
       (if pcHead_is_NULL Q then
          h ← pvTaskIncrementMutexHeldCount;
          Q ← get_queue pxQueue;
          put_queue pxQueue (with_tail (pxMutexHolder h) Q)
        else mret tt);;
       wake_one (xTasksWaitingToSend pxQueue));;
    mret (Returned (true, item))
  else if xTicksToWait =? 0 then mret (Returned (false, []))
  else t ← entry_time set; mret (NotYet t).

Definition receive_wait_section (pxQueue xTicksToWait : Z) (xTimeOut : TimeOut_t) : K (section_end (bool * list Z)) :=
  '(expired, xTimeOut, xTicksToWait) ← xTaskCheckForTimeOut xTimeOut xTicksToWait;
  if expired : bool then mret (Returned (false, [])) else
  empty ← prvIsQueueEmpty pxQueue;
  if empty : bool then
    Q ← get_queue pxQueue;
    (if pcHead_is_NULL Q then h ← lift (pxMutexHolder_of Q); vTaskPriorityInherit h else mret tt);;
    vTaskPlaceOnEventList (xTasksWaitingToReceive pxQueue) xTicksToWait;;
    portYIELD_WITHIN_API;;
    mret (Blocked xTimeOut xTicksToWait)
  else mret (TryAgain xTimeOut xTicksToWait).

(** [pvBuffer]: whether the caller gives a buffer. *)
Definition buffer_assert (xQueue : Z) (pvBuffer : bool) : K unit :=
  Q ← get_queue xQueue; assert (negb (negb pvBuffer && negb (uxItemSize Q =? 0))).

Definition xQueueReceiveFromISR (xQueue : Z) (pvBuffer : bool) (woken : option bool) : K (bool * list Z * option bool) :=
  buffer_assert xQueue pvBuffer;;
  Q ← get_queue xQueue;
  if 0 <? uxMessagesWaiting Q then
    item ← prvCopyDataFromQueue xQueue;
    Q ← get_queue xQueue;
    put_queue xQueue (with_messages (wrap_u 32 (uxMessagesWaiting Q - 1)) Q);;
    w ← get_list (xTasksWaitingToSend xQueue);
    match w with
    | [] => mret (true, item, woken)
    | _ => sw ← xTaskRemoveFromEventList (xTasksWaitingToSend xQueue); mret (true, item, set_woken sw woken)
    end
  else mret (false, [], woken).

Definition xQueuePeekFromISR (xQueue : Z) (pvBuffer : bool) : K (bool * list Z) :=
  buffer_assert xQueue pvBuffer;;
  Q ← get_queue xQueue;
  assert (negb (uxItemSize Q =? 0));;
  if 0 <? uxMessagesWaiting Q then
    item ← prvCopyDataFromQueue xQueue;
    Q' ← get_queue xQueue;
    put_queue xQueue (with_u (u_union Q) Q');;
    mret (true, item)
  else mret (false, []).

(** * Observers *)

Definition uxQueueMessagesWaiting (xQueue : Z) : K Z := Q ← get_queue xQueue; mret (uxMessagesWaiting Q).
Definition uxQueueSpacesAvailable (xQueue : Z) : K Z := Q ← get_queue xQueue; mret (wrap_u 32 (uxLength Q - uxMessagesWaiting Q)).
Definition uxQueueMessagesWaitingFromISR (xQueue : Z) : K Z := Q ← get_queue xQueue; mret (uxMessagesWaiting Q).
Definition xQueueIsQueueEmptyFromISR (xQueue : Z) : K bool := Q ← get_queue xQueue; mret (uxMessagesWaiting Q =? 0).
Definition xQueueIsQueueFullFromISR (xQueue : Z) : K bool := Q ← get_queue xQueue; mret (uxMessagesWaiting Q =? uxLength Q).

Definition vQueueDelete (xQueue : Z) : K unit :=
  Q ← get_queue xQueue;
  when (negb (ucStaticallyAllocated Q)) (modify (fun k => set_queues (delete xQueue (queues k)) k)).

(** * Calls as sequences of sections *)

Inductive request :=
  | Send (pvItemToQueue : option (list Z)) (xCopyPosition : Z)
  | Receive (xJustPeeking : bool).
Inductive pc := AtTry | AtWait | AtYield.
Record call := mkCall { c_request : request; c_queue : Z; c_ticks : Z; c_timeout : option TimeOut_t; c_pc : pc }.

(** The entry of xQueueGenericSend and of xQueueGenericReceive. *)
Definition xQueueGenericSend (xQueue : Z) (pvItemToQueue : option (list Z)) (xTicksToWait xCopyPosition : Z) : K call :=
  send_asserts xQueue pvItemToQueue xCopyPosition;;
  suspended_assert xTicksToWait;;
  mret (mkCall (Send pvItemToQueue xCopyPosition) xQueue xTicksToWait None AtTry).
Definition xQueueGenericReceive (xQueue : Z) (pvBuffer : bool) (xTicksToWait : Z) (xJustPeeking : bool) : K call :=
  buffer_assert xQueue pvBuffer;;
  suspended_assert xTicksToWait;;
  mret (mkCall (Receive xJustPeeking) xQueue xTicksToWait None AtTry).

Definition after {A} (c : call) (e : section_end A) : A + call :=
  match e with
  | Returned a => inl a
  | NotYet t => inr (mkCall (c_request c) (c_queue c) (c_ticks c) (Some t) AtWait)
  | TryAgain t n => inr (mkCall (c_request c) (c_queue c) n (Some t) AtTry)
  | Blocked t n => inr (mkCall (c_request c) (c_queue c) n (Some t) AtYield)
  end.

(** One critical section of a call of the running task; after the yield the
    loop is at its head again. *)
Definition call_step (c : call) : K ((bool * list Z) + call) :=
  match c_request c, c_pc c with
  | Send item pos, AtWait =>
      t ← need UninitRead (c_timeout c);
      e ← send_wait_section (c_queue c) (c_ticks c) t;
      mret (match after c e with inl b => inl (b, []) | inr c => inr c end)
  | Send item pos, _ =>
      e ← send_section (c_queue c) item (c_ticks c) pos (c_timeout c);
      mret (match after c e with inl b => inl (b, []) | inr c => inr c end)
  | Receive peek, AtWait =>
      t ← need UninitRead (c_timeout c);
      e ← receive_wait_section (c_queue c) (c_ticks c) t; mret (after c e)
  | Receive peek, _ =>
      e ← receive_section (c_queue c) (c_ticks c) peek (c_timeout c); mret (after c e)
  end.

(** A call that does not wait is one section. *)
Definition send_now (xQueue : Z) (pvItemToQueue : option (list Z)) (xCopyPosition : Z) : K bool :=
  c ← xQueueGenericSend xQueue pvItemToQueue 0 xCopyPosition;
  r ← call_step c;
  match r with inl (b, _) => mret b | inr _ => throw Deadlock end.

(** * Mutexes and counting semaphores *)

Definition prvInitialiseMutex (pxNewQueue : option Z) : K unit :=
  match pxNewQueue with
  | None => mret tt
  | Some q =>
      Q ← get_queue q;
      put_queue q (mkQueue true (pxMutexHolder None) (pcWriteTo Q) (uxRecursiveCallCount 0) (uxMessagesWaiting Q)
        (uxLength Q) (uxItemSize Q) (ucStaticallyAllocated Q) (pxQueueSetContainer Q) (storage Q));;
      send_now q None queueSEND_TO_BACK;;
      mret tt
  end.

Definition xQueueCreateMutex (pvPortMalloc : Z -> option Z) : K (option Z) :=
  pxNewQueue ← xQueueGenericCreate pvPortMalloc 1 0; prvInitialiseMutex pxNewQueue;; mret pxNewQueue.
Definition xQueueCreateMutexStatic (pxStaticQueue : option Z) : K (option Z) :=
  pxNewQueue ← xQueueGenericCreateStatic 1 0 None pxStaticQueue; prvInitialiseMutex pxNewQueue;; mret pxNewQueue.

Definition xQueueGetMutexHolder (xSemaphore : Z) : K (option Z) :=
  Q ← get_queue xSemaphore;
  if pcHead_is_NULL Q then lift (pxMutexHolder_of Q) else mret None.

Definition add_call_count (xMutex n : Z) : K Z :=
  Q ← get_queue xMutex;
  m ← lift (uxRecursiveCallCount_of Q);
  put_queue xMutex (with_u (uxRecursiveCallCount (wrap_u 32 (m + n))) Q);;
  mret (wrap_u 32 (m + n)).

Definition xQueueGiveMutexRecursive (xMutex : Z) : K bool :=
  Q ← get_queue xMutex;
  h ← lift (pxMutexHolder_of Q);
  k ← get;
  if bool_decide (h = pxCurrentTCB k (xPortGetCoreID k)) then
    n ← add_call_count xMutex (-1);
    (if n =? 0 then send_now xMutex None queueSEND_TO_BACK;; mret tt else mret tt);;
    mret true
  else mret false.

(** Taking: the holder counts on; another task receives, and counts when that
    returns pdPASS. *)
Definition xQueueTakeMutexRecursive (xMutex xTicksToWait : Z) : K (bool + call) :=
  Q ← get_queue xMutex;
  h ← lift (pxMutexHolder_of Q);
  k ← get;
  if bool_decide (h = pxCurrentTCB k (xPortGetCoreID k)) then
    add_call_count xMutex 1;; mret (inl true)
  else c ← xQueueGenericReceive xMutex false xTicksToWait false; mret (inr c).
Definition take_recursive_end (xMutex : Z) (xReturn : bool) : K bool :=
  (if xReturn then add_call_count xMutex 1;; mret tt else mret tt);; mret xReturn.

(** A recursive take that finds the mutex free or held by its caller, to its end. *)
Definition take_recursive_now (xMutex xTicksToWait : Z) : K bool :=
  e ← xQueueTakeMutexRecursive xMutex xTicksToWait;
  match e with
  | inl b => mret b
  | inr c => r ← call_step c; match r with inl (b, _) => take_recursive_end xMutex b | inr _ => throw Deadlock end
  end.
Fixpoint repeatedly {A} (n : nat) (m : K A) : K (list A) :=
  match n with O => mret [] | S n => a ← m; l ← repeatedly n m; mret (a :: l) end.

Definition xQueueCreateCountingSemaphore (pvPortMalloc : Z -> option Z) (uxMaxCount uxInitialCount : Z) : K (option Z) :=
  assert (negb (uxMaxCount =? 0));;
  assert (uxInitialCount <=? uxMaxCount);;
  xHandle ← xQueueGenericCreate pvPortMalloc uxMaxCount queueSEMAPHORE_QUEUE_ITEM_LENGTH;
  match xHandle with
  | None => throw AssertFailed
  | Some q => Q ← get_queue q; put_queue q (with_messages uxInitialCount Q);; mret (Some q)
  end.
Definition xQueueCreateCountingSemaphoreStatic (uxMaxCount uxInitialCount : Z) (pxStaticQueue : option Z) : K (option Z) :=
  assert (negb (uxMaxCount =? 0));;
  assert (uxInitialCount <=? uxMaxCount);;
  xHandle ← xQueueGenericCreateStatic uxMaxCount queueSEMAPHORE_QUEUE_ITEM_LENGTH None pxStaticQueue;
  match xHandle with
  | None => mret None
  | Some q => Q ← get_queue q; put_queue q (with_messages uxInitialCount Q);; mret (Some q)
  end.

(** ** Selecting from a set *)

Definition xQueueCreateSet (pvPortMalloc : Z -> option Z) (uxEventQueueLength : Z) : K (option Z) :=
  xQueueGenericCreate pvPortMalloc uxEventQueueLength 4.
Definition xQueueSelectFromSet (xQueueSet xTicksToWait : Z) : K call :=
  xQueueGenericReceive xQueueSet true xTicksToWait false.
(** The handle received, NULL when nothing was. *)
Definition selected (r : bool * list Z) : Z := if fst r then of_le32 (snd r) else 0.
Definition xQueueSelectFromSetFromISR (xQueueSet : Z) : K Z :=
  '(r, item, _) ← xQueueReceiveFromISR xQueueSet true None; mret (selected (r, item)).

(** * The queue represented *)

(** The storage as a ring of bytes that starts behind the read position. *)
Record queue_rep (Q : Queue_t) (items : list (list Z)) : Prop := {
  q_size : 0 < uxLength Q < 2 ^ 32 /\ 0 <= uxItemSize Q /\ uxLength Q * uxItemSize Q < 2 ^ 32;
  q_count : uxMessagesWaiting Q = zlen items /\ zlen items <= uxLength Q;
  q_each b : b ∈ items -> zlen b = uxItemSize Q;
  q_bytes : 0 < uxItemSize Q -> exists r,
    let N := uxLength Q * uxItemSize Q in
    u_union Q = pcReadFrom r /\ tail_union Q = pcTail N /\ zlen (storage Q) = N /\
    0 <= r < N /\ (uxItemSize Q | r) /\ 0 <= pcWriteTo Q < N /\ (uxItemSize Q | pcWriteTo Q) /\
    (r + uxItemSize Q + zlen items * uxItemSize Q) mod N = pcWriteTo Q /\
    mjoin items = contents N (storage Q) (r + uxItemSize Q) (zlen items * uxItemSize Q) }.

(** A post on the list of items. *)
Definition post (xCopyPosition : Z) (item : list Z) (items : list (list Z)) : list (list Z) :=
  if xCopyPosition =? queueSEND_TO_BACK then items ++ [item]
  else if xCopyPosition =? queueOVERWRITE then [item] else item :: items.

(** What the queue stores of the memory it is given. *)
Definition stored (Q : Queue_t) (pvItemToQueue : option (list Z)) : list Z :=
  slice 0 (uxItemSize Q) (default [] pvItemToQueue).

(** The caller's side: enough memory, and overwriting only queues of length one
    that hold data (overwriting a semaphore would count beyond its length). *)
Definition post_ok (Q : Queue_t) (pvItemToQueue : option (list Z)) (xCopyPosition : Z) (items : list (list Z)) : Prop :=
  (0 < uxItemSize Q -> exists b, pvItemToQueue = Some b /\ uxItemSize Q <= zlen b) /\
  (xCopyPosition = queueSEND_TO_BACK \/ xCopyPosition = queueSEND_TO_FRONT \/ xCopyPosition = queueOVERWRITE) /\
  (if xCopyPosition =? queueOVERWRITE then uxLength Q = 1 /\ 0 < uxItemSize Q else zlen items < uxLength Q).

Lemma zlen_mjoin (items : list (list Z)) s : (forall b, b ∈ items -> zlen b = s) -> zlen (mjoin items) = zlen items * s.
Proof.
  induction items as [| b l IH]; intros H; [done |].
  change (mjoin (b :: l)) with (b ++ mjoin l). rewrite zlen_app, zlen_cons, IH, (H b) by set_solver. lia.
Qed.

(** A store of [src] at [off] keeps what starts behind it, as far as it does not
    come round. *)
Lemma contents_blit_after N (ram : list Z) off src n :
  0 < N -> zlen ram = N -> 0 <= n -> 0 <= off -> off + zlen src <= N -> n + zlen src <= N ->
  contents N (blit off src ram) (off + zlen src) n = contents N ram (off + zlen src) n.
Proof.
  intros HN Hl Hn Ho Hs Hr. apply contents_ext. intros i Hi. unfold ring_at.
  pose proof (zlen_nonneg src). pose proof (Z.mod_pos_bound (off + zlen src + i) N HN).
  rewrite blit_lookup_total by lia.
  destruct (Z.leb_spec off ((off + zlen src + i) mod N)); [| done].
  destruct (Z.ltb_spec ((off + zlen src + i) mod N) (off + zlen src)); [| done].
  exfalso. pose proof (Z.div_mod (off + zlen src + i) N ltac:(lia)).
  assert ((off + zlen src + i) / N = 0 \/ 1 <= (off + zlen src + i) / N \/ (off + zlen src + i) / N <= -1) as [E | [E | E]] by lia; nia.
Qed.

(** ** Storing *)

Lemma stored_len Q item : 0 <= uxItemSize Q -> (0 < uxItemSize Q -> exists b, item = Some b /\ uxItemSize Q <= zlen b) ->
  zlen (stored Q item) = uxItemSize Q.
Proof.
  intros H0 H. unfold stored. destruct (decide (uxItemSize Q = 0)) as [-> |]; [done |].
  destruct H as (b & -> & Hb); [lia |]. cbn. apply zlen_slice; lia.
Qed.

(** The count after prvCopyDataToQueue. *)
Lemma copy_in_back Q items b : queue_rep Q items -> 0 < uxItemSize Q -> uxItemSize Q <= zlen b -> zlen items < uxLength Q ->
  exists Q', copy_in b queueSEND_TO_BACK Q = Ret Q' /\ uxMessagesWaiting Q' = uxMessagesWaiting Q /\
    queue_rep (with_messages (zlen items + 1) Q') (items ++ [slice 0 (uxItemSize Q) b]) /\
    pcHead_is_NULL Q' = pcHead_is_NULL Q /\ pxQueueSetContainer Q' = pxQueueSetContainer Q /\ uxLength Q' = uxLength Q /\ uxItemSize Q' = uxItemSize Q.
Proof.
  intros [(HL & H0 & Hw) (Hn & Hnl) He Hb] Hs Hlen Hroom. destruct (Hb Hs) as (r & Hu & Ht & Hst & Hr & Hdr & Hwr & Hdw & Hmod & Hj).
  set (s := uxItemSize Q) in *. set (N := uxLength Q * s) in *. set (n := zlen items) in *.
  assert (0 <= n) by apply zlen_nonneg. assert (0 < N) by (unfold N; nia). assert (s | N) by (unfold N; apply Z.divide_factor_r).
  pose proof (divide_step _ _ s Hs Hdw H2 ltac:(lia)) as Hfit.
  pose proof (zlen_slice 0 s b ltac:(lia) ltac:(lia) ltac:(lia)) as Hsl.
  assert (zlen (items ++ [slice 0 s b]) = n + 1) as Hz by (rewrite zlen_app, zlen_cons; by fold n).
  unfold copy_in, pcTail_of. fold s. rewrite Ht, memcpy_from_Ret by lia. cbn [mbind res_bind].
  change (queueSEND_TO_BACK =? queueSEND_TO_BACK) with true. cbv iota.
  rewrite memcpy_to_Ret by (rewrite ?Hsl; lia). cbn [mbind res_bind].
  eexists. split; [done |]. split; [done |]. split; [| done].
  split; cbn -[zlen]; fold s; fold N.
  - done.
  - rewrite Hz. lia.
  - intros c [Hc | ->%list_elem_of_singleton]%elem_of_app; [by apply He | done].
  - intros _. exists r. rewrite zlen_blit by lia. rewrite Hz.
    assert ((r + s + (n + 1) * s) mod N = (pcWriteTo Q + s) mod N) as Em.
    { replace (r + s + (n + 1) * s) with ((r + s + n * s) + s) by lia.
      rewrite <- (Z.add_mod_idemp_l (r + s + n * s)) by lia. by rewrite Hmod. }
    split_and!; try done; try lia.
    + destruct (Z.leb_spec N (pcWriteTo Q + s)); lia.
    + destruct (Z.leb_spec N (pcWriteTo Q + s)); lia.
    + destruct (N <=? pcWriteTo Q + s); [apply Z.divide_0_r | by apply Z.divide_add_r].
    + rewrite Em. destruct (Z.leb_spec N (pcWriteTo Q + s)); [| apply Z.mod_small; lia].
      replace (pcWriteTo Q + s) with N by lia. by apply Z.mod_same; lia.
    + rewrite join_app. cbn [mjoin list_join]. rewrite app_nil_r, Hj.
      replace ((n + 1) * s) with (n * s + zlen (slice 0 s b)) by lia.
      rewrite contents_append; try done; try lia.
      * rewrite (Z.mod_small (pcWriteTo Q)) by lia. done.
      * rewrite Hsl. unfold N. nia.
Qed.

(** Storing in front: the ring then starts at the old read position. *)
Lemma copy_in_front Q items b pos : queue_rep Q items -> 0 < uxItemSize Q -> uxItemSize Q <= zlen b ->
  pos <> queueSEND_TO_BACK -> (if pos =? queueOVERWRITE then uxLength Q = 1 else zlen items < uxLength Q) ->
  exists Q', copy_in b pos Q = Ret Q' /\ uxMessagesWaiting Q' + 1 = zlen (post pos (slice 0 (uxItemSize Q) b) items) /\
    queue_rep (with_messages (uxMessagesWaiting Q' + 1) Q') (post pos (slice 0 (uxItemSize Q) b) items) /\
    pcHead_is_NULL Q' = pcHead_is_NULL Q /\ pxQueueSetContainer Q' = pxQueueSetContainer Q /\ uxLength Q' = uxLength Q /\ uxItemSize Q' = uxItemSize Q.
Proof.
  intros [(HL & H0 & Hw) (Hn & Hnl) He Hb] Hs Hlen Hpos Hroom. destruct (Hb Hs) as (r & Hu & Ht & Hst & Hr & Hdr & Hwr & Hdw & Hmod & Hj).
  set (s := uxItemSize Q) in *. set (N := uxLength Q * s) in *.
  assert (0 < N) by (unfold N; nia). assert (s | N) by (unfold N; apply Z.divide_factor_r).
  pose proof (divide_step _ _ s Hs Hdr H1 ltac:(lia)) as Hfit.
  pose proof (zlen_slice 0 s b ltac:(lia) ltac:(lia) ltac:(lia)) as Hsl.
  set (item := slice 0 s b) in *. set (new := post pos item items). set (r' := if r - s <? 0 then N - s else r - s).
  (* the items kept: none when one is overwritten *)
  assert (exists l, new = item :: l /\ (forall c, c ∈ l -> zlen c = s) /\ zlen l + 1 <= uxLength Q /\
    mjoin l = contents N (storage Q) (r + s) (zlen l * s) /\ (r + s + zlen l * s) mod N = pcWriteTo Q) as (l & El & Hl1 & Hl2 & Hl3 & Hl4).
  { unfold new, post. rewrite (proj2 (Z.eqb_neq _ _) Hpos). destruct (pos =? queueOVERWRITE).
    - exists []. split_and!; [done | set_solver +| rewrite zlen_nil; lia | done |].
      change (zlen []) with 0. rewrite Z.mul_0_l, Z.add_0_r, <- Hmod.
      assert (N = s) as -> by (unfold N; rewrite Hroom; lia).
      by rewrite Z.mod_add by lia.
    - exists items. split_and!; [done | done | lia | done | done]. }
  assert (copy_in b pos Q = Ret (let Q1 := with_read r' (blit r item (storage Q)) Q in
    if (pos =? queueOVERWRITE) && (0 <? uxMessagesWaiting Q1) then with_messages (wrap_u 32 (uxMessagesWaiting Q1 - 1)) Q1 else Q1)) as E.
  { unfold copy_in, pcTail_of, pcReadFrom_of. fold s. rewrite Ht, Hu, memcpy_from_Ret by lia. cbn [mbind res_bind].
    rewrite (proj2 (Z.eqb_neq _ _) Hpos). fold item. rewrite memcpy_to_Ret by (rewrite ?Hsl; lia). done. }
  rewrite E. eexists. split; [done |].
  set (Q1 := with_read r' (blit r item (storage Q)) Q).
  set (Q' := if (pos =? queueOVERWRITE) && _ then _ else _).
  assert (uxMessagesWaiting Q' + 1 = zlen new) as Em.
  { unfold Q', new, post. rewrite (proj2 (Z.eqb_neq _ _) Hpos). change (uxMessagesWaiting Q1) with (uxMessagesWaiting Q).
    pose proof (zlen_nonneg items). rewrite Hn. destruct (pos =? queueOVERWRITE); cbn [andb].
    - change (zlen [item]) with 1. destruct (Z.ltb_spec 0 (zlen items)); cbn; [rewrite wrap_u_small|]; lia.
    - cbn. rewrite zlen_cons. lia. }
  split; [done |]. rewrite Em.
  assert (forall n, with_messages n Q' = with_messages n Q1) as Ew by (intros n; unfold Q'; by destruct (_ && _)).
  assert ((Q' = Q1) \/ (exists m, Q' = with_messages m Q1)) as HQ by (unfold Q'; destruct (_ && _); eauto).
  split; [| destruct HQ as [-> | [m ->]]; done]. rewrite Ew, El in *. pose proof (zlen_nonneg l).
  assert ((r' + s) mod N = r) as Er.
  { unfold r'. destruct (Z.ltb_spec (r - s) 0).
    - replace (N - s + s) with (0 + 1 * N) by lia. rewrite Z.mod_add, Z.mod_0_l by lia.
      destruct (Z.eq_dec r 0); [lia |]. pose proof (divide_step 0 r s Hs (Z.divide_0_r s) Hdr ltac:(lia)). lia.
    - replace (r - s + s) with r by lia. apply Z.mod_small. lia. }
  assert (0 <= r' < N /\ (s | r')) as [Hr'1 Hr'2].
  { unfold r'. destruct (Z.ltb_spec (r - s) 0).
    - split; [| by apply Z.divide_sub_r]. pose proof (divide_step 0 N s Hs ltac:(apply Z.divide_0_r) H1 ltac:(lia)). lia.
    - split; [lia |]. by apply Z.divide_sub_r. }
  split; cbn -[zlen]; fold s; fold N.
  - done.
  - rewrite zlen_cons. split; lia.
  - intros c [-> | Hc]%elem_of_cons; auto.
  - intros _. exists r'. rewrite zlen_blit, zlen_cons by lia. split_and!; try done; try lia.
    + replace (r' + s + (1 + zlen l) * s) with ((r' + s) + (s + zlen l * s)) by lia.
      rewrite <- Z.add_mod_idemp_l, Er by lia. rewrite <- Hl4. f_equal. lia.
    + transitivity (item ++ mjoin l); [done |].
      rewrite <- (contents_mod N H _ (r' + s)), Er, Hl3.
      replace ((1 + zlen l) * s) with (zlen item + zlen l * s) by lia.
      rewrite contents_app, contents_blit_at by lia. f_equal.
      pose proof (contents_blit_after N (storage Q) r item (zlen l * s)) as Hc. rewrite Hsl in *.
      symmetry. apply Hc; try done; try lia. unfold N. nia.
Qed.

(** ** Reading *)

Lemma copy_out_rep Q items item rest : queue_rep Q items -> items = item :: rest ->
  exists Q', copy_out Q = Ret (item, Q') /\ uxMessagesWaiting Q' = uxMessagesWaiting Q /\
    queue_rep (with_messages (zlen rest) Q') rest /\ with_u (u_union Q) Q' = Q /\
    pcHead_is_NULL Q' = pcHead_is_NULL Q /\ pxQueueSetContainer Q' = pxQueueSetContainer Q /\
    tail_union Q' = tail_union Q /\ uxLength Q' = uxLength Q /\ uxItemSize Q' = uxItemSize Q.
Proof.
  intros [(HL & H0 & Hw) (Hn & Hnl) He Hb] ->. rewrite zlen_cons in *. pose proof (zlen_nonneg rest).
  assert (zlen item = uxItemSize Q) as Hit by (apply He; left).
  assert (forall b, b ∈ rest -> zlen b = uxItemSize Q) as Her by (intros b Hbr; apply He; by right).
  set (s := uxItemSize Q) in *. set (N := uxLength Q * s) in *. unfold copy_out. fold s.
  destruct (Z.eqb_spec s 0) as [E0 | E0].
  { apply (f_equal Z.to_nat) in E0 as E1. rewrite E0 in Hit. apply zlen_0_nil in Hit as ->. eexists. split; [done |].
    split; [done |]. split; [| by destruct Q].
    split; cbn -[zlen]; fold s; [done | lia | done | lia]. }
  destruct (Hb ltac:(lia)) as (r & Hu & Ht & Hst & Hr & Hdr & Hwr & Hdw & Hmod & Hj).
  assert (0 < N) by (unfold N; nia). assert (s | N) by (unfold N; apply Z.divide_factor_r).
  pose proof (divide_step _ _ s ltac:(lia) Hdr H2 ltac:(lia)) as Hfit.
  unfold pcReadFrom_of, pcTail_of. rewrite Hu, Ht. cbn [mbind res_bind].
  set (r' := if N <=? r + s then 0 else r + s).
  assert (0 <= r' < N /\ (s | r') /\ r' = (r + s) mod N) as (Hr' & Hdr' & Er').
  { unfold r'. destruct (Z.leb_spec N (r + s)).
    - replace (r + s) with N by lia. rewrite Z.mod_same by lia. split_and!; [lia | lia | apply Z.divide_0_r | done].
    - split_and!; [lia | lia | by apply Z.divide_add_r, Z.divide_refl | symmetry; apply Z.mod_small; lia]. }
  pose proof (divide_step _ _ s ltac:(lia) Hdr' H2 ltac:(lia)) as Hfit'.
  rewrite memcpy_from_Ret by lia. cbn [mbind res_bind].
  assert (mjoin (item :: rest) = item ++ mjoin rest) as Ej by done. rewrite Ej in Hj.
  replace ((1 + zlen rest) * s) with (s + zlen rest * s) in * by lia.
  rewrite contents_app in Hj by lia.
  apply app_inj_1 in Hj as [Hj1 Hj2]; [| pose proof (zlen_contents N (storage Q) (r + s) s ltac:(lia)); unfold zlen in *; lia].
  assert (slice r' s (storage Q) = item) as ->.
  { rewrite Hj1, <- (contents_mod N H1 _ (r + s)), <- Er'. symmetry. apply contents_slice; lia. }
  eexists. split; [done |]. split; [done |]. split; [| by destruct Q; cbn in *; subst].
  split; cbn -[zlen]; fold s; fold N; [done | lia | done |].
  intros _. exists r'. split_and!; try done; try lia.
  - rewrite <- Hmod, Er', <- Z.add_assoc, Z.add_mod_idemp_l by lia. f_equal; lia.
  - rewrite Hj2, Er'. rewrite <- (contents_mod N H1 _ (r + s + s)), <- (contents_mod N H1 _ ((r + s) mod N + s)).
    rewrite Z.add_mod_idemp_l; [done | lia].
Qed.

(** * The sections on the items *)

Lemma get_queue_run q Q k : queues k !! q = Some Q -> get_queue q k = Ret (Q, k).
Proof. intros H. unfold get_queue. erewrite run_bind by done. by rewrite H. Qed.

(** What every operation keeps of a queue. *)
Definition same_kind (Q Q' : Queue_t) : Prop :=
  pcHead_is_NULL Q' = pcHead_is_NULL Q /\ pxQueueSetContainer Q' = pxQueueSetContainer Q /\
  uxLength Q' = uxLength Q /\ uxItemSize Q' = uxItemSize Q.

Definition with_queue (q : Z) (Q : Queue_t) (k : kernel) : kernel := set_queues (<[q := Q]> (queues k)) k.

Lemma with_queue_twice q Q Q' k : with_queue q Q' (with_queue q Q k) = with_queue q Q' k.
Proof. unfold with_queue. cbn. by rewrite insert_insert_eq. Qed.
Lemma with_queue_kwf q Q k : kwf k -> kwf (with_queue q Q k).
Proof. intros []. by split. Qed.
Lemma with_queue_lookup q Q k : queues (with_queue q Q k) !! q = Some Q.
Proof. unfold with_queue. cbn. by rewrite lookup_insert_eq. Qed.

Lemma prvCopyDataToQueue_run k q Q items item pos :
  queues k !! q = Some Q -> queue_rep Q items -> pcHead_is_NULL Q = false -> post_ok Q item pos items ->
  exists Q', prvCopyDataToQueue q item pos k = Ret (false, with_queue q Q' k) /\
    queue_rep Q' (post pos (stored Q item) items) /\ same_kind Q Q'.
Proof.
  intros Hq Hr Hm (Hi & Hp & Hroom). pose proof Hr as [(HL & H0 & Hw) (Hn & Hnl) He Hb].
  unfold prvCopyDataToQueue. erewrite run_bind by (by apply get_queue_run).
  destruct (Z.eqb_spec (uxItemSize Q) 0) as [E | E].
  - rewrite Hm. erewrite run_bind by done. erewrite run_bind by (by apply get_queue_run).
    exists (with_messages (wrap_u 32 (uxMessagesWaiting Q + 1)) Q). split; [done |]. split; [| done].
    destruct (Z.eqb_spec pos queueOVERWRITE) as [Ep | Ep]; [lia |].
    assert (stored Q item = []) as -> by (unfold stored; by rewrite E).
    pose proof (zlen_nonneg items).
    assert (zlen (post pos [] items) = zlen items + 1) as Hz.
    { unfold post. rewrite (proj2 (Z.eqb_neq _ _) Ep). destruct (pos =? queueSEND_TO_BACK); [rewrite zlen_app; change (zlen [@nil Z]) with 1 | rewrite zlen_cons]; lia. }
    rewrite wrap_u_small by lia.
    split; cbn -[zlen]; [done | lia | | lia]. intros b Hbp. rewrite E.
    assert (b = [] \/ b ∈ items) as [-> | Hbi]; [| done | rewrite <- E; by apply He].
    unfold post in Hbp. rewrite (proj2 (Z.eqb_neq _ _) Ep) in Hbp.
    destruct (pos =? queueSEND_TO_BACK); set_solver +Hbp.
  - destruct (Hi ltac:(lia)) as (b & -> & Hlen).
    change (need NullPointer (Some b)) with (mret b : K (list Z)).
    assert (exists Q1, copy_in b pos Q = Ret Q1 /\ uxMessagesWaiting Q1 + 1 = zlen (post pos (stored Q (Some b)) items) /\
      queue_rep (with_messages (uxMessagesWaiting Q1 + 1) Q1) (post pos (stored Q (Some b)) items) /\ same_kind Q Q1)
      as (Q1 & Hc & Hz & Hr1 & Hs1).
    { destruct Hp as [-> | Hp].
      - destruct (copy_in_back Q items b Hr) as (Q1 & Hc & Hm1 & Hr1 & Hs1); [lia | done | done |].
        exists Q1. rewrite Hm1, Hn. split_and!; try done. cbn. by rewrite zlen_app.
      - destruct (copy_in_front Q items b pos Hr) as (Q1 & Hc & Hm1 & Hr1 & Hs1); [lia | done | | |].
        + destruct Hp as [-> | ->]; done.
        + destruct (pos =? queueOVERWRITE); tauto.
        + by exists Q1. }
    erewrite run_bind; [| erewrite run_bind by done; erewrite run_bind by (unfold lift; by rewrite Hc); by erewrite run_bind by done].
    erewrite run_bind by (apply get_queue_run, with_queue_lookup).
    pose proof (q_count _ _ Hr1) as [Hc1 Hc2]. destruct Hs1 as (? & ? & HL1 & ?). cbn in Hc2. rewrite HL1 in Hc2.
    pose proof (zlen_nonneg (post pos (stored Q (Some b)) items)).
    exists (with_messages (uxMessagesWaiting Q1 + 1) Q1). split; [| done].
    rewrite wrap_u_small by lia. unfold put_queue, mbind, st_bind, modify, mret, st_ret.
    fold (with_queue q Q1 k). do 2 f_equal. apply with_queue_twice.
Qed.

Lemma prvCopyDataFromQueue_run k q Q item rest :
  queues k !! q = Some Q -> queue_rep Q (item :: rest) ->
  exists Q', prvCopyDataFromQueue q k = Ret (item, with_queue q Q' k) /\
    uxMessagesWaiting Q' = uxMessagesWaiting Q /\ queue_rep (with_messages (zlen rest) Q') rest /\
    with_u (u_union Q) Q' = Q /\ same_kind Q Q' /\ tail_union Q' = tail_union Q.
Proof.
  intros Hq Hr. destruct (copy_out_rep Q _ item rest Hr eq_refl) as (Q' & Hc & Hm & Hr' & Hu & ? & ? & ? & ? & ?).
  exists Q'. split; [| done].
  unfold prvCopyDataFromQueue. erewrite run_bind by (by apply get_queue_run).
  unfold lift. erewrite run_bind by (by rewrite Hc). done.
Qed.

(** Waking the first waiter, if there is one. *)
Record woken_one (l : list_id) (k k' : kernel) : Prop := {
  w_kwf : kwf k'; w_placed : placed k'; w_frame : frame k k';
  w_list : klists k' l = List.tl (klists k l);
  w_others m : wait_list m -> m <> l -> klists k' m = klists k m;
  w_tcbs y : y ∉ take 1 (klists k l) -> tcbs k' !! y = tcbs k !! y;
  w_quiet : quiet k -> quiet k';
  w_ready t rest : klists k l = t :: rest ->
    if uxSchedulerSuspended k (xPortGetCoreID k) =? 0 then is_ready k' t
    else t ∈ klists k' (xPendingReadyList (xPortGetCoreID k)) }.

Lemma w_tcbs_out l k k' y : woken_one l k k' -> y ∉ klists k l -> tcbs k' !! y = tcbs k !! y.
Proof.
  intros [] Hy. apply w_tcbs0. intros Hin. apply Hy. rewrite <- (take_drop 1 (klists k l)). apply elem_of_app. by left.
Qed.

Lemma woken_none l k : kwf k -> placed k -> klists k l = [] -> woken_one l k k.
Proof. intros Hk Hp E. split; try done. by rewrite E. by rewrite E. Qed.

Lemma woken_yields l k k' k'' : woken_one l k k' -> only_yields k' k'' -> woken_one l k k''.
Proof.
  intros [] Ho. pose proof (only_yields_kwf _ _ Ho w_kwf0). pose proof (only_yields_frame _ _ Ho).
  destruct Ho as (w & y & ->). split; try done. by etrans.
Qed.

Lemma remove_from_event_list_woken k l : kwf k -> placed k -> wait_list l -> klists k l <> [] ->
  exists b k', xTaskRemoveFromEventList l k = Ret (b, k') /\ woken_one l k k'.
Proof.
  intros Hk Hp Hl E. destruct (klists k l) as [| t rest] eqn:El; [done |].
  destruct (xTaskRemoveFromEventList_run k l t rest Hk Hp Hl El) as (b & k' & Hr & Hk' & Hp' & Hf & Hl' & Hm & Hy & Hw & Hq).
  exists b, k'. split; [done |]. split; try done.
  - by rewrite El.
  - intros y Hy'. apply Hy. intros ->. apply Hy'. rewrite El. left.
  - intros t' rest'. rewrite El. by intros [= <- <-].
Qed.

Lemma wake_one_run k l : kwf k -> placed k -> wait_list l -> exists k', wake_one l k = Ret (tt, k') /\ woken_one l k k'.
Proof.
  intros Hk Hp Hl. unfold wake_one, get_list. erewrite run_bind by done.
  destruct (klists k l) as [| t rest] eqn:E; [exists k; split; [done | by apply woken_none] |].
  destruct (remove_from_event_list_woken k l Hk Hp Hl) as (b & k' & Hr & Hw); [by rewrite E |].
  erewrite run_bind by done. unfold when, portYIELD_WITHIN_API. destruct b; [| by exists k'].
  erewrite run_bind by done. eexists. split; [done |]. eapply woken_yields; [done |].
  exists (xYieldPending k'), (xPortGetCoreID k' :: yields k'). by destruct k'.
Qed.

Lemma wait_list_receive q : wait_list (xTasksWaitingToReceive q).
Proof. done. Qed.
Lemma wait_list_send q : wait_list (xTasksWaitingToSend q).
Proof. done. Qed.
#[export] Hint Resolve wait_list_receive wait_list_send with_queue_kwf : wifi.

(** The two ends of a post. *)
Lemma post_from_task_run k q Q items item pos :
  kwf k -> placed k -> queues k !! q = Some Q -> queue_rep Q items -> pcHead_is_NULL Q = false ->
  pxQueueSetContainer Q = None -> post_ok Q item pos items ->
  exists Q' k', post_from_task q item pos k = Ret (tt, k') /\ queue_rep Q' (post pos (stored Q item) items) /\
    same_kind Q Q' /\ woken_one (xTasksWaitingToReceive q) (with_queue q Q' k) k'.
Proof.
  intros Hk Hp Hq Hr Hm Hc Hpo.
  destruct (prvCopyDataToQueue_run k q Q items item pos Hq Hr Hm Hpo) as (Q' & Hcp & Hr' & Hs).
  unfold post_from_task. erewrite run_bind by done. erewrite run_bind by (apply get_queue_run, with_queue_lookup).
  destruct Hs as (Hs1 & Hs2 & Hs3). rewrite Hs2, Hc. cbn [bool_decide]. rewrite bool_decide_false by (by intros []).
  unfold get_list. erewrite run_bind by done.
  destruct (klists (with_queue q Q' k) (xTasksWaitingToReceive q)) eqn:E.
  - exists Q', (with_queue q Q' k). split_and!; try done. apply woken_none; auto with wifi.
  - destruct (wake_one_run (with_queue q Q' k) (xTasksWaitingToReceive q)) as (k' & Hw & Hwo); auto with wifi.
    exists Q', k'. done.
Qed.

Lemma notify_from_isr_run k q Q pos woken :
  kwf k -> placed k -> queues k !! q = Some Q -> pxQueueSetContainer Q = None ->
  exists k' woken', notify_from_isr q pos woken k = Ret (woken', k') /\ woken_one (xTasksWaitingToReceive q) k k'.
Proof.
  intros Hk Hp Hq Hc. unfold notify_from_isr. erewrite run_bind by (by apply get_queue_run).
  rewrite Hc, bool_decide_false by (by intros []). unfold get_list. erewrite run_bind by done.
  destruct (klists k (xTasksWaitingToReceive q)) eqn:E.
  - exists k, woken. split; [done |]. by apply woken_none.
  - destruct (remove_from_event_list_woken k (xTasksWaitingToReceive q)) as (b & k' & Hw & Hwo); auto with wifi; [by rewrite E |].
    erewrite run_bind by done. by eexists _, _.
Qed.

(** A message is taken: the queue, and the sender that is woken. *)
Lemma receive_run k q Q item rest ticks set :
  kwf k -> placed k -> queues k !! q = Some Q -> queue_rep Q (item :: rest) -> pcHead_is_NULL Q = false ->
  exists Q' k', receive_section q ticks false set k = Ret (Returned (true, item), k') /\ queue_rep Q' rest /\
    same_kind Q Q' /\ woken_one (xTasksWaitingToSend q) (with_queue q Q' k) k'.
Proof.
  intros Hk Hp Hq Hr Hm. destruct (prvCopyDataFromQueue_run k q Q item rest Hq Hr) as (Q1 & Hc & Hn & Hr1 & Hu & Hs & _).
  pose proof (q_count _ _ Hr) as [Hn0 Hle]. pose proof (q_size _ _ Hr) as (HL & _). rewrite zlen_cons in *. pose proof (zlen_nonneg rest).
  unfold receive_section. erewrite run_bind by (by apply get_queue_run).
  destruct (Z.ltb_spec 0 (uxMessagesWaiting Q)); [| lia]. cbv zeta.
  erewrite run_bind by done. erewrite run_bind by (apply get_queue_run, with_queue_lookup).
  set (Q' := with_messages (zlen rest) Q1).
  assert (wrap_u 32 (uxMessagesWaiting Q1 - 1) = zlen rest) as -> by (rewrite Hn, Hn0; replace (1 + zlen rest - 1) with (zlen rest) by lia; apply wrap_u_small; lia).
  destruct (wake_one_run (with_queue q Q' k) (xTasksWaitingToSend q)) as (k' & Hw & Hwo); auto with wifi.
  exists Q', k'. split; [| done].
  assert (pcHead_is_NULL Q1 = false) as Hm1 by (destruct Hs as [-> _]; done).
  erewrite run_bind; [done |].
  erewrite run_bind by done. rewrite Hm1. erewrite run_bind by done.
  fold Q' (with_queue q Q1 k). change (set_queues _ (with_queue q Q1 k)) with (with_queue q Q' (with_queue q Q1 k)).
  by rewrite with_queue_twice.
Qed.

(** A peek leaves the queue and wakes the next receiver. *)
Lemma peek_run k q Q item rest ticks set :
  kwf k -> placed k -> queues k !! q = Some Q -> queue_rep Q (item :: rest) ->
  exists k', receive_section q ticks true set k = Ret (Returned (true, item), k') /\
    woken_one (xTasksWaitingToReceive q) k k'.
Proof.
  intros Hk Hp Hq Hr. destruct (prvCopyDataFromQueue_run k q Q item rest Hq Hr) as (Q1 & Hc & Hn & Hr1 & Hu & Hs & _).
  pose proof (q_count _ _ Hr) as [Hn0 Hle]. rewrite zlen_cons in *. pose proof (zlen_nonneg rest).
  unfold receive_section. erewrite run_bind by (by apply get_queue_run).
  destruct (Z.ltb_spec 0 (uxMessagesWaiting Q)); [| lia]. cbv zeta.
  erewrite run_bind by done. erewrite run_bind by (apply get_queue_run, with_queue_lookup).
  destruct (wake_one_run k (xTasksWaitingToReceive q)) as (k' & Hw & Hwo); auto with wifi.
  exists k'. split; [| done]. erewrite run_bind; [done |]. rewrite Hu.
  erewrite run_bind; [exact Hw |]. unfold put_queue, modify. do 2 f_equal.
  change (with_queue q Q (with_queue q Q1 k) = k). rewrite with_queue_twice.
  unfold with_queue. rewrite insert_id by done. by destruct k.
Qed.

(** Only queue [q] changed, and now holds [items]. *)
Definition becomes (q : Z) (Q : Queue_t) (items : list (list Z)) (k k' : kernel) : Prop :=
  (exists Q', queues k' = <[q := Q']> (queues k) /\ queue_rep Q' items /\ same_kind Q Q') /\ kwf k' /\ placed k'.

Lemma woken_becomes l q Q Q' items k k' : woken_one l (with_queue q Q' k) k' -> queue_rep Q' items -> same_kind Q Q' ->
  becomes q Q items k k'.
Proof. intros [] Hr Hs. split; [| done]. exists Q'. split; [| done]. by rewrite (f_queues _ _ w_frame0). Qed.

Section items.
Context (k : kernel) (q : Z) (Q : Queue_t) (items : list (list Z)).
Context (Hk : kwf k) (Hp : placed k) (Hq : queues k !! q = Some Q) (Hr : queue_rep Q items).
Context (Hm : pcHead_is_NULL Q = false) (Hc : pxQueueSetContainer Q = None).

Lemma assert_true (b : bool) (s : kernel) : b = true -> assert b s = Ret (tt, s).
Proof. by intros ->. Qed.

Lemma send_asserts_run item pos : (0 < uxItemSize Q -> item <> None) -> (pos = queueOVERWRITE -> uxLength Q = 1) ->
  send_asserts q item pos k = Ret (tt, k).
Proof using Hq Hr.
  intros Hi Ho. pose proof (q_size _ _ Hr) as (? & ? & _).
  unfold send_asserts. erewrite run_bind by (by apply get_queue_run). erewrite run_bind.
  - apply assert_true. destruct (Z.eqb_spec pos queueOVERWRITE); [| done]. by rewrite Ho.
  - apply assert_true. destruct (Z.eqb_spec (uxItemSize Q) 0); [by rewrite andb_false_r |].
    rewrite bool_decide_false; [done | apply Hi; lia].
Qed.

Lemma room_test item pos : post_ok Q item pos items -> (uxMessagesWaiting Q <? uxLength Q) || (pos =? queueOVERWRITE) = true.
Proof using Hr.
  intros (_ & _ & H). destruct (q_count _ _ Hr) as [-> _]. destruct (pos =? queueOVERWRITE); [by rewrite orb_true_r |].
  rewrite (proj2 (Z.ltb_lt _ _)); done.
Qed.
Lemma full_test pos : zlen items = uxLength Q -> pos <> queueOVERWRITE -> (uxMessagesWaiting Q <? uxLength Q) || (pos =? queueOVERWRITE) = false.
Proof using Hr.
  intros E Ho. destruct (q_count _ _ Hr) as [-> _]. rewrite E, Z.ltb_irrefl. by apply Z.eqb_neq.
Qed.

Lemma send_section_room item pos ticks set : post_ok Q item pos items ->
  exists k', send_section q item ticks pos set k = Ret (Returned true, k') /\ becomes q Q (post pos (stored Q item) items) k k'.
Proof using Hk Hp Hq Hr Hm Hc.
  intros Hpo. destruct (post_from_task_run k q Q items item pos Hk Hp Hq Hr Hm Hc Hpo) as (Q' & k' & Hrun & Hr' & Hs & Hw).
  exists k'. split; [| by eapply woken_becomes].
  unfold send_section. erewrite run_bind by (by apply get_queue_run). rewrite (room_test item pos Hpo). by erewrite run_bind by done.
Qed.

Lemma send_section_full item pos ticks set : zlen items = uxLength Q -> pos <> queueOVERWRITE ->
  if ticks =? 0 then send_section q item ticks pos set k = Ret (Returned false, k)
  else exists t, send_section q item ticks pos set k = Ret (NotYet t, k).
Proof using Hq Hr.
  intros E Ho. unfold send_section. erewrite run_bind by (by apply get_queue_run). rewrite (full_test pos E Ho).
  destruct (ticks =? 0); [done |]. destruct set as [t |]; eexists; by erewrite run_bind by done.
Qed.

Lemma isr_send_room item pos woken : post_ok Q item pos items ->
  exists k' w, xQueueGenericSendFromISR q item woken pos k = Ret ((true, w), k') /\
    becomes q Q (post pos (stored Q item) items) k k'.
Proof using Hk Hp Hq Hr Hm Hc.
  intros Hpo. pose proof Hpo as (Hi & _ & Ho).
  destruct (prvCopyDataToQueue_run k q Q items item pos Hq Hr Hm Hpo) as (Q' & Hcp & Hr' & Hs).
  destruct (notify_from_isr_run (with_queue q Q' k) q Q' pos woken) as (k' & w & Hn & Hw); auto with wifi.
  { apply with_queue_lookup. }
  { destruct Hs as (_ & -> & _). done. }
  exists k', w. split; [| by eapply woken_becomes].
  unfold xQueueGenericSendFromISR. erewrite run_bind; [| apply send_asserts_run].
  - erewrite run_bind by (by apply get_queue_run). rewrite (room_test item pos Hpo).
    erewrite run_bind by done. by erewrite run_bind by done.
  - intros Hs0. destruct (Hi Hs0) as (b & -> & _). done.
  - intros ->. exact (proj1 Ho).
Qed.

Lemma isr_send_full item pos woken : zlen items = uxLength Q -> pos <> queueOVERWRITE -> (0 < uxItemSize Q -> item <> None) ->
  xQueueGenericSendFromISR q item woken pos k = Ret ((false, woken), k).
Proof using Hq Hr.
  intros E Ho Hi. unfold xQueueGenericSendFromISR. erewrite run_bind by (by apply send_asserts_run).
  erewrite run_bind by (by apply get_queue_run). by rewrite (full_test pos E Ho).
Qed.

(** Giving a semaphore is posting an empty item. *)
Lemma isr_give woken : uxItemSize Q = 0 ->
  if zlen items <? uxLength Q
  then exists k' w, xQueueGiveFromISR q woken k = Ret ((true, w), k') /\ becomes q Q (items ++ [[]]) k k'
  else xQueueGiveFromISR q woken k = Ret ((false, woken), k).
Proof using Hk Hp Hq Hr Hm Hc.
  intros E. unfold xQueueGiveFromISR. pose proof Hr as [(HL & _ & _) (Hn & Hle) He _]. pose proof (zlen_nonneg items).
  assert (forall A (f : unit -> K A), (assert (uxItemSize Q =? 0) ≫= f) k = f tt k) as Ha.
  { intros. erewrite run_bind; [done |]. apply assert_true. by rewrite E. }
  rewrite <- Hn. destruct (Z.ltb_spec (uxMessagesWaiting Q) (uxLength Q)) as [Hlt |].
  - set (Q' := with_messages (wrap_u 32 (uxMessagesWaiting Q + 1)) Q).
    destruct (notify_from_isr_run (with_queue q Q' k) q Q' queueSEND_TO_BACK woken) as (k' & w & Hnr & Hw); auto with wifi.
    { apply with_queue_lookup. }
    exists k', w. split.
    + erewrite run_bind by (by apply get_queue_run). rewrite Ha, (proj2 (Z.ltb_lt _ _) Hlt). erewrite run_bind by done.
      by erewrite run_bind by done.
    + eapply woken_becomes; [done | | done]. unfold Q'. rewrite Hn, wrap_u_small by lia.
      split; cbn -[zlen]; [by apply Hr | rewrite zlen_app; change (zlen [@nil Z]) with 1; lia | | lia].
      intros b [Hb | ->%list_elem_of_singleton]%elem_of_app; [by apply He | by rewrite E].
  - erewrite run_bind by (by apply get_queue_run). rewrite Ha. by rewrite (proj2 (Z.ltb_ge _ _)) by lia.
Qed.

Lemma receive_empty peek ticks set : items = [] ->
  if ticks =? 0 then receive_section q ticks peek set k = Ret (Returned (false, []), k)
  else exists t, receive_section q ticks peek set k = Ret (NotYet t, k).
Proof using Hq Hr.
  intros ->. destruct (q_count _ _ Hr) as [Hn _]. change (zlen []) with 0 in Hn.
  unfold receive_section. erewrite run_bind by (by apply get_queue_run). rewrite Hn.
  change (0 <? 0) with false. cbv iota.
  destruct (ticks =? 0); [done |]. destruct set as [t |]; eexists; by erewrite run_bind by done.
Qed.

Lemma buffer_assert_run : buffer_assert q true k = Ret (tt, k).
Proof using Hq. unfold buffer_assert. by erewrite run_bind by (by apply get_queue_run). Qed.

Lemma isr_receive woken :
  match items with
  | [] => xQueueReceiveFromISR q true woken k = Ret ((false, [], woken), k)
  | x :: rest => exists k' w, xQueueReceiveFromISR q true woken k = Ret ((true, x, w), k') /\ becomes q Q rest k k'
  end.
Proof using Hk Hp Hq Hr Hm.
  unfold xQueueReceiveFromISR. destruct items as [| x rest].
  - destruct (q_count _ _ Hr) as [Hn _]. change (zlen []) with 0 in Hn.
    erewrite run_bind by apply buffer_assert_run. erewrite run_bind by (by apply get_queue_run). by rewrite Hn.
  - destruct (prvCopyDataFromQueue_run k q Q x rest Hq Hr) as (Q1 & Hcp & Hn & Hr1 & Hu & Hs & _).
    pose proof (q_count _ _ Hr) as [Hn0 Hle]. pose proof (q_size _ _ Hr) as (HL & _). rewrite zlen_cons in *. pose proof (zlen_nonneg rest).
    set (Q' := with_messages (zlen rest) Q1).
    assert (exists k' w, (w0 ← get_list (xTasksWaitingToSend q);
      match w0 with
      | [] => mret (true, x, woken)
      | _ => sw ← xTaskRemoveFromEventList (xTasksWaitingToSend q); mret (true, x, set_woken sw woken)
      end) (with_queue q Q' k) = Ret ((true, x, w), k') /\ woken_one (xTasksWaitingToSend q) (with_queue q Q' k) k') as (k' & w & Hrun & Hw).
    { unfold get_list. erewrite run_bind by done.
      destruct (klists (with_queue q Q' k) (xTasksWaitingToSend q)) eqn:E.
      - eexists _, _. split; [done |]. apply woken_none; auto with wifi.
      - destruct (remove_from_event_list_woken (with_queue q Q' k) (xTasksWaitingToSend q)) as (b & k' & Hw & Hwo); auto with wifi; [by rewrite E |].
        erewrite run_bind by done. by eexists _, _. }
    exists k', w. split; [| by eapply woken_becomes].
    erewrite run_bind by apply buffer_assert_run. erewrite run_bind by (by apply get_queue_run).
    destruct (Z.ltb_spec 0 (uxMessagesWaiting Q)); [| lia].
    erewrite run_bind by done. erewrite run_bind by (apply get_queue_run, with_queue_lookup).
    assert (wrap_u 32 (uxMessagesWaiting Q1 - 1) = zlen rest) as -> by (rewrite Hn, Hn0; replace (1 + zlen rest - 1) with (zlen rest) by lia; apply wrap_u_small; lia).
    erewrite run_bind by done. rewrite <- Hrun. f_equal. exact (with_queue_twice q Q1 Q' k).
Qed.

Lemma isr_peek : uxItemSize Q <> 0 ->
  xQueuePeekFromISR q true k = Ret (match items with [] => (false, []) | x :: _ => (true, x) end, k).
Proof using Hk Hp Hq Hr.
  intros E. unfold xQueuePeekFromISR.
  erewrite run_bind by apply buffer_assert_run. erewrite run_bind by (by apply get_queue_run).
  erewrite run_bind by (apply assert_true; by rewrite (proj2 (Z.eqb_neq _ _) E)).
  destruct (q_count _ _ Hr) as [Hn0 _]. destruct items as [| x rest].
  - change (zlen []) with 0 in Hn0. by rewrite Hn0.
  - destruct (prvCopyDataFromQueue_run k q Q x rest Hq Hr) as (Q1 & Hcp & Hn & Hr1 & Hu & Hs & _).
    rewrite zlen_cons in Hn0. pose proof (zlen_nonneg rest).
    destruct (Z.ltb_spec 0 (uxMessagesWaiting Q)); [| lia].
    erewrite run_bind by done. erewrite run_bind by (apply get_queue_run, with_queue_lookup).
    rewrite Hu. unfold put_queue, mbind, st_bind, modify, mret, st_ret. do 2 f_equal.
    change (with_queue q Q (with_queue q Q1 k) = k). rewrite with_queue_twice.
    unfold with_queue. rewrite insert_id by done. by destruct k.
Qed.
End items.

(** C19. A queue is a bounded list of items.  For a queue that represents
    [items] (and is neither a mutex nor in a queue set), posting from a task or
    from an interrupt puts a copy of the item behind the items, in front of
    them, or in place of the only one, exactly when there is room, and reports
    a full queue without a change otherwise (a task with ticks left goes on to
    wait); receiving returns the first item and removes it, peeking returns it
    and keeps it, and an empty queue is reported without a change; the
    observers give the number of items and of free places.  Overwriting is
    allowed on queues of length one that hold data: on a full semaphore it
    would count beyond the length, and nothing is stated of that.  No run
    faults, and no other queue changes; where a post or a receive wakes a task
    without affinity, this holds if the read of pxCurrentTCB[tskNO_AFFINITY]
    in taskYIELD_OTHER_CORE returns, as [kwf] asks of every such task
    ([stray_read]; pinned tasks need nothing). *)
Theorem queue_refinement k q Q items item pos ticks set woken :
  kwf k -> placed k -> queues k !! q = Some Q -> queue_rep Q items -> pcHead_is_NULL Q = false ->
  pxQueueSetContainer Q = None ->
  (post_ok Q item pos items ->
    (exists k', send_section q item ticks pos set k = Ret (Returned true, k') /\
       becomes q Q (post pos (stored Q item) items) k k') /\
    (exists k' w, xQueueGenericSendFromISR q item woken pos k = Ret ((true, w), k') /\
       becomes q Q (post pos (stored Q item) items) k k')) /\
  (zlen items = uxLength Q -> pos <> queueOVERWRITE ->
    (if ticks =? 0 then send_section q item ticks pos set k = Ret (Returned false, k)
     else exists t, send_section q item ticks pos set k = Ret (NotYet t, k)) /\
    ((0 < uxItemSize Q -> item <> None) -> xQueueGenericSendFromISR q item woken pos k = Ret ((false, woken), k))) /\
  (uxItemSize Q = 0 ->
    if zlen items <? uxLength Q
    then exists k' w, xQueueGiveFromISR q woken k = Ret ((true, w), k') /\ becomes q Q (items ++ [[]]) k k'
    else xQueueGiveFromISR q woken k = Ret ((false, woken), k)) /\
  match items with
  | x :: rest =>
      (exists k', receive_section q ticks false set k = Ret (Returned (true, x), k') /\ becomes q Q rest k k') /\
      (exists k' w, xQueueReceiveFromISR q true woken k = Ret ((true, x, w), k') /\ becomes q Q rest k k') /\
      (exists k', receive_section q ticks true set k = Ret (Returned (true, x), k') /\ queues k' = queues k) /\
      (uxItemSize Q <> 0 -> xQueuePeekFromISR q true k = Ret ((true, x), k))
  | [] =>
      (forall peek, if ticks =? 0 then receive_section q ticks peek set k = Ret (Returned (false, []), k)
       else exists t, receive_section q ticks peek set k = Ret (NotYet t, k)) /\
      xQueueReceiveFromISR q true woken k = Ret ((false, [], woken), k) /\
      (uxItemSize Q <> 0 -> xQueuePeekFromISR q true k = Ret ((false, []), k))
  end /\
  uxQueueMessagesWaiting q k = Ret (zlen items, k) /\
  uxQueueSpacesAvailable q k = Ret (uxLength Q - zlen items, k) /\
  xQueueIsQueueEmptyFromISR q k = Ret (bool_decide (items = []), k) /\
  xQueueIsQueueFullFromISR q k = Ret (zlen items =? uxLength Q, k).
Proof.
  intros Hk Hp Hq Hr Hm Hc. pose proof Hr as [(HL & _ & _) (Hn & Hle) _ _]. pose proof (zlen_nonneg items).
  split; [intros Hpo; split; [by apply send_section_room | by apply isr_send_room] |].
  split; [intros Hf Ho; split; [by apply (send_section_full k q Q items) | intros; by apply (isr_send_full k q Q items)] |].
  split; [by apply isr_give |].
  split; [destruct items as [| x rest]; split_and! |].
  - intros peek. by apply (receive_empty k q Q []).
  - exact (isr_receive k q Q [] Hk Hp Hq Hr Hm woken).
  - exact (isr_peek k q Q [] Hk Hp Hq Hr).
  - destruct (receive_run k q Q x rest ticks set Hk Hp Hq Hr Hm) as (Q' & k' & Hrun & Hr' & Hs & Hw).
    exists k'. split; [done |]. by eapply woken_becomes.
  - exact (isr_receive k q Q (x :: rest) Hk Hp Hq Hr Hm woken).
  - destruct (peek_run k q Q x rest ticks set Hk Hp Hq Hr) as (k' & Hrun & []). exists k'. split; [done |].
    by apply f_queues.
  - exact (isr_peek k q Q (x :: rest) Hk Hp Hq Hr).
  - unfold uxQueueMessagesWaiting, uxQueueSpacesAvailable, xQueueIsQueueEmptyFromISR, xQueueIsQueueFullFromISR.
    repeat (erewrite run_bind by (by apply get_queue_run)). rewrite Hn, wrap_u_small by lia. split_and!; try done.
    unfold mret, st_ret. do 2 f_equal. destruct items; [done |]. rewrite zlen_cons in *.
    rewrite bool_decide_false by done. apply Z.eqb_neq. pose proof (zlen_nonneg items). lia.
Qed.

(** * Creation *)

(** Nobody waits on a queue that does not exist yet. *)
Definition fresh (k : kernel) (q : Z) : Prop := klists k (xTasksWaitingToSend q) = [] /\ klists k (xTasksWaitingToReceive q) = [].

Definition new_queue (len size n : Z) (static : bool) : Queue_t :=
  mkQueue false (pcTail (wrap_u 32 (len * size))) 0 (pcReadFrom (wrap_u 32 ((len - 1) * size))) 0 len size static None
    (replicate (Z.to_nat n) 0).

Lemma prvInitialiseNewQueue_run len size n static q k : kwf k -> placed k -> fresh k q ->
  exists k', prvInitialiseNewQueue len size n static q k = Ret (tt, k') /\
    queues k' = <[q := new_queue len size n static]> (queues k) /\ kwf k' /\ placed k' /\
    (forall l, klists k' l = klists k l) /\ tcbs k' = tcbs k /\ pxCurrentTCB k' = pxCurrentTCB k /\
    xPortGetCoreID k' = xPortGetCoreID k /\ xSchedulerRunning k' = xSchedulerRunning k.
Proof.
  intros Hk Hp [F1 F2]. unfold prvInitialiseNewQueue, xQueueGenericReset.
  erewrite run_bind by done. erewrite run_bind.
  2:{ erewrite run_bind by (by apply get_queue_run, with_queue_lookup). erewrite run_bind by done.
      erewrite run_bind; [done |]. by erewrite run_bind by done. }
  cbn [uxLength uxItemSize pcHead_is_NULL ucStaticallyAllocated pxQueueSetContainer storage].
  erewrite run_bind by (apply get_queue_run; cbn; apply lookup_insert_eq).
  eexists. split; [done |]. cbn. rewrite !insert_insert_eq.
  assert (forall l, (<[xTasksWaitingToReceive q:=[]]> (<[xTasksWaitingToSend q:=[]]> (klists k))) l = klists k l) as El.
  { intros l. destruct (decide (l = xTasksWaitingToReceive q)) as [-> |]; [by rewrite fn_lookup_insert |].
    rewrite fn_lookup_insert_ne by done. destruct (decide (l = xTasksWaitingToSend q)) as [-> |]; [by rewrite fn_lookup_insert |].
    by rewrite fn_lookup_insert_ne. }
  split_and!; try done.
  destruct Hk as [Hin Hki Hd Hc Hcu Ha]. split; cbn; try done.
  - intros l t. by rewrite El.
  - intros l. by rewrite El.
Qed.

Lemma new_queue_rep len size static : 0 < len < 2 ^ 32 -> 0 <= size -> len * size < 2 ^ 32 ->
  queue_rep (new_queue len size (len * size) static) [].
Proof.
  intros Hl Hs Hw. split; cbn -[zlen]; change (zlen []) with 0; [done | lia | intros b Hb; by apply elem_of_nil in Hb |].
  intros Hs0. exists ((len - 1) * size).
  assert (0 <= (len - 1) * size /\ (len - 1) * size + size = len * size) as [? ?] by nia.
  rewrite !wrap_u_small by lia. unfold zlen. rewrite length_replicate. split_and!; try done; try lia.
  - apply Z.divide_factor_r.
  - apply Z.divide_0_r.
  - replace ((len - 1) * size + size + 0 * size) with (len * size) by lia. apply Z.mod_same. lia.
Qed.

(** A counting semaphore is a queue of empty items. *)
Lemma new_semaphore_rep max n static : 0 < max < 2 ^ 32 -> 0 <= n <= max ->
  queue_rep (with_messages n (new_queue max 0 0 static)) (replicate (Z.to_nat n) []).
Proof.
  intros Hm Hn. split; cbn -[zlen].
  - lia.
  - unfold zlen. rewrite length_replicate. lia.
  - intros b Hb. apply elem_of_replicate in Hb as [-> _]. done.
  - lia.
Qed.

(** Overwriting in place. *)
Lemma new_queue_same len size n n' static : same_kind (new_queue len size n static) (with_messages n' (new_queue len size n static)).
Proof. done. Qed.

Section created.
Context (pvPortMalloc : Z -> option Z) (k : kernel) (q : Z).
Context (Hk : kwf k) (Hp : placed k) (Hf : fresh k q).

Lemma xQueueGenericCreate_run len size : 0 < len ->
  pvPortMalloc (if size =? 0 then 0 else wrap_u 32 (len * size)) = Some q ->
  exists k', xQueueGenericCreate pvPortMalloc len size k = Ret (Some q, k') /\
    queues k' = <[q := new_queue len size (if size =? 0 then 0 else wrap_u 32 (len * size)) false]> (queues k) /\
    kwf k' /\ placed k' /\ (forall l, klists k' l = klists k l) /\ tcbs k' = tcbs k /\ pxCurrentTCB k' = pxCurrentTCB k /\
    xPortGetCoreID k' = xPortGetCoreID k /\ xSchedulerRunning k' = xSchedulerRunning k.
Proof using Hk Hp Hf.
  intros Hl Hm. unfold xQueueGenericCreate.
  erewrite run_bind by (apply assert_true; by apply Z.ltb_lt). rewrite Hm.
  destruct (prvInitialiseNewQueue_run len size (if size =? 0 then 0 else wrap_u 32 (len * size)) false q k Hk Hp Hf)
    as (k' & Hr & Hq & Hrest).
  exists k'. erewrite run_bind by done. done.
Qed.

Lemma xQueueCreateCountingSemaphore_run max n : 0 < max -> n <= max -> pvPortMalloc 0 = Some q ->
  exists k', xQueueCreateCountingSemaphore pvPortMalloc max n k = Ret (Some q, k') /\
    queues k' = <[q := with_messages n (new_queue max 0 0 false)]> (queues k) /\ kwf k' /\ placed k'.
Proof using Hk Hp Hf.
  intros Hl Hn Hm. unfold xQueueCreateCountingSemaphore.
  erewrite run_bind by (apply assert_true; apply negb_true_iff, Z.eqb_neq; lia).
  erewrite run_bind by (apply assert_true; by apply Z.leb_le).
  destruct (xQueueGenericCreate_run max 0 Hl Hm) as (k' & Hr & Hq & Hk' & Hp' & _).
  erewrite run_bind by done. cbv beta iota. erewrite run_bind by (apply get_queue_run; rewrite Hq; apply lookup_insert_eq).
  exists (with_queue q (with_messages n (new_queue max 0 0 false)) k'). split; [done |].
  unfold with_queue. cbn [queues set_queues]. rewrite Hq, insert_insert_eq. split_and!; [done | | done]. by destruct Hk'.
Qed.
End created.

(** Creating queues.  xQueueGenericCreate gives an empty queue with the
    length and item size asked for whose storage has room for them, provided
    their product fits in 32 bits; a length of zero is caught by the assertion,
    and an allocation that fails leaves everything as it was.  The product is
    not checked: when it does not fit, the queue still claims the full length
    while its storage has only the wrapped number of bytes.  A counting
    semaphore is created with the initial count of (empty) items. *)
Theorem xQueueGenericCreate_spec pvPortMalloc k q len size :
  kwf k -> placed k -> fresh k q -> 0 <= len < 2 ^ 32 -> 0 <= size < 2 ^ 32 ->
  (len = 0 -> xQueueGenericCreate pvPortMalloc len size k = Fault AssertFailed) /\
  (0 < len -> len * size < 2 ^ 32 -> pvPortMalloc (len * size) = None ->
    xQueueGenericCreate pvPortMalloc len size k = Ret (None, k)) /\
  (0 < len -> len * size < 2 ^ 32 -> pvPortMalloc (len * size) = Some q ->
    exists k' Q, xQueueGenericCreate pvPortMalloc len size k = Ret (Some q, k') /\
      queues k' = <[q := Q]> (queues k) /\ queue_rep Q [] /\ uxLength Q = len /\ uxItemSize Q = size /\
      pcHead_is_NULL Q = false /\ pxQueueSetContainer Q = None /\ kwf k' /\ placed k') /\
  (2 ^ 32 <= len * size -> pvPortMalloc (wrap_u 32 (len * size)) = Some q ->
    exists k' Q, xQueueGenericCreate pvPortMalloc len size k = Ret (Some q, k') /\
      queues k' = <[q := Q]> (queues k) /\ uxLength Q = len /\ uxItemSize Q = size /\
      zlen (storage Q) = wrap_u 32 (len * size) /\ zlen (storage Q) < uxLength Q * uxItemSize Q) /\
  (forall n, 0 < len -> 0 <= n <= len -> pvPortMalloc 0 = Some q ->
    exists k' Q, xQueueCreateCountingSemaphore pvPortMalloc len n k = Ret (Some q, k') /\
      queues k' = <[q := Q]> (queues k) /\ queue_rep Q (replicate (Z.to_nat n) []) /\ kwf k' /\ placed k').
Proof.
  intros Hk Hp Hf Hl Hs.
  assert (forall s, len * s < 2 ^ 32 -> 0 <= s -> (if s =? 0 then 0 else wrap_u 32 (len * s)) = len * s) as Hb.
  { intros s Hw Hs0. destruct (Z.eqb_spec s 0); [lia |]. apply wrap_u_small. lia. }
  split_and!.
  - intros ->. done.
  - intros H0 Hw Hm. unfold xQueueGenericCreate. erewrite run_bind by (apply assert_true; by apply Z.ltb_lt).
    by rewrite Hb, Hm by lia.
  - intros H0 Hw Hm. destruct (xQueueGenericCreate_run pvPortMalloc k q Hk Hp Hf len size H0) as (k' & Hr & Hq & Hk' & Hp' & _).
    { by rewrite Hb by lia. }
    rewrite Hb in Hq by lia. exists k', (new_queue len size (len * size) false).
    split_and!; try done. apply new_queue_rep; lia.
  - intros Hw Hm. assert (0 < len) by nia. destruct (Z.eqb_spec size 0) as [-> | Hne]; [lia |].
    destruct (xQueueGenericCreate_run pvPortMalloc k q Hk Hp Hf len size) as (k' & Hr & Hq & _); [done | |].
    { by rewrite (proj2 (Z.eqb_neq _ _) Hne). }
    rewrite (proj2 (Z.eqb_neq _ _) Hne) in Hq. pose proof (wrap_u_range 32 (len * size) ltac:(lia)).
    exists k', (new_queue len size (wrap_u 32 (len * size)) false).
    assert (zlen (storage (new_queue len size (wrap_u 32 (len * size)) false)) = wrap_u 32 (len * size)) as E
      by (unfold zlen; cbn; rewrite length_replicate; lia).
    split_and!; try done. rewrite E. cbn. lia.
  - intros n H0 Hn Hm.
    destruct (xQueueCreateCountingSemaphore_run pvPortMalloc k q Hk Hp Hf len n H0) as (k' & Hr & Hq & Hk' & Hp'); [lia | done |].
    exists k', (with_messages n (new_queue len 0 0 false)). split_and!; try done. by apply new_semaphore_rep; lia.
Qed.

(** * Mutexes *)

(** A mutex: its holder, or none, and the count of a recursive holder. *)
Record mutex_rep (Q : Queue_t) (holder : option Z) (n : Z) : Prop := {
  m_null : pcHead_is_NULL Q = true; m_length : uxLength Q = 1; m_size : uxItemSize Q = 0;
  m_holder : tail_union Q = pxMutexHolder holder; m_calls : u_union Q = uxRecursiveCallCount n;
  m_count : uxMessagesWaiting Q = if holder then 0 else 1; m_set : pxQueueSetContainer Q = None }.

Section mutex.
Context (k : kernel) (q : Z) (Q : Queue_t) (t : Z) (c : TCB_t).
Context (Hk : kwf k) (Hp : placed k) (Hq : queues k !! q = Some Q).
Context (Hcur : pxCurrentTCB k (xPortGetCoreID k) = Some t) (Ht : tcbs k !! t = Some c) (Hev : container (xEventListItem c) = None).

Lemma running_waits_nowhere l : kind_of l = event_item -> t ∉ klists k l.
Proof using Hk Ht Hev.
  intros Hl Hin. apply (k_in k Hk) in Hin as (x & Hx & E). rewrite Ht in Hx. injection Hx as <-.
  rewrite Hl in E. cbn in E. congruence.
Qed.

Lemma mutex_take_run n ticks set : mutex_rep Q None n ->
  exists Q' k', receive_section q ticks false set k = Ret (Returned (true, []), k') /\
    queues k' = <[q := Q']> (queues k) /\ mutex_rep Q' (Some t) n /\ kwf k' /\ placed k' /\
    (pxCurrentTCB k' = pxCurrentTCB k /\ xPortGetCoreID k' = xPortGetCoreID k) /\
    exists c', tcbs k' !! t = Some c' /\ uxMutexesHeld c' = wrap_u 32 (uxMutexesHeld c + 1) /\ uxPriority c' = uxPriority c /\
      xEventListItem c' = xEventListItem c.
Proof using Hk Hp Hq Hcur Ht Hev.
  intros Hm. pose proof Hm as [M1 M2 M3 M4 M5 M6 M7].
  unfold receive_section. erewrite run_bind by (by apply get_queue_run). rewrite M6. change (0 <? 1) with true. cbv iota zeta.
  assert (prvCopyDataFromQueue q k = Ret ([], k)) as Hcp.
  { unfold prvCopyDataFromQueue. erewrite run_bind by (by apply get_queue_run). unfold copy_out. rewrite M3. change (0 =? 0) with true.
    erewrite run_bind by done. unfold put_queue, mbind, st_bind, modify, mret, st_ret. rewrite insert_id by done. by destruct k. }
  erewrite run_bind by done. erewrite run_bind by (by apply get_queue_run).
  set (Q1 := with_messages (wrap_u 32 (uxMessagesWaiting Q - 1)) Q).
  destruct (pvTaskIncrementMutexHeldCount_run t c (with_queue q Q1 k)) as (k1 & Hr1 & Hk1 & Hp1 & Ho1 & _ & Ht1); auto with wifi.
  set (Q' := with_tail (pxMutexHolder (Some t)) Q1).
  destruct (wake_one_run (with_queue q Q' k1) (xTasksWaitingToSend q)) as (k' & Hw & Hwo); auto with wifi.
  exists Q', k'. split.
  - erewrite run_bind; [done |]. rewrite M1.
    assert (uxMessagesWaiting Q - 1 = wrap_u 32 (uxMessagesWaiting Q - 1)) as Ew by (rewrite M6; done).
    erewrite run_bind by done. erewrite run_bind; [exact Hw |].
    erewrite run_bind by exact Hr1. erewrite run_bind; [done |].
    apply get_queue_run. rewrite (o_queues _ _ _ Ho1). apply with_queue_lookup.
  - pose proof Hwo as []. split_and!; [| | done | done | | |].
    + rewrite (f_queues _ _ w_frame0). unfold with_queue. cbn. rewrite (o_queues _ _ _ Ho1). cbn. by rewrite insert_insert_eq.
    + split; try done. cbn. by rewrite M6.
    + rewrite (f_current _ _ w_frame0). apply Ho1.
    + rewrite (f_core _ _ w_frame0). apply Ho1.
    + exists (with_mutexes (wrap_u 32 (uxMutexesHeld c + 1)) c). split; [| done].
      rewrite (w_tcbs_out _ _ _ _ Hwo); [exact Ht1 |]. cbn. rewrite (o_lists _ _ _ Ho1) by done. by apply running_waits_nowhere.
Qed.

Lemma mutex_busy n h ticks set : mutex_rep Q (Some h) n ->
  if ticks =? 0 then receive_section q ticks false set k = Ret (Returned (false, []), k)
  else exists t0, receive_section q ticks false set k = Ret (NotYet t0, k).
Proof using Hq.
  intros [M1 M2 M3 M4 M5 M6 M7]. unfold receive_section. erewrite run_bind by (by apply get_queue_run).
  rewrite M6. change (0 <? 0) with false. cbv iota. destruct (ticks =? 0); [done |].
  destruct set as [t0 |]; eexists; by erewrite run_bind by done.
Qed.

(** The task that has to wait lends its priority to the holder. *)
Lemma mutex_wait_run n h ch ticks to to' ticks' : mutex_rep Q (Some h) n -> h <> t -> tcbs k !! h = Some ch ->
  xTaskCheckForTimeOut to ticks k = Ret ((false, to', ticks'), k) ->
  exists k', receive_wait_section q ticks to k = Ret (Blocked to' ticks', k') /\ queues k' = queues k /\ kwf k' /\ placed k' /\
    t ∈ klists k' (xTasksWaitingToReceive q) /\ ~ is_ready k' t /\ (is_ready k h -> is_ready k' h) /\
    exists ch', tcbs k' !! h = Some ch' /\ uxPriority ch' = Z.max (uxPriority ch) (uxPriority c) /\ uxMutexesHeld ch' = uxMutexesHeld ch.
Proof using Hk Hp Hq Hcur Ht Hev.
  intros [M1 M2 M3 M4 M5 M6 M7] Hne Hh Hto. unfold receive_wait_section. erewrite run_bind by done. cbv beta iota.
  unfold prvIsQueueEmpty. erewrite run_bind by (erewrite run_bind by (by apply get_queue_run); done).
  rewrite M6. change (0 =? 0) with true. cbv iota. erewrite run_bind by (by apply get_queue_run). rewrite M1.
  unfold pxMutexHolder_of. rewrite M4.
  assert (current_tcb k = Ret (c, k)) as Hct.
  { unfold current_tcb, current. erewrite run_bind; [by apply get_tcb_run |]. erewrite run_bind by done. by rewrite Hcur. }
  destruct (vTaskPriorityInherit_run h ch c k Hk Hp Hh Hct) as (k1 & ch1 & Hr1 & Hk1 & Hp1 & Ho1 & Hre1 & Hh1 & Hpr1 & Hmu1).
  rewrite (run_bind _ _ k tt k1) by (by erewrite run_bind by done).
  destruct (vTaskPlaceOnEventList_run k1 (xTasksWaitingToReceive q) t c ticks' Hk1 Hp1) as
    (k2 & Hr2 & Hk2 & Hp2 & Hf2 & Hl2 & Hm2 & Hy2 & Hnr2 & _); [done | | | done |].
  { by rewrite (o_current _ _ _ Ho1), (o_core _ _ _ Ho1). }
  { by rewrite (o_tcbs _ _ _ Ho1). }
  rewrite (run_bind _ _ k1 tt k2) by done.
  set (k3 := set_yields (xPortGetCoreID k2 :: yields k2) k2).
  rewrite (run_bind _ _ k2 tt k3) by done.
  exists k3. split_and!; try done.
  - cbn. rewrite (f_queues _ _ Hf2). apply Ho1.
  - apply (only_yields_kwf k2 k3); [| done]. exists (xYieldPending k2), (xPortGetCoreID k2 :: yields k2). by destruct k2.
  - cbn. rewrite Hl2. rewrite insert_sorted_perm. left.
  - intros Hrh. apply Hre1 in Hrh as (x & p & Hx & E). exists x, p. split; [| done]. cbn. by rewrite Hy2.
  - exists ch1. split_and!; try done. cbn. by rewrite Hy2.
Qed.

(** The holder gives the mutex back. *)
Lemma mutex_give_run n ticks set : mutex_rep Q (Some t) n -> 0 < uxMutexesHeld c < 2 ^ 32 ->
  exists Q' k', send_section q None ticks queueSEND_TO_BACK set k = Ret (Returned true, k') /\
    queues k' = <[q := Q']> (queues k) /\ mutex_rep Q' None n /\ kwf k' /\ placed k' /\
    klists k' (xTasksWaitingToReceive q) = List.tl (klists k (xTasksWaitingToReceive q)) /\
    exists c', tcbs k' !! t = Some c' /\ uxMutexesHeld c' = uxMutexesHeld c - 1 /\
      uxPriority c' = (if uxMutexesHeld c =? 1 then uxBasePriority c else uxPriority c).
Proof using Hk Hp Hq Hcur Ht Hev.
  intros [M1 M2 M3 M4 M5 M6 M7] Hn. unfold send_section. erewrite run_bind by (by apply get_queue_run).
  rewrite M6, M2. change ((0 <? 1) || _) with true. cbv iota.
  destruct (xTaskPriorityDisinherit_run t c k Hk Hp Ht Hn) as (b & k1 & c1 & Hr1 & Hk1 & Hp1 & Ho1 & _ & Ht1 & Hmu1 & Hpr1).
  assert (queues k1 !! q = Some Q) as Hq1 by (by rewrite (o_queues _ _ _ Ho1)).
  set (Q' := with_messages 1 (with_tail (pxMutexHolder None) Q)).
  assert (prvCopyDataToQueue q None queueSEND_TO_BACK k = Ret (b, with_queue q Q' k1)) as Hcp.
  { unfold prvCopyDataToQueue. erewrite run_bind by (by apply get_queue_run). rewrite M3. change (0 =? 0) with true. rewrite M1.
    erewrite run_bind.
    2:{ unfold pxMutexHolder_of. rewrite M4. erewrite run_bind by done. erewrite run_bind by done.
        erewrite run_bind by (by apply get_queue_run). by erewrite run_bind by done. }
    erewrite run_bind by (apply get_queue_run, with_queue_lookup). cbn [uxMessagesWaiting with_tail]. rewrite M6.
    unfold put_queue, mbind, st_bind, modify, mret, st_ret. do 2 f_equal. apply with_queue_twice. }
  assert (exists k2, post_from_task q None queueSEND_TO_BACK k = Ret (tt, k2) /\
      woken_one (xTasksWaitingToReceive q) (with_queue q Q' k1) k2) as (k2 & Hr2 & Hw2).
  { unfold post_from_task. erewrite run_bind by done. erewrite run_bind by (apply get_queue_run, with_queue_lookup).
    change (pxQueueSetContainer Q') with (pxQueueSetContainer Q). rewrite M7, bool_decide_false by (by intros []).
    unfold get_list. erewrite run_bind by done.
    destruct (klists (with_queue q Q' k1) (xTasksWaitingToReceive q)) eqn:E.
    - assert (woken_one (xTasksWaitingToReceive q) (with_queue q Q' k1) (with_queue q Q' k1)) by (apply woken_none; auto with wifi).
      unfold when. destruct b; [| eexists; by split]. eexists. split; [done |]. eapply woken_yields; [done |].
      apply only_yields_add.
    - apply wake_one_run; auto with wifi. }
  exists Q', k2. erewrite run_bind by done. pose proof Hw2 as []. split_and!; try done.
  - rewrite (f_queues _ _ w_frame0). unfold with_queue. cbn. by rewrite (o_queues _ _ _ Ho1).
  - rewrite w_list0. cbn. by rewrite (o_lists _ _ _ Ho1).
  - exists c1. split_and!; try done. rewrite (w_tcbs_out _ _ _ _ Hw2); [done |]. cbn. rewrite (o_lists _ _ _ Ho1) by done.
    by apply running_waits_nowhere.
Qed.
End mutex.

Lemma mutex_with_count Q h n m : mutex_rep Q h n -> mutex_rep (with_u (uxRecursiveCallCount m) Q) h m.
Proof. intros []. by split. Qed.

Lemma add_call_count_run k q Q h n d : queues k !! q = Some Q -> mutex_rep Q h n ->
  add_call_count q d k = Ret (wrap_u 32 (n + d), with_queue q (with_u (uxRecursiveCallCount (wrap_u 32 (n + d))) Q) k).
Proof.
  intros Hq Hm. unfold add_call_count. erewrite run_bind by (by apply get_queue_run).
  unfold uxRecursiveCallCount_of, lift. rewrite (m_calls _ _ _ Hm). by erewrite run_bind by done.
Qed.

Lemma mutex_holder_test k q Q h n : queues k !! q = Some Q -> mutex_rep Q h n ->
  forall A (f : option Z -> K A), (Q ← get_queue q; x ← lift (pxMutexHolder_of Q); f x) k = f h k.
Proof.
  intros Hq Hm A f. erewrite run_bind by (by apply get_queue_run). unfold pxMutexHolder_of, lift.
  rewrite (m_holder _ _ _ Hm). by erewrite run_bind by done.
Qed.

(** Giving does not wait. *)
Lemma send_now_run k q Q h n k' b : queues k !! q = Some Q -> mutex_rep Q h n ->
  send_section q None 0 queueSEND_TO_BACK None k = Ret (Returned b, k') -> send_now q None queueSEND_TO_BACK k = Ret (b, k').
Proof.
  intros Hq Hm Hs.
  assert (send_asserts q None queueSEND_TO_BACK k = Ret (tt, k)) as Ha.
  { unfold send_asserts. erewrite run_bind by (by apply get_queue_run). rewrite (m_size _ _ _ Hm). by erewrite run_bind by done. }
  assert (suspended_assert 0 k = Ret (tt, k)) as Hsu.
  { unfold suspended_assert. erewrite run_bind by done. apply assert_true. by rewrite andb_false_r. }
  unfold send_now, xQueueGenericSend.
  rewrite (run_bind _ _ k (mkCall (Send None queueSEND_TO_BACK) q 0 None AtTry) k)
    by (erewrite run_bind by exact Ha; by erewrite run_bind by exact Hsu).
  rewrite (run_bind _ _ k (inl (b, [])) k'); [done |].
  unfold call_step. cbn [c_request c_pc c_queue c_ticks c_timeout]. by erewrite run_bind by exact Hs.
Qed.

(** Recursive calls. *)
Lemma with_u_same Q h n : mutex_rep Q h n -> with_u (uxRecursiveCallCount n) Q = Q.
Proof. intros [_ _ _ _ H _ _]. unfold with_u. rewrite <- H. by destruct Q. Qed.

Lemma repeatedly_snoc {A} n (m : K A) k l k1 a k2 : repeatedly n m k = Ret (l, k1) -> m k1 = Ret (a, k2) ->
  repeatedly (S n) m k = Ret (l ++ [a], k2).
Proof.
  revert k l. induction n as [| n IH]; intros k l Hr Ha; cbn [repeatedly] in *.
  - injection Hr as <- <-. by erewrite run_bind by exact Ha.
  - destruct (m k) as [[x kx] |] eqn:Em; [| by unfold mbind, st_bind in Hr; rewrite Em in Hr].
    erewrite run_bind in Hr by exact Em. destruct (repeatedly n m kx) as [[l' k'] |] eqn:El; [| by unfold mbind, st_bind in Hr; rewrite El in Hr].
    erewrite run_bind in Hr by exact El. injection Hr as <- <-. specialize (IH kx l' El Ha). cbn [repeatedly] in IH.
    erewrite run_bind by exact Em. by erewrite run_bind by exact IH.
Qed.

Section recursive.
Context (k : kernel) (q : Z) (t : Z) (Hcur : pxCurrentTCB k (xPortGetCoreID k) = Some t).

(** The holder counts up and down. *)
Lemma held_take Q n ticks : queues k !! q = Some Q -> mutex_rep Q (Some t) n -> 0 <= n < 2 ^ 32 - 1 ->
  xQueueTakeMutexRecursive q ticks k = Ret (inl true, with_queue q (with_u (uxRecursiveCallCount (n + 1)) Q) k).
Proof using Hcur.
  intros Hq Hm Hn. unfold xQueueTakeMutexRecursive. rewrite (mutex_holder_test k q Q (Some t) n Hq Hm). erewrite run_bind by done.
  rewrite bool_decide_true by done. erewrite run_bind by (by eapply add_call_count_run). by rewrite wrap_u_small by lia.
Qed.
Lemma held_give Q n : queues k !! q = Some Q -> mutex_rep Q (Some t) n -> 1 < n < 2 ^ 32 ->
  xQueueGiveMutexRecursive q k = Ret (true, with_queue q (with_u (uxRecursiveCallCount (n - 1)) Q) k).
Proof using Hcur.
  intros Hq Hm Hn. unfold xQueueGiveMutexRecursive. rewrite (mutex_holder_test k q Q (Some t) n Hq Hm). erewrite run_bind by done.
  rewrite bool_decide_true by done. erewrite run_bind by (by eapply add_call_count_run).
  replace (wrap_u 32 (n + -1)) with (n - 1) by (rewrite wrap_u_small; lia).
  rewrite (proj2 (Z.eqb_neq _ _)) by lia. by erewrite run_bind by done.
Qed.
End recursive.

Lemma held_takes q t ticks : forall m k Q n, pxCurrentTCB k (xPortGetCoreID k) = Some t -> queues k !! q = Some Q ->
  mutex_rep Q (Some t) n -> 0 <= n -> n + Z.of_nat m < 2 ^ 32 ->
  repeatedly m (take_recursive_now q ticks) k = Ret (replicate m true, with_queue q (with_u (uxRecursiveCallCount (n + Z.of_nat m)) Q) k).
Proof.
  induction m as [| m IH]; intros k Q n Hcur Hq Hm Hn Hb.
  - cbn. rewrite Z.add_0_r. rewrite (with_u_same Q (Some t) n Hm).
    unfold mret, st_ret, with_queue. rewrite insert_id by done. by destruct k.
  - cbn [repeatedly]. erewrite run_bind.
    2:{ unfold take_recursive_now. erewrite run_bind by (eapply held_take; [exact Hcur | exact Hq | exact Hm | lia]). reflexivity. }
    erewrite run_bind by (eapply (IH _ (with_u (uxRecursiveCallCount (n + 1)) Q) (n + 1)); [exact Hcur | apply with_queue_lookup | by eapply mutex_with_count | lia..]).
    rewrite with_queue_twice. by replace (n + 1 + Z.of_nat m) with (n + Z.of_nat (S m)) by lia.
Qed.

Lemma held_gives q t : forall m k Q n, pxCurrentTCB k (xPortGetCoreID k) = Some t -> queues k !! q = Some Q ->
  mutex_rep Q (Some t) n -> Z.of_nat m < n < 2 ^ 32 ->
  repeatedly m (xQueueGiveMutexRecursive q) k = Ret (replicate m true, with_queue q (with_u (uxRecursiveCallCount (n - Z.of_nat m)) Q) k).
Proof.
  induction m as [| m IH]; intros k Q n Hcur Hq Hm Hn.
  - cbn. rewrite Z.sub_0_r. rewrite (with_u_same Q (Some t) n Hm).
    unfold mret, st_ret, with_queue. rewrite insert_id by done. by destruct k.
  - cbn [repeatedly]. erewrite run_bind by (eapply held_give; [exact Hcur | exact Hq | exact Hm | lia]).
    erewrite run_bind by (eapply (IH _ (with_u (uxRecursiveCallCount (n - 1)) Q) (n - 1)); [exact Hcur | apply with_queue_lookup | by eapply mutex_with_count | lia..]).
    rewrite with_queue_twice. by replace (n - 1 - Z.of_nat m) with (n - Z.of_nat (S m)) by lia.
Qed.

Section recursive_spec.
Context (k : kernel) (q : Z) (Q : Queue_t) (t : Z) (c : TCB_t).
Context (Hk : kwf k) (Hp : placed k) (Hq : queues k !! q = Some Q).
Context (Hcur : pxCurrentTCB k (xPortGetCoreID k) = Some t) (Ht : tcbs k !! t = Some c) (Hev : container (xEventListItem c) = None).

(** The first take goes through the queue and counts at its end. *)
Lemma first_take ticks n : mutex_rep Q None n -> 0 <= n < 2 ^ 32 - 1 ->
  uxSchedulerSuspended k (xPortGetCoreID k) = 0 \/ ticks = 0 ->
  exists Q' k' c', take_recursive_now q ticks k = Ret (true, k') /\ queues k' = <[q := Q']> (queues k) /\ mutex_rep Q' (Some t) (n + 1) /\
    kwf k' /\ placed k' /\ pxCurrentTCB k' (xPortGetCoreID k') = Some t /\ tcbs k' !! t = Some c' /\
    container (xEventListItem c') = None /\ uxMutexesHeld c' = wrap_u 32 (uxMutexesHeld c + 1).
Proof using Hk Hp Hq Hcur Ht Hev.
  intros Hm Hn Hs.
  destruct (mutex_take_run k q Q t c Hk Hp Hq Hcur Ht Hev n ticks None Hm) as (Q1 & k1 & Hr & Hqs & Hm1 & Hk1 & Hp1 & (E1 & E2) & c1 & Hc1 & Hmu & _ & Eev).
  assert (queues k1 !! q = Some Q1) as Hq1 by (by rewrite Hqs, lookup_insert_eq).
  exists (with_u (uxRecursiveCallCount (n + 1)) Q1), (with_queue q (with_u (uxRecursiveCallCount (n + 1)) Q1) k1), c1.
  assert (xQueueTakeMutexRecursive q ticks k = Ret (inr (mkCall (Receive false) q ticks None AtTry), k)) as He.
  { unfold xQueueTakeMutexRecursive. rewrite (mutex_holder_test k q Q None n Hq Hm). erewrite run_bind by done.
    rewrite bool_decide_false by congruence. unfold xQueueGenericReceive. rewrite run_assoc. erewrite run_bind.
    2:{ unfold buffer_assert. erewrite run_bind by (by apply get_queue_run). rewrite (m_size _ _ _ Hm). apply assert_true. done. }
    rewrite run_assoc. erewrite run_bind; [done |]. unfold suspended_assert. erewrite run_bind by done. apply assert_true.
    destruct Hs as [-> | ->]; cbn; [by rewrite andb_false_r | by rewrite andb_false_r]. }
  split_and!.
  - unfold take_recursive_now. erewrite run_bind by exact He. cbv beta iota. erewrite run_bind.
    2:{ unfold call_step. cbn [c_request c_pc c_queue c_ticks c_timeout]. erewrite run_bind by exact Hr. done. }
    cbn [after]. unfold take_recursive_end. cbv beta iota. rewrite run_assoc. erewrite run_bind by (by eapply add_call_count_run).
    rewrite wrap_u_small by lia. done.
  - cbn. by rewrite Hqs, insert_insert_eq.
  - by eapply mutex_with_count.
  - by apply with_queue_kwf.
  - done.
  - cbn. by rewrite E1, E2.
  - done.
  - by rewrite Eev.
  - done.
Qed.

(** As many gives as takes free the mutex. *)
Lemma takes_and_gives ticks m : mutex_rep Q None 0 -> (0 < m)%nat -> Z.of_nat m < 2 ^ 32 -> 0 <= uxMutexesHeld c < 2 ^ 32 - 1 ->
  uxSchedulerSuspended k (xPortGetCoreID k) = 0 \/ ticks = 0 ->
  exists Q1 k1 Q2 k2, repeatedly m (take_recursive_now q ticks) k = Ret (replicate m true, k1) /\
    queues k1 = <[q := Q1]> (queues k) /\ mutex_rep Q1 (Some t) (Z.of_nat m) /\
    repeatedly m (xQueueGiveMutexRecursive q) k1 = Ret (replicate m true, k2) /\
    queues k2 = <[q := Q2]> (queues k) /\ mutex_rep Q2 None 0.
Proof using Hk Hp Hq Hcur Ht Hev.
  intros Hm Hm0 Hb Hmu Hs. destruct m as [| m]; [lia |].
  destruct (first_take ticks 0 Hm ltac:(lia) Hs) as (Q' & k' & c' & Hr & Hqs & Hm1 & Hk' & Hp' & Hcur' & Hc' & Hev' & Hmu').
  assert (queues k' !! q = Some Q') as Hq' by (by rewrite Hqs, lookup_insert_eq).
  set (Q1 := with_u (uxRecursiveCallCount (1 + Z.of_nat m)) Q'). set (k1 := with_queue q Q1 k').
  assert (mutex_rep Q1 (Some t) (1 + Z.of_nat m)) as HQ1 by (by eapply mutex_with_count).
  set (Qa := with_u (uxRecursiveCallCount (1 + Z.of_nat m - Z.of_nat m)) Q1). set (ka := with_queue q Qa k1).
  assert (mutex_rep Qa (Some t) 1) as HQa by (replace 1 with (1 + Z.of_nat m - Z.of_nat m) at 1 by lia; by eapply mutex_with_count).
  set (Qb := with_u (uxRecursiveCallCount 0) Qa). set (kb := with_queue q Qb ka).
  assert (mutex_rep Qb (Some t) 0) as HQb by (by eapply mutex_with_count).
  destruct (mutex_give_run kb q Qb t c' (with_queue_kwf _ _ _ (with_queue_kwf _ _ _ (with_queue_kwf _ _ _ Hk'))) Hp' (with_queue_lookup _ _ _) Hcur' Hc' Hev' 0 0 None HQb)
    as (Q2 & k2 & Hg & Hq2 & HQ2 & _); [rewrite Hmu', wrap_u_small; lia |].
  exists Q1, k1, Q2, k2. split_and!.
  - cbn [repeatedly]. erewrite run_bind by exact Hr.
    by erewrite run_bind by (eapply (held_takes q t ticks m k' Q' 1); [done | done | exact Hm1 | lia..]).
  - cbn. by rewrite Hqs, insert_insert_eq.
  - by replace (Z.of_nat (S m)) with (1 + Z.of_nat m) by lia.
  - rewrite replicate_S_end. apply (repeatedly_snoc m _ k1 _ ka).
    + apply (held_gives q t m k1 Q1 (1 + Z.of_nat m)); [done | apply with_queue_lookup | done | lia].
    + unfold xQueueGiveMutexRecursive. rewrite (mutex_holder_test ka q Qa (Some t) 1 (with_queue_lookup _ _ _) HQa). erewrite run_bind by done.
      rewrite bool_decide_true by done. erewrite run_bind by (eapply add_call_count_run; [apply with_queue_lookup | exact HQa]).
      change (wrap_u 32 (1 + -1)) with 0. fold Qb kb. change (0 =? 0) with true. cbv iota.
      by rewrite (run_bind _ _ kb tt k2)
        by (by erewrite run_bind by (apply (send_now_run _ q Qb (Some t) 0 k2 true); [apply with_queue_lookup | done | exact Hg])).
  - rewrite Hq2. cbn. by rewrite !insert_insert_eq, Hqs, insert_insert_eq.
  - done.
Qed.
End recursive_spec.

(** C21. Mutexes, for the running task [t].  A free mutex is taken by [t], which
    counts it; a held one is reported busy without a change, or, when [t] goes
    on to wait, [t] is put on the wait list, is no longer ready, and the holder
    has at least the priority of [t] from then on (it stays ready).  When the
    holder gives the mutex it becomes free, the first waiter leaves the wait
    list, and with the last mutex the holder's priority is the base priority
    again.  Recursive calls of the holder only count, and a task that does not
    hold the mutex cannot give it.  A free mutex whose count is zero is taken m
    times recursively, m below 2^32, with the count then m, and m recursive gives
    free it. *)
Theorem mutex_spec k q Q t c n h ticks set :
  kwf k -> placed k -> queues k !! q = Some Q -> pxCurrentTCB k (xPortGetCoreID k) = Some t -> tcbs k !! t = Some c ->
  container (xEventListItem c) = None -> 0 <= n < 2 ^ 32 - 1 -> mutex_rep Q h n ->
  (h = None ->
    exists Q' k' c', receive_section q ticks false set k = Ret (Returned (true, []), k') /\ kwf k' /\ placed k' /\
      queues k' = <[q := Q']> (queues k) /\ mutex_rep Q' (Some t) n /\ tcbs k' !! t = Some c' /\
      uxMutexesHeld c' = wrap_u 32 (uxMutexesHeld c + 1)) /\
  (forall o ch, h = Some o -> o <> t -> tcbs k !! o = Some ch ->
    (ticks = 0 -> receive_section q ticks false set k = Ret (Returned (false, []), k)) /\
    (forall to to' ticks', xTaskCheckForTimeOut to ticks k = Ret ((false, to', ticks'), k) ->
      exists k' ch', receive_wait_section q ticks to k = Ret (Blocked to' ticks', k') /\ kwf k' /\ placed k' /\
        queues k' = queues k /\ t ∈ klists k' (xTasksWaitingToReceive q) /\ ~ is_ready k' t /\
        (is_ready k o -> is_ready k' o) /\ tcbs k' !! o = Some ch' /\
        uxPriority ch' = Z.max (uxPriority ch) (uxPriority c)) /\
    xQueueGiveMutexRecursive q k = Ret (false, k)) /\
  (h = Some t -> 0 < uxMutexesHeld c < 2 ^ 32 ->
    (exists Q' k' c', send_section q None ticks queueSEND_TO_BACK set k = Ret (Returned true, k') /\ kwf k' /\ placed k' /\
      queues k' = <[q := Q']> (queues k) /\ mutex_rep Q' None n /\
      klists k' (xTasksWaitingToReceive q) = List.tl (klists k (xTasksWaitingToReceive q)) /\
      tcbs k' !! t = Some c' /\ uxMutexesHeld c' = uxMutexesHeld c - 1 /\
      (uxMutexesHeld c = 1 -> uxPriority c' = uxBasePriority c)) /\
    (exists Q', xQueueTakeMutexRecursive q ticks k = Ret (inl true, with_queue q Q' k) /\ mutex_rep Q' (Some t) (n + 1)) /\
    (1 < n -> exists Q', xQueueGiveMutexRecursive q k = Ret (true, with_queue q Q' k) /\ mutex_rep Q' (Some t) (n - 1)) /\
    (n = 1 -> exists Q' k', xQueueGiveMutexRecursive q k = Ret (true, k') /\ queues k' = <[q := Q']> (queues k) /\
      mutex_rep Q' None 0)) /\
  (forall m, h = None -> n = 0 -> (0 < m)%nat -> Z.of_nat m < 2 ^ 32 -> 0 <= uxMutexesHeld c < 2 ^ 32 - 1 ->
    uxSchedulerSuspended k (xPortGetCoreID k) = 0 \/ ticks = 0 ->
    exists Q1 k1 Q2 k2, repeatedly m (take_recursive_now q ticks) k = Ret (replicate m true, k1) /\
      queues k1 = <[q := Q1]> (queues k) /\ mutex_rep Q1 (Some t) (Z.of_nat m) /\
      repeatedly m (xQueueGiveMutexRecursive q) k1 = Ret (replicate m true, k2) /\
      queues k2 = <[q := Q2]> (queues k) /\ mutex_rep Q2 None 0).
Proof.
  intros Hk Hp Hq Hcur Ht Hev Hn Hm. split_and!.
  - intros ->. destruct (mutex_take_run k q Q t c Hk Hp Hq Hcur Ht Hev n ticks set Hm) as (Q' & k' & ? & ? & ? & ? & ? & ? & c' & ? & ? & ? & ?).
    by exists Q', k', c'.
  - intros o ch -> Hne Hch. split_and!.
    + intros ->. exact (mutex_busy k q Q Hq n o 0 set Hm).
    + intros to to' ticks' Hto.
      destruct (mutex_wait_run k q Q t c Hk Hp Hq Hcur Ht Hev n o ch ticks to to' ticks' Hm Hne Hch Hto) as (k' & ? & ? & ? & ? & ? & ? & ? & ch' & ? & ? & ?).
      by exists k', ch'.
    + unfold xQueueGiveMutexRecursive. rewrite (mutex_holder_test k q Q (Some o) n Hq Hm). erewrite run_bind by done.
      rewrite bool_decide_false by congruence. done.
  - intros -> Hmu. split_and!.
    + destruct (mutex_give_run k q Q t c Hk Hp Hq Hcur Ht Hev n ticks set Hm Hmu) as (Q' & k' & ? & ? & ? & ? & ? & ? & c' & ? & ? & Hpr).
      exists Q', k', c'. split_and!; try done. intros E. by rewrite Hpr, E.
    + eexists. split; [by apply (held_take k q t Hcur Q n) | by eapply mutex_with_count].
    + intros Hn1. eexists. split; [apply (held_give k q t Hcur Q n); [done.. | lia] | by eapply mutex_with_count].
    + intros ->. set (Q1 := with_u (uxRecursiveCallCount 0) Q).
      assert (mutex_rep Q1 (Some t) 0) as Hm1 by (by eapply mutex_with_count).
      destruct (mutex_give_run (with_queue q Q1 k) q Q1 t c (with_queue_kwf _ _ _ Hk) Hp (with_queue_lookup _ _ _) Hcur Ht Hev 0 0 None Hm1 Hmu)
        as (Q' & k' & Hs & Hqs & Hm' & _).
      exists Q', k'. split_and!; [| by rewrite Hqs; cbn; rewrite insert_insert_eq | done].
      unfold xQueueGiveMutexRecursive. rewrite (mutex_holder_test k q Q (Some t) 1 Hq Hm). erewrite run_bind by done.
      rewrite bool_decide_true by done. erewrite run_bind by (by eapply add_call_count_run).
      change (wrap_u 32 (1 + -1)) with 0. fold Q1. change (0 =? 0) with true. cbv iota.
      by rewrite (run_bind _ _ (with_queue q Q1 k) tt k')
        by (by erewrite run_bind by (apply (send_now_run _ q Q1 (Some t) 0 k' true); [apply with_queue_lookup | done | exact Hs])).
  - intros m -> -> Hm0 Hb Hmu Hs. by apply (takes_and_gives k q Q t c Hk Hp Hq Hcur Ht Hev).
Qed.

(** * The theorems at work *)

Lemma queue_refinement_witness :
  let Q := new_queue 2 1 2 false in let k := two_tasks 0 {[7 := Q]} ∅ in
  queue_rep Q [] /\ exists k', send_section 7 (Some [65]) 0 queueSEND_TO_BACK None k = Ret (Returned true, k') /\
    becomes 7 Q [[65]] k k'.
Proof.
  intros Q k. assert (queue_rep Q []) as Hr by (apply (new_queue_rep 2 1); lia). split; [exact Hr |].
  destruct (queue_refinement k 7 Q [] (Some [65]) queueSEND_TO_BACK 0 None None) as (H & _).
  - apply two_tasks_kwf.
  - apply two_tasks_placed.
  - cbn. apply lookup_singleton_eq.
  - exact Hr.
  - reflexivity.
  - reflexivity.
  - apply H. split; [| split].
    + intros _. exists [65]. split; [reflexivity | cbv; discriminate].
    + left. reflexivity.
    + cbv. reflexivity.
Defined.

Lemma xQueueGenericCreate_spec_witness :
  let k := two_tasks 0 ∅ ∅ in
  (exists k' Q, xQueueGenericCreate (fun _ => Some 7) 3 4 k = Ret (Some 7, k') /\ queue_rep Q [] /\ uxLength Q = 3) /\
  (exists k' Q, xQueueGenericCreate (fun _ => Some 7) (2 ^ 31) 4 k = Ret (Some 7, k') /\ zlen (storage Q) < uxLength Q * uxItemSize Q).
Proof.
  intros k.
  assert (fresh k 7) as Hf by (split; reflexivity).
  split.
  - destruct (xQueueGenericCreate_spec (fun _ => Some 7) k 7 3 4 (two_tasks_kwf 0 ∅ ∅) (two_tasks_placed 0 ∅ ∅) Hf ltac:(lia) ltac:(lia))
      as (_ & _ & H & _).
    destruct (H ltac:(lia) ltac:(lia) eq_refl) as (k' & Q & Hr & _ & Hq & HL & _). exists k', Q. tauto.
  - destruct (xQueueGenericCreate_spec (fun _ => Some 7) k 7 (2 ^ 31) 4 (two_tasks_kwf 0 ∅ ∅) (two_tasks_placed 0 ∅ ∅) Hf ltac:(lia) ltac:(lia))
      as (_ & _ & _ & H & _).
    destruct (H ltac:(lia) eq_refl) as (k' & Q & Hr & _ & _ & _ & _ & HL). exists k', Q. tauto.
Defined.

(** A mutex that task 1 holds. *)
Definition held_mutex : Queue_t := mkQueue true (pxMutexHolder (Some 1)) 0 (uxRecursiveCallCount 1) 0 1 0 false None [].

Definition free_mutex : Queue_t := mkQueue true (pxMutexHolder None) 0 (uxRecursiveCallCount 0) 1 1 0 false None [].

Lemma mutex_spec_witness :
  (let k := two_tasks 1 {[7 := held_mutex]} ∅ in
   mutex_rep held_mutex (Some 1) 1 /\
   exists Q' k', xQueueGiveMutexRecursive 7 k = Ret (true, k') /\ queues k' = <[7 := Q']> (queues k) /\ mutex_rep Q' None 0) /\
  (let k := two_tasks 0 {[7 := free_mutex]} ∅ in
   exists Q1 k1 Q2 k2, repeatedly 3 (take_recursive_now 7 0) k = Ret ([true; true; true], k1) /\ mutex_rep Q1 (Some 1) 3 /\
     repeatedly 3 (xQueueGiveMutexRecursive 7) k1 = Ret ([true; true; true], k2) /\
     queues k2 = <[7 := Q2]> (queues k) /\ mutex_rep Q2 None 0).
Proof.
  split.
  - intros k. assert (mutex_rep held_mutex (Some 1) 1) as Hm by (split; reflexivity). split; [exact Hm |].
    destruct (mutex_spec k 7 held_mutex 1 (ready_tcb 0 1) 1 (Some 1) 0 None) as (_ & _ & H & _);
      [apply two_tasks_kwf | apply two_tasks_placed | cbn; apply lookup_singleton_eq | reflexivity | apply two_tasks_1 | reflexivity | lia | exact Hm |].
    destruct (H eq_refl ltac:(cbn; lia)) as (_ & _ & _ & H'). apply H'. reflexivity.
  - intros k. assert (mutex_rep free_mutex None 0) as Hm by (split; reflexivity).
    destruct (mutex_spec k 7 free_mutex 1 (ready_tcb 0 0) 0 None 0 None) as (_ & _ & _ & H);
      [apply two_tasks_kwf | apply two_tasks_placed | cbn; apply lookup_singleton_eq | reflexivity | apply two_tasks_1 | reflexivity | lia | exact Hm |].
    destruct (H 3%nat eq_refl eq_refl ltac:(lia) ltac:(lia) ltac:(cbn; lia) (or_introl eq_refl)) as (Q1 & k1 & Q2 & k2 & H1 & _ & H2 & H3 & H4 & H5).
    exists Q1, k1, Q2, k2. auto.
Defined.
