(* ===== verification/FreeRtosWaiting.v ===== *)
(** Tasks, interrupts and the tick on the queues of FreeRtosQueue: the
    interleaving of the critical sections, and the theorem that no wake-up is
    lost. *)

From S2P Require Import Prelude FreeRtosList FreeRtosTasks FreeRtosTime FreeRtosQueue.

(** * What the sections do, read off a run *)

(** The counts of a queue that is in no set. *)
Definition qok (Q : Queue_t) : Prop :=
  0 <= uxMessagesWaiting Q <= uxLength Q /\ uxLength Q < 2 ^ 32 /\ pxQueueSetContainer Q = None.

Record sysk (k : kernel) : Prop := {
  y_kwf : kwf k; y_placed : placed k; y_quiet : quiet k;
  y_held t c : tcbs k !! t = Some c -> 0 <= uxMutexesHeld c < 2 ^ 32;
  y_queues q Q : queues k !! q = Some Q -> qok Q }.

(** A post wakes from [l] and leaves queue [q] as [Q']. *)
Record eff (l : list_id) (q : Z) (Q Q' : Queue_t) (k k' : kernel) : Prop := {
  e_sysk : sysk k';
  e_queues : queues k' = <[q := Q']> (queues k);
  e_length : uxLength Q' = uxLength Q;
  e_list : klists k' l = List.tl (klists k l);
  e_others m : wait_list m -> m <> l -> klists k' m = klists k m;
  e_awake y : awake k y -> awake k' y;
  e_woken t rest : klists k l = t :: rest -> awake k' t }.

(** The task [t] goes to the list [l]. *)
Record blocks (l : list_id) (t : Z) (k k' : kernel) : Prop := {
  b_sysk : sysk k';
  b_queues : queues k' = queues k;
  b_new : t ∉ klists k l;
  b_list : klists k' l ≡ₚ t :: klists k l;
  b_others m : wait_list m -> m <> l -> klists k' m = klists k m;
  b_awake y : y <> t -> awake k y -> awake k' y }.

Lemma get_queue_inv q k Q k' : get_queue q k = Ret (Q, k') -> k' = k /\ queues k !! q = Some Q.
Proof. unfold get_queue, mbind, st_bind, get, need. destruct (queues k !! q); [by intros [= <- <-] | discriminate]. Qed.

Lemma lift_inv {A} (m : res A) k a k' : lift m k = Ret (a, k') -> m = Ret a /\ k' = k.
Proof. unfold lift. destruct m; [by intros [= <- <-] | discriminate]. Qed.

Ltac queue_inv H Hq :=
  let H1 := fresh in let E := fresh in
  run_inv H; match goal with H0 : get_queue _ _ = Ret _ |- _ => apply get_queue_inv in H0 as [E H1]; rewrite Hq in H1; injection H1 as <-; subst end.

Lemma copy_in_fields item pos Q Q' : copy_in item pos Q = Ret Q' ->
  uxLength Q' = uxLength Q /\ pxQueueSetContainer Q' = pxQueueSetContainer Q /\ pcHead_is_NULL Q' = pcHead_is_NULL Q /\
  uxMessagesWaiting Q' = (if (pos =? queueOVERWRITE) && (0 <? uxMessagesWaiting Q) then wrap_u 32 (uxMessagesWaiting Q - 1) else uxMessagesWaiting Q).
Proof.
  unfold copy_in. intros H. res_inv. destruct (Z.eqb_spec pos queueSEND_TO_BACK) as [-> | Hp]; res_inv; [done |].
  cbn [uxMessagesWaiting with_read]. by destruct (_ && _).
Qed.

Lemma copy_out_fields Q item Q' : copy_out Q = Ret (item, Q') ->
  uxLength Q' = uxLength Q /\ pxQueueSetContainer Q' = pxQueueSetContainer Q /\ pcHead_is_NULL Q' = pcHead_is_NULL Q /\
  uxMessagesWaiting Q' = uxMessagesWaiting Q /\ with_u (u_union Q) Q' = Q.
Proof.
  unfold copy_out. destruct (uxItemSize Q =? 0); intros H; res_inv; simplify_eq; split_and!; try done;
    match goal with |- with_u _ _ = ?X => by destruct X end.
Qed.

(** ** Preservation of [sysk] *)

Lemma sysk_queue k q Q : sysk k -> qok Q -> sysk (with_queue q Q k).
Proof.
  intros [] HQ. split; try done; [by apply with_queue_kwf |].
  intros p P. cbn. destruct (decide (p = q)) as [-> |].
  - rewrite lookup_insert_eq. by intros [= <-].
  - rewrite lookup_insert_ne by done. by apply y_queues0.
Qed.

Lemma frame_held k k' : frame k k' -> (forall t c, tcbs k !! t = Some c -> 0 <= uxMutexesHeld c < 2 ^ 32) ->
  forall t c, tcbs k' !! t = Some c -> 0 <= uxMutexesHeld c < 2 ^ 32.
Proof.
  intros Hf Hh t c' Hc'. destruct (tcbs k !! t) as [c |] eqn:E.
  - destruct (f_tcb _ _ Hf t c E) as (c1 & Hc1 & _ & _ & _ & Hm & _). rewrite Hc1 in Hc'. injection Hc' as <-.
    rewrite Hm. by apply (Hh t).
  - rewrite (f_none _ _ Hf t E) in Hc'. discriminate.
Qed.

Lemma sysk_woken l k k' : sysk k -> woken_one l k k' -> sysk k'.
Proof.
  intros [] Hw. pose proof Hw as []. split; [done | done | auto | by eapply frame_held |].
  by rewrite (f_queues _ _ w_frame).
Qed.

Lemma sysk_only h c k k' : sysk k -> tcbs k !! h = Some c -> only_task h k k' -> kwf k' -> placed k' ->
  (is_ready k h \/ (is_ready k' h -> is_ready k h)) -> sysk k'.
Proof.
  intros [] Hc Ho Hk' Hp' Hr. destruct (o_tcb _ _ _ Ho c Hc) as (c' & Hc' & _ & _ & Hev & Hrange).
  split; try done.
  - apply (quiet_step h k k'); try done; [apply Ho |].
    assert (container (xEventListItem c) = None \/ ~ is_ready k h) as [E | E].
    { destruct (container (xEventListItem c)) as [l |] eqn:E; [right | by left].
      pose proof (k_kind k y_kwf0 h c event_item l Hc E) as Hl. apply (y_quiet0 l h Hl).
      apply (k_in k y_kwf0). exists c. by rewrite Hl. }
    + left. intros x Hx. rewrite Hc' in Hx. injection Hx as <-. by rewrite Hev.
    + right. intros Hr'. destruct Hr as [Hr | Hr]; auto.
  - intros t x Hx. destruct (decide (t = h)) as [-> | Hne].
    + rewrite Hc' in Hx. injection Hx as <-. by apply Hrange, (y_held0 h).
    + rewrite (o_tcbs _ _ _ Ho) in Hx by done. by apply (y_held0 t).
  - by rewrite (o_queues _ _ _ Ho).
Qed.

(** What the callers respect: a mutex is given by its holder, which runs, and
    only a queue of one item that holds data is overwritten. *)
Definition post_legal (k : kernel) (Q : Queue_t) (pos : Z) : Prop :=
  (pcHead_is_NULL Q = true -> forall h, tail_union Q = pxMutexHolder (Some h) -> is_ready k h) /\
  (pos = queueOVERWRITE -> uxLength Q = 1 /\ uxItemSize Q <> 0).

(** The count after a post. *)
Definition posted (pos : Z) (Q : Queue_t) : Z :=
  if (pos =? queueOVERWRITE) && (0 <? uxMessagesWaiting Q) then uxMessagesWaiting Q else uxMessagesWaiting Q + 1.

(** A change of queue [q] that touches no wait list. *)
Record touched (q : Z) (Q Q' : Queue_t) (k k' : kernel) : Prop := {
  t_sysk : sysk k'; t_queues : queues k' = <[q := Q']> (queues k); t_length : uxLength Q' = uxLength Q;
  t_lists m : kind_of m = event_item -> klists k' m = klists k m;
  t_core : xPortGetCoreID k' = xPortGetCoreID k;
  t_awake y : awake k y -> awake k' y }.

Lemma only_task_awake h k k' y : kwf k -> kwf k' -> only_task h k k' -> (is_ready k h -> is_ready k' h) -> awake k y -> awake k' y.
Proof.
  intros Hk Hk' Ho Hr [Hy | (core & Hy)]; [left | right; exists core; by rewrite (o_lists _ _ _ Ho)].
  destruct (decide (y = h)) as [-> | Hne]; [auto |]. destruct Hy as (c & p & Hc & E). exists c, p. by rewrite (o_tcbs _ _ _ Ho).
Qed.

Lemma disinherit_inv h k b k' : sysk k -> is_ready k h -> xTaskPriorityDisinherit (Some h) k = Ret (b, k') ->
  sysk k' /\ only_task h k k' /\ (forall y, awake k y -> awake k' y).
Proof.
  intros Hk Hr Hrun. pose proof Hk as [].
  assert (exists c, tcbs k !! h = Some c /\ uxMutexesHeld c <> 0) as (c & Hc & Hne).
  { unfold xTaskPriorityDisinherit in Hrun. run_inv Hrun. apply get_tcb_inv in Hrun0 as [-> Hc].
    run_inv Hrun. apply assert_inv in Hrun0 as [Hb _]. exists a. split; [done |]. intros E. by rewrite E in Hb. }
  pose proof (y_held0 h c Hc).
  destruct (xTaskPriorityDisinherit_run h c k y_kwf0 y_placed0 Hc ltac:(lia)) as (b1 & k1 & c1 & Hrun1 & Hk1 & Hp1 & Ho1 & Hr1 & _).
  rewrite Hrun in Hrun1. injection Hrun1 as <- <-. split; [| split; [done |]].
  - apply (sysk_only h c k k'); auto.
  - intros y. by apply (only_task_awake h).
Qed.

Lemma copy_effect q item pos k b k' Q : sysk k -> queues k !! q = Some Q -> post_legal k Q pos ->
  (uxMessagesWaiting Q <? uxLength Q) || (pos =? queueOVERWRITE) = true ->
  prvCopyDataToQueue q item pos k = Ret (b, k') ->
  exists Q', touched q Q Q' k k' /\ uxMessagesWaiting Q' = posted pos Q.
Proof.
  intros Hk Hq [Hm Ho] Hroom Hrun. pose proof (y_queues _ Hk q Q Hq) as (Hn & HL & Hc).
  assert (posted pos Q <= uxLength Q) as Hle.
  { unfold posted. destruct (Z.eqb_spec pos queueOVERWRITE) as [E | E]; cbn [andb].
    - destruct (Ho E). destruct (Z.ltb_spec 0 (uxMessagesWaiting Q)); lia.
    - rewrite orb_false_r in Hroom. apply Z.ltb_lt in Hroom. lia. }
  assert (0 <= posted pos Q) as Hge by (unfold posted; destruct (_ && _); lia).
  unfold prvCopyDataToQueue in Hrun. queue_inv Hrun Hq. run_inv Hrun.
  assert (exists k1 Q1, s = with_queue q Q1 k1 /\ touched q Q Q1 k (with_queue q Q1 k1) /\
    (forall n, qok (with_messages n Q1) <-> qok (with_messages n Q)) /\
    wrap_u 32 (uxMessagesWaiting Q1 + 1) = posted pos Q) as (k1 & Q1 & -> & Ht1 & Hok1 & Hcount).
  { destruct (Z.eqb_spec (uxItemSize Q) 0) as [E | E].
    - assert (wrap_u 32 (uxMessagesWaiting Q + 1) = posted pos Q) as Hcount.
      { unfold posted in *. destruct (Z.eqb_spec pos queueOVERWRITE) as [Eo | Eo]; [by destruct (Ho Eo) |]. cbn [andb] in *.
        apply wrap_u_small. lia. }
      destruct (pcHead_is_NULL Q) eqn:EN.
      + run_inv Hrun0. apply lift_inv in Hrun1 as [Hh ->]. run_inv Hrun0.
        unfold pxMutexHolder_of in Hh. destruct (tail_union Q) as [| h] eqn:Et; [discriminate |]. injection Hh as ->.
        assert (sysk s0 /\ queues s0 = queues k /\ (forall m, kind_of m = event_item -> klists s0 m = klists k m) /\ xPortGetCoreID s0 = xPortGetCoreID k /\
          (forall y, awake k y -> awake s0 y)) as (Hs0 & Hq0 & Hl0 & Hc0 & Ha0).
        { destruct a0 as [h |].
          - destruct (disinherit_inv h k a1 s0 Hk (Hm eq_refl h eq_refl) Hrun1) as (Hs0 & Ho0 & Ha0). split_and!; [done | apply Ho0.. | done].
          - injection Hrun1 as _ <-. done. }
        run_inv Hrun0. apply get_queue_inv in Hrun2 as [-> Hq1]. rewrite Hq0, Hq in Hq1. injection Hq1 as <-.
        injection Hrun0 as _ <-. exists s0, (with_tail (pxMutexHolder None) Q). split; [done |]. split; [| done].
        split; try done; [by apply sysk_queue | by unfold with_queue; cbn; rewrite Hq0].
      + injection Hrun0 as _ <-. exists k, Q. assert (k = with_queue q Q k) as Ek by (unfold with_queue; rewrite insert_id by done; by destruct k).
        split; [done |]. split; [| done]. rewrite <- Ek. split; try done. by rewrite insert_id.
    - run_inv Hrun0. destruct item as [bs |]; [| discriminate]. injection Hrun1 as <- <-.
      run_inv Hrun0. apply lift_inv in Hrun1 as [Hcp ->]. injection Hrun0 as _ <-.
      destruct (copy_in_fields _ _ _ _ Hcp) as (F1 & F2 & F3 & F4).
      assert (wrap_u 32 (uxMessagesWaiting a0 + 1) = posted pos Q) as Hcount.
      { rewrite F4. unfold posted in *. destruct (Z.eqb_spec pos queueOVERWRITE) as [Eo | Eo]; cbn [andb] in *.
        - destruct (Z.ltb_spec 0 (uxMessagesWaiting Q)); rewrite ?(wrap_u_small 32 (uxMessagesWaiting Q - 1)) by lia; rewrite wrap_u_small; lia.
        - apply wrap_u_small. lia. }
      exists k, a0. split; [done |]. split; [| split; [| done]].
      + split; try done. apply sysk_queue; [done |]. unfold qok. rewrite F1, F2. split_and!; [| | done |]; try done; rewrite F4; destruct (_ && _) eqn:Eb; try lia.
        all: apply andb_true_iff in Eb as [_ Eb%Z.ltb_lt]; rewrite wrap_u_small; lia.
      + intros n. unfold qok. cbn. by rewrite F1, F2. }
  run_inv Hrun. apply get_queue_inv in Hrun1 as [-> Hq1]. rewrite with_queue_lookup in Hq1. injection Hq1 as <-.
  injection Hrun as _ <-. exists (with_messages (posted pos Q) Q1). rewrite Hcount. split; [| done].
  pose proof Ht1 as []. split; try done.
  - apply sysk_queue; [done |]. apply Hok1. split_and!; try done; cbn; lia.
  - transitivity (<[q := with_messages (posted pos Q) Q1]> (queues (with_queue q Q1 k1))); [done |].
    by rewrite t_queues0, insert_insert_eq.
Qed.

Lemma woken_awake l k k' y : sysk k -> wait_list l -> woken_one l k k' -> awake k y -> awake k' y.
Proof.
  intros [] Hl Hw Ha. apply (awake_same k); [done | apply Hw | | done].
  apply (w_tcbs_out l); [done |]. by apply awake_not_waiting.
Qed.

Lemma woken_woken l k k' t rest : woken_one l k k' -> klists k l = t :: rest -> awake k' t.
Proof. intros Hw E. pose proof (w_ready _ _ _ Hw t rest E) as Hr. destruct (_ =? 0); [by left | right; by eexists]. Qed.

Lemma touched_woken l q Q Q' k k1 k' : wait_list l -> touched q Q Q' k k1 -> woken_one l k1 k' -> eff l q Q Q' k k'.
Proof.
  intros Hl [] Hw. pose proof Hw as []. assert (klists k1 l = klists k l) as El by apply t_lists0, Hl. split.
  - by eapply sysk_woken.
  - by rewrite (f_queues _ _ w_frame).
  - done.
  - by rewrite w_list, El.
  - intros m Hm Hne. rewrite w_others by done. apply t_lists0, Hm.
  - intros y Hy. apply (woken_awake l k1); auto.
  - intros t rest E. rewrite <- El in E. by eapply woken_woken.
Qed.

Lemma sysk_woken_none l k : sysk k -> klists k l = [] -> woken_one l k k.
Proof. intros [] E. by apply woken_none. Qed.

Lemma not_in_set (Q : Queue_t) : pxQueueSetContainer Q = None -> bool_decide (is_Some (pxQueueSetContainer Q)) = false.
Proof. intros ->. rewrite bool_decide_false; [done | by intros []]. Qed.

(** The wait list is read, and its first task woken by either kind of caller. *)
Lemma wake_inv l k u k' : sysk k -> wait_list l -> wake_one l k = Ret (u, k') -> woken_one l k k'.
Proof.
  intros [] Hl H. destruct (wake_one_run k l y_kwf0 y_placed0 Hl) as (k1 & Hr & Hw). rewrite H in Hr. by injection Hr as _ <-.
Qed.

Lemma post_effect q item pos k u k' Q : sysk k -> queues k !! q = Some Q -> post_legal k Q pos ->
  (uxMessagesWaiting Q <? uxLength Q) || (pos =? queueOVERWRITE) = true ->
  post_from_task q item pos k = Ret (u, k') ->
  exists Q', eff (xTasksWaitingToReceive q) q Q Q' k k' /\ uxMessagesWaiting Q' = posted pos Q.
Proof.
  intros Hk Hq Hl Hroom Hrun. unfold post_from_task in Hrun. run_inv Hrun.
  destruct (copy_effect q item pos k a s Q Hk Hq Hl Hroom Hrun0) as (Q' & Ht & Hn). pose proof Ht as [].
  assert (queues s !! q = Some Q') as Hq' by (rewrite t_queues0; apply lookup_insert_eq).
  destruct (y_queues _ t_sysk0 q Q' Hq') as (_ & _ & Hc).
  run_inv Hrun. apply get_queue_inv in Hrun1 as [-> Hq1]. rewrite Hq' in Hq1. injection Hq1 as <-.
  rewrite (not_in_set Q' Hc) in Hrun. run_inv Hrun. injection Hrun1 as <- <-.
  exists Q'. split; [| done]. apply (touched_woken _ _ _ _ k s); [done | done |].
  destruct (klists s (xTasksWaitingToReceive q)) as [| w ws] eqn:E.
  - assert (woken_one (xTasksWaitingToReceive q) s s) as Hw by (by apply sysk_woken_none).
    unfold when in Hrun. destruct a; injection Hrun as _ <-; [| done]. eapply woken_yields; [done | apply only_yields_add].
  - eapply wake_inv; [done | done | exact Hrun].
Qed.

Lemma notify_effect q pos woken k w k' : sysk k -> notify_from_isr q pos woken k = Ret (w, k') ->
  woken_one (xTasksWaitingToReceive q) k k'.
Proof.
  intros Hk Hrun. pose proof Hk as [Hk1 Hp1 _ _ Hq1]. unfold notify_from_isr in Hrun. run_inv Hrun. apply get_queue_inv in Hrun0 as [-> Hq].
  destruct (Hq1 q a Hq) as (_ & _ & Hc).
  destruct (notify_from_isr_run k q a pos woken Hk1 Hp1 Hq Hc) as (k1 & w1 & Hr & Hw).
  unfold notify_from_isr in Hr. erewrite run_bind in Hr by (by apply get_queue_run). rewrite Hrun in Hr. by injection Hr as _ <-.
Qed.

(** ** Taking *)

Lemma taken_ok Q Q' : qok Q -> 0 < uxMessagesWaiting Q -> uxLength Q' = uxLength Q -> pxQueueSetContainer Q' = pxQueueSetContainer Q ->
  uxMessagesWaiting Q' = uxMessagesWaiting Q -> qok (with_messages (wrap_u 32 (uxMessagesWaiting Q' - 1)) Q') /\
  wrap_u 32 (uxMessagesWaiting Q' - 1) = uxMessagesWaiting Q - 1.
Proof. intros (Hn & HL & Hc) Hm E1 E2 E3. rewrite E3, wrap_u_small by lia. unfold qok. cbn. rewrite E1, E2. split_and!; done || lia. Qed.

Lemma copy_from_inv q k item k' Q : queues k !! q = Some Q -> prvCopyDataFromQueue q k = Ret (item, k') ->
  exists Q1, k' = with_queue q Q1 k /\ uxLength Q1 = uxLength Q /\ pxQueueSetContainer Q1 = pxQueueSetContainer Q /\
    pcHead_is_NULL Q1 = pcHead_is_NULL Q /\ uxMessagesWaiting Q1 = uxMessagesWaiting Q /\ with_u (u_union Q) Q1 = Q.
Proof.
  intros Hq Hrun. unfold prvCopyDataFromQueue in Hrun. queue_inv Hrun Hq. run_inv Hrun. destruct a as [it Q1].
  apply lift_inv in Hrun0 as [Hc ->]. injection Hrun as _ <-. exists Q1. split; [done |]. by apply (copy_out_fields Q it Q1).
Qed.

(** The running task becomes the holder of a mutex it received. *)
Lemma mutex_taken q Q Q2 k u k' : sysk (with_queue q Q2 k) -> uxLength Q2 = uxLength Q ->
  (h ← pvTaskIncrementMutexHeldCount; Q ← get_queue q; put_queue q (with_tail (pxMutexHolder h) Q)) (with_queue q Q2 k) = Ret (u, k') ->
  exists Q3, touched q Q Q3 k k' /\ uxMessagesWaiting Q3 = uxMessagesWaiting Q2.
Proof.
  intros Hk2 HL Hrun. set (k2 := with_queue q Q2 k) in *.
  assert (exists t c, pxCurrentTCB k2 (xPortGetCoreID k2) = Some t /\ tcbs k2 !! t = Some c) as (t & c & Hcur & Hc)
    by (apply (k_current k2); [apply Hk2 | apply (k_core k2), Hk2]).
  destruct (pvTaskIncrementMutexHeldCount_run t c k2) as (k3 & Hr3 & Hk3 & Hp3 & Ho3 & Hre3 & _); [apply Hk2 | apply Hk2 | done | done |].
  erewrite run_bind in Hrun by exact Hr3.
  assert (queues k3 !! q = Some Q2) as Hq3 by (rewrite (o_queues _ _ _ Ho3); apply with_queue_lookup).
  erewrite run_bind in Hrun by (by apply get_queue_run). injection Hrun as _ <-.
  exists (with_tail (pxMutexHolder (Some t)) Q2). split; [| done].
  assert (sysk k3) as Hs3 by (apply (sysk_only t c k2); try done; right; apply Hre3).
  split.
  - apply sysk_queue; [done |]. by apply (y_queues k3 Hs3 q Q2).
  - cbn. rewrite (o_queues _ _ _ Ho3). cbn. by rewrite insert_insert_eq.
  - done.
  - intros m Hm. cbn. by rewrite (o_lists _ _ _ Ho3).
  - cbn. by rewrite (o_core _ _ _ Ho3).
  - intros y Hy. apply (only_task_awake t k2 k3 y); [apply Hk2 | done | done | apply Hre3 | exact Hy].
Qed.

(** A message received, by the running task. *)
Lemma receive_effect q ticks set k e k' Q : sysk k -> queues k !! q = Some Q ->
  receive_section q ticks false set k = Ret (e, k') ->
  (exists Q' r, e = Returned r /\ eff (xTasksWaitingToSend q) q Q Q' k k' /\ uxMessagesWaiting Q' = uxMessagesWaiting Q - 1) \/
  (k' = k /\ uxMessagesWaiting Q = 0 /\ ((exists r, e = Returned r) \/ exists t, e = NotYet t)).
Proof.
  intros Hk Hq Hrun. pose proof (y_queues _ Hk q Q Hq) as HQ. unfold receive_section in Hrun. queue_inv Hrun Hq.
  destruct (Z.ltb_spec 0 (uxMessagesWaiting Q)) as [Hpos | Hz].
  - left. run_inv Hrun. destruct (copy_from_inv _ _ _ _ _ Hq Hrun0) as (Q1 & -> & E1 & E2 & E3 & E4 & _).
    run_inv Hrun. apply get_queue_inv in Hrun1 as [-> Hq1]. rewrite with_queue_lookup in Hq1. injection Hq1 as <-.
    destruct (taken_ok Q Q1 HQ Hpos E1 E2 E4) as [Hok Hcount]. rewrite Hcount in *.
    bind_inv Hrun as x s Htail. injection Hrun as <- <-.
    bind_inv Htail as x0 s0 Hput. injection Hput as _ <-.
    set (Q2 := with_messages (uxMessagesWaiting Q - 1) Q1) in *.
    change (set_queues _ (with_queue q Q1 k)) with (with_queue q Q2 (with_queue q Q1 k)) in *. rewrite with_queue_twice in Htail.
    assert (sysk (with_queue q Q2 k)) as Hk2 by (by apply sysk_queue).
    bind_inv Htail as x1 s1 Hmutex.
    assert (exists Q3, touched q Q Q3 k s1 /\ uxMessagesWaiting Q3 = uxMessagesWaiting Q - 1) as (Q3 & Ht & Hn).
    { destruct (pcHead_is_NULL Q1); [apply (mutex_taken q Q Q2 k x1 s1 Hk2 E1 Hmutex) |].
      injection Hmutex as _ <-. exists Q2. split; [| done]. by split. }
    exists Q3, (true, a). split; [done |]. split; [| done].
    apply (touched_woken _ _ _ _ k s1); [done | done |]. eapply wake_inv; [apply Ht | done | exact Htail].
  - right. destruct HQ as (Hn & _). destruct (ticks =? 0).
    + injection Hrun as <- <-. split_and!; [done | lia | left; by eexists].
    + run_inv Hrun. injection Hrun as <- <-. assert (s = k) as -> by (destruct set; by injection Hrun0).
      split_and!; [done | lia | right; by eexists].
Qed.

Lemma with_queue_id q Q k : queues k !! q = Some Q -> with_queue q Q k = k.
Proof. intros Hq. unfold with_queue. rewrite insert_id by done. by destruct k. Qed.

Lemma peek_effect q ticks set k e k' Q : sysk k -> queues k !! q = Some Q ->
  receive_section q ticks true set k = Ret (e, k') ->
  (0 < uxMessagesWaiting Q /\ (exists r, e = Returned r) /\ woken_one (xTasksWaitingToReceive q) k k') \/
  (k' = k /\ uxMessagesWaiting Q = 0 /\ ((exists r, e = Returned r) \/ exists t, e = NotYet t)).
Proof.
  intros Hk Hq Hrun. pose proof (y_queues _ Hk q Q Hq) as HQ. unfold receive_section in Hrun. queue_inv Hrun Hq.
  destruct (Z.ltb_spec 0 (uxMessagesWaiting Q)) as [Hpos | Hz].
  - left. split; [done |]. bind_inv Hrun as item s0 Hcp.
    destruct (copy_from_inv _ _ _ _ _ Hq Hcp) as (Q1 & -> & _ & _ & _ & _ & Eu).
    bind_inv Hrun as Q1' s1 Hg. apply get_queue_inv in Hg as [-> Hq1]. rewrite with_queue_lookup in Hq1. injection Hq1 as <-.
    bind_inv Hrun as x s Htail. injection Hrun as <- <-. split; [by eexists |].
    bind_inv Htail as x0 s2 Hput. rewrite Eu in Hput. injection Hput as _ <-.
    change (set_queues _ (with_queue q Q1 k)) with (with_queue q Q (with_queue q Q1 k)) in Htail.
    rewrite with_queue_twice, with_queue_id in Htail by done. by eapply wake_inv.
  - right. destruct HQ as (Hn & _). destruct (ticks =? 0).
    + injection Hrun as <- <-. split_and!; [done | lia | left; by eexists].
    + bind_inv Hrun as t0 s Hs. injection Hrun as <- <-. assert (s = k) as -> by (destruct set; by injection Hs).
      split_and!; [done | lia | right; by eexists].
Qed.

(** ** From interrupts *)

Lemma isr_receive_effect q buf woken k r k' Q : sysk k -> queues k !! q = Some Q ->
  xQueueReceiveFromISR q buf woken k = Ret (r, k') ->
  (exists Q', eff (xTasksWaitingToSend q) q Q Q' k k' /\ 0 < uxMessagesWaiting Q /\ uxMessagesWaiting Q' = uxMessagesWaiting Q - 1) \/ k' = k.
Proof.
  intros Hk Hq Hrun. pose proof (y_queues _ Hk q Q Hq) as HQ. unfold xQueueReceiveFromISR, buffer_assert in Hrun.
  bind_inv Hrun as u0 s0 Ha. bind_inv Ha as Q0 s1 Hg. apply get_queue_inv in Hg as [-> _]. apply assert_inv in Ha as [_ ->].
  queue_inv Hrun Hq. destruct (Z.ltb_spec 0 (uxMessagesWaiting Q)) as [Hpos | Hz]; [left | right; by injection Hrun].
  bind_inv Hrun as item s0 Hcp. destruct (copy_from_inv _ _ _ _ _ Hq Hcp) as (Q1 & -> & E1 & E2 & E3 & E4 & _).
  bind_inv Hrun as Q1' s1 Hg. apply get_queue_inv in Hg as [-> Hq1]. rewrite with_queue_lookup in Hq1. injection Hq1 as <-.
  destruct (taken_ok Q Q1 HQ Hpos E1 E2 E4) as [Hok Hcount]. rewrite Hcount in *.
  bind_inv Hrun as x0 s2 Hput. injection Hput as _ <-.
  set (Q2 := with_messages (uxMessagesWaiting Q - 1) Q1) in *.
  change (set_queues _ (with_queue q Q1 k)) with (with_queue q Q2 (with_queue q Q1 k)) in *. rewrite with_queue_twice in Hrun.
  assert (sysk (with_queue q Q2 k)) as Hk2 by (by apply sysk_queue).
  assert (touched q Q Q2 k (with_queue q Q2 k)) as Ht by (by split).
  exists Q2. split; [| done]. apply (touched_woken _ _ _ _ k (with_queue q Q2 k)); [done | done |].
  bind_inv Hrun as w s3 Hl. injection Hl as <- <-.
  destruct (klists (with_queue q Q2 k) (xTasksWaitingToSend q)) eqn:E.
  - cbn in E. rewrite E in Hrun. injection Hrun as _ <-. by apply sysk_woken_none.
  - cbn in E. rewrite E in Hrun. destruct (remove_from_event_list_woken (with_queue q Q2 k) (xTasksWaitingToSend q)) as (b & k1 & Hr & Hw); [apply Hk2 | apply Hk2 | done | cbn; by rewrite E |].
    erewrite run_bind in Hrun by done. by injection Hrun as _ <-.
Qed.

Lemma isr_peek_effect q buf k r k' Q : queues k !! q = Some Q -> xQueuePeekFromISR q buf k = Ret (r, k') -> k' = k.
Proof.
  intros Hq Hrun. unfold xQueuePeekFromISR, buffer_assert in Hrun.
  bind_inv Hrun as u0 s0 Ha. bind_inv Ha as Q0 s1 Hg. apply get_queue_inv in Hg as [-> _]. apply assert_inv in Ha as [_ ->].
  queue_inv Hrun Hq. bind_inv Hrun as u1 s2 Ha. apply assert_inv in Ha as [_ ->].
  destruct (0 <? uxMessagesWaiting Q); [| by injection Hrun].
  bind_inv Hrun as item s0 Hcp. destruct (copy_from_inv _ _ _ _ _ Hq Hcp) as (Q1 & -> & _ & _ & _ & _ & Eu).
  bind_inv Hrun as Q1' s1 Hg. apply get_queue_inv in Hg as [-> Hq1]. rewrite with_queue_lookup in Hq1. injection Hq1 as <-.
  bind_inv Hrun as x0 s2 Hput. injection Hput as _ <-. injection Hrun as _ <-. rewrite Eu.
  change (set_queues _ (with_queue q Q1 k)) with (with_queue q Q (with_queue q Q1 k)).
  by rewrite with_queue_twice, with_queue_id.
Qed.

Lemma isr_send_effect q item woken pos k r k' Q : sysk k -> queues k !! q = Some Q -> post_legal k Q pos ->
  xQueueGenericSendFromISR q item woken pos k = Ret (r, k') ->
  (exists Q', eff (xTasksWaitingToReceive q) q Q Q' k k' /\ uxMessagesWaiting Q' = posted pos Q) \/ k' = k.
Proof.
  intros Hk Hq Hl Hrun. unfold xQueueGenericSendFromISR, send_asserts in Hrun.
  bind_inv Hrun as u0 s0 Ha. bind_inv Ha as Q0 s1 Hg. apply get_queue_inv in Hg as [-> _].
  bind_inv Ha as u1 s2 Hb. apply assert_inv in Hb as [_ ->]. apply assert_inv in Ha as [_ ->].
  queue_inv Hrun Hq. destruct (_ || _) eqn:Hroom; [left | right; by injection Hrun].
  bind_inv Hrun as b s0 Hcp. destruct (copy_effect q item pos k b s0 Q Hk Hq Hl Hroom Hcp) as (Q' & Ht & Hn).
  bind_inv Hrun as w s1 Hw. injection Hrun as _ <-.
  exists Q'. split; [| done]. apply (touched_woken _ _ _ _ k s0); [done | done |]. eapply notify_effect; [apply Ht | exact Hw].
Qed.

Lemma isr_give_effect q woken k r k' Q : sysk k -> queues k !! q = Some Q ->
  xQueueGiveFromISR q woken k = Ret (r, k') ->
  (exists Q', eff (xTasksWaitingToReceive q) q Q Q' k k' /\ uxMessagesWaiting Q' = uxMessagesWaiting Q + 1) \/ k' = k.
Proof.
  intros Hk Hq Hrun. pose proof (y_queues _ Hk q Q Hq) as (Hn & HL & Hc). unfold xQueueGiveFromISR in Hrun.
  queue_inv Hrun Hq. bind_inv Hrun as u0 s0 Ha. apply assert_inv in Ha as [_ ->].
  destruct (Z.ltb_spec (uxMessagesWaiting Q) (uxLength Q)); [left | right; by injection Hrun].
  bind_inv Hrun as x0 s2 Hput. injection Hput as _ <-. rewrite wrap_u_small in * by lia.
  set (Q2 := with_messages (uxMessagesWaiting Q + 1) Q) in *. fold (with_queue q Q2 k) in *.
  assert (qok Q2) as Hok by (split_and!; try done; cbn; lia).
  assert (sysk (with_queue q Q2 k)) as Hk2 by (by apply sysk_queue).
  bind_inv Hrun as w s1 Hw. injection Hrun as _ <-. exists Q2. split; [| done].
  apply (touched_woken _ _ _ _ k (with_queue q Q2 k)); [done | by split |]. by eapply notify_effect.
Qed.

(** ** Waiting *)

Lemma runs_event k t : sysk k -> runs k t -> exists c, tcbs k !! t = Some c /\ container (xEventListItem c) = None.
Proof.
  intros [] [_ Hr]. pose proof Hr as (c & p & Hc & _). exists c. split; [done |]. by apply (quiet_event k t).
Qed.

Lemma check_inv to n k r k' : xTaskCheckForTimeOut to n k = Ret (r, k') -> k' = k.
Proof.
  unfold xTaskCheckForTimeOut. intros H. bind_inv H as k0 s Hg. injection Hg as <- <-.
  destruct (_ =? _); [by injection H |]. destruct (_ && _); [by injection H |]. destruct (_ <? _); by injection H.
Qed.

Lemma blocks_yields l t k k' v : blocks l t k k' -> blocks l t k (set_yields v k').
Proof.
  intros [[] ? ? ? ?]. split; try done. split; try done. by destruct y_kwf0.
Qed.

Lemma place_effect l t n k u k' : sysk k -> wait_list l -> runs k t -> vTaskPlaceOnEventList l n k = Ret (u, k') -> blocks l t k k'.
Proof.
  intros Hk Hl Hr Hrun. destruct (runs_event k t Hk Hr) as (c & Hc & Hev). destruct Hr as [Hcur Hr]. pose proof Hk as [].
  destruct (vTaskPlaceOnEventList_run k l t c n) as (k1 & Hr1 & Hk1 & Hp1 & Hf1 & Hin1 & Ho1 & Hy1 & Hnr1 & Hq1); try done.
  rewrite Hrun in Hr1. injection Hr1 as _ <-. split.
  - split; auto. + by eapply frame_held. + by rewrite (f_queues _ _ Hf1).
  - by rewrite (f_queues _ _ Hf1).
  - intros Hin. by apply (y_quiet0 l t (proj1 Hl)).
  - rewrite Hin1. apply insert_sorted_perm.
  - done.
  - intros y Hne. apply (awake_same k); auto.
Qed.

Lemma send_wait_effect q n to k e k' Q t : sysk k -> queues k !! q = Some Q -> runs k t ->
  send_wait_section q n to k = Ret (e, k') ->
  (k' = k /\ ((exists r, e = Returned r) \/ exists t0 m, e = TryAgain t0 m)) \/
  (blocks (xTasksWaitingToSend q) t k k' /\ uxMessagesWaiting Q = uxLength Q /\ exists t0 m, e = Blocked t0 m).
Proof.
  intros Hk Hq Hr Hrun. unfold send_wait_section in Hrun. bind_inv Hrun as x s Hc. apply check_inv in Hc as ->.
  destruct x as [[ex t0] m]. destruct ex; [injection Hrun as <- <-; left; eauto |].
  unfold prvIsQueueFull in Hrun. bind_inv Hrun as full s Hf. bind_inv Hf as Q0 s0 Hg. apply get_queue_inv in Hg as [-> Hq0].
  rewrite Hq in Hq0. injection Hq0 as <-. injection Hf as <- <-.
  destruct (Z.eqb_spec (uxMessagesWaiting Q) (uxLength Q)) as [E | E]; [right | injection Hrun as <- <-; left; eauto].
  bind_inv Hrun as u s1 Hp. apply (place_effect _ t) in Hp; [| done | done | done]. injection Hrun as <- <-.
  split; [by apply blocks_yields | eauto].
Qed.

Lemma inherit_effect h k u k' t : sysk k -> runs k t -> vTaskPriorityInherit h k = Ret (u, k') ->
  sysk k' /\ runs k' t /\ queues k' = queues k /\ (forall m, kind_of m = event_item -> klists k' m = klists k m) /\
  (forall y, awake k y -> awake k' y).
Proof.
  intros Hk Hr Hrun. destruct h as [h |]; [| by injection Hrun as _ <-]. pose proof Hk as [].
  assert (exists c, tcbs k !! h = Some c) as (c & Hc).
  { unfold vTaskPriorityInherit in Hrun. bind_inv Hrun as c s Hg. apply get_tcb_inv in Hg as [_ ?]. by exists c. }
  destruct (current_tcb_run k y_kwf0) as (cur & Hcur).
  destruct (vTaskPriorityInherit_run h c cur k) as (k1 & c1 & Hr1 & Hk1 & Hp1 & Ho1 & Hre1 & _); try done.
  rewrite Hrun in Hr1. injection Hr1 as _ <-. split_and!.
  - apply (sysk_only h c k k'); try done. right. apply Hre1.
  - destruct Hr as [Hcu Hr]. split; [by rewrite (o_current _ _ _ Ho1), (o_core _ _ _ Ho1) |].
    destruct (decide (t = h)) as [-> | Hne]; [by apply Hre1 |]. destruct Hr as (x & p & Hx & E). exists x, p. by rewrite (o_tcbs _ _ _ Ho1).
  - apply Ho1.
  - apply Ho1.
  - intros y. apply (only_task_awake h k k' y); try done. apply Hre1.
Qed.

Lemma receive_wait_effect q n to k e k' Q t : sysk k -> queues k !! q = Some Q -> runs k t ->
  receive_wait_section q n to k = Ret (e, k') ->
  (k' = k /\ ((exists r, e = Returned r) \/ exists t0 m, e = TryAgain t0 m)) \/
  (blocks (xTasksWaitingToReceive q) t k k' /\ uxMessagesWaiting Q = 0 /\ exists t0 m, e = Blocked t0 m).
Proof.
  intros Hk Hq Hr Hrun. unfold receive_wait_section in Hrun. bind_inv Hrun as x s Hc. apply check_inv in Hc as ->.
  destruct x as [[ex t0] m]. destruct ex; [injection Hrun as <- <-; left; eauto |].
  unfold prvIsQueueEmpty in Hrun. bind_inv Hrun as full s Hf. bind_inv Hf as Q0 s0 Hg. apply get_queue_inv in Hg as [-> Hq0].
  rewrite Hq in Hq0. injection Hq0 as <-. injection Hf as <- <-.
  destruct (Z.eqb_spec (uxMessagesWaiting Q) 0) as [E | E]; [right | injection Hrun as <- <-; left; eauto].
  queue_inv Hrun Hq. bind_inv Hrun as u s1 Hi.
  assert (sysk s1 /\ runs s1 t /\ queues s1 = queues k /\ (forall m, kind_of m = event_item -> klists s1 m = klists k m) /\
    (forall y, awake k y -> awake s1 y)) as (Hk1 & Hr1 & Hq1 & Hl1 & Ha1).
  { destruct (pcHead_is_NULL Q); [| by injection Hi as _ <-]. bind_inv Hi as h s2 Hh. apply lift_inv in Hh as [_ ->].
    by apply (inherit_effect h k u). }
  bind_inv Hrun as u2 s2 Hp. apply (place_effect _ t) in Hp as [Hk2 Hq2 Hn2 Hl2 Ho2 Ha2]; [| done | done | done]. injection Hrun as <- <-.
  split; [| eauto]. apply blocks_yields. split.
  - done.
  - by rewrite Hq2.
  - by rewrite <- Hl1.
  - by rewrite Hl2, Hl1.
  - intros l Hl Hne. rewrite Ho2 by done. apply Hl1, Hl.
  - auto.
Qed.

(** * One section of a call *)

#[export] Instance pc_eq_dec : EqDecision pc.
Proof. solve_decision. Defined.

Definition same_call (c c' : call) : Prop := c_request c' = c_request c /\ c_queue c' = c_queue c.
Definition waits_on (c : call) : list_id :=
  match c_request c with Send _ _ => xTasksWaitingToSend (c_queue c) | Receive _ => xTasksWaitingToReceive (c_queue c) end.
(** What a call that cannot go on has found. *)
Definition stuck (c : call) (Q : Queue_t) : Prop :=
  match c_request c with Send _ _ => uxMessagesWaiting Q = uxLength Q | Receive _ => uxMessagesWaiting Q = 0 end.
Definition legal (k : kernel) (c : call) (Q : Queue_t) : Prop :=
  match c_request c with Send _ pos => post_legal k Q pos | Receive _ => True end.

Inductive section_effect (t : Z) (c : call) (Q : Queue_t) (k : kernel) (r : (bool * list Z) + call) (k' : kernel) : Prop :=
  | Took Q' x : c_request c = Receive false -> c_pc c <> AtWait -> r = inl x ->
      eff (xTasksWaitingToSend (c_queue c)) (c_queue c) Q Q' k k' -> uxMessagesWaiting Q' = uxMessagesWaiting Q - 1 ->
      section_effect t c Q k r k'
  | Peeked x : c_request c = Receive true -> c_pc c <> AtWait -> r = inl x -> 0 < uxMessagesWaiting Q ->
      woken_one (xTasksWaitingToReceive (c_queue c)) k k' -> section_effect t c Q k r k'
  | Sent item pos Q' x : c_request c = Send item pos -> c_pc c <> AtWait -> r = inl x ->
      eff (xTasksWaitingToReceive (c_queue c)) (c_queue c) Q Q' k k' ->
      uxMessagesWaiting Q' = uxMessagesWaiting Q + 1 \/ uxMessagesWaiting Q' = uxMessagesWaiting Q /\ uxMessagesWaiting Q = uxLength Q ->
      section_effect t c Q k r k'
  | Missed : c_pc c <> AtWait -> k' = k -> stuck c Q ->
      ((exists x, r = inl x) \/ exists c', r = inr c' /\ same_call c c' /\ c_pc c' = AtWait) -> section_effect t c Q k r k'
  | Retried : c_pc c = AtWait -> k' = k ->
      ((exists x, r = inl x) \/ exists c', r = inr c' /\ same_call c c' /\ c_pc c' = AtTry) -> section_effect t c Q k r k'
  | Slept c' : c_pc c = AtWait -> r = inr c' -> same_call c c' -> c_pc c' = AtYield ->
      blocks (waits_on c) t k k' -> stuck c Q -> section_effect t c Q k r k'.

Lemma need_inv {A} e (o : option A) (k : kernel) (a : A) (k' : kernel) : need e o k = Ret (a, k') -> o = Some a /\ k' = k.
Proof. destruct o; [by intros [= <- <-] | discriminate]. Qed.

Lemma send_effect q item n pos set k e k' Q : sysk k -> queues k !! q = Some Q -> post_legal k Q pos ->
  send_section q item n pos set k = Ret (e, k') ->
  (exists Q' r, e = Returned r /\ eff (xTasksWaitingToReceive q) q Q Q' k k' /\
     (uxMessagesWaiting Q' = uxMessagesWaiting Q + 1 \/ uxMessagesWaiting Q' = uxMessagesWaiting Q /\ uxMessagesWaiting Q = uxLength Q)) \/
  (k' = k /\ uxMessagesWaiting Q = uxLength Q /\ ((exists r, e = Returned r) \/ exists t, e = NotYet t)).
Proof.
  intros Hk Hq Hl Hrun. pose proof (y_queues _ Hk q Q Hq) as (Hn & _). unfold send_section in Hrun. queue_inv Hrun Hq.
  destruct (_ || _) eqn:Hroom; [left | right].
  - bind_inv Hrun as u s Hp. injection Hrun as <- <-. destruct (post_effect q item pos k u s Q Hk Hq Hl Hroom Hp) as (Q' & He & Ec).
    exists Q', true. split_and!; try done. rewrite Ec. unfold posted.
    destruct (Z.eqb_spec pos queueOVERWRITE) as [E | E]; cbn [andb]; [| by left].
    destruct (Z.ltb_spec 0 (uxMessagesWaiting Q)); [right | by left]. destruct Hl as [_ Hl]. destruct (Hl E). lia.
  - apply orb_false_iff in Hroom as [Hroom%Z.ltb_ge _]. destruct (n =? 0).
    + injection Hrun as <- <-. split_and!; [done | lia | left; by eexists].
    + bind_inv Hrun as t0 s Hs. injection Hrun as <- <-. assert (s = k) as -> by (destruct set; by injection Hs).
      split_and!; [done | lia | right; by eexists].
Qed.

Lemma call_step_effect t c k r k' Q : sysk k -> runs k t -> queues k !! c_queue c = Some Q -> legal k c Q ->
  call_step c k = Ret (r, k') -> section_effect t c Q k r k'.
Proof.
  intros Hk Hr Hq Hl Hrun. unfold call_step in Hrun. unfold legal in Hl.
  destruct (c_request c) as [item pos | peek] eqn:Ec; destruct (decide (c_pc c = AtWait)) as [Ep | Ep].
  - rewrite Ep in Hrun. bind_inv Hrun as to s Hto. apply need_inv in Hto as [_ ->]. bind_inv Hrun as e s He. injection Hrun as <- <-.
    destruct (send_wait_effect _ _ _ _ _ _ _ t Hk Hq Hr He) as [[-> [(x & ->) | (t0 & m & ->)]] | (Hb & Hs & t0 & m & ->)].
    + apply Retried; [done | done | left; by eexists].
    + apply Retried; [done | done | right; eexists; split; [done | by split]].
    + eapply Slept; try done; [unfold waits_on; by rewrite Ec | unfold stuck; by rewrite Ec].
  - assert ((e ← send_section (c_queue c) item (c_ticks c) pos (c_timeout c);
      mret (match after c e with inl b => inl (b, []) | inr c => inr c end)) k = Ret (r, k')) as Hrun' by (destruct (c_pc c); done).
    clear Hrun. bind_inv Hrun' as e s He. injection Hrun' as <- <-.
    destruct (send_effect _ _ _ _ _ _ _ _ _ Hk Hq Hl He) as [(Q' & x & -> & Hf & Hn) | (-> & Hs & [(x & ->) | (t0 & ->)])].
    + by eapply Sent.
    + apply Missed; [done | done | unfold stuck; by rewrite Ec | left; by eexists].
    + apply Missed; [done | done | unfold stuck; by rewrite Ec | right; eexists; split; [done | by split]].
  - rewrite Ep in Hrun. bind_inv Hrun as to s Hto. apply need_inv in Hto as [_ ->]. bind_inv Hrun as e s He. injection Hrun as <- <-.
    destruct (receive_wait_effect _ _ _ _ _ _ _ t Hk Hq Hr He) as [[-> [(x & ->) | (t0 & m & ->)]] | (Hb & Hs & t0 & m & ->)].
    + apply Retried; [done | done | left; by eexists].
    + apply Retried; [done | done | right; eexists; split; [done | by split]].
    + eapply Slept; try done; [unfold waits_on; by rewrite Ec | unfold stuck; by rewrite Ec].
  - assert ((e ← receive_section (c_queue c) (c_ticks c) peek (c_timeout c); mret (after c e)) k = Ret (r, k')) as Hrun'
      by (destruct (c_pc c); done).
    clear Hrun. bind_inv Hrun' as e s He. injection Hrun' as <- <-. destruct peek.
    + destruct (peek_effect _ _ _ _ _ _ _ Hk Hq He) as [(Hn & (x & ->) & Hw) | (-> & Hs & [(x & ->) | (t0 & ->)])].
      * by eapply Peeked.
      * apply Missed; [done | done | unfold stuck; by rewrite Ec | left; by eexists].
      * apply Missed; [done | done | unfold stuck; by rewrite Ec | right; eexists; split; [done | by split]].
    + destruct (receive_effect _ _ _ _ _ _ _ Hk Hq He) as [(Q' & x & -> & Hf & Hn) | (-> & Hs & [(x & ->) | (t0 & ->)])].
      * by eapply Took.
      * apply Missed; [done | done | unfold stuck; by rewrite Ec | left; by eexists].
      * apply Missed; [done | done | unfold stuck; by rewrite Ec | right; eexists; split; [done | by split]].
Qed.

(** * Waiters and what is there for them *)

(** No waiter is left behind: as many tasks as there are things to take are
    already on their way to take one. *)
Definition cover (ws : list Z) (n : Z) (P : Z -> Prop) : Prop :=
  ws = [] \/ exists W, NoDup W /\ n <= zlen W /\ forall t, t ∈ W -> P t.

Lemma cover_zero ws n P : n <= 0 -> cover ws n P.
Proof. intros Hn. right. exists []. split_and!; [constructor | done | intros t Ht; by apply elem_of_nil in Ht]. Qed.

Lemma cover_keep ws n P ws' n' P' : cover ws n P -> (ws = [] -> ws' = []) -> n' <= n -> (forall t, P t -> P' t) -> cover ws' n' P'.
Proof. intros [E | (W & Hd & HW & HP)] Hw Hn H; [left; auto | right; exists W]. split_and!; [done | lia | auto]. Qed.

Lemma zlen_remove t W : NoDup W -> zlen W - 1 <= zlen (remove_item t W).
Proof.
  induction W as [| x W IH]; intros Hd; [done |]. apply list.NoDup_cons in Hd as [Hx Hd]. unfold remove_item.
  destruct (decide (x = t)) as [-> | Hne].
  - rewrite filter_cons_False by tauto. fold (remove_item t W). rewrite remove_item_notin by done. rewrite zlen_cons. lia.
  - rewrite filter_cons_True by done. fold (remove_item t W). rewrite !zlen_cons. specialize (IH Hd). lia.
Qed.

(** [t0] goes with one of them. *)
Lemma cover_lose t0 ws n P ws' n' P' : cover ws n P -> (ws = [] -> ws' = []) -> n' <= n - 1 ->
  (forall t, t <> t0 -> P t -> P' t) -> cover ws' n' P'.
Proof.
  intros [E | (W & Hd & HW & HP)] Hw Hn H; [left; auto | right; exists (remove_item t0 W)]. pose proof (zlen_remove t0 W Hd).
  split_and!; [by apply NoDup_remove_item | lia |]. intros t [Hne Ht]%elem_of_remove_item. auto.
Qed.

(** The first waiter is woken. *)
Lemma cover_wake ws n P n' P' : cover ws n P -> n' <= n + 1 -> (forall t, P t -> P' t) ->
  (forall t rest, ws = t :: rest -> P' t /\ ~ P t) -> cover (List.tl ws) n' P'.
Proof.
  intros [-> | (W & Hd & HW & HP)] Hn H Ht; [by left |]. destruct ws as [| t rest]; [by left | right].
  destruct (Ht t rest eq_refl) as [H1 H2]. exists (t :: W). split_and!.
  - apply list.NoDup_cons. split; [| done]. intros Hin. auto.
  - rewrite zlen_cons. lia.
  - intros x [-> | Hx]%elem_of_cons; auto.
Qed.

(** The first waiter is woken instead of [t0]. *)
Lemma cover_swap t0 ws n P n' P' : cover ws n P -> n' <= n -> (forall t, t <> t0 -> P t -> P' t) ->
  (forall t rest, ws = t :: rest -> P' t /\ ~ P t) -> cover (List.tl ws) n' P'.
Proof.
  intros [-> | (W & Hd & HW & HP)] Hn H Ht; [by left |]. destruct ws as [| t rest]; [by left | right].
  destruct (Ht t rest eq_refl) as [H1 H2]. exists (t :: remove_item t0 W). pose proof (zlen_remove t0 W Hd). split_and!.
  - apply list.NoDup_cons. split; [| by apply NoDup_remove_item]. intros [_ Hin]%elem_of_remove_item. auto.
  - rewrite zlen_cons. lia.
  - intros x [-> | Hx]%elem_of_cons; [done |]. apply elem_of_remove_item in Hx as [? ?]. auto.
Qed.

(** * Tasks, interrupts and the tick *)

Record sys := mkSys { kern : kernel; calls : gmap Z call }.

(** The call of [t] after a section. *)
Definition next_call (t : Z) (r : (bool * list Z) + call) (m : gmap Z call) : gmap Z call :=
  match r with inl _ => delete t m | inr c => <[t := c]> m end.

Inductive step : sys -> sys -> Prop :=
  | StepSwitch k m core t c : core = 0 \/ core = 1 -> is_ready k t -> tcbs k !! t = Some c ->
      step (mkSys k m) (mkSys (set_current (<[core := Some t]> (pxCurrentTCB k)) (set_core core k)) m)
  | StepSend k m t q item n pos c : runs k t -> m !! t = None ->
      xQueueGenericSend q item n pos k = Ret (c, k) -> step (mkSys k m) (mkSys k (<[t := c]> m))
  | StepReceive k m t q buf n peek c : runs k t -> m !! t = None ->
      xQueueGenericReceive q buf n peek k = Ret (c, k) -> step (mkSys k m) (mkSys k (<[t := c]> m))
  | StepSection k m t c Q r k' : runs k t -> m !! t = Some c -> queues k !! c_queue c = Some Q -> legal k c Q ->
      call_step c k = Ret (r, k') -> step (mkSys k m) (mkSys k' (next_call t r m))
  | StepSendFromISR k m q Q item woken pos r k' : queues k !! q = Some Q -> post_legal k Q pos ->
      xQueueGenericSendFromISR q item woken pos k = Ret (r, k') -> step (mkSys k m) (mkSys k' m)
  | StepGiveFromISR k m q Q woken r k' : queues k !! q = Some Q ->
      xQueueGiveFromISR q woken k = Ret (r, k') -> step (mkSys k m) (mkSys k' m)
  | StepReceiveFromISR k m q Q buf woken r k' : queues k !! q = Some Q ->
      xQueueReceiveFromISR q buf woken k = Ret (r, k') -> step (mkSys k m) (mkSys k' m)
  | StepPeekFromISR k m q Q buf r k' : queues k !! q = Some Q ->
      xQueuePeekFromISR q buf k = Ret (r, k') -> step (mkSys k m) (mkSys k' m)
  | StepTick k m b k' : xTaskIncrementTick k = Ret (b, k') -> step (mkSys k m) (mkSys k' m)
  | StepSuspend k m k' : vTaskSuspendAll k = Ret (tt, k') -> step (mkSys k m) (mkSys k' m)
  | StepResume k m b k' : xTaskResumeAll k = Ret (b, k') -> step (mkSys k m) (mkSys k' m).

(** Nobody waits and no call is under way. *)
Definition start (s : sys) : Prop :=
  sysk (kern s) /\ (forall l, wait_list l -> klists (kern s) l = []) /\ calls s = ∅.

(** What the waiters of a list wait for: messages, or free places. *)
Definition avail (k : kernel) (l : list_id) : Z :=
  match l with
  | xTasksWaitingToReceive q => match queues k !! q with Some Q => uxMessagesWaiting Q | None => 0 end
  | xTasksWaitingToSend q => match queues k !! q with Some Q => uxLength Q - uxMessagesWaiting Q | None => 0 end
  | _ => 0
  end.

(** A task that may run, in a call that next looks at the queue. *)
Definition taking (s : sys) (l : list_id) (t : Z) : Prop :=
  awake (kern s) t /\ exists c, calls s !! t = Some c /\ waits_on c = l /\ c_pc c <> AtWait.

Record inv (s : sys) : Prop := {
  i_sysk : sysk (kern s);
  i_asleep l t : wait_list l -> t ∈ klists (kern s) l ->
    exists c, calls s !! t = Some c /\ waits_on c = l /\ c_pc c = AtYield;
  i_cover l : wait_list l -> cover (klists (kern s) l) (avail (kern s) l) (taking s l) }.

Lemma waits_on_same c c' : same_call c c' -> waits_on c' = waits_on c.
Proof. intros [E1 E2]. unfold waits_on. by rewrite E1, E2. Qed.

Lemma taking_awake s l t : taking s l t -> awake (kern s) t.
Proof. by intros []. Qed.

Lemma next_call_ne t t0 r m : t <> t0 -> next_call t0 r m !! t = m !! t.
Proof. intros Hne. destruct r; cbn; [by rewrite lookup_delete_ne | by rewrite lookup_insert_ne]. Qed.

(** The first waiter, once woken, is on its way. *)
Lemma woken_taking k m l k' m' t rest : inv (mkSys k m) -> wait_list l -> klists k l = t :: rest -> awake k' t ->
  m' !! t = m !! t -> taking (mkSys k' m') l t /\ ~ taking (mkSys k m) l t.
Proof.
  intros Hi Hl E Ha Hm. assert (t ∈ klists k l) as Hin by (rewrite E; left).
  destruct (i_asleep _ Hi l t Hl Hin) as (c & Hc & Hw & Hp). split.
  - split; [done |]. exists c. cbn in *. rewrite Hm. split_and!; congruence.
  - intros Ht%taking_awake. destruct (i_sysk _ Hi). by apply (awake_not_waiting k l t).
Qed.

Lemma waiter_ne k m l t t0 : inv (mkSys k m) -> wait_list l -> t ∈ klists k l -> runs k t0 -> t <> t0.
Proof. intros Hi Hl Hin [_ Hr] ->. destruct (i_sysk _ Hi). apply (y_quiet0 l t0 (proj1 Hl) Hin Hr). Qed.

(** ** The steps that only wake tasks, or nobody *)

Lemma calm_sysk k k' : sysk k -> calm k k' -> sysk k'.
Proof.
  intros [] []. split; auto; [| by rewrite c_queues].
  intros t c' Hc'. destruct (tcbs k !! t) as [c |] eqn:E.
  - destruct (c_tcb t c E) as (x & Hx & _ & _ & _ & Hm & _). rewrite Hx in Hc'. injection Hc' as <-. rewrite Hm. by apply (y_held0 t).
  - rewrite (c_none t E) in Hc'. discriminate.
Qed.

Lemma avail_same k k' l : queues k' = queues k -> avail k' l = avail k l.
Proof. intros E. unfold avail. by rewrite E. Qed.

Lemma calm_inv k k' m : inv (mkSys k m) -> calm k k' -> inv (mkSys k' m).
Proof.
  intros Hi Hc. pose proof Hc as []. split; cbn.
  - apply (calm_sysk k); [apply Hi | done].
  - intros l t Hl Hin. apply (i_asleep _ Hi l t Hl). by apply c_lists.
  - intros l Hl. eapply cover_keep; [apply (i_cover _ Hi l Hl) | | by rewrite (avail_same k) |].
    + cbn. intros E. destruct (klists k' l) as [| x xs] eqn:E'; [done |]. exfalso.
      specialize (c_lists l x Hl). rewrite E', E in c_lists. by apply (not_elem_of_nil x), c_lists; left.
    + intros t [Ha (c & Hcc & Hw & Hp)]. split; [auto | by exists c].
Qed.

(** ** The steps of calls and interrupts *)

Lemma avail_at k q Q : queues k !! q = Some Q -> avail k (xTasksWaitingToReceive q) = uxMessagesWaiting Q /\
  avail k (xTasksWaitingToSend q) = uxLength Q - uxMessagesWaiting Q.
Proof. intros E. cbn. by rewrite E. Qed.

Lemma avail_insert k k' q Q' l : queues k' = <[q := Q']> (queues k) -> l <> xTasksWaitingToReceive q -> l <> xTasksWaitingToSend q ->
  avail k' l = avail k l.
Proof.
  intros E H1 H2. destruct l; try done; cbn; rewrite E; rewrite lookup_insert_ne; congruence.
Qed.

Lemma waits_on_wait c : wait_list (waits_on c).
Proof. unfold waits_on. by destruct (c_request c). Qed.

(** A step that wakes the first waiter of [l] at most, and ends or goes on with
    the call of [t0] (if any): what is to be shown of each list. *)
Lemma eff_inv k m k' m' l q Q Q' (t0 : option Z) : inv (mkSys k m) -> queues k !! q = Some Q ->
  eff l q Q Q' k k' -> wait_list l ->
  (forall t, t0 = Some t -> runs k t) -> (forall t, t0 <> Some t -> m' !! t = m !! t) ->
  (forall l', wait_list l' -> l' <> l -> l' <> xTasksWaitingToReceive q -> l' <> xTasksWaitingToSend q ->
     forall t, t0 = Some t -> ~ taking (mkSys k m) l' t) ->
  (forall l', l' = xTasksWaitingToReceive q \/ l' = xTasksWaitingToSend q -> l' <> l ->
     avail k' l' <= avail k l' /\ (forall t, t0 = Some t -> taking (mkSys k m) l' t -> avail k' l' <= avail k l' - 1 \/ avail k' l' <= 0)) ->
  (l = xTasksWaitingToReceive q \/ l = xTasksWaitingToSend q) -> avail k' l <= avail k l + 1 ->
  (forall t, t0 = Some t -> ~ taking (mkSys k m) l t) -> inv (mkSys k' m').
Proof.
  intros Hi Hq He Hl Hr Hm Hother Hq2 Hlq Hav Hnl. pose proof He as [Hs' Hqs HL Hel Heo Ha Hw].
  assert (forall t, t ∈ klists k l -> m' !! t = m !! t) as Hml.
  { intros t Hin. apply Hm. intros E. by destruct (waiter_ne k m l t t Hi Hl Hin (Hr t E)). }
  assert (forall l' t, t0 <> Some t -> taking (mkSys k m) l' t -> taking (mkSys k' m') l' t) as Hmono.
  { intros l' t Hne [Hat (c & Hc & Hwo & Hp)]. split; [by apply Ha |]. exists c. cbn in *. by rewrite Hm. }
  split; cbn [kern calls].
  - done.
  - intros l' t Hl' Hin. assert (t ∈ klists k l') as Hin'.
    { destruct (decide (l' = l)) as [-> | Hne]; [| by rewrite Heo in Hin]. rewrite Hel in Hin.
      destruct (klists k l); [done | by right]. }
    destruct (i_asleep _ Hi l' t Hl' Hin') as (c & Hc & ? & ?). exists c. split; [| done]. rewrite Hm; [done |].
    intros E. by destruct (waiter_ne k m l' t t Hi Hl' Hin' (Hr t E)).
  - intros l' Hl'. destruct (decide (l' = l)) as [-> | Hne].
    + rewrite Hel. eapply cover_wake; [apply (i_cover _ Hi l Hl) | done | |].
      * intros t Ht. apply Hmono; [| done]. intros E. by apply (Hnl t).
      * intros t rest E. apply (woken_taking k m l k' m' t rest Hi Hl E); [by eapply Hw | apply Hml; rewrite E; left].
    + rewrite Heo by done. assert (l' = xTasksWaitingToReceive q \/ l' = xTasksWaitingToSend q \/
        l' <> xTasksWaitingToReceive q /\ l' <> xTasksWaitingToSend q) as Hc.
      { destruct (decide (l' = xTasksWaitingToReceive q)), (decide (l' = xTasksWaitingToSend q)); tauto. }
      destruct t0 as [t0 |]; [destruct (decide (avail k' l' <= 0)) as [Hz | Hnz]; [by apply cover_zero |] |].
      * destruct Hc as [Hc | [Hc | [Hc1 Hc2]]]; [| |].
        1, 2: destruct (Hq2 l') as [Hle Ht]; [tauto | done |];
          destruct (decide (avail k' l' <= avail k l' - 1)) as [Hlt | Hnlt];
          [ eapply (cover_lose t0); [apply (i_cover _ Hi l' Hl') | done | exact Hlt | intros t Hnt; apply Hmono; congruence]
          | eapply cover_keep; [apply (i_cover _ Hi l' Hl') | done | exact Hle |];
            intros t Hta; apply Hmono; [| done]; intros [= ->]; destruct (Ht t eq_refl Hta); lia ].
        eapply cover_keep; [apply (i_cover _ Hi l' Hl') | done | by rewrite (avail_insert k k' q Q') |].
        intros t Ht. apply Hmono; [| done]. intros [= ->]. by apply (Hother l' Hl' Hne Hc1 Hc2 t).
      * eapply cover_keep; [apply (i_cover _ Hi l' Hl') | done | | intros t; by apply Hmono].
        destruct Hc as [Hc | [Hc | [Hc1 Hc2]]]; [apply Hq2; tauto.. | by rewrite (avail_insert k k' q Q')].
Qed.

(** The call of the running task changes and nothing else. *)
Lemma calls_inv k m m' t0 : inv (mkSys k m) -> runs k t0 -> (forall t, t <> t0 -> m' !! t = m !! t) ->
  (forall l, wait_list l -> taking (mkSys k m) l t0 -> avail k l <= 0 \/ taking (mkSys k m') l t0) -> inv (mkSys k m').
Proof.
  intros Hi Hr Hm Ht. split; cbn [kern calls].
  - apply Hi.
  - intros l t Hl Hin. destruct (i_asleep _ Hi l t Hl Hin) as (c & Hc & ?). exists c. split; [| done].
    rewrite Hm; [done |]. by apply (waiter_ne k m l t t0 Hi Hl).
  - intros l Hl. destruct (decide (avail k l <= 0)) as [Hz | Hnz]; [by apply cover_zero |].
    eapply cover_keep; [apply (i_cover _ Hi l Hl) | done | done |]. intros t Htk.
    destruct (decide (t = t0)) as [-> | Hne]; [destruct (Ht l Hl Htk); [lia | done] |].
    destruct Htk as [Ha (c & Hc & ?)]. split; [done |]. exists c. split; [| done]. cbn. by rewrite Hm.
Qed.

Lemma taking_call k m l t c : taking (mkSys k m) l t -> m !! t = Some c -> waits_on c = l /\ c_pc c <> AtWait.
Proof. intros [_ (x & Hx & ? & ?)] Hc. cbn in Hx. rewrite Hc in Hx. by injection Hx as <-. Qed.

Lemma peek_inv k m t c r k' : inv (mkSys k m) -> runs k t -> m !! t = Some c ->
  waits_on c = xTasksWaitingToReceive (c_queue c) ->
  woken_one (xTasksWaitingToReceive (c_queue c)) k k' -> inv (mkSys k' (next_call t (inl r) m)).
Proof.
  intros Hi Hr Hc Hwo Hw. set (l := xTasksWaitingToReceive (c_queue c)) in *. assert (wait_list l) as Hl by done.
  pose proof (i_sysk _ Hi) as Hs. cbn in Hs. split; cbn [kern calls].
  - by eapply sysk_woken.
  - intros l' t' Hl' Hin. assert (t' ∈ klists k l') as Hin'.
    { destruct (decide (l' = l)) as [-> | Hne]; [| by rewrite (w_others _ _ _ Hw) in Hin]. rewrite (w_list _ _ _ Hw) in Hin.
      destruct (klists k l); [done | by right]. }
    destruct (i_asleep _ Hi l' t' Hl' Hin') as (x & Hx & ?). exists x. split; [| done].
    rewrite next_call_ne; [done |]. by apply (waiter_ne k m l' t' t Hi Hl').
  - intros l' Hl'. assert (forall y, y <> t -> taking (mkSys k m) l' y -> taking (mkSys k' (next_call t (inl r) m)) l' y) as Hmono.
    { intros y Hne [Ha (x & Hx & ?)]. split; [by eapply (woken_awake l k) |]. exists x. cbn [calls]. by rewrite next_call_ne. }
    rewrite (avail_same k k') by (by rewrite (f_queues _ _ (w_frame _ _ _ Hw))).
    destruct (decide (l' = l)) as [-> | Hne].
    + rewrite (w_list _ _ _ Hw). eapply (cover_swap t); [apply (i_cover _ Hi l Hl) | done | done |].
      intros y rest E. apply (woken_taking k m l k' _ y rest Hi Hl E); [by eapply woken_woken |].
      apply next_call_ne, (waiter_ne k m l y t Hi Hl); [rewrite E; left | done].
    + rewrite (w_others _ _ _ Hw) by done. eapply cover_keep; [apply (i_cover _ Hi l' Hl') | done | done |].
      intros y Hy. apply Hmono; [| done]. intros ->. destruct (taking_call k m l' t c Hy Hc). congruence.
Qed.

Lemma sleep_inv k m t c c' k' : inv (mkSys k m) -> runs k t -> m !! t = Some c -> c_pc c = AtWait -> same_call c c' ->
  c_pc c' = AtYield -> blocks (waits_on c) t k k' -> avail k (waits_on c) <= 0 -> inv (mkSys k' (<[t := c']> m)).
Proof.
  intros Hi Hr Hc Hpc Hsame Hpc' [Hs Hq Hn Hl Ho Ha] Hav. assert (forall l y, taking (mkSys k m) l y -> y <> t) as Hnt.
  { intros l y Hy ->. by destruct (taking_call k m l t c Hy Hc). }
  split; cbn [kern calls].
  - done.
  - intros l y Hwl Hin. destruct (decide (y = t)) as [-> | Hne].
    + exists c'. rewrite lookup_insert_eq. split_and!; [done | | done]. rewrite (waits_on_same c c' Hsame).
      destruct (decide (l = waits_on c)) as [-> | Hnl]; [done |]. rewrite Ho in Hin by done. by destruct (waiter_ne k m l t t Hi Hwl Hin Hr).
    + assert (y ∈ klists k l) as Hin'.
      { destruct (decide (l = waits_on c)) as [-> | Hnl]; [| by rewrite Ho in Hin]. rewrite Hl in Hin. set_solver +Hin Hne. }
      destruct (i_asleep _ Hi l y Hwl Hin') as (x & Hx & ?). exists x. by rewrite lookup_insert_ne.
  - intros l Hwl. rewrite (avail_same k k') by done. destruct (decide (l = waits_on c)) as [-> | Hnl]; [by apply cover_zero |].
    rewrite Ho by done. eapply cover_keep; [apply (i_cover _ Hi l Hwl) | done | done |].
    intros y Hy. pose proof (Hnt l y Hy) as Hne. destruct Hy as [Hy (x & Hx & ?)]. split; [by apply Ha |].
    exists x. cbn. by rewrite lookup_insert_ne.
Qed.

Lemma stuck_avail k c Q : queues k !! c_queue c = Some Q -> stuck c Q -> avail k (waits_on c) = 0.
Proof.
  intros Hq Hs. destruct (avail_at k _ Q Hq) as [E1 E2]. unfold stuck, waits_on in *. destruct (c_request c).
  - rewrite E2. lia. - by rewrite E1.
Qed.

Lemma section_inv k m t c Q r k' : inv (mkSys k m) -> runs k t -> m !! t = Some c -> queues k !! c_queue c = Some Q ->
  section_effect t c Q k r k' -> inv (mkSys k' (next_call t r m)).
Proof.
  intros Hi Hr Hc Hq He. destruct (avail_at k _ Q Hq) as [A1 A2]. assert (forall y, Some t <> Some y -> next_call t r m !! y = m !! y) as Hne
    by (intros y Hy; apply next_call_ne; congruence).
  destruct He as [Q' x Ec Hp -> He Hn | x Ec Hp -> Hpos Hw | item pos Q' x Ec Hp -> He Hn | Hp -> Hs Hcase | Hp -> Hcase | c' Hp -> Hsame Hpc Hb Hs].
  - assert (waits_on c = xTasksWaitingToReceive (c_queue c)) as Hwo by (unfold waits_on; by rewrite Ec).
    destruct (avail_at k' (c_queue c) Q') as [A1' A2']; [rewrite (e_queues _ _ _ _ _ _ He); apply lookup_insert_eq |].
    pose proof (e_length _ _ _ _ _ _ He) as HL.
    eapply (eff_inv k m k' _ _ _ Q Q' (Some t)); try done.
    + by intros y [= <-].
    + intros l' _ _ Hl1 _ y [= <-] Ht. destruct (taking_call k m l' t c Ht Hc). congruence.
    + intros l' [-> | ->] Hl1; [| done]. split; [lia |]. intros _ _ _. left. lia.
    + by right.
    + lia.
    + intros y [= <-] Ht. destruct (taking_call k m _ t c Ht Hc). congruence.
  - eapply peek_inv; try done. unfold waits_on. by rewrite Ec.
  - assert (waits_on c = xTasksWaitingToSend (c_queue c)) as Hwo by (unfold waits_on; by rewrite Ec).
    destruct (avail_at k' (c_queue c) Q') as [A1' A2']; [rewrite (e_queues _ _ _ _ _ _ He); apply lookup_insert_eq |].
    pose proof (e_length _ _ _ _ _ _ He) as HL.
    eapply (eff_inv k m k' _ _ _ Q Q' (Some t)); try done.
    + by intros y [= <-].
    + intros l' _ _ _ Hl2 y [= <-] Ht. destruct (taking_call k m l' t c Ht Hc). congruence.
    + intros l' [-> | ->] Hl1; [done |]. split; [lia |]. intros _ _ _. lia.
    + by left.
    + lia.
    + intros y [= <-] Ht. destruct (taking_call k m _ t c Ht Hc). congruence.
  - eapply (calls_inv k m _ t); try done; [intros y Hy; by apply next_call_ne |]. intros l Hl Ht.
    destruct (taking_call k m l t c Ht Hc) as [<- _]. left. by rewrite (stuck_avail k c Q).
  - eapply (calls_inv k m _ t); try done; [intros y Hy; by apply next_call_ne |]. intros l Hl Ht.
    by destruct (taking_call k m l t c Ht Hc).
  - eapply sleep_inv; try done. by rewrite (stuck_avail k c Q).
Qed.

Lemma isr_inv k m k' l q Q Q' : inv (mkSys k m) -> queues k !! q = Some Q -> eff l q Q Q' k k' ->
  l = xTasksWaitingToReceive q \/ l = xTasksWaitingToSend q ->
  (l = xTasksWaitingToReceive q -> uxMessagesWaiting Q <= uxMessagesWaiting Q' <= uxMessagesWaiting Q + 1) ->
  (l = xTasksWaitingToSend q -> uxMessagesWaiting Q - 1 <= uxMessagesWaiting Q' <= uxMessagesWaiting Q) -> inv (mkSys k' m).
Proof.
  intros Hi Hq He Hl H1 H2. destruct (avail_at k _ Q Hq) as [A1 A2].
  destruct (avail_at k' q Q') as [A1' A2']; [rewrite (e_queues _ _ _ _ _ _ He); apply lookup_insert_eq |].
  pose proof (e_length _ _ _ _ _ _ He) as HL.
  eapply (eff_inv k m k' m l q Q Q' None); try done.
  - by destruct Hl as [-> | ->].
  - intros l' Hl' Hne. split; [| done]. destruct Hl as [-> | ->], Hl' as [-> | ->]; try done; [specialize (H1 eq_refl) | specialize (H2 eq_refl)]; lia.
  - destruct Hl as [-> | ->]; [specialize (H1 eq_refl) | specialize (H2 eq_refl)]; lia.
Qed.

Lemma posted_bounds pos Q : uxMessagesWaiting Q <= posted pos Q <= uxMessagesWaiting Q + 1.
Proof. unfold posted. destruct (_ && _); lia. Qed.

Lemma switch_inv k m core t c : inv (mkSys k m) -> core = 0 \/ core = 1 -> tcbs k !! t = Some c ->
  inv (mkSys (set_current (<[core := Some t]> (pxCurrentTCB k)) (set_core core k)) m).
Proof.
  intros [[[] ] Ha Hc] Hcore Ht. split; [| done | done]. split; try done. split; try done.
  intros core' Hcore'. cbn. destruct (decide (core' = core)) as [-> | Hne].
  - exists t, c. by rewrite fn_lookup_insert.
  - rewrite fn_lookup_insert_ne by done. by apply k_current.
Qed.

Lemma begin_inv k m t c : inv (mkSys k m) -> runs k t -> m !! t = None -> inv (mkSys k (<[t := c]> m)).
Proof.
  intros Hi Hr Hm. apply (calls_inv k m _ t); try done.
  - intros y Hy. by rewrite lookup_insert_ne.
  - intros l _ [_ (x & Hx & _)]. cbn in Hx. congruence.
Qed.

Lemma step_inv s s' : step s s' -> inv s -> inv s'.
Proof.
  intros H Hi. destruct H as [k m core t c Hcore Hr Ht | k m t q item n pos c Hr Hm Hrun | k m t q buf n peek c Hr Hm Hrun
    | k m t c Q r k' Hr Hm Hq Hl Hrun | k m q Q item woken pos r k' Hq Hl Hrun | k m q Q woken r k' Hq Hrun
    | k m q Q buf woken r k' Hq Hrun | k m q Q buf r k' Hq Hrun | k m b k' Hrun | k m k' Hrun | k m b k' Hrun];
    pose proof (i_sysk _ Hi) as Hs; cbn [kern] in Hs; pose proof (y_kwf _ Hs) as Hk; pose proof (y_placed _ Hs) as Hp.
  - by eapply switch_inv.
  - by apply begin_inv.
  - by apply begin_inv.
  - eapply section_inv; try done. by eapply call_step_effect.
  - destruct (isr_send_effect _ _ _ _ _ _ _ _ Hs Hq Hl Hrun) as [(Q' & He & Hn) | ->]; [| done].
    pose proof (posted_bounds pos Q). eapply (isr_inv k m k' _ q Q Q'); try done; [by left | lia].
  - destruct (isr_give_effect _ _ _ _ _ _ Hs Hq Hrun) as [(Q' & He & Hn) | ->]; [| done].
    eapply (isr_inv k m k' _ q Q Q'); try done; [by left | lia].
  - destruct (isr_receive_effect _ _ _ _ _ _ _ Hs Hq Hrun) as [(Q' & He & _ & Hn) | ->]; [| done].
    eapply (isr_inv k m k' _ q Q Q'); try done; [by right | lia].
  - by rewrite (isr_peek_effect _ _ _ _ _ _ Hq Hrun).
  - eapply calm_inv; [done |]. by eapply xTaskIncrementTick_calm.
  - eapply calm_inv; [done |]. unfold vTaskSuspendAll in Hrun. injection Hrun as <-. by apply same_tasks_calm.
  - eapply calm_inv; [done |]. by eapply xTaskResumeAll_calm.
Qed.

Lemma start_inv s : start s -> inv s.
Proof.
  intros (Hs & Hl & Hc). split; [done | |].
  - intros l t Hw Hin. rewrite Hl in Hin by done. by apply elem_of_nil in Hin.
  - intros l Hw. left. auto.
Qed.

Lemma reachable_inv s0 s : start s0 -> rtc step s0 s -> inv s.
Proof. intros Hs Hr. apply start_inv in Hs. induction Hr; [done |]. eauto using step_inv. Qed.

(** ** Parked tasks *)

(** What the scheduler of a core does not resume at once it resumes later: each
    round readies the head of the list at least. *)
Definition parked (k : kernel) : list Z := klists k (xPendingReadyList (xPortGetCoreID k)).

Record drained (moved rest : list Z) (k k' : kernel) : Prop := {
  d_calm : calm k k';
  d_suspended : uxSchedulerSuspended k' = uxSchedulerSuspended k; d_pended : uxPendedTicks k' = uxPendedTicks k;
  d_tasks : uxCurrentNumberOfTasks k' = uxCurrentNumberOfTasks k;
  d_split : parked k = moved ++ rest;
  d_rest : parked k' = rest;
  d_ready t : t ∈ moved -> is_ready k' t;
  d_yield : rest <> [] -> xYieldPending k' (xPortGetCoreID k') = true }.

Lemma drained_cons t k k1 moved rest k' : parked k = t :: parked k1 -> readied t k k1 -> calm k k1 ->
  drained moved rest k1 k' -> drained (t :: moved) rest k k'.
Proof.
  intros E Hr Hc []. pose proof (r_frame _ _ _ Hr) as Hf. split; try done.
  - by etrans.
  - by rewrite d_suspended0, (f_suspended _ _ Hf).
  - by rewrite d_pended0, (f_pended _ _ Hf).
  - by rewrite d_tasks0, (f_tasks _ _ Hf).
  - by rewrite E, d_split0.
  - intros y [-> | Hy]%elem_of_cons; [| auto]. apply d_calm0, Hr.
Qed.

Lemma pending_loop_run : forall fuel k, kwf k -> placed k -> (length (parked k) < fuel)%nat ->
  exists moved rest k', pending_loop fuel k = Ret (tt, k') /\ drained moved rest k k' /\ (parked k <> [] -> moved <> []).
Proof.
  induction fuel as [| fuel IH]; intros k Hk Hp Hf; [lia |]. cbn [pending_loop]. erewrite run_bind by done.
  unfold get_list at 1. erewrite run_bind by done. fold (parked k). destruct (parked k) as [| t l] eqn:E.
  - exists [], [], k. split_and!; [done | | done]. split; try done; [by apply calm_refl | intros y Hy; by apply elem_of_nil in Hy].
  - destruct (proj1 (k_in k Hk (xPendingReadyList (xPortGetCoreID k)) t)) as (c & Hc & He);
      [change (t ∈ parked k); rewrite E; left |].
    destruct (event_then_ready_run k t c Hk Hc (Hp t c Hc)) as (k1 & Hr & Hre); [cbn in He; by rewrite He |].
    pose proof (readied_calm t k k1 Hk Hp Hre) as Hcalm. pose proof (c_kwf _ _ Hcalm) as Hk1. pose proof (c_placed _ _ Hcalm) as Hp1.
    rewrite (run_three _ _ _ _ k tt k1 Hr). clear Hr. destruct (r_ready _ _ _ Hre) as (c1 & p & Hc1 & _).
    erewrite run_bind by (by apply get_tcb_run). erewrite run_bind by done.
    destruct (current_tcb_run k1 Hk1) as (cur & Hcur). erewrite run_bind by exact Hcur.
    assert (parked k = t :: parked k1) as Epk.
    { unfold parked at 2. rewrite (c_core _ _ Hcalm), (r_lists _ _ _ Hre) by done. fold (parked k).
      pose proof (k_nodup k Hk (xPendingReadyList (xPortGetCoreID k))) as Hnd. fold (parked k) in Hnd. rewrite E in Hnd |- *.
      by rewrite remove_item_head. }
    destruct (_ && _).
    + exists [t], (parked k1). eexists. split_and!; [done | | done].
      apply (drained_cons t k k1); [done | done | done |]. split; try done.
      * by apply same_tasks_calm.
      * intros y Hy. by apply elem_of_nil in Hy.
      * intros _. cbn. by rewrite fn_lookup_insert.
    + destruct (IH k1 Hk1 Hp1) as (moved & rest & k' & Hr & Hd & _); [rewrite E in Epk; injection Epk as ->; cbn in Hf; lia |].
      exists (t :: moved), rest, k'. split_and!; [exact Hr | | done]. by apply (drained_cons t k k1).
Qed.
(** The last resume of a core, when no tick is pended. *)
Definition resumed (moved rest : list Z) (b : bool) (k k' : kernel) : Prop :=
  parked k = moved ++ rest /\ parked k' = rest /\ (forall t, t ∈ moved -> is_ready k' t) /\ (parked k <> [] -> moved <> []) /\
  (rest <> [] -> b = true).

Lemma xTaskResumeAll_drains k : kwf k -> placed k -> uxSchedulerSuspended k (xPortGetCoreID k) = 1 ->
  0 < uxCurrentNumberOfTasks k -> uxPendedTicks k = 0 ->
  exists b k' moved rest, xTaskResumeAll k = Ret (b, k') /\ resumed moved rest b k k' /\ calm k k' /\
    uxSchedulerSuspended k' (xPortGetCoreID k') = 0 /\ uxPendedTicks k' = 0 /\ uxCurrentNumberOfTasks k' = uxCurrentNumberOfTasks k.
Proof.
  intros Hk Hp Hs Hn Ht. unfold xTaskResumeAll. erewrite run_bind by done. rewrite Hs. erewrite run_bind by done.
  erewrite run_bind by done. erewrite run_bind by done. set (k1 := set_suspended _ k).
  assert (uxSchedulerSuspended k1 (xPortGetCoreID k) = 0) as Es by (unfold k1; cbn; by rewrite fn_lookup_insert, Hs).
  rewrite Es. change (uxCurrentNumberOfTasks k1) with (uxCurrentNumberOfTasks k). rewrite (proj2 (Z.ltb_lt _ _) Hn). cbn [Z.eqb andb]. cbv iota.
  assert (calm k k1) as Hc1 by (by apply same_tasks_calm).
  destruct (pending_loop_run (S (length (parked k1))) k1 (c_kwf _ _ Hc1) (c_placed _ _ Hc1)) as (moved & rest & k2 & Hr & [] & Hh); [lia |].
  change (klists k1 (xPendingReadyList (xPortGetCoreID k))) with (parked k1). erewrite run_bind by exact Hr.
  erewrite run_bind by done. rewrite d_pended0. change (uxPendedTicks k1) with (uxPendedTicks k). rewrite Ht.
  erewrite run_bind by done. erewrite run_bind by done.
  assert (xPortGetCoreID k2 = xPortGetCoreID k) as Ec by (by rewrite (c_core _ _ d_calm0)).
  assert (calm k k2) as Hc2 by (by transitivity k1). rewrite <- Ec. destruct (xYieldPending k2 (xPortGetCoreID k2)) eqn:Ey.
  - eexists true, _, moved, rest. unfold resumed. split; [done |]. split_and!; try done.
    + transitivity k2; [done |]. apply same_tasks_calm; [apply Hc2 | apply Hc2 | done].
    + cbn. by rewrite d_suspended0, Ec.
    + cbn. by rewrite d_pended0.
  - exists false, k2, moved, rest. unfold resumed. split; [done |]. split_and!; try done.
    + by rewrite d_suspended0, Ec.
    + by rewrite d_pended0.
Qed.

(** Whatever ticks are pended, the head of the list is ready after a resume that returns. *)
Lemma xTaskResumeAll_head k b k' t l : kwf k -> placed k -> uxSchedulerSuspended k (xPortGetCoreID k) = 1 ->
  0 < uxCurrentNumberOfTasks k -> xTaskResumeAll k = Ret (b, k') -> parked k = t :: l -> is_ready k' t.
Proof.
  intros Hk Hp Hs Hn H E. unfold xTaskResumeAll in H. erewrite run_bind in H by done. rewrite Hs in H. erewrite run_bind in H by done.
  erewrite run_bind in H by done. erewrite run_bind in H by done. set (k1 := set_suspended _ k) in H.
  assert (uxSchedulerSuspended k1 (xPortGetCoreID k) = 0) as Es by (unfold k1; cbn; by rewrite fn_lookup_insert, Hs).
  rewrite Es in H. change (uxCurrentNumberOfTasks k1) with (uxCurrentNumberOfTasks k) in H. rewrite (proj2 (Z.ltb_lt _ _) Hn) in H.
  cbn [Z.eqb andb] in H. cbv iota in H. assert (calm k k1) as Hc1 by (by apply same_tasks_calm).
  destruct (pending_loop_run (S (length (parked k1))) k1 (c_kwf _ _ Hc1) (c_placed _ _ Hc1)) as (moved & rest & k2 & Hr & [] & Hh); [lia |].
  change (klists k1 (xPendingReadyList (xPortGetCoreID k))) with (parked k1) in H. erewrite run_bind in H by exact Hr.
  change (parked k1) with (parked k) in d_split0, Hh. rewrite E in d_split0, Hh.
  destruct moved as [| x moved]; [by destruct (Hh ltac:(done)) |]. injection d_split0 as <- _.
  pose proof (c_kwf _ _ d_calm0) as Hk2. pose proof (c_placed _ _ d_calm0) as Hp2.
  clear d_yield0.
  assert (calm k2 k') as Hc'; [| apply (c_ready _ _ Hc'), d_ready0; left].
  bind_inv H as k3 s2 Hg. injection Hg as <- <-. bind_inv H as u4 s2 Hw.
  eapply (calm_then _ s2 k' Hk2 Hp2).
  { unfold when in Hw. destruct (0 <? _); [by eapply pended_ticks_loop_calm | injection Hw as _ <-; by apply calm_refl]. }
  intros Hk3 Hp3. bind_inv H as k3 s3 Hg. injection Hg as <- <-.
  destruct (xYieldPending _ _); [| injection H as _ <-; by apply calm_refl].
  bind_inv H as u5 s3 Hy. injection Hy as _ <-. injection H as _ <-. by apply same_tasks_calm.
Qed.

(** The scheduler of the core is suspended and resumed [n] times. *)
Fixpoint resume_rounds (n : nat) : K unit :=
  match n with O => mret tt | S n => vTaskSuspendAll;; xTaskResumeAll;; resume_rounds n end.

Lemma resume_rounds_drain : forall n k, kwf k -> placed k -> uxSchedulerSuspended k (xPortGetCoreID k) = 0 ->
  0 < uxCurrentNumberOfTasks k -> uxPendedTicks k = 0 -> (length (parked k) <= n)%nat ->
  exists k', resume_rounds n k = Ret (tt, k') /\ calm k k' /\ parked k' = [] /\ forall t, t ∈ parked k -> is_ready k' t.
Proof.
  induction n as [| n IH]; intros k Hk Hp Hs Hn Ht Hl.
  - exists k. destruct (parked k) as [| x l]; [| cbn in Hl; lia]. split_and!; [done | by apply calm_refl | done |].
    intros t Hin. by apply elem_of_nil in Hin.
  - cbn [resume_rounds]. set (k0 := set_suspended (<[xPortGetCoreID k := wrap_u 32 (uxSchedulerSuspended k (xPortGetCoreID k) + 1)]> (uxSchedulerSuspended k)) k).
    assert (calm k k0) as Hc0 by (by apply same_tasks_calm). erewrite run_bind by done. fold k0.
    destruct (xTaskResumeAll_drains k0 (c_kwf _ _ Hc0) (c_placed _ _ Hc0)) as (b & k1 & moved & rest & Hr & (Hp1 & Hp2 & Hrd & Hh & _) & Hc1 & Hs1 & Ht1 & Hn1);
      [unfold k0; cbn; by rewrite fn_lookup_insert, Hs | done | done |].
    erewrite run_bind by exact Hr. change (parked k0) with (parked k) in Hp1, Hh.
    destruct (IH k1) as (k' & Hr' & Hc' & Hp' & Hrd'); [apply Hc1 | apply Hc1 | done | by rewrite Hn1 | done | |].
    { rewrite Hp2. rewrite Hp1 in Hl, Hh. rewrite length_app in Hl. destruct moved; [| cbn in Hl; lia].
      destruct rest; [cbn; lia | by destruct (Hh ltac:(done))]. }
    exists k'. split_and!; [done | by transitivity k1; [transitivity k0 |] | done |].
    intros t Hin. rewrite Hp1 in Hin. apply elem_of_app in Hin as [Hin | Hin]; [by apply (c_ready _ _ Hc'), Hrd | apply Hrd'; by rewrite Hp2].
Qed.

(** A task that may run and whose call of [xQueueGenericReceive] (of
    [xQueueGenericSend]) on [q] next looks at the queue. *)
Definition receiving (s : sys) (q t : Z) : Prop :=
  awake (kern s) t /\ exists c peek, calls s !! t = Some c /\ c_queue c = q /\ c_request c = Receive peek /\ c_pc c <> AtWait.
Definition sending (s : sys) (q t : Z) : Prop :=
  awake (kern s) t /\ exists c item pos, calls s !! t = Some c /\ c_queue c = q /\ c_request c = Send item pos /\ c_pc c <> AtWait.

Lemma taking_receiving s q t : taking s (xTasksWaitingToReceive q) t -> receiving s q t.
Proof.
  intros [Ha (c & Hc & Hw & Hp)]. split; [done |]. unfold waits_on in Hw. destruct (c_request c) as [| peek] eqn:E; [done |].
  injection Hw as <-. by exists c, peek.
Qed.
Lemma taking_sending s q t : taking s (xTasksWaitingToSend q) t -> sending s q t.
Proof.
  intros [Ha (c & Hc & Hw & Hp)]. split; [done |]. unfold waits_on in Hw. destruct (c_request c) as [item pos |] eqn:E; [| done].
  injection Hw as <-. by exists c, item, pos.
Qed.

(** C20. No wake-up is lost.  No queue is in a queue set.  Tasks on two cores, interrupts, the tick and
    suspensions of the scheduler interleave between the critical sections of blocking calls in any order.
    In every state they reach, while tasks wait for messages of a queue there are at least as many other
    tasks, awake and about to look at the queue, as it has messages; and while tasks wait for room, as
    many as it has free places.  So when nobody is on its way, a task waits for messages only at an empty
    queue and for room only at a full one.  The same holds of semaphores and mutexes, which are queues.
    A task is awake when it is ready or, if it was woken while the scheduler of a core was suspended,
    parked in that core's list of pending tasks.  A parked task does not run until a resume readies it,
    and one resume may leave some parked.  The last resume of a core that returns readies the task at the
    head of its list.  With no ticks pended it does return, it moves tasks from the front of the list to
    the ready lists, the head at least, and if it leaves some it asks for a switch; so as many rounds of
    suspending and resuming as there are parked tasks make all of them ready.  Where a task without
    affinity is woken, the read of pxCurrentTCB[tskNO_AFFINITY] in taskYIELD_OTHER_CORE has to return
    ([stray_read]). *)
Theorem no_lost_wakeup s0 s q Q :
  start s0 -> rtc step s0 s -> queues (kern s) !! q = Some Q ->
  cover (klists (kern s) (xTasksWaitingToReceive q)) (uxMessagesWaiting Q) (receiving s q) /\
  cover (klists (kern s) (xTasksWaitingToSend q)) (uxLength Q - uxMessagesWaiting Q) (sending s q) /\
  ((forall t, ~ receiving s q t) -> klists (kern s) (xTasksWaitingToReceive q) <> [] -> uxMessagesWaiting Q = 0) /\
  ((forall t, ~ sending s q t) -> klists (kern s) (xTasksWaitingToSend q) <> [] -> uxMessagesWaiting Q = uxLength Q) /\
  (uxSchedulerSuspended (kern s) (xPortGetCoreID (kern s)) = 1 -> 0 < uxCurrentNumberOfTasks (kern s) ->
    (forall t l b k', parked (kern s) = t :: l -> xTaskResumeAll (kern s) = Ret (b, k') -> is_ready k' t) /\
    (uxPendedTicks (kern s) = 0 -> exists b k' moved rest, xTaskResumeAll (kern s) = Ret (b, k') /\ resumed moved rest b (kern s) k')) /\
  (uxSchedulerSuspended (kern s) (xPortGetCoreID (kern s)) = 0 -> 0 < uxCurrentNumberOfTasks (kern s) -> uxPendedTicks (kern s) = 0 ->
    forall n, (length (parked (kern s)) <= n)%nat -> exists k', resume_rounds n (kern s) = Ret (tt, k') /\ parked k' = [] /\
      forall t, t ∈ parked (kern s) -> is_ready k' t).
Proof.
  intros Hs Hr Hq. pose proof (reachable_inv s0 s Hs Hr) as Hi. destruct (avail_at (kern s) q Q Hq) as [A1 A2].
  destruct (y_queues _ (i_sysk _ Hi) q Q Hq) as (Hn & _).
  assert (cover (klists (kern s) (xTasksWaitingToReceive q)) (uxMessagesWaiting Q) (receiving s q)) as H1.
  { eapply cover_keep; [apply (i_cover _ Hi (xTasksWaitingToReceive q)); done | done | by rewrite A1 | apply taking_receiving]. }
  assert (cover (klists (kern s) (xTasksWaitingToSend q)) (uxLength Q - uxMessagesWaiting Q) (sending s q)) as H2.
  { eapply cover_keep; [apply (i_cover _ Hi (xTasksWaitingToSend q)); done | done | by rewrite A2 | apply taking_sending]. }
  assert (forall ws n P, cover ws n P -> (forall t, ~ P t) -> ws <> [] -> n <= 0) as Hno.
  { intros ws n P [-> | (W & _ & HW & HP)] Hnp Hne; [done |]. destruct W as [| x W]; [done |]. destruct (Hnp x). apply HP. left. }
  pose proof (y_kwf _ (i_sysk _ Hi)) as Hk. pose proof (y_placed _ (i_sysk _ Hi)) as Hp.
  split_and!; try done.
  - intros Hnp Hne. specialize (Hno _ _ _ H1 Hnp Hne). lia.
  - intros Hnp Hne. specialize (Hno _ _ _ H2 Hnp Hne). lia.
  - intros Hsu Hnt. split; [intros; by eapply xTaskResumeAll_head |]. intros Ht.
    destruct (xTaskResumeAll_drains (kern s) Hk Hp Hsu Hnt Ht) as (b & k' & moved & rest & ? & ? & _). by exists b, k', moved, rest.
  - intros Hsu Hnt Ht n Hl. destruct (resume_rounds_drain n (kern s) Hk Hp Hsu Hnt Ht Hl) as (k' & ? & _ & ? & ?). by exists k'.
Qed.

(** * The theorem at work *)

(** Task 1 receives from an empty queue and goes to wait. *)
Definition empty_queue : Queue_t := new_queue 2 1 2 false.
Definition sys0 : sys := mkSys (two_tasks 0 {[7 := empty_queue]} ∅) ∅.
Definition call0 : call := mkCall (Receive false) 7 10 None AtTry.
Definition section_of (c : call) (k : kernel) : ((bool * list Z) + call) * kernel :=
  match call_step c k with Ret r => r | Fault _ => (inr c, k) end.
Definition step1 := section_of call0 (kern sys0).
Definition call1 : call := match fst step1 with inr c => c | inl _ => call0 end.
Definition step2 := section_of call1 (snd step1).
Definition sys2 : sys := mkSys (snd step2) (next_call 1 (fst step2) (next_call 1 (fst step1) (<[1 := call0]> ∅))).

Lemma sys0_start : start sys0.
Proof.
  split; [| split; [| done]].
  - split; [apply two_tasks_kwf | apply two_tasks_placed | apply two_tasks_quiet | |].
    + intros t c Hc. apply two_tasks_tcb in Hc as [[-> ->] | [-> ->]]; cbn; lia.
    + intros q Q HQ. change (({[7 := empty_queue]} : gmap Z Queue_t) !! q = Some Q) in HQ. apply lookup_singleton_Some in HQ as [<- <-]. repeat split; cbn; lia.
  - intros l [Hl Hp]. cbn. rewrite fn_lookup_insert_ne; [done |]. intros <-. done.
Qed.

Lemma sys2_reached : rtc step sys0 sys2.
Proof.
  assert (runs (kern sys0) 1) as Hr by (split; [done |]; exists (ready_tcb 0 0), 5; split; [apply two_tasks_1 | done]).
  eapply rtc_l; [eapply (StepReceive _ _ 1 7 true 10 false call0); [exact Hr | done | vm_compute; reflexivity] |].
  eapply rtc_l.
  { eapply (StepSection _ _ 1 call0 empty_queue (fst step1) (snd step1)); [exact Hr | done | done | done |]. vm_compute. reflexivity. }
  apply rtc_once.
  assert (snd step1 = kern sys0) as Ek by (vm_compute; reflexivity).
  eapply (StepSection _ _ 1 call1 empty_queue (fst step2) (snd step2)); [by rewrite Ek | | by rewrite Ek | done |].
  - vm_compute. reflexivity.
  - vm_compute. reflexivity.
Qed.

Lemma no_lost_wakeup_witness :
  klists (kern sys2) (xTasksWaitingToReceive 7) = [1] /\ queues (kern sys2) !! 7 = Some empty_queue /\
  cover (klists (kern sys2) (xTasksWaitingToReceive 7)) (uxMessagesWaiting empty_queue) (receiving sys2 7).
Proof.
  assert (queues (kern sys2) !! 7 = Some empty_queue) as Hq by (vm_compute; reflexivity).
  split; [vm_compute; reflexivity | split; [exact Hq |]].
  exact (proj1 (no_lost_wakeup sys0 sys2 7 empty_queue sys0_start sys2_reached Hq)).
Defined.
