(* ===== verification/FreeRtosEvents.v ===== *)
(** Event groups (src/ESP32/components/freertos/event_groups.c): groups of bits,
    the tasks that wait for some or all of a set of bits, and the rendezvous.

    A call that may block is split where the scheduler may switch: the section
    up to the request to switch, and the section that runs when the task runs
    again.  What happens between the two is whatever other tasks and the tick
    do; [step] below lets them interleave. *)

From S2P Require Import Prelude FreeRtosList FreeRtosTasks FreeRtosTime FreeRtosQueue.

Definition eventCLEAR_EVENTS_ON_EXIT_BIT : Z := 0x01000000.
Definition eventUNBLOCKED_DUE_TO_BIT_SET : Z := 0x02000000.
Definition eventWAIT_FOR_ALL_BITS : Z := 0x04000000.
Definition eventEVENT_BITS_CONTROL_BYTES : Z := 0xff000000.

Definition get_bits (g : Z) : K Z := k ← get; G ← need NullPointer (groups k !! g); mret (uxEventBits G).
Definition put_bits (g v : Z) : K unit := modify (fun k => set_groups (<[g := mkEventGroup v]> (groups k)) k).

(** [x & ~y] is [Z.ldiff x y]. *)
Definition prvTestWaitCondition (uxCurrentEventBits uxBitsToWaitFor : Z) (xWaitForAllBits : bool) : bool :=
  if negb xWaitForAllBits then negb (Z.land uxCurrentEventBits uxBitsToWaitFor =? 0)
  else Z.land uxCurrentEventBits uxBitsToWaitFor =? uxBitsToWaitFor.

(** The mutex is initialised whether or not memory was found. *)
Definition xEventGroupCreate (pvPortMalloc : option Z) : K (option Z) :=
  match pvPortMalloc with
  | Some g => put_bits g 0;; set_list (xTasksWaitingForBits g) [];; mret (Some g)
  | None => throw NullPointer
  end.

(** ** Setting bits *)

(** The walk over the waiters; the next item is read before the current one
    may leave the list.  The result is uxBitsToClear. *)
Fixpoint set_bits_loop (items : list Z) (g uxBitsToClear : Z) : K Z :=
  match items with
  | [] => mret uxBitsToClear
  | pxListItem :: pxNext =>
      c ← get_tcb pxListItem;
      uxEventBits ← get_bits g;
      let uxControlBits := Z.land (item_value (xEventListItem c)) eventEVENT_BITS_CONTROL_BYTES in
      let uxBitsWaitedFor := Z.ldiff (item_value (xEventListItem c)) eventEVENT_BITS_CONTROL_BYTES in
      let xMatchFound :=
        if Z.land uxControlBits eventWAIT_FOR_ALL_BITS =? 0
        then negb (Z.land uxBitsWaitedFor uxEventBits =? 0)
        else Z.land uxBitsWaitedFor uxEventBits =? uxBitsWaitedFor in
      if xMatchFound then
        let uxBitsToClear :=
          if negb (Z.land uxControlBits eventCLEAR_EVENTS_ON_EXIT_BIT =? 0)
          then Z.lor uxBitsToClear uxBitsWaitedFor else uxBitsToClear in
        xTaskRemoveFromUnorderedEventList pxListItem (Z.lor uxEventBits eventUNBLOCKED_DUE_TO_BIT_SET);;
        set_bits_loop pxNext g uxBitsToClear
      else set_bits_loop pxNext g uxBitsToClear
  end.

(** The walk holds the mutex of the group and the scheduler of its own core is
    suspended.  The tick, which takes a waiter whose time is over off the list,
    runs on core 0 and holds the kernel's mutex: on core 0 it is put off until the
    scheduler is resumed, but a walk on core 1 does not keep it out.  The two then
    access the list at once, unless no waiter can time out; C does not define that,
    and nothing is claimed of it. *)
Definition may_time_out (k : kernel) (t : Z) : bool :=
  match tcbs k !! t with
  | Some c => bool_decide (container (xGenericListItem c) = Some xDelayedTaskList1 \/ container (xGenericListItem c) = Some xDelayedTaskList2)
  | None => false
  end.
Definition walks_alone (xEventGroup : Z) (k : kernel) : bool :=
  (xPortGetCoreID k =? 0) || negb (existsb (may_time_out k) (klists k (xTasksWaitingForBits xEventGroup))).
Definition enter_walk (xEventGroup : Z) : K unit :=
  alone ← gets (walks_alone xEventGroup); if (alone : bool) then mret tt else throw DataRace.

(** Up to the return of xTaskResumeAll: one section, for no tick comes in between. *)
Definition set_bits_section (xEventGroup uxBitsToSet : Z) : K unit :=
  get_bits xEventGroup;;
  assert (Z.land uxBitsToSet eventEVENT_BITS_CONTROL_BYTES =? 0);;
  vTaskSuspendAll;;
  enter_walk xEventGroup;;
  items ← get_list (xTasksWaitingForBits xEventGroup);
  uxEventBits ← get_bits xEventGroup;
  put_bits xEventGroup (Z.lor uxEventBits uxBitsToSet);;
  uxBitsToClear ← set_bits_loop items xEventGroup 0;
  uxEventBits ← get_bits xEventGroup;
  put_bits xEventGroup (Z.ldiff uxEventBits uxBitsToClear);;
  xTaskResumeAll;;
  mret tt.

(** The bits returned are those of the group once the caller runs again. *)
Definition xEventGroupSetBits (xEventGroup uxBitsToSet : Z) : K Z :=
  set_bits_section xEventGroup uxBitsToSet;; get_bits xEventGroup.

Definition vEventGroupSetBitsCallback (pvEventGroup ulBitsToSet : Z) : K unit :=
  xEventGroupSetBits pvEventGroup ulBitsToSet;; mret tt.

Definition xEventGroupClearBits (xEventGroup uxBitsToClear : Z) : K Z :=
  uxReturn ← get_bits xEventGroup;
  assert (Z.land uxBitsToClear eventEVENT_BITS_CONTROL_BYTES =? 0);;
  put_bits xEventGroup (Z.ldiff uxReturn uxBitsToClear);;
  mret uxReturn.

Definition vEventGroupClearBitsCallback (pvEventGroup ulBitsToClear : Z) : K unit :=
  xEventGroupClearBits pvEventGroup ulBitsToClear;; mret tt.

Definition xEventGroupGetBitsFromISR (xEventGroup : Z) : K Z := get_bits xEventGroup.

(** ** Waiting for bits *)

Definition wait_asserts (uxBitsToWaitFor xTicksToWait : Z) : K unit :=
  assert (Z.land uxBitsToWaitFor eventEVENT_BITS_CONTROL_BYTES =? 0);;
  assert (negb (uxBitsToWaitFor =? 0));;
  suspended_assert xTicksToWait.

(** After the critical section: the switch, when the caller went to wait. *)
Definition resume_and_yield (r : option Z) : K (option Z) :=
  xAlreadyYielded ← xTaskResumeAll;
  match r with
  | Some _ => mret r
  | None => when (negb xAlreadyYielded) portYIELD_WITHIN_API;; mret None
  end.

(** [Some bits] is the value returned; after [None] the caller waits. *)
Definition xEventGroupWaitBits (xEventGroup uxBitsToWaitFor : Z) (xClearOnExit xWaitForAllBits : bool) (xTicksToWait : Z) : K (option Z) :=
  get_bits xEventGroup;;
  wait_asserts uxBitsToWaitFor xTicksToWait;;
  vTaskSuspendAll;;
  uxCurrentEventBits ← get_bits xEventGroup;
  r ← (if prvTestWaitCondition uxCurrentEventBits uxBitsToWaitFor xWaitForAllBits then
         when xClearOnExit (put_bits xEventGroup (Z.ldiff uxCurrentEventBits uxBitsToWaitFor));;
         mret (Some uxCurrentEventBits)
       else if xTicksToWait =? 0 then mret (Some uxCurrentEventBits)
       else
         let uxControlBits := if xClearOnExit then Z.lor 0 eventCLEAR_EVENTS_ON_EXIT_BIT else 0 in
         let uxControlBits := if xWaitForAllBits then Z.lor uxControlBits eventWAIT_FOR_ALL_BITS else uxControlBits in
         vTaskPlaceOnUnorderedEventList (xTasksWaitingForBits xEventGroup) (Z.lor uxBitsToWaitFor uxControlBits) xTicksToWait;;
         mret None);
  resume_and_yield r.

(** When the task runs again: it was woken by bits, or its time is over. *)
Definition wait_bits_end (xEventGroup uxBitsToWaitFor : Z) (xClearOnExit xWaitForAllBits : bool) : K Z :=
  uxReturn ← uxTaskResetEventItemValue;
  uxReturn ← (if Z.land uxReturn eventUNBLOCKED_DUE_TO_BIT_SET =? 0 then
      uxReturn ← get_bits xEventGroup;
      when (prvTestWaitCondition uxReturn uxBitsToWaitFor xWaitForAllBits)
        (when xClearOnExit (put_bits xEventGroup (Z.ldiff uxReturn uxBitsToWaitFor)));;
      mret uxReturn
    else mret uxReturn);
  mret (Z.ldiff uxReturn eventEVENT_BITS_CONTROL_BYTES).

(** ** The rendezvous *)

Definition xEventGroupSync (xEventGroup uxBitsToSet uxBitsToWaitFor xTicksToWait : Z) : K (option Z) :=
  wait_asserts uxBitsToWaitFor xTicksToWait;;
  vTaskSuspendAll;;
  uxOriginalBitValue ← get_bits xEventGroup;
  xEventGroupSetBits xEventGroup uxBitsToSet;;
  r ← (if Z.land (Z.lor uxOriginalBitValue uxBitsToSet) uxBitsToWaitFor =? uxBitsToWaitFor then
         uxEventBits ← get_bits xEventGroup;
         put_bits xEventGroup (Z.ldiff uxEventBits uxBitsToWaitFor);;
         mret (Some (Z.lor uxOriginalBitValue uxBitsToSet))
       else if negb (xTicksToWait =? 0) then
         vTaskPlaceOnUnorderedEventList (xTasksWaitingForBits xEventGroup)
           (Z.lor (Z.lor uxBitsToWaitFor eventCLEAR_EVENTS_ON_EXIT_BIT) eventWAIT_FOR_ALL_BITS) xTicksToWait;;
         mret None
       else uxEventBits ← get_bits xEventGroup; mret (Some uxEventBits));
  resume_and_yield r.

Definition sync_end (xEventGroup uxBitsToWaitFor : Z) : K Z :=
  uxReturn ← uxTaskResetEventItemValue;
  uxReturn ← (if Z.land uxReturn eventUNBLOCKED_DUE_TO_BIT_SET =? 0 then
      uxReturn ← get_bits xEventGroup;
      when (Z.land uxReturn uxBitsToWaitFor =? uxBitsToWaitFor)
        (put_bits xEventGroup (Z.ldiff uxReturn uxBitsToWaitFor));;
      mret uxReturn
    else mret uxReturn);
  mret (Z.ldiff uxReturn eventEVENT_BITS_CONTROL_BYTES).

(** ** Deletion *)

Fixpoint delete_loop (fuel : nat) (g : Z) : K unit :=
  match fuel with
  | O => throw OutOfFuel
  | S fuel =>
      l ← get_list (xTasksWaitingForBits g);
      match l with
      | [] => mret tt
      | t :: _ => xTaskRemoveFromUnorderedEventList t eventUNBLOCKED_DUE_TO_BIT_SET;; delete_loop fuel g
      end
  end.

Definition vEventGroupDelete (xEventGroup : Z) : K unit :=
  get_bits xEventGroup;;
  vTaskSuspendAll;;
  enter_walk xEventGroup;;
  l ← get_list (xTasksWaitingForBits xEventGroup);
  delete_loop (S (length l)) xEventGroup;;
  modify (fun k => set_groups (delete xEventGroup (groups k)) k);;
  xTaskResumeAll;;
  mret tt.

(** * The request of a task, in the value of its event item *)

(** The 24 bits of a group. *)
Definition event_bits (b : Z) : Prop := 0 <= b < 2 ^ 24.

Definition control (clear all : bool) : Z :=
  Z.lor (if clear then eventCLEAR_EVENTS_ON_EXIT_BIT else 0) (if all then eventWAIT_FOR_ALL_BITS else 0).
Definition item_request (w : Z) (clear all : bool) : Z :=
  Z.lor (Z.lor w (control clear all)) taskEVENT_LIST_ITEM_VALUE_IN_USE.
(** The value with which a task is woken by bits. *)
Definition item_met (bits : Z) : Z :=
  Z.lor (Z.lor bits eventUNBLOCKED_DUE_TO_BIT_SET) taskEVENT_LIST_ITEM_VALUE_IN_USE.

Lemma testbit_high b n : event_bits b -> 24 <= n -> Z.testbit b n = false.
Proof.
  intros [H0 H1] Hn. destruct (decide (b = 0)) as [-> |]; [apply Z.testbit_0_l |].
  apply Z.bits_above_log2; [done |]. assert (Z.log2 b < 24); [apply Z.log2_lt_pow2 |]; lia.
Qed.
Lemma testbit_event_bits b : 0 <= b -> (forall n, 24 <= n -> Z.testbit b n = false) -> event_bits b.
Proof.
  intros Hb H. split; [done |]. destruct (decide (b = 0)) as [-> |]; [done |].
  apply Z.log2_lt_pow2; [lia |]. destruct (Z.lt_ge_cases (Z.log2 b) 24); [done |].
  pose proof (Z.bit_log2 b) as E. rewrite H in E by done. by specialize (E ltac:(lia)).
Qed.
Lemma testbit_control n : 0 <= n -> Z.testbit eventEVENT_BITS_CONTROL_BYTES n = (24 <=? n) && (n <? 32).
Proof.
  intros Hn. change eventEVENT_BITS_CONTROL_BYTES with (Z.shiftl (Z.ones 8) 24).
  rewrite Z.shiftl_spec by done. destruct (Z.leb_spec 24 n); cbn [andb].
  - destruct (Z.ltb_spec n 32); [rewrite Z.ones_spec_low | rewrite Z.ones_spec_high]; [done | lia.. | done | lia].
  - apply Z.testbit_neg_r. lia.
Qed.

(** A single control bit. *)
Lemma land_bit a n : 0 <= n -> (Z.land a (2 ^ n) =? 0) = negb (Z.testbit a n).
Proof.
  intros Hn. destruct (Z.eqb_spec (Z.land a (2 ^ n)) 0) as [E | E].
  - assert (Z.testbit (Z.land a (2 ^ n)) n = false) as H by (rewrite E; apply Z.testbit_0_l).
    rewrite Z.land_spec, Z.pow2_bits_true, andb_true_r in H by done. by rewrite H.
  - destruct (Z.testbit a n) eqn:H; [done |]. exfalso. apply E. apply Z.bits_inj'. intros m Hm.
    rewrite Z.land_spec, Z.testbit_0_l. destruct (decide (m = n)) as [-> |]; [by rewrite H |].
    rewrite Z.pow2_bits_false by lia. apply andb_false_r.
Qed.
Lemma land_control_bit a n : 24 <= n < 32 -> (Z.land (Z.land a eventEVENT_BITS_CONTROL_BYTES) (2 ^ n) =? 0) = negb (Z.testbit a n).
Proof.
  intros Hn. rewrite land_bit, Z.land_spec, testbit_control by lia.
  replace ((24 <=? n) && (n <? 32)) with true by lia. by rewrite andb_true_r.
Qed.

Lemma event_bits_lor a b : event_bits a -> event_bits b -> event_bits (Z.lor a b).
Proof.
  intros Ha Hb. apply testbit_event_bits; [apply Z.lor_nonneg; destruct Ha, Hb; lia |].
  intros n Hn. by rewrite Z.lor_spec, !testbit_high.
Qed.
Lemma event_bits_ldiff a b : event_bits a -> event_bits (Z.ldiff a b).
Proof.
  intros Ha. apply testbit_event_bits; [apply Z.ldiff_nonneg; destruct Ha; lia |].
  intros n Hn. by rewrite Z.ldiff_spec, testbit_high.
Qed.
Lemma event_bits_land_control b : 0 <= b < 2 ^ 32 -> Z.land b eventEVENT_BITS_CONTROL_BYTES = 0 -> event_bits b.
Proof.
  intros Hb H. apply testbit_event_bits; [lia |]. intros n Hn. destruct (Z.lt_ge_cases n 32) as [Hl | Hl].
  - assert (Z.testbit (Z.land b eventEVENT_BITS_CONTROL_BYTES) n = false) as Hz by (rewrite H; apply Z.testbit_0_l).
    rewrite Z.land_spec, testbit_control in Hz by lia. replace ((24 <=? n) && (n <? 32)) with true in Hz by lia. by rewrite andb_true_r in Hz.
  - destruct (decide (b = 0)) as [-> |]; [apply Z.testbit_0_l |]. apply Z.bits_above_log2; [lia |].
    assert (Z.log2 b < 32); [apply Z.log2_lt_pow2 |]; lia.
Qed.
Lemma event_bits_control b : event_bits b -> Z.land b eventEVENT_BITS_CONTROL_BYTES = 0.
Proof.
  intros Hb. apply Z.bits_inj'. intros n Hn. rewrite Z.land_spec, testbit_control, Z.testbit_0_l by done.
  destruct (Z.leb_spec 24 n); [by rewrite testbit_high | apply andb_false_r].
Qed.

(** The value of an item: bits of the group below, control bits above. *)
Lemma event_item_split b c : event_bits b -> 0 <= c < 2 ^ 32 -> Z.land c (Z.ones 24) = 0 ->
  Z.ldiff (Z.lor b c) eventEVENT_BITS_CONTROL_BYTES = b /\ 0 <= Z.lor b c < 2 ^ 32 /\
  (forall n, 24 <= n -> Z.testbit (Z.lor b c) n = Z.testbit c n).
Proof.
  intros Hb Hc Hl.
  assert (forall n, 0 <= n < 24 -> Z.testbit c n = false) as Hlow.
  { intros n Hn. assert (Z.testbit (Z.land c (Z.ones 24)) n = false) as H by (rewrite Hl; apply Z.testbit_0_l).
    rewrite Z.land_spec, Z.ones_spec_low, andb_true_r in H; [done | lia]. }
  assert (forall n, 32 <= n -> Z.testbit c n = false) as Hhigh.
  { intros n Hn. destruct (decide (c = 0)) as [-> |]; [apply Z.testbit_0_l |]. apply Z.bits_above_log2; [lia |].
    assert (Z.log2 c < 32); [apply Z.log2_lt_pow2 |]; lia. }
  split_and!.
  - apply Z.bits_inj'. intros n Hn. rewrite Z.ldiff_spec, Z.lor_spec, testbit_control by done.
    destruct (Z.lt_ge_cases n 24); [rewrite Hlow by lia; replace ((24 <=? n) && (n <? 32)) with false by lia; by rewrite orb_false_r, andb_true_r |].
    rewrite (testbit_high b) by done. destruct (Z.ltb_spec n 32); [replace (24 <=? n) with true by lia; apply andb_false_r | by rewrite Hhigh].
  - apply Z.lor_nonneg. destruct Hb. lia.
  - destruct (decide (Z.lor b c = 0)) as [-> |]; [lia |]. assert (0 <= Z.lor b c) by (apply Z.lor_nonneg; destruct Hb; lia).
    apply Z.log2_lt_pow2; [lia |]. rewrite Z.log2_lor by (destruct Hb; lia).
    assert (Z.log2 b < 32) by (destruct Hb; destruct (decide (b = 0)) as [-> |]; [done |]; apply Z.log2_lt_pow2; lia).
    assert (Z.log2 c < 32) by (destruct (decide (c = 0)) as [-> |]; [done |]; apply Z.log2_lt_pow2; lia). lia.
  - intros n Hn. by rewrite Z.lor_spec, (testbit_high b).
Qed.

Lemma request_split w clear all : event_bits w ->
  Z.ldiff (item_request w clear all) eventEVENT_BITS_CONTROL_BYTES = w /\ 0 <= item_request w clear all < 2 ^ 32 /\
  Z.testbit (item_request w clear all) 24 = clear /\ Z.testbit (item_request w clear all) 25 = false /\
  Z.testbit (item_request w clear all) 26 = all.
Proof.
  intros Hw. unfold item_request. rewrite <- Z.lor_assoc.
  destruct (event_item_split w (Z.lor (control clear all) taskEVENT_LIST_ITEM_VALUE_IN_USE) Hw) as (H1 & H2 & H3);
    [by destruct clear, all | by destruct clear, all |].
  split_and!; try apply H2; [done | rewrite H3 by done; by destruct clear, all..].
Qed.
Lemma met_split b : event_bits b ->
  Z.ldiff (item_met b) eventEVENT_BITS_CONTROL_BYTES = b /\ 0 <= item_met b < 2 ^ 32 /\ Z.testbit (item_met b) 25 = true.
Proof.
  intros Hb. unfold item_met. rewrite <- Z.lor_assoc.
  destruct (event_item_split b (Z.lor eventUNBLOCKED_DUE_TO_BIT_SET taskEVENT_LIST_ITEM_VALUE_IN_USE) Hb) as (H1 & H2 & H3); [done.. |].
  split_and!; try apply H2; [done | by rewrite H3].
Qed.

(** The test of the walk is the test of the waiting call. *)
Definition item_bits (v : Z) : Z := Z.ldiff v eventEVENT_BITS_CONTROL_BYTES.
Definition item_match (bits v : Z) : bool := prvTestWaitCondition bits (item_bits v) (Z.testbit v 26).
Definition item_clears (v : Z) : Z := if Z.testbit v 24 then item_bits v else 0.

Lemma item_match_request bits w clear all : event_bits w -> item_match bits (item_request w clear all) = prvTestWaitCondition bits w all.
Proof. intros Hw. destruct (request_split w clear all Hw) as (E & _ & _ & _ & Ea). unfold item_match, item_bits. by rewrite E, Ea. Qed.

Lemma prvTestWaitCondition_mono bits b w all : prvTestWaitCondition bits w all = false -> prvTestWaitCondition (Z.ldiff bits b) w all = false.
Proof.
  unfold prvTestWaitCondition. destruct all; cbn [negb].
  - rewrite !Z.eqb_neq. intros H E. apply H. apply Z.bits_inj'. intros n Hn.
    assert (Z.testbit (Z.land (Z.ldiff bits b) w) n = Z.testbit w n) as Hb by by rewrite E.
    rewrite Z.land_spec, Z.ldiff_spec in Hb. rewrite Z.land_spec. by destruct (Z.testbit bits n), (Z.testbit b n), (Z.testbit w n).
  - rewrite !negb_false_iff, !Z.eqb_eq. intros H. apply Z.bits_inj'. intros n Hn.
    assert (Z.testbit (Z.land bits w) n = false) as Hb by (rewrite H; apply Z.testbit_0_l).
    rewrite Z.land_spec in Hb. rewrite Z.land_spec, Z.ldiff_spec, Z.testbit_0_l.
    by destruct (Z.testbit bits n), (Z.testbit b n), (Z.testbit w n).
Qed.

(** * Waking a task with a value *)

(** What the moves of tasks leave alone. *)
Definition env (k : kernel) :=
  (queues k, pxCurrentTCB k, xPortGetCoreID k, uxSchedulerSuspended k, xSchedulerRunning k, uxCurrentNumberOfTasks k,
   uxPendedTicks k, xTickCount k, xNumOfOverflows k, delayed_is_1 k).

Lemma frame_env k k' : frame k k' -> env k' = env k.
Proof. intros []. unfold env. congruence. Qed.

Lemma env_core k k' : env k' = env k -> xPortGetCoreID k' = xPortGetCoreID k.
Proof. unfold env. congruence. Qed.
Lemma env_suspended k k' : env k' = env k -> uxSchedulerSuspended k' = uxSchedulerSuspended k.
Proof. unfold env. congruence. Qed.
Lemma env_current k k' : env k' = env k -> pxCurrentTCB k' = pxCurrentTCB k.
Proof. unfold env. congruence. Qed.
Lemma env_pended k k' : env k' = env k -> uxPendedTicks k' = uxPendedTicks k.
Proof. unfold env. congruence. Qed.

(** Tasks, lists and requests to switch, and nothing else, were written. *)
Definition only_moves (k k' : kernel) : Prop :=
  k' = set_yields (yields k') (set_yield_pending (xYieldPending k') (set_klists (klists k') (set_tcbs (tcbs k') k))).

#[export] Instance only_moves_refl : Reflexive only_moves.
Proof. by intros []. Qed.
#[export] Instance only_moves_trans : Transitive only_moves.
Proof. intros a b c H1 H2. unfold only_moves in *. rewrite H2, H1. reflexivity. Qed.

(** The tasks of [ts] that the ready list [m] takes, in their order. *)
Definition joins (k : kernel) (m : list_id) (ts : list Z) : list Z :=
  filter (fun t => (fun c => pxReadyTasksLists (uxPriority c)) <$> tcbs k !! t = Some m) ts.

Lemma joins_ext k k' m ts : (forall t, t ∈ ts -> tcbs k' !! t = tcbs k !! t) -> joins k' m ts = joins k m ts.
Proof.
  unfold joins. induction ts as [| t ts IH]; intros H; [done |]. rewrite !filter_cons, IH by (intros y Hy; apply H; by right).
  by rewrite (H t) by left.
Qed.

(** The moves of a wake-up, in full. *)
Lemma event_then_ready_moves k t c u k' : kwf k -> tcbs k !! t = Some c -> is_Some (container (xGenericListItem c)) ->
  is_Some (container (xEventListItem c)) ->
  (list_remove event_item t;; list_remove generic_item t;; prvAddTaskToReadyList t) k = Ret (u, k') ->
  only_moves k k' /\ forall m, klists k' m = remove_item t (klists k m) ++ joins k m [t].
Proof.
  intros Hk Ht (g & Hg) (l & Hl) H.
  set (k1 := unlink_item event_item t c l k). set (c1 := with_item event_item (mkItem (item_value (xEventListItem c)) None) c).
  assert (tcbs k1 !! t = Some c1) as H1 by (unfold k1, unlink_item; cbn; by rewrite lookup_insert_eq).
  set (k2 := unlink_item generic_item t c1 g k1). set (c2 := with_item generic_item (mkItem (item_value (xGenericListItem c1)) None) c1).
  assert (tcbs k2 !! t = Some c2) as H2 by (unfold k2, unlink_item; cbn; by rewrite lookup_insert_eq).
  erewrite run_bind in H by (by apply list_remove_run). fold k1 in H.
  erewrite run_bind in H by (by apply (list_remove_run generic_item t c1 g)). fold k2 in H.
  unfold prvAddTaskToReadyList in H. erewrite run_bind in H by (by apply get_tcb_run).
  rewrite (list_insert_end_run _ _ _ c2 k2 H2) in H.
  apply (f_equal (fun r => match r with Ret (_, x) => x | Fault _ => k' end)) in H. cbv beta iota in H. subst k'.
  pose proof (k_kind k Hk t c event_item l Ht Hl) as Kl. pose proof (k_kind k Hk t c generic_item g Ht Hg) as Kg.
  split; [by destruct k |]. intros m. unfold joins. rewrite filter_cons, Ht. cbn [fmap option_fmap option_map]. change (uxPriority c2) with (uxPriority c).
  assert (klists k2 m = remove_item t (klists k m)) as E2.
  { unfold k2, k1, unlink_item. cbn. destruct (decide (m = g)) as [-> | Hg'].
    - rewrite fn_lookup_insert, fn_lookup_insert_ne; [done | congruence].
    - rewrite fn_lookup_insert_ne by done. destruct (decide (m = l)) as [-> | Hl']; [by rewrite fn_lookup_insert |].
      rewrite fn_lookup_insert_ne by done. symmetry. destruct (kind_of m) eqn:Em.
      + apply (remove_item_not_in k generic_item t c (Some g)); [done | done | exact Hg | done | congruence].
      + apply (remove_item_not_in k event_item t c (Some l)); [done | done | exact Hl | done | congruence]. }
  change (klists (link_item generic_item t c2 (pxReadyTasksLists (uxPriority c)) (klists k2 (pxReadyTasksLists (uxPriority c)) ++ [t]) k2) m)
    with (<[pxReadyTasksLists (uxPriority c) := klists k2 (pxReadyTasksLists (uxPriority c)) ++ [t]]> (klists k2) m).
  destruct (decide (m = pxReadyTasksLists (uxPriority c))) as [-> | Hne].
  - rewrite fn_lookup_insert, E2, decide_True by done. done.
  - rewrite fn_lookup_insert_ne, E2, decide_False by (done || congruence). by rewrite app_nil_r.
Qed.

(** [t] became ready with the value [v] in its event item. *)
Record released (v t : Z) (k k' : kernel) : Prop := {
  l_kwf : kwf k'; l_env : env k' = env k; l_groups : groups k' = groups k; l_ready : is_ready k' t;
  l_tcbs y : y <> t -> tcbs k' !! y = tcbs k !! y;
  l_tcb c : tcbs k !! t = Some c -> exists c', tcbs k' !! t = Some c' /\ xEventListItem c' = mkItem v None /\
    uxPriority c' = uxPriority c /\ xCoreID c' = xCoreID c /\ uxBasePriority c' = uxBasePriority c /\ uxMutexesHeld c' = uxMutexesHeld c;
  l_lists m : kind_of m = event_item -> klists k' m = remove_item t (klists k m);
  l_moves : only_moves k k';
  l_all m : klists k' m = remove_item t (klists k m) ++ joins k m [t] }.

(** The release of a waiter; it asserts that the scheduler of the core is
    suspended. *)
Lemma release_run k t c l v : kwf k -> placed k -> tcbs k !! t = Some c -> container (xEventListItem c) = Some l ->
  0 <= v -> Z.lor v taskEVENT_LIST_ITEM_VALUE_IN_USE < 2 ^ 32 ->
  if uxSchedulerSuspended k (xPortGetCoreID k) =? 0 then xTaskRemoveFromUnorderedEventList t v k = Fault AssertFailed
  else exists b k', xTaskRemoveFromUnorderedEventList t v k = Ret (b, k') /\
    released (Z.lor v taskEVENT_LIST_ITEM_VALUE_IN_USE) t k k' /\ placed k'.
Proof.
  intros Hk Hp Ht Hc Hv0 Hv. unfold xTaskRemoveFromUnorderedEventList, listSET_LIST_ITEM_VALUE.
  destruct (uxSchedulerSuspended k (xPortGetCoreID k) =? 0) eqn:Es; [by (erewrite run_bind by done; rewrite Es) |].
  erewrite run_bind by done. rewrite Es. erewrite run_bind by done. erewrite run_bind by (by apply update_tcb_run).
  rewrite wrap_u_small by (split; [apply Z.lor_nonneg; split; done | done]).
  set (v' := Z.lor v taskEVENT_LIST_ITEM_VALUE_IN_USE). set (c1 := with_item event_item _ c). set (k1 := set_tcbs _ k).
  assert (tcbs k1 !! t = Some c1) as Ht1 by (cbn; by rewrite lookup_insert_eq).
  assert (kwf k1) as Hk1 by (apply (kwf_set t c c1); try done; by intros []).
  assert (placed k1) as Hp1 by (by apply (placed_set t c c1)).
  destruct (event_then_ready_run k1 t c1 Hk1 Ht1) as (k2 & Hr & Hre); [by apply (Hp1 t) | by exists l |].
  destruct (event_then_ready_moves k1 t c1 _ _ Hk1 Ht1 (Hp1 t c1 Ht1) (mk_is_Some (container (xEventListItem c1)) l Hc) Hr) as [Hmv Hall].
  erewrite run_three by exact Hr. pose proof Hre as [Hk2 Hf Hrd Hy He Hm _].
  destruct (f_tcb _ _ Hf t c1 Ht1) as (c2 & Ht2 & Hl).
  destruct (switch_if_higher_run k2 t c2 Hk2 Ht2) as (b & k3 & Hs & Ho). exists b, k3. split; [done |].
  pose proof (only_yields_frame _ _ Ho) as Hf3. pose proof (readied_placed _ _ _ Hp1 Hre) as Hp2. destruct Ho as (w & ys & ->).
  split; [split; try done |].
  - destruct Hk2. by split.
  - rewrite (frame_env _ _ Hf3), (frame_env _ _ Hf). done.
  - exact (f_groups _ _ Hf).
  - intros y Hne. cbn. rewrite Hy by done. cbn. by rewrite lookup_insert_ne.
  - intros x Hx. rewrite Ht in Hx. injection Hx as <-. exists c2. split; [done |].
    destruct Hl as (-> & -> & -> & -> & E). specialize (He c2 Ht2). split_and!; try done.
    destruct (xEventListItem c2) as [v2 o2]. cbn in *. by subst.
  - transitivity k1; [by destruct k |]. transitivity k2; [done |]. by destruct k2.
  - intros m. cbn. rewrite Hall. change (klists k1 m) with (klists k m). f_equal. unfold joins. rewrite !filter_cons, Ht1, Ht. done.
  - intros y x Hx. by apply (Hp2 y).
Qed.

Fixpoint released_all (v : Z) (ts : list Z) (k k' : kernel) : Prop :=
  match ts with [] => k' = k | t :: ts => exists k1, released v t k k1 /\ released_all v ts k1 k' end.

Lemma remove_items_nil (l : list Z) : filter (fun x => x ∉ []) l = l.
Proof. induction l as [| x l IH]; [done |]. rewrite filter_cons_True, IH; [done | set_solver +]. Qed.
Lemma remove_items_cons t ts l : filter (fun x => x ∉ t :: ts) l = filter (fun x => x ∉ ts) (remove_item t l).
Proof.
  unfold remove_item. induction l as [| x l IH]; [done |]. rewrite !filter_cons, IH.
  destruct (decide (x ∉ t :: ts)) as [H | H], (decide (x <> t)) as [H1 | H1]; rewrite ?filter_cons; repeat case_decide; try done; set_solver.
Qed.

(** What a sequence of releases adds up to. *)
Lemma released_all_spec v ts : forall k k', kwf k -> NoDup ts -> (forall t, t ∈ ts -> is_Some (tcbs k !! t)) -> released_all v ts k k' ->
  kwf k' /\ env k' = env k /\ groups k' = groups k /\
  (forall y, y ∉ ts -> tcbs k' !! y = tcbs k !! y) /\
  (forall t, t ∈ ts -> is_ready k' t) /\
  (forall t c, t ∈ ts -> tcbs k !! t = Some c -> exists c', tcbs k' !! t = Some c' /\ xEventListItem c' = mkItem v None /\
    uxPriority c' = uxPriority c /\ xCoreID c' = xCoreID c /\ uxBasePriority c' = uxBasePriority c /\ uxMutexesHeld c' = uxMutexesHeld c) /\
  (forall m, kind_of m = event_item -> klists k' m = filter (fun x => x ∉ ts) (klists k m)) /\
  only_moves k k' /\
  (forall m, klists k' m = filter (fun x => x ∉ ts) (klists k m) ++ joins k m ts).
Proof.
  induction ts as [| t ts IH]; intros k k' Hk Hd Hs H; cbn [released_all] in H.
  - subst k'. split_and!; try done; [set_solver.. | |].
    + intros m _. by rewrite remove_items_nil.
    + intros m. by rewrite remove_items_nil, app_nil_r.
  - destruct H as (k1 & [] & H). apply list.NoDup_cons in Hd as [Hn Hd].
    destruct (IH k1 k') as (Hk' & He & Hg & Hy & Hr & Ht & Hm & Hmv & Hall); [done.. | | done |].
    { intros y Hy. rewrite l_tcbs0 by (intros ->; done). apply Hs. set_solver +Hy. }
    assert (forall y, y <> t -> y ∉ ts -> tcbs k' !! y = tcbs k !! y) as Hy' by (intros; by rewrite Hy, l_tcbs0).
    split_and!; try congruence.
    + intros y Hny. apply Hy'; set_solver +Hny.
    + intros y [-> | Hin]%elem_of_cons; [| by apply Hr]. destruct l_ready0 as (c & p & Hc & E). exists c, p. by rewrite Hy.
    + intros y c [-> | Hin]%elem_of_cons Hc.
      * destruct (l_tcb0 c Hc) as (c' & Hc' & Hx). exists c'. by rewrite Hy.
      * apply Ht; [done |]. rewrite l_tcbs0; [done | by intros ->].
    + intros m Hm'. by rewrite Hm, l_lists0, remove_items_cons.
    + by transitivity k1.
    + intros m. rewrite Hall, l_all0, list.filter_app, remove_items_cons, <- app_assoc. f_equal.
      rewrite (joins_ext k k1) by (intros y Hyin; apply l_tcbs0; intros ->; done).
      unfold joins. rewrite !filter_cons. destruct (decide _); [| done]. rewrite !list.filter_nil.
      by rewrite list.filter_cons, decide_True, filter_nil by done.
Qed.

(** * The walk over the waiters *)

Definition hits (bits : Z) (k : kernel) (items : list Z) : list Z :=
  filter (fun t => item_match bits (values event_item k t) = true) items.
(** The bits that the tasks [ts] clear on exit. *)
Definition clears (k : kernel) (ts : list Z) : Z := foldr (fun t a => Z.lor (item_clears (values event_item k t)) a) 0 ts.

Lemma match_found v bits :
  (if Z.land (Z.land v eventEVENT_BITS_CONTROL_BYTES) eventWAIT_FOR_ALL_BITS =? 0
   then negb (Z.land (item_bits v) bits =? 0) else Z.land (item_bits v) bits =? item_bits v) = item_match bits v.
Proof.
  change eventWAIT_FOR_ALL_BITS with (2 ^ 26). rewrite land_control_bit by done. unfold item_match, prvTestWaitCondition.
  rewrite (Z.land_comm bits). by destruct (Z.testbit v 26).
Qed.
Lemma clears_found v clr :
  (if negb (Z.land (Z.land v eventEVENT_BITS_CONTROL_BYTES) eventCLEAR_EVENTS_ON_EXIT_BIT =? 0) then Z.lor clr (item_bits v) else clr)
  = Z.lor clr (item_clears v).
Proof.
  change eventCLEAR_EVENTS_ON_EXIT_BIT with (2 ^ 24). rewrite land_control_bit by done. unfold item_clears.
  destruct (Z.testbit v 24); cbn [negb]; [done | by rewrite Z.lor_0_r].
Qed.

Lemma hits_ext bits k k' items : (forall t, t ∈ items -> tcbs k' !! t = tcbs k !! t) -> hits bits k' items = hits bits k items.
Proof.
  unfold hits. induction items as [| t items IH]; intros H; [done |]. rewrite !filter_cons, IH by set_solver +H.
  assert (values event_item k' t = values event_item k t) as -> by (unfold values; rewrite (H t); [done | left]). done.
Qed.
Lemma clears_ext k k' ts : (forall t, t ∈ ts -> tcbs k' !! t = tcbs k !! t) -> clears k' ts = clears k ts.
Proof. intros H. unfold clears. induction ts as [| t ts IH]; [done |]. cbn. rewrite IH by set_solver +H. unfold values. rewrite (H t); [done | left]. Qed.

Lemma elem_of_hits bits k items t : t ∈ hits bits k items <-> item_match bits (values event_item k t) = true /\ t ∈ items.
Proof. unfold hits. by rewrite list_elem_of_filter. Qed.

Lemma get_bits_run k g b : groups k !! g = Some (mkEventGroup b) -> get_bits g k = Ret (b, k).
Proof. intros H. unfold get_bits. erewrite run_bind by done. by rewrite H. Qed.

Lemma set_bits_loop_run g B : event_bits B -> forall items k clr,
  kwf k -> placed k -> NoDup items -> (forall t, t ∈ items -> t ∈ klists k (xTasksWaitingForBits g)) ->
  groups k !! g = Some (mkEventGroup B) ->
  match set_bits_loop items g clr k with
  | Ret (c, k') => c = Z.lor clr (clears k (hits B k items)) /\ released_all (item_met B) (hits B k items) k k' /\ placed k'
  | Fault e => uxSchedulerSuspended k (xPortGetCoreID k) = 0
  end.
Proof.
  intros HB. induction items as [| t items IH]; intros k clr Hk Hp Hd Hin Hg; cbn [set_bits_loop].
  { cbn. by rewrite Z.lor_0_r. }
  apply list.NoDup_cons in Hd as [Hn Hd]. specialize (IH).
  destruct (proj1 (k_in k Hk _ t) (Hin t ltac:(left))) as (c & Ht & Hc). cbn in Hc.
  erewrite run_bind by (by apply get_tcb_run). erewrite run_bind by (by apply get_bits_run). cbv zeta.
  change (Z.ldiff (item_value (xEventListItem c)) eventEVENT_BITS_CONTROL_BYTES) with (item_bits (item_value (xEventListItem c))).
  rewrite match_found, clears_found.
  pose proof (values_tcb event_item k t c Ht) as Ev. cbn [item_of_kind] in Ev. rewrite <- Ev.
  unfold hits. rewrite filter_cons. fold (hits B k items). destruct (item_match B (values event_item k t)) eqn:Em.
  - rewrite decide_True by done. destruct (met_split B HB) as (_ & Hv & _).
    pose proof (release_run k t c _ (Z.lor B eventUNBLOCKED_DUE_TO_BIT_SET) Hk Hp Ht Hc) as Hr.
    destruct (uxSchedulerSuspended k (xPortGetCoreID k) =? 0) eqn:Es; [rewrite run_bind_fault with (e := AssertFailed); [lia |] |].
    { apply Hr; [apply Z.lor_nonneg; split; [apply HB | done] | apply Hv]. }
    destruct Hr as (b & k1 & Hr & Hrel & Hp1); [apply Z.lor_nonneg; split; [apply HB | done] | apply Hv |].
    erewrite run_bind by exact Hr. pose proof Hrel as [Hk1 He Hgr Hre Hy _ Hm].
    assert (forall y, y ∈ items -> tcbs k1 !! y = tcbs k !! y) as Hsame by (intros y Hyi; apply Hy; intros ->; done).
    specialize (IH k1 (Z.lor clr (item_clears (values event_item k t))) Hk1 Hp1 Hd).
    rewrite (hits_ext B k k1), (clears_ext k k1) in IH by (intros y Hyi; apply Hsame; first [done | by apply elem_of_hits in Hyi as []]).
    destruct (set_bits_loop items g _ k1) as [[r k'] | e].
    + destruct IH as (-> & Hrs & Hp'); [| by rewrite Hgr |].
      { intros y Hyi. rewrite Hm by done. apply elem_of_remove_item. split; [intros ->; done | apply Hin; by right]. }
      split_and!; [by rewrite <- Z.lor_assoc | | done]. exists k1. by split.
    + assert (uxSchedulerSuspended k1 (xPortGetCoreID k1) = 0) as E0.
      { apply IH; [| by rewrite Hgr]. intros y Hyi. rewrite Hm by done. apply elem_of_remove_item. split; [intros ->; done | apply Hin; by right]. }
      by rewrite (env_core _ _ He), (env_suspended _ _ He) in E0.
  - rewrite decide_False by done. apply IH; try done. intros y Hyi. apply Hin. by right.
Qed.

(** * What the waiters asked for *)

Record wait_request := mkRequest { w_bits : Z; w_clear : bool; w_all : bool }.
Definition item_of (r : wait_request) : Z := item_request (w_bits r) (w_clear r) (w_all r).
Definition met (bits : Z) (r : wait_request) : bool := prvTestWaitCondition bits (w_bits r) (w_all r).

(** The tasks woken, and the bits they clear. *)
Definition woken (req : Z -> wait_request) (bits : Z) (waiters : list Z) : list Z := filter (fun t => met bits (req t) = true) waiters.
Definition cleared (req : Z -> wait_request) (ts : list Z) : Z :=
  foldr (fun t a => Z.lor (if w_clear (req t) then w_bits (req t) else 0) a) 0 ts.

(** The items of [ts] hold these requests. *)
Definition asked (req : Z -> wait_request) (k : kernel) (ts : list Z) : Prop :=
  forall t, t ∈ ts -> event_bits (w_bits (req t)) /\ values event_item k t = item_of (req t).

Lemma hits_woken req bits k ts : asked req k ts -> hits bits k ts = woken req bits ts.
Proof.
  unfold hits, woken. induction ts as [| t ts IH]; intros H; [done |].
  destruct (H t ltac:(left)) as [Hw Ev]. rewrite !filter_cons, IH by (intros y Hy; apply H; by right).
  rewrite Ev. unfold item_of. rewrite item_match_request by done. done.
Qed.
Lemma clears_cleared req k ts : asked req k ts -> clears k ts = cleared req ts.
Proof.
  unfold clears, cleared. induction ts as [| t ts IH]; intros H; [done |]. cbn. rewrite IH by (intros y Hy; apply H; by right).
  destruct (H t ltac:(left)) as [Hw ->]. f_equal. unfold item_clears, item_bits, item_of.
  by destruct (request_split (w_bits (req t)) (w_clear (req t)) (w_all (req t)) Hw) as (-> & _ & -> & _).
Qed.
Lemma elem_of_woken req bits ts t : t ∈ woken req bits ts <-> met bits (req t) = true /\ t ∈ ts.
Proof. unfold woken. by rewrite list_elem_of_filter. Qed.
Lemma asked_sub req k ts ts' : asked req k ts -> (forall t, t ∈ ts' -> t ∈ ts) -> asked req k ts'.
Proof. intros H Hs t Ht. auto. Qed.

(** * Setting bits *)

(** The resume when nothing happened meanwhile. *)
Lemma resume_quick k n : uxSchedulerSuspended k (xPortGetCoreID k) = n -> 0 < n < 2 ^ 32 ->
  klists k (xPendingReadyList (xPortGetCoreID k)) = [] -> uxPendedTicks k = 0 ->
  exists b y, xTaskResumeAll k =
    Ret (b, set_yields y (set_suspended (<[xPortGetCoreID k := n - 1]> (uxSchedulerSuspended k)) k)).
Proof.
  intros <- Hn Hl Hp. unfold xTaskResumeAll. erewrite run_bind by done. cbv zeta.
  rewrite (proj2 (Z.eqb_neq (uxSchedulerSuspended k (xPortGetCoreID k)) 0)) by lia. erewrite run_bind by done. erewrite run_bind by done. erewrite run_bind by done.
  rewrite wrap_u_small by lia. set (k1 := set_suspended _ k).
  assert (k1 = set_yields (yields k) k1) as E0 by (by destruct k).
  destruct (_ && _); [| exists false, (yields k); exact (f_equal (fun x => Ret (false, x)) E0)].
  change (klists k1) with (klists k). change (xPortGetCoreID k1) with (xPortGetCoreID k). rewrite Hl. cbn [length pending_loop].
  erewrite run_bind.
  2: { erewrite run_bind by done. erewrite run_bind by done. cbn [klists xPortGetCoreID k1 set_suspended].
       change (klists k1 (xPendingReadyList (xPortGetCoreID k1))) with (klists k (xPendingReadyList (xPortGetCoreID k))). by rewrite Hl. }
  erewrite run_bind by done. change (uxPendedTicks k1) with (uxPendedTicks k). rewrite Hp. erewrite run_bind by done. erewrite run_bind by done.
  destruct (xYieldPending k1 _); [| exists false, (yields k); exact (f_equal (fun x => Ret (false, x)) E0)].
  exists true. eexists. done.
Qed.

Section SetBits.
Context (k : kernel) (g b s : Z) (req : Z -> wait_request).
Context (Hk : kwf k) (Hp : placed k) (Hg : groups k !! g = Some (mkEventGroup b)) (Hb : event_bits b) (Hs : 0 <= s < 2 ^ 32).
Context (Hreq : asked req k (klists k (xTasksWaitingForBits g))).
Let core := xPortGetCoreID k.
Let n := wrap_u 32 (uxSchedulerSuspended k core + 1).

Let B := Z.lor b s.
Let ts := woken req B (klists k (xTasksWaitingForBits g)).
Let final := Z.ldiff B (cleared req ts).

Lemma set_bits_refused : Z.land s eventEVENT_BITS_CONTROL_BYTES <> 0 -> set_bits_section g s k = Fault AssertFailed.
Proof.
  intros Hc. unfold set_bits_section. erewrite run_bind by (by apply get_bits_run).
  by rewrite (proj2 (Z.eqb_neq _ _) Hc).
Qed.

(** Up to the resume; the walk faults only when the count of suspensions has
    wrapped. *)
Lemma set_bits_race : Z.land s eventEVENT_BITS_CONTROL_BYTES = 0 -> walks_alone g k = false -> set_bits_section g s k = Fault DataRace.
Proof.
  intros Hc Hr. unfold set_bits_section. erewrite run_bind by (by apply get_bits_run). rewrite Hc. erewrite run_bind by done.
  erewrite run_bind by done. apply run_bind_fault. unfold enter_walk. erewrite run_bind by done.
  by change (walks_alone g (set_suspended _ k)) with (walks_alone g k); rewrite Hr.
Qed.

Lemma set_bits_walk : Z.land s eventEVENT_BITS_CONTROL_BYTES = 0 -> walks_alone g k = true ->
  (n = 0 /\ exists e, set_bits_section g s k = Fault e) \/
  exists k1, set_bits_section g s k = (xTaskResumeAll;; mret tt) k1 /\ placed k1 /\
    uxSchedulerSuspended k1 = <[core := n]> (uxSchedulerSuspended k) /\
    (exists k0, kwf k0 /\ env k0 = env (set_suspended (uxSchedulerSuspended k1) k) /\ groups k0 = <[g := mkEventGroup B]> (groups k) /\
       released_all (item_met B) ts (set_groups (<[g := mkEventGroup B]> (groups k)) (set_suspended (uxSchedulerSuspended k1) k)) k0 /\
       k1 = set_groups (<[g := mkEventGroup final]> (groups k0)) k0).
Proof.
  intros Hc Halone. pose proof (event_bits_land_control s Hs Hc) as Hes.
  assert (event_bits B) as HB by (by apply event_bits_lor).
  unfold set_bits_section. erewrite run_bind by (by apply get_bits_run). rewrite Hc. erewrite run_bind by done. erewrite run_bind by done.
  set (susp := <[_ := _]> (uxSchedulerSuspended k)). set (ka := set_suspended susp k).
  assert (enter_walk g ka = Ret (tt, ka)) as Hew
    by (unfold enter_walk; erewrite run_bind by done; change (walks_alone g ka) with (walks_alone g k); by rewrite Halone).
  erewrite run_bind by exact Hew. erewrite run_bind by done. change (klists ka) with (klists k).
  erewrite run_bind by (by apply get_bits_run). erewrite run_bind by done. fold B. set (kb := set_groups _ ka).
  assert (kwf kb) as Hkb by (destruct Hk; by split). assert (placed kb) as Hpb by exact Hp.
  assert (groups kb !! g = Some (mkEventGroup B)) as Hgb by (unfold kb; cbn; by rewrite lookup_insert_eq).
  pose proof (set_bits_loop_run g B HB (klists k (xTasksWaitingForBits g)) kb 0 Hkb Hpb (k_nodup k Hk _) (fun _ H => H) Hgb) as Hl.
  assert (asked req kb (klists k (xTasksWaitingForBits g))) as Hrb by exact Hreq.
  rewrite (hits_woken req) in Hl by done. fold ts in Hl.
  rewrite (clears_cleared req) in Hl by (eapply asked_sub; [done | by intros t [_ ?]%elem_of_woken]).
  destruct (set_bits_loop _ g 0 kb) as [[r kc] | e] eqn:El.
  2: { left. split; [cbn in Hl; unfold susp in Hl; by rewrite fn_lookup_insert in Hl |]. exists e. by erewrite run_bind_fault. }
  right.
  destruct Hl as (-> & Hrel & Hpc). rewrite Z.lor_0_l in El. erewrite run_bind by exact El.
  assert (NoDup ts) as Hnd by (apply list.NoDup_filter, Hk).
  assert (forall t, t ∈ ts -> is_Some (tcbs kb !! t)) as Hex
    by (intros t [_ Hin]%elem_of_woken; apply (k_in k Hk) in Hin as (c & Hc' & _); by exists c).
  destruct (released_all_spec _ _ _ _ Hkb Hnd Hex Hrel) as (Hkc & Hec & Hgc & _).
  erewrite run_bind by (apply get_bits_run; by rewrite Hgc). erewrite run_bind by done. fold final.
  eexists. split; [reflexivity |]. cbn [uxSchedulerSuspended set_groups].
  assert (uxSchedulerSuspended kc = susp) as Es by (by rewrite (env_suspended _ _ Hec)).
  split_and!; [exact Hpc | exact Es |]. rewrite Es. exists kc. by split_and!.
Qed.
End SetBits.

(** The whole call, on a core with nothing pending. *)
Lemma set_bits_run k g b s req n :
  kwf k -> placed k -> groups k !! g = Some (mkEventGroup b) -> event_bits b -> event_bits s ->
  asked req k (klists k (xTasksWaitingForBits g)) ->
  uxSchedulerSuspended k (xPortGetCoreID k) = n -> 0 <= n < 2 ^ 32 - 1 ->
  klists k (xPendingReadyList (xPortGetCoreID k)) = [] -> uxPendedTicks k = 0 -> walks_alone g k = true ->
  let B := Z.lor b s in
  let ts := woken req B (klists k (xTasksWaitingForBits g)) in
  let final := Z.ldiff B (cleared req ts) in
  exists k', xEventGroupSetBits g s k = Ret (final, k') /\ kwf k' /\ placed k' /\
     groups k' = <[g := mkEventGroup final]> (groups k) /\
     (forall t, t ∈ ts -> is_ready k' t /\ waits_nowhere k' t /\ values event_item k' t = item_met B) /\
     (forall t, t ∉ ts -> tcbs k' !! t = tcbs k !! t) /\
     (forall m, kind_of m = event_item -> klists k' m = filter (fun t => t ∉ ts) (klists k m)) /\
     queues k' = queues k /\ pxCurrentTCB k' = pxCurrentTCB k /\ xPortGetCoreID k' = xPortGetCoreID k /\
     xTickCount k' = xTickCount k /\ uxPendedTicks k' = 0 /\
     (forall core, uxSchedulerSuspended k' core = uxSchedulerSuspended k core) /\
     (forall t c, t ∈ ts -> tcbs k !! t = Some c -> exists c', tcbs k' !! t = Some c' /\ uxPriority c' = uxPriority c /\ xCoreID c' = xCoreID c /\
        uxBasePriority c' = uxBasePriority c /\ uxMutexesHeld c' = uxMutexesHeld c) /\
     (forall m, klists k' m = filter (fun t => t ∉ ts) (klists k m) ++ joins k m ts) /\
     only_moves (set_suspended (uxSchedulerSuspended k') (set_groups (groups k') k)) k'.
Proof.
  intros Hk Hp Hg Hb Hs Hreq Hsn Hn Hpl Hpt Halone B ts final.
  assert (0 <= s < 2 ^ 32) as Hs32 by (destruct Hs; lia).
  pose proof (set_bits_walk k g b s req Hk Hp Hg Hb Hs32 Hreq (event_bits_control s Hs) Halone) as Hw. cbv zeta in Hw.
  rewrite Hsn, wrap_u_small in Hw by lia.
  fold B in Hw. fold ts in Hw. fold final in Hw. destruct Hw as [[? _] | Hw]; [lia |]. destruct Hw as (k1 & Hrun & Hp1 & Es & k0 & Hk0 & He & Hgr & Hrel & E1).
  set (kb := set_groups (<[g := mkEventGroup B]> (groups k)) (set_suspended (uxSchedulerSuspended k1) k)) in *.
  assert (kwf kb) as Hkb by (destruct Hk; by split).
  assert (NoDup ts) as Hd by (apply list.NoDup_filter, Hk).
  assert (forall t, t ∈ ts -> is_Some (tcbs kb !! t)) as Hex
    by (intros t [_ Hin]%elem_of_woken; apply (k_in k Hk) in Hin as (c & Hc' & _); by exists c).
  destruct (released_all_spec _ _ _ _ Hkb Hd Hex Hrel) as (_ & _ & _ & Hy & Hr & Ht & Hm & Hmv & Hall).
  assert (klists k1 = klists k0 /\ tcbs k1 = tcbs k0 /\ env k1 = env k0) as (El & Et & Ee) by (by rewrite E1).
  assert (xPortGetCoreID k1 = xPortGetCoreID k) as Eco by (by rewrite (env_core _ _ Ee), (env_core _ _ He)).
  destruct (resume_quick k1 (n + 1)) as (bb & y & Hres).
  - rewrite Es, Eco. apply fn_lookup_insert.
  - lia.
  - rewrite El, Hm, Eco by done. change (klists kb) with (klists k). by rewrite Hpl.
  - by rewrite (env_pended _ _ Ee), (env_pended _ _ He).
  - erewrite run_bind in Hrun by exact Hres. set (k' := set_yields _ _) in Hrun.
    assert (groups k' = <[g := mkEventGroup final]> (groups k)) as Hgk' by (unfold k'; cbn; rewrite E1; cbn; by rewrite Hgr, insert_insert_eq).
    exists k'. split_and!.
    + unfold xEventGroupSetBits. erewrite run_bind by exact Hrun. apply get_bits_run. rewrite Hgk'. apply lookup_insert_eq.
    + unfold k'. rewrite E1. destruct Hk0. by split.
    + exact Hp1.
    + done.
    + intros t Hin. assert (is_ready k' t) as Hre by (unfold is_ready, k'; cbn; rewrite Et; by apply Hr).
      destruct (Hex t Hin) as (c & Hc'). destruct (Ht t c Hin Hc') as (c' & Hc1 & Ec & _). split_and!; [done | |].
      * intros m Hm'. unfold k'. cbn. rewrite El, Hm by done. rewrite list_elem_of_filter. tauto.
      * unfold values, k'. cbn. by rewrite Et, Hc1, Ec.
    + intros t Hnin. unfold k'. cbn. by rewrite Et, Hy.
    + intros m Hm'. unfold k'. cbn. by rewrite El, Hm.
    + unfold k'. cbn. injection Ee as -> _. by injection He.
    + unfold k'. cbn. by rewrite (env_current _ _ Ee), (env_current _ _ He).
    + exact Eco.
    + unfold k'. cbn. injection Ee. injection He. congruence.
    + unfold k'. cbn. by rewrite (env_pended _ _ Ee), (env_pended _ _ He).
    + intros core. unfold k'. cbn. rewrite Es, Eco. destruct (decide (core = xPortGetCoreID k)) as [-> | Hne].
      * rewrite fn_lookup_insert. lia.
      * by rewrite !fn_lookup_insert_ne.
    + intros t c Hin Hc'. destruct (Ht t c Hin Hc') as (c' & Hc1 & _ & ?). exists c'. unfold k'. cbn. by rewrite Et.
    + intros m. unfold k'. cbn. rewrite El, Hall. done.
    + unfold k'. rewrite E1. unfold only_moves in Hmv |- *. rewrite Hmv. reflexivity.
Qed.

(** C23. Setting bits.  Bits that the kernel uses are refused by an assertion.
    Otherwise, on a core with nothing pending, and where the tick stays out of the
    walk over the waiters (the caller is on core 0, or no waiter of the group has a
    time-out), the call returns: exactly the waiters whose request is met by the
    new bits become ready and leave the list, all of them even if an earlier one
    clears the bits, each with the new bits and the mark of a wake-up by bits in
    its event item, and with its priority, its affinity and its count of mutexes
    as they were; the others wait on, untouched.  Then the bits that the woken
    tasks clear on exit are gone, and the remaining bits are returned.  Every list
    loses the woken tasks and keeps its order; each ready list has those of its
    priority at its end, in the order of their waiting.  Besides this only
    xYieldPending and the requests to switch may change.  On core 1 with a waiter
    that has a time-out the walk races with the tick of core 0.  A woken task
    without affinity needs the stray read of taskYIELD_OTHER_CORE to return
    ([stray_read]). *)
Theorem xEventGroupSetBits_spec k g b s req :
  kwf k -> placed k -> groups k !! g = Some (mkEventGroup b) -> event_bits b -> 0 <= s < 2 ^ 32 ->
  asked req k (klists k (xTasksWaitingForBits g)) ->
  uxSchedulerSuspended k (xPortGetCoreID k) = 0 -> klists k (xPendingReadyList (xPortGetCoreID k)) = [] -> uxPendedTicks k = 0 ->
  let B := Z.lor b s in
  let ts := woken req B (klists k (xTasksWaitingForBits g)) in
  let final := Z.ldiff B (cleared req ts) in
  (Z.land s eventEVENT_BITS_CONTROL_BYTES <> 0 -> xEventGroupSetBits g s k = Fault AssertFailed) /\
  (Z.land s eventEVENT_BITS_CONTROL_BYTES = 0 -> walks_alone g k = false -> xEventGroupSetBits g s k = Fault DataRace) /\
  (Z.land s eventEVENT_BITS_CONTROL_BYTES = 0 -> walks_alone g k = true ->
   exists k', xEventGroupSetBits g s k = Ret (final, k') /\ kwf k' /\ placed k' /\
     groups k' = <[g := mkEventGroup final]> (groups k) /\
     (forall t, t ∈ ts -> is_ready k' t /\ waits_nowhere k' t /\ values event_item k' t = item_met B) /\
     (forall t c, t ∈ ts -> tcbs k !! t = Some c -> exists c', tcbs k' !! t = Some c' /\ uxPriority c' = uxPriority c /\ xCoreID c' = xCoreID c /\
        uxBasePriority c' = uxBasePriority c /\ uxMutexesHeld c' = uxMutexesHeld c) /\
     (forall t, t ∉ ts -> tcbs k' !! t = tcbs k !! t) /\
     (forall m, klists k' m = filter (fun t => t ∉ ts) (klists k m) ++ joins k m ts) /\
     (forall core, uxSchedulerSuspended k' core = uxSchedulerSuspended k core) /\
     only_moves (set_suspended (uxSchedulerSuspended k') (set_groups (groups k') k)) k').
Proof.
  intros Hk Hp Hg Hb Hs Hreq Hn Hpl Hpt B ts final. split_and!; intros Hc.
  - unfold xEventGroupSetBits. apply run_bind_fault. by eapply set_bits_refused.
  - intros Hr. unfold xEventGroupSetBits. apply run_bind_fault. by eapply set_bits_race.
  - intros Halone. destruct (set_bits_run k g b s req 0 Hk Hp Hg Hb (event_bits_land_control s Hs Hc) Hreq Hn) as
      (k' & ? & ? & ? & ? & ? & ? & ? & ? & ? & ? & ? & ? & ? & ? & ? & ?); [lia | done.. |].
    exists k'. split_and!; done.
Qed.

(** * Waiting for bits *)

(** The task [t] runs, waits for nothing, and its core has nothing pending. *)
Record at_ease (k : kernel) (t : Z) (c : TCB_t) : Prop := {
  a_kwf : kwf k; a_placed : placed k;
  a_current : pxCurrentTCB k (xPortGetCoreID k) = Some t; a_tcb : tcbs k !! t = Some c;
  a_event : container (xEventListItem c) = None;
  a_suspended : uxSchedulerSuspended k (xPortGetCoreID k) = 0;
  a_pending : klists k (xPendingReadyList (xPortGetCoreID k)) = [];
  a_pended : uxPendedTicks k = 0 }.

(** The same tasks in the same places, at the same time. *)
Definition same_places (k k' : kernel) : Prop :=
  tcbs k' = tcbs k /\ klists k' = klists k /\ queues k' = queues k /\ pxCurrentTCB k' = pxCurrentTCB k /\
  xTickCount k' = xTickCount k /\ (forall core, uxSchedulerSuspended k' core = uxSchedulerSuspended k core).

Lemma wait_asserts_run w n k : event_bits w -> w <> 0 -> uxSchedulerSuspended k (xPortGetCoreID k) = 0 ->
  wait_asserts w n k = Ret (tt, k).
Proof.
  intros Hw Hw0 Hs. unfold wait_asserts. rewrite event_bits_control by done. erewrite run_bind by done.
  rewrite (proj2 (Z.eqb_neq w 0)) by done. erewrite run_bind by done. unfold suspended_assert, xTaskGetSchedulerState_suspended.
  erewrite run_bind by done. rewrite Hs. by rewrite andb_false_r.
Qed.
Lemma wait_asserts_refused w n k : Z.land w eventEVENT_BITS_CONTROL_BYTES <> 0 \/ w = 0 -> wait_asserts w n k = Fault AssertFailed.
Proof.
  intros H. unfold wait_asserts. destruct (Z.eqb_spec (Z.land w eventEVENT_BITS_CONTROL_BYTES) 0); [| done].
  erewrite run_bind by done. destruct H as [? | ->]; done.
Qed.

(** A section between vTaskSuspendAll and xTaskResumeAll that wakes nobody. *)
Definition suspended_now (k : kernel) : kernel :=
  set_suspended (<[xPortGetCoreID k := 1]> (uxSchedulerSuspended k)) k.
Lemma suspend_run k : uxSchedulerSuspended k (xPortGetCoreID k) = 0 -> vTaskSuspendAll k = Ret (tt, suspended_now k).
Proof. intros Hs. unfold vTaskSuspendAll, modify, suspended_now. by rewrite Hs. Qed.

Lemma resume_and_yield_run k r : uxSchedulerSuspended k (xPortGetCoreID k) = 1 ->
  klists k (xPendingReadyList (xPortGetCoreID k)) = [] -> uxPendedTicks k = 0 ->
  exists y, resume_and_yield r k = Ret (r, set_yields y (set_suspended (<[xPortGetCoreID k := 0]> (uxSchedulerSuspended k)) k)).
Proof.
  intros Hs Hl Hp. destruct (resume_quick k 1 Hs) as (b & y & Hr); [lia | done.. |].
  unfold resume_and_yield. erewrite run_bind by exact Hr. destruct r; [by exists y |].
  destruct b; cbn [negb when]; [by exists y |]. eexists. done.
Qed.

(** The caller goes to wait, and the scheduler resumes. *)
Lemma place_and_resume k t c g v n :
  kwf k -> placed k -> pxCurrentTCB k (xPortGetCoreID k) = Some t -> tcbs k !! t = Some c -> container (xEventListItem c) = None ->
  uxSchedulerSuspended k (xPortGetCoreID k) = 1 -> klists k (xPendingReadyList (xPortGetCoreID k)) = [] -> uxPendedTicks k = 0 ->
  0 <= Z.lor v taskEVENT_LIST_ITEM_VALUE_IN_USE < 2 ^ 32 ->
  exists k', (vTaskPlaceOnUnorderedEventList (xTasksWaitingForBits g) v n;; resume_and_yield None) k = Ret (None, k') /\
    kwf k' /\ placed k' /\ groups k' = groups k /\
    klists k' (xTasksWaitingForBits g) = klists k (xTasksWaitingForBits g) ++ [t] /\
    (forall m, kind_of m = event_item -> m <> xTasksWaitingForBits g -> klists k' m = klists k m) /\
    (forall y, y <> t -> tcbs k' !! y = tcbs k !! y) /\ ~ is_ready k' t /\
    values event_item k' t = Z.lor v taskEVENT_LIST_ITEM_VALUE_IN_USE /\ (quiet k -> quiet k').
Proof.
  intros Hk Hp Hcur Ht Hev Hs Hpe Hpt Hv.
  destruct (vTaskPlaceOnUnorderedEventList_run k (xTasksWaitingForBits g) t c v n) as
    (k1 & Hr1 & Hk1 & Hp1 & Hf1 & Hl1 & Hm1 & Hy1 & Hnr & Hq1); try done; [by rewrite Hs |].
  rewrite wrap_u_small in Hf1 by done.
  assert (xPortGetCoreID k1 = xPortGetCoreID k) as Eco by exact (f_core _ _ Hf1).
  destruct (resume_and_yield_run k1 None) as (y & Hres).
  - by rewrite (f_suspended _ _ Hf1), Eco.
  - rewrite Hm1, Eco; done.
  - by rewrite (f_pended _ _ Hf1).
  - eexists. split; [by erewrite run_bind by exact Hr1 |]. split_and!; try done.
    + destruct Hk1. by split.
    + exact (f_groups _ _ Hf1).
    + destruct (f_tcb _ _ Hf1 t (with_event (mkItem (Z.lor v taskEVENT_LIST_ITEM_VALUE_IN_USE) None) c)) as
        (c' & Hc' & _ & _ & _ & _ & E); [apply lookup_insert_eq |].
      rewrite (values_tcb event_item _ t c'); [exact E | exact Hc'].
Qed.

Section WaitBits.
Context (k : kernel) (t : Z) (c : TCB_t) (g b : Z) (r : wait_request) (n : Z).
Context (Ha : at_ease k t c) (Hg : groups k !! g = Some (mkEventGroup b)) (Hw : event_bits (w_bits r)) (Hw0 : w_bits r <> 0).

Abbreviation call := (xEventGroupWaitBits g (w_bits r) (w_clear r) (w_all r) n k).

Lemma wait_start : call =
  (r' ← (if met b r then
       when (w_clear r) (put_bits g (Z.ldiff b (w_bits r)));;
       mret (Some b)
     else if n =? 0 then mret (Some b)
     else
       let uxControlBits := if w_clear r then Z.lor 0 eventCLEAR_EVENTS_ON_EXIT_BIT else 0 in
       let uxControlBits := if w_all r then Z.lor uxControlBits eventWAIT_FOR_ALL_BITS else uxControlBits in
       vTaskPlaceOnUnorderedEventList (xTasksWaitingForBits g) (Z.lor (w_bits r) uxControlBits) n;;
       mret None);
   resume_and_yield r') (suspended_now k).
Proof using Ha Hg Hw Hw0.
  unfold xEventGroupWaitBits. erewrite run_bind by (by apply get_bits_run).
  erewrite run_bind by (apply wait_asserts_run; [done.. | apply Ha]).
  erewrite run_bind by (apply suspend_run, Ha). erewrite run_bind by (by apply get_bits_run). done.
Qed.

(** The state after the section, when it left the tasks alone. *)
Lemma resume_same gs v : exists k', resume_and_yield v (set_groups gs (suspended_now k)) = Ret (v, k') /\
  groups k' = gs /\ same_places k k'.
Proof using Ha.
  destruct (resume_and_yield_run (set_groups gs (suspended_now k)) v) as (y & Hr); [apply fn_lookup_insert | apply Ha.. |].
  eexists. split; [exact Hr |]. split; [done |]. split_and!; try done.
  intros core. cbn. destruct (decide (core = xPortGetCoreID k)) as [-> | Hne].
  - rewrite fn_lookup_insert. symmetry. apply Ha.
  - by rewrite !fn_lookup_insert_ne.
Qed.

Lemma wait_met : met b r = true -> exists k', call = Ret (Some b, k') /\
  groups k' = <[g := mkEventGroup (if w_clear r then Z.ldiff b (w_bits r) else b)]> (groups k) /\ same_places k k'.
Proof using Ha Hg Hw Hw0.
  intros Hm. rewrite wait_start, Hm.
  destruct (w_clear r).
  - destruct (resume_same (<[g := mkEventGroup (Z.ldiff b (w_bits r))]> (groups k)) (Some b)) as (k' & Hr & ? & ?).
    exists k'. split; [| done]. erewrite run_bind; [exact Hr |]. by erewrite run_bind.
  - destruct (resume_same (groups k) (Some b)) as (k' & Hr & Hgr & ?).
    exists k'. split; [| split; [by rewrite insert_id | done]]. erewrite run_bind; [exact Hr |]. by erewrite run_bind.
Qed.

Lemma wait_poll : met b r = false -> n = 0 -> exists k', call = Ret (Some b, k') /\ groups k' = groups k /\ same_places k k'.
Proof using Ha Hg Hw Hw0.
  intros Hm Hn. rewrite wait_start, Hm, Hn. destruct (resume_same (groups k) (Some b)) as (k' & Hr & ? & ?).
  exists k'. split; [| done]. erewrite run_bind; [exact Hr | done].
Qed.

Lemma control_bits :
  Z.lor (Z.lor (w_bits r) (let uxControlBits := if w_clear r then Z.lor 0 eventCLEAR_EVENTS_ON_EXIT_BIT else 0 in
       if w_all r then Z.lor uxControlBits eventWAIT_FOR_ALL_BITS else uxControlBits)) taskEVENT_LIST_ITEM_VALUE_IN_USE = item_of r.
Proof. unfold item_of, item_request. do 2 f_equal. by destruct (w_clear r), (w_all r). Qed.

Lemma item_of_range : 0 <= item_of r < 2 ^ 32.
Proof using Hw. unfold item_of. apply (request_split (w_bits r) (w_clear r) (w_all r) Hw). Qed.

Lemma wait_block : met b r = false -> n <> 0 -> exists k', call = Ret (None, k') /\ kwf k' /\ placed k' /\ groups k' = groups k /\
  klists k' (xTasksWaitingForBits g) = klists k (xTasksWaitingForBits g) ++ [t] /\
  (forall m, kind_of m = event_item -> m <> xTasksWaitingForBits g -> klists k' m = klists k m) /\
  (forall y, y <> t -> tcbs k' !! y = tcbs k !! y) /\ ~ is_ready k' t /\ values event_item k' t = item_of r /\
  (quiet k -> quiet k').
Proof using Ha Hg Hw Hw0.
  intros Hm Hn. rewrite wait_start, Hm, (proj2 (Z.eqb_neq n 0)) by done. cbv zeta.
  set (v := Z.lor (w_bits r) _).
  assert (Z.lor v taskEVENT_LIST_ITEM_VALUE_IN_USE = item_of r) as Ev by exact control_bits. pose proof item_of_range as Hr.
  destruct Ha as [Hk Hp Hcur Ht Hev Hs Hpe Hpt].
  destruct (place_and_resume (suspended_now k) t c g v n) as (k' & Hrun & Hx); try done.
  - destruct Hk. by split.
  - cbn. by rewrite fn_lookup_insert.
  - by rewrite Ev.
  - rewrite Ev in Hx. exists k'. split; [by rewrite run_assoc | exact Hx].
Qed.
End WaitBits.

(** ** When the task runs again *)

Section WaitEnd.
Context (k : kernel) (t : Z) (c : TCB_t) (g b : Z) (r : wait_request).
Context (Hcur : pxCurrentTCB k (xPortGetCoreID k) = Some t) (Ht : tcbs k !! t = Some c) (Hg : groups k !! g = Some (mkEventGroup b)).

(** The running task has its event item back. *)
Definition item_reset : kernel :=
  set_tcbs (<[t := with_event (mkItem (wrap_u 32 (configMAX_PRIORITIES - uxPriority c)) (container (xEventListItem c))) c]> (tcbs k)) k.

Lemma reset_run : uxTaskResetEventItemValue k = Ret (item_value (xEventListItem c), item_reset).
Proof using Hcur Ht.
  unfold uxTaskResetEventItemValue, listSET_LIST_ITEM_VALUE.
  erewrite run_bind by (unfold current; erewrite run_bind by done; by rewrite Hcur).
  erewrite run_bind by (by apply get_tcb_run). by erewrite run_bind by (by apply update_tcb_run).
Qed.

Lemma wait_end_met B : event_bits B -> item_value (xEventListItem c) = item_met B ->
  wait_bits_end g (w_bits r) (w_clear r) (w_all r) k = Ret (B, item_reset).
Proof using Hcur Ht.
  intros HB E. destruct (met_split B HB) as (E1 & _ & E2). unfold wait_bits_end. erewrite run_bind by apply reset_run.
  rewrite E. change eventUNBLOCKED_DUE_TO_BIT_SET with (2 ^ 25). rewrite land_bit, E2 by done. cbn [negb].
  erewrite run_bind by done. unfold mret, st_ret. by rewrite E1.
Qed.

Lemma wait_end_timeout : event_bits (w_bits r) -> event_bits b -> item_value (xEventListItem c) = item_of r ->
  wait_bits_end g (w_bits r) (w_clear r) (w_all r) k =
    Ret (b, set_groups (if met b r && w_clear r then <[g := mkEventGroup (Z.ldiff b (w_bits r))]> (groups k) else groups k) item_reset).
Proof using Hcur Ht Hg.
  intros Hw Hb E. destruct (request_split (w_bits r) (w_clear r) (w_all r) Hw) as (_ & _ & _ & E2 & _).
  unfold wait_bits_end. erewrite run_bind by apply reset_run. rewrite E. unfold item_of.
  change eventUNBLOCKED_DUE_TO_BIT_SET with (2 ^ 25). rewrite land_bit, E2 by done. cbn [negb].
  assert (Z.ldiff b eventEVENT_BITS_CONTROL_BYTES = b) as Eb.
  { destruct (event_item_split b 0 Hb) as (H & _); [done.. |]. by rewrite Z.lor_0_r in H. }
  assert (set_groups (groups k) item_reset = item_reset) as Es by reflexivity.
  set (k1 := set_groups _ item_reset).
  assert ((uxReturn ← get_bits g; when (prvTestWaitCondition uxReturn (w_bits r) (w_all r))
      (when (w_clear r) (put_bits g (Z.ldiff uxReturn (w_bits r))));; mret uxReturn) item_reset = Ret (b, k1)) as Hr.
  { erewrite run_bind by (by apply get_bits_run). fold (met b r). unfold k1.
    destruct (met b r), (w_clear r); cbn [when andb]; rewrite ?Es; done. }
  erewrite run_bind by exact Hr. unfold mret, st_ret. by rewrite Eb.
Qed.

(** A rendezvous waits for all its bits and clears them. *)
Lemma sync_end_wait w : sync_end g w k = wait_bits_end g w true true k.
Proof. done. Qed.
End WaitEnd.

(** C24. Waiting for bits, for the running task [t], on a core whose scheduler is
    not suspended and which has no pending tasks or ticks.  The kernel's own bits and
    an empty set are refused by an assertion.  A request that the bits of the
    group meet is answered at once with the bits, which are then cleared if
    that was asked for; without a time to wait the bits are returned as they
    are.  Otherwise the task is last in the group's list, not ready, with its
    request in its event item, and nobody else is touched.  When it runs again
    its event item is reset, and what the call returns is, after a wake-up by
    bits, the bits that met the request, even if the group has changed since;
    after a time-out the bits of the group, cleared as asked if they meet the
    request by now. *)
Theorem xEventGroupWaitBits_spec k t c g b r n :
  at_ease k t c -> groups k !! g = Some (mkEventGroup b) ->
  let call := xEventGroupWaitBits g (w_bits r) (w_clear r) (w_all r) n k in
  let resumed := wait_bits_end g (w_bits r) (w_clear r) (w_all r) k in
  (Z.land (w_bits r) eventEVENT_BITS_CONTROL_BYTES <> 0 \/ w_bits r = 0 -> call = Fault AssertFailed) /\
  (event_bits (w_bits r) -> w_bits r <> 0 ->
   (met b r = true -> exists k', call = Ret (Some b, k') /\
      groups k' = <[g := mkEventGroup (if w_clear r then Z.ldiff b (w_bits r) else b)]> (groups k) /\ same_places k k') /\
   (met b r = false -> n = 0 -> exists k', call = Ret (Some b, k') /\ groups k' = groups k /\ same_places k k') /\
   (met b r = false -> n <> 0 -> exists k', call = Ret (None, k') /\ kwf k' /\ placed k' /\ groups k' = groups k /\
      klists k' (xTasksWaitingForBits g) = klists k (xTasksWaitingForBits g) ++ [t] /\
      (forall m, kind_of m = event_item -> m <> xTasksWaitingForBits g -> klists k' m = klists k m) /\
      (forall y, y <> t -> tcbs k' !! y = tcbs k !! y) /\ ~ is_ready k' t /\ values event_item k' t = item_of r /\
      (quiet k -> quiet k')) /\
   (forall B, event_bits B -> values event_item k t = item_met B -> resumed = Ret (B, item_reset k t c)) /\
   (event_bits b -> values event_item k t = item_of r ->
      resumed = Ret (b, set_groups (if met b r && w_clear r then <[g := mkEventGroup (Z.ldiff b (w_bits r))]> (groups k) else groups k)
        (item_reset k t c)))).
Proof.
  intros Ha Hg call resumed. pose proof Ha as [].
  rewrite (values_tcb event_item k t c) by done. split.
  - intros H. unfold call, xEventGroupWaitBits. erewrite run_bind by (by apply get_bits_run).
    apply run_bind_fault. by apply wait_asserts_refused.
  - intros Hw Hw0. split_and!.
    + by eapply wait_met.
    + by eapply wait_poll.
    + by eapply wait_block.
    + intros B HB E. by eapply wait_end_met.
    + intros Hb E. by eapply wait_end_timeout.
Qed.

(** * The rendezvous *)

Definition rendezvous (w : Z) : wait_request := mkRequest w true true.

Lemma not_listed k t c m : kwf k -> tcbs k !! t = Some c -> container (xEventListItem c) = None -> kind_of m = event_item -> t ∉ klists k m.
Proof.
  intros Hk Ht Hc Hm (c' & Hc' & E)%(k_in k Hk). rewrite Ht in Hc'. injection Hc' as <-. rewrite Hm in E. cbn in E. congruence.
Qed.

Section Sync.
Context (k : kernel) (t : Z) (c : TCB_t) (g b s w n : Z) (req : Z -> wait_request).
Context (Ha : at_ease k t c) (Hg : groups k !! g = Some (mkEventGroup b)) (Hb : event_bits b) (Hs : event_bits s)
  (Hw : event_bits w) (Hw0 : w <> 0) (Hreq : asked req k (klists k (xTasksWaitingForBits g))) (Halone : walks_alone g k = true).

Let B := Z.lor b s.
Let ts := woken req B (klists k (xTasksWaitingForBits g)).
Let final := Z.ldiff B (cleared req ts).

(** The waiters are woken while the scheduler is suspended. *)
Lemma sync_set : exists k1,
  xEventGroupSync g s w n k =
    (r ← (if met B (rendezvous w) then
       put_bits g (Z.ldiff final w);; mret (Some B)
     else if negb (n =? 0) then
       vTaskPlaceOnUnorderedEventList (xTasksWaitingForBits g)
         (Z.lor (Z.lor w eventCLEAR_EVENTS_ON_EXIT_BIT) eventWAIT_FOR_ALL_BITS) n;;
       mret None
     else mret (Some final));
     resume_and_yield r) k1 /\
  kwf k1 /\ placed k1 /\ groups k1 = <[g := mkEventGroup final]> (groups k) /\
  pxCurrentTCB k1 (xPortGetCoreID k1) = Some t /\ tcbs k1 !! t = Some c /\
  uxSchedulerSuspended k1 (xPortGetCoreID k1) = 1 /\ klists k1 (xPendingReadyList (xPortGetCoreID k1)) = [] /\ uxPendedTicks k1 = 0 /\
  (forall y, y ∈ ts -> is_ready k1 y /\ values event_item k1 y = item_met B) /\
  (forall y, y ∉ ts -> tcbs k1 !! y = tcbs k !! y) /\
  klists k1 (xTasksWaitingForBits g) = filter (fun y => y ∉ ts) (klists k (xTasksWaitingForBits g)).
Proof using Ha Hg Hb Hs Hw Hw0 Hreq Halone.
  destruct Ha as [Hk Hp Hcur Ht Hev Hsu Hpe Hpt].
  assert (t ∉ ts) as Hnt by (intros [_ Hin]%elem_of_woken; revert Hin; by eapply not_listed).
  assert (kwf (suspended_now k)) as Hks by (destruct Hk; by split).
  assert (uxSchedulerSuspended (suspended_now k) (xPortGetCoreID k) = 1) as Hs1 by apply fn_lookup_insert.
  destruct (set_bits_run (suspended_now k) g b s req 1 Hks Hp Hg Hb Hs Hreq Hs1) as
    (k1 & Hr & Hk1 & Hp1 & Hg1 & Hts & Hother & Hl & _ & Hc1 & Hco & _ & Hpt1 & Hsu1 & _); [done.. |].
  change (klists (suspended_now k)) with (klists k) in *. change (groups (suspended_now k)) with (groups k) in *.
  fold B in Hg1, Hts, Hother, Hl, Hr. fold ts in Hg1, Hts, Hother, Hl, Hr. fold final in Hg1, Hr.
  assert (get_bits g k1 = Ret (final, k1)) as Hgb by (apply get_bits_run; rewrite Hg1; apply lookup_insert_eq).
  exists k1. split_and!; try done.
  - unfold xEventGroupSync. erewrite run_bind by (by apply wait_asserts_run). erewrite run_bind by (by apply suspend_run).
    erewrite run_bind by (by apply get_bits_run). erewrite run_bind by exact Hr. fold B.
    change (Z.land B w =? w) with (met B (rendezvous w)).
    destruct (met B (rendezvous w)).
    + rewrite run_assoc. erewrite run_bind by exact Hgb. done.
    + destruct (negb (n =? 0)); [done |]. rewrite run_assoc. by erewrite run_bind by exact Hgb.
  - rewrite Hc1, Hco. exact Hcur.
  - by rewrite Hother.
  - by rewrite Hsu1, Hco.
  - rewrite Hl, Hco by done. change (xPortGetCoreID (suspended_now k)) with (xPortGetCoreID k). by rewrite Hpe.
  - intros y Hy. by destruct (Hts y Hy) as (? & _ & ?).
  - by apply Hl.
Qed.
End Sync.

Lemma woken_all req w bits ts : met bits (rendezvous w) = true -> (forall y, y ∈ ts -> req y = rendezvous w) -> woken req bits ts = ts.
Proof.
  intros Hm. unfold woken. induction ts as [| y ts IH]; intros H; [done |].
  rewrite filter_cons, IH by (intros z Hz; apply H; by right). by rewrite H, decide_True by first [done | left].
Qed.
Lemma remove_all (ts : list Z) : filter (fun y => y ∉ ts) ts = [].
Proof.
  destruct (filter (fun y => y ∉ ts) ts) as [| y l] eqn:E; [done |]. exfalso.
  assert (y ∈ filter (fun y => y ∉ ts) ts) as H by (rewrite E; left). apply list_elem_of_filter in H. tauto.
Qed.

(** The rendezvous, for the running task [t], where the tick stays out of the walk.  A call sets the task's own
    bits, which wakes every waiter they complete.  If with these bits all those
    waited for are set, the call returns them and clears those waited for: when
    the waiters are the other parties of the same rendezvous, all of them are
    woken with the same bits, and none is left.  Otherwise, without a time to
    wait, the call returns the bits that are left; and with one, the task is
    last in the list, its item says that it waits for all the bits and clears
    them, and it goes on as a task that waits for all of them. *)
Theorem xEventGroupSync_spec k t c g b s w n req :
  at_ease k t c -> groups k !! g = Some (mkEventGroup b) -> event_bits b -> event_bits s -> event_bits w -> w <> 0 ->
  asked req k (klists k (xTasksWaitingForBits g)) -> walks_alone g k = true ->
  let B := Z.lor b s in
  let waiters := klists k (xTasksWaitingForBits g) in
  let ts := woken req B waiters in
  let final := Z.ldiff B (cleared req ts) in
  let complete := Z.land B w =? w in
  let waits := negb complete && negb (n =? 0) in
  (exists k', xEventGroupSync g s w n k = Ret (if complete then Some B else if n =? 0 then Some final else None, k') /\ kwf k' /\ placed k' /\
    groups k' = <[g := mkEventGroup (if complete then Z.ldiff final w else final)]> (groups k) /\
    (forall y, y ∈ ts -> is_ready k' y /\ values event_item k' y = item_met B) /\
    (forall y, y ∉ ts -> waits = false \/ y <> t -> tcbs k' !! y = tcbs k !! y) /\
    klists k' (xTasksWaitingForBits g) = filter (fun y => y ∉ ts) waiters ++ (if waits then [t] else []) /\
    (waits = true -> ~ is_ready k' t /\ values event_item k' t = item_of (rendezvous w)) /\
    (complete = true -> (forall y, y ∈ waiters -> req y = rendezvous w) -> ts = waiters /\ klists k' (xTasksWaitingForBits g) = [])) /\
  (forall k1, sync_end g w k1 = wait_bits_end g w true true k1).
Proof.
  intros Ha Hg Hb Hs Hw Hw0 Hreq Halone B waiters ts final complete waits. split; [| done].
  destruct (sync_set k t c g b s w n req Ha Hg Hb Hs Hw Hw0 Hreq Halone) as
    (k1 & Hrun & Hk1 & Hp1 & Hg1 & Hcur1 & Ht1 & Hs1 & Hpe1 & Hpt1 & Hts & Hother & Hl1).
  fold B in Hrun, Hg1, Hts, Hother, Hl1. fold waiters in Hrun, Hg1, Hts, Hother, Hl1. fold ts in Hrun, Hg1, Hts, Hother, Hl1.
  fold final in Hrun, Hg1. change (met B (rendezvous w)) with complete in Hrun.
  assert (forall gs r, exists k', resume_and_yield r (set_groups gs k1) = Ret (r, k') /\ kwf k' /\ placed k' /\ groups k' = gs /\
    tcbs k' = tcbs k1 /\ klists k' = klists k1) as Hres.
  { intros gs r. destruct (resume_and_yield_run (set_groups gs k1) r) as (y & Hr); [done.. |].
    eexists. split; [exact Hr |]. split_and!; try done. destruct Hk1. by split. }
  assert (complete = true -> (forall y, y ∈ waiters -> req y = rendezvous w) -> ts = waiters) as Hall
    by (intros Hm; by apply woken_all).
  rewrite Hrun. clear Hrun. unfold waits. destruct complete eqn:Em; [| destruct (Z.eqb_spec n 0) as [Hn | Hn]]; cbn [negb andb].
  - destruct (Hres (<[g := mkEventGroup (Z.ldiff final w)]> (groups k1)) (Some B)) as (k' & Hr & ? & ? & Hg' & Et & El).
    exists k'. rewrite El, Hl1, app_nil_r. split_and!; try done.
    + by rewrite Hg', Hg1, insert_insert_eq.
    + intros y Hy. unfold is_ready, values. rewrite Et. by apply Hts.
    + intros y Hy _. rewrite Et. by apply Hother.
    + intros _ Hr'. specialize (Hall eq_refl Hr'). split; [done |]. rewrite Hall. apply remove_all.
  - destruct (Hres (groups k1) (Some final)) as (k' & Hr & ? & ? & Hg' & Et & El).
    assert (set_groups (groups k1) k1 = k1) as Ek by (by destruct k1). rewrite Ek in Hr.
    exists k'. rewrite El, Hl1, app_nil_r. split_and!; try done.
    + by rewrite Hg', Hg1.
    + intros y Hy. unfold is_ready, values. rewrite Et. by apply Hts.
    + intros y Hy _. rewrite Et. by apply Hother.
  - set (v := Z.lor (Z.lor w eventCLEAR_EVENTS_ON_EXIT_BIT) eventWAIT_FOR_ALL_BITS).
    assert (Z.lor v taskEVENT_LIST_ITEM_VALUE_IN_USE = item_of (rendezvous w)) as Ev
      by (unfold v, item_of, item_request; by rewrite <- (Z.lor_assoc w)).
    destruct (place_and_resume k1 t c g v n) as (k' & Hr & Hk' & Hp' & Hg' & Hl' & _ & Hy' & Hnr & Hv' & _); try done; [apply Ha | |].
    { rewrite Ev. by apply (item_of_range (rendezvous w)). }
    exists k'. split_and!; try done.
    + by rewrite run_assoc.
    + by rewrite Hg'.
    + intros y Hy. assert (y <> t) as Hne.
      { intros ->. apply elem_of_woken in Hy as [_ Hin]. revert Hin. eapply not_listed; [apply Ha.. | done]. }
      unfold is_ready, values. rewrite Hy' by done. by apply Hts.
    + intros y Hy [? | Hne]; [done |]. rewrite Hy' by done. by apply Hother.
    + by rewrite Hl', Hl1.
    + intros _. split; [done |]. by rewrite Hv'.
Qed.

(** * The theorems at work *)

(** Task 1 comes to a rendezvous of bits 0 and 1 with bit 0 and waits, without a
    time-out; then task 2 runs, on the other core. *)
Definition group0 : kernel := two_tasks 0 ∅ {[3 := mkEventGroup 1]}.
Definition group1 : kernel :=
  match xEventGroupWaitBits 3 3 true true portMAX_DELAY group0 with
  | Ret (_, k) => set_core 1 k | Fault _ => group0 end.

Lemma group0_at_ease : at_ease group0 1 (ready_tcb 0 0).
Proof. split; try done; [apply two_tasks_kwf | apply two_tasks_placed]. Qed.

Lemma group1_state : kwf group1 /\ placed group1 /\ groups group1 = {[3 := mkEventGroup 1]} /\
  klists group1 (xTasksWaitingForBits 3) = [1] /\ values event_item group1 1 = item_of (rendezvous 3) /\
  tcbs group1 !! 2 = Some (ready_tcb 1 0) /\ uxSchedulerSuspended group1 1 = 0 /\ uxPendedTicks group1 = 0.
Proof.
  destruct (wait_block group0 1 (ready_tcb 0 0) 3 1 (rendezvous 3) portMAX_DELAY group0_at_ease) as
    (k' & Hr & Hk & Hp & Hg & Hl & _ & Hy & _ & Hv & _); [done.. |].
  assert (group1 = set_core 1 k') as E by (unfold group1; cbn [w_bits w_clear w_all rendezvous] in Hr; by rewrite Hr).
  assert (uxSchedulerSuspended group1 1 = 0 /\ uxPendedTicks group1 = 0) as [Es Ep] by (by vm_compute).
  split_and!; try done; rewrite E.
  - destruct Hk. split; try done. by right.
  - exact Hp.
Qed.

Lemma group1_asked : asked (fun _ => rendezvous 3) group1 (klists group1 (xTasksWaitingForBits 3)).
Proof.
  destruct group1_state as (_ & _ & _ & -> & Hv & _). intros t ->%list_elem_of_singleton. by split.
Qed.

Lemma group1_at_ease : at_ease group1 2 (ready_tcb 1 0).
Proof. destruct group1_state as (? & ? & _ & _ & _ & ? & ? & ?). by split. Qed.

(** Had it set a time-out, the walk on core 1 would race with the tick. *)
Example set_bits_races :
  (xEventGroupWaitBits 3 3 true true 10;; modify (set_core 1);; xEventGroupSetBits 3 2) group0 = Fault DataRace.
Proof. vm_compute. reflexivity. Qed.

Lemma xEventGroupSetBits_spec_witness :
  exists k', xEventGroupSetBits 3 2 group1 = Ret (0, k') /\ is_ready k' 1 /\ klists k' (xTasksWaitingForBits 3) = [] /\
    klists k' (pxReadyTasksLists 5) = [2; 1].
Proof.
  destruct group1_state as (Hk & Hp & Hg & Hl & Hv & Ht & Hs & Hpt).
  destruct (xEventGroupSetBits_spec group1 3 1 2 (fun _ => rendezvous 3)) as (_ & _ & H).
  - exact Hk.
  - exact Hp.
  - rewrite Hg. reflexivity.
  - split; [discriminate | reflexivity].
  - split; [discriminate | reflexivity].
  - exact group1_asked.
  - exact Hs.
  - vm_compute. reflexivity.
  - exact Hpt.
  - rewrite Hl in H. destruct (H eq_refl ltac:(vm_compute; reflexivity)) as (k' & Hr & _ & _ & _ & H1 & _ & _ & H2 & _). exists k'.
    split; [exact Hr |]. split; [apply H1; left |]. rewrite !H2. split; vm_compute; reflexivity.
Defined.

Lemma xEventGroupWaitBits_spec_witness :
  exists k', xEventGroupWaitBits 3 3 true true 10 group0 = Ret (None, k') /\
    klists k' (xTasksWaitingForBits 3) = [1] /\ ~ is_ready k' 1.
Proof.
  destruct (xEventGroupWaitBits_spec group0 1 (ready_tcb 0 0) 3 1 (rendezvous 3) 10) as [_ H].
  - exact group0_at_ease.
  - reflexivity.
  - destruct H as (_ & _ & H & _); [split; [discriminate | reflexivity] | discriminate |].
    destruct H as (k' & Hr & _ & _ & _ & Hl & _ & _ & Hn & _); [reflexivity | discriminate |].
    exists k'. split; [exact Hr | split; [exact Hl | exact Hn]].
Defined.

Lemma xEventGroupSync_spec_witness :
  exists k', xEventGroupSync 3 2 3 10 group1 = Ret (Some 3, k') /\ is_ready k' 1 /\ groups k' !! 3 = Some (mkEventGroup 0).
Proof.
  destruct group1_state as (Hk & Hp & Hg & Hl & _).
  destruct (xEventGroupSync_spec group1 2 (ready_tcb 1 0) 3 1 2 3 10 (fun _ => rendezvous 3)) as [H _].
  - exact group1_at_ease.
  - rewrite Hg. reflexivity.
  - split; [discriminate | reflexivity].
  - split; [discriminate | reflexivity].
  - split; [discriminate | reflexivity].
  - discriminate.
  - exact group1_asked.
  - vm_compute. reflexivity.
  - rewrite Hl in H. destruct H as (k' & Hr & _ & _ & Hg' & H1 & _). exists k'.
    split; [exact Hr |]. split; [apply H1; left | rewrite Hg', Hg; reflexivity].
Defined.
