(* ===== verification/FreeRtosEventsWaiting.v ===== *)
(** Tasks, the tick and suspensions of the scheduler on the event groups of
    FreeRtosEvents: the interleaving of the sections of blocking calls, and the
    theorem that no event is missed. *)

From S2P Require Import Prelude FreeRtosList FreeRtosTasks FreeRtosTime FreeRtosQueue FreeRtosEvents.

(** * The system *)

(** A call of xEventGroupWaitBits or xEventGroupSync whose task went to wait. *)
Record ecall := mkECall { e_group : Z; e_request : wait_request }.
Record esys := mkESys { ekern : kernel; ecalls : gmap Z ecall }.

Definition uint32 (v : Z) : Prop := 0 <= v < 2 ^ 32.

(** The calls after the first section of a call of [t]. *)
Definition started (t : Z) (c : ecall) (v : option Z) (m : gmap Z ecall) : gmap Z ecall :=
  match v with Some _ => m | None => <[t := c]> m end.

Definition call_end (c : ecall) : K Z :=
  wait_bits_end (e_group c) (w_bits (e_request c)) (w_clear (e_request c)) (w_all (e_request c)).

(** The steps are the runs that return; a walk that the tick may enter does not
    ([enter_walk]). *)
Inductive estep : esys -> esys -> Prop :=
  | EStepSwitch k m core t c : core = 0 \/ core = 1 -> is_ready k t -> tcbs k !! t = Some c ->
      estep (mkESys k m) (mkESys (set_current (<[core := Some t]> (pxCurrentTCB k)) (set_core core k)) m)
  | EStepWait k m t g r n v k' : runs k t -> m !! t = None -> uint32 (w_bits r) ->
      xEventGroupWaitBits g (w_bits r) (w_clear r) (w_all r) n k = Ret (v, k') ->
      estep (mkESys k m) (mkESys k' (started t (mkECall g r) v m))
  | EStepSync k m t g s w n v k' : runs k t -> m !! t = None -> uint32 s -> uint32 w ->
      xEventGroupSync g s w n k = Ret (v, k') ->
      estep (mkESys k m) (mkESys k' (started t (mkECall g (rendezvous w)) v m))
  | EStepEnd k m t c v k' : runs k t -> m !! t = Some c -> call_end c k = Ret (v, k') ->
      estep (mkESys k m) (mkESys k' (delete t m))
  | EStepSet k m g s k' : uint32 s -> set_bits_section g s k = Ret (tt, k') -> estep (mkESys k m) (mkESys k' m)
  | EStepClear k m g w v k' : xEventGroupClearBits g w k = Ret (v, k') -> estep (mkESys k m) (mkESys k' m)
  | EStepTick k m b k' : xTaskIncrementTick k = Ret (b, k') -> estep (mkESys k m) (mkESys k' m)
  | EStepSuspend k m k' : vTaskSuspendAll k = Ret (tt, k') -> estep (mkESys k m) (mkESys k' m)
  | EStepResume k m b k' : xTaskResumeAll k = Ret (b, k') -> estep (mkESys k m) (mkESys k' m).

(** Nobody waits on a group. *)
Definition estart (s : esys) : Prop :=
  kwf (ekern s) /\ placed (ekern s) /\ quiet (ekern s) /\
  (forall g, klists (ekern s) (xTasksWaitingForBits g) = []) /\
  (forall g G, groups (ekern s) !! g = Some G -> event_bits (uxEventBits G)) /\ ecalls s = ∅.

(** [t] waits in the list of its group with its request unmet. *)
Definition asleep (k : kernel) (t : Z) (c : ecall) : Prop :=
  t ∈ klists k (xTasksWaitingForBits (e_group c)) /\ values event_item k t = item_of (e_request c) /\
  exists b, groups k !! e_group c = Some (mkEventGroup b) /\ met b (e_request c) = false.

(** What the item of [t] says: its request, or bits that met it. *)
Definition told (k : kernel) (t : Z) (c : ecall) : Prop :=
  values event_item k t = item_of (e_request c) \/
  exists B, event_bits B /\ met B (e_request c) = true /\ values event_item k t = item_met B.

Record einv (k : kernel) (m : gmap Z ecall) : Prop := {
  v_kwf : kwf k; v_placed : placed k; v_quiet : quiet k;
  v_groups g G : groups k !! g = Some G -> event_bits (uxEventBits G);
  v_waiting g t : t ∈ klists k (xTasksWaitingForBits g) -> exists c, m !! t = Some c /\ e_group c = g /\ asleep k t c;
  v_calls t c : m !! t = Some c -> event_bits (w_bits (e_request c)) /\ is_Some (tcbs k !! t) /\ is_Some (groups k !! e_group c) /\
    told k t c /\ (awake k t \/ t ∈ klists k (xTasksWaitingForBits (e_group c))) }.

Lemma bits_list g : wait_list (xTasksWaitingForBits g).
Proof. by split. Qed.

(** * Steps that wake tasks at most *)

Lemma calm_values k k' t : calm k k' -> is_Some (tcbs k !! t) -> values event_item k' t = values event_item k t.
Proof.
  intros Hc (c & Ht). destruct (c_tcb _ _ Hc t c Ht) as (c' & Ht' & _ & _ & _ & _ & E).
  rewrite (values_tcb event_item k t c), (values_tcb event_item k' t c') by done. done.
Qed.

Lemma calm_einv k k' m : einv k m -> calm k k' -> einv k' m.
Proof.
  intros [] Hc. pose proof Hc as []. split; auto.
  - intros g G. rewrite c_groups. apply v_groups0.
  - intros g t Hin. pose proof (c_lists _ t (bits_list g) Hin) as Hin0.
    destruct (v_waiting0 g t Hin0) as (c & Hm & Eg & _ & Hv & b & Hb). exists c. split_and!; [done.. |].
    split_and!; [by rewrite Eg | | exists b; by rewrite c_groups]. by rewrite (calm_values k k') by (done || by apply (v_calls0 t c)).
  - intros t c Hm. destruct (v_calls0 t c Hm) as (? & Hs & Hg & Ht & Ha). split_and!; try done.
    + destruct Hs as (x & Hx). destruct (c_tcb t x Hx) as (y & ? & _). by exists y.
    + by rewrite c_groups.
    + unfold told. by rewrite (calm_values k k').
    + destruct Ha as [Ha | Ha]; [left; auto |]. destruct (c_left _ t (bits_list (e_group c)) Ha); auto.
Qed.

Lemma resume_and_yield_calm k r v k' : kwf k -> placed k -> resume_and_yield r k = Ret (v, k') -> v = r /\ calm k k'.
Proof.
  intros Hk Hp H. unfold resume_and_yield in H. bind_inv H as b s Hr. pose proof (xTaskResumeAll_calm _ _ _ Hk Hp Hr) as Hc.
  destruct r as [x |]; [injection H as <- <-; done |]. bind_inv H as u s1 Hy. injection H as <- <-. split; [done |].
  etrans; [exact Hc |]. destruct b; injection Hy as _ <-; apply same_tasks_calm; try done; apply Hc.
Qed.

Lemma calm_runs k k' t : calm k k' -> runs k t -> runs k' t.
Proof. intros [] [Hc Hr]. split; [by rewrite c_current, c_core | auto]. Qed.

Lemma suspend_calm k k' : kwf k -> placed k -> vTaskSuspendAll k = Ret (tt, k') -> calm k k'.
Proof. intros Hk Hp H. unfold vTaskSuspendAll in H. injection H as <-. by apply same_tasks_calm. Qed.

(** ** Steps that change bits *)

(** Fewer bits. *)
Lemma clear_einv k m g b w : einv k m -> groups k !! g = Some (mkEventGroup b) ->
  einv (set_groups (<[g := mkEventGroup (Z.ldiff b w)]> (groups k)) k) m.
Proof.
  intros [] Hg. split; try done; cbn.
  - destruct v_kwf0. by split.
  - intros g' G. destruct (decide (g' = g)) as [-> | Hne].
    + rewrite lookup_insert_eq. intros [= <-]. cbn. apply event_bits_ldiff. by apply (v_groups0 g (mkEventGroup b)).
    + rewrite lookup_insert_ne by done. apply v_groups0.
  - intros g' t Hin. destruct (v_waiting0 g' t Hin) as (c & Hm & Eg & Hl & Hv & b' & Hb' & Hmet). exists c. split_and!; [done.. |].
    split_and!; [done.. |]. cbn. destruct (decide (e_group c = g)) as [E | Hne].
    + rewrite E in *. rewrite Hg in Hb'. injection Hb' as <-. rewrite lookup_insert_eq. eexists. split; [done |]. by apply prvTestWaitCondition_mono.
    + rewrite lookup_insert_ne by done. by exists b'.
  - intros t c Hm. destruct (v_calls0 t c Hm) as (? & ? & ? & ? & ?). split_and!; try done.
    destruct (decide (e_group c = g)) as [-> |]; [by rewrite lookup_insert_eq | by rewrite lookup_insert_ne].
Qed.

Lemma released_all_quiet v ts : forall k k', kwf k -> quiet k -> (forall t, t ∈ ts -> is_Some (tcbs k !! t)) ->
  released_all v ts k k' -> quiet k'.
Proof.
  induction ts as [| t ts IH]; intros k k' Hk Hq Hs H; cbn [released_all] in H; [by subst |].
  destruct H as (k1 & [Hk1 _ _ _ Hy1 Ht1 _ _ _] & H). destruct (Hs t ltac:(left)) as (c & Hc). destruct (Ht1 c Hc) as (c' & Hc' & Ec & _).
  apply (IH k1); try done.
  - apply (quiet_step t k k1); try done. left. intros x Hx. rewrite Hc' in Hx. injection Hx as <-. by rewrite Ec.
  - intros y Hy. destruct (decide (y = t)) as [-> | Hne]; [by exists c' |]. rewrite Hy1 by done. apply Hs. by right.
Qed.

(** What the calls under way asked for. *)
Definition req_of (m : gmap Z ecall) (t : Z) : wait_request :=
  match m !! t with Some c => e_request c | None => rendezvous 0 end.

Lemma einv_asked k m g : einv k m -> asked (req_of m) k (klists k (xTasksWaitingForBits g)).
Proof.
  intros [] t Hin. destruct (v_waiting0 g t Hin) as (c & Hm & _ & _ & Hv & _). unfold req_of. rewrite Hm.
  split; [by apply (v_calls0 t c) | done].
Qed.

(** The walk over the waiters of [g], after which the bits are [B] less those
    cleared. *)
Lemma walk_einv k m g B susp k0 : einv k m -> is_Some (groups k !! g) -> event_bits B ->
  let ts := woken (req_of m) B (klists k (xTasksWaitingForBits g)) in
  let final := Z.ldiff B (cleared (req_of m) ts) in
  released_all (item_met B) ts (set_groups (<[g := mkEventGroup B]> (groups k)) (set_suspended susp k)) k0 ->
  placed k0 -> (forall t, runs k t -> m !! t = None -> runs k0 t) /\ einv (set_groups (<[g := mkEventGroup final]> (groups k0)) k0) m.
Proof.
  intros Hi Hg HB ts final Hrel Hp0. pose proof Hi as []. set (kb := set_groups _ (set_suspended susp k)) in *.
  assert (kwf kb) as Hkb by (destruct v_kwf0; by split).
  assert (NoDup ts) as Hd by (apply list.NoDup_filter, v_kwf0).
  assert (forall t, t ∈ ts -> exists c, m !! t = Some c /\ e_group c = g /\ met B (e_request c) = true) as Hts.
  { intros t [Hmet Hin]%elem_of_woken. destruct (v_waiting0 g t Hin) as (c & Hm & E & _). exists c. unfold req_of in Hmet. by rewrite Hm in Hmet. }
  assert (forall t, t ∈ ts -> is_Some (tcbs kb !! t)) as Hex by (intros t (c & Hm & _)%Hts; by apply (v_calls0 t c)).
  destruct (released_all_spec _ _ _ _ Hkb Hd Hex Hrel) as (Hk0 & He & Hg0 & Hy & Hr & Ht & Hm0 & _).
  assert (forall y, y ∉ ts -> values event_item k0 y = values event_item k y) as Hv by (intros y Hny; unfold values; by rewrite Hy).
  assert (forall t, awake k t -> awake k0 t) as Haw.
  { intros t Ha. destruct (decide (t ∈ ts)) as [Hin | Hnin]; [left; by apply Hr | apply (awake_same k); auto]. }
  split.
  { intros t [Hc Hrt] Hm. split; [by rewrite (env_current _ _ He), (env_core _ _ He) |].
    assert (t ∉ ts) as Hnt by (intros (c & Hm' & _)%Hts; congruence). unfold is_ready. by rewrite Hy. }
  split; try done.
  - destruct Hk0. by split.
  - exact (released_all_quiet (item_met B) ts kb k0 Hkb v_quiet0 Hex Hrel).
  - intros g' G. cbn. rewrite Hg0. cbn. destruct (decide (g' = g)) as [-> | Hne].
    + rewrite lookup_insert_eq. intros [= <-]. by apply event_bits_ldiff.
    + rewrite !lookup_insert_ne by done. apply v_groups0.
  - intros g' t. cbn. rewrite Hm0, list_elem_of_filter by done. intros [Hnt Hin]. change (klists kb) with (klists k) in Hin.
    destruct (v_waiting0 g' t Hin) as (c & Hm & Eg & Hl & Hval & b & Hb & Hmet). exists c. split_and!; [done.. |].
    split_and!; cbn.
    + rewrite Hm0 by done. by apply list_elem_of_filter.
    + change (values event_item k0 t = item_of (e_request c)). by rewrite Hv.
    + rewrite Eg, Hg0. cbn. destruct (decide (g' = g)) as [-> | Hne].
      * rewrite lookup_insert_eq. eexists. split; [done |]. apply prvTestWaitCondition_mono. fold (met B (e_request c)).
        apply not_true_iff_false. intros E. apply Hnt, elem_of_woken. unfold req_of. by rewrite Hm.
      * rewrite !lookup_insert_ne by done. rewrite Eg in Hb. by exists b.
  - intros t c Hm. destruct (v_calls0 t c Hm) as (Hw & Hs & Hgr & Htold & Ha). split_and!; [done | | | |].
    + cbn. destruct (decide (t ∈ ts)) as [Hin | Hnin]; [| by rewrite Hy].
      destruct Hs as (x & Hx). destruct (Ht t x Hin Hx) as (y & ? & _). by exists y.
    + cbn. rewrite Hg0. cbn. destruct (decide (e_group c = g)) as [-> |]; [by rewrite lookup_insert_eq | by rewrite !lookup_insert_ne].
    + change (told k0 t c). unfold told. destruct (decide (t ∈ ts)) as [Hin | Hnin]; [right | by rewrite Hv].
      destruct (Hts t Hin) as (c' & Hm' & _ & Hmet). rewrite Hm in Hm'. injection Hm' as <-. exists B. split_and!; [done.. |].
      destruct Hs as (x & Hx). destruct (Ht t x Hin Hx) as (y & Hty & Ey & _). rewrite (values_tcb event_item k0 t y Hty). cbn [item_of_kind]. by rewrite Ey.
    + cbn. destruct Ha as [Ha | Ha]; [left; by apply Haw |]. destruct (decide (t ∈ ts)) as [Hin | Hnin]; [left; left; by apply Hr | right].
      rewrite Hm0 by done. by apply list_elem_of_filter.
Qed.

Lemma get_bits_inv g k b k' : get_bits g k = Ret (b, k') -> k' = k /\ groups k !! g = Some (mkEventGroup b).
Proof.
  unfold get_bits. intros H. bind_inv H as k0 s Hg. injection Hg as <- <-. bind_inv H as G s Hn.
  destruct (groups k !! g) as [[x] |]; [| discriminate]. injection Hn as <- <-. injection H as <- <-. done.
Qed.

Lemma set_section_inv k m g s k' : einv k m -> uint32 s -> set_bits_section g s k = Ret (tt, k') ->
  einv k' m /\ (forall t, runs k t -> m !! t = None -> runs k' t) /\
  exists b w, groups k !! g = Some (mkEventGroup b) /\ groups k' !! g = Some (mkEventGroup (Z.ldiff (Z.lor b s) w)).
Proof.
  intros Hi Hs H. pose proof Hi as [].
  assert (exists b, groups k !! g = Some (mkEventGroup b)) as (b & Hg).
  { unfold set_bits_section in H. bind_inv H as x s0 Hb. apply get_bits_inv in Hb as [_ Hb]. by exists x. }
  assert (event_bits b) as Hb by (by apply (v_groups0 g (mkEventGroup b))).
  destruct (Z.eq_dec (Z.land s eventEVENT_BITS_CONTROL_BYTES) 0) as [Hc | Hc]; [| by rewrite (set_bits_refused k g b s Hg Hc) in H].
  destruct (walks_alone g k) eqn:Ha; [| by rewrite (set_bits_race k g b s Hg Hc Ha) in H].
  destruct (set_bits_walk k g b s (req_of m) v_kwf0 v_placed0 Hg Hb Hs (einv_asked k m g Hi) Hc Ha) as
    [[_ (e & He)] | (k1 & Hrun & Hp1 & _ & k0 & Hk0 & _ & Hg0 & Hrel & ->)]; [by rewrite H in He |].
  assert (event_bits (Z.lor b s)) as HB by (apply event_bits_lor; [done | by apply event_bits_land_control]).
  rewrite H in Hrun. symmetry in Hrun. bind_inv Hrun as x s1 Hres. injection Hrun as <-.
  destruct (walk_einv k m g _ _ k0 Hi (mk_is_Some _ _ Hg) HB Hrel Hp1) as [Hruns Hi1]. cbv zeta in Hi1.
  apply xTaskResumeAll_calm in Hres; [| apply Hi1..]. split_and!; [by eapply calm_einv | |].
  - intros t Ht Hm. apply (calm_runs _ _ t Hres). specialize (Hruns t Ht Hm). exact Hruns.
  - eexists b, _. split; [done |]. rewrite (c_groups _ _ Hres). apply lookup_insert_eq.
Qed.

(** * The sections of waiting *)

Lemma runs_tcb k t : kwf k -> quiet k -> runs k t -> exists c, tcbs k !! t = Some c /\ container (xEventListItem c) = None.
Proof. intros Hk Hq [_ Hr]. pose proof Hr as (c & p & Hc & _). exists c. split; [done |]. by apply (quiet_event k t). Qed.

Lemma place_inv k m t g b r v n u k' : einv k m -> runs k t -> m !! t = None -> groups k !! g = Some (mkEventGroup b) ->
  event_bits (w_bits r) -> met b r = false -> Z.lor v taskEVENT_LIST_ITEM_VALUE_IN_USE = item_of r ->
  vTaskPlaceOnUnorderedEventList (xTasksWaitingForBits g) v n k = Ret (u, k') -> einv k' (<[t := mkECall g r]> m).
Proof.
  intros Hi Hr Hm Hg Hw Hmet Ev H. pose proof Hi as []. destruct (runs_tcb k t v_kwf0 v_quiet0 Hr) as (c & Ht & Hev).
  pose proof Hr as [Hcur _].
  assert (uxSchedulerSuspended k (xPortGetCoreID k) <> 0) as Hs.
  { unfold vTaskPlaceOnUnorderedEventList in H. bind_inv H as k0 s Hx. injection Hx as <- <-. bind_inv H as u1 s Hx.
    apply assert_inv in Hx as [E _]. by destruct (Z.eqb_spec (uxSchedulerSuspended k (xPortGetCoreID k)) 0). }
  destruct (vTaskPlaceOnUnorderedEventList_run k (xTasksWaitingForBits g) t c v n v_kwf0 v_placed0 (bits_list g) Hcur Ht Hev Hs) as
    (k1 & Hr1 & Hk1 & Hp1 & Hf1 & Hl1 & Hm1 & Hy1 & Hnr & Hq1).
  rewrite H in Hr1. injection Hr1 as _ <-. pose proof (f_groups _ _ Hf1) as Hg1. cbn in Hg1.
  rewrite Ev, wrap_u_small in Hf1 by apply (item_of_range r Hw).
  destruct (f_tcb _ _ Hf1 t (with_event (mkItem (item_of r) None) c)) as (x & Hx & _ & _ & _ & _ & Ex); [apply lookup_insert_eq |].
  assert (values event_item k' t = item_of r) as Hv by (rewrite (values_tcb event_item k' t x); done).
  assert (forall y, y <> t -> values event_item k' y = values event_item k y) as Hvy by (intros y Hne; unfold values; by rewrite Hy1).
  assert (forall g', t ∉ klists k (xTasksWaitingForBits g')) as Hnl by (intros g'; by eapply not_listed).
  assert (forall g' y, y <> t -> (y ∈ klists k' (xTasksWaitingForBits g') <-> y ∈ klists k (xTasksWaitingForBits g'))) as Hly.
  { intros g' y Hne. destruct (decide (g' = g)) as [-> | Hgne]; [rewrite Hl1; set_solver +Hne | rewrite Hm1; [done | done | congruence]]. }
  assert (t ∈ klists k' (xTasksWaitingForBits g)) as Htl by (rewrite Hl1; set_solver +).
  split; auto.
  - intros g' G. rewrite Hg1. apply v_groups0.
  - intros g' y Hin. destruct (decide (y = t)) as [-> | Hne].
    + assert (g' = g) as ->.
      { destruct (decide (g' = g)) as [| Hgne]; [done |]. rewrite Hm1 in Hin by (done || congruence). by apply Hnl in Hin. }
      exists (mkECall g r). rewrite lookup_insert_eq. split_and!; [done.. |]. split_and!; [done.. |]. exists b. by rewrite Hg1.
    + apply Hly in Hin; [| done]. destruct (v_waiting0 g' y Hin) as (cy & Hcy & Eg & Hl & Hvl & b' & Hb' & Hmt).
      exists cy. rewrite lookup_insert_ne by done. split_and!; [done.. |]. split_and!; [by apply Hly | by rewrite Hvy |].
      exists b'. by rewrite Hg1.
  - intros y cy. destruct (decide (y = t)) as [-> | Hne].
    + rewrite lookup_insert_eq. intros [= <-]. cbn. rewrite Hg1, Hg. split_and!; try done; [by left | by right].
    + rewrite lookup_insert_ne by done. intros Hcy. destruct (v_calls0 y cy Hcy) as (? & ? & ? & ? & Ha).
      split_and!; [done | by rewrite Hy1 | by rewrite Hg1 | unfold told; by rewrite Hvy |].
      rewrite Hly by done. destruct Ha as [Ha | Ha]; [left | by right]. apply (awake_same k); auto.
Qed.

Lemma wait_asserts_inv w n k u k' : uint32 w -> wait_asserts w n k = Ret (u, k') -> k' = k /\ event_bits w.
Proof.
  intros Hw H. unfold wait_asserts in H. bind_inv H as u1 s Ha. apply assert_inv in Ha as [E1 ->].
  bind_inv H as u2 s Ha. apply assert_inv in Ha as [E2 ->]. unfold suspended_assert, xTaskGetSchedulerState_suspended in H.
  bind_inv H as sp s Hx. injection Hx as <- <-. apply assert_inv in H as [_ ->]. split; [done |].
  apply event_bits_land_control; [done |]. by apply Z.eqb_eq.
Qed.

Lemma wait_inv k m t g r n v k' : einv k m -> runs k t -> m !! t = None -> uint32 (w_bits r) ->
  xEventGroupWaitBits g (w_bits r) (w_clear r) (w_all r) n k = Ret (v, k') -> einv k' (started t (mkECall g r) v m).
Proof.
  intros Hi Hr Hm Hw H. pose proof Hi as []. unfold xEventGroupWaitBits in H.
  bind_inv H as b0 s Hx. apply get_bits_inv in Hx as [-> _]. bind_inv H as u s Hx. apply wait_asserts_inv in Hx as [-> Hwb]; [| done].
  bind_inv H as u1 k1 Hs. destruct u1. pose proof (suspend_calm _ _ v_kwf0 v_placed0 Hs) as Hc1.
  pose proof (calm_einv _ _ _ Hi Hc1) as Hi1. pose proof (calm_runs _ _ _ Hc1 Hr) as Hr1. clear Hs.
  bind_inv H as b s Hx. apply get_bits_inv in Hx as [-> Hg]. bind_inv H as r' k2 Hx. fold (met b r) in Hx.
  destruct (met b r) eqn:Em; [| destruct (n =? 0)].
  - bind_inv Hx as u2 k3 Hp. injection Hx as <- <-. assert (einv k3 m) as Hi3.
    { destruct (w_clear r); injection Hp as _ <-; [by apply clear_einv | done]. }
    apply resume_and_yield_calm in H as [-> Hc]; [| apply Hi3..]. cbn. by eapply calm_einv.
  - injection Hx as <- <-. apply resume_and_yield_calm in H as [-> Hc]; [| apply Hi1..]. cbn. by eapply calm_einv.
  - cbv zeta in Hx. bind_inv Hx as u2 k3 Hp. injection Hx as <- <-.
    apply (place_inv k1 m t g b r _ _ _ _ Hi1 Hr1 Hm Hg Hwb Em (control_bits r)) in Hp.
    apply resume_and_yield_calm in H as [-> Hc]; [| apply Hp..]. cbn. by eapply calm_einv.
Qed.

Lemma sync_inv k m t g s w n v k' : einv k m -> runs k t -> m !! t = None -> uint32 s -> uint32 w ->
  xEventGroupSync g s w n k = Ret (v, k') -> einv k' (started t (mkECall g (rendezvous w)) v m).
Proof.
  intros Hi Hr Hm Hsb Hw H. pose proof Hi as []. unfold xEventGroupSync in H.
  bind_inv H as u s1 Hx. apply wait_asserts_inv in Hx as [-> Hwb]; [| done].
  bind_inv H as u1 k1 Hs. destruct u1. pose proof (suspend_calm _ _ v_kwf0 v_placed0 Hs) as Hc1.
  pose proof (calm_einv _ _ _ Hi Hc1) as Hi1. pose proof (calm_runs _ _ _ Hc1 Hr) as Hr1. clear Hs.
  bind_inv H as b s1 Hx. apply get_bits_inv in Hx as [-> Hg]. bind_inv H as v1 k2 Hx. unfold xEventGroupSetBits in Hx.
  bind_inv Hx as u2 s1 Hset. destruct u2. destruct (set_section_inv _ _ _ _ _ Hi1 Hsb Hset) as (Hi2 & Hr2 & bb & cl & Hbb & Hg2).
  specialize (Hr2 t Hr1 Hm). rewrite Hg in Hbb. injection Hbb as <-.
  apply get_bits_inv in Hx as [-> _]. bind_inv H as r k3 Hx.
  destruct (_ =? w) eqn:Em; [| destruct (negb (n =? 0))].
  - bind_inv Hx as b2 s2 Hb. apply get_bits_inv in Hb as [-> Hb2]. bind_inv Hx as u3 s2 Hp. injection Hp as _ <-. injection Hx as <- <-.
    pose proof (clear_einv s1 m g b2 w Hi2 Hb2) as Hi3.
    apply resume_and_yield_calm in H as [-> Hc]; [| apply Hi3..]. cbn. by eapply calm_einv.
  - bind_inv Hx as u3 s2 Hp. injection Hx as <- <-.
    assert (met (Z.ldiff (Z.lor b s) cl) (rendezvous w) = false) as Hmet by (by apply prvTestWaitCondition_mono).
    apply (place_inv s1 m t g _ (rendezvous w) _ _ _ _ Hi2 Hr2 Hm Hg2 Hwb Hmet) in Hp; [| unfold item_of, item_request; by rewrite <- (Z.lor_assoc w)].
    apply resume_and_yield_calm in H as [-> Hc]; [| apply Hp..]. cbn. by eapply calm_einv.
  - bind_inv Hx as b2 s2 Hb. apply get_bits_inv in Hb as [-> _]. injection Hx as <- <-.
    apply resume_and_yield_calm in H as [-> Hc]; [| apply Hi2..]. cbn. by eapply calm_einv.
Qed.

Lemma reset_einv k m t x : einv k m -> runs k t -> tcbs k !! t = Some x -> einv (item_reset k t x) (delete t m).
Proof.
  intros [] Hr Ht. set (k' := item_reset k t x). pose (x' := with_event (mkItem (wrap_u 32 (configMAX_PRIORITIES - uxPriority x)) (container (xEventListItem x))) x).
  assert (container (xEventListItem x) = None) as Hev by (apply (quiet_event k t); [done.. | apply Hr | done]).
  assert (kwf k') as Hk' by (apply (kwf_set t x x'); try done; by intros []).
  assert (forall y, y <> t -> tcbs k' !! y = tcbs k !! y) as Hy by (intros; unfold k', item_reset; cbn; by rewrite lookup_insert_ne).
  assert (forall l, kind_of l = event_item -> t ∉ klists k l) as Hnl by (intros l Hl; by eapply not_listed).
  assert (forall y, y <> t -> values event_item k' y = values event_item k y) as Hv by (intros y Hne; unfold values; by rewrite Hy).
  split; try done.
  - by apply (placed_set t x x').
  - apply (quiet_step t k k'); try done. left. unfold k', item_reset. cbn. rewrite lookup_insert_eq. by intros c [= <-].
  - intros g y Hin. change (klists k') with (klists k) in Hin. destruct (v_waiting0 g y Hin) as (c & Hm & Eg & Hl & Hvl & Hb).
    assert (y <> t) as Hne by (intros ->; revert Hin; by apply Hnl). exists c. rewrite lookup_delete_ne by done.
    split_and!; [done.. |]. split_and!; [done | by rewrite Hv | done].
  - intros y c. destruct (decide (y = t)) as [-> | Hne]; [by rewrite lookup_delete_eq |]. rewrite lookup_delete_ne by done.
    intros Hm. destruct (v_calls0 y c Hm) as (? & ? & ? & ? & Ha). split_and!; [done | by rewrite Hy | done | unfold told; by rewrite Hv |].
    destruct Ha as [Ha | Ha]; [left; apply (awake_same k); auto | by right].
Qed.

(** How a call ends. *)
Lemma call_end_run k m t c : einv k m -> runs k t -> m !! t = Some c ->
  exists x b, tcbs k !! t = Some x /\ groups k !! e_group c = Some (mkEventGroup b) /\
    ((exists B, event_bits B /\ met B (e_request c) = true /\ call_end c k = Ret (B, item_reset k t x)) \/
     call_end c k = Ret (b, set_groups
       (if met b (e_request c) && w_clear (e_request c) then <[e_group c := mkEventGroup (Z.ldiff b (w_bits (e_request c)))]> (groups k) else groups k)
       (item_reset k t x))).
Proof.
  intros [] [Hcur Hr] Hm. destruct (v_calls0 t c Hm) as (Hw & (x & Hx) & ([b] & Hg) & Ht & _). exists x, b. split_and!; [done.. |].
  unfold told in Ht. rewrite (values_tcb event_item k t x) in Ht by done. destruct Ht as [Ht | (B & HB & Hmet & Ht)].
  - right. apply (wait_end_timeout k t x (e_group c) b (e_request c)); try done. by apply (v_groups0 _ _ Hg).
  - left. exists B. split_and!; [done.. |]. by apply (wait_end_met k t x (e_group c) (e_request c)).
Qed.

Lemma end_inv k m t c v k' : einv k m -> runs k t -> m !! t = Some c -> call_end c k = Ret (v, k') -> einv k' (delete t m).
Proof.
  intros Hi Hr Hm H. destruct (call_end_run k m t c Hi Hr Hm) as (x & b & Hx & Hg & He). pose proof (reset_einv k m t x Hi Hr Hx) as Hi1.
  destruct He as [(B & _ & _ & He) | He]; rewrite H in He; injection He as -> ->; [done |].
  destruct (_ && _); [by apply (clear_einv (item_reset k t x)) | exact Hi1].
Qed.

Lemma estep_inv s s' : estep s s' -> einv (ekern s) (ecalls s) -> einv (ekern s') (ecalls s').
Proof.
  intros H Hi. destruct H as [k m core t c Hcore Hr Ht | k m t g r n v k' Hr Hm Hw Hrun | k m t g s w n v k' Hr Hm Hs Hw Hrun
    | k m t c v k' Hr Hm Hrun | k m g s k' Hs Hrun | k m g w v k' Hrun | k m b k' Hrun | k m k' Hrun | k m b k' Hrun]; cbn in *;
    pose proof (v_kwf _ _ Hi) as Hk; pose proof (v_placed _ _ Hi) as Hp.
  - destruct Hi as []. split; try done. destruct Hk. split; try done.
    intros core' Hcore'. cbn. destruct (decide (core' = core)) as [-> | Hne].
    + exists t, c. by rewrite fn_lookup_insert.
    + rewrite fn_lookup_insert_ne by done. by apply k_current.
  - by eapply wait_inv.
  - exact (sync_inv k m t g s w n v k' Hi Hr Hm Hs Hw Hrun).
  - by eapply end_inv.
  - by apply (set_section_inv _ _ _ _ _ Hi Hs Hrun).
  - unfold xEventGroupClearBits in Hrun. bind_inv Hrun as b s Hb. apply get_bits_inv in Hb as [-> Hg].
    bind_inv Hrun as u s Ha. apply assert_inv in Ha as [_ ->]. bind_inv Hrun as u1 s Hset. injection Hset as _ <-. injection Hrun as _ <-.
    by apply clear_einv.
  - eapply calm_einv; [done |]. by eapply xTaskIncrementTick_calm.
  - eapply calm_einv; [done |]. by eapply suspend_calm.
  - eapply calm_einv; [done |]. by eapply xTaskResumeAll_calm.
Qed.

Lemma estart_inv s : estart s -> einv (ekern s) (ecalls s).
Proof.
  intros (Hk & Hp & Hq & Hl & Hg & Hc). split; try done.
  - intros g t Hin. rewrite Hl in Hin. by apply elem_of_nil in Hin.
  - intros t c. by rewrite Hc, lookup_empty.
Qed.

Lemma ereachable_inv s0 s : estart s0 -> rtc estep s0 s -> einv (ekern s) (ecalls s).
Proof. intros Hs Hr. apply estart_inv in Hs. induction Hr; [done |]. eauto using estep_inv. Qed.

(** C22. No event is missed.  Tasks on two cores that set, clear and wait for
    bits, meet in rendezvous, suspend and resume the scheduler, and the tick,
    interleave between the sections of the calls in any order.  Bits are set, and
    rendezvous are entered, where the tick stays out of the walk over the waiters:
    on core 0, or while no waiter of the group has a time-out.  Elsewhere the walk
    races with the tick of core 0 and nothing is stated: such a step faults
    ([DataRace]) and leads to no state.  In every state they reach, a task is in the
    list of a group only while the bits of the group do not meet its request, and a
    task whose call is under way either is awake (ready, or parked in the list of
    pending tasks of a core until its scheduler is resumed) or waits so: as soon as
    bits meet a request its task is awake.  And when it runs, its call returns
    without a fault, with bits that meet the request or, after a time-out, with the
    bits the group has then. *)
Theorem no_missed_event s0 s :
  estart s0 -> rtc estep s0 s ->
  (forall g t, t ∈ klists (ekern s) (xTasksWaitingForBits g) -> exists c b, ecalls s !! t = Some c /\ e_group c = g /\
     groups (ekern s) !! g = Some (mkEventGroup b) /\ met b (e_request c) = false) /\
  (forall t c b, ecalls s !! t = Some c -> groups (ekern s) !! e_group c = Some (mkEventGroup b) -> met b (e_request c) = true ->
     awake (ekern s) t) /\
  (forall t c, ecalls s !! t = Some c -> runs (ekern s) t -> exists v k', call_end c (ekern s) = Ret (v, k') /\
     (met v (e_request c) = true \/ groups (ekern s) !! e_group c = Some (mkEventGroup v))).
Proof.
  intros Hs Hr. pose proof (ereachable_inv s0 s Hs Hr) as Hi. pose proof Hi as []. split_and!.
  - intros g t Hin. destruct (v_waiting0 g t Hin) as (c & Hm & Eg & _ & _ & b & Hb & Hmet). exists c, b. by rewrite <- Eg.
  - intros t c b Hm Hg Hmet. destruct (v_calls0 t c Hm) as (_ & _ & _ & _ & [Ha | Hin]); [done |]. exfalso.
    destruct (v_waiting0 _ t Hin) as (c' & Hm' & _ & _ & _ & b' & Hb' & Hmet'). rewrite Hm in Hm'. injection Hm' as <-. congruence.
  - intros t c Hm Hrt. destruct (call_end_run _ _ t c Hi Hrt Hm) as (x & b & _ & Hg & [(B & _ & Hmet & He) | He]); eauto.
Qed.

(** * The theorem at work *)

(** Task 1 waits in a rendezvous; task 2 completes it on the other core. *)
Definition waited : kernel := set_core 0 group1.
Definition call1 : ecall := mkECall 3 (rendezvous 3).
Definition esys1 : esys := mkESys waited (<[1 := call1]> ∅).

Lemma esys0_start : estart (mkESys group0 ∅).
Proof.
  split_and!; try done; [apply two_tasks_kwf | apply two_tasks_placed | apply two_tasks_quiet |].
  intros g G HG. change (({[3 := mkEventGroup 1]} : gmap Z EventGroup_t) !! g = Some G) in HG. apply lookup_singleton_Some in HG as [<- <-].
  by split.
Qed.

Lemma esys1_reached : rtc estep (mkESys group0 ∅) esys1.
Proof.
  apply rtc_once. apply (EStepWait group0 ∅ 1 3 (rendezvous 3) portMAX_DELAY None waited); [| done | by split |].
  - split; [done |]. exists (ready_tcb 0 0), 5. split; [apply two_tasks_1 | done].
  - destruct (wait_block group0 1 (ready_tcb 0 0) 3 1 (rendezvous 3) portMAX_DELAY group0_at_ease) as (k' & Hr & Hk & _ & _ & Hl & _ & _ & _ & Hv & _); [done.. |].
    rewrite Hr. f_equal. f_equal. unfold waited, group1. cbn [w_bits w_clear w_all rendezvous] in Hr. rewrite Hr.
    assert (xPortGetCoreID k' = 0) as E; [| destruct k'; cbn in *; by subst].
    apply (f_equal (fun r => match r with Ret (_, k) => xPortGetCoreID k | Fault _ => 0 end)) in Hr. by vm_compute in Hr.
Qed.

Lemma no_missed_event_witness :
  klists waited (xTasksWaitingForBits 3) = [1] /\
  exists c b, ecalls esys1 !! 1 = Some c /\ e_group c = 3 /\ groups waited !! 3 = Some (mkEventGroup b) /\ met b (e_request c) = false.
Proof.
  destruct (no_missed_event (mkESys group0 ∅) esys1 esys0_start esys1_reached) as (H & _).
  destruct group1_state as (_ & _ & _ & Hl & _).
  split; [exact Hl |]. apply H. change (1 ∈ klists group1 (xTasksWaitingForBits 3)). rewrite Hl. left.
Defined.
