(* ===== verification/KernelQueues.v ===== *)
(** The queue component discharges the interfaces: a message queue of words is a
    kernel queue of items of four bytes (MsgQueue), a binary semaphore a kernel
    queue of one empty item (Semaphore).  The operations are the kernel's own
    entry points, run on the kernel's state; so what is proved of the I2S driver
    and of the byte FIFO against the interfaces holds on this kernel.  Each
    object of a client is run on a state of its own: an operation changes no
    other queue ([becomes]). *)

From S2P Require Import Prelude Ring Semaphore MsgQueue FreeRtosList FreeRtosTasks FreeRtosQueue.

(** * Words in a queue *)

Lemma of_le32_le32 x : 0 <= x < 2 ^ 32 -> of_le32 (le32 x) = x.
Proof.
  intros Hx. unfold of_le32, le32. rewrite (Z.mod_small (x / 16777216)) by (split; [apply Z.div_pos; lia | apply Z.div_lt_upper_bound; lia]).
  rewrite (Z.mod_eq x 256), (Z.mod_eq (x / 256) 256), (Z.mod_eq (x / 65536) 256) by lia.
  rewrite !Z.div_div by lia. change (256 * 256) with 65536. change (65536 * 256) with 16777216. lia.
Qed.

(** The items of a queue, read from its storage behind the read position. *)
Definition words (Q : Queue_t) : list Z :=
  match u_union Q with
  | pcReadFrom r => (fun i => of_le32 (contents (uxLength Q * 4) (storage Q) (r + 4 + 4 * i) 4)) <$> seqZ 0 (uxMessagesWaiting Q)
  | _ => []
  end.

Lemma chunks_of N (ram : list Z) pos (items : list (list Z)) : forall m, (forall b, b ∈ items -> zlen b = 4) ->
  mjoin items = contents N ram (pos + 4 * m) (4 * zlen items) ->
  (fun i => contents N ram (pos + 4 * i) 4) <$> seqZ m (zlen items) = items.
Proof.
  induction items as [| b items IH]; intros m Hl Hj; [done |]. pose proof (zlen_nonneg items).
  rewrite zlen_cons in *. rewrite seqZ_cons, fmap_cons by lia.
  replace (4 * (1 + zlen items)) with (4 + 4 * zlen items) in Hj by lia. rewrite contents_app in Hj by lia.
  apply app_inj_1 in Hj as [Hb Hj].
  2: { pose proof (Hl b ltac:(left)) as Hb. pose proof (zlen_contents N ram (pos + 4 * m) 4 ltac:(lia)) as Hc. unfold zlen in *. lia. }
  f_equal; [done |]. replace (Z.pred (1 + zlen items)) with (zlen items) by lia. apply IH; [intros x Hx; apply Hl; by right |].
  rewrite <- Z.add_1_r, Z.mul_add_distr_l, Z.add_assoc. exact Hj.
Qed.

Lemma words_rep Q items : queue_rep Q items -> uxItemSize Q = 4 -> words Q = of_le32 <$> items.
Proof.
  intros Hr H4. destruct (q_bytes _ _ Hr) as (r & Hu & _ & _ & _ & _ & _ & _ & _ & Hj); [lia |].
  destruct (q_count _ _ Hr) as [Hn _]. unfold words. rewrite Hu, Hn. rewrite H4 in Hj.
  rewrite <- (chunks_of (uxLength Q * 4) (storage Q) (r + 4) items 0) at 2; [by rewrite <- list_fmap_compose | |].
  - intros b Hb. by rewrite (q_each _ _ Hr b Hb).
  - rewrite Hj. f_equal; lia.
Qed.

(** The queue [h] of a kernel. *)
Record holds (h size : Z) (k : kernel) (Q : Queue_t) (items : list (list Z)) : Prop := {
  h_kwf : kwf k; h_placed : placed k; h_queue : queues k !! h = Some Q; h_rep : queue_rep Q items;
  h_data : pcHead_is_NULL Q = false; h_set : pxQueueSetContainer Q = None; h_size : uxItemSize Q = size }.

Lemma becomes_holds h size k k' Q items items' : holds h size k Q items -> becomes h Q items' k k' ->
  exists Q', holds h size k' Q' items' /\ uxLength Q' = uxLength Q.
Proof.
  intros [] ((Q' & Hq & Hr & Hd & Hs & Hl & Hz) & Hk & Hp). exists Q'. split; [| done].
  split; try done; [rewrite Hq; apply lookup_insert_eq | congruence..].
Qed.

(** * The message queue of a driver *)

Section message_queue.
Context (h : Z) (k0 : kernel).

(** The handle is what the allocator of [k0] returns. *)
#[local] Instance kernel_queue : MsgQueue kernel := {
  q_create n := match xQueueGenericCreate (fun _ => Some h) n 4 k0 with Ret (_, k) => k | Fault _ => k0 end;
  q_isfull k := match xQueueIsQueueFullFromISR h k with Ret (b, _) => b | Fault _ => false end;
  q_send x k := match xQueueGenericSendFromISR h (Some (le32 x)) None queueSEND_TO_BACK k with
                | Ret (true, _, k') => Some k' | _ => None end;
  q_receive k := match xQueueReceiveFromISR h true None k with
                 | Ret (true, item, _, k') => Some (of_le32 item, k') | _ => None end }.

Definition held (k : kernel) : Prop := exists Q items, holds h 4 k Q items.
Definition held_words (k : kernel) : list Z := match queues k !! h with Some Q => words Q | None => [] end.
Definition held_length (k : kernel) : Z := match queues k !! h with Some Q => uxLength Q | None => 0 end.

Lemma held_at k Q items : holds h 4 k Q items -> held_words k = of_le32 <$> items /\ held_length k = uxLength Q /\ zlen (held_words k) = zlen items.
Proof.
  intros []. unfold held_words, held_length. rewrite h_queue0. pose proof (words_rep Q items h_rep0 h_size0) as E.
  split_and!; [done.. |]. rewrite E. unfold zlen. by rewrite length_fmap.
Qed.

(** What the transmitted words need of a post. *)
Lemma word_ok k Q items x : holds h 4 k Q items -> zlen items < uxLength Q -> post_ok Q (Some (le32 x)) queueSEND_TO_BACK items.
Proof. intros [] Hl. split_and!; [intros _; exists (le32 x); by rewrite h_size0 | by left | done]. Qed.

Definition kernel_queue_laws (Hk0 : kwf k0) (Hp0 : placed k0) (Hf : fresh k0 h) : MsgQueueLaws kernel.
Proof.
  refine {| q_ok := held; q_items := held_words; q_length := held_length |}.
  - intros n Hn. destruct (xQueueGenericCreate_run (fun _ => Some h) k0 h Hk0 Hp0 Hf n 4) as (k & Hr & Hq & Hk & Hp & _); [lia | done |].
    cbn [q_create kernel_queue]. rewrite Hr. change (4 =? 0) with false in Hq. rewrite wrap_u_small in Hq by lia.
    assert (holds h 4 k (new_queue n 4 (n * 4) false) []) as Hh
      by (split; try done; [rewrite Hq; apply lookup_insert_eq | apply new_queue_rep; lia]).
    destruct (held_at _ _ _ Hh) as (-> & -> & _). split_and!; [by eexists _, _ | done..].
  - intros k (Q & items & Hh). destruct (held_at _ _ _ Hh) as (_ & -> & ->). apply (q_count _ _ (h_rep _ _ _ _ _ Hh)).
  - intros k (Q & items & Hh). destruct (held_at _ _ _ Hh) as (_ & -> & ->). cbn [q_isfull kernel_queue].
    unfold xQueueIsQueueFullFromISR. erewrite run_bind by (by apply get_queue_run, Hh). cbn. destruct (q_count _ _ (h_rep _ _ _ _ _ Hh)) as [-> _]. done.
  - intros k x (Q & items & Hh) Hl. destruct (held_at _ _ _ Hh) as (_ & E1 & E2). rewrite E1, E2 in Hl. cbn [q_send kernel_queue].
    by rewrite (isr_send_full k h Q items (h_queue _ _ _ _ _ Hh) (h_rep _ _ _ _ _ Hh) (Some (le32 x)) queueSEND_TO_BACK None).
  - intros k x (Q & items & Hh) Hl Hx. destruct (held_at _ _ _ Hh) as (E0 & E1 & E2). rewrite E1, E2 in Hl. pose proof Hh as [].
    destruct (isr_send_room k h Q items h_kwf0 h_placed0 h_queue0 h_rep0 h_data0 h_set0 (Some (le32 x)) queueSEND_TO_BACK None
      (word_ok k Q items x Hh Hl)) as (k' & w & Hr & Hb).
    exists k'. cbn [q_send kernel_queue]. rewrite Hr. split; [done |].
    destruct (becomes_holds _ _ _ _ _ _ _ Hh Hb) as (Q' & Hh' & El). destruct (held_at _ _ _ Hh') as (E0' & E1' & _).
    assert (stored Q (Some (le32 x)) = le32 x) as Es by (unfold stored; by rewrite h_size0).
    split_and!; [by eexists _, _ | | congruence]. rewrite E0', E0, Es. change (post queueSEND_TO_BACK (le32 x) items) with (items ++ [le32 x]).
    rewrite fmap_app. change (of_le32 <$> [le32 x]) with [of_le32 (le32 x)]. by rewrite of_le32_le32.
  - intros k (Q & items & Hh) E. destruct (held_at _ _ _ Hh) as (E0 & _). rewrite E0 in E. apply fmap_nil_inv in E as ->. pose proof Hh as [].
    cbn [q_receive kernel_queue]. by rewrite (isr_receive k h Q [] h_kwf0 h_placed0 h_queue0 h_rep0 h_data0 None).
  - intros k x l (Q & items & Hh) E. destruct (held_at _ _ _ Hh) as (E0 & E1 & _). rewrite E0 in E. destruct items as [| b rest]; [done |].
    injection E as <- <-. pose proof Hh as [].
    destruct (isr_receive k h Q (b :: rest) h_kwf0 h_placed0 h_queue0 h_rep0 h_data0 None) as (k' & w & Hr & Hb).
    exists k'. cbn [q_receive kernel_queue]. rewrite Hr. split; [done |].
    destruct (becomes_holds _ _ _ _ _ _ _ Hh Hb) as (Q' & Hh' & El). destruct (held_at _ _ _ Hh') as (E0' & E1' & _).
    split_and!; [by eexists _, _ | done | congruence].
Defined.
End message_queue.

(** * The binary semaphore *)

Section semaphore.
Context (h : Z) (k0 : kernel).

(** xSemaphoreGive posts an empty item without waiting. *)
Definition give (k : kernel) : kernel :=
  match send_section h None 0 queueSEND_TO_BACK None k with Ret (_, k') => k' | Fault _ => k end.

#[local] Instance kernel_semaphore : BinarySemaphore kernel := {
  sem_available k := match queues k !! h with Some Q => 0 <? uxMessagesWaiting Q | None => false end;
  sem_create := match xQueueGenericCreate (fun _ => Some h) 1 queueSEMAPHORE_QUEUE_ITEM_LENGTH k0 with
                | Ret (_, k) => give k | Fault _ => k0 end;
  sem_give := give;
  sem_take k := match receive_section h portMAX_DELAY false None k with Ret (Returned (true, _), k') => Some k' | _ => None end }.

Definition held_semaphore (k : kernel) : Prop := exists Q items, holds h 0 k Q items /\ uxLength Q = 1.

Lemma available_at k Q items : holds h 0 k Q items -> sem_available k = (0 <? zlen items).
Proof. intros []. cbn. rewrite h_queue0. by destruct (q_count _ _ h_rep0) as [-> _]. Qed.

Lemma give_held k : held_semaphore k -> held_semaphore (give k) /\ sem_available (give k) = true.
Proof.
  intros (Q & items & Hh & Hl). pose proof Hh as []. pose proof (q_count _ _ h_rep0) as [_ Hle]. pose proof (zlen_nonneg items). unfold give.
  destruct (Z.eq_dec (zlen items) 0) as [E | E].
  - destruct (send_section_room k h Q items h_kwf0 h_placed0 h_queue0 h_rep0 h_data0 h_set0 None queueSEND_TO_BACK 0 None) as (k' & Hr & Hb).
    { split_and!; [rewrite h_size0; lia | by left | cbn; lia]. }
    rewrite Hr. destruct (becomes_holds _ _ _ _ _ _ _ Hh Hb) as (Q' & Hh' & El).
    split; [exists Q', (post queueSEND_TO_BACK (stored Q None) items); split; [done | congruence] |].
    rewrite (available_at _ _ _ Hh'). unfold post. cbn. apply Z.ltb_lt. rewrite zlen_app, zlen_cons. pose proof (zlen_nonneg (@nil (list Z))). lia.
  - pose proof (send_section_full k h Q items h_queue0 h_rep0 None queueSEND_TO_BACK 0 None ltac:(lia) ltac:(done)) as Hr. cbn in Hr. rewrite Hr.
    split; [by exists Q, items |]. rewrite (available_at _ _ _ Hh). apply Z.ltb_lt. lia.
Qed.

Definition kernel_semaphore_laws (Hk0 : kwf k0) (Hp0 : placed k0) (Hf : fresh k0 h) : BinarySemaphoreLaws kernel.
Proof.
  refine {| sem_ok := held_semaphore |}.
  - cbn [sem_create kernel_semaphore].
    destruct (xQueueGenericCreate_run (fun _ => Some h) k0 h Hk0 Hp0 Hf 1 queueSEMAPHORE_QUEUE_ITEM_LENGTH) as (k & Hr & Hq & Hk & Hp & _); [lia | done |].
    rewrite Hr. apply give_held. exists (new_queue 1 0 0 false), []. split; [| done].
    split; try done; [rewrite Hq; apply lookup_insert_eq | by apply (new_semaphore_rep 1 0)].
  - intros k Hk. by apply give_held.
  - intros k (Q & items & Hh & Hl) Ha. rewrite (available_at _ _ _ Hh) in Ha. destruct items as [| b rest]; [done |]. pose proof Hh as [].
    destruct (receive_run k h Q b rest portMAX_DELAY None h_kwf0 h_placed0 h_queue0 h_rep0 h_data0) as (Q' & k' & Hr & Hr' & Hs & Hw).
    exists k'. cbn [sem_take kernel_semaphore]. rewrite Hr. split; [done |].
    pose proof (woken_becomes _ _ _ _ _ _ _ Hw Hr' Hs) as Hb.
    destruct (becomes_holds _ _ _ _ _ _ _ Hh Hb) as (Q2 & Hh' & El).
    split; [exists Q2, rest; split; [done | congruence] |]. rewrite (available_at _ _ _ Hh').
    destruct (q_count _ _ h_rep0) as [_ Hle]. rewrite zlen_cons in Hle. apply Z.ltb_ge. lia.
  - intros k (Q & items & Hh & Hl) Ha. rewrite (available_at _ _ _ Hh) in Ha. apply Z.ltb_ge in Ha.
    assert (items = []) as -> by (destruct items; [done |]; rewrite zlen_cons in Ha; pose proof (zlen_nonneg items); lia). pose proof Hh as [].
    destruct (receive_empty k h Q [] h_queue0 h_rep0 false portMAX_DELAY None eq_refl) as (t & Hr).
    cbn [sem_take kernel_semaphore]. by rewrite Hr.
Defined.
End semaphore.
