(* ===== verification/StartUp.v ===== *)
(** Start-up (src/ESP32/main/master.c) and the WiFi part of src/ESP32/main/tcp_perf.c:
    the order in which [app_main] brings the components up, the WiFi event
    handler on the kernel's event group, and the socket helpers.  Here the
    components are put together: what [app_main] leaves is a state from which
    the receive task, the buffers, the parser and the renderer play a stream. *)

From Stdlib Require Import String.
From S2P Require Import Prelude MsgQueue ByteSource Semaphore SpiRamFifo DataBuffer I2s AudioRender TcpPerf FreeRtosTasks FreeRtosEvents.

(** * The code *)

Inductive wifi_mode_t := WIFI_MODE_STA | WIFI_MODE_AP.
Inductive wifi_auth_mode_t := WIFI_AUTH_OPEN | WIFI_AUTH_WPA_WPA2_PSK.
(** The fields the program sets. *)
Inductive wifi_config_t :=
  | sta (ssid password : string)
  | ap (ssid : string) (ssid_len max_connection : Z) (password : string) (authmode : wifi_auth_mode_t).

(** The calls into the SDK whose effect is outside the program. *)
Inductive sdk_call :=
  | tcpip_adapter_init | esp_event_loop_init | esp_wifi_init
  | esp_wifi_set_mode (mode : wifi_mode_t) | esp_wifi_set_config (interface : wifi_mode_t) (config : wifi_config_t)
  | esp_wifi_start | esp_wifi_connect | xTaskCreate_listen_tcp_server | nvs_flash_init.

(** The variables of the program, by component, and the calls made. *)
Record speaker := mkSpeaker {
  audio : DataBuffer.state;
  renderer : render (Q := bounded);
  kern : kernel;
  tcp_event_group : option Z;
  calls : list sdk_call }.

Abbreviation M := (st speaker).

Definition on_audio (f : DataBuffer.state -> DataBuffer.state) : M unit :=
  modify (fun s => mkSpeaker (f (audio s)) (renderer s) (kern s) (tcp_event_group s) (calls s)).
Definition on_renderer {A} (m : st (render (Q := bounded)) A) : M A :=
  fun s => match m (renderer s) with
           | Ret (a, r) => Ret (a, mkSpeaker (audio s) r (kern s) (tcp_event_group s) (calls s))
           | Fault e => Fault e end.
Definition on_kernel {A} (m : K A) : M A :=
  fun s => match m (kern s) with
           | Ret (a, k) => Ret (a, mkSpeaker (audio s) (renderer s) k (tcp_event_group s) (calls s))
           | Fault e => Fault e end.
Definition set_event_group (g : option Z) : M unit :=
  modify (fun s => mkSpeaker (audio s) (renderer s) (kern s) g (calls s)).

Section start_up.
(** What the SDK returns, and the memory xEventGroupCreate gets. *)
Variables (sdk : sdk_call -> Z) (pvPortMalloc : option Z).

Definition call_sdk (c : sdk_call) : M Z :=
  modify (fun s => mkSpeaker (audio s) (renderer s) (kern s) (tcp_event_group s) (calls s ++ [c]));; mret (sdk c).
(** The device aborts on an error. *)
Definition ESP_ERROR_CHECK (m : M Z) : M unit := rc ← m; if rc =? ESP_OK then mret tt else throw AssertFailed.

Definition wifi_start (mode : wifi_mode_t) (config : wifi_config_t) : M unit :=
  g ← on_kernel (xEventGroupCreate pvPortMalloc);
  set_event_group g;;
  call_sdk tcpip_adapter_init;;
  ESP_ERROR_CHECK (call_sdk esp_event_loop_init);;
  ESP_ERROR_CHECK (call_sdk esp_wifi_init);;
  ESP_ERROR_CHECK (call_sdk (esp_wifi_set_mode mode));;
  ESP_ERROR_CHECK (call_sdk (esp_wifi_set_config mode config));;
  ESP_ERROR_CHECK (call_sdk esp_wifi_start).

Definition sta_config : wifi_config_t := sta "DCNA" "1000000000".
Definition wifi_init_sta : M unit := wifi_start WIFI_MODE_STA sta_config.

(** The name and the password come from the build's configuration. *)
Definition ap_config (EXAMPLE_DEFAULT_SSID EXAMPLE_DEFAULT_PWD : string) : wifi_config_t :=
  ap EXAMPLE_DEFAULT_SSID 0 1 EXAMPLE_DEFAULT_PWD
    (if Nat.eqb (String.length EXAMPLE_DEFAULT_PWD) 0 then WIFI_AUTH_OPEN else WIFI_AUTH_WPA_WPA2_PSK).
Definition wifi_init_softap (EXAMPLE_DEFAULT_SSID EXAMPLE_DEFAULT_PWD : string) : M unit :=
  wifi_start WIFI_MODE_AP (ap_config EXAMPLE_DEFAULT_SSID EXAMPLE_DEFAULT_PWD).

(** Up to the loop that prints the free memory; the result of xTaskCreate is
    not looked at. *)
Definition app_main : M unit :=
  on_audio init_data_buffer;;
  wifi_init_sta;;
  config ← on_renderer create_renderer_config;
  on_renderer (renderer_init config);;
  call_sdk xTaskCreate_listen_tcp_server;;
  mret tt.

(** The handler of the WiFi events, with what it returns. *)
Definition event_handler (event_id : system_event_id_t) : M Z :=
  let group := g ← gets tcp_event_group; need AssertFailed g in
  match event_id with
  | SYSTEM_EVENT_STA_START => call_sdk esp_wifi_connect;; mret ESP_OK
  | SYSTEM_EVENT_STA_DISCONNECTED =>
      call_sdk esp_wifi_connect;; g ← group; on_kernel (xEventGroupClearBits g WIFI_CONNECTED_BIT);; mret ESP_OK
  | SYSTEM_EVENT_STA_CONNECTED => mret ESP_OK
  | SYSTEM_EVENT_STA_GOT_IP => g ← group; on_kernel (xEventGroupSetBits g WIFI_CONNECTED_BIT);; mret ESP_OK
  | SYSTEM_EVENT_AP_STACONNECTED => g ← group; on_kernel (xEventGroupSetBits g WIFI_CONNECTED_BIT);; mret ESP_OK
  | SYSTEM_EVENT_AP_STADISCONNECTED => g ← group; on_kernel (xEventGroupClearBits g WIFI_CONNECTED_BIT);; mret ESP_OK
  | SYSTEM_EVENT_OTHER => mret ESP_OK
  end.
End start_up.

(** Not called by [app_main]: in the configuration with the byte FIFO.  [None]:
    it hangs because the memory test failed. *)
Definition init_hardware {S} `{!BinarySemaphore S} (ram : list Z) : option (fifo (S := S)) :=
  let '(f, ok) := spiRamFifoInit ram in if ok =? 0 then None else Some f.

(** ** Sockets *)

Section sockets.
(** getsockopt (socket, SOL_SOCKET, SO_ERROR): its value and the result stored;
    send: its value. *)
Variables (getsockopt : Z -> Z * Z) (send : Z -> list Z -> Z).

Definition ECONNRESET : Z := 104.

Definition send_ack (client : Z) : Z :=
  let buffer := [SEND_ACK; 0] in if negb (send client buffer =? zlen buffer) then 0 else 1.

Definition get_socket_error_code (socket : Z) : Z :=
  let '(err, result) := getsockopt socket in if err =? -1 then -1 else result.

Definition show_socket_error_reason (socket : Z) : Z := get_socket_error_code socket.

(** In the configuration of the server. *)
Definition check_working_socket (server_socket connect_socket : Z) : Z :=
  let ret := get_socket_error_code server_socket in
  if ret =? ECONNRESET then ret else
  let ret := get_socket_error_code connect_socket in
  if negb (ret =? 0) then ret else 0.
End sockets.

(** * The state after start-up *)

(** The event group [g] holds [b], nobody waits for it, and the core that
    handles events has nothing pending. *)
Record group_idle (g b : Z) (k : kernel) : Prop := {
  gi_kwf : kwf k;
  gi_placed : placed k;
  gi_group : groups k !! g = Some (mkEventGroup b);
  gi_bits : event_bits b;
  gi_waiters : klists k (xTasksWaitingForBits g) = [];
  gi_running : uxSchedulerSuspended k (xPortGetCoreID k) = 0;
  gi_ready : klists k (xPendingReadyList (xPortGetCoreID k)) = [];
  gi_ticks : uxPendedTicks k = 0 }.

Lemma set_wifi_bit g b k : group_idle g b k ->
  exists k', xEventGroupSetBits g WIFI_CONNECTED_BIT k = Ret (Z.lor b WIFI_CONNECTED_BIT, k') /\
    group_idle g (Z.lor b WIFI_CONNECTED_BIT) k' /\ tcbs k' = tcbs k.
Proof.
  intros []. assert (event_bits WIFI_CONNECTED_BIT) as H1 by (split; [discriminate | reflexivity]).
  destruct (set_bits_run k g b WIFI_CONNECTED_BIT (fun _ => rendezvous 1) 0 gi_kwf0 gi_placed0 gi_group0 gi_bits0 H1)
    as (k' & Hr & Hk & Hp & Hg & _ & Ht & Hl & _ & _ & Hc & _ & Hpt & Hs & _); try done.
  { intros t. rewrite gi_waiters0. by intros ?%elem_of_nil. }
  { unfold walks_alone. rewrite gi_waiters0. apply orb_true_r. }
  rewrite gi_waiters0 in *. exists k'. cbn [woken cleared foldr filter list_filter] in *.
  rewrite Z.ldiff_0_r in *. split; [done |]. split; [constructor; try done |].
  - by rewrite Hg, lookup_insert_eq.
  - by apply event_bits_lor.
  - by rewrite Hl, gi_waiters0.
  - by rewrite Hs, Hc.
  - by rewrite Hc, Hl, gi_ready0.
  - apply map_eq. intros t. apply Ht. by intros ?%elem_of_nil.
Qed.

Lemma clear_wifi_bit g b k : group_idle g b k ->
  exists k', xEventGroupClearBits g WIFI_CONNECTED_BIT k = Ret (b, k') /\
    group_idle g (Z.land b (Z.lnot WIFI_CONNECTED_BIT)) k' /\ tcbs k' = tcbs k.
Proof.
  intros []. eexists. split; [unfold xEventGroupClearBits; by erewrite run_bind by (by apply get_bits_run) |].
  split; [| done]. rewrite <- Z.ldiff_land. constructor; try done.
  - destruct gi_kwf0. by split.
  - cbn. apply lookup_insert_eq.
  - by apply event_bits_ldiff.
Qed.

(** One event: the handler on the kernel does what the handler on the bits does. *)
Definition with_kernel (k : kernel) (n : nat) (s : speaker) : speaker :=
  mkSpeaker (audio s) (renderer s) k (tcp_event_group s) (calls s ++ replicate n esp_wifi_connect).

Lemma event_handler_run sdk e s g b n : tcp_event_group s = Some g -> group_idle g b (kern s) ->
  let w := TcpPerf.event_handler (mkWifi b n) e in
  exists k' m, event_handler sdk e s = Ret (ESP_OK, with_kernel k' m s) /\ connects w = (n + m)%nat /\
    group_idle g (TcpPerf.tcp_event_group w) k' /\ tcbs k' = tcbs (kern s).
Proof.
  intros Hg Hi w. destruct s as [a r k eg cs]. cbn in Hg, Hi. subst eg.
  destruct (set_wifi_bit g b k Hi) as (k1 & E1 & H1 & T1). destruct (clear_wifi_bit g b k Hi) as (k2 & E2 & H2 & T2).
  destruct e; [exists k, 1%nat | exists k2, 1%nat | exists k, 0%nat | exists k1, 0%nat | exists k1, 0%nat | exists k2, 0%nat | exists k, 0%nat];
    (split; [| split; [cbn; lia | split; [assumption | assumption || reflexivity]]]);
    unfold event_handler, with_kernel, call_sdk, on_kernel, gets, need, modify, mbind, st_bind, mret, st_ret; cbn -[xEventGroupSetBits xEventGroupClearBits];
    rewrite ?E1, ?E2, ?app_nil_r; reflexivity.
Qed.

(** The WiFi event handler on the kernel: from an event group nobody waits
    for, every sequence of events runs without a fault, makes one connection
    attempt per start and per disconnection, leaves in the group the bits that
    the handler on plain bits computes (so the connected bit tells whether the
    last connection event announced a connection), and changes no task. *)
Theorem event_handler_refines sdk evs s g b : tcp_event_group s = Some g -> group_idle g b (kern s) ->
  let w := foldl TcpPerf.event_handler (mkWifi b 0) evs in
  exists k', for_each evs (fun e => event_handler sdk e;; mret tt) s = Ret (tt, with_kernel k' (attempts evs) s) /\
    group_idle g (TcpPerf.tcp_event_group w) k' /\ tcbs k' = tcbs (kern s) /\
    connects w = attempts evs /\
    Z.testbit (TcpPerf.tcp_event_group w) 0 = connected_after evs (Z.testbit b 0).
Proof.
  intros Hg Hi w. destruct (event_handler_spec evs (mkWifi b 0)) as (Hbit & _ & Hc). cbn in Hbit, Hc.
  assert (forall n, let w := foldl TcpPerf.event_handler (mkWifi b n) evs in
    exists k' m, for_each evs (fun e => event_handler sdk e;; mret tt) s = Ret (tt, with_kernel k' m s) /\ connects w = (n + m)%nat /\
      group_idle g (TcpPerf.tcp_event_group w) k' /\ tcbs k' = tcbs (kern s)) as H.
  { clear Hbit Hc w. revert s b Hg Hi. induction evs as [| e evs IH]; intros s b Hg Hi n.
    - exists (kern s), 0%nat. unfold with_kernel. cbn. rewrite app_nil_r. destruct s. split_and!; done || lia.
    - destruct (event_handler_run sdk e s g b n Hg Hi) as (k1 & m1 & E1 & C1 & H1 & T1). cbn [foldl for_each].
      destruct (TcpPerf.event_handler (mkWifi b n) e) as [b1 n1]. cbn in C1, H1. subst n1.
      destruct (IH (with_kernel k1 m1 s) b1 Hg H1 (n + m1)%nat) as (k2 & m2 & E2 & C2 & H2 & T2).
      exists k2, (m1 + m2)%nat. rewrite run_assoc. erewrite run_bind by exact E1. cbn [mbind st_bind mret st_ret].
      split_and!; [| lia | done | by rewrite T2].
      etrans; [exact E2 |]. unfold with_kernel. cbn. by rewrite replicate_add, app_assoc. }
  destruct (H 0%nat) as (k' & m & E & C & Hk & Ht). exists k'. rewrite Hc in C. cbn in C. subst m. split_and!; done.
Qed.

(** ** [app_main] *)

Definition wifi_calls (mode : wifi_mode_t) (config : wifi_config_t) : list sdk_call :=
  [esp_event_loop_init; esp_wifi_init; esp_wifi_set_mode mode; esp_wifi_set_config mode config; esp_wifi_start].

Lemma checked_call sdk c s :
  ESP_ERROR_CHECK (call_sdk sdk c) s =
    if sdk c =? ESP_OK then Ret (tt, mkSpeaker (audio s) (renderer s) (kern s) (tcp_event_group s) (calls s ++ [c]))
    else Fault AssertFailed.
Proof. unfold ESP_ERROR_CHECK, call_sdk, modify, mbind, st_bind, mret, st_ret. by destruct (sdk c =? ESP_OK). Qed.

(** The kernel in which the group is created: the address is new. *)
Record group_fresh (g : Z) (k : kernel) : Prop := {
  gf_kwf : kwf k;
  gf_placed : placed k;
  gf_waiters : klists k (xTasksWaitingForBits g) = [];
  gf_running : uxSchedulerSuspended k (xPortGetCoreID k) = 0;
  gf_ready : klists k (xPendingReadyList (xPortGetCoreID k)) = [];
  gf_ticks : uxPendedTicks k = 0 }.

Lemma create_group_run g k : group_fresh g k ->
  exists k', xEventGroupCreate (Some g) k = Ret (Some g, k') /\ group_idle g 0 k'.
Proof.
  intros [Hk Hp Hw Hs Hr Ht]. eexists. split; [reflexivity |].
  assert (forall m, <[xTasksWaitingForBits g := []]> (klists k) m = klists k m) as Hl.
  { intros m. destruct (decide (m = xTasksWaitingForBits g)) as [-> | Hne]; [by rewrite fn_lookup_insert | by rewrite fn_lookup_insert_ne]. }
  constructor; cbn; try done.
  - destruct Hk. split; cbn; try done; intros; rewrite Hl; done.
  - apply lookup_insert_eq.
  - by rewrite Hl.
Qed.

(** At power-on: no component is initialised. *)
Definition power_on (irqs : list (list (Z * Z))) (r0 : Z -> field -> Z) (k : kernel) : speaker :=
  mkSpeaker static_state (mkRender None UNINITIALIZED (reset_drv r0) irqs) k None [].

Lemma wifi_start_run sdk g mode config s : group_fresh g (kern s) ->
  exists k', group_idle g 0 k' /\
  wifi_start sdk (Some g) mode config s =
    if forallb (fun c => sdk c =? ESP_OK) (wifi_calls mode config)
    then Ret (tt, mkSpeaker (audio s) (renderer s) k' (Some g) (calls s ++ tcpip_adapter_init :: wifi_calls mode config))
    else Fault AssertFailed.
Proof.
  intros Hf. destruct (create_group_run g (kern s) Hf) as (k' & E & Hi). exists k'. split; [done |]. unfold wifi_start.
  rewrite (run_bind _ _ s (Some g) (mkSpeaker (audio s) (renderer s) k' (tcp_event_group s) (calls s)))
    by (unfold on_kernel; by rewrite E).
  erewrite run_bind by reflexivity. erewrite run_bind by reflexivity.
  cbn [wifi_calls forallb]. unfold mbind, st_bind.
  repeat (rewrite checked_call; destruct (sdk _ =? ESP_OK); cbn [andb]; [| reflexivity]).
  cbn. by rewrite <- !app_assoc.
Qed.

Definition start_renderer : st (render (Q := bounded)) unit := c ← create_renderer_config; renderer_init c.

Lemma boot_renderer_eq irqs r0 : boot_renderer irqs r0 = start_renderer (mkRender None UNINITIALIZED (reset_drv r0) irqs).
Proof. unfold boot_renderer, start_renderer. reflexivity. Qed.

Lemma on_renderer_bind {A B} (m : st (render (Q := bounded)) A) (f : A -> st (render (Q := bounded)) unit) (rest : M B) s :
  (c ← on_renderer m; on_renderer (f c);; rest) s =
  match (m ≫= f) (renderer s) with
  | Ret (_, r) => rest (mkSpeaker (audio s) r (kern s) (tcp_event_group s) (calls s))
  | Fault e => Fault e
  end.
Proof.
  unfold mbind, st_bind, on_renderer. destruct (m (renderer s)) as [[c r1] |]; [| done]. cbn.
  by destruct (f c r1) as [[[] r2] |].
Qed.

Lemma app_main_run sdk g s : group_fresh g (kern s) ->
  exists k', group_idle g 0 k' /\
  app_main sdk (Some g) s =
    if forallb (fun c => sdk c =? ESP_OK) (wifi_calls WIFI_MODE_STA sta_config)
    then match start_renderer (renderer s) with
         | Ret (_, r) => Ret (tt, mkSpeaker (init_data_buffer (audio s)) r k' (Some g)
             ((calls s ++ tcpip_adapter_init :: wifi_calls WIFI_MODE_STA sta_config) ++ [xTaskCreate_listen_tcp_server]))
         | Fault e => Fault e
         end
    else Fault AssertFailed.
Proof.
  intros Hf. destruct s as [a rd k eg cs]. cbn [kern] in Hf. unfold app_main. erewrite run_bind by reflexivity.
  destruct (wifi_start_run sdk g WIFI_MODE_STA sta_config (mkSpeaker (init_data_buffer a) rd k eg cs) Hf) as (k' & Hi & E).
  exists k'. split; [done |]. cbn [audio renderer kern tcp_event_group calls] in *. destruct (forallb _ _).
  - erewrite run_bind by exact E. rewrite (on_renderer_bind create_renderer_config renderer_init).
    cbn [audio renderer kern tcp_event_group calls]. change (create_renderer_config ≫= renderer_init) with start_renderer. destruct (start_renderer rd) as [[[] r] |]; [| done].
    unfold call_sdk. rewrite run_assoc. by erewrite run_bind by reflexivity.
  - by apply run_bind_fault.
Qed.

(** Start-up: when the calls into the SDK succeed, [app_main] brings the
    components up in an order in which each finds the ones it needs: the buffers
    empty and unprepared, the event group created, empty and without waiters
    before the handler that uses it is registered, the WiFi driver started as a
    station, the renderer running, and only then the server task; if one of the
    checked calls fails, or there is no memory for the event group, the device
    aborts before there is a server. *)
Theorem app_main_spec sdk g irqs r0 k : group_fresh g k ->
  let cs := wifi_calls WIFI_MODE_STA sta_config in
  ((forall c, c ∈ cs -> sdk c = ESP_OK) ->
   exists k' r, app_main sdk (Some g) (power_on irqs r0 k)
     = Ret (tt, mkSpeaker boot_state r k' (Some g) (tcpip_adapter_init :: cs ++ [xTaskCreate_listen_tcp_server])) /\
     group_idle g 0 k' /\ boot_renderer irqs r0 = Ret (tt, r)) /\
  ((exists c, c ∈ cs /\ sdk c <> ESP_OK) -> app_main sdk (Some g) (power_on irqs r0 k) = Fault AssertFailed) /\
  app_main sdk None (power_on irqs r0 k) = Fault NullPointer.
Proof.
  intros Hf cs. destruct (app_main_run sdk g (power_on irqs r0 k) Hf) as (k' & Hi & E). fold cs in E.
  split_and!.
  - intros Hok. rewrite (proj2 (forallb_forall _ _)) in E by (intros c Hc; apply list_elem_of_In in Hc; by rewrite Hok).
    destruct (boot_runs irqs r0) as (r & Eb & _). rewrite boot_renderer_eq in *.
    cbn [power_on audio renderer kern calls app] in E. rewrite Eb in E. exists k', r. split; [exact E | split; [exact Hi | exact Eb]].
  - intros (c & Hc & Hne). rewrite E. destruct (forallb _ cs) eqn:Ea; [| done].
    exfalso. rewrite forallb_forall in Ea. apply list_elem_of_In, Ea in Hc. by apply Hne, Z.eqb_eq.
  - unfold app_main. erewrite run_bind by reflexivity. by apply run_bind_fault, run_bind_fault.
Qed.

(** * From the network to the DAC *)


(** ** Sockets *)

(** In the server's configuration an error of the listening socket is reported
    only when it is a reset. *)
Lemma check_working_socket_spec getsockopt server connect :
  let err := get_socket_error_code getsockopt in
  (check_working_socket getsockopt server connect = 0 <-> err server <> ECONNRESET /\ err connect = 0) /\
  (err server <> ECONNRESET -> check_working_socket getsockopt server connect = err connect).
Proof.
  intros err. unfold check_working_socket. fold err. destruct (Z.eqb_spec (err server) ECONNRESET) as [-> | Hne].
  - split; [split; [discriminate | by intros []] | done].
  - destruct (Z.eqb_spec (err connect) 0) as [-> | Hc]; cbn; split; tauto.
Qed.

(** * Witnesses *)

#[local] Existing Instance roomy.

Lemma demo_fresh : group_fresh 3 (two_tasks 0 ∅ ∅).
Proof. constructor; [apply two_tasks_kwf | apply two_tasks_placed | done..]. Qed.

Definition demo_sdk : sdk_call -> Z := fun _ => ESP_OK.

Lemma app_main_spec_witness : exists k r,
  app_main demo_sdk (Some 3) (power_on [] any_regs (two_tasks 0 ∅ ∅))
  = Ret (tt, mkSpeaker boot_state r k (Some 3)
      (tcpip_adapter_init :: wifi_calls WIFI_MODE_STA sta_config ++ [xTaskCreate_listen_tcp_server])).
Proof.
  destruct (app_main_spec demo_sdk 3 [] any_regs (two_tasks 0 ∅ ∅) demo_fresh) as [H _].
  destruct H as (k & r & E & _); [reflexivity | exists k, r; exact E].
Defined.

Lemma demo_idle : group_idle 3 0 (two_tasks 0 ∅ {[3 := mkEventGroup 0]}).
Proof. constructor; [apply two_tasks_kwf | apply two_tasks_placed | done..]. Qed.

Lemma event_handler_refines_witness : exists k,
  let s := mkSpeaker boot_state (mkRender None UNINITIALIZED (reset_drv any_regs) []) (two_tasks 0 ∅ {[3 := mkEventGroup 0]}) (Some 3) [] in
  for_each [SYSTEM_EVENT_STA_START; SYSTEM_EVENT_STA_GOT_IP] (fun e => event_handler demo_sdk e;; mret tt) s
  = Ret (tt, with_kernel k 1 s) /\ groups k !! 3 = Some (mkEventGroup 1).
Proof.
  destruct (event_handler_refines demo_sdk [SYSTEM_EVENT_STA_START; SYSTEM_EVENT_STA_GOT_IP]
    (mkSpeaker boot_state (mkRender None UNINITIALIZED (reset_drv any_regs) []) (two_tasks 0 ∅ {[3 := mkEventGroup 0]}) (Some 3) [])
    3 0 eq_refl demo_idle) as (k & E & [_ _ Hg _ _ _ _ _] & _).
  exists k. split; [exact E | exact Hg].
Defined.

(** Fifteen packets of one chunk each fill three buffers. *)
Definition demo_packet : packet := Data (replicate 1016 7).
Definition demo_stream : list packet := replicate 15 demo_packet.
Definition demo_chunks : list (list Z) := replicate 15 (encode demo_packet).
Definition demo_served : list (list (Z * Z)) := replicate 4000 [(4096, 1)].

Lemma demo_chunks_stream : mjoin demo_chunks = encodes demo_stream.
Proof. unfold encodes, demo_stream, demo_chunks. by rewrite fmap_replicate. Qed.

Lemma zlen_mjoin_replicate (l : list Z) n : zlen (mjoin (replicate n l)) = Z.of_nat n * zlen l.
Proof.
  induction n as [| n IH]; [done |]. change (mjoin (replicate (S n) l)) with (l ++ mjoin (replicate n l)).
  rewrite zlen_app, IH. lia.
Qed.

Lemma served_replicate n : served (replicate n [(4096, 1)]) = Z.of_nat n.
Proof. induction n as [| n IH]; [done |]. cbn [replicate]. rewrite served_cons, IH, bool_decide_false by done. lia. Qed.

